(* ===== verification/_CoqProject ===== *)
-Q . S2P
Config.v
Prelude.v
Strings.v
Memory.v
Format.v
Process.v
KState.v
Samples.v
Threads.v
Sched.v
Ipc.v
Heap.v
Files.v
Descriptors.v
Dispatch.v
TaskSwitch.v
Running.v
Sockets.v
Connections.v
Ata.v
Fat.v
FatFiles.v
FatSave.v
Paging.v
AddressSpace.v
Net.v
NetProto.v
Tty.v
Console.v
Graphics.v
Display.v
