(* ===== verification/Config.v ===== *)
(** * Gramado kernel: a verification development

    Gramado is a hobby operating system for the x86_64 whose kernel (src/kernel)
    is written in C.  This library models the parts of the kernel that hold its
    logic, from the thread state machine to the network protocols, and proves
    what makes them correct, or shows where they are not.

    ** The program and the files that model it

    Microkernel (src/kernel/core/ke/intake):
    - Process       process.c: the process table and the current process.
    - KState        thread.h, ipc.h, sched.h and the globals that the modules of
                    the microkernel share, as the record [kst].
    - Threads       sched/schedi.c, tlib.c, thread.c: the states of a thread.
    - Sched         sched/sched.c, sched/schedq.c: the construction of a round of
                    threads and the scheduling system calls.
    - Ipc           ipc.c: the ring of messages of each thread.
    - Dispatch      disp/x86_64/x64cont.c, disp/dispatch.c, disp/spawn.c.
    - TaskSwitch    disp/ts.c with gramk/evi/callback.c: the tick of the timer.
    - Running       the composition of the five files before it as a transition
                    system (ticks, requests, messages, services).
    Memory (src/kernel/res/mm):
    - Heap          mm.c and the allocators of libk/kstdlib.c.
    - Paging        x86_64/x64mm.c, x86_64/paging.c, mmft.c, mmsize.c, slab.c.
    - AddressSpace  mmpool.c and the steps of clone.c and process.c that build
                    the tables of a clone.
    Library (src/kernel/libk):
    - Strings       kstring.c and kctype.c.
    - Memory        the words of 16, 32 and 64 bits of the byte memory.
    - Format        k_atoi and the formatters behind printk and ksprintf.
    Files and devices (src/kernel/res/fs, src/kernel/res/dev):
    - Files         struct file_d, fslib.c (buffers), kstdio.c.
    - Descriptors   fslib.c (read and write), fs.c (services), pipe.c.
    - Ata           dev/blkdev/ata: the PIO driver, over any device that follows
                    the protocol (the classes [AtaBus] and [AtaDevice]).
    - Fat           disk_r.c, disk_w.c, fat16.c, search.c, [fs_fntos].
    - FatFiles      fsload.c, fsbp.c and the saving routines of fslib.c.
    - FatSave       proofs on saving, then loading.
    Network (src/kernel/res/net, src/kernel/res/dev/netdev/e1000):
    - Sockets       socket.c and sockint.c: local sockets.
    - Connections   proofs on clients that meet a server.
    - Net           net.c, inet.c, the files of prot and the data path of the
                    e1000 driver.
    - NetProto      proofs on the frames that are sent and received.
    Terminals (src/kernel/res/dev):
    - Tty           chardev/tty/tty.c, pty.c and dev.c: the queues and the
                    requests of the terminals, and the list of the devices.
    - Console       chardev/console/console.c: the virtual consoles, their
                    cursors and the escape sequences; printk and its buffer.
    Display (src/kernel/gramk/gdi, the display driver of dev/chardev):
    - Graphics      rectangles, characters, lines and the copies from the back
                    buffer to the frame buffer, on the byte memory.
    - Display       the calls of Console drawn by Graphics.
    Shared: this file holds the constants of the headers, [Prelude] the integers,
    the monad, the loops, the record updates and the tactics, [Samples] the
    states on which the theorems are instantiated.

    ** How the model corresponds to the code

    A routine of the kernel is a function of the state monad [M S] of [Prelude]
    with the name it has in C; its outcome is [Done] (it returned), [Panic] (it
    called panic, x_panic, die or keDie), [Undef] (a pointer that designates
    nothing is followed, or a table is left), [Leave] (it ended in an iretq) or
    [OutOfFuel].  The conditions and the early returns of the code are the tests
    of the definition, in the same order; a goto is the branch it leads to.
    Signed and unsigned integers are kept at their width by [u8] ... [i64].
    A pointer to a kernel structure is its address; the structures of a kind lie
    in a finite map from addresses, so that two lists may share one of them.
    Pointers to bytes are addresses of a memory [Z -> Z], where buffers, names,
    page tables, sectors and frames overlap or alias as they do in the kernel.
    What is printed is left out, except where it is the result (Format, Console:
    the calls on the display are the list [display] of the state, which Display
    executes).  [__scheduler_rr] reads a local before anything is stored in it:
    its content is the parameter [tmp0] of [scheduler] and of the task switch, and
    the theorems quantify over it ([Sched.stray] is what the call made through
    it does).

    ** How the parts interact

    A timer interrupt enters [psTaskSwitch]: it saves the context of the current
    thread, accounts for the tick and either gives the processor back or picks
    the next thread of the round; at the end of a round the idle thread calls
    [scheduler], which builds the next one.  Messages make their receiver READY
    and raise its priority (Ipc on Threads).  Running quantifies over all
    interleavings of these steps.  Descriptors reaches files, pipes and sockets
    through the list of objects of a process; Sockets allocates its structures
    with the heap of Heap; FatFiles drives Fat, which drives Ata through the
    interface [AtaDevice], so that the theorems on files hold for every disk
    that follows the protocol.  AddressSpace works on the tables that Paging
    set up.  Net posts to the display server through Ipc and keeps its frames in
    the memory of Strings.

    ** What the theorems show

    - Scheduling: at most one thread is RUNNING, the current one, in its own
      address space (Running.processor_isolation); a round holds exactly the
      runnable threads, whatever the uninitialized local holds
      (Sched.scheduler_round), with the accounts of their roles, and a sleeping
      thread from its time on; with the event responder in use and no event
      pending every thread of a round gets the processor after the slices before
      it, with its context (TaskSwitch.round_robin), and the selection of the next
      thread ends, with the responder when it has an event; a context is restored
      register by register (Dispatch.context_roundtrip); the requests on threads implement a map from identifiers to valid threads.
    - Messages, sockets, streams, backlogs: each ring implements its queue or
      mailbox, for every script of operations.
    - Memory: areas of the heap never overlap; the tables built at boot
      translate and protect all 48-bit addresses as the map of the memory says;
      a clone has its image at 0x200000 and the kernel elsewhere.
    - Files: a file that is saved is loaded back, byte by byte, also by another
      machine with the same disk; searches and sectors are exact.
    - Network: the whole DHCP dialogue, the answers to ARP and gprot requests as
      frames on the wire, the checksum of the IP headers.
    - Terminals: whatever is written to the consoles, no character is drawn
      outside of the screen and no panic is reached, for printks that fit into
      their buffer and requests on the file of the console; drawing it changes
      the video memory only (Display.console_stays_in_video); a rectangle is
      painted exactly (Graphics.rectangle_painted); a terminal is a queue that
      carries 1024 bytes in its life; the list of devices is a directory.
    - Text: the formatters expand a format item by item; tokens are the maximal
      runs of non-delimiters; conversions are inverse to each other.
    - Flaws: where the code does not do what it means to, a theorem says what it
      does (a poll of an empty queue that loses its next client or packet, the
      overrun of the heap and of a load buffer, the panics that a frame or a
      request provokes, the address that any DHCP acknowledgement replaces).

    ** Bounds and fuel

    Bounded for loops run over [range], without fuel.  The loops that the code
    leaves unbounded take fuel, and a theorem gives an amount that is enough:
    the length of the string plus one (Strings); two turns of the round
    (TaskSwitch.selection_ends); the length of the cluster chain (FatFiles); the
    number of reads after which the drive is ready, a law of [AtaDevice]; the
    number of reads after which the network adapter reports a frame as sent
    (the hypothesis [answers] of NetProto); two, for a text whose answer is itself
    written to the console (Console.console_on_screen).  A loop that does not end in the
    code ends in [OutOfFuel] for every fuel, and a theorem says so where that
    happens.

    ** Not modelled

    - The boot loader, the entry of the kernel and the one-shot initialization
      of core/kmain: assembly and a sequence of hardware set-ups.
    - The hardware abstraction (CPU, APIC, ACPI, SMP, timers), PCI, USB, AHCI and
      the reset of the network adapters: port and register accesses whose
      meaning is that of the device.
    - The windows and the server part of gramk (wm, the compositor) and the
      bitmaps: Graphics has the primitives that the consoles and the kernel use.
    - The table of system calls: the services behind it are in their files.
    - The loading of program images in a clone, the copies of the structures of
      the process and the thread, and the termination of a process.
    - core/deps, core/gdeps, src/outside and the user-space programs: third-party
      code, libraries of ring 3 and older copies of the same sources. *)
From Stdlib Require Import ZArith.
#[local] Open Scope Z_scope.

(** ** libk/ktypes.h, libk/kstddef.h, libk/kerrno.h, core/kmain/klimits2.h *)
Definition TRUE : Z := 1.
Definition FALSE : Z := 0.
Definition NULL : Z := 0.
Definition EOF : Z := -1.
Definition EBADF : Z := 9.
Definition EINVAL : Z := 22.
Definition EPERM : Z := 1.
Definition ENOSYS : Z := 40.
Definition ENOTSOCK : Z := 88.
(** GRAMADO_FOPEN_MAX: both [NUMBER_OF_FILES] and [OPEN_MAX]. *)
Definition NUMBER_OF_FILES : Z := 32.
Definition OPEN_MAX : Z := 32.
Definition BUFSIZ : Z := 1024.

(** ** libk/kstdio.h, libk/kunistd.h, core/kmain/kobject.h, res/mm/x64gva.h *)
Definition __SRD : Z := 4.
Definition __SWR : Z := 8.
Definition _IOERR : Z := 32.
Definition SEEK_SET : Z := 0.
Definition SEEK_CUR : Z := 1.
Definition SEEK_END : Z := 2.
Definition GRAMADO_SEEK_CLEAR : Z := 1000.
Definition ACTION_NULL : Z := 0.
(** libk/kfcntl.h: the commands of [fcntl] are 0 (F_DUPFD) to 8. *)
Definition F_FREESP : Z := 8.
Definition SYNC_REQUEST_SET_ACTION : Z := 1.
Definition SYNC_REQUEST_GET_ACTION : Z := 2.
Definition SYNC_REQUEST_RESET_WR : Z := 216.
Definition SYNC_REQUEST_RESET_RD : Z := 217.
Definition SYNC_COUNT_MAX : Z := 1024.
Definition STDIN_FILENO : Z := 0.
Definition STDOUT_FILENO : Z := 1.
Definition STDERR_FILENO : Z := 2.
Definition ObjectTypeFile : Z := 2.
Definition ObjectTypePipe : Z := 3.
Definition ObjectTypeFileSystem : Z := 4.
Definition ObjectTypePTMX : Z := 13.
Definition ObjectTypeTTY : Z := 14.
Definition ObjectTypePTY : Z := 15.
Definition ObjectTypeVirtualConsole : Z := 16.
Definition ObjectTypeNIC : Z := 19.
Definition ObjectTypeSocket : Z := 45.
Definition ObjectTypeIoBuffer : Z := 59.
Definition CONTROLTHREAD_BASE : Z := 2097152.     (* 0x00200000 *)

(** ** core/ke/intake/{thread,process,ipc}.h *)
Definition SYSTEM_THRESHOLD_TID : Z := 0.
Definition INIT_TID : Z := SYSTEM_THRESHOLD_TID.
Definition KERNEL_MESSAGE_TID : Z := 99.
Definition THREAD_COUNT_MAX : Z := 1024.
Definition PROCESS_COUNT_MAX : Z := 1024.
Definition MSG_QUEUE_MAX : Z := 64.
Definition RING3 : Z := 3.
(** Process states: the two that the modelled code writes or reads. *)
Definition PROCESS_BLOCKED : Z := 3.

(** ** core/ke/intake/quantum.h (CONFIG_QUANTUM_MULTIPLIER = 1), prio.h *)
Definition CONFIG_QUANTUM_MULTIPLIER : Z := 1.
Definition QUANTUM_Q (n : Z) : Z := CONFIG_QUANTUM_MULTIPLIER * n.
Definition QUANTUM_MIN : Z := QUANTUM_Q 1.
Definition QUANTUM_MAX : Z := QUANTUM_Q 6.
Definition QUANTUM_NORMAL_THRESHOLD : Z := QUANTUM_Q 1.
Definition QUANTUM_NORMAL_TIME_CRITICAL : Z := QUANTUM_Q 3.
Definition QUANTUM_SYSTEM_TIME_CRITICAL : Z := QUANTUM_Q 6.
Definition PRIORITY_MIN : Z := 1.
Definition PRIORITY_MAX : Z := 6.
Definition PRIORITY_SYSTEM_THRESHOLD : Z := 4.

(** ** core/ke/intake/sched/{sched,schedq}.h, disp/dispatch.h, kmain/state.h *)
Definition LOCKED : Z := 0.
Definition UNLOCKED : Z := 1.
Definition SCHED_POLICY_RR : Z := 0.
Definition SCHED_POLICY_QUEUES : Z := 1.
Definition SCHED_DEFAULT_QUEUE : Z := 0.
Definition SCHED_P1_QUEUE : Z := 1.
Definition SCHED_P2_QUEUE : Z := 2.
Definition SCHED_P3_QUEUE : Z := 3.
Definition SCHED_P4_QUEUE : Z := 4.
Definition SCHED_P5_QUEUE : Z := 5.
Definition SCHED_P6_QUEUE : Z := 6.
Definition SCHEQ_QUEUE_COUNT_MAX : Z := 7.
Definition SELECT_IDLE_COUNT : Z := 1.
Definition SELECT_INITIALIZED_COUNT : Z := 2.
Definition SELECT_NEXT_COUNT : Z := 3.
Definition SELECT_CURRENT_COUNT : Z := 4.
Definition SELECT_ANY_COUNT : Z := 5.
Definition SELECT_IDEAL_COUNT : Z := 6.
Definition SELECT_DISPATCHER_COUNT : Z := 7.
Definition DISPATCHER_CURRENT : Z := 1.
Definition SYSTEM_SCHEDULING : Z := 3.
Definition SYSTEM_RUNNING : Z := 4.
(** ke/hal/jiffies.h, pit.h: DEFAULT_PIT_FREQ = JIFFY_FREQ = DEFAULT_JIFFY_FREQ *)
Definition DEFAULT_PIT_FREQ : Z := 1000.

(** ** core/ke/intake/msgcode.h *)
Definition MSG_KEYDOWN : Z := 20.
Definition MSG_KEYUP : Z := 21.
Definition MSG_SYSKEYDOWN : Z := 22.
Definition MSG_SYSKEYUP : Z := 23.
Definition MSG_MOUSEMOVE : Z := 32.
Definition MSG_MOUSEPRESSED : Z := 35.
Definition MSG_MOUSERELEASED : Z := 36.
Definition MSG_TIMER : Z := 53.
Definition MSG_NOTIFY_PARENT : Z := 4000.

(** ** res/net/socklib.h *)
Definition GRAMADO_PORT_WS : Z := 11.
Definition GRAMADO_PORT_NS : Z := 14.
Definition GRAMADO_PORT_FS : Z := 16.
Definition GRAMADO_PORT_MAX : Z := 32.
Definition PORTS_WS : Z := 4040.
Definition PORTS_NS : Z := 4041.
Definition AF_UNIX : Z := 1.
Definition AF_INET : Z := 2.
Definition AF_GRAMADO : Z := 8000.
Definition SOCK_STREAM : Z := 1.
Definition SOCK_DGRAM : Z := 2.
Definition SOCK_RAW : Z := 3.
Definition SS_UNCONNECTED : Z := 1.
Definition SS_CONNECTING : Z := 2.
Definition SS_CONNECTED : Z := 3.

(** ** res/mm: x64gva.h, mmblock.h, heap.h, x64mm.h, mmglobal.h *)
Definition KERNEL_HEAP_START : Z := 806354944.    (* 0x30100000 *)
Definition KERNEL_HEAP_END : Z := 807206912.      (* 0x301D0000 *)
Definition KERNEL_STACK_END : Z := 807272448.     (* 0x301E0000 *)
Definition KERNEL_STACK_START : Z := 807403504.   (* 0x301FFFF0 *)
Definition MMBLOCK_COUNT_MAX : Z := 8192.
Definition HEAP_COUNT_MAX : Z := 8.
Definition PAGE_COUNT_MAX : Z := 512.
Definition PAGE_SIZE : Z := 4096.

(** ** res/dev/chardev/tty/tty.h, libk/ktermios.h, libk/kttydef.h, libk/kioctls.h, res/dev/dev.h *)
Definition TTY_BUF_SIZE : Z := 1024.
Definition TTY_NAME_SIZE : Z := 64.
Definition TTY_TYPE_CONSOLE : Z := 1000.
Definition TTY_TYPE_PTY : Z := 2000.
Definition TTY_SUBTYPE_CONSOLE_MASTER : Z := 100.
Definition TTY_SUBTYPE_PTY_MASTER : Z := 300.
Definition TTY_SUBTYPE_PTY_SLAVE : Z := 400.
Definition TTY_OPERATION_MODE_USING_FILE : Z := 1000.
Definition TTYQUEUE_OPERATION_MODE_CHAR : Z := 300.
Definition NCCS : Z := 20.
Definition VEOF : Z := 0.
Definition VERASE : Z := 2.
Definition VINTR : Z := 3.
Definition VKILL : Z := 4.
Definition VQUIT : Z := 6.
Definition VSUSP : Z := 8.
Definition CEOF : Z := 4.
Definition CERASE : Z := 127.
Definition CINTR : Z := 3.
Definition CKILL : Z := 21.
Definition CQUIT : Z := 28.
Definition CSUSP : Z := 26.
(** BRKINT | ICRNL | IXON, CREAD | CS8, ECHO | ECHOE | ECHOK | ICANON | ISIG *)
Definition TTY_IFLAG : Z := 515.
Definition OPOST : Z := 1.
Definition TTY_CFLAG : Z := 14.
Definition ECHO : Z := 1.
Definition TTY_LFLAG : Z := 87.
Definition B9600 : Z := 53248.
Definition TCSANOW : Z := 1.
Definition TCIFLUSH : Z := 1.
Definition TCOFLUSH : Z := 2.
Definition TCIOFLUSH : Z := 3.
Definition TCGETS : Z := 21505.
Definition TCSETS : Z := 21506.
Definition TCGETA : Z := 21509.
Definition TCSETA : Z := 21510.
Definition TCFLSH : Z := 21515.
Definition TIOCCONS : Z := 21533.
Definition EBUSY : Z := 16.
Definition ENOTTY : Z := 25.
Definition DEVICE_CLASS_CHAR : Z := 1.
Definition DEVICE_TYPE_LEGACY : Z := 2.
Definition DEVICE_NAME_SIZE : Z := 64.
Definition DEVICE_LIST_MAX : Z := 512.
Definition COLOR_WHITE : Z := 16777215.
Definition COLOR_BLACK : Z := 0.
Definition COLOR_BLUE : Z := 255.
Definition COLOR_YELLOW : Z := 16776960.
Definition COLOR_ORANGE : Z := 16753920.
Definition COLOR_RED : Z := 16711680.

(** res/mm/x86_64/x64gva.h: the two buffers of the screen. *)
Definition FRONTBUFFER_VA : Z := 0x30200000.
Definition BACKBUFFER_VA : Z := 0x30400000.
