(* ===== verification/Prelude.v ===== *)
(** * Prelude: machine integers, kernel computations, loops and record updates

    Shared by every component: wrap-around functions for the C integer types,
    the outcome monad in which every kernel routine is written (a routine may
    return, panic, hit undefined behaviour, leave by an [iretq], or run out of
    the fuel given to a [goto] loop), its weakest-precondition rules, the
    bounded [for] loops, a record-update notation, and generic lemmas on lists
    and finite maps. *)
From Stdlib Require Import ZArith Lia.
From stdpp Require Import base gmap list strings.
From S2P Require Import Config.

#[local] Open Scope Z_scope.

(** ** Machine integers *)

(** Unsigned types: the representative in [0, 2^w). *)
Definition u8 (x : Z) : Z := x mod 2 ^ 8.
Definition u16 (x : Z) : Z := x mod 2 ^ 16.
Definition u32 (x : Z) : Z := x mod 2 ^ 32.
Definition u64 (x : Z) : Z := x mod 2 ^ 64.
(** Signed types (two's complement): the representative in [-2^(w-1), 2^(w-1)). *)
Definition i8 (x : Z) : Z := (x + 2 ^ 7) mod 2 ^ 8 - 2 ^ 7.
Definition i32 (x : Z) : Z := (x + 2 ^ 31) mod 2 ^ 32 - 2 ^ 31.
Definition i64 (x : Z) : Z := (x + 2 ^ 63) mod 2 ^ 64 - 2 ^ 63.

Lemma u64_id x : 0 <= x < 2 ^ 64 -> u64 x = x.
Proof. intros; unfold u64; by apply Z.mod_small. Qed.

Lemma u64_range x : 0 <= u64 x < 2 ^ 64.
Proof. unfold u64; apply Z.mod_pos_bound; lia. Qed.

Lemma u32_id x : 0 <= x < 2 ^ 32 -> u32 x = x.
Proof. intros; unfold u32; by apply Z.mod_small. Qed.

Lemma u32_range x : 0 <= u32 x < 2 ^ 32.
Proof. unfold u32; apply Z.mod_pos_bound; lia. Qed.

Lemma u8_id x : 0 <= x < 2 ^ 8 -> u8 x = x.
Proof. intros; unfold u8; by apply Z.mod_small. Qed.

Lemma i32_id x : - 2 ^ 31 <= x < 2 ^ 31 -> i32 x = x.
Proof. intros; unfold i32; rewrite Z.mod_small; lia. Qed.

Lemma i32_range x : - 2 ^ 31 <= i32 x < 2 ^ 31.
Proof. unfold i32; pose proof (Z.mod_pos_bound (x + 2 ^ 31) (2 ^ 32)); lia. Qed.

Lemma u64_below x : - 2 ^ 64 <= x < 0 -> u64 x = x + 2 ^ 64.
Proof.
  intros; unfold u64; symmetry.
  apply (Z.mod_unique _ _ (-1)); lia.
Qed.

(** [x & 0xFFFF] and [x & 0xFFFFFFFF] as they are written in the source. *)
Lemma land_FFFF x : Z.land x 65535 = x mod 2 ^ 16.
Proof. change 65535 with (Z.ones 16). apply Z.land_ones; lia. Qed.

Lemma land_FFFFFFFF x : Z.land x 4294967295 = x mod 2 ^ 32.
Proof. change 4294967295 with (Z.ones 32). apply Z.land_ones; lia. Qed.

Create HintDb gramado.
(** The low half of a word. *)
Lemma land_16 x : 0 <= x < 65536 -> Z.land x 65535 = x.
Proof. intros. change 65535 with (Z.ones 16). rewrite Z.land_ones by lia. by apply Z.mod_small. Qed.

Lemma land_16_range x : 0 <= Z.land x 65535 < 65536.
Proof. change 65535 with (Z.ones 16). rewrite Z.land_ones by lia. by apply Z.mod_pos_bound. Qed.

#[export] Hint Resolve u64_range u32_range i32_range : gramado.

(** ** Outcomes of a kernel routine *)

(** [Done a s]: the routine returned [a] in state [s].  [Panic msg]: the
    routine called [panic], [x_panic], [die] or [keDie], none of which
    returns.  [Undef]: the C code has undefined behaviour there (a pointer that
    designates no object is dereferenced, a list is indexed out of range).
    [Leave s]: control left the routine by [iretq] and never comes back to it.
    [OutOfFuel]: a [goto] or [while] loop used more iterations than allowed. *)
Inductive outcome (S A : Type) : Type :=
  | Done (a : A) (s : S)
  | Panic (msg : string)
  | Undef
  | Leave (s : S)
  | OutOfFuel.
Arguments Done {S A} a s.
Arguments Panic {S A} msg.
Arguments Undef {S A}.
Arguments Leave {S A} s.
Arguments OutOfFuel {S A}.

Definition M (S A : Type) : Type := S -> outcome S A.

#[export] Instance M_ret S : MRet (M S) := fun A a s => Done a s.
#[export] Instance M_bind S : MBind (M S) := fun A B k m s =>
  match m s with
  | Done a s' => k a s'
  | Panic msg => Panic msg
  | Undef => Undef
  | Leave s' => Leave s'
  | OutOfFuel => OutOfFuel
  end.

Definition panic {S A} (msg : string) : M S A := fun _ => Panic msg.
Definition undef {S A} : M S A := fun _ => Undef.
Definition leave {S A} : M S A := fun s => Leave s.
Definition diverge {S A} : M S A := fun _ => OutOfFuel.
Definition gets {S A} (f : S -> A) : M S A := fun s => Done (f s) s.
Definition modify {S} (f : S -> S) : M S unit := fun s => Done tt (f s).
(** Reading through something that may be absent: absence is [Undef]. *)
Definition getsome {S A} (f : S -> option A) : M S A := fun s =>
  match f s with Some a => Done a s | None => Undef end.

Lemma bind_Done {S A B} (m : M S A) (k : A -> M S B) s a s' :
  m s = Done a s' -> (m ≫= k) s = k a s'.
Proof. intros H. unfold mbind, M_bind. by rewrite H. Qed.

Lemma bind_Undef {S A B} (m : M S A) (k : A -> M S B) s :
  m s = Undef -> (m ≫= k) s = Undef.
Proof. intros H. unfold mbind, M_bind. by rewrite H. Qed.

Lemma bind_Panic {S A B} (m : M S A) (k : A -> M S B) s msg :
  m s = Panic msg -> (m ≫= k) s = Panic msg.
Proof. intros H. unfold mbind, M_bind. by rewrite H. Qed.

Lemma bind_Leave {S A B} (m : M S A) (k : A -> M S B) s s' :
  m s = Leave s' -> (m ≫= k) s = Leave s'.
Proof. intros H. unfold mbind, M_bind. by rewrite H. Qed.

Lemma bind_gets {S A B} (f : S -> A) (k : A -> M S B) s :
  (gets f ≫= k) s = k (f s) s.
Proof. done. Qed.

Lemma bind_modify {S B} (f : S -> S) (k : unit -> M S B) s :
  (modify f ≫= k) s = k tt (f s).
Proof. done. Qed.

Lemma bind_getsome {S A B} (f : S -> option A) (k : A -> M S B) s a :
  f s = Some a -> (getsome f ≫= k) s = k a s.
Proof. intros H. unfold mbind, M_bind, getsome. by rewrite H. Qed.

Lemma bind_ret {S A B} (a : A) (k : A -> M S B) s :
  ((mret a : M S A) ≫= k) s = k a s.
Proof. done. Qed.

Lemma bind_bind {S A B C} (m : M S A) (k : A -> M S B) (h : B -> M S C) s :
  ((m ≫= k) ≫= h) s = (m ≫= (fun a => k a ≫= h)) s.
Proof. unfold mbind, M_bind. by destruct (m s). Qed.

(** ** Weakest preconditions (total correctness)

    [wp m s Q]: run from [s], [m] returns, and its result satisfies [Q]. *)
Definition wp {S A} (m : M S A) (s : S) (Q : A -> S -> Prop) : Prop :=
  match m s with Done a s' => Q a s' | _ => False end.

Lemma wp_Done {S A} (m : M S A) s Q :
  wp m s Q <-> exists a s', m s = Done a s' /\ Q a s'.
Proof.
  unfold wp; destruct (m s) eqn:E; split; try (intros []; fail);
    try (intros (?&?&?&?); congruence); eauto.
Qed.

Lemma wp_ret {S A} (a : A) (s : S) Q : Q a s -> wp (mret a : M S A) s Q.
Proof. done. Qed.

Lemma wp_gets {S A} (f : S -> A) s Q : Q (f s) s -> wp (gets f) s Q.
Proof. done. Qed.

Lemma wp_modify {S} (f : S -> S) s Q : Q tt (f s) -> wp (modify f) s Q.
Proof. done. Qed.

Lemma wp_getsome {S A} (f : S -> option A) s a Q :
  f s = Some a -> Q a s -> wp (getsome f) s Q.
Proof. intros H HQ. unfold wp, getsome. by rewrite H. Qed.

Lemma wp_bind {S A B} (m : M S A) (k : A -> M S B) s Q :
  wp m s (fun a s' => wp (k a) s' Q) -> wp (m ≫= k) s Q.
Proof. unfold wp, mbind, M_bind. by destruct (m s). Qed.

Lemma wp_mono {S A} (m : M S A) s (P Q : A -> S -> Prop) :
  wp m s P -> (forall a s', P a s' -> Q a s') -> wp m s Q.
Proof. unfold wp. destruct (m s); auto. Qed.

Lemma wp_eq {S A} (m : M S A) s a s' (Q : A -> S -> Prop) :
  m s = Done a s' -> Q a s' -> wp m s Q.
Proof. intros H HQ. unfold wp. by rewrite H. Qed.

(** ** Bounded loops *)

(** [for (x in l) body(x)], the body always continuing. *)
Fixpoint for_each {S A} (l : list A) (body : A -> M S unit) : M S unit :=
  match l with
  | [] => mret tt
  | x :: l' => body x ≫= fun _ => for_each l' body
  end.

(** [for (x in l)] whose body may [return] ([Some r]) or continue ([None]). *)
Fixpoint for_return {S A R} (l : list A) (body : A -> M S (option R))
    : M S (option R) :=
  match l with
  | [] => mret None
  | x :: l' => body x ≫= fun r =>
      match r with Some v => mret (Some v) | None => for_return l' body end
  end.

(** The indices [a, a+1, ..., b-1] of [for (i=a; i<b; i++)]. *)
Definition range (a b : Z) : list Z := seqZ a (b - a).

Lemma elem_range i a b : i ∈ range a b <-> a <= i < b.
Proof. unfold range. rewrite elem_of_seqZ. lia. Qed.

Lemma range_nil a b : b <= a -> range a b = [].
Proof. intros. unfold range. apply seqZ_nil. lia. Qed.

Lemma range_cons a b : a < b -> range a b = a :: range (a + 1) b.
Proof.
  intros. unfold range. rewrite seqZ_cons by lia.
  f_equal. unfold Z.succ. f_equal. lia.
Qed.

Lemma range_snoc a b : a <= b -> range a (b + 1) = range a b ++ [b].
Proof.
  intros. unfold range. replace (b + 1 - a) with ((b - a) + 1) by lia.
  rewrite seqZ_app by lia. f_equal. replace (a + (b - a)) with b by lia. done.
Qed.

(** Loop rule for [for (i=a; i<b; i++)]: an invariant indexed by [i]. *)
Lemma wp_for_range {S} (I : Z -> S -> Prop) a b body s (Q : unit -> S -> Prop) :
  a <= b -> I a s ->
  (forall i s, a <= i < b -> I i s -> wp (body i) s (fun _ s' => I (i + 1) s')) ->
  (forall s', I b s' -> Q tt s') ->
  wp (for_each (range a b) body) s Q.
Proof.
  intros Hab H0 Hstep HQ. remember (Z.to_nat (b - a)) as n eqn:Hn.
  assert (Hge : forall i s, a <= i -> i < b -> I i s ->
    wp (body i) s (fun _ s' => I (i + 1) s')) by (intros; by apply Hstep).
  clear Hstep. revert a s Hab H0 Hge Hn. induction n as [|n IH]; intros a s Hab H0 Hge Hn.
  - assert (a = b) as -> by lia. rewrite range_nil by lia. simpl. by apply wp_ret, HQ.
  - rewrite range_cons by lia. simpl. apply wp_bind. eapply wp_mono.
    + apply Hge; [lia|lia|exact H0].
    + intros [] s' HI. apply IH; [lia|done| |lia]. intros; apply Hge; [lia|lia|done].
Qed.

(** Loop rule: an invariant indexed by what has been visited. *)
Lemma wp_for_each {S A} (I : list A -> S -> Prop) (l : list A) body s
    (Q : unit -> S -> Prop) :
  I [] s ->
  (forall pre x todo s, l = pre ++ x :: todo -> I pre s ->
     wp (body x) s (fun _ s' => I (pre ++ [x]) s')) ->
  (forall s', I l s' -> Q tt s') ->
  wp (for_each l body) s Q.
Proof.
  intros H0 Hstep HQ.
  cut (forall todo pre s, l = pre ++ todo -> I pre s ->
         wp (for_each todo body) s Q).
  { intros Hcut. by apply (Hcut l []). }
  clear s H0. induction todo as [|x todo IH]; intros pre s Hl HI; simpl.
  - rewrite app_nil_r in Hl. subst. by apply wp_ret, HQ.
  - apply wp_bind. eapply wp_mono; [by eapply Hstep|].
    intros a' s' HI'. simpl in HI'. simpl. apply (IH (pre ++ [x])); [|done].
    by rewrite <- app_assoc.
Qed.

(** A loop none of whose iterations changes the state. *)
Lemma for_each_skip {S A} (l : list A) (body : A -> M S unit) s :
  (forall x, x ∈ l -> body x s = Done tt s) -> for_each l body s = Done tt s.
Proof.
  induction l as [|x l IH]; intros H; simpl; [done|].
  erewrite bind_Done by (apply H; left). apply IH. intros y Hy. apply H. by right.
Qed.

(** A loop whose iterations either change nothing or panic. *)
Lemma for_each_scan {S A} (l : list A) (body : A -> M S unit) s :
  (forall x, x ∈ l -> body x s = Done tt s \/ exists msg, body x s = Panic msg) ->
  (forall x, x ∈ l -> body x s = Done tt s) /\ for_each l body s = Done tt s \/
  (exists x msg, x ∈ l /\ body x s = Panic msg) /\
    exists msg, for_each l body s = Panic msg.
Proof.
  induction l as [|x l IH]; intros H; simpl.
  - left. split; [|done]. intros y Hy. by apply not_elem_of_nil in Hy.
  - destruct (H x) as [Hx | [msg Hx]]; [left| |].
    + erewrite bind_Done by done.
      destruct IH as [[Hall Hl] | [(y & msg & Hy & Hp) Hl]];
        [intros; apply H; by right | left | right].
      * split; [|done]. intros y [->|Hy]%elem_of_cons; auto.
      * split; [|done]. exists y, msg. split; [by right|done].
    + right. split; [exists x, msg; split; [left|done]|].
      exists msg. unfold mbind, M_bind. by rewrite Hx.
Qed.

(** A search loop that changes nothing: the first hit, or none. *)
Lemma for_return_find {S A R} (l : list A) (body : A -> M S (option R)) s
    (f : A -> option R) :
  (forall x, x ∈ l -> body x s = Done (f x) s) ->
  for_return l body s = Done (head (omap f l)) s.
Proof.
  induction l as [|x l IH]; intros H; simpl; [done|].
  erewrite bind_Done by (apply H; left).
  destruct (f x) as [r|]; [done|]. apply IH. intros y Hy. apply H. by right.
Qed.

Lemma omap_ext_elem {A B} (f g : A -> option B) (l : list A) :
  (forall x, x ∈ l -> f x = g x) -> omap f l = omap g l.
Proof.
  induction l as [|x l IH]; intros H; [done|].
  assert (Hl : omap f l = omap g l) by (apply IH; intros; apply H; by right).
  cbn [omap list_omap]. rewrite (H x) by left.
  destruct (g x); [f_equal; exact Hl|exact Hl].
Qed.

Lemma NoDup_omap_inj {A B} (f : A -> option B) (l : list A) :
  (forall x y z, f x = Some z -> f y = Some z -> x = y) -> NoDup l -> NoDup (omap f l).
Proof.
  intros Hinj. induction 1 as [|x l Hx Hl IH]; [constructor|].
  cbn [omap list_omap]. destruct (f x) as [z|] eqn:E; [|done].
  constructor; [|done]. rewrite list_elem_of_omap. intros (y & Hy & Hz).
  apply Hx. by rewrite (Hinj x y z).
Qed.

Lemma NoDup_range a b : NoDup (range a b).
Proof. apply NoDup_seqZ. Qed.

(** ** Relations kept by a computation

    [keeps R m]: [m] never leaves, and whenever it returns the final state is
    related to the initial one by [R]; [ensures m s Q L]: started in [s], [m] ends with [Q]
    if it returns and with [L] if it leaves.  Neither says anything of a run
    that stops the kernel. *)
Definition keeps {S A} (R : S -> S -> Prop) (m : M S A) : Prop := forall s,
  match m s with Done _ s' => R s s' | Leave _ => False | _ => True end.

Definition ensures {S A} (m : M S A) (s : S) (Q : A -> S -> Prop) (L : S -> Prop) : Prop :=
  match m s with Done a s' => Q a s' | Leave s' => L s' | _ => True end.

Section Keeps.
Context {S : Type} (R : S -> S -> Prop) {HR : PreOrder R}.

Lemma keeps_ret {A} (a : A) : keeps R (mret a : M S A).
Proof. intros s. cbn. reflexivity. Qed.

Lemma keeps_panic {A} msg : keeps R (panic msg : M S A).
Proof. done. Qed.

Lemma keeps_undef {A} : keeps R (undef : M S A).
Proof. done. Qed.

Lemma keeps_diverge {A} : keeps R (diverge : M S A).
Proof. done. Qed.

Lemma keeps_gets {A} (f : S -> A) : keeps R (gets f).
Proof. intros s. cbn. reflexivity. Qed.

Lemma keeps_getsome {A} (f : S -> option A) : keeps R (getsome f).
Proof. intros s. unfold getsome. destruct (f s); [reflexivity|done]. Qed.

Lemma keeps_modify (f : S -> S) : (forall s, R s (f s)) -> keeps R (modify f).
Proof. intros H s. apply H. Qed.

Lemma keeps_bind {A B} (m : M S A) (k : A -> M S B) :
  keeps R m -> (forall a, keeps R (k a)) -> keeps R (m ≫= k).
Proof.
  intros Hm Hk s. specialize (Hm s). unfold mbind, M_bind.
  destruct (m s) as [a s'| | | |]; [|done..].
  specialize (Hk a s'). destruct (k a s'); try done; by etransitivity.
Qed.

Lemma keeps_for_each {A} (l : list A) body :
  (forall x, keeps R (body x)) -> keeps R (for_each l body).
Proof.
  intros Hb. induction l as [|x l IH]; cbn [for_each]; [apply keeps_ret|].
  apply keeps_bind; [apply Hb|intros _; apply IH].
Qed.

Lemma keeps_for_return {A B} (l : list A) (body : A -> M S (option B)) :
  (forall x, keeps R (body x)) -> keeps R (for_return l body).
Proof.
  intros Hb. induction l as [|x l IH]; cbn [for_return]; [apply keeps_ret|].
  apply keeps_bind; [apply Hb|intros [r|]; [apply keeps_ret|apply IH]].
Qed.

Lemma keeps_fold {A B} (l : list A) (body : A -> B -> M S B) n :
  (forall x n, keeps R (body x n)) ->
  keeps R (foldr (fun i k n => body i n ≫= k) mret l n).
Proof.
  intros Hb. revert n. induction l as [|x l IH]; intros n; cbn [foldr]; [apply keeps_ret|].
  apply keeps_bind; [apply Hb|intros a; apply IH].
Qed.

Lemma keeps_weaken {A} (R' : S -> S -> Prop) (m : M S A) :
  (forall s s', R' s s' -> R s s') -> keeps R' m -> keeps R m.
Proof. intros H Hm s. specialize (Hm s). destruct (m s); auto. Qed.

End Keeps.

Lemma ensures_bind {S A B} (m : M S A) (k : A -> M S B) s Q L :
  ensures m s (fun a s' => ensures (k a) s' Q L) L -> ensures (m ≫= k) s Q L.
Proof. unfold ensures, mbind, M_bind. by destruct (m s). Qed.

Lemma ensures_mono {S A} (m : M S A) s (Q Q' : A -> S -> Prop) (L L' : S -> Prop) :
  ensures m s Q L -> (forall a s', Q a s' -> Q' a s') -> (forall s', L s' -> L' s') ->
  ensures m s Q' L'.
Proof. unfold ensures. destruct (m s); auto. Qed.

Lemma ensures_keeps {S A} R (m : M S A) s (Q : A -> S -> Prop) (L : S -> Prop) :
  keeps R m -> (forall a s', R s s' -> Q a s') -> ensures m s Q L.
Proof. intros Hm HQ. specialize (Hm s). unfold ensures. destruct (m s); try done; auto. Qed.

Lemma ensures_seq {S A B} R (m : M S A) (k : A -> M S B) s (Q : B -> S -> Prop) (L : S -> Prop) :
  keeps R m -> (forall a s', R s s' -> ensures (k a) s' Q L) -> ensures (m ≫= k) s Q L.
Proof. intros Hm HQ. apply ensures_bind. by eapply ensures_keeps. Qed.

Lemma ensures_gets {S A} (f : S -> A) s (Q : A -> S -> Prop) L : Q (f s) s -> ensures (gets f) s Q L.
Proof. done. Qed.

Lemma ensures_modify {S} (f : S -> S) s (Q : unit -> S -> Prop) L :
  Q tt (f s) -> ensures (modify f) s Q L.
Proof. done. Qed.

Lemma ensures_getsome {S A} (f : S -> option A) s (Q : A -> S -> Prop) L :
  (forall a, f s = Some a -> Q a s) -> ensures (getsome f) s Q L.
Proof. intros H. unfold ensures, getsome. destruct (f s); auto. Qed.

Lemma ensures_panic {S A} msg s (Q : A -> S -> Prop) L : ensures (panic msg) s Q L.
Proof. done. Qed.

(** ** Record update

    [r <| f := v |>] is the record [r] with the field [f] replaced by [v]: the
    C assignment [r->f = v].  A record type gives its field-by-field
    reconstruction as an instance of [Eta]; [solve_setter] abstracts one
    projection out of it. *)
Class Eta (R : Type) := eta_expand : R -> R.
Class Setter {R T} (get : R -> T) := set_field : (T -> T) -> R -> R.
Arguments set_field {R T} get {_} f r.

Ltac solve_setter :=
  lazymatch goal with
  | |- @Setter ?R ?T ?get =>
      let e := constr:(@eta_expand R _) in
      let e := eval cbv beta delta [eta_expand] in e in
      let e := eval hnf in e in
      lazymatch eval pattern get in e with
      | ?set _ => exact (fun f => set (fun r => f (get r)))
      end
  end.

Declare Scope gramado_scope.
Delimit Scope gramado_scope with gramado.
Notation "r <| f := v |>" := (set_field f (fun _ => v) r)
  (at level 1, f at level 9, left associativity,
   format "r  <| f  :=  v |>") : gramado_scope.
#[export] Hint Unfold set_field : gramado.

(** ** Booleans of C *)
Definition b2z (b : bool) : Z := if b then TRUE else FALSE.

(** ** Lists indexed by a C integer *)

(** [l[i]]: [None] when [i] is out of range. *)
Definition zlookup {A} (l : list A) (i : Z) : option A :=
  if (i <? 0) then None else l !! Z.to_nat i.
(** [l[i] = x]; the callers guard the range. *)
Definition zinsert {A} (l : list A) (i : Z) (x : A) : list A :=
  if (i <? 0) then l else <[Z.to_nat i := x]> l.

Lemma zlookup_lt {A} (l : list A) i x :
  zlookup l i = Some x -> 0 <= i < Z.of_nat (length l).
Proof.
  unfold zlookup. case_match eqn:E; [done|]. intros H.
  apply lookup_lt_Some in H. apply Z.ltb_ge in E. lia.
Qed.

Lemma zlookup_elem {A} (l : list A) i x : zlookup l i = Some x -> x ∈ l.
Proof. unfold zlookup. case_match; [done|]. apply list_elem_of_lookup_2. Qed.

Lemma zlookup_cons_0 {A} (x : A) l : zlookup (x :: l) 0 = Some x.
Proof. done. Qed.

Lemma zlookup_cons_S {A} (x : A) l i : 0 <= i -> zlookup (x :: l) (1 + i) = zlookup l i.
Proof.
  intros. unfold zlookup. destruct (Z.ltb_spec i 0); [lia|]. destruct (Z.ltb_spec (1 + i) 0); [lia|].
  by replace (Z.to_nat (1 + i)) with (S (Z.to_nat i)) by lia.
Qed.

Lemma zlookup_some {A} (l : list A) i :
  0 <= i < Z.of_nat (length l) -> exists x, zlookup l i = Some x.
Proof.
  intros H. unfold zlookup. case_match eqn:E; [apply Z.ltb_lt in E; lia|].
  apply lookup_lt_is_Some_2. lia.
Qed.

Lemma zlookup_insert_eq {A} (l : list A) i x :
  0 <= i < Z.of_nat (length l) -> zlookup (zinsert l i x) i = Some x.
Proof.
  intros H. unfold zlookup, zinsert. case_match eqn:E; [apply Z.ltb_lt in E; lia|].
  apply list_lookup_insert_eq. lia.
Qed.

Lemma zlookup_insert_ne {A} (l : list A) i j x :
  0 <= i -> i <> j -> zlookup (zinsert l i x) j = zlookup l j.
Proof.
  intros H Hij. unfold zlookup, zinsert. destruct (Z.ltb_spec j 0); [done|].
  destruct (Z.ltb_spec i 0); [done|].
  apply list_lookup_insert_ne. lia.
Qed.

Lemma length_zinsert {A} (l : list A) i x : length (zinsert l i x) = length l.
Proof. unfold zinsert. case_match; [done|]. apply length_insert. Qed.

Lemma zinsert_twice {A} (l : list A) i (x y : A) : zinsert (zinsert l i x) i y = zinsert l i y.
Proof. unfold zinsert. case_match; [done|]. apply list_insert_insert_eq. Qed.

#[export] Hint Resolve zlookup_lt : gramado.


(** ** Tactics *)

(** Destruct the boolean comparison that guards the goal. *)
Ltac ztest :=
  match goal with
  | |- context [?a <? ?b] => destruct (Z.ltb_spec a b)
  | |- context [?a <=? ?b] => destruct (Z.leb_spec a b)
  | |- context [?a =? ?b] => destruct (Z.eqb_spec a b)
  end.

(** Evaluate the guards of the goal that arithmetic decides. *)
Ltac zguard :=
  repeat match goal with
  | |- context [?a <? ?b] =>
      first [ replace (a <? b) with true by (symmetry; apply Z.ltb_lt; lia)
            | replace (a <? b) with false by (symmetry; apply Z.ltb_ge; lia) ]
  | |- context [?a <=? ?b] =>
      first [ replace (a <=? b) with true by (symmetry; apply Z.leb_le; lia)
            | replace (a <=? b) with false by (symmetry; apply Z.leb_gt; lia) ]
  | |- context [?a =? ?b] =>
      first [ replace (a =? b) with true by (symmetry; apply Z.eqb_eq; lia)
            | replace (a =? b) with false by (symmetry; apply Z.eqb_neq; lia) ]
  end; cbn [negb andb orb].

(** One step of a routine: read, write, return. *)
Ltac mstep :=
  first [ rewrite bind_gets | rewrite bind_modify | rewrite bind_ret
        | rewrite bind_bind
        | erewrite bind_getsome by eassumption
        | erewrite bind_Done by eassumption ].
Ltac msteps := repeat (mstep; cbn beta).
