(* ===== verification/Strings.v ===== *)
(** * Strings: bytes of memory, C strings and characters

    [libk/kstring.c] and [libk/kctype.c].  The memory is the map of its bytes,
    [0 <= m a < 256]; a [char] is signed.  A loop that ends at a terminator takes
    fuel and answers [None] when the fuel is over. *)
From Stdlib Require Import ZArith Lia.
From stdpp Require Import base gmap list strings.
From S2P Require Import Config Prelude.

#[local] Open Scope Z_scope.

Definition memory : Type := Z -> Z.

(** [*(char * ) a = v] *)
Definition poke (a v : Z) (m : memory) : memory := fun x => if x =? a then u8 v else m x.

(** [*(char * ) a], sign-extended *)
Definition char_at (m : memory) (a : Z) : Z := i8 (m a).

(** [memset(a, v, n)] on a range of bytes *)
Definition fill (a n v : Z) (m : memory) : memory :=
  fun x => if (a <=? x) && (x <? a + n) then v else m x.

(** ** kstring.c: comparison *)

Fixpoint checksum_loop (m : memory) (buffer Total : Z) (l : nat) : Z :=
  match l with
  | O => Total
  | S l => checksum_loop m (buffer + 1) (u64 (Total + Z.land (m buffer) 255)) l
  end.

Definition string_compute_checksum (m : memory) (buffer lenght : Z) : Z :=
  if lenght =? 0 then 0 else checksum_loop m buffer 0 (Z.to_nat (u64 lenght)).

Fixpoint strcmp_loop (fuel : nat) (m : memory) (s1 s2 i : Z) : option Z :=
  match fuel with
  | O => None
  | S fuel =>
      if char_at m (s1 + i) =? char_at m (s2 + i)
      then if char_at m (s1 + i) =? 0 then Some 0 else strcmp_loop fuel m s1 s2 (i + 1)
      else Some (char_at m (s1 + i) - char_at m (s2 + i))
  end.

Definition strcmp (fuel : nat) (m : memory) (s1 s2 : Z) : option Z := strcmp_loop fuel m s1 s2 0.

Fixpoint kstrncmp_loop (n : nat) (m : memory) (s1 s2 : Z) : Z :=
  match n with
  | O => if negb (char_at m s1 =? 0) || negb (char_at m s2 =? 0) then 2 else 0
  | S n => if negb (char_at m s1 =? char_at m s2) then 1 else kstrncmp_loop n m (s1 + 1) (s2 + 1)
  end.

Definition kstrncmp (m : memory) (s1 s2 len : Z) : Z := kstrncmp_loop (Z.to_nat len) m s1 s2.

(** Unsigned characters. *)
Fixpoint str_cmp (fuel : nat) (m : memory) (str1 str2 : Z) : option Z :=
  match fuel with
  | O => None
  | S fuel =>
      if (m str1 =? m str2) && negb (m str1 =? 0) && negb (m str2 =? 0)
      then str_cmp fuel m (str1 + 1) (str2 + 1)
      else if m str1 =? m str2 then Some 0
      else if m str2 <? m str1 then Some 1
      else Some (-1)
  end.

Fixpoint strlen_loop (fuel : nat) (m : memory) (s i : Z) : option Z :=
  match fuel with
  | O => None
  | S fuel => if negb (char_at m (s + i) =? 0) then strlen_loop fuel m s (i + 1) else Some i
  end.

Definition strlen (fuel : nat) (m : memory) (s : Z) : option Z := strlen_loop fuel m s 0.

(** ** kstring.c: copy *)

(** Bytes are copied upwards, one at a time. *)
Fixpoint copy_up (n : nat) (dst src : Z) (m : memory) : memory :=
  match n with
  | O => m
  | S n => copy_up n (dst + 1) (src + 1) (poke dst (m src) m)
  end.

Definition memcpy (dst src n : Z) (m : memory) : memory := copy_up (Z.to_nat (u64 n)) dst src m.

(** Units of [w] bytes: each is read before it is written. *)
Fixpoint copy_units (w : nat) (n : nat) (dst src : Z) (m : memory) : memory :=
  match n with
  | O => m
  | S n =>
      copy_units w n (dst + Z.of_nat w) (src + Z.of_nat w)
        (fun x => if (dst <=? x) && (x <? dst + Z.of_nat w) then m (src + (x - dst)) else m x)
  end.

Definition memcpy32 (dst src n : Z) (m : memory) : memory := copy_units 4 (Z.to_nat (u64 n)) dst src m.
Definition memcpy64 (dst src n : Z) (m : memory) : memory := copy_units 8 (Z.to_nat (u64 n)) dst src m.

Fixpoint strcpy (fuel : nat) (to from : Z) (m : memory) : option memory :=
  match fuel with
  | O => None
  | S fuel =>
      let m' := poke to (m from) m in
      if negb (char_at m' to =? 0) then strcpy fuel (to + 1) (from + 1) m' else Some m'
  end.

Fixpoint strncpy_pad (n : nat) (s : Z) (m : memory) : memory :=
  match n with
  | O => m
  | S n => strncpy_pad n (s + 1) (poke s 0 m)
  end.

Fixpoint strncpy_loop (n : nat) (s s2 : Z) (m : memory) : memory :=
  match n with
  | O => m
  | S n' =>
      if negb (char_at m s2 =? 0) then strncpy_loop n' (s + 1) (s2 + 1) (poke s (m s2) m)
      else strncpy_pad n s m
  end.

(** [size_t] is a signed [int]. *)
Definition strncpy (s1 s2 n : Z) (m : memory) : memory := strncpy_loop (Z.to_nat n) s1 s2 m.

Fixpoint strcat_end (fuel : nat) (to : Z) (m : memory) : option Z :=
  match fuel with
  | O => None
  | S fuel => if negb (char_at m to =? 0) then strcat_end fuel (to + 1) m else Some to
  end.

Definition strcat (fuel : nat) (to from : Z) (m : memory) : option memory :=
  to' ← strcat_end fuel to m; strcpy fuel to' from m.

(** [while (len--)]: a negative length only ends by wrapping around. *)
Definition bcopy (from to len : Z) (m : memory) : option memory :=
  if len <? 0 then None else Some (copy_up (Z.to_nat len) to from m).

Definition bzero (cp len : Z) (m : memory) : option memory :=
  if len <? 0 then None else Some (fill cp len 0 m).

Definition memset (ptr value size : Z) (m : memory) : memory :=
  if negb (ptr =? NULL) && (0 <? size) then fill ptr size (u8 value) m else m.

(** ** kstring.c: spans and tokens *)

(** [c] is one of the [n] characters at [set]. *)
Fixpoint among (n : nat) (m : memory) (set c : Z) : bool :=
  match n with
  | O => false
  | S n => (c =? char_at m set) || among n m (set + 1) c
  end.

(** The condition of the loop is the assignment [result = 1]. *)
Fixpoint strcspn_loop (fuel : nat) (m : memory) (str reject : Z) (reject_length : nat)
    (matches : bool) : option Z :=
  match fuel with
  | O => None
  | S fuel =>
      let result := 1 in
      let c := char_at m (str + result) in
      if c =? 0 then Some result else
      let matches := matches || among reject_length m reject c in
      if matches then Some result else strcspn_loop fuel m str reject reject_length matches
  end.

Definition strcspn (fuel : nat) (m : memory) (str reject : Z) : option Z :=
  n ← strlen fuel m reject; strcspn_loop fuel m str reject (Z.to_nat n) false.

Fixpoint strspn_loop (fuel : nat) (m : memory) (str accept : Z) (accept_length : nat)
    (matches : bool) : option Z :=
  match fuel with
  | O => None
  | S fuel =>
      let result := 1 in
      let c := char_at m (str + result) in
      if c =? 0 then Some result else
      let matches := matches || among accept_length m accept c in
      if negb matches then Some result else strspn_loop fuel m str accept accept_length matches
  end.

Definition strspn (fuel : nat) (m : memory) (str accept : Z) : option Z :=
  n ← strlen fuel m accept; strspn_loop fuel m str accept (Z.to_nat n) false.

(** [for (spanp = delim; (sc = *spanp++) != 0;) if (c == sc) ...] *)
Fixpoint is_delim (fuel : nat) (m : memory) (spanp c : Z) : option bool :=
  match fuel with
  | O => None
  | S fuel =>
      let sc := char_at m spanp in
      if sc =? 0 then Some false else
      if c =? sc then Some true else is_delim fuel m (spanp + 1) c
  end.

(** Skip the leading delimiters: the first other character and the address after it. *)
Fixpoint strtok_skip (fuel : nat) (m : memory) (s delim : Z) : option (Z * Z) :=
  match fuel with
  | O => None
  | S fuel' =>
      let c := char_at m s in
      d ← is_delim fuel m delim c;
      if (d : bool) then strtok_skip fuel' m (s + 1) delim else Some (c, s + 1)
  end.

(** [do { if ((sc = *spanp++) == c) ... } while (sc != 0)]: a delimiter or the end. *)
Fixpoint is_delim_or_end (fuel : nat) (m : memory) (spanp c : Z) : option bool :=
  match fuel with
  | O => None
  | S fuel =>
      let sc := char_at m spanp in
      if sc =? c then Some true else
      if sc =? 0 then Some false else is_delim_or_end fuel m (spanp + 1) c
  end.

(** The end of the token: the new value of [*last] and the memory. *)
Fixpoint strtok_scan (fuel : nat) (m : memory) (s delim : Z) : option (Z * memory) :=
  match fuel with
  | O => None
  | S fuel' =>
      let c := char_at m s in
      d ← is_delim_or_end fuel m delim c;
      if (d : bool) then
        if c =? 0 then Some (NULL, m) else Some (s + 1, poke s 0 m)
      else strtok_scan fuel' m (s + 1) delim
  end.

(** The token, the new value of [*last] and the memory. *)
Definition k_strtok_r (fuel : nat) (s delim last : Z) (m : memory) : option (Z * Z * memory) :=
  let s := if s =? NULL then last else s in
  if s =? NULL then Some (NULL, last, m) else
  '(c, s) ← strtok_skip fuel m s delim;
  if c =? 0 then Some (NULL, NULL, m) else
  let tok := s - 1 in
  '(last, m) ← strtok_scan fuel m s delim;
  Some (tok, last, m).

(** [last] is the static variable of [k_strtok]. *)
Definition k_strtok (fuel : nat) (s delim last : Z) (m : memory) : option (Z * Z * memory) :=
  k_strtok_r fuel s delim last m.

(** ** kctype.c *)

Definition C_U : Z := 1.    (* _U upper *)
Definition C_L : Z := 2.    (* _L lower *)
Definition C_D : Z := 4.    (* _D digit *)
Definition C_C : Z := 8.    (* _C cntrl *)
Definition C_P : Z := 16.   (* _P punct *)
Definition C_S : Z := 32.   (* _S white space *)
Definition C_X : Z := 64.   (* _X hex digit *)
Definition C_SP : Z := 128. (* _SP hard space *)

Definition _ctype : list Z :=
  replicate 9 C_C ++ replicate 5 (C_C + C_S) ++ replicate 18 C_C ++     (* 0-31 *)
  (C_S + C_SP) :: replicate 15 C_P ++                                   (* 32-47 *)
  replicate 10 C_D ++ replicate 6 C_P ++                                (* 48-63 *)
  C_P :: replicate 6 (C_U + C_X) ++ replicate 20 C_U ++ replicate 5 C_P ++  (* 64-95 *)
  C_P :: replicate 6 (C_L + C_X) ++ replicate 20 C_L ++ replicate 4 C_P ++ C_C :: (* 96-127 *)
  replicate 32 0 ++                                                     (* 128-159 *)
  (C_S + C_SP) :: replicate 31 C_P ++                                   (* 160-191 *)
  replicate 23 C_U ++ C_P :: replicate 7 C_U ++ C_L ::                  (* 192-223 *)
  replicate 23 C_L ++ C_P :: replicate 8 C_L.                           (* 224-255 *)

Definition __ismask (x : Z) : Z := default 0 (zlookup _ctype (u8 x)).
Definition isalpha (c : Z) : bool := negb (Z.land (__ismask c) (C_U + C_L) =? 0).
Definition isupper (c : Z) : bool := negb (Z.land (__ismask c) C_U =? 0).
Definition islower (c : Z) : bool := negb (Z.land (__ismask c) C_L =? 0).
Definition isxdigit (c : Z) : bool := negb (Z.land (__ismask c) (C_D + C_X) =? 0).
Definition isspace (c : Z) : bool := negb (Z.land (__ismask c) C_S =? 0).
Definition isalnum (c : Z) : bool := negb (Z.land (__ismask c) (C_U + C_L + C_D) =? 0).
Definition isdigit (c : Z) : bool := (48 <=? c) && (c <=? 57).
Definition isodigit (c : Z) : bool := (48 <=? c) && (c <=? 55).
Definition __tolower (c : Z) : Z := if isupper c then u8 (c - (65 - 97)) else c.
Definition __toupper (c : Z) : Z := if islower c then u8 (c - (97 - 65)) else c.
Definition _tolower (c : Z) : Z := i8 (Z.lor c 32).

(** ** Specification: the strings that a memory holds *)

(** The characters [l], none of them null, then the terminator. *)
Fixpoint str_at (m : memory) (a : Z) (l : list Z) : Prop :=
  match l with
  | [] => m a = 0
  | c :: l => m a = c /\ 0 < c < 256 /\ str_at m (a + 1) l
  end.

Definition zlen {A} (l : list A) : Z := Z.of_nat (length l).

(** The order of strings of signed characters. *)
Fixpoint str_order (l1 l2 : list Z) : Z :=
  match l1, l2 with
  | [], [] => 0
  | c :: _, [] => i8 c
  | [], c :: _ => - i8 c
  | c1 :: l1, c2 :: l2 => if c1 =? c2 then str_order l1 l2 else i8 c1 - i8 c2
  end.

(** ** Lemmas *)

Lemma zlen_cons {A} (x : A) l : zlen (x :: l) = 1 + zlen l.
Proof. unfold zlen. cbn [length]. lia. Qed.

Lemma zlen_nonneg {A} (l : list A) : 0 <= zlen l.
Proof. unfold zlen. lia. Qed.

Lemma zlen_app {A} (l k : list A) : zlen (l ++ k) = zlen l + zlen k.
Proof. unfold zlen. rewrite length_app. lia. Qed.

Lemma i8_char c : 0 <= c < 256 -> i8 c = if c <? 128 then c else c - 256.
Proof.
  intros H. unfold i8. change (2 ^ 7) with 128. change (2 ^ 8) with 256.
  destruct (Z.ltb_spec c 128).
  - rewrite Z.mod_small; lia.
  - replace (c + 128) with (c - 128 + 1 * 256) by lia. rewrite Z.mod_add, Z.mod_small; lia.
Qed.

Lemma i8_inj c d : 0 <= c < 256 -> 0 <= d < 256 -> i8 c = i8 d -> c = d.
Proof. intros Hc Hd. rewrite !i8_char by lia. repeat case_match; lia. Qed.

Lemma i8_0 c : 0 <= c < 256 -> (i8 c =? 0) = (c =? 0).
Proof. intros Hc. rewrite i8_char by lia. case_match; lia. Qed.

Lemma u8_char c : 0 <= c < 256 -> u8 c = c.
Proof. intros. by apply u8_id. Qed.

(** The first byte of a string. *)
Definition first (l : list Z) : Z := match l with [] => 0 | c :: _ => c end.

Lemma str_at_first m a l : str_at m a l -> m a = first l /\ 0 <= first l < 256.
Proof. destruct l; cbn; [lia|]. intros (? & ? & _). lia. Qed.

Lemma str_at_chars m a l : str_at m a l -> Forall (fun c => 0 < c < 256) l.
Proof. revert a. induction l as [|c l IH]; intros a H; constructor; [by apply H|]. eapply IH, H. Qed.

(** Only the bytes of the string and of its terminator matter. *)
Lemma str_at_ext m m' a l :
  (forall x, a <= x <= a + zlen l -> m' x = m x) -> str_at m a l -> str_at m' a l.
Proof.
  revert a. induction l as [|c l IH]; intros a Hm; cbn.
  - intros <-. apply Hm. unfold zlen. cbn. lia.
  - intros (Ha & Hc & Hl). rewrite zlen_cons in Hm. pose proof (zlen_nonneg l).
    split; [rewrite <- Ha; apply Hm; lia|]. split; [done|]. apply IH; [|done]. intros. apply Hm. lia.
Qed.

Lemma str_at_app m a l k :
  Forall (fun c => 0 < c < 256) l ->
  str_at m a (l ++ k) <-> (forall i c, zlookup l i = Some c -> m (a + i) = c) /\ str_at m (a + zlen l) k.
Proof.
  intros Hl. revert a. induction Hl as [|c l Hc Hl IH]; intros a.
  - unfold zlen. cbn. rewrite Z.add_0_r. split; [|tauto]. intros H. split; [|done].
    intros i c. unfold zlookup. by case_match.
  - cbn [app str_at]. rewrite IH, zlen_cons. replace (a + 1 + zlen l) with (a + (1 + zlen l)) by lia.
    split.
    + intros (Ha & _ & Hi & Hk). split; [|done]. intros i d Hd. pose proof (zlookup_lt _ _ _ Hd) as Hr.
      destruct (decide (i = 0)) as [->|Hi0].
      * rewrite zlookup_cons_0 in Hd. rewrite Z.add_0_r. congruence.
      * replace i with (1 + (i - 1)) in * by lia. rewrite zlookup_cons_S in Hd by lia.
        rewrite Z.add_assoc. by apply Hi.
    + intros (Hi & Hk). split; [|split; [done|]].
      * rewrite <- (Z.add_0_r a). by apply Hi.
      * split; [|done]. intros i d Hd. pose proof (zlookup_lt _ _ _ Hd).
        rewrite <- Z.add_assoc. apply Hi. by rewrite zlookup_cons_S by lia.
Qed.

Lemma fill_inside a n v m x : a <= x < a + n -> fill a n v m x = v.
Proof. intros. unfold fill. by zguard. Qed.

Lemma fill_outside a n v m x : x < a \/ a + n <= x -> fill a n v m x = m x.
Proof. intros. unfold fill. destruct (Z.leb_spec a x), (Z.ltb_spec x (a + n)); cbn; lia || done. Qed.

Lemma poke_eq a v m : 0 <= v < 256 -> poke a v m a = v.
Proof. intros. unfold poke. by rewrite Z.eqb_refl, u8_char. Qed.

Lemma poke_ne a v m x : x <> a -> poke a v m x = m x.
Proof. intros. unfold poke. by destruct (Z.eqb_spec x a). Qed.

(** ** Comparison *)

Lemma strcmp_loop_spec fuel m s1 s2 i l1 l2 :
  str_at m (s1 + i) l1 -> str_at m (s2 + i) l2 -> (length l1 < fuel)%nat ->
  strcmp_loop fuel m s1 s2 i = Some (str_order l1 l2).
Proof.
  revert i l1 l2. induction fuel as [|fuel IH]; intros i l1 l2 H1 H2 Hf; [lia|].
  cbn [strcmp_loop]. unfold char_at.
  destruct (str_at_first _ _ _ H1) as (E1 & R1), (str_at_first _ _ _ H2) as (E2 & R2). rewrite E1, E2.
  destruct (Z.eqb_spec (i8 (first l1)) (i8 (first l2))) as [He|Hne].
  - apply i8_inj in He; [|done|done]. rewrite i8_0 by done.
    destruct l1 as [|c l1], l2 as [|d l2]; cbn [first] in *; cbn [str_at] in H1, H2; try lia.
    + done.
    + destruct (Z.eqb_spec c 0); [lia|]. cbn [str_order]. rewrite <- He, Z.eqb_refl.
      apply IH; [| |cbn in Hf; lia]; rewrite Z.add_assoc; tauto.
  - assert (Hz : i8 0 = 0) by done.
    destruct l1 as [|c l1], l2 as [|d l2]; cbn [first str_order] in *; [done|f_equal; lia|f_equal; lia|].
    by destruct (Z.eqb_spec c d) as [->|].
Qed.

Lemma str_order_0 l1 l2 :
  Forall (fun c => 0 < c < 256) l1 -> Forall (fun c => 0 < c < 256) l2 ->
  str_order l1 l2 = 0 <-> l1 = l2.
Proof.
  intros H1. revert l2. induction H1 as [|c l1 Hc H1 IH]; intros l2 H2; destruct H2 as [|d l2 Hd H2];
    cbn [str_order]; split; intros E; try done.
  - rewrite i8_char in E by lia. case_match; lia.
  - rewrite i8_char in E by lia. case_match; lia.
  - destruct (Z.eqb_spec c d) as [->|Hn]; [f_equal; by apply IH|]. destruct Hn.
    apply i8_inj; lia.
  - injection E as -> ->. rewrite Z.eqb_refl. by apply IH.
Qed.

(** ** Copy *)

Definition bytes (m : memory) : Prop := forall x, 0 <= m x < 256.

Lemma copy_up_spec n dst src m x :
  bytes m -> dst <= src \/ src + Z.of_nat n <= dst ->
  copy_up n dst src m x =
    if (dst <=? x) && (x <? dst + Z.of_nat n) then m (src + (x - dst)) else m x.
Proof.
  revert dst src m. induction n as [|n IH]; intros dst src m Hm Hd; cbn [copy_up].
  - destruct (Z.leb_spec dst x), (Z.ltb_spec x (dst + Z.of_nat 0)); cbn; lia || done.
  - assert (Hm' : bytes (poke dst (m src) m)).
    { intros y. unfold poke. case_match; [rewrite u8_char; auto|auto]. }
    rewrite IH; [|done|lia].
    destruct (Z.leb_spec dst x), (Z.ltb_spec x (dst + Z.of_nat (S n))); cbn [andb].
    + destruct (Z.leb_spec (dst + 1) x), (Z.ltb_spec x (dst + 1 + Z.of_nat n)); cbn [andb]; try lia.
      * rewrite poke_ne by lia. f_equal. lia.
      * assert (x = dst) as -> by lia. rewrite poke_eq by auto. f_equal. lia.
    + destruct (Z.leb_spec (dst + 1) x), (Z.ltb_spec x (dst + 1 + Z.of_nat n)); cbn [andb]; try lia.
      apply poke_ne. lia.
    + destruct (Z.leb_spec (dst + 1) x); [lia|]. cbn. apply poke_ne. lia.
    + destruct (Z.leb_spec (dst + 1) x); [lia|]. cbn. apply poke_ne. lia.
Qed.

Lemma memcpy_spec dst src n m x :
  bytes m -> 0 <= n < 2 ^ 64 -> dst + n <= src \/ src + n <= dst ->
  memcpy dst src n m x = if (dst <=? x) && (x <? dst + n) then m (src + (x - dst)) else m x.
Proof.
  intros Hm Hn Hd. unfold memcpy. rewrite u64_id, copy_up_spec by (done || lia). by rewrite Z2Nat.id by lia.
Qed.

Lemma strcpy_spec fuel to from m l :
  str_at m from l -> (length l < fuel)%nat ->
  to + zlen l < from \/ from + zlen l < to ->
  exists m', strcpy fuel to from m = Some m' /\ str_at m' to l /\
    forall x, x < to \/ to + zlen l < x -> m' x = m x.
Proof.
  revert to from m l. induction fuel as [|fuel IH]; intros to from m l Hl Hf Hd; [lia|].
  cbn [strcpy]. destruct (str_at_first _ _ _ Hl) as (Hc & Hr). rewrite Hc. unfold char_at.
  rewrite poke_eq, i8_0 by done. destruct l as [|c l]; cbn [first] in *.
  - rewrite Z.eqb_refl. cbn [negb]. eexists. split; [done|]. split; [by apply poke_eq|].
    intros x Hx. apply poke_ne. unfold zlen in Hx. cbn in Hx. lia.
  - destruct Hl as (_ & Hc' & Hl). destruct (Z.eqb_spec c 0); [lia|]. cbn [negb].
    rewrite zlen_cons in *. pose proof (zlen_nonneg l).
    destruct (IH (to + 1) (from + 1) (poke to c m) l) as (m' & Hm' & Hs & Ho); [|cbn in Hf; lia|lia|].
    { eapply str_at_ext; [|exact Hl]. intros x Hx. apply poke_ne. lia. }
    exists m'. split; [done|]. split.
    + cbn [str_at]. split; [|done]. rewrite Ho by lia. by apply poke_eq.
    + intros x Hx. rewrite Ho by lia. apply poke_ne. lia.
Qed.

Lemma strcat_end_spec fuel to m l :
  str_at m to l -> (length l < fuel)%nat -> strcat_end fuel to m = Some (to + zlen l).
Proof.
  revert to l. induction fuel as [|fuel IH]; intros to l Hl Hf; [lia|].
  cbn [strcat_end]. destruct (str_at_first _ _ _ Hl) as (Hc & Hr). unfold char_at.
  rewrite Hc, i8_0 by done. destruct l as [|c l]; cbn [first] in *.
  - rewrite Z.eqb_refl. cbn. f_equal. unfold zlen. cbn. lia.
  - destruct Hl as (_ & Hc' & Hl). destruct (Z.eqb_spec c 0); [lia|]. cbn [negb].
    rewrite (IH _ l) by (done || cbn in Hf; lia). f_equal. rewrite zlen_cons. lia.
Qed.

Lemma strlen_loop_spec fuel m s i l :
  str_at m (s + i) l -> (length l < fuel)%nat -> strlen_loop fuel m s i = Some (i + zlen l).
Proof.
  revert i l. induction fuel as [|fuel IH]; intros i l Hl Hf; [lia|].
  cbn [strlen_loop]. destruct (str_at_first _ _ _ Hl) as (Hc & Hr). unfold char_at.
  rewrite Hc, i8_0 by done. destruct l as [|c l]; cbn [first] in *.
  - rewrite Z.eqb_refl. cbn. f_equal. unfold zlen. cbn. lia.
  - destruct Hl as (_ & Hc' & Hl). destruct (Z.eqb_spec c 0); [lia|]. cbn [negb].
    rewrite (IH _ l); [f_equal; rewrite zlen_cons; lia| |cbn in Hf; lia]. by rewrite Z.add_assoc.
Qed.

Lemma strlen_spec fuel m s l :
  str_at m s l -> (length l < fuel)%nat -> strlen fuel m s = Some (zlen l).
Proof. intros Hl Hf. unfold strlen. by rewrite (strlen_loop_spec fuel m s 0 l) by (rewrite ?Z.add_0_r; done). Qed.

(** ** Tokens *)

Definition delimb (d : list Z) (c : Z) : bool := existsb (Z.eqb c) d.

(** The maximal runs of characters that are not delimiters, [cur] being the
    beginning of the current one. *)
Fixpoint words (d : list Z) (cur l : list Z) : list (list Z) :=
  match l with
  | [] => if bool_decide (cur = []) then [] else [cur]
  | c :: l =>
      if delimb d c then (if bool_decide (cur = []) then [] else [cur]) ++ words d [] l
      else words d (cur ++ [c]) l
  end.

(** Every call but the first passes NULL; the tokens in order. *)
Fixpoint strtok_all (n fuel : nat) (s delim last : Z) (m : memory) : option (list Z * memory) :=
  match n with
  | O => None
  | S n =>
      '(tok, last, m) ← k_strtok fuel s delim last m;
      if tok =? NULL then Some ([], m) else
      '(toks, m) ← strtok_all n fuel NULL delim last m;
      Some (tok :: toks, m)
  end.

Lemma is_delim_spec fuel m p d c :
  str_at m p d -> (length d < fuel)%nat -> 0 <= c < 256 ->
  is_delim fuel m p (i8 c) = Some (delimb d c).
Proof.
  revert p d. induction fuel as [|fuel IH]; intros p d Hd Hf Hc; [lia|].
  cbn [is_delim]. destruct (str_at_first _ _ _ Hd) as (E & Hr). unfold char_at.
  rewrite E, i8_0 by done. destruct d as [|e d]; cbn [first] in *; [done|].
  destruct Hd as (_ & He & Hd). destruct (Z.eqb_spec e 0); [lia|]. cbn [delimb existsb].
  destruct (Z.eqb_spec c e) as [->|Hne]; [by rewrite Z.eqb_refl|].
  destruct (Z.eqb_spec (i8 c) (i8 e)) as [E'|]; [by apply i8_inj in E'; [|lia|lia]|].
  apply IH; [done|cbn in Hf; lia|done].
Qed.

Lemma is_delim_or_end_spec fuel m p d c :
  str_at m p d -> (length d < fuel)%nat -> 0 <= c < 256 ->
  is_delim_or_end fuel m p (i8 c) = Some ((c =? 0) || delimb d c).
Proof.
  revert p d. induction fuel as [|fuel IH]; intros p d Hd Hf Hc; [lia|].
  cbn [is_delim_or_end]. destruct (str_at_first _ _ _ Hd) as (E & Hr). unfold char_at.
  rewrite E, (i8_0 (first d)) by done. destruct d as [|e d]; cbn [first] in *.
  - change (i8 0) with 0. rewrite (Z.eqb_sym 0), i8_0 by done.
    by destruct (Z.eqb_spec c 0).
  - destruct Hd as (_ & He & Hd). destruct (Z.eqb_spec e 0); [lia|]. cbn [delimb existsb].
    destruct (Z.eqb_spec c e) as [->|Hne]; [by rewrite Z.eqb_refl, orb_true_r|].
    destruct (Z.eqb_spec (i8 e) (i8 c)) as [E'|]; [by apply i8_inj in E'; [|lia|lia]|].
    apply IH; [done|cbn in Hf; lia|done].
Qed.

Fixpoint skip_delims (d l : list Z) : list Z :=
  match l with
  | [] => []
  | c :: l' => if delimb d c then skip_delims d l' else l
  end.

Fixpoint token_of (d l : list Z) : list Z * list Z :=
  match l with
  | [] => ([], [])
  | c :: l' => if delimb d c then ([], l) else let p := token_of d l' in (c :: p.1, p.2)
  end.

Lemma token_of_app d l : (token_of d l).1 ++ (token_of d l).2 = l.
Proof. induction l as [|c l IH]; cbn; [done|]. case_match; cbn; [done|]. by rewrite IH. Qed.

Lemma skip_delims_app d l : exists k, l = k ++ skip_delims d l.
Proof.
  induction l as [|c l [k IH]]; cbn; [by exists []|]. case_match; [|by exists []].
  exists (c :: k). cbn. by rewrite <- IH.
Qed.

Lemma words_token d cur l :
  words d cur l =
    let p := token_of d l in
    (if bool_decide (cur ++ p.1 = []) then [] else [cur ++ p.1]) ++ words d [] (tail p.2).
Proof.
  revert cur. induction l as [|c l IH]; intros cur; cbn [words token_of].
  - cbn. by rewrite !app_nil_r.
  - destruct (delimb d c); cbn; [by rewrite app_nil_r|].
    rewrite IH. cbn. by rewrite <- app_assoc.
Qed.

Lemma words_skip d l : words d [] l = words d [] (skip_delims d l).
Proof. induction l as [|c l IH]; cbn; [done|]. by destruct (delimb d c) eqn:E; cbn; rewrite ?E. Qed.

Lemma skip_delims_head d l c k : skip_delims d l = c :: k -> delimb d c = false.
Proof. induction l as [|e l IH]; cbn; [done|]. case_match eqn:E; [done|]. by intros [= -> _]. Qed.

Lemma str_at_tail m a k l : str_at m a (k ++ l) -> str_at m (a + zlen k) l.
Proof.
  revert a. induction k as [|c k IH]; intros a.
  - unfold zlen. cbn. by rewrite Z.add_0_r.
  - intros (_ & _ & H%IH). by rewrite zlen_cons, Z.add_assoc.
Qed.

Lemma strtok_skip_spec fuel m s delim l d :
  str_at m s l -> str_at m delim d -> (length l + length d < fuel)%nat ->
  strtok_skip fuel m s delim =
    Some (i8 (first (skip_delims d l)), s + (zlen l - zlen (skip_delims d l)) + 1).
Proof.
  revert s l. induction fuel as [|fuel IH]; intros s l Hl Hd Hf; [lia|].
  cbn [strtok_skip]. destruct (str_at_first _ _ _ Hl) as (E & Hr). unfold char_at. rewrite E.
  rewrite (is_delim_spec _ _ _ d) by (done || lia). cbn [mbind option_bind].
  destruct l as [|c l]; cbn [first skip_delims] in *.
  - destruct (delimb d 0) eqn:E0; [|by rewrite Z.sub_diag, Z.add_0_r].
    unfold delimb in E0. apply existsb_exists in E0 as (x & Hx & H0%Z.eqb_eq).
    pose proof (str_at_chars _ _ _ Hd) as Hch. rewrite Forall_forall in Hch.
    apply list_elem_of_In in Hx. specialize (Hch x Hx). lia.
  - destruct Hl as (_ & Hc & Hl). destruct (delimb d c) eqn:Ed.
    + rewrite (IH _ l) by (done || cbn in Hf; lia). rewrite zlen_cons. f_equal. f_equal. lia.
    + cbn [first]. by rewrite Z.sub_diag, Z.add_0_r.
Qed.

Lemma strtok_scan_spec fuel m s delim l d :
  str_at m s l -> str_at m delim d -> (length l + length d < fuel)%nat ->
  strtok_scan fuel m s delim =
    let p := token_of d l in
    match p.2 with
    | [] => Some (NULL, m)
    | _ :: _ => Some (s + zlen p.1 + 1, poke (s + zlen p.1) 0 m)
    end.
Proof.
  revert s l. induction fuel as [|fuel IH]; intros s l Hl Hd Hf; [lia|].
  cbn [strtok_scan]. destruct (str_at_first _ _ _ Hl) as (E & Hr). unfold char_at. rewrite E.
  rewrite (is_delim_or_end_spec _ _ _ d) by (done || lia). cbn [mbind option_bind]. rewrite i8_0 by done.
  destruct l as [|c l]; cbn [first token_of] in *; [done|].
  destruct Hl as (_ & Hc & Hl). destruct (Z.eqb_spec c 0); [lia|]. cbn [orb].
  destruct (delimb d c) eqn:Ed; cbn [fst snd].
  - unfold zlen. cbn. by rewrite Z.add_0_r.
  - rewrite (IH _ l) by (done || cbn in Hf; lia). cbn zeta. rewrite zlen_cons.
    case_match; [done|]. do 2 f_equal; [lia|f_equal; lia].
Qed.

(** One call: the next token, terminated, and where the next call starts. *)
Lemma strtok_spec fuel m s delim last l d :
  s <> NULL -> (0 < s) -> str_at m s l -> str_at m delim d -> (length l + length d < fuel)%nat ->
  delim + zlen d < s \/ s + zlen l < delim ->
  let l' := skip_delims d l in
  let p := token_of d l' in
  let tok := s + (zlen l - zlen l') in
  k_strtok fuel s delim last m =
    match l', p.2 with
    | [], _ => Some (NULL, NULL, m)
    | _ :: _, [] => Some (tok, NULL, m)
    | _ :: _, _ :: _ => Some (tok, tok + zlen p.1 + 1, poke (tok + zlen p.1) 0 m)
    end.
Proof.
  intros Hn Hs Hl Hd Hf Hdis l' p tok. unfold k_strtok, k_strtok_r.
  destruct (Z.eqb_spec s NULL); [done|]. destruct (Z.eqb_spec s NULL); [done|].
  rewrite (strtok_skip_spec _ _ _ _ l d) by done. cbn [mbind option_bind]. fold l'.
  destruct (skip_delims_app d l) as (k & Hk). fold l' in Hk.
  assert (Hl' : str_at m tok l').
  { rewrite Hk in Hl. apply str_at_tail in Hl. unfold tok. rewrite Hk at 1. rewrite zlen_app.
    by replace (s + (zlen k + zlen l' - zlen l')) with (s + zlen k) by lia. }
  destruct (str_at_first _ _ _ Hl') as (E & Hr). rewrite i8_0 by done.
  replace (s + (zlen l - zlen l') + 1) with (tok + 1) by done. subst p. unfold l' in *.
  destruct (skip_delims d l) as [|c k'] eqn:Es; cbn [first] in *; [done|].
  destruct Hl' as (_ & Hc & Hk'). destruct (Z.eqb_spec c 0); [lia|].
  pose proof (skip_delims_head _ _ _ _ Es) as Hcd.
  assert (Hlen : (length k' < length l)%nat) by (rewrite Hk, length_app; cbn; lia).
  rewrite (strtok_scan_spec _ _ _ _ k' d) by (done || lia). cbn [token_of]. rewrite Hcd.
  cbn zeta. cbn [fst snd]. rewrite zlen_cons. destruct (token_of d k').2; cbn [mbind option_bind].
  - do 3 f_equal. lia.
  - replace (tok + 1 + zlen (token_of d k').1) with (tok + (1 + zlen (token_of d k').1)) by lia.
    do 4 f_equal; lia.
Qed.

Lemma str_at_cut m a l k :
  str_at m a (l ++ k) -> str_at (poke (a + zlen l) 0 m) a l.
Proof.
  revert a. induction l as [|c l IH]; intros a.
  - intros _. unfold zlen. cbn. rewrite Z.add_0_r. by apply poke_eq.
  - intros (Hc & Hr & Hl). pose proof (zlen_nonneg l). rewrite zlen_cons. cbn [str_at].
    split; [rewrite poke_ne by lia; done|]. split; [done|].
    replace (a + (1 + zlen l)) with (a + 1 + zlen l) by lia. by apply IH.
Qed.

(** Once the token [t] at [tok] is cut off, [r] is what the next call sees. *)
Lemma strtok_cut m tok t c r delim d :
  str_at m tok (t ++ c :: r) -> str_at m delim d ->
  delim + zlen d < tok \/ tok + zlen (t ++ c :: r) < delim ->
  let m' := poke (tok + zlen t) 0 m in
  str_at m' tok t /\ str_at m' (tok + zlen t + 1) r /\ str_at m' delim d /\
  (forall x, x < tok \/ tok + zlen (t ++ c :: r) < x -> m' x = m x).
Proof.
  intros Hl Hd Hdis m'. pose proof (zlen_nonneg t). pose proof (zlen_nonneg r).
  rewrite zlen_app, zlen_cons in *. split; [by eapply str_at_cut|].
  split; [|split].
  - apply str_at_tail in Hl as (_ & _ & Hr). eapply str_at_ext; [|exact Hr].
    intros x Hx. apply poke_ne. lia.
  - eapply str_at_ext; [|exact Hd]. intros x Hx. apply poke_ne. lia.
  - intros x Hx. apply poke_ne. lia.
Qed.

Lemma k_strtok_last fuel delim last m :
  last <> NULL -> k_strtok fuel NULL delim last m = k_strtok fuel last delim last m.
Proof. intros Hn%Z.eqb_neq. unfold k_strtok, k_strtok_r. by rewrite Z.eqb_refl, !Hn. Qed.

Lemma strtok_all_last n fuel delim last m :
  last <> NULL -> strtok_all n fuel NULL delim last m = strtok_all n fuel last delim last m.
Proof. intros Hn. destruct n; [done|]. cbn [strtok_all]. by rewrite k_strtok_last. Qed.

(** ** Characters *)

(** A boolean property of the 256 characters, by computation. *)
Lemma all_chars (f : Z -> bool) c :
  forallb f (range 0 256) = true -> 0 <= c < 256 -> f c = true.
Proof. rewrite forallb_forall. intros H Hc. apply H, list_elem_of_In, elem_range. lia. Qed.

Lemma ctype_classes c :
  0 <= c < 128 ->
  isdigit c = ((48 <=? c) && (c <=? 57)) /\ isupper c = ((65 <=? c) && (c <=? 90)) /\
  islower c = ((97 <=? c) && (c <=? 122)) /\ isalpha c = (isupper c || islower c) /\
  isalnum c = (isalpha c || isdigit c) /\
  isxdigit c = (isdigit c || ((65 <=? c) && (c <=? 70)) || ((97 <=? c) && (c <=? 102))) /\
  isspace c = ((c =? 32) || ((9 <=? c) && (c <=? 13))).
Proof.
  intros Hc.
  pose (f c := (128 <=? c) || ((Bool.eqb (isupper c) ((65 <=? c) && (c <=? 90))) &&
    (Bool.eqb (islower c) ((97 <=? c) && (c <=? 122))) &&
    (Bool.eqb (isalpha c) (isupper c || islower c)) && (Bool.eqb (isalnum c) (isalpha c || isdigit c)) &&
    (Bool.eqb (isxdigit c) (isdigit c || ((65 <=? c) && (c <=? 70)) || ((97 <=? c) && (c <=? 102)))) &&
    (Bool.eqb (isspace c) ((c =? 32) || ((9 <=? c) && (c <=? 13)))))).
  assert (H : f c = true) by (apply all_chars; [by vm_compute|lia]). unfold f in H.
  destruct (Z.leb_spec 128 c); [lia|]. cbn [orb] in H. rewrite !andb_true_iff, !Bool.eqb_true_iff in H.
  unfold isdigit at 1. tauto.
Qed.

(** Upper case comes back from lower case; [ss], 223, has no upper case, yet
    [toupper] changes it. *)
Lemma case_roundtrip c : 0 <= c < 256 -> isupper c = true -> __toupper (__tolower c) = c.
Proof.
  intros Hc Hu. pose (f c := negb (isupper c) || (__toupper (__tolower c) =? c)).
  assert (H : f c = true) by (apply all_chars; [by vm_compute|done]). unfold f in H.
  rewrite Hu in H. by apply Z.eqb_eq.
Qed.

Lemma sharp_s : islower 223 = true /\ __toupper 223 = 191 /\ __tolower 191 = 191.
Proof. by vm_compute. Qed.

(** ** Theorems *)

(** strcmp is the lexicographic comparison of the two strings as signed
    characters, and it answers 0 exactly on equal strings. *)
Theorem strcmp_order fuel m s1 s2 l1 l2 :
  str_at m s1 l1 -> str_at m s2 l2 -> (length l1 < fuel)%nat ->
  strcmp fuel m s1 s2 = Some (str_order l1 l2) /\
  (strcmp fuel m s1 s2 = Some 0 <-> l1 = l2).
Proof.
  intros H1 H2 Hf.
  assert (E : strcmp fuel m s1 s2 = Some (str_order l1 l2))
    by (apply strcmp_loop_spec; rewrite ?Z.add_0_r; done).
  split; [done|]. rewrite E. pose proof (str_order_0 l1 l2 (str_at_chars _ _ _ H1) (str_at_chars _ _ _ H2)).
  split; [intros [= E']; tauto|intros Hl; f_equal; tauto].
Qed.

(** strcat leaves at [to] the concatenation of the two strings and writes
    only the bytes after the first one, when there is room for the result beside
    the second string; its length is the sum of the lengths. *)
Theorem strcat_concat fuel to from m l1 l2 :
  str_at m to l1 -> str_at m from l2 -> (length l1 + length l2 < fuel)%nat ->
  to + zlen l1 + zlen l2 < from \/ from + zlen l2 < to ->
  exists m', strcat fuel to from m = Some m' /\ str_at m' to (l1 ++ l2) /\
    strlen fuel m' to = Some (zlen l1 + zlen l2) /\
    forall x, x < to + zlen l1 \/ to + zlen l1 + zlen l2 < x -> m' x = m x.
Proof.
  intros H1 H2 Hf Hd. pose proof (zlen_nonneg l1). unfold strcat.
  rewrite (strcat_end_spec fuel to m l1) by (done || lia). cbn [mbind option_bind].
  destruct (strcpy_spec fuel (to + zlen l1) from m l2) as (m' & Hm & Hs & Ho); [done|lia|lia|].
  assert (Ha : str_at m' to (l1 ++ l2)).
  { apply str_at_app; [by eapply str_at_chars|]. split; [|done]. intros i c Hi.
    pose proof (zlookup_lt _ _ _ Hi) as Hr. rewrite Ho by (unfold zlen; lia).
    rewrite <- (app_nil_r l1) in H1. apply str_at_app in H1 as [Hc _]; [by apply Hc|].
    rewrite app_nil_r in H1. by eapply str_at_chars. }
  exists m'. split; [done|]. split; [done|]. split; [|done].
  rewrite (strlen_spec fuel m' to _ Ha) by (rewrite length_app; lia). by rewrite zlen_app.
Qed.

Lemma strcspn_stuck fuel m str reject n :
  (char_at m (str + 1) =? 0) = false -> among n m reject (char_at m (str + 1)) = false ->
  strcspn_loop fuel m str reject n false = None.
Proof. intros Hc Ha. induction fuel as [|fuel IH]; [done|]. cbn [strcspn_loop]. by rewrite Hc, Ha. Qed.

Lemma strspn_stuck fuel m str accept n :
  (char_at m (str + 1) =? 0) = false -> strspn_loop fuel m str accept n true = None.
Proof. intros Hc. induction fuel as [|fuel IH]; [done|]. cbn [strspn_loop]. by rewrite Hc. Qed.

(** The loop conditions of strcspn and strspn assign 1 to the index: only
    the character of index 1 is ever looked at.  On a string whose second
    character is not in the set, strcspn never returns; on one whose second
    character is in the set, strspn never returns; and neither ever answers
    anything but 1. *)
Theorem spans_hang fuel m str set c0 c1 l d :
  str_at m str (c0 :: c1 :: l) -> str_at m set d -> (length d < fuel)%nat ->
  strcspn fuel m str set = (if delimb d c1 then Some 1 else None) /\
  strspn fuel m str set = (if delimb d c1 then None else Some 1).
Proof.
  intros (_ & _ & Hc & Hr & _) Hd Hf. unfold strcspn, strspn.
  rewrite (strlen_spec _ _ _ d) by done. cbn [mbind option_bind].
  assert (Hn : Z.to_nat (zlen d) = length d) by (unfold zlen; lia). rewrite Hn. clear Hn.
  assert (Ha : among (length d) m set (i8 c1) = delimb d c1).
  { clear Hf. revert set Hd. induction d as [|e d IH]; intros set Hd; [done|].
    destruct Hd as (He & Hr' & Hd). cbn [length among delimb existsb]. rewrite IH by done.
    unfold char_at. rewrite He. f_equal. destruct (Z.eqb_spec c1 e) as [->|]; [by rewrite Z.eqb_refl|].
    apply Z.eqb_neq. intros E. apply i8_inj in E; lia. }
  assert (Hz : (i8 c1 =? 0) = false) by (rewrite i8_0 by lia; apply Z.eqb_neq; lia).
  destruct fuel as [|fuel]; [lia|]. cbn [strcspn_loop strspn_loop]. unfold char_at. rewrite Hc, Hz, Ha.
  destruct (delimb d c1) eqn:E; cbn [orb negb]; split; try done.
  - by apply strspn_stuck; unfold char_at; rewrite Hc.
  - apply strcspn_stuck; unfold char_at; rewrite Hc; done.
Qed.

(** [C31] Calling k_strtok until it answers NULL cuts a string into exactly the
    maximal runs of characters that are not delimiters, in order; each answer is
    the address of a terminated token, still there at the end, and no byte
    outside of the string is written. *)
Theorem strtok_splits n fuel m s delim last l d :
  0 < s -> str_at m s l -> str_at m delim d -> (length l + length d < fuel)%nat ->
  delim + zlen d < s \/ s + zlen l < delim -> (length l < n)%nat ->
  exists toks m', strtok_all n fuel s delim last m = Some (toks, m') /\
    Forall2 (str_at m') toks (words d [] l) /\
    forall x, x < s \/ s + zlen l < x -> m' x = m x.
Proof.
  revert fuel m s last l. induction n as [|n IH]; intros fuel m s last l Hs Hl Hd Hf Hdis Hn; [lia|].
  cbn [strtok_all]. rewrite (strtok_spec fuel m s delim last l d) by (done || unfold NULL; lia).
  rewrite words_skip, words_token. cbn zeta. cbn [app].
  destruct (skip_delims_app d l) as (k & Hk).
  assert (Hl' : str_at m (s + zlen k) (skip_delims d l)) by (rewrite Hk in Hl; by apply str_at_tail in Hl).
  replace (zlen l - zlen (skip_delims d l)) with (zlen k) by (rewrite Hk at 1; rewrite zlen_app; lia).
  pose proof (zlen_nonneg k). set (tok := s + zlen k) in *.
  assert (Hlk : zlen l = zlen k + zlen (skip_delims d l)) by (rewrite Hk at 1; by rewrite zlen_app).
  assert (Hlen : length l = (length k + length (skip_delims d l))%nat)
    by (rewrite Hk at 1; by rewrite length_app).
  destruct (skip_delims d l) as [|c0 l0] eqn:Es.
  { cbn. exists [], m. by split_and!. }
  pose proof (skip_delims_head _ _ _ _ Es) as Hcd. pose proof (token_of_app d (c0 :: l0)) as Happ.
  set (p := token_of d (c0 :: l0)) in *.
  assert (Hp1 : p.1 <> []) by (unfold p; cbn [token_of]; rewrite Hcd; done).
  clearbody p.
  rewrite bool_decide_eq_false_2 by done. cbn [app].
  destruct p.2 as [|c r] eqn:E2; cbn [mbind option_bind]; rewrite ?E2 in Happ.
  - destruct (Z.eqb_spec tok NULL); [unfold NULL in *; lia|]. rewrite app_nil_r in Happ.
    destruct n as [|n']; [cbn in Hlen; lia|]. cbn [strtok_all k_strtok k_strtok_r]. cbn.
    exists [tok], m. split; [done|]. split; [|done]. constructor; [|constructor].
    by rewrite Happ.
  - destruct (Z.eqb_spec tok NULL); [unfold NULL in *; lia|].
    rewrite <- Happ in Hl', Hlk, Hlen. pose proof (zlen_nonneg p.1). pose proof (zlen_nonneg r).
    destruct (strtok_cut m tok p.1 c r delim d Hl' Hd) as (Ht & Hr & Hd' & Ho); [lia|].
    rewrite length_app in Hlen. rewrite zlen_app, zlen_cons in *. cbn [length] in Hlen.
    rewrite strtok_all_last by (unfold NULL; lia).
    destruct (IH fuel (poke (tok + zlen p.1) 0 m) (tok + zlen p.1 + 1) (tok + zlen p.1 + 1) r)
      as (toks & m' & Hm' & Hw & Ho'); [lia|done|done|lia|lia|lia|].
    rewrite Hm'. cbn [mbind option_bind]. exists (tok :: toks), m'. split; [done|]. split.
    + constructor; [|done]. eapply str_at_ext; [|exact Ht]. intros x Hx. apply Ho'. lia.
    + intros x Hx. rewrite Ho' by lia. apply Ho. lia.
Qed.

(** ** Witnesses *)

(** The memory that holds [l] at [a], and zeroes elsewhere than in [m]. *)
Definition put (a : Z) (l : list Z) (m : memory) : memory :=
  fun x => if (a <=? x) && (x <? a + zlen l) then default 0 (zlookup l (x - a)) else m x.

(** "ab,;c" at 100, ",;" at 200, "abd" at 300 *)
Definition text_demo : memory :=
  put 100 [97; 98; 44; 59; 99] (put 200 [44; 59] (put 300 [97; 98; 100] (fun _ => 0))).

Lemma strcmp_order_witness :
  strcmp 10 text_demo 100 300 = Some (str_order [97; 98; 44; 59; 99] [97; 98; 100]) /\
  (strcmp 10 text_demo 100 300 = Some 0 <-> [97; 98; 44; 59; 99] = [97; 98; 100]).
Proof. apply (strcmp_order 10 text_demo 100 300); [by vm_compute|by vm_compute|cbn; lia]. Defined.

Lemma strcat_concat_witness :
  exists m', strcat 10 300 100 text_demo = Some m' /\
    str_at m' 300 [97; 98; 100; 97; 98; 44; 59; 99] /\ strlen 10 m' 300 = Some 8 /\
    forall x, x < 303 \/ 308 < x -> m' x = text_demo x.
Proof.
  apply (strcat_concat 10 300 100 text_demo [97; 98; 100] [97; 98; 44; 59; 99]);
    [by vm_compute|by vm_compute|cbn; lia|right; vm_compute; done].
Defined.

Lemma spans_hang_witness :
  strcspn 10 text_demo 100 200 = None /\ strspn 10 text_demo 100 200 = Some 1.
Proof. apply (spans_hang 10 text_demo 100 200 97 98 [44; 59; 99] [44; 59]); [by vm_compute|by vm_compute|cbn; lia]. Defined.

Lemma strtok_splits_witness :
  exists toks m', strtok_all 6 10 100 200 0 text_demo = Some (toks, m') /\
    Forall2 (str_at m') toks [[97; 98]; [99]] /\
    forall x, x < 100 \/ 105 < x -> m' x = text_demo x.
Proof.
  apply (strtok_splits 6 10 text_demo 100 200 0 [97; 98; 44; 59; 99] [44; 59]);
    [lia|by vm_compute|by vm_compute|cbn; lia|right; vm_compute; done|cbn; lia].
Defined.
