(* ===== verification/Memory.v ===== *)
(** * Memory: words of the byte memory

    The little-endian words of 16, 32 and 64 bits that the kernel reads and
    writes through pointers to short, int and long, and the bytes of a list
    stored one after the other. *)
From Stdlib Require Import ZArith Lia.
From stdpp Require Import base gmap list strings.
From S2P Require Import Config Prelude Strings.

#[local] Open Scope Z_scope.
#[local] Open Scope gramado_scope.

(** ** Loads and stores *)
Definition load16 (m : memory) (a : Z) : Z := m a + 2 ^ 8 * m (a + 1).
Definition load32 (m : memory) (a : Z) : Z := load16 m a + 2 ^ 16 * load16 m (a + 2).
Definition store16 (a v : Z) (m : memory) : memory := poke (a + 1) (Z.shiftr v 8) (poke a v m).

Definition load64 (m : memory) (a : Z) : Z := load32 m a + 2 ^ 32 * load32 m (a + 4).

(** The bytes [l] are stored at [a]. *)
Fixpoint poke_list (a : Z) (l : list Z) (m : memory) : memory :=
  match l with [] => m | c :: l => poke_list (a + 1) l (poke a c m) end.

Definition byte_of (v i : Z) : Z := u8 (Z.shiftr v (8 * i)).
Definition store64 (a v : Z) (m : memory) : memory := poke_list a (byte_of v <$> range 0 8) m.

(** ** Lemmas *)

Lemma bytes_poke a v m : bytes m -> bytes (poke a v m).
Proof. intros Hm x. unfold poke. case_match; [unfold u8; apply Z.mod_pos_bound; lia|apply Hm]. Qed.

Lemma load16_range m a : bytes m -> 0 <= load16 m a < 2 ^ 16.
Proof. intros Hm. unfold load16. pose proof (Hm a). pose proof (Hm (a + 1)). lia. Qed.

Lemma load32_range m a : bytes m -> 0 <= load32 m a < 2 ^ 32.
Proof. intros Hm. unfold load32. pose proof (load16_range m a Hm). pose proof (load16_range m (a + 2) Hm). lia. Qed.

Lemma load16_ext m m' a : m' a = m a -> m' (a + 1) = m (a + 1) -> load16 m' a = load16 m a.
Proof. unfold load16. by intros -> ->. Qed.

Lemma load32_ext m m' a : (forall x, a <= x < a + 4 -> m' x = m x) -> load32 m' a = load32 m a.
Proof.
  intros H. unfold load32. rewrite !(load16_ext m m'); [done|apply H; lia..].
Qed.

Lemma store16_eq a v m : 0 <= v < 2 ^ 16 -> load16 (store16 a v m) a = v.
Proof.
  intros Hv. unfold load16, store16. rewrite poke_ne by lia. unfold poke. rewrite !Z.eqb_refl.
  rewrite Z.shiftr_div_pow2 by lia. unfold u8. rewrite (Z.mod_small (v / 2 ^ 8)).
  - pose proof (Z.div_mod v (2 ^ 8)). lia.
  - split; [apply Z.div_pos; lia|apply Z.div_lt_upper_bound; lia].
Qed.

Lemma store16_ne a v m x : x <> a -> x <> a + 1 -> store16 a v m x = m x.
Proof. intros. unfold store16. by rewrite !poke_ne by lia. Qed.

Lemma bytes_store16 a v m : bytes m -> bytes (store16 a v m).
Proof. intros. unfold store16. auto using bytes_poke. Qed.

Lemma poke_list_spec a l m x :
  Forall (fun c => 0 <= c < 256) l ->
  poke_list a l m x = if (a <=? x) && (x <? a + zlen l) then default 0 (zlookup l (x - a)) else m x.
Proof.
  intros Hl. revert a m. induction Hl as [|c l Hc Hl IH]; intros a m; cbn [poke_list].
  - change (zlen (@nil Z)) with 0. repeat ztest; cbn [andb]; done || lia.
  - rewrite IH, zlen_cons. pose proof (zlen_nonneg l). destruct (decide (x = a)) as [->|N].
    + zguard. by rewrite Z.sub_diag, poke_eq.
    + rewrite poke_ne by done. destruct (Z.leb_spec (a + 1) x), (Z.ltb_spec x (a + 1 + zlen l)),
        (Z.leb_spec a x), (Z.ltb_spec x (a + (1 + zlen l))); cbn [andb]; try lia; try done.
      replace (x - a) with (1 + (x - (a + 1))) by lia. by rewrite zlookup_cons_S by lia.
Qed.

Lemma poke_list_ext a l m m' x : m' x = m x -> poke_list a l m' x = poke_list a l m x.
Proof.
  revert a m m'. induction l as [|c l IH]; intros a m m' H; cbn [poke_list]; [done|].
  apply IH. unfold poke. by case_match.
Qed.

Lemma bytes_poke_list a l m : bytes m -> bytes (poke_list a l m).
Proof. revert a m. induction l as [|c l IH]; intros a m Hm; cbn [poke_list]; auto using bytes_poke. Qed.

Lemma two_bytes c : 0 <= c < 2 ^ 16 -> u8 c + 2 ^ 8 * u8 (Z.shiftr c 8) = c.
Proof.
  intros Hc. rewrite Z.shiftr_div_pow2 by lia. unfold u8. rewrite (Z.mod_small (c / 2 ^ 8)).
  - pose proof (Z.div_mod c (2 ^ 8)). lia.
  - split; [apply Z.div_pos; lia|apply Z.div_lt_upper_bound; lia].
Qed.

Lemma four_bytes c : 0 <= c < 2 ^ 32 ->
  u8 (Z.shiftr c 0) + 2 ^ 8 * u8 (Z.shiftr c 8) + 2 ^ 16 * (u8 (Z.shiftr c 16) + 2 ^ 8 * u8 (Z.shiftr c 24)) = c.
Proof.
  intros Hc. rewrite !Z.shiftr_div_pow2 by lia. unfold u8. change (2 ^ 0) with 1. rewrite Z.div_1_r.
  replace (2 ^ 24) with (2 ^ 16 * 2 ^ 8) by done. rewrite <- (Z.div_div c (2 ^ 16)) by lia.
  rewrite (Z.mod_small (c / 2 ^ 16 / 2 ^ 8)).
  - replace (2 ^ 16) with (2 ^ 8 * 2 ^ 8) by done. rewrite <- !Z.div_div by lia.
    pose proof (Z.div_mod c (2 ^ 8)). pose proof (Z.div_mod (c / 2 ^ 8) (2 ^ 8)).
    pose proof (Z.div_mod (c / 2 ^ 8 / 2 ^ 8) (2 ^ 8)). lia.
  - split; [apply Z.div_pos; [apply Z.div_pos|]; lia|]. apply Z.div_lt_upper_bound; [lia|].
    apply Z.div_lt_upper_bound; lia.
Qed.

Lemma load64_range m a : bytes m -> 0 <= load64 m a < 2 ^ 64.
Proof. intros Hm. unfold load64. pose proof (load32_range m a Hm). pose proof (load32_range m (a + 4) Hm). lia. Qed.

Lemma load64_ext m m' a : (forall x, a <= x < a + 8 -> m' x = m x) -> load64 m' a = load64 m a.
Proof. intros H. unfold load64. rewrite !(load32_ext m m'); [done|intros; apply H; lia..]. Qed.

Lemma byte_of_range v i : 0 <= byte_of v i < 256.
Proof. unfold byte_of, u8. apply Z.mod_pos_bound. lia. Qed.

Lemma byte_of_low v i : 0 <= i < 4 -> byte_of v i = byte_of (v mod 2 ^ 32) i.
Proof.
  intros Hi. unfold byte_of, u8. apply Z.bits_inj'. intros n Hn. rewrite !Z.testbit_mod_pow2 by lia.
  destruct (Z.ltb_spec n 8); [|done]. cbn [andb]. rewrite !Z.shiftr_spec, Z.testbit_mod_pow2 by lia.
  destruct (Z.ltb_spec (n + 8 * i) 32); [done|lia].
Qed.

Lemma byte_of_high v i : 0 <= i -> byte_of v (4 + i) = byte_of (v / 2 ^ 32) i.
Proof.
  intros Hi. unfold byte_of. rewrite <- Z.shiftr_div_pow2 by lia. rewrite Z.shiftr_shiftr by lia. do 2 f_equal. lia.
Qed.

Lemma four_bytes_of c : 0 <= c < 2 ^ 32 ->
  byte_of c 0 + 2 ^ 8 * byte_of c 1 + 2 ^ 16 * (byte_of c 2 + 2 ^ 8 * byte_of c 3) = c.
Proof. apply four_bytes. Qed.

Lemma store64_at a v m x : store64 a v m x = if (a <=? x) && (x <? a + 8) then byte_of v (x - a) else m x.
Proof.
  unfold store64. rewrite poke_list_spec by (apply Forall_fmap, Forall_forall; intros i _; apply byte_of_range).
  change (zlen (byte_of v <$> range 0 8)) with 8. destruct (Z.leb_spec a x), (Z.ltb_spec x (a + 8)); cbn [andb]; try done.
  assert (x - a = 0 \/ x - a = 1 \/ x - a = 2 \/ x - a = 3 \/ x - a = 4 \/ x - a = 5 \/ x - a = 6 \/ x - a = 7) as Hc by lia.
  destruct_or! Hc; by rewrite Hc.
Qed.

Lemma store64_ne a v m x : x < a \/ a + 8 <= x -> store64 a v m x = m x.
Proof. intros. rewrite store64_at. repeat ztest; cbn [andb]; done || lia. Qed.

Lemma bytes_store64 a v m : bytes m -> bytes (store64 a v m).
Proof. intros. by apply bytes_poke_list. Qed.

Lemma load64_store64 a v m : 0 <= v < 2 ^ 64 -> load64 (store64 a v m) a = v.
Proof.
  intros Hv. assert (forall x, a <= x < a + 8 -> store64 a v m x = byte_of v (x - a)) as H
    by (intros x Hx; rewrite store64_at; by zguard).
  unfold load64, load32, load16. rewrite !H by lia.
  replace (a - a) with 0 by lia. replace (a + 1 - a) with 1 by lia. replace (a + 2 - a) with 2 by lia.
  replace (a + 2 + 1 - a) with 3 by lia. replace (a + 4 - a) with (4 + 0) by lia. replace (a + 4 + 1 - a) with (4 + 1) by lia.
  replace (a + 4 + 2 - a) with (4 + 2) by lia. replace (a + 4 + 2 + 1 - a) with (4 + 3) by lia.
  assert (0 <= v mod 2 ^ 32 < 2 ^ 32) as Hl by (apply Z.mod_pos_bound; lia).
  assert (0 <= v / 2 ^ 32 < 2 ^ 32) as Hh by (split; [apply Z.div_pos; lia|apply Z.div_lt_upper_bound; lia]).
  rewrite !byte_of_high, !(byte_of_low v), !four_bytes_of by (done || lia). pose proof (Z.div_mod v (2 ^ 32)). lia.
Qed.

Lemma load64_store64_ne a b v m : b + 8 <= a \/ a + 8 <= b -> load64 (store64 a v m) b = load64 m b.
Proof. intros H. apply load64_ext. intros x Hx. apply store64_ne. lia. Qed.
