(* ===== verification/Format.v ===== *)
(** * Format: numbers to text and back

    [k_atoi] of [libk/kstdlib.c] and the formatting routines of [libk/kstdio.c]:
    [prints], [printi], [print], and the ones behind [printk] and [ksprintf],
    [kinguio_itoa], [kinguio_i2hex] and [kinguio_vsprintf].  A C string is the
    list of its characters before the terminator; what a routine prints, in the
    buffer or on the screen, is the list of the characters in order, and its
    length is the count that the routine returns. *)
From Stdlib Require Import ZArith Lia.
From stdpp Require Import base gmap list strings.
From S2P Require Import Config Prelude.

#[local] Open Scope Z_scope.

(** ** kstdlib.c *)

(** Skip to the first digit or sign, then read digits. *)
Fixpoint atoi_skip (str : list Z) : list Z :=
  match str with
  | [] => []
  | c :: str' =>
      if c =? 0 then str
      else if (c <=? 57) && (48 <=? c) then str
      else if (c =? 45) || (c =? 43) then str
      else atoi_skip str'
  end.

Fixpoint atoi_digits (rv : Z) (str : list Z) : Z :=
  match str with
  | [] => rv
  | c :: str' =>
      if negb (c =? 0) && (48 <=? c) && (c <=? 57)
      then atoi_digits (i32 (i32 (rv * 10) + (c - 48))) str'
      else rv
  end.

Definition k_atoi (str : list Z) : Z :=
  let str := atoi_skip str in
  match str with
  | [] => 0
  | c :: str' =>
      let sign := c =? 45 in
      let str := if (c =? 45) || (c =? 43) then str' else str in
      let rv := atoi_digits 0 str in
      if sign then i32 (- rv) else rv
  end.

(** ** kstdio.c: prints, printi *)

Definition PAD_RIGHT : Z := 1.
Definition PAD_ZERO : Z := 2.
Definition PRINT_BUF_LEN : Z := 12.

Definition prints (string : list Z) (width pad : Z) : list Z :=
  let len := Z.of_nat (length string) in
  let padchar := if (0 <? width) && negb (Z.land pad PAD_ZERO =? 0) then 48 else 32 in
  let width := if 0 <? width then (if width <=? len then 0 else width - len) else width in
  let blanks := replicate (Z.to_nat width) padchar in
  if Z.land pad PAD_RIGHT =? 0 then blanks ++ string else string ++ blanks.

(** [while (u)]: the digits are stored from the end of [print_buf]; [None]: they
    do not fit. *)
Fixpoint printi_digits (fuel : nat) (b letbase u : Z) (s : list Z) : option (list Z) :=
  if u =? 0 then Some s else
  match fuel with
  | O => None
  | S fuel =>
      let t := u mod b in
      let t := if 10 <=? t then t + (letbase - 48 - 10) else t in
      printi_digits fuel b letbase (u / b) ((t + 48) :: s)
  end.

Definition printi (i b sg width pad letbase : Z) : option (list Z) :=
  if i =? 0 then Some (prints [48] width pad) else
  let neg := negb (sg =? 0) && (b =? 10) && (i <? 0) in
  let u := if neg then u32 (- i) else u32 i in
  s ← printi_digits (Z.to_nat (PRINT_BUF_LEN - 1)) b letbase u [];
  if neg then
    if negb (width =? 0) && negb (Z.land pad PAD_ZERO =? 0)
    then Some (45 :: prints s (width - 1) pad)
    else Some (prints (45 :: s) width pad)
  else Some (prints s width pad).

(** ** kstdio.c: print *)

(** [while ( *format == '0')] *)
Fixpoint zero_flags (format : list Z) : bool * list Z :=
  match format with
  | c :: f => if c =? 48 then (true, snd (zero_flags f)) else (false, format)
  | [] => (false, [])
  end.

Fixpoint read_width (width : Z) (format : list Z) : Z * list Z :=
  match format with
  | c :: f => if (48 <=? c) && (c <=? 57) then read_width (i32 (width * 10 + (c - 48))) f
              else (width, format)
  | [] => (width, [])
  end.

(** A variadic argument: an integer or a pointer to a string, maybe NULL. *)
Inductive va : Type := VaInt (v : Z) | VaStr (s : option (list Z)).

Definition null_text : list Z := [60; 78; 85; 76; 76; 62].   (* <NULL> *)

(** One conversion of [print]: [None] when the argument has another type; an
    unknown conversion prints nothing. *)
Definition print_one (c width pad : Z) (varg : list va) : option (list Z * list va) :=
  let number (b sg letbase : Z) :=
    match varg with
    | VaInt v :: varg => s ← printi (i32 v) b sg width pad letbase; Some (s, varg)
    | _ => None
    end in
  if c =? 115 then
    match varg with VaStr s :: varg => Some (prints (default null_text s) width pad, varg) | _ => None end
  else if c =? 100 then number 10 1 97
  else if c =? 120 then number 16 0 97
  else if c =? 88 then number 16 0 65
  else if c =? 117 then number 10 0 97
  else if c =? 99 then
    match varg with
    | VaInt v :: varg => Some (prints (if u8 v =? 0 then [] else [u8 v]) width pad, varg)
    | _ => None
    end
  else Some ([], varg).

(** [fuel] is the length of the format.  A format that ends inside a conversion
    is read beyond its terminator: [None]. *)
Fixpoint print_loop (fuel : nat) (format : list Z) (varg : list va) : option (list Z) :=
  match fuel with
  | O => Some []
  | S fuel =>
      match format with
      | [] => Some []
      | c :: f =>
          if negb (c =? 37) then rest ← print_loop fuel f varg; Some (c :: rest) else
          match f with
          | [] => Some []
          | d :: f' =>
              if d =? 37 then rest ← print_loop fuel f' varg; Some (37 :: rest) else
              let right := d =? 45 in
              let '(zero, f) := zero_flags (if right then f' else f) in
              let pad := (if right then PAD_RIGHT else 0) + (if zero then PAD_ZERO else 0) in
              let '(width, f) := read_width 0 f in
              match f with
              | [] => None
              | conv :: f =>
                  '(s, varg) ← print_one conv width pad varg;
                  rest ← print_loop fuel f varg;
                  Some (s ++ rest)
              end
          end
      end
  end.

Definition print (format : list Z) (varg : list va) : option (list Z) :=
  print_loop (length format) format varg.

(** ** kstdio.c: kinguio *)

Fixpoint i2hex_digits (len : nat) (n : Z) (dest : list Z) : list Z :=
  match len with
  | O => dest
  | S len =>
      let x := Z.land n 15 in
      i2hex_digits len (Z.shiftr n 4) ((x + (if 8 + 1 <? x then 65 - 10 else 48)) :: dest)
  end.

Fixpoint strip_zeros (dest : list Z) : list Z :=
  match dest with
  | [] => []
  | c :: l => if c =? 48 then strip_zeros l else dest
  end.

Definition kinguio_i2hex (val : Z) (len : nat) : list Z :=
  if val =? 0 then [48] else strip_zeros (i2hex_digits len val []).

(** [do ... while (value)]: the digits, the units first. *)
Fixpoint itoa_digits (fuel : nat) (value : Z) : list Z :=
  match fuel with
  | O => []
  | S fuel => (value mod 10 + 48) :: (if value / 10 =? 0 then [] else itoa_digits fuel (value / 10))
  end.

Definition INT_MAX : Z := 2147483647.

(** [++*valuestring], the units digit *)
Definition bump (ds : list Z) : list Z := match ds with [] => [] | c :: l => (c + 1) :: l end.

Definition kinguio_itoa (val : Z) : list Z :=
  if val <? 0 then
    let min_flag := val <? - INT_MAX in
    let value := if min_flag then INT_MAX else - val in
    let ds := itoa_digits 10 value in
    45 :: rev (if min_flag then bump ds else ds)
  else rev (itoa_digits 10 val).

(** One conversion: the text and the arguments left; [None]: the argument has
    another type. *)
Definition convert (c : Z) (ap : list va) : option (list Z * list va) :=
  if c =? 99 then                                             (* c *)
    match ap with
    | VaInt v :: ap => Some (if i8 v =? 0 then [] else [u8 v], ap)
    | _ => None
    end
  else if c =? 115 then                                       (* s *)
    match ap with
    | VaStr s :: ap => Some (default null_text s, ap)
    | _ => None
    end
  else if (c =? 100) || (c =? 105) then                       (* d, i *)
    match ap with VaInt v :: ap => Some (kinguio_itoa (i32 v), ap) | _ => None end
  else if c =? 117 then                                       (* u: an unsigned char *)
    match ap with VaInt v :: ap => Some (kinguio_itoa (u8 v), ap) | _ => None end
  else if (c =? 88) || (c =? 120) then                        (* X, x *)
    match ap with VaInt v :: ap => Some (kinguio_i2hex (u32 v) 8, ap) | _ => None end
  else Some ([37; 37], ap).

(** A format that ends in [%] is read beyond its terminator: [None]. *)
Fixpoint kinguio_vsprintf (fmt : list Z) (ap : list va) : option (list Z) :=
  match fmt with
  | [] => Some []
  | c :: fmt' =>
      if c =? 37 then
        match fmt' with
        | [] => None
        | d :: fmt'' =>
            '(text, ap) ← convert d ap;
            rest ← kinguio_vsprintf fmt'' ap;
            Some (text ++ rest)
        end
      else
        rest ← kinguio_vsprintf fmt' ap;
        Some (c :: rest)
  end.

(** ** k_atoi *)

(** The digits of a number in base [b], [dc] giving their characters; decimal
    numbers with their sign. *)
Fixpoint digits_in (b : Z) (dc : Z -> Z) (fuel : nat) (n : Z) : list Z :=
  match fuel with
  | O => []
  | S fuel => (if n <? b then [] else digits_in b dc fuel (n / b)) ++ [dc (n mod b)]
  end.

Definition dec_char (d : Z) : Z := 48 + d.
Definition hex_char (a : Z) (d : Z) : Z := if d <? 10 then 48 + d else a + (d - 10).

Definition digits : nat -> Z -> list Z := digits_in 10 dec_char.

Lemma digits_S fuel n :
  digits (S fuel) n = (if n <? 10 then [] else digits fuel (n / 10)) ++ [48 + n mod 10].
Proof. done. Qed.

Definition decimal (n : Z) : list Z :=
  if n <? 0 then 45 :: digits 10 (- n) else digits 10 n.

Definition is_digit (c : Z) : Prop := 48 <= c <= 57.

(** The end of a number: the end of the string or any byte but a digit. *)
Definition number_end (str : list Z) : Prop :=
  match str with [] => True | c :: _ => c = 0 \/ ~ is_digit c end.

(** The text before a number: neither a digit nor a sign nor the end. *)
Definition is_junk (c : Z) : Prop := c <> 0 /\ ~ is_digit c /\ c <> 45 /\ c <> 43.

Lemma atoi_skip_junk junk str :
  Forall is_junk junk -> atoi_skip (junk ++ str) = atoi_skip str.
Proof.
  induction junk as [|c junk IH]; intros H; [done|].
  apply Forall_cons in H as [(H0 & Hd & H1 & H2) Hj]. cbn. unfold is_digit in Hd.
  zguard. destruct (Z.leb_spec c 57), (Z.leb_spec 48 c); cbn; try lia; by apply IH.
Qed.

Lemma atoi_digits_end rv str : number_end str -> atoi_digits rv str = rv.
Proof.
  destruct str as [|c str]; [done|]. cbn. unfold is_digit. intros H.
  destruct (Z.eqb_spec c 0), (Z.leb_spec 48 c), (Z.leb_spec c 57); cbn; done || lia.
Qed.

Lemma digits_spec fuel n rest rv :
  0 <= n < 10 ^ Z.of_nat fuel -> (0 < fuel)%nat -> rv = 0 -> n < 2 ^ 31 ->
  atoi_digits rv (digits fuel n ++ rest) = atoi_digits n rest.
Proof.
  revert n rest. induction fuel as [|fuel IH]; intros n rest Hn Hf -> Hm; [lia|]. rewrite digits_S.
  pose proof (Z.mod_pos_bound n 10). pose proof (Z.div_mod n 10).
  rewrite Nat2Z.inj_succ, Z.pow_succ_r in Hn by lia.
  assert (Hd : forall r, 0 <= r < 10 -> forall v, atoi_digits v ((48 + r) :: rest) =
    atoi_digits (i32 (i32 (v * 10) + r)) rest).
  { intros r Hr v. cbn [atoi_digits]. zguard. by rewrite Z.add_simpl_l. }
  destruct (Z.ltb_spec n 10).
  - cbn [app]. rewrite Hd by lia. f_equal. rewrite Z.mod_small by lia.
    change (i32 (0 * 10)) with 0. by rewrite i32_id by lia.
  - rewrite <- app_assoc. rewrite IH; [|split; lia| |done|lia].
    + cbn [app]. rewrite Hd by lia. f_equal. rewrite (i32_id (n / 10 * 10)) by lia.
      rewrite i32_id by lia. lia.
    + destruct fuel; [cbn in Hn; lia|lia].
Qed.

Lemma digits_first fuel n : 0 <= n -> (0 < fuel)%nat ->
  exists c ds, digits fuel n = c :: ds /\ is_digit c.
Proof.
  revert n. induction fuel as [|fuel IH]; intros n Hn Hf; [lia|]. rewrite digits_S.
  pose proof (Z.mod_pos_bound n 10). unfold is_digit in *.
  destruct (n <? 10); [exists (48 + n mod 10), []; split; [done|lia]|].
  destruct fuel as [|fuel]; [exists (48 + n mod 10), []; split; [done|lia]|].
  destruct (IH (n / 10)) as (c & ds & Hc & Hd); [apply Z.div_pos; lia|lia|].
  rewrite Hc. by exists c, (ds ++ [48 + n mod 10]).
Qed.

Lemma atoi_zeros z str : atoi_digits 0 (replicate z 48 ++ str) = atoi_digits 0 str.
Proof. induction z as [|z IH]; [done|]. cbn [replicate app atoi_digits]. exact IH. Qed.

(** k_atoi on a number with a sign, zeroes before it, and text around. *)
Lemma atoi_number junk (neg : bool) z n rest :
  Forall is_junk junk -> 0 <= n < 2 ^ 31 -> number_end rest ->
  k_atoi (junk ++ (if neg then [45] else []) ++ replicate z 48 ++ digits 10 n ++ rest) =
    if neg then - n else n.
Proof.
  intros Hj Hn He. unfold k_atoi. rewrite atoi_skip_junk by done.
  assert (Hd : atoi_digits 0 (replicate z 48 ++ digits 10 n ++ rest) = n).
  { rewrite atoi_zeros, digits_spec by (cbn; lia). by apply atoi_digits_end. }
  destruct neg; cbn [app].
  - assert (E : forall l, atoi_skip (45 :: l) = 45 :: l) by done. rewrite E.
    cbn [Z.eqb Pos.eqb orb]. rewrite Hd. apply i32_id. lia.
  - destruct (digits_first 10 n) as (c & ds & Hc & Hdc); [lia|lia|]. unfold is_digit in Hdc.
    assert (exists c' ds', replicate z 48 ++ digits 10 n ++ rest = c' :: ds' /\ 48 <= c' <= 57)
      as (c' & ds' & Hc' & Hdc').
    { rewrite Hc. destruct z as [|z]; cbn; eauto with lia. }
    rewrite Hc' in *. cbn [atoi_skip]. zguard. cbn [andb orb]. zguard. exact Hd.
Qed.

(** ** Printing *)

Lemma printi_digits_spec fuel b letbase u s :
  2 <= b <= 16 -> 0 < u < b ^ Z.of_nat fuel ->
  printi_digits fuel b letbase u s = Some (digits_in b (hex_char letbase) fuel u ++ s).
Proof.
  revert u s. induction fuel as [|fuel IH]; intros u s Hb Hu; [cbn in Hu; lia|].
  rewrite Nat2Z.inj_succ, Z.pow_succ_r in Hu by lia.
  cbn [printi_digits digits_in]. destruct (Z.eqb_spec u 0); [lia|]. cbn zeta.
  pose proof (Z.mod_pos_bound u b). pose proof (Z.div_mod u b).
  assert (Hc : (if 10 <=? u mod b then u mod b + (letbase - 48 - 10) else u mod b) + 48 =
    hex_char letbase (u mod b)).
  { unfold hex_char. destruct (Z.leb_spec 10 (u mod b)), (Z.ltb_spec (u mod b) 10); lia. }
  rewrite Hc. destruct (Z.ltb_spec u b).
  - rewrite Z.div_small by lia. destruct fuel; done.
  - rewrite IH; [by rewrite <- app_assoc|done|]. nia.
Qed.

Lemma digits_in_ext b f g fuel n :
  0 < b -> (forall d, 0 <= d < b -> f d = g d) -> digits_in b f fuel n = digits_in b g fuel n.
Proof.
  intros Hb Hfg. revert n. induction fuel as [|fuel IH]; intros n; cbn; [done|].
  rewrite Hfg by (apply Z.mod_pos_bound; lia). case_match; [done|]. by rewrite IH.
Qed.

(** More fuel changes nothing. *)
Lemma digits_in_fuel b dc fuel n :
  2 <= b -> 0 <= n < b ^ Z.of_nat fuel -> (0 < fuel)%nat ->
  digits_in b dc (S fuel) n = digits_in b dc fuel n.
Proof.
  revert n. induction fuel as [|fuel IH]; intros n Hb Hn Hf; [lia|].
  rewrite Nat2Z.inj_succ, Z.pow_succ_r in Hn by lia.
  change (digits_in b dc (S (S fuel)) n) with
    ((if n <? b then [] else digits_in b dc (S fuel) (n / b)) ++ [dc (n mod b)]).
  change (digits_in b dc (S fuel) n) with
    ((if n <? b then [] else digits_in b dc fuel (n / b)) ++ [dc (n mod b)]).
  destruct (Z.ltb_spec n b); [done|]. f_equal.
  destruct fuel as [|fuel]; [cbn in Hn; lia|]. apply IH; [done| |lia].
  split; [apply Z.div_pos; lia|apply Z.div_lt_upper_bound; lia].
Qed.

Lemma itoa_digits_spec fuel n :
  0 <= n < 10 ^ Z.of_nat fuel -> (0 < fuel)%nat -> rev (itoa_digits fuel n) = digits fuel n.
Proof.
  revert n. induction fuel as [|fuel IH]; intros n Hn Hf; [lia|].
  rewrite Nat2Z.inj_succ, Z.pow_succ_r in Hn by lia.
  rewrite digits_S. cbn [itoa_digits rev]. rewrite (Z.add_comm _ 48).
  destruct (Z.ltb_spec n 10).
  - by rewrite Z.div_small by lia.
  - destruct (Z.eqb_spec (n / 10) 0) as [E|E]; [apply Z.div_small_iff in E; lia|].
    rewrite IH; [done| |destruct fuel; [cbn in Hn; lia|lia]].
    split; [apply Z.div_pos; lia|apply Z.div_lt_upper_bound; lia].
Qed.

Lemma digits_length fuel n : (length (digits fuel n) <= fuel)%nat.
Proof.
  revert n. induction fuel as [|fuel IH]; intros n; [cbn; lia|]. rewrite digits_S, length_app. cbn.
  case_match; cbn; [lia|]. specialize (IH (n / 10)). lia.
Qed.

Lemma prints_0 s pad : prints s 0 pad = s.
Proof. unfold prints. cbn. case_match; [done|apply app_nil_r]. Qed.

(** The digits that [printi] stores. *)
Lemma printi_decimal_digits u :
  0 < u < 2 ^ 32 -> printi_digits 11 10 97 u [] = Some (digits 10 u).
Proof.
  intros Hu. rewrite printi_digits_spec by (cbn; lia). rewrite app_nil_r. f_equal. unfold digits.
  rewrite digits_in_fuel by (cbn; lia). apply digits_in_ext; [lia|].
  intros d Hd. unfold hex_char, dec_char. destruct (Z.ltb_spec d 10); lia.
Qed.

Lemma u32_neg i : - 2 ^ 31 <= i < 0 -> u32 (- i) = - i.
Proof. intros. apply u32_id. lia. Qed.

(** [printi] in base 10, on every number. *)
Lemma printi_10 i width pad :
  - 2 ^ 31 <= i < 2 ^ 31 ->
  printi i 10 1 width pad 97 =
    Some (if (i <? 0) && negb (width =? 0) && negb (Z.land pad PAD_ZERO =? 0)
          then 45 :: prints (digits 10 (- i)) (width - 1) pad
          else prints (decimal i) width pad).
Proof.
  intros Hi. unfold printi, decimal. cbn [negb Z.eqb Pos.eqb andb].
  destruct (Z.eqb_spec i 0) as [->|]; [done|].
  change (Z.to_nat (PRINT_BUF_LEN - 1)) with 11%nat.
  destruct (Z.ltb_spec i 0); cbn [andb].
  - rewrite u32_neg by lia. rewrite printi_decimal_digits by lia. cbn [mbind option_bind].
    by destruct (_ && _).
  - rewrite u32_id by lia. by rewrite printi_decimal_digits by lia.
Qed.

(** [kinguio_itoa] too, the smallest number included. *)
Lemma itoa_decimal v : - 2 ^ 31 <= v < 2 ^ 31 -> kinguio_itoa v = decimal v.
Proof.
  intros Hv. unfold kinguio_itoa, decimal, INT_MAX. cbv zeta. destruct (Z.ltb_spec v 0).
  - destruct (v <? Z.opp 2147483647) eqn:E.
    + assert (v = -2147483648) as -> by lia. by vm_compute.
    + by rewrite itoa_digits_spec by (cbn; lia).
  - by rewrite itoa_digits_spec by (cbn; lia).
Qed.
(** Hexadecimal *)

Definition hex_digits : Z -> list Z := digits_in 16 (hex_char 65) 8.

(** The number that a text of hexadecimal digits spells. *)
Definition hex_digit (c : Z) : Z := if c <? 58 then c - 48 else c - 65 + 10.
Definition hex_value (l : list Z) : Z := fold_left (fun a c => 16 * a + hex_digit c) l 0.

Lemma hex_digit_char d : 0 <= d < 16 -> hex_digit (hex_char 65 d) = d.
Proof. intros. unfold hex_digit, hex_char. destruct (Z.ltb_spec d 10); case_match; lia. Qed.

Lemma hex_value_snoc l c : hex_value (l ++ [c]) = 16 * hex_value l + hex_digit c.
Proof. unfold hex_value. by rewrite fold_left_app. Qed.

Lemma hex_value_digits fuel n :
  0 <= n < 16 ^ Z.of_nat fuel -> hex_value (digits_in 16 (hex_char 65) fuel n) = n.
Proof.
  revert n. induction fuel as [|fuel IH]; intros n Hn; [cbn in *; lia|].
  rewrite Nat2Z.inj_succ, Z.pow_succ_r in Hn by lia. cbn [digits_in].
  rewrite hex_value_snoc, hex_digit_char by (apply Z.mod_pos_bound; lia).
  pose proof (Z.div_mod n 16). destruct (Z.ltb_spec n 16).
  - cbn. rewrite Z.div_small in * by lia. lia.
  - rewrite IH; [lia|]. split; [apply Z.div_pos; lia|apply Z.div_lt_upper_bound; lia].
Qed.

Lemma i2hex_char n : Z.land n 15 + (if 8 + 1 <? Z.land n 15 then 65 - 10 else 48) = hex_char 65 (n mod 16).
Proof.
  change 15 with (Z.ones 4). rewrite Z.land_ones by lia. change (2 ^ 4) with 16.
  unfold hex_char. change (8 + 1) with 9.
  destruct (Z.ltb_spec 9 (n mod 16)), (Z.ltb_spec (n mod 16) 10); lia.
Qed.

Lemma strip_i2hex_0 len dest : strip_zeros (i2hex_digits len 0 dest) = strip_zeros dest.
Proof. revert dest. induction len as [|len IH]; intros dest; [done|]. cbn [i2hex_digits]. by rewrite IH. Qed.

Lemma strip_i2hex len n dest :
  0 < n < 16 ^ Z.of_nat len ->
  strip_zeros (i2hex_digits len n dest) = digits_in 16 (hex_char 65) len n ++ dest.
Proof.
  revert n dest. induction len as [|len IH]; intros n dest Hn; [cbn in Hn; lia|].
  rewrite Nat2Z.inj_succ, Z.pow_succ_r in Hn by lia. cbn [i2hex_digits digits_in]. cbv zeta.
  rewrite i2hex_char, Z.shiftr_div_pow2 by lia. change (2 ^ 4) with 16.
  destruct (Z.ltb_spec n 16).
  - rewrite Z.div_small, strip_i2hex_0 by lia. rewrite Z.mod_small by lia. cbn [strip_zeros app].
    destruct (Z.eqb_spec (hex_char 65 n) 48) as [E|]; [|done].
    unfold hex_char in E. case_match; lia.
  - rewrite IH; [by rewrite <- app_assoc|].
    split; [apply Z.div_str_pos; lia|apply Z.div_lt_upper_bound; lia].
Qed.

Lemma i2hex_hex n : 0 <= n < 2 ^ 32 -> kinguio_i2hex n 8 = hex_digits n.
Proof.
  intros Hn. unfold kinguio_i2hex, hex_digits. destruct (Z.eqb_spec n 0) as [->|]; [done|].
  rewrite strip_i2hex by (cbn; lia). by rewrite app_nil_r.
Qed.

Lemma printi_hex i width pad :
  - 2 ^ 31 <= i < 2 ^ 31 ->
  printi i 16 0 width pad 65 = Some (prints (hex_digits (u32 i)) width pad).
Proof.
  intros Hi. unfold printi. destruct (Z.eqb_spec i 0) as [->|]; [done|]. cbn [negb Z.eqb Pos.eqb andb].
  assert (Hu : 0 < u32 i < 2 ^ 32).
  { pose proof (u32_range i). unfold u32 in *. pose proof (Z.div_mod i (2 ^ 32) ltac:(lia)). lia. }
  change (Z.to_nat (PRINT_BUF_LEN - 1)) with 11%nat.
  rewrite printi_digits_spec by (cbn; lia). cbn [mbind option_bind]. rewrite app_nil_r.
  assert (E : digits_in 16 (hex_char 65) 11 (u32 i) = hex_digits (u32 i))
    by (unfold hex_digits; by rewrite !digits_in_fuel by (cbn; lia)).
  by rewrite E.
Qed.

(** Numbers with padding *)

Lemma number_end_blank n : number_end (replicate n 32).
Proof. destruct n; cbn; [done|]. unfold is_digit. lia. Qed.

Lemma junk_blank n : Forall is_junk (replicate n 32).
Proof. apply Forall_replicate. unfold is_junk, is_digit. lia. Qed.

(** Digits with zeroes before them. *)
Lemma atoi_prints u width pad (neg : bool) :
  0 <= u < 2 ^ 31 -> Z.land pad PAD_RIGHT = 0 -> Z.land pad PAD_ZERO <> 0 ->
  k_atoi ((if neg then [45] else []) ++ prints (digits 10 u) width pad) = if neg then - u else u.
Proof.
  intros Hu Hr Hz. apply Z.eqb_neq in Hz. unfold prints. rewrite Hr, Hz, Z.eqb_refl.
  cbn [negb]. rewrite andb_true_r.
  assert (E : forall n c, (c = 48 \/ n = 0%nat) -> replicate n c = replicate n 48)
    by (intros n c [->| ->]; done).
  rewrite E.
  - set (z := Z.to_nat _). pose proof (atoi_number [] neg z u [] ltac:(done) Hu I) as H.
    rewrite app_nil_r in H. exact H.
  - destruct (Z.ltb_spec 0 width); [by left|right; lia].
Qed.

(** A number with blanks on either side. *)
Lemma atoi_blanks n (a b : nat) :
  - 2 ^ 31 < n < 2 ^ 31 -> k_atoi (replicate a 32 ++ decimal n ++ replicate b 32) = n.
Proof.
  intros Hn. unfold decimal. destruct (Z.ltb_spec n 0).
  - pose proof (atoi_number (replicate a 32) true 0 (- n) (replicate b 32) (junk_blank a)
      ltac:(lia) (number_end_blank b)) as H0. cbn [app replicate] in *. rewrite H0. lia.
  - by apply (atoi_number (replicate a 32) false 0 n (replicate b 32) (junk_blank a) ltac:(lia)
      (number_end_blank b)).
Qed.

Lemma prints_blanks s width pad :
  Z.land pad PAD_ZERO = 0 \/ width <= 0 -> exists a b : nat,
  prints s width pad = replicate a 32 ++ s ++ replicate b 32.
Proof.
  intros H. unfold prints.
  assert (E : forall n, n = Z.to_nat (if 0 <? width then if width <=? Z.of_nat (length s) then 0
    else width - Z.of_nat (length s) else width) ->
    replicate n (if (0 <? width) && negb (Z.land pad PAD_ZERO =? 0) then 48 else 32) = replicate n 32).
  { intros n ->. destruct H as [-> | Hw]; [by rewrite andb_false_r|].
    by destruct (Z.ltb_spec 0 width); [lia|]. }
  erewrite E by reflexivity. destruct (Z.land pad PAD_RIGHT =? 0).
  - eexists _, 0%nat. cbn [replicate]. by rewrite app_nil_r.
  - by eexists 0%nat, _.
Qed.

(** Items of a format with their arguments. *)
Inductive item : Type :=
  | Lit (c : Z) | Chr (v : Z) | Str (s : option (list Z)) | Dec (v : Z) | Uns (v : Z) | Hex (v : Z)
  | Percent.

Definition fmt_of (i : item) : list Z :=
  match i with
  | Lit c => [c]
  | Chr _ => [37; 99]
  | Str _ => [37; 115]
  | Dec _ => [37; 100]
  | Uns _ => [37; 117]
  | Hex _ => [37; 120]
  | Percent => [37; 37]
  end.

Definition args_of (i : item) : list va :=
  match i with
  | Lit _ | Percent => []
  | Chr v | Dec v | Uns v | Hex v => [VaInt v]
  | Str s => [VaStr s]
  end.

Definition text_of (i : item) : list Z :=
  match i with
  | Lit c => [c]
  | Chr v => [u8 v]
  | Str s => default null_text s
  | Dec v => decimal v
  | Uns v => decimal (v mod 256)
  | Hex v => hex_digits v
  | Percent => [37; 37]
  end.

Definition item_ok (i : item) : Prop :=
  match i with
  | Lit c => c <> 37
  | Chr v => 0 < v < 256
  | Dec v => - 2 ^ 31 <= v < 2 ^ 31
  | Uns v | Hex v => 0 <= v < 2 ^ 32
  | _ => True
  end.

Lemma convert_item (i : item) ap :
  item_ok i -> (forall c, i <> Lit c) -> exists c, fmt_of i = [37; c] /\
  convert c (args_of i ++ ap) = Some (text_of i, ap).
Proof.
  destruct i as [c|v|s|v|v|v|]; intros Hok Hl; [by destruct (Hl c)|..]; eexists; (split; [done|]);
    cbn [item_ok args_of text_of app] in *; unfold convert; cbn [Z.eqb Pos.eqb orb]; try done.
  - destruct (Z.eqb_spec (i8 v) 0) as [E|]; [|done]. unfold i8 in E.
    pose proof (Z.div_mod (v + 2 ^ 7) (2 ^ 8) ltac:(lia)). lia.
  - rewrite i32_id by lia. by rewrite itoa_decimal.
  - rewrite itoa_decimal; [done|]. unfold u8. pose proof (Z.mod_pos_bound v (2 ^ 8)). lia.
  - rewrite u32_id by lia. by rewrite i2hex_hex.
Qed.

(** What [print] makes of the same items. *)
Definition print_text_of (i : item) : list Z :=
  match i with
  | Uns v => digits 10 v
  | Hex v => digits_in 16 (hex_char 97) 8 v
  | Percent => [37]
  | _ => text_of i
  end.

Lemma printi_unsigned b a v :
  (b = 10 \/ b = 16) -> 0 <= v < 2 ^ 32 ->
  printi (i32 v) b 0 0 0 a = Some (digits_in b (hex_char a) 11 v).
Proof.
  intros Hb Hv. unfold printi. cbn [negb Z.eqb andb].
  assert (Hu : u32 (i32 v) = v).
  { unfold u32, i32. pose proof (Z.div_mod (v + 2 ^ 31) (2 ^ 32) ltac:(lia)) as H.
    replace ((v + 2 ^ 31) mod 2 ^ 32 - 2 ^ 31) with (v + (- ((v + 2 ^ 31) / 2 ^ 32)) * 2 ^ 32) by lia.
    by rewrite Z.mod_add, Z.mod_small by lia. }
  destruct (Z.eqb_spec (i32 v) 0) as [E|E].
  - assert (v = 0) as -> by (rewrite E in Hu; rewrite <- Hu; done). by destruct Hb as [-> | ->].
  - rewrite Hu. change (Z.to_nat (PRINT_BUF_LEN - 1)) with 11%nat.
    rewrite printi_digits_spec; [|lia|].
    + cbn [mbind option_bind]. by rewrite app_nil_r, prints_0.
    + split; [|destruct Hb as [-> | ->]; cbn; lia].
      assert (v <> 0); [|lia]. intros ->. by apply E.
Qed.

Lemma hex_char_dec a d : 0 <= d < 10 -> hex_char a d = dec_char d.
Proof. intros. unfold hex_char, dec_char. destruct (Z.ltb_spec d 10); lia. Qed.

Lemma print_one_item (i : item) ap :
  item_ok i -> (forall c, i <> Lit c) -> i <> Percent -> exists c,
  fmt_of i = [37; c] /\ 57 < c /\
  print_one c 0 0 (args_of i ++ ap) = Some (print_text_of i, ap).
Proof.
  destruct i as [c|v|s|v|v|v|]; intros Hok Hl Hp; [by destruct (Hl c)|..|done]; eexists;
    (split; [done|split; [done|]]); cbn [item_ok args_of print_text_of text_of app] in *;
    unfold print_one; cbn [Z.eqb Pos.eqb orb].
  - rewrite prints_0, u8_id by lia. by destruct (Z.eqb_spec v 0); [lia|].
  - by rewrite prints_0.
  - rewrite i32_id, printi_10 by lia. cbn [mbind option_bind]. rewrite prints_0.
    by rewrite andb_false_r.
  - rewrite printi_unsigned by (done || by left). cbn [mbind option_bind]. do 2 f_equal.
    unfold digits. rewrite digits_in_fuel by (cbn; lia). apply digits_in_ext; [lia|].
    apply hex_char_dec.
  - rewrite printi_unsigned by (done || by right). cbn [mbind option_bind]. do 2 f_equal.
    by rewrite !digits_in_fuel by (cbn; lia).
Qed.

Lemma print_loop_items fuel items more :
  Forall item_ok items -> (length (items ≫= fmt_of) <= fuel)%nat ->
  print_loop fuel (items ≫= fmt_of) ((items ≫= args_of) ++ more) = Some (items ≫= print_text_of).
Proof.
  intros H. revert fuel. induction H as [|i items Hi _ IH]; intros fuel Hf; [by destruct fuel|].
  cbn [mbind list_bind] in *. rewrite <- app_assoc. rewrite length_app in Hf.
  assert (Hc : (exists c, i = Lit c) \/ i = Percent \/ ((forall c, i <> Lit c) /\ i <> Percent))
    by (destruct i; eauto).
  destruct Hc as [(c & ->)|[-> | [Hl Hp]]].
  - cbn [fmt_of args_of print_text_of text_of app item_ok length] in *. destruct fuel as [|fuel]; [lia|].
    cbn [print_loop]. destruct (Z.eqb_spec c 37); [done|]. cbn [negb]. by rewrite IH by lia.
  - cbn [fmt_of args_of print_text_of app length] in *. destruct fuel as [|fuel]; [lia|].
    cbn [print_loop negb Z.eqb Pos.eqb]. by rewrite IH by lia.
  - destruct (print_one_item i ((items ≫= args_of) ++ more) Hi Hl Hp) as (c & Hfmt & Hc & Hone).
    rewrite Hfmt in *. cbn [app length] in *. destruct fuel as [|fuel]; [lia|].
    cbn [print_loop negb Z.eqb Pos.eqb]. zguard. cbv iota. cbn [zero_flags]. zguard. cbv iota.
    cbn [read_width]. zguard. cbn [andb]. cbv iota.
    change (0 + 0) with 0. rewrite Hone. cbn [mbind option_bind]. by rewrite IH by lia.
Qed.

(** ** Theorems *)

(** k_atoi reads back every 32-bit number that is printed in decimal,
    whatever text without digits or signs comes before it and whatever follows
    that does not continue the number. *)
Theorem k_atoi_decimal junk n rest :
  Forall is_junk junk -> - 2 ^ 31 < n < 2 ^ 31 -> number_end rest ->
  k_atoi (junk ++ decimal n ++ rest) = n.
Proof.
  intros Hj Hn He. unfold decimal. destruct (Z.ltb_spec n 0).
  - pose proof (atoi_number junk true 0 (- n) rest Hj ltac:(lia) He) as H0. cbn [app replicate] in *.
    rewrite H0. lia.
  - by apply (atoi_number junk false 0 n rest Hj ltac:(lia) He).
Qed.

(** printi and k_atoi agree: whatever the width and the padding, except
    zeroes on the right, k_atoi reads back every number that printi prints in base
    10; its digits always fit in its buffer. *)
Theorem printi_reads_back i width pad :
  - 2 ^ 31 < i < 2 ^ 31 -> Z.land pad PAD_RIGHT = 0 \/ Z.land pad PAD_ZERO = 0 ->
  exists text, printi i 10 1 width pad 97 = Some text /\ k_atoi text = i.
Proof.
  intros Hi Hpad. rewrite printi_10 by lia. eexists. split; [done|].
  destruct ((i <? 0) && negb (width =? 0) && negb (Z.land pad PAD_ZERO =? 0)) eqn:Ez.
  - rewrite !andb_true_iff, !negb_true_iff in Ez. destruct Ez as ((Hn & _) & Hz%Z.eqb_neq).
    destruct Hpad as [Hr|]; [|done]. pose proof (atoi_prints (- i) (width - 1) pad true) as H.
    cbn [app] in H. rewrite H by (done || lia). lia.
  - destruct (decide (Z.land pad PAD_ZERO = 0 \/ width <= 0)) as [Hb|Hb].
    + destruct (prints_blanks (decimal i) width pad Hb) as (a & b & ->). by apply atoi_blanks.
    + apply Decidable.not_or in Hb as [Hz Hw]. destruct Hpad as [Hr|]; [|done].
      assert (Hn : 0 <= i).
      { apply Z.eqb_neq in Hz. rewrite Hz in Ez. cbn in Ez. rewrite andb_true_r in Ez.
        destruct (Z.ltb_spec i 0), (Z.eqb_spec width 0); cbn in Ez; lia || done. }
      unfold decimal. destruct (Z.ltb_spec i 0); [lia|].
      by apply (atoi_prints i width pad false); [lia|..].
Qed.

(** The two hexadecimal printers of the kernel agree: %X of print and %x of
    printk give the same digits, without leading zeroes, and the digits spell the
    32-bit number. *)
Theorem hex_printers_agree i :
  - 2 ^ 31 <= i < 2 ^ 31 ->
  printi i 16 0 0 0 65 = Some (kinguio_i2hex (u32 i) 8) /\
  hex_value (kinguio_i2hex (u32 i) 8) = u32 i /\
  (u32 i <> 0 -> head (kinguio_i2hex (u32 i) 8) <> Some 48).
Proof.
  intros Hi. pose proof (u32_range i) as Hu. rewrite printi_hex, prints_0, i2hex_hex by done.
  split; [done|]. split; [by apply hex_value_digits; cbn; lia|].
  intros Hz. rewrite <- i2hex_hex by done. unfold kinguio_i2hex.
  destruct (Z.eqb_spec (u32 i) 0); [done|]. generalize (i2hex_digits 8 (u32 i) []).
  intros l. induction l as [|c l IH]; [done|]. cbn. destruct (Z.eqb_spec c 48); [done|].
  cbn. congruence.
Qed.

(** [C32] printk and ksprintf expand a format item by item: a character stands for
    itself, %d gives the decimal digits with a sign for every int, %s the string
    or <NULL>, %x the hexadecimal digits; but %u prints its argument modulo 256
    (it goes through an unsigned char) and %% prints two percent signs. *)
Theorem vsprintf_text items more :
  Forall item_ok items ->
  kinguio_vsprintf (items ≫= fmt_of) ((items ≫= args_of) ++ more) = Some (items ≫= text_of).
Proof.
  induction 1 as [|i items Hi _ IH]; [done|]. cbn [mbind list_bind]. rewrite <- app_assoc.
  assert (Hl : (exists c, i = Lit c) \/ forall c, i <> Lit c) by (destruct i; eauto).
  destruct Hl as [(c & ->)|Hl].
  - cbn [fmt_of args_of text_of app kinguio_vsprintf]. cbn [item_ok] in Hi.
    destruct (Z.eqb_spec c 37); [done|]. by rewrite IH.
  - destruct (convert_item i ((items ≫= args_of) ++ more) Hi Hl) as (c & -> & Hc).
    cbn [app kinguio_vsprintf Z.eqb Pos.eqb]. rewrite Hc. cbn [mbind option_bind]. by rewrite IH.
Qed.

(** The older printk expands the same items, with the full unsigned number
    for %u, lower-case hexadecimal for %x and one percent sign for %%: the two
    agree on characters, strings and signed numbers only. *)
Theorem print_text items more :
  Forall item_ok items ->
  print (items ≫= fmt_of) ((items ≫= args_of) ++ more) = Some (items ≫= print_text_of) /\
  (Forall (fun i => match i with Uns _ | Hex _ | Percent => False | _ => True end) items ->
   items ≫= print_text_of = items ≫= text_of).
Proof.
  intros H. split; [by apply print_loop_items|]. clear H.
  induction 1 as [|i items Hi _ IH]; [done|]. cbn [mbind list_bind]. f_equal; [by destruct i|exact IH].
Qed.

(** ** Witnesses *)

(** The text [ab-2026;9]. *)
Lemma k_atoi_decimal_witness :
  k_atoi ([97; 98] ++ decimal (-2026) ++ [59; 57]) = -2026.
Proof.
  apply k_atoi_decimal; [repeat constructor; unfold is_digit; lia|lia|cbn; unfold is_digit; lia].
Defined.

(** %05d of -42 is "-0042". *)
Lemma printi_reads_back_witness :
  exists text, printi (-42) 10 1 5 PAD_ZERO 97 = Some text /\ k_atoi text = -42.
Proof. apply printi_reads_back; [lia|by left]. Defined.

Lemma hex_printers_agree_witness :
  printi (-1) 16 0 0 0 65 = Some (kinguio_i2hex (u32 (-1)) 8) /\
  hex_value (kinguio_i2hex (u32 (-1)) 8) = u32 (-1) /\
  (u32 (-1) <> 0 -> head (kinguio_i2hex (u32 (-1)) 8) <> Some 48).
Proof. apply hex_printers_agree. lia. Defined.

(** "x=%d %u%%" with -7 and 300 gives "x=-7 44%%". *)
Lemma vsprintf_text_witness :
  kinguio_vsprintf [120; 61; 37; 100; 32; 37; 117; 37; 37] [VaInt (-7); VaInt 300] =
    Some [120; 61; 45; 55; 32; 52; 52; 37; 37].
Proof.
  apply (vsprintf_text [Lit 120; Lit 61; Dec (-7); Lit 32; Uns 300; Percent] []).
  repeat constructor; cbn; lia.
Defined.

(** "%u %x" with 300 and 255 gives "300 ff". *)
Lemma print_text_witness :
  print [37; 117; 32; 37; 120] [VaInt 300; VaInt 255] = Some [51; 48; 48; 32; 102; 102].
Proof.
  apply (print_text [Uns 300; Lit 32; Hex 255] []). repeat constructor; cbn; lia.
Defined.
