(* ===== verification/Process.v ===== *)
(** * Process: the process table and the current process

    [core/ke/intake/process.c]: the list of process structures, the current
    process id, and the routines that turn an id into a structure.  A pointer
    is its address, a nonzero [Z]; a structure lives in a finite map from
    addresses, so that two slots of a list may designate the same object. *)
From Stdlib Require Import ZArith Lia.
From stdpp Require Import base gmap list strings.
From S2P Require Import Config Prelude.

#[local] Open Scope Z_scope.
#[local] Open Scope gramado_scope.

(** struct process_d: the fields the modelled routines read or write. *)
Record process_d := mk_process {
  p_used : Z;
  p_magic : Z;
  p_pid : Z;
  p_ppid : Z;
  p_state : Z;
  p_control : Z;            (** struct thread_d *control *)
  p_wait4pid : Z;
  p_pml4_PA : Z;
  p_allocated_memory : Z;
  p_read_counter : Z;       (** unsigned int *)
  p_write_counter : Z;      (** unsigned int *)
  p_Objects : list Z;       (** unsigned long Objects[64] *)
  p_priv : Z                (** void *priv: the socket of the process *)
}.

#[export] Instance process_eta : Eta process_d := fun p =>
  mk_process (p_used p) (p_magic p) (p_pid p) (p_ppid p) (p_state p)
    (p_control p) (p_wait4pid p) (p_pml4_PA p) (p_allocated_memory p)
    (p_read_counter p) (p_write_counter p) (p_Objects p) (p_priv p).
#[export] Instance set_p_state : Setter p_state. Proof. solve_setter. Defined.
#[export] Instance set_p_wait4pid : Setter p_wait4pid. Proof. solve_setter. Defined.
#[export] Instance set_p_allocated_memory : Setter p_allocated_memory.
Proof. solve_setter. Defined.
#[export] Instance set_p_read_counter : Setter p_read_counter. Proof. solve_setter. Defined.
#[export] Instance set_p_write_counter : Setter p_write_counter. Proof. solve_setter. Defined.
#[export] Instance set_p_Objects : Setter p_Objects. Proof. solve_setter. Defined.
#[export] Instance set_p_priv : Setter p_priv. Proof. solve_setter. Defined.

(** The globals of process.c with [system_state] of kmain. *)
Record ptab := mk_ptab {
  system_state : Z;
  current_pid : Z;              (** static pid_t __current_pid *)
  processList : list Z;         (** unsigned long processList[PROCESS_COUNT_MAX] *)
  procs : gmap Z process_d      (** the process structures, by address *)
}.

#[export] Instance ptab_eta : Eta ptab := fun s =>
  mk_ptab (system_state s) (current_pid s) (processList s) (procs s).
#[export] Instance set_system_state : Setter system_state. Proof. solve_setter. Defined.
#[export] Instance set_current_pid : Setter current_pid. Proof. solve_setter. Defined.
#[export] Instance set_processList : Setter processList. Proof. solve_setter. Defined.
#[export] Instance set_procs : Setter procs. Proof. solve_setter. Defined.

Section Operations.

Definition processList_at (pid : Z) : M ptab Z :=
  getsome (fun s => zlookup (processList s) pid).

(** [p->field]: dereference of a process pointer. *)
Definition deref_process (p : Z) : M ptab process_d :=
  getsome (fun s => procs s !! p).

Definition update_process (p : Z) (f : process_d -> process_d) : M ptab unit :=
  x ← deref_process p;
  modify (fun s => s <| procs := <[p := f x]> (procs s) |>).

Definition set_current_process (pid : Z) : M ptab unit :=
  modify (fun s => s <| current_pid := pid |>).

Definition get_current_process : M ptab Z := gets current_pid.

(** The structure of the current process, or NULL.  There is no NULL test
    before [p->used]: an empty slot is dereferenced. *)
Definition get_current_process_pointer : M ptab Z :=
  st ← gets system_state;
  if negb (st =? SYSTEM_RUNNING) then mret NULL else
  pid ← get_current_process;
  if (pid <? 0) || (PROCESS_COUNT_MAX <=? pid) then mret NULL else
  p ← processList_at pid;
  x ← deref_process p;
  if negb (p_used x =? TRUE) then mret NULL else
  if negb (p_magic x =? 1234) then mret NULL else
  mret p.

(** First empty slot of the list, from GRAMADO_PID_BASE = 0. *)
Definition getNewPID : M ptab Z :=
  r ← for_return (range 0 PROCESS_COUNT_MAX) (fun i =>
        p ← processList_at i;
        if p =? NULL then mret (Some i) else mret None);
  mret (default (-1) r).

Definition processTesting (pid : Z) : M ptab Z :=
  if pid <? 0 then mret (-1) else
  if PROCESS_COUNT_MAX <=? pid then mret (-1) else
  p ← processList_at pid;
  if p =? NULL then mret 0 else
  x ← deref_process p;
  if (p_used x =? TRUE) && (p_magic x =? 1234) then mret 1234 else mret 0.

End Operations.

(** ** Well-formedness: the list has its declared length, a nonzero slot
    designates a structure, and no structure lives at the null address. *)
Record wf_ptab (s : ptab) : Prop := {
  wf_processList_length : length (processList s) = Z.to_nat PROCESS_COUNT_MAX;
  wf_procs_null : procs s !! NULL = None;
  wf_processList_procs : forall i p,
    zlookup (processList s) i = Some p -> p <> NULL -> is_Some (procs s !! p);
  wf_processList_inj : forall i j p,
    zlookup (processList s) i = Some p -> zlookup (processList s) j = Some p ->
    p <> NULL -> i = j
}.

(** The current process is a valid structure, found at its own pid. *)
Definition current_valid (s : ptab) (p : Z) (x : process_d) : Prop :=
  system_state s = SYSTEM_RUNNING /\ 0 <= current_pid s < PROCESS_COUNT_MAX /\
  zlookup (processList s) (current_pid s) = Some p /\
  p <> NULL /\ procs s !! p = Some x /\ p_used x = TRUE /\ p_magic x = 1234.

Lemma get_current_process_pointer_valid s p x :
  current_valid s p x -> get_current_process_pointer s = Done p s.
Proof.
  intros (Hst & Hpid & Hl & Hp & Hx & Hu & Hm).
  unfold get_current_process_pointer, get_current_process, processList_at,
    deref_process.
  msteps. rewrite Hst, Z.eqb_refl. cbn [negb].
  msteps. zguard. msteps. by rewrite Hu, Hm.
Qed.

(** Outside SYSTEM_RUNNING there is no current process structure. *)
Lemma get_current_process_pointer_not_running s :
  system_state s <> SYSTEM_RUNNING -> get_current_process_pointer s = Done NULL s.
Proof.
  intros H. unfold get_current_process_pointer. msteps.
  apply Z.eqb_neq in H. by rewrite H.
Qed.

(** The current process stays valid when its structure is written. *)
Lemma current_valid_alloc k p x y : current_valid k p x -> p_used y = p_used x -> p_magic y = p_magic x ->
  current_valid (k <| procs := <[p := y]> (procs k) |>) p y.
Proof.
  intros (? & ? & ? & ? & ? & ? & ?) Eu Em. do 4 (split; [done|]). split; [apply lookup_insert_eq|].
  by rewrite Eu, Em.
Qed.

#[export] Hint Resolve get_current_process_pointer_valid : gramado.
