(* ===== verification/KState.v ===== *)
(** * KState: the shared state of the microkernel

    The structures and globals that the thread, scheduler, task-switch and
    message modules share ([core/ke/intake/thread.h], [ipc.h],
    [sched/sched.c], [sched/schedq.c], [disp/ts.c], [disp/dispatch.h]) as one
    record, the dereference and update of each kind of structure through its
    pointer, and the well-formedness of that state. *)
From Stdlib Require Import ZArith Lia.
From stdpp Require Import base gmap list strings.
From S2P Require Import Config Prelude Process.

#[local] Open Scope Z_scope.
#[local] Open Scope gramado_scope.

(** ** Data *)

(** thread_state_t: the four "Earth" states, then the four "Space" states. *)
Inductive thread_state : Type :=
  | INITIALIZED | STANDBY | ZOMBIE | DEAD
  | READY | RUNNING | WAITING | BLOCKED.

#[export] Instance thread_state_eq_dec : EqDecision thread_state.
Proof. solve_decision. Defined.

Definition state_eqb (a b : thread_state) : bool := bool_decide (a = b).

(** Evaluate the comparisons of known states. *)
Ltac state_eval :=
  repeat match goal with
  | |- context [state_eqb ?a ?b] =>
      let v := eval vm_compute in (state_eqb a b) in
      match v with true => idtac | false => idtac end;
      change (state_eqb a b) with v
  end.

(** struct x64_context_d *)
Record x64_context_d := mk_context {
  c_ss : Z;
  c_rsp : Z;
  c_rflags : Z;
  c_cs : Z;
  c_rip : Z;
  c_ds : Z;
  c_es : Z;
  c_fs : Z;
  c_gs : Z;
  c_rax : Z;
  c_rbx : Z;
  c_rcx : Z;
  c_rdx : Z;
  c_rsi : Z;
  c_rdi : Z;
  c_rbp : Z;
  c_r8 : Z;
  c_r9 : Z;
  c_r10 : Z;
  c_r11 : Z;
  c_r12 : Z;
  c_r13 : Z;
  c_r14 : Z;
  c_r15 : Z;
  c_fpu_buffer : list Z  (** unsigned char fpu_buffer[512] *)
}.

#[export] Instance x64_context_d_eta : Eta x64_context_d := fun r =>
  mk_context (c_ss r) (c_rsp r) (c_rflags r) (c_cs r) (c_rip r) (c_ds r) (c_es r)
    (c_fs r) (c_gs r) (c_rax r) (c_rbx r) (c_rcx r) (c_rdx r) (c_rsi r)
    (c_rdi r) (c_rbp r) (c_r8 r) (c_r9 r) (c_r10 r) (c_r11 r) (c_r12 r)
    (c_r13 r) (c_r14 r) (c_r15 r) (c_fpu_buffer r).

(** struct thread_d: the fields the modelled routines read or write. *)
Record thread_d := mk_thread {
  used : Z;
  magic : Z;
  tid : Z;
  exit_in_progress : Z;
  owner_process : Z;  (** struct process_d * *)
  owner_pid : Z;
  base_priority : Z;
  priority : Z;
  state : thread_state;
  yield_in_progress : Z;
  sleep_in_progress : Z;
  desired_sleep_ms : Z;
  cry : Z;  (** _its_my_party_and_ill_cry_if_i_want_to *)
  has_pending_event_ : Z;  (** the field has_pending_event *)
  pml4_PA : Z;
  cpl : Z;
  rflags_current_iopl : Z;
  to_supervisor : Z;  (** transition_counter.to_supervisor *)
  to_user : Z;  (** transition_counter.to_user *)
  initial_jiffy : Z;
  ready_jiffy : Z;
  waiting_jiffy : Z;
  blocked_jiffy : Z;
  zombie_jiffy : Z;
  wake_jiffy : Z;
  step : Z;
  initial_time_ms : Z;
  total_time_ms : Z;
  credits : Z;
  quantum : Z;
  quantum_limit_max : Z;
  standbyCount : Z;
  standbyCount_ms : Z;
  runningCount : Z;
  runningCount_ms : Z;
  readyCount : Z;
  readyCount_ms : Z;
  waitingCount : Z;
  waitingCount_ms : Z;
  blockedCount : Z;
  blockedCount_ms : Z;
  scheduledCount : Z;
  alarm : Z;
  link : Z;  (** struct thread_d *link *)
  is_linked : Z;
  MsgQueue : list Z;  (** unsigned long MsgQueue[MSG_QUEUE_MAX] *)
  MsgQueueHead : Z;
  MsgQueueTail : Z;
  isResponder : Z;
  signal : Z;
  context : x64_context_d;
  saved : Z;
  next : Z  (** struct thread_d *next *)
}.

#[export] Instance thread_d_eta : Eta thread_d := fun r =>
  mk_thread (used r) (magic r) (tid r) (exit_in_progress r) (owner_process r)
    (owner_pid r) (base_priority r) (priority r) (state r)
    (yield_in_progress r) (sleep_in_progress r) (desired_sleep_ms r)
    (cry r) (has_pending_event_ r) (pml4_PA r) (cpl r)
    (rflags_current_iopl r) (to_supervisor r) (to_user r)
    (initial_jiffy r) (ready_jiffy r) (waiting_jiffy r) (blocked_jiffy r)
    (zombie_jiffy r) (wake_jiffy r) (step r) (initial_time_ms r)
    (total_time_ms r) (credits r) (quantum r) (quantum_limit_max r)
    (standbyCount r) (standbyCount_ms r) (runningCount r)
    (runningCount_ms r) (readyCount r) (readyCount_ms r) (waitingCount r)
    (waitingCount_ms r) (blockedCount r) (blockedCount_ms r)
    (scheduledCount r) (alarm r) (link r) (is_linked r) (MsgQueue r)
    (MsgQueueHead r) (MsgQueueTail r) (isResponder r) (signal r)
    (context r) (saved r) (next r).
#[export] Instance set_used : Setter used. Proof. solve_setter. Defined.
#[export] Instance set_magic : Setter magic. Proof. solve_setter. Defined.
#[export] Instance set_tid : Setter tid. Proof. solve_setter. Defined.
#[export] Instance set_exit_in_progress : Setter exit_in_progress. Proof. solve_setter. Defined.
#[export] Instance set_owner_process : Setter owner_process. Proof. solve_setter. Defined.
#[export] Instance set_owner_pid : Setter owner_pid. Proof. solve_setter. Defined.
#[export] Instance set_base_priority : Setter base_priority. Proof. solve_setter. Defined.
#[export] Instance set_priority : Setter priority. Proof. solve_setter. Defined.
#[export] Instance set_state : Setter state. Proof. solve_setter. Defined.
#[export] Instance set_yield_in_progress : Setter yield_in_progress. Proof. solve_setter. Defined.
#[export] Instance set_sleep_in_progress : Setter sleep_in_progress. Proof. solve_setter. Defined.
#[export] Instance set_desired_sleep_ms : Setter desired_sleep_ms. Proof. solve_setter. Defined.
#[export] Instance set_cry : Setter cry. Proof. solve_setter. Defined.
#[export] Instance set_has_pending_event_ : Setter has_pending_event_. Proof. solve_setter. Defined.
#[export] Instance set_pml4_PA : Setter pml4_PA. Proof. solve_setter. Defined.
#[export] Instance set_cpl : Setter cpl. Proof. solve_setter. Defined.
#[export] Instance set_rflags_current_iopl : Setter rflags_current_iopl. Proof. solve_setter. Defined.
#[export] Instance set_to_supervisor : Setter to_supervisor. Proof. solve_setter. Defined.
#[export] Instance set_to_user : Setter to_user. Proof. solve_setter. Defined.
#[export] Instance set_initial_jiffy : Setter initial_jiffy. Proof. solve_setter. Defined.
#[export] Instance set_ready_jiffy : Setter ready_jiffy. Proof. solve_setter. Defined.
#[export] Instance set_waiting_jiffy : Setter waiting_jiffy. Proof. solve_setter. Defined.
#[export] Instance set_blocked_jiffy : Setter blocked_jiffy. Proof. solve_setter. Defined.
#[export] Instance set_zombie_jiffy : Setter zombie_jiffy. Proof. solve_setter. Defined.
#[export] Instance set_wake_jiffy : Setter wake_jiffy. Proof. solve_setter. Defined.
#[export] Instance set_step : Setter step. Proof. solve_setter. Defined.
#[export] Instance set_initial_time_ms : Setter initial_time_ms. Proof. solve_setter. Defined.
#[export] Instance set_total_time_ms : Setter total_time_ms. Proof. solve_setter. Defined.
#[export] Instance set_credits : Setter credits. Proof. solve_setter. Defined.
#[export] Instance set_quantum : Setter quantum. Proof. solve_setter. Defined.
#[export] Instance set_quantum_limit_max : Setter quantum_limit_max. Proof. solve_setter. Defined.
#[export] Instance set_standbyCount : Setter standbyCount. Proof. solve_setter. Defined.
#[export] Instance set_standbyCount_ms : Setter standbyCount_ms. Proof. solve_setter. Defined.
#[export] Instance set_runningCount : Setter runningCount. Proof. solve_setter. Defined.
#[export] Instance set_runningCount_ms : Setter runningCount_ms. Proof. solve_setter. Defined.
#[export] Instance set_readyCount : Setter readyCount. Proof. solve_setter. Defined.
#[export] Instance set_readyCount_ms : Setter readyCount_ms. Proof. solve_setter. Defined.
#[export] Instance set_waitingCount : Setter waitingCount. Proof. solve_setter. Defined.
#[export] Instance set_waitingCount_ms : Setter waitingCount_ms. Proof. solve_setter. Defined.
#[export] Instance set_blockedCount : Setter blockedCount. Proof. solve_setter. Defined.
#[export] Instance set_blockedCount_ms : Setter blockedCount_ms. Proof. solve_setter. Defined.
#[export] Instance set_scheduledCount : Setter scheduledCount. Proof. solve_setter. Defined.
#[export] Instance set_alarm : Setter alarm. Proof. solve_setter. Defined.
#[export] Instance set_link : Setter link. Proof. solve_setter. Defined.
#[export] Instance set_is_linked : Setter is_linked. Proof. solve_setter. Defined.
#[export] Instance set_MsgQueue : Setter MsgQueue. Proof. solve_setter. Defined.
#[export] Instance set_MsgQueueHead : Setter MsgQueueHead. Proof. solve_setter. Defined.
#[export] Instance set_MsgQueueTail : Setter MsgQueueTail. Proof. solve_setter. Defined.
#[export] Instance set_isResponder : Setter isResponder. Proof. solve_setter. Defined.
#[export] Instance set_signal : Setter signal. Proof. solve_setter. Defined.
#[export] Instance set_context : Setter context. Proof. solve_setter. Defined.
#[export] Instance set_saved : Setter saved. Proof. solve_setter. Defined.
#[export] Instance set_next : Setter next. Proof. solve_setter. Defined.

(** struct msg_d *)
Record msg_d := mk_msg {
  m_used : Z;
  m_magic : Z;
  m_opaque_window : Z;
  m_msg : Z;
  m_long1 : Z;
  m_long2 : Z;
  m_long3 : Z;
  m_long4 : Z;
  m_sender_tid : Z;
  m_receiver_tid : Z;
  m_sender_pid : Z;
  m_receiver_pid : Z;
  m_next : Z
}.

#[export] Instance msg_d_eta : Eta msg_d := fun r =>
  mk_msg (m_used r) (m_magic r) (m_opaque_window r) (m_msg r) (m_long1 r)
    (m_long2 r) (m_long3 r) (m_long4 r) (m_sender_tid r)
    (m_receiver_tid r) (m_sender_pid r) (m_receiver_pid r) (m_next r).

(** struct dispatch_count_d *)
Record dispatch_count_d := mk_dispatch_count {
  d_magic : Z;
  SelectIdleCount : Z;
  SelectInitializedCount : Z;
  SelectNextCount : Z;
  SelectCurrentCount : Z;
  SelectAnyCount : Z;
  SelectIdealCount : Z;
  SelectDispatcherQueueCount : Z
}.

#[export] Instance dispatch_count_d_eta : Eta dispatch_count_d := fun r =>
  mk_dispatch_count (d_magic r) (SelectIdleCount r) (SelectInitializedCount r)
    (SelectNextCount r) (SelectCurrentCount r) (SelectAnyCount r)
    (SelectIdealCount r) (SelectDispatcherQueueCount r).
#[export] Instance set_d_magic : Setter d_magic. Proof. solve_setter. Defined.
#[export] Instance set_SelectIdleCount : Setter SelectIdleCount. Proof. solve_setter. Defined.
#[export] Instance set_SelectInitializedCount : Setter SelectInitializedCount. Proof. solve_setter. Defined.
#[export] Instance set_SelectNextCount : Setter SelectNextCount. Proof. solve_setter. Defined.
#[export] Instance set_SelectCurrentCount : Setter SelectCurrentCount. Proof. solve_setter. Defined.
#[export] Instance set_SelectAnyCount : Setter SelectAnyCount. Proof. solve_setter. Defined.
#[export] Instance set_SelectIdealCount : Setter SelectIdealCount. Proof. solve_setter. Defined.
#[export] Instance set_SelectDispatcherQueueCount : Setter SelectDispatcherQueueCount. Proof. solve_setter. Defined.

(** struct ds_callback_info_d *)
Record ds_callback_info_d := mk_ds_callback {
  cb_initialized : Z;
  cb_ready : Z;
  callback_address : Z;
  callback_address_saved : Z;
  each_n_ms : Z;
  times_per_second : Z
}.

#[export] Instance ds_callback_info_d_eta : Eta ds_callback_info_d := fun r =>
  mk_ds_callback (cb_initialized r) (cb_ready r) (callback_address r)
    (callback_address_saved r) (each_n_ms r) (times_per_second r).
#[export] Instance set_cb_initialized : Setter cb_initialized. Proof. solve_setter. Defined.
#[export] Instance set_cb_ready : Setter cb_ready. Proof. solve_setter. Defined.
#[export] Instance set_callback_address : Setter callback_address. Proof. solve_setter. Defined.
#[export] Instance set_callback_address_saved : Setter callback_address_saved. Proof. solve_setter. Defined.
#[export] Instance set_each_n_ms : Setter each_n_ms. Proof. solve_setter. Defined.
#[export] Instance set_times_per_second : Setter times_per_second. Proof. solve_setter. Defined.

(** The globals. *)
Record kst := mk_kst {
  jiffies : Z;
  sys_time_hz : Z;
  pt : ptab;  (** process.c globals *)
  threads : gmap Z thread_d;  (** the thread structures, by address *)
  threadList : list Z;  (** unsigned long threadList[THREAD_COUNT_MAX] *)
  msgs : gmap Z msg_d;  (** the message structures, by address *)
  current_thread : Z;
  foreground_thread : Z;
  InitThread : Z;
  IdleThread : Z;  (** UPProcessorBlock.IdleThread *)
  CurrentThread : Z;  (** UPProcessorBlock.CurrentThread *)
  threads_counter : Z;  (** UPProcessorBlock.threads_counter *)
  currentq : Z;
  qList : list Z;  (** unsigned long qList[SCHEQ_QUEUE_COUNT_MAX] *)
  p1q : Z;
  p2q : Z;
  p3q : Z;
  p4q : Z;
  p5q : Z;
  p6q : Z;
  sched_initialized : Z;  (** SchedulerInfo.initialized *)
  sched_policy : Z;  (** SchedulerInfo.policy *)
  rr_round_counter : Z;  (** SchedulerInfo.rr_round_counter *)
  sched_flags : Z;  (** SchedulerInfo.flags *)
  g_scheduler_status : Z;
  g_use_event_responder : Z;
  ev_responder_thread : Z;
  ds_initialized : Z;  (** DisplayServerInfo.initialized *)
  ds_tid : Z;  (** DisplayServerInfo.tid *)
  task_switch_status : Z;
  DispatchCountBlock : Z;  (** struct dispatch_count_d * *)
  dispatch_blocks : gmap Z dispatch_count_d;
  dead_thread_collector_status : Z;
  dead_thread_collector_flag : Z;
  spawn_eoi : Z;  (** __spawn_eoi_is_necessary *)
  cpu_context : x64_context_d;  (** contextSS, contextRSP, ... and context_fpu_buffer *)
  contextCPL : Z;
  cr3 : Z;  (** the page table loaded in the processor *)
  gramado_ports : list Z;  (** static pid_t gramado_ports[GRAMADO_PORT_MAX] *)
  ds_callback_info : ds_callback_info_d;
  asmflagDoCallbackAfterCR3 : Z;
  ring3_callback_address : Z
}.

#[export] Instance kst_eta : Eta kst := fun r =>
  mk_kst (jiffies r) (sys_time_hz r) (pt r) (threads r) (threadList r)
    (msgs r) (current_thread r) (foreground_thread r) (InitThread r)
    (IdleThread r) (CurrentThread r) (threads_counter r) (currentq r)
    (qList r) (p1q r) (p2q r) (p3q r) (p4q r) (p5q r) (p6q r)
    (sched_initialized r) (sched_policy r) (rr_round_counter r)
    (sched_flags r) (g_scheduler_status r) (g_use_event_responder r)
    (ev_responder_thread r) (ds_initialized r) (ds_tid r)
    (task_switch_status r) (DispatchCountBlock r) (dispatch_blocks r)
    (dead_thread_collector_status r) (dead_thread_collector_flag r)
    (spawn_eoi r) (cpu_context r) (contextCPL r) (cr3 r)
    (gramado_ports r) (ds_callback_info r) (asmflagDoCallbackAfterCR3 r)
    (ring3_callback_address r).
#[export] Instance set_jiffies : Setter jiffies. Proof. solve_setter. Defined.
#[export] Instance set_sys_time_hz : Setter sys_time_hz. Proof. solve_setter. Defined.
#[export] Instance set_pt : Setter pt. Proof. solve_setter. Defined.
#[export] Instance set_threads : Setter threads. Proof. solve_setter. Defined.
#[export] Instance set_threadList : Setter threadList. Proof. solve_setter. Defined.
#[export] Instance set_msgs : Setter msgs. Proof. solve_setter. Defined.
#[export] Instance set_current_thread : Setter current_thread. Proof. solve_setter. Defined.
#[export] Instance set_foreground_thread : Setter foreground_thread. Proof. solve_setter. Defined.
#[export] Instance set_InitThread : Setter InitThread. Proof. solve_setter. Defined.
#[export] Instance set_IdleThread : Setter IdleThread. Proof. solve_setter. Defined.
#[export] Instance set_CurrentThread : Setter CurrentThread. Proof. solve_setter. Defined.
#[export] Instance set_threads_counter : Setter threads_counter. Proof. solve_setter. Defined.
#[export] Instance set_currentq : Setter currentq. Proof. solve_setter. Defined.
#[export] Instance set_qList : Setter qList. Proof. solve_setter. Defined.
#[export] Instance set_p1q : Setter p1q. Proof. solve_setter. Defined.
#[export] Instance set_p2q : Setter p2q. Proof. solve_setter. Defined.
#[export] Instance set_p3q : Setter p3q. Proof. solve_setter. Defined.
#[export] Instance set_p4q : Setter p4q. Proof. solve_setter. Defined.
#[export] Instance set_p5q : Setter p5q. Proof. solve_setter. Defined.
#[export] Instance set_p6q : Setter p6q. Proof. solve_setter. Defined.
#[export] Instance set_sched_initialized : Setter sched_initialized. Proof. solve_setter. Defined.
#[export] Instance set_sched_policy : Setter sched_policy. Proof. solve_setter. Defined.
#[export] Instance set_rr_round_counter : Setter rr_round_counter. Proof. solve_setter. Defined.
#[export] Instance set_sched_flags : Setter sched_flags. Proof. solve_setter. Defined.
#[export] Instance set_g_scheduler_status : Setter g_scheduler_status. Proof. solve_setter. Defined.
#[export] Instance set_g_use_event_responder : Setter g_use_event_responder. Proof. solve_setter. Defined.
#[export] Instance set_ev_responder_thread : Setter ev_responder_thread. Proof. solve_setter. Defined.
#[export] Instance set_ds_initialized : Setter ds_initialized. Proof. solve_setter. Defined.
#[export] Instance set_ds_tid : Setter ds_tid. Proof. solve_setter. Defined.
#[export] Instance set_task_switch_status : Setter task_switch_status. Proof. solve_setter. Defined.
#[export] Instance set_DispatchCountBlock : Setter DispatchCountBlock. Proof. solve_setter. Defined.
#[export] Instance set_dispatch_blocks : Setter dispatch_blocks. Proof. solve_setter. Defined.
#[export] Instance set_dead_thread_collector_status : Setter dead_thread_collector_status. Proof. solve_setter. Defined.
#[export] Instance set_dead_thread_collector_flag : Setter dead_thread_collector_flag. Proof. solve_setter. Defined.
#[export] Instance set_spawn_eoi : Setter spawn_eoi. Proof. solve_setter. Defined.
#[export] Instance set_cpu_context : Setter cpu_context. Proof. solve_setter. Defined.
#[export] Instance set_contextCPL : Setter contextCPL. Proof. solve_setter. Defined.
#[export] Instance set_cr3 : Setter cr3. Proof. solve_setter. Defined.
#[export] Instance set_gramado_ports : Setter gramado_ports. Proof. solve_setter. Defined.
#[export] Instance set_ds_callback_info : Setter ds_callback_info. Proof. solve_setter. Defined.
#[export] Instance set_asmflagDoCallbackAfterCR3 : Setter asmflagDoCallbackAfterCR3. Proof. solve_setter. Defined.
#[export] Instance set_ring3_callback_address : Setter ring3_callback_address. Proof. solve_setter. Defined.

(** ** Access through pointers *)

Section Access.

Definition threadList_at (i : Z) : M kst Z :=
  getsome (fun s => zlookup (threadList s) i).

(** [t->field] *)
Definition deref_thread (t : Z) : M kst thread_d :=
  getsome (fun s => threads s !! t).

(** [t->field = ...]: undefined when [t] designates no structure. *)
Definition update_thread (t : Z) (f : thread_d -> thread_d) : M kst unit :=
  x ← deref_thread t;
  modify (fun s => s <| threads := <[t := f x]> (threads s) |>).

Definition deref_msg (m : Z) : M kst msg_d := getsome (fun s => msgs s !! m).

Definition update_msg (m : Z) (f : msg_d -> msg_d) : M kst unit :=
  x ← deref_msg m;
  modify (fun s => s <| msgs := <[m := f x]> (msgs s) |>).

(** A process.c routine, run on its part of the state. *)
Definition on_ptab {A} (m : M ptab A) : M kst A := fun s =>
  match m (pt s) with
  | Done a p => Done a (s <| pt := p |>)
  | Panic msg => Panic msg
  | Undef => Undef
  | Leave p => Leave (s <| pt := p |>)
  | OutOfFuel => OutOfFuel
  end.

End Access.

(** [t->used == TRUE && t->magic == 1234] *)
Definition valid_struct (x : thread_d) : bool :=
  (used x =? TRUE) && (magic x =? 1234).

(** ** Validity of a thread identifier *)

(** [tid] is in range and its slot designates the valid structure [x], at [t]. *)
Definition thread_at (s : kst) (i t : Z) (x : thread_d) : Prop :=
  0 <= i < THREAD_COUNT_MAX /\ zlookup (threadList s) i = Some t /\
  t <> NULL /\ threads s !! t = Some x.

Definition valid_thread (s : kst) (i t : Z) (x : thread_d) : Prop :=
  thread_at s i t x /\ used x = TRUE /\ magic x = 1234.

(** The thread table is well formed: the list has its declared length, a
    nonzero slot designates a structure whose [tid] is the index of the slot,
    and there is no structure at the null address. *)
Record wf_threads (s : kst) : Prop := {
  wf_threadList_length : length (threadList s) = Z.to_nat THREAD_COUNT_MAX;
  wf_threads_null : threads s !! NULL = None;
  wf_slot : forall i t, zlookup (threadList s) i = Some t -> t <> NULL ->
    exists x, threads s !! t = Some x /\ tid x = i
}.

Lemma valid_struct_true x : valid_struct x = true <-> used x = TRUE /\ magic x = 1234.
Proof. unfold valid_struct. rewrite andb_true_iff, !Z.eqb_eq. tauto. Qed.

(** Two different slots of a well-formed table designate different structures. *)
Lemma wf_threads_inj s i j t :
  wf_threads s -> zlookup (threadList s) i = Some t ->
  zlookup (threadList s) j = Some t -> t <> NULL -> i = j.
Proof.
  intros Hwf Hi Hj Ht.
  destruct (wf_slot s Hwf i t Hi Ht) as (x & Hx & <-).
  destruct (wf_slot s Hwf j t Hj Ht) as (y & Hy & <-). congruence.
Qed.

Lemma wf_threads_lookup s i :
  wf_threads s -> 0 <= i < THREAD_COUNT_MAX -> exists t, zlookup (threadList s) i = Some t.
Proof.
  intros Hwf Hi. apply zlookup_some. rewrite (wf_threadList_length s Hwf).
  unfold THREAD_COUNT_MAX in *. lia.
Qed.

(** Updating a structure without changing its [tid] keeps the table well formed. *)
Lemma wf_threads_update s t x f :
  wf_threads s -> threads s !! t = Some x -> tid (f x) = tid x ->
  wf_threads (s <| threads := <[t := f x]> (threads s) |>).
Proof.
  intros [Hlen Hnull Hslot] Hx Htid. split; cbn; [done| |].
  - rewrite lookup_insert_ne; [done|]. intros ->. congruence.
  - intros i p Hp Hne. destruct (Hslot i p Hp Hne) as (y & Hy & Hi).
    destruct (decide (t = p)) as [->|Hn].
    + exists (f x). rewrite lookup_insert_eq. split; [done|]. congruence.
    + exists y. by rewrite lookup_insert_ne.
Qed.

(** Only the list and the structures matter. *)
Lemma wf_threads_ext s s' :
  wf_threads s -> threadList s' = threadList s -> threads s' = threads s -> wf_threads s'.
Proof. intros [] Hl Ht. split; rewrite ?Hl, ?Ht; done. Qed.

Lemma update_thread_Done s t x f :
  threads s !! t = Some x ->
  update_thread t f s = Done tt (s <| threads := <[t := f x]> (threads s) |>).
Proof. intros H. unfold update_thread, deref_thread. by msteps. Qed.

Lemma deref_thread_Done s t x : threads s !! t = Some x -> deref_thread t s = Done x s.
Proof. intros H. unfold deref_thread, getsome. by rewrite H. Qed.

Lemma threadList_at_Done s i t : zlookup (threadList s) i = Some t -> threadList_at i s = Done t s.
Proof. intros H. unfold threadList_at, getsome. by rewrite H. Qed.

Lemma update_msg_Done s m x f :
  msgs s !! m = Some x ->
  update_msg m f s = Done tt (s <| msgs := <[m := f x]> (msgs s) |>).
Proof. intros H. unfold update_msg, deref_msg. by msteps. Qed.

Lemma wp_update_thread s t x f Q :
  threads s !! t = Some x ->
  Q tt (s <| threads := <[t := f x]> (threads s) |>) ->
  wp (update_thread t f) s Q.
Proof. intros H HQ. eapply wp_eq; [by apply update_thread_Done|done]. Qed.

#[export] Hint Resolve update_thread_Done update_msg_Done : gramado.
