(* ===== verification/Samples.v ===== *)
(** * Samples: concrete states on which the theorems are instantiated

    A blank thread, a blank kernel state, the state whose table holds a given
    list of threads, and an executable test of the well-formedness invariant. *)
From Stdlib Require Import ZArith Lia.
From stdpp Require Import base gmap list strings.
From S2P Require Import Config Prelude Process KState.

#[local] Open Scope Z_scope.
#[local] Open Scope gramado_scope.

Definition blank_context : x64_context_d :=
  mk_context 0 0 0 0 0 0 0 0 0 0 0 0 0 0 0 0 0 0 0 0 0 0 0 0 [].

(** A valid thread, in the given state, that has run before. *)
Definition sample_thread (i : Z) (st : thread_state) : thread_d :=
  mk_thread TRUE 1234 i FALSE 0 0 1 1 st FALSE FALSE 0 0 FALSE 0 RING3 0 0 0
    0 0 0 0 0 0 0 0 0 0 1 6 0 0 0 0 0 0 0 0 0 0 0 0 0 FALSE
    (replicate 64 0) 0 0 FALSE 0 blank_context TRUE 0.

Definition sample_process (i : Z) : process_d :=
  mk_process TRUE 1234 i 0 0 0 0 0 0 0 0 (replicate 64 0) 0.

Definition sample_ptab : ptab :=
  mk_ptab SYSTEM_RUNNING 0 (4096 :: replicate 1023 0) {[ 4096 := sample_process 0 ]}.

(** The address of the structure in slot [i]. *)
Definition sample_addr (i : Z) : Z := 4096 * (i + 1).

Fixpoint sample_map {A} (i : Z) (l : list A) : gmap Z A :=
  match l with
  | [] => ∅
  | x :: l' => <[sample_addr i := x]> (sample_map (i + 1) l')
  end.

(** Thread [i] of the list is in slot [i] of the table; slot 0 is the idle and
    init thread and the current one. *)
Definition sample_kst (ts : list thread_d) : kst :=
  let addrs := sample_addr <$> range 0 (Z.of_nat (length ts)) in
  let init := match ts with [] => NULL | _ => sample_addr 0 end in
  mk_kst 100 DEFAULT_PIT_FREQ sample_ptab (sample_map 0 ts)
    (addrs ++ replicate (1024 - length ts) 0) ∅
    0 0 init init NULL (Z.of_nat (length ts)) 0 (replicate 7 0) 0 0 0 0 0 0
    TRUE SCHED_POLICY_RR 0 0 UNLOCKED FALSE 0 FALSE 0 UNLOCKED 0 ∅ 0 0 0
    blank_context 3 0 (replicate 32 0) (mk_ds_callback TRUE FALSE 0 0 16 62) 0 0.

Definition wf_slotb (s : kst) (p : nat * Z) : bool :=
  (p.2 =? NULL) ||
  match threads s !! p.2 with Some x => tid x =? Z.of_nat p.1 | None => false end.

Definition wf_threadsb (s : kst) : bool :=
  (Z.of_nat (length (threadList s)) =? THREAD_COUNT_MAX) &&
  bool_decide (threads s !! NULL = None) &&
  forallb (wf_slotb s) (imap (fun i t => (i, t)) (threadList s)).

Lemma wf_threadsb_true s : wf_threadsb s = true -> wf_threads s.
Proof.
  unfold wf_threadsb. rewrite !andb_true_iff, Z.eqb_eq, bool_decide_eq_true, forallb_forall.
  intros [[Hl Hn] Hf]. split; [lia|done|].
  intros i t Hi Ht. pose proof (zlookup_lt _ _ _ Hi) as Hr. unfold zlookup in Hi.
  destruct (Z.ltb_spec i 0); [lia|].
  specialize (Hf (Z.to_nat i, t)). rewrite <- list_elem_of_In in Hf.
  assert (Hin : (Z.to_nat i, t) ∈ imap (fun i t => (i, t)) (threadList s)).
  { apply elem_of_lookup_imap. eauto. }
  apply Hf in Hin. unfold wf_slotb in Hin. cbn in Hin.
  apply orb_true_iff in Hin as [Hin | Hin]; [by apply Z.eqb_eq in Hin|].
  destruct (threads s !! t) as [x|]; [|done]. exists x. split; [done|].
  apply Z.eqb_eq in Hin. lia.
Qed.

(** Solves [wf_threads s] on a concrete state. *)
Ltac wf_concrete := apply wf_threadsb_true; vm_compute; reflexivity.
