(* ===== verification/Threads.v ===== *)
(** * Threads: the thread state machine

    [core/ke/intake/sched/schedi.c] (the state changes, sleep, yield, wake-up),
    [core/ke/intake/tlib.c] (priorities, links, collection of dead threads) and
    the accessors of [core/ke/intake/thread.c]. *)
From Stdlib Require Import ZArith Lia.
From stdpp Require Import base gmap list strings.
From S2P Require Import Config Prelude Process KState Samples.

#[local] Open Scope Z_scope.
#[local] Open Scope gramado_scope.

(** ** schedi.c *)

(** The validation that opens the routines of schedi.c: the identifier is in
    range, its slot is not NULL, and the structure is in use with its magic
    number; the routine returns silently otherwise. *)
Definition with_thread (i : Z) (k : Z -> M kst unit) : M kst unit :=
  if (i <? 0) || (THREAD_COUNT_MAX <=? i) then mret tt else
  t ← threadList_at i;
  if t =? NULL then mret tt else
  x ← deref_thread t;
  if negb (used x =? TRUE) then mret tt else
  if negb (magic x =? 1234) then mret tt else
  k t.

Definition do_credits (t : Z) : M kst unit :=
  if t =? NULL then mret tt else
  x ← deref_thread t;
  if negb (used x =? TRUE) then mret tt else
  if negb (magic x =? 1234) then mret tt else
  update_thread t (fun x => x <| credits := u64 (credits x + 1) |>).

Definition do_credits_by_tid (i : Z) : M kst unit :=
  if (i <? 0) || (THREAD_COUNT_MAX <=? i) then mret tt else
  t ← threadList_at i;
  if negb (t =? NULL) then do_credits t else mret tt.

Definition do_thread_blocked (i : Z) : M kst unit :=
  with_thread i (fun t =>
    j ← gets jiffies;
    update_thread t (fun x => x <| state := BLOCKED |> <| blocked_jiffy := j |>)).

Definition do_thread_dead (i : Z) : M kst unit :=
  with_thread i (fun t => update_thread t (fun x => x <| state := DEAD |>)).

Definition do_thread_initialized (i : Z) : M kst unit :=
  with_thread i (fun t => update_thread t (fun x => x <| state := INITIALIZED |>)).

Definition do_thread_ready (i : Z) : M kst unit :=
  with_thread i (fun t =>
    j ← gets jiffies;
    update_thread t (fun x => x <| state := READY |> <| ready_jiffy := j |>)).

Definition do_thread_running (i : Z) : M kst unit :=
  with_thread i (fun t => update_thread t (fun x => x <| state := RUNNING |>)).

Definition do_thread_standby (i : Z) : M kst unit :=
  with_thread i (fun t => update_thread t (fun x => x <| state := STANDBY |>)).

Definition do_thread_waiting (i ms : Z) : M kst unit :=
  with_thread i (fun t =>
    j ← gets jiffies;
    update_thread t (fun x => x <| state := WAITING |> <| waiting_jiffy := j |>);;
    let JiffiesToWait := if ms =? 0 then 1 else ms in
    update_thread t (fun x => x <| wake_jiffy := u64 (j + JiffiesToWait) |>)).

Definition do_thread_zombie (i : Z) : M kst unit :=
  with_thread i (fun t =>
    if i =? INIT_TID then mret tt else
    j ← gets jiffies;
    update_thread t (fun x => x <| state := ZOMBIE |> <| zombie_jiffy := j |>)).

(** The current process is blocked with its control thread. *)
Definition do_waitpid (pid : Z) : M kst Z :=
  cur ← on_ptab get_current_process;
  p ← on_ptab (processList_at cur);
  if p =? NULL then mret (-1) else
  x ← on_ptab (deref_process p);
  (if (p_used x =? TRUE) && (p_magic x =? 1234) then
     on_ptab (update_process p (fun x =>
       x <| p_state := PROCESS_BLOCKED |> <| p_wait4pid := pid |>));;
     deref_thread (p_control x);;        (* current_thread == p->control->tid *)
     update_thread (p_control x) (fun x => x <| state := BLOCKED |>)
   else mret tt);;
  mret (-1).

Definition schediSelectForExecution (t : Z) : M kst unit :=
  if t =? NULL then mret tt else
  update_thread t (fun x => x <| state := STANDBY |> <| standbyCount := 0 |>).

Definition get_current_thread : M kst Z := gets current_thread.

Definition set_current_thread (i : Z) : M kst unit :=
  if (i <? 0) || (THREAD_COUNT_MAX <=? i) then mret tt else
  c ← gets current_thread;
  if i =? c then mret tt else
  with_thread i (fun _ => modify (fun s => s <| current_thread := i |>)).

Definition set_foreground_thread (i : Z) : M kst unit :=
  if (i <? 0) || (THREAD_COUNT_MAX <=? i) then mret tt else
  c ← gets foreground_thread;
  if i =? c then mret tt else
  with_thread i (fun _ => modify (fun s => s <| foreground_thread := i |>)).

Definition wait_for_a_reason (i reason : Z) : M kst unit :=
  if (i <? 0) || (THREAD_COUNT_MAX <=? i) then mret tt else
  if (reason <? 0) || (10 <=? reason) then mret tt else
  with_thread i (fun t => update_thread t (fun x => x <| state := WAITING |>)).

(** Only a saved context that is not READY, RUNNING or BLOCKED is woken up. *)
Definition wakeup_thread (i : Z) : M kst unit :=
  with_thread i (fun t =>
    x ← deref_thread t;
    if saved x =? FALSE then mret tt else
    if state_eqb (state x) READY then mret tt else
    if state_eqb (state x) RUNNING then mret tt else
    if state_eqb (state x) BLOCKED then mret tt else
    do_thread_ready i).

Definition yield (i : Z) : M kst unit :=
  with_thread i (fun t => update_thread t (fun x => x <| yield_in_progress := TRUE |>)).

Definition sleep_until (i ms : Z) : M kst unit :=
  if (i <? 0) || (THREAD_COUNT_MAX <=? i) then mret tt else
  let ms := if ms =? 0 then 1 else ms in
  do_thread_waiting i ms.

Definition sleep (i ms : Z) : M kst unit :=
  with_thread i (fun t => update_thread t (fun x =>
    x <| sleep_in_progress := TRUE |> <| desired_sleep_ms := ms |>)).

Definition schedi_drop_quantum (t : Z) : M kst unit :=
  if t =? NULL then mret tt else
  x ← deref_thread t;
  if negb (magic x =? 1234) then mret tt else
  update_thread t (fun x => x <| quantum := QUANTUM_MIN |>).

(** ** tlib.c *)

Definition link_two_threads (primary secondary : Z) : M kst Z :=
  if primary =? NULL then mret (-1) else
  x ← deref_thread primary;
  if negb (magic x =? 1234) then mret (-1) else
  if secondary =? NULL then mret (-1) else
  y ← deref_thread secondary;
  if negb (magic y =? 1234) then mret (-1) else
  update_thread primary (fun x => x <| link := secondary |> <| is_linked := TRUE |>);;
  update_thread secondary (fun x => x <| link := primary |> <| is_linked := TRUE |>);;
  mret 0.

Definition unlink_two_threads (primary secondary : Z) : M kst Z :=
  if primary =? NULL then mret (-1) else
  x ← deref_thread primary;
  if negb (magic x =? 1234) then mret (-1) else
  if secondary =? NULL then mret (-1) else
  y ← deref_thread secondary;
  if negb (magic y =? 1234) then mret (-1) else
  update_thread primary (fun x => x <| link := NULL |> <| is_linked := FALSE |>);;
  update_thread secondary (fun x => x <| link := NULL |> <| is_linked := FALSE |>);;
  mret 0.

(** The quantum is brought back within its limits with the priority. *)
Definition set_thread_priority (t prio : Z) : M kst unit :=
  if prio <? PRIORITY_MIN then mret tt else
  if PRIORITY_MAX <? prio then mret tt else
  if t =? NULL then mret tt else
  x ← deref_thread t;
  if negb (valid_struct x) then mret tt else
  if prio =? priority x then mret tt else
  if prio <? base_priority x then mret tt else
  (if PRIORITY_MAX <? prio
   then update_thread t (fun x => x <| priority := PRIORITY_MAX |>) else mret tt);;
  (if negb (prio =? priority x)
   then update_thread t (fun x => x <| priority := prio |>) else mret tt);;
  y ← deref_thread t;
  (if quantum y <? QUANTUM_MIN
   then update_thread t (fun x => x <| quantum := QUANTUM_MIN |>) else mret tt);;
  z ← deref_thread t;
  (if QUANTUM_MAX <? quantum z
   then update_thread t (fun x => x <| quantum := QUANTUM_MAX |>) else mret tt).

(** The limit test reads the value just stored, so it always succeeds. *)
Definition threadi_power (t prio : Z) : M kst unit :=
  if t =? NULL then mret tt else
  x ← deref_thread t;
  if negb (valid_struct x) then mret tt else
  update_thread t (fun x => x <| priority := PRIORITY_MAX |>);;
  y ← deref_thread t;
  (if (PRIORITY_MIN <=? priority y) && (priority y <=? PRIORITY_MAX)
   then update_thread t (fun x => x <| priority := prio |>) else mret tt);;
  update_thread t (fun x => x <| quantum := QUANTUM_MAX |>).

Definition release (i : Z) : M kst unit :=
  if (i <? 0) || (THREAD_COUNT_MAX <=? i) then mret tt else do_thread_ready i.

Definition SetThread_PML4PA (t pa : Z) : M kst unit :=
  if t =? NULL then mret tt else
  update_thread t (fun x => x <| pml4_PA := pa |>).

Definition check_for_dead_thread_collector : M kst unit :=
  f ← gets dead_thread_collector_flag;
  if f =? 1 then mret tt
  else modify (fun s => s <| dead_thread_collector_flag := FALSE |>).

(** The routine panics before it does anything else; what follows is the code
    after that [panic], which no execution reaches. *)
Definition kill_thread (i : Z) : M kst unit :=
  (panic "kill_thread: #debug" : M kst unit);;
  if i =? INIT_TID then mret tt else
  if i <? 0 then mret tt else
  if THREAD_COUNT_MAX <=? i then mret tt else
  t ← threadList_at i;
  if t =? NULL then mret tt else
  x ← deref_thread t;
  if negb (used x =? TRUE) then mret tt else
  if negb (magic x =? 1234) then mret tt else
  if negb (state_eqb (state x) ZOMBIE) then mret tt else
  update_thread t (fun x => x <| state := DEAD |> <| magic := 4321 |>).

(** One iteration of the collector. *)
Definition collect_body (idle i : Z) : M kst unit :=
  t ← threadList_at i;
  if t =? NULL then mret tt else
  y ← deref_thread t;
  if state_eqb (state y) ZOMBIE && valid_struct y then
    if t =? idle then panic "dead_thread_collector: We can't kill the Idle thread!" else
    c ← gets current_thread;
    if tid y =? c then panic "dead_thread_collector: We can't kill the current_thread!" else
    kill_thread (tid y)
  else mret tt.

Definition dead_thread_collector : M kst unit :=
  idle ← gets IdleThread;
  if idle =? NULL then panic "dead_thread_collector: Idle" else
  x ← deref_thread idle;
  if negb (magic x =? 1234) then panic "dead_thread_collector: Idle validation" else
  for_each (range 0 THREAD_COUNT_MAX) (collect_body idle).

Definition kill_all_threads : M kst unit :=
  for_each (range 1 THREAD_COUNT_MAX) kill_thread.

Definition kill_zombie_threads : M kst unit :=
  for_each (range 0 THREAD_COUNT_MAX) (fun i =>
    t ← threadList_at i;
    if t =? NULL then mret tt else
    x ← deref_thread t;
    if valid_struct x && state_eqb (state x) ZOMBIE then kill_thread (tid x)
    else mret tt).

(** ** thread.c *)

Definition destroy_thread_structure (t : Z) : M kst Z :=
  if t =? NULL then mret (-1) else
  x ← deref_thread t;
  if negb (used x =? TRUE) then mret (-1) else
  let TID := tid x in
  if TID <? 0 then mret (-1) else
  if THREAD_COUNT_MAX <=? TID then mret (-1) else
  tmp ← threadList_at TID;
  if negb (t =? tmp) then mret (-1) else
  update_thread t (fun x => x <| magic := 0 |> <| used := FALSE |>);;
  mret 0.

Definition FindReadyThread : M kst Z :=
  r ← for_return (range 0 THREAD_COUNT_MAX) (fun i =>
        t ← threadList_at i;
        if t =? NULL then mret None else
        x ← deref_thread t;
        if valid_struct x && state_eqb (state x) READY
        then mret (Some t) else mret None);
  mret (default NULL r).

Definition GetThreadByTID (i : Z) : M kst Z :=
  if (i <? 0) || (THREAD_COUNT_MAX <=? i) then mret NULL else threadList_at i.

Definition GetCurrentThread : M kst Z :=
  c ← gets current_thread;
  if c <? 0 then mret NULL else GetThreadByTID c.

Definition GetForegroundThread : M kst Z :=
  c ← gets foreground_thread;
  if c <? 0 then mret NULL else GetThreadByTID c.

Definition GetDSThread : M kst Z :=
  i ← gets ds_initialized;
  if negb (i =? TRUE) then mret NULL else
  ws ← gets ds_tid;
  GetThreadByTID ws.

(** A thread is only marked; the scheduler turns it into a zombie. *)
Definition exit_thread (i : Z) : M kst unit :=
  if (i <? 0) || (THREAD_COUNT_MAX <=? i) then mret tt else
  idle ← gets IdleThread;
  if idle =? NULL then panic "exit_thread: Idle" else
  x ← deref_thread idle;
  if negb (magic x =? 1234) then panic "exit_thread: Idle validation" else
  if i =? tid x then panic "exit_thread: We can't kill the Idle thread" else
  t ← threadList_at i;
  if t =? NULL then mret tt else
  y ← deref_thread t;
  if negb (magic y =? 1234) then mret tt else
  update_thread t (fun x => x <| exit_in_progress := TRUE |>).

Definition exit_current_thread : M kst unit :=
  c ← gets current_thread;
  if c <? 0 then mret tt else
  if THREAD_COUNT_MAX <=? c then mret tt else exit_thread c.

Definition init_threads : M kst Z :=
  modify (fun s => s <| current_thread := 0 |> <| threads_counter := 0 |>
    <| threadList := replicate (Z.to_nat THREAD_COUNT_MAX) 0 |>
    <| g_use_event_responder := TRUE |>);;
  mret 0.

(** ** The operations as requests *)

(** What the rest of the kernel asks the thread state machine to do. *)
Inductive thread_op : Type :=
  | OpReady (i : Z) | OpWaiting (i ms : Z) | OpBlocked (i : Z) | OpZombie (i : Z)
  | OpDead (i : Z) | OpInitialized (i : Z) | OpRunning (i : Z) | OpStandby (i : Z)
  | OpWakeup (i : Z) | OpYield (i : Z) | OpSleep (i ms : Z) | OpSleepUntil (i ms : Z)
  | OpRelease (i : Z) | OpCredits (i : Z) | OpReason (i reason : Z).

Definition run_op (op : thread_op) : M kst unit :=
  match op with
  | OpReady i => do_thread_ready i
  | OpWaiting i ms => do_thread_waiting i ms
  | OpBlocked i => do_thread_blocked i
  | OpZombie i => do_thread_zombie i
  | OpDead i => do_thread_dead i
  | OpInitialized i => do_thread_initialized i
  | OpRunning i => do_thread_running i
  | OpStandby i => do_thread_standby i
  | OpWakeup i => wakeup_thread i
  | OpYield i => yield i
  | OpSleep i ms => sleep i ms
  | OpSleepUntil i ms => sleep_until i ms
  | OpRelease i => release i
  | OpCredits i => do_credits_by_tid i
  | OpReason i r => wait_for_a_reason i r
  end.

(** ** Abstract specification: a map from identifiers to valid threads *)

Definition op_target (op : thread_op) : Z :=
  match op with
  | OpReady i | OpWaiting i _ | OpBlocked i | OpZombie i | OpDead i
  | OpInitialized i | OpRunning i | OpStandby i | OpWakeup i | OpYield i
  | OpSleep i _ | OpSleepUntil i _ | OpRelease i | OpCredits i | OpReason i _ => i
  end.

Definition spec_ready (j : Z) (x : thread_d) : thread_d :=
  x <| state := READY |> <| ready_jiffy := j |>.

Definition spec_waiting (j ms : Z) (x : thread_d) : thread_d :=
  x <| state := WAITING |> <| waiting_jiffy := j |>
    <| wake_jiffy := u64 (j + if ms =? 0 then 1 else ms) |>.

(** Can a saved thread in this state be woken up? *)
Definition wakes (x : thread_d) : bool :=
  negb (saved x =? FALSE) &&
  match state x with READY | RUNNING | BLOCKED => false | _ => true end.

(** The effect of a request on the structure of its target, at jiffy [j]. *)
Definition op_effect (j : Z) (op : thread_op) (x : thread_d) : thread_d :=
  match op with
  | OpReady _ | OpRelease _ => spec_ready j x
  | OpWaiting _ ms => spec_waiting j ms x
  | OpSleepUntil _ ms => spec_waiting j (if ms =? 0 then 1 else ms) x
  | OpBlocked _ => x <| state := BLOCKED |> <| blocked_jiffy := j |>
  | OpZombie i => if i =? INIT_TID then x
                  else x <| state := ZOMBIE |> <| zombie_jiffy := j |>
  | OpDead _ => x <| state := DEAD |>
  | OpInitialized _ => x <| state := INITIALIZED |>
  | OpRunning _ => x <| state := RUNNING |>
  | OpStandby _ => x <| state := STANDBY |>
  | OpWakeup _ => if wakes x then spec_ready j x else x
  | OpYield _ => x <| yield_in_progress := TRUE |>
  | OpSleep _ ms => x <| sleep_in_progress := TRUE |> <| desired_sleep_ms := ms |>
  | OpCredits _ => x <| credits := u64 (credits x + 1) |>
  | OpReason _ r => if (r <? 0) || (10 <=? r) then x else x <| state := WAITING |>
  end.

(** The valid thread that an identifier designates. *)
Definition lookup_thread (s : kst) (i : Z) : option thread_d :=
  if (i <? 0) || (THREAD_COUNT_MAX <=? i) then None else
  t ← zlookup (threadList s) i;
  if t =? NULL then None else
  x ← threads s !! t;
  if valid_struct x then Some x else None.

(** The rest of the state. *)
Definition same_globals (s s' : kst) : Prop :=
  s' = s <| threads := threads s' |>.

(** Sequences of requests. *)
Fixpoint run_ops (ops : list thread_op) : M kst unit :=
  match ops with
  | [] => mret tt
  | op :: ops' => run_op op;; run_ops ops'
  end.

Definition spec_ops (j i : Z) (ops : list thread_op) (x : thread_d) : thread_d :=
  fold_left (fun x op => if i =? op_target op then op_effect j op x else x) ops x.

(** ** Lemmas on the validation *)

Lemma lookup_thread_Some s i x :
  lookup_thread s i = Some x <-> exists t, valid_thread s i t x.
Proof.
  unfold lookup_thread, valid_thread, thread_at. split.
  - case_match eqn:E; [done|]. apply orb_false_iff in E as [E1 E2].
    apply Z.ltb_ge in E1. apply Z.leb_gt in E2.
    destruct (zlookup (threadList s) i) as [t|] eqn:Ht; [simpl|done].
    case_match eqn:En; [done|]. apply Z.eqb_neq in En.
    destruct (threads s !! t) as [y|] eqn:Hy; [simpl|done].
    case_match eqn:Ev; [|done]. intros [= ->]. apply valid_struct_true in Ev.
    exists t. tauto.
  - intros (t & ((Hr & Ht & Hn & Hx) & Hu & Hm)). zguard. rewrite Ht. simpl.
    zguard. rewrite Hx. simpl. unfold valid_struct. by rewrite Hu, Hm.
Qed.

(** The validation: the continuation runs exactly on a valid thread. *)
Lemma with_thread_valid s i t x k :
  valid_thread s i t x -> with_thread i k s = k t s.
Proof.
  intros ((Hr & Ht & Hn & Hx) & Hu & Hm).
  unfold with_thread, threadList_at, deref_thread. zguard. msteps. zguard. msteps.
  by rewrite Hu, Hm.
Qed.

Lemma with_thread_invalid s i k :
  wf_threads s -> lookup_thread s i = None -> with_thread i k s = Done tt s.
Proof.
  intros Hwf. unfold with_thread, lookup_thread, threadList_at, deref_thread.
  case_match eqn:E; [done|]. apply orb_false_iff in E as [E1 E2].
  apply Z.ltb_ge in E1. apply Z.leb_gt in E2.
  destruct (wf_threads_lookup s i Hwf) as (t & Ht); [lia|]. rewrite Ht. msteps.
  simpl. case_match eqn:En; [done|]. apply Z.eqb_neq in En.
  destruct (wf_slot s Hwf i t Ht En) as (x & Hx & _). rewrite Hx. msteps. simpl.
  unfold valid_struct. destruct (used x =? TRUE); [|done].
  destruct (magic x =? 1234); done.
Qed.

(** What an identifier designates when its slot holds [t]. *)
Lemma lookup_thread_at s i t x :
  thread_at s i t x -> lookup_thread s i = if valid_struct x then Some x else None.
Proof.
  intros (Hr & Ht & Hn & Hx). unfold lookup_thread. zguard. rewrite Ht. simpl. zguard.
  by rewrite Hx.
Qed.

(** The table after an update of the structure at [t]. *)
Lemma lookup_thread_at_update s i t x f k :
  wf_threads s -> thread_at s i t x -> tid (f x) = tid x ->
  lookup_thread (s <| threads := <[t := f x]> (threads s) |>) k =
  if k =? i then (if valid_struct (f x) then Some (f x) else None)
  else lookup_thread s k.
Proof.
  intros Hwf (Hr & Ht & Hn & Hx) Htid. unfold lookup_thread. cbn.
  destruct (Z.eqb_spec k i) as [->|Hk].
  - zguard. rewrite Ht. simpl. zguard. by rewrite lookup_insert_eq.
  - destruct ((k <? 0) || (THREAD_COUNT_MAX <=? k)); [done|].
    destruct (zlookup (threadList s) k) as [u|] eqn:Hu; [simpl|done].
    destruct (Z.eqb_spec u NULL) as [->|Hnu]; [done|].
    rewrite lookup_insert_ne; [done|]. intros ->.
    by apply Hk, (wf_threads_inj s k i u).
Qed.

Lemma lookup_thread_update s i t x f k :
  wf_threads s -> valid_thread s i t x -> valid_struct (f x) = true -> tid (f x) = tid x ->
  lookup_thread (s <| threads := <[t := f x]> (threads s) |>) k =
  if k =? i then Some (f x) else lookup_thread s k.
Proof.
  intros Hwf (Hat & _ & _) Hv Htid. erewrite lookup_thread_at_update by done.
  by rewrite Hv.
Qed.

Lemma op_effect_valid j op x :
  valid_struct (op_effect j op x) = valid_struct x /\ tid (op_effect j op x) = tid x.
Proof. destruct op; simpl; repeat case_match; done. Qed.

(** On a valid target a request stores its effect in the target's structure. *)
Lemma run_op_valid s op t x :
  valid_thread s (op_target op) t x ->
  run_op op s = Done tt (s <| threads := <[t := op_effect (jiffies s) op x]> (threads s) |>).
Proof.
  intros H. pose proof H as ((Hr & Ht & Hn & Hx) & Hu & Hm).
  assert (Hsame : s = s <| threads := <[t := x]> (threads s) |>).
  { rewrite insert_id by done. by destruct s. }
  assert (Hready : do_thread_ready (op_target op) s =
    Done tt (s <| threads := <[t := spec_ready (jiffies s) x]> (threads s) |>)).
  { unfold do_thread_ready. erewrite with_thread_valid by done. msteps.
    by rewrite (update_thread_Done _ _ x). }
  assert (Hwait : forall ms, do_thread_waiting (op_target op) ms s =
    Done tt (s <| threads := <[t := spec_waiting (jiffies s) ms x]> (threads s) |>)).
  { intros ms. unfold do_thread_waiting. erewrite with_thread_valid by done. msteps.
    erewrite bind_Done by (by apply update_thread_Done).
    erewrite update_thread_Done by (cbn; apply lookup_insert_eq). cbn.
    by rewrite insert_insert_eq. }
  destruct op; simpl in *; try done;
    try (unfold do_thread_blocked, do_thread_dead, do_thread_initialized,
           do_thread_running, do_thread_standby, yield, sleep;
         erewrite with_thread_valid by done; msteps;
         by rewrite (update_thread_Done _ _ x)).
  - unfold do_thread_zombie. erewrite with_thread_valid by done.
    destruct (i =? INIT_TID); [by rewrite <- Hsame|]. msteps.
    by rewrite (update_thread_Done _ _ x).
  - unfold wakeup_thread. erewrite with_thread_valid by done.
    unfold deref_thread. msteps. unfold wakes, state_eqb.
    destruct (saved x =? FALSE); simpl; [by rewrite <- Hsame|].
    destruct (state x); simpl; try done; by rewrite <- Hsame.
  - unfold sleep_until. zguard. done.
  - unfold release. zguard. done.
  - unfold do_credits_by_tid, do_credits, threadList_at, deref_thread. zguard. msteps.
    zguard. msteps. rewrite Hu, Hm, !Z.eqb_refl. cbn [negb].
    by rewrite (update_thread_Done _ _ x).
  - unfold wait_for_a_reason. zguard.
    destruct ((reason <? 0) || (10 <=? reason)); [by rewrite <- Hsame|].
    erewrite with_thread_valid by done. by rewrite (update_thread_Done _ _ x).
Qed.

Lemma run_op_invalid s op :
  wf_threads s -> lookup_thread s (op_target op) = None -> run_op op s = Done tt s.
Proof.
  intros Hwf H.
  assert (Hw : forall k, with_thread (op_target op) k s = Done tt s)
    by (intros; by apply with_thread_invalid).
  destruct op; simpl in *; try apply Hw.
  - unfold sleep_until. case_match; [done|]. apply Hw.
  - unfold release. case_match; [done|]. apply Hw.
  - unfold do_credits_by_tid, do_credits, threadList_at, deref_thread.
    specialize (Hw (fun t => update_thread t (fun x => x))).
    revert H. unfold lookup_thread. case_match eqn:E; [done|].
    apply orb_false_iff in E as [E1 E2]. apply Z.ltb_ge in E1. apply Z.leb_gt in E2.
    destruct (wf_threads_lookup s i Hwf) as (t & Ht); [lia|]. rewrite Ht. msteps. simpl.
    destruct (Z.eqb_spec t NULL) as [|En]; [done|]. simpl.
    destruct (wf_slot s Hwf i t Ht En) as (x & Hx & _). rewrite Hx. msteps. simpl.
    unfold valid_struct. destruct (used x =? TRUE), (magic x =? 1234); done.
  - unfold wait_for_a_reason. do 2 (case_match; [done|]). apply Hw.
Qed.

(** One request: it always returns, touches nothing but the structures, keeps
    the table well formed, and is its specification on every identifier. *)
Lemma run_op_refines s op :
  wf_threads s -> exists s', run_op op s = Done tt s' /\ wf_threads s' /\
    same_globals s s' /\
    forall i, lookup_thread s' i =
      if i =? op_target op then op_effect (jiffies s) op <$> lookup_thread s i
      else lookup_thread s i.
Proof.
  intros Hwf. destruct (lookup_thread s (op_target op)) as [x|] eqn:Hl.
  - pose proof Hl as Hv. apply lookup_thread_Some in Hv as (t & Hv).
    destruct (op_effect_valid (jiffies s) op x) as [Hval Htid].
    pose proof Hv as ((_ & _ & _ & Hx) & Hu & Hm).
    eexists. split; [by apply run_op_valid|]. split_and!.
    + by apply (wf_threads_update s t x).
    + by destruct s.
    + intros i. rewrite (lookup_thread_update s (op_target op) t x); [|done|done| |done].
      * destruct (Z.eqb_spec i (op_target op)) as [->|]; [|done]. by rewrite Hl.
      * rewrite Hval. by apply valid_struct_true.
  - exists s. split_and!; [by apply run_op_invalid|done|by destruct s|].
    intros i. destruct (Z.eqb_spec i (op_target op)) as [->|]; [|done]. by rewrite Hl.
Qed.

Lemma same_globals_jiffies s s' : same_globals s s' -> jiffies s' = jiffies s.
Proof. intros ->. done. Qed.

(** Any sequence of requests: the table is mapped by the specification. *)
Lemma run_ops_spec ops s :
  wf_threads s -> exists s', run_ops ops s = Done tt s' /\ wf_threads s' /\
    same_globals s s' /\
    forall i, lookup_thread s' i = spec_ops (jiffies s) i ops <$> lookup_thread s i.
Proof.
  revert s. induction ops as [|op ops IH]; intros s Hwf; simpl.
  - exists s. split_and!; [done|done|by destruct s|]. intros i. by destruct (lookup_thread s i).
  - destruct (run_op_refines s op Hwf) as (s1 & Hs1 & Hwf1 & Hg1 & Hl1).
    erewrite bind_Done by done.
    destruct (IH s1 Hwf1) as (s2 & Hs2 & Hwf2 & Hg2 & Hl2).
    exists s2. split_and!; [done|done| |].
    + unfold same_globals in *. rewrite Hg2, Hg1. done.
    + intros i. rewrite Hl2, Hl1, (same_globals_jiffies s s1 Hg1). unfold spec_ops; simpl.
      destruct (i =? op_target op); destruct (lookup_thread s i); done.
Qed.

(** A property of one structure that every request of a kind preserves is
    preserved by every sequence of requests of that kind. *)
Lemma spec_ops_preserves (K : thread_op -> Prop) (P : thread_d -> Prop) j i ops x :
  (forall op y, K op -> i = op_target op -> P y -> P (op_effect j op y)) ->
  Forall K ops -> P x -> P (spec_ops j i ops x).
Proof.
  intros Hstep. unfold spec_ops. revert x.
  induction ops as [|op ops IH]; intros x HK Hx; simpl; [done|].
  inversion HK; subst. apply IH; [done|].
  destruct (Z.eqb_spec i (op_target op)); [|done]. by apply Hstep.
Qed.

(** Requests that leave the choice of when a thread runs to the scheduler. *)
Definition soft_op (op : thread_op) : Prop :=
  match op with
  | OpWakeup _ | OpYield _ | OpSleep _ _ | OpCredits _ => True
  | _ => False
  end.

Ltac op_cases op :=
  destruct op; simpl; intros; subst; repeat case_match; cbn in *; try done.

(** [C4] Functional refinement of the thread state machine: for every sequence
    of requests (state changes, sleeps, yields, wake-ups, releases, credits)
    on a well-formed table, the kernel's code returns, never dereferences an
    invalid pointer, changes no global other than the structures, keeps the
    table well formed, and maps each identifier's valid thread through the
    requests that name it and no other thread. *)
Theorem thread_ops_refine ops s :
  wf_threads s -> exists s', run_ops ops s = Done tt s' /\ wf_threads s' /\
    same_globals s s' /\
    forall i, lookup_thread s' i = spec_ops (jiffies s) i ops <$> lookup_thread s i.
Proof. apply run_ops_spec. Qed.

(** A blocked thread is not woken up: whatever sequence of wake-ups,
    yields, sleeps and credits is requested, for this thread or others, a
    thread that was BLOCKED is still BLOCKED. *)
Theorem blocked_stays_blocked ops s i x :
  wf_threads s -> Forall soft_op ops -> lookup_thread s i = Some x ->
  state x = BLOCKED ->
  exists s' x', run_ops ops s = Done tt s' /\ lookup_thread s' i = Some x' /\
    state x' = BLOCKED.
Proof.
  intros Hwf Hops Hx Hb.
  destruct (run_ops_spec ops s Hwf) as (s' & Hrun & _ & _ & Hl).
  exists s', (spec_ops (jiffies s) i ops x). split_and!; [done|by rewrite Hl, Hx|].
  apply (spec_ops_preserves soft_op (fun x => state x = BLOCKED)); try done.
  intros op y Hk _ Hy. destruct op; try done; simpl.
  unfold wakes. rewrite Hy. by rewrite andb_false_r.
Qed.

(** The INIT thread never becomes a zombie through requests: after any
    sequence of requests its state is ZOMBIE only if it was before. *)
Theorem init_never_zombie ops s x :
  wf_threads s -> lookup_thread s INIT_TID = Some x -> state x <> ZOMBIE ->
  exists s' x', run_ops ops s = Done tt s' /\ lookup_thread s' INIT_TID = Some x' /\
    state x' <> ZOMBIE.
Proof.
  intros Hwf Hx Hz.
  destruct (run_ops_spec ops s Hwf) as (s' & Hrun & _ & _ & Hl).
  exists s', (spec_ops (jiffies s) INIT_TID ops x).
  split_and!; [done|by rewrite Hl, Hx|].
  apply (spec_ops_preserves (fun _ => True) (fun x => state x <> ZOMBIE)); try done;
    [|by apply Forall_true].
  intros op y _. op_cases op.
Qed.

(** Waking up a thread: a valid thread with a saved context becomes READY,
    with the current jiffy recorded, in every state but RUNNING and BLOCKED (a
    READY thread is left as it is); an unsaved one is unchanged.  ZOMBIE, DEAD,
    INITIALIZED and STANDBY threads are therefore resurrected, although the
    comment of the routine wants only WAITING threads to be woken up. *)
Theorem wakeup_thread_spec s i x :
  wf_threads s -> lookup_thread s i = Some x ->
  exists s' x', wakeup_thread i s = Done tt s' /\ lookup_thread s' i = Some x' /\
    (saved x = FALSE -> x' = x) /\
    (state x = READY \/ state x = RUNNING \/ state x = BLOCKED -> x' = x) /\
    (saved x <> FALSE ->
     state x <> RUNNING -> state x <> BLOCKED -> state x <> READY ->
     state x' = READY /\ ready_jiffy x' = jiffies s).
Proof.
  intros Hwf Hx. destruct (run_op_refines s (OpWakeup i) Hwf) as (s' & Hr & _ & _ & Hl).
  specialize (Hl i). cbn in Hr, Hl. rewrite Z.eqb_refl, Hx in Hl. cbn in Hl.
  eexists _, _. split; [done|]. split; [apply Hl|]. unfold wakes.
  split; [intros Hs; by rewrite Hs|].
  split.
  - intros [-> | [-> | ->]]; by rewrite andb_false_r.
  - intros Hs ???. apply Z.eqb_neq in Hs. rewrite Hs. by destruct (state x).
Qed.

(** Changing a priority: on a valid thread the priority is changed only to
    a value of [PRIORITY_MIN, PRIORITY_MAX] that is not below the base
    priority, a change leaves the quantum in [QUANTUM_MIN, QUANTUM_MAX] (the
    value clamped), and in every other case the structure is unchanged; the
    other fields and the other threads never change. *)
Theorem set_thread_priority_spec s t x prio :
  threads s !! t = Some x -> t <> NULL -> valid_struct x = true ->
  set_thread_priority t prio s = Done tt (s <| threads := <[t :=
    if (PRIORITY_MIN <=? prio) && (prio <=? PRIORITY_MAX) &&
       (base_priority x <=? prio) && negb (prio =? priority x)
    then x <| priority := prio |>
           <| quantum := Z.max QUANTUM_MIN (Z.min QUANTUM_MAX (quantum x)) |>
    else x]> (threads s) |>).
Proof.
  intros Hx Ht Hv. unfold set_thread_priority, deref_thread.
  assert (Hsame : s = s <| threads := <[t := x]> (threads s) |>).
  { rewrite insert_id by done. by destruct s. }
  assert (Hid : (mret tt : M kst unit) s = Done tt (s <| threads := <[t := x]> (threads s) |>))
    by (by rewrite <- Hsame).
  destruct (Z.ltb_spec prio PRIORITY_MIN), (Z.leb_spec PRIORITY_MIN prio); try lia; [done|].
  destruct (Z.ltb_spec PRIORITY_MAX prio) as [|Hmax], (Z.leb_spec prio PRIORITY_MAX);
    try lia; [done|].
  destruct (Z.eqb_spec t NULL); [done|]. msteps. rewrite Hv. cbn [negb].
  destruct (Z.eqb_spec prio (priority x)); [by rewrite andb_false_r|].
  destruct (Z.ltb_spec prio (base_priority x)), (Z.leb_spec (base_priority x) prio);
    try lia; [done|]. cbn [andb negb]. msteps.
  erewrite bind_Done by (by apply update_thread_Done). cbn.
  erewrite bind_getsome by (cbn; apply lookup_insert_eq). cbn.
  unfold QUANTUM_MAX, QUANTUM_MIN, QUANTUM_Q, CONFIG_QUANTUM_MULTIPLIER.
  change (1 * 1) with 1. change (1 * 6) with 6.
  destruct (Z.ltb_spec (quantum x) 1).
  - erewrite bind_Done by (apply update_thread_Done; cbn; apply lookup_insert_eq). cbn.
    erewrite bind_getsome by (cbn; apply lookup_insert_eq). cbn.
    rewrite !insert_insert_eq.
    by replace (Z.max 1 (Z.min 6 (quantum x))) with 1 by lia.
  - msteps. erewrite bind_getsome by (cbn; apply lookup_insert_eq). cbn.
    destruct (Z.ltb_spec 6 (quantum x)).
    + erewrite update_thread_Done by (cbn; apply lookup_insert_eq). cbn.
      rewrite !insert_insert_eq.
      by replace (Z.max 1 (Z.min 6 (quantum x))) with 6 by lia.
    + replace (Z.max 1 (Z.min 6 (quantum x))) with (quantum x) by lia.
      by destruct x.
Qed.

Lemma collect_step s i :
  wf_threads s -> 0 <= i < THREAD_COUNT_MAX ->
  (forall y, lookup_thread s i = Some y -> state y <> ZOMBIE) /\
    collect_body (IdleThread s) i s = Done tt s \/
  (exists y, lookup_thread s i = Some y /\ state y = ZOMBIE) /\
    exists msg, collect_body (IdleThread s) i s = Panic msg.
Proof.
  intros Hwf Hi. unfold collect_body, threadList_at, deref_thread, lookup_thread. zguard.
  destruct (wf_threads_lookup s i Hwf Hi) as (t & Ht). rewrite Ht. msteps. simpl.
  destruct (Z.eqb_spec t NULL) as [|Hn]; [left; by split|].
  destruct (wf_slot s Hwf i t Ht Hn) as (y & Hy & Htid). rewrite Hy. msteps. simpl.
  destruct (valid_struct y) eqn:Hv; [|left; rewrite andb_false_r; by split].
  rewrite andb_true_r. unfold state_eqb. case_bool_decide as Hz.
  - right. split; [by exists y|]. destruct (t =? IdleThread s); [by eexists|]. msteps.
    destruct (tid y =? current_thread s); by eexists.
  - left. split; [|done]. intros z [= <-]. done.
Qed.

(** The collector of dead threads cannot collect: with a valid idle
    thread, it returns without changing anything when no slot holds a valid
    ZOMBIE thread, and it panics otherwise, because [kill_thread] panics before
    it marks the structure DEAD. *)
Theorem dead_thread_collector_spec s x :
  wf_threads s -> threads s !! IdleThread s = Some x -> magic x = 1234 ->
  (forall i y, lookup_thread s i = Some y -> state y <> ZOMBIE) /\
    dead_thread_collector s = Done tt s \/
  (exists i y, lookup_thread s i = Some y /\ state y = ZOMBIE) /\
    exists msg, dead_thread_collector s = Panic msg.
Proof.
  intros Hwf Hx Hm. unfold dead_thread_collector, deref_thread, threadList_at.
  msteps. destruct (Z.eqb_spec (IdleThread s) NULL) as [E|_];
    [rewrite E, (wf_threads_null s Hwf) in Hx; done|].
  msteps. rewrite Hm. cbn [negb Z.eqb Pos.eqb].
  match goal with |- context [for_each ?l ?b s] =>
    destruct (for_each_scan l b s) as [[Hall ->] | [(i & msg & Hi & Hp) [msg' ->]]] end.
  - intros i Hi%elem_range.
    destruct (collect_step s i Hwf Hi) as [[_ H] | [_ H]]; [left | right]; apply H.
  - left. split; [|done]. intros i y Hy Hz.
    assert (Hi : 0 <= i < THREAD_COUNT_MAX).
    { apply lookup_thread_Some in Hy as (? & ((? & _) & _)). done. }
    destruct (collect_step s i Hwf Hi) as [[Hn _] | [_ [msg H]]].
    + by apply (Hn y).
    + rewrite <- elem_range in Hi. specialize (Hall i Hi). congruence.
  - right. split; [|by exists msg']. rewrite elem_range in Hi.
    destruct (collect_step s i Hwf Hi) as [[_ H] | [(y & Hy & Hz) _]]; [|by exists i, y].
    congruence.
Qed.

(** Leaving a thread: the idle thread cannot leave (the kernel panics);
    any other thread with a structure of the right magic number is only marked
    as exiting - its state, and every other thread, stay as they are until the
    scheduler sees the mark. *)
Theorem exit_thread_spec s i x :
  wf_threads s -> threads s !! IdleThread s = Some x -> magic x = 1234 ->
  0 <= i < THREAD_COUNT_MAX ->
  (i = tid x /\ exists msg, exit_thread i s = Panic msg) \/
  (i <> tid x /\ exists s', exit_thread i s = Done tt s' /\ wf_threads s' /\
    forall k, lookup_thread s' k =
      if k =? i then (fun y => y <| exit_in_progress := TRUE |>) <$> lookup_thread s k
      else lookup_thread s k).
Proof.
  intros Hwf Hx Hm Hi. unfold exit_thread, threadList_at, deref_thread. zguard. msteps.
  destruct (Z.eqb_spec (IdleThread s) NULL) as [E|_];
    [rewrite E, (wf_threads_null s Hwf) in Hx; done|].
  msteps. rewrite Hm. cbn [negb Z.eqb Pos.eqb].
  destruct (Z.eqb_spec i (tid x)); [left; split; [done|by eexists]|right; split; [done|]].
  destruct (wf_threads_lookup s i Hwf Hi) as (t & Ht).
  assert (Hkeep : lookup_thread s i = None -> forall k, lookup_thread s k =
    if k =? i then (fun y => y <| exit_in_progress := TRUE |>) <$> lookup_thread s k
    else lookup_thread s k).
  { intros Hnone k. destruct (Z.eqb_spec k i) as [->|]; [by rewrite Hnone|done]. }
  rewrite (bind_getsome _ _ s t) by done.
  destruct (Z.eqb_spec t NULL) as [->|Hn].
  { exists s. split_and!; try done. apply Hkeep. unfold lookup_thread. zguard.
    rewrite Ht. done. }
  destruct (wf_slot s Hwf i t Ht Hn) as (y & Hy & Htid).
  assert (Hat : thread_at s i t y) by (by split).
  rewrite (bind_getsome _ _ s y) by done.
  pose proof (lookup_thread_at s i t y Hat) as Hl. unfold valid_struct in Hl.
  destruct (Z.eqb_spec (magic y) 1234) as [Hmy|]; cbn [negb].
  - eexists. split; [by apply update_thread_Done|].
    split; [by apply (wf_threads_update s t y)|]. intros k.
    rewrite (lookup_thread_at_update s i t y) by done.
    destruct (Z.eqb_spec k i) as [->|]; [|done]. rewrite Hl. unfold valid_struct. cbn.
    rewrite Hmy, andb_true_r. by destruct (used y =? TRUE).
  - exists s. split_and!; try done. apply Hkeep. by rewrite Hl, andb_false_r.
Qed.

(** ** Witnesses *)

(** The idle thread runs, thread 1 is blocked, thread 2 is a zombie. *)
Definition threads_demo : kst :=
  sample_kst [sample_thread 0 RUNNING; sample_thread 1 BLOCKED; sample_thread 2 ZOMBIE].

Lemma thread_ops_refine_witness :
  exists s', run_ops [OpWakeup 2; OpSleep 1 5; OpReady 7] threads_demo = Done tt s' /\
    (exists x, lookup_thread s' 2 = Some x /\ state x = READY).
Proof.
  destruct (thread_ops_refine [OpWakeup 2; OpSleep 1 5; OpReady 7] threads_demo)
    as (s' & Hs & _ & _ & Hl); [wf_concrete|].
  exists s'. split; [exact Hs|]. rewrite (Hl 2). vm_compute. by eexists.
Defined.

Lemma blocked_stays_blocked_witness :
  exists s' x', run_ops [OpWakeup 1; OpYield 1; OpWakeup 1] threads_demo = Done tt s' /\
    lookup_thread s' 1 = Some x' /\ state x' = BLOCKED.
Proof.
  apply (blocked_stays_blocked [OpWakeup 1; OpYield 1; OpWakeup 1] threads_demo 1
           (sample_thread 1 BLOCKED)); [wf_concrete| |vm_compute|]; try reflexivity.
  repeat constructor.
Defined.

Lemma init_never_zombie_witness :
  exists s' x', run_ops [OpZombie 0; OpZombie 1] threads_demo = Done tt s' /\
    lookup_thread s' INIT_TID = Some x' /\ state x' <> ZOMBIE.
Proof.
  apply (init_never_zombie [OpZombie 0; OpZombie 1] threads_demo (sample_thread 0 RUNNING));
    [wf_concrete|vm_compute; reflexivity|done].
Defined.

(** The zombie thread 2 is woken up and becomes READY. *)
Lemma wakeup_thread_spec_witness :
  exists s' x', wakeup_thread 2 threads_demo = Done tt s' /\
    lookup_thread s' 2 = Some x' /\ state x' = READY.
Proof.
  destruct (wakeup_thread_spec threads_demo 2 (sample_thread 2 ZOMBIE))
    as (s' & x' & H1 & H2 & _ & _ & H3); [wf_concrete|vm_compute; reflexivity|].
  exists s', x'. split; [exact H1|]. split; [exact H2|]. apply H3; done.
Defined.

Lemma set_thread_priority_spec_witness :
  set_thread_priority (sample_addr 1) 5 threads_demo =
  Done tt (threads_demo <| threads :=
    <[sample_addr 1 := (sample_thread 1 BLOCKED) <| priority := 5 |> <| quantum := 1 |>]>
      (threads threads_demo) |>).
Proof.
  rewrite (set_thread_priority_spec threads_demo (sample_addr 1) (sample_thread 1 BLOCKED) 5);
    [reflexivity|vm_compute; reflexivity|done|reflexivity].
Defined.

Lemma dead_thread_collector_spec_witness :
  exists msg, dead_thread_collector threads_demo = Panic msg.
Proof.
  destruct (dead_thread_collector_spec threads_demo (sample_thread 0 RUNNING))
    as [[H _] | [_ H]]; [wf_concrete|vm_compute; reflexivity|reflexivity| |exact H].
  exfalso. by apply (H 2 (sample_thread 2 ZOMBIE)); [vm_compute|].
Defined.

Lemma exit_thread_spec_witness :
  exists s', exit_thread 1 threads_demo = Done tt s' /\ wf_threads s'.
Proof.
  destruct (exit_thread_spec threads_demo 1 (sample_thread 0 RUNNING))
    as [[H _] | (_ & s' & H & Hwf & _)];
    [wf_concrete|vm_compute; reflexivity|reflexivity|done|done|].
  by exists s'.
Defined.
