(* ===== verification/Sched.v ===== *)
(** * Sched: the round-robin scheduler and its queues

    [core/ke/intake/sched/schedq.c] (the list of queue heads and the conductor
    [currentq]) and [core/ke/intake/sched/sched.c] (the construction of a round,
    the scheduler interface and the scheduling system calls).  A round is the
    list of threads linked by [next] from the idle thread. *)
From Stdlib Require Import ZArith Lia.
From stdpp Require Import base gmap list strings.
From S2P Require Import Config Prelude Process KState Samples Threads.

#[local] Open Scope Z_scope.
#[local] Open Scope gramado_scope.

(** ** schedq.c *)

Definition set_currentq (t : Z) : M kst Z :=
  if t =? NULL then mret (-1) else
  x ← deref_thread t;
  if negb (used x =? TRUE) then mret (-1) else
  if negb (magic x =? 1234) then mret (-1) else
  modify (fun s => s <| currentq := t |>);;
  mret 0.

Definition get_currentq : M kst Z := gets currentq.

(** The queue 0 is also the conductor; [index >= 1 || index <= 6] always holds. *)
Definition qlist_set_element (index head_thread : Z) : M kst Z :=
  if (index <? 0) || (SCHEQ_QUEUE_COUNT_MAX <=? index) then mret (-1) else
  if head_thread =? NULL then mret (-1) else
  if index =? SCHED_DEFAULT_QUEUE then
    modify (fun s => s <| qList := zinsert (qList s) SCHED_DEFAULT_QUEUE head_thread |>
                       <| currentq := head_thread |>);;
    mret 0
  else if (SCHED_P1_QUEUE <=? index) || (index <=? SCHED_P6_QUEUE) then
    modify (fun s => s <| qList := zinsert (qList s) index head_thread |>);;
    mret 0
  else mret (-1).

Definition qlist_get_element (index : Z) : M kst Z :=
  if (index <? 0) || (SCHEQ_QUEUE_COUNT_MAX <=? index) then mret NULL else
  if index =? SCHED_DEFAULT_QUEUE
  then getsome (fun s => zlookup (qList s) SCHED_DEFAULT_QUEUE)
  else if (SCHED_P1_QUEUE <=? index) || (index <=? SCHED_P6_QUEUE)
  then getsome (fun s => zlookup (qList s) index)
  else mret NULL.

Definition qlist_initialize : M kst Z :=
  for_each (range 0 SCHEQ_QUEUE_COUNT_MAX) (fun i =>
    modify (fun s => s <| qList := zinsert (qList s) i 0 |>));;
  mret 0.

(** ** sched.c: accessors *)

Definition get_init_thread : M kst Z := gets InitThread.

(** The successor of [q] in its queue, or the init thread when either
    structure is not valid. *)
Definition get_next_on_queue_or_the_init_thread (q : Z) : M kst Z :=
  init ← gets InitThread;
  if q =? NULL then mret init else
  x ← deref_thread q;
  if negb (used x =? TRUE) then mret init else
  if negb (magic x =? 1234) then mret init else
  let n := next x in
  if n =? NULL then mret init else
  y ← deref_thread n;
  if negb (used y =? TRUE) then mret init else
  if negb (magic y =? 1234) then mret init else
  mret n.

Definition get_ev_responter : M kst Z :=
  use ← gets g_use_event_responder;
  if negb (use =? TRUE) then mret NULL else
  t ← gets ev_responder_thread;
  if t =? NULL then mret NULL else
  x ← deref_thread t;
  if negb (used x =? TRUE) then mret NULL else
  if negb (magic x =? 1234) then mret NULL else
  mret t.

Definition set_ev_responder (t : Z) : M kst Z :=
  if t =? NULL then mret (-1) else
  x ← deref_thread t;
  if negb (used x =? TRUE) then mret (-1) else
  if negb (magic x =? 1234) then mret (-1) else
  modify (fun s => s <| ev_responder_thread := t |>);;
  update_thread t (fun x => x <| quantum := QUANTUM_MAX |> <| priority := PRIORITY_MAX |>);;
  mret 0.

Definition has_pending_event (t : Z) : M kst Z :=
  if t =? NULL then mret FALSE else
  x ← deref_thread t;
  if negb (used x =? TRUE) then mret FALSE else
  if negb (magic x =? 1234) then mret FALSE else
  if has_pending_event_ x =? TRUE then mret TRUE else
  update_thread t (fun x => x <| has_pending_event_ := FALSE |>);;
  mret FALSE.

Definition scheduler_lock : M kst unit :=
  modify (fun s => s <| g_scheduler_status := LOCKED |>).
Definition scheduler_unlock : M kst unit :=
  modify (fun s => s <| g_scheduler_status := UNLOCKED |>).
Definition scheduler_get_status : M kst Z := gets g_scheduler_status.

(** The round ends right after the current thread, with [last]. *)
Definition sched_cut_round (last : Z) : M kst unit :=
  if last =? NULL then mret tt else
  x ← deref_thread last;
  if negb (valid_struct x) then mret tt else
  c ← gets current_thread;
  if (c <? 0) || (THREAD_COUNT_MAX <=? c) then mret tt else
  Current ← threadList_at c;
  if Current =? NULL then mret tt else
  y ← deref_thread Current;
  if negb (valid_struct y) then mret tt else
  update_thread Current (fun y => y <| next := last |>);;
  update_thread last (fun x => x <| next := NULL |>).

(** ** sched.c: the construction of a round *)

(** Phase WAITING of the loop: alarm and wake-up.  [false]: the thread stays
    asleep and the loop continues with the next slot. *)
Definition rr_waiting (t : Z) : M kst bool :=
  x ← deref_thread t;
  if valid_struct x && state_eqb (state x) WAITING then
    j ← gets jiffies;
    (if alarm x <? j then update_thread t (fun x => x <| alarm := 0 |>) else mret tt);;
    if wake_jiffy x <=? j then do_thread_ready (tid x);; mret true
    else mret false
  else mret true.

(** Phase ZOMBIE: the structure is released. *)
Definition rr_zombie (t : Z) : M kst unit :=
  x ← deref_thread t;
  ds ← gets ds_initialized;
  dst ← gets ds_tid;
  (if (ds =? TRUE) && (tid x =? dst)
   then modify (fun s => s <| ds_initialized := FALSE |>) else mret tt);;
  init ← gets InitThread;
  if t =? init then panic "__scheduler_rr: Can't kill InitThread" else
  update_thread t (fun x => x <| used := FALSE |> <| magic := 0 |>).

(** The accounts of a thread that enters the round: the counters, and the
    priority brought back to the clamped base priority. *)
Definition rr_balance (x : thread_d) : thread_d :=
  let x := x <| runningCount := 0 |> <| runningCount_ms := 0 |>
             <| scheduledCount := u64 (scheduledCount x + 1) |> in
  let x := if base_priority x <? PRIORITY_MIN then x <| base_priority := PRIORITY_MIN |> else x in
  let x := if PRIORITY_MAX <? base_priority x then x <| base_priority := PRIORITY_MAX |> else x in
  x <| priority := base_priority x |>.

(** The quantum by the role of the thread: everyone, idle, foreground, display
    server. *)
Definition rr_role_quantum (is_idle : bool) (fg ds dst : Z) (x : thread_d) : thread_d :=
  let x := x <| quantum := QUANTUM_NORMAL_THRESHOLD |> in
  let x := if is_idle then x <| quantum := QUANTUM_NORMAL_THRESHOLD |> else x in
  let x := if tid x =? fg then x <| quantum := QUANTUM_NORMAL_TIME_CRITICAL |> else x in
  if (ds =? TRUE) && (tid x =? dst) then x <| quantum := QUANTUM_MAX |> else x.

(** The boost of an event responder, then the credits of the last round. *)
Definition rr_boost (x : thread_d) : thread_d :=
  let x := if isResponder x =? TRUE
           then x <| quantum := QUANTUM_SYSTEM_TIME_CRITICAL |> <| isResponder := FALSE |>
           else x in
  if 2 <=? credits x then x <| quantum := u64 (quantum x + 1) |> <| credits := 0 |> else x.

Definition rr_sched (is_idle : bool) (fg ds dst : Z) (x : thread_d) : thread_d :=
  rr_boost (rr_role_quantum is_idle fg ds dst (rr_balance x)).

(** Phase READY: the thread is linked at the end of the queue [p1q]. *)
Definition rr_ready (idle t : Z) : M kst unit :=
  p ← gets p1q;
  update_thread p (fun x => x <| next := t |>);;
  modify (fun s => s <| p1q := t |>);;
  fg ← gets foreground_thread;
  ds ← gets ds_initialized;
  dst ← gets ds_tid;
  update_thread t (rr_sched (t =? idle) fg ds dst).

(** One iteration of the loop on [threadList]. *)
Definition rr_body (idle i : Z) : M kst unit :=
  t ← threadList_at i;
  if t =? NULL then mret tt else
  x ← deref_thread t;
  if (magic x =? 1234) && (exit_in_progress x =? TRUE) && negb (t =? idle) then
    update_thread t (fun x => x <| state := ZOMBIE |>);;
    fg ← gets foreground_thread;
    if tid x =? fg then modify (fun s => s <| foreground_thread := -1 |>) else mret tt
  else
  go ← rr_waiting t;
  if negb go then mret tt else
  y ← deref_thread t;
  if valid_struct y && state_eqb (state y) ZOMBIE then rr_zombie t else
  if valid_struct y && state_eqb (state y) READY then rr_ready idle t else
  mret tt.

(** Idle becomes the head of every queue. *)
Definition rr_heads (idle : Z) : M kst unit :=
  modify (fun s => s <| p1q := idle |>);; qlist_set_element SCHED_P1_QUEUE idle;;
  modify (fun s => s <| p2q := idle |>);; qlist_set_element SCHED_P2_QUEUE idle;;
  modify (fun s => s <| p3q := idle |>);; qlist_set_element SCHED_P3_QUEUE idle;;
  modify (fun s => s <| p4q := idle |>);; qlist_set_element SCHED_P4_QUEUE idle;;
  modify (fun s => s <| p5q := idle |>);; qlist_set_element SCHED_P5_QUEUE idle;;
  modify (fun s => s <| p6q := idle |>);; qlist_set_element SCHED_P6_QUEUE idle;;
  modify (fun s => s <| currentq := idle |>);;
  qlist_set_element SCHED_DEFAULT_QUEUE idle;;
  mret tt.

(** The queues are emptied; the idle thread gets its priority and quantum. *)
Definition rr_cleared (s : kst) : kst :=
  s <| p1q := NULL |> <| p2q := NULL |> <| p3q := NULL |>
    <| p4q := NULL |> <| p5q := NULL |> <| p6q := NULL |> <| currentq := NULL |>.

Definition rr_prio (x : thread_d) : thread_d :=
  x <| base_priority := PRIORITY_SYSTEM_THRESHOLD |>
    <| priority := PRIORITY_SYSTEM_THRESHOLD |> <| quantum := QUANTUM_NORMAL_THRESHOLD |>.

(** What precedes the loop: the idle thread and its identifier.  [tmp0] is the
    content of the local [TmpThread], which is read (in
    [do_thread_ready(TmpThread->tid)]) before anything is stored in it. *)
Definition rr_prepare (tmp0 : Z) : M kst (Z * Z) :=
  modify rr_cleared;;
  ini ← gets sched_initialized;
  if negb (ini =? TRUE) then panic "__scheduler_rr: Scheduler not initialized" else
  pol ← gets sched_policy;
  if negb (pol =? SCHED_POLICY_RR) then panic "__scheduler_rr: Scheduler policy" else
  idle ← gets IdleThread;
  if idle =? NULL then panic "__scheduler_rr: Idle" else
  x ← deref_thread idle;
  if negb (valid_struct x) then panic "__scheduler_rr: Idle validation" else
  init ← gets InitThread;
  if negb (idle =? init) then panic "__scheduler_rr: Idle != InitThread" else
  update_thread idle rr_prio;;
  let FirstTID := tid x in
  if negb (FirstTID =? SYSTEM_THRESHOLD_TID) then panic "__scheduler_rr: FirstTID" else
  rr_heads idle;;
  if negb (tid x =? 0) then panic "sched: Idle->tid != INIT_TID" else
  if negb (tid x =? INIT_TID) then panic "sched: Idle->tid != INIT_TID" else
  tmp ← deref_thread tmp0;
  do_thread_ready (tid tmp);;
  mret (idle, FirstTID).

(** The last thread ends the list and the round is counted. *)
Definition rr_finish (FirstTID : Z) : M kst Z :=
  p ← gets p1q;
  update_thread p (fun x => x <| next := NULL |>);;
  modify (fun s => s <| rr_round_counter := u64 (rr_round_counter s + 1) |>);;
  mret FirstTID.

Definition __scheduler_rr (tmp0 : Z) (flags : Z) : M kst Z :=
  '(idle, FirstTID) ← rr_prepare tmp0;
  for_each (range (INIT_TID + 1) THREAD_COUNT_MAX) (rr_body idle);;
  rr_finish FirstTID.

Definition scheduler (tmp0 : Z) : M kst Z :=
  Policy ← gets sched_policy;
  st ← gets (fun s => system_state (pt s));
  if negb (st =? SYSTEM_RUNNING) then panic "scheduler: system_state" else
  modify (fun s => s <| pt := (pt s) <| system_state := SYSTEM_SCHEDULING |> |>);;
  n ← gets threads_counter;
  if n =? 0 then panic "scheduler: UPProcessorBlock.threads_counter == 0" else
  ini ← gets sched_initialized;
  if negb (ini =? TRUE) then panic "scheduler: SchedulerInfo.initialized" else
  first_tid ← (if Policy =? SCHED_POLICY_RR then __scheduler_rr tmp0 0
               else if Policy =? SCHED_POLICY_QUEUES
               then panic "scheduler: Policy not supported"
               else panic "scheduler: Invalid policy");
  idle ← gets IdleThread;
  if idle =? NULL then panic "scheduler: Idle" else
  x ← deref_thread idle;
  if negb (magic x =? 1234) then panic "scheduler: Idle validation" else
  if negb (first_tid =? tid x) then panic "scheduler: first_tid != Idle->tid" else
  modify (fun s => s <| pt := (pt s) <| system_state := SYSTEM_RUNNING |> |>);;
  mret first_tid.

Definition psScheduler (tmp0 : Z) : M kst Z :=
  st ← gets g_scheduler_status;
  if st =? LOCKED then mret (-1) else
  n ← gets threads_counter;
  if n =? 0 then panic "psScheduler: No threads" else
  if n =? 1 then
    idle ← gets IdleThread;
    modify (fun s => s <| currentq := idle |>);;
    x ← deref_thread idle;
    modify (fun s => s <| current_thread := tid x |>);;
    mret (tid x)
  else scheduler tmp0.

Definition sched_count_body (i : Z) (n : Z) : M kst Z :=
  t ← threadList_at i;
  if t =? NULL then mret n else
  x ← deref_thread t;
  mret (if valid_struct x && (state_eqb (state x) READY || state_eqb (state x) RUNNING)
        then u64 (n + 1) else n).

Definition sched_count_active_threads : M kst Z :=
  foldr (fun i k n => sched_count_body i n ≫= k) mret (range 0 THREAD_COUNT_MAX) 0.

(** ** sched.c: system calls and initialization *)

Definition sys_broken_vessels (i : Z) : M kst unit :=
  if (i <? 0) || (THREAD_COUNT_MAX <=? i) then mret tt else
  t ← threadList_at i;
  if t =? NULL then mret tt else
  x ← deref_thread t;
  if negb (valid_struct x) then mret tt else
  (if u64 (quantum x + 1) <=? quantum_limit_max x
   then update_thread t (fun x => x <| quantum := u64 (quantum x + 1) |>) else mret tt);;
  y ← deref_thread t;
  if QUANTUM_MAX <? quantum y
  then update_thread t (fun x => x <| quantum := QUANTUM_MAX |>) else mret tt.

Definition sys_sleep (i ms : Z) : M kst unit :=
  if (i <? 0) || (THREAD_COUNT_MAX <=? i) then mret tt else
  if ms =? 0 then mret tt else sleep i ms.

Definition sys_yield (i : Z) : M kst unit :=
  if (i <? 0) || (THREAD_COUNT_MAX <=? i) then mret tt else yield i.

Definition init_scheduler (flags : Z) : M kst Z :=
  modify (fun s => s <| sched_initialized := FALSE |>);;
  scheduler_lock;;
  qlist_initialize;;
  modify (fun s => s <| sched_policy := SCHED_POLICY_RR |> <| rr_round_counter := 0 |>
    <| sched_flags := flags |> <| sched_initialized := TRUE |>);;
  mret 0.

(** ** Specification of a round

    [s] is the state when the loop starts; every slot is visited once. *)

Definition is_exiting (x : thread_d) : bool :=
  (magic x =? 1234) && (exit_in_progress x =? TRUE).

(** Which threads does a round schedule? *)
Definition rr_runnable (j : Z) (x : thread_d) : bool :=
  negb (is_exiting x) && valid_struct x &&
  match state x with READY => true | WAITING => wake_jiffy x <=? j | _ => false end.

(** Phase WAITING. *)
Definition rr_wake (j : Z) (x : thread_d) : thread_d :=
  if valid_struct x && state_eqb (state x) WAITING then
    let x := if alarm x <? j then x <| alarm := 0 |> else x in
    if wake_jiffy x <=? j then spec_ready j x else x
  else x.

(** What a round does to the structure of a slot, the link [next] aside. *)
Definition rr_result (s : kst) (x : thread_d) : thread_d :=
  if is_exiting x then x <| state := ZOMBIE |> else
  if rr_runnable (jiffies s) x then
    rr_sched false (foreground_thread s) (ds_initialized s) (ds_tid s)
      (rr_wake (jiffies s) x)
  else if valid_struct x && state_eqb (state x) ZOMBIE
  then x <| used := FALSE |> <| magic := 0 |>
  else rr_wake (jiffies s) x.

(** The address in slot [i] when its thread is scheduled. *)
Definition rr_pick (s : kst) (i : Z) : option Z :=
  t ← zlookup (threadList s) i;
  x ← threads s !! t;
  if negb (t =? NULL) && rr_runnable (jiffies s) x then Some t else None.

(** The threads scheduled from the slots [1, k), in the order of the slots. *)
Definition rr_round (s : kst) (k : Z) : list Z := omap (rr_pick s) (range 1 k).

Definition unlinked (x : thread_d) : thread_d := x <| next := 0 |>.

(** [l] is linked by [next]. *)
Definition links (m : gmap Z thread_d) (l : list Z) : Prop :=
  forall n a b, l !! n = Some a -> l !! S n = Some b ->
    exists x, m !! a = Some x /\ next x = b.

(** The queue that the task switch follows: [l], then NULL. *)
Fixpoint queue (m : gmap Z thread_d) (l : list Z) : Prop :=
  match l with
  | [] => False
  | a :: l' => (exists x, m !! a = Some x /\ next x = default NULL (head l')) /\
               (l' = [] \/ queue m l')
  end.

(** ** Lemmas on links *)

Lemma links_update m l t x f :
  m !! t = Some x -> next (f x) = next x -> links m l -> links (<[t := f x]> m) l.
Proof.
  intros Hx Hf Hl n a b Ha Hb. destruct (Hl n a b Ha Hb) as (y & Hy & Hn).
  destruct (decide (t = a)) as [->|Hne].
  - exists (f x). rewrite lookup_insert_eq. split; [done|]. congruence.
  - exists y. by rewrite lookup_insert_ne.
Qed.

Lemma links_snoc m l p t x :
  NoDup (l ++ [p]) -> m !! p = Some x -> links m (l ++ [p]) ->
  links (<[p := x <| next := t |>]> m) ((l ++ [p]) ++ [t]).
Proof.
  intros Hnd Hx Hl n a b Ha Hb.
  assert (Hn : n = length l \/ (n < length l)%nat).
  { apply lookup_lt_Some in Hb. rewrite !length_app in Hb. cbn in Hb. lia. }
  rewrite lookup_app_l in Ha by (rewrite length_app; cbn; lia).
  destruct Hn as [->|Hn].
  - rewrite lookup_app_r, Nat.sub_diag in Ha by lia. injection Ha as <-.
    rewrite lookup_app_r in Hb by (rewrite length_app; cbn; lia).
    replace (S (length l) - length (l ++ [p]))%nat with 0%nat in Hb
      by (rewrite length_app; cbn; lia). injection Hb as <-.
    exists (x <| next := t |>). by rewrite lookup_insert_eq.
  - rewrite lookup_app_l in Hb by (rewrite length_app; cbn; lia).
    destruct (Hl n a b Ha Hb) as (y & Hy & Hny). exists y.
    rewrite lookup_insert_ne; [done|]. intros ->.
    assert (n = length l); [|lia].
    eapply NoDup_lookup; [exact Hnd|exact Ha|]. by rewrite lookup_app_r, Nat.sub_diag by lia.
Qed.

(** The structure of the last thread is not a source of links. *)
Lemma links_last m l p y :
  NoDup (l ++ [p]) -> links m (l ++ [p]) -> links (<[p := y]> m) (l ++ [p]).
Proof.
  intros Hnd Hl n a b Ha Hb. destruct (Hl n a b Ha Hb) as (x & Hx & Hn).
  exists x. rewrite lookup_insert_ne; [done|]. intros ->.
  assert (Hlast : (l ++ [a]) !! length l = Some a) by (by rewrite lookup_app_r, Nat.sub_diag by lia).
  assert (n = length l) as -> by (eapply NoDup_lookup; eassumption).
  apply lookup_lt_Some in Hb. rewrite length_app in Hb. cbn in Hb. lia.
Qed.

Lemma queue_of_links m l p x :
  links m (l ++ [p]) -> m !! p = Some x -> next x = NULL -> queue m (l ++ [p]).
Proof.
  intros Hl Hx Hn. induction l as [|a l IH]; simpl; [split; [by exists x|by left]|].
  assert (Hq : queue m (l ++ [p])).
  { apply IH. intros n u v Hu Hv. by apply (Hl (S n)). }
  split; [|by right].
  destruct (l ++ [p]) as [|b l'] eqn:E; [by destruct l|].
  apply (Hl 0%nat); simpl; [done|]. by rewrite E.
Qed.

(** ** Lemmas on one slot *)

Lemma rr_wake_next j x n : rr_wake j (x <| next := n |>) = (rr_wake j x) <| next := n |>.
Proof.
  unfold rr_wake. change (valid_struct (x <| next := n |>)) with (valid_struct x). cbn.
  destruct (valid_struct x && state_eqb (state x) WAITING); [|done].
  destruct (alarm x <? j); cbn; by destruct (wake_jiffy x <=? j).
Qed.

Lemma rr_sched_next b fg ds dst x n :
  rr_sched b fg ds dst (x <| next := n |>) = (rr_sched b fg ds dst x) <| next := n |>.
Proof.
  assert (Hbal : forall x, rr_balance (x <| next := n |>) = (rr_balance x) <| next := n |>).
  { intros y. unfold rr_balance. cbn.
    destruct (base_priority y <? PRIORITY_MIN); cbn; [done|].
    by destruct (PRIORITY_MAX <? base_priority y). }
  assert (Hrole : forall x, rr_role_quantum b fg ds dst (x <| next := n |>) =
    (rr_role_quantum b fg ds dst x) <| next := n |>).
  { intros y. unfold rr_role_quantum. cbn.
    destruct b, (tid y =? fg) eqn:E; cbn; rewrite ?E; cbn;
      by destruct ((ds =? TRUE) && (tid y =? dst)). }
  assert (Hboost : forall x, rr_boost (x <| next := n |>) = (rr_boost x) <| next := n |>).
  { intros y. unfold rr_boost. cbn.
    destruct (isResponder y =? TRUE); cbn; by destruct (2 <=? credits y). }
  unfold rr_sched. by rewrite Hbal, Hrole, Hboost.
Qed.

Lemma rr_sched_cong b fg fg' ds ds' dst dst' x :
  (tid x =? fg) = (tid x =? fg') /\
  (ds =? TRUE) && (tid x =? dst) = (ds' =? TRUE) && (tid x =? dst') ->
  rr_sched b fg ds dst x = rr_sched b fg' ds' dst' x.
Proof.
  intros [H1 H2]. unfold rr_sched, rr_role_quantum.
  assert (Ht : tid (rr_balance x) = tid x)
    by (unfold rr_balance; cbn; repeat (case_match; cbn); done).
  f_equal. revert Ht. generalize (rr_balance x) as z. intros z Ht.
  destruct b; cbn; rewrite Ht, H1; destruct (tid x =? fg'); cbn; by rewrite Ht, H2.
Qed.

(** The fields that identify a thread. *)
Definition ident (x : thread_d) : Z * Z * Z := (tid x, used x, magic x).

Lemma rr_sched_ident b fg ds dst x : ident (rr_sched b fg ds dst x) = ident x.
Proof.
  assert (Hbal : forall x, ident (rr_balance x) = ident x)
    by (intros y; unfold rr_balance; cbn; repeat (case_match; cbn); done).
  assert (Hrole : forall x, ident (rr_role_quantum b fg ds dst x) = ident x)
    by (intros y; unfold rr_role_quantum; cbn; repeat (case_match; cbn); done).
  assert (Hboost : forall x, ident (rr_boost x) = ident x)
    by (intros y; unfold rr_boost; cbn; repeat (case_match; cbn); done).
  unfold rr_sched. by rewrite Hboost, Hrole, Hbal.
Qed.

Lemma rr_wake_ident j x : ident (rr_wake j x) = ident x.
Proof. unfold rr_wake. repeat case_match; done. Qed.

Lemma rr_runnable_next j x n : rr_runnable j (x <| next := n |>) = rr_runnable j x.
Proof. done. Qed.

Lemma rr_result_next s x n : rr_result s (x <| next := n |>) = (rr_result s x) <| next := n |>.
Proof.
  unfold rr_result. rewrite rr_runnable_next, rr_wake_next, rr_sched_next.
  change (is_exiting (x <| next := n |>)) with (is_exiting x).
  change (valid_struct (x <| next := n |>)) with (valid_struct x). cbn.
  destruct (is_exiting x), (rr_runnable (jiffies s) x); try done.
  by destruct (valid_struct x && state_eqb (state x) ZOMBIE).
Qed.

Lemma rr_result_unlinked s x y :
  unlinked x = unlinked y -> unlinked (rr_result s x) = unlinked (rr_result s y).
Proof. unfold unlinked. intros H. by rewrite <- !rr_result_next, H. Qed.

Lemma rr_result_tid s x : tid (rr_result s x) = tid x.
Proof.
  assert (Hs : forall a b c d y, tid (rr_sched a b c d y) = tid y)
    by (intros; pose proof (rr_sched_ident a b c d y) as H; by injection H).
  assert (Hw : tid (rr_wake (jiffies s) x) = tid x)
    by (pose proof (rr_wake_ident (jiffies s) x) as H; by injection H).
  unfold rr_result. repeat case_match; rewrite ?Hs; done.
Qed.

(** Phase WAITING, on a slot of a well-formed table. *)
Lemma rr_waiting_spec s i t x :
  wf_threads s -> thread_at s i t x ->
  rr_waiting t s =
  Done (negb (valid_struct x && state_eqb (state x) WAITING) || (wake_jiffy x <=? jiffies s))
       (s <| threads := <[t := rr_wake (jiffies s) x]> (threads s) |>).
Proof.
  intros Hwf (Hi & Ht & Hn & Hx).
  assert (Hid : s = s <| threads := <[t := x]> (threads s) |>).
  { rewrite insert_id by done. by destruct s. }
  assert (Htid : tid x = i).
  { destruct (wf_slot s Hwf i t Ht Hn) as (y & Hy & Hy'). congruence. }
  unfold rr_waiting, deref_thread, rr_wake. msteps.
  destruct (valid_struct x) eqn:Hv; cbn [andb]; [|by rewrite <- Hid].
  destruct (state_eqb (state x) WAITING); cbn [negb orb]; [|by rewrite <- Hid].
  msteps. apply valid_struct_true in Hv as [Hu Hm].
  set (x1 := if alarm x <? jiffies s then x <| alarm := 0 |> else x).
  assert (Hx1 : ident x1 = ident x /\ wake_jiffy x1 = wake_jiffy x)
    by (unfold x1; by destruct (alarm x <? jiffies s)).
  destruct Hx1 as [[= Ht1 Hu1 Hm1] Hwk].
  assert (Halarm : (if alarm x <? jiffies s
    then update_thread t (fun x => x <| alarm := 0 |>) else mret tt) s =
    Done tt (s <| threads := <[t := x1]> (threads s) |>)).
  { unfold x1. destruct (alarm x <? jiffies s); [by apply update_thread_Done|].
    by rewrite <- Hid. }
  erewrite bind_Done by exact Halarm. rewrite Hwk.
  destruct (wake_jiffy x <=? jiffies s); [|done].
  assert (Hv1 : valid_thread (s <| threads := <[t := x1]> (threads s) |>) (tid x) t x1).
  { rewrite Htid. split; [|split; congruence].
    split_and!; cbn; try done; [apply Hi|apply Hi|apply lookup_insert_eq]. }
  erewrite bind_Done by exact (run_op_valid _ (OpReady (tid x)) t x1 Hv1).
  cbn. by rewrite insert_insert_eq.
Qed.

(** ** The loop *)

Record rr_inv (s0 : kst) (idle k : Z) (s : kst) : Prop := {
  ri_wf : wf_threads s;
  ri_rest : s = s0 <| threads := threads s |> <| p1q := p1q s |>
                   <| foreground_thread := foreground_thread s |>
                   <| ds_initialized := ds_initialized s |>;
  ri_fg : foreground_thread s = foreground_thread s0 \/
          foreground_thread s = -1 /\ foreground_thread s0 < k;
  ri_ds : ds_initialized s = ds_initialized s0 \/
          ds_initialized s = FALSE /\ ds_tid s0 < k;
  ri_p1q : exists l, idle :: rr_round s0 k = l ++ [p1q s];
  ri_nodup : NoDup (idle :: rr_round s0 k);
  ri_live : forall t, t ∈ idle :: rr_round s0 k -> is_Some (threads s !! t);
  ri_links : links (threads s) (idle :: rr_round s0 k);
  ri_done : forall i t x, 1 <= i < k -> thread_at s0 i t x ->
    unlinked <$> threads s !! t = Some (unlinked (rr_result s0 x));
  ri_todo : forall t, (forall i, 1 <= i < k -> zlookup (threadList s0) i <> Some t) ->
    unlinked <$> threads s !! t = unlinked <$> threads s0 !! t
}.

Lemma rr_round_snoc s k : 1 <= k ->
  rr_round s (k + 1) = rr_round s k ++ option_list (rr_pick s k).
Proof.
  intros. unfold rr_round. rewrite range_snoc by done. rewrite omap_app. simpl.
  by destruct (rr_pick s k).
Qed.

Lemma rr_pick_Some s i t :
  rr_pick s i = Some t <-> exists x, zlookup (threadList s) i = Some t /\ t <> NULL /\
    threads s !! t = Some x /\ rr_runnable (jiffies s) x = true.
Proof.
  unfold rr_pick. split.
  - destruct (zlookup (threadList s) i) as [u|]; [simpl|done].
    destruct (threads s !! u) as [x|] eqn:Hx; [simpl|done].
    case_match eqn:E; [|done]. intros [= <-]. apply andb_true_iff in E as [En Er].
    apply negb_true_iff, Z.eqb_neq in En. by exists x.
  - intros (x & -> & Hn & Hx & Hr). simpl. rewrite Hx. simpl. rewrite Hr.
    by zguard.
Qed.

Lemma rr_round_elem s k t :
  t ∈ rr_round s k -> exists i, 1 <= i < k /\ zlookup (threadList s) i = Some t /\ t <> NULL.
Proof.
  unfold rr_round. rewrite list_elem_of_omap. intros (i & Hi%elem_range & Hp).
  apply rr_pick_Some in Hp as (x & Ht & Hn & _). by exists i.
Qed.

(** A slot that is not scheduled: its structure, the foreground thread and the
    display server registration may change. *)
Lemma rr_inv_skip s0 idle k s t x0 x y fg ds :
  wf_threads s0 -> rr_inv s0 idle k s -> 1 <= k < THREAD_COUNT_MAX ->
  thread_at s0 k t x0 -> threads s !! t = Some x ->
  rr_runnable (jiffies s0) x0 = false ->
  unlinked y = unlinked (rr_result s0 x0) -> next y = next x -> tid y = tid x ->
  (fg = foreground_thread s \/ fg = -1 /\ foreground_thread s0 < k + 1) ->
  (ds = ds_initialized s \/ ds = FALSE /\ ds_tid s0 < k + 1) ->
  rr_inv s0 idle (k + 1) (s <| threads := <[t := y]> (threads s) |>
    <| foreground_thread := fg |> <| ds_initialized := ds |>).
Proof.
  intros Hwf0 [] Hk (_ & Ht & Hn & Hx0) Hx Hr Hy Hnext Htid Hfg Hds.
  assert (Hround : rr_round s0 (k + 1) = rr_round s0 k).
  { rewrite rr_round_snoc by lia. destruct (rr_pick s0 k) as [u|] eqn:E; simpl;
      [|by rewrite app_nil_r]. apply rr_pick_Some in E as (z & ? & ? & ? & ?). congruence. }
  assert (Hneq : forall i u, 1 <= i < k -> zlookup (threadList s0) i = Some u -> t <> u).
  { intros i u Hi Hu ->. assert (i = k); [|lia]. by apply (wf_threads_inj s0 i k u). }
  split; rewrite ?Hround; cbn; try done.
  - by eapply wf_threads_ext; [apply (wf_threads_update s t x (fun _ => y))|..].
  - by rewrite ri_rest0.
  - destruct Hfg as [->|[-> ?]]; [|right; split; [done|lia]]. destruct ri_fg0 as [|[? ?]]; [by left|right; split; [done|lia]].
  - destruct Hds as [->|[-> ?]]; [|right; split; [done|lia]]. destruct ri_ds0 as [|[? ?]]; [by left|right; split; [done|lia]].
  - intros u Hu. rewrite lookup_insert. case_decide; [by eexists|auto].
  - by apply (links_update _ _ _ x (fun _ => y)).
  - intros i u z Hi Hz. destruct (decide (i = k)) as [->|].
    + destruct Hz as (_ & Hu & _ & Hz). assert (u = t) as -> by congruence.
      rewrite lookup_insert_eq. simpl. f_equal. congruence.
    + assert (1 <= i < k) by lia. pose proof Hz as (_ & Hu & _ & _).
      rewrite lookup_insert_ne by (by apply (Hneq i)). by apply (ri_done0 i).
  - intros u Hu. rewrite lookup_insert_ne; [apply ri_todo0|].
    + intros i Hi. apply Hu. lia.
    + intros ->. by apply (Hu k); [lia|].
Qed.

(** A slot that is scheduled: it is linked after the last of the round. *)
Lemma rr_inv_sched s0 idle k s t x0 x y px :
  wf_threads s0 -> rr_inv s0 idle k s -> 1 <= k < THREAD_COUNT_MAX -> t <> idle ->
  thread_at s0 k t x0 -> threads s !! t = Some x -> threads s !! p1q s = Some px ->
  rr_runnable (jiffies s0) x0 = true ->
  unlinked y = unlinked (rr_result s0 x0) -> next y = next x -> tid y = tid x ->
  rr_inv s0 idle (k + 1)
    (s <| threads := <[t := y]> (<[p1q s := px <| next := t |>]> (threads s)) |>
       <| p1q := t |>).
Proof.
  intros Hwf0 [] Hk Hidle (_ & Ht & Hn & Hx0) Hx Hpx Hr Hy Hnext Htid.
  assert (Hround : rr_round s0 (k + 1) = rr_round s0 k ++ [t]).
  { rewrite rr_round_snoc by lia. replace (rr_pick s0 k) with (Some t); [done|].
    symmetry. apply rr_pick_Some. by exists x0. }
  assert (Hneq : forall i u, 1 <= i < k -> zlookup (threadList s0) i = Some u -> t <> u).
  { intros i u Hi Hu ->. assert (i = k); [|lia]. by apply (wf_threads_inj s0 i k u). }
  assert (Hnew : t ∉ idle :: rr_round s0 k).
  { intros [->|Hin]%elem_of_cons; [done|].
    apply rr_round_elem in Hin as (i & Hi & Hu & _). by apply (Hneq i t). }
  destruct ri_p1q0 as (l & Hl).
  assert (Hpt : p1q s <> t).
  { intros <-. apply Hnew. rewrite Hl. apply elem_of_app. right. by left. }
  assert (Hstrip : forall u, u <> t -> unlinked <$>
    <[t := y]> (<[p1q s := px <| next := t |>]> (threads s)) !! u = unlinked <$> threads s !! u).
  { intros u Hu. rewrite lookup_insert_ne by done.
    destruct (decide (p1q s = u)) as [<-|]; [rewrite lookup_insert_eq, Hpx; done|].
    by rewrite lookup_insert_ne. }
  split; rewrite ?Hround; cbn; try done.
  - assert (Hwf1 : wf_threads (s <| threads := <[p1q s := px <| next := t |>]> (threads s) |>))
      by (by apply (wf_threads_update s (p1q s) px (fun x => x <| next := t |>))).
    apply (wf_threads_update _ t x (fun _ => y)) in Hwf1; cbn;
      [|by rewrite lookup_insert_ne|done].
    eapply wf_threads_ext; [exact Hwf1|reflexivity|reflexivity].
  - by rewrite ri_rest0.
  - destruct ri_fg0 as [|[? ?]]; [by left|right; split; [done|lia]].
  - destruct ri_ds0 as [|[? ?]]; [by left|right; split; [done|lia]].
  - exists (idle :: rr_round s0 k). done.
  - rewrite app_comm_cons. apply NoDup_app. split_and!; [done| |apply NoDup_singleton].
    intros u Hu ->%list_elem_of_singleton. done.
  - intros u Hu. rewrite !lookup_insert. repeat (case_decide; [by eexists|]).
    apply ri_live0. rewrite app_comm_cons, elem_of_app in Hu.
    destruct Hu as [ | ->%list_elem_of_singleton]; done.
  - rewrite app_comm_cons. apply (links_update _ _ _ x (fun _ => y)); [|done|].
    + by rewrite lookup_insert_ne.
    + rewrite Hl in *. by apply links_snoc.
  - intros i u z Hi Hz. pose proof Hz as (_ & Hu & _ & Hzx).
    destruct (decide (i = k)) as [->|].
    + assert (u = t) as -> by congruence. rewrite lookup_insert_eq. simpl. f_equal. congruence.
    + assert (1 <= i < k) by lia.
      rewrite Hstrip by (by apply not_eq_sym, (Hneq i)). by apply (ri_done0 i).
  - intros u Hu. rewrite Hstrip.
    + apply ri_todo0. intros i Hi. apply Hu. lia.
    + intros ->. by apply (Hu k); [lia|].
Qed.

Lemma unlinked_eq x y : unlinked x = unlinked y -> x = y <| next := next x |>.
Proof.
  intros H. assert (x = (unlinked x) <| next := next x |>) as -> by (by destruct x).
  rewrite H. by destruct y.
Qed.

(** An empty slot. *)
Lemma rr_inv_null s0 idle k s :
  rr_inv s0 idle k s -> 1 <= k -> zlookup (threadList s0) k = Some NULL ->
  rr_inv s0 idle (k + 1) s.
Proof.
  intros [] Hk Hnull.
  assert (Hround : rr_round s0 (k + 1) = rr_round s0 k).
  { rewrite rr_round_snoc by lia. destruct (rr_pick s0 k) as [u|] eqn:E; simpl;
      [|by rewrite app_nil_r]. apply rr_pick_Some in E as (z & ? & ? & ?). congruence. }
  split; rewrite ?Hround; try done.
  - destruct ri_fg0 as [|[? ?]]; [by left|right; split; [done|lia]].
  - destruct ri_ds0 as [|[? ?]]; [by left|right; split; [done|lia]].
  - intros i t x Hi Hat. destruct (decide (i = k)) as [->|].
    + destruct Hat as (_ & ? & ? & _). congruence.
    + apply (ri_done0 i); [lia|done].
  - intros t Ht. apply ri_todo0. intros i Hi. apply Ht. lia.
Qed.

Section Slot.
Context (s0 : kst) (idle k : Z) (s : kst) (t : Z) (x0 x : thread_d).
Context (Hwf0 : wf_threads s0) (Hinv : rr_inv s0 idle k s).
Context (Hk : 1 <= k < THREAD_COUNT_MAX) (Hidle : t <> idle) (Hinit : InitThread s0 = idle).
Context (Hat0 : thread_at s0 k t x0) (Hat : thread_at s k t x).
Context (Hx : x = x0 <| next := next x |>).

Lemma slot_jiffies : jiffies s = jiffies s0.
Proof using Hwf0 Hinv Hk Hidle Hinit Hat0 Hat Hx. by rewrite (ri_rest _ _ _ _ Hinv). Qed.

Lemma slot_tid : tid x = k.
Proof using Hwf0 Hinv Hk Hidle Hinit Hat0 Hat Hx.
  destruct Hat as (_ & Ht & Hn & Hxt).
  destruct (wf_slot s (ri_wf _ _ _ _ Hinv) k t Ht Hn) as (y & Hy & <-). congruence.
Qed.

(** The structure of the slot is stored, nothing else changes. *)
Lemma slot_skip y :
  rr_runnable (jiffies s0) x0 = false ->
  unlinked y = unlinked (rr_result s0 x0) -> next y = next x -> tid y = tid x ->
  rr_inv s0 idle (k + 1) (s <| threads := <[t := y]> (threads s) |>).
Proof using Hwf0 Hinv Hk Hidle Hinit Hat0 Hat Hx.
  intros Hr Hy Hn Ht. destruct Hat as (_ & _ & _ & Hxt).
  pose proof (rr_inv_skip s0 idle k s t x0 x y (foreground_thread s) (ds_initialized s))
    as H. by destruct s; apply H; auto.
Qed.

Lemma slot_exiting :
  is_exiting x = true -> wp (rr_body idle k) s (fun _ s' => rr_inv s0 idle (k + 1) s').
Proof using Hwf0 Hinv Hk Hidle Hinit Hat0 Hat Hx.
  intros He. pose proof Hat as (_ & Ht & Hn & Hxt).
  assert (He0 : is_exiting x0 = true) by (rewrite Hx in He; exact He).
  unfold rr_body, threadList_at, deref_thread, wp. msteps. zguard. msteps.
  unfold is_exiting in He. rewrite He. zguard.
  erewrite bind_Done by (by apply update_thread_Done). msteps. cbn.
  assert (Hgen : forall fg, (fg = foreground_thread s \/ fg = -1 /\ foreground_thread s0 < k + 1) ->
    rr_inv s0 idle (k + 1) (s <| threads := <[t := x <| state := ZOMBIE |>]> (threads s) |>
      <| foreground_thread := fg |> <| ds_initialized := ds_initialized s |>)).
  { intros fg Hfg. apply (rr_inv_skip s0 idle k s t x0 x); auto.
    - unfold rr_runnable. by rewrite He0.
    - unfold rr_result. rewrite He0, Hx. done. }
  destruct (Z.eqb_spec (tid x) (foreground_thread s)) as [E|E].
  - specialize (Hgen (-1)). rewrite slot_tid in E. cbn.
    assert (foreground_thread s0 < k + 1) as Hlt.
    { destruct (ri_fg _ _ _ _ Hinv) as [?|[? ?]]; lia. }
    specialize (Hgen (or_intror (conj eq_refl Hlt))). destruct s; exact Hgen.
  - specialize (Hgen _ (or_introl eq_refl)). destruct s; exact Hgen.
Qed.

(** The structure after the phase WAITING. *)
Let y := rr_wake (jiffies s0) x.
Let s1 := s <| threads := <[t := y]> (threads s) |>.

Lemma slot_wake_facts :
  unlinked y = unlinked (rr_wake (jiffies s0) x0) /\ next y = next x /\ tid y = tid x /\
  valid_struct y = valid_struct x /\
  rr_runnable (jiffies s0) x0 = rr_runnable (jiffies s0) x /\ is_exiting x0 = is_exiting x.
Proof using Hwf0 Hinv Hk Hidle Hinit Hat0 Hat Hx.
  pose proof (rr_wake_ident (jiffies s0) x) as [= Ht Hu Hm]. unfold y.
  split_and!; try done.
  - unfold unlinked. by rewrite Hx, rr_wake_next.
  - rewrite Hx at 1. by rewrite rr_wake_next.
  - unfold valid_struct. by rewrite Hu, Hm.
  - by rewrite Hx.
  - by rewrite Hx.
Qed.

(** A structure that the phase WAITING leaves asleep, ZOMBIE or READY. *)
Lemma slot_state :
  is_exiting x = false ->
  let go := negb (valid_struct x && state_eqb (state x) WAITING) ||
            (wake_jiffy x <=? jiffies s0) in
  go && (valid_struct y && state_eqb (state y) READY) = rr_runnable (jiffies s0) x /\
  (valid_struct y && state_eqb (state y) ZOMBIE =
     valid_struct x && state_eqb (state x) ZOMBIE) /\
  (valid_struct x && state_eqb (state x) ZOMBIE = true -> go = true /\ y = x).
Proof using Hwf0 Hinv Hk Hidle Hinit Hat0 Hat Hx.
  intros He. destruct slot_wake_facts as (_ & _ & _ & Hv & _). cbv zeta.
  rewrite Hv. unfold rr_runnable. rewrite He. unfold y, rr_wake.
  destruct (valid_struct x); [|rewrite !andb_false_r; split_and!; try done].
  cbn [andb negb].
  destruct (state x) eqn:E; state_eval; cbn; rewrite ?E; state_eval; try (by split_and!).
  destruct (wake_jiffy x <=? jiffies s0) eqn:Ew; destruct (alarm x <? jiffies s0); cbn;
    rewrite ?Ew; cbn; rewrite ?E; state_eval; by split_and!.
Qed.

Lemma slot_at1 : thread_at s1 k t y /\ wf_threads s1.
Proof using Hwf0 Hinv Hk Hidle Hinit Hat0 Hat Hx.
  pose proof Hat as (Hr & Ht & Hn & Hxt). split.
  - split_and!; try done; [apply Hr|apply Hr|apply lookup_insert_eq].
  - apply (wf_threads_update s t x (fun _ => y)); [apply Hinv|done|].
    apply slot_wake_facts.
Qed.

Lemma slot_body :
  is_exiting x = false ->
  rr_body idle k s =
  (if negb (valid_struct x && state_eqb (state x) WAITING) || (wake_jiffy x <=? jiffies s0)
   then if valid_struct y && state_eqb (state y) ZOMBIE then rr_zombie t else
        if valid_struct y && state_eqb (state y) READY then rr_ready idle t else mret tt
   else mret tt) s1.
Proof using Hwf0 Hinv Hk Hidle Hinit Hat0 Hat Hx.
  intros He. pose proof Hat as (_ & Ht & Hn & Hxt).
  unfold rr_body, threadList_at, deref_thread. msteps. zguard. msteps.
  unfold is_exiting in He. rewrite He. cbn [andb].
  erewrite bind_Done by (eapply rr_waiting_spec; [apply Hinv|done]).
  rewrite slot_jiffies. fold y. fold s1.
  destruct (negb (valid_struct x && state_eqb (state x) WAITING) ||
            (wake_jiffy x <=? jiffies s0)); cbn [negb]; [|done].
  erewrite bind_getsome by (unfold s1; cbn; apply lookup_insert_eq). done.
Qed.

Lemma slot_zombie :
  is_exiting x = false -> valid_struct x && state_eqb (state x) ZOMBIE = true -> y = x ->
  wp (rr_zombie t) s1 (fun _ s' => rr_inv s0 idle (k + 1) s').
Proof using Hwf0 Hinv Hk Hidle Hinit Hat0 Hat Hx.
  intros He Hz Hyx. pose proof Hat as (_ & Ht & Hn & Hxt).
  assert (Hs1 : s1 = s).
  { unfold s1. rewrite Hyx, insert_id by done. by destruct s. }
  rewrite Hs1. unfold rr_zombie, deref_thread, wp. msteps.
  assert (Hgen : forall ds, (ds = ds_initialized s \/ ds = FALSE /\ ds_tid s0 < k + 1) ->
    rr_inv s0 idle (k + 1) (s <| threads :=
        <[t := x <| used := FALSE |> <| magic := 0 |>]> (threads s) |>
      <| foreground_thread := foreground_thread s |> <| ds_initialized := ds |>)).
  { intros ds Hds. apply (rr_inv_skip s0 idle k s t x0 x); auto.
    - destruct slot_wake_facts as (_ & _ & _ & _ & -> & _). unfold rr_runnable.
      apply andb_true_iff in Hz as [-> Hz]. apply bool_decide_eq_true in Hz as ->.
      by rewrite andb_false_r.
    - unfold rr_result. destruct slot_wake_facts as (_ & _ & _ & _ & Hr & ->). rewrite He, Hr.
      unfold rr_runnable. rewrite Hx in Hz. cbn in Hz. unfold valid_struct in Hz; cbn in Hz.
      fold (valid_struct x0) in Hz. rewrite Hz.
      apply andb_true_iff in Hz as [_ Hz]. apply bool_decide_eq_true in Hz.
      replace (state x) with ZOMBIE by (rewrite Hx; done). rewrite andb_false_r, Hx. done. }
  assert (Hdst : ds_tid s = ds_tid s0) by (by rewrite (ri_rest _ _ _ _ Hinv)).
  assert (Hini : InitThread s = idle) by (rewrite (ri_rest _ _ _ _ Hinv); done).
  destruct ((ds_initialized s =? TRUE) && (tid x =? ds_tid s)) eqn:Ed; msteps.
  - cbn. rewrite Hini. zguard. erewrite update_thread_Done by (cbn; done). cbn.
    apply andb_true_iff in Ed as [_ Ed]. apply Z.eqb_eq in Ed. rewrite slot_tid, Hdst in Ed.
    assert (Hlt : ds_tid s0 < k + 1) by lia.
    specialize (Hgen FALSE (or_intror (conj eq_refl Hlt))). destruct s; exact Hgen.
  - rewrite Hini. zguard. erewrite update_thread_Done by done.
    specialize (Hgen _ (or_introl eq_refl)). destruct s; exact Hgen.
Qed.

(** The roles that give a quantum are those of the start of the loop. *)
Lemma slot_roles :
  (tid y =? foreground_thread s) = (tid y =? foreground_thread s0) /\
  (ds_initialized s =? TRUE) && (tid y =? ds_tid s) =
  (ds_initialized s0 =? TRUE) && (tid y =? ds_tid s0).
Proof using Hwf0 Hinv Hk Hidle Hinit Hat0 Hat Hx.
  destruct slot_wake_facts as (_ & _ & -> & _). rewrite slot_tid.
  assert (ds_tid s = ds_tid s0) as -> by (by rewrite (ri_rest _ _ _ _ Hinv)).
  split.
  - destruct (ri_fg _ _ _ _ Hinv) as [->|[-> ?]]; [done|]. by zguard.
  - destruct (ri_ds _ _ _ _ Hinv) as [->|[-> ?]]; [done|].
    replace (k =? ds_tid s0) with false by (symmetry; apply Z.eqb_neq; lia).
    by rewrite !andb_false_r.
Qed.

Lemma slot_ready :
  is_exiting x = false -> rr_runnable (jiffies s0) x = true ->
  wp (rr_ready idle t) s1 (fun _ s' => rr_inv s0 idle (k + 1) s').
Proof using Hwf0 Hinv Hk Hidle Hinit Hat0 Hat Hx.
  intros He Hr. pose proof Hat as (_ & Ht & Hn & Hxt).
  destruct slot_wake_facts as (Hy & Hnext & Htid & _ & Hr0 & He0).
  pose proof Hinv as [_ _ _ _ (l & Hl) _ Hlive _ _ _].
  destruct (Hlive (p1q s)) as (px & Hpx); [rewrite Hl; apply elem_of_app; right; by left|].
  assert (Hpt : p1q s <> t).
  { intros E. assert (Hin : t ∈ idle :: rr_round s0 k)
      by (rewrite Hl, E; apply elem_of_app; right; by left).
    apply elem_of_cons in Hin as [|Hin]; [done|].
    apply rr_round_elem in Hin as (i & Hi & Hu & _).
    assert (i = k); [|lia]. apply (wf_threads_inj s0 i k t); try done. by apply Hat0. }
  unfold rr_ready, wp. msteps. change (p1q s1) with (p1q s).
  erewrite bind_Done by (apply update_thread_Done; unfold s1; cbn;
    by rewrite lookup_insert_ne).
  msteps. zguard. cbn.
  erewrite update_thread_Done by (cbn; rewrite lookup_insert_ne by done;
    apply lookup_insert_eq). cbn.
  set (r := rr_sched false (foreground_thread s) (ds_initialized s) (ds_tid s) y).
  assert (<[t := r]> (<[p1q s := px <| next := t |>]> (<[t := y]> (threads s))) =
          <[t := r]> (<[p1q s := px <| next := t |>]> (threads s))) as ->.
  { rewrite (insert_insert_ne _ (p1q s) t) by done. by rewrite insert_insert_eq. }
  apply (rr_inv_sched s0 idle k s t x0 x r px); try done; try congruence; unfold r.
  - rewrite <- Hr0 in Hr. unfold rr_result. rewrite He0, He, Hr.
    erewrite (rr_sched_cong _ _ (foreground_thread s0)) by apply slot_roles.
    apply unlinked_eq in Hy. rewrite Hy, rr_sched_next. done.
  - rewrite <- Hnext. apply unlinked_eq in Hy. rewrite Hy, rr_sched_next at 1. done.
  - rewrite <- Htid. by pose proof (rr_sched_ident false (foreground_thread s)
      (ds_initialized s) (ds_tid s) y) as [= ? _ _].
Qed.
End Slot.

Lemma rr_body_step s0 idle k s xi :
  wf_threads s0 -> threads s0 !! idle = Some xi -> tid xi = 0 -> InitThread s0 = idle ->
  1 <= k < THREAD_COUNT_MAX -> rr_inv s0 idle k s ->
  wp (rr_body idle k) s (fun _ s' => rr_inv s0 idle (k + 1) s').
Proof.
  intros Hwf0 Hxi Hxi0 Hinit Hk Hinv.
  assert (Hlist : threadList s = threadList s0) by (by rewrite (ri_rest _ _ _ _ Hinv)).
  destruct (wf_threads_lookup s0 k Hwf0) as (t & Ht); [lia|].
  destruct (Z.eqb_spec t NULL) as [->|Hn].
  { unfold rr_body, threadList_at, wp. rewrite <- Hlist in Ht. msteps. cbn.
    rewrite Hlist in Ht. apply rr_inv_null; auto with lia. }
  destruct (wf_slot s0 Hwf0 k t Ht Hn) as (x0 & Hx0 & Htid0).
  assert (Hidle : t <> idle) by (intros ->; rewrite Hxi in Hx0; injection Hx0 as <-; lia).
  assert (Hx : unlinked <$> threads s !! t = Some (unlinked x0)).
  { rewrite (ri_todo _ _ _ _ Hinv); [by rewrite Hx0|].
    intros i Hi Hu. assert (i = k); [|lia]. by apply (wf_threads_inj s0 i k t). }
  destruct (threads s !! t) as [x|] eqn:Hxt; [|done].
  apply (inj Some) in Hx. apply unlinked_eq in Hx.
  assert (Hat0 : thread_at s0 k t x0) by (by split_and!; try done; lia).
  assert (Hat : thread_at s k t x) by (by split_and!; try done; [lia|lia|rewrite Hlist]).
  destruct (is_exiting x) eqn:He; [by apply (slot_exiting s0 idle k s t x0 x)|].
  unfold wp. rewrite (slot_body s0 idle k s t x0 x) by done.
  destruct (slot_state s0 idle k s t x0 x) as (Hready & Hzom & Hz); try done.
  destruct (slot_wake_facts s0 idle k s t x0 x) as (Hy & Hnext & Htid & Hv & Hr0 & He0); try done.
  destruct (slot_at1 s0 idle k s t x0 x) as (Hat1 & _); try done.
  rewrite Hzom. destruct (valid_struct x && state_eqb (state x) ZOMBIE) eqn:Ez.
  - destruct (Hz eq_refl) as [Hgo Hyx]. rewrite Hgo. by apply (slot_zombie s0 idle k s t x0 x).
  - destruct (rr_runnable (jiffies s0) x) eqn:Er.
    + apply andb_true_iff in Hready as [-> ->]. by apply (slot_ready s0 idle k s t x0 x).
    + assert (Hskip : rr_inv s0 idle (k + 1)
        (s <| threads := <[t := rr_wake (jiffies s0) x]> (threads s) |>)).
      { apply (slot_skip s0 idle k s t x0 x); try done.
        unfold rr_result. rewrite He0, He, Hr0.
        rewrite Hx in Ez. change (valid_struct x0 && state_eqb (state x0) ZOMBIE = false) in Ez.
        by rewrite Ez. }
      apply andb_false_iff in Hready as [-> | ->]; [done|].
      match goal with |- context [if ?b then _ else _] => by destruct b end.
Qed.

(** The whole loop. *)
Lemma rr_loop s0 idle xi :
  wf_threads s0 -> threads s0 !! idle = Some xi -> tid xi = 0 -> InitThread s0 = idle ->
  p1q s0 = idle ->
  wp (for_each (range (INIT_TID + 1) THREAD_COUNT_MAX) (rr_body idle)) s0
     (fun _ s' => rr_inv s0 idle THREAD_COUNT_MAX s').
Proof.
  intros Hwf Hxi Hxi0 Hinit Hp. change (INIT_TID + 1) with 1.
  apply (wp_for_range (rr_inv s0 idle)); [done| |by intros; eapply rr_body_step|done].
  assert (Hr : rr_round s0 1 = []) by done.
  split; rewrite ?Hr; try done; try (by left).
  - by destruct s0.
  - exists []. rewrite Hp. done.
  - apply NoDup_singleton.
  - intros t ->%list_elem_of_singleton. rewrite Hxi. by eexists.
  - intros i t x Hi. lia.
Qed.

(** ** The round *)

(** The processor is ready for a round: the scheduler is initialized with the
    round-robin policy, and the idle thread is the valid init thread of slot 0. *)
Record sched_ready (s : kst) (idle : Z) (xi : thread_d) : Prop := {
  sr_wf : wf_threads s;
  sr_initialized : sched_initialized s = TRUE;
  sr_policy : sched_policy s = SCHED_POLICY_RR;
  sr_idle : IdleThread s = idle;
  sr_init : InitThread s = idle;
  sr_thread : valid_thread s 0 idle xi
}.

Definition head_queues (idle : Z) (q : list Z) : list Z :=
  zinsert (zinsert (zinsert (zinsert (zinsert (zinsert (zinsert q 1 idle) 2 idle)
    3 idle) 4 idle) 5 idle) 6 idle) 0 idle.

Definition heads_set (idle : Z) (s : kst) : kst :=
  s <| p1q := idle |> <| p2q := idle |> <| p3q := idle |> <| p4q := idle |>
    <| p5q := idle |> <| p6q := idle |> <| currentq := idle |>
    <| qList := head_queues idle (qList s) |>.

(** ** The call through the uninitialized local

    [TmpThread] is read before anything is stored in it: whatever structure
    its residual content [tmp0] designates, the thread that has the
    identifier found there is made READY.  [s1] is the state after that. *)
Definition stray (tmp0 : Z) (s s1 : kst) : Prop :=
  exists xt, threads s !! tmp0 = Some xt /\ do_thread_ready (tid xt) s = Done tt s1.

(** [do_thread_ready] on any identifier. *)
Lemma ready_cases s k s1 :
  wf_threads s -> do_thread_ready k s = Done tt s1 ->
  (lookup_thread s k = None /\ s1 = s) \/
  exists t x, valid_thread s k t x /\
    s1 = s <| threads := <[t := spec_ready (jiffies s) x]> (threads s) |>.
Proof.
  intros Hwf H. destruct (lookup_thread s k) as [x|] eqn:Hl.
  - right. apply lookup_thread_Some in Hl as (t & Hv). exists t, x. split; [done|].
    pose proof (run_op_valid s (OpReady k) t x Hv) as Hr. cbn [run_op op_effect] in Hr. congruence.
  - left. split; [done|]. pose proof (run_op_invalid s (OpReady k) Hwf Hl) as Hr.
    cbn [run_op] in Hr. congruence.
Qed.

Lemma ready_total s k : wf_threads s -> exists s1, do_thread_ready k s = Done tt s1.
Proof. intros Hwf. destruct (run_op_refines s (OpReady k) Hwf) as (s1 & H & _). by exists s1. Qed.

Lemma stray_total s tmp0 : wf_threads s -> is_Some (threads s !! tmp0) -> exists s1, stray tmp0 s s1.
Proof. intros Hwf (xt & Hx). destruct (ready_total s (tid xt) Hwf) as (s1 & H). by exists s1, xt. Qed.

(** What it leaves of the state. *)
Lemma ready_globals s k s1 :
  wf_threads s -> do_thread_ready k s = Done tt s1 -> wf_threads s1 /\ same_globals s s1.
Proof.
  intros Hwf H. destruct (run_op_refines s (OpReady k) Hwf) as (s2 & H2 & Hwf2 & Hg & _).
  cbn [run_op] in H2. rewrite H in H2. by injection H2 as ->.
Qed.

(** Its effect on the structure at an address. *)
Lemma ready_struct s k s1 t x :
  wf_threads s -> do_thread_ready k s = Done tt s1 -> threads s !! t = Some x ->
  exists x1, threads s1 !! t = Some x1 /\ (x1 = x \/ x1 = spec_ready (jiffies s) x).
Proof.
  intros Hwf H Hx. destruct (ready_cases s k s1 Hwf H) as [(_ & ->)|(u & y & Hv & ->)];
    [by exists x; split; [|left]|]. cbn.
  destruct (decide (u = t)) as [->|Hne]; [|by exists x; rewrite lookup_insert_ne; [split; [|left]|]].
  pose proof Hv as ((_ & _ & _ & Hy) & _). assert (y = x) as -> by congruence.
  eexists. rewrite lookup_insert_eq. split; [done|by right].
Qed.

Lemma stray_live tmp0 s s1 t :
  wf_threads s -> stray tmp0 s s1 -> is_Some (threads s !! t) -> is_Some (threads s1 !! t).
Proof.
  intros Hwf (xt & _ & H) (x & Hx). destruct (ready_struct s _ s1 t x Hwf H Hx) as (x1 & -> & _).
  by eexists.
Qed.

(** Its effect on the valid thread of a slot. *)
Lemma ready_slot s k s1 i t x :
  wf_threads s -> do_thread_ready k s = Done tt s1 -> valid_thread s i t x ->
  valid_thread s1 i t (if k =? i then spec_ready (jiffies s) x else x).
Proof.
  intros Hwf H Hv. pose proof Hv as ((Hr & Ht & Hn & Hx) & Hu & Hm).
  destruct (ready_cases s k s1 Hwf H) as [(Hl & ->)|(u & y & Hvy & ->)].
  - destruct (Z.eqb_spec k i) as [->|]; [|done].
    assert (lookup_thread s i = Some x) by (apply lookup_thread_Some; by exists t). congruence.
  - pose proof Hvy as ((_ & Hu' & _ & Hy) & _).
    destruct (Z.eqb_spec k i) as [->|Hki].
    + assert (u = t) as -> by congruence. assert (y = x) as -> by congruence.
      split; [|done]. do 3 (split; [done|]). apply lookup_insert_eq.
    + split; [|done]. do 3 (split; [done|]). cbn. rewrite lookup_insert_ne; [done|].
      intros ->. by apply Hki, (wf_threads_inj s k i t).
Qed.

(** The globals that no part of a round reads or writes. *)
Definition other_globals (s : kst) :=
  (sys_time_hz s, task_switch_status s, g_use_event_responder s, ev_responder_thread s,
   dead_thread_collector_status s, contextCPL s, DispatchCountBlock s, dispatch_blocks s,
   g_scheduler_status s, cpu_context s).

(** What a round reads or keeps of the state, when its loop starts. *)
Record rr_started (s : kst) (idle : Z) (xi : thread_d) (s0 : kst) : Prop := {
  rs_threads : threads s0 = <[idle := rr_prio xi]> (threads s);
  rs_threadList : threadList s0 = threadList s;
  rs_jiffies : jiffies s0 = jiffies s;
  rs_foreground : foreground_thread s0 = foreground_thread s;
  rs_ds : ds_initialized s0 = ds_initialized s;
  rs_ds_tid : ds_tid s0 = ds_tid s;
  rs_idle : IdleThread s0 = IdleThread s;
  rs_init : InitThread s0 = InitThread s;
  rs_current : current_thread s0 = current_thread s;
  rs_pt : pt s0 = pt s;
  rs_threads_counter : threads_counter s0 = threads_counter s;
  rs_counter : rr_round_counter s0 = rr_round_counter s;
  rs_initialized : sched_initialized s0 = sched_initialized s;
  rs_policy : sched_policy s0 = sched_policy s;
  rs_p1q : p1q s0 = idle;
  rs_currentq : currentq s0 = idle;
  rs_qList : qList s0 = head_queues idle (qList s);
  rs_other : other_globals s0 = other_globals s
}.

Lemma rr_started_of s sr idle xi xr s2 :
  same_globals s sr ->
  s2 = heads_set idle ((rr_cleared s) <| threads := <[idle := rr_prio xi]> (threads (rr_cleared s)) |>) ->
  rr_started sr idle xr (s2 <| threads := <[idle := rr_prio xr]> (threads sr) |>).
Proof.
  intros E1 E2. assert (exists m, sr = s <| threads := m |>) as (m & Hm) by (by exists (threads sr)).
  clear E1. rewrite Hm, E2. clear Hm E2 sr s2. split; reflexivity.
Qed.

Lemma rr_heads_spec idle s :
  idle <> NULL -> rr_heads idle s = Done tt (heads_set idle s).
Proof.
  intros Hn. assert (Hq : forall i s, 1 <= i <= 6 ->
    qlist_set_element i idle s = Done 0 (s <| qList := zinsert (qList s) i idle |>)).
  { intros i u Hi. unfold qlist_set_element, SCHEQ_QUEUE_COUNT_MAX, SCHED_DEFAULT_QUEUE,
      SCHED_P1_QUEUE, SCHED_P6_QUEUE. by zguard. }
  unfold rr_heads. msteps.
  do 6 (erewrite bind_Done by (apply Hq; unfold SCHED_P1_QUEUE, SCHED_P2_QUEUE,
    SCHED_P3_QUEUE, SCHED_P4_QUEUE, SCHED_P5_QUEUE, SCHED_P6_QUEUE; lia); msteps).
  unfold qlist_set_element at 1. cbn. zguard. done.
Qed.

Lemma rr_cleared_facts s :
  sched_initialized (rr_cleared s) = sched_initialized s /\
  sched_policy (rr_cleared s) = sched_policy s /\ IdleThread (rr_cleared s) = IdleThread s /\
  InitThread (rr_cleared s) = InitThread s /\ threads (rr_cleared s) = threads s /\
  threadList (rr_cleared s) = threadList s.
Proof. split_and!; reflexivity. Qed.

Lemma heads_set_facts idle s :
  threads (heads_set idle s) = threads s /\ threadList (heads_set idle s) = threadList s.
Proof. split; reflexivity. Qed.

(** Everything before the uninitialized local is read. *)
Lemma rr_prepare_steps s idle xi tmp0 :
  sched_ready s idle xi -> exists s1 s2,
    s1 = rr_cleared s /\
    s2 = heads_set idle (s1 <| threads := <[idle := rr_prio xi]> (threads s1) |>) /\
    threads s2 = <[idle := rr_prio xi]> (threads s) /\ threadList s2 = threadList s /\
    rr_prepare tmp0 s =
    (tmp ← deref_thread tmp0; do_thread_ready (tid tmp);; mret (idle, SYSTEM_THRESHOLD_TID)) s2.
Proof.
  intros [Hwf Hini Hpol Hidle Hinit ((Hr & Ht & Hn & Hx) & Hu & Hm)].
  assert (Htid : tid xi = 0).
  { destruct (wf_slot s Hwf 0 idle Ht Hn) as (y & Hy & Hy'). congruence. }
  destruct (rr_cleared_facts s) as (H1 & H2 & H3 & H4 & H5 & H6).
  unfold rr_prepare, deref_thread. rewrite bind_modify.
  rewrite Hini in H1. rewrite Hpol in H2. rewrite Hidle in H3. rewrite Hinit in H4.
  rewrite <- H5 in Hx. revert H1 H2 H3 H4 H5 H6 Hx.
  generalize (rr_cleared s) as s1. intros s1 H1 H2 H3 H4 H5 H6 Hx.
  exists s1, (heads_set idle (s1 <| threads := <[idle := rr_prio xi]> (threads s1) |>)).
  split; [done|]. split; [done|].
  pose proof (rr_heads_spec idle (s1 <| threads := <[idle := rr_prio xi]> (threads s1) |>) Hn)
    as Hheads.
  destruct (heads_set_facts idle (s1 <| threads := <[idle := rr_prio xi]> (threads s1) |>))
    as [G5 G6].
  revert Hheads G5 G6.
  generalize (heads_set idle (s1 <| threads := <[idle := rr_prio xi]> (threads s1) |>)) as s2.
  intros s2 Hheads G5 G6.
  rewrite G5, G6. split; [rewrite <- H5; reflexivity|]. split; [exact H6|]. clear G5 G6 H6.
  rewrite bind_gets, H1. cbn [negb TRUE Z.eqb Pos.eqb].
  rewrite bind_gets, H2. cbn [negb SCHED_POLICY_RR Z.eqb].
  rewrite bind_gets, H3. zguard.
  rewrite (bind_getsome _ _ s1 xi) by done.
  assert (valid_struct xi = true) as -> by (by apply valid_struct_true).
  cbn [negb]. rewrite bind_gets, H4, Z.eqb_refl. cbn [negb].
  rewrite (bind_Done _ _ _ _ _ (update_thread_Done s1 idle xi rr_prio Hx)).
  rewrite Htid. cbn [negb SYSTEM_THRESHOLD_TID Z.eqb INIT_TID].
  rewrite (bind_Done _ _ _ _ _ Hheads). reflexivity.
Qed.

(** The scheduler is still ready after the stray call. *)
Lemma stray_ready tmp0 s s1 idle xi :
  sched_ready s idle xi -> stray tmp0 s s1 ->
  exists xi1, sched_ready s1 idle xi1 /\ (xi1 = xi \/ xi1 = spec_ready (jiffies s) xi).
Proof.
  intros [Hwf Hini Hpol Hidle Hinit Hv] (xt & _ & H).
  destruct (ready_globals s _ s1 Hwf H) as [Hwf1 Hg].
  pose proof (ready_slot s _ s1 0 idle xi Hwf H Hv) as Hv1.
  exists (if tid xt =? 0 then spec_ready (jiffies s) xi else xi). split; [|case_match; auto].
  unfold same_globals in Hg. split; try done; by rewrite Hg.
Qed.

(** The same call once the idle thread has its priority. *)
Lemma ready_prepared s s1 s2 idle xi xi1 k :
  sched_ready s idle xi -> do_thread_ready k s = Done tt s1 -> threads s1 !! idle = Some xi1 ->
  threads s2 = <[idle := rr_prio xi]> (threads s) -> threadList s2 = threadList s ->
  jiffies s2 = jiffies s ->
  do_thread_ready k s2 = Done tt (s2 <| threads := <[idle := rr_prio xi1]> (threads s1) |>).
Proof.
  intros [Hwf _ _ _ _ Hv] H Hx1 T2 L2 J2. pose proof Hv as (Hat & Hu & Hm).
  pose proof (wf_threads_update s idle xi rr_prio Hwf (proj2 (proj2 (proj2 Hat))) eq_refl) as Hwf2.
  assert (Hwf2' : wf_threads s2) by (eapply wf_threads_ext; [exact Hwf2|exact L2|exact T2]).
  clear Hwf2. rename Hwf2' into Hwf2.
  destruct (ready_cases s k s1 Hwf H) as [(Hl & ->)|(t & x & Hvx & ->)].
  - assert (xi1 = xi) as -> by (destruct Hat as (_ & _ & _ & Hx); congruence).
    rewrite <- T2. assert (s2 <| threads := threads s2 |> = s2) as -> by (by destruct s2).
    apply (run_op_invalid s2 (OpReady k) Hwf2).
    assert (Hk : k <> 0).
    { intros ->. assert (lookup_thread s 0 = Some xi) by (apply lookup_thread_Some; by exists idle).
      congruence. }
    pose proof (lookup_thread_update s 0 idle xi rr_prio k Hwf Hv) as Hlu.
    apply Z.eqb_neq in Hk. rewrite Hk, Hl in Hlu. cbn [op_target].
    rewrite <- Hlu by (done || by apply valid_struct_true). unfold lookup_thread. by rewrite T2, L2.
  - pose proof Hvx as ((Hr & Ht & Hn & Hx) & Hux & Hmx).
    assert (Hdone : forall y, valid_thread s2 k t y -> do_thread_ready k s2 =
      Done tt (s2 <| threads := <[t := spec_ready (jiffies s2) y]> (threads s2) |>))
      by (intros y Hy; exact (run_op_valid s2 (OpReady k) t y Hy)).
    cbn in Hx1. destruct (decide (t = idle)) as [->|Hne].
    + assert (x = xi) as -> by (destruct Hat as (_ & _ & _ & Hxx); congruence).
      rewrite lookup_insert_eq in Hx1. injection Hx1 as <-.
      rewrite (Hdone (rr_prio xi)).
      2: { split; [|done]. split; [done|]. split; [by rewrite L2|]. split; [done|].
           by rewrite T2, lookup_insert_eq. }
      cbn. by rewrite T2, J2, !insert_insert_eq.
    + rewrite lookup_insert_ne in Hx1 by done.
      assert (xi1 = xi) as -> by (destruct Hat as (_ & _ & _ & Hxx); congruence).
      rewrite (Hdone x).
      2: { split; [|done]. split; [done|]. split; [by rewrite L2|]. split; [done|].
           by rewrite T2, lookup_insert_ne. }
      cbn. by rewrite T2, J2, insert_insert_ne.
Qed.

Lemma rr_entry tmp0 s s1 idle xi :
  sched_ready s idle xi -> stray tmp0 s s1 -> exists xi1 s0,
    sched_ready s1 idle xi1 /\ (xi1 = xi \/ xi1 = spec_ready (jiffies s) xi) /\
    rr_prepare tmp0 s = Done (idle, SYSTEM_THRESHOLD_TID) s0 /\ rr_started s1 idle xi1 s0.
Proof.
  intros Hs Hst. destruct (stray_ready tmp0 s s1 idle xi Hs Hst) as (xi1 & Hs1 & Hor).
  destruct Hst as (xt & Hxt & H).
  destruct (rr_prepare_steps s idle xi tmp0 Hs) as (sc & s2 & E1 & E2 & H5 & H6 & ->).
  destruct (sr_thread _ _ _ Hs1) as ((_ & _ & _ & Hx1) & _).
  destruct (sr_thread _ _ _ Hs) as ((_ & _ & _ & Hxi) & _).
  assert (Ht2 : exists xt2, threads s2 !! tmp0 = Some xt2 /\ tid xt2 = tid xt).
  { rewrite H5. destruct (decide (idle = tmp0)) as [->|].
    - exists (rr_prio xi). rewrite lookup_insert_eq. split; [done|]. cbn. congruence.
    - exists xt. by rewrite lookup_insert_ne. }
  destruct Ht2 as (xt2 & Hxt2 & Htid).
  assert (J2 : jiffies s2 = jiffies s) by (rewrite E2, E1; done).
  pose proof (ready_prepared s s1 s2 idle xi xi1 (tid xt) Hs H Hx1 H5 H6 J2) as Hrun.
  unfold deref_thread. rewrite (bind_getsome _ _ _ xt2) by done.
  rewrite Htid, (bind_Done _ _ _ _ _ Hrun).
  exists xi1. eexists. split; [done|]. split; [done|]. split; [reflexivity|].
  rewrite E1 in E2. eapply rr_started_of; [|exact E2].
  by apply (ready_globals s (tid xt) s1 (sr_wf _ _ _ Hs)).
Qed.

(** The slots of the loop are not touched before it. *)
Lemma rr_start_slot s idle xi s0 i t x :
  sched_ready s idle xi -> rr_started s idle xi s0 -> 1 <= i ->
  zlookup (threadList s) i = Some t -> t <> NULL ->
  threads s !! t = Some x -> threads s0 !! t = Some x.
Proof.
  intros [Hwf _ _ _ _ ((_ & H0 & Hn0 & _) & _)] Hs0 Hi Ht Hn Hx.
  rewrite (rs_threads _ _ _ _ Hs0), lookup_insert_ne; [done|]. intros <-.
  assert (0 = i); [|lia]. by apply (wf_threads_inj s 0 i idle).
Qed.

Lemma rr_start_round s idle xi s0 k :
  sched_ready s idle xi -> rr_started s idle xi s0 -> rr_round s0 k = rr_round s k.
Proof.
  intros Hs Hs0. apply omap_ext_elem. intros i Hi%elem_range. unfold rr_pick.
  rewrite (rs_threadList _ _ _ _ Hs0), (rs_jiffies _ _ _ _ Hs0).
  destruct (zlookup (threadList s) i) as [t|] eqn:Ht; [|done].
  cbn [mbind option_bind]. destruct (Z.eqb_spec t NULL) as [->|Hn].
  - cbn [negb andb]. unfold mbind, option_bind. by repeat case_match.
  - destruct (wf_slot s (sr_wf _ _ _ Hs) i t Ht Hn) as (x & Hx & _).
    rewrite Hx, (rr_start_slot s idle xi s0 i t x) by (done || lia). done.
Qed.

Lemma rr_start_result s idle xi s0 x :
  rr_started s idle xi s0 -> rr_result s0 x = rr_result s x.
Proof.
  intros Hs. unfold rr_result. destruct Hs as [_ _ Hj Hf Hd Hdt _ _ _ _ _ _ _ _ _ _ _].
  by rewrite Hj, Hf, Hd, Hdt.
Qed.

(** What a round leaves of the state. *)
Record rr_kept (s : kst) (idle : Z) (s' : kst) : Prop := {
  rk_wf : wf_threads s';
  rk_threadList : threadList s' = threadList s;
  rk_jiffies : jiffies s' = jiffies s;
  rk_idle : IdleThread s' = IdleThread s;
  rk_init : InitThread s' = InitThread s;
  rk_current : current_thread s' = current_thread s;
  rk_pt : pt s' = pt s;
  rk_threads_counter : threads_counter s' = threads_counter s;
  rk_initialized : sched_initialized s' = sched_initialized s;
  rk_policy : sched_policy s' = sched_policy s;
  rk_currentq : currentq s' = idle;
  rk_qList : qList s' = head_queues idle (qList s);
  rk_counter : rr_round_counter s' = u64 (rr_round_counter s + 1);
  rk_other : other_globals s' = other_globals s
}.

Lemma rr_kept_of s idle xi s0 s1 m :
  rr_started s idle xi s0 -> rr_inv s0 idle THREAD_COUNT_MAX s1 ->
  wf_threads (s1 <| threads := m |>) ->
  rr_kept s idle (s1 <| threads := m |>
    <| rr_round_counter := u64 (rr_round_counter (s1 <| threads := m |>) + 1) |>).
Proof.
  intros [] Hinv Hwf. pose proof (ri_rest _ _ _ _ Hinv) as Hrest.
  split; cbn; try (rewrite Hrest; cbn; congruence).
  - by eapply wf_threads_ext.
  - rewrite Hrest. exact rs_qList0.
  - rewrite <- rs_other0. unfold other_globals. cbn. by rewrite Hrest.
Qed.

(** From the start of the loop on. *)
Lemma rr_round_spec s idle xi s0 :
  sched_ready s idle xi -> rr_started s idle xi s0 ->
  exists s', (for_each (range (INIT_TID + 1) THREAD_COUNT_MAX) (rr_body idle);;
              rr_finish SYSTEM_THRESHOLD_TID) s0 = Done INIT_TID s' /\ rr_kept s idle s' /\
    queue (threads s') (idle :: rr_round s THREAD_COUNT_MAX) /\
    (forall i t x, 1 <= i -> thread_at s i t x ->
       unlinked <$> threads s' !! t = Some (unlinked (rr_result s x))) /\
    (forall t, (forall i, 1 <= i -> zlookup (threadList s) i <> Some t) ->
       unlinked <$> threads s' !! t = unlinked <$> <[idle := rr_prio xi]> (threads s) !! t).
Proof.
  intros Hs Hs0. pose proof Hs as [Hwf _ _ _ Hinit ((Hr & Ht & Hn & Hx) & Hu & Hm)].
  assert (Htid : tid xi = 0).
  { destruct (wf_slot s Hwf 0 idle Ht Hn) as (y & Hy & Hy'). congruence. }
  assert (Hx0 : threads s0 !! idle = Some (rr_prio xi))
    by (rewrite (rs_threads _ _ _ _ Hs0); apply lookup_insert_eq).
  assert (Hwf0 : wf_threads s0).
  { eapply wf_threads_ext; [apply (wf_threads_update s idle xi rr_prio)|..];
      [done|done|done|apply Hs0|apply Hs0]. }
  rewrite <- (rs_init _ _ _ _ Hs0) in Hinit.
  pose proof (rr_loop s0 idle (rr_prio xi) Hwf0 Hx0 Htid Hinit (rs_p1q _ _ _ _ Hs0)) as Hloop.
  apply wp_Done in Hloop as ([] & s1 & Hloop & Hinv).
  rewrite (bind_Done _ _ _ _ _ Hloop). unfold rr_finish. rewrite bind_gets.
  pose proof Hinv as [Hwf1 _ _ _ (l & Hl) Hnd Hlive Hlinks Hdone Htodo].
  destruct (Hlive (p1q s1)) as (px & Hpx); [rewrite Hl; apply elem_of_app; right; by left|].
  rewrite (bind_Done _ _ _ _ _ (update_thread_Done s1 _ px _ Hpx)), bind_modify.
  assert (Hlast : forall t, unlinked <$> <[p1q s1 := px <| next := NULL |>]> (threads s1) !! t =
    unlinked <$> threads s1 !! t).
  { intros t. destruct (decide (p1q s1 = t)) as [<-|]; [by rewrite lookup_insert_eq, Hpx|].
    by rewrite lookup_insert_ne. }
  eexists. split; [reflexivity|]. split; [|split; [|split]].
  - eapply rr_kept_of; [done|done|]. by apply (wf_threads_update s1 _ px (fun x => x <| next := NULL |>)).
  - rewrite <- (rr_start_round s idle xi s0) by done. rewrite Hl in *. cbn.
    eapply queue_of_links; [by apply links_last|apply lookup_insert_eq|done].
  - intros i t x Hi (Hri & Hti & Hni & Hxi).
    assert (Hat : thread_at s0 i t x).
    { split; [exact Hri|]. split; [by rewrite (rs_threadList _ _ _ _ Hs0)|]. split; [done|].
      by apply (rr_start_slot s idle xi s0 i t x). }
    rewrite <- (rr_start_result s idle xi s0 x) by done.
    rewrite <- (Hdone i t x) by (done || lia). apply Hlast.
  - intros t Hout. rewrite <- (rs_threads _ _ _ _ Hs0), <- Htodo; [apply Hlast|].
    intros i Hi. rewrite (rs_threadList _ _ _ _ Hs0). apply Hout. lia.
Qed.

(** ** The scheduler *)

(** The scheduler interface can run: it is initialized, the system runs. *)
Definition can_schedule (s : kst) (idle : Z) (xi : thread_d) : Prop :=
  sched_ready s idle xi /\ system_state (pt s) = SYSTEM_RUNNING /\ threads_counter s <> 0.

(** What a call of the scheduler does, [s] being the state after the stray
    call. *)
Record scheduled (s : kst) (idle : Z) (xi : thread_d) (s' : kst) : Prop := {
  sd_kept : rr_kept s idle s';
  sd_queue : queue (threads s') (idle :: rr_round s THREAD_COUNT_MAX);
  sd_slot : forall i t x, 1 <= i -> thread_at s i t x ->
    unlinked <$> threads s' !! t = Some (unlinked (rr_result s x));
  sd_out : forall t, (forall i, 1 <= i -> zlookup (threadList s) i <> Some t) ->
    unlinked <$> threads s' !! t = unlinked <$> <[idle := rr_prio xi]> (threads s) !! t
}.

Lemma sd_idle s idle xi s' :
  wf_threads s -> thread_at s 0 idle xi -> scheduled s idle xi s' ->
  unlinked <$> threads s' !! idle = Some (unlinked (rr_prio xi)).
Proof.
  intros Hwf (_ & Ht & Hn & _) Hd. rewrite (sd_out _ _ _ _ Hd), lookup_insert_eq; [done|].
  intros i Hi Hc. assert (i = 0); [|lia]. by apply (wf_threads_inj s i 0 idle).
Qed.

Lemma unlinked_fields x y :
  unlinked x = unlinked y -> ident x = ident y /\ state x = state y /\
  exit_in_progress x = exit_in_progress y /\ quantum x = quantum y /\
  priority x = priority y /\ credits x = credits y /\ wake_jiffy x = wake_jiffy y.
Proof. intros H. apply unlinked_eq in H. rewrite H. done. Qed.

Lemma unlinked_fmap (o : option thread_d) y :
  unlinked <$> o = Some (unlinked y) -> exists x, o = Some x /\ x = y <| next := next x |>.
Proof.
  destruct o as [x|]; [|done]. intros H. cbn [fmap option_fmap option_map] in H.
  apply (inj Some) in H. exists x. split; [done|]. by apply unlinked_eq.
Qed.

Lemma system_state_restore p : system_state p = SYSTEM_RUNNING ->
  (p <| system_state := SYSTEM_SCHEDULING |>) <| system_state := SYSTEM_RUNNING |> = p.
Proof. intros H. destruct p. cbn in H. by rewrite H. Qed.

Lemma rr_kept_state s idle s2 p :
  rr_kept (s <| pt := p |>) idle s2 -> rr_kept s idle (s2 <| pt := pt s |>).
Proof. intros []. split; try done. by eapply wf_threads_ext. Qed.

Lemma ready_pt k s s1 (p : ptab) :
  wf_threads s -> do_thread_ready k s = Done tt s1 ->
  do_thread_ready k (s <| pt := p |>) = Done tt (s1 <| pt := p |>).
Proof.
  intros Hwf H. destruct (ready_cases s k s1 Hwf H) as [(Hl & ->)|(t & x & Hv & ->)].
  - apply (run_op_invalid _ (OpReady k)); [by eapply wf_threads_ext|exact Hl].
  - pose proof (fun s' => run_op_valid s' (OpReady k) t x) as Hr.
    specialize (Hr (s <| pt := p |>)). specialize (Hr Hv). cbn [run_op op_effect] in Hr. rewrite Hr. by destruct s.
Qed.

Lemma sched_ready_pt s idle xi (p : ptab) : sched_ready s idle xi -> sched_ready (s <| pt := p |>) idle xi.
Proof. intros [Hwf ? ? ? ? ?]. split; try done. by eapply wf_threads_ext. Qed.

(** The scheduler up to the policy. *)
Lemma scheduler_enter tmp0 s idle xi :
  can_schedule s idle xi ->
  scheduler tmp0 s =
  (first_tid ← __scheduler_rr tmp0 0;
   idle ← gets IdleThread;
   if idle =? NULL then panic "scheduler: Idle" else
   x ← deref_thread idle;
   if negb (magic x =? 1234) then panic "scheduler: Idle validation" else
   if negb (first_tid =? tid x) then panic "scheduler: first_tid != Idle->tid" else
   modify (fun s => s <| pt := (pt s) <| system_state := SYSTEM_RUNNING |> |>);;
   mret first_tid) (s <| pt := (pt s) <| system_state := SYSTEM_SCHEDULING |> |>).
Proof.
  intros ([_ Hini Hpol _ _ _] & Hst & Hn). unfold scheduler.
  rewrite bind_gets, bind_gets, Hst, Hpol. cbn [negb SYSTEM_RUNNING Z.eqb Pos.eqb].
  rewrite bind_modify, bind_gets.
  change (threads_counter (s <| pt := (pt s) <| system_state := SYSTEM_SCHEDULING |> |>))
    with (threads_counter s). zguard.
  rewrite bind_gets.
  change (sched_initialized (s <| pt := (pt s) <| system_state := SYSTEM_SCHEDULING |> |>))
    with (sched_initialized s). by rewrite Hini.
Qed.

Lemma scheduler_spec tmp0 s s1 idle xi :
  can_schedule s idle xi -> stray tmp0 s s1 ->
  exists xi1 s', can_schedule s1 idle xi1 /\ (xi1 = xi \/ xi1 = spec_ready (jiffies s) xi) /\
    scheduler tmp0 s = Done INIT_TID s' /\ scheduled s1 idle xi1 s'.
Proof.
  intros Hc (xt & Hxt & Hready). rewrite (scheduler_enter tmp0 s idle xi Hc).
  destruct Hc as (Hs & Hst & Hn).
  destruct (ready_globals s _ s1 (sr_wf _ _ _ Hs) Hready) as [_ Hg].
  set (p := (pt s) <| system_state := SYSTEM_SCHEDULING |>).
  assert (Hstp : stray tmp0 (s <| pt := p |>) (s1 <| pt := p |>)).
  { exists xt. split; [exact Hxt|]. by apply ready_pt; [apply Hs|]. }
  destruct (rr_entry tmp0 _ _ idle xi (sched_ready_pt s idle xi p Hs) Hstp)
    as (xi1 & s0 & Hs1 & Hor & Hprep & Hs0).
  destruct (rr_round_spec _ idle xi1 s0 Hs1 Hs0) as (s2 & Hrr & Hk & Hq & Hslot & Hout).
  assert (Hpt1 : pt s1 = pt s) by (unfold same_globals in Hg; by rewrite Hg).
  assert (Hsr : sched_ready s1 idle xi1).
  { apply (sched_ready_pt _ _ _ (pt s1)) in Hs1. by destruct s1. }
  assert (Hd : scheduled s1 idle xi1 (s2 <| pt := pt s1 |>)).
  { split; [by eapply rr_kept_state|exact Hq|exact Hslot|exact Hout]. }
  pose proof (sr_thread _ _ _ Hsr) as (Hat & Hu & Hm).
  pose proof (sd_idle s1 idle xi1 _ (sr_wf _ _ _ Hsr) Hat Hd) as Hidle.
  apply unlinked_fmap in Hidle as (y & Hy & Hyx).
  assert (Htid : tid xi1 = 0).
  { destruct Hat as (_ & Ht & Hni & Hx).
    destruct (wf_slot s1 (sr_wf _ _ _ Hsr) 0 idle Ht Hni) as (z & Hz & Hz0). congruence. }
  exists xi1, (s2 <| pt := pt s1 |>). split; [|split; [done|split; [|done]]].
  { split; [done|]. rewrite Hpt1. split; [done|]. unfold same_globals in Hg. by rewrite Hg. }
  unfold __scheduler_rr, deref_thread. rewrite bind_bind, (bind_Done _ _ _ _ _ Hprep).
  rewrite (bind_Done _ _ _ _ _ Hrr), bind_gets, (rk_idle _ _ _ Hk), (sr_idle _ _ _ Hs1).
  destruct Hat as (_ & _ & Hni & _). zguard.
  rewrite (bind_getsome _ _ _ y) by done.
  assert (magic y = 1234) as -> by (by rewrite Hyx).
  assert (tid y = 0) as -> by (by rewrite Hyx).
  change (INIT_TID =? 0) with true. cbn [negb Z.eqb Pos.eqb]. rewrite bind_modify.
  assert (Hpt : (pt s2) <| system_state := SYSTEM_RUNNING |> = pt s1).
  { rewrite (rk_pt _ _ _ Hk), Hpt1. unfold p. by apply system_state_restore. }
  by rewrite Hpt.
Qed.

Lemma scheduled_ready s idle xi s' :
  can_schedule s idle xi -> scheduled s idle xi s' ->
  exists xi', can_schedule s' idle xi' /\ state xi' = state xi.
Proof.
  intros (Hs & Hst & Hn) Hd. pose proof (sd_kept _ _ _ _ Hd) as Hk.
  pose proof Hs as [Hwf Hini Hpol Hidle Hinit (Hat & Hu & Hm)].
  pose proof (sd_idle s idle xi s' Hwf Hat Hd) as Hi.
  apply unlinked_fmap in Hi as (y & Hy & Hyx). exists y. split; [|by rewrite Hyx].
  destruct Hat as (Hr & Ht & Hni & Hx).
  split; [|split; [by rewrite (rk_pt _ _ _ Hk)|by rewrite (rk_threads_counter _ _ _ Hk)]].
  split.
  - apply Hk.
  - by rewrite (rk_initialized _ _ _ Hk).
  - by rewrite (rk_policy _ _ _ Hk).
  - by rewrite (rk_idle _ _ _ Hk).
  - by rewrite (rk_init _ _ _ Hk).
  - split; [|by rewrite Hyx]. split; [done|]. by rewrite (rk_threadList _ _ _ Hk).
Qed.

(** No structure disappears. *)
Lemma scheduled_live s idle xi s' t :
  wf_threads s -> scheduled s idle xi s' -> t <> NULL ->
  is_Some (threads s !! t) -> is_Some (threads s' !! t).
Proof.
  intros Hwf Hd Hn (x & Hx).
  assert (Hfm : forall (o : option thread_d) y, unlinked <$> o = Some y -> is_Some o)
    by (intros [z|] y; [by eexists|done]).
  destruct (decide (t ∈ drop 1 (threadList s))) as [Hin|Hout].
  - apply list_elem_of_lookup in Hin as (n & Hl). rewrite lookup_drop in Hl.
    pose proof (lookup_lt_Some _ _ _ Hl) as Hlen. rewrite (wf_threadList_length s Hwf) in Hlen.
    eapply Hfm, (sd_slot _ _ _ _ Hd (Z.of_nat (1 + n)) t x); [lia|].
    split; [lia|]. split; [|done]. unfold zlookup. zguard. by rewrite Nat2Z.id.
  - assert (Ho : unlinked <$> threads s' !! t = unlinked <$> <[idle := rr_prio xi]> (threads s) !! t).
    { apply (sd_out _ _ _ _ Hd). intros i Hi Hc. apply Hout. unfold zlookup in Hc.
      revert Hc. zguard. intros Hc. apply list_elem_of_lookup. exists (Z.to_nat i - 1)%nat.
      rewrite lookup_drop. by replace (1 + (Z.to_nat i - 1))%nat with (Z.to_nat i) by lia. }
    destruct (decide (idle = t)) as [->|]; [rewrite lookup_insert_eq in Ho|
      rewrite lookup_insert_ne, Hx in Ho by done]; by eapply Hfm.
Qed.

(** A slot after a round. *)
Lemma scheduled_slot s idle xi s' i t x :
  scheduled s idle xi s' -> 1 <= i -> thread_at s i t x ->
  exists y, thread_at s' i t y /\ y = (rr_result s x) <| next := next y |>.
Proof.
  intros [Hk _ Hslot _] Hi (Hr & Ht & Hn & Hx).
  pose proof (Hslot i t x Hi (conj Hr (conj Ht (conj Hn Hx)))) as Hy.
  apply unlinked_fmap in Hy as (y & Hy & Hyx). exists y. split; [|done].
  split; [done|]. by rewrite (rk_threadList _ _ _ Hk).
Qed.

Lemma rr_runnable_Some s t : (exists k, rr_pick s k = Some t) ->
  exists x, threads s !! t = Some x /\ rr_runnable (jiffies s) x = true.
Proof. intros (k & (x & _ & _ & Hx & Hr)%rr_pick_Some). by exists x. Qed.

Lemma rr_round_In s t :
  t ∈ rr_round s THREAD_COUNT_MAX <->
  exists i x, 1 <= i /\ thread_at s i t x /\ rr_runnable (jiffies s) x = true.
Proof.
  unfold rr_round. rewrite list_elem_of_omap. split.
  - intros (i & Hi%elem_range & (x & Ht & Hn & Hx & Hr)%rr_pick_Some).
    exists i, x. split; [lia|]. split; [|done]. split; [lia|done].
  - intros (i & x & Hi & (Hr & Ht & Hn & Hx) & Hrun). exists i. rewrite elem_range.
    split; [lia|]. apply rr_pick_Some. by exists x.
Qed.

(** What a scheduled thread gets. *)
Definition round_quantum (s : kst) (x : thread_d) : Z :=
  let q := if isResponder x =? TRUE then QUANTUM_SYSTEM_TIME_CRITICAL
           else if (ds_initialized s =? TRUE) && (tid x =? ds_tid s) then QUANTUM_MAX
           else if tid x =? foreground_thread s then QUANTUM_NORMAL_TIME_CRITICAL
           else QUANTUM_NORMAL_THRESHOLD in
  if 2 <=? credits x then q + 1 else q.

Definition round_priority (x : thread_d) : Z :=
  Z.max PRIORITY_MIN (Z.min PRIORITY_MAX (base_priority x)).

Lemma rr_balance_fields x :
  tid (rr_balance x) = tid x /\ isResponder (rr_balance x) = isResponder x /\
  credits (rr_balance x) = credits x /\ state (rr_balance x) = state x /\
  priority (rr_balance x) = round_priority x.
Proof.
  unfold rr_balance, round_priority, PRIORITY_MIN, PRIORITY_MAX. cbn.
  destruct (Z.ltb_spec (base_priority x) 1); cbn; [split_and!; try done; lia|].
  destruct (Z.ltb_spec 6 (base_priority x)); cbn; split_and!; try done; lia.
Qed.

Lemma rr_role_fields b fg ds dst x :
  let y := rr_role_quantum b fg ds dst x in
  tid y = tid x /\ isResponder y = isResponder x /\ credits y = credits x /\
  state y = state x /\ priority y = priority x /\
  quantum y = if (ds =? TRUE) && (tid x =? dst) then QUANTUM_MAX
              else if tid x =? fg then QUANTUM_NORMAL_TIME_CRITICAL
              else QUANTUM_NORMAL_THRESHOLD.
Proof.
  unfold rr_role_quantum. destruct b; cbn; destruct (tid x =? fg); cbn;
    destruct ((ds =? TRUE) && (tid x =? dst)); cbn; by split_and!.
Qed.

Lemma rr_sched_fields s x :
  let y := rr_sched false (foreground_thread s) (ds_initialized s) (ds_tid s) x in
  quantum y = round_quantum s x /\ priority y = round_priority x /\ state y = state x /\
  credits y = if 2 <=? credits x then 0 else credits x.
Proof.
  cbv zeta. unfold rr_sched.
  destruct (rr_balance_fields x) as (H1 & H2 & H3 & H4 & H5).
  destruct (rr_role_fields false (foreground_thread s) (ds_initialized s) (ds_tid s)
    (rr_balance x)) as (G1 & G2 & G3 & G4 & G5 & G6).
  revert G1 G2 G3 G4 G5 G6. rewrite H1, H2, H3, H4, H5.
  generalize (rr_role_quantum false (foreground_thread s) (ds_initialized s) (ds_tid s)
    (rr_balance x)) as y. intros y G1 G2 G3 G4 G5 G6.
  unfold rr_boost, round_quantum. rewrite G2.
  destruct (isResponder x =? TRUE); cbn; rewrite G3; destruct (2 <=? credits x); cbn;
    rewrite ?G6; split_and!; try done.
  repeat case_match; reflexivity.
Qed.

Lemma rr_round_NoDup s idle xi :
  sched_ready s idle xi -> NoDup (idle :: rr_round s THREAD_COUNT_MAX).
Proof.
  intros [Hwf _ _ _ _ ((_ & Ht & Hn & _) & _)]. constructor.
  - intros (i & Hi & Hu & _)%rr_round_elem. assert (i = 0); [|lia].
    by apply (wf_threads_inj s i 0 idle).
  - apply (NoDup_omap_inj (rr_pick s)); [|apply NoDup_range].
    intros i j u (x & Hi & Hu & _)%rr_pick_Some (y & Hj & _)%rr_pick_Some.
    by apply (wf_threads_inj s i j u).
Qed.

Lemma rr_wake_runnable j x :
  rr_runnable j x = true ->
  let y := rr_wake j x in
  state y = READY /\ tid y = tid x /\ isResponder y = isResponder x /\
  credits y = credits x /\ base_priority y = base_priority x /\ valid_struct y = true.
Proof.
  unfold rr_runnable. rewrite !andb_true_iff. intros [[_ Hv] Hs]. cbv zeta.
  unfold rr_wake. rewrite Hv. cbn [andb].
  destruct (state x) eqn:E; try done; state_eval; try (by split_and!). cbn.
  destruct (alarm x <? j); cbn; rewrite Hs; by split_and!.
Qed.

(** A scheduled thread after the round. *)
Lemma scheduled_runnable s idle xi s' i t x :
  scheduled s idle xi s' -> 1 <= i -> thread_at s i t x ->
  rr_runnable (jiffies s) x = true ->
  exists y, thread_at s' i t y /\ state y = READY /\ valid_struct y = true /\
    quantum y = round_quantum s x /\ priority y = round_priority x /\
    credits y = if 2 <=? credits x then 0 else credits x.
Proof.
  intros Hd Hi Hat Hr. destruct (scheduled_slot s idle xi s' i t x Hd Hi Hat) as (y & Hy & Hyx).
  exists y. split; [done|].
  assert (He : is_exiting x = false).
  { unfold rr_runnable in Hr. rewrite !andb_true_iff in Hr.
    destruct Hr as [[Hr _] _]. by apply negb_true_iff. }
  unfold rr_result in Hyx. rewrite He, Hr in Hyx.
  destruct (rr_wake_runnable (jiffies s) x Hr) as (H1 & H2 & H3 & H4 & H5 & H6).
  destruct (rr_sched_fields s (rr_wake (jiffies s) x)) as (G1 & G2 & G3 & G4).
  pose proof (rr_sched_ident false (foreground_thread s) (ds_initialized s) (ds_tid s)
    (rr_wake (jiffies s) x)) as G5.
  revert Hyx G1 G2 G3 G4 G5. unfold round_quantum, round_priority. rewrite H1, H2, H3, H4, H5.
  generalize (rr_sched false (foreground_thread s) (ds_initialized s) (ds_tid s)
    (rr_wake (jiffies s) x)) as z.
  intros z Hyx G1 G2 G3 G4 G5. rewrite Hyx. cbn. split_and!; try done.
  injection G5 as E1 E2 E3. apply valid_struct_true in H6. apply valid_struct_true. cbn.
  by rewrite E2, E3.
Qed.

(** Rounds at the given instants. *)
Fixpoint rounds (tmp0 : Z) (js : list Z) : M kst unit :=
  match js with
  | [] => mret tt
  | j :: js' => modify (fun s => s <| jiffies := j |>);; scheduler tmp0;; rounds tmp0 js'
  end.

Lemma can_schedule_at s idle xi j :
  can_schedule s idle xi -> can_schedule (s <| jiffies := j |>) idle xi.
Proof.
  intros ([Hwf ? ? ? ? Hv] & ? & ?). split; [|done].
  split; try done. by eapply wf_threads_ext.
Qed.

Lemma can_schedule_wf s idle xi : can_schedule s idle xi -> wf_threads s.
Proof. intros ([] & _). done. Qed.

Lemma live_nonnull s t : wf_threads s -> is_Some (threads s !! t) -> t <> NULL.
Proof. intros Hwf (x & Hx) ->. rewrite (wf_threads_null s Hwf) in Hx. done. Qed.

Lemma rounds_step tmp0 idle j js s xi :
  can_schedule s idle xi -> is_Some (threads s !! tmp0) -> exists s1 xi1 s' xi',
    stray tmp0 (s <| jiffies := j |>) s1 /\
    rounds tmp0 (j :: js) s = rounds tmp0 js s' /\
    scheduled s1 idle xi1 s' /\ can_schedule s' idle xi' /\ is_Some (threads s' !! tmp0).
Proof.
  intros Hc Hl. pose proof (can_schedule_at s idle xi j Hc) as Hc'.
  pose proof (can_schedule_wf _ _ _ Hc') as Hwf.
  destruct (stray_total (s <| jiffies := j |>) tmp0 Hwf Hl) as (s1 & Hst).
  destruct (scheduler_spec _ _ _ _ _ Hc' Hst) as (xi1 & s' & Hc1 & _ & Hs' & Hd).
  destruct (scheduled_ready _ _ _ _ Hc1 Hd) as (xi' & Hc'' & _).
  exists s1, xi1, s', xi'. split; [done|]. split; [|split; [done|split; [done|]]].
  - cbn [rounds]. rewrite bind_modify. by rewrite (bind_Done _ _ _ _ _ Hs').
  - pose proof (stray_live _ _ _ tmp0 Hwf Hst Hl) as Hl1.
    pose proof (can_schedule_wf _ _ _ Hc1) as Hwf1.
    eapply scheduled_live; [exact Hwf1|exact Hd|by eapply live_nonnull|done].
Qed.

Lemma is_exiting_if (b : bool) j x :
  is_exiting (if b then spec_ready j x else x) = is_exiting x.
Proof. by destruct b. Qed.

(** An exiting thread is a zombie after each round, and remains exiting. *)
Lemma exiting_rounds tmp0 idle js s xi i t x :
  can_schedule s idle xi -> is_Some (threads s !! tmp0) -> 1 <= i -> valid_thread s i t x ->
  is_exiting x = true ->
  exists s' xi' y, rounds tmp0 js s = Done tt s' /\ can_schedule s' idle xi' /\
    valid_thread s' i t y /\ is_exiting y = true /\ (js <> [] -> state y = ZOMBIE).
Proof.
  revert s xi x. induction js as [|j js IH]; intros s xi x Hc Hl Hi Hv He.
  - exists s, xi, x. by split_and!.
  - destruct (rounds_step tmp0 idle j js s xi Hc Hl)
      as (s1 & xi1 & s2 & xi2 & (xt & _ & Hst) & Hrun & Hd & Hc2 & Hl2).
    pose proof (can_schedule_wf _ _ _ (can_schedule_at s idle xi j Hc)) as Hwf.
    pose proof (ready_slot _ _ _ i t x Hwf Hst Hv) as (Hat & Hu & Hm).
    change (jiffies (s <| jiffies := j |>)) with j in Hat, Hu, Hm.
    destruct (scheduled_slot _ _ _ _ i t _ Hd Hi Hat) as (y & Hy & Hyx).
    unfold rr_result in Hyx. rewrite is_exiting_if, He in Hyx.
    revert Hyx Hu Hm. pose proof (is_exiting_if (tid xt =? i) j x) as Hex. revert Hex.
    generalize (if tid xt =? i then spec_ready j x else x). intros x1 Hex Hyx Hu Hm.
    assert (Hye : is_exiting y = true) by (rewrite Hyx; change (is_exiting x1 = true); congruence).
    assert (Hvy : valid_thread s2 i t y) by (split; [done|]; by rewrite Hyx).
    destruct (IH s2 xi2 y Hc2 Hl2 Hi Hvy Hye) as (s3 & xi3 & z & H2 & Hc3 & Hz & Hze & Hzs).
    exists s3, xi3, z. split; [by rewrite Hrun|]. do 3 (split; [done|]). intros _.
    destruct js as [|j' js']; [|by apply Hzs].
    cbn in H2. injection H2 as <-.
    assert (z = y) as ->
      by (destruct Hvy as ((_ & _ & _ & H1) & _), Hz as ((_ & _ & _ & H3) & _); congruence).
    by rewrite Hyx.
Qed.

Lemma queue_next m l n a :
  queue m l -> l !! n = Some a ->
  exists x, m !! a = Some x /\ next x = default NULL (l !! S n).
Proof.
  revert n. induction l as [|b l IH]; intros n; [done|].
  intros [(x & Hx & Hn) Hq] Ha. destruct n as [|n].
  - injection Ha as ->. exists x. split; [done|]. rewrite Hn. by destruct l.
  - destruct Hq as [->|Hq]; [done|]. by apply IH.
Qed.

(** Every thread of a round is valid. *)
Lemma round_member_valid s idle xi s' a :
  can_schedule s idle xi -> scheduled s idle xi s' ->
  a ∈ idle :: rr_round s THREAD_COUNT_MAX ->
  a <> NULL /\ exists y, threads s' !! a = Some y /\ valid_struct y = true.
Proof.
  intros (Hs & _) Hd [->|Hin]%elem_of_cons.
  - destruct (sr_thread _ _ _ Hs) as ((_ & _ & Hn & _) & Hu & Hm). split; [done|].
    pose proof (sr_thread _ _ _ Hs) as (Hat & _).
    destruct (unlinked_fmap _ _ (sd_idle _ _ _ _ (sr_wf _ _ _ Hs) Hat Hd)) as (y & Hy & Hyx).
    exists y. split; [done|]. apply valid_struct_true. by rewrite Hyx.
  - apply rr_round_In in Hin as (i & x & Hi & Hat & Hr). split; [apply Hat|].
    destruct (scheduled_runnable s idle xi s' i a x Hd Hi Hat Hr) as (y & Hy & _ & Hv & _).
    exists y. split; [apply Hy|done].
Qed.

(** ** A waiting thread *)

(** A slot of the table is in the round when its thread is runnable. *)
Lemma round_slot s i t x :
  wf_threads s -> 1 <= i -> thread_at s i t x ->
  t ∈ rr_round s THREAD_COUNT_MAX <-> rr_runnable (jiffies s) x = true.
Proof.
  intros Hwf Hi Hat. rewrite rr_round_In. split.
  - intros (k & y & Hk & (_ & Hkt & Hn & Hy) & Hr). destruct Hat as (_ & Ht & _ & Hx).
    assert (y = x) as -> by congruence. done.
  - intros Hr. by exists i, x.
Qed.



(** ** The undefined call *)

Lemma scheduler_undef tmp0 s idle xi :
  can_schedule s idle xi -> threads s !! tmp0 = None -> scheduler tmp0 s = Undef.
Proof.
  intros Hc Htmp. rewrite (scheduler_enter tmp0 s idle xi Hc).
  pose proof (sched_ready_pt s idle xi ((pt s) <| system_state := SYSTEM_SCHEDULING |>) (proj1 Hc))
    as Hs1.
  destruct (rr_prepare_steps _ idle xi tmp0 Hs1) as (s2 & s3 & _ & _ & H5 & _ & Hprep).
  assert (Hundef : rr_prepare tmp0 (s <| pt := (pt s) <| system_state := SYSTEM_SCHEDULING |> |>) = Undef).
  { rewrite Hprep. unfold deref_thread, mbind, M_bind, getsome.
    rewrite H5, lookup_insert_ne; [cbn; by rewrite Htmp|].
    destruct Hc as (Hs & _), (sr_thread _ _ _ Hs) as ((_ & _ & _ & Hx) & _). intros <-. congruence. }
  apply bind_Undef. unfold __scheduler_rr. apply bind_Undef, Hundef.
Qed.

(** ** Theorems *)

(** [C2] A call of the scheduler, whatever the uninitialized local [TmpThread]
    (sched.c:430) holds.  When it designates no thread structure the call has no
    defined behaviour.  When it designates one, the valid thread (if any) with
    the identifier found there is first made READY, nothing else changing; then
    a round is built on that state: the scheduler returns the idle thread's
    identifier, the system is running again, the table is well formed, and
    following [next] from the conductor [currentq] visits, without repetition
    and up to NULL, the idle thread and then exactly the threads of the other
    slots that are ready, or asleep with their wake-up time reached, and that
    are not exiting. *)
Theorem scheduler_round s idle xi tmp0 :
  can_schedule s idle xi ->
  match threads s !! tmp0 with
  | None => scheduler tmp0 s = Undef
  | Some xt => exists s1 s',
      (same_globals s s1 /\ forall k, lookup_thread s1 k =
         if k =? tid xt then spec_ready (jiffies s) <$> lookup_thread s k
         else lookup_thread s k) /\
      scheduler tmp0 s = Done INIT_TID s' /\
      wf_threads s' /\ system_state (pt s') = SYSTEM_RUNNING /\
      currentq s' = idle /\ rr_round_counter s' = u64 (rr_round_counter s + 1) /\
      queue (threads s') (idle :: rr_round s1 THREAD_COUNT_MAX) /\
      NoDup (idle :: rr_round s1 THREAD_COUNT_MAX) /\
      (forall t, t ∈ rr_round s1 THREAD_COUNT_MAX <->
         exists i x, 1 <= i /\ thread_at s1 i t x /\ rr_runnable (jiffies s) x = true)
  end.
Proof.
  intros Hc. destruct (threads s !! tmp0) as [xt|] eqn:Htmp;
    [|by apply (scheduler_undef tmp0 s idle xi)].
  destruct (run_op_refines s (OpReady (tid xt)) (can_schedule_wf _ _ _ Hc))
    as (s1 & Hready & _ & Hg & Hlook). cbn [run_op op_target op_effect] in Hready, Hlook.
  destruct (scheduler_spec tmp0 s s1 idle xi Hc) as (xi1 & s' & Hc1 & _ & Hs & Hd);
    [by exists xt|].
  exists s1, s'. split; [done|]. split; [done|].
  destruct Hc1 as (Hr & Hst & _). destruct (sd_kept _ _ _ _ Hd).
  assert (H : jiffies s1 = jiffies s /\ rr_round_counter s1 = rr_round_counter s)
    by (unfold same_globals in Hg; by rewrite Hg).
  destruct H as [<- <-]. split_and!; try done; [congruence|apply Hd|by eapply rr_round_NoDup|].
  intros t. apply rr_round_In.
Qed.

(** [C34] The accounts of a round, whatever structure the uninitialized local
    designates ([s1] is the state after the call made through it): a thread that
    enters the round is READY; its priority is exactly its base priority clamped
    to [PRIORITY_MIN, PRIORITY_MAX]; its quantum is the one of its role (in
    decreasing precedence event responder, display server, foreground, other),
    plus one when it had at least two credits, which are then spent; its running
    counters are zero; so the quantum is positive and exceeds QUANTUM_MAX by at
    most one. *)
Theorem round_accounts s idle xi tmp0 s1 i t x :
  can_schedule s idle xi -> stray tmp0 s s1 -> 1 <= i -> thread_at s1 i t x ->
  rr_runnable (jiffies s) x = true ->
  exists s' y, scheduler tmp0 s = Done INIT_TID s' /\ thread_at s' i t y /\
    state y = READY /\
    priority y = Z.max PRIORITY_MIN (Z.min PRIORITY_MAX (base_priority x)) /\
    quantum y =
      (if isResponder x =? TRUE then QUANTUM_SYSTEM_TIME_CRITICAL
       else if (ds_initialized s =? TRUE) && (tid x =? ds_tid s) then QUANTUM_MAX
       else if tid x =? foreground_thread s then QUANTUM_NORMAL_TIME_CRITICAL
       else QUANTUM_NORMAL_THRESHOLD) + (if 2 <=? credits x then 1 else 0) /\
    credits y = (if 2 <=? credits x then 0 else credits x) /\
    QUANTUM_MIN <= quantum y <= QUANTUM_MAX + 1.
Proof.
  intros Hc Hst Hi Hat Hr.
  destruct (scheduler_spec tmp0 s s1 idle xi Hc Hst) as (xi1 & s' & Hc1 & _ & Hs & Hd).
  destruct Hst as (xt & _ & Hready).
  destruct (ready_globals s _ s1 (can_schedule_wf _ _ _ Hc) Hready) as [_ Hg].
  assert (H : jiffies s1 = jiffies s /\ foreground_thread s1 = foreground_thread s /\
    ds_initialized s1 = ds_initialized s /\ ds_tid s1 = ds_tid s)
    by (unfold same_globals in Hg; by rewrite Hg).
  destruct H as (HJ & <- & <- & <-). rewrite <- HJ in Hr.
  destruct (scheduled_runnable s1 idle xi1 s' i t x Hd Hi Hat Hr) as (y & Hy & H1 & _ & H3 & H4 & H5).
  exists s', y. split_and!; try done; rewrite ?H3; unfold round_quantum.
  all: unfold QUANTUM_SYSTEM_TIME_CRITICAL, QUANTUM_MAX,
    QUANTUM_MIN, QUANTUM_NORMAL_TIME_CRITICAL, QUANTUM_NORMAL_THRESHOLD, QUANTUM_Q,
    CONFIG_QUANTUM_MULTIPLIER; repeat case_match; lia.
Qed.


(** An exiting thread is never collected by the scheduler: whatever the
    times of the rounds, a thread whose exit is in progress is a ZOMBIE after
    each of them, but its structure stays in use and valid, because the test of
    the exit flag precedes, and skips, the phase that releases zombies. *)
Theorem exiting_never_released tmp0 idle js s xi i t x :
  can_schedule s idle xi -> is_Some (threads s !! tmp0) -> 1 <= i -> valid_thread s i t x ->
  exit_in_progress x = TRUE -> js <> [] ->
  exists s' y, rounds tmp0 js s = Done tt s' /\ valid_thread s' i t y /\
    state y = ZOMBIE /\ exit_in_progress y = TRUE.
Proof.
  intros Hc Hl Hi Hv He Hjs.
  assert (Hex : is_exiting x = true)
    by (unfold is_exiting; destruct Hv as (_ & _ & Hm); by rewrite Hm, He).
  destruct (exiting_rounds tmp0 idle js s xi i t x Hc Hl Hi Hv Hex)
    as (s' & xi' & y & Hrun & _ & Hy & Hye & Hyz).
  exists s', y. unfold is_exiting in Hye. apply andb_true_iff in Hye as [H1 H2].
  split_and!; try done; [apply Hy..|by apply Hyz|by apply Z.eqb_eq].
Qed.

(** A zombie that is not exiting is released by the next round: its
    identifier designates no valid thread any more, and it is not scheduled. *)
Theorem zombie_released s idle xi tmp0 s1 i t x :
  can_schedule s idle xi -> stray tmp0 s s1 -> 1 <= i -> valid_thread s1 i t x ->
  state x = ZOMBIE -> exit_in_progress x <> TRUE ->
  exists s', scheduler tmp0 s = Done INIT_TID s' /\ lookup_thread s' i = None /\
    t ∉ rr_round s1 THREAD_COUNT_MAX.
Proof.
  intros Hc Hst Hi (Hat & Hu & Hm) Hz He.
  destruct (scheduler_spec tmp0 s s1 idle xi Hc Hst) as (xi1 & s' & Hc1 & _ & Hs & Hd).
  exists s'. split; [done|].
  assert (Hex : is_exiting x = false).
  { unfold is_exiting. apply Z.eqb_neq in He. by rewrite He, andb_false_r. }
  assert (Hrun : rr_runnable (jiffies s1) x = false)
    by (unfold rr_runnable; by rewrite Hz, andb_false_r).
  split.
  - destruct (scheduled_slot s1 idle xi1 s' i t x Hd Hi Hat) as (y & Hy & Hyx).
    rewrite (lookup_thread_at s' i t y Hy). unfold rr_result in Hyx.
    rewrite Hex, Hrun, Hz in Hyx. unfold valid_struct at 1 in Hyx.
    rewrite Hu, Hm in Hyx. rewrite Hyx. done.
  - rewrite (round_slot s1 i t x (can_schedule_wf _ _ _ Hc1) Hi Hat), Hrun. done.
Qed.

(** The task switch walks a round in order and then goes back to the init
    thread: on the queue built by a round, the successor of each of its threads
    is the next one, and the successor of the last is the init thread. *)
Theorem round_walk s idle xi tmp0 s1 :
  can_schedule s idle xi -> stray tmp0 s s1 ->
  exists s', scheduler tmp0 s = Done INIT_TID s' /\
    forall n a, (idle :: rr_round s1 THREAD_COUNT_MAX) !! n = Some a ->
      get_next_on_queue_or_the_init_thread a s' =
      Done (default (InitThread s') ((idle :: rr_round s1 THREAD_COUNT_MAX) !! S n)) s'.
Proof.
  intros Hc0 Hst.
  destruct (scheduler_spec tmp0 s s1 idle xi Hc0 Hst) as (xi1 & s' & Hc & _ & Hs & Hd). exists s'.
  split; [done|]. intros n a Ha. pose proof (sd_queue _ _ _ _ Hd) as Hq.
  assert (HInit : InitThread s' = idle)
    by (rewrite (rk_init _ _ _ (sd_kept _ _ _ _ Hd)); apply Hc).
  destruct (queue_next _ _ n a Hq Ha) as (x & Hx & Hnx).
  destruct (round_member_valid s1 idle xi1 s' a Hc Hd) as (Hna & y & Hy & Hv);
    [by apply list_elem_of_lookup; exists n|].
  assert (y = x) as -> by congruence. apply valid_struct_true in Hv as [Hu Hm].
  unfold get_next_on_queue_or_the_init_thread, deref_thread. rewrite bind_gets. zguard.
  rewrite (bind_getsome _ _ _ x) by done. rewrite Hu, Hm, Hnx. cbn [negb TRUE Z.eqb Pos.eqb].
  destruct ((idle :: rr_round s1 THREAD_COUNT_MAX) !! S n) as [b|] eqn:Hb; [|done].
  destruct (round_member_valid s1 idle xi1 s' b Hc Hd) as (Hnb & z & Hz & Hvz);
    [by apply list_elem_of_lookup; exists (S n)|].
  cbn [from_option id]. apply valid_struct_true in Hvz as [Huz Hmz]. zguard.
  rewrite (bind_getsome _ _ _ z) by done. by rewrite Huz, Hmz.
Qed.

(** The round reads an uninitialized local: when the residual content of
    [TmpThread] designates no thread structure, the scheduler has undefined
    behaviour on a state where everything it checks is in order. *)
Theorem scheduler_uninitialized s idle xi tmp0 :
  can_schedule s idle xi -> threads s !! tmp0 = None -> scheduler tmp0 s = Undef.
Proof. apply scheduler_undef. Qed.

(** ** Witnesses *)

(** Time 100: thread 1 is ready, responder and with credits; 2 should have been
    woken at 50; 3 sleeps until 500; 4 is exiting; 5 is a zombie. *)
Definition sched_demo_thread (i : Z) : thread_d :=
  let x := sample_thread i READY in
  if i =? 0 then x <| state := RUNNING |>
  else if i =? 1 then x <| isResponder := TRUE |> <| credits := 3 |>
  else if i =? 2 then x <| state := WAITING |> <| wake_jiffy := 50 |>
  else if i =? 3 then x <| state := WAITING |> <| wake_jiffy := 500 |>
  else if i =? 4 then x <| exit_in_progress := TRUE |>
  else x <| state := ZOMBIE |>.

Definition sched_demo : kst := sample_kst (sched_demo_thread <$> range 0 6).

Lemma sched_demo_can : can_schedule sched_demo (sample_addr 0) (sched_demo_thread 0).
Proof.
  split; [|split; [reflexivity|done]].
  split; [wf_concrete|reflexivity|reflexivity|reflexivity|reflexivity|].
  split; [|split; reflexivity]. split; [done|]. split; [reflexivity|]. split; [done|].
  vm_compute. reflexivity.
Qed.

Lemma sched_demo_at i : 0 <= i < 6 ->
  thread_at sched_demo i (sample_addr i) (sched_demo_thread i).
Proof.
  intros Hi. assert (i = 0 \/ i = 1 \/ i = 2 \/ i = 3 \/ i = 4 \/ i = 5) as Hc by lia.
  destruct Hc as [->|[->|[->|[->|[->| ->]]]]]; split_and!; try done; vm_compute; reflexivity.
Qed.

(** The state after the stray call, when the local holds the idle thread. *)
Lemma sched_demo_stray : exists s1, stray (sample_addr 0) sched_demo s1 /\
  forall i, 1 <= i < 6 -> thread_at s1 i (sample_addr i) (sched_demo_thread i).
Proof.
  destruct (ready_total sched_demo 0 (can_schedule_wf _ _ _ sched_demo_can)) as (s1 & Hs1).
  exists s1. split.
  - exists (sched_demo_thread 0). split; [apply (sched_demo_at 0); lia|exact Hs1].
  - assert (Hx0 : valid_thread sched_demo 0 (sample_addr 0) (sched_demo_thread 0))
      by (split; [apply sched_demo_at; lia|split; reflexivity]).
    pose proof (run_op_valid sched_demo (OpReady 0) _ _ Hx0) as Hr. cbn [run_op] in Hr.
    rewrite Hs1 in Hr. injection Hr as ->. intros i Hi.
    destruct (sched_demo_at i ltac:(lia)) as (H1 & H2 & H3 & H4).
    do 3 (split; [done|]). cbn [threads set_field set_threads]. rewrite lookup_insert_ne; [done|].
    unfold sample_addr. lia.
Qed.

(** The local designates thread 3, which sleeps until 500: the round is idle, 1,
    2 and 3. *)
Lemma scheduler_round_witness :
  exists s1 s', scheduler (sample_addr 3) sched_demo = Done INIT_TID s' /\
    lookup_thread s1 3 = Some (spec_ready 100 (sched_demo_thread 3)) /\
    queue (threads s') (sample_addr 0 :: rr_round s1 THREAD_COUNT_MAX).
Proof.
  pose proof (scheduler_round sched_demo (sample_addr 0) (sched_demo_thread 0) (sample_addr 3)
    sched_demo_can) as H.
  assert (Hx : threads sched_demo !! sample_addr 3 = Some (sched_demo_thread 3))
    by (apply sched_demo_at; lia).
  rewrite Hx in H. destruct H as (s1 & s' & (_ & Hl) & Hs & _ & _ & _ & _ & Hq & _).
  exists s1, s'. split; [exact Hs|]. split; [|exact Hq]. rewrite Hl. vm_compute. reflexivity.
Defined.

(** The responder with credits gets quantum 7. *)
Lemma round_accounts_witness :
  exists s' y, scheduler (sample_addr 0) sched_demo = Done INIT_TID s' /\
    thread_at s' 1 (sample_addr 1) y /\ quantum y = 7 /\ credits y = 0.
Proof.
  destruct sched_demo_stray as (s1 & Hst & Hat).
  destruct (round_accounts sched_demo (sample_addr 0) (sched_demo_thread 0) (sample_addr 0) s1 1
    (sample_addr 1) (sched_demo_thread 1) sched_demo_can Hst)
    as (s' & y & H1 & H2 & _ & _ & H3 & H4 & _);
    [lia|exact (Hat 1 ltac:(lia))|vm_compute; reflexivity|].
  exists s', y. split; [exact H1|]. split; [exact H2|]. split; [exact H3|exact H4].
Defined.


Lemma exiting_never_released_witness :
  exists s' y, rounds (sample_addr 0) [200; 300] sched_demo = Done tt s' /\
    valid_thread s' 4 (sample_addr 4) y /\ state y = ZOMBIE.
Proof.
  destruct (exiting_never_released (sample_addr 0) (sample_addr 0) [200; 300] sched_demo
    (sched_demo_thread 0) 4 (sample_addr 4) (sched_demo_thread 4) sched_demo_can)
    as (s' & y & H1 & H2 & H3 & _);
    [by eexists; apply (sched_demo_at 0); lia|lia
    |split; [apply sched_demo_at; lia|split; reflexivity]|reflexivity|done|].
  exists s', y. split; [exact H1|]. split; [exact H2|exact H3].
Defined.

Lemma zombie_released_witness :
  exists s', scheduler (sample_addr 0) sched_demo = Done INIT_TID s' /\
    lookup_thread s' 5 = None.
Proof.
  destruct sched_demo_stray as (s1 & Hst & Hat).
  destruct (zombie_released sched_demo (sample_addr 0) (sched_demo_thread 0) (sample_addr 0) s1 5
    (sample_addr 5) (sched_demo_thread 5) sched_demo_can Hst) as (s' & H1 & H2 & _);
    [lia|split; [exact (Hat 5 ltac:(lia))|split; reflexivity]|reflexivity|done|].
  exists s'. split; [exact H1|exact H2].
Defined.

(** The successor of the idle thread is thread 1. *)
Lemma round_walk_witness :
  exists s' b, scheduler (sample_addr 0) sched_demo = Done INIT_TID s' /\
    get_next_on_queue_or_the_init_thread (sample_addr 0) s' = Done b s'.
Proof.
  destruct sched_demo_stray as (s1 & Hst & Hat).
  destruct (round_walk sched_demo (sample_addr 0) (sched_demo_thread 0) (sample_addr 0) s1
    sched_demo_can Hst) as (s' & H1 & H2).
  eexists s', _. split; [exact H1|]. exact (H2 0%nat (sample_addr 0) eq_refl).
Defined.

Lemma scheduler_uninitialized_witness : scheduler 12345 sched_demo = Undef.
Proof.
  apply (scheduler_uninitialized sched_demo (sample_addr 0) (sched_demo_thread 0) 12345
    sched_demo_can). vm_compute. reflexivity.
Defined.
