(* ===== verification/Ipc.v ===== *)
(** * Ipc: messages between threads

    [core/ke/intake/ipc.c]: every thread owns a ring of MSG_QUEUE_MAX message
    structures.  A post fills the structure at the tail, a read empties the one
    at the head.  With the notification of [sched.c] and the initialization of
    the ring in [thread.c]. *)
From Stdlib Require Import ZArith Lia.
From stdpp Require Import base gmap list strings.
From S2P Require Import Config Prelude Process KState Samples Threads Sched.

#[local] Open Scope Z_scope.
#[local] Open Scope gramado_scope.

(** ** Posting *)

(** The fields that a post stores. *)
Definition msg_put (code l1 l2 l3 l4 src dst : Z) (m : msg_d) : msg_d :=
  mk_msg (m_used m) (m_magic m) NULL code l1 l2 l3 l4 src dst
    (m_sender_pid m) (m_receiver_pid m) NULL.

(** The index after [k] in the ring. *)
Definition ring_next (k : Z) : Z := if MSG_QUEUE_MAX <=? k + 1 then 0 else k + 1.

(** The receiver is boosted and made READY, whatever its state. *)
Definition ipc_boost (t : Z) : M kst unit :=
  use ← gets g_use_event_responder;
  if use =? TRUE then
    update_thread t (fun x => x <| has_pending_event_ := TRUE |> <| quantum := QUANTUM_MAX |>
      <| priority := PRIORITY_MAX |> <| state := READY |>);;
    set_ev_responder t;;
    mret tt
  else mret tt.

(** The message goes to the structure at the tail. *)
Definition ipc_enqueue (t : Z) (put : msg_d -> msg_d) : M kst unit :=
  x ← deref_thread t;
  a ← getsome (fun _ => zlookup (MsgQueue x) (MsgQueueTail x));
  if a =? NULL then panic "ipc_post_message_to_tid2: m" else
  m ← deref_msg a;
  if negb (m_used m =? TRUE) || negb (m_magic m =? 1234)
  then panic "ipc_post_message_to_tid2: m validation" else
  update_msg a put;;
  update_thread t (fun x => x <| MsgQueueTail := ring_next (MsgQueueTail x) |>);;
  update_thread t (fun x => x <| isResponder := TRUE |>).

(** The body common to the two posting routines, after the message code has
    been accepted: the receiver must be a valid thread, or the kernel panics. *)
Definition ipc_post (src_tid dst_tid : Z) (put : msg_d -> msg_d) : M kst Z :=
  if (dst_tid <? 0) || (THREAD_COUNT_MAX <=? dst_tid)
  then panic "ipc_post_message_to_tid2: dst_tid" else
  t ← threadList_at dst_tid;
  if t =? NULL then panic "ipc_post_message_to_tid2: t" else
  x ← deref_thread t;
  if negb (valid_struct x) then panic "ipc_post_message_to_tid2: t validation" else
  if negb (tid x =? dst_tid) then panic "ipc_post_message_to_tid2: t->tid != dst_tid" else
  ipc_boost t;;
  ipc_enqueue t put;;
  mret 0.

Definition ipc_post_message_to_tid2 (sender_tid receiver_tid msg l1 l2 l3 l4 : Z) : M kst Z :=
  let src_tid := Z.land sender_tid 65535 in
  let dst_tid := Z.land receiver_tid 65535 in
  let MessageCode := i32 (Z.land msg 4294967295) in
  if MessageCode <? 0 then mret (-1) else
  ipc_post src_tid dst_tid
    (msg_put (i32 (Z.land MessageCode 4294967295)) l1 l2 l3 l4 src_tid dst_tid).

(** Here a zero code is refused too, and the payload is the time of the post. *)
Definition ipc_post_message_to_tid (sender_tid receiver_tid msg l1 l2 : Z) : M kst Z :=
  let src_tid := Z.land sender_tid 65535 in
  let dst_tid := Z.land receiver_tid 65535 in
  let MessageCode := i32 (Z.land msg 4294967295) in
  if MessageCode <=? 0 then mret (-1) else
  j ← gets jiffies;
  ipc_post src_tid dst_tid
    (msg_put (i32 (Z.land MessageCode 4294967295)) l1 l2 j j src_tid dst_tid).

Definition ipc_post_message_to_foreground_thread (msg l1 l2 : Z) : M kst Z :=
  fg ← gets foreground_thread;
  if (fg <? 0) || (THREAD_COUNT_MAX <=? fg) then mret (-1) else
  if msg <? 0 then mret (-1) else
  ipc_post_message_to_tid 0 fg msg l1 l2.

Definition ipc_post_message_to_init (msg l1 l2 : Z) : M kst Z :=
  if (INIT_TID <? 0) || (THREAD_COUNT_MAX <=? INIT_TID) then mret (-1) else
  if msg <? 0 then mret (-1) else
  ipc_post_message_to_tid KERNEL_MESSAGE_TID INIT_TID msg l1 l2;;
  mret 0.

(** The display server gets two credits and is woken up before the post. *)
Definition ipc_post_message_to_ds (msg l1 l2 : Z) : M kst Z :=
  ds ← gets ds_initialized;
  if negb (ds =? TRUE) then mret (-1) else
  r ← gets ds_tid;
  if (r <? 0) || (THREAD_COUNT_MAX <=? r) then mret (-1) else
  do_credits_by_tid r;;
  do_credits_by_tid r;;
  wakeup_thread r;;
  if msg <? 0 then mret (-1) else
  ipc_post_message_to_tid 0 r msg l1 l2;;
  mret 0.

(** Only the mouse-move case returns 0: the [break] of the other cases leads to
    the label [fail]. *)
Definition ipc_post_input_event_to_ds (event_id long1 long2 : Z) : M kst Z :=
  if event_id <? 0 then mret (-1) else
  if event_id =? MSG_MOUSEMOVE then
    ipc_post_message_to_ds event_id (u64 long1) (u64 long2);; mret 0
  else if (event_id =? MSG_MOUSEPRESSED) || (event_id =? MSG_MOUSERELEASED) then
    let button_number := u64 (Z.land long1 65535) in
    ipc_post_message_to_ds event_id button_number button_number;; mret (-1)
  else if (event_id =? MSG_KEYDOWN) || (event_id =? MSG_KEYUP) ||
          (event_id =? MSG_SYSKEYDOWN) || (event_id =? MSG_SYSKEYUP) then
    ipc_post_message_to_ds event_id (u64 long1) (u64 long1);; mret (-1)
  else if event_id =? MSG_TIMER then
    j ← gets jiffies;
    (if j mod DEFAULT_PIT_FREQ =? 0
     then ipc_post_message_to_ds MSG_TIMER 1234 j;; mret tt else mret tt);;
    mret (-1)
  else mret (-1).

(** A message to every thread of the table; the number of posts. *)
Definition ipc_broadcast_body (src msg l1 l2 l3 l4 : Z) (i n : Z) : M kst Z :=
  t ← threadList_at i;
  if t =? NULL then mret n else
  x ← deref_thread t;
  if negb (magic x =? 1234) then mret n else
  rv ← ipc_post_message_to_tid2 src (tid x) msg l1 l2 l3 l4;
  mret (if 0 <=? rv then n + 1 else n).

Definition ipc_broadcast_system_message (src msg l1 l2 l3 l4 : Z) : M kst Z :=
  n ← foldr (fun i k n => ipc_broadcast_body src msg l1 l2 l3 l4 i n ≫= k) mret
        (range 0 THREAD_COUNT_MAX) 0;
  mret (Z.land n 4294967295).

(** sched.c: the control thread of the parent process is told. *)
Definition __sched_notify_parent (t event_number : Z) : M kst unit :=
  if t =? NULL then mret tt else
  x ← deref_thread t;
  if negb (magic x =? 1234) then mret tt else
  let owner_pid := owner_pid x in
  if (owner_pid <? 0) || (PROCESS_COUNT_MAX <=? owner_pid) then mret tt else
  po ← on_ptab (processList_at owner_pid);
  if po =? NULL then mret tt else
  p_owner ← on_ptab (deref_process po);
  if negb (p_magic p_owner =? 1234) then mret tt else
  let parent_pid := p_ppid p_owner in
  if (parent_pid <? 0) || (PROCESS_COUNT_MAX <=? parent_pid) then mret tt else
  pp ← on_ptab (processList_at parent_pid);
  if pp =? NULL then mret tt else
  p_parent ← on_ptab (deref_process pp);
  if negb (p_magic p_parent =? 1234) then mret tt else
  let target := p_control p_parent in
  if target =? NULL then mret tt else
  y ← deref_thread target;
  if negb (magic y =? 1234) then mret tt else
  ipc_post_message_to_tid (tid x) (tid y) MSG_NOTIFY_PARENT (u64 (tid x)) (u64 (tid y));;
  mret tt.

(** ** Reading *)

(** A read returns the routine's value and the words it stores in the buffer of
    the caller, in order: (index, value). *)
Definition msg_words (j : Z) (m : msg_d) : list (Z * Z) :=
  [(0, m_opaque_window m); (1, u32 (m_msg m)); (2, m_long1 m); (3, m_long2 m);
   (4, m_long3 m); (5, m_long4 m); (8, u64 (m_sender_tid m)); (9, u64 (m_receiver_tid m));
   (10, m_long3 m); (11, j)].

Definition msg_clear (m : msg_d) : msg_d :=
  mk_msg (m_used m) (m_magic m) NULL 0 0 0 0 0 0 0 0 0 (m_next m).

(** The structure at [head] holds a message. *)
Definition has_message (m : msg_d) : bool :=
  (m_used m =? TRUE) && (m_magic m =? 1234) && negb (m_msg m <=? 0).

Definition advance_head (t : Z) : M kst unit :=
  update_thread t (fun x => x <| MsgQueueHead := ring_next (MsgQueueHead x) |>).

(** The thread that called the service, validated. *)
Definition caller_thread : M kst (option Z) :=
  c ← gets current_thread;
  if (c <? 0) || (THREAD_COUNT_MAX <=? c) then mret None else
  t ← threadList_at c;
  if t =? NULL then panic "sys_get_message: t" else
  x ← deref_thread t;
  if negb (valid_struct x) then panic "sys_get_message: t validation" else
  mret (Some t).

(** Take the message at the head; the head advances in every case. *)
Definition sys_get_message (ubuf : Z) : M kst (Z * list (Z * Z)) :=
  if ubuf =? 0 then panic "sys_get_message: ubuf" else
  c ← caller_thread;
  match c with
  | None => mret (NULL, [])
  | Some t =>
      x ← deref_thread t;
      a ← getsome (fun _ => zlookup (MsgQueue x) (MsgQueueHead x));
      if a =? NULL then advance_head t;; mret (NULL, []) else
      m ← deref_msg a;
      if negb (has_message m) then advance_head t;; mret (NULL, []) else
      j ← gets jiffies;
      update_msg a msg_clear;;
      advance_head t;;
      mret (1, msg_words j m)
  end.

(** The queue restarts. *)
Definition restart_queue (t : Z) : M kst unit :=
  update_thread t (fun x => x <| MsgQueueHead := 0 |> <| MsgQueueTail := 0 |>).

Definition finish_get2 (t restart : Z) : M kst unit :=
  if restart =? TRUE then restart_queue t else advance_head t.

(** Take the message at [index]. *)
Definition sys_get_message2 (ubuf index restart : Z) : M kst (Z * list (Z * Z)) :=
  if ubuf =? 0 then panic "sys_get_message2: ubuf" else
  c ← caller_thread;
  match c with
  | None => mret (NULL, [])
  | Some t =>
      if (index <? 0) || (MSG_QUEUE_MAX <=? index)
      then finish_get2 t restart;; mret (NULL, []) else
      update_thread t (fun x => x <| MsgQueueHead := i32 (Z.land index 4294967295) |>);;
      x ← deref_thread t;
      a ← getsome (fun _ => zlookup (MsgQueue x) (MsgQueueHead x));
      if a =? NULL then finish_get2 t restart;; mret (NULL, []) else
      m ← deref_msg a;
      if negb (has_message m) then finish_get2 t restart;; mret (NULL, []) else
      j ← gets jiffies;
      update_msg a msg_clear;;
      finish_get2 t restart;;
      mret (1, msg_words j m)
  end.

(** ** System calls: [ubuf i] is the i-th word of the caller's buffer *)

Definition sys_post_message_to_tid (tid message_buffer : Z) (ubuf : Z -> Z) : M kst Z :=
  src_tid ← gets current_thread;
  if (tid <? 0) || (THREAD_COUNT_MAX <=? tid) then mret 0 else
  if message_buffer =? 0 then mret 0 else
  let MessageCode := i32 (Z.land (ubuf 1) 4294967295) in
  ipc_post_message_to_tid2 src_tid tid MessageCode (ubuf 2) (ubuf 3) (ubuf 4) (ubuf 5);;
  mret 0.

Definition sys_broadcast_system_message (message_buffer : Z) (ubuf : Z -> Z) : M kst Z :=
  sender ← gets current_thread;
  if message_buffer =? 0 then mret 0 else
  let MessageCode := i32 (Z.land (ubuf 1) 4294967295) in
  ipc_broadcast_system_message sender MessageCode (ubuf 2) (ubuf 3) (ubuf 4) (ubuf 5).

(** ** thread.c: a new ring; [fresh i] is the structure that the i-th
    allocation returned (0 when it failed). *)
Definition blank_msg : msg_d := mk_msg TRUE 1234 NULL 0 0 0 0 0 0 0 0 0 NULL.

Definition __ps_initialize_thread_common_elements (fresh : Z -> Z) (t : Z) : M kst unit :=
  update_thread t (fun x => x <| MsgQueue := replicate (Z.to_nat MSG_QUEUE_MAX) 0 |>
    <| MsgQueueHead := 0 |> <| MsgQueueTail := 0 |>);;
  for_each (range 0 MSG_QUEUE_MAX) (fun i =>
    let tmp := fresh i in
    if tmp =? NULL then panic "__ps_initialize_thread_common_elements: tmp" else
    modify (fun s => s <| msgs := <[tmp := blank_msg]> (msgs s) |>);;
    update_thread t (fun x => x <| MsgQueue := zinsert (MsgQueue x) i tmp |>));;
  update_thread t (fun x => x <| signal := 0 |>).

(** ** Abstract mailboxes *)

(** What a message carries. *)
Record payload := mk_payload {
  pl_window : Z; pl_msg : Z; pl_long1 : Z; pl_long2 : Z; pl_long3 : Z; pl_long4 : Z;
  pl_sender : Z; pl_receiver : Z
}.

(** A ring of cells with the two indices. *)
Record box := mk_box {
  b_head : Z;
  b_tail : Z;
  b_cells : list (option payload)
}.

Definition box_post (c : option payload) (b : box) : box :=
  mk_box (b_head b) (ring_next (b_tail b)) (zinsert (b_cells b) (b_tail b) c).

Definition box_get (b : box) : option payload * box :=
  let c := default None (zlookup (b_cells b) (b_head b)) in
  (c, mk_box (ring_next (b_head b)) (b_tail b) (zinsert (b_cells b) (b_head b) None)).

(** The message structure as a cell. *)
Definition msg_cell (m : msg_d) : option payload :=
  if m_msg m <=? 0 then None
  else Some (mk_payload (m_opaque_window m) (m_msg m) (m_long1 m) (m_long2 m) (m_long3 m) (m_long4 m)
               (m_sender_tid m) (m_receiver_tid m)).

Definition box_of (s : kst) (x : thread_d) : box :=
  mk_box (MsgQueueHead x) (MsgQueueTail x)
    ((fun a => msgs s !! a ≫= msg_cell) <$> MsgQueue x).

(** The ring of a thread is well formed. *)
Record wf_ring (s : kst) (x : thread_d) : Prop := {
  wr_length : length (MsgQueue x) = Z.to_nat MSG_QUEUE_MAX;
  wr_nodup : NoDup (MsgQueue x);
  wr_head : 0 <= MsgQueueHead x < MSG_QUEUE_MAX;
  wr_tail : 0 <= MsgQueueTail x < MSG_QUEUE_MAX;
  wr_msgs : forall a, a ∈ MsgQueue x -> a <> NULL /\
    exists m, msgs s !! a = Some m /\ m_used m = TRUE /\ m_magic m = 1234
}.

(** The words that a payload gives to the reader. *)
Definition payload_words (j : Z) (p : payload) : list (Z * Z) :=
  [(0, pl_window p); (1, u32 (pl_msg p)); (2, pl_long1 p); (3, pl_long2 p);
   (4, pl_long3 p); (5, pl_long4 p); (8, u64 (pl_sender p)); (9, u64 (pl_receiver p));
   (10, pl_long3 p); (11, j)].

(** ** Lemmas on the ring *)

Lemma ring_next_mod k : 0 <= k < MSG_QUEUE_MAX -> ring_next k = (k + 1) mod MSG_QUEUE_MAX.
Proof.
  unfold ring_next, MSG_QUEUE_MAX. intros H. destruct (Z.leb_spec 64 (k + 1)).
  - replace (k + 1) with 64 by lia. done.
  - rewrite Z.mod_small; lia.
Qed.

Lemma ring_next_range k : 0 <= k < MSG_QUEUE_MAX -> 0 <= ring_next k < MSG_QUEUE_MAX.
Proof. unfold ring_next, MSG_QUEUE_MAX. intros H. case_match eqn:E; lia. Qed.

(** A structure of the ring, by its index. *)
Lemma ring_entry s x k :
  wf_ring s x -> 0 <= k < MSG_QUEUE_MAX ->
  exists a m, zlookup (MsgQueue x) k = Some a /\ a <> NULL /\ msgs s !! a = Some m /\
    m_used m = TRUE /\ m_magic m = 1234.
Proof.
  intros [Hl _ _ _ Hm] Hk.
  destruct (zlookup_some (MsgQueue x) k) as (a & Ha).
  { rewrite Hl. unfold MSG_QUEUE_MAX in *. lia. }
  destruct (Hm a) as (Hn & m & H).
  { unfold zlookup in Ha. case_match; [done|]. by eapply list_elem_of_lookup_2. }
  by exists a, m.
Qed.

Lemma cells_insert (ms : gmap Z msg_d) (l : list Z) k a m :
  NoDup l -> zlookup l k = Some a ->
  (fun b => (<[a := m]> ms !! b) ≫= msg_cell) <$> l =
  zinsert ((fun b => (ms !! b) ≫= msg_cell) <$> l) k (msg_cell m).
Proof.
  intros Hnd Hk. unfold zlookup in Hk. unfold zinsert. destruct (Z.ltb_spec k 0); [done|].
  apply list_eq. intros n. rewrite list_lookup_fmap.
  destruct (decide (n = Z.to_nat k)) as [->|Hne].
  - rewrite Hk, list_lookup_insert_eq.
    + cbn. by rewrite lookup_insert_eq.
    + rewrite length_fmap. by eapply lookup_lt_Some.
  - rewrite list_lookup_insert_ne by done. rewrite list_lookup_fmap.
    destruct (l !! n) as [b|] eqn:Hb; [|done]. cbn. rewrite lookup_insert_ne; [done|].
    intros ->. apply Hne. by eapply NoDup_lookup.
Qed.

(** Neither the boost nor the indices concern the structures. *)
Lemma wf_ring_update s x a m y :
  wf_ring s x -> (exists m0, msgs s !! a = Some m0) -> m_used m = TRUE -> m_magic m = 1234 ->
  MsgQueue y = MsgQueue x -> 0 <= MsgQueueHead y < MSG_QUEUE_MAX ->
  0 <= MsgQueueTail y < MSG_QUEUE_MAX ->
  wf_ring (s <| msgs := <[a := m]> (msgs s) |>) y.
Proof.
  intros [Hl Hnd _ _ Hm] _ Hu Hg Hq Hh Ht. split; rewrite ?Hq; try done.
  intros b Hb. destruct (Hm b Hb) as (Hn & m0 & H0). split; [done|]. cbn.
  destruct (decide (a = b)) as [->|].
  - exists m. by rewrite lookup_insert_eq.
  - exists m0. by rewrite lookup_insert_ne.
Qed.

(** What a routine keeps of the globals that posting and reading depend on. *)
Record ipc_kept (s s' : kst) : Prop := {
  ik_threadList : threadList s' = threadList s;
  ik_jiffies : jiffies s' = jiffies s;
  ik_current : current_thread s' = current_thread s;
  ik_use : g_use_event_responder s' = g_use_event_responder s;
  ik_pt : pt s' = pt s
}.

Lemma ipc_kept_trans s1 s2 s3 : ipc_kept s1 s2 -> ipc_kept s2 s3 -> ipc_kept s1 s3.
Proof. intros [] []. split; congruence. Qed.

(** The ring and the identity of a thread are kept. *)
Definition same_ring (x y : thread_d) : Prop :=
  MsgQueue y = MsgQueue x /\ MsgQueueHead y = MsgQueueHead x /\
  MsgQueueTail y = MsgQueueTail x /\ ident y = ident x.

Lemma set_ev_responder_Done s t x :
  threads s !! t = Some x -> t <> NULL -> valid_struct x = true ->
  set_ev_responder t s = Done 0 (s <| ev_responder_thread := t |> <| threads :=
    <[t := x <| quantum := QUANTUM_MAX |> <| priority := PRIORITY_MAX |>]> (threads s) |>).
Proof.
  intros Hx Hn Hv. apply valid_struct_true in Hv as [Hu Hm].
  unfold set_ev_responder, deref_thread. zguard. rewrite (bind_getsome _ _ _ x) by done.
  rewrite Hu, Hm. cbn [negb TRUE Z.eqb Pos.eqb]. rewrite bind_modify. cbn beta.
  assert (Hx' : threads (s <| ev_responder_thread := t |>) !! t = Some x) by exact Hx.
  by rewrite (bind_Done _ _ _ _ _ (update_thread_Done _ t x _ Hx')).
Qed.

Lemma ipc_boost_spec s t x :
  threads s !! t = Some x -> t <> NULL -> valid_struct x = true ->
  exists s' x', ipc_boost t s = Done tt s' /\ ipc_kept s s' /\ msgs s' = msgs s /\
    threads s' = <[t := x']> (threads s) /\ same_ring x x' /\
    state x' = (if g_use_event_responder s =? TRUE then READY else state x).
Proof.
  intros Hx Hn Hv. unfold ipc_boost. rewrite bind_gets.
  destruct (g_use_event_responder s =? TRUE) eqn:Euse.
  - set (x1 := x <| has_pending_event_ := TRUE |> <| quantum := QUANTUM_MAX |>
      <| priority := PRIORITY_MAX |> <| state := READY |>).
    rewrite (bind_Done _ _ _ _ _ (update_thread_Done s t x _ Hx)). fold x1.
    pose proof (set_ev_responder_Done (s <| threads := <[t := x1]> (threads s) |>) t x1) as H.
    rewrite (bind_Done _ _ _ _ _ (H (lookup_insert_eq _ _ _) Hn Hv)).
    exists (s <| threads := <[t := x1]> (threads s) |> <| ev_responder_thread := t |> <| threads :=
      <[t := x1 <| quantum := QUANTUM_MAX |> <| priority := PRIORITY_MAX |>]>
        (<[t := x1]> (threads s)) |>).
    eexists. split; [reflexivity|]. split; [by split|]. split; [done|].
    split; [cbn; by rewrite insert_insert_eq|]. done.
  - exists s, x. split_and!; try done. by rewrite insert_id.
Qed.

Lemma ipc_enqueue_spec s t x put :
  threads s !! t = Some x -> wf_ring s x ->
  (forall m, m_used (put m) = m_used m /\ m_magic (put m) = m_magic m) ->
  exists s' x' a m, ipc_enqueue t put s = Done tt s' /\ ipc_kept s s' /\
    zlookup (MsgQueue x) (MsgQueueTail x) = Some a /\ msgs s !! a = Some m /\
    msgs s' = <[a := put m]> (msgs s) /\ threads s' = <[t := x']> (threads s) /\
    MsgQueue x' = MsgQueue x /\ MsgQueueHead x' = MsgQueueHead x /\
    MsgQueueTail x' = ring_next (MsgQueueTail x) /\ ident x' = ident x /\
    state x' = state x /\ isResponder x' = TRUE.
Proof.
  intros Hx Hw Hput. destruct (ring_entry s x (MsgQueueTail x) Hw (wr_tail _ _ Hw))
    as (a & m & Ha & Hn & Hm & Hu & Hg).
  unfold ipc_enqueue, deref_thread, deref_msg.
  rewrite (bind_getsome _ _ _ x) by done. rewrite (bind_getsome _ _ _ a) by done. zguard.
  rewrite (bind_getsome _ _ _ m) by done. rewrite Hu, Hg. cbn [negb orb TRUE Z.eqb Pos.eqb].
  rewrite (bind_Done _ _ _ _ _ (update_msg_Done s a m put Hm)).
  set (s1 := s <| msgs := <[a := put m]> (msgs s) |>).
  set (x1 := x <| MsgQueueTail := ring_next (MsgQueueTail x) |>).
  assert (Hx' : threads s1 !! t = Some x) by exact Hx.
  rewrite (bind_Done _ _ _ _ _ (update_thread_Done s1 t x _ Hx')). fold x1.
  rewrite (update_thread_Done _ t x1) by apply lookup_insert_eq.
  eexists _, (x1 <| isResponder := TRUE |>), a, m. split; [reflexivity|].
  split; [by split|]. do 3 (split; [done|]).
  split; [cbn; by rewrite insert_insert_eq|]. done.
Qed.

(** A post to a valid thread. *)
Lemma ipc_post_spec s i t x src put :
  wf_threads s -> valid_thread s i t x -> wf_ring s x ->
  (forall m, m_used (put m) = m_used m /\ m_magic (put m) = m_magic m) ->
  (forall m m', msg_cell (put m) = msg_cell (put m')) ->
  exists s' x', ipc_post src i put s = Done 0 s' /\ ipc_kept s s' /\
    wf_threads s' /\ valid_thread s' i t x' /\ wf_ring s' x' /\
    box_of s' x' = box_post (msg_cell (put blank_msg)) (box_of s x) /\
    state x' = (if g_use_event_responder s =? TRUE then READY else state x) /\
    isResponder x' = TRUE /\
    (forall u, u <> t -> threads s' !! u = threads s !! u) /\
    (forall b, b ∉ MsgQueue x -> msgs s' !! b = msgs s !! b).
Proof.
  intros Hwf Hv Hw Hput Hcell. pose proof Hv as ((Hr & Ht & Hn & Hx) & Hu & Hm).
  assert (Hvs : valid_struct x = true) by (by apply valid_struct_true).
  assert (Htid : tid x = i).
  { destruct (wf_slot s Hwf i t Ht Hn) as (y & Hy & Hy'). congruence. }
  unfold ipc_post, threadList_at, deref_thread. zguard.
  rewrite (bind_getsome _ _ _ t) by done. zguard. rewrite (bind_getsome _ _ _ x) by done.
  rewrite Hvs. cbn [negb]. rewrite Htid, Z.eqb_refl. cbn [negb].
  destruct (ipc_boost_spec s t x Hx Hn Hvs) as (s1 & x1 & Hb & Hk1 & Hms1 & Hth1 & Hring & Hst1).
  rewrite (bind_Done _ _ _ _ _ Hb). destruct Hring as (Hq & Hh & Htl & Hid).
  assert (Hx1 : threads s1 !! t = Some x1) by (rewrite Hth1; apply lookup_insert_eq).
  assert (Hw1 : wf_ring s1 x1).
  { destruct Hw. split; rewrite ?Hq, ?Hh, ?Htl; try done. by rewrite Hms1. }
  destruct (ipc_enqueue_spec s1 t x1 put Hx1 Hw1 Hput)
    as (s2 & x2 & a & m & He & Hk2 & Ha & Hma & Hms2 & Hth2 & Hq2 & Hh2 & Htl2 & Hid2 & Hst2 & Hrs2).
  rewrite (bind_Done _ _ _ _ _ He). exists s2, x2. split; [done|].
  split; [by eapply ipc_kept_trans|].
  rewrite Hq in Ha. rewrite Hms1 in Hma, Hms2. rewrite Hth1, insert_insert_eq in Hth2.
  assert (Hid3 : ident x2 = ident x) by congruence. injection Hid3 as Hi1 Hi2 Hi3.
  assert (Hlist : threadList s2 = threadList s)
    by (rewrite (ik_threadList _ _ Hk2); apply Hk1).
  split; [|split; [|split; [|split]]].
  - eapply wf_threads_ext; [apply (wf_threads_update s t x (fun _ => x2) Hwf Hx Hi1)|done|done].
  - split; [|split; congruence]. split; [done|]. split; [congruence|]. split; [done|].
    rewrite Hth2. apply lookup_insert_eq.
  - assert (Hw3 : wf_ring (s <| msgs := <[a := put m]> (msgs s) |>) x2).
    { destruct (Hput m) as [Hp1 Hp2]. destruct (wr_msgs _ _ Hw a) as (_ & m0 & Hm0 & Hu0 & Hg0).
      { unfold zlookup in Ha. case_match; [done|]. by eapply list_elem_of_lookup_2. }
      assert (m0 = m) as -> by congruence.
      apply (wf_ring_update s x); try done; try congruence; [by exists m| |].
      - rewrite Hh2, Hh. apply Hw.
      - rewrite Htl2, Htl. apply ring_next_range, Hw. }
    destruct Hw3. split; try done. by rewrite Hms2.
  - unfold box_of, box_post. cbn. rewrite Hh2, Hh, Htl2, Htl, Hq2, Hq, Hms2.
    f_equal. rewrite Htl in Ha.
    rewrite (cells_insert (msgs s) (MsgQueue x) (MsgQueueTail x) a (put m) (wr_nodup _ _ Hw) Ha).
    by rewrite (Hcell blank_msg m).
  - split; [congruence|]. split; [done|]. split.
    + intros u Hu'. by rewrite Hth2, lookup_insert_ne.
    + intros b Hb'. rewrite Hms2, lookup_insert_ne; [done|]. intros <-. apply Hb'.
      unfold zlookup in Ha. case_match; [done|]. by eapply list_elem_of_lookup_2.
Qed.

Lemma advance_head_Done s t x :
  threads s !! t = Some x ->
  advance_head t s = Done tt (s <| threads :=
    <[t := x <| MsgQueueHead := ring_next (MsgQueueHead x) |>]> (threads s) |>).
Proof. intros H. unfold advance_head. by rewrite (update_thread_Done s t x). Qed.

Lemma caller_thread_valid s t x :
  valid_thread s (current_thread s) t x -> caller_thread s = Done (Some t) s.
Proof.
  intros ((Hr & Ht & Hn & Hx) & Hu & Hm). unfold caller_thread, threadList_at, deref_thread.
  rewrite bind_gets. zguard. rewrite (bind_getsome _ _ _ t) by done. zguard.
  rewrite (bind_getsome _ _ _ x) by done.
  assert (valid_struct x = true) as -> by (by apply valid_struct_true). done.
Qed.

(** What the reader gets. *)
Definition get_result (j : Z) (c : option payload) : Z * list (Z * Z) :=
  match c with Some p => (1, payload_words j p) | None => (NULL, []) end.

Lemma sys_get_message_spec s t x ubuf :
  wf_threads s -> ubuf <> 0 -> valid_thread s (current_thread s) t x -> wf_ring s x ->
  exists s' x', sys_get_message ubuf s =
      Done (get_result (jiffies s) (box_get (box_of s x)).1) s' /\
    ipc_kept s s' /\ wf_threads s' /\ valid_thread s' (current_thread s) t x' /\
    wf_ring s' x' /\ box_of s' x' = (box_get (box_of s x)).2 /\ state x' = state x.
Proof.
  intros Hwf Hb Hv Hw. pose proof Hv as ((Hr & Ht & Hn & Hx) & Hu & Hm).
  destruct (ring_entry s x (MsgQueueHead x) Hw (wr_head _ _ Hw))
    as (a & m & Ha & Hna & Hma & Hmu & Hmg).
  unfold sys_get_message, deref_thread, deref_msg. zguard.
  rewrite (bind_Done _ _ _ _ _ (caller_thread_valid s t x Hv)).
  rewrite (bind_getsome _ _ _ x) by done. rewrite (bind_getsome _ _ _ a) by done. zguard.
  rewrite (bind_getsome _ _ _ m) by done.
  assert (Hcell : zlookup (b_cells (box_of s x)) (b_head (box_of s x)) = Some (msg_cell m)).
  { cbn. unfold zlookup in *. case_match; [done|]. rewrite list_lookup_fmap, Ha. cbn.
    by rewrite Hma. }
  set (x1 := x <| MsgQueueHead := ring_next (MsgQueueHead x) |>).
  assert (Hhm : has_message m = negb (m_msg m <=? 0)) by (unfold has_message; by rewrite Hmu, Hmg).
  rewrite Hhm, negb_involutive. unfold box_get. rewrite Hcell. cbn [default from_option fst snd id].
  assert (Hw1 : forall ms, (forall b, b ∈ MsgQueue x -> b <> NULL /\
      exists m, ms !! b = Some m /\ m_used m = TRUE /\ m_magic m = 1234) ->
    wf_ring (s <| msgs := ms |> <| threads := <[t := x1]> (threads s) |>) x1).
  { intros ms Hms. destruct Hw. split; cbn; try done. by apply ring_next_range. }
  assert (Hwf1 : forall ms, wf_threads (s <| msgs := ms |> <| threads := <[t := x1]> (threads s) |>)).
  { intros ms. by eapply wf_threads_ext; [apply (wf_threads_update s t x (fun _ => x1))|..]. }
  assert (Hv1 : forall ms, valid_thread (s <| msgs := ms |> <| threads := <[t := x1]> (threads s) |>)
    (current_thread s) t x1).
  { intros ms. split; [|split; [exact Hu|exact Hm]]. split; [exact Hr|]. split; [exact Ht|].
    split; [exact Hn|]. apply lookup_insert_eq. }
  unfold msg_cell at 1. destruct (m_msg m <=? 0) eqn:Ecode.
  - rewrite (bind_Done _ _ _ _ _ (advance_head_Done s t x Hx)). fold x1.
    assert (Hs : s <| threads := <[t := x1]> (threads s) |> =
      s <| msgs := msgs s |> <| threads := <[t := x1]> (threads s) |>) by done.
    rewrite Hs. eexists _, x1. split; [reflexivity|]. split; [by split|]. split; [apply Hwf1|].
    split; [apply Hv1|]. split; [apply Hw1, (wr_msgs _ _ Hw)|]. split; [|done].
    unfold box_of. cbn. f_equal. symmetry. unfold zinsert. unfold zlookup in Hcell.
    cbn in Hcell. case_match; [done|]. apply list_insert_id. rewrite Hcell. unfold msg_cell.
    by rewrite Ecode.
  - rewrite bind_gets. rewrite (bind_Done _ _ _ _ _ (update_msg_Done s a m msg_clear Hma)).
    assert (Hx' : threads (s <| msgs := <[a := msg_clear m]> (msgs s) |>) !! t = Some x) by exact Hx.
    rewrite (bind_Done _ _ _ _ _ (advance_head_Done _ t x Hx')). fold x1.
    eexists _, x1. split; [reflexivity|]. split; [by split|]. split; [apply Hwf1|].
    split; [apply Hv1|]. split; [|split; [|done]].
    + apply Hw1. intros b Hb'. destruct (wr_msgs _ _ Hw b Hb') as (Hnb & m0 & H0).
      split; [done|]. destruct (decide (a = b)) as [->|].
      * exists (msg_clear m). by rewrite lookup_insert_eq.
      * exists m0. by rewrite lookup_insert_ne.
    + unfold box_of. cbn. f_equal. by rewrite (cells_insert _ _ _ a) by (try apply Hw; done).
Qed.

(** ** The ring as a sequence of cells *)

Record wf_box (b : box) : Prop := {
  wb_length : length (b_cells b) = Z.to_nat MSG_QUEUE_MAX;
  wb_head : 0 <= b_head b < MSG_QUEUE_MAX;
  wb_tail : 0 <= b_tail b < MSG_QUEUE_MAX
}.

(** The cell at distance [k] from [h]. *)
Definition cell_from (b : box) (h k : Z) : option payload :=
  default None (zlookup (b_cells b) ((h + k) mod MSG_QUEUE_MAX)).

Fixpoint box_posts (cs : list (option payload)) (b : box) : box :=
  match cs with [] => b | c :: cs' => box_posts cs' (box_post c b) end.

Fixpoint box_gets (n : nat) (b : box) : list (option payload) * box :=
  match n with
  | O => ([], b)
  | S n' => let '(c, b1) := box_get b in let '(cs, b2) := box_gets n' b1 in (c :: cs, b2)
  end.

Lemma wf_box_of s x : wf_ring s x -> wf_box (box_of s x).
Proof. intros []. split; cbn; [by rewrite length_fmap|done|done]. Qed.

Lemma wf_box_post b c : wf_box b -> wf_box (box_post c b).
Proof.
  intros []. split; cbn; [by rewrite length_zinsert|done|by apply ring_next_range].
Qed.

Lemma wf_box_get b : wf_box b -> wf_box (box_get b).2.
Proof.
  intros []. split; cbn; [by rewrite length_zinsert|by apply ring_next_range|done].
Qed.

Lemma ring_mod_range k : 0 <= k mod MSG_QUEUE_MAX < MSG_QUEUE_MAX.
Proof. apply Z.mod_pos_bound. unfold MSG_QUEUE_MAX. lia. Qed.

Lemma ring_mod_inj h i j : 0 <= i < MSG_QUEUE_MAX -> 0 <= j < MSG_QUEUE_MAX ->
  (h + i) mod MSG_QUEUE_MAX = (h + j) mod MSG_QUEUE_MAX -> i = j.
Proof. unfold MSG_QUEUE_MAX. intros. Z.to_euclidean_division_equations; lia. Qed.

Lemma ring_mod_small h : 0 <= h < MSG_QUEUE_MAX -> (h + 0) mod MSG_QUEUE_MAX = h.
Proof. intros. rewrite Z.mod_small; lia. Qed.

Lemma cell_from_insert b h k h' t' j c :
  wf_box b -> 0 <= k < MSG_QUEUE_MAX -> 0 <= j < MSG_QUEUE_MAX ->
  cell_from (mk_box h' t' (zinsert (b_cells b) ((h + j) mod MSG_QUEUE_MAX) c)) h k =
  if k =? j then c else cell_from b h k.
Proof.
  intros [Hl _ _] Hk Hj. unfold cell_from. cbn.
  assert (Hlen : Z.of_nat (length (b_cells b)) = MSG_QUEUE_MAX)
    by (rewrite Hl; unfold MSG_QUEUE_MAX; lia).
  pose proof (ring_mod_range (h + j)) as Hr.
  destruct (Z.eqb_spec k j) as [->|Hne].
  - by rewrite zlookup_insert_eq by lia.
  - rewrite zlookup_insert_ne; [done|lia|]. intros E. by apply Hne, eq_sym, (ring_mod_inj h).
Qed.

Lemma ring_next_shift h k :
  0 <= h < MSG_QUEUE_MAX -> (ring_next h + k) mod MSG_QUEUE_MAX = (h + (k + 1)) mod MSG_QUEUE_MAX.
Proof.
  intros. rewrite ring_next_mod by done. rewrite Zplus_mod_idemp_l. f_equal. lia.
Qed.

(** Consecutive posts fill consecutive cells, up to the size of the ring. *)
Lemma box_posts_spec cs b :
  wf_box b -> Z.of_nat (length cs) <= MSG_QUEUE_MAX ->
  wf_box (box_posts cs b) /\ b_head (box_posts cs b) = b_head b /\
  b_tail (box_posts cs b) = (b_tail b + Z.of_nat (length cs)) mod MSG_QUEUE_MAX /\
  forall k, 0 <= k < MSG_QUEUE_MAX ->
    cell_from (box_posts cs b) (b_tail b) k =
    default (cell_from b (b_tail b) k) (cs !! Z.to_nat k).
Proof.
  revert b. induction cs as [|c cs IH]; intros b Hb Hlen.
  - cbn. rewrite ring_mod_small by apply Hb. done.
  - cbn [length] in Hlen. pose proof (wf_box_post b c Hb) as Hb1.
    destruct (IH (box_post c b) Hb1) as (Hw & Hh & Ht & Hc); [lia|].
    cbn [box_posts]. split; [done|]. split; [done|]. split.
    + rewrite Ht. cbn [box_post b_tail]. rewrite ring_next_shift by apply Hb. cbn [length]. f_equal. lia.
    + intros k Hk.
      assert (Hins : forall k, 0 <= k < MSG_QUEUE_MAX ->
        cell_from (box_post c b) (b_tail b) k = if k =? 0 then c else cell_from b (b_tail b) k).
      { intros j Hj. pose proof (cell_from_insert b (b_tail b) j (b_head b)
          (ring_next (b_tail b)) 0 c Hb Hj) as H.
        rewrite ring_mod_small in H by apply Hb. apply H. unfold MSG_QUEUE_MAX. lia. }
      assert (Hshift : forall j b', cell_from b' (b_tail (box_post c b)) j = cell_from b' (b_tail b) (j + 1)).
      { intros j b'. unfold cell_from. cbn [box_post b_tail]. by rewrite ring_next_shift by apply Hb. }
      destruct (Z.eqb_spec k 0) as [->|Hk0].
      * specialize (Hc (MSG_QUEUE_MAX - 1)). rewrite !Hshift in Hc.
        assert (E : forall b', cell_from b' (b_tail b) (MSG_QUEUE_MAX - 1 + 1) = cell_from b' (b_tail b) 0).
        { intros b'. unfold cell_from. f_equal. f_equal. unfold MSG_QUEUE_MAX.
          Z.to_euclidean_division_equations; lia. }
        rewrite !E in Hc. rewrite Hc by (unfold MSG_QUEUE_MAX; lia).
        rewrite lookup_ge_None_2 by (unfold MSG_QUEUE_MAX in *; lia). cbn.
        rewrite Hins by (unfold MSG_QUEUE_MAX; lia). done.
      * specialize (Hc (k - 1)). rewrite !Hshift in Hc. replace (k - 1 + 1) with k in Hc by lia.
        rewrite Hc by lia. rewrite Hins by done. zguard.
        replace (Z.to_nat k) with (S (Z.to_nat (k - 1))) by lia. done.
Qed.

(** Consecutive reads return consecutive cells. *)
Lemma box_gets_spec n b :
  wf_box b -> Z.of_nat n <= MSG_QUEUE_MAX ->
  (box_gets n b).1 = (fun k => cell_from b (b_head b) k) <$> range 0 (Z.of_nat n).
Proof.
  revert b. induction n as [|n IH]; intros b Hb Hn; [done|].
  pose proof (wf_box_get b Hb) as Hb1. cbn [box_gets].
  destruct (box_get b) as [c b1] eqn:E. specialize (IH b1).
  destruct (box_gets n b1) as [cs b2] eqn:E2.
  unfold box_get in E. injection E as Ec Eb.
  rewrite range_cons by lia. cbn [fst fmap list_fmap]. f_equal.
  - unfold cell_from. by rewrite ring_mod_small by apply Hb.
  - rewrite <- Eb in Hb1. cbn in IH. rewrite IH by (try lia; rewrite <- Eb; apply Hb1).
    assert (Hshift : forall k, 0 <= k < Z.of_nat n ->
      cell_from b1 (b_head b1) k = cell_from b (b_head b) (k + 1)).
    { intros k Hk. rewrite <- Eb. cbn [b_head].
      transitivity (cell_from (mk_box (ring_next (b_head b)) (b_tail b)
        (zinsert (b_cells b) ((b_head b + 0) mod MSG_QUEUE_MAX) None)) (b_head b) (k + 1)).
      - unfold cell_from. cbn [b_cells]. rewrite ring_next_shift by apply Hb.
        by rewrite ring_mod_small by apply Hb.
      - rewrite cell_from_insert by (try done; unfold MSG_QUEUE_MAX in *; lia).
        by zguard. }
    apply list_eq. intros i. rewrite !list_lookup_fmap. unfold range.
    destruct (decide (i < n)%nat).
    + rewrite !lookup_seqZ_lt by lia. cbn. f_equal. rewrite Hshift by lia. f_equal. lia.
    + rewrite !lookup_seqZ_ge by lia. done.
Qed.

(** ** Scripts: a thread that receives messages and polls its own queue *)

Record post := mk_post {
  po_sender : Z; po_msg : Z; po_l1 : Z; po_l2 : Z; po_l3 : Z; po_l4 : Z
}.

Definition post_ok (p : post) : Prop := 0 < po_msg p < 2 ^ 31.

Definition payload_of (i : Z) (p : post) : payload :=
  mk_payload NULL (po_msg p) (po_l1 p) (po_l2 p) (po_l3 p) (po_l4 p)
    (Z.land (po_sender p) 65535) i.

Fixpoint run_posts (i : Z) (ps : list post) : M kst unit :=
  match ps with
  | [] => mret tt
  | p :: ps' =>
      ipc_post_message_to_tid2 (po_sender p) i (po_msg p) (po_l1 p) (po_l2 p) (po_l3 p) (po_l4 p);;
      run_posts i ps'
  end.

Fixpoint run_gets (n : nat) (ubuf : Z) : M kst (list (Z * list (Z * Z))) :=
  match n with
  | O => mret []
  | S n' => r ← sys_get_message ubuf; rs ← run_gets n' ubuf; mret (r :: rs)
  end.

(** The current thread is [i], at [t], its ring is well formed and is [b]; the
    time is [j]. *)
Definition mailbox (s : kst) (i t j : Z) (b : box) : Prop :=
  wf_threads s /\ current_thread s = i /\ jiffies s = j /\
  exists x, valid_thread s i t x /\ wf_ring s x /\ box_of s x = b.

(** The ring is empty and its two indices agree. *)
Definition quiet (b : box) : Prop :=
  b_head b = b_tail b /\ forall k, 0 <= k < MSG_QUEUE_MAX -> cell_from b (b_head b) k = None.

Lemma i32_code c : 0 <= c < 2 ^ 31 -> i32 (Z.land c 4294967295) = c.
Proof.
  intros H. rewrite land_FFFFFFFF, Z.mod_small by lia. apply i32_id. lia.
Qed.

Lemma land_tid i : 0 <= i < THREAD_COUNT_MAX -> Z.land i 65535 = i.
Proof. intros H. rewrite land_FFFF. apply Z.mod_small. unfold THREAD_COUNT_MAX in H. lia. Qed.

Lemma mailbox_post s i t j b p :
  mailbox s i t j b -> post_ok p ->
  exists s', ipc_post_message_to_tid2 (po_sender p) i (po_msg p) (po_l1 p) (po_l2 p)
      (po_l3 p) (po_l4 p) s = Done 0 s' /\
    mailbox s' i t j (box_post (Some (payload_of i p)) b).
Proof.
  intros (Hwf & Hc & Hj & x & Hv & Hw & Hb) Hp. unfold post_ok in Hp.
  assert (Hi : 0 <= i < THREAD_COUNT_MAX) by apply Hv.
  unfold ipc_post_message_to_tid2. rewrite (land_tid i Hi), !i32_code by (rewrite ?i32_code; lia).
  zguard.
  destruct (ipc_post_spec s i t x (Z.land (po_sender p) 65535)
    (msg_put (po_msg p) (po_l1 p) (po_l2 p) (po_l3 p) (po_l4 p) (Z.land (po_sender p) 65535) i)
    Hwf Hv Hw) as (s' & x' & Hs & Hk & Hwf' & Hv' & Hw' & Hb' & _); [done|done|].
  exists s'. split; [done|]. split; [done|]. split; [by rewrite (ik_current _ _ Hk)|].
  split; [by rewrite (ik_jiffies _ _ Hk)|]. exists x'. split; [done|]. split; [done|].
  rewrite Hb', Hb. f_equal. unfold msg_cell, payload_of. cbn. by zguard.
Qed.

Lemma mailbox_posts ps s i t j b :
  mailbox s i t j b -> Forall post_ok ps ->
  exists s', run_posts i ps s = Done tt s' /\
    mailbox s' i t j (box_posts ((fun p => Some (payload_of i p)) <$> ps) b).
Proof.
  revert s b. induction ps as [|p ps IH]; intros s b Hm Hok; [by exists s|].
  apply Forall_cons in Hok as [Hp Hok].
  destruct (mailbox_post s i t j b p Hm Hp) as (s1 & H1 & Hm1).
  destruct (IH s1 _ Hm1 Hok) as (s2 & H2 & Hm2). exists s2. split; [|done].
  cbn [run_posts]. by rewrite (bind_Done _ _ _ _ _ H1).
Qed.

Lemma mailbox_get s i t j b ubuf :
  mailbox s i t j b -> ubuf <> 0 ->
  exists s', sys_get_message ubuf s = Done (get_result j (box_get b).1) s' /\
    mailbox s' i t j (box_get b).2.
Proof.
  intros (Hwf & Hc & Hj & x & Hv & Hw & Hb) Hu. rewrite <- Hc in Hv.
  destruct (sys_get_message_spec s t x ubuf Hwf Hu Hv Hw)
    as (s' & x' & Hs & Hk & Hwf' & Hv' & Hw' & Hb' & _).
  exists s'. rewrite Hb, Hj in Hs. split; [done|]. split; [done|].
  split; [by rewrite (ik_current _ _ Hk)|]. split; [by rewrite (ik_jiffies _ _ Hk)|].
  exists x'. rewrite Hc in Hv'. split; [done|]. split; [done|].
  by rewrite Hb', Hb.
Qed.

Lemma mailbox_gets n s i t j b ubuf :
  mailbox s i t j b -> ubuf <> 0 ->
  exists s', run_gets n ubuf s = Done (get_result j <$> (box_gets n b).1) s' /\
    mailbox s' i t j (box_gets n b).2.
Proof.
  revert s b. induction n as [|n IH]; intros s b Hm Hu; [by exists s|].
  destruct (mailbox_get s i t j b ubuf Hm Hu) as (s1 & H1 & Hm1).
  destruct (IH s1 _ Hm1 Hu) as (s2 & H2 & Hm2). exists s2.
  cbn [run_gets box_gets]. destruct (box_get b) as [c b1]. cbn [snd] in H2, Hm2.
  destruct (box_gets n b1) as [cs b2]. split; [|done].
  rewrite (bind_Done _ _ _ _ _ H1), (bind_Done _ _ _ _ _ H2). done.
Qed.

Lemma box_posts_snoc cs c b : box_posts (cs ++ [c]) b = box_post c (box_posts cs b).
Proof. revert b. induction cs as [|d cs IH]; intros b; [done|]. apply IH. Qed.

(** A post at distance [d] from [h]. *)
Lemma cell_from_post b h d c k :
  wf_box b -> b_tail b = (h + d) mod MSG_QUEUE_MAX -> 0 <= d < MSG_QUEUE_MAX ->
  0 <= k < MSG_QUEUE_MAX ->
  cell_from (box_post c b) h k = if k =? d then c else cell_from b h k.
Proof.
  intros Hb Ht Hd Hk. unfold box_post. rewrite Ht at 2. by apply cell_from_insert.
Qed.

Lemma mailbox_wf s i t j b : mailbox s i t j b -> wf_box b.
Proof. intros (_ & _ & _ & x & _ & Hw & <-). by apply wf_box_of. Qed.

(** Reading an empty ring empties nothing and moves the head. *)
Lemma quiet_get b : wf_box b -> quiet b ->
  (box_get b).1 = None /\
  forall k, 0 <= k < MSG_QUEUE_MAX -> cell_from (box_get b).2 (b_head b) k = None.
Proof.
  intros Hw [_ Hq]. split.
  - specialize (Hq 0). unfold cell_from in Hq. rewrite ring_mod_small in Hq by apply Hw.
    apply Hq. unfold MSG_QUEUE_MAX. lia.
  - intros k Hk. pose proof (cell_from_insert b (b_head b) k (ring_next (b_head b)) (b_tail b) 0
      None Hw Hk) as H. rewrite ring_mod_small in H by apply Hw. cbn [box_get snd].
    rewrite H by (unfold MSG_QUEUE_MAX; lia). destruct (k =? 0); [done|]. by apply Hq.
Qed.

(** ** Theorems *)

(** [C8] First in, first out: on a thread with an empty message ring, up to
    MSG_QUEUE_MAX posted messages are read back by as many reads, in the order
    of the posts, each with its code, payload, sender and receiver. *)
Theorem message_fifo s i t j b ps ubuf :
  mailbox s i t j b -> quiet b -> Forall post_ok ps ->
  Z.of_nat (length ps) <= MSG_QUEUE_MAX -> ubuf <> 0 ->
  exists s', (run_posts i ps;; run_gets (length ps) ubuf) s =
    Done ((fun p => (1, payload_words j (payload_of i p))) <$> ps) s'.
Proof.
  intros Hm [Hht Hq] Hok Hlen Hu.
  destruct (mailbox_posts ps s i t j b Hm Hok) as (s1 & H1 & Hm1).
  rewrite (bind_Done _ _ _ _ _ H1).
  destruct (mailbox_gets (length ps) s1 i t j _ ubuf Hm1 Hu) as (s2 & H2 & _).
  exists s2. rewrite H2. f_equal.
  assert (Hw : wf_box b) by (destruct Hm as (_ & _ & _ & x & _ & Hw & <-); by apply wf_box_of).
  destruct (box_posts_spec ((fun p => Some (payload_of i p)) <$> ps) b Hw)
    as (Hw' & Hh & _ & Hc); [by rewrite length_fmap|].
  rewrite box_gets_spec by done. rewrite Hh, Hht.
  apply list_eq. intros n. rewrite !list_lookup_fmap. unfold range.
  destruct (decide (n < length ps)%nat) as [Hn|Hn].
  - rewrite lookup_seqZ_lt by lia. cbn. rewrite Hc by (unfold MSG_QUEUE_MAX in *; lia).
    rewrite list_lookup_fmap. destruct (lookup_lt_is_Some_2 ps n Hn) as (p & Hp).
    replace (Z.to_nat (0 + Z.of_nat n)) with n by lia. by rewrite Hp.
  - rewrite lookup_seqZ_ge by lia. by rewrite lookup_ge_None_2 by lia.
Qed.

(** Overrun: a ring holds MSG_QUEUE_MAX messages and a post never fails, so
    one post more overwrites the oldest unread message: the reads then return
    the newest message first, followed by the others in order; the oldest is
    lost. *)
Theorem message_overrun s i t j b p0 ps q ubuf :
  mailbox s i t j b -> quiet b -> Forall post_ok ((p0 :: ps) ++ [q]) ->
  Z.of_nat (length (p0 :: ps)) = MSG_QUEUE_MAX -> ubuf <> 0 ->
  exists s', (run_posts i ((p0 :: ps) ++ [q]);; run_gets (Z.to_nat MSG_QUEUE_MAX) ubuf) s =
    Done ((fun p => (1, payload_words j (payload_of i p))) <$> q :: ps) s'.
Proof.
  intros Hm [Hht Hq] Hok Hlen Hu. pose proof (mailbox_wf _ _ _ _ _ Hm) as Hw.
  destruct (mailbox_posts _ s i t j b Hm Hok) as (s1 & H1 & Hm1).
  rewrite (bind_Done _ _ _ _ _ H1).
  destruct (mailbox_gets (Z.to_nat MSG_QUEUE_MAX) s1 i t j _ ubuf Hm1 Hu) as (s2 & H2 & _).
  exists s2. rewrite H2. f_equal.
  set (cs := (fun p => Some (payload_of i p)) <$> p0 :: ps).
  assert (Hcs : (fun p => Some (payload_of i p)) <$> (p0 :: ps) ++ [q] =
    cs ++ [Some (payload_of i q)]) by (unfold cs; by rewrite fmap_app).
  rewrite Hcs, box_posts_snoc. clear Hcs.
  destruct (box_posts_spec cs b Hw) as (Hw' & Hh & Ht & Hc); [by unfold cs; rewrite length_fmap; lia|].
  unfold cs in Ht. rewrite length_fmap, Hlen in Ht. fold cs in Ht.
  rewrite box_gets_spec by (try apply wf_box_post; done).
  change (b_head (box_post (Some (payload_of i q)) (box_posts cs b))) with
    (b_head (box_posts cs b)). rewrite Hh, Hht.
  assert (Ht0 : b_tail (box_posts cs b) = (b_tail b + 0) mod MSG_QUEUE_MAX).
  { rewrite Ht. replace (b_tail b + MSG_QUEUE_MAX) with (b_tail b + 1 * MSG_QUEUE_MAX) by lia.
    rewrite Z.mod_add by (unfold MSG_QUEUE_MAX; lia). f_equal. lia. }
  apply list_eq. intros n. rewrite !list_lookup_fmap. unfold range.
  destruct (decide (n < length (p0 :: ps))%nat) as [Hn|Hn].
  - rewrite lookup_seqZ_lt by lia. cbn [fmap option_fmap option_map].
    rewrite (cell_from_post _ _ 0) by (try done; unfold MSG_QUEUE_MAX in *; lia).
    rewrite Hc by (unfold MSG_QUEUE_MAX in *; lia).
    destruct n as [|n]; [done|]. zguard. replace (Z.to_nat (0 + Z.of_nat (S n))) with (S n) by lia.
    destruct (lookup_lt_is_Some_2 (p0 :: ps) (S n) Hn) as (p & Hp).
    unfold cs. rewrite list_lookup_fmap, Hp. cbn in Hp |- *. by rewrite Hp.
  - rewrite lookup_seqZ_ge by lia. rewrite lookup_ge_None_2 by (cbn in *; lia). done.
Qed.

(** A read of an empty ring still moves the head, and the next message is
    then out of step: it is missed by MSG_QUEUE_MAX - 1 reads and delivered by
    the read after them, when the head has gone round the ring. *)
Theorem message_missed s i t j b p ubuf :
  mailbox s i t j b -> quiet b -> post_ok p -> ubuf <> 0 ->
  exists s1 s2, sys_get_message ubuf s = Done (NULL, []) s1 /\
    (run_posts i [p];; run_gets (Z.to_nat MSG_QUEUE_MAX) ubuf) s1 =
    Done (replicate (Z.to_nat (MSG_QUEUE_MAX - 1)) (NULL, []) ++
          [(1, payload_words j (payload_of i p))]) s2.
Proof.
  intros Hm Hq Hp Hu. pose proof (mailbox_wf _ _ _ _ _ Hm) as Hw.
  destruct (quiet_get b Hw Hq) as [Hnone Hcells].
  destruct (mailbox_get s i t j b ubuf Hm Hu) as (s1 & H1 & Hm1). rewrite Hnone in H1.
  destruct (mailbox_posts [p] s1 i t j _ Hm1) as (s2 & H2 & Hm2); [by constructor|].
  destruct (mailbox_gets (Z.to_nat MSG_QUEUE_MAX) s2 i t j _ ubuf Hm2 Hu) as (s3 & H3 & _).
  exists s1, s3. split; [exact H1|]. rewrite (bind_Done _ _ _ _ _ H2), H3. f_equal.
  pose proof (mailbox_wf _ _ _ _ _ Hm1) as Hw1. cbn [fmap list_fmap box_posts].
  rewrite box_gets_spec by (try apply wf_box_post; done).
  assert (Hcell : forall k, 0 <= k < MSG_QUEUE_MAX ->
    cell_from (box_post (Some (payload_of i p)) (box_get b).2) (ring_next (b_head b)) k =
    if k =? MSG_QUEUE_MAX - 1 then Some (payload_of i p) else None).
  { intros k Hk. rewrite (cell_from_post _ _ (MSG_QUEUE_MAX - 1)); try done.
    - destruct (k =? MSG_QUEUE_MAX - 1) eqn:E; [done|]. apply Z.eqb_neq in E.
      rewrite <- (Hcells (k + 1)) by lia. unfold cell_from. by rewrite ring_next_shift by apply Hw.
    - rewrite ring_next_shift by apply Hw. cbn [box_get snd b_tail]. destruct Hq as [<- _].
      pose proof (wb_head _ Hw). unfold MSG_QUEUE_MAX in *. Z.to_euclidean_division_equations; lia. }
  cbn [box_post b_head box_get snd] in Hcell |- *.
  apply list_eq. intros n. rewrite !list_lookup_fmap. unfold range.
  destruct (decide (n < Z.to_nat MSG_QUEUE_MAX)%nat) as [Hn|Hn].
  - rewrite lookup_seqZ_lt by lia. cbn [fmap option_fmap option_map].
    rewrite Hcell by (unfold MSG_QUEUE_MAX in *; lia).
    destruct (Z.eqb_spec (0 + Z.of_nat n) (MSG_QUEUE_MAX - 1)) as [E|E].
    + assert (n = Z.to_nat (MSG_QUEUE_MAX - 1)) as -> by lia.
      rewrite lookup_app_r, length_replicate, Nat.sub_diag by (rewrite length_replicate; lia). done.
    + rewrite lookup_app_l by (rewrite length_replicate; unfold MSG_QUEUE_MAX in *; lia).
      by rewrite lookup_replicate_2 by (unfold MSG_QUEUE_MAX in *; lia).
  - rewrite lookup_seqZ_ge by lia. rewrite lookup_ge_None_2; [done|].
    rewrite length_app, length_replicate. unfold MSG_QUEUE_MAX in *. cbn. lia.
Qed.

(** With the event responder in use, a post makes its receiver READY from
    any state: a BLOCKED thread is unblocked and a ZOMBIE revived by a message,
    which no wake-up request does for a blocked thread. *)
Theorem post_makes_ready s i t x p :
  wf_threads s -> valid_thread s i t x -> wf_ring s x -> post_ok p ->
  g_use_event_responder s = TRUE ->
  exists s' x', ipc_post_message_to_tid2 (po_sender p) i (po_msg p) (po_l1 p) (po_l2 p)
      (po_l3 p) (po_l4 p) s = Done 0 s' /\
    valid_thread s' i t x' /\ state x' = READY /\ isResponder x' = TRUE /\
    (forall u, u <> t -> threads s' !! u = threads s !! u).
Proof.
  intros Hwf Hv Hw Hp Hg. unfold post_ok in Hp.
  assert (Hi : 0 <= i < THREAD_COUNT_MAX) by apply Hv.
  unfold ipc_post_message_to_tid2. rewrite (land_tid i Hi), !i32_code by (rewrite ?i32_code; lia).
  zguard.
  destruct (ipc_post_spec s i t x (Z.land (po_sender p) 65535)
    (msg_put (po_msg p) (po_l1 p) (po_l2 p) (po_l3 p) (po_l4 p) (Z.land (po_sender p) 65535) i)
    Hwf Hv Hw) as (s' & x' & Hs & _ & _ & Hv' & _ & _ & Hst & Hr & Hfr & _); [done|done|].
  exists s', x'. rewrite Hg in Hst. done.
Qed.

(** A user can panic the kernel by posting: the system call checks the
    range of the receiver only, and a receiver in range whose slot is empty or
    holds no valid thread makes the worker panic. *)
Theorem sys_post_panics s i buf ubuf :
  wf_threads s -> 0 <= i < THREAD_COUNT_MAX -> lookup_thread s i = None ->
  buf <> 0 -> 0 <= i32 (Z.land (ubuf 1) 4294967295) ->
  exists msg, sys_post_message_to_tid i buf ubuf s = Panic msg.
Proof.
  intros Hwf Hi Hnone Hb Hc. unfold sys_post_message_to_tid. rewrite bind_gets. zguard.
  unfold ipc_post_message_to_tid2. rewrite (land_tid i Hi).
  assert (Hcode : i32 (Z.land (i32 (Z.land (ubuf 1) 4294967295)) 4294967295) =
    i32 (Z.land (ubuf 1) 4294967295)).
  { apply i32_code. split; [done|]. apply i32_range. }
  rewrite !Hcode. zguard. unfold ipc_post, threadList_at, deref_thread. zguard.
  destruct (wf_threads_lookup s i Hwf Hi) as (t & Ht).
  destruct (Z.eqb_spec t NULL) as [->|Hn].
  - eexists. apply bind_Panic. rewrite (bind_getsome _ _ _ NULL) by done. done.
  - destruct (wf_slot s Hwf i t Ht Hn) as (x & Hx & _).
    assert (Hv : valid_struct x = false).
    { rewrite (lookup_thread_at s i t x) in Hnone by done. by destruct (valid_struct x). }
    eexists. apply bind_Panic. rewrite (bind_getsome _ _ _ t) by done. zguard.
    rewrite (bind_getsome _ _ _ x) by done. by rewrite Hv.
Qed.

(** ** Witnesses *)

(** Threads 0 and 1, each with an empty ring; thread 1 runs. *)
Definition ring_addrs (i : Z) : list Z := (fun k => 1000000 * (i + 1) + k) <$> range 0 64.

Definition ipc_demo_thread (i : Z) (st : thread_state) : thread_d :=
  (sample_thread i st) <| MsgQueue := ring_addrs i |>.

Definition ipc_demo (st : thread_state) : kst :=
  (sample_kst [ipc_demo_thread 0 READY; ipc_demo_thread 1 st]) <| current_thread := 1 |>
    <| g_use_event_responder := TRUE |>
    <| msgs := list_to_map ((fun a => (a, blank_msg)) <$> ring_addrs 0 ++ ring_addrs 1) |>.

Definition ring_checkb (s : kst) (x : thread_d) : bool :=
  (Z.of_nat (length (MsgQueue x)) =? MSG_QUEUE_MAX) && bool_decide (NoDup (MsgQueue x)) &&
  (0 <=? MsgQueueHead x) && (MsgQueueHead x <? MSG_QUEUE_MAX) &&
  (0 <=? MsgQueueTail x) && (MsgQueueTail x <? MSG_QUEUE_MAX) &&
  forallb (fun a => negb (a =? NULL) && match msgs s !! a with
    | Some m => (m_used m =? TRUE) && (m_magic m =? 1234) | None => false end) (MsgQueue x).

Lemma ring_checkb_true s x : ring_checkb s x = true -> wf_ring s x.
Proof.
  unfold ring_checkb. rewrite !andb_true_iff, !Z.leb_le, !Z.ltb_lt, Z.eqb_eq,
    bool_decide_eq_true, forallb_forall. intros [[[[[[Hl Hn] ?] ?] ?] ?] Hf].
  split; try done; [lia|]. intros a Ha. rewrite list_elem_of_In in Ha. apply Hf in Ha.
  apply andb_true_iff in Ha as [Hna Hm]. apply negb_true_iff, Z.eqb_neq in Hna. split; [done|].
  destruct (msgs s !! a) as [m|]; [|done]. apply andb_true_iff in Hm as [Hu Hg].
  exists m. split; [done|]. split; by apply Z.eqb_eq.
Qed.

Definition quietb (b : box) : bool :=
  (b_head b =? b_tail b) &&
  forallb (fun k => match cell_from b (b_head b) k with None => true | _ => false end)
    (range 0 MSG_QUEUE_MAX).

Lemma quietb_true b : quietb b = true -> quiet b.
Proof.
  unfold quietb. rewrite andb_true_iff, Z.eqb_eq, forallb_forall. intros [H Hf].
  split; [done|]. intros k Hk. specialize (Hf k). rewrite <- list_elem_of_In, elem_range in Hf.
  specialize (Hf Hk). by destruct (cell_from b (b_head b) k).
Qed.

Definition demo_box : box := box_of (ipc_demo READY) (ipc_demo_thread 1 READY).

Lemma ipc_demo_wf st : wf_threads (ipc_demo st).
Proof. destruct st; wf_concrete. Qed.

Lemma ipc_demo_valid st : valid_thread (ipc_demo st) 1 (sample_addr 1) (ipc_demo_thread 1 st).
Proof.
  split; [|split; reflexivity]. split; [done|]. split; [reflexivity|]. split; [done|].
  reflexivity.
Qed.

Lemma ipc_demo_ring st : wf_ring (ipc_demo st) (ipc_demo_thread 1 st).
Proof. apply ring_checkb_true. destruct st; vm_compute; reflexivity. Qed.

Lemma ipc_demo_mailbox : mailbox (ipc_demo READY) 1 (sample_addr 1) 100 demo_box.
Proof.
  split; [apply ipc_demo_wf|]. split; [reflexivity|]. split; [reflexivity|].
  exists (ipc_demo_thread 1 READY).
  split; [apply ipc_demo_valid|]. split; [apply ipc_demo_ring|reflexivity].
Qed.

Lemma demo_box_quiet : quiet demo_box.
Proof. apply quietb_true. vm_compute. reflexivity. Qed.

Definition demo_post (c : Z) : post := mk_post 0 c 1 2 3 4.

Lemma message_fifo_witness :
  exists s', (run_posts 1 [demo_post 10; demo_post 20];; run_gets 2 4096) (ipc_demo READY) =
    Done ((fun p => (1, payload_words 100 (payload_of 1 p))) <$> [demo_post 10; demo_post 20]) s'.
Proof.
  apply (message_fifo (ipc_demo READY) 1 (sample_addr 1) 100 demo_box
    [demo_post 10; demo_post 20] 4096 ipc_demo_mailbox demo_box_quiet);
    [repeat constructor; cbn; lia|cbn; unfold MSG_QUEUE_MAX; lia|lia].
Defined.

Lemma message_overrun_witness :
  exists s', (run_posts 1 ((demo_post 1 :: replicate 63 (demo_post 2)) ++ [demo_post 3]);;
      run_gets (Z.to_nat MSG_QUEUE_MAX) 4096) (ipc_demo READY) =
    Done ((fun p => (1, payload_words 100 (payload_of 1 p))) <$>
      demo_post 3 :: replicate 63 (demo_post 2)) s'.
Proof.
  apply (message_overrun (ipc_demo READY) 1 (sample_addr 1) 100 demo_box (demo_post 1)
    (replicate 63 (demo_post 2)) (demo_post 3) 4096 ipc_demo_mailbox demo_box_quiet);
    [repeat constructor; cbn; lia|reflexivity|lia].
Defined.

Lemma message_missed_witness :
  exists s1 s2, sys_get_message 4096 (ipc_demo READY) = Done (NULL, []) s1 /\
    (run_posts 1 [demo_post 10];; run_gets (Z.to_nat MSG_QUEUE_MAX) 4096) s1 =
    Done (replicate (Z.to_nat (MSG_QUEUE_MAX - 1)) (NULL, []) ++
          [(1, payload_words 100 (payload_of 1 (demo_post 10)))]) s2.
Proof.
  apply (message_missed (ipc_demo READY) 1 (sample_addr 1) 100 demo_box (demo_post 10) 4096
    ipc_demo_mailbox demo_box_quiet); [split; cbn; lia|lia].
Defined.

(** A blocked thread becomes READY. *)
Lemma post_makes_ready_witness :
  exists s' x', ipc_post_message_to_tid2 0 1 10 1 2 3 4 (ipc_demo BLOCKED) = Done 0 s' /\
    valid_thread s' 1 (sample_addr 1) x' /\ state x' = READY.
Proof.
  destruct (post_makes_ready (ipc_demo BLOCKED) 1 (sample_addr 1) (ipc_demo_thread 1 BLOCKED)
    (demo_post 10) (ipc_demo_wf _) (ipc_demo_valid _) (ipc_demo_ring _))
    as (s' & x' & H1 & H2 & H3 & _); [split; cbn; lia|reflexivity|].
  exists s', x'. split; [exact H1|]. split; [exact H2|exact H3].
Defined.

Lemma sys_post_panics_witness :
  exists msg, sys_post_message_to_tid 7 4096 (fun _ => 10) (ipc_demo READY) = Panic msg.
Proof.
  apply (sys_post_panics (ipc_demo READY) 7 4096 (fun _ => 10) (ipc_demo_wf _));
    [done|vm_compute; reflexivity|lia|vm_compute; congruence].
Defined.
