(* ===== verification/Heap.v ===== *)
(** * Heap: the kernel heap and kmalloc

    [res/mm/mm.c] (the heap, its initialization, allocation and release of
    blocks) and the allocation routines of [libk/kstdlib.c].  A block is a
    header, the structure [mmblock_d], followed by the user area. *)
From Stdlib Require Import ZArith Lia.
From stdpp Require Import base gmap list strings.
From S2P Require Import Config Prelude Strings Process Samples.

#[local] Open Scope Z_scope.
#[local] Open Scope gramado_scope.

(** ** Data *)

(** struct mmblock_d: the fields that mm.c reads or writes. *)
Record mmblock_d := mk_mmblock {
  Header : Z;
  headerSize : Z;
  userArea : Z;
  userareaSize : Z;
  Footer : Z;
  Id : Z;
  Used : Z;
  Magic : Z;
  Free : Z
}.

#[export] Instance mmblock_d_eta : Eta mmblock_d := fun r =>
  mk_mmblock (Header r) (headerSize r) (userArea r) (userareaSize r) (Footer r)
    (Id r) (Used r) (Magic r) (Free r).
#[export] Instance set_Used : Setter Used. Proof. solve_setter. Defined.
#[export] Instance set_Magic : Setter Magic. Proof. solve_setter. Defined.

(** sizeof(struct mmblock_d): five longs, six 32-bit integers, a pointer
    (5 * 8 + 6 * 4 + 8). *)
Definition MMBLOCK_SIZE : Z := 72.

(** struct kernel_heap_d, struct kernel_stack_d *)
Record region_d := mk_region { r_initialized : Z; r_start : Z; r_end : Z }.

(** The globals of mm.c, the headers by address, the bytes of memory, and the
    process table. *)
Record mst := mk_mst {
  KernelHeap : region_d;
  KernelStack : region_d;
  kernel_heap_start : Z;
  kernel_heap_end : Z;
  kernel_stack_start : Z;
  kernel_stack_end : Z;
  g_heap_pointer : Z;
  g_available_heap : Z;
  heapCount : Z;
  heapList : list Z;
  mmblockCount : Z;
  mmblockList : list Z;
  mm_prev_pointer : Z;
  blocks : gmap Z mmblock_d;
  mem : memory;
  mptab : ptab
}.

#[export] Instance mst_eta : Eta mst := fun r =>
  mk_mst (KernelHeap r) (KernelStack r) (kernel_heap_start r) (kernel_heap_end r)
    (kernel_stack_start r) (kernel_stack_end r) (g_heap_pointer r) (g_available_heap r)
    (heapCount r) (heapList r) (mmblockCount r) (mmblockList r) (mm_prev_pointer r)
    (blocks r) (mem r) (mptab r).
#[export] Instance set_KernelHeap : Setter KernelHeap. Proof. solve_setter. Defined.
#[export] Instance set_KernelStack : Setter KernelStack. Proof. solve_setter. Defined.
#[export] Instance set_kernel_heap_start : Setter kernel_heap_start. Proof. solve_setter. Defined.
#[export] Instance set_kernel_heap_end : Setter kernel_heap_end. Proof. solve_setter. Defined.
#[export] Instance set_kernel_stack_start : Setter kernel_stack_start. Proof. solve_setter. Defined.
#[export] Instance set_kernel_stack_end : Setter kernel_stack_end. Proof. solve_setter. Defined.
#[export] Instance set_g_heap_pointer : Setter g_heap_pointer. Proof. solve_setter. Defined.
#[export] Instance set_g_available_heap : Setter g_available_heap. Proof. solve_setter. Defined.
#[export] Instance set_heapCount : Setter heapCount. Proof. solve_setter. Defined.
#[export] Instance set_heapList : Setter heapList. Proof. solve_setter. Defined.
#[export] Instance set_mmblockCount : Setter mmblockCount. Proof. solve_setter. Defined.
#[export] Instance set_mmblockList : Setter mmblockList. Proof. solve_setter. Defined.
#[export] Instance set_mm_prev_pointer : Setter mm_prev_pointer. Proof. solve_setter. Defined.
#[export] Instance set_blocks : Setter blocks. Proof. solve_setter. Defined.
#[export] Instance set_mem : Setter mem. Proof. solve_setter. Defined.
#[export] Instance set_mptab : Setter mptab. Proof. solve_setter. Defined.

(** ** mm.c: initialization *)

Definition heap_globals (s : mst) : mst :=
  s <| kernel_heap_start := KERNEL_HEAP_START |> <| kernel_heap_end := KERNEL_HEAP_END |>
    <| KernelHeap := mk_region FALSE KERNEL_HEAP_START KERNEL_HEAP_END |>
    <| g_heap_pointer := KERNEL_HEAP_START |>
    <| g_available_heap := u64 (KERNEL_HEAP_END - KERNEL_HEAP_START) |>
    <| heapCount := 0 |>.

Definition heap_flag (v : Z) (s : mst) : mst :=
  s <| KernelHeap := mk_region v (r_start (KernelHeap s)) (r_end (KernelHeap s)) |>.

Definition __init_kernel_heap : M mst Z :=
  modify (heap_flag FALSE);;
  modify heap_globals;;
  s ← gets id;
  if (g_heap_pointer s =? 0) || (kernel_heap_end s <? g_heap_pointer s) ||
     (kernel_heap_start s =? 0) || (kernel_heap_end s =? 0) || (g_available_heap s =? 0)
  then modify (heap_flag FALSE);; mret (-1)
  else
    for_each (range 0 HEAP_COUNT_MAX) (fun i =>
      modify (fun s => s <| heapList := zinsert (heapList s) i 0 |>));;
    modify (heap_flag TRUE);;
    mret 0.

Definition stack_flag (v : Z) (s : mst) : mst :=
  s <| KernelStack := mk_region v (r_start (KernelStack s)) (r_end (KernelStack s)) |>.

Definition __init_kernel_stack : M mst Z :=
  modify (stack_flag FALSE);;
  modify (fun s => s <| kernel_stack_end := KERNEL_STACK_END |>
    <| kernel_stack_start := KERNEL_STACK_START |>
    <| KernelStack := mk_region FALSE KERNEL_STACK_START KERNEL_STACK_END |>);;
  s ← gets id;
  if (kernel_stack_end s =? 0) || (kernel_stack_start s =? 0)
  then modify (stack_flag FALSE);; mret (-1)
  else modify (stack_flag TRUE);; mret 0.

(** mmInitialize(0), without the video and memory-size calls, which do not touch
    this state. *)
Definition mmInitialize : M mst Z :=
  r ← __init_kernel_heap;
  if negb (r =? 0) then mret FALSE else
  r ← __init_kernel_stack;
  if negb (r =? 0) then mret FALSE else
  for_each (range 0 MMBLOCK_COUNT_MAX) (fun i =>
    modify (fun s => s <| mmblockList := zinsert (mmblockList s) i 0 |>));;
  modify (fun s => s <| mmblockCount := 0 |>);;
  mret TRUE.

(** ** mm.c: blocks *)

Definition deref_block (a : Z) : M mst mmblock_d := getsome (fun s => blocks s !! a).

(** The block of [size] bytes whose header is at [hp], the n-th one. *)
Definition new_block (hp size n : Z) : mmblock_d :=
  let area := u64 (hp + MMBLOCK_SIZE) in
  mk_mmblock hp MMBLOCK_SIZE area size (u64 (area + size)) n TRUE 1234 FALSE.

(** Only the size of the user area is compared with the available space; the
    header is charged afterwards. *)
Definition heapAllocateMemory (size : Z) : M mst Z :=
  let UserAreaInBytes := if size =? 0 then 8 else size in
  av ← gets g_available_heap;
  if av =? 0 then mret 0 else
  if av <=? UserAreaInBytes then mret 0 else
  modify (fun s => s <| mmblockCount := i32 (mmblockCount s + 1) |>);;
  n ← gets mmblockCount;
  if MMBLOCK_COUNT_MAX <=? n then panic "heapAllocateMemory: mmblockCount" else
  hp ← gets g_heap_pointer;
  if (hp <? KERNEL_HEAP_START) || (KERNEL_HEAP_END <=? hp)
  then panic "heapAllocateMemory: Out of kernel heap" else
  if hp =? NULL then mret 0 else
  let b := new_block hp UserAreaInBytes n in
  modify (fun s => s <| blocks := <[hp := b]> (blocks s) |>);;
  let Total := u64 (Footer b - Header b) in
  modify (fun s => s <| g_available_heap := u64 (g_available_heap s - Total) |>
    <| mm_prev_pointer := g_heap_pointer s |> <| g_heap_pointer := Footer b |>);;
  modify (fun s => s <| mmblockList := zinsert (mmblockList s) n hp |>);;
  mret (userArea b).

(** The block is marked as reusable; nothing reuses it. *)
Definition heapFreeMemory (ptr : Z) : M mst unit :=
  if ptr =? NULL then mret tt else
  if (ptr <? KERNEL_HEAP_START) || (KERNEL_HEAP_END <=? ptr) then mret tt else
  let block_header := u64 (ptr - MMBLOCK_SIZE) in
  if block_header =? NULL then mret tt else
  b ← deref_block block_header;
  if negb (Used b =? TRUE) || negb (Magic b =? 1234) then mret tt else
  modify (fun s => s <| blocks :=
    <[block_header := b <| Used := TRUE |> <| Magic := 4321 |>]> (blocks s) |>).

(** ** kstdlib.c *)

Definition abs (j : Z) : Z := if j <? 0 then i32 (- j) else j.

Definition __kmalloc_impl (size clean : Z) : M mst Z :=
  let ul_size := Z.land size 4294967295 in
  ptr ← heapAllocateMemory ul_size;
  (if (clean =? TRUE) && negb (ptr =? NULL)
   then modify (fun s => s <| mem := fill ptr size 0 (mem s) |>) else mret tt);;
  mret ptr.

Definition on_mptab {A} (m : M ptab A) : M mst A := fun s =>
  match m (mptab s) with
  | Done a p => Done a (s <| mptab := p |>)
  | Panic msg => Panic msg
  | Undef => Undef
  | Leave p => Leave (s <| mptab := p |>)
  | OutOfFuel => OutOfFuel
  end.

(** The magic number of the current process is read even when there is none. *)
Definition kmalloc (size : Z) : M mst Z :=
  process ← on_mptab get_current_process_pointer;
  p ← on_mptab (deref_process process);
  let IncrementUsageCounter := negb (process =? NULL) && (p_magic p =? 1234) in
  if size <? 0 then mret NULL else
  let _lsize := if size =? 0 then 1 else size in
  ptr ← __kmalloc_impl _lsize FALSE;
  if ptr =? NULL then mret NULL else
  (if IncrementUsageCounter && negb (process =? NULL) && (p_magic p =? 1234)
   then on_mptab (update_process process (fun p =>
     p <| p_allocated_memory := u64 (p_allocated_memory p + _lsize) |>))
   else mret tt);;
  mret ptr.

Definition kfree (ptr : Z) : M mst unit :=
  if ptr =? NULL then mret tt else heapFreeMemory ptr.

Definition kcalloc (count size : Z) : M mst Z :=
  let new_size := if count <=? 0 then size else i32 (count * size) in
  __kmalloc_impl new_size TRUE.

(** ** Specification *)

(** The bytes that a request really takes. *)
Definition area_size (size : Z) : Z := if size =? 0 then 8 else size.

(** [l], the headers in order, tile the heap from [a] to [e]. *)
Fixpoint tiled (m : gmap Z mmblock_d) (a : Z) (l : list Z) (e : Z) : Prop :=
  match l with
  | [] => a = e
  | h :: l' => h = a /\ exists b, m !! h = Some b /\ Header b = h /\
      userArea b = h + MMBLOCK_SIZE /\ 0 < userareaSize b /\ Used b = TRUE /\
      Footer b = userArea b + userareaSize b /\ tiled m (Footer b) l' e
  end.

Record wf_heap (s : mst) (l : list Z) : Prop := {
  wh_pointer : KERNEL_HEAP_START <= g_heap_pointer s <= KERNEL_HEAP_END;
  wh_available : g_available_heap s = KERNEL_HEAP_END - g_heap_pointer s;
  wh_count : mmblockCount s = Z.of_nat (length l);
  wh_tiled : tiled (blocks s) KERNEL_HEAP_START l (g_heap_pointer s);
  wh_blocks : forall a b, blocks s !! a = Some b -> a ∈ l
}.

(** A script of the clients of the heap: allocate, or free the k-th area that
    was allocated; the areas that were allocated, as (address, size). *)
Inductive heap_op := HAlloc (size : Z) | HFree (k : nat).

Fixpoint run_heap (ops : list heap_op) (acc : list (Z * Z)) : M mst (list (Z * Z)) :=
  match ops with
  | [] => mret acc
  | HAlloc size :: ops' =>
      p ← heapAllocateMemory size;
      run_heap ops' (acc ++ [(p, area_size size)])
  | HFree k :: ops' =>
      kfree (default NULL (fst <$> acc !! k));;
      run_heap ops' acc
  end.

(** The space and the number of blocks that a script takes. *)
Fixpoint heap_space (ops : list heap_op) : Z :=
  match ops with
  | [] => 0
  | HAlloc size :: ops' => area_size size + MMBLOCK_SIZE + heap_space ops'
  | HFree _ :: ops' => heap_space ops'
  end.

Fixpoint heap_blocks (ops : list heap_op) : Z :=
  match ops with
  | [] => 0
  | HAlloc _ :: ops' => 1 + heap_blocks ops'
  | HFree _ :: ops' => heap_blocks ops'
  end.

Definition sizes_ok (ops : list heap_op) : Prop :=
  Forall (fun op => match op with HAlloc size => 0 <= size < 2 ^ 32 | _ => True end) ops.

(** Every area ends before the header of the next one. *)
Fixpoint separated (areas : list (Z * Z)) : Prop :=
  match areas with
  | [] => True
  | a :: areas' => (forall b, b ∈ areas' -> a.1 + a.2 + MMBLOCK_SIZE <= b.1) /\ separated areas'
  end.

(** ** Lemmas *)

#[local] Ltac heap_consts :=
  unfold KERNEL_HEAP_START, KERNEL_HEAP_END, MMBLOCK_SIZE, MMBLOCK_COUNT_MAX in *.

Lemma area_size_pos size : 0 <= size -> 0 < area_size size.
Proof. unfold area_size. intros. case_match eqn:E; [lia|]. apply Z.eqb_neq in E. lia. Qed.

Lemma tiled_bounds m a l e : tiled m a l e -> a <= e.
Proof.
  revert a. induction l as [|h l IH]; cbn; intros a; [lia|].
  intros (-> & b & _ & _ & Ha & Hs & _ & Hf & Ht%IH). heap_consts. lia.
Qed.

Lemma tiled_elem m a l e h : tiled m a l e -> h ∈ l ->
  exists b, m !! h = Some b /\ Header b = h /\ Used b = TRUE /\ a <= h /\ h < e.
Proof.
  revert a. induction l as [|k l IH]; cbn; intros a; [by intros _ ?%not_elem_of_nil|].
  intros (-> & b & Hb & Hh & Ha & Hs & Hu & Hf & Ht) [->|Hin]%elem_of_cons.
  - exists b. apply tiled_bounds in Ht. heap_consts. split_and!; try done; lia.
  - destruct (IH _ Ht Hin) as (c & Hc & Hch & Hcu & Hc1 & Hc2).
    exists c. heap_consts. split_and!; try done; lia.
Qed.

(** Updating the marks of a block does not change the tiling. *)
Lemma tiled_update m a l e h b b' :
  tiled m a l e -> m !! h = Some b ->
  Header b' = Header b -> userArea b' = userArea b -> userareaSize b' = userareaSize b ->
  Footer b' = Footer b -> Used b' = TRUE -> tiled (<[h := b']> m) a l e.
Proof.
  intros Ht Hb H1 H2 H3 H4 H5. revert a Ht. induction l as [|k l IH]; cbn; intros a; [done|].
  intros (-> & c & Hc & Hh & Ha & Hs & Hu & Hf & Ht). split; [done|].
  destruct (decide (h = a)) as [->|Hne].
  - exists b'. rewrite lookup_insert_eq. assert (c = b) as -> by congruence.
    rewrite H1, H2, H3, H4. split_and!; try done. by apply IH.
  - exists c. rewrite lookup_insert_ne by done. split_and!; try done. by apply IH.
Qed.

Lemma tiled_snoc m a l e b :
  tiled m a l e -> (forall h, h ∈ l -> h <> e) ->
  Header b = e -> userArea b = e + MMBLOCK_SIZE -> 0 < userareaSize b -> Used b = TRUE ->
  Footer b = userArea b + userareaSize b ->
  tiled (<[e := b]> m) a (l ++ [e]) (Footer b).
Proof.
  intros Ht Hne H1 H2 H3 H4 H5. revert a Ht. induction l as [|k l IH]; cbn; intros a.
  - intros ->. split; [done|]. exists b. rewrite lookup_insert_eq. by split_and!.
  - intros (-> & c & Hc & Hh & Ha & Hs & Hu & Hf & Ht). split; [done|]. exists c.
    rewrite lookup_insert_ne by (apply not_eq_sym, Hne; left).
    split_and!; try done. apply IH; [|done]. intros h Hin. apply Hne. by right.
Qed.

Lemma area_size_id size : 0 < size -> area_size size = size.
Proof. intros. unfold area_size. by zguard. Qed.

Lemma alloc_refused s size :
  0 < size -> g_available_heap s <= size -> heapAllocateMemory size s = Done 0 s.
Proof.
  intros Hs Hav. unfold heapAllocateMemory. rewrite bind_gets. zguard.
  destruct (g_available_heap s =? 0); [done|]. by zguard.
Qed.

(** An allocation that fits. *)
Lemma alloc_fits s l size :
  wf_heap s l -> 0 <= size < 2 ^ 32 ->
  area_size size + MMBLOCK_SIZE <= g_available_heap s ->
  Z.of_nat (length l) + 1 < MMBLOCK_COUNT_MAX ->
  exists s', heapAllocateMemory size s = Done (g_heap_pointer s + MMBLOCK_SIZE) s' /\
    wf_heap s' (l ++ [g_heap_pointer s]) /\
    g_available_heap s' = g_available_heap s - (area_size size + MMBLOCK_SIZE) /\
    blocks s' = <[g_heap_pointer s :=
      new_block (g_heap_pointer s) (area_size size) (Z.of_nat (length l) + 1)]> (blocks s) /\
    mem s' = mem s /\ mptab s' = mptab s.
Proof.
  intros [Hp Hav Hc Ht Hb] Hsz Hfit Hn. pose proof (area_size_pos size) as Hpos.
  unfold heapAllocateMemory. fold (area_size size). heap_consts. cbv zeta.
  rewrite bind_gets. zguard. rewrite bind_modify. cbn beta. rewrite bind_gets.
  cbn [mmblockCount set_field set_mmblockCount].
  assert (Hi : i32 (mmblockCount s + 1) = Z.of_nat (length l) + 1) by (rewrite Hc; apply i32_id; lia).
  rewrite Hi. zguard. rewrite bind_gets. cbn [g_heap_pointer set_field set_mmblockCount]. zguard.
  unfold NULL. zguard. do 3 rewrite bind_modify. cbn.
  unfold MMBLOCK_SIZE. rewrite (u64_id (g_heap_pointer s + 72)) by lia.
  rewrite (u64_id (g_heap_pointer s + 72 + area_size size)) by lia.
  rewrite (u64_id (_ - g_heap_pointer s)) by lia. rewrite u64_id by lia.
  eexists. split; [reflexivity|]. split; [|split; [cbn; lia|done]].
  split; cbn; heap_consts; try lia.
  - rewrite length_app. cbn. lia.
  - replace (g_heap_pointer s + 72 + area_size size) with
      (Footer (new_block (g_heap_pointer s) (area_size size) (Z.of_nat (length l) + 1))).
    2: { unfold new_block. heap_consts. cbn. rewrite (u64_id (g_heap_pointer s + 72)) by lia.
         rewrite u64_id by lia. done. }
    apply tiled_snoc; try done.
    + intros h Hin. destruct (tiled_elem _ _ _ _ h Ht Hin) as (b & _ & _ & _ & _ & Hlt). lia.
    + unfold new_block. heap_consts. cbn. by rewrite u64_id by lia.
    + unfold new_block. cbn. lia.
    + unfold new_block. heap_consts. cbn. rewrite (u64_id (g_heap_pointer s + 72)) by lia.
      by rewrite u64_id by lia.
  - intros a b Hab. apply elem_of_app. destruct (decide (a = g_heap_pointer s)) as [->|Hne].
    + right. by left.
    + left. rewrite lookup_insert_ne in Hab by done. by eapply Hb.
Qed.

(** A release: it changes at most the mark of one block. *)
Lemma kfree_keeps s l p :
  wf_heap s l -> p = NULL \/ (exists h, h ∈ l /\ p = h + MMBLOCK_SIZE) ->
  exists s', kfree p s = Done tt s' /\ wf_heap s' l /\
    g_heap_pointer s' = g_heap_pointer s /\ g_available_heap s' = g_available_heap s /\
    mmblockCount s' = mmblockCount s.
Proof.
  intros Hw Hp. pose proof Hw as [Hptr Hav Hc Ht Hbl]. unfold kfree.
  destruct (Z.eqb_spec p NULL) as [->|Hn]; [by exists s|].
  destruct Hp as [|(h & Hin & ->)]; [done|].
  destruct (tiled_elem _ _ _ _ h Ht Hin) as (b & Hb & Hh & Hu & H1 & H2).
  unfold heapFreeMemory, deref_block. heap_consts. zguard. unfold NULL in *. zguard.
  destruct (807206912 <=? h + 72); [by exists s|].
  rewrite u64_id by lia. replace (h + 72 - 72) with h by lia. zguard.
  rewrite (bind_getsome _ _ _ b) by done.
  destruct (negb (Used b =? TRUE) || negb (Magic b =? 1234)); [by exists s|].
  eexists. split; [reflexivity|]. split; [|done]. split; cbn; try done.
  - by apply (tiled_update _ _ _ _ _ b).
  - intros a c Hac. destruct (decide (h = a)) as [->|]; [done|].
    rewrite lookup_insert_ne in Hac by done. by eapply Hbl.
Qed.

(** The areas of a script: the k-th one starts after the header of the k-th
    block, and what comes later starts after what comes before. *)
Lemma separated_snoc areas a :
  separated areas -> (forall b, b ∈ areas -> b.1 + b.2 + MMBLOCK_SIZE <= a.1) ->
  separated (areas ++ [a]).
Proof.
  induction areas as [|c areas IH]; cbn.
  { intros _ _. split; [|done]. by intros b ?%not_elem_of_nil. }
  intros [Hc Hs] Ha. split.
  - intros b [Hb|Hb]%elem_of_app; [by apply Hc|].
    apply list_elem_of_singleton in Hb as ->. apply Ha. left.
  - apply IH; [done|]. intros b Hb. apply Ha. by right.
Qed.

(** The invariant of a script: every area allocated so far has its block, and
    lies below the heap pointer. *)
Definition script_inv (s : mst) (l : list Z) (acc : list (Z * Z)) : Prop :=
  wf_heap s l /\ separated acc /\
  forall a, a ∈ acc -> (exists h, h ∈ l /\ a.1 = h + MMBLOCK_SIZE) /\
    KERNEL_HEAP_START + MMBLOCK_SIZE <= a.1 /\ a.1 + a.2 <= g_heap_pointer s /\ 0 < a.2.

Lemma heap_space_nonneg ops : sizes_ok ops -> 0 <= heap_space ops.
Proof.
  induction ops as [|[size|k] ops IH]; cbn; intros H; [done| |];
    apply Forall_cons in H as [H Hs]; specialize (IH Hs); [|done].
  pose proof (area_size_pos size). heap_consts. lia.
Qed.

Lemma heap_blocks_nonneg ops : 0 <= heap_blocks ops.
Proof. induction ops as [|[|] ops IH]; cbn; lia. Qed.

Lemma run_heap_inv ops s l acc :
  script_inv s l acc -> sizes_ok ops ->
  heap_space ops <= g_available_heap s ->
  Z.of_nat (length l) + heap_blocks ops < MMBLOCK_COUNT_MAX ->
  exists s' l' acc', run_heap ops acc s = Done acc' s' /\ script_inv s' l' acc' /\
    length acc' = (length acc + Z.to_nat (heap_blocks ops))%nat.
Proof.
  revert s l acc. induction ops as [|op ops IH]; intros s l acc Hinv Hok Hsp Hbl.
  { exists s, l, acc. cbn. split; [done|]. split; [done|]. lia. }
  apply Forall_cons in Hok as [Hop Hok]. pose proof (heap_space_nonneg ops Hok).
  pose proof (heap_blocks_nonneg ops). pose proof Hinv as (Hw & Hsep & Hacc).
  destruct op as [size|k]; cbn [heap_space heap_blocks] in Hsp, Hbl.
  - pose proof (area_size_pos size (proj1 Hop)) as Hpos.
    destruct (alloc_fits s l size Hw Hop) as (s1 & Hs1 & Hw1 & Hav1 & _); [lia|lia|].
    assert (Hptr1 : g_heap_pointer s1 = g_heap_pointer s + MMBLOCK_SIZE + area_size size).
    { pose proof (wh_available _ _ Hw). pose proof (wh_available _ _ Hw1). lia. }
    destruct (IH s1 (l ++ [g_heap_pointer s]) (acc ++ [(g_heap_pointer s + MMBLOCK_SIZE, area_size size)]))
      as (s2 & l2 & acc2 & H2 & Hinv2 & Hlen2); [|done|lia|rewrite length_app; cbn; lia|].
    + split; [done|]. split.
      * apply separated_snoc; [done|]. intros b Hb. cbn. destruct (Hacc b Hb) as (_ & _ & Hle & _). lia.
      * pose proof (wh_pointer _ _ Hw). intros b [Hb|Hb]%elem_of_app.
        -- destruct (Hacc b Hb) as ((h & Hh & Hbh) & Hx1 & Hx2 & Hx3).
           split; [exists h; split; [apply elem_of_app; by left|done]|]. heap_consts. lia.
        -- apply list_elem_of_singleton in Hb as ->. cbn.
           split; [exists (g_heap_pointer s); split; [apply elem_of_app; right; by left|done]|].
           heap_consts. lia.
    + exists s2, l2, acc2. cbn [run_heap]. rewrite (bind_Done _ _ _ _ _ Hs1).
      split; [done|]. split; [done|]. rewrite Hlen2, length_app. cbn [length heap_blocks]. lia.
  - destruct (kfree_keeps s l (default NULL (fst <$> acc !! k)) Hw) as (s1 & Hs1 & Hw1 & Hp1 & Ha1 & Hc1).
    { destruct (acc !! k) as [a|] eqn:Ea; [right|by left].
      destruct (Hacc a) as ((h & Hh & Hbh) & _); [by eapply list_elem_of_lookup_2|]. by exists h. }
    destruct (IH s1 l acc) as (s2 & l2 & acc2 & H2 & Hinv2 & Hlen2); [|done|lia|lia|].
    + split; [done|]. split; [done|]. intros a Ha. rewrite Hp1. by apply Hacc.
    + exists s2, l2, acc2. cbn [run_heap]. by rewrite (bind_Done _ _ _ _ _ Hs1).
Qed.

(** ** Theorems *)

(** [C12] The areas that the heap gives never overlap: for every script of
    allocations and releases that fits in the available space and number of
    blocks, all the allocations succeed, and the areas they return lie inside
    the kernel heap, each one ending before the header of the next, whatever
    was released in between. *)
Theorem heap_areas_separated ops s l :
  wf_heap s l -> sizes_ok ops -> heap_space ops <= g_available_heap s ->
  Z.of_nat (length l) + heap_blocks ops < MMBLOCK_COUNT_MAX ->
  exists s' l' areas, run_heap ops [] s = Done areas s' /\ wf_heap s' l' /\
    length areas = Z.to_nat (heap_blocks ops) /\ separated areas /\
    forall a, a ∈ areas -> KERNEL_HEAP_START + MMBLOCK_SIZE <= a.1 /\
      a.1 + a.2 <= KERNEL_HEAP_END /\ 0 < a.2.
Proof.
  intros Hw Hok Hsp Hbl.
  destruct (run_heap_inv ops s l []) as (s' & l' & acc' & Hs & (Hw' & Hsep & Hacc) & Hlen); try done.
  { split; [done|]. split; [done|]. by intros a ?%not_elem_of_nil. }
  exists s', l', acc'. split_and!; try done. intros a Ha.
  destruct (Hacc a Ha) as (_ & H1 & H2 & H3). pose proof (wh_pointer _ _ Hw'). lia.
Qed.

(** The header is not counted when a request is checked: a request that
    fits without its header but not with it succeeds, its area ends past
    KERNEL_HEAP_END, the available space wraps around to nearly 2^64, and from
    then on every allocation that is not refused panics the kernel. *)
Theorem heap_overrun s l size :
  wf_heap s l -> 0 < size < 2 ^ 32 ->
  size < g_available_heap s < size + MMBLOCK_SIZE ->
  Z.of_nat (length l) + 2 < MMBLOCK_COUNT_MAX ->
  exists s', heapAllocateMemory size s = Done (g_heap_pointer s + MMBLOCK_SIZE) s' /\
    KERNEL_HEAP_END < g_heap_pointer s + MMBLOCK_SIZE + size /\
    2 ^ 63 < g_available_heap s' /\
    forall size', 0 <= size' < 2 ^ 32 -> exists msg, heapAllocateMemory size' s' = Panic msg.
Proof.
  intros [Hp Hav Hc Ht Hb] Hsz Hfit Hn.
  unfold heapAllocateMemory at 1. heap_consts. cbv zeta. unfold NULL. zguard.
  rewrite bind_gets. zguard. rewrite bind_modify. cbn beta. rewrite bind_gets.
  cbn [mmblockCount set_field set_mmblockCount].
  assert (Hi : i32 (mmblockCount s + 1) = Z.of_nat (length l) + 1) by (rewrite Hc; apply i32_id; lia).
  rewrite Hi. zguard. rewrite bind_gets. cbn [g_heap_pointer set_field set_mmblockCount]. zguard.
  do 3 rewrite bind_modify. cbn. unfold MMBLOCK_SIZE.
  rewrite (u64_id (g_heap_pointer s + 72)) by lia.
  rewrite (u64_id (g_heap_pointer s + 72 + size)) by lia.
  rewrite (u64_id (_ - g_heap_pointer s)) by lia. rewrite u64_below by lia.
  eexists. split; [reflexivity|]. split; [lia|]. split; [cbn; lia|].
  intros size' Hsz'. unfold heapAllocateMemory. heap_consts.
  assert (Ha : 0 <= (if size' =? 0 then 8 else size') < 2 ^ 32) by (case_match; lia).
  rewrite bind_gets. cbn [g_available_heap set_field set_mmblockList set_g_heap_pointer
    set_mm_prev_pointer set_g_available_heap]. zguard.
  rewrite bind_modify. cbn beta. rewrite bind_gets. cbn. rewrite i32_id by lia. zguard.
  rewrite bind_gets. cbn. zguard. by eexists.
Qed.

(** ** Release, initialization and the clients of kstdlib.c *)

(** What a release reads. *)
Lemma kfree_block s p b :
  KERNEL_HEAP_START + MMBLOCK_SIZE <= p < KERNEL_HEAP_END ->
  blocks s !! (p - MMBLOCK_SIZE) = Some b ->
  kfree p s =
    if negb (Used b =? TRUE) || negb (Magic b =? 1234) then Done tt s
    else Done tt (s <| blocks := <[p - MMBLOCK_SIZE := b <| Used := TRUE |> <| Magic := 4321 |>]> (blocks s) |>).
Proof.
  intros Hp Hb. unfold kfree, heapFreeMemory, deref_block. heap_consts. unfold NULL in *. zguard.
  rewrite u64_id by lia. zguard. rewrite (bind_getsome _ _ _ b) by done. by case_match.
Qed.

Lemma new_block_address hp size n :
  0 <= hp < 2 ^ 32 -> userArea (new_block hp size n) = hp + MMBLOCK_SIZE.
Proof. intros. unfold new_block. heap_consts. cbn. by rewrite u64_id by lia. Qed.

(** Memory that is released is never given again: between an allocation
    and the next one, releasing the first area only changes the mark of its
    block.  The next area lies past it as if nothing had been released, the
    available space is not given back, and releasing the same area once more
    changes nothing. *)
Theorem heap_never_reuses s l size size' :
  wf_heap s l -> 0 <= size < 2 ^ 32 -> 0 <= size' < 2 ^ 32 ->
  area_size size + area_size size' + 2 * MMBLOCK_SIZE <= g_available_heap s ->
  Z.of_nat (length l) + 2 < MMBLOCK_COUNT_MAX ->
  exists p s1 s2 s3,
    heapAllocateMemory size s = Done p s1 /\ kfree p s1 = Done tt s2 /\
    kfree p s2 = Done tt s2 /\ g_available_heap s2 = g_available_heap s1 /\
    (exists b, blocks s2 !! (p - MMBLOCK_SIZE) = Some b /\ Magic b = 4321) /\
    heapAllocateMemory size' s2 = Done (p + area_size size + MMBLOCK_SIZE) s3 /\
    g_available_heap s3 = g_available_heap s1 - (area_size size' + MMBLOCK_SIZE).
Proof.
  intros Hw Hs Hs' Hfit Hn. pose proof (area_size_pos size (proj1 Hs)).
  pose proof (area_size_pos size' (proj1 Hs')). pose proof (wh_pointer _ _ Hw).
  pose proof (wh_available _ _ Hw) as Hav.
  destruct (alloc_fits s l size Hw Hs) as (s1 & Hs1 & Hw1 & Hav1 & Hb1 & _); [heap_consts; lia..|].
  set (h := g_heap_pointer s) in *. set (b := new_block h (area_size size) (Z.of_nat (length l) + 1)) in *.
  pose proof (wh_available _ _ Hw1) as Hav1'.
  assert (Hr : KERNEL_HEAP_START + MMBLOCK_SIZE <= h + MMBLOCK_SIZE < KERNEL_HEAP_END)
    by (heap_consts; lia).
  assert (Hbl : blocks s1 !! (h + MMBLOCK_SIZE - MMBLOCK_SIZE) = Some b)
    by (rewrite Hb1, Z.add_simpl_r; apply lookup_insert_eq).
  pose proof (kfree_block s1 (h + MMBLOCK_SIZE) b Hr Hbl) as Hf. cbn in Hf.
  destruct (kfree_keeps s1 _ (h + MMBLOCK_SIZE) Hw1) as (s2 & Hs2 & Hw2 & Hp2 & Ha2 & _).
  { right. exists h. split; [apply elem_of_app; right; by left|done]. }
  assert (Hb2 : blocks s2 !! (h + MMBLOCK_SIZE - MMBLOCK_SIZE)
    = Some (b <| Used := TRUE |> <| Magic := 4321 |>)).
  { rewrite Hs2 in Hf. injection Hf as ->. cbn. apply lookup_insert_eq. }
  destruct (alloc_fits s2 _ size' Hw2 Hs') as (s3 & Hs3 & _ & Hav3 & _);
    [rewrite Ha2; lia|rewrite length_app; cbn; lia|].
  exists (h + MMBLOCK_SIZE), s1, s2, s3. split; [done|]. split; [done|]. split.
  { by rewrite (kfree_block s2 _ _ Hr Hb2). }
  split; [done|]. split; [by eexists|]. split; [|lia]. rewrite Hs3. f_equal. lia.
Qed.

(** The errors of an allocation.  A request that is not smaller than the
    available space returns 0 and changes nothing.  The heap gives at most
    MMBLOCK_COUNT_MAX - 1 blocks in the life of the system: the next request
    that is not refused panics the kernel, however much space is available and
    however many blocks were released. *)
Theorem heap_alloc_errors s size :
  0 <= size < 2 ^ 32 ->
  (g_available_heap s <= area_size size -> heapAllocateMemory size s = Done 0 s) /\
  (area_size size < g_available_heap s -> mmblockCount s = MMBLOCK_COUNT_MAX - 1 ->
   exists msg, heapAllocateMemory size s = Panic msg).
Proof.
  intros Hs. pose proof (area_size_pos size (proj1 Hs)).
  unfold heapAllocateMemory. fold (area_size size). cbv zeta. rewrite bind_gets. split.
  - intros Hav. destruct (g_available_heap s =? 0); [done|]. by zguard.
  - intros Hav Hc. zguard. rewrite bind_modify. cbn beta. rewrite bind_gets.
    cbn [mmblockCount set_field set_mmblockCount].
    rewrite Hc. heap_consts. rewrite i32_id by lia. zguard. by eexists.
Qed.

(** The two fields that the loops of the initialization write. *)
Definition set_lists (h m : list Z) (s : mst) : mst := s <| heapList := h |> <| mmblockList := m |>.

Lemma heapList_loop s :
  for_each (range 0 HEAP_COUNT_MAX) (fun i =>
    modify (fun s => s <| heapList := zinsert (heapList s) i 0 |>)) s =
  Done tt (set_lists (fold_left (fun h i => zinsert h i 0) (range 0 HEAP_COUNT_MAX) (heapList s))
    (mmblockList s) s).
Proof.
  generalize (range 0 HEAP_COUNT_MAX). intros l. revert s. induction l as [|i l IH]; intros s; cbn.
  - by destruct s.
  - rewrite bind_modify, IH. by destruct s.
Qed.

Lemma mmblockList_loop s :
  for_each (range 0 MMBLOCK_COUNT_MAX) (fun i =>
    modify (fun s => s <| mmblockList := zinsert (mmblockList s) i 0 |>)) s =
  Done tt (set_lists (heapList s)
    (fold_left (fun h i => zinsert h i 0) (range 0 MMBLOCK_COUNT_MAX) (mmblockList s)) s).
Proof.
  generalize (range 0 MMBLOCK_COUNT_MAX). intros l. revert s. induction l as [|i l IH]; intros s; cbn.
  - by destruct s.
  - rewrite bind_modify, IH. by destruct s.
Qed.

(** Clearing all the slots of an array. *)
Lemma clear_loop n (l : list Z) :
  (n <= length l)%nat ->
  fold_left (fun h i => zinsert h i 0) (range 0 (Z.of_nat n)) l = replicate n 0 ++ drop n l.
Proof.
  induction n as [|n IH]; intros Hn; [done|].
  rewrite Nat2Z.inj_succ, <- Z.add_1_r, range_snoc, fold_left_app, IH by lia. cbn [fold_left].
  unfold zinsert. destruct (Z.ltb_spec (Z.of_nat n) 0); [lia|]. rewrite Nat2Z.id.
  rewrite replicate_S_end, <- app_assoc. cbn [app].
  destruct (lookup_lt_is_Some_2 l n) as [x Hx]; [lia|]. rewrite (drop_S l x n Hx).
  rewrite insert_app_r_alt by (rewrite length_replicate; lia).
  by rewrite length_replicate, Nat.sub_diag.
Qed.

(** What the initialization leaves. *)
Definition booted (s : mst) : mst :=
  mk_mst (mk_region TRUE KERNEL_HEAP_START KERNEL_HEAP_END)
    (mk_region TRUE KERNEL_STACK_START KERNEL_STACK_END)
    KERNEL_HEAP_START KERNEL_HEAP_END KERNEL_STACK_START KERNEL_STACK_END
    KERNEL_HEAP_START (KERNEL_HEAP_END - KERNEL_HEAP_START) 0
    (replicate (Z.to_nat HEAP_COUNT_MAX) 0) 0 (replicate (Z.to_nat MMBLOCK_COUNT_MAX) 0)
    (mm_prev_pointer s) (blocks s) (mem s) (mptab s).

Lemma clear_array n (l : list Z) :
  0 <= n -> length l = Z.to_nat n ->
  fold_left (fun h i => zinsert h i 0) (range 0 n) l = replicate (Z.to_nat n) 0.
Proof.
  intros Hn Hl. rewrite <- (Z2Nat.id n) at 1 by done.
  by rewrite clear_loop, drop_ge, app_nil_r by lia.
Qed.

Lemma init_heap_eq s :
  length (heapList s) = Z.to_nat HEAP_COUNT_MAX ->
  __init_kernel_heap s = Done 0 (heap_flag TRUE (set_lists (replicate (Z.to_nat HEAP_COUNT_MAX) 0)
    (mmblockList s) (heap_globals (heap_flag FALSE s)))).
Proof.
  intros Hh. unfold __init_kernel_heap. rewrite !bind_modify. cbn beta. rewrite bind_gets.
  cbn [id heap_globals]. case_match eqn:E; [by vm_compute in E|].
  rewrite (bind_Done _ _ _ _ _ (heapList_loop _)). rewrite bind_modify.
  by rewrite clear_array by done.
Qed.

Definition stacked (s : mst) : mst :=
  s <| kernel_stack_end := KERNEL_STACK_END |> <| kernel_stack_start := KERNEL_STACK_START |>
    <| KernelStack := mk_region TRUE KERNEL_STACK_START KERNEL_STACK_END |>.

Lemma init_stack_eq s : __init_kernel_stack s = Done 0 (stacked s).
Proof. by destruct s. Qed.

(** [C25] The boot of the memory manager from any state whose arrays have their
    declared lengths: it succeeds, every slot of the lists is empty, the heap
    holds no block, and every script of allocations and releases that fits
    then runs without an error, giving as many separated areas as it has
    allocations. *)
Theorem heap_boot s ops :
  length (heapList s) = Z.to_nat HEAP_COUNT_MAX ->
  length (mmblockList s) = Z.to_nat MMBLOCK_COUNT_MAX -> blocks s = ∅ ->
  sizes_ok ops -> heap_space ops <= KERNEL_HEAP_END - KERNEL_HEAP_START ->
  heap_blocks ops < MMBLOCK_COUNT_MAX ->
  mmInitialize s = Done TRUE (booted s) /\ wf_heap (booted s) [] /\
  exists s' areas, run_heap ops [] (booted s) = Done areas s' /\
    length areas = Z.to_nat (heap_blocks ops) /\ separated areas.
Proof.
  intros Hh Hm Hb Hok Hsp Hn.
  assert (Hw : wf_heap (booted s) []).
  { split; try done. intros a b. cbn. by rewrite Hb, lookup_empty. }
  split; [|split; [done|]].
  - unfold mmInitialize. rewrite (bind_Done _ _ _ _ _ (init_heap_eq _ Hh)). cbn [negb Z.eqb].
    rewrite (bind_Done _ _ _ _ _ (init_stack_eq _)). cbn [negb Z.eqb].
    rewrite (bind_Done _ _ _ _ _ (mmblockList_loop _)).
    rewrite clear_array by done. by destruct s.
  - destruct (run_heap_inv ops (booted s) [] []) as (s' & l' & acc & Hs & (_ & Hsep & _) & Hlen); try done.
    { split; [done|]. split; [done|]. by intros a ?%not_elem_of_nil. }
    by exists s', acc.
Qed.

Lemma land_u32 size : 0 <= size < 2 ^ 32 -> Z.land size 4294967295 = size.
Proof.
  intros. change 4294967295 with (Z.ones 32). rewrite Z.land_ones by lia. by apply Z.mod_small.
Qed.

Lemma kmalloc_impl_fits s l size clean :
  wf_heap s l -> 0 <= size < 2 ^ 31 ->
  area_size size + MMBLOCK_SIZE <= g_available_heap s ->
  Z.of_nat (length l) + 1 < MMBLOCK_COUNT_MAX ->
  exists s', __kmalloc_impl size clean s = Done (g_heap_pointer s + MMBLOCK_SIZE) s' /\
    wf_heap s' (l ++ [g_heap_pointer s]) /\ mptab s' = mptab s /\
    mem s' = (if clean =? TRUE then fill (g_heap_pointer s + MMBLOCK_SIZE) size 0 (mem s) else mem s) /\
    g_heap_pointer s' = g_heap_pointer s + MMBLOCK_SIZE + area_size size.
Proof.
  intros Hw Hs Hfit Hn. unfold __kmalloc_impl. rewrite land_u32 by lia.
  pose proof (wh_pointer _ _ Hw).
  destruct (alloc_fits s l size Hw) as (s1 & Hs1 & Hw1 & Hav1 & _ & Hm & Hp); [lia|done|done|].
  pose proof (wh_available _ _ Hw). pose proof (wh_available _ _ Hw1).
  rewrite (bind_Done _ _ _ _ _ Hs1). unfold NULL. heap_consts. zguard. cbn [negb]. rewrite andb_true_r.
  case_match.
  - rewrite bind_modify. eexists. split; [reflexivity|]. cbn. split; [by destruct Hw1|].
    split; [done|]. split; [by rewrite Hm|lia].
  - exists s1. rewrite Hm. split_and!; try done. lia.
Qed.

Lemma on_mptab_read {A} (m : M ptab A) s a :
  m (mptab s) = Done a (mptab s) -> on_mptab m s = Done a s.
Proof. intros H. unfold on_mptab. rewrite H. by destruct s. Qed.

(** Reading the current process. *)
Lemma kmalloc_reads {B} (k : Z -> process_d -> M mst B) s p x :
  current_valid (mptab s) p x ->
  (process ← on_mptab get_current_process_pointer;
   y ← on_mptab (deref_process process); k process y) s = k p x s.
Proof.
  intros Hc. pose proof Hc as (_ & _ & _ & _ & Hx & _).
  rewrite (bind_Done _ _ _ _ _ (on_mptab_read _ _ _ (get_current_process_pointer_valid _ _ _ Hc))).
  by rewrite (bind_Done _ _ _ x s) by (apply on_mptab_read; unfold deref_process, getsome; by rewrite Hx).
Qed.

(** kmalloc of a request that fits. *)
Lemma kmalloc_fits s l size p x :
  wf_heap s l -> current_valid (mptab s) p x -> 0 <= size < 2 ^ 31 ->
  Z.max 1 size + MMBLOCK_SIZE <= g_available_heap s ->
  Z.of_nat (length l) + 1 < MMBLOCK_COUNT_MAX ->
  exists s', kmalloc size s = Done (g_heap_pointer s + MMBLOCK_SIZE) s' /\
    wf_heap s' (l ++ [g_heap_pointer s]) /\ mem s' = mem s /\
    g_heap_pointer s' = g_heap_pointer s + MMBLOCK_SIZE + Z.max 1 size /\
    mptab s' = (mptab s) <| procs := <[p := x <| p_allocated_memory :=
      u64 (p_allocated_memory x + Z.max 1 size) |>]> (procs (mptab s)) |>.
Proof.
  intros Hw Hc Hs Hav Hn. pose proof Hc as (_ & _ & _ & Hp & Hx & _ & Hm).
  assert (Hmax : (if size =? 0 then 1 else size) = Z.max 1 size)
    by (intros; destruct (Z.eqb_spec size 0); lia).
  apply Z.eqb_neq in Hp. unfold kmalloc. rewrite (kmalloc_reads _ _ _ _ Hc), Hm, Hp.
  cbn [negb andb Z.eqb Pos.eqb]. zguard. rewrite Hmax.
  destruct (kmalloc_impl_fits s l (Z.max 1 size) FALSE Hw) as (s1 & Hs1 & Hw1 & Hp1 & Hm1 & Hg1);
    [lia|by rewrite area_size_id by lia|done|].
  rewrite (bind_Done _ _ _ _ _ Hs1). pose proof (wh_pointer _ _ Hw). unfold NULL in *. heap_consts. zguard.
  rewrite (bind_Done _ _ _ tt (s1 <| mptab := (mptab s) <| procs := <[p := x <| p_allocated_memory :=
     u64 (p_allocated_memory x + Z.max 1 size) |>]> (procs (mptab s)) |> |>)).
  - eexists. split; [reflexivity|]. split; [by destruct Hw1|]. split; [done|]. split; [|done].
    cbn. rewrite Hg1, area_size_id by lia. done.
  - unfold on_mptab, update_process, deref_process. rewrite Hp1.
    by rewrite (bind_getsome _ _ _ x) by exact Hx.
Qed.

(** kmalloc for a system whose current process is valid: a negative size
    and a request that is not smaller than the available space return NULL and
    change nothing; a request that fits with its header returns a new area,
    keeps the heap well formed, does not touch the memory, and charges the
    process with the bytes requested, where 0 counts for 1. *)
Theorem kmalloc_spec s l size p x :
  wf_heap s l -> current_valid (mptab s) p x -> size < 2 ^ 31 ->
  (size < 0 -> kmalloc size s = Done NULL s) /\
  (0 <= size -> g_available_heap s <= Z.max 1 size -> kmalloc size s = Done NULL s) /\
  (0 <= size -> Z.max 1 size + MMBLOCK_SIZE <= g_available_heap s ->
   Z.of_nat (length l) + 1 < MMBLOCK_COUNT_MAX ->
   exists s', kmalloc size s = Done (g_heap_pointer s + MMBLOCK_SIZE) s' /\
     wf_heap s' (l ++ [g_heap_pointer s]) /\ mem s' = mem s /\
     mptab s' = (mptab s) <| procs := <[p := x <| p_allocated_memory :=
       u64 (p_allocated_memory x + Z.max 1 size) |>]> (procs (mptab s)) |>).
Proof.
  intros Hw Hc Hs. pose proof Hc as (_ & _ & _ & Hp & Hx & _ & Hm). split; [|split].
  - intros. apply Z.eqb_neq in Hp. unfold kmalloc. rewrite (kmalloc_reads _ _ _ _ Hc). by zguard.
  - intros H0 Hav. assert (Hmax : (if size =? 0 then 1 else size) = Z.max 1 size)
      by (destruct (Z.eqb_spec size 0); lia).
    unfold kmalloc. rewrite (kmalloc_reads _ _ _ _ Hc). zguard. rewrite Hmax.
    unfold __kmalloc_impl. rewrite land_u32 by lia.
    by rewrite bind_bind, (bind_Done _ _ _ _ _ (alloc_refused s (Z.max 1 size) ltac:(lia) Hav)).
  - intros H0 Hav Hn. destruct (kmalloc_fits s l size p x Hw Hc) as (s' & E & Hw' & Hmem & _ & Hp');
      [lia|done|done|]. by exists s'.
Qed.

(** kmalloc needs a current process: before the system runs, the process
    pointer is NULL and its magic number is read anyway. *)
Theorem kmalloc_needs_process s size :
  system_state (mptab s) <> SYSTEM_RUNNING -> procs (mptab s) !! NULL = None ->
  kmalloc size s = Undef.
Proof.
  intros Hst Hn. unfold kmalloc.
  rewrite (bind_Done _ _ _ _ _ (on_mptab_read _ _ _ (get_current_process_pointer_not_running _ Hst))).
  apply bind_Undef. unfold on_mptab, deref_process, getsome. by rewrite Hn.
Qed.

(** kcalloc: when [count * size] does not overflow, the area returned is
    zero and the rest of the memory is unchanged.  In general the area has the
    size of the 32-bit product, so a product that overflows gives an area
    smaller than the elements requested. *)
Theorem kcalloc_spec s l count size :
  wf_heap s l -> 0 < count -> 0 < size -> 0 <= i32 (count * size) ->
  area_size (i32 (count * size)) + MMBLOCK_SIZE <= g_available_heap s ->
  Z.of_nat (length l) + 1 < MMBLOCK_COUNT_MAX ->
  exists s' p, kcalloc count size s = Done p s' /\ p = g_heap_pointer s + MMBLOCK_SIZE /\
    wf_heap s' (l ++ [g_heap_pointer s]) /\
    (forall x, p <= x < p + i32 (count * size) -> mem s' x = 0) /\
    (forall x, x < p \/ p + i32 (count * size) <= x -> mem s' x = mem s x) /\
    (count * size < 2 ^ 31 -> i32 (count * size) = count * size) /\
    (2 ^ 31 <= count * size -> i32 (count * size) + 2 ^ 32 <= count * size).
Proof.
  intros Hw Hc Hs H0 Hfit Hn. unfold kcalloc. zguard.
  destruct (kmalloc_impl_fits s l (i32 (count * size)) TRUE Hw) as (s1 & Hs1 & Hw1 & Hp1 & Hm1 & _);
    [|done|done|].
  { split; [done|]. apply i32_range. }
  exists s1, (g_heap_pointer s + MMBLOCK_SIZE). rewrite Hm1. cbn [Z.eqb Pos.eqb TRUE].
  split; [done|]. split; [done|]. split; [done|]. split; [|split; [|split]].
  - apply fill_inside.
  - apply fill_outside.
  - intros. apply i32_id. lia.
  - intros. unfold i32. pose proof (Z.div_mod (count * size + 2 ^ 31) (2 ^ 32)).
    pose proof (Z.div_le_lower_bound (count * size + 2 ^ 31) (2 ^ 32) 1). lia.
Qed.

(** ** Witnesses *)

(** The state before the boot, the state after it, and a state whose single
    block leaves [room] bytes. *)
Definition sample_mst : mst :=
  mk_mst (mk_region 0 0 0) (mk_region 0 0 0) 0 0 0 0 0 0 0
    (replicate (Z.to_nat HEAP_COUNT_MAX) 7) 5 (replicate (Z.to_nat MMBLOCK_COUNT_MAX) 7)
    0 ∅ (fun x => x) sample_ptab.

Definition sample_nearly_full (room : Z) : mst :=
  let b := new_block KERNEL_HEAP_START (851968 - MMBLOCK_SIZE - room) 1 in
  (booted sample_mst) <| blocks := {[ KERNEL_HEAP_START := b ]} |> <| mmblockCount := 1 |>
    <| g_heap_pointer := Footer b |> <| g_available_heap := room |>.

Lemma sample_booted_wf : wf_heap (booted sample_mst) [].
Proof. split; try done. Qed.

Lemma sample_nearly_full_wf : wf_heap (sample_nearly_full 100) [KERNEL_HEAP_START].
Proof.
  split; try done.
  - cbn. split; [done|]. eexists. split; [apply lookup_insert_eq|]. by vm_compute.
  - intros a b. cbn. intros [<- _]%lookup_singleton_Some. by left.
Qed.

Lemma sample_current : current_valid sample_ptab 4096 (sample_process 0).
Proof. split_and!; try done. Qed.

Lemma heap_areas_separated_witness :
  exists s' l' areas, run_heap [HAlloc 100; HFree 0; HAlloc 0] [] (booted sample_mst) = Done areas s' /\
    wf_heap s' l' /\ length areas = 2%nat /\ separated areas /\
    forall a, a ∈ areas -> KERNEL_HEAP_START + MMBLOCK_SIZE <= a.1 /\
      a.1 + a.2 <= KERNEL_HEAP_END /\ 0 < a.2.
Proof.
  apply (heap_areas_separated [HAlloc 100; HFree 0; HAlloc 0] (booted sample_mst) []);
    [apply sample_booted_wf|repeat constructor; lia|vm_compute; done|vm_compute; done].
Defined.

Lemma heap_overrun_witness :
  let s := sample_nearly_full 100 in
  exists s', heapAllocateMemory 64 s = Done (g_heap_pointer s + MMBLOCK_SIZE) s' /\
    KERNEL_HEAP_END < g_heap_pointer s + MMBLOCK_SIZE + 64 /\
    2 ^ 63 < g_available_heap s' /\
    forall size', 0 <= size' < 2 ^ 32 -> exists msg, heapAllocateMemory size' s' = Panic msg.
Proof.
  apply (heap_overrun (sample_nearly_full 100) [KERNEL_HEAP_START] 64);
    [apply sample_nearly_full_wf|lia|vm_compute; done|vm_compute; done].
Defined.

Lemma heap_never_reuses_witness :
  exists p s1 s2 s3,
    heapAllocateMemory 40 (booted sample_mst) = Done p s1 /\ kfree p s1 = Done tt s2 /\
    kfree p s2 = Done tt s2 /\ g_available_heap s2 = g_available_heap s1 /\
    (exists b, blocks s2 !! (p - MMBLOCK_SIZE) = Some b /\ Magic b = 4321) /\
    heapAllocateMemory 24 s2 = Done (p + area_size 40 + MMBLOCK_SIZE) s3 /\
    g_available_heap s3 = g_available_heap s1 - (area_size 24 + MMBLOCK_SIZE).
Proof.
  apply (heap_never_reuses (booted sample_mst) [] 40 24);
    [apply sample_booted_wf|lia|lia|vm_compute; done|vm_compute; done].
Defined.

Lemma heap_alloc_errors_witness :
  heapAllocateMemory 100 (sample_nearly_full 100) = Done 0 (sample_nearly_full 100) /\
  exists msg, heapAllocateMemory 8 ((booted sample_mst) <| mmblockCount := 8191 |>) = Panic msg.
Proof.
  split.
  - apply heap_alloc_errors; [lia|vm_compute; done].
  - apply heap_alloc_errors; [lia|vm_compute; done|done].
Defined.

Lemma heap_boot_witness :
  mmInitialize sample_mst = Done TRUE (booted sample_mst) /\ wf_heap (booted sample_mst) [] /\
  exists s' areas, run_heap [HAlloc 16; HAlloc 16] [] (booted sample_mst) = Done areas s' /\
    length areas = 2%nat /\ separated areas.
Proof.
  apply (heap_boot sample_mst [HAlloc 16; HAlloc 16]);
    [vm_compute; done|vm_compute; done|done|repeat constructor; lia|vm_compute; done|vm_compute; done].
Defined.

Lemma kmalloc_spec_witness :
  let s := booted sample_mst in
  exists s', kmalloc 100 s = Done (g_heap_pointer s + MMBLOCK_SIZE) s' /\
    wf_heap s' ([] ++ [g_heap_pointer s]) /\ mem s' = mem s /\
    mptab s' = (mptab s) <| procs := <[4096 := (sample_process 0) <| p_allocated_memory :=
      u64 (p_allocated_memory (sample_process 0) + Z.max 1 100) |>]> (procs (mptab s)) |>.
Proof.
  refine (proj2 (proj2 (kmalloc_spec (booted sample_mst) [] 100 4096 (sample_process 0)
    sample_booted_wf sample_current _)) _ _ _); [lia|lia|vm_compute; done|vm_compute; done].
Defined.

Lemma kmalloc_needs_process_witness :
  kmalloc 8 (sample_mst <| mptab := sample_ptab <| system_state := SYSTEM_SCHEDULING |> |>) = Undef.
Proof. apply kmalloc_needs_process; [done|done]. Defined.

(** 65536 elements of 65537 bytes: the area has 65536 bytes. *)
Lemma kcalloc_spec_witness :
  let s := booted sample_mst in
  exists s' p, kcalloc 65536 65537 s = Done p s' /\ p = g_heap_pointer s + MMBLOCK_SIZE /\
    wf_heap s' ([] ++ [g_heap_pointer s]) /\
    (forall x, p <= x < p + 65536 -> mem s' x = 0) /\
    (forall x, x < p \/ p + 65536 <= x -> mem s' x = mem s x) /\
    (65536 * 65537 < 2 ^ 31 -> 65536 = 65536 * 65537) /\
    (2 ^ 31 <= 65536 * 65537 -> 65536 + 2 ^ 32 <= 65536 * 65537).
Proof.
  apply (kcalloc_spec (booted sample_mst) [] 65536 65537);
    [apply sample_booted_wf|lia|lia|vm_compute; done|vm_compute; done|vm_compute; done].
Defined.
