(* ===== verification/Files.v ===== *)
(** * Files: streams, their buffers and the stdio routines of the kernel

    struct file_d of [libk/kstdio.h], the two routines that move bytes between a
    user buffer and the buffer of a stream ([file_read_buffer] and
    [file_write_buffer] of [res/fs/fslib.c]), and the positioning, character and
    buffer routines of [libk/kstdio.c].  The state joins the state of the
    microkernel, the kernel heap with its memory, and the file structures. *)
From Stdlib Require Import ZArith Lia.
From stdpp Require Import base gmap list strings.
From S2P Require Import Config Prelude Strings Format Process KState Samples Threads Heap.

#[local] Open Scope Z_scope.
#[local] Open Scope gramado_scope.

(** ** Data *)

(** struct kstdio_sync_d *)
Record kstdio_sync_d := mk_sync {
  sender_pid : Z;
  receiver_pid : Z;
  action : Z;
  can_read : Z;
  can_write : Z;
  can_execute : Z;
  can_accept : Z;
  can_connect : Z;
  block_on_write : Z;
  block_on_write_full : Z;
  block_on_read : Z;
  block_on_read_empty : Z
}.

#[export] Instance kstdio_sync_d_eta : Eta kstdio_sync_d := fun r =>
  mk_sync (sender_pid r) (receiver_pid r) (action r) (can_read r) (can_write r)
    (can_execute r) (can_accept r) (can_connect r) (block_on_write r)
    (block_on_write_full r) (block_on_read r) (block_on_read_empty r).
#[export] Instance set_sender_pid : Setter sender_pid. Proof. solve_setter. Defined.
#[export] Instance set_receiver_pid : Setter receiver_pid. Proof. solve_setter. Defined.
#[export] Instance set_action : Setter action. Proof. solve_setter. Defined.
#[export] Instance set_can_read : Setter can_read. Proof. solve_setter. Defined.
#[export] Instance set_can_write : Setter can_write. Proof. solve_setter. Defined.
#[export] Instance set_can_execute : Setter can_execute. Proof. solve_setter. Defined.
#[export] Instance set_can_accept : Setter can_accept. Proof. solve_setter. Defined.
#[export] Instance set_can_connect : Setter can_connect. Proof. solve_setter. Defined.

(** struct file_d: the fields the modelled routines read or write. *)
Record file_d := mk_file {
  f_object : Z;             (** ____object *)
  f_used : Z;
  f_magic : Z;
  _tmpfname : Z;
  _file : Z;
  f_pid : Z;
  f_uid : Z;
  f_gid : Z;
  socket_buffer_full : Z;
  f_socket : Z;             (** struct socket_d *socket *)
  _base : Z;
  _p : Z;
  _r : Z;
  _w : Z;
  _lbfsize : Z;
  _fsize : Z;
  _cnt : Z;
  _bf_base : Z;             (** _bf._base *)
  _flags : Z;               (** unsigned short *)
  sync : kstdio_sync_d;
  tid_waiting : Z
}.

#[export] Instance file_d_eta : Eta file_d := fun r =>
  mk_file (f_object r) (f_used r) (f_magic r) (_tmpfname r) (_file r) (f_pid r)
    (f_uid r) (f_gid r) (socket_buffer_full r) (f_socket r) (_base r) (_p r)
    (_r r) (_w r) (_lbfsize r) (_fsize r) (_cnt r) (_bf_base r) (_flags r)
    (sync r) (tid_waiting r).
#[export] Instance set_f_object : Setter f_object. Proof. solve_setter. Defined.
#[export] Instance set_f_used : Setter f_used. Proof. solve_setter. Defined.
#[export] Instance set_f_magic : Setter f_magic. Proof. solve_setter. Defined.
#[export] Instance set__tmpfname : Setter _tmpfname. Proof. solve_setter. Defined.
#[export] Instance set__file : Setter _file. Proof. solve_setter. Defined.
#[export] Instance set_f_pid : Setter f_pid. Proof. solve_setter. Defined.
#[export] Instance set_f_uid : Setter f_uid. Proof. solve_setter. Defined.
#[export] Instance set_f_gid : Setter f_gid. Proof. solve_setter. Defined.
#[export] Instance set_socket_buffer_full : Setter socket_buffer_full. Proof. solve_setter. Defined.
#[export] Instance set_f_socket : Setter f_socket. Proof. solve_setter. Defined.
#[export] Instance set__base : Setter _base. Proof. solve_setter. Defined.
#[export] Instance set__p : Setter _p. Proof. solve_setter. Defined.
#[export] Instance set__r : Setter _r. Proof. solve_setter. Defined.
#[export] Instance set__w : Setter _w. Proof. solve_setter. Defined.
#[export] Instance set__lbfsize : Setter _lbfsize. Proof. solve_setter. Defined.
#[export] Instance set__fsize : Setter _fsize. Proof. solve_setter. Defined.
#[export] Instance set__cnt : Setter _cnt. Proof. solve_setter. Defined.
#[export] Instance set__bf_base : Setter _bf_base. Proof. solve_setter. Defined.
#[export] Instance set__flags : Setter _flags. Proof. solve_setter. Defined.
#[export] Instance set_sync : Setter sync. Proof. solve_setter. Defined.
#[export] Instance set_tid_waiting : Setter tid_waiting. Proof. solve_setter. Defined.

(** The state of the microkernel, the heap (its own copy of the process table is
    not used: see [on_heap]), the file structures by address, and the user. *)
Record fsys := mk_fsys {
  kern : kst;
  kheap : mst;
  files : gmap Z file_d;
  current_user : Z;
  current_group : Z
}.

#[export] Instance fsys_eta : Eta fsys := fun r =>
  mk_fsys (kern r) (kheap r) (files r) (current_user r) (current_group r).
#[export] Instance set_kern : Setter kern. Proof. solve_setter. Defined.
#[export] Instance set_kheap : Setter kheap. Proof. solve_setter. Defined.
#[export] Instance set_files : Setter files. Proof. solve_setter. Defined.

(** Run an operation of the microkernel. *)
Definition on_kern {A} (m : M kst A) : M fsys A := fun s =>
  match m (kern s) with
  | Done a k => Done a (s <| kern := k |>)
  | Panic msg => Panic msg
  | Undef => Undef
  | Leave k => Leave (s <| kern := k |>)
  | OutOfFuel => OutOfFuel
  end.

(** Run an operation of the heap: there is one process table, the microkernel's. *)
Definition on_heap {A} (m : M mst A) : M fsys A := fun s =>
  let back h := (s <| kern := (kern s) <| pt := mptab h |> |>) <| kheap := h |> in
  match m ((kheap s) <| mptab := pt (kern s) |>) with
  | Done a h => Done a (back h)
  | Panic msg => Panic msg
  | Undef => Undef
  | Leave h => Leave (back h)
  | OutOfFuel => OutOfFuel
  end.

(** The bytes of memory. *)
Definition ram (s : fsys) : memory := mem (kheap s).
Definition set_ram (g : memory -> memory) (s : fsys) : fsys :=
  s <| kheap := (kheap s) <| mem := g (mem (kheap s)) |> |>.

(** [f->field]: dereference and update of a file pointer. *)
Definition deref_file (f : Z) : M fsys file_d := getsome (fun s => files s !! f).
Definition put_file (f : Z) (x : file_d) : M fsys unit :=
  modify (fun s => s <| files := <[f := x]> (files s) |>).
Definition update_file (f : Z) (g : file_d -> file_d) : M fsys unit :=
  x ← deref_file f; put_file f (g x).

Definition is_stream (x : file_d) : bool :=
  (f_object x =? ObjectTypeFile) || (f_object x =? ObjectTypeTTY) ||
  (f_object x =? ObjectTypeIoBuffer).

(** ** fslib.c: the buffer of a stream *)

(** Copy to a user buffer. *)
Definition file_read_buffer (f buffer len : Z) : M fsys Z :=
  let Count := Z.land len 65535 in
  if f =? NULL then mret EOF else
  x ← deref_file f;
  if negb (f_used x =? TRUE) || negb (f_magic x =? 1234) then mret EOF else
  if buffer =? NULL then mret EOF else
  if Count <=? 0 then mret EOF else
  if _lbfsize x <? Count then mret EOF else
  if (f_object x =? ObjectTypeSocket) || (f_object x =? ObjectTypePipe) then
    modify (set_ram (memcpy buffer (_base x) Count));;
    put_file f (x <| _flags := u16 (Z.lor (_flags x) __SWR) |>);;
    mret Count
  else if is_stream x then
    if _lbfsize x <=? 0 then mret EOF else
    if 8 * 1024 <? _lbfsize x then mret EOF else
    if _r x <? 0 then put_file f (x <| _r := 0 |>);; mret EOF else
    if _lbfsize x <? _r x then mret EOF else
    if _w x <? _r x then put_file f (x <| _r := _w x |>);; mret 0 else
    let Count := if _lbfsize x <? Count then _lbfsize x - 1 else Count in
    let delta := i32 (_w x - _r x) in
    if delta =? 0 then mret 0 else
    let Count := if delta <? Count then delta else Count in
    let x := x <| _p := u64 (_base x + _r x) |> in
    if Count <=? 0 then put_file f x;; mret EOF else
    modify (set_ram (memcpy buffer (_p x) Count));;
    let x := x <| _p := u64 (_p x + Count) |> <| _r := i32 (_r x + Count) |> in
    let x := if _w x <? _r x then x <| _r := _w x |> else x in
    put_file f (x <| _flags := u16 (Z.lor (_flags x) __SWR) |>
      <| sync := (sync x) <| can_write := TRUE |> |>);;
    mret Count
  else mret EOF.

(** Copy from a user buffer.  The magic number is not tested. *)
Definition file_write_buffer (f string len : Z) : M fsys Z :=
  if f =? NULL then mret EOF else
  if string =? NULL then mret EOF else
  if BUFSIZ <=? len then mret EOF else
  x ← deref_file f;
  if (f_object x =? ObjectTypeSocket) || (f_object x =? ObjectTypePipe) then
    modify (set_ram (memcpy (_base x) string len));; mret len
  else if is_stream x then
    if BUFSIZ <? _lbfsize x then mret EOF else
    if _w x <? 0 then
      put_file f (x <| _p := _base x |> <| _w := 0 |> <| _r := 0 |> <| _cnt := _lbfsize x |>);;
      mret EOF else
    if BUFSIZ <=? _w x then put_file f (x <| _w := BUFSIZ |> <| _cnt := 0 |>);; mret EOF else
    if _cnt x <? 0 then
      put_file f (x <| _cnt := 0 |> <| _w := _lbfsize x |> <| _r := _lbfsize x |>
        <| _p := u64 (_base x + _lbfsize x) |>);;
      mret EOF else
    let x := if _lbfsize x <? _cnt x
             then x <| _cnt := _lbfsize x |> <| _p := _base x |> <| _w := 0 |> <| _r := 0 |>
             else x in
    if len <? 0 then put_file f x;; mret (-1) else
    if (_cnt x <? len) && (_cnt x <=? 0) then
      put_file f (x <| _w := _lbfsize x |> <| _r := _lbfsize x |>
        <| _p := u64 (_base x + _lbfsize x) |> <| _cnt := 0 |>);;
      mret (-1) else
    let len := if _cnt x <? len then _cnt x else len in
    let x := if _w x <? _r x
             then x <| _w := _r x |> <| _cnt := i32 (_lbfsize x - _r x) |> else x in
    let x := x <| _p := u64 (_base x + _w x) |> in
    modify (set_ram (memcpy (_p x) string len));;
    put_file f (x <| _p := u64 (_p x + len) |> <| _w := i32 (_w x + len) |>
      <| _cnt := i32 (_cnt x - len) |> <| _flags := __SRD |>
      <| sync := (sync x) <| can_read := TRUE |> |>);;
    mret len
  else mret EOF.

(** ** kstdio.c: characters and positions *)

Definition k_ungetc (c f : Z) : M fsys Z :=
  if c =? EOF then mret c else
  if f =? NULL then mret EOF else
  update_file f (fun x => x <| _p := u64 (_p x - 1) |>);;
  x ← deref_file f;
  modify (set_ram (poke (_p x) c));;
  mret c.

Definition k_ftell (f : Z) : M fsys Z :=
  if f =? NULL then mret EOF else
  x ← deref_file f;
  mret (i64 (_p x - _base x)).

Definition k_fileno (f : Z) : M fsys Z :=
  if f =? NULL then mret EOF else
  x ← deref_file f;
  mret (_file x).

Definition k_fgetc (f : Z) : M fsys Z :=
  if f =? NULL then mret EOF else
  x ← deref_file f;
  if _p x =? 0 then mret EOF else
  ch ← gets (fun s => ram s (_p x));
  put_file f (x <| _p := u64 (_p x + 1) |> <| _cnt := i32 (_cnt x - 1) |>);;
  mret ch.

(** A character is consumed. *)
Definition k_feof (f : Z) : M fsys Z :=
  if f =? NULL then mret (-1) else
  ch ← k_fgetc f;
  if ch =? EOF then mret 1 else mret 0.

Definition k_ferror (f : Z) : M fsys Z :=
  if f =? NULL then mret EOF else
  x ← deref_file f;
  mret (Z.land (_flags x) _IOERR).

Definition k_fseek (f offset whence : Z) : M fsys Z :=
  if f =? NULL then mret (-1) else
  if whence <? 0 then mret (-1) else
  if whence =? SEEK_SET then
    x ← deref_file f;
    let offset := if offset <? 0 then 0 else offset in
    let offset := if _cnt x <? offset then _cnt x else offset in
    put_file f (x <| _r := i32 offset |> <| _w := i32 offset |>
      <| _p := u64 (_base x + offset) |>);;
    mret 0
  else if whence =? SEEK_CUR then
    x ← deref_file f;
    let offset := if _cnt x <? offset then _cnt x else offset in
    let x := x <| _p := u64 (_p x + offset) |> in
    put_file f (x <| _r := i32 (_p x - _base x) |> <| _w := i32 (_p x - _base x) |>);;
    mret 0
  else if whence =? SEEK_END then
    x ← deref_file f;
    let offset := if 0 <? offset then 0 else offset in
    if _lbfsize x <? _fsize x then panic "k_fseek: #todo f->_fsize > f->_lbfsize" else
    if _lbfsize x <? _fsize x + offset
    then panic "k_fseek: #todo (f->_fsize + offset) > f->_lbfsize" else
    put_file f (x <| _r := i32 (_fsize x + offset) |> <| _w := i32 (_fsize x + offset) |>
      <| _p := u64 (_base x + (_fsize x + offset)) |>);;
    mret 0
  else if whence =? GRAMADO_SEEK_CLEAR then
    x ← deref_file f;
    modify (set_ram (fill (_base x) BUFSIZ 0));;
    put_file f (x <| _p := _base x |> <| _r := 0 |> <| _w := 0 |> <| _cnt := _lbfsize x |>);;
    mret 0
  else mret (-1).

(** The character is printed with the format %c. *)
Definition k_fputc (ch f : Z) : M fsys Z :=
  if f =? NULL then panic "k_fputc: f" else
  x ← deref_file f;
  if (0 <? _cnt x) && negb (ch =? 10) then
    match kinguio_vsprintf [37; 99] [VaInt ch] with
    | None => undef
    | Some text =>
        modify (set_ram (put (_p x) text));;
        let x := x <| _p := u64 (_p x + 1) |> <| _w := i32 (_w x + 1) |>
                   <| _cnt := i32 (_cnt x - 1) |> in
        if _cnt x <=? 0 then panic "k_fputc: _cnt" else
        put_file f (x <| _flags := u16 (Z.lor (_flags x) __SRD) |>);;
        mret ch
    end
  else mret EOF.

Definition k_rewind (f : Z) : M fsys unit :=
  if f =? NULL then mret tt else
  update_file f (fun x => x <| _p := _base x |>).

Definition k_fclose (f : Z) : M fsys Z :=
  if f =? NULL then mret EOF else
  x ← deref_file f;
  if negb (f_used x =? TRUE) then mret EOF else
  if negb (f_magic x =? 1234) then mret EOF else
  put_file f (x <| f_used := TRUE |> <| f_magic := 4321 |>);;
  mret 0.

Definition k_setbuf (f buf : Z) : M fsys unit :=
  if f =? NULL then mret tt else
  if buf =? NULL then mret tt else
  update_file f (fun x => x <| _bf_base := buf |> <| _p := buf |>).

Definition k_setbuffer (f buf size : Z) : M fsys unit :=
  if f =? NULL then mret tt else
  update_file f (fun x => x <| _bf_base := buf |> <| _lbfsize := size |> <| _p := buf |>).

Definition k_setvbuf (f buf mode size : Z) : M fsys Z :=
  if f =? NULL then mret (-1) else
  update_file f (fun x => x <| _bf_base := buf |> <| _lbfsize := size |> <| _p := buf |>);;
  mret 0.

(** ** Specification of a stream *)

(** The [n] bytes at [a]. *)
Definition bytes_at (m : memory) (a n : Z) : list Z := m <$> range a (a + n).

(** A stream with a buffer of the standard size. *)
Record wf_stream (x : file_d) : Prop := {
  ws_kind : is_stream x = true;
  ws_used : f_used x = TRUE;
  ws_magic : f_magic x = 1234;
  ws_size : _lbfsize x = BUFSIZ;
  ws_offsets : 0 <= _r x <= _w x /\ _w x <= BUFSIZ;
  ws_count : _cnt x = BUFSIZ - _w x;
  ws_base : 0 < _base x /\ _base x + BUFSIZ < 2 ^ 64
}.

(** What was written and not yet read. *)
Definition pending (m : memory) (x : file_d) : list Z :=
  bytes_at m (_base x + _r x) (_w x - _r x).

(** What a program does with a stream: it stores [data] in its buffer [src] and
    writes it, or it reads up to [n] bytes into its buffer [dst]. *)
Inductive stream_op := SWrite (src : Z) (data : list Z) | SRead (dst n : Z).

Definition run_stream (f : Z) (op : stream_op) : M fsys (Z * list Z) :=
  match op with
  | SWrite src data =>
      modify (set_ram (put src data));;
      n ← file_write_buffer f src (zlen data);
      mret (n, [])
  | SRead dst n =>
      k ← file_read_buffer f dst n;
      l ← gets (fun s => bytes_at (ram s) dst k);
      mret (k, l)
  end.

Fixpoint run_streams (f : Z) (ops : list stream_op) : M fsys (list (Z * list Z)) :=
  match ops with
  | [] => mret []
  | op :: ops => r ← run_stream f op; rs ← run_streams f ops; mret (r :: rs)
  end.

(** The specification: a queue of bytes, and the number of bytes it ever took. *)
Definition spec_stream (op : stream_op) (q : list Z * Z) : (Z * list Z) * (list Z * Z) :=
  match op with
  | SWrite _ data =>
      if (BUFSIZ <=? zlen data) || (BUFSIZ <=? q.2) then ((-1, []), q) else
      let k := Z.min (zlen data) (BUFSIZ - q.2) in
      ((k, []), (q.1 ++ take (Z.to_nat k) data, q.2 + k))
  | SRead _ n =>
      let c := Z.land n 65535 in
      if (c <=? 0) || (BUFSIZ <? c) then ((-1, []), q) else
      ((Z.min c (zlen q.1), take (Z.to_nat c) q.1), (drop (Z.to_nat c) q.1, q.2))
  end.

Fixpoint spec_streams (ops : list stream_op) (q : list Z * Z) : list (Z * list Z) * (list Z * Z) :=
  match ops with
  | [] => ([], q)
  | op :: ops =>
      let '(r, q) := spec_stream op q in
      let '(rs, q) := spec_streams ops q in
      (r :: rs, q)
  end.

(** The user buffers are valid and apart from the buffer of the stream. *)
Definition apart (a n b k : Z) : Prop := a + n <= b \/ b + k <= a.

Definition stream_op_ok (base : Z) (op : stream_op) : Prop :=
  match op with
  | SWrite src data => src <> NULL /\ zlen data < 2 ^ 31 /\
      apart src (zlen data) base BUFSIZ /\ Forall (fun c => 0 <= c < 256) data
  | SRead dst n => dst <> NULL /\ apart dst (Z.land n 65535) base BUFSIZ
  end.

(** ** Lemmas on memory *)

Lemma length_bytes_at m a n : 0 <= n -> zlen (bytes_at m a n) = n.
Proof. intros. unfold zlen, bytes_at, range. rewrite length_fmap, length_seqZ. lia. Qed.

Lemma bytes_at_ext m m' a n :
  (forall x, a <= x < a + n -> m x = m' x) -> bytes_at m a n = bytes_at m' a n.
Proof.
  intros E. apply list_fmap_ext. intros i x Hx%list_elem_of_lookup_2.
  apply E. apply elem_range in Hx. lia.
Qed.

Lemma bytes_at_app m a n k :
  0 <= n -> 0 <= k -> bytes_at m a (n + k) = bytes_at m a n ++ bytes_at m (a + n) k.
Proof.
  intros. unfold bytes_at, range. rewrite <- fmap_app. f_equal.
  replace (a + (n + k) - a) with (n + k) by lia. replace (a + n - a) with n by lia.
  replace (a + n + k - (a + n)) with k by lia. rewrite seqZ_app by lia. done.
Qed.

Lemma bytes_at_cons m a n : 0 < n -> bytes_at m a n = m a :: bytes_at m (a + 1) (n - 1).
Proof.
  intros. replace n with (1 + (n - 1)) at 1 by lia. rewrite bytes_at_app by lia.
  unfold bytes_at at 1. rewrite range_cons by lia. by rewrite range_nil by lia.
Qed.

Lemma bytes_at_nil m a n : n <= 0 -> bytes_at m a n = [].
Proof. intros. unfold bytes_at. by rewrite range_nil by lia. Qed.

Lemma put_outside a l m x : x < a \/ a + zlen l <= x -> put a l m x = m x.
Proof. intros. unfold put. destruct (Z.leb_spec a x), (Z.ltb_spec x (a + zlen l)); cbn; done || lia. Qed.

Lemma put_cons a c l m x : put a (c :: l) m x = if x =? a then c else put (a + 1) l m x.
Proof.
  pose proof (zlen_nonneg l). unfold put. rewrite zlen_cons.
  destruct (Z.eqb_spec x a) as [->|Hx].
  - zguard. cbn [andb]. rewrite Z.sub_diag, zlookup_cons_0. done.
  - destruct (Z.leb_spec a x), (Z.leb_spec (a + 1) x); cbn [andb]; try lia.
    replace (a + (1 + zlen l)) with (a + 1 + zlen l) by lia.
    destruct (x <? a + 1 + zlen l); [|done].
    replace (x - a) with (1 + (x - (a + 1))) by lia. by rewrite zlookup_cons_S by lia.
Qed.

Lemma bytes_at_put a l m : bytes_at (put a l m) a (zlen l) = l.
Proof.
  revert a m. induction l as [|c l IH]; intros a m; [by apply bytes_at_nil|].
  pose proof (zlen_nonneg l). rewrite zlen_cons, bytes_at_cons by lia.
  rewrite put_cons, Z.eqb_refl. f_equal. replace (1 + zlen l - 1) with (zlen l) by lia.
  transitivity (bytes_at (put (a + 1) l m) (a + 1) (zlen l)); [|apply IH].
  apply bytes_at_ext. intros x Hx. rewrite put_cons. by zguard.
Qed.

Lemma put_bytes a l m : bytes m -> Forall (fun c => 0 <= c < 256) l -> bytes (put a l m).
Proof.
  intros Hm Hl. revert a. induction Hl as [|c l Hc _ IH]; intros a x.
  - rewrite put_outside; [done|]. change (zlen []) with 0. lia.
  - rewrite put_cons. case_match; [done|]. apply IH.
Qed.

Lemma memcpy_bytes dst src n m :
  bytes m -> 0 <= n < 2 ^ 64 -> apart dst n src n -> bytes (memcpy dst src n m).
Proof. intros ? ? ? x. rewrite memcpy_spec by done. by case_match. Qed.

Lemma memcpy_copies dst src n m :
  bytes m -> 0 <= n < 2 ^ 64 -> apart dst n src n ->
  bytes_at (memcpy dst src n m) dst n = bytes_at m src n.
Proof.
  intros Hm Hn Ha. apply list_eq. intros i. unfold bytes_at, range. rewrite !list_lookup_fmap.
  replace (dst + n - dst) with n by lia. replace (src + n - src) with n by lia.
  destruct (decide (Z.of_nat i < n)).
  - rewrite !lookup_seqZ_lt by lia. cbn. f_equal. rewrite memcpy_spec by done. zguard. cbn. f_equal. lia.
  - by rewrite !lookup_seqZ_ge by lia.
Qed.

Lemma memcpy_keeps dst src n m a k :
  bytes m -> 0 <= n < 2 ^ 64 -> apart dst n src n -> apart dst n a k ->
  bytes_at (memcpy dst src n m) a k = bytes_at m a k.
Proof.
  intros Hm Hn Ha Hk. apply bytes_at_ext. intros x Hx. rewrite memcpy_spec by done.
  unfold apart in Hk. destruct (Z.leb_spec dst x), (Z.ltb_spec x (dst + n)); cbn; done || lia.
Qed.

(** ** Lemmas on a stream *)

(** A stream after a write, or a read, of [k] bytes. *)
Definition written (k : Z) (x : file_d) : file_d :=
  x <| _p := u64 (u64 (_base x + _w x) + k) |> <| _w := _w x + k |> <| _cnt := _cnt x - k |>
    <| _flags := __SRD |> <| sync := (sync x) <| can_read := TRUE |> |>.

Definition consumed (k : Z) (x : file_d) : file_d :=
  x <| _p := u64 (u64 (_base x + _r x) + k) |> <| _r := _r x + k |>
    <| _flags := u16 (Z.lor (_flags x) __SWR) |> <| sync := (sync x) <| can_write := TRUE |> |>.

Lemma wf_written k x : wf_stream x -> 0 <= k <= BUFSIZ - _w x -> wf_stream (written k x).
Proof. intros [? ? ? ? ? ? ?] Hk. split; cbn; done || lia. Qed.

Lemma wf_consumed k x : wf_stream x -> 0 <= k <= _w x - _r x -> wf_stream (consumed k x).
Proof. intros [? ? ? ? ? ? ?] Hk. split; cbn; done || lia. Qed.

Lemma stream_kind x : wf_stream x ->
  (f_object x =? ObjectTypeSocket) || (f_object x =? ObjectTypePipe) = false.
Proof.
  intros [Hk _ _ _ _ _ _]. unfold is_stream in Hk.
  unfold ObjectTypeSocket, ObjectTypePipe, ObjectTypeFile, ObjectTypeTTY, ObjectTypeIoBuffer in *.
  destruct (Z.eqb_spec (f_object x) 45) as [E|], (Z.eqb_spec (f_object x) 3) as [E'|];
    try done; [rewrite E in Hk|rewrite E in Hk|rewrite E' in Hk]; done.
Qed.

Lemma deref_file_Done s f x : files s !! f = Some x -> deref_file f s = Done x s.
Proof. intros E. unfold deref_file, getsome. by rewrite E. Qed.

Lemma write_fits s f x src len :
  files s !! f = Some x -> wf_stream x -> f <> NULL -> src <> NULL ->
  0 <= len < BUFSIZ -> _w x < BUFSIZ ->
  let k := Z.min len (BUFSIZ - _w x) in
  file_write_buffer f src len s =
    Done k ((set_ram (memcpy (_base x + _w x) src k) s) <| files := <[f := written k x]> (files s) |>).
Proof.
  intros Hf Hw Hfn Hsn Hlen Hroom k. pose proof Hw as [Hk _ _ Hsz Ho Hc Hb].
  unfold file_write_buffer, BUFSIZ, NULL in *. zguard.
  rewrite (bind_Done _ _ _ _ _ (deref_file_Done _ _ _ Hf)), (stream_kind x Hw), Hk. cbv zeta.
  rewrite Hsz, Hc. zguard. rewrite Hc. zguard. rewrite andb_false_r.
  assert (Ek : (if 1024 - _w x <? len then 1024 - _w x else len) = k).
  { unfold k. destruct (Z.ltb_spec (1024 - _w x) len); lia. }
  rewrite Ek, bind_modify. unfold put_file. rewrite bind_modify. cbn.
  unfold written. rewrite Hc, !i32_id by lia. rewrite (u64_id (_base x + _w x)) by lia. done.
Qed.

Lemma write_big s f src len : BUFSIZ <= len -> file_write_buffer f src len s = Done EOF s.
Proof. intros H. unfold file_write_buffer. apply Z.leb_le in H. rewrite H. by repeat case_match. Qed.

(** A full stream refuses a write. *)
Lemma write_full s f x src len :
  files s !! f = Some x -> wf_stream x -> f <> NULL -> src <> NULL -> len < BUFSIZ ->
  BUFSIZ <= _w x ->
  file_write_buffer f src len s =
    Done EOF (s <| files := <[f := x <| _w := BUFSIZ |> <| _cnt := 0 |>]> (files s) |>).
Proof.
  intros Hf Hw Hfn Hsn Hlen Hfull. unfold file_write_buffer, BUFSIZ, NULL in *. zguard.
  rewrite (bind_Done _ _ _ _ _ (deref_file_Done _ _ _ Hf)), (stream_kind x Hw), (ws_kind _ Hw).
  rewrite (ws_size _ Hw). unfold BUFSIZ. zguard. done.
Qed.

(** A read of [len] bytes of a stream. *)
Lemma read_stream s f x dst len :
  files s !! f = Some x -> wf_stream x -> f <> NULL -> dst <> NULL ->
  let c := Z.land len 65535 in
  0 < c <= BUFSIZ ->
  let k := Z.min c (_w x - _r x) in
  file_read_buffer f dst len s =
    if k =? 0 then Done 0 s else
    Done k ((set_ram (memcpy dst (_base x + _r x) k) s) <| files := <[f := consumed k x]> (files s) |>).
Proof.
  intros Hf Hw Hfn Hdn c Hc k. pose proof Hw as [Hk Hu Hm Hsz Ho Hcn Hb].
  unfold file_read_buffer. fold c. unfold BUFSIZ, NULL in *. clearbody c. zguard.
  rewrite (bind_Done _ _ _ _ _ (deref_file_Done _ _ _ Hf)), (stream_kind x Hw), Hk, Hu, Hm.
  cbn [negb orb Z.eqb Pos.eqb TRUE]. zguard. cbv zeta. rewrite i32_id by lia.
  destruct (Z.eqb_spec (_w x - _r x) 0) as [E|E].
  { assert (k = 0) as -> by lia. done. }
  assert (Ek : (if _w x - _r x <? c then _w x - _r x else c) = k).
  { unfold k. destruct (Z.ltb_spec (_w x - _r x) c); lia. }
  rewrite Ek. zguard. rewrite bind_modify. unfold put_file. rewrite bind_modify. cbn.
  rewrite !i32_id by lia. zguard.
  rewrite (u64_id (_base x + _r x)) by lia. unfold consumed.
  rewrite (u64_id (_base x + _r x)) by lia. done.
Qed.

Lemma pending_length m x : wf_stream x -> zlen (pending m x) = _w x - _r x.
Proof. intros [_ _ _ _ ? _ _]. apply length_bytes_at. lia. Qed.

(** The relation between a state and the specification. *)
Definition stream_rel (f base : Z) (s : fsys) (q : list Z * Z) : Prop :=
  exists x, files s !! f = Some x /\ wf_stream x /\ _base x = base /\ bytes (ram s) /\
    pending (ram s) x = q.1 /\ _w x = q.2.

Lemma take_zlen {A} (l k : list A) n : zlen l = n -> take (Z.to_nat n) (l ++ k) = l.
Proof. intros <-. unfold zlen. by rewrite Nat2Z.id, take_app_length. Qed.

Lemma drop_zlen {A} (l k : list A) n : zlen l = n -> drop (Z.to_nat n) (l ++ k) = k.
Proof. intros <-. unfold zlen. by rewrite Nat2Z.id, drop_app_length. Qed.

Lemma stream_write s f base q src data :
  f <> NULL -> stream_rel f base s q -> stream_op_ok base (SWrite src data) ->
  exists s', run_stream f (SWrite src data) s = Done (spec_stream (SWrite src data) q).1 s' /\
    stream_rel f base s' (spec_stream (SWrite src data) q).2.
Proof.
  intros Hfn (x & Hf & Hw & <- & Hm & Hp & Hq) (Hsn & Hlen & Ha & Hd).
  pose proof (ws_offsets _ Hw) as Ho. pose proof (zlen_nonneg data) as Hl.
  cbn [run_stream spec_stream]. rewrite bind_modify. rewrite <- Hq.
  set (m1 := put src data (ram s)). assert (Hm1 : bytes m1) by by apply put_bytes.
  assert (Hp1 : forall a k, apart src (zlen data) a k -> bytes_at m1 a k = bytes_at (ram s) a k).
  { intros a k Hak. apply bytes_at_ext. intros y Hy. apply put_outside. unfold apart in Hak. lia. }
  assert (Hkeep : pending m1 x = q.1).
  { rewrite <- Hp. apply Hp1. unfold apart, BUFSIZ in *. lia. }
  destruct (Z.leb_spec BUFSIZ (zlen data)) as [Hbig|Hsmall]; cbn [orb].
  { rewrite (bind_Done _ _ _ _ _ (write_big _ f src (zlen data) Hbig)).
    eexists. split; [reflexivity|]. by exists x. }
  destruct (Z.leb_spec BUFSIZ (_w x)) as [Hfull|Hroom].
  { rewrite (bind_Done _ _ _ _ _ (write_full (set_ram (put src data) s) _ x src (zlen data) Hf Hw Hfn Hsn Hsmall Hfull)).
    eexists. split; [reflexivity|]. exists (x <| _w := BUFSIZ |> <| _cnt := 0 |>). cbn.
    split; [apply lookup_insert_eq|]. destruct Hw as [? ? ? ? ? ? ?].
    split; [split; cbn; done || lia|]. split; [done|]. split; [done|].
    split; [|lia]. rewrite <- Hkeep. unfold pending. cbn. by replace (_w x) with BUFSIZ by lia. }
  rewrite (bind_Done _ _ _ _ _ (write_fits (set_ram (put src data) s) _ x src (zlen data) Hf Hw Hfn Hsn ltac:(lia) Hroom)).
  set (k := Z.min (zlen data) (BUFSIZ - _w x)).
  eexists. split; [reflexivity|]. exists (written k x). cbn.
  assert (Hk : 0 <= k < 2 ^ 64) by (unfold BUFSIZ in *; lia).
  assert (Hcp : apart (_base x + _w x) k src k) by (unfold apart in *; lia).
  split; [apply lookup_insert_eq|]. split; [by apply wf_written; [|lia]|]. split; [done|].
  split; [by apply memcpy_bytes|]. split; [|done]. unfold pending. cbn.
  replace (_w x + k - _r x) with (_w x - _r x + k) by lia. rewrite bytes_at_app by lia.
  replace (_base x + _r x + (_w x - _r x)) with (_base x + _w x) by lia. f_equal.
  - change (mem (kheap s)) with (ram s). fold m1. rewrite memcpy_keeps; [done|done..|unfold apart; lia].
  - change (mem (kheap s)) with (ram s). fold m1. rewrite memcpy_copies by done.
    pose proof (bytes_at_put src data (ram s)) as E. fold m1 in E.
    replace (zlen data) with (k + (zlen data - k)) in E by lia.
    rewrite bytes_at_app in E by lia. rewrite <- E. symmetry. apply take_zlen, length_bytes_at. lia.
Qed.

Lemma stream_read s f base q dst n :
  f <> NULL -> stream_rel f base s q -> stream_op_ok base (SRead dst n) ->
  exists s', run_stream f (SRead dst n) s = Done (spec_stream (SRead dst n) q).1 s' /\
    stream_rel f base s' (spec_stream (SRead dst n) q).2.
Proof.
  intros Hfn (x & Hf & Hw & <- & Hm & Hp & Hq) (Hdn & Ha). pose proof (ws_offsets _ Hw) as Ho.
  cbn [run_stream spec_stream]. set (c := Z.land n 65535) in *.
  destruct ((c <=? 0) || (BUFSIZ <? c)) eqn:Ec.
  { assert (E : file_read_buffer f dst n s = Done (-1) s).
    { unfold file_read_buffer. fold c. unfold NULL in *. zguard.
      rewrite (bind_Done _ _ _ _ _ (deref_file_Done _ _ _ Hf)), (ws_used _ Hw), (ws_magic _ Hw).
      cbn [negb orb Z.eqb Pos.eqb TRUE]. zguard. rewrite (ws_size _ Hw).
      apply orb_true_iff in Ec as [->| ->]; [done|]. by case_match. }
    rewrite (bind_Done _ _ _ _ _ E), bind_gets, bytes_at_nil by lia.
    eexists. split; [reflexivity|]. by exists x. }
  apply orb_false_iff in Ec as [E1%Z.leb_gt E2%Z.ltb_ge].
  pose proof (read_stream s f x dst n Hf Hw Hfn Hdn (conj E1 E2)) as E. cbv zeta in E. fold c in E.
  pose proof (pending_length (ram s) x Hw) as Hlen. rewrite Hp in Hlen. rewrite Hlen.
  set (k := Z.min c (_w x - _r x)) in *. destruct (Z.eqb_spec k 0) as [Hk|Hk].
  { rewrite (bind_Done _ _ _ _ _ E), bind_gets, bytes_at_nil by lia. assert (Hq1 : q.1 = []).
    { destruct q.1 as [|y l]; [done|]. rewrite zlen_cons in Hlen. pose proof (zlen_nonneg l). lia. }
    rewrite Hk, Hq1, take_nil, drop_nil. eexists. split; [reflexivity|]. exists x.
    split_and!; try done. by rewrite Hp, Hq1. }
  rewrite (bind_Done _ _ _ _ _ E). assert (Hk2 : 0 < k < 2 ^ 64) by (unfold BUFSIZ in *; lia).
  assert (Hcp : apart dst k (_base x + _r x) k) by (unfold apart, BUFSIZ in *; lia).
  set (m1 := memcpy dst (_base x + _r x) k (ram s)).
  assert (Hsplit : q.1 = bytes_at (ram s) (_base x + _r x) k ++
    bytes_at (ram s) (_base x + _r x + k) (_w x - _r x - k)).
  { rewrite <- Hp. unfold pending. rewrite <- bytes_at_app by lia. f_equal. lia. }
  assert (Htake : take (Z.to_nat c) q.1 = bytes_at (ram s) (_base x + _r x) k /\
    drop (Z.to_nat c) q.1 = bytes_at (ram s) (_base x + _r x + k) (_w x - _r x - k)).
  { rewrite Hsplit. destruct (decide (c <= _w x - _r x)).
    - replace c with k by lia. split; [apply take_zlen|apply drop_zlen]; apply length_bytes_at; lia.
    - rewrite (bytes_at_nil _ _ (_w x - _r x - k)), app_nil_r by lia.
      pose proof (length_bytes_at (ram s) (_base x + _r x) k ltac:(lia)) as L. unfold zlen in L.
      rewrite take_ge, drop_ge by lia. done. }
  destruct Htake as [-> ->]. rewrite bind_gets. eexists. split.
  { unfold ram at 1. cbn. fold (ram s). by rewrite memcpy_copies by (done || lia). }
  exists (consumed k x). cbn. split; [apply lookup_insert_eq|].
  split; [by apply wf_consumed; [|lia]|]. split; [done|].
  split; [apply memcpy_bytes; [done|lia|done]|]. split; [|done].
  unfold pending. cbn. change (mem (kheap s)) with (ram s). rewrite memcpy_keeps; [|done|lia|done|].
  - f_equal; lia.
  - unfold apart, BUFSIZ in *. lia.
Qed.

(** What a script wrote: the part of each text that was accepted. *)
Fixpoint accepted (ops : list stream_op) (rs : list (Z * list Z)) : list Z :=
  match ops, rs with
  | SWrite _ data :: ops, r :: rs => take (Z.to_nat r.1) data ++ accepted ops rs
  | SRead _ _ :: ops, _ :: rs => accepted ops rs
  | _, _ => []
  end.

Lemma stream_step s f base q op :
  f <> NULL -> stream_rel f base s q -> stream_op_ok base op ->
  exists s', run_stream f op s = Done (spec_stream op q).1 s' /\
    stream_rel f base s' (spec_stream op q).2.
Proof. destruct op; [apply stream_write|apply stream_read]. Qed.

Lemma run_streams_spec f base ops : f <> NULL -> forall s q,
  stream_rel f base s q -> Forall (stream_op_ok base) ops ->
  exists s', run_streams f ops s = Done (spec_streams ops q).1 s' /\
    stream_rel f base s' (spec_streams ops q).2.
Proof.
  intros Hf. induction ops as [|op ops IH]; intros s q Hr Hok; [by exists s|].
  apply Forall_cons in Hok as [Hop Hok].
  destruct (stream_step s f base q op Hf Hr Hop) as (s1 & E1 & Hr1).
  destruct (IH s1 _ Hr1 Hok) as (s2 & E2 & Hr2). exists s2. cbn.
  destruct (spec_stream op q) as [r q1]. cbn in *.
  rewrite (bind_Done _ _ _ _ _ E1), (bind_Done _ _ _ _ _ E2).
  by destruct (spec_streams ops q1) as [rs q2].
Qed.

(** The specification keeps the order of the bytes and counts them. *)
Lemma spec_streams_fifo ops : forall q, q.2 <= BUFSIZ ->
  let '(rs, q') := spec_streams ops q in
  q.1 ++ accepted ops rs = concat (snd <$> rs) ++ q'.1 /\
  q'.2 = q.2 + zlen (accepted ops rs) /\ q'.2 <= BUFSIZ.
Proof.
  induction ops as [|op ops IH]; intros q Hq; cbn.
  { rewrite app_nil_r. change (zlen []) with 0. split_and!; [done|lia|done]. }
  destruct (spec_stream op q) as [r q1] eqn:E1. specialize (IH q1).
  destruct (spec_streams ops q1) as [rs q2]. destruct op as [src data|dst n]; cbn in *.
  - pose proof (zlen_nonneg data). destruct ((BUFSIZ <=? zlen data) || (BUFSIZ <=? q.2)) eqn:Eb.
    + injection E1 as <- <-. cbn. rewrite take_0. apply IH. done.
    + apply orb_false_iff in Eb as [_ Eb%Z.leb_gt]. injection E1 as <- <-. cbn in *.
      set (k := Z.min (zlen data) (BUFSIZ - q.2)) in *.
      destruct IH as (E2 & E3 & E4); [lia|]. rewrite app_assoc, E2, E3, zlen_app.
      assert (zlen (take (Z.to_nat k) data) = k) as ->.
      { unfold zlen in *. rewrite length_take. lia. }
      split_and!; [done|lia|lia].
  - destruct ((Z.land n 65535 <=? 0) || (BUFSIZ <? Z.land n 65535));
      injection E1 as <- <-; cbn in *; [by apply IH|].
    destruct (IH Hq) as (E2 & E3 & E4). split_and!; [|done|done].
    rewrite <- app_assoc, <- E2, app_assoc, take_drop. done.
Qed.

(** The range of an [unsigned short]. *)
Definition in_u16 (v : Z) : Prop := 0 <= v < 2 ^ 16.

Lemma u16_in v : in_u16 (u16 v).
Proof. by apply Z.mod_pos_bound. Qed.

(** ** Theorems *)

(** [C15] A stream is a first-in first-out queue of bytes: for every script of
    writes and reads of one stream by a program whose buffers are apart from the
    stream's, every call returns, with the count and the bytes of the
    specification, a queue that takes at most BUFSIZ bytes in its life (reading
    gives no room back); the stream stays well formed; and the bytes accepted,
    in order, are the bytes read followed by the bytes still pending. *)
Theorem stream_fifo f base ops s q :
  f <> NULL -> stream_rel f base s q -> Forall (stream_op_ok base) ops ->
  exists s' rs q', run_streams f ops s = Done rs s' /\ (rs, q') = spec_streams ops q /\
    stream_rel f base s' q' /\
    q.1 ++ accepted ops rs = concat (snd <$> rs) ++ q'.1 /\
    q'.2 = q.2 + zlen (accepted ops rs) /\ q'.2 <= BUFSIZ.
Proof.
  intros Hf Hr Hok. destruct (run_streams_spec f base ops Hf s q Hr Hok) as (s' & E & Hr').
  assert (Hq : q.2 <= BUFSIZ).
  { destruct Hr as (x & _ & Hw & _ & _ & _ & <-). by apply (ws_offsets _ Hw). }
  pose proof (spec_streams_fifo ops q Hq) as Hs.
  destruct (spec_streams ops q) as [rs q']. by exists s', rs, q'.
Qed.

(** The position that [k_fseek] goes to. *)
Definition seek_target (x : file_d) (offset whence : Z) : Z :=
  if whence =? SEEK_SET then Z.min (Z.max offset 0) (_cnt x)
  else if whence =? SEEK_CUR then _p x - _base x + Z.min offset (_cnt x)
  else _fsize x + Z.min offset 0.

Lemma fseek_spec s f x offset whence :
  files s !! f = Some x -> wf_stream x -> f <> NULL ->
  whence = SEEK_SET \/ whence = SEEK_CUR \/ (whence = SEEK_END /\ _fsize x <= BUFSIZ) ->
  let t := seek_target x offset whence in 0 <= t <= BUFSIZ -> 
  k_fseek f offset whence s =
    Done 0 (s <| files := <[f := x <| _r := t |> <| _w := t |> <| _p := _base x + t |>]> (files s) |>).
Proof.
  intros Hf Hw Hfn Hwh t Ht. pose proof (ws_base _ Hw) as Hb. pose proof (ws_size _ Hw) as Hsz.
  unfold k_fseek, NULL in *. zguard. unfold t, seek_target, BUFSIZ in *.
  unfold SEEK_SET, SEEK_CUR, SEEK_END in *.
  destruct Hwh as [->|[->|[-> Hfs]]]; cbn [Z.eqb Z.ltb Z.compare Pos.eqb] in *;
    rewrite (bind_Done _ _ _ _ _ (deref_file_Done _ _ _ Hf)); cbv zeta.
  - assert (E : (if _cnt x <? (if offset <? 0 then 0 else offset) then _cnt x
      else if offset <? 0 then 0 else offset) = Z.min (Z.max offset 0) (_cnt x)).
    { destruct (Z.ltb_spec offset 0).
      - destruct (Z.ltb_spec (_cnt x) 0); lia.
      - destruct (Z.ltb_spec (_cnt x) offset); lia. }
    rewrite E. unfold put_file. rewrite bind_modify. rewrite u64_id, i32_id by lia. done.
  - assert (E : (if _cnt x <? offset then _cnt x else offset) = Z.min offset (_cnt x)).
    { destruct (Z.ltb_spec (_cnt x) offset); lia. }
    rewrite E. unfold put_file. rewrite bind_modify. cbn.
    rewrite u64_id by lia. rewrite i32_id by lia.
    replace (_p x + Z.min offset (_cnt x)) with (_base x + (_p x - _base x + Z.min offset (_cnt x))) by lia.
    replace (_base x + (_p x - _base x + Z.min offset (_cnt x)) - _base x)
      with (_p x - _base x + Z.min offset (_cnt x)) by lia. done.
  - assert (E : (if 0 <? offset then 0 else offset) = Z.min offset 0).
    { destruct (Z.ltb_spec 0 offset); lia. }
    rewrite E, Hsz. zguard. unfold put_file. rewrite bind_modify. rewrite u64_id, i32_id by lia. done.
Qed.

(** Positioning a stream loses what was not read: [k_fseek] with SEEK_SET,
    SEEK_CUR or SEEK_END moves the read offset and the write offset to the same
    position, which [k_ftell] answers, so that the next read, whatever its
    length, finds nothing. *)
Theorem seek_then_read s f x offset whence dst n :
  files s !! f = Some x -> wf_stream x -> f <> NULL ->
  whence = SEEK_SET \/ whence = SEEK_CUR \/ (whence = SEEK_END /\ _fsize x <= BUFSIZ) ->
  0 <= seek_target x offset whence <= BUFSIZ -> dst <> NULL -> 0 < Z.land n 65535 <= BUFSIZ ->
  exists s', k_fseek f offset whence s = Done 0 s' /\
    k_ftell f s' = Done (seek_target x offset whence) s' /\
    file_read_buffer f dst n s' = Done 0 s' /\ ram s' = ram s.
Proof.
  intros Hf Hw Hfn Hwh Ht Hdn Hn. eexists.
  split; [by apply (fseek_spec s f x)|]. set (t := seek_target x offset whence) in *.
  set (y := x <| _r := t |> <| _w := t |> <| _p := _base x + t |>).
  set (s' := s <| files := <[f := y]> (files s) |>).
  assert (Hf' : files s' !! f = Some y) by apply lookup_insert_eq.
  pose proof (ws_base _ Hw) as Hb. unfold BUFSIZ in *. split_and!; [..|done].
  - unfold k_ftell, NULL in *. zguard. rewrite (bind_Done _ _ _ _ _ (deref_file_Done _ _ _ Hf')).
    unfold y. cbn. unfold i64. f_equal. replace (_base x + t - _base x) with t by lia.
    rewrite Z.mod_small by lia. lia.
  - assert (Hs : is_stream y = true) by apply (ws_kind _ Hw).
    unfold file_read_buffer, NULL in *. zguard.
    rewrite (bind_Done _ _ _ _ _ (deref_file_Done _ _ _ Hf')), Hs.
    unfold y. cbn [f_used f_magic f_object _lbfsize _r _w set_field set__r set__w set__p].
    rewrite (ws_used _ Hw), (ws_magic _ Hw), (stream_kind _ Hw), (ws_size _ Hw).
    cbn [negb orb Z.eqb Pos.eqb TRUE]. unfold BUFSIZ. zguard. rewrite Z.sub_diag. done.
Qed.

(** ** Witnesses *)

(** An empty stream of the standard size. *)
Definition sample_sync : kstdio_sync_d :=
  mk_sync (-1) (-1) ACTION_NULL TRUE TRUE FALSE FALSE FALSE FALSE FALSE FALSE FALSE.

Definition sample_stream (object fd base : Z) : file_d :=
  mk_file object TRUE 1234 NULL fd 0 0 0 FALSE NULL base base 0 0 BUFSIZ 0 BUFSIZ 0
    (Z.lor __SRD __SWR) sample_sync (-1).

Definition sample_fsys (fs : gmap Z file_d) : fsys :=
  mk_fsys (sample_kst [sample_thread 0 RUNNING])
    ((booted sample_mst) <| mem := fun _ => 0 |>) fs 0 0.

(** A regular file whose structure is at 8192 and whose buffer is at 900000. *)
Definition stream_demo : fsys :=
  sample_fsys {[ 8192 := sample_stream ObjectTypeFile 3 900000 ]}.

Lemma wf_sample_stream fd base : 0 < base -> base + BUFSIZ < 2 ^ 64 ->
  wf_stream (sample_stream ObjectTypeFile fd base).
Proof. intros. split; cbn; unfold BUFSIZ in *; done || lia. Qed.

Lemma stream_demo_rel : stream_rel 8192 900000 stream_demo ([], 0).
Proof.
  exists (sample_stream ObjectTypeFile 3 900000). split; [done|].
  split; [by apply wf_sample_stream|]. split; [done|]. split; [by intros x|]. done.
Qed.

Lemma stream_fifo_witness :
  let ops := [SWrite 100 [104; 101; 108; 108; 111]; SRead 300 3; SWrite 100 [33]; SRead 300 9] in
  exists s' rs q', run_streams 8192 ops stream_demo = Done rs s' /\
    (rs, q') = spec_streams ops ([], 0) /\ stream_rel 8192 900000 s' q' /\
    [] ++ accepted ops rs = concat (snd <$> rs) ++ q'.1 /\
    q'.2 = 0 + zlen (accepted ops rs) /\ q'.2 <= BUFSIZ.
Proof.
  apply (stream_fifo 8192 900000 _ stream_demo ([], 0)); [done|apply stream_demo_rel|].
  unfold stream_op_ok, apart, BUFSIZ, zlen, NULL.
  repeat apply Forall_cons_2; try apply Forall_nil_2; cbn; repeat split; try lia;
    repeat apply Forall_cons_2; try apply Forall_nil_2; try lia; by left; vm_compute.
Defined.

(** Five bytes were written and none read. *)
Definition seek_demo : file_d := written 5 (sample_stream ObjectTypeFile 3 900000).

Lemma seek_then_read_witness :
  let s := sample_fsys {[ 8192 := seek_demo ]} in
  pending (ram s) seek_demo = [0; 0; 0; 0; 0] /\
  exists s', k_fseek 8192 0 SEEK_SET s = Done 0 s' /\
    k_ftell 8192 s' = Done (seek_target seek_demo 0 SEEK_SET) s' /\
    file_read_buffer 8192 300 5 s' = Done 0 s' /\ ram s' = ram s.
Proof.
  split; [by vm_compute|].
  apply (seek_then_read _ 8192 seek_demo 0 SEEK_SET 300 5).
  - done.
  - apply wf_written; [by apply wf_sample_stream|]. cbn. unfold BUFSIZ. lia.
  - done.
  - by left.
  - by vm_compute.
  - done.
  - by vm_compute.
Defined.
