(* ===== verification/Descriptors.v ===== *)
(** * Descriptors: the calls on file descriptors

    [get_file_from_fd], [__read_imp] and [__write_imp] of [res/fs/fslib.c], their
    entries [sys_read] and [sys_write] and the synchronization of a file of
    [res/fs/fs.c], and the duplication of descriptors and the pipes of
    [res/fs/pipe.c].  A descriptor is an index in the list [Objects] of the
    current process.  The console device is a parameter. *)
From Stdlib Require Import ZArith Lia.
From stdpp Require Import base gmap list strings.
From S2P Require Import Config Prelude Strings Process KState Samples Threads Heap Files.

#[local] Open Scope Z_scope.
#[local] Open Scope gramado_scope.

(** ** The objects of a process *)

Definition on_pt {A} (m : M ptab A) : M fsys A := on_kern (on_ptab m).

Definition object_at (p i : Z) : M fsys Z :=
  x ← on_pt (deref_process p); getsome (fun _ => zlookup (p_Objects x) i).

Definition set_object (p i v : Z) : M fsys unit :=
  on_pt (update_process p (fun x => x <| p_Objects := zinsert (p_Objects x) i v |>)).

Definition get_file_from_fd (fd : Z) : M fsys Z :=
  if (fd <? 0) || (32 <=? fd) then mret NULL else
  pid ← on_pt get_current_process;
  if (pid <? 0) || (PROCESS_COUNT_MAX <=? pid) then mret NULL else
  p ← on_pt (processList_at pid);
  if p =? NULL then panic "get_file_from_fd: p" else
  x ← on_pt (deref_process p);
  if negb (p_used x =? TRUE) then mret NULL else
  if negb (p_magic x =? 1234) then mret NULL else
  object_at p fd.

(** Index of a free object of a process, from the third one. *)
Definition find_slot (p : Z) : M fsys (option Z) :=
  for_return (range 3 NUMBER_OF_FILES) (fun i =>
    v ← object_at p i; mret (if v =? 0 then Some i else None)).

Section Calls.

(** What a structure that was just allocated holds: [kmalloc] clears nothing. *)
Variable junk : Z -> file_d.

(** The output of the foreground console, or of the serial port. *)
Variable console_output : Z -> Z -> M fsys Z.

(** sizeof(file) *)
Definition FILE_SIZE : Z := 312.

Definition new_file : M fsys Z :=
  f ← on_heap (kmalloc FILE_SIZE);
  if f =? NULL then mret NULL else put_file f (junk f);; mret f.

(** ** pipe.c *)

(** What a duplicate takes from a stream; [_r], [_w], [_file] and the flags are
    not copied. *)
Definition inherit (old new : file_d) : file_d :=
  new <| f_object := f_object old |> <| _base := _base old |> <| _p := _p old |>
    <| _tmpfname := _tmpfname old |> <| _lbfsize := _lbfsize old |> <| _cnt := _cnt old |>
    <| f_used := TRUE |> <| f_magic := 1234 |>.

Definition bad_fd (fd : Z) : bool := (fd <? 0) || (OPEN_MAX <=? fd).

Definition sys_dup (oldfd : Z) : M fsys Z :=
  if bad_fd oldfd then mret (- EINVAL) else
  pid ← on_pt get_current_process;
  Process ← on_pt (processList_at pid);
  if Process =? NULL then mret (-1) else
  x ← on_pt (deref_process Process);
  if negb (p_used x =? TRUE) || negb (p_magic x =? 1234) then mret (-1) else
  slot ← find_slot Process;
  match slot with
  | None => set_object Process NUMBER_OF_FILES 0;; mret (-1)
  | Some i =>
      f_old ← object_at Process oldfd;
      if f_old =? NULL then set_object Process i 0;; mret (-1) else
      f_new ← new_file;
      if f_new =? NULL then set_object Process i 0;; mret (-1) else
      old ← deref_file f_old;
      update_file f_new (inherit old);;
      set_object Process i f_new;;
      mret i
  end.

Definition sys_dup2 (oldfd newfd : Z) : M fsys Z :=
  if bad_fd oldfd then mret (- EINVAL) else
  if bad_fd newfd then mret (- EINVAL) else
  pid ← on_pt get_current_process;
  Process ← on_pt (processList_at pid);
  if Process =? NULL then mret (-1) else
  x ← on_pt (deref_process Process);
  if negb (p_used x =? TRUE) || negb (p_magic x =? 1234) then mret (-1) else
  let slot := newfd in
  if slot =? -1 then set_object Process slot 0;; mret (-1) else
  f_old ← object_at Process oldfd;
  if f_old =? NULL then set_object Process slot 0;; mret (-1) else
  f_new ← object_at Process slot;
  if f_new =? NULL then set_object Process slot 0;; mret (-1) else
  old ← deref_file f_old;
  update_file f_new (inherit old);;
  mret slot.

Definition sys_dup3 (oldfd newfd flags : Z) : M fsys Z :=
  if bad_fd oldfd then mret (- EINVAL) else
  if bad_fd newfd then mret (- EINVAL) else
  pid ← on_pt get_current_process;
  Process ← on_pt (processList_at pid);
  if Process =? NULL then mret (-1) else
  x ← on_pt (deref_process Process);
  if negb (p_used x =? TRUE) || negb (p_magic x =? 1234) then mret (-1) else
  let slot := newfd in
  if slot =? -1 then set_object Process slot 0;; mret (-1) else
  f_old ← object_at Process oldfd;
  if f_old =? NULL then set_object Process slot 0;; mret (-1) else
  f_new ← object_at Process slot;
  if f_new =? NULL then set_object Process slot 0;; mret (-1) else
  old ← deref_file f_old;
  update_file f_new (inherit old);;
  mret slot.

(** The fields that [sys_pipe] sets in each of its two structures. *)
Definition pipe_end (pid user group buff slot : Z) (x : file_d) : file_d :=
  x <| f_used := TRUE |> <| f_magic := 1234 |> <| f_object := ObjectTypePipe |>
    <| f_pid := pid |> <| f_uid := user |> <| f_gid := group |>
    <| sync := (sync x) <| sender_pid := -1 |> <| receiver_pid := -1 |>
         <| action := ACTION_NULL |> <| can_read := TRUE |> <| can_write := TRUE |>
         <| can_execute := FALSE |> <| can_accept := FALSE |> <| can_connect := FALSE |> |>
    <| _tmpfname := NULL |> <| _base := buff |> <| _p := buff |> <| _lbfsize := BUFSIZ |>
    <| _cnt := BUFSIZ |> <| _r := 0 |> <| _w := 0 |> <| _file := slot |>.

(** [int] in memory, the low byte first. *)
Definition poke32 (a v : Z) (m : memory) : memory :=
  put a ((fun i => Z.land (Z.shiftr v (8 * i)) 255) <$> range 0 4) m.

(** The second search does not know about the first one. *)
Definition sys_pipe (pipefd flags : Z) : M fsys Z :=
  pid ← on_pt get_current_process;
  Process ← on_pt (processList_at pid);
  if Process =? NULL then mret (-1) else
  x ← on_pt (deref_process Process);
  if negb (p_used x =? TRUE) || negb (p_magic x =? 1234) then mret (-1) else
  s1 ← find_slot Process;
  s2 ← find_slot Process;
  match s1, s2 with
  | Some slot1, Some slot2 =>
      buff ← on_heap (kmalloc BUFSIZ);
      if buff =? NULL then
        set_object Process slot1 0;; set_object Process slot2 0;; mret (-1) else
      f1 ← new_file;
      f2 ← new_file;
      if (f1 =? NULL) || (f2 =? NULL) then
        set_object Process slot1 0;; set_object Process slot2 0;; mret (-1) else
      user ← gets current_user;
      group ← gets current_group;
      update_file f1 (pipe_end pid user group buff slot1);;
      update_file f2 (pipe_end pid user group buff slot2);;
      set_object Process slot1 f1;;
      set_object Process slot2 f2;;
      modify (set_ram (poke32 pipefd slot1));;
      modify (set_ram (poke32 (pipefd + 4) slot2));;
      mret 0
  | _, _ => mret (-1)
  end.

Definition sys_read_pipe (fd ubuf count : Z) : M fsys Z :=
  if bad_fd fd then mret (- EBADF) else
  if ubuf =? NULL then mret (- EINVAL) else
  if count <=? 0 then mret (-1) else
  mret (-1).

Definition sys_write_pipe (fd ubuf count : Z) : M fsys Z :=
  if bad_fd fd then mret (- EBADF) else
  if ubuf =? NULL then mret (- EINVAL) else
  if count <=? 0 then mret (-1) else
  mret (-1).

Definition pipe_ioctl (fd request arg : Z) : M fsys Z :=
  if bad_fd fd then mret (- EBADF) else mret (-1).

(** ** fslib.c: read and write *)

(** The bits of the flags. *)
Definition flag (b x : Z) : bool := negb (Z.land x b =? 0).

Definition credit_current : M fsys unit := on_kern (c ← gets current_thread; do_credits_by_tid c).
Definition yield_current : M fsys unit := on_kern (c ← gets current_thread; yield c).

(** The branch of [__read_imp] for sockets. *)
Definition read_socket (fp ubuf count : Z) : M fsys Z :=
  credit_current;;
  x ← deref_file fp;
  if negb (flag __SRD (_flags x)) then mret (-1) else
  if socket_buffer_full x =? FALSE then
    put_file fp (x <| _flags := __SWR |> <| tid_waiting := -1 |>);;
    if block_on_read_empty (sync x) =? TRUE
    then panic "__read_imp: [DEBUG] Couldn't read socket. Buffer not full" else
    yield_current;; mret (-1)
  else if socket_buffer_full x =? TRUE then
    nbytes ← file_read_buffer fp ubuf count;
    if nbytes <=? 0 then mret (-1) else
    update_file fp (fun x => x <| socket_buffer_full := FALSE |>
      <| _flags := u16 (Z.lor (Z.land (_flags x) (Z.lnot __SRD)) __SWR) |> <| tid_waiting := -1 |>);;
    mret nbytes
  else panic "__read_imp: Unexpected error when reading socket".

Definition read_regular (fp ubuf count : Z) : M fsys Z :=
  x ← deref_file fp;
  if negb (flag __SRD (_flags x)) then mret (-1) else
  nbytes ← file_read_buffer fp ubuf count;
  if nbytes <=? 0 then mret (-1) else
  update_file fp (fun x => x <| _flags := u16 (Z.lor (_flags x) __SWR) |>
    <| sync := (sync x) <| can_write := TRUE |> |>);;
  mret nbytes.

(** The process that makes the call, and one more of its calls counted;
    [None]: the call fails. *)
Definition calling_process (count_call : process_d -> process_d) : M fsys (option Z) :=
  pid ← on_pt get_current_process;
  if (pid <? 0) || (PROCESS_COUNT_MAX <=? pid) then mret None else
  p ← on_pt (processList_at pid);
  if p =? NULL then mret None else
  x ← on_pt (deref_process p);
  if negb (p_used x =? TRUE) || negb (p_magic x =? 1234) then mret None else
  on_pt (update_process p count_call);;
  mret (Some p).

Definition __read_imp (fd ubuf count : Z) : M fsys Z :=
  p ← calling_process (fun x => x <| p_read_counter := u32 (p_read_counter x + 1) |>);
  if bool_decide (p = None) then mret (-1) else
  if bad_fd fd then mret (- EBADF) else
  if ubuf =? NULL then mret (- EINVAL) else
  if count <? 0 then mret (- EINVAL) else
  if count =? 0 then mret 0 else
  fp ← get_file_from_fd fd;
  if fp =? NULL then mret (-1) else
  x ← deref_file fp;
  if negb (can_read (sync x) =? TRUE) then mret (-1) else
  let t := f_object x in
  if t =? ObjectTypeSocket then read_socket fp ubuf count else
  if t =? ObjectTypeFile then read_regular fp ubuf count else
  if t =? ObjectTypePTMX then mret 0 else
  if t =? ObjectTypePTY then mret 0 else
  if t =? ObjectTypeFileSystem then mret 0 else
  if t =? ObjectTypePipe then sys_read_pipe fd ubuf count else
  mret (-1).

(** The branch of [__write_imp] for sockets: the flags are cleared before the
    write. *)
Definition write_socket (fp ubuf count : Z) : M fsys Z :=
  credit_current;;
  x ← deref_file fp;
  if negb (flag __SWR (_flags x)) then mret (-1) else
  if socket_buffer_full x =? TRUE then
    put_file fp (x <| _flags := __SRD |>);;
    on_kern (do_thread_ready (tid_waiting x));;
    c ← gets (fun s => current_thread (kern s));
    (if block_on_write_full (sync x) =? TRUE
     then update_file fp (fun x => x <| tid_waiting := c |>)
     else update_file fp (fun x => x <| tid_waiting := -1 |>));;
    yield_current;; mret (-1)
  else if socket_buffer_full x =? FALSE then
    put_file fp (x <| _flags := 0 |>);;
    nbytes ← file_write_buffer fp ubuf count;
    if nbytes <=? 0 then yield_current;; mret (-1) else
    c ← gets (fun s => current_thread (kern s));
    update_file fp (fun x =>
      x <| socket_buffer_full := TRUE |>
        <| _flags := u16 (Z.lor (Z.land (_flags x) (Z.lnot __SWR)) __SRD) |>
        <| tid_waiting := if block_on_write (sync x) =? TRUE then c else -1 |>);;
    mret nbytes
  else panic "__write_imp: Unexpected error when writing on socket".

Definition write_regular (fp ubuf count : Z) : M fsys Z :=
  x ← deref_file fp;
  if negb (flag __SWR (_flags x)) then mret 0 else
  nbytes ← file_write_buffer fp ubuf count;
  if 0 <? nbytes then
    update_file fp (fun x => x <| _flags := __SRD |> <| sync := (sync x) <| can_read := TRUE |> |>);;
    x ← deref_file fp;
    on_kern (do_thread_ready (tid_waiting x));;
    mret nbytes
  else mret 0.

Definition __write_imp (fd ubuf count : Z) : M fsys Z :=
  p ← calling_process (fun x => x <| p_write_counter := u32 (p_write_counter x + 1) |>);
  if bool_decide (p = None) then mret (-1) else
  if bad_fd fd then mret (- EBADF) else
  if ubuf =? NULL then mret (- EINVAL) else
  if count <? 0 then mret (- EINVAL) else
  if count =? 0 then mret 0 else
  fp ← get_file_from_fd fd;
  if fp =? NULL then mret (-1) else
  x ← deref_file fp;
  if negb (can_write (sync x) =? TRUE) then mret (-1) else
  let t := f_object x in
  if (_file x =? STDIN_FILENO) && negb (t =? ObjectTypeFile) then mret (-1) else
  if (_file x =? STDOUT_FILENO) && negb (t =? ObjectTypeFile) then
    if t =? ObjectTypeVirtualConsole then console_output ubuf count else mret (-1) else
  if (_file x =? STDERR_FILENO) && negb (t =? ObjectTypeFile) then mret (-1) else
  if t =? ObjectTypeNIC then mret 0 else
  if t =? ObjectTypeSocket then write_socket fp ubuf count else
  if t =? ObjectTypeFile then write_regular fp ubuf count else
  if t =? ObjectTypePTMX then mret 0 else
  if t =? ObjectTypePTY then mret 0 else
  if t =? ObjectTypeFileSystem then mret 0 else
  if t =? ObjectTypePipe then sys_write_pipe fd ubuf count else
  mret (-1).

(** ** fs.c: the services *)

Definition sys_read (fd ubuf count : Z) : M fsys Z :=
  if fd <? 0 then mret (- EBADF) else
  k ← gets kern;
  if (fd =? 0) && negb (current_thread k =? foreground_thread k) then mret (- EPERM) else
  if ubuf <? CONTROLTHREAD_BASE then panic "sys_read: Invalid ubuf" else
  if count =? 0 then mret (- EINVAL) else
  __read_imp fd ubuf count.

Definition sys_write (fd ubuf count : Z) : M fsys Z :=
  if fd <? 0 then mret (- EBADF) else
  if ubuf <? CONTROLTHREAD_BASE then panic "sys_write: Invalid ubuf" else
  if count =? 0 then mret (- EINVAL) else
  __write_imp fd ubuf count.

(** The open file of the current process that the sync services act on;
    [None]: there is none. *)
Definition synced_file (fd : Z) : M fsys (option (Z * file_d)) :=
  pid ← on_pt get_current_process;
  if (pid <? 0) || (PROCESS_COUNT_MAX <=? pid) then mret None else
  p ← on_pt (processList_at pid);
  if p =? NULL then mret None else
  x ← on_pt (deref_process p);
  if negb (p_magic x =? 1234) then mret None else
  object ← object_at p fd;
  if object =? NULL then mret None else
  y ← deref_file object;
  if negb (f_used y =? TRUE) || negb (f_magic y =? 1234) then mret None else
  mret (Some (object, y)).

Definition sys_set_file_sync (fd request data : Z) : M fsys unit :=
  if bad_fd fd then mret tt else
  o ← synced_file fd;
  match o with
  | None => mret tt
  | Some (object, x) =>
      let acted (v : Z) (x : file_d) := x <| sync := (sync x) <| action := v |> |> in
      if request =? SYNC_REQUEST_SET_ACTION then put_file object (acted data x)
      else if request =? SYNC_REQUEST_RESET_WR then
        put_file object ((acted 0 x) <| _flags := __SWR |>);;
        k_rewind object;;
        update_file object (fun x => x <| _r := 0 |> <| _w := 0 |> <| socket_buffer_full := FALSE |>)
      else if request =? SYNC_REQUEST_RESET_RD then
        put_file object ((acted 0 x) <| _flags := __SRD |>)
      else mret tt
  end.

Definition sys_get_file_sync (fd request : Z) : M fsys Z :=
  if bad_fd fd then mret (- EBADF) else
  o ← synced_file fd;
  match o with
  | None => mret (-1)
  | Some (_, x) =>
      if request =? SYNC_REQUEST_GET_ACTION then mret (action (sync x)) else mret (-1)
  end.

Definition sys_sleep_if_socket_is_empty (fd : Z) : M fsys Z :=
  if bad_fd fd then mret (- EBADF) else
  o ← synced_file fd;
  match o with
  | None => mret (-1)
  | Some (object, x) =>
      if negb (f_object x =? ObjectTypeSocket) then mret (-1) else
      if socket_buffer_full x =? FALSE then
        c ← gets (fun s => current_thread (kern s));
        put_file object (x <| _flags := u16 (Z.lor (_flags x) __SWR) |> <| tid_waiting := c |>);;
        mret FALSE
      else if socket_buffer_full x =? TRUE then
        put_file object (x <| _flags := u16 (Z.lor (_flags x) __SRD) |>);;
        mret TRUE
      else mret (-1)
  end.

(** Every known command is refused. *)
Definition sys_fcntl (fd cmd arg : Z) : M fsys Z :=
  if bad_fd fd then mret (- EBADF) else
  if cmd <? 0 then mret (- EINVAL) else
  if cmd <=? F_FREESP then mret (-1) else mret (- EINVAL).

Definition fs_get_free_fd_from_pid (pid : Z) : M fsys Z :=
  if (pid <? 0) || (PROCESS_COUNT_MAX <=? pid) then mret (-1) else
  p ← on_pt (processList_at pid);
  if p =? NULL then mret (-1) else
  x ← on_pt (deref_process p);
  if negb (p_used x =? TRUE) || negb (p_magic x =? 1234) then mret (-1) else
  r ← for_return (range 0 32) (fun i => v ← object_at p i; mret (if v =? 0 then Some i else None));
  mret (default (-1) r).

(** ** Specification *)

(** A socket structure shared by processes is a mailbox with one place: its
    state, and the bytes of its buffer. *)
Inductive box : Type :=
  | BEmpty      (** may be written *)
  | BFull       (** holds a message *)
  | BStuck.     (** neither *)

#[export] Instance box_eq_dec : EqDecision box.
Proof. solve_decision. Defined.

(** What the processes do: the current process becomes [pid]; it stores a text in
    its memory and writes it, or it reads, or it resets the socket. *)
Inductive box_op : Type :=
  | XWrite (pid fd src : Z) (data : list Z)
  | XRead (pid fd dst n : Z)
  | XReset (pid fd : Z).

Definition run_box (op : box_op) : M fsys (Z * list Z) :=
  match op with
  | XWrite pid fd src data =>
      on_pt (set_current_process pid);;
      modify (set_ram (put src data));;
      n ← sys_write fd src (zlen data);
      mret (n, [])
  | XRead pid fd dst n =>
      on_pt (set_current_process pid);;
      k ← sys_read fd dst n;
      l ← gets (fun s => bytes_at (ram s) dst k);
      mret (k, l)
  | XReset pid fd =>
      on_pt (set_current_process pid);;
      sys_set_file_sync fd SYNC_REQUEST_RESET_WR 0;;
      mret (0, [])
  end.

Fixpoint run_boxes (ops : list box_op) : M fsys (list (Z * list Z)) :=
  match ops with
  | [] => mret []
  | op :: ops => r ← run_box op; rs ← run_boxes ops; mret (r :: rs)
  end.

Definition spec_box (op : box_op) (b : box * list Z) : (Z * list Z) * (box * list Z) :=
  match op, b.1 with
  | XWrite _ _ _ data, BEmpty =>
      if zlen data <? BUFSIZ
      then ((zlen data, []), (BFull, data ++ drop (length data) b.2))
      else ((-1, []), (BStuck, b.2))
  | XWrite _ _ _ _, st => ((-1, []), (st, b.2))
  | XRead _ _ _ n, BFull =>
      let c := Z.land n 65535 in
      if (c <=? 0) || (BUFSIZ <? c) then ((-1, []), (BFull, b.2))
      else ((c, take (Z.to_nat c) b.2), (BEmpty, b.2))
  | XRead _ _ _ _, st => ((-1, []), (st, b.2))
  | XReset _ _, _ => ((0, []), (BEmpty, b.2))
  end.

Fixpoint spec_boxes (ops : list box_op) (b : box * list Z) : list (Z * list Z) * (box * list Z) :=
  match ops with
  | [] => ([], b)
  | op :: ops =>
      let '(r, b) := spec_box op b in
      let '(rs, b) := spec_boxes ops b in
      (r :: rs, b)
  end.

(** Process [h.1] is valid and its descriptor [h.2] is the file [f]. *)
Definition holder (k : kst) (f : Z) (h : Z * Z) : Prop :=
  0 <= h.1 < PROCESS_COUNT_MAX /\ 0 < h.2 < OPEN_MAX /\
  exists p x, zlookup (processList (pt k)) h.1 = Some p /\ p <> NULL /\
    procs (pt k) !! p = Some x /\ p_used x = TRUE /\ p_magic x = 1234 /\
    zlookup (p_Objects x) h.2 = Some f.

(** The calls are made by holders, with buffers of user space that are apart from
    the buffer of the socket, and ask for something. *)
Definition box_op_ok (holders : list (Z * Z)) (base : Z) (op : box_op) : Prop :=
  match op with
  | XWrite pid fd src data => (pid, fd) ∈ holders /\ CONTROLTHREAD_BASE <= src /\
      0 < zlen data < 2 ^ 31 /\ apart src (zlen data) base BUFSIZ /\
      Forall (fun c => 0 <= c < 256) data
  | XRead pid fd dst n => (pid, fd) ∈ holders /\ CONTROLTHREAD_BASE <= dst /\
      0 < n < 2 ^ 31 /\ apart dst (Z.land n 65535) base BUFSIZ
  | XReset pid fd => (pid, fd) ∈ holders
  end.

(** The structure of a socket in a state of the mailbox. *)
Record wf_socket (base : Z) (st : box) (x : file_d) : Prop := {
  wk_kind : f_object x = ObjectTypeSocket;
  wk_used : f_used x = TRUE;
  wk_magic : f_magic x = 1234;
  wk_file : STDERR_FILENO < _file x;
  wk_size : _lbfsize x = BUFSIZ;
  wk_base : _base x = base;
  wk_sync : can_read (sync x) = TRUE /\ can_write (sync x) = TRUE;
  wk_full : socket_buffer_full x = match st with BFull => TRUE | _ => FALSE end;
  wk_flags : match st with
             | BEmpty => flag __SWR (_flags x) = true /\ flag __SRD (_flags x) = false
             | BFull => _flags x = __SRD
             | BStuck => _flags x = 0
             end
}.

Record box_rel (holders : list (Z * Z)) (f base : Z) (s : fsys) (b : box * list Z) : Prop := {
  br_threads : wf_threads (kern s);
  br_holders : Forall (holder (kern s) f) holders;
  br_file : exists x, files s !! f = Some x /\ wf_socket base b.1 x;
  br_bytes : bytes (ram s);
  br_buffer : bytes_at (ram s) base BUFSIZ = b.2
}.

(** ** Lemmas on the calls *)

(** The microkernel still has its threads and the objects of its processes. *)
Record kst_kept (k k' : kst) : Prop := {
  kk_threads : wf_threads k -> wf_threads k';
  kk_pid : current_pid (pt k') = current_pid (pt k);
  kk_holder : forall f h, holder k f h -> holder k' f h
}.

#[local] Instance kst_kept_preorder : PreOrder kst_kept.
Proof.
  split; [by split|]. intros k1 k2 k3 [Hw1 Hc1 Hh1] [Hw2 Hc2 Hh2].
  split; [by auto|congruence|by auto].
Qed.

(** A request to a thread. *)
Lemma thread_request s op : wf_threads (kern s) ->
  exists k, on_kern (run_op op) s = Done tt (s <| kern := k |>) /\ kst_kept (kern s) k.
Proof.
  intros Hw. destruct (run_op_refines (kern s) op Hw) as (k & E & Hwk & Hg & _).
  exists k. unfold on_kern. rewrite E. split; [done|]. unfold same_globals in Hg.
  split; [done|by rewrite Hg|]. intros f h. rewrite Hg. done.
Qed.

Lemma credit_done s : wf_threads (kern s) ->
  exists k, credit_current s = Done tt (s <| kern := k |>) /\ kst_kept (kern s) k.
Proof. exact (thread_request s (OpCredits (current_thread (kern s)))). Qed.

Lemma yield_done s : wf_threads (kern s) ->
  exists k, yield_current s = Done tt (s <| kern := k |>) /\ kst_kept (kern s) k.
Proof. exact (thread_request s (OpYield (current_thread (kern s)))). Qed.

Lemma on_pt_Done {A} (m : M ptab A) s a :
  m (pt (kern s)) = Done a (pt (kern s)) -> on_pt m s = Done a s.
Proof.
  intros E. unfold on_pt, on_kern, on_ptab. rewrite E. by destruct s as [[] ? ? ? ?].
Qed.

Lemma on_pt_gets {A} (g : ptab -> A) s : on_pt (gets g) s = Done (g (pt (kern s))) s.
Proof. by apply on_pt_Done. Qed.

Lemma on_pt_getsome {A} (g : ptab -> option A) s a :
  g (pt (kern s)) = Some a -> on_pt (getsome g) s = Done a s.
Proof. intros E. apply on_pt_Done. unfold getsome. by rewrite E. Qed.

Lemma get_file_spec s f pid fd :
  holder (kern s) f (pid, fd) -> current_pid (pt (kern s)) = pid -> get_file_from_fd fd s = Done f s.
Proof.
  intros (Hpid & Hfd & p & x & Hl & Hp & Hx & Hu & Hm & Ho) Hc. cbn in *. unfold OPEN_MAX in *.
  unfold get_file_from_fd, get_current_process, object_at, processList_at, deref_process, NULL in *.
  zguard.
  rewrite (bind_Done _ _ _ _ _ (on_pt_gets _ _)), Hc. zguard.
  rewrite (bind_Done _ _ _ _ _ (on_pt_getsome _ _ _ Hl)). zguard.
  rewrite (bind_Done _ _ _ _ _ (on_pt_getsome _ _ _ Hx)), Hu, Hm. cbn [negb Z.eqb Pos.eqb TRUE].
  rewrite (bind_Done _ _ _ _ _ (on_pt_getsome _ _ _ Hx)).
  unfold getsome. by rewrite Ho.
Qed.

(** The state with one process structure changed. *)
Definition with_process (p : Z) (x : process_d) (s : fsys) : fsys :=
  s <| kern := (kern s) <| pt := (pt (kern s)) <| procs := <[p := x]> (procs (pt (kern s))) |> |> |>.

Lemma update_process_done s p x g :
  procs (pt (kern s)) !! p = Some x -> on_pt (update_process p g) s = Done tt (with_process p (g x) s).
Proof.
  intros Hx. unfold on_pt, on_kern, on_ptab, update_process, deref_process.
  by rewrite (bind_getsome _ _ _ x) by exact Hx.
Qed.

(** A call is counted; nothing that makes a holder changes. *)
Lemma calling_spec s f pid fd g :
  holder (kern s) f (pid, fd) -> current_pid (pt (kern s)) = pid ->
  (forall x, p_used (g x) = p_used x /\ p_magic (g x) = p_magic x /\ p_Objects (g x) = p_Objects x) ->
  exists p k, calling_process g s = Done (Some p) (s <| kern := k |>) /\ kst_kept (kern s) k.
Proof.
  intros (Hpid & Hfd & p & x & Hl & Hp & Hx & Hu & Hm & Ho) Hc Hg. cbn in *.
  unfold calling_process, get_current_process, processList_at, deref_process, NULL in *.
  rewrite (bind_Done _ _ _ _ _ (on_pt_gets _ _)), Hc. zguard.
  rewrite (bind_Done _ _ _ _ _ (on_pt_getsome _ _ _ Hl)). zguard.
  rewrite (bind_Done _ _ _ _ _ (on_pt_getsome _ _ _ Hx)), Hu, Hm. cbn [negb orb Z.eqb Pos.eqb TRUE].
  rewrite (bind_Done _ _ _ _ _ (update_process_done s p x g Hx)).
  eexists p, _. split; [reflexivity|].
  split; [intros [? ? ?]; by split|done|].
  intros f' h (Hh1 & Hh2 & p' & x' & Hl' & Hp' & Hx' & Hu' & Hm' & Ho').
  split; [done|]. split; [done|]. destruct (decide (p = p')) as [->|Hne].
  - exists p', (g x'). destruct (Hg x') as (-> & -> & ->). cbn. unfold NULL.
    assert (x = x') as -> by congruence. rewrite lookup_insert_eq. done.
  - exists p', x'. cbn. unfold NULL. rewrite lookup_insert_ne by done. done.
Qed.

Lemma switch_spec s pid :
  exists k, on_pt (set_current_process pid) s = Done tt (s <| kern := k |>) /\
    current_pid (pt k) = pid /\ (wf_threads (kern s) -> wf_threads k) /\
    forall f h, holder (kern s) f h -> holder k f h.
Proof.
  eexists. split; [reflexivity|]. split; [done|]. split; [intros [? ? ?]; by split|done].
Qed.

(** ** Lemmas on a socket *)

(** The part of the relation that is about the structure and its buffer. *)
Definition box_mem (f base : Z) (s : fsys) (b : box * list Z) : Prop :=
  (exists x, files s !! f = Some x /\ wf_socket base b.1 x) /\
  bytes (ram s) /\ bytes_at (ram s) base BUFSIZ = b.2.

Lemma flag_lor_SWR a : flag __SWR (u16 (Z.lor a __SWR)) = true.
Proof.
  unfold flag, u16, __SWR. apply negb_true_iff, Z.eqb_neq. intros E.
  assert (T : Z.testbit (Z.land (Z.lor a 8 mod 2 ^ 16) 8) 3 = true).
  { rewrite Z.land_spec, Z.mod_pow2_bits_low by lia. by rewrite Z.lor_spec, orb_true_r. }
  by rewrite E in T.
Qed.

Lemma flag_testbit n b a : 0 <= n -> b = 2 ^ n -> flag b a = Z.testbit a n.
Proof.
  intros Hn ->. unfold flag. destruct (Z.testbit a n) eqn:E.
  - apply negb_true_iff, Z.eqb_neq. intros H.
    assert (T : Z.testbit (Z.land a (2 ^ n)) n = true) by (by rewrite Z.land_spec, E, Z.pow2_bits_true).
    by rewrite H, Z.bits_0 in T.
  - apply negb_false_iff, Z.eqb_eq, Z.bits_inj'. intros m Hm. rewrite Z.land_spec, Z.bits_0.
    destruct (decide (n = m)) as [<-|Hne]; [by rewrite E|].
    by rewrite Z.pow2_bits_false, andb_false_r by done.
Qed.

(** The flags after a read: it may be written and may not be read. *)
Lemma flags_after_read a :
  let v := u16 (Z.lor (Z.land a (Z.lnot __SRD)) __SWR) in flag __SWR v = true /\ flag __SRD v = false.
Proof.
  split; [apply flag_lor_SWR|]. rewrite (flag_testbit 2) by done. unfold u16, __SRD, __SWR.
  rewrite Z.mod_pow2_bits_low, Z.lor_spec, Z.land_spec by lia.
  by rewrite Z.lnot_spec, andb_false_r by lia.
Qed.

Lemma socket_fill s f x base st src len :
  files s !! f = Some x -> wf_socket base st x -> f <> NULL -> src <> NULL -> len < BUFSIZ ->
  file_write_buffer f src len s = Done len (set_ram (memcpy base src len) s).
Proof.
  intros Hf [Hk _ _ _ _ Hb _ _ _] Hfn Hsn Hlen. unfold file_write_buffer, NULL in *. zguard.
  rewrite (bind_Done _ _ _ _ _ (deref_file_Done _ _ _ Hf)), Hk, Hb. done.
Qed.

Lemma socket_drain s f x base st dst n :
  files s !! f = Some x -> wf_socket base st x -> f <> NULL -> dst <> NULL ->
  let c := Z.land n 65535 in
  file_read_buffer f dst n s =
    if (c <=? 0) || (BUFSIZ <? c) then Done EOF s else
    Done c ((set_ram (memcpy dst base c) s)
      <| files := <[f := x <| _flags := u16 (Z.lor (_flags x) __SWR) |>]> (files s) |>).
Proof.
  intros Hf [Hk Hu Hm _ Hsz Hb _ _ _] Hfn Hdn c. unfold file_read_buffer, NULL in *. fold c. zguard.
  rewrite (bind_Done _ _ _ _ _ (deref_file_Done _ _ _ Hf)), Hk, Hb, Hu, Hm, Hsz.
  cbn [negb orb Z.eqb Pos.eqb TRUE]. zguard. by destruct (c <=? 0), (BUFSIZ <? c).
Qed.

Lemma wf_socket_update base st st' x y :
  wf_socket base st x -> y = x <| socket_buffer_full := socket_buffer_full y |>
    <| _flags := _flags y |> <| tid_waiting := tid_waiting y |> ->
  socket_buffer_full y = match st' with BFull => TRUE | _ => FALSE end ->
  match st' with
  | BEmpty => flag __SWR (_flags y) = true /\ flag __SRD (_flags y) = false
  | BFull => _flags y = __SRD
  | BStuck => _flags y = 0
  end -> wf_socket base st' y.
Proof. intros [] Ey Hf Hg. split; try done; by rewrite Ey. Qed.

(** A read finds no message. *)
Lemma read_socket_none s f base b dst n :
  wf_threads (kern s) -> box_mem f base s b -> b.1 <> BFull ->
  exists k, read_socket f dst n s = Done (-1) (s <| kern := k |>) /\ kst_kept (kern s) k.
Proof.
  intros Hw ((x & Hf & Hx) & _) Hn. destruct (credit_done s Hw) as (k & E & Hk). exists k.
  split; [|done]. unfold read_socket. rewrite (bind_Done _ _ _ _ _ E).
  set (s1 := s <| kern := k |>). assert (Hf1 : files s1 !! f = Some x) by done.
  rewrite (bind_Done _ _ _ _ _ (deref_file_Done _ _ _ Hf1)).
  pose proof (wk_flags _ _ _ Hx) as Hfl. destruct b.1; [by destruct Hfl as [_ ->]|done|by rewrite Hfl].
Qed.

(** A read takes the message. *)
Lemma read_socket_full s f base b dst n :
  wf_threads (kern s) -> box_mem f base s b -> b.1 = BFull -> f <> NULL -> dst <> NULL ->
  let c := Z.land n 65535 in apart dst c base BUFSIZ ->
  exists s', kst_kept (kern s) (kern s') /\
    if (c <=? 0) || (BUFSIZ <? c)
    then read_socket f dst n s = Done (-1) s' /\ box_mem f base s' b
    else read_socket f dst n s = Done c s' /\ box_mem f base s' (BEmpty, b.2) /\
         bytes_at (ram s') dst c = take (Z.to_nat c) b.2.
Proof.
  intros Hw ((x & Hf & Hx) & Hm & HB) Hst Hfn Hdn c Ha. rewrite Hst in Hx.
  destruct (credit_done s Hw) as (k & E & Hk). unfold read_socket. rewrite (bind_Done _ _ _ _ _ E).
  set (s1 := s <| kern := k |>). assert (Hf1 : files s1 !! f = Some x) by done.
  rewrite (bind_Done _ _ _ _ _ (deref_file_Done _ _ _ Hf1)).
  rewrite (wk_flags _ _ _ Hx), (wk_full _ _ _ Hx). change (flag __SRD __SRD) with true.
  cbn [negb]. change (TRUE =? FALSE) with false. change (TRUE =? TRUE) with true. cbn iota.
  pose proof (socket_drain s1 f x base BFull dst n Hf1 Hx Hfn Hdn) as Ed. cbv zeta in Ed. fold c in Ed.
  destruct ((c <=? 0) || (BUFSIZ <? c)) eqn:Ec.
  { rewrite (bind_Done _ _ _ _ _ Ed). exists s1. split; [done|]. split; [done|].
    split; [|done]. exists x. rewrite Hst. done. }
  apply orb_false_iff in Ec as [E1%Z.leb_gt E2%Z.ltb_ge].
  rewrite (bind_Done _ _ _ _ _ Ed). zguard. unfold update_file.
  rewrite bind_bind. erewrite (bind_Done (deref_file f)) by (apply deref_file_Done, lookup_insert_eq).
  unfold put_file. rewrite bind_modify. cbn beta.
  eexists. split; [|split; [reflexivity|]]; [done|].
  set (m1 := memcpy dst base c (ram s)). unfold BUFSIZ in *.
  assert (Hcp : apart dst c base c) by (unfold apart in *; lia).
  assert (Hc64 : 0 <= c < 2 ^ 64) by lia.
  split; [split; [|split]|].
  - eexists. split; [apply lookup_insert_eq|].
    eapply (wf_socket_update base BFull BEmpty x); [done|done|done|apply flags_after_read].
  - by apply memcpy_bytes.
  - cbn. change (mem (kheap s)) with (ram s). by rewrite memcpy_keeps.
  - cbn. change (mem (kheap s)) with (ram s). rewrite memcpy_copies by done. rewrite <- HB.
    replace 1024 with (c + (1024 - c)) by lia. rewrite bytes_at_app by lia.
    symmetry. apply take_zlen, length_bytes_at. lia.
Qed.

(** A write leaves a message, or is refused; a refused write of too many bytes
    has cleared the flags. *)
Lemma write_socket_spec s f base b src data :
  wf_threads (kern s) -> box_mem f base s b -> f <> NULL -> src <> NULL ->
  0 < zlen data -> apart src (zlen data) base BUFSIZ -> bytes_at (ram s) src (zlen data) = data ->
  let r := spec_box (XWrite 0 0 src data) b in
  exists s', write_socket f src (zlen data) s = Done r.1.1 s' /\ kst_kept (kern s) (kern s') /\
    box_mem f base s' r.2.
Proof.
  intros Hw ((x & Hf & Hx) & Hm & HB) Hfn Hsn Hd Ha Hsrc r.
  destruct (credit_done s Hw) as (k & E & Hk). unfold write_socket. rewrite (bind_Done _ _ _ _ _ E).
  set (s1 := s <| kern := k |>). assert (Hf1 : files s1 !! f = Some x) by done.
  rewrite (bind_Done _ _ _ _ _ (deref_file_Done _ _ _ Hf1)).
  destruct b as [st B]. assert (Hfl := wk_flags _ _ _ Hx). assert (Hfu := wk_full _ _ _ Hx). cbn in *.
  assert (Hwr : flag __SWR (_flags x) = match st with BEmpty => true | _ => false end).
  { destruct st; [by destruct Hfl|by rewrite Hfl..]. }
  rewrite Hwr. destruct st; cbn [negb];
    try (exists s1; split; [done|]; split; [done|]; split; [by exists x|done]).
  rewrite Hfu. change (FALSE =? TRUE) with false. change (FALSE =? FALSE) with true. cbn iota.
  unfold put_file. rewrite bind_modify. cbn beta.
  set (y := x <| _flags := 0 |>). set (s2 := s1 <| files := <[f := y]> (files s1) |>).
  assert (Hf2 : files s2 !! f = Some y) by apply lookup_insert_eq.
  assert (Hy : wf_socket base BStuck y) by by apply (wf_socket_update base BEmpty BStuck x).
  subst r. destruct (Z.ltb_spec (zlen data) BUFSIZ) as [Hl|Hl].
  - rewrite (bind_Done _ _ _ _ _ (socket_fill s2 f y base BStuck src _ Hf2 Hy Hfn Hsn Hl)).
    zguard. rewrite bind_gets. unfold update_file. rewrite bind_bind.
    erewrite (bind_Done (deref_file f)) by (apply deref_file_Done, lookup_insert_eq).
    unfold put_file. rewrite bind_modify. cbn beta.
    eexists. split; [reflexivity|]. split; [done|]. unfold BUFSIZ in *.
    assert (Hcp : apart base (zlen data) src (zlen data)) by (unfold apart in *; lia).
    split; [|split].
    + eexists. split; [apply lookup_insert_eq|].
      by eapply (wf_socket_update base BStuck BFull y).
    + apply memcpy_bytes; [done|lia|done].
    + cbn. change (mem (kheap s)) with (ram s). rewrite <- HB. unfold BUFSIZ.
      replace 1024 with (zlen data + (1024 - zlen data)) by lia. rewrite !bytes_at_app by lia.
      rewrite memcpy_copies by (done || lia). rewrite memcpy_keeps by (done || lia || (unfold apart; lia)).
      rewrite Hsrc. f_equal. symmetry.
      replace (length data) with (Z.to_nat (zlen data)) by (unfold zlen; lia).
      apply drop_zlen, length_bytes_at. lia.
  - rewrite (bind_Done _ _ _ _ _ (write_big s2 f src _ Hl)). cbn [Z.leb Z.compare EOF].
    destruct (yield_done s2) as (k2 & E2 & Hk2); [by apply (kk_threads _ _ Hk)|].
    rewrite (bind_Done _ _ _ _ _ E2). eexists. split; [reflexivity|].
    split; [by transitivity k|]. split; [by exists y|done].
Qed.

(** ** Lemmas on the services *)

Lemma write_imp_socket s f base b pid fd ubuf count :
  holder (kern s) f (pid, fd) -> current_pid (pt (kern s)) = pid -> box_mem f base s b ->
  f <> NULL -> ubuf <> NULL -> 0 < count ->
  exists k, kst_kept (kern s) k /\
    __write_imp fd ubuf count s = write_socket f ubuf count (s <| kern := k |>).
Proof.
  intros Hh Hc ((x & Hf & Hx) & _) Hfn Hu Hn. pose proof Hh as (_ & Hfd & _). cbn in Hfd.
  edestruct (calling_spec s f pid fd) as (p & k & E & Hk); [done|done| |].
  2: { exists k. split; [done|]. unfold __write_imp. rewrite (bind_Done _ _ _ _ _ E).
    rewrite bool_decide_eq_false_2 by done. unfold bad_fd, OPEN_MAX, NULL in *. cbn beta. zguard. cbn [orb].
    set (s1 := s <| kern := k |>).
    assert (Hh1 : holder (kern s1) f (pid, fd)) by by apply (kk_holder _ _ Hk).
    assert (Hc1 : current_pid (pt (kern s1)) = pid) by (rewrite <- Hc; apply (kk_pid _ _ Hk)).
    rewrite (bind_Done _ _ _ _ _ (get_file_spec s1 f pid fd Hh1 Hc1)). zguard.
    rewrite (bind_Done _ _ _ _ _ (deref_file_Done s1 f x Hf)). destruct Hx as [Ho _ _ Hfile _ _ Hs _ _].
    destruct Hs as [_ ->]. rewrite Ho. unfold STDIN_FILENO, STDOUT_FILENO, STDERR_FILENO in *.
    cbn [negb Z.eqb Pos.eqb TRUE]. by zguard. }
  by intros y.
Qed.

Lemma read_imp_socket s f base b pid fd ubuf count :
  holder (kern s) f (pid, fd) -> current_pid (pt (kern s)) = pid -> box_mem f base s b ->
  f <> NULL -> ubuf <> NULL -> 0 < count ->
  exists k, kst_kept (kern s) k /\
    __read_imp fd ubuf count s = read_socket f ubuf count (s <| kern := k |>).
Proof.
  intros Hh Hc ((x & Hf & Hx) & _) Hfn Hu Hn. pose proof Hh as (_ & Hfd & _). cbn in Hfd.
  edestruct (calling_spec s f pid fd) as (p & k & E & Hk); [done|done| |].
  2: { exists k. split; [done|]. unfold __read_imp. rewrite (bind_Done _ _ _ _ _ E).
    rewrite bool_decide_eq_false_2 by done. unfold bad_fd, OPEN_MAX, NULL in *. cbn beta. zguard. cbn [orb].
    set (s1 := s <| kern := k |>).
    assert (Hh1 : holder (kern s1) f (pid, fd)) by by apply (kk_holder _ _ Hk).
    assert (Hc1 : current_pid (pt (kern s1)) = pid) by (rewrite <- Hc; apply (kk_pid _ _ Hk)).
    rewrite (bind_Done _ _ _ _ _ (get_file_spec s1 f pid fd Hh1 Hc1)). zguard.
    rewrite (bind_Done _ _ _ _ _ (deref_file_Done s1 f x Hf)). destruct Hx as [Ho _ _ _ _ _ Hs _ _].
    destruct Hs as [-> _]. rewrite Ho. done. }
  by intros y.
Qed.

Lemma synced_spec s f base b pid fd :
  holder (kern s) f (pid, fd) -> current_pid (pt (kern s)) = pid -> box_mem f base s b -> f <> NULL ->
  exists x, files s !! f = Some x /\ wf_socket base b.1 x /\ synced_file fd s = Done (Some (f, x)) s.
Proof.
  intros Hh Hc ((x & Hf & Hx) & _) Hfn. exists x. split; [done|]. split; [done|].
  destruct Hh as (Hpid & Hfd & p & y & Hl & Hp & Hy & Hu & Hm & Ho). cbn in *.
  unfold synced_file, get_current_process, object_at, processList_at, deref_process, NULL in *.
  rewrite (bind_Done _ _ _ _ _ (on_pt_gets _ _)), Hc. zguard.
  rewrite (bind_Done _ _ _ _ _ (on_pt_getsome _ _ _ Hl)). zguard.
  rewrite (bind_Done _ _ _ _ _ (on_pt_getsome _ _ _ Hy)), Hm. cbn [negb Z.eqb Pos.eqb TRUE].
  rewrite bind_bind, (bind_Done _ _ _ _ _ (on_pt_getsome _ _ _ Hy)), (bind_getsome _ _ _ f) by done.
  zguard. rewrite (bind_Done _ _ _ _ _ (deref_file_Done _ _ _ Hf)).
  by rewrite (wk_used _ _ _ Hx), (wk_magic _ _ _ Hx).
Qed.

(** ** The mailbox *)

Lemma box_rel_intro holders f base s0 s b :
  Forall (holder (kern s0) f) holders -> wf_threads (kern s0) ->
  (wf_threads (kern s0) -> wf_threads (kern s)) ->
  (forall h, holder (kern s0) f h -> holder (kern s) f h) ->
  box_mem f base s b -> box_rel holders f base s b.
Proof.
  intros Hh Hw Hk1 Hk2 (Hx & Hm & HB). split; [by auto| |done|done|done].
  eapply Forall_impl; [exact Hh|]. intros h. apply Hk2.
Qed.

Lemma spec_write_eq pid fd src data b :
  spec_box (XWrite pid fd src data) b = spec_box (XWrite 0 0 src data) b.
Proof. done. Qed.

Lemma box_write holders f base s b pid fd src data :
  f <> NULL -> box_rel holders f base s b -> box_op_ok holders base (XWrite pid fd src data) ->
  let r := spec_box (XWrite pid fd src data) b in
  exists s', run_box (XWrite pid fd src data) s = Done r.1 s' /\ box_rel holders f base s' r.2.
Proof.
  intros Hf [Hw Hh Hx Hm HB] (Hin & Hsrc & Hlen & Ha & Hd) r.
  pose proof (proj1 (Forall_forall _ _) Hh _ Hin) as Hpf.
  destruct (switch_spec s pid) as (k & E & Hc & Hkw & Hkh). unfold run_box.
  rewrite (bind_Done _ _ _ _ _ E), bind_modify. cbn beta. set (s1 := set_ram _ _).
  assert (Hsn : src <> NULL) by (unfold CONTROLTHREAD_BASE, NULL in *; lia).
  assert (Hbm : box_mem f base s1 b).
  { split; [done|]. split; [by apply put_bytes|]. rewrite <- HB. apply bytes_at_ext. intros y Hy.
    apply put_outside. unfold apart in Ha. lia. }
  pose proof (Hkh f _ Hpf) as Hpf1. pose proof Hpf1 as (_ & Hfd & _). cbn in Hfd.
  destruct (write_imp_socket s1 f base b pid fd src (zlen data)) as (k2 & Hk2 & E2);
    [done|done|done|done|done|lia|].
  destruct (write_socket_spec (s1 <| kern := k2 |>) f base b src data) as (s3 & E3 & Hk3 & Hb3);
    [apply (kk_threads _ _ Hk2), Hkw, Hw|done|done|done|lia|done|apply bytes_at_put|].
  exists s3. unfold sys_write, CONTROLTHREAD_BASE in *. zguard.
  rewrite (bind_Done _ _ _ _ _ (eq_trans E2 E3)). split.
  - subst r. rewrite (spec_write_eq pid fd). destruct b as [[] B]; cbn; by try case_match.
  - subst r. apply (box_rel_intro holders f base s); [done|done| | |done].
    + intros _. apply (kk_threads _ _ Hk3), (kk_threads _ _ Hk2), Hkw, Hw.
    + intros h Hold. by apply (kk_holder _ _ Hk3), (kk_holder _ _ Hk2), Hkh.
Qed.

Lemma box_read holders f base s b pid fd dst n :
  f <> NULL -> box_rel holders f base s b -> box_op_ok holders base (XRead pid fd dst n) ->
  let r := spec_box (XRead pid fd dst n) b in
  exists s', run_box (XRead pid fd dst n) s = Done r.1 s' /\ box_rel holders f base s' r.2.
Proof.
  intros Hf [Hw Hh Hx Hm HB] (Hin & Hdst & Hn & Ha) r.
  pose proof (proj1 (Forall_forall _ _) Hh _ Hin) as Hpf.
  destruct (switch_spec s pid) as (k & E & Hc & Hkw & Hkh). unfold run_box.
  rewrite (bind_Done _ _ _ _ _ E). set (s1 := s <| kern := k |>).
  assert (Hdn : dst <> NULL) by (unfold CONTROLTHREAD_BASE, NULL in *; lia).
  assert (Hbm : box_mem f base s1 b) by done.
  pose proof (Hkh f _ Hpf) as Hpf1. pose proof Hpf1 as (_ & Hfd & _). cbn in Hfd.
  destruct (read_imp_socket s1 f base b pid fd dst n) as (k2 & Hk2 & E2);
    [done|done|done|done|done|lia|].
  assert (Hw2 : wf_threads k2) by apply (kk_threads _ _ Hk2), Hkw, Hw.
  assert (Hsys : sys_read fd dst n s1 = read_socket f dst n (s1 <| kern := k2 |>)).
  { unfold sys_read, CONTROLTHREAD_BASE in *. zguard. rewrite bind_gets. cbn [andb]. by zguard. }
  assert (Hfin : forall s3 b', kst_kept k2 (kern s3) -> box_mem f base s3 b' -> box_rel holders f base s3 b').
  { intros s3 b' Hk3 Hb3. apply (box_rel_intro holders f base s); [done|done| | |done].
    - intros _. by apply (kk_threads _ _ Hk3).
    - intros h Hold. by apply (kk_holder _ _ Hk3), (kk_holder _ _ Hk2), Hkh. }
  destruct (decide (b.1 = BFull)) as [Hst|Hst].
  - destruct (read_socket_full (s1 <| kern := k2 |>) f base b dst n) as (s3 & Hk3 & E3);
      [done|done|done|done|done|done|].
    destruct b as [st B]. cbn in Hst, E3, r. subst st r. exists s3.
    destruct ((Z.land n 65535 <=? 0) || (BUFSIZ <? Z.land n 65535)).
    + destruct E3 as [E3 Hb3]. rewrite (bind_Done _ _ _ _ _ (eq_trans Hsys E3)).
      rewrite bind_gets, bytes_at_nil by lia. split; [done|]. by apply Hfin.
    + destruct E3 as (E3 & Hb3 & Ht). rewrite (bind_Done _ _ _ _ _ (eq_trans Hsys E3)).
      rewrite bind_gets, Ht. split; [done|]. by apply Hfin.
  - destruct (read_socket_none (s1 <| kern := k2 |>) f base b dst n) as (k3 & E3 & Hk3); [done|done|done|].
    exists (s1 <| kern := k3 |>). rewrite (bind_Done _ _ _ _ _ (eq_trans Hsys E3)), bind_gets, bytes_at_nil by lia.
    subst r. destruct b as [[] B]; try done; (split; [done|]; by apply Hfin).
Qed.

Lemma box_reset holders f base s b pid fd :
  f <> NULL -> box_rel holders f base s b -> box_op_ok holders base (XReset pid fd) ->
  exists s', run_box (XReset pid fd) s = Done (0, []) s' /\ box_rel holders f base s' (BEmpty, b.2).
Proof.
  intros Hf [Hw Hh Hx Hm HB] Hin. pose proof (proj1 (Forall_forall _ _) Hh _ Hin) as Hpf.
  destruct (switch_spec s pid) as (k & E & Hc & Hkw & Hkh). unfold run_box.
  rewrite (bind_Done _ _ _ _ _ E). set (s1 := s <| kern := k |>).
  pose proof (Hkh f _ Hpf) as Hpf1. pose proof Hpf1 as (_ & Hfd & _). cbn in Hfd.
  destruct (synced_spec s1 f base b pid fd) as (x & Hx1 & Hwx & Es); [done|done|done|done|].
  unfold sys_set_file_sync, bad_fd, OPEN_MAX in *. zguard. cbn [orb].
  rewrite bind_bind, (bind_Done _ _ _ _ _ Es). pose proof Hwx as [? ? ? ? ? ? [? ?] _ _].
  cbn [Z.eqb Pos.eqb SYNC_REQUEST_RESET_WR SYNC_REQUEST_SET_ACTION].
  unfold put_file, k_rewind, update_file, NULL in *. rewrite !bind_bind, bind_modify. zguard.
  rewrite !bind_bind. erewrite (bind_Done (deref_file f)) by (apply deref_file_Done, lookup_insert_eq).
  unfold put_file. rewrite bind_modify, !bind_bind.
  erewrite (bind_Done (deref_file f)) by (apply deref_file_Done, lookup_insert_eq).
  rewrite bind_modify. eexists. split; [reflexivity|].
  apply (box_rel_intro holders f base s); [done|done|done|auto|].
  split; [|done]. eexists. split; [apply lookup_insert_eq|]. by split.
Qed.

Lemma run_boxes_spec holders f base ops : f <> NULL -> forall s b,
  box_rel holders f base s b -> Forall (box_op_ok holders base) ops ->
  exists s', run_boxes ops s = Done (spec_boxes ops b).1 s' /\
    box_rel holders f base s' (spec_boxes ops b).2.
Proof.
  intros Hf. induction ops as [|op ops IH]; intros s b Hr Hok; [by exists s|].
  apply Forall_cons in Hok as [Hop Hok].
  assert (exists s1, run_box op s = Done (spec_box op b).1 s1 /\ box_rel holders f base s1 (spec_box op b).2)
    as (s1 & E1 & Hr1).
  { destruct op; [by apply box_write|by apply box_read|by apply box_reset]. }
  destruct (IH s1 _ Hr1 Hok) as (s2 & E2 & Hr2). exists s2. cbn.
  destruct (spec_box op b) as [r b1]. cbn in *.
  rewrite (bind_Done _ _ _ _ _ E1), (bind_Done _ _ _ _ _ E2).
  by destruct (spec_boxes ops b1) as [rs b2].
Qed.

(** A stuck mailbox stays stuck without a reset. *)
Definition no_reset (op : box_op) : bool := match op with XReset _ _ => false | _ => true end.

Lemma spec_boxes_stuck ops B :
  forallb no_reset ops = true -> spec_boxes ops (BStuck, B) = (replicate (length ops) (-1, []), (BStuck, B)).
Proof.
  induction ops as [|op ops IH]; [done|]. cbn [forallb]. intros [Ho Hos]%andb_true_iff.
  cbn [spec_boxes]. destruct op; [..|done]; cbn; by rewrite (IH Hos).
Qed.

(** ** Lemmas on allocation and slots *)

(** The state between two allocations of a call: only the account of the current
    process and the heap move. *)
Definition alloc_kept (s s' : fsys) : Prop :=
  ram s' = ram s /\ current_user s' = current_user s /\ current_group s' = current_group s /\
  current_pid (pt (kern s')) = current_pid (pt (kern s)) /\
  processList (pt (kern s')) = processList (pt (kern s)).

Definition same_face (x y : process_d) : Prop :=
  p_used y = p_used x /\ p_magic y = p_magic x /\ p_Objects y = p_Objects x.

Lemma kmalloc_done s l size p x :
  wf_heap (kheap s) l -> current_valid (pt (kern s)) p x -> 0 < size < 2 ^ 31 ->
  g_heap_pointer (kheap s) + size + MMBLOCK_SIZE <= KERNEL_HEAP_END ->
  Z.of_nat (length l) + 1 < MMBLOCK_COUNT_MAX ->
  exists s' y, on_heap (kmalloc size) s = Done (g_heap_pointer (kheap s) + MMBLOCK_SIZE) s' /\
    wf_heap (kheap s') (l ++ [g_heap_pointer (kheap s)]) /\ files s' = files s /\
    g_heap_pointer (kheap s') = g_heap_pointer (kheap s) + MMBLOCK_SIZE + size /\
    alloc_kept s s' /\ current_valid (pt (kern s')) p y /\ same_face x y.
Proof.
  intros Hw Hc Hs Hfit Hn. pose proof (wh_available _ _ Hw) as Hav.
  destruct (kmalloc_fits ((kheap s) <| mptab := pt (kern s) |>) l size p x) as (h & E & Hw' & Hm & Hg & Hp);
    [by destruct Hw|done|lia|cbn; lia|done|].
  unfold on_heap. rewrite E.
  eexists _, (x <| p_allocated_memory := u64 (p_allocated_memory x + Z.max 1 size) |>).
  split; [reflexivity|]. split; [done|]. split; [done|].
  split; [cbn; rewrite Hg; cbn; lia|]. cbn. rewrite Hp. cbn.
  split; [by split_and!|]. destruct Hc as (? & ? & ? & ? & ? & ? & ?).
  split; [|by split].
  do 4 (split; [done|]). split; [apply lookup_insert_eq|done].
Qed.

Lemma alloc_kept_trans s1 s2 s3 : alloc_kept s1 s2 -> alloc_kept s2 s3 -> alloc_kept s1 s3.
Proof. intros (? & ? & ? & ? & ?) (? & ? & ? & ? & ?). split_and!; congruence. Qed.

(** The first free slot. *)
Definition first_free (objects : list Z) (i : Z) : Prop :=
  3 <= i < NUMBER_OF_FILES /\ zlookup objects i = Some 0 /\
  forall j, 3 <= j < i -> exists v, zlookup objects j = Some v /\ v <> 0.

Lemma object_at_spec s p x i v :
  procs (pt (kern s)) !! p = Some x -> zlookup (p_Objects x) i = Some v -> object_at p i s = Done v s.
Proof.
  intros Hx Hv. unfold object_at, deref_process.
  rewrite (bind_Done _ _ _ _ _ (on_pt_getsome _ _ _ Hx)). unfold getsome. by rewrite Hv.
Qed.

Lemma find_slot_spec s p x i :
  procs (pt (kern s)) !! p = Some x -> first_free (p_Objects x) i -> find_slot p s = Done (Some i) s.
Proof.
  intros Hx (Hi & H0 & Hlt). unfold find_slot, NUMBER_OF_FILES in *.
  assert (Hgo : forall n a, a + Z.of_nat n = i -> 3 <= a ->
    for_return (range a 32) (fun i => v ← object_at p i; mret (if v =? 0 then Some i else None)) s =
      Done (Some i) s).
  { induction n as [|n IH]; intros a Ha H3; rewrite range_cons by lia; cbn [for_return].
    - assert (a = i) as -> by lia.
      by rewrite bind_bind, (bind_Done _ _ _ _ _ (object_at_spec _ _ _ _ _ Hx H0)).
    - destruct (Hlt a) as (v & Hv & Hvn); [lia|]. apply Z.eqb_neq in Hvn.
      rewrite bind_bind, (bind_Done _ _ _ _ _ (object_at_spec _ _ _ _ _ Hx Hv)), Hvn, bind_ret.
      apply IH; lia. }
  apply (Hgo (Z.to_nat (i - 3)) 3); lia.
Qed.

Lemma new_file_done s l p x :
  wf_heap (kheap s) l -> current_valid (pt (kern s)) p x ->
  g_heap_pointer (kheap s) + FILE_SIZE + MMBLOCK_SIZE <= KERNEL_HEAP_END ->
  Z.of_nat (length l) + 1 < MMBLOCK_COUNT_MAX ->
  let f := g_heap_pointer (kheap s) + MMBLOCK_SIZE in
  exists s' y, new_file s = Done f s' /\ f <> NULL /\
    wf_heap (kheap s') (l ++ [g_heap_pointer (kheap s)]) /\
    files s' = <[f := junk f]> (files s) /\
    g_heap_pointer (kheap s') = g_heap_pointer (kheap s) + MMBLOCK_SIZE + FILE_SIZE /\
    alloc_kept s s' /\ current_valid (pt (kern s')) p y /\ same_face x y.
Proof.
  intros Hw Hc Hfit Hn f. pose proof (wh_pointer _ _ Hw) as Hp.
  destruct (kmalloc_done s l FILE_SIZE p x) as (s1 & y & E & Hw1 & Hf & Hg & Hk & Hc1 & Hy);
    [done|done|unfold FILE_SIZE; lia|done|done|].
  assert (Hfn : f <> NULL) by (unfold f, NULL, KERNEL_HEAP_START, MMBLOCK_SIZE in *; lia).
  unfold new_file. rewrite (bind_Done _ _ _ _ _ E). fold f. unfold NULL in *. zguard.
  unfold put_file. rewrite bind_modify. eexists _, y. split; [reflexivity|].
  split; [done|]. split; [done|]. by rewrite <- Hf.
Qed.

Lemma same_face_trans x y z : same_face x y -> same_face y z -> same_face x z.
Proof. intros (? & ? & ?) (? & ? & ?). split_and!; congruence. Qed.

Lemma set_object_done s p x i v :
  procs (pt (kern s)) !! p = Some x ->
  set_object p i v s = Done tt (with_process p (x <| p_Objects := zinsert (p_Objects x) i v |>) s).
Proof. apply (update_process_done s p x (fun x => x <| p_Objects := zinsert (p_Objects x) i v |>)). Qed.

Lemma current_holder k p x fd f :
  current_valid (pt k) p x -> 0 < fd < OPEN_MAX -> zlookup (p_Objects x) fd = Some f ->
  holder k f (current_pid (pt k), fd).
Proof. intros (_ & ? & ? & ? & ? & ? & ?) ? ?. split; [done|]. split; [done|]. by exists p, x. Qed.

Lemma current_valid_update k p x f i :
  current_valid k p x ->
  current_valid (k <| procs := <[p := x <| p_Objects := zinsert (p_Objects x) i f |>]> (procs k) |>) p
    (x <| p_Objects := zinsert (p_Objects x) i f |>).
Proof.
  intros (? & ? & ? & ? & ? & ? & ?). do 4 (split; [done|]). split; [apply lookup_insert_eq|done].
Qed.

(** The end of [sys_pipe]: both structures are filled and the slot is set twice. *)
Lemma pipe_tail s p x i f1 f2 a1 a2 g1 g2 r1 r2 :
  files s !! f1 = Some a1 -> files s !! f2 = Some a2 -> f1 <> f2 ->
  procs (pt (kern s)) !! p = Some x ->
  exists s', (update_file f1 g1;; update_file f2 g2;; set_object p i f1;; set_object p i f2;;
      modify (set_ram r1);; modify (set_ram r2);; mret 0) s = Done 0 s' /\
    ram s' = r2 (r1 (ram s)) /\
    files s' = <[f2 := g2 a2]> (<[f1 := g1 a1]> (files s)) /\
    pt (kern s') = (pt (kern s)) <| procs :=
      <[p := x <| p_Objects := zinsert (p_Objects x) i f2 |>]> (procs (pt (kern s))) |>.
Proof.
  intros H1 H2 Hne Hx. unfold update_file, put_file. rewrite !bind_bind.
  rewrite (bind_Done _ _ _ _ _ (deref_file_Done _ _ _ H1)), bind_modify. cbn beta. rewrite !bind_bind.
  rewrite (bind_Done _ _ _ a2 (s <| files := <[f1 := g1 a1]> (files s) |>)), bind_modify.
  2: { apply deref_file_Done. cbn. by rewrite lookup_insert_ne. }
  erewrite (bind_Done (set_object p i f1)).
  2: { apply set_object_done. cbn. exact Hx. }
  erewrite (bind_Done (set_object p i f2)).
  2: { apply set_object_done. cbn. apply lookup_insert_eq. }
  rewrite !bind_modify. eexists. split; [reflexivity|]. split; [done|]. split; [done|].
  cbn. rewrite zinsert_twice, insert_insert_eq. done.
Qed.

(** The three allocations of [sys_pipe]. *)
Lemma pipe_allocates s l p x :
  wf_heap (kheap s) l -> current_valid (pt (kern s)) p x ->
  g_heap_pointer (kheap s) + BUFSIZ + 2 * FILE_SIZE + 3 * MMBLOCK_SIZE <= KERNEL_HEAP_END ->
  Z.of_nat (length l) + 3 < MMBLOCK_COUNT_MAX ->
  exists s1 s2 s3 y buff f1 f2, on_heap (kmalloc BUFSIZ) s = Done buff s1 /\
    new_file s1 = Done f1 s2 /\ new_file s2 = Done f2 s3 /\
    buff <> NULL /\ f1 <> NULL /\ f2 <> NULL /\ f1 <> f2 /\
    files s3 !! f1 = Some (junk f1) /\ files s3 !! f2 = Some (junk f2) /\
    alloc_kept s s3 /\ current_valid (pt (kern s3)) p y /\ same_face x y.
Proof.
  intros Hw Hc Hfit Hn. pose proof (wh_pointer _ _ Hw) as Hp.
  destruct (kmalloc_done s l BUFSIZ p x) as (s1 & y1 & E1 & Hw1 & Hf1 & Hg1 & Hk1 & Hc1 & Hy1);
    [done|done|unfold BUFSIZ; lia|unfold FILE_SIZE, MMBLOCK_SIZE in *; lia|lia|].
  destruct (new_file_done s1 (l ++ [g_heap_pointer (kheap s)]) p y1)
    as (s2 & y2 & E2 & Hn2 & Hw2 & Hf2 & Hg2 & Hk2 & Hc2 & Hy2);
    [done|done|unfold FILE_SIZE, MMBLOCK_SIZE in *; lia|rewrite length_app; cbn; lia|].
  destruct (new_file_done s2 ((l ++ [g_heap_pointer (kheap s)]) ++ [g_heap_pointer (kheap s1)]) p y2)
    as (s3 & y3 & E3 & Hn3 & Hw3 & Hf3 & Hg3 & Hk3 & Hc3 & Hy3);
    [done|done|unfold FILE_SIZE, MMBLOCK_SIZE in *; lia|rewrite !length_app; cbn; lia|].
  set (buff := g_heap_pointer (kheap s) + MMBLOCK_SIZE) in *.
  set (f1 := g_heap_pointer (kheap s1) + MMBLOCK_SIZE) in *.
  set (f2 := g_heap_pointer (kheap s2) + MMBLOCK_SIZE) in *.
  assert (Hne : f1 <> f2) by (unfold f1, f2, FILE_SIZE, MMBLOCK_SIZE in *; lia).
  exists s1, s2, s3, y3, buff, f1, f2. do 3 (split; [done|]).
  split; [unfold buff, NULL, KERNEL_HEAP_START, MMBLOCK_SIZE in *; lia|].
  do 3 (split; [done|]). split; [by rewrite Hf3, lookup_insert_ne, Hf2, lookup_insert_eq by done|].
  split; [by rewrite Hf3, lookup_insert_eq|].
  split; [by do 2 (eapply alloc_kept_trans; [eassumption|])|]. split; [done|].
  by do 2 (eapply same_face_trans; [eassumption|]).
Qed.

(** Reading and writing a pipe. *)
Lemma pipe_refuses s f x fd ubuf n :
  holder (kern s) f (current_pid (pt (kern s)), fd) -> files s !! f = Some x -> f <> NULL ->
  f_object x = ObjectTypePipe -> can_read (sync x) = TRUE -> can_write (sync x) = TRUE ->
  STDERR_FILENO < _file x -> CONTROLTHREAD_BASE <= ubuf -> 0 < n ->
  (exists s', sys_read fd ubuf n s = Done (-1) s') /\ (exists s', sys_write fd ubuf n s = Done (-1) s').
Proof.
  intros Hh Hf Hfn Ho Hr Hwr Hfile Hu Hn. pose proof Hh as (_ & Hfd & _). cbn in Hfd.
  unfold STDERR_FILENO, CONTROLTHREAD_BASE, OPEN_MAX in *.
  assert (Hcall : forall g, (forall x, p_used (g x) = p_used x /\ p_magic (g x) = p_magic x /\
      p_Objects (g x) = p_Objects x) -> exists p s', calling_process g s = Done (Some p) s' /\
      get_file_from_fd fd s' = Done f s' /\ files s' !! f = Some x).
  { intros g Hg. destruct (calling_spec s f _ fd g Hh eq_refl Hg) as (p & k & E & Hk).
    exists p, (s <| kern := k |>). split; [done|]. split; [|done].
    apply (get_file_spec _ f (current_pid (pt (kern s)))); [by apply (kk_holder _ _ Hk)|apply (kk_pid _ _ Hk)]. }
  split.
  - destruct (Hcall (fun x => x <| p_read_counter := u32 (p_read_counter x + 1) |>))
      as (p & s' & E & Eg & Ef); [by intros y|]. exists s'.
    unfold sys_read, __read_imp, sys_read_pipe, bad_fd, CONTROLTHREAD_BASE, OPEN_MAX, NULL in *. zguard.
    rewrite bind_gets. cbn [andb]. zguard. rewrite (bind_Done _ _ _ _ _ E).
    rewrite bool_decide_eq_false_2 by done. zguard. cbn [orb]. rewrite (bind_Done _ _ _ _ _ Eg). zguard.
    rewrite (bind_Done _ _ _ _ _ (deref_file_Done _ _ _ Ef)), Hr, Ho. done.
  - destruct (Hcall (fun x => x <| p_write_counter := u32 (p_write_counter x + 1) |>))
      as (p & s' & E & Eg & Ef); [by intros y|]. exists s'.
    unfold sys_write, __write_imp, sys_write_pipe, bad_fd, CONTROLTHREAD_BASE, OPEN_MAX, NULL in *. zguard.
    rewrite (bind_Done _ _ _ _ _ E).
    rewrite bool_decide_eq_false_2 by done. zguard. cbn [orb]. rewrite (bind_Done _ _ _ _ _ Eg). zguard.
    rewrite (bind_Done _ _ _ _ _ (deref_file_Done _ _ _ Ef)), Hwr, Ho.
    unfold STDIN_FILENO, STDOUT_FILENO, STDERR_FILENO. cbn [negb Z.eqb Pos.eqb TRUE]. by zguard.
Qed.

(** ** Theorems *)

(** [C9] Processes that share a socket structure exchange messages through a
    mailbox with one place: for every script of writes, reads and resets, made by
    processes that hold a descriptor of the socket, each call returns what the
    mailbox says: a write is accepted, whole, only when there is no message; a
    read of up to BUFSIZ bytes takes the message, once, with whatever the buffer
    held after it; everything else is refused with -1 and moves no byte. *)
Theorem socket_mailbox holders f base ops s b :
  f <> NULL -> box_rel holders f base s b -> Forall (box_op_ok holders base) ops ->
  exists s' rs b', run_boxes ops s = Done rs s' /\ (rs, b') = spec_boxes ops b /\
    box_rel holders f base s' b'.
Proof.
  intros Hf Hr Hok. destruct (run_boxes_spec holders f base ops Hf s b Hr Hok) as (s' & E & Hr').
  destruct (spec_boxes ops b) as [rs b']. by exists s', rs, b'.
Qed.

(** A write of BUFSIZ bytes or more to a socket that may be written clears
    its flags before it fails: from then on every write and every read by any
    process fails, until a process resets the socket. *)
Theorem socket_stuck holders f base s B pid fd src data ops :
  f <> NULL -> box_rel holders f base s (BEmpty, B) -> BUFSIZ <= zlen data ->
  Forall (box_op_ok holders base) (XWrite pid fd src data :: ops) ->
  forallb no_reset ops = true ->
  exists s', run_boxes (XWrite pid fd src data :: ops) s =
      Done (replicate (S (length ops)) (-1, [])) s' /\
    box_rel holders f base s' (BStuck, B).
Proof.
  intros Hf Hr Hd Hok Hno.
  destruct (run_boxes_spec holders f base _ Hf s _ Hr Hok) as (s' & E & Hr').
  exists s'. cbn in E, Hr'. apply Z.ltb_ge in Hd. rewrite Hd, (spec_boxes_stuck _ _ Hno) in *. done.
Qed.

(** The reset for reading stops the kernel.  On a socket without message
    that blocks when it is empty, as every socket is created, a process that asks
    [SYNC_REQUEST_RESET_RD] and then reads makes the kernel panic. *)
Theorem socket_read_panics holders f base s b pid fd dst n x :
  f <> NULL -> box_rel holders f base s b -> b.1 <> BFull ->
  (pid, fd) ∈ holders -> current_pid (pt (kern s)) = pid ->
  files s !! f = Some x -> block_on_read_empty (sync x) = TRUE ->
  CONTROLTHREAD_BASE <= dst -> 0 < n ->
  exists s' msg, sys_set_file_sync fd SYNC_REQUEST_RESET_RD 0 s = Done tt s' /\
    sys_read fd dst n s' = Panic msg.
Proof.
  intros Hf [Hw Hh Hx Hm HB] Hst Hin Hc Hfx Hbl Hdst Hn.
  pose proof (proj1 (Forall_forall _ _) Hh _ Hin) as Hpf. pose proof Hpf as (_ & Hfd & _). cbn in Hfd.
  destruct (synced_spec s f base b pid fd) as (x' & Hx1 & Hwx & Es); [done|done|done|done|].
  assert (x' = x) as -> by congruence.
  unfold sys_set_file_sync, bad_fd, OPEN_MAX in *. zguard. cbn [orb]. rewrite (bind_Done _ _ _ _ _ Es).
  set (y := _ <| _flags := __SRD |>). set (s1 := s <| files := <[f := y]> (files s) |>).
  assert (Hf1 : files s1 !! f = Some y) by apply lookup_insert_eq.
  assert (Hpf1 : holder (kern s1) f (pid, fd)) by done.
  exists s1. eexists. split; [reflexivity|].
  destruct (calling_spec s1 f pid fd (fun x => x <| p_read_counter := u32 (p_read_counter x + 1) |>))
    as (p & k & E & Hk); [done|done|by intros z|].
  unfold sys_read, CONTROLTHREAD_BASE, NULL in *. zguard. rewrite bind_gets. cbn [andb]. zguard.
  unfold __read_imp, bad_fd, OPEN_MAX, NULL. rewrite (bind_Done _ _ _ _ _ E).
  rewrite bool_decide_eq_false_2 by done. zguard. cbn [orb].
  set (s2 := s1 <| kern := k |>).
  assert (Hh2 : holder (kern s2) f (pid, fd)) by by apply (kk_holder _ _ Hk).
  assert (Hc2 : current_pid (pt (kern s2)) = pid) by (rewrite <- Hc; apply (kk_pid _ _ Hk)).
  rewrite (bind_Done _ _ _ _ _ (get_file_spec s2 f pid fd Hh2 Hc2)). zguard.
  assert (Hf2 : files s2 !! f = Some y) by done.
  rewrite (bind_Done _ _ _ _ _ (deref_file_Done _ _ _ Hf2)).
  destruct Hwx as [Ho _ _ _ _ _ [Hr _] Hfull _].
  destruct (credit_done s2) as (k3 & E3 & _); [by apply (kk_threads _ _ Hk)|].
  set (s3 := s2 <| kern := k3 |>). assert (Hf3 : files s3 !! f = Some y) by done.
  change (can_read (sync y)) with (can_read (sync x)). change (f_object y) with (f_object x).
  rewrite Hr, Ho. cbn [negb Z.eqb Pos.eqb TRUE ObjectTypeSocket]. unfold read_socket.
  rewrite (bind_Done _ _ _ _ _ E3), (bind_Done _ _ _ _ _ (deref_file_Done _ _ _ Hf3)).
  unfold y. cbn. rewrite Hfull. destruct b.1; [|done|]; cbn; rewrite Hbl; done.
Qed.

(** A pipe carries nothing.  On a process with a free slot [i] and a heap
    with room, [sys_pipe] answers 0 and the same descriptor [i] twice: both ends
    share their buffer, but the first structure is in no slot; and every read and
    every write of that descriptor is then refused with -1. *)
Theorem pipe_carries_nothing s l p x i pipefd flags :
  wf_heap (kheap s) l -> current_valid (pt (kern s)) p x -> first_free (p_Objects x) i ->
  g_heap_pointer (kheap s) + BUFSIZ + 2 * FILE_SIZE + 3 * MMBLOCK_SIZE <= KERNEL_HEAP_END ->
  Z.of_nat (length l) + 3 < MMBLOCK_COUNT_MAX ->
  exists s' f1 f2 x1 x2 y, sys_pipe pipefd flags s = Done 0 s' /\
    ram s' = poke32 (pipefd + 4) i (poke32 pipefd i (ram s)) /\
    current_valid (pt (kern s')) p y /\ p_Objects y = zinsert (p_Objects x) i f2 /\
    f1 <> f2 /\ files s' !! f1 = Some x1 /\ files s' !! f2 = Some x2 /\ _base x1 = _base x2 /\
    forall ubuf n, CONTROLTHREAD_BASE <= ubuf -> 0 < n ->
      (exists s'', sys_read i ubuf n s' = Done (-1) s'') /\
      (exists s'', sys_write i ubuf n s' = Done (-1) s'').
Proof.
  intros Hw Hc Hi Hfit Hn. pose proof (wh_pointer _ _ Hw) as Hp.
  pose proof Hc as (Hrun & Hpid & Hl & Hpn & Hx & Hu & Hm). pose proof Hi as (Hi1 & Hi2 & _).
  destruct (pipe_allocates s l p x) as (s1 & s2 & s3 & y3 & buff & f1 & f2 & E1 & E2 & E3 & Hbn & Hn2 &
    Hn3 & Hne & Hf1 & Hf2 & (Hr & Hus & Hgr & _) & Hc3 & (_ & _ & Ho3)); [done..|].
  unfold sys_pipe, get_current_process, processList_at, deref_process, NULL in *.
  rewrite (bind_Done _ _ _ _ _ (on_pt_gets _ _)), (bind_Done _ _ _ _ _ (on_pt_getsome _ _ _ Hl)). zguard.
  rewrite (bind_Done _ _ _ _ _ (on_pt_getsome _ _ _ Hx)), Hu, Hm. cbn [negb orb Z.eqb Pos.eqb TRUE].
  rewrite !(bind_Done _ _ _ _ _ (find_slot_spec s p x i Hx Hi)).
  rewrite (bind_Done _ _ _ _ _ E1). zguard. rewrite (bind_Done _ _ _ _ _ E2), (bind_Done _ _ _ _ _ E3).
  zguard. cbn [orb]. rewrite !bind_gets, Hus, Hgr.
  set (g := pipe_end (current_pid (pt (kern s))) (current_user s) (current_group s) buff i).
  destruct (pipe_tail s3 p y3 i f1 f2 (junk f1) (junk f2) g g
    (poke32 pipefd i) (poke32 (pipefd + 4) i)) as (s' & E & Hr' & Hf' & Hpt).
  { done. }
  { done. }
  { done. }
  { by destruct Hc3 as (_ & _ & _ & _ & ? & _). }
  set (y := y3 <| p_Objects := zinsert (p_Objects x) i f2 |>).
  assert (Hv : current_valid (pt (kern s')) p y).
  { rewrite Hpt. unfold y. rewrite <- Ho3. by apply current_valid_update. }
  assert (Hf2' : files s' !! f2 = Some (g (junk f2))) by (rewrite Hf'; apply lookup_insert_eq).
  exists s', f1, f2, (g (junk f1)), (g (junk f2)), y.
  split; [exact E|]. split; [by rewrite Hr', Hr|]. split; [done|]. split; [done|]. split; [done|].
  split; [by rewrite Hf', lookup_insert_ne, lookup_insert_eq by done|]. split; [done|].
  split; [done|]. intros ubuf n Hub Hn0.
  apply (pipe_refuses s' f2 (g (junk f2))); try done.
  - apply (current_holder (kern s') p y i f2 Hv); [unfold OPEN_MAX, NUMBER_OF_FILES in *; lia|].
    apply zlookup_insert_eq. pose proof (zlookup_lt _ _ _ Hi2). lia.
  - cbn. unfold STDERR_FILENO. lia.
Qed.

End Calls.

(** ** Witnesses *)

(** Two processes, 0 and 1, whose descriptor 3 is the file at 8192. *)
Definition share_demo_objects : list Z := zinsert (replicate 64 0) 3 8192.

Definition share_demo_ptab : ptab :=
  mk_ptab SYSTEM_RUNNING 0 (4096 :: 5120 :: replicate 1022 0)
    (<[4096 := (sample_process 0) <| p_Objects := share_demo_objects |>]>
     {[ 5120 := (sample_process 1) <| p_Objects := share_demo_objects |> ]}).

Definition share_demo (x : file_d) : fsys :=
  let s := sample_fsys {[ 8192 := x ]} in
  s <| kern := (kern s) <| pt := share_demo_ptab |> |>.

(** A socket as [socket_gramado] leaves it. *)
Definition sample_socket : file_d :=
  (sample_stream ObjectTypeSocket 3 900000) <| _flags := __SWR |>
    <| sync := mk_sync (-1) (-1) ACTION_NULL TRUE TRUE FALSE TRUE TRUE TRUE TRUE FALSE TRUE |>.

Definition socket_demo : fsys := share_demo sample_socket.

(** What fresh memory may hold, and a console that takes everything. *)
Definition junk_demo (a : Z) : file_d := sample_stream a a a.
Definition console_demo (ubuf count : Z) : M fsys Z := mret count.

Lemma socket_demo_rel :
  box_rel [(0, 3); (1, 3)] 8192 900000 socket_demo (BEmpty, replicate 1024 0).
Proof.
  split.
  - cbn. wf_concrete.
  - repeat apply Forall_cons_2; try apply Forall_nil_2; (split; [cbn; unfold PROCESS_COUNT_MAX; lia|]);
      (split; [cbn; unfold OPEN_MAX; lia|]).
    + exists 4096, ((sample_process 0) <| p_Objects := share_demo_objects |>). by split_and!.
    + exists 5120, ((sample_process 1) <| p_Objects := share_demo_objects |>). by split_and!.
  - exists sample_socket. split; [done|]. by split.
  - intros x. done.
  - by vm_compute.
Qed.

(** Process 0 writes "hi"; process 1 reads two bytes; a second read fails. *)
Lemma socket_mailbox_witness :
  let ops := [XWrite 0 3 2097152 [104; 105]; XRead 1 3 2098176 2; XRead 1 3 2098176 2] in
  exists s' rs b', run_boxes console_demo ops socket_demo = Done rs s' /\
    (rs, b') = spec_boxes ops (BEmpty, replicate 1024 0) /\
    box_rel [(0, 3); (1, 3)] 8192 900000 s' b'.
Proof.
  apply (socket_mailbox console_demo [(0, 3); (1, 3)] 8192 900000 _ socket_demo (BEmpty, replicate 1024 0));
    [done|apply socket_demo_rel|].
  unfold box_op_ok, apart, BUFSIZ, zlen, CONTROLTHREAD_BASE.
  repeat apply Forall_cons_2; try apply Forall_nil_2; cbn; repeat split; try lia;
    try (by repeat constructor); try (right; lia); repeat apply Forall_cons_2; try apply Forall_nil_2; lia.
Defined.

Lemma socket_read_panics_witness :
  exists s' msg, sys_set_file_sync 3 SYNC_REQUEST_RESET_RD 0 socket_demo = Done tt s' /\
    sys_read 3 2097152 1 s' = Panic msg.
Proof.
  by apply (socket_read_panics [(0, 3); (1, 3)] 8192 900000 socket_demo (BEmpty, replicate 1024 0) 0 3
    2097152 1 sample_socket); try apply socket_demo_rel; try (by left).
Defined.

(** 1024 bytes are one too many. *)
Lemma socket_stuck_witness :
  let ops := [XWrite 0 3 2097152 [104; 105]; XRead 1 3 2098176 2] in
  exists s', run_boxes console_demo (XWrite 0 3 2097152 (replicate 1024 65) :: ops) socket_demo =
      Done (replicate 3 (-1, [])) s' /\
    box_rel [(0, 3); (1, 3)] 8192 900000 s' (BStuck, replicate 1024 0).
Proof.
  apply (socket_stuck console_demo [(0, 3); (1, 3)] 8192 900000 socket_demo (replicate 1024 0) 0 3 2097152
    (replicate 1024 65)); [done|apply socket_demo_rel|by vm_compute| |done].
  apply Forall_cons_2.
  - split; [by left|]. unfold apart, BUFSIZ, zlen, CONTROLTHREAD_BASE. rewrite length_replicate.
    split; [lia|]. split; [lia|]. split; [lia|]. apply Forall_replicate. lia.
  - unfold box_op_ok, apart, BUFSIZ, zlen, CONTROLTHREAD_BASE.
    repeat apply Forall_cons_2; try apply Forall_nil_2; cbn; repeat split; try lia;
      try (by repeat constructor); try (right; lia); repeat apply Forall_cons_2; try apply Forall_nil_2; lia.
Defined.

Lemma pipe_carries_nothing_witness :
  let s := sample_fsys ∅ in
  exists s' f1 f2 x1 x2 y, sys_pipe junk_demo 2097152 0 s = Done 0 s' /\
    ram s' = poke32 (2097152 + 4) 3 (poke32 2097152 3 (ram s)) /\
    current_valid (pt (kern s')) 4096 y /\ p_Objects y = zinsert (p_Objects (sample_process 0)) 3 f2 /\
    f1 <> f2 /\ files s' !! f1 = Some x1 /\ files s' !! f2 = Some x2 /\ _base x1 = _base x2 /\
    forall ubuf n, CONTROLTHREAD_BASE <= ubuf -> 0 < n ->
      (exists s'', sys_read 3 ubuf n s' = Done (-1) s'') /\
      (exists s'', sys_write console_demo 3 ubuf n s' = Done (-1) s'').
Proof.
  apply (pipe_carries_nothing junk_demo console_demo (sample_fsys ∅) [] 4096 (sample_process 0) 3).
  - destruct sample_booted_wf. by split.
  - apply sample_current.
  - split; [unfold NUMBER_OF_FILES; lia|]. split; [done|]. intros j Hj. lia.
  - by vm_compute.
  - by vm_compute.
Defined.
