(* ===== verification/Dispatch.v ===== *)
(** * Dispatch: context save and restore, dispatcher, spawn

    [core/ke/intake/disp/x86_64/x64cont.c] (the context of a thread and the
    variables that the interrupt handlers load and store), [disp/dispatch.c],
    [disp/spawn.c] and [schedi_check_for_standby] of [sched/schedi.c]. *)
From Stdlib Require Import ZArith Lia.
From stdpp Require Import base gmap list strings.
From S2P Require Import Config Prelude Process KState Samples Threads Sched.

#[local] Open Scope Z_scope.
#[local] Open Scope gramado_scope.

(** ** x64cont.c *)

(** The segment registers have 16 bits; all the bytes of the fpu buffer are
    copied. *)
Definition seg (x : Z) : Z := Z.land x 65535.

Definition mask_context (c : x64_context_d) : x64_context_d :=
  mk_context (seg (c_ss c)) (c_rsp c) (c_rflags c) (seg (c_cs c)) (c_rip c)
    (seg (c_ds c)) (seg (c_es c)) (seg (c_fs c)) (seg (c_gs c))
    (c_rax c) (c_rbx c) (c_rcx c) (c_rdx c) (c_rsi c) (c_rdi c) (c_rbp c)
    (c_r8 c) (c_r9 c) (c_r10 c) (c_r11 c) (c_r12 c) (c_r13 c) (c_r14 c) (c_r15 c)
    (c_fpu_buffer c).

(** The validation of the current thread that opens both routines. *)
Definition context_thread : M kst Z :=
  c ← gets current_thread;
  if (c <? 0) || (THREAD_COUNT_MAX <=? c) then panic "die: TID" else
  t ← threadList_at c;
  if t =? NULL then panic "die: [ERROR] Struct" else
  x ← deref_thread t;
  if negb (used x =? TRUE) || negb (magic x =? 1234) then panic "die: [ERROR] Validation" else
  mret t.

Definition save_current_context : M kst unit :=
  t ← context_thread;
  cpu ← gets cpu_context;
  update_thread t (fun x => x <| context := mask_context cpu |>);;
  tmp_cpl ← gets contextCPL;
  let ring := Z.land tmp_cpl 3 in
  x ← deref_thread t;
  if negb (ring =? cpl x) then panic "save_current_context: cpl != t->cpl" else
  if ring =? 0 then panic "save_current_context: cpl 0" else
  if ring =? 1 then panic "save_current_context: cpl 1" else
  if ring =? 2 then panic "save_current_context: cpl 2" else
  (if ring =? 3 then update_thread t (fun x => x <| to_supervisor := u64 (to_supervisor x + 1) |>)
   else mret tt);;
  update_thread t (fun x => x <| rflags_current_iopl := Z.land (c_rflags (context x)) 512 |>).

Definition restore_current_context : M kst unit :=
  t ← context_thread;
  x ← deref_thread t;
  modify (fun s => s <| cpu_context := mask_context (context x) |>);;
  if negb (cpl x =? 3) then panic "restore_current_context: t->cpl" else
  update_thread t (fun x => x <| to_user := u64 (to_user x + 1) |>);;
  modify (fun s => s <| cr3 := pml4_PA x |>).

(** ** dispatch.c *)

Definition dispatch_count (type : Z) (b : dispatch_count_d) : dispatch_count_d :=
  if type =? SELECT_IDLE_COUNT then b <| SelectIdleCount := u64 (SelectIdleCount b + 1) |>
  else if type =? SELECT_INITIALIZED_COUNT
  then b <| SelectInitializedCount := u64 (SelectInitializedCount b + 1) |>
  else if type =? SELECT_NEXT_COUNT then b <| SelectNextCount := u64 (SelectNextCount b + 1) |>
  else if type =? SELECT_CURRENT_COUNT
  then b <| SelectCurrentCount := u64 (SelectCurrentCount b + 1) |>
  else if type =? SELECT_ANY_COUNT then b <| SelectAnyCount := u64 (SelectAnyCount b + 1) |>
  else if type =? SELECT_IDEAL_COUNT then b <| SelectIdealCount := u64 (SelectIdealCount b + 1) |>
  else if type =? SELECT_DISPATCHER_COUNT
  then b <| SelectDispatcherQueueCount := u64 (SelectDispatcherQueueCount b + 1) |>
  else b.

Definition IncrementDispatcherCount (type : Z) : M kst unit :=
  if type <? 0 then mret tt else
  p ← gets DispatchCountBlock;
  if p =? NULL then panic "IncrementDispatcherCount" else
  b ← getsome (fun s => dispatch_blocks s !! p);
  if negb (d_magic b =? 1234) then panic "IncrementDispatcherCount: validation" else
  modify (fun s => s <| dispatch_blocks := <[p := dispatch_count type b]> (dispatch_blocks s) |>).

(** READY to RUNNING, with the counters of the other states cleared. *)
Definition dispatch_running (x : thread_d) : thread_d :=
  x <| state := RUNNING |> <| runningCount := 0 |> <| runningCount_ms := 0 |>
    <| readyCount := 0 |> <| readyCount_ms := 0 |> <| waitingCount := 0 |>
    <| waitingCount_ms := 0 |> <| blockedCount := 0 |> <| blockedCount_ms := 0 |>.

Definition dispatch_limits (x : thread_d) : thread_d :=
  let x := if base_priority x <? PRIORITY_MIN then x <| base_priority := PRIORITY_MIN |> else x in
  let x := if priority x <? PRIORITY_MIN then x <| priority := PRIORITY_MIN |> else x in
  if quantum x <? QUANTUM_MIN then x <| quantum := QUANTUM_MIN |> else x.

(** Whatever its [type], the current thread is dispatched. *)
Definition dispatcher (type : Z) : M kst unit :=
  c ← gets current_thread;
  if (c <? 0) || (THREAD_COUNT_MAX <=? c) then panic "dispatcher: current_thread" else
  t ← threadList_at c;
  if t =? NULL then panic "dispatcher: TargetThread" else
  x ← deref_thread t;
  if negb (magic x =? 1234) then panic "dispatcher: magic" else
  if negb (state_eqb (state x) READY) then panic "dispatcher: state" else
  update_thread t dispatch_running;;
  update_thread t dispatch_limits;;
  modify (fun s => s <| CurrentThread := t |>);;
  update_thread t (fun x => x <| saved := FALSE |>);;
  restore_current_context.

(** init_dispatch, [block] being the memory that kmalloc returns for it. *)
Definition init_dispatch (block : Z) : M kst Z :=
  modify (fun s => s <| DispatchCountBlock := block |>);;
  if block =? NULL then mret FALSE else
  modify (fun s => s <| dispatch_blocks :=
    <[block := mk_dispatch_count 1234 0 0 0 0 0 0 0]> (dispatch_blocks s) |>);;
  mret 0.

(** ** spawn.c *)

Definition spawn_set_eoi_state : M kst unit := modify (fun s => s <| spawn_eoi := TRUE |>).
Definition spawn_reset_eoi_state : M kst unit := modify (fun s => s <| spawn_eoi := FALSE |>).

(** ts.c: the lock of the task switch *)
Definition get_taskswitch_status : M kst Z := gets task_switch_status.
Definition set_taskswitch_status (v : Z) : M kst unit :=
  modify (fun s => s <| task_switch_status := v |>).
Definition taskswitch_lock : M kst unit := set_taskswitch_status LOCKED.
Definition taskswitch_unlock : M kst unit := set_taskswitch_status UNLOCKED.

(** The structure of a thread that runs for the first time. *)
Definition spawn_clear (j init : Z) (x : thread_d) : thread_d :=
  x <| saved := FALSE |> <| exit_in_progress := FALSE |>
    <| standbyCount := 0 |> <| standbyCount_ms := 0 |> <| runningCount := 0 |>
    <| runningCount_ms := 0 |> <| readyCount := 0 |> <| readyCount_ms := 0 |>
    <| waitingCount := 0 |> <| waitingCount_ms := 0 |> <| blockedCount := 0 |>
    <| blockedCount_ms := 0 |> <| initial_jiffy := j |> <| step := 0 |>
    <| initial_time_ms := 0 |> <| total_time_ms := 0 |> <| next := init |>
    <| state := RUNNING |>.

(** What follows the validation.  The thread enters ring 3 at its [rip] and
    [rsp]: [Leave]. *)
Definition spawn_release (t : Z) (x : thread_d) : M kst unit :=
  j ← gets jiffies;
  init ← gets InitThread;
  update_thread t (spawn_clear j init);;
  set_taskswitch_status UNLOCKED;;
  scheduler_unlock;;
  if owner_process x =? NULL then panic "target_thread->owner_process" else
  if (owner_pid x <? 0) || (PROCESS_COUNT_MAX <=? owner_pid x) then panic "cur_pid" else
  on_ptab (set_current_process (owner_pid x));;
  set_current_thread (tid x);;
  c ← gets current_thread;
  if (c <? 0) || (THREAD_COUNT_MAX <=? c) then panic "current_thread" else
  IncrementDispatcherCount SELECT_INITIALIZED_COUNT;;
  modify (fun s => s <| cr3 := pml4_PA x |>);;
  eoi ← gets spawn_eoi;
  if negb (eoi =? TRUE) then panic "eoi_is_needed != TRUE" else
  if negb (cpl x =? RING3) then panic "Invalid cpl" else
  update_thread t (fun x => x <| to_user := u64 (to_user x + 1) |>);;
  leave.

Definition __spawn_thread_by_tid_imp (i : Z) : M kst unit :=
  let TargetTID := i32 (Z.land i 4294967295) in
  if (TargetTID <? 0) || (THREAD_COUNT_MAX <=? TargetTID) then panic "keDie: TargetTID" else
  t ← threadList_at TargetTID;
  if t =? NULL then panic "keDie: target_thread" else
  x ← deref_thread t;
  if negb (used x =? TRUE) || negb (magic x =? 1234) then panic "target_thread validation" else
  if negb (tid x =? TargetTID) then panic "target_thread->tid validation" else
  if negb (state_eqb (state x) STANDBY) then panic "keDie: not in Standby" else
  if saved x =? TRUE then panic "keDie: Saved" else
  spawn_release t x.

Definition psSpawnThreadByTID (i : Z) : M kst unit :=
  if (i <? 0) || (THREAD_COUNT_MAX <=? i) then panic "keDie: psSpawnThreadByTID" else
  __spawn_thread_by_tid_imp i;;
  panic "psSpawnThreadByTID".

(** schedi.c: the first thread in STANDBY is made current and spawned; the
    routine returns only when there is none. *)
Definition is_standby (x : thread_d) : bool :=
  (used x =? TRUE) && (magic x =? 1234) && state_eqb (state x) STANDBY.

Definition schedi_check_for_standby : M kst unit :=
  r ← for_return (range 0 THREAD_COUNT_MAX) (fun i =>
        t ← threadList_at i;
        if t =? NULL then mret None else
        x ← deref_thread t;
        mret (if is_standby x then Some (tid x) else None));
  match r with
  | None => mret tt
  | Some target_tid =>
      if (target_tid <? 0) || (THREAD_COUNT_MAX <=? target_tid)
      then panic "schedi_check_for_standby: fail" else
      if target_tid =? INIT_TID then panic "schedi_check_for_standby: Can't spawn INIT_TID" else
      set_current_thread target_tid;;
      psSpawnThreadByTID target_tid;;
      panic "schedi_check_for_standby: fail"
  end.

(** ** Lemmas: sequences of updates of one structure *)

Lemma update_update {B} s t x f g (k : unit -> M kst B) :
  threads s !! t = Some x ->
  (update_thread t f ≫= fun _ => update_thread t g ≫= k) s =
  (update_thread t (fun x => g (f x)) ≫= k) s.
Proof.
  intros Hx. rewrite !(bind_Done _ _ _ _ _ (update_thread_Done s t x _ Hx)).
  rewrite (bind_Done _ _ _ _ _ (update_thread_Done _ t (f x) g (lookup_insert_eq _ _ _))).
  cbn. by rewrite insert_insert_eq.
Qed.

Lemma update_update_end s t x f g :
  threads s !! t = Some x ->
  (update_thread t f ≫= fun _ => update_thread t g) s = update_thread t (fun x => g (f x)) s.
Proof.
  intros Hx. rewrite (bind_Done _ _ _ _ _ (update_thread_Done s t x _ Hx)).
  rewrite (update_thread_Done _ t (f x) g (lookup_insert_eq _ _ _)), (update_thread_Done s t x) by done.
  cbn. by rewrite insert_insert_eq.
Qed.

Lemma update_deref {B} s t x f (k : thread_d -> M kst B) :
  threads s !! t = Some x ->
  (update_thread t f ≫= fun _ => deref_thread t ≫= k) s =
  (update_thread t f ≫= fun _ => k (f x)) s.
Proof.
  intros Hx. rewrite !(bind_Done _ _ _ _ _ (update_thread_Done s t x _ Hx)).
  unfold deref_thread. by rewrite (bind_getsome _ _ _ (f x)) by apply lookup_insert_eq.
Qed.

(** Reading a global that is not the map of the structures. *)
Lemma update_gets {A B} s t x f (g : kst -> A) (k : A -> M kst B) :
  threads s !! t = Some x ->
  (forall m, g (s <| threads := m |>) = g s) ->
  (update_thread t f ≫= fun _ => gets g ≫= k) s =
  (update_thread t f ≫= fun _ => k (g s)) s.
Proof.
  intros Hx Hg. rewrite !(bind_Done _ _ _ _ _ (update_thread_Done s t x _ Hx)).
  by rewrite bind_gets, Hg.
Qed.

(** ** Lemmas: contexts *)

Lemma context_thread_valid s t x :
  valid_thread s (current_thread s) t x -> context_thread s = Done t s.
Proof.
  intros ((Hr & Ht & Hn & Hx) & Hu & Hm). unfold context_thread, threadList_at, deref_thread.
  rewrite bind_gets. zguard. rewrite (bind_getsome _ _ _ t) by done. zguard.
  rewrite (bind_getsome _ _ _ x) by done. by rewrite Hu, Hm.
Qed.

(** The structure of a thread whose context is saved, or restored. *)
Definition with_context (c : x64_context_d) (x : thread_d) : thread_d :=
  x <| context := mask_context c |> <| to_supervisor := u64 (to_supervisor x + 1) |>
    <| rflags_current_iopl := Z.land (c_rflags c) 512 |>.

Lemma save_context_spec s t x :
  valid_thread s (current_thread s) t x -> Z.land (contextCPL s) 3 = 3 -> cpl x = 3 ->
  save_current_context s =
  Done tt (s <| threads := <[t := with_context (cpu_context s) x]> (threads s) |>).
Proof.
  intros Hv Hc Hx. pose proof Hv as ((_ & _ & _ & Ht) & _).
  unfold save_current_context. rewrite (bind_Done _ _ _ _ _ (context_thread_valid s t x Hv)).
  rewrite bind_gets. rewrite (update_gets s t x) by done. rewrite Hc.
  rewrite (update_deref s t x) by done. cbn [cpl set_field set_context]. rewrite Hx.
  cbn [negb Z.eqb Pos.eqb]. rewrite (update_update s t x) by done.
  rewrite (update_update_end s t x) by done. by rewrite (update_thread_Done s t x) by done.
Qed.

Lemma restore_context_spec s t x :
  valid_thread s (current_thread s) t x -> cpl x = 3 ->
  restore_current_context s =
  Done tt (s <| cpu_context := mask_context (context x) |>
    <| threads := <[t := x <| to_user := u64 (to_user x + 1) |>]> (threads s) |>
    <| cr3 := pml4_PA x |>).
Proof.
  intros Hv Hx. pose proof Hv as ((_ & _ & _ & Ht) & _).
  unfold restore_current_context. rewrite (bind_Done _ _ _ _ _ (context_thread_valid s t x Hv)).
  unfold deref_thread. rewrite (bind_getsome _ _ _ x) by done. rewrite bind_modify.
  rewrite Hx. cbn [negb Z.eqb Pos.eqb].
  set (s1 := s <| cpu_context := mask_context (context x) |>).
  assert (Ht1 : threads s1 !! t = Some x) by exact Ht.
  by rewrite (bind_Done _ _ _ _ _ (update_thread_Done s1 t x _ Ht1)).
Qed.

(** ** Lemmas: dispatch *)

(** The structure of the counters of the dispatcher is there. *)
Definition counts_ok (s : kst) : Prop :=
  DispatchCountBlock s <> NULL /\
  exists b, dispatch_blocks s !! DispatchCountBlock s = Some b /\ d_magic b = 1234.

Definition counted (type : Z) (s : kst) : kst :=
  match dispatch_blocks s !! DispatchCountBlock s with
  | Some b => s <| dispatch_blocks :=
      <[DispatchCountBlock s := dispatch_count type b]> (dispatch_blocks s) |>
  | None => s
  end.

Lemma IncrementDispatcherCount_spec s type :
  counts_ok s -> 0 <= type -> IncrementDispatcherCount type s = Done tt (counted type s).
Proof.
  intros (Hn & b & Hb & Hm) Ht. unfold IncrementDispatcherCount. zguard. rewrite bind_gets. zguard.
  rewrite (bind_getsome _ _ _ b) by done. rewrite Hm. cbn [negb Z.eqb Pos.eqb].
  unfold counted. by rewrite Hb.
Qed.

(** The structure of a thread that the dispatcher releases. *)
Definition dispatched (x : thread_d) : thread_d :=
  let y := (dispatch_limits (dispatch_running x)) <| saved := FALSE |> in
  y <| to_user := u64 (to_user y + 1) |>.

Lemma dispatch_limits_fields x :
  let y := dispatch_limits x in
  ident y = ident x /\ context y = context x /\ cpl y = cpl x /\ pml4_PA y = pml4_PA x /\
  state y = state x /\ next y = next x /\ owner_pid y = owner_pid x /\
  to_user y = to_user x /\ runningCount y = runningCount x /\
  yield_in_progress y = yield_in_progress x /\ sleep_in_progress y = sleep_in_progress x /\
  quantum y = Z.max QUANTUM_MIN (quantum x).
Proof.
  cbv zeta. unfold dispatch_limits, PRIORITY_MIN, QUANTUM_MIN, QUANTUM_Q, CONFIG_QUANTUM_MULTIPLIER.
  destruct (base_priority x <? 1); cbn; destruct (priority x <? 1); cbn;
    destruct (Z.ltb_spec (quantum x) (1 * 1)); cbn; split_and!; try done; lia.
Qed.

Lemma dispatched_fields x :
  let y := dispatched x in
  ident y = ident x /\ context y = context x /\ cpl y = cpl x /\ pml4_PA y = pml4_PA x /\
  state y = RUNNING /\ next y = next x /\ owner_pid y = owner_pid x /\ saved y = FALSE /\
  runningCount y = 0 /\
  yield_in_progress y = yield_in_progress x /\ sleep_in_progress y = sleep_in_progress x /\
  quantum y = Z.max QUANTUM_MIN (quantum x).
Proof.
  cbv zeta. unfold dispatched.
  destruct (dispatch_limits_fields (dispatch_running x)) as (H1 & H2 & H3 & H4 & H5 & H6 & H7 & H8 & H9 & H10 & H11 & H12).
  revert H1 H2 H3 H4 H5 H6 H7 H8 H9 H10 H11 H12. unfold ident.
  generalize (dispatch_limits (dispatch_running x)). intros y. cbn. intros. by split_and!.
Qed.

(** The state that the dispatcher leaves. *)
Definition dispatched_state (t : Z) (x : thread_d) (s : kst) : kst :=
  s <| threads := <[t := dispatched x]> (threads s) |> <| CurrentThread := t |>
    <| cpu_context := mask_context (context x) |> <| cr3 := pml4_PA x |>.

(** The end of the dispatcher, from the structure [y] that it has prepared. *)
Lemma dispatcher_release s t y :
  valid_thread s (current_thread s) t y -> cpl y = 3 ->
  (update_thread t (fun x => x <| saved := FALSE |>);; restore_current_context) s =
  Done tt (s <| threads := <[t := (y <| saved := FALSE |>) <| to_user := u64 (to_user y + 1) |>]> (threads s) |>
    <| cpu_context := mask_context (context y) |> <| cr3 := pml4_PA y |>).
Proof.
  intros ((Hr & Ht & Hn & Hx) & Hu & Hm) Hc.
  rewrite (bind_Done _ _ _ _ _ (update_thread_Done s t y _ Hx)).
  rewrite (restore_context_spec _ t (y <| saved := FALSE |>)); [|split; [|done]|done].
  - cbn. by rewrite insert_insert_eq.
  - split; [done|]. split; [done|]. split; [done|]. apply lookup_insert_eq.
Qed.

Lemma dispatched_state_eq s t y z c p :
  let s1 := s <| threads := <[t := y]> (threads s) |> <| CurrentThread := t |> in
  s1 <| threads := <[t := z]> (threads s1) |> <| cpu_context := c |> <| cr3 := p |> =
  s <| threads := <[t := z]> (threads s) |> <| CurrentThread := t |>
    <| cpu_context := c |> <| cr3 := p |>.
Proof. destruct s. cbn. by rewrite insert_insert_eq. Qed.

Lemma dispatcher_spec s t x type :
  valid_thread s (current_thread s) t x -> state x = READY -> cpl x = 3 ->
  dispatcher type s = Done tt (dispatched_state t x s).
Proof.
  intros ((Hr & Ht & Hn & Hx) & Hu & Hm) Hst Hc. unfold dispatcher, threadList_at, deref_thread.
  rewrite bind_gets. zguard. rewrite (bind_getsome _ _ _ t) by done. zguard.
  rewrite (bind_getsome _ _ _ x) by done. rewrite Hm, Hst. state_eval. cbn [negb Z.eqb Pos.eqb].
  rewrite (update_update s t x) by done.
  destruct (dispatch_limits_fields (dispatch_running x)) as (H1 & H2 & H3 & H4 & _).
  rewrite (bind_Done _ _ _ _ _ (update_thread_Done s t x _ Hx)), bind_modify. cbn beta.
  unfold dispatched_state, dispatched. cbv zeta. revert H1 H2 H3 H4.
  generalize (dispatch_limits (dispatch_running x)). intros y H1 H2 H3 H4.
  unfold ident in H1. injection H1 as I1 I2 I3.
  etrans; [apply (dispatcher_release _ t y); [|by rewrite H3]|].
  - split; [|split; [rewrite I2; exact Hu|rewrite I3; exact Hm]].
    split; [exact Hr|]. split; [exact Ht|]. split; [exact Hn|]. apply lookup_insert_eq.
  - rewrite H2, H4. f_equal. apply dispatched_state_eq.
Qed.

(** ** Lemmas: spawn *)

Lemma set_current_thread_valid s i t x :
  valid_thread s i t x -> set_current_thread i s = Done tt (s <| current_thread := i |>).
Proof.
  intros Hv. pose proof Hv as ((Hr & _) & _). unfold set_current_thread. zguard.
  rewrite bind_gets. destruct (Z.eqb_spec i (current_thread s)) as [->|].
  - by destruct s.
  - by rewrite (with_thread_valid s i t x).
Qed.

Lemma is_standby_true x :
  is_standby x = true <-> used x = TRUE /\ magic x = 1234 /\ state x = STANDBY.
Proof.
  unfold is_standby. rewrite !andb_true_iff, !Z.eqb_eq. by destruct (state x); cbn; intuition.
Qed.

(** The first thread in STANDBY, in the order of the slots. *)
Definition standby_tid (s : kst) (i : Z) : option Z :=
  t ← zlookup (threadList s) i;
  x ← threads s !! t;
  if negb (t =? NULL) && is_standby x then Some (tid x) else None.

Lemma standby_scan s :
  wf_threads s ->
  for_return (range 0 THREAD_COUNT_MAX) (fun i =>
    t ← threadList_at i;
    if t =? NULL then mret None else
    x ← deref_thread t;
    mret (if is_standby x then Some (tid x) else None)) s =
  Done (head (omap (standby_tid s) (range 0 THREAD_COUNT_MAX))) s.
Proof.
  intros Hwf. apply for_return_find. intros i Hi%elem_range. unfold standby_tid.
  destruct (wf_threads_lookup s i Hwf) as (t & Ht); [lia|]. rewrite Ht. cbn.
  unfold threadList_at, deref_thread. rewrite (bind_getsome _ _ _ t) by done.
  destruct (Z.eqb_spec t NULL) as [->|Hn]; cbn [negb andb].
  - by rewrite (wf_threads_null s Hwf).
  - destruct (wf_slot s Hwf i t Ht Hn) as (x & Hx & _). rewrite Hx. cbn.
    by rewrite (bind_getsome _ _ _ x) by done.
Qed.

Lemma no_standby s :
  wf_threads s -> (forall i t x, thread_at s i t x -> is_standby x = false) ->
  schedi_check_for_standby s = Done tt s.
Proof.
  intros Hwf Hno. unfold schedi_check_for_standby.
  rewrite (bind_Done _ _ _ _ _ (standby_scan s Hwf)).
  assert (Hnil : omap (standby_tid s) (range 0 THREAD_COUNT_MAX) = []).
  { apply elem_of_nil_inv. intros k (i & Hi%elem_range & Hk)%list_elem_of_omap.
    revert Hk. unfold standby_tid. destruct (zlookup (threadList s) i) as [t|] eqn:Ht; [cbn|done].
    destruct (threads s !! t) as [x|] eqn:Hx; [cbn|done].
    destruct (Z.eqb_spec t NULL) as [|Hn]; [done|]. cbn.
    rewrite (Hno i t x); [done|]. split; [lia|by split_and!]. }
  by rewrite Hnil.
Qed.

(** The first hit of a scan of the slots. *)
Lemma head_omap_range {A} (f : Z -> option A) b i a :
  0 <= i < b -> f i = Some a -> (forall j, 0 <= j < i -> f j = None) ->
  head (omap f (range 0 b)) = Some a.
Proof.
  intros Hi Ha Hno.
  cut (forall n k, k = i - Z.of_nat n -> 0 <= k -> head (omap f (range k b)) = Some a).
  { intros H. apply (H (Z.to_nat i)); lia. }
  induction n as [|n IH]; intros k Hk H0; rewrite range_cons by lia; cbn.
  - replace k with i by lia. by rewrite Ha.
  - rewrite Hno by lia. apply IH; lia.
Qed.

(** What a thread needs to be spawned. *)
Definition can_spawn (s : kst) (x : thread_d) : Prop :=
  state x = STANDBY /\ saved x <> TRUE /\ owner_process x <> NULL /\
  0 <= owner_pid x < PROCESS_COUNT_MAX /\ cpl x = RING3 /\ spawn_eoi s = TRUE /\ counts_ok s.

(** The structure of a spawned thread. *)
Definition spawned (s : kst) (x : thread_d) : thread_d :=
  let y := spawn_clear (jiffies s) (InitThread s) x in
  y <| to_user := u64 (to_user y + 1) |>.

(** What the spawn leaves in the state. *)
Record spawned_state (i t : Z) (x : thread_d) (s s' : kst) : Prop := {
  sp_threads : threads s' = <[t := spawned s x]> (threads s);
  sp_threadList : threadList s' = threadList s;
  sp_current : current_thread s' = i;
  sp_pid : current_pid (pt s') = owner_pid x;
  sp_cr3 : cr3 s' = pml4_PA x;
  sp_ts : task_switch_status s' = UNLOCKED;
  sp_sched : g_scheduler_status s' = UNLOCKED
}.

(** The part of the spawn that follows its validation. *)
Lemma spawn_release_spec s i t x :
  valid_thread s i t x -> tid x = i -> can_spawn s x -> exists s',
  spawn_release t x s = Leave s' /\ spawned_state i t x s s'.
Proof.
  intros Hv Hi (Hst & Hsv & Ho & Hp & Hc & He & Hk). pose proof Hv as ((Hr & Ht & Hn & Hx) & Hu & Hm).
  unfold spawn_release. rewrite !bind_gets, Hi. zguard.
  rewrite (bind_Done _ _ _ _ _ (update_thread_Done s t x _ Hx)).
  assert (Hsp : spawned s x = (spawn_clear (jiffies s) (InitThread s) x) <| to_user :=
    u64 (to_user (spawn_clear (jiffies s) (InitThread s) x) + 1) |>) by reflexivity.
  revert Hsp. assert (Hy : valid_struct (spawn_clear (jiffies s) (InitThread s) x) = true)
    by (by apply valid_struct_true).
  revert Hy. generalize (spawn_clear (jiffies s) (InitThread s) x). intros y Hy Hsp.
  apply valid_struct_true in Hy as [Hyu Hym].
  unfold set_taskswitch_status, scheduler_unlock. rewrite !bind_modify. cbn beta.
  match goal with |- context [(on_ptab ?m ≫= ?k) ?S] =>
    rewrite (bind_Done (on_ptab m) k S tt (S <| pt := (pt S) <| current_pid := owner_pid x |> |>))
      by reflexivity end.
  match goal with |- context [(set_current_thread i ≫= ?k) ?S] =>
    rewrite (bind_Done _ k S _ _ (set_current_thread_valid S i t y
      (conj (conj Hr (conj Ht (conj Hn (lookup_insert_eq _ _ _)))) (conj Hyu Hym)))) end.
  rewrite bind_gets. cbn [current_thread set_field KState.set_current_thread]. zguard.
  match goal with |- context [(IncrementDispatcherCount ?c ≫= ?k) ?S] =>
    rewrite (bind_Done _ k S _ _ (IncrementDispatcherCount_spec S c Hk ltac:(done))) end.
  unfold counted. cbn. destruct Hk as (_ & b & -> & _). cbn.
  rewrite bind_modify. cbn beta. rewrite bind_gets. cbn [spawn_eoi set_field set_cr3]. cbn. rewrite He.
  cbn [negb Z.eqb Pos.eqb TRUE RING3].
  match goal with |- context [(update_thread t ?f ≫= ?k) ?S] =>
    rewrite (bind_Done _ k S _ _ (update_thread_Done S t y f (lookup_insert_eq _ _ _))) end.
  eexists. split; [reflexivity|]. split; try done. cbn. by rewrite insert_insert_eq, Hsp.
Qed.

Lemma wf_tid s i t x : wf_threads s -> valid_thread s i t x -> tid x = i.
Proof.
  intros Hwf ((Hr & Ht & Hn & Hx) & _). destruct (wf_slot s Hwf i t Ht Hn) as (y & Hy & Hi). congruence.
Qed.

Lemma spawn_imp_spec s i t x :
  wf_threads s -> valid_thread s i t x -> can_spawn s x -> exists s',
  __spawn_thread_by_tid_imp i s = Leave s' /\ spawned_state i t x s s'.
Proof.
  intros Hwf Hv Hc. pose proof (wf_tid s i t x Hwf Hv) as Hi.
  destruct (spawn_release_spec s i t x Hv Hi Hc) as (s' & Hs' & Hsp).
  exists s'. split; [|done]. destruct Hc as (Hst & Hsv & _).
  pose proof Hv as ((Hr & Ht & Hn & Hx) & Hu & Hm).
  unfold __spawn_thread_by_tid_imp. cbv zeta.
  assert (Hland : i32 (Z.land i 4294967295) = i).
  { change 4294967295 with (Z.ones 32). unfold THREAD_COUNT_MAX in *.
    rewrite Z.land_ones by lia. rewrite Z.mod_small by lia. apply i32_id. lia. }
  rewrite Hland. zguard. unfold threadList_at. rewrite (bind_getsome _ _ _ t) by done. zguard.
  unfold deref_thread. rewrite (bind_getsome _ _ _ x) by done.
  rewrite Hu, Hm, Hst, Hi. state_eval. by zguard.
Qed.

(** ** Theorems *)

(** The standby check runs the first new thread: with at least one thread in
    STANDBY, the first in the order of the slots (not the init thread, with an
    owner, in ring 3, never saved) is spawned and the routine does not return:
    it becomes the current thread, RUNNING with its counters cleared, its owner
    the current process, its page table loaded, and both locks are open. *)
Theorem standby_spawns_first s i t x :
  wf_threads s -> 1 <= i -> valid_thread s i t x -> can_spawn s x ->
  (forall j u y, 0 <= j < i -> valid_thread s j u y -> state y <> STANDBY) ->
  exists s', schedi_check_for_standby s = Leave s' /\
    current_thread s' = i /\ current_pid (pt s') = owner_pid x /\ cr3 s' = pml4_PA x /\
    task_switch_status s' = UNLOCKED /\ g_scheduler_status s' = UNLOCKED /\
    threads s' = <[t := spawned s x]> (threads s) /\
    state (spawned s x) = RUNNING /\ runningCount (spawned s x) = 0 /\
    next (spawned s x) = InitThread s /\ initial_jiffy (spawned s x) = jiffies s.
Proof.
  intros Hwf Hi Hv Hc Hfirst. pose proof Hv as ((Hr & Ht & Hn & Hx) & Hu & Hm).
  pose proof (wf_tid s i t x Hwf Hv) as Htid.
  unfold schedi_check_for_standby. rewrite (bind_Done _ _ _ _ _ (standby_scan s Hwf)).
  assert (Hs : is_standby x = true) by (unfold is_standby; destruct Hc as (-> & _); by rewrite Hu, Hm).
  rewrite (head_omap_range _ _ i i); [|done| |].
  - unfold INIT_TID, SYSTEM_THRESHOLD_TID. zguard.
    rewrite (bind_Done _ _ _ _ _ (set_current_thread_valid s i t x Hv)).
    destruct (spawn_imp_spec (s <| current_thread := i |>) i t x) as (s' & Hs' & [Hth _ Hcur Hpid Hcr Hts Hsch]).
    + by eapply wf_threads_ext.
    + exact Hv.
    + exact Hc.
    + exists s'. split; [|by split_and!]. apply bind_Leave. unfold psSpawnThreadByTID. zguard.
      by apply bind_Leave.
  - unfold standby_tid. rewrite Ht. cbn. rewrite Hx. cbn. zguard. rewrite Hs. by rewrite Htid.
  - intros j Hj. unfold standby_tid. destruct (zlookup (threadList s) j) as [u|] eqn:Hu'; [cbn|done].
    destruct (threads s !! u) as [y|] eqn:Hy; [cbn|done].
    destruct (Z.eqb_spec u NULL) as [|Hnu]; [done|]. cbn.
    destruct (is_standby y) eqn:Hy'; [|done]. apply is_standby_true in Hy' as (Hu1 & Hm1 & Hs1).
    destruct (Hfirst j u y Hj); [|done]. split; [split; [lia|by split_and!]|done].
Qed.

(** The registers [c'] are those of [c], field by field; the segment registers,
    which have 16 bits in the processor, are cut to them. *)
Record same_registers (c c' : x64_context_d) : Prop := {
  sa_ss : c_ss c' = c_ss c mod 2 ^ 16;
  sa_rsp : c_rsp c' = c_rsp c;
  sa_rflags : c_rflags c' = c_rflags c;
  sa_cs : c_cs c' = c_cs c mod 2 ^ 16;
  sa_rip : c_rip c' = c_rip c;
  sa_data : c_ds c' = c_ds c mod 2 ^ 16 /\ c_es c' = c_es c mod 2 ^ 16;
  sa_thread : c_fs c' = c_fs c mod 2 ^ 16 /\ c_gs c' = c_gs c mod 2 ^ 16;
  sa_abcd : c_rax c' = c_rax c /\ c_rbx c' = c_rbx c /\ c_rcx c' = c_rcx c /\ c_rdx c' = c_rdx c;
  sa_index : c_rsi c' = c_rsi c /\ c_rdi c' = c_rdi c /\ c_rbp c' = c_rbp c;
  sa_r8_11 : c_r8 c' = c_r8 c /\ c_r9 c' = c_r9 c /\ c_r10 c' = c_r10 c /\ c_r11 c' = c_r11 c;
  sa_r12_15 : c_r12 c' = c_r12 c /\ c_r13 c' = c_r13 c /\ c_r14 c' = c_r14 c /\ c_r15 c' = c_r15 c;
  sa_fpu : c_fpu_buffer c' = c_fpu_buffer c
}.

Definition segments_16 (c : x64_context_d) : Prop :=
  Forall (fun x => 0 <= x < 2 ^ 16) [c_ss c; c_cs c; c_ds c; c_es c; c_fs c; c_gs c].

Lemma mask_same c : same_registers c (mask_context c).
Proof. split; cbn; unfold seg; rewrite ?land_FFFF; by split_and?. Qed.

Lemma same_mask c c' : same_registers c c' -> same_registers c (mask_context c').
Proof.
  intros []. split; cbn; unfold seg; rewrite ?land_FFFF; try done.
  all: destruct_and?; repeat match goal with H : _ = _ mod 2 ^ 16 |- _ => rewrite H; clear H end;
    rewrite ?Z.mod_mod by lia; by split_and?.
Qed.

Lemma same_16 c c' : same_registers c c' -> segments_16 c -> c' = c.
Proof.
  unfold segments_16. rewrite !Forall_cons. intros [] (H1 & H2 & H3 & H4 & H5 & H6 & _).
  destruct_and?. rewrite Z.mod_small in * by lia. destruct c, c'; cbn in *. by simplify_eq.
Qed.

(** [C26] Saving the context of a thread of ring 3 stores every register of the
    processor in the structure of the current thread, where nothing else changes
    but the counter [to_supervisor] and the interrupt flag; no other structure
    and no other part of the state changes.  When the same thread is current
    again, in whatever state, with that context still in its structure, restoring
    gives the processor back every register, field by field, and the page tables
    of the thread; if the segment registers had 16 bits, as they have in the
    processor, the whole context is the one that was interrupted. *)
Theorem context_roundtrip s t x :
  valid_thread s (current_thread s) t x -> Z.land (contextCPL s) 3 = 3 -> cpl x = 3 ->
  exists c,
    save_current_context s =
      Done tt (s <| threads := <[t := x <| context := c |> <| to_supervisor := u64 (to_supervisor x + 1) |>
        <| rflags_current_iopl := Z.land (c_rflags (cpu_context s)) 512 |>]> (threads s) |>) /\
    same_registers (cpu_context s) c /\
    forall s2 y, valid_thread s2 (current_thread s2) t y -> cpl y = 3 -> context y = c ->
      exists s3, restore_current_context s2 = Done tt s3 /\
        same_registers (cpu_context s) (cpu_context s3) /\ cr3 s3 = pml4_PA y /\
        (segments_16 (cpu_context s) -> cpu_context s3 = cpu_context s) /\
        threads s3 = <[t := y <| to_user := u64 (to_user y + 1) |>]> (threads s2).
Proof.
  intros Hv Hl Hc. exists (mask_context (cpu_context s)).
  split; [by apply (save_context_spec s t x)|]. split; [apply mask_same|].
  intros s2 y Hv2 Hc2 Hctx. eexists. split; [by apply (restore_context_spec s2 t y)|]. cbn. rewrite Hctx.
  pose proof (same_mask _ _ (mask_same (cpu_context s))) as Hs.
  split; [done|]. split; [done|]. split; [|done]. by apply same_16.
Qed.

(** ** Witnesses *)

(** A system with its dispatcher counters and a process 0 that has a page
    table. *)
Definition sample_kernel (ts : list thread_d) : kst :=
  (sample_kst ts) <| DispatchCountBlock := 64 |>
    <| dispatch_blocks := {[ 64 := mk_dispatch_count 1234 0 0 0 0 0 0 0 ]} |>
    <| spawn_eoi := TRUE |> <| task_switch_status := UNLOCKED |> <| sched_initialized := TRUE |>
    <| g_scheduler_status := UNLOCKED |>
    <| pt := mk_ptab SYSTEM_RUNNING 0 (4096 :: replicate 1023 0)
         {[ 4096 := mk_process TRUE 1234 0 0 0 0 0 73728 0 0 0 (replicate 64 0) 0 ]} |>.

Lemma sample_counts_ok ts : counts_ok (sample_kernel ts).
Proof. split; [done|]. eexists. split; [reflexivity|done]. Qed.

Definition dispatch_demo_thread (i : Z) : thread_d :=
  if i =? 2 then (sample_thread i STANDBY) <| saved := FALSE |> <| owner_process := 4096 |>
    <| pml4_PA := 73728 |>
  else sample_thread i READY.

Definition dispatch_demo : kst := sample_kernel (dispatch_demo_thread <$> range 0 4).

Lemma standby_spawns_first_witness :
  let s := dispatch_demo in let x := dispatch_demo_thread 2 in
  exists s', schedi_check_for_standby s = Leave s' /\
    current_thread s' = 2 /\ current_pid (pt s') = 0 /\ cr3 s' = 73728 /\
    task_switch_status s' = UNLOCKED /\ g_scheduler_status s' = UNLOCKED /\
    threads s' = <[sample_addr 2 := spawned s x]> (threads s) /\
    state (spawned s x) = RUNNING /\ runningCount (spawned s x) = 0 /\
    next (spawned s x) = InitThread s /\ initial_jiffy (spawned s x) = jiffies s.
Proof.
  apply (standby_spawns_first dispatch_demo 2 (sample_addr 2) (dispatch_demo_thread 2)).
  - wf_concrete.
  - lia.
  - split; [by vm_compute|done].
  - repeat split; try done. apply sample_counts_ok.
  - intros j u y Hj ((_ & Hu & _ & Hy) & _).
    assert (j = 0 \/ j = 1) as [->| ->] by lia; vm_compute in Hu; injection Hu as <-;
      vm_compute in Hy; injection Hy as <-; done.
Defined.

Lemma context_roundtrip_witness :
  let s := dispatch_demo in let t := sample_addr 0 in let x := dispatch_demo_thread 0 in
  exists c s3, same_registers (cpu_context s) c /\
    restore_current_context (s <| threads := <[t := x <| context := c |>]> (threads s) |>) = Done tt s3 /\
    same_registers (cpu_context s) (cpu_context s3) /\ cr3 s3 = pml4_PA x.
Proof.
  assert (Hv : valid_thread dispatch_demo 0 (sample_addr 0) (dispatch_demo_thread 0))
    by (split; [by vm_compute|done]).
  destruct (context_roundtrip dispatch_demo (sample_addr 0) (dispatch_demo_thread 0) Hv eq_refl eq_refl)
    as (c & _ & Hc & Hr).
  destruct (Hr (dispatch_demo <| threads := <[sample_addr 0 := (dispatch_demo_thread 0) <| context := c |>]>
      (threads dispatch_demo) |>) ((dispatch_demo_thread 0) <| context := c |>)) as (s3 & H1 & H2 & H3 & _).
  - split; [split; [done|split; [done|split; [done|apply lookup_insert_eq]]]|done].
  - done.
  - done.
  - exists c, s3. split; [exact Hc|]. split; [exact H1|]. split; [exact H2|exact H3].
Defined.
