(* ===== verification/TaskSwitch.v ===== *)
(** * TaskSwitch: the tick of the timer

    [core/ke/intake/disp/ts.c]: what a timer interrupt does with the current
    thread (accounting, saving of the context, end of the quantum) and how the
    next thread is selected and dispatched; the callback of the display server
    ([gramk/evi/callback.c]) that may replace it. *)
From Stdlib Require Import ZArith Lia.
From stdpp Require Import base gmap list strings.
From S2P Require Import Config Prelude Process KState Samples Threads Sched Dispatch.

#[local] Open Scope Z_scope.
#[local] Open Scope gramado_scope.

(** ** sockint.c, callback.c *)

Definition socket_get_gramado_port (port : Z) : M kst Z :=
  if (port <? 0) || (31 <? port) then mret (-1)
  else getsome (fun s => zlookup (gramado_ports s) port).

Definition socket_set_gramado_port (port pid : Z) : M kst Z :=
  if (port <? 0) || (31 <? port) then mret (-1) else
  if (pid <? 0) || (PROCESS_COUNT_MAX <=? pid) then mret (-1) else
  modify (fun s => s <| gramado_ports := zinsert (gramado_ports s) port pid |>);;
  mret 0.

Definition setup_callback (r3_address ms : Z) : M kst unit :=
  cb ← gets ds_callback_info;
  if negb (cb_initialized cb =? TRUE) then panic "setup_callback: Not initialized" else
  if ms <? 1 then panic "setup_callback: ms<1" else
  if 1000 <? ms then panic "setup_callback: ms>1000" else
  modify (fun s => s <| ds_callback_info := cb
    <| callback_address := r3_address |> <| callback_address_saved := r3_address |>
    <| each_n_ms := ms |> <| times_per_second := 1000 / ms |> <| cb_ready := TRUE |> |>).

Definition prepare_next_ds_callback : M kst unit :=
  cb ← gets ds_callback_info;
  if negb (cb_ready cb =? TRUE) then panic "prepare_next_ds_callback: No ready" else
  modify (fun s => s <| asmflagDoCallbackAfterCR3 := 4660 |>);;
  if callback_address cb =? 0 then panic "prepare_next_ds_callback: Invalid address" else
  modify (fun s => s <| ring3_callback_address := callback_address cb |>
    <| ds_callback_info := cb <| cb_ready := FALSE |> <| callback_address := 0 |> |>).

Definition callbackInitialize : M kst Z :=
  modify (fun s => s <| ds_callback_info := mk_ds_callback TRUE FALSE 0 0 16 (1000 / 16) |>);;
  mret 0.

(** ** ts.c: the end of a quantum *)

(** The party flag of the init thread only asks for a shutdown with flags
    0x8000, and it is called with 0. *)
Definition __tsOnFinishedExecuting (t : Z) : M kst unit :=
  if t =? NULL then panic "__tsOnFinishedExecuting: t" else
  x ← deref_thread t;
  if negb (magic x =? 1234) then panic "__tsOnFinishedExecuting: t magic" else
  (if state_eqb (state x) RUNNING
   then update_thread t (fun x => x <| state := READY |> <| readyCount := 0 |>) else mret tt);;
  schedi_check_for_standby;;
  dead ← gets dead_thread_collector_status;
  if dead =? TRUE then check_for_dead_thread_collector else mret tt.

(** ** ts.c: the selection of the next thread *)

Definition ev_scheduled (x : thread_d) : thread_d :=
  x <| runningCount := 0 |> <| runningCount_ms := 0 |> <| quantum := QUANTUM_MAX |>
    <| priority := PRIORITY_MAX |> <| state := READY |>
    <| scheduledCount := u64 (scheduledCount x + 1) |> <| has_pending_event_ := FALSE |>.

(** [current_thread = psScheduler()] *)
Definition reschedule (tmp0 : Z) : M kst unit :=
  r ← psScheduler tmp0;
  modify (fun s => s <| current_thread := r |>).

(** From the label ZeroGravity to the label go_ahead: the conductor is moved to
    the only thread, to the event responder, to a new round or to the next
    thread of the round. *)
Definition ts_pick (tmp0 : Z) : M kst unit :=
  n ← gets threads_counter;
  if n =? 0 then panic "ts: No threads" else
  if n =? 1 then
    init ← gets InitThread;
    idle ← gets IdleThread;
    if negb (init =? idle) then panic "ts: Invalid single thread" else
    modify (fun s => s <| currentq := idle |>)
  else
  use ← gets g_use_event_responder;
  ev ← gets ev_responder_thread;
  hasEvent ← (if use =? TRUE then has_pending_event ev else mret FALSE);
  if hasEvent =? TRUE then
    update_thread ev ev_scheduled;;
    modify (fun s => s <| currentq := ev |>);;
    update_thread ev (fun x => x <| next := NULL |>)
  else
  q ← gets currentq;
  x ← deref_thread q;
  if next x =? NULL then reschedule tmp0
  else modify (fun s => s <| currentq := next x |>).

(** From the label go_ahead to the label dispatch_current: [true] when the
    conductor can be dispatched; otherwise a new round is built and the
    selection starts again. *)
Definition ts_go_ahead (tmp0 : Z) : M kst bool :=
  q ← gets currentq;
  if q =? NULL then reschedule tmp0;; mret false else
  x ← deref_thread q;
  if negb (valid_struct x) then reschedule tmp0;; mret false else
  if negb (state_eqb (state x) READY) then reschedule tmp0;; mret false else
  modify (fun s => s <| current_thread := i32 (tid x) |>);;
  mret true.

Fixpoint ts_zero_gravity (fuel : nat) (tmp0 : Z) : M kst unit :=
  match fuel with
  | O => diverge
  | S fuel =>
      ts_pick tmp0;;
      ok ← ts_go_ahead tmp0;
      if (ok : bool) then mret tt else ts_zero_gravity fuel tmp0
  end.

(** ** ts.c: the dispatch *)

Definition ts_clear (x : thread_d) : thread_d :=
  let x := x <| standbyCount := 0 |> <| standbyCount_ms := 0 |> <| runningCount := 0 |>
    <| runningCount_ms := 0 |> <| readyCount := 0 |> <| readyCount_ms := 0 |>
    <| waitingCount := 0 |> <| waitingCount_ms := 0 |> <| blockedCount := 0 |>
    <| blockedCount_ms := 0 |> in
  let x := if PRIORITY_MAX <? base_priority x then x <| base_priority := PRIORITY_MAX |> else x in
  let x := if PRIORITY_MAX <? priority x then x <| priority := PRIORITY_MAX |> else x in
  if QUANTUM_MAX <? quantum x then x <| quantum := QUANTUM_MAX |> else x.

(** From the label dispatch_current to the return. *)
Definition ts_dispatch : M kst unit :=
  c ← gets current_thread;
  if (c <? 0) || (THREAD_COUNT_MAX <=? c) then panic "ts-dispatch_current: current_thread" else
  t ← threadList_at c;
  if t =? NULL then panic "ts-dispatch_current: TargetThread" else
  x ← deref_thread t;
  if negb (valid_struct x) then panic "ts-dispatch_current: validation" else
  if negb (state_eqb (state x) READY) then panic "ts-dispatch_current: Not ready" else
  update_thread t ts_clear;;
  IncrementDispatcherCount SELECT_DISPATCHER_COUNT;;
  dispatcher DISPATCHER_CURRENT;;
  y ← deref_thread t;
  let pid := owner_pid y in
  if (pid <? 0) || (THREAD_COUNT_MAX <=? pid) then panic "die: targetthread_OwnerPID" else
  p ← on_ptab (processList_at pid);
  if p =? NULL then panic "die: TargetProcess" else
  P ← on_ptab (deref_process p);
  if negb (p_used P =? TRUE) || negb (p_magic P =? 1234) then panic "die: TargetProcess" else
  if negb (p_pid P =? pid) then panic "ts: TargetProcess->pid != targetthread_OwnerPID" else
  on_ptab (set_current_process (p_pid P));;
  if p_pml4_PA P =? 0 then panic "die: pml4" else
  mret tt.

(** ** ts.c: the tick *)

(** The time of a tick, in milliseconds. *)
Definition tick_ms (hz : Z) : Z := DEFAULT_PIT_FREQ / hz.

Definition ts_account (ms : Z) (x : thread_d) : thread_d :=
  x <| step := u64 (step x + 1) |> <| total_time_ms := u64 (total_time_ms x + ms) |>
    <| runningCount := u64 (runningCount x + 1) |>
    <| runningCount_ms := u64 (runningCount_ms x + ms) |>.

(** Inside its quantum, a running thread may give up the rest of it: by a
    yield, or to sleep. *)
Definition ts_same_again (t : Z) : M kst unit :=
  x ← deref_thread t;
  (if state_eqb (state x) RUNNING && (yield_in_progress x =? TRUE)
   then update_thread t (fun x =>
     x <| runningCount := quantum x |> <| yield_in_progress := FALSE |>) else mret tt);;
  y ← deref_thread t;
  (if state_eqb (state y) RUNNING && (sleep_in_progress y =? TRUE) then
     update_thread t (fun x => x <| runningCount := quantum x |>);;
     sleep_until (tid y) (desired_sleep_ms y);;
     update_thread t (fun x => x <| sleep_in_progress := FALSE |>)
   else mret tt);;
  IncrementDispatcherCount SELECT_CURRENT_COUNT.

(** [fuel] bounds the number of times the selection of the next thread starts
    again. *)
Definition __task_switch (fuel : nat) (tmp0 : Z) : M kst unit :=
  c ← gets current_thread;
  if (c <? 0) || (THREAD_COUNT_MAX <=? c) then panic "ts: current_thread" else
  t ← threadList_at c;
  if t =? NULL then panic "ts: CurrentThread" else
  x ← deref_thread t;
  if negb (valid_struct x) then panic "ts: CurrentThread validation" else
  let pid := owner_pid x in
  if (pid <? 0) || (PROCESS_COUNT_MAX <=? pid) then panic "ts: owner_pid" else
  p ← on_ptab (processList_at pid);
  if p =? NULL then panic "ts: CurrentProcess" else
  P ← on_ptab (deref_process p);
  if negb (p_used P =? TRUE) || negb (p_magic P =? 1234) then panic "ts: CurrentProcess validation" else
  if negb (p_pid P =? pid) then panic "ts: CurrentProcess->pid != owner_pid" else
  on_ptab (set_current_process pid);;
  hz ← gets sys_time_hz;
  if hz =? 0 then undef else
  update_thread t (ts_account (tick_ms hz));;
  status ← gets task_switch_status;
  if status =? LOCKED then IncrementDispatcherCount SELECT_CURRENT_COUNT else
  if negb (status =? UNLOCKED) then panic "ts: task_switch_status != UNLOCKED" else
  save_current_context;;
  update_thread t (fun x => x <| saved := TRUE |>);;
  y ← deref_thread t;
  if runningCount y <? quantum y then ts_same_again t
  else
    __tsOnFinishedExecuting t;;
    ts_zero_gravity fuel tmp0;;
    ts_dispatch.

(** The interface of the timer handler: in the thread of the display server, a
    registered callback replaces the switch. *)
Definition tsTaskSwitch (fuel : nat) (tmp0 : Z) : M kst unit :=
  current_process_pid ← on_ptab get_current_process;
  if (current_process_pid <? 0) || (PROCESS_COUNT_MAX <=? current_process_pid)
  then panic "die: psTaskSwitch: current_process_pid" else
  c ← gets current_thread;
  if (c <? 0) || (THREAD_COUNT_MAX <=? c) then panic "die: psTaskSwitch: current_thread" else
  ws_pid ← socket_get_gramado_port GRAMADO_PORT_WS;
  ready ← gets (fun s => cb_ready (ds_callback_info s));
  if (current_process_pid =? ws_pid) && (ready =? TRUE) then prepare_next_ds_callback
  else __task_switch fuel tmp0.

(** ** Specification *)

(** The process [pid] is valid and has a page table. *)
Definition owner_at (s : kst) (pid : Z) : Prop :=
  0 <= pid < PROCESS_COUNT_MAX /\ exists p P,
    zlookup (processList (pt s)) pid = Some p /\ p <> NULL /\ procs (pt s) !! p = Some P /\
    p_used P = TRUE /\ p_magic P = 1234 /\ p_pid P = pid /\ p_pml4_PA P <> 0.

(** What a tick needs besides its thread. *)
Definition ts_config (s : kst) : Prop :=
  sys_time_hz s <> 0 /\ task_switch_status s = UNLOCKED /\ Z.land (contextCPL s) 3 = 3 /\
  counts_ok s.

Definition set_pid (pid : Z) (s : kst) : kst := s <| pt := (pt s) <| current_pid := pid |> |>.

(** The structure of the interrupted thread, accounted and saved. *)
Definition entry (s : kst) (x : thread_d) : thread_d :=
  (with_context (cpu_context s) (ts_account (tick_ms (sys_time_hz s)) x)) <| saved := TRUE |>.

Definition entered (s : kst) (t : Z) (x : thread_d) : kst :=
  (set_pid (owner_pid x) s) <| threads := <[t := entry s x]> (threads s) |>.

(** What the same quantum does to a thread that yields or sleeps. *)
Definition same_again_yield (y : thread_d) : thread_d :=
  if state_eqb (state y) RUNNING && (yield_in_progress y =? TRUE)
  then y <| runningCount := quantum y |> <| yield_in_progress := FALSE |> else y.

Definition same_again (j : Z) (y : thread_d) : thread_d :=
  let y := same_again_yield y in
  if state_eqb (state y) RUNNING && (sleep_in_progress y =? TRUE)
  then (spec_waiting j (if desired_sleep_ms y =? 0 then 1 else desired_sleep_ms y)
         (y <| runningCount := quantum y |>)) <| sleep_in_progress := FALSE |>
  else y.

Definition preempted (y : thread_d) : thread_d :=
  if state_eqb (state y) RUNNING then y <| state := READY |> <| readyCount := 0 |> else y.

(** ** Lemmas: the entry of a tick *)

Lemma owner_lookup s pid : owner_at s pid -> exists p P,
  on_ptab (processList_at pid) s = Done p s /\ p <> NULL /\
  on_ptab (deref_process p) s = Done P s /\ p_used P = TRUE /\ p_magic P = 1234 /\
  p_pid P = pid /\ p_pml4_PA P <> 0.
Proof.
  intros (Hr & p & P & Hl & Hn & HP & Hu & Hm & Hpid & Hpml). exists p, P.
  assert (Hs : s <| pt := pt s |> = s) by (by destruct s).
  unfold on_ptab, processList_at, deref_process, getsome. rewrite Hl, HP, Hs. by split_and!.
Qed.

Lemma on_ptab_set_pid pid s : on_ptab (set_current_process pid) s = Done tt (set_pid pid s).
Proof. done. Qed.

Lemma entered_eq s t x a b c :
  let s1 := (set_pid (owner_pid x) s) <| threads := <[t := a]> (threads s) |> in
  let s2 := s1 <| threads := <[t := b]> (threads s1) |> in
  s2 <| threads := <[t := c]> (threads s2) |> =
  (set_pid (owner_pid x) s) <| threads := <[t := c]> (threads s) |>.
Proof. destruct s. cbn. by rewrite !insert_insert_eq. Qed.

(** The part of the tick that decides on the next thread. *)
Definition ts_decide (fuel : nat) (tmp0 t : Z) : M kst unit :=
  y ← deref_thread t;
  if runningCount y <? quantum y then ts_same_again t
  else __tsOnFinishedExecuting t;; ts_zero_gravity fuel tmp0;; ts_dispatch.

Lemma ts_enter fuel tmp0 s t x :
  ts_config s -> valid_thread s (current_thread s) t x -> owner_at s (owner_pid x) -> cpl x = 3 ->
  __task_switch fuel tmp0 s = ts_decide fuel tmp0 t (entered s t x).
Proof.
  intros (Hhz & Hst & Hcpl & Hk) Hv Ho Hc. pose proof Hv as ((Hr & Ht & Hn & Hx) & Hu & Hm).
  pose proof Ho as (Hpr & _). destruct (owner_lookup s _ Ho) as (p & P & Hp & Hpn & HP & HPu & HPm & HPp & _).
  unfold __task_switch. rewrite bind_gets. zguard.
  rewrite (bind_Done _ _ _ _ _ (threadList_at_Done s _ t Ht)). zguard.
  rewrite (bind_Done _ _ _ _ _ (deref_thread_Done s t x Hx)). unfold valid_struct. rewrite Hu, Hm. cbn [negb andb TRUE Z.eqb Pos.eqb].
  zguard. rewrite (bind_Done _ _ _ _ _ Hp). zguard. rewrite (bind_Done _ _ _ _ _ HP), HPu, HPm, HPp, !Z.eqb_refl.
  cbn [negb orb TRUE Z.eqb Pos.eqb]. rewrite (bind_Done _ _ _ _ _ (on_ptab_set_pid _ s)).
  set (s1 := set_pid (owner_pid x) s).
  rewrite bind_gets. change (sys_time_hz s1) with (sys_time_hz s). zguard.
  assert (Hx1 : threads s1 !! t = Some x) by exact Hx.
  rewrite (update_gets s1 t x) by done. change (task_switch_status s1) with (task_switch_status s).
  rewrite Hst. cbn [negb UNLOCKED LOCKED Z.eqb Pos.eqb].
  rewrite (bind_Done _ _ _ _ _ (update_thread_Done s1 t x _ Hx1)).
  match goal with |- context [(save_current_context ≫= ?k) ?S] =>
    rewrite (bind_Done _ k S _ _ (save_context_spec S t (ts_account (tick_ms (sys_time_hz s)) x)
      (conj (conj Hr (conj Ht (conj Hn (lookup_insert_eq _ _ _)))) (conj Hu Hm)) Hcpl Hc)) end.
  match goal with |- context [(update_thread t ?f ≫= ?k) ?S] =>
    rewrite (bind_Done _ k S _ _ (update_thread_Done S t _ f (lookup_insert_eq _ _ _))) end.
  apply (f_equal (ts_decide fuel tmp0 t)).
  exact (entered_eq s t x (ts_account (tick_ms (sys_time_hz s)) x)
    (with_context (cpu_context s) (ts_account (tick_ms (sys_time_hz s)) x)) (entry s x)).
Qed.

(** ** Lemmas: inside the quantum *)

Lemma sleep_until_valid s i t x ms :
  valid_thread s i t x -> sleep_until i ms s =
  Done tt (s <| threads := <[t := spec_waiting (jiffies s) (if ms =? 0 then 1 else ms) x]> (threads s) |>).
Proof. intros Hv. exact (run_op_valid s (OpSleepUntil i ms) t x Hv). Qed.

(** The sleep of a thread that asked for it. *)
Lemma sleep_steps s i t y :
  valid_thread s i t y -> tid y = i -> counts_ok s ->
  (update_thread t (fun x => x <| runningCount := quantum x |>);;
   sleep_until (tid y) (desired_sleep_ms y);;
   update_thread t (fun x => x <| sleep_in_progress := FALSE |>)) s =
  Done tt (s <| threads := <[t := (spec_waiting (jiffies s)
    (if desired_sleep_ms y =? 0 then 1 else desired_sleep_ms y)
    (y <| runningCount := quantum y |>)) <| sleep_in_progress := FALSE |>]> (threads s) |>).
Proof.
  intros ((Hr & Ht & Hn & Hx) & Hu & Hm) Hi Hk. rewrite Hi.
  rewrite (bind_Done _ _ _ _ _ (update_thread_Done s t y _ Hx)).
  match goal with |- context [(sleep_until i ?ms ≫= ?k) ?S] =>
    rewrite (bind_Done _ k S _ _ (sleep_until_valid S i t (y <| runningCount := quantum y |>) ms
      (conj (conj Hr (conj Ht (conj Hn (lookup_insert_eq _ _ _)))) (conj Hu Hm)))) end.
  match goal with |- context [update_thread t ?f ?S] =>
    rewrite (update_thread_Done S t _ f (lookup_insert_eq _ _ _)) end.
  cbn. by rewrite !insert_insert_eq.
Qed.

Lemma same_again_yield_fields y :
  let z := same_again_yield y in
  ident z = ident y /\ state z = state y /\ sleep_in_progress z = sleep_in_progress y /\
  desired_sleep_ms z = desired_sleep_ms y /\ quantum z = quantum y /\ next z = next y.
Proof. cbv zeta. unfold same_again_yield. by case_match. Qed.

Lemma yield_step s t y (k : unit -> M kst unit) :
  threads s !! t = Some y ->
  ((if state_eqb (state y) RUNNING && (yield_in_progress y =? TRUE)
    then update_thread t (fun x => x <| runningCount := quantum x |> <| yield_in_progress := FALSE |>)
    else mret tt) ≫= k) s =
  k tt (s <| threads := <[t := same_again_yield y]> (threads s) |>).
Proof.
  intros Hx. unfold same_again_yield. case_match.
  - by rewrite (bind_Done _ _ _ _ _ (update_thread_Done s t y _ Hx)).
  - rewrite insert_id by done. by destruct s.
Qed.

Lemma ts_same_again_spec s i t y :
  valid_thread s i t y -> tid y = i -> counts_ok s ->
  ts_same_again t s = Done tt (counted SELECT_CURRENT_COUNT
    (s <| threads := <[t := same_again (jiffies s) y]> (threads s) |>)).
Proof.
  intros Hv Hi Hk. pose proof Hv as ((Hr & Ht & Hn & Hx) & Hu & Hm). unfold ts_same_again.
  rewrite (bind_Done _ _ _ _ _ (deref_thread_Done s t y Hx)), (yield_step s t y) by done.
  destruct (same_again_yield_fields y) as (Hid & _). unfold ident in Hid. unfold same_again.
  revert Hid. generalize (same_again_yield y). intros z [= Hz1 Hz2 Hz3].
  match goal with |- context [(deref_thread t ≫= ?k) ?S] =>
    rewrite (bind_Done _ k S _ _ (deref_thread_Done S t z (lookup_insert_eq _ _ _))) end.
  case_match.
  - match goal with |- context [(?m ≫= ?k) ?S] =>
      rewrite (bind_Done m k S _ _ (sleep_steps S i t z (conj (conj Hr (conj Ht (conj Hn
        (lookup_insert_eq _ _ _)))) (conj (eq_trans Hz2 Hu) (eq_trans Hz3 Hm))) (eq_trans Hz1 Hi) Hk)) end.
    rewrite IncrementDispatcherCount_spec; [|exact Hk|done]. cbn. by rewrite insert_insert_eq.
  - rewrite bind_ret. by rewrite IncrementDispatcherCount_spec.
Qed.

(** ** Lemmas: the end of the quantum *)

Definition no_standby_thread (s : kst) : Prop :=
  forall i t x, thread_at s i t x -> is_standby x = false.

Lemma preempted_fields y :
  let z := preempted y in
  ident z = ident y /\ next z = next y /\ cpl z = cpl y /\ owner_pid z = owner_pid y /\
  context z = context y /\ saved z = saved y /\ is_standby z = is_standby y /\ quantum z = quantum y /\
  yield_in_progress z = yield_in_progress y /\ sleep_in_progress z = sleep_in_progress y.
Proof.
  cbv zeta. unfold preempted.
  destruct (state_eqb (state y) RUNNING) eqn:E; [|done]. apply bool_decide_eq_true in E.
  unfold is_standby. rewrite E. by split_and!.
Qed.

Lemma preempt_step s t y (k : unit -> M kst unit) :
  threads s !! t = Some y ->
  ((if state_eqb (state y) RUNNING
    then update_thread t (fun x => x <| state := READY |> <| readyCount := 0 |>)
    else mret tt) ≫= k) s = k tt (s <| threads := <[t := preempted y]> (threads s) |>).
Proof.
  intros Hx. unfold preempted. case_match.
  - by rewrite (bind_Done _ _ _ _ _ (update_thread_Done s t y _ Hx)).
  - rewrite insert_id by done. by destruct s.
Qed.

Lemma no_standby_update s t y z :
  no_standby_thread s -> (forall i, thread_at s i t y -> is_standby z = false) ->
  threads s !! t = Some y ->
  no_standby_thread (s <| threads := <[t := z]> (threads s) |>).
Proof.
  intros Hno Hz Hy i u x (Hr & Hu & Hn & Hx). cbn in Hu, Hx.
  destruct (decide (t = u)) as [<-|Hne].
  - rewrite lookup_insert_eq in Hx. injection Hx as <-. by apply (Hz i).
  - rewrite lookup_insert_ne in Hx by done. by apply (Hno i u x).
Qed.

(** Without a new thread and with the collector off, only the state of the
    thread changes. *)
Lemma finished_spec s t y :
  wf_threads s -> threads s !! t = Some y -> t <> NULL -> magic y = 1234 ->
  no_standby_thread s -> dead_thread_collector_status s <> TRUE ->
  __tsOnFinishedExecuting t s = Done tt (s <| threads := <[t := preempted y]> (threads s) |>).
Proof.
  intros Hwf Hy Hn Hm Hno Hd. unfold __tsOnFinishedExecuting. zguard.
  rewrite (bind_Done _ _ _ _ _ (deref_thread_Done s t y Hy)), Hm. cbn [negb Z.eqb Pos.eqb].
  rewrite (preempt_step s t y) by done.
  destruct (preempted_fields y) as (Hid & _ & _ & _ & _ & _ & Hsb & _). unfold ident in Hid.
  injection Hid as Hid _ _.
  rewrite (bind_Done _ _ _ _ _ (no_standby _ (wf_threads_update s t y (fun _ => preempted y) Hwf Hy Hid)
    (no_standby_update s t y (preempted y) Hno
      (fun i H => eq_trans Hsb (Hno i t y H)) Hy))).
  rewrite bind_gets. cbn [dead_thread_collector_status set_field set_threads].
  apply Z.eqb_neq in Hd. by rewrite Hd.
Qed.

(** ** Lemmas: the selection *)

(** A thread that can be dispatched. *)
Definition ready_at (s : kst) (i t : Z) (y : thread_d) : Prop :=
  valid_thread s i t y /\ state y = READY /\ tid y = i.

Lemma ts_go_ahead_ready tmp0 s i y :
  ready_at s i (currentq s) y -> ts_go_ahead tmp0 s = Done true (s <| current_thread := i |>).
Proof.
  intros (((Hr & Ht & Hn & Hx) & Hu & Hm) & Hs & Hi). unfold ts_go_ahead. rewrite bind_gets. zguard.
  rewrite (bind_Done _ _ _ _ _ (deref_thread_Done s _ y Hx)).
  unfold valid_struct. rewrite Hu, Hm, Hs, Hi. state_eval. cbn [negb andb TRUE Z.eqb Pos.eqb].
  rewrite bind_modify. unfold THREAD_COUNT_MAX in Hr. by rewrite i32_id by lia.
Qed.

(** No event is pending: the event responder, if there is one, is a thread of
    the table whose flag is clear. *)
Definition no_event (s : kst) : Prop :=
  ev_responder_thread s = NULL \/
  exists i x, thread_at s i (ev_responder_thread s) x /\ has_pending_event_ x = FALSE.

(** There are several threads and, if the event responder is in use (as it is
    from the start), no event is pending. *)
Definition many_threads (s : kst) : Prop :=
  threads_counter s <> 0 /\ threads_counter s <> 1 /\
  (g_use_event_responder s = TRUE -> no_event s).

Lemma no_event_pending s :
  no_event s -> has_pending_event (ev_responder_thread s) s = Done FALSE s.
Proof.
  unfold has_pending_event. intros [->|(i & x & (_ & _ & Hn & Hx) & Hf)]; [done|]. zguard.
  rewrite (bind_Done _ _ _ _ _ (deref_thread_Done s _ x Hx)).
  destruct (used x =? TRUE), (magic x =? 1234); try done. cbn [negb].
  rewrite Hf. cbn [FALSE TRUE Z.eqb]. rewrite (bind_Done _ _ _ _ _ (update_thread_Done s _ x _ Hx)).
  assert (x <| has_pending_event_ := FALSE |> = x) as -> by (rewrite <- Hf; by destruct x).
  rewrite insert_id by done. by destruct s.
Qed.

Lemma ts_pick_queue tmp0 s x :
  many_threads s -> threads s !! currentq s = Some x ->
  ts_pick tmp0 s = if next x =? NULL then reschedule tmp0 s
                   else Done tt (s <| currentq := next x |>).
Proof.
  intros (H0 & H1 & Hu) Hx. unfold ts_pick. rewrite bind_gets. zguard.
  do 2 rewrite bind_gets.
  assert (Hno : (if g_use_event_responder s =? TRUE then has_pending_event (ev_responder_thread s)
    else mret FALSE) s = Done FALSE s).
  { destruct (Z.eqb_spec (g_use_event_responder s) TRUE); [|done]. by apply no_event_pending, Hu. }
  rewrite (bind_Done _ _ _ _ _ Hno). cbn [FALSE TRUE Z.eqb Pos.eqb].
  rewrite bind_gets. rewrite (bind_Done _ _ _ _ _ (deref_thread_Done s _ x Hx)).
  by destruct (next x =? NULL).
Qed.

(** The next thread of the round is taken when it is ready. *)
Lemma zero_gravity_next fuel tmp0 s x i n y :
  many_threads s -> threads s !! currentq s = Some x -> next x = n -> ready_at s i n y ->
  ts_zero_gravity (S fuel) tmp0 s = Done tt (s <| currentq := n |> <| current_thread := i |>).
Proof.
  intros Hm Hx Hn Hy. cbn [ts_zero_gravity].
  pose proof Hy as (((Hr & Ht & Hnn & Hyy) & _) & _). pose proof (ts_pick_queue tmp0 s x Hm Hx) as Hp.
  rewrite Hn in Hp. revert Hp. zguard. intros Hp. rewrite (bind_Done _ _ _ _ _ Hp).
  match goal with |- context [(ts_go_ahead tmp0 ≫= ?k) ?S] =>
    rewrite (bind_Done _ k S _ _ (ts_go_ahead_ready tmp0 S i y Hy)) end. done.
Qed.

(** ** Lemmas: the dispatch *)

Lemma ts_clear_fields x :
  let y := ts_clear x in
  ident y = ident x /\ context y = context x /\ cpl y = cpl x /\ pml4_PA y = pml4_PA x /\
  state y = state x /\ next y = next x /\ owner_pid y = owner_pid x /\
  yield_in_progress y = yield_in_progress x /\ sleep_in_progress y = sleep_in_progress x /\
  quantum y = Z.min QUANTUM_MAX (quantum x).
Proof.
  cbv zeta. unfold ts_clear, PRIORITY_MAX, QUANTUM_MAX, QUANTUM_Q, CONFIG_QUANTUM_MULTIPLIER. cbn.
  destruct (6 <? base_priority x); cbn; destruct (6 <? priority x); cbn;
    destruct (Z.ltb_spec (1 * 6) (quantum x)); cbn; split_and!; try done; lia.
Qed.

(** What a dispatch leaves in the structure: the whole of it. *)
Definition released (x : thread_d) : thread_d := dispatched (ts_clear x).

Definition slice (x : thread_d) : Z := Z.max QUANTUM_MIN (Z.min QUANTUM_MAX (quantum x)).

Lemma released_fields x :
  let y := released x in
  ident y = ident x /\ context y = context x /\ cpl y = cpl x /\ state y = RUNNING /\
  next y = next x /\ owner_pid y = owner_pid x /\ saved y = FALSE /\ runningCount y = 0 /\
  yield_in_progress y = yield_in_progress x /\ sleep_in_progress y = sleep_in_progress x /\
  quantum y = slice x.
Proof.
  cbv zeta. unfold released, slice, ident.
  destruct (ts_clear_fields x) as (H1 & H2 & H3 & H4 & H5 & H6 & H7 & H8 & H9 & H10).
  destruct (dispatched_fields (ts_clear x)) as (G1 & G2 & G3 & G4 & G5 & G6 & G7 & G8 & G9 & G10 & G11 & G12).
  unfold ident in *. split_and!; congruence.
Qed.

(** What no tick of this kind changes. *)
Record ts_frame (s s' : kst) : Prop := {
  tf_threadList : threadList s' = threadList s;
  tf_init : InitThread s' = InitThread s;
  tf_idle : IdleThread s' = IdleThread s;
  tf_counter : threads_counter s' = threads_counter s;
  tf_hz : sys_time_hz s' = sys_time_hz s;
  tf_status : task_switch_status s' = task_switch_status s;
  tf_use : g_use_event_responder s' = g_use_event_responder s;
  tf_ev : ev_responder_thread s' = ev_responder_thread s;
  tf_dead : dead_thread_collector_status s' = dead_thread_collector_status s;
  tf_cpl : contextCPL s' = contextCPL s;
  tf_sched : sched_initialized s' = sched_initialized s /\ sched_policy s' = sched_policy s /\
    g_scheduler_status s' = g_scheduler_status s;
  tf_processList : processList (pt s') = processList (pt s);
  tf_procs : procs (pt s') = procs (pt s);
  tf_system : system_state (pt s') = system_state (pt s);
  tf_counts : counts_ok s -> counts_ok s'
}.

Lemma ts_frame_trans s1 s2 s3 : ts_frame s1 s2 -> ts_frame s2 s3 -> ts_frame s1 s3.
Proof.
  intros [] []. split; try (etrans; eassumption); try (intros; auto).
  destruct tf_sched0 as (A & B & C), tf_sched1 as (A' & B' & C'). split_and!; congruence.
Qed.

Lemma ts_frame_owner s s' pid : ts_frame s s' -> owner_at s pid -> owner_at s' pid.
Proof. intros [] H. unfold owner_at. by rewrite tf_processList0, tf_procs0. Qed.

Lemma ts_frame_config s s' : ts_frame s s' -> ts_config s -> ts_config s'.
Proof. intros [] (H1 & H2 & H3 & H4). split_and!; [congruence..|auto]. Qed.

(** The flags of pending events are kept. *)
Lemma ts_frame_many s s' :
  ts_frame s s' ->
  (forall i t x, thread_at s i t x -> exists y, threads s' !! t = Some y /\
     has_pending_event_ y = has_pending_event_ x) ->
  many_threads s -> many_threads s'.
Proof.
  intros F Hk (H1 & H2 & H3). unfold many_threads, no_event.
  rewrite (tf_counter _ _ F), (tf_use _ _ F), (tf_ev _ _ F). do 2 (split; [done|]). intros Hu.
  destruct (H3 Hu) as [Hn|(i & x & Hat & Hf)]; [by left|right].
  destruct (Hk _ _ _ Hat) as (y & Hy & Hyf). destruct Hat as (Hr & Ht & Hn & _).
  exists i, y. split; [|congruence]. split_and!; try done; [apply Hr..|].
  by rewrite (tf_threadList _ _ F).
Qed.

(** What a dispatch leaves in the state. *)
Record released_state (t : Z) (x : thread_d) (s s' : kst) : Prop := {
  rl_threads : threads s' = <[t := released x]> (threads s);
  rl_current : current_thread s' = current_thread s;
  rl_currentq : currentq s' = currentq s;
  rl_cpu : cpu_context s' = mask_context (context x);
  rl_cr3 : cr3 s' = pml4_PA x;
  rl_pid : current_pid (pt s') = owner_pid x;
  rl_frame : ts_frame s s'
}.

Lemma counted_counts s type : counts_ok s -> counts_ok (counted type s).
Proof.
  intros (Hn & b & Hb & Hm). unfold counted. rewrite Hb. split; [done|].
  exists (dispatch_count type b). split; [apply lookup_insert_eq|].
  unfold dispatch_count. by repeat case_match.
Qed.

Lemma counted_fields s type m :
  let s' := counted type (s <| threads := m |>) in
  threads s' = m /\ current_thread s' = current_thread s /\ threadList s' = threadList s /\
  currentq s' = currentq s /\ ts_frame s s'.
Proof.
  cbv zeta. assert (Hk : counts_ok s -> counts_ok (counted type (s <| threads := m |>)))
    by (intros H; by apply counted_counts).
  revert Hk. unfold counted. case_match; intros Hk; by split_and!.
Qed.

Lemma dispatched_state_fields t x s :
  let s' := dispatched_state t x s in
  threads s' = <[t := dispatched x]> (threads s) /\ current_thread s' = current_thread s /\
  currentq s' = currentq s /\ cpu_context s' = mask_context (context x) /\ cr3 s' = pml4_PA x /\
  ts_frame s s'.
Proof. cbv zeta. by split_and!. Qed.

Lemma ts_dispatch_spec s t x :
  valid_thread s (current_thread s) t x -> state x = READY -> cpl x = 3 ->
  owner_at s (owner_pid x) -> counts_ok s ->
  exists s', ts_dispatch s = Done tt s' /\ released_state t x s s'.
Proof.
  intros Hv Hst Hc Ho Hk. pose proof Hv as ((Hr & Ht & Hn & Hx) & Hu & Hm). unfold ts_dispatch.
  rewrite bind_gets. zguard. rewrite (bind_Done _ _ _ _ _ (threadList_at_Done s _ t Ht)). zguard.
  rewrite (bind_Done _ _ _ _ _ (deref_thread_Done s t x Hx)).
  unfold valid_struct. rewrite Hu, Hm, Hst. state_eval. cbn [negb andb TRUE Z.eqb Pos.eqb].
  rewrite (bind_Done _ _ _ _ _ (update_thread_Done s t x _ Hx)).
  match goal with |- context [(IncrementDispatcherCount ?c ≫= ?k) ?S] =>
    rewrite (bind_Done _ k S _ _ (IncrementDispatcherCount_spec S c Hk ltac:(done))) end.
  destruct (counted_fields s SELECT_DISPATCHER_COUNT (<[t := ts_clear x]> (threads s)))
    as (E1 & E2 & E3 & E4 & F1).
  revert E1 E2 E3 E4 F1. generalize (counted SELECT_DISPATCHER_COUNT (s <| threads := <[t := ts_clear x]> (threads s) |>)).
  intros s1 E1 E2 E3 E4 F1.
  destruct (ts_clear_fields x) as (G1 & G2 & G3 & G4 & G5 & G6 & G7 & _).
  unfold ident in G1. injection G1 as I1 I2 I3.
  assert (Hx1 : threads s1 !! t = Some (ts_clear x)) by (rewrite E1; apply lookup_insert_eq).
  assert (Hv1 : valid_thread s1 (current_thread s1) t (ts_clear x)).
  { split; [|split; congruence]. rewrite E2. split; [done|]. by rewrite E3. }
  rewrite (bind_Done _ _ _ _ _ (dispatcher_spec s1 t (ts_clear x) DISPATCHER_CURRENT Hv1
    (eq_trans G5 Hst) (eq_trans G3 Hc))).
  destruct (dispatched_state_fields t (ts_clear x) s1) as (D1 & D2 & D3 & D4 & D5 & F2).
  revert D1 D2 D3 D4 D5 F2. generalize (dispatched_state t (ts_clear x) s1).
  intros s2 D1 D2 D3 D4 D5 F2. fold (released x) in D1.
  assert (Hx2 : threads s2 !! t = Some (released x)) by (rewrite D1; apply lookup_insert_eq).
  destruct (released_fields x) as (_ & _ & _ & _ & _ & R6 & _).
  rewrite (bind_Done _ _ _ _ _ (deref_thread_Done s2 t _ Hx2)), R6.
  pose proof (ts_frame_trans _ _ _ F1 F2) as F.
  pose proof (ts_frame_owner _ _ _ F Ho) as Ho2. pose proof Ho2 as (Hpr & _).
  destruct (owner_lookup s2 _ Ho2) as (p & P & Hp & Hpn & HP & HPu & HPm & HPp & HPl).
  unfold THREAD_COUNT_MAX, PROCESS_COUNT_MAX in *. zguard.
  rewrite (bind_Done _ _ _ _ _ Hp). zguard. rewrite (bind_Done _ _ _ _ _ HP), HPu, HPm, HPp, !Z.eqb_refl.
  cbn [negb orb TRUE Z.eqb Pos.eqb]. rewrite (bind_Done _ _ _ _ _ (on_ptab_set_pid _ s2)). zguard.
  exists (set_pid (owner_pid x) s2). split; [done|].
  assert (Fp : ts_frame s2 (set_pid (owner_pid x) s2)) by by split.
  split; [|..]; try (cbn; congruence); try done.
  - cbn. by rewrite D1, E1, insert_insert_eq.
  - by eapply ts_frame_trans.
Qed.

(** ** Lemmas: whole ticks *)

(** A thread of ring 3 whose owner is a valid process. *)
Definition user_thread (s : kst) (y : thread_d) : Prop := cpl y = 3 /\ owner_at s (owner_pid y).

(** Several threads, none of them new, and the collector is off. *)
Definition quiet (s : kst) : Prop :=
  wf_threads s /\ ts_config s /\ many_threads s /\ no_standby_thread s /\
  dead_thread_collector_status s <> TRUE.

Lemma entry_fields s x :
  let y := entry s x in
  ident y = ident x /\ state y = state x /\ next y = next x /\ quantum y = quantum x /\
  runningCount y = u64 (runningCount x + 1) /\ cpl y = cpl x /\ owner_pid y = owner_pid x /\
  context y = mask_context (cpu_context s) /\ saved y = TRUE /\
  yield_in_progress y = yield_in_progress x /\ sleep_in_progress y = sleep_in_progress x /\
  is_standby y = is_standby x.
Proof. cbv zeta. by split_and!. Qed.

Lemma entry_ident s x :
  tid (entry s x) = tid x /\ used (entry s x) = used x /\ magic (entry s x) = magic x.
Proof. by split_and!. Qed.

Lemma entered_fields s t x :
  let s' := entered s t x in
  threads s' = <[t := entry s x]> (threads s) /\ current_thread s' = current_thread s /\
  threadList s' = threadList s /\ currentq s' = currentq s /\ jiffies s' = jiffies s /\ ts_frame s s'.
Proof. cbv zeta. by split_and!. Qed.

(** What the invariants of a quiet system see of a structure. *)
Definition face (x : thread_d) : Z * bool * Z := (tid x, is_standby x, has_pending_event_ x).

Lemma entry_face s x : face (entry s x) = face x.
Proof. done. Qed.

Lemma preempted_face y : face (preempted y) = face y.
Proof.
  unfold preempted, face, is_standby. destruct (state_eqb (state y) RUNNING) eqn:E; [|done].
  apply bool_decide_eq_true in E. rewrite E. done.
Qed.

Lemma released_face y : state y = READY -> face (released y) = face y.
Proof.
  intros Hs. destruct (released_fields y) as (R1 & _ & _ & R4 & _). unfold ident in R1.
  assert (Hp : has_pending_event_ (released y) = has_pending_event_ y).
  { unfold released, dispatched, dispatch_limits, dispatch_running, ts_clear. cbv zeta.
    repeat case_match; reflexivity. }
  unfold face, is_standby. rewrite R4, Hs. state_eval. rewrite !andb_false_r. congruence.
Qed.

Lemma same_again_pending j y : has_pending_event_ (same_again j y) = has_pending_event_ y.
Proof. unfold same_again, same_again_yield. repeat case_match; reflexivity. Qed.

Lemma quiet_ext s s' :
  quiet s -> ts_frame s s' -> (forall u, face <$> threads s' !! u = face <$> threads s !! u) ->
  quiet s'.
Proof.
  intros (Hwf & Hc & Hm & Hno & Hd) F He. destruct Hwf as [Hl Hnull Hslot].
  assert (Hback : forall u y, threads s' !! u = Some y ->
    exists x, threads s !! u = Some x /\ face x = face y).
  { intros u y Hy. specialize (He u). rewrite Hy in He.
    destruct (threads s !! u) as [x|]; cbn in He; [|done]. exists x. split; [done|]. congruence. }
  split; [|split; [by eapply ts_frame_config|split; [|split]]].
  - split; [by rewrite (tf_threadList _ _ F)| |].
    + destruct (threads s' !! NULL) as [y|] eqn:Hy; [|done].
      apply Hback in Hy as (x & Hx & _). congruence.
    + intros i u Hu Hn. rewrite (tf_threadList _ _ F) in Hu.
      destruct (Hslot i u Hu Hn) as (x & Hx & Hi). specialize (He u). rewrite Hx in He.
      destruct (threads s' !! u) as [y|]; cbn in He; [|done]. exists y. split; [done|].
      unfold face in He. congruence.
  - eapply ts_frame_many; [exact F| |exact Hm]. intros i u x (_ & _ & _ & Hx).
    specialize (He u). rewrite Hx in He. destruct (threads s' !! u) as [y|]; cbn in He; [|done].
    exists y. split; [done|]. unfold face in He. congruence.
  - intros i u y (Hr & Hu & Hn & Hy). apply Hback in Hy as (x & Hx & Hf).
    rewrite (tf_threadList _ _ F) in Hu. injection Hf as _ <- _.
    apply (Hno i u x). split; [done|by split_and!].
  - by rewrite (tf_dead _ _ F).
Qed.

(** The thread after the end of its quantum, before the selection. *)
Definition park (s : kst) (t : Z) (x : thread_d) : kst :=
  (entered s t x) <| threads := <[t := preempted (entry s x)]> (threads (entered s t x)) |>.

Lemma park_fields s t x :
  threads (park s t x) = <[t := preempted (entry s x)]> (threads s) /\
  threadList (park s t x) = threadList s /\ currentq (park s t x) = currentq s /\
  ts_frame s (park s t x).
Proof. unfold park. cbn. rewrite insert_insert_eq. by split_and!. Qed.

(** The tick up to the selection. *)
Lemma ts_park fuel tmp0 s t x :
  quiet s -> valid_thread s (current_thread s) t x -> user_thread s x ->
  quantum x <= u64 (runningCount x + 1) ->
  __task_switch fuel tmp0 s = (ts_zero_gravity fuel tmp0;; ts_dispatch) (park s t x) /\
  quiet (park s t x).
Proof.
  intros Hqt Hv (H3 & Ho) Hq. pose proof Hqt as (Hwf & Hc & Hm & Hno & Hd).
  pose proof Hv as ((Hr & Ht & Hn & Hx) & Hu & Hmg).
  destruct (entry_fields s x) as (G1 & G2 & G3 & G4 & G5 & _ & _ & _ & _ & _ & _ & G12).
  destruct (preempted_fields (entry s x)) as (P1 & _ & _ & _ & _ & _ & P7 & _).
  destruct (entry_ident s x) as (I1 & I2 & I3).
  destruct (park_fields s t x) as (K1 & K2 & K3 & F). split.
  - rewrite (ts_enter fuel tmp0 s t x Hc Hv Ho H3).
    assert (Hq1 : quiet (entered s t x)).
    { eapply quiet_ext; [exact Hqt|by apply entered_fields|]. intros u. cbn.
      destruct (decide (u = t)) as [->|]; [|by rewrite lookup_insert_ne].
      rewrite lookup_insert_eq, Hx. done. }
    destruct Hq1 as (Hwf1 & _ & _ & Hno1 & Hd1).
    assert (Hx1 : threads (entered s t x) !! t = Some (entry s x)) by apply lookup_insert_eq.
    unfold ts_decide. rewrite (bind_Done _ _ _ _ _ (deref_thread_Done _ t _ Hx1)), G4, G5. zguard.
    by rewrite (bind_Done _ _ _ _ _ (finished_spec _ t _ Hwf1 Hx1 Hn (eq_trans I3 Hmg) Hno1 Hd1)).
  - eapply quiet_ext; [exact Hqt|exact F|]. intros u. rewrite K1.
    destruct (decide (u = t)) as [->|]; [|by rewrite lookup_insert_ne].
    rewrite lookup_insert_eq, Hx. cbn. by rewrite preempted_face.
Qed.

(** The tick of a thread whose quantum is not over. *)
Lemma tick_same fuel tmp0 s t x :
  quiet s -> valid_thread s (current_thread s) t x -> user_thread s x ->
  u64 (runningCount x + 1) < quantum x ->
  exists s', __task_switch fuel tmp0 s = Done tt s' /\
    threads s' = <[t := same_again (jiffies s) (entry s x)]> (threads s) /\
    current_thread s' = current_thread s /\ currentq s' = currentq s /\ ts_frame s s'.
Proof.
  intros (Hwf & Hc & Hm & Hno & Hd) Hv (H3 & Ho) Hq.
  rewrite (ts_enter fuel tmp0 s t x Hc Hv Ho H3).
  destruct (entered_fields s t x) as (E1 & E2 & E3 & E4 & E5 & F1).
  revert E1 E2 E3 E4 E5 F1. generalize (entered s t x). intros s1 E1 E2 E3 E4 E5 F1.
  destruct (entry_fields s x) as (_ & _ & _ & G4 & G5 & _).
  destruct (entry_ident s x) as (I1 & I2 & I3). pose proof Hv as ((Hr & Ht & Hn & Hx) & Hu & Hmg).
  assert (Hx1 : threads s1 !! t = Some (entry s x)) by (rewrite E1; apply lookup_insert_eq).
  assert (Hv1 : valid_thread s1 (current_thread s) t (entry s x)).
  { split; [|split; congruence]. split; [done|]. by rewrite E3. }
  unfold ts_decide. rewrite (bind_Done _ _ _ _ _ (deref_thread_Done s1 t _ Hx1)), G4, G5. zguard.
  pose proof (wf_tid s _ t x Hwf Hv) as Htid.
  rewrite (ts_same_again_spec s1 _ t _ Hv1 (eq_trans I1 Htid)) by (apply F1, Hc).
  destruct (counted_fields s1 SELECT_CURRENT_COUNT (<[t := same_again (jiffies s1) (entry s x)]> (threads s1)))
    as (C1 & C2 & C3 & C4 & F2).
  eexists. split; [reflexivity|]. split; [by rewrite C1, E1, E5, insert_insert_eq|].
  split; [congruence|]. split; [congruence|]. by eapply ts_frame_trans.
Qed.

(** The tick that ends a quantum, when the next thread of the round is ready. *)
Lemma tick_preempts fuel tmp0 s t x i n y :
  quiet s -> valid_thread s (current_thread s) t x -> user_thread s x ->
  quantum x <= u64 (runningCount x + 1) ->
  currentq s = t -> next x = n -> n <> t -> ready_at s i n y -> user_thread s y ->
  exists s', __task_switch (S fuel) tmp0 s = Done tt s' /\
    threads s' = <[n := released y]> (<[t := preempted (entry s x)]> (threads s)) /\
    current_thread s' = i /\ currentq s' = n /\ cpu_context s' = mask_context (context y) /\
    cr3 s' = pml4_PA y /\ current_pid (pt s') = owner_pid y /\ ts_frame s s'.
Proof.
  intros Hqt Hv Hux Hq Hcq Hnx Hnt Hy (Hy3 & Hyo).
  destruct (ts_park (S fuel) tmp0 s t x Hqt Hv Hux Hq) as (Hts & _ & _ & Hm & _).
  destruct (park_fields s t x) as (T2 & L2 & Q2 & F2). rewrite Hcq in Q2.
  destruct (preempted_fields (entry s x)) as (_ & P2 & _).
  revert Hts Hm T2 L2 Q2 F2. generalize (park s t x). intros s2 Hts Hm T2 L2 Q2 F2.
  assert (Hy2 : ready_at s2 i n y).
  { destruct Hy as (((Yr & Yt & Yn & Yx) & Yum) & Ys). split; [|done]. split; [|done].
    split; [done|]. by rewrite L2, T2, lookup_insert_ne. }
  assert (Hq2 : threads s2 !! currentq s2 = Some (preempted (entry s x)))
    by (rewrite T2, Q2; apply lookup_insert_eq).
  rewrite Hts, (bind_Done _ _ _ _ _ (zero_gravity_next fuel tmp0 s2 _ i n y Hm Hq2
    (eq_trans P2 Hnx) Hy2)).
  set (s3 := s2 <| currentq := n |> <| current_thread := i |>).
  assert (F3 : ts_frame s s3) by (eapply ts_frame_trans; [exact F2|by split]).
  assert (T3 : threads s3 = threads s2) by done. assert (C3 : current_thread s3 = i) by done.
  assert (Q3 : currentq s3 = n) by done.
  assert (Hy3' : valid_thread s3 (current_thread s3) n y) by (rewrite C3; apply Hy2).
  clearbody s3.
  destruct (ts_dispatch_spec s3 n y Hy3' (proj1 (proj2 Hy2)) Hy3 (ts_frame_owner _ _ _ F3 Hyo))
    as (s4 & Hs4 & [L1 L2' L3 L4 L5 L6 L7]); [apply F3, Hqt|].
  exists s4. split; [done|]. rewrite L1, L2', L3, T3, T2, C3, Q3. split_and!; try done.
  by eapply ts_frame_trans.
Qed.

(** ** The turns of a round *)

(** Between two ticks the interrupted program has run: its registers are any,
    and the time has advanced. *)
Definition interrupt (c : x64_context_d) (s : kst) : kst :=
  s <| cpu_context := c |> <| jiffies := u64 (jiffies s + 1) |>.

Fixpoint run_ticks (fuel : nat) (tmp0 : Z) (cs : list x64_context_d) : M kst unit :=
  match cs with
  | [] => mret tt
  | c :: cs' => modify (interrupt c);; __task_switch fuel tmp0;; run_ticks fuel tmp0 cs'
  end.

Definition no_request (x : thread_d) : Prop :=
  yield_in_progress x <> TRUE /\ sleep_in_progress x <> TRUE.

(** It is the turn of the thread at [t]; the threads of [l] follow it in the
    round. *)
Record on_turn (s : kst) (t : Z) (x : thread_d) (l : list Z) : Prop := {
  ot_quiet : quiet s;
  ot_valid : valid_thread s (current_thread s) t x;
  ot_user : user_thread s x;
  ot_running : state x = RUNNING;
  ot_request : no_request x;
  ot_count : 0 <= runningCount x < quantum x /\ quantum x < 2 ^ 63;
  ot_currentq : currentq s = t;
  ot_queue : queue (threads s) (t :: l);
  ot_nodup : NoDup (t :: l);
  ot_ready : forall u, u ∈ l ->
    exists i y, ready_at s i u y /\ user_thread s y /\ no_request y
}.

Lemma queue_ext m m' l :
  (forall a, a ∈ l -> next <$> m' !! a = next <$> m !! a) -> queue m l -> queue m' l.
Proof.
  induction l as [|a l IH]; [done|]. intros He [(x & Hx & Hn) Hq]. split.
  - specialize (He a ltac:(left)). rewrite Hx in He. cbn in He.
    destruct (m' !! a) as [y|]; [|done]. injection He as He. exists y. split; [done|congruence].
  - destruct Hq as [->|Hq]; [by left|right]. apply IH; [|done]. intros b Hb. apply He. by right.
Qed.

Lemma user_frame s s' y : ts_frame s s' -> user_thread s y -> user_thread s' y.
Proof. intros F (H & Ho). split; [done|]. by eapply ts_frame_owner. Qed.

Lemma ready_frame s s' i u y :
  ts_frame s s' -> threads s' !! u = threads s !! u -> ready_at s i u y -> ready_at s' i u y.
Proof.
  intros F He (((Hr & Hu & Hn & Hx) & Hum) & Hs & Hi). split; [|done]. split; [|done].
  split; [done|]. rewrite (tf_threadList _ _ F), He. done.
Qed.

Lemma on_turn_interrupt s t x l c : on_turn s t x l -> on_turn (interrupt c s) t x l.
Proof.
  assert (F : ts_frame s (interrupt c s)) by by split.
  intros [Hq Hv Hu Hr Hn Hc Hcq Hqu Hnd Hre]. split; try done.
  - by eapply quiet_ext.
Qed.

Lemma entry_same s x : state x = RUNNING -> no_request x -> same_again (jiffies s) (entry s x) = entry s x.
Proof.
  intros Hs (Hy & Hl). destruct (entry_fields s x) as (_ & H2 & _ & _ & _ & _ & _ & _ & _ & H10 & H11 & _).
  unfold same_again, same_again_yield. revert H2 H10 H11. generalize (entry s x). intros y H2 H10 H11.
  apply Z.eqb_neq in Hy, Hl. rewrite H10, Hy, andb_false_r, H11, Hl, andb_false_r. done.
Qed.

(** A tick inside the quantum. *)
Lemma on_turn_tick fuel tmp0 s t x l :
  on_turn s t x l -> runningCount x + 1 < quantum x ->
  exists s' x', __task_switch fuel tmp0 s = Done tt s' /\ on_turn s' t x' l /\
    runningCount x' = runningCount x + 1 /\ quantum x' = quantum x /\
    ident x' = ident x /\ next x' = next x /\
    (forall u, u <> t -> threads s' !! u = threads s !! u).
Proof.
  intros [Hq Hv Hu Hr Hn Hc Hcq Hqu Hnd Hre] Hlt.
  pose proof Hv as ((Hri & Ht & Hnt & Hx) & Hus & Hm).
  destruct (tick_same fuel tmp0 s t x Hq Hv Hu) as (s' & Hs' & T & C & Q & F).
  { rewrite u64_id by lia. done. }
  rewrite entry_same in T by done.
  destruct (entry_fields s x) as (E1 & E2 & E3 & E4 & E5 & E6 & E7 & E8 & E9 & E10 & E11 & E12).
  rewrite u64_id in E5 by lia. unfold ident in E1. pose proof (entry_face s x) as Hf.
  revert Hf T E1 E2 E3 E4 E5 E6 E7 E8 E9 E10 E11 E12.
  generalize (entry s x). intros y Hf T E1 E2 E3 E4 E5 E6 E7 E8 E9 E10 E11 E12. injection E1 as I1 I2 I3.
  assert (Hne : forall u, u <> t -> threads s' !! u = threads s !! u)
    by (intros u Hut; by rewrite T, lookup_insert_ne).
  assert (Hty : threads s' !! t = Some y) by (rewrite T; apply lookup_insert_eq).
  exists s', y. split; [done|]. split; [|unfold ident; split_and!; done || congruence].
  split; try (split; lia); try done.
  - eapply quiet_ext; [done|done|]. intros u. destruct (decide (u = t)) as [->|Hut].
    + rewrite Hty, Hx. cbn. congruence.
    + by rewrite Hne.
  - split; [|split; congruence]. rewrite C. split; [done|]. by rewrite (tf_threadList _ _ F).
  - eapply user_frame; [done|]. unfold user_thread. by rewrite E6, E7.
  - by rewrite E2.
  - unfold no_request. by rewrite E10, E11.
  - congruence.
  - eapply queue_ext; [|done]. intros a Ha. destruct (decide (a = t)) as [->|Hat].
    + rewrite Hty, Hx. cbn. by rewrite E3.
    + by rewrite Hne.
  - intros u Hul. destruct (Hre u Hul) as (i & z & Hz & Huz & Hnz). exists i, z.
    split; [|split; [by eapply user_frame|done]]. eapply ready_frame; [done| |done].
    apply Hne. intros ->. by apply NoDup_cons in Hnd as [Hnd _].
Qed.

(** What a thread that loses the processor leaves behind. *)
Definition parked (c : x64_context_d) (x x' : thread_d) : Prop :=
  state x' = READY /\ saved x' = TRUE /\ context x' = mask_context c /\
  ident x' = ident x /\ next x' = next x.

Lemma preempted_parked s x :
  state x = RUNNING -> parked (cpu_context s) x (preempted (entry s x)).
Proof.
  intros Hs. destruct (entry_fields s x) as (E1 & E2 & E3 & _ & _ & _ & _ & E8 & E9 & _).
  unfold preempted. rewrite E2, Hs. state_eval. revert E1 E3 E8 E9. generalize (entry s x).
  intros y E1 E3 E8 E9. by split_and!.
Qed.

(** The tick that ends the turn: the next thread of the round gets its own. *)
Lemma on_turn_switch fuel tmp0 s t x n l :
  on_turn s t x (n :: l) -> runningCount x + 1 = quantum x ->
  exists s' y x', __task_switch (S fuel) tmp0 s = Done tt s' /\ threads s !! n = Some y /\
    on_turn s' n (released y) l /\ cpu_context s' = mask_context (context y) /\ ts_frame s s' /\
    threads s' !! t = Some x' /\ parked (cpu_context s) x x' /\
    (forall u, u <> t -> u <> n -> threads s' !! u = threads s !! u).
Proof.
  intros [Hq Hv Hu Hr Hn Hc Hcq Hqu Hnd Hre] Hend.
  pose proof Hv as ((Hri & Ht & Hnt & Hx) & Hus & Hm).
  destruct (Hre n ltac:(left)) as (i & y & Hy & Huy & Hny).
  pose proof Hy as (((Yr & Yt & Yn & Yx) & Yum) & Ys & Yi).
  assert (Hntn : n <> t) by (intros ->; apply NoDup_cons in Hnd as [Hnd _]; apply Hnd; left).
  assert (Hnext : next x = n).
  { destruct Hqu as [(z & Hz & Hzn) _]. cbn in Hzn. congruence. }
  destruct (tick_preempts fuel tmp0 s t x i n y Hq Hv Hu) as (s' & Hs' & T & C & Q & CPU & _ & _ & F);
    try done; [rewrite u64_id by lia; lia|].
  pose proof (preempted_parked s x Hr) as Hpk.
  assert (Hpf : face (preempted (entry s x)) = face x).
  { by rewrite preempted_face. }
  revert T Hpk Hpf. generalize (preempted (entry s x)). intros z T Hpk Hpf.
  destruct (released_fields y) as (R1 & R2 & R3 & R4 & R5 & R6 & R7 & R8 & R9 & R10 & R11).
  assert (Hslice : 1 <= slice y <= 6).
  { unfold slice, QUANTUM_MIN, QUANTUM_MAX, QUANTUM_Q, CONFIG_QUANTUM_MULTIPLIER. lia. }
  pose proof (released_face y Ys) as Hrf.
  assert (Hw : exists w, w = released y) by eauto. destruct Hw as [w Hw]. rewrite <- Hw in *. unfold ident in R1. injection R1 as I1 I2 I3.
  assert (Htn : threads s' !! n = Some w) by (rewrite T; apply lookup_insert_eq).
  assert (Htt : threads s' !! t = Some z) by (rewrite T, lookup_insert_ne by done; apply lookup_insert_eq).
  assert (Hne : forall u, u <> t -> u <> n -> threads s' !! u = threads s !! u)
    by (intros u Hut Hun; by rewrite T, !lookup_insert_ne).
  exists s', y, z. rewrite <- Hw. split; [done|]. split; [done|]. split; [|by split_and!].
  apply NoDup_cons in Hnd as [Hnd1 Hnd2].
  split; try done.
  - eapply quiet_ext; [done|done|]. intros u. destruct (decide (u = t)) as [->|Hut]; [|destruct (decide (u = n)) as [->|Hun]].
    + rewrite Htt, Hx. cbn. congruence.
    + rewrite Htn, Yx. cbn. congruence.
    + by rewrite Hne.
  - rewrite C. split; [|split; destruct Yum; congruence]. split; [done|]. by rewrite (tf_threadList _ _ F).
  - eapply user_frame; [done|]. unfold user_thread. by rewrite R3, R6.
  - unfold no_request. by rewrite R9, R10.
  - rewrite R8, R11. lia.
  - eapply queue_ext with (m := threads s).
    + intros a Ha. destruct (decide (a = n)) as [->|Han].
      * rewrite Htn, Yx. cbn. congruence.
      * rewrite Hne; [done| |done]. intros ->. by apply Hnd1.
    + destruct Hqu as [_ [?|Hqu]]; [done|exact Hqu].
  - intros u Hul. destruct (Hre u ltac:(by right)) as (k & v & Hv' & Huv & Hnv). exists k, v.
    split; [|split; [by eapply user_frame|done]]. eapply ready_frame; [done| |done].
    apply Hne; intros ->; [apply Hnd1; by right|by apply NoDup_cons in Hnd2 as [Hnd2 _]].
Qed.

Lemma run_ticks_cons fuel tmp0 c cs s s' :
  __task_switch fuel tmp0 (interrupt c s) = Done tt s' ->
  run_ticks fuel tmp0 (c :: cs) s = run_ticks fuel tmp0 cs s'.
Proof. intros H. cbn [run_ticks]. by rewrite bind_modify, (bind_Done _ _ _ _ _ H). Qed.

Lemma interrupt_frame c s : ts_frame s (interrupt c s).
Proof. by split. Qed.

(** A whole turn: [runningCount] ticks have been used, the rest follows. *)
Lemma turn_slice fuel tmp0 cs s t x n l :
  on_turn s t x (n :: l) -> Z.of_nat (length cs) = quantum x - runningCount x ->
  exists s' y x', run_ticks (S fuel) tmp0 cs s = Done tt s' /\ threads s !! n = Some y /\
    on_turn s' n (released y) l /\ cpu_context s' = mask_context (context y) /\
    threads s' !! t = Some x' /\ parked (default (context x) (last cs)) x x' /\
    (forall u, u <> t -> u <> n -> threads s' !! u = threads s !! u).
Proof.
  revert s x. induction cs as [|c cs IH]; intros s x Ht Hlen; pose proof (ot_count _ _ _ _ Ht) as Hc.
  { cbn in Hlen. lia. }
  pose proof (on_turn_interrupt s t x (n :: l) c Ht) as Hti.
  destruct (decide (cs = [])) as [->|Hcs].
  - destruct (on_turn_switch fuel tmp0 _ t x n l Hti) as (s' & y & x' & Hs' & Hy & Hot & Hcpu & _ & Hx' & Hpk & Hne);
      [cbn in Hlen; lia|].
    exists s', y, x'. rewrite (run_ticks_cons _ _ _ _ _ _ Hs'). by split_and!.
  - destruct (on_turn_tick (S fuel) tmp0 _ t x (n :: l) Hti) as (s1 & x1 & Hs1 & Ht1 & Hr1 & Hq1 & Hi1 & Hx1 & Hne1).
    { destruct cs; [done|]. cbn in Hlen. lia. }
    destruct (IH s1 x1 Ht1) as (s' & y & x' & Hs' & Hy & Hot & Hcpu & Hx' & Hpk & Hne);
      [cbn in Hlen; lia|].
    exists s', y, x'. rewrite (run_ticks_cons _ _ _ _ _ _ Hs1).
    assert (Hnt : n <> t).
    { intros ->. pose proof (ot_nodup _ _ _ _ Ht) as Hnd. apply NoDup_cons in Hnd as [Hnd _].
      apply Hnd. left. }
    split; [done|]. split; [rewrite (Hne1 n Hnt) in Hy; exact Hy|]. split; [done|]. split; [done|].
    split; [done|]. split; [|intros u Hut Hun; rewrite Hne by done; exact (Hne1 u Hut)].
    destruct Hpk as (P1 & P2 & P3 & P4 & P5). split; [done|]. split; [done|]. split; [|split; congruence].
    rewrite P3. destruct cs as [|c' cs]; [done|]. change (last (c :: c' :: cs)) with (last (c' :: cs)).
    destruct (last (c' :: cs)) eqn:El; [done|]. by apply last_None in El.
Qed.

(** The slices of the threads of a round before its [k]-th one. *)
Definition slices (m : gmap Z thread_d) (l : list Z) : Z :=
  foldr (fun u n => (match m !! u with Some y => slice y | None => 0 end) + n) 0 l.

Lemma slices_ext m m' l :
  (forall u, u ∈ l -> m' !! u = m !! u) -> slices m' l = slices m l.
Proof.
  induction l as [|u l IH]; [done|]. intros H. cbn. rewrite H by left. f_equal.
  apply IH. intros v Hv. apply H. by right.
Qed.

Lemma slices_nonneg m l : 0 <= slices m l.
Proof.
  induction l as [|v l IH]; [done|].
  change (slices m (v :: l)) with ((match m !! v with Some y => slice y | None => 0 end) + slices m l).
  unfold slice, QUANTUM_MIN, QUANTUM_Q, CONFIG_QUANTUM_MULTIPLIER. case_match; lia.
Qed.

Lemma run_ticks_app fuel tmp0 cs cs' s s1 :
  run_ticks fuel tmp0 cs s = Done tt s1 ->
  run_ticks fuel tmp0 (cs ++ cs') s = run_ticks fuel tmp0 cs' s1.
Proof.
  revert s. induction cs as [|c cs IH]; intros s; cbn.
  - by intros [= <-].
  - rewrite !bind_modify. unfold mbind, M_bind.
    destruct (__task_switch fuel tmp0 (interrupt c s)); try done. apply IH.
Qed.

Lemma round_turns fuel tmp0 k s t x l cs u :
  on_turn s t x l -> l !! k = Some u ->
  Z.of_nat (length cs) = quantum x - runningCount x + slices (threads s) (take k l) ->
  exists s' y, run_ticks (S fuel) tmp0 cs s = Done tt s' /\ threads s !! u = Some y /\
    on_turn s' u (released y) (drop (S k) l) /\ cpu_context s' = mask_context (context y).
Proof.
  revert s t x l cs. induction k as [|k IH]; intros s t x l cs Ht Hu Hlen;
    (destruct l as [|n l]; [done|]); cbn in Hu.
  - injection Hu as ->. cbn in Hlen.
    destruct (turn_slice fuel tmp0 cs s t x u l Ht) as (s' & y & x' & Hs' & Hy & Hot & Hcpu & _); [lia|].
    by exists s', y.
  - cbn [take slices foldr] in Hlen.
    destruct (ot_ready _ _ _ _ Ht n ltac:(left)) as (i & y & (((_ & _ & _ & Hy) & _) & _) & _).
    rewrite Hy in Hlen. fold (slices (threads s) (take k l)) in Hlen.
    assert (Hsl : 1 <= slice y <= 6).
    { unfold slice, QUANTUM_MIN, QUANTUM_MAX, QUANTUM_Q, CONFIG_QUANTUM_MULTIPLIER. lia. }
    pose proof (ot_count _ _ _ _ Ht) as Hc.
    pose proof (ot_nodup _ _ _ _ Ht) as Hnd. apply NoDup_cons in Hnd as [Hnd1 Hnd2].
    apply NoDup_cons in Hnd2 as [Hnd2 _].
    set (q := Z.to_nat (quantum x - runningCount x)).
    assert (Hpos : forall l', 0 <= slices (threads s) l').
    { apply slices_nonneg. }
    specialize (Hpos (take k l)).
    destruct (turn_slice fuel tmp0 (take q cs) s t x n l Ht) as
      (s1 & y1 & x' & Hs1 & Hy1 & Hot & Hcpu & _ & _ & Hne); [rewrite length_take; unfold q; lia|].
    assert (y1 = y) as -> by congruence.
    assert (Hsame : forall v, v ∈ l -> threads s1 !! v = threads s !! v).
    { intros v Hv. apply Hne; intros ->; [apply Hnd1; by right|done]. }
    destruct (released_fields y) as (_ & _ & _ & _ & _ & _ & _ & R8 & _ & _ & R11).
    destruct (IH s1 n (released y) l (drop q cs) Hot Hu) as (s' & z & Hs' & Hz & Hot' & Hcpu').
    { rewrite R8, R11, (slices_ext (threads s)).
      - rewrite length_drop. unfold q. lia.
      - intros v Hv. apply Hsame. apply elem_of_take in Hv as (j & Hj & _).
        by eapply list_elem_of_lookup_2. }
    exists s', z. rewrite <- (take_drop q cs) at 1. rewrite (run_ticks_app _ _ _ _ _ _ Hs1).
    split; [done|]. split; [|by split]. rewrite <- Hsame; [done|]. by eapply list_elem_of_lookup_2.
Qed.

(** ** Theorems *)

(** [C3] Round robin, with the event responder in use (as it is from the boot on)
    and no event pending for it: from the turn of a thread, the threads that
    follow it in the round get the processor in the order of the round, each one
    for exactly its slice (its quantum brought into the legal range).  When the
    rest of the current turn and the slices before the [k]-th thread have passed,
    in ticks with any register contents, that thread is the current one, RUNNING,
    at the start of its slice, with the registers that its structure had saved.
    ([on_turn] also asks that the threads of the round run in ring 3 for a valid
    process, without a pending request, that no thread is new (STANDBY) and that
    the dead thread collector is off.) *)
Theorem round_robin fuel tmp0 k s t x l cs u :
  on_turn s t x l -> l !! k = Some u ->
  Z.of_nat (length cs) = quantum x - runningCount x + slices (threads s) (take k l) ->
  exists s' y y', run_ticks (S fuel) tmp0 cs s = Done tt s' /\
    threads s !! u = Some y /\ cpu_context s' = mask_context (context y) /\
    currentq s' = u /\ valid_thread s' (current_thread s') u y' /\
    state y' = RUNNING /\ runningCount y' = 0 /\ quantum y' = slice y.
Proof.
  intros Ht Hu Hlen.
  destruct (round_turns fuel tmp0 k s t x l cs u Ht Hu Hlen) as (s' & y & Hs' & Hy & Hot & Hcpu).
  destruct (released_fields y) as (_ & _ & _ & R4 & _ & _ & _ & R8 & _ & _ & R11).
  exists s', y, (released y). split_and!; try done; apply Hot.
Qed.

(** The state after the tick of a thread that asked to give up its turn. *)
Lemma same_again_request j y :
  state y = RUNNING -> yield_in_progress y = TRUE \/ sleep_in_progress y = TRUE ->
  let z := same_again j y in
  runningCount z = quantum z /\ quantum z = quantum y /\ ident z = ident y /\ next z = next y /\
  cpl z = cpl y /\ owner_pid z = owner_pid y /\ is_standby z = is_standby y /\
  (sleep_in_progress y = TRUE -> state z = WAITING /\ sleep_in_progress z = FALSE /\
     wake_jiffy z = u64 (j + (if desired_sleep_ms y =? 0 then 1 else desired_sleep_ms y))) /\
  (sleep_in_progress y <> TRUE -> state z = RUNNING /\ yield_in_progress z = FALSE).
Proof.
  intros Hs Hr. cbv zeta. unfold same_again, same_again_yield.
  rewrite Hs. state_eval. cbn [andb].
  assert (Hsb : is_standby y = false) by (unfold is_standby; rewrite Hs; apply andb_false_r).
  assert (Hms : forall d, (if (if d =? 0 then 1 else d) =? 0 then 1 else (if d =? 0 then 1 else d))
    = if d =? 0 then 1 else d) by (intros d; destruct (Z.eqb_spec d 0); [done|by zguard]).
  assert (Hor : (yield_in_progress y =? TRUE) = true \/ (sleep_in_progress y =? TRUE) = true)
    by (rewrite !Z.eqb_eq; exact Hr).
  assert (Hsl : sleep_in_progress y = TRUE <-> (sleep_in_progress y =? TRUE) = true) by (by rewrite Z.eqb_eq).
  rewrite Hsl. clear Hsl Hr.
  destruct (yield_in_progress y =? TRUE) eqn:Ey; cbn; rewrite ?Hs; state_eval; cbn [andb];
    destruct (sleep_in_progress y =? TRUE) eqn:El; cbn; rewrite ?Hsb, ?Hms.
  all: split_and!; try done; try (unfold is_standby; cbn; by rewrite ?Hs, ?andb_false_r).
  all: by destruct Hor.
Qed.

(** What a request leaves in the structure of its thread, at jiffy [j]. *)
Definition request_done (j : Z) (x z : thread_d) : Prop :=
  (sleep_in_progress x = TRUE -> state z = WAITING /\ sleep_in_progress z = FALSE /\
     wake_jiffy z = u64 (j + (if desired_sleep_ms x =? 0 then 1 else desired_sleep_ms x))) /\
  (sleep_in_progress x <> TRUE -> state z = RUNNING /\ yield_in_progress z = FALSE).

(** The tick that takes the request of a thread into account. *)
Lemma request_tick fuel tmp0 s t x :
  quiet s -> valid_thread s (current_thread s) t x -> user_thread s x -> state x = RUNNING ->
  yield_in_progress x = TRUE \/ sleep_in_progress x = TRUE ->
  0 <= runningCount x -> runningCount x + 1 < quantum x < 2 ^ 63 ->
  exists s1 z, __task_switch fuel tmp0 s = Done tt s1 /\ quiet s1 /\ ts_frame s s1 /\
    valid_thread s1 (current_thread s1) t z /\ user_thread s1 z /\ currentq s1 = currentq s /\
    runningCount z = quantum z /\ quantum z = quantum x /\ next z = next x /\
    request_done (jiffies s) x z /\ (forall u, u <> t -> threads s1 !! u = threads s !! u).
Proof.
  intros Hq Hv Hu Hst Hreq Hr0 Hq1. pose proof Hv as ((Hri & Ht & Hn & Hx) & Hus & Hm).
  destruct (tick_same fuel tmp0 s t x Hq Hv Hu) as (s1 & Hs1 & T1 & C1 & Q1 & F1).
  { rewrite u64_id by lia. lia. }
  destruct (entry_fields s x) as (E1 & E2 & E3 & E4 & E5 & E6 & E7 & E8 & E9 & E10 & E11 & E12).
  assert (Hds : desired_sleep_ms (entry s x) = desired_sleep_ms x) by done.
  assert (Hpe : has_pending_event_ (entry s x) = has_pending_event_ x) by done.
  revert Hpe T1 E1 E2 E3 E4 E5 E6 E7 E8 E9 E10 E11 E12 Hds. generalize (entry s x).
  intros e Hpe T1 E1 E2 E3 E4 E5 E6 E7 E8 E9 E10 E11 E12 Hds.
  destruct (same_again_request (jiffies s) e) as (R1 & R2 & R3 & R4 & R5 & R6 & R7 & R8 & R9);
    [congruence|rewrite E10, E11; exact Hreq|].
  pose proof (same_again_pending (jiffies s) e) as Hpz. rewrite Hpe in Hpz.
  revert Hpz T1 R1 R2 R3 R4 R5 R6 R7 R8 R9. generalize (same_again (jiffies s) e).
  intros z Hpz T1 R1 R2 R3 R4 R5 R6 R7 R8 R9. rewrite E11, Hds in R8. rewrite E11 in R9.
  assert (Hz : threads s1 !! t = Some z) by (rewrite T1; apply lookup_insert_eq).
  assert (Hne : forall u, u <> t -> threads s1 !! u = threads s !! u)
    by (intros u Hut; by rewrite T1, lookup_insert_ne).
  assert (Hzid : ident z = ident x) by congruence. unfold ident in Hzid. injection Hzid as I1 I2 I3.
  exists s1, z. split; [done|]. split; [|split; [done|split; [|split; [|split_and!; done || congruence]]]].
  - eapply quiet_ext; [exact Hq|exact F1|]. intros u.
    destruct (decide (u = t)) as [->|Hut]; [|by rewrite Hne].
    rewrite Hz, Hx. cbn. unfold face. congruence.
  - split; [|split; congruence]. rewrite C1. split; [done|]. by rewrite (tf_threadList _ _ F1).
  - eapply user_frame; [exact F1|]. unfold user_thread. by rewrite R5, R6, E6, E7.
Qed.

(** The end of the quantum after a request. *)
Lemma request_preempted s j x z :
  request_done j x z -> let w := preempted (entry s z) in
  (sleep_in_progress x = TRUE -> state w = WAITING /\ sleep_in_progress w = FALSE /\
     wake_jiffy w = u64 (j + (if desired_sleep_ms x =? 0 then 1 else desired_sleep_ms x))) /\
  (sleep_in_progress x <> TRUE -> state w = READY /\ yield_in_progress w = FALSE).
Proof.
  intros (R8 & R9). cbv zeta.
  destruct (entry_fields s z) as (_ & Z2 & _ & _ & _ & _ & _ & _ & _ & Z10 & Z11 & _).
  assert (Hwk : wake_jiffy (entry s z) = wake_jiffy z) by done.
  revert Z2 Z10 Z11 Hwk. generalize (entry s z). intros v Z2 Z10 Z11 Hwk. unfold preempted. split.
  - intros Hsl. destruct (R8 Hsl) as (S1 & S2 & S3). rewrite Z2, S1. state_eval. split_and!; congruence.
  - intros Hsl. destruct (R9 Hsl) as (S1 & S2). rewrite Z2, S1. state_eval. split; [done|]. cbn. congruence.
Qed.

(** Giving up a turn: a running thread that asked to yield or to sleep
    loses the processor at the second tick from now, long before the end of its
    quantum.  It is then READY, or, after a sleep, WAITING until the moment it
    asked for; its registers are saved and the next thread of the round runs. *)
Theorem give_up_turn fuel tmp0 s t x i n y c1 c2 :
  quiet s -> valid_thread s (current_thread s) t x -> user_thread s x -> state x = RUNNING ->
  yield_in_progress x = TRUE \/ sleep_in_progress x = TRUE ->
  0 <= runningCount x -> runningCount x + 1 < quantum x < 2 ^ 63 ->
  currentq s = t -> next x = n -> n <> t -> ready_at s i n y -> user_thread s y ->
  exists s' x', run_ticks (S fuel) tmp0 [c1; c2] s = Done tt s' /\
    current_thread s' = i /\ cpu_context s' = mask_context (context y) /\
    threads s' !! t = Some x' /\ saved x' = TRUE /\ context x' = mask_context c2 /\
    (sleep_in_progress x = TRUE -> state x' = WAITING /\ sleep_in_progress x' = FALSE /\
       wake_jiffy x' = u64 (u64 (jiffies s + 1) +
         (if desired_sleep_ms x =? 0 then 1 else desired_sleep_ms x))) /\
    (sleep_in_progress x <> TRUE -> state x' = READY /\ yield_in_progress x' = FALSE).
Proof.
  intros Hq Hv Hu Hst Hreq Hr0 Hq1 Hcq Hnx Hnt Hy Huy. pose proof (interrupt_frame c1 s) as F0.
  assert (Hq' : quiet (interrupt c1 s)) by (by eapply quiet_ext).
  destruct (request_tick (S fuel) tmp0 (interrupt c1 s) t x Hq' Hv Hu Hst Hreq Hr0 Hq1)
    as (s1 & z & Hs1 & Hqz & F1 & Hvz & Huz & Q1 & R1 & R2 & R4 & Hrd & Hne).
  pose proof (ts_frame_trans _ _ _ F0 F1) as F. pose proof (interrupt_frame c2 s1) as G0.
  pose proof (ts_frame_trans _ _ _ F G0) as FG.
  assert (Hq2 : quiet (interrupt c2 s1)) by (by eapply quiet_ext).
  destruct (tick_preempts fuel tmp0 (interrupt c2 s1) t z i n y Hq2 Hvz) as
    (s2 & Hs2 & T2 & C2 & Q2 & CPU2 & _); [| | |congruence|done| |..].
  - eapply user_frame; [exact G0|exact Huz].
  - rewrite R1, R2, u64_id by lia. lia.
  - change (currentq (interrupt c2 s1)) with (currentq s1). rewrite Q1. exact Hcq.
  - eapply (ready_frame s); [exact FG|by apply Hne|done].
  - by eapply (user_frame s).
  - exists s2, (preempted (entry (interrupt c2 s1) z)).
    rewrite (run_ticks_cons _ _ _ _ _ _ Hs1), (run_ticks_cons _ _ _ _ _ _ Hs2).
    split; [done|]. split; [done|]. split; [done|].
    split; [rewrite T2, lookup_insert_ne by done; apply lookup_insert_eq|].
    destruct (preempted_fields (entry (interrupt c2 s1) z)) as (_ & _ & _ & _ & P5 & P6 & _).
    split; [by rewrite P6|]. split; [by rewrite P5|].
    exact (request_preempted (interrupt c2 s1) _ x z Hrd).
Qed.

(** ** A new round *)

(** The fields that neither the scheduler nor the accounts change. *)
Definition passport (x : thread_d) :=
  (cpl x, owner_pid x, yield_in_progress x, sleep_in_progress x, context x, pml4_PA x,
   has_pending_event_ x).

Lemma rr_sched_passport b fg ds dst x : passport (rr_sched b fg ds dst x) = passport x.
Proof.
  assert (H1 : forall y, passport (rr_balance y) = passport y)
    by (intros y; unfold rr_balance; cbv zeta; repeat case_match; reflexivity).
  assert (H2 : forall y, passport (rr_role_quantum b fg ds dst y) = passport y)
    by (intros y; unfold rr_role_quantum; cbv zeta; repeat case_match; reflexivity).
  assert (H3 : forall y, passport (rr_boost y) = passport y)
    by (intros y; unfold rr_boost; cbv zeta; repeat case_match; reflexivity).
  unfold rr_sched. by rewrite H3, H2, H1.
Qed.

Lemma rr_wake_passport j x : passport (rr_wake j x) = passport x.
Proof. unfold rr_wake. by repeat case_match. Qed.

Lemma rr_result_passport s x : passport (rr_result s x) = passport x.
Proof.
  unfold rr_result. case_match; [done|]. case_match; [by rewrite rr_sched_passport, rr_wake_passport|].
  case_match; [done|]. apply rr_wake_passport.
Qed.

(** A known state other than STANDBY. *)
Lemma not_standby x st : state x = st -> st <> STANDBY -> is_standby x = false.
Proof.
  intros Hs Hn. unfold is_standby, state_eqb. rewrite Hs, bool_decide_false by done. apply andb_false_r.
Qed.

Lemma rr_result_standby s x : is_standby x = false -> is_standby (rr_result s x) = false.
Proof.
  intros Hx. unfold rr_result. case_match; [by eapply not_standby|]. case_match.
  - destruct (rr_sched_fields s (rr_wake (jiffies s) x)) as (_ & _ & G3 & _).
    destruct (rr_wake_runnable (jiffies s) x) as (H1 & _); [done|].
    eapply not_standby; [by rewrite G3|done].
  - case_match; [done|]. unfold rr_wake. case_match; [|done].
    destruct (alarm x <? jiffies s); cbn; destruct (wake_jiffy x <=? jiffies s);
      first [exact Hx | by eapply not_standby].
Qed.

Lemma scheduled_frame s idle xi s' : scheduled s idle xi s' -> ts_frame s s'.
Proof.
  intros [[] _ _ _]. unfold other_globals in rk_other.
  injection rk_other as O1 O2 O3 O4 O5 O6 O7 O8 O9 O10.
  split; try done; try (by rewrite rk_pt).
  intros (Hn & b & Hb & Hm). unfold counts_ok. rewrite O7, O8. split; [done|]. by exists b.
Qed.

(** Every slot of a well-formed table after a round. *)
Lemma scheduled_any s idle xi s' i t y :
  can_schedule s idle xi -> scheduled s idle xi s' -> thread_at s' i t y ->
  exists x, thread_at s i t x /\ passport y = passport x /\
    (is_standby x = false -> is_standby y = false) /\
    (i = 0 -> t = idle /\ y = (rr_prio xi) <| next := next y |>).
Proof.
  intros (Hs & _) Hd (Hr & Ht & Hn & Hy).
  pose proof Hs as [Hwf _ _ _ _ ((_ & Hit & Hin & Hix) & Hiu & Him)].
  rewrite (rk_threadList _ _ _ (sd_kept _ _ _ _ Hd)) in Ht.
  destruct (wf_slot s Hwf i t Ht Hn) as (x & Hx & Hxi).
  assert (Hat : thread_at s i t x) by (split; [done|by split_and!]).
  exists x. split; [done|]. destruct (decide (i = 0)) as [->|Hi].
  - assert (t = idle) as -> by congruence. assert (x = xi) as -> by congruence.
    pose proof (sd_idle s idle xi s' Hwf Hat Hd) as H. rewrite Hy in H.
    apply (inj Some), unlinked_eq in H. split; [by rewrite H|]. split; [|done].
    intros Hsb. by rewrite H.
  - destruct (scheduled_slot s idle xi s' i t x Hd ltac:(lia) Hat) as (z & (_ & _ & _ & Hz) & Hzx).
    assert (z = y) as -> by congruence. split; [|split; [|done]].
    + rewrite Hzx. exact (rr_result_passport s x).
    + intros Hsb. rewrite Hzx. exact (rr_result_standby s x Hsb).
Qed.

(** Every slot keeps its structure. *)
Lemma scheduled_kept s idle xi s' i t x :
  can_schedule s idle xi -> scheduled s idle xi s' -> thread_at s i t x ->
  exists y, threads s' !! t = Some y /\ has_pending_event_ y = has_pending_event_ x.
Proof.
  intros Hc Hd Hat. pose proof (can_schedule_wf _ _ _ Hc) as Hwf.
  pose proof Hat as (Hr & Ht & Hn & Hx). pose proof (rk_wf _ _ _ (sd_kept _ _ _ _ Hd)) as Hwf'.
  destruct (scheduled_live s idle xi s' t Hwf Hd Hn) as (y & Hy); [by eexists|].
  assert (Hat' : thread_at s' i t y)
    by (split; [done|split; [by rewrite (rk_threadList _ _ _ (sd_kept _ _ _ _ Hd))|done]]).
  destruct (scheduled_any s idle xi s' i t y Hc Hd Hat') as (z & (_ & _ & _ & Hz) & Hp & _).
  exists y. split; [done|]. assert (z = x) as -> by congruence. unfold passport in Hp. congruence.
Qed.

(** ** The call through the uninitialized local *)

Lemma same_frame s s1 : same_globals s s1 -> ts_frame s s1.
Proof.
  intros Hg. assert (exists m, s1 = s <| threads := m |>) as (m & ->) by (by exists (threads s1)).
  by split.
Qed.

Lemma stray_frame tmp0 s s1 : wf_threads s -> stray tmp0 s s1 -> ts_frame s s1.
Proof. intros Hwf (xt & _ & H). by apply same_frame, (ready_globals s (tid xt)). Qed.

(** It neither sets nor clears a flag. *)
Lemma stray_struct tmp0 s s1 i t x :
  wf_threads s -> stray tmp0 s s1 -> thread_at s i t x ->
  exists y, threads s1 !! t = Some y /\ has_pending_event_ y = has_pending_event_ x /\
    (is_standby x = false -> is_standby y = false).
Proof.
  intros Hwf (xt & _ & H) (_ & _ & _ & Hx).
  destruct (ready_struct s _ s1 t x Hwf H Hx) as (y & Hy & [-> | ->]); [by exists x|].
  eexists. split; [exact Hy|]. split; [done|]. intros _. by eapply not_standby.
Qed.

Lemma stray_many tmp0 s s1 : wf_threads s -> stray tmp0 s s1 -> many_threads s -> many_threads s1.
Proof.
  intros Hwf Hst. apply ts_frame_many; [by eapply stray_frame|]. intros i t x Hat.
  destruct (stray_struct tmp0 s s1 i t x Hwf Hst Hat) as (y & Hy & Hf & _). by exists y.
Qed.



(** The idle thread after the scheduler. *)
Lemma scheduled_idle s idle xi s' :
  can_schedule s idle xi -> state xi = READY -> scheduled s idle xi s' ->
  exists y, ready_at s' 0 idle y /\ passport y = passport xi.
Proof.
  intros (Hs & _) Hsx Hd. pose proof (sd_kept _ _ _ _ Hd) as Hk.
  pose proof (sr_thread _ _ _ Hs) as Hv. pose proof Hv as (Hat & Hui & Hmi).
  destruct (unlinked_fmap _ _ (sd_idle _ _ _ _ (sr_wf _ _ _ Hs) Hat Hd)) as (y & Hy & Hyx).
  destruct Hat as (Hr & Hti & Hni & Hxi).
  pose proof (wf_tid s 0 idle xi (sr_wf _ _ _ Hs) Hv) as Htid.
  exists y. split; [|by rewrite Hyx]. split; [|by rewrite Hyx].
  split; [|by rewrite Hyx]. split; [done|]. by rewrite (rk_threadList _ _ _ Hk).
Qed.

(** A round in the selection. *)
Lemma reschedule_spec tmp0 s s1 idle xi :
  threads_counter s <> 0 -> threads_counter s <> 1 -> can_schedule s idle xi ->
  state xi = READY -> g_scheduler_status s <> LOCKED -> stray tmp0 s s1 ->
  exists xi1 s', can_schedule s1 idle xi1 /\ state xi1 = READY /\
    reschedule tmp0 s = Done tt (s' <| current_thread := INIT_TID |>) /\
    scheduled s1 idle xi1 s'.
Proof.
  intros H0 H1 Hc Hsx Hl Hst.
  destruct (scheduler_spec tmp0 s s1 idle xi Hc Hst) as (xi1 & s' & Hc1 & Hor & Hs' & Hd).
  exists xi1, s'. split; [done|]. split; [by destruct Hor as [-> | ->]|]. split; [|done].
  unfold reschedule, psScheduler. apply Z.eqb_neq in Hl, H0, H1.
  rewrite bind_bind, bind_gets, Hl, bind_bind, bind_gets, H0, H1, (bind_Done _ _ _ _ _ Hs'). done.
Qed.

(** The selection at the end of a round. *)
Lemma zero_gravity_round fuel tmp0 s s1 x idle xi :
  many_threads s -> threads s !! currentq s = Some x -> next x = NULL ->
  can_schedule s idle xi -> state xi = READY -> g_scheduler_status s <> LOCKED ->
  stray tmp0 s s1 ->
  exists xi1 s', can_schedule s1 idle xi1 /\ state xi1 = READY /\
    ts_zero_gravity (S fuel) tmp0 s = Done tt (s' <| current_thread := INIT_TID |>) /\
    scheduled s1 idle xi1 s'.
Proof.
  intros Hm Hx Hn Hc Hsx Hl Hst. pose proof Hm as (H0 & H1 & _).
  destruct (reschedule_spec tmp0 s s1 idle xi H0 H1 Hc Hsx Hl Hst)
    as (xi1 & s' & Hc1 & Hs1 & Hs' & Hd).
  exists xi1, s'. do 2 (split; [done|]). split; [|done].
  cbn [ts_zero_gravity]. pose proof (ts_pick_queue tmp0 s x Hm Hx) as Hp. rewrite Hn in Hp.
  cbn [NULL Z.eqb] in Hp. rewrite Hs' in Hp. rewrite (bind_Done _ _ _ _ _ Hp).
  destruct (scheduled_idle s1 idle xi1 s' Hc1 Hs1 Hd) as (y & Hy & _).
  assert (Hra : ready_at (s' <| current_thread := INIT_TID |>) 0
    (currentq (s' <| current_thread := INIT_TID |>)) y).
  { change (currentq (s' <| current_thread := INIT_TID |>)) with (currentq s').
    rewrite (rk_currentq _ _ _ (sd_kept _ _ _ _ Hd)). exact Hy. }
  rewrite (bind_Done _ _ _ _ _ (ts_go_ahead_ready tmp0 _ 0 y Hra)). by destruct s'.
Qed.








(** ** The selection ends, or not *)

Lemma can_schedule_current s idle xi c :
  can_schedule s idle xi -> can_schedule (s <| current_thread := c |>) idle xi.
Proof.
  intros ([Hwf ? ? ? ? Hv] & ? & ?). split; [|done]. split; try done. by eapply wf_threads_ext.
Qed.

Lemma can_schedule_currentq s idle xi q :
  can_schedule s idle xi -> can_schedule (s <| currentq := q |>) idle xi.
Proof.
  intros ([Hwf ? ? ? ? Hv] & ? & ?). split; [|done]. split; try done. by eapply wf_threads_ext.
Qed.

Lemma live_stray tmp0 s s1 s' idle xi :
  wf_threads s -> stray tmp0 s s1 -> scheduled s1 idle xi s' ->
  is_Some (threads s !! tmp0) -> is_Some (threads s' !! tmp0).
Proof.
  intros Hwf Hst Hd Hl. pose proof (stray_live _ _ _ _ Hwf Hst Hl) as Hl1.
  assert (Hwf1 : wf_threads s1).
  { destruct Hst as (xt & _ & H). by apply (ready_globals s (tid xt)). }
  eapply scheduled_live; [exact Hwf1|exact Hd|by eapply live_nonnull|done].
Qed.

(** Right after a round was built, the selection ends. *)
Lemma zero_gravity_scheduled fuel tmp0 s idle xi s1 :
  many_threads s -> can_schedule s idle xi -> state xi = READY ->
  g_scheduler_status s <> LOCKED -> scheduled s idle xi s1 -> is_Some (threads s1 !! tmp0) ->
  exists s' y, ts_zero_gravity (S fuel) tmp0 (s1 <| current_thread := INIT_TID |>) = Done tt s' /\
    ready_at s' (current_thread s') (currentq s') y.
Proof.
  intros Hm Hc Hsx Hl Hd Hlive. pose proof (scheduled_frame _ _ _ _ Hd) as F.
  destruct (scheduled_ready s idle xi s1 Hc Hd) as (xj & Hc1 & Hsj). rewrite Hsx in Hsj.
  apply (can_schedule_current _ _ _ INIT_TID) in Hc1.
  pose proof (queue_next _ _ 0 idle (sd_queue _ _ _ _ Hd) eq_refl) as (z & Hz & Hnext).
  pose proof (rk_currentq _ _ _ (sd_kept _ _ _ _ Hd)) as Hcq. destruct (tf_sched _ _ F) as (_ & _ & HL).
  assert (Hcz : threads s1 !! currentq s1 = Some z) by (rewrite Hcq; exact Hz).
  assert (Hm1 : many_threads s1)
    by (eapply ts_frame_many; [exact F|intros i t y Hat; exact (scheduled_kept _ _ _ _ i t y Hc Hd Hat)|exact Hm]).
  destruct (rr_round s THREAD_COUNT_MAX) as [|u l] eqn:Er; cbn in Hnext.
  - rewrite <- HL in Hl.
    change (many_threads (s1 <| current_thread := INIT_TID |>)) in Hm1.
    change (g_scheduler_status (s1 <| current_thread := INIT_TID |>) <> LOCKED) in Hl.
    change (is_Some (threads (s1 <| current_thread := INIT_TID |>) !! tmp0)) in Hlive.
    change (threads (s1 <| current_thread := INIT_TID |>) !!
      currentq (s1 <| current_thread := INIT_TID |>) = Some z) in Hcz.
    revert Hc1 Hm1 Hl Hcz Hlive. generalize (s1 <| current_thread := INIT_TID |>).
    intros p Hc1 Hm1 Hl' Hcz Hlive.
    destruct (stray_total p tmp0 (can_schedule_wf _ _ _ Hc1) Hlive) as (p1 & Hst).
    destruct (zero_gravity_round fuel tmp0 p p1 z idle xj Hm1 Hcz Hnext Hc1 Hsj Hl' Hst)
      as (x1 & s2 & Hc2 & Hs2x & Hs2 & Hd2).
    destruct (scheduled_idle _ idle x1 s2 Hc2 Hs2x Hd2) as (w & Hw & _).
    exists (s2 <| current_thread := INIT_TID |>), w. split; [exact Hs2|].
    change (ready_at s2 0 (currentq s2) w). by rewrite (rk_currentq _ _ _ (sd_kept _ _ _ _ Hd2)).
  - assert (Hu : u ∈ rr_round s THREAD_COUNT_MAX) by (rewrite Er; left).
    apply rr_round_In in Hu as (i & x & Hi & Hat & Hr).
    destruct (scheduled_runnable s idle xi s1 i u x Hd Hi Hat Hr) as (v & Hv & Hst & Hval & _).
    apply valid_struct_true in Hval.
    pose proof (wf_tid s1 i u v (rk_wf _ _ _ (sd_kept _ _ _ _ Hd)) (conj Hv Hval)) as Htid.
    assert (Hra : ready_at s1 i u v) by done.
    change (many_threads (s1 <| current_thread := INIT_TID |>)) in Hm1.
    change (ready_at (s1 <| current_thread := INIT_TID |>) i u v) in Hra.
    change (threads (s1 <| current_thread := INIT_TID |>) !!
      currentq (s1 <| current_thread := INIT_TID |>) = Some z) in Hcz.
    revert Hra Hm1 Hcz. generalize (s1 <| current_thread := INIT_TID |>). intros p Hra Hm1 Hcz.
    pose proof (zero_gravity_next fuel tmp0 p z i u v Hm1 Hcz Hnext Hra) as Hzg.
    eexists _, v. split; [exact Hzg|exact Hra].
Qed.

Lemma ts_go_ahead_again tmp0 s y :
  currentq s <> NULL -> threads s !! currentq s = Some y ->
  valid_struct y && state_eqb (state y) READY = false ->
  ts_go_ahead tmp0 s = (reschedule tmp0;; mret false) s.
Proof.
  intros Hn Hy Hr. unfold ts_go_ahead. rewrite bind_gets. zguard.
  rewrite (bind_Done _ _ _ _ _ (deref_thread_Done s _ y Hy)).
  destruct (valid_struct y); [|done]. cbn in Hr. cbn [negb]. by rewrite Hr.
Qed.

(** The selection when no event is pending. *)
Lemma zero_gravity_quiet fuel tmp0 s x idle xi :
  many_threads s -> can_schedule s idle xi -> state xi = READY ->
  g_scheduler_status s <> LOCKED -> is_Some (threads s !! tmp0) ->
  threads s !! currentq s = Some x ->
  next x = NULL \/ (exists i y, thread_at s i (next x) y) ->
  exists s' y, ts_zero_gravity (S (S fuel)) tmp0 s = Done tt s' /\
    ready_at s' (current_thread s') (currentq s') y.
Proof.
  intros Hm Hc Hsx Hl Hlive Hx [Hnull|(i & y & Hy)].
  { destruct (stray_total s tmp0 (can_schedule_wf _ _ _ Hc) Hlive) as (s1 & Hst).
    destruct (zero_gravity_round (S fuel) tmp0 s s1 x idle xi Hm Hx Hnull Hc Hsx Hl Hst)
      as (x1 & s' & Hc1 & Hs1 & Hs' & Hd).
    destruct (scheduled_idle s1 idle x1 s' Hc1 Hs1 Hd) as (y & Hy & _).
    exists (s' <| current_thread := INIT_TID |>), y. split; [exact Hs'|].
    change (ready_at s' 0 (currentq s') y). by rewrite (rk_currentq _ _ _ (sd_kept _ _ _ _ Hd)). }
  pose proof Hy as (Hr & Hti & Hnn & Hyy).
  destruct (valid_struct y && state_eqb (state y) READY) eqn:Hval.
  - apply andb_true_iff in Hval as (Hval & Hst). apply valid_struct_true in Hval.
    apply bool_decide_eq_true in Hst.
    assert (Htid : tid y = i) by (eapply (wf_tid s); [apply Hc|by split]).
    assert (Hra : ready_at s i (next x) y) by done.
    exists (s <| currentq := next x |> <| current_thread := i |>), y. split; [|exact Hra].
    by apply (zero_gravity_next (S fuel) tmp0 s x i (next x) y).
  - set (s1 := s <| currentq := next x |>).
    assert (Hp : ts_pick tmp0 s = Done tt s1).
    { rewrite (ts_pick_queue tmp0 s x Hm Hx). apply Z.eqb_neq in Hnn. by rewrite Hnn. }
    assert (Hm1 : many_threads s1) by exact Hm. assert (Hl1 : g_scheduler_status s1 <> LOCKED) by exact Hl.
    assert (Hlive1 : is_Some (threads s1 !! tmp0)) by exact Hlive.
    assert (Hc1 : can_schedule s1 idle xi) by (by apply can_schedule_currentq).
    pose proof (ts_go_ahead_again tmp0 s1 y Hnn Hyy Hval) as Hga. clearbody s1.
    pose proof (can_schedule_wf _ _ _ Hc1) as Hwf1.
    destruct (stray_total s1 tmp0 Hwf1 Hlive1) as (p & Hst).
    destruct (reschedule_spec tmp0 s1 p idle xi (proj1 Hm1) (proj1 (proj2 Hm1)) Hc1 Hsx Hl1 Hst)
      as (x1 & s2 & Hc2 & Hsx2 & Hs2 & Hd).
    rewrite (bind_Done _ _ _ _ _ Hs2) in Hga.
    destruct (tf_sched _ _ (stray_frame _ _ _ Hwf1 Hst)) as (_ & _ & HL). rewrite <- HL in Hl1.
    destruct (zero_gravity_scheduled fuel tmp0 p idle x1 s2 (stray_many _ _ _ Hwf1 Hst Hm1) Hc2 Hsx2
      Hl1 Hd (live_stray _ _ _ _ _ _ Hwf1 Hst Hd Hlive1)) as (s3 & z & Hs3 & Hz).
    exists s3, z. split; [|done].
    change (ts_zero_gravity (S (S fuel)) tmp0) with (ts_pick tmp0;; ok ← ts_go_ahead tmp0;
      if (ok : bool) then mret tt else ts_zero_gravity (S fuel) tmp0).
    by rewrite (bind_Done _ _ _ _ _ Hp), (bind_Done _ _ _ _ _ Hga).
Qed.

(** The selection when the event responder has a pending event: it is taken at
    once, READY, alone in the queue, and its flag is cleared. *)
Lemma zero_gravity_event fuel tmp0 s i x :
  wf_threads s -> threads_counter s <> 0 -> threads_counter s <> 1 ->
  g_use_event_responder s = TRUE -> valid_thread s i (ev_responder_thread s) x ->
  has_pending_event_ x = TRUE ->
  exists s', ts_zero_gravity (S fuel) tmp0 s = Done tt s' /\
    currentq s' = ev_responder_thread s /\ current_thread s' = i /\
    ready_at s' i (ev_responder_thread s) ((ev_scheduled x) <| next := NULL |>).
Proof.
  intros Hwf H0 H1 Huse Hv Hp. pose proof Hv as ((Hr & Ht & Hn & Hx) & Hu & Hm).
  pose proof (wf_tid s i _ x Hwf Hv) as Htid.
  assert (Hpe : has_pending_event (ev_responder_thread s) s = Done TRUE s).
  { unfold has_pending_event. zguard. rewrite (bind_Done _ _ _ _ _ (deref_thread_Done s _ x Hx)).
    by rewrite Hu, Hm, Hp. }
  set (s1 := s <| threads := <[ev_responder_thread s := ev_scheduled x]> (threads s) |>
               <| currentq := ev_responder_thread s |>).
  set (s2 := s1 <| threads := <[ev_responder_thread s := (ev_scheduled x) <| next := NULL |>]>
                              (threads s1) |>).
  assert (Hx1 : threads s1 !! ev_responder_thread s = Some (ev_scheduled x)) by apply lookup_insert_eq.
  assert (Hpick : ts_pick tmp0 s = Done tt s2).
  { unfold ts_pick. rewrite bind_gets. zguard. do 2 rewrite bind_gets. rewrite Huse.
    cbn [TRUE Z.eqb Pos.eqb]. rewrite (bind_Done _ _ _ _ _ Hpe). cbn [TRUE Z.eqb Pos.eqb].
    rewrite (bind_Done _ _ _ _ _ (update_thread_Done s _ x _ Hx)), bind_modify.
    exact (update_thread_Done s1 _ _ (fun x => x <| next := NULL |>) Hx1). }
  assert (Hra : ready_at s2 i (currentq s2) ((ev_scheduled x) <| next := NULL |>)).
  { split; [|split; [done|exact Htid]]. split; [|split; [exact Hu|exact Hm]].
    do 3 (split; [done|]). apply lookup_insert_eq. }
  exists (s2 <| current_thread := i |>). split; [|by split_and!].
  cbn [ts_zero_gravity]. by rewrite (bind_Done _ _ _ _ _ Hpick),
    (bind_Done _ _ _ _ _ (ts_go_ahead_ready tmp0 s2 i _ Hra)).
Qed.

(** [C35] The selection of the next thread ends.  The event responder is in use
    or not, and is no thread or a valid thread with or without a pending event;
    there are several threads, the scheduler is unlocked and ready, the idle
    thread is READY, the scheduler's uninitialized local designates some
    structure, and the successor of the conductor is NULL or a thread of the
    table in any state.  Then at most two attempts are needed, and they find a
    valid READY thread, which is the event responder when it is in use and has a
    pending event. *)
Theorem selection_ends fuel tmp0 s x idle xi :
  threads_counter s <> 0 -> threads_counter s <> 1 ->
  can_schedule s idle xi -> state xi = READY ->
  g_scheduler_status s <> LOCKED -> is_Some (threads s !! tmp0) ->
  (ev_responder_thread s = NULL \/
   exists i e, valid_thread s i (ev_responder_thread s) e /\
     (has_pending_event_ e = TRUE \/ has_pending_event_ e = FALSE)) ->
  threads s !! currentq s = Some x ->
  next x = NULL \/ (exists i y, thread_at s i (next x) y) ->
  exists s' y, ts_zero_gravity (S (S fuel)) tmp0 s = Done tt s' /\
    ready_at s' (current_thread s') (currentq s') y /\
    (g_use_event_responder s = TRUE ->
     (exists e, threads s !! ev_responder_thread s = Some e /\ has_pending_event_ e = TRUE) ->
     currentq s' = ev_responder_thread s).
Proof.
  intros H0 H1 Hc Hsx Hl Hlive Hev Hx Hnext.
  assert (Hcase : many_threads s \/ g_use_event_responder s = TRUE /\
    exists i e, valid_thread s i (ev_responder_thread s) e /\ has_pending_event_ e = TRUE).
  { destruct (decide (g_use_event_responder s = TRUE)) as [Hu|Hu]; [|by left].
    destruct Hev as [Hn|(i & e & He & [Hp|Hp])].
    - left. split_and!; try done. intros _. by left.
    - right. split; [done|]. by exists i, e.
    - left. split_and!; try done. intros _. right. exists i, e. by split; [apply He|]. }
  destruct Hcase as [Hm|(Hu & i & e & He & Hp)].
  - destruct (zero_gravity_quiet fuel tmp0 s x idle xi Hm Hc Hsx Hl Hlive Hx Hnext) as (s' & y & Hs' & Hy).
    exists s', y. do 2 (split; [done|]). intros Hu (e & He & Hp).
    destruct Hm as (_ & _ & Hno). destruct (Hno Hu) as [Hn|(i & z & (_ & _ & _ & Hz) & Hzf)].
    + rewrite Hn, (wf_threads_null s (can_schedule_wf _ _ _ Hc)) in He. done.
    + assert (z = e) as -> by congruence. rewrite Hzf in Hp. done.
  - destruct (zero_gravity_event (S fuel) tmp0 s i e (can_schedule_wf _ _ _ Hc) H0 H1 Hu He Hp)
      as (s' & Hs' & Hcq & Hct & Hra).
    eexists s', _. split; [exact Hs'|]. split; [|done]. rewrite Hcq, Hct. exact Hra.
Qed.

(** The state that an attempt leaves when there is a single thread. *)
Lemma single_attempt tmp0 s idle x :
  threads_counter s = 1 -> InitThread s = idle -> IdleThread s = idle -> idle <> NULL ->
  threads s !! idle = Some x -> valid_struct x && state_eqb (state x) READY = false ->
  exists s', (ts_pick tmp0;; ts_go_ahead tmp0) s = Done false s' /\
    threads_counter s' = 1 /\ InitThread s' = idle /\ IdleThread s' = idle /\
    threads s' = threads s.
Proof.
  intros Hn Hi Hd Hne Hx Hr.
  assert (Hp : ts_pick tmp0 s = Done tt (s <| currentq := idle |>)).
  { unfold ts_pick. rewrite bind_gets, Hn. cbn [Z.eqb Pos.eqb].
    by rewrite bind_gets, bind_gets, Hi, Hd, Z.eqb_refl. }
  rewrite (bind_Done _ _ _ _ _ Hp). clear Hp.
  assert (Hs : exists s1, s1 = s <| currentq := idle |>) by eauto. destruct Hs as [s1 Hs]. rewrite <- Hs.
  assert (H1 : currentq s1 = idle /\ threads s1 = threads s /\ threads_counter s1 = threads_counter s /\
    InitThread s1 = InitThread s /\ IdleThread s1 = IdleThread s) by (by rewrite Hs).
  clear Hs. destruct H1 as (Q1 & T1 & N1 & I1 & D1).
  rewrite (ts_go_ahead_again tmp0 s1 x); [|by rewrite Q1|by rewrite Q1, T1|done].
  unfold reschedule, psScheduler. rewrite !bind_bind, bind_gets.
  destruct (_ =? LOCKED).
  - rewrite bind_ret, bind_modify. eexists. split; [reflexivity|]. cbn. split_and!; congruence.
  - rewrite bind_bind, bind_gets, N1, Hn. cbn [Z.eqb Pos.eqb]. rewrite bind_bind, bind_gets, D1, Hd.
    rewrite bind_bind, bind_modify, bind_bind.
    assert (Hx1 : threads (s1 <| currentq := idle |>) !! idle = Some x) by (cbn; by rewrite T1).
    rewrite (bind_Done _ _ _ _ _ (deref_thread_Done _ _ _ Hx1)), bind_bind, bind_modify, bind_ret, bind_modify.
    eexists. split; [reflexivity|]. cbn. split_and!; congruence.
Qed.

(** With a single thread that is not READY (it sleeps, or it is blocked) the
    selection never ends: no number of attempts is enough, because each one
    takes the idle thread again without making it READY, and no time passes
    inside the interrupt handler. *)
Theorem single_thread_hangs fuel tmp0 s idle x :
  threads_counter s = 1 -> InitThread s = idle -> IdleThread s = idle -> idle <> NULL ->
  threads s !! idle = Some x -> valid_struct x && state_eqb (state x) READY = false ->
  ts_zero_gravity fuel tmp0 s = OutOfFuel.
Proof.
  revert s. induction fuel as [|fuel IH]; intros s Hn Hi Hd Hne Hx Hr; [done|].
  destruct (single_attempt tmp0 s idle x Hn Hi Hd Hne Hx Hr) as (s' & Hs' & H1 & H2 & H3 & H4).
  change (ts_zero_gravity (S fuel) tmp0) with (ts_pick tmp0;; ok ← ts_go_ahead tmp0;
    if (ok : bool) then mret tt else ts_zero_gravity fuel tmp0).
  rewrite <- bind_bind, (bind_Done _ _ _ _ _ Hs'). apply IH; try done. by rewrite H4.
Qed.

(** ** Locks and callbacks *)

(** A locked task switch: the tick only accounts the time of the current
    thread.  Its context is not saved, and the thread goes on, even when its
    quantum is over. *)
Theorem locked_tick fuel tmp0 s t x :
  valid_thread s (current_thread s) t x -> owner_at s (owner_pid x) -> sys_time_hz s <> 0 ->
  counts_ok s -> task_switch_status s = LOCKED ->
  exists s', __task_switch fuel tmp0 s = Done tt s' /\
    threads s' = <[t := ts_account (tick_ms (sys_time_hz s)) x]> (threads s) /\
    current_thread s' = current_thread s /\ currentq s' = currentq s /\
    cpu_context s' = cpu_context s /\ cr3 s' = cr3 s.
Proof.
  intros Hv Ho Hhz Hk Hst. pose proof Hv as ((Hr & Ht & Hn & Hx) & Hu & Hm).
  pose proof Ho as (Hpr & _). destruct (owner_lookup s _ Ho) as (p & P & Hp & Hpn & HP & HPu & HPm & HPp & _).
  unfold __task_switch. rewrite bind_gets. zguard.
  rewrite (bind_Done _ _ _ _ _ (threadList_at_Done s _ t Ht)). zguard.
  rewrite (bind_Done _ _ _ _ _ (deref_thread_Done s t x Hx)). unfold valid_struct. rewrite Hu, Hm.
  cbn [negb andb TRUE Z.eqb Pos.eqb]. zguard. rewrite (bind_Done _ _ _ _ _ Hp). zguard.
  rewrite (bind_Done _ _ _ _ _ HP), HPu, HPm, HPp, !Z.eqb_refl.
  cbn [negb orb TRUE Z.eqb Pos.eqb]. rewrite (bind_Done _ _ _ _ _ (on_ptab_set_pid _ s)).
  rewrite bind_gets. change (sys_time_hz (set_pid (owner_pid x) s)) with (sys_time_hz s). zguard.
  rewrite (bind_Done _ _ _ _ _ (update_thread_Done (set_pid (owner_pid x) s) t x _ Hx)).
  rewrite bind_gets. cbn [task_switch_status set_pid set_field set_threads set_pt]. rewrite Hst.
  cbn [LOCKED Z.eqb]. rewrite IncrementDispatcherCount_spec; [|exact Hk|done].
  eexists. split; [reflexivity|]. unfold counted. by case_match.
Qed.

(** The callback of the display server: in its own time, a registered
    callback replaces the switch.  No thread changes; the address of the handler
    is given to the assembly code with its flag; and the callback is consumed,
    so that the tick that follows switches as usual. *)
Theorem callback_replaces_switch fuel tmp0 s :
  0 <= current_pid (pt s) < PROCESS_COUNT_MAX -> 0 <= current_thread s < THREAD_COUNT_MAX ->
  zlookup (gramado_ports s) GRAMADO_PORT_WS = Some (current_pid (pt s)) ->
  cb_ready (ds_callback_info s) = TRUE -> callback_address (ds_callback_info s) <> 0 ->
  exists s', tsTaskSwitch fuel tmp0 s = Done tt s' /\
    threads s' = threads s /\ current_thread s' = current_thread s /\
    asmflagDoCallbackAfterCR3 s' = 4660 /\
    ring3_callback_address s' = callback_address (ds_callback_info s) /\
    callback_address_saved (ds_callback_info s') = callback_address_saved (ds_callback_info s) /\
    tsTaskSwitch fuel tmp0 s' = __task_switch fuel tmp0 s'.
Proof.
  intros Hp Hc Hport Hready Haddr.
  assert (Hgo : forall s1, pt s1 = pt s -> current_thread s1 = current_thread s ->
    gramado_ports s1 = gramado_ports s ->
    tsTaskSwitch fuel tmp0 s1 = (if cb_ready (ds_callback_info s1) =? TRUE
      then prepare_next_ds_callback else __task_switch fuel tmp0) s1).
  { intros s1 E1 E2 E3. unfold tsTaskSwitch.
    assert (Hg : on_ptab get_current_process s1 = Done (current_pid (pt s)) s1).
    { unfold on_ptab, get_current_process, gets. rewrite <- E1. by destruct s1. }
    rewrite (bind_Done _ _ _ _ _ Hg). zguard. rewrite bind_gets, E2. zguard.
    unfold socket_get_gramado_port, GRAMADO_PORT_WS. zguard.
    rewrite (bind_getsome _ _ _ (current_pid (pt s))) by (by rewrite E3).
    by rewrite bind_gets, Z.eqb_refl. }
  rewrite Hgo by done. rewrite Hready. cbn [TRUE Z.eqb Pos.eqb].
  unfold prepare_next_ds_callback. rewrite bind_gets, Hready. cbn [negb TRUE Z.eqb Pos.eqb].
  rewrite bind_modify. apply Z.eqb_neq in Haddr. rewrite Haddr.
  eexists. split; [reflexivity|]. do 5 (split; [reflexivity|]). by rewrite Hgo.
Qed.

(** ** Witnesses *)

Definition no_standbyb (s : kst) : bool :=
  forallb (fun t => match threads s !! t with Some x => negb (is_standby x) | None => true end)
    (threadList s).

Lemma no_standbyb_true s : no_standbyb s = true -> no_standby_thread s.
Proof.
  unfold no_standbyb. rewrite forallb_forall. intros H i t x (Hr & Ht & Hn & Hx).
  apply zlookup_elem, list_elem_of_In, H in Ht. rewrite Hx in Ht. by apply negb_true_iff.
Qed.

(** Threads 0 to 3 in a round, 0 running; the event responder is thread 3. *)
Definition turn_thread (i : Z) : thread_d :=
  (sample_thread i (if i =? 0 then RUNNING else READY))
    <| next := if i <? 3 then sample_addr (i + 1) else NULL |> <| quantum := 2 + i |>.

Definition turn_demo : kst :=
  (sample_kernel (turn_thread <$> range 0 4)) <| currentq := sample_addr 0 |>
    <| g_use_event_responder := TRUE |> <| ev_responder_thread := sample_addr 3 |>.

Lemma turn_demo_at i : 0 <= i < 4 ->
  valid_thread turn_demo i (sample_addr i) (turn_thread i) /\ tid (turn_thread i) = i.
Proof.
  intros Hi. assert (i = 0 \/ i = 1 \/ i = 2 \/ i = 3) as [->|[->|[->| ->]]] by lia;
    (split; [split; [by vm_compute|done]|done]).
Qed.

Lemma turn_demo_counts : counts_ok turn_demo.
Proof. split; [done|]. eexists. split; [vm_compute; reflexivity|done]. Qed.

Lemma turn_demo_many : many_threads turn_demo.
Proof. split; [done|]. split; [done|]. intros _. right. exists 3, (turn_thread 3). by vm_compute. Qed.

Lemma turn_demo_quiet : quiet turn_demo.
Proof.
  split; [wf_concrete|]. split; [|split; [apply turn_demo_many|split; [apply no_standbyb_true; vm_compute; reflexivity|done]]].
  split; [done|]. split; [done|]. split; [done|]. exact turn_demo_counts.
Qed.

Lemma turn_demo_owner : owner_at turn_demo 0.
Proof. split; [done|]. exists 4096. eexists. by split_and!. Qed.

Lemma turn_demo_turn :
  on_turn turn_demo (sample_addr 0) (turn_thread 0) [sample_addr 1; sample_addr 2; sample_addr 3].
Proof.
  split.
  - apply turn_demo_quiet.
  - apply (turn_demo_at 0). lia.
  - split; [done|apply turn_demo_owner].
  - done.
  - done.
  - done.
  - done.
  - do 3 (split; [eexists; split; [by vm_compute|done]|right]).
    split; [eexists; split; [by vm_compute|done]|by left].
  - apply (bool_decide_eq_true_1 (NoDup _)). by vm_compute.
  - intros u Hu. assert (exists i, (i = 1 \/ i = 2 \/ i = 3) /\ u = sample_addr i) as (i & Hi & ->).
    { rewrite !elem_of_cons in Hu. destruct Hu as [->|[->|[->|Hu]]]; [exists 1|exists 2|exists 3|]; auto.
      by apply not_elem_of_nil in Hu. }
    exists i, (turn_thread i). destruct (turn_demo_at i) as (Hv & Htid); [lia|].
    split; [split; [done|split; [by destruct Hi as [->|[->| ->]]|done]]|].
    split; [split; [done|apply turn_demo_owner]|done].
Qed.

Lemma round_robin_witness :
  exists s' y y', run_ticks 1 0 (replicate 5 blank_context) turn_demo = Done tt s' /\
    threads turn_demo !! sample_addr 2 = Some y /\ cpu_context s' = mask_context (context y) /\
    currentq s' = sample_addr 2 /\ valid_thread s' (current_thread s') (sample_addr 2) y' /\
    state y' = RUNNING /\ runningCount y' = 0 /\ quantum y' = slice y.
Proof.
  apply (round_robin 0 0 1 turn_demo (sample_addr 0) (turn_thread 0)
    [sample_addr 1; sample_addr 2; sample_addr 3]); [apply turn_demo_turn|done|by vm_compute].
Defined.

(** Thread 0 asked to sleep 30 jiffies. *)
Definition request_demo : kst :=
  (sample_kernel ((turn_thread 0) <| sleep_in_progress := TRUE |> <| desired_sleep_ms := 30 |>
    <| quantum := 6 |> :: (turn_thread <$> range 1 4))) <| currentq := sample_addr 0 |>
    <| g_use_event_responder := TRUE |> <| ev_responder_thread := sample_addr 3 |>.

Lemma request_demo_quiet : quiet request_demo.
Proof.
  split; [wf_concrete|]. split; [|split; [|split; [apply no_standbyb_true; vm_compute; reflexivity|done]]].
  - split; [done|]. split; [done|]. split; [done|]. split; [done|]. eexists.
    split; [vm_compute; reflexivity|done].
  - split; [done|]. split; [done|]. intros _. right. exists 3, (turn_thread 3). by vm_compute.
Qed.

Lemma give_up_turn_witness :
  let x := (turn_thread 0) <| sleep_in_progress := TRUE |> <| desired_sleep_ms := 30 |>
    <| quantum := 6 |> in
  exists s' x', run_ticks 1 0 [blank_context; blank_context] request_demo = Done tt s' /\
    current_thread s' = 1 /\ cpu_context s' = mask_context (context (turn_thread 1)) /\
    threads s' !! sample_addr 0 = Some x' /\ saved x' = TRUE /\
    context x' = mask_context blank_context /\
    (sleep_in_progress x = TRUE -> state x' = WAITING /\ sleep_in_progress x' = FALSE /\
       wake_jiffy x' = u64 (u64 (jiffies request_demo + 1) +
         (if desired_sleep_ms x =? 0 then 1 else desired_sleep_ms x))) /\
    (sleep_in_progress x <> TRUE -> state x' = READY /\ yield_in_progress x' = FALSE).
Proof.
  assert (Ho : owner_at request_demo 0) by (split; [done|exists 4096; eexists; by split_and!]).
  apply (give_up_turn 0 0 request_demo (sample_addr 0) _ 1 (sample_addr 1) (turn_thread 1)).
  - apply request_demo_quiet.
  - split; [by vm_compute|done].
  - split; [done|exact Ho].
  - done.
  - by right.
  - done.
  - done.
  - done.
  - done.
  - done.
  - split; [split; [by vm_compute|done]|done].
  - split; [done|exact Ho].
Defined.

(** The event responder, thread 3, has a pending event. *)
Definition event_demo : kst :=
  (sample_kernel ((turn_thread 0) <| state := READY |> :: (turn_thread <$> range 1 3) ++
     [(turn_thread 3) <| has_pending_event_ := TRUE |>]))
  <| currentq := sample_addr 0 |>
  <| g_use_event_responder := TRUE |> <| ev_responder_thread := sample_addr 3 |>.

Lemma selection_ends_witness :
  exists s' y, ts_zero_gravity 2 (sample_addr 0) event_demo = Done tt s' /\
    ready_at s' (current_thread s') (currentq s') y /\ currentq s' = sample_addr 3.
Proof.
  destruct (selection_ends 0 (sample_addr 0) event_demo ((turn_thread 0) <| state := READY |>)
    (sample_addr 0) ((turn_thread 0) <| state := READY |>)) as (s' & y & H1 & H2 & H3).
  - done.
  - done.
  - split; [|split; [reflexivity|done]].
    split; [wf_concrete|reflexivity..|split; [by vm_compute|done]].
  - done.
  - done.
  - by eexists.
  - right. exists 3, ((turn_thread 3) <| has_pending_event_ := TRUE |>).
    split; [split; [by vm_compute|done]|by left].
  - by vm_compute.
  - right. exists 1, (turn_thread 1). by vm_compute.
  - exists s', y. split; [exact H1|]. split; [exact H2|]. apply H3; [reflexivity|].
    eexists. split; [vm_compute; reflexivity|reflexivity].
Defined.

Lemma single_thread_hangs_witness :
  ts_zero_gravity 1000 0 (sample_kernel [sample_thread 0 WAITING]) = OutOfFuel.
Proof.
  apply (single_thread_hangs 1000 0 (sample_kernel [sample_thread 0 WAITING]) (sample_addr 0)
    (sample_thread 0 WAITING)); by vm_compute.
Defined.

Lemma locked_tick_witness :
  let s := turn_demo <| task_switch_status := LOCKED |> in
  exists s', __task_switch 1 0 s = Done tt s' /\
    threads s' = <[sample_addr 0 := ts_account (tick_ms (sys_time_hz s)) (turn_thread 0)]> (threads s) /\
    current_thread s' = current_thread s /\ currentq s' = currentq s /\
    cpu_context s' = cpu_context s /\ cr3 s' = cr3 s.
Proof.
  apply (locked_tick 1 0 (turn_demo <| task_switch_status := LOCKED |>) (sample_addr 0) (turn_thread 0)).
  - split; [by vm_compute|done].
  - split; [done|]. exists 4096. eexists. by split_and!.
  - done.
  - split; [done|]. eexists. split; [vm_compute; reflexivity|done].
  - done.
Defined.

Lemma callback_replaces_switch_witness :
  let s := turn_demo <| gramado_ports := replicate 32 0 |>
    <| ds_callback_info := mk_ds_callback TRUE TRUE 2097152 2097152 16 62 |> in
  exists s', tsTaskSwitch 1 0 s = Done tt s' /\
    threads s' = threads s /\ current_thread s' = current_thread s /\
    asmflagDoCallbackAfterCR3 s' = 4660 /\ ring3_callback_address s' = callback_address (ds_callback_info s) /\
    callback_address_saved (ds_callback_info s') = callback_address_saved (ds_callback_info s) /\
    tsTaskSwitch 1 0 s' = __task_switch 1 0 s'.
Proof.
  apply (callback_replaces_switch 1 0 (turn_demo <| gramado_ports := replicate 32 0 |>
    <| ds_callback_info := mk_ds_callback TRUE TRUE 2097152 2097152 16 62 |>)); by vm_compute.
Defined.







