(* ===== verification/Running.v ===== *)
(** * Running: the processor runs the current thread in its own process

    Composition of [Threads], [Sched], [Ipc], [Dispatch] and [TaskSwitch]: the
    kernel as a transition system whose steps are the timer ticks, the requests
    on threads, the messages and the scheduling system calls, and the invariant
    that only the current thread is RUNNING, that its page table is the one
    loaded in the processor and that its owner is the current process. *)
From Stdlib Require Import ZArith Lia.
From stdpp Require Import base gmap list strings.
From S2P Require Import Config Prelude Process KState Samples Threads Sched Ipc Dispatch TaskSwitch.

#[local] Open Scope Z_scope.
#[local] Open Scope gramado_scope.

(** ** Routines that give no thread the processor *)

(** The identity of a thread is kept and it does not become RUNNING. *)
Definition same_face (x x' : thread_d) : Prop :=
  tid x' = tid x /\ pml4_PA x' = pml4_PA x /\ owner_pid x' = owner_pid x /\
  (state x' = RUNNING -> state x = RUNNING).

#[export] Instance same_face_preorder : PreOrder same_face.
Proof.
  split; [done|]. intros x y z (? & ? & ? & ?) (? & ? & ? & ?). unfold same_face.
  repeat split; try congruence. auto.
Qed.

Record calm (s s' : kst) : Prop := {
  calm_list : threadList s' = threadList s;
  calm_slot : forall t, option_Forall2 same_face (threads s !! t) (threads s' !! t);
  calm_cr3 : cr3 s' = cr3 s;
  calm_pid : current_pid (pt s') = current_pid (pt s)
}.

Definition still (s s' : kst) : Prop := calm s s' /\ current_thread s' = current_thread s.

#[export] Instance calm_preorder : PreOrder calm.
Proof.
  split.
  - intros s. by split.
  - intros s1 s2 s3 [] []. split; try congruence. intros t. etransitivity; eauto.
Qed.

#[export] Instance still_preorder : PreOrder still.
Proof.
  split; [done|]. intros s1 s2 s3 [] []. split; [etransitivity; eauto|congruence].
Qed.

Lemma calm_same s s' :
  threadList s' = threadList s -> threads s' = threads s -> cr3 s' = cr3 s ->
  current_pid (pt s') = current_pid (pt s) -> calm s s'.
Proof. intros Hl Ht Hc Hp. split; try done. intros t. by rewrite Ht. Qed.

Lemma still_same s s' :
  threadList s' = threadList s -> threads s' = threads s -> cr3 s' = cr3 s ->
  current_pid (pt s') = current_pid (pt s) -> current_thread s' = current_thread s -> still s s'.
Proof. intros. split; [by apply calm_same|done]. Qed.

Lemma keeps_update_thread t f :
  (forall x, same_face x (f x)) -> keeps still (update_thread t f).
Proof.
  intros Hf s. unfold update_thread, deref_thread, getsome, mbind, M_bind.
  destruct (threads s !! t) as [x|] eqn:Hx; [|done]. split; [|done].
  split; try done. intros u. cbn. destruct (decide (t = u)) as [<-|Hn].
  - rewrite lookup_insert_eq, Hx. by constructor.
  - rewrite lookup_insert_ne by done. by destruct (threads s !! u); constructor.
Qed.

Definition same_pid (p p' : ptab) : Prop := current_pid p' = current_pid p.

#[export] Instance same_pid_preorder : PreOrder same_pid.
Proof. split; [done|]. intros ???. unfold same_pid. congruence. Qed.

Lemma keeps_on_ptab {A} (m : M ptab A) : keeps same_pid m -> keeps still (on_ptab m).
Proof. intros Hm s. specialize (Hm (pt s)). unfold on_ptab. destruct (m (pt s)); by try apply still_same. Qed.

Lemma keeps_calm {A} (m : M kst A) : keeps still m -> keeps calm m.
Proof. apply keeps_weaken. by intros s s' []. Qed.

(** One step of a proof of [keeps R m] by the structure of [m]; a named routine
    is looked up in the hints [keep]. *)
Create HintDb keep.

Ltac keep_face := intros ?; unfold same_face; repeat case_match; cbn;
  repeat split; try done; try congruence.

Ltac keep_step :=
  lazymatch goal with
  | |- keeps ?R (mbind _ _) => apply (keeps_bind R); [|intros ?]
  | |- keeps ?R (mret _) => apply (keeps_ret R)
  | |- keeps ?R (gets _) => apply (keeps_gets R)
  | |- keeps ?R (getsome _) => apply (keeps_getsome R)
  | |- keeps _ (panic _) => apply keeps_panic
  | |- keeps _ undef => apply keeps_undef
  | |- keeps _ diverge => apply keeps_diverge
  | |- keeps _ (modify _) => apply keeps_modify; intros ?
  | |- keeps still (update_thread _ _) => apply keeps_update_thread
  | |- keeps still (on_ptab _) => apply keeps_on_ptab
  | |- keeps ?R (for_each _ _) => apply (keeps_for_each R); intros ?
  | |- keeps ?R (for_return _ _) => apply (keeps_for_return R); intros ?
  | |- keeps ?R (foldr _ mret _ _) => apply (keeps_fold R); intros ??
  | |- keeps _ (if ?b then _ else _) => destruct b
  | |- keeps _ (match ?x with _ => _ end) => destruct x
  | |- keeps _ (let _ := _ in _) => cbv zeta
  | |- still _ _ => by apply still_same
  | |- calm _ _ => by apply calm_same
  | |- same_pid _ _ => reflexivity
  | |- forall x, same_face x _ => first [solve [auto with keep] | keep_face]
  | |- keeps calm _ => first [solve [auto with keep] | apply keeps_calm]
  | |- keeps _ _ => solve [auto with keep]
  end.

Ltac keep := repeat keep_step.

Lemma keep_deref t : keeps still (deref_thread t).
Proof. unfold deref_thread. keep. Qed.
Lemma keep_threadList_at i : keeps still (threadList_at i).
Proof. unfold threadList_at. keep. Qed.
Lemma keep_update_msg a f : keeps still (update_msg a f).
Proof. unfold update_msg, deref_msg. keep. Qed.
Lemma keep_processList_at p : keeps same_pid (processList_at p).
Proof. unfold processList_at. keep. Qed.
Lemma keep_deref_process p : keeps same_pid (deref_process p).
Proof. unfold deref_process. keep. Qed.
Lemma keep_update_process p f : keeps same_pid (update_process p f).
Proof. unfold update_process, deref_process. keep. Qed.
Lemma keep_get_current_process : keeps same_pid get_current_process.
Proof. unfold get_current_process. keep. Qed.
#[export] Hint Resolve keep_deref keep_threadList_at keep_update_msg keep_processList_at
  keep_deref_process keep_update_process keep_get_current_process : keep.

(** ** Threads *)

Lemma keep_with_thread i k : (forall t, keeps still (k t)) -> keeps still (with_thread i k).
Proof. intros Hk. unfold with_thread. keep. Qed.

(** A request on a thread, opened. *)
Ltac keep_request := apply keep_with_thread; intros ?; keep.

Lemma keep_ready i : keeps still (do_thread_ready i).
Proof. keep_request. Qed.
Lemma keep_waiting i ms : keeps still (do_thread_waiting i ms).
Proof. keep_request. Qed.
Lemma keep_sleep_until i ms : keeps still (sleep_until i ms).
Proof. pose proof keep_waiting. unfold sleep_until. keep. Qed.
Lemma keep_do_credits t : keeps still (do_credits t).
Proof. unfold do_credits. keep. Qed.
Lemma keep_exit_thread i : keeps still (exit_thread i).
Proof. unfold exit_thread. keep. Qed.
#[export] Hint Resolve keep_ready keep_waiting keep_sleep_until keep_do_credits keep_exit_thread : keep.

(** A request that is not [do_thread_running], which no code of the kernel calls. *)
Definition op_runs (op : thread_op) : bool := match op with OpRunning _ => true | _ => false end.

Lemma keep_run_op op : op_runs op = false -> keeps still (run_op op).
Proof.
  destruct op; intros Hop; try done; cbn [run_op];
    unfold do_thread_blocked, do_thread_zombie, do_thread_dead, do_thread_initialized,
      do_thread_standby, wakeup_thread, yield, sleep, release, do_credits_by_tid, wait_for_a_reason;
    keep; keep_request.
Qed.

Lemma keep_wakeup i : keeps still (wakeup_thread i).
Proof. by apply (keep_run_op (OpWakeup i)). Qed.
Lemma keep_credits_by_tid i : keeps still (do_credits_by_tid i).
Proof. by apply (keep_run_op (OpCredits i)). Qed.
Lemma keep_check_collector : keeps still check_for_dead_thread_collector.
Proof. unfold check_for_dead_thread_collector. keep. Qed.
#[export] Hint Resolve keep_wakeup keep_credits_by_tid keep_check_collector : keep.

(** ** The scheduler *)

Lemma keep_set_element i t : keeps still (qlist_set_element i t).
Proof. unfold qlist_set_element. keep. Qed.
Lemma keep_set_ev_responder t : keeps still (set_ev_responder t).
Proof. unfold set_ev_responder. keep. Qed.
Lemma keep_has_pending_event t : keeps still (has_pending_event t).
Proof. unfold has_pending_event. keep. Qed.
#[export] Hint Resolve keep_set_element keep_set_ev_responder keep_has_pending_event : keep.

Lemma same_face_rr_sched b fg ds dst x : same_face x (rr_sched b fg ds dst x).
Proof.
  unfold rr_sched, rr_boost, rr_role_quantum, rr_balance, same_face.
  repeat case_match; by repeat split.
Qed.

#[export] Hint Resolve same_face_rr_sched : keep.

Lemma keep_rr_waiting t : keeps still (rr_waiting t).
Proof. unfold rr_waiting. keep. Qed.
Lemma keep_rr_zombie t : keeps still (rr_zombie t).
Proof. unfold rr_zombie. keep. Qed.
Lemma keep_rr_ready idle t : keeps still (rr_ready idle t).
Proof. unfold rr_ready. keep. Qed.
#[export] Hint Resolve keep_rr_waiting keep_rr_zombie keep_rr_ready : keep.

Lemma keep_rr_body idle i : keeps still (rr_body idle i).
Proof. unfold rr_body. keep. Qed.
Lemma keep_rr_prepare tmp0 : keeps still (rr_prepare tmp0).
Proof. unfold rr_prepare, rr_heads, rr_prio. keep. Qed.
Lemma keep_rr_finish i : keeps still (rr_finish i).
Proof. unfold rr_finish. keep. Qed.
#[export] Hint Resolve keep_rr_body keep_rr_prepare keep_rr_finish : keep.

Lemma keep_scheduler tmp0 : keeps still (scheduler tmp0).
Proof. unfold scheduler, __scheduler_rr. keep. Qed.
#[export] Hint Resolve keep_scheduler : keep.

Lemma calm_psScheduler tmp0 : keeps calm (psScheduler tmp0).
Proof. unfold psScheduler. keep. Qed.
#[export] Hint Resolve calm_psScheduler : keep.

Lemma keep_broken_vessels i : keeps still (sys_broken_vessels i).
Proof. unfold sys_broken_vessels. keep. Qed.

(** ** Messages *)

Lemma keep_ipc_post src dst put : keeps still (ipc_post src dst put).
Proof. unfold ipc_post, ipc_boost, ipc_enqueue, deref_msg. keep. Qed.
#[export] Hint Resolve keep_ipc_post : keep.

Lemma keep_post2 a b c d e f g : keeps still (ipc_post_message_to_tid2 a b c d e f g).
Proof. unfold ipc_post_message_to_tid2. keep. Qed.
Lemma keep_post a b c d e : keeps still (ipc_post_message_to_tid a b c d e).
Proof. unfold ipc_post_message_to_tid. keep. Qed.
#[export] Hint Resolve keep_post2 keep_post : keep.

Lemma keep_post_ds a b c : keeps still (ipc_post_message_to_ds a b c).
Proof. unfold ipc_post_message_to_ds. keep. Qed.
#[export] Hint Resolve keep_post_ds : keep.

Lemma keep_input_event a b c : keeps still (ipc_post_input_event_to_ds a b c).
Proof. unfold ipc_post_input_event_to_ds. keep. Qed.
Lemma keep_sys_post a b c : keeps still (sys_post_message_to_tid a b c).
Proof. unfold sys_post_message_to_tid. keep. Qed.
Lemma keep_sys_broadcast a b : keeps still (sys_broadcast_system_message a b).
Proof. unfold sys_broadcast_system_message, ipc_broadcast_system_message, ipc_broadcast_body. keep. Qed.
Lemma keep_notify t n : keeps still (__sched_notify_parent t n).
Proof. unfold __sched_notify_parent. keep. Qed.
Lemma keep_get_message u : keeps still (sys_get_message u).
Proof. unfold sys_get_message, caller_thread, advance_head, deref_msg. keep. Qed.
Lemma keep_get_message2 u i r : keeps still (sys_get_message2 u i r).
Proof. unfold sys_get_message2, caller_thread, finish_get2, restart_queue, advance_head, deref_msg. keep. Qed.

(** ** The current thread alone has the processor *)

Definition no_running (s : kst) : Prop := forall i t x, thread_at s i t x -> state x <> RUNNING.

Record runs_current (s : kst) : Prop := {
  rc_wf : wf_threads s;
  rc_only : forall i t x, thread_at s i t x -> state x = RUNNING -> i = current_thread s;
  rc_space : forall t x, thread_at s (current_thread s) t x ->
    cr3 s = pml4_PA x /\ current_pid (pt s) = owner_pid x
}.

(** The identities are kept and only the thread at [t] may become RUNNING. *)
Definition kin (P : Prop) (x x' : thread_d) : Prop :=
  tid x' = tid x /\ pml4_PA x' = pml4_PA x /\ owner_pid x' = owner_pid x /\
  (state x' = RUNNING -> state x = RUNNING \/ P).

#[export] Instance kin_preorder P : PreOrder (kin P).
Proof.
  split; [intros x; unfold kin; tauto|]. intros x y z (? & ? & ? & ?) (? & ? & ? & ?). unfold kin.
  split; [congruence|]. split; [congruence|]. split; [congruence|tauto].
Qed.

Record near (t : Z) (s s' : kst) : Prop := {
  near_list : threadList s' = threadList s;
  near_slot : forall u, option_Forall2 (kin (u = t)) (threads s !! u) (threads s' !! u)
}.

#[export] Instance near_preorder t : PreOrder (near t).
Proof.
  split; [by split|]. intros s1 s2 s3 [] []. split; [congruence|]. intros u. etransitivity; eauto.
Qed.

Lemma calm_near t s s' : calm s s' -> near t s s'.
Proof.
  intros []. split; [done|]. intros u. destruct (calm_slot0 u) as [x x' (?&?&?&?)|]; constructor.
  unfold kin. tauto.
Qed.

Lemma still_near t s s' : still s s' -> near t s s'.
Proof. intros []. by apply calm_near. Qed.

Lemma near_same t s s' : threadList s' = threadList s -> threads s' = threads s -> near t s s'.
Proof. intros Hl Ht. split; [done|]. intros u. by rewrite Ht. Qed.

Lemma near_update_thread t f : (forall x, kin True x (f x)) -> keeps (near t) (update_thread t f).
Proof.
  intros Hf s. unfold update_thread, deref_thread, getsome, mbind, M_bind.
  destruct (threads s !! t) as [x|] eqn:Hx; [|done]. split; [done|]. intros u. cbn.
  destruct (decide (t = u)) as [<-|Hn]; [|by rewrite lookup_insert_ne].
  rewrite lookup_insert_eq, Hx. constructor. destruct (Hf x) as (?&?&?&?). unfold kin. tauto.
Qed.

Lemma near_thread t s s' i u x' :
  near t s s' -> thread_at s' i u x' -> exists x, thread_at s i u x /\ kin (u = t) x x'.
Proof.
  intros [Hl Hs] (Hr & Hu & Hn & Hx'). specialize (Hs u). rewrite Hx' in Hs.
  inversion Hs as [x y Hk Hx|]; subst. exists x. split; [|done]. split; [done|].
  rewrite <- Hl. by split_and!.
Qed.

Lemma near_wf t s s' : near t s s' -> wf_threads s -> wf_threads s'.
Proof.
  intros [Hl Hs] [Hlen Hnull Hslot]. split; [by rewrite Hl| |].
  - specialize (Hs NULL). rewrite Hnull in Hs. by inversion Hs.
  - intros i u. rewrite Hl. intros Hu Hn. destruct (Hslot i u Hu Hn) as (x & Hx & <-).
    specialize (Hs u). rewrite Hx in Hs. inversion Hs as [y x' (? & _)|]; subst. eauto.
Qed.

Lemma calm_no_running s s' : calm s s' -> no_running s -> no_running s'.
Proof.
  intros Hc Hno i u x' Hx'. destruct (near_thread NULL s s' i u x') as (x & Hx & _ & _ & _ & Hk);
    [by apply calm_near|done|].
  intros Hr. destruct (Hk Hr) as [Hr'|Hu]; [by apply (Hno i u x)|]. by destruct Hx as (_ & _ & ? & _).
Qed.

Lemma still_runs_current s s' : still s s' -> runs_current s -> runs_current s'.
Proof.
  intros [Hc Hcur] [Hwf Hon Hsp]. pose proof (calm_near NULL _ _ Hc) as Hnear. split.
  - by eapply near_wf.
  - intros i u x' Hx' Hr. destruct (near_thread NULL s s' i u x' Hnear Hx') as (x & Hx & _ & _ & _ & Hk).
    rewrite Hcur. destruct (Hk Hr) as [Hr'|Hu]; [by apply (Hon i u x)|].
    by destruct Hx as (_ & _ & ? & _).
  - intros u x'. rewrite Hcur. intros Hx'.
    destruct (near_thread NULL s s' _ u x' Hnear Hx') as (x & Hx & _ & Hp & Ho & _).
    rewrite (calm_cr3 _ _ Hc), (calm_pid _ _ Hc), Hp, Ho. by apply (Hsp u x).
Qed.

(** From a state where no thread runs, the thread at [t] has been given the
    processor. *)
Lemma near_runs_current i t x s s' :
  wf_threads s -> no_running s -> thread_at s i t x -> near t s s' ->
  current_thread s' = i -> cr3 s' = pml4_PA x -> current_pid (pt s') = owner_pid x ->
  runs_current s'.
Proof.
  intros Hwf Hno Hx Hnear Hcur Hcr Hpid. split.
  - by eapply near_wf.
  - intros j u y' Hy' Hr. destruct (near_thread t s s' j u y' Hnear Hy') as (y & Hy & _ & _ & _ & Hk).
    rewrite Hcur. destruct (Hk Hr) as [Hr'| ->]; [by destruct (Hno j u y)|].
    destruct Hx as (_ & Hi & Hn & _), Hy as (_ & Hj & _). by apply (wf_threads_inj s j i t).
  - intros u y'. rewrite Hcur. intros Hy'.
    destruct (near_thread t s s' i u y' Hnear Hy') as (y & Hy & _ & Hp & Ho & _).
    destruct Hx as (_ & Hi & _ & Hx), Hy as (_ & Hj & _ & Hy). assert (u = t) as -> by congruence.
    assert (y = x) as -> by congruence. by rewrite Hp, Ho.
Qed.

(** ** The dispatch *)

(** Like [near], with the current thread and process unchanged. *)
Definition stage (t : Z) (s s' : kst) : Prop :=
  near t s s' /\ current_thread s' = current_thread s /\ current_pid (pt s') = current_pid (pt s).

#[export] Instance stage_preorder t : PreOrder (stage t).
Proof.
  split; [done|]. intros s1 s2 s3 (?&?&?) (?&?&?). split; [etransitivity; eauto|split; congruence].
Qed.

Lemma still_stage t s s' : still s s' -> stage t s s'.
Proof. intros [Hc Hcur]. split; [by apply calm_near|split; [done|by apply calm_pid]]. Qed.

Lemma stage_update_thread t f : (forall x, kin True x (f x)) -> keeps (stage t) (update_thread t f).
Proof.
  intros Hf s. pose proof (near_update_thread t f Hf s) as H. revert H.
  unfold update_thread, deref_thread, getsome, mbind, M_bind.
  by destruct (threads s !! t); [intros H; split_and!|].
Qed.

Lemma stage_at t s s' i u x' :
  stage t s s' -> thread_at s' i u x' -> exists x, thread_at s i u x /\ pml4_PA x' = pml4_PA x /\
    owner_pid x' = owner_pid x.
Proof.
  intros (Hn & _) Hx'. destruct (near_thread t s s' i u x' Hn Hx') as (x & Hx & _ & Hp & Ho & _).
  by exists x.
Qed.

(** The opening of a routine on the current thread. *)
Lemma ensures_current {A} msg1 msg2 (k : Z -> thread_d -> M kst A) s Q L :
  (forall t x, thread_at s (current_thread s) t x -> ensures (k t x) s Q L) ->
  ensures (c ← gets current_thread;
    if (c <? 0) || (THREAD_COUNT_MAX <=? c) then panic msg1 else
    t ← threadList_at c;
    if t =? NULL then panic msg2 else
    x ← deref_thread t; k t x) s Q L.
Proof.
  intros H. apply ensures_bind, ensures_gets. case_match eqn:E; [apply ensures_panic|].
  apply orb_false_iff in E as [E1%Z.ltb_ge E2%Z.leb_gt].
  apply ensures_bind, ensures_getsome. intros t Ht. destruct (Z.eqb_spec t NULL); [apply ensures_panic|].
  apply ensures_bind, ensures_getsome. intros x Hx. apply H. by split_and!.
Qed.

Lemma restore_ensures s :
  ensures restore_current_context s (fun _ s' => exists t x,
    thread_at s (current_thread s) t x /\ stage t s s' /\ cr3 s' = pml4_PA x) (fun _ => False).
Proof.
  unfold restore_current_context. apply ensures_bind. unfold context_thread.
  apply ensures_current. intros t x Hx. case_match; [apply ensures_panic|]. cbn [mret M_ret ensures].
  apply ensures_bind, ensures_getsome. intros y Hy. assert (y = x) as -> by (destruct Hx as (_&_&_&?); congruence).
  apply ensures_bind, ensures_modify. case_match; [apply ensures_panic|].
  eapply (ensures_seq (stage t)); [by apply stage_update_thread; intros; unfold kin; cbn; auto|].
  intros [] s' Hs'. apply ensures_modify. exists t, x. split; [done|]. split; [|done].
  transitivity s'; [|by split; [apply near_same|]]. etransitivity; [|exact Hs']. by split; [apply near_same|].
Qed.

Lemma kin_running f : (forall x, kin True x (f x)) <-> forall x, tid (f x) = tid x /\
  pml4_PA (f x) = pml4_PA x /\ owner_pid (f x) = owner_pid x.
Proof. unfold kin. split; intros H x; destruct (H x) as (?&?&?); tauto. Qed.

Ltac keep_kin := apply kin_running; intros ?; repeat case_match; by cbn.

Lemma dispatcher_ensures type s :
  ensures (dispatcher type) s (fun _ s' => exists t x,
    thread_at s (current_thread s) t x /\ stage t s s' /\ cr3 s' = pml4_PA x) (fun _ => False).
Proof.
  unfold dispatcher. apply ensures_current. intros t x Hx.
  case_match; [apply ensures_panic|]. case_match; [apply ensures_panic|].
  apply (ensures_seq (stage t)); [apply stage_update_thread; keep_kin|intros _ s1 H1].
  apply (ensures_seq (stage t)); [apply stage_update_thread; unfold dispatch_limits; keep_kin|intros _ s2 H2].
  apply (ensures_seq (stage t)); [apply keeps_modify; intros ?; by split; [apply near_same|]|intros _ s3 H3].
  apply (ensures_seq (stage t)); [apply stage_update_thread; keep_kin|intros _ s4 H4].
  assert (Hs : stage t s s4) by (etransitivity; [etransitivity; [exact H1|exact H2]|by etransitivity]).
  clear H1 H2 H3 H4. eapply ensures_mono; [apply restore_ensures| |done].
  intros [] s' (u & y & Hy & Hs' & Hcr). destruct (proj2 Hs) as (Hcur & _). rewrite Hcur in Hy.
  destruct (stage_at _ _ _ _ _ _ Hs Hy) as (z & Hz & Hp & _).
  exists t, x. split; [done|].
  destruct Hx as (_ & Ht & _ & Hx), Hz as (_ & Hu & _ & Hz). assert (u = t) as -> by congruence.
  split; [by etransitivity|]. congruence.
Qed.

Lemma keep_IncrementDispatcherCount type : keeps still (IncrementDispatcherCount type).
Proof. unfold IncrementDispatcherCount. keep. Qed.
#[export] Hint Resolve keep_IncrementDispatcherCount : keep.

Lemma ts_dispatch_ensures s :
  wf_threads s -> no_running s -> ensures ts_dispatch s (fun _ s' => runs_current s') (fun _ => False).
Proof.
  intros Hwf Hno. unfold ts_dispatch. apply ensures_current. intros t x Hx.
  case_match; [apply ensures_panic|]. case_match; [apply ensures_panic|].
  apply (ensures_seq (stage t)); [apply stage_update_thread; unfold ts_clear; keep_kin|intros _ s1 H1].
  eapply ensures_seq; [apply keep_IncrementDispatcherCount|intros _ s2 H2].
  assert (Hs : stage t s s2) by (etransitivity; [exact H1|by apply still_stage]). clear H1 H2.
  apply ensures_bind. eapply ensures_mono; [apply dispatcher_ensures| |done].
  intros [] s3 (u & y & Hy & H3 & Hcr). destruct (proj2 Hs) as (Hcur & _). rewrite Hcur in Hy.
  destruct (stage_at _ _ _ _ _ _ Hs Hy) as (z & Hz & Hp & Ho).
  pose proof Hx as (Hr & Ht & Hn & Hxx). pose proof Hz as (_ & Hu & _ & Hzz).
  assert (u = t) as -> by congruence. assert (z = x) as -> by congruence.
  assert (Hs3 : stage t s s3) by by etransitivity.
  apply ensures_bind, ensures_getsome. intros w Hw. case_match; [apply ensures_panic|].
  eapply ensures_seq; [apply keeps_on_ptab; auto with keep|intros p s4 H4]. case_match; [apply ensures_panic|].
  eapply ensures_seq; [apply keeps_on_ptab; auto with keep|intros P s5 H5]. case_match; [apply ensures_panic|].
  destruct (Z.eqb_spec (p_pid P) (owner_pid w)) as [Hpid|]; [cbn [negb]|apply ensures_panic].
  unfold set_current_process, on_ptab at 1. apply ensures_bind. cbn [ensures modify].
  case_match; [apply ensures_panic|]. cbn [mret M_ret ensures].
  assert (H35 : still s3 s5) by by etransitivity. destruct H35 as [Hc5 Hcur5].
  assert (Hw' : owner_pid w = owner_pid x).
  { destruct Hs3 as ([_ Hsl] & _). specialize (Hsl t). rewrite Hw, Hxx in Hsl.
    by inversion Hsl as [? ? (_ & _ & Hq & _)|]. }
  eapply (near_runs_current (current_thread s) t x s); [done|done|done| | | |].
  - etransitivity; [apply Hs3|]. etransitivity; [by apply calm_near|]. by apply near_same.
  - cbn. rewrite Hcur5. apply Hs3.
  - cbn. rewrite (calm_cr3 _ _ Hc5). congruence.
  - cbn. congruence.
Qed.

(** ** The spawn *)

Lemma update_thread_ensures s t x f Q L :
  threads s !! t = Some x ->
  ensures (update_thread t f) s Q L = Q tt (s <| threads := <[t := f x]> (threads s) |>).
Proof. intros Hx. unfold ensures. by rewrite (update_thread_Done s t x). Qed.

Lemma set_current_thread_ensures s i t x Q L :
  valid_thread s i t x -> ensures (set_current_thread i) s Q L = Q tt (s <| current_thread := i |>).
Proof. intros Hv. unfold ensures. by rewrite (set_current_thread_valid s i t x). Qed.

(** From a state where no thread runs, a spawned thread has the processor. *)
Lemma spawn_release_ensures s t x :
  wf_threads s -> no_running s -> valid_thread s (tid x) t x ->
  ensures (spawn_release t x) s (fun _ _ => False) runs_current.
Proof.
  intros Hwf Hno Hv. pose proof Hv as (Hx & Hu & Hm). unfold spawn_release.
  apply ensures_bind, ensures_gets, ensures_bind, ensures_gets.
  pose proof (stage_update_thread t (spawn_clear (jiffies s) (InitThread s))) as Hst.
  apply ensures_bind. rewrite (update_thread_ensures s t x); [|by apply Hx].
  set (s1 := s <| threads := _ |>).
  assert (Hn1 : near t s s1).
  { specialize (Hst ltac:(keep_kin) s). rewrite (update_thread_Done s t x) in Hst by apply Hx. apply Hst. }
  assert (Hv1 : valid_thread s1 (tid x) t (spawn_clear (jiffies s) (InitThread s) x)).
  { destruct Hx as (Hr & Ht & Hn & Hx). split; [split; [done|]|done].
    split; [done|]. split; [done|]. apply lookup_insert_eq. }
  clearbody s1. clear Hst. unfold set_taskswitch_status, scheduler_unlock.
  apply ensures_bind, ensures_modify, ensures_bind, ensures_modify.
  case_match; [apply ensures_panic|]. case_match; [apply ensures_panic|].
  unfold set_current_process, on_ptab. apply ensures_bind. cbn [ensures modify].
  match goal with |- ensures _ ?S _ _ => set (s2 := S) end.
  assert (Hn2 : near t s s2) by (etransitivity; [exact Hn1|by apply near_same]).
  assert (Hv2 : valid_thread s2 (tid x) t (spawn_clear (jiffies s) (InitThread s) x)) by exact Hv1.
  assert (Hp2 : current_pid (pt s2) = owner_pid x) by reflexivity. clearbody s2. clear Hn1 Hv1 s1.
  apply ensures_bind. rewrite (set_current_thread_ensures s2 (tid x) t _ _ _ Hv2).
  apply ensures_bind, ensures_gets. case_match; [apply ensures_panic|].
  eapply ensures_seq; [apply keep_IncrementDispatcherCount|intros _ s3 [Hc3 Hcur3]].
  assert (Hn3 : near t s s3).
  { etransitivity; [exact Hn2|]. etransitivity; [|by apply calm_near]. by apply near_same. }
  pose proof (calm_pid _ _ Hc3) as Hp3. cbn in Hp3, Hcur3. clear Hc3 Hv2.
  apply ensures_bind, ensures_modify, ensures_bind, ensures_gets.
  case_match; [apply ensures_panic|]. case_match; [apply ensures_panic|].
  eapply (ensures_seq (fun a b => stage t a b /\ cr3 b = cr3 a)).
  { intros a. pose proof (stage_update_thread t (fun x => x <| to_user := u64 (to_user x + 1) |>)
      ltac:(keep_kin) a) as Ha. revert Ha. unfold update_thread, deref_thread, getsome, mbind, M_bind.
    by destruct (threads a !! t). }
  intros _ s4 ((Hn4 & Hcur4 & Hp4) & Hcr4). cbn in Hcur4, Hp4, Hcr4. cbn [leave ensures].
  apply (near_runs_current (tid x) t x s); [done|done|done| |congruence|congruence|congruence].
  etransitivity; [exact Hn3|]. etransitivity; [|exact Hn4]. by apply near_same.
Qed.

Lemma calm_wf s s' : calm s s' -> wf_threads s -> wf_threads s'.
Proof. intros H. by apply (near_wf NULL), calm_near. Qed.

Lemma spawn_ensures s i :
  wf_threads s -> no_running s -> ensures (psSpawnThreadByTID i) s (fun _ _ => False) runs_current.
Proof.
  intros Hwf Hno. unfold psSpawnThreadByTID. case_match; [apply ensures_panic|].
  apply ensures_bind. unfold __spawn_thread_by_tid_imp. cbv zeta.
  destruct ((i32 (Z.land i 4294967295) <? 0) || _) eqn:E; [apply ensures_panic|].
  apply orb_false_iff in E as [E1%Z.ltb_ge E2%Z.leb_gt].
  revert E1 E2. generalize (i32 (Z.land i 4294967295)). intros k E1 E2.
  apply ensures_bind, ensures_getsome. intros t Ht. destruct (Z.eqb_spec t NULL); [apply ensures_panic|].
  apply ensures_bind, ensures_getsome. intros x Hx.
  destruct (Z.eqb_spec (used x) TRUE); [|apply ensures_panic].
  destruct (Z.eqb_spec (magic x) 1234); cbn [negb orb]; [|apply ensures_panic].
  destruct (Z.eqb_spec (tid x) k) as [<-|]; cbn [negb]; [|apply ensures_panic].
  case_match; [apply ensures_panic|]. case_match; [apply ensures_panic|].
  eapply ensures_mono; [apply spawn_release_ensures; [done|done|by split_and!]|done|done].
Qed.

Lemma calm_set_current_thread i : keeps calm (set_current_thread i).
Proof. unfold set_current_thread, with_thread. keep. Qed.

(** What a routine may do between two dispatches: it returns with no thread
    RUNNING, or a new thread has the processor. *)
Definition between (A : Type) (m : M kst A) (s : kst) : Prop :=
  ensures m s (fun _ s' => wf_threads s' /\ no_running s') runs_current.

Lemma between_calm A (m : M kst A) s :
  keeps calm m -> wf_threads s -> no_running s -> between A m s.
Proof.
  intros Hm Hwf Hno. eapply ensures_keeps; [exact Hm|]. intros a s' Hs'.
  split; [by eapply calm_wf|by eapply calm_no_running].
Qed.

Lemma between_bind A B (m : M kst A) (k : A -> M kst B) s :
  between A m s -> (forall a s', wf_threads s' -> no_running s' -> between B (k a) s') ->
  between B (m ≫= k) s.
Proof.
  intros Hm Hk. apply ensures_bind. eapply ensures_mono; [exact Hm| |done].
  intros a s' [Hw Hn]. by apply Hk.
Qed.

Lemma between_standby s :
  wf_threads s -> no_running s -> between unit schedi_check_for_standby s.
Proof.
  intros Hwf Hno. unfold schedi_check_for_standby. apply between_bind.
  - apply between_calm; [keep|done|done].
  - clear s Hwf Hno. intros [i|] s Hwf Hno; [|by split]. case_match; [apply ensures_panic|].
    case_match; [apply ensures_panic|]. apply between_bind.
    + apply between_calm; [apply calm_set_current_thread|done|done].
    + clear s Hwf Hno. intros _ s Hwf Hno. apply ensures_bind.
      eapply ensures_mono; [by apply spawn_ensures|done|done].
Qed.

(** Only the current thread can be RUNNING when its quantum ends, and it becomes
    READY. *)
Lemma between_finished s t x :
  runs_current s -> thread_at s (current_thread s) t x -> between unit (__tsOnFinishedExecuting t) s.
Proof.
  intros [Hwf Hon Hsp] Hx. pose proof Hx as (Hr & Ht & Hn & Hxx). unfold __tsOnFinishedExecuting.
  case_match; [apply ensures_panic|]. apply ensures_bind, ensures_getsome. intros y Hy.
  assert (y = x) as -> by congruence. case_match; [apply ensures_panic|].
  apply (between_bind unit unit).
  - destruct (state_eqb (state x) RUNNING) eqn:Est.
    + unfold between. rewrite (update_thread_ensures s t x) by done. split.
      * by apply (wf_threads_update s t x (fun x => x <| state := READY |> <| readyCount := 0 |>)).
      * intros i u z (Hri & Hu & Hnu & Hz). cbn in Hu, Hz. destruct (decide (t = u)) as [<-|Hne].
        -- rewrite lookup_insert_eq in Hz. injection Hz as <-. done.
        -- rewrite lookup_insert_ne in Hz by done. intros Hst.
           assert (i = current_thread s) as -> by (apply (Hon i u z); [by split|done]). congruence.
    + split; [done|]. intros i u z Hz Hst.
      assert (i = current_thread s) as -> by (by apply (Hon i u z)).
      destruct Hz as (_ & Hu & _ & Hz). assert (u = t) as -> by congruence.
      assert (z = x) as -> by congruence. by rewrite Hst in Est.
  - clear s Hwf Hon Hsp Hx Hr Ht Hn Hxx Hy. intros _ s Hwf Hno.
    apply (between_bind unit unit); [by apply between_standby|].
    clear s Hwf Hno. intros _ s Hwf Hno. apply between_calm; [keep|done|done].
Qed.

(** ** The selection *)

Lemma calm_reschedule tmp0 : keeps calm (reschedule tmp0).
Proof. unfold reschedule. keep. Qed.
#[export] Hint Resolve calm_reschedule : keep.

Lemma calm_ts_pick tmp0 : keeps calm (ts_pick tmp0).
Proof. unfold ts_pick. keep. Qed.
Lemma calm_ts_go_ahead tmp0 : keeps calm (ts_go_ahead tmp0).
Proof. unfold ts_go_ahead. keep. Qed.
#[export] Hint Resolve calm_ts_pick calm_ts_go_ahead : keep.

Lemma calm_zero_gravity fuel tmp0 : keeps calm (ts_zero_gravity fuel tmp0).
Proof. induction fuel as [|fuel IH]; cbn [ts_zero_gravity]; keep. Qed.

(** ** The tick *)

Lemma keep_ts_same_again t : keeps still (ts_same_again t).
Proof. unfold ts_same_again. keep. Qed.
Lemma keep_save_current_context : keeps still save_current_context.
Proof. unfold save_current_context, context_thread. keep. Qed.
#[export] Hint Resolve keep_ts_same_again keep_save_current_context : keep.

(** The end of the quantum of the current thread. *)
Lemma ts_switch_ensures fuel tmp0 s t x :
  runs_current s -> thread_at s (current_thread s) t x ->
  ensures (__tsOnFinishedExecuting t;; ts_zero_gravity fuel tmp0;; ts_dispatch) s
    (fun _ s' => runs_current s') runs_current.
Proof.
  intros Hrun Hx. apply ensures_bind.
  eapply ensures_mono; [by eapply between_finished| |done]. intros _ s1 [Hwf Hno].
  eapply ensures_seq; [apply calm_zero_gravity|]. intros _ s2 Hs2.
  eapply ensures_mono; [apply ts_dispatch_ensures|done|done]; [by eapply calm_wf|by eapply calm_no_running].
Qed.

Lemma task_switch_ensures fuel tmp0 s :
  runs_current s -> ensures (__task_switch fuel tmp0) s (fun _ s' => runs_current s') runs_current.
Proof.
  intros Hrun. unfold __task_switch. apply ensures_current. intros t x Hx.
  case_match; [apply ensures_panic|]. cbv zeta. case_match; [apply ensures_panic|].
  eapply ensures_seq; [apply keeps_on_ptab; auto with keep|intros p s1 K1].
  case_match; [apply ensures_panic|].
  eapply ensures_seq; [apply keeps_on_ptab; auto with keep|intros P s2 K2].
  case_match; [apply ensures_panic|]. case_match; [apply ensures_panic|].
  assert (K02 : still s s2) by by etransitivity. clear K1 K2.
  pose proof (proj2 (rc_space s Hrun t x Hx)) as Hpid.
  apply ensures_bind. unfold set_current_process, on_ptab at 1. cbn [ensures modify].
  match goal with |- ensures _ ?S _ _ => assert (K03 : still s S) end.
  { etransitivity; [exact K02|]. destruct K02 as [Hc _]. apply still_same; try done. cbn.
    rewrite (calm_pid _ _ Hc). done. }
  revert K03. clear K02. match goal with |- still _ ?S -> _ => generalize S end. intros s3 K3.
  apply ensures_bind, ensures_gets. case_match; [done|].
  eapply (ensures_seq still); [apply keeps_update_thread; keep_face|intros _ s4 K4].
  assert (Ks4 : still s s4) by by etransitivity. clear K3 K4.
  apply ensures_bind, ensures_gets. case_match.
  { eapply ensures_keeps; [apply keep_IncrementDispatcherCount|]. intros _ s5 K5.
    eapply still_runs_current; [|exact Hrun]. by etransitivity. }
  case_match; [apply ensures_panic|].
  eapply ensures_seq; [apply keep_save_current_context|intros _ s5 K5].
  eapply (ensures_seq still); [apply keeps_update_thread; keep_face|intros _ s6 K6].
  assert (Ks6 : still s s6) by (etransitivity; [exact Ks4|by etransitivity]). clear Ks4 K5 K6.
  assert (Hr6 : runs_current s6) by by eapply still_runs_current.
  apply ensures_bind, ensures_getsome. intros y Hy. case_match.
  - eapply ensures_keeps; [apply keep_ts_same_again|]. intros _ s7 K7. by eapply still_runs_current.
  - apply (ts_switch_ensures fuel tmp0 s6 t y); [done|]. destruct Ks6 as [[Hl _ _ _] Hcur].
    destruct Hx as (Hr & Ht & Hn & _). rewrite Hcur. split; [done|]. by rewrite Hl.
Qed.

Lemma tsTaskSwitch_ensures fuel tmp0 s :
  runs_current s -> ensures (tsTaskSwitch fuel tmp0) s (fun _ s' => runs_current s') runs_current.
Proof.
  intros Hrun. unfold tsTaskSwitch.
  eapply ensures_seq; [apply keeps_on_ptab; auto with keep|intros pid s1 K1].
  case_match; [apply ensures_panic|]. apply ensures_bind, ensures_gets.
  case_match; [apply ensures_panic|]. eapply (ensures_seq still); [|intros ws s2 K2].
  { unfold socket_get_gramado_port. keep. }
  apply ensures_bind, ensures_gets.
  assert (Hr2 : runs_current s2) by (eapply still_runs_current; [|exact Hrun]; by etransitivity).
  case_match; [|by apply task_switch_ensures].
  eapply (ensures_keeps still); [unfold prepare_next_ds_callback; keep|].
  intros _ s3 K3. by eapply still_runs_current.
Qed.

(** ** The kernel as a transition system *)

(** What happens to the kernel: the running program changes the registers until
    the next interrupt; the timer handler switches the task; a service, a
    driver or the kernel itself makes a request. *)
Inductive event : Type :=
  | EvRun (c : x64_context_d) (cpl : Z)
  | EvTick (fuel : nat) (tmp0 : Z)
  | EvRequest (op : thread_op)
  | EvExit (i : Z)
  | EvPost (tid message_buffer : Z) (ubuf : Z -> Z)
  | EvBroadcast (message_buffer : Z) (ubuf : Z -> Z)
  | EvInput (event_id long1 long2 : Z)
  | EvNotify (t event_number : Z)
  | EvGet (ubuf : Z)
  | EvGet2 (ubuf index restart : Z)
  | EvVessels (i : Z)
  | EvCallback (r3_address ms : Z)
  | EvPort (port pid : Z).

Definition run_event (e : event) : M kst unit :=
  match e with
  | EvRun c cpl => modify (fun s => s <| jiffies := u64 (jiffies s + 1) |>
      <| cpu_context := c |> <| contextCPL := cpl |>)
  | EvTick fuel tmp0 => tsTaskSwitch fuel tmp0
  | EvRequest op => run_op op
  | EvExit i => exit_thread i
  | EvPost tid b u => sys_post_message_to_tid tid b u;; mret tt
  | EvBroadcast b u => sys_broadcast_system_message b u;; mret tt
  | EvInput e a b => ipc_post_input_event_to_ds e a b;; mret tt
  | EvNotify t n => __sched_notify_parent t n
  | EvGet u => sys_get_message u;; mret tt
  | EvGet2 u i r => sys_get_message2 u i r;; mret tt
  | EvVessels i => sys_broken_vessels i
  | EvCallback a ms => setup_callback a ms
  | EvPort port pid => socket_set_gramado_port port pid;; mret tt
  end.

(** No code of the kernel calls [do_thread_running]. *)
Definition event_ok (e : event) : Prop :=
  match e with EvRequest op => op_runs op = false | _ => True end.

Inductive kernel_step (s s' : kst) : Prop :=
  | Step_returns e : event_ok e -> run_event e s = Done tt s' -> kernel_step s s'
  | Step_leaves e : event_ok e -> run_event e s = Leave s' -> kernel_step s s'.

Lemma run_event_ensures e s :
  event_ok e -> runs_current s -> ensures (run_event e) s (fun _ s' => runs_current s') runs_current.
Proof.
  intros Hok Hrun. destruct e; cbn [run_event]; [|by apply tsTaskSwitch_ensures|..];
    (eapply (ensures_keeps still); [|intros; by eapply still_runs_current]).
  - keep.
  - by apply keep_run_op.
  - keep.
  - keep. apply keep_sys_post.
  - keep. apply keep_sys_broadcast.
  - keep. apply keep_input_event.
  - apply keep_notify.
  - keep. apply keep_get_message.
  - keep. apply keep_get_message2.
  - apply keep_broken_vessels.
  - unfold setup_callback. keep.
  - unfold socket_set_gramado_port. keep.
Qed.

Lemma kernel_step_runs_current s s' : kernel_step s s' -> runs_current s -> runs_current s'.
Proof.
  intros [e Hok He|e Hok He] Hrun; pose proof (run_event_ensures e s Hok Hrun) as H;
    unfold ensures in H; by rewrite He in H.
Qed.

(** [C1] From the first spawn on, whatever sequence of ticks, requests, messages
    and services follows, at most one thread is RUNNING, it is the current
    thread, the page table loaded in the processor is its own, and the current
    process is its owner: a thread never runs in the address space of another
    process. *)
Theorem processor_isolation s0 i s1 s :
  wf_threads s0 -> no_running s0 -> psSpawnThreadByTID i s0 = Leave s1 -> rtc kernel_step s1 s ->
  wf_threads s /\
  forall j t x, thread_at s j t x -> state x = RUNNING ->
    j = current_thread s /\ cr3 s = pml4_PA x /\ current_pid (pt s) = owner_pid x.
Proof.
  intros Hwf Hno Hsp Hsteps. pose proof (spawn_ensures s0 i Hwf Hno) as H1.
  unfold ensures in H1. rewrite Hsp in H1.
  assert (H : runs_current s).
  { clear Hsp. induction Hsteps as [|s1 s2 s3 Hstep _ IH]; [done|]. by apply IH, (kernel_step_runs_current s1). }
  split; [apply H|]. intros j t x Hx Hr.
  pose proof (rc_only s H j t x Hx Hr) as ->. split; [done|]. by apply (rc_space s H t).
Qed.

(** ** Witness: thread 2 is spawned, asks to yield, and two ticks later the
    processor has been given to another thread. *)

Definition run_demo_events : list event :=
  [EvRequest (OpYield 2); EvRun blank_context 3; EvTick 4 (sample_addr 0);
   EvRun blank_context 3; EvTick 4 (sample_addr 0)].

Definition after (m : M kst unit) (s : kst) : kst :=
  match m s with Done _ s' | Leave s' => s' | _ => s end.

Definition run_demo_0 : kst := dispatch_demo <| currentq := sample_addr 0 |>.
Definition run_demo_1 : kst := after (psSpawnThreadByTID 2) run_demo_0.
Definition run_demo : kst := fold_left (fun s e => after (run_event e) s) run_demo_events run_demo_1.

Fixpoint all_returnb (es : list event) (s : kst) : bool :=
  match es with
  | [] => true
  | e :: es' => match run_event e s with
                | Done _ s' | Leave s' => all_returnb es' s'
                | _ => false
                end
  end.

Lemma all_returnb_rtc es s :
  Forall event_ok es -> all_returnb es s = true ->
  rtc kernel_step s (fold_left (fun s e => after (run_event e) s) es s).
Proof.
  intros Hok. revert s. induction Hok as [|e es He Hok IH]; intros s H; cbn; [done|].
  cbn in H. destruct (run_event e s) as [[] s'| | |s'|] eqn:Hr; try done.
  - unfold after at 2. rewrite Hr. eapply rtc_l; [|by apply IH]. by eapply Step_returns.
  - unfold after at 2. rewrite Hr. eapply rtc_l; [|by apply IH]. by eapply Step_leaves.
Qed.

Definition no_runningb (s : kst) : bool :=
  forallb (fun t => match threads s !! t with Some x => negb (state_eqb (state x) RUNNING) | None => true end)
    (threadList s).

Lemma no_runningb_true s : no_runningb s = true -> no_running s.
Proof.
  unfold no_runningb. rewrite forallb_forall. intros H i t x (_ & Ht & _ & Hx) Hst.
  apply zlookup_elem, list_elem_of_In, H in Ht. by rewrite Hx, Hst in Ht.
Qed.

Lemma run_demo_spawned : psSpawnThreadByTID 2 run_demo_0 = Leave run_demo_1.
Proof. vm_compute. reflexivity. Qed.

Lemma run_demo_steps : rtc kernel_step run_demo_1 run_demo.
Proof.
  unfold run_demo. apply all_returnb_rtc; [|vm_compute; reflexivity].
  unfold run_demo_events. by repeat apply Forall_cons_2.
Qed.

Lemma run_demo_slot :
  0 <= 1 < THREAD_COUNT_MAX /\ zlookup (threadList run_demo) 1 = Some (sample_addr 1) /\
  sample_addr 1 <> NULL /\ state <$> threads run_demo !! sample_addr 1 = Some RUNNING.
Proof. split; [by vm_compute|]. split; [by vm_compute|]. split; [done|by vm_compute]. Qed.

Lemma processor_isolation_witness :
  exists x, threads run_demo !! sample_addr 1 = Some x /\ state x = RUNNING /\
    1 = current_thread run_demo /\ cr3 run_demo = pml4_PA x /\
    current_pid (pt run_demo) = owner_pid x.
Proof.
  assert (H1 : wf_threads run_demo_0) by wf_concrete.
  assert (H2 : no_running run_demo_0) by (apply no_runningb_true; vm_compute; reflexivity).
  pose proof (processor_isolation run_demo_0 2 run_demo_1 run_demo H1 H2 run_demo_spawned
    run_demo_steps) as [_ H].
  destruct run_demo_slot as (Hr & Ht & Hn & Hx).
  revert H Ht Hx. generalize run_demo. intros s H Ht Hx.
  destruct (threads s !! sample_addr 1) as [x|] eqn:E; [|done].
  injection Hx as Hx. exists x. split; [done|]. split; [done|]. by apply (H 1 (sample_addr 1)).
Defined.
