(* ===== verification/Sockets.v ===== *)
(** * Sockets: local connections between processes

    [res/net/socket.c] and [res/net/sockint.c]: creation of a socket with its
    file, [bind], [listen], [connect] with its queue of pending connections in
    the socket of the server, and [accept].  The socket structures live in their
    own store; a file refers to its socket and a process to its last one. *)
From Stdlib Require Import ZArith Lia.
From stdpp Require Import base gmap list strings.
From S2P Require Import Config Prelude Strings Format Process KState Samples Threads Heap Files Descriptors TaskSwitch.

#[local] Open Scope Z_scope.
#[local] Open Scope gramado_scope.

(** ** Data *)

(** struct socket_d; [objectClass] and [next], which nothing sets, are left out. *)
Record socket_d := mk_socket {
  sk_objectType : Z;
  sk_used : Z;
  sk_magic : Z;
  sk_id : Z;
  sk_family : Z;
  sk_type : Z;
  sk_protocol : Z;
  sk_pid : Z;
  sk_uid : Z;
  sk_gid : Z;
  connection_type : Z;  (** 1=LOCAL, 2=REMOTE *)
  ip_ipv4 : Z;  (** unsigned int *)
  ip_ipv6 : Z;  (** unsigned long *)
  sk_port : Z;  (** unsigned short *)
  tcp__do_res_flags : Z;
  sk_flags : Z;
  connections_count : Z;
  backlog_max : Z;
  backlog_head : Z;
  backlog_tail : Z;
  pending_connections : list Z;  (** unsigned long pending_connections[32] *)
  client_backlog_pos : Z;
  isAcceptingConnections : Z;
  sk_link : Z;  (** struct socket_d *link *)
  sk_state : Z;
  conn_copy : Z;
  clientfd_on_server : Z;
  private_file : Z;  (** file * *)
  magic_string : Z;  (** magic_string[0]; only [1] = 0 is written besides *)
  sa_family : Z;  (** addr.sa_family *)
  sa_data : list Z;  (** addr.sa_data, char[14] *)
  sin_family : Z;  (** addr_in.sin_family *)
  sin_port : Z;  (** addr_in.sin_port *)
  s_addr : Z  (** addr_in.sin_addr.s_addr *)
}.

#[export] Instance socket_d_eta : Eta socket_d := fun r =>
  mk_socket (sk_objectType r) (sk_used r) (sk_magic r) (sk_id r) (sk_family r)
    (sk_type r) (sk_protocol r) (sk_pid r) (sk_uid r) (sk_gid r)
    (connection_type r) (ip_ipv4 r) (ip_ipv6 r) (sk_port r)
    (tcp__do_res_flags r) (sk_flags r) (connections_count r)
    (backlog_max r) (backlog_head r) (backlog_tail r)
    (pending_connections r) (client_backlog_pos r)
    (isAcceptingConnections r) (sk_link r) (sk_state r) (conn_copy r)
    (clientfd_on_server r) (private_file r) (magic_string r)
    (sa_family r) (sa_data r) (sin_family r) (sin_port r) (s_addr r).
#[export] Instance set_sk_objectType : Setter sk_objectType. Proof. solve_setter. Defined.
#[export] Instance set_sk_used : Setter sk_used. Proof. solve_setter. Defined.
#[export] Instance set_sk_magic : Setter sk_magic. Proof. solve_setter. Defined.
#[export] Instance set_sk_id : Setter sk_id. Proof. solve_setter. Defined.
#[export] Instance set_sk_family : Setter sk_family. Proof. solve_setter. Defined.
#[export] Instance set_sk_type : Setter sk_type. Proof. solve_setter. Defined.
#[export] Instance set_sk_protocol : Setter sk_protocol. Proof. solve_setter. Defined.
#[export] Instance set_sk_pid : Setter sk_pid. Proof. solve_setter. Defined.
#[export] Instance set_sk_uid : Setter sk_uid. Proof. solve_setter. Defined.
#[export] Instance set_sk_gid : Setter sk_gid. Proof. solve_setter. Defined.
#[export] Instance set_connection_type : Setter connection_type. Proof. solve_setter. Defined.
#[export] Instance set_ip_ipv4 : Setter ip_ipv4. Proof. solve_setter. Defined.
#[export] Instance set_ip_ipv6 : Setter ip_ipv6. Proof. solve_setter. Defined.
#[export] Instance set_sk_port : Setter sk_port. Proof. solve_setter. Defined.
#[export] Instance set_tcp__do_res_flags : Setter tcp__do_res_flags. Proof. solve_setter. Defined.
#[export] Instance set_sk_flags : Setter sk_flags. Proof. solve_setter. Defined.
#[export] Instance set_connections_count : Setter connections_count. Proof. solve_setter. Defined.
#[export] Instance set_backlog_max : Setter backlog_max. Proof. solve_setter. Defined.
#[export] Instance set_backlog_head : Setter backlog_head. Proof. solve_setter. Defined.
#[export] Instance set_backlog_tail : Setter backlog_tail. Proof. solve_setter. Defined.
#[export] Instance set_pending_connections : Setter pending_connections. Proof. solve_setter. Defined.
#[export] Instance set_client_backlog_pos : Setter client_backlog_pos. Proof. solve_setter. Defined.
#[export] Instance set_isAcceptingConnections : Setter isAcceptingConnections. Proof. solve_setter. Defined.
#[export] Instance set_sk_link : Setter sk_link. Proof. solve_setter. Defined.
#[export] Instance set_sk_state : Setter sk_state. Proof. solve_setter. Defined.
#[export] Instance set_conn_copy : Setter conn_copy. Proof. solve_setter. Defined.
#[export] Instance set_clientfd_on_server : Setter clientfd_on_server. Proof. solve_setter. Defined.
#[export] Instance set_private_file : Setter private_file. Proof. solve_setter. Defined.
#[export] Instance set_magic_string : Setter magic_string. Proof. solve_setter. Defined.
#[export] Instance set_sa_family : Setter sa_family. Proof. solve_setter. Defined.
#[export] Instance set_sa_data : Setter sa_data. Proof. solve_setter. Defined.
#[export] Instance set_sin_family : Setter sin_family. Proof. solve_setter. Defined.
#[export] Instance set_sin_port : Setter sin_port. Proof. solve_setter. Defined.
#[export] Instance set_s_addr : Setter s_addr. Proof. solve_setter. Defined.

(** The state of the socket layer. *)
Record nsys := mk_nsys {
  nfs : fsys;  (** the files, the heap and the microkernel *)
  socks : gmap Z socket_d;  (** the socket structures, by address *)
  new_client_port : Z;  (** static unsigned short __new_client_port_number *)
  socketList : list Z  (** unsigned long socketList[SOCKET_COUNT_MAX] *)
}.

#[export] Instance nsys_eta : Eta nsys := fun r =>
  mk_nsys (nfs r) (socks r) (new_client_port r) (socketList r).
#[export] Instance set_nfs : Setter nfs. Proof. solve_setter. Defined.
#[export] Instance set_socks : Setter socks. Proof. solve_setter. Defined.
#[export] Instance set_new_client_port : Setter new_client_port. Proof. solve_setter. Defined.
#[export] Instance set_socketList : Setter socketList. Proof. solve_setter. Defined.

(** Run an operation of the files, or of the process table. *)
Definition on_fs {A} (m : M fsys A) : M nsys A := fun s =>
  match m (nfs s) with
  | Done a f => Done a (s <| nfs := f |>)
  | Panic msg => Panic msg
  | Undef => Undef
  | Leave f => Leave (s <| nfs := f |>)
  | OutOfFuel => OutOfFuel
  end.

Definition on_ps {A} (m : M ptab A) : M nsys A := on_fs (on_pt m).

(** [p->field] of a pointer to a socket structure, and its assignment. *)
Definition deref_socket (p : Z) : M nsys socket_d := getsome (fun s => socks s !! p).
Definition put_socket (p : Z) (x : socket_d) : M nsys unit :=
  modify (fun s => s <| socks := <[p := x]> (socks s) |>).
Definition set_socket (p : Z) (g : socket_d -> socket_d) : M nsys unit :=
  x ← deref_socket p; put_socket p (g x).

(** A structure that [memset] cleared. *)
Definition zero_socket : socket_d :=
  mk_socket 0 0 0 0 0 0 0 0 0 0 0 0 0 0 0 0 0 0 0 0 (replicate 32 0) 0 0 0 0 0 0 0 0 0
    (replicate 14 0) 0 0 0.
Definition zero_sync : kstdio_sync_d := mk_sync 0 0 0 0 0 0 0 0 0 0 0 0.
Definition zero_file : file_d := mk_file 0 0 0 0 0 0 0 0 0 0 0 0 0 0 0 0 0 0 0 zero_sync 0.

(** sizeof(struct socket_d) *)
Definition SOCKET_SIZE : Z := 432.

(** ** sockint.c: workers *)

Definition socket_init : M nsys Z :=
  modify (fun s => s <| socketList := replicate 32 0 |>);;
  on_fs (on_kern (modify (fun k => k <| gramado_ports := replicate 32 0 |>)));;
  mret 0.

(** What [create_socket_object] puts in a cleared structure. *)
Definition fresh_socket (pid user group : Z) : socket_d :=
  zero_socket <| sk_pid := pid |> <| sk_uid := user |> <| sk_gid := group |>
    <| backlog_max := 4 |> <| isAcceptingConnections := FALSE |> <| sk_state := SS_UNCONNECTED |>
    <| conn_copy := TRUE |> <| clientfd_on_server := -1 |> <| sk_used := TRUE |> <| sk_magic := 1234 |>.

Definition create_socket_object : M nsys Z :=
  s ← on_fs (on_heap (kmalloc SOCKET_SIZE));
  if s =? NULL then mret NULL else
  pid ← on_ps get_current_process;
  user ← gets (fun n => current_user (nfs n));
  group ← gets (fun n => current_group (nfs n));
  put_socket s (fresh_socket pid user group);;
  mret s.

Definition get_socket_from_fd (fd : Z) : M nsys Z :=
  if bad_fd fd then mret NULL else
  pid ← on_ps get_current_process;
  if (pid <? 0) || (PROCESS_COUNT_MAX <=? pid) then mret NULL else
  p ← on_ps (processList_at pid);
  if p =? NULL then mret NULL else
  f ← on_fs (object_at p fd);
  if f =? NULL then mret NULL else
  x ← on_fs (deref_file f);
  if negb (f_magic x =? 1234) then mret NULL else
  mret (f_socket x).

(** A field of a socket, through a pointer that may be bad. *)
Definition socket_field (get : socket_d -> Z) (p : Z) : M nsys Z :=
  if p =? NULL then mret 0 else
  x ← deref_socket p;
  if negb (sk_magic x =? 1234) then mret 0 else mret (get x).

Definition getSocketIPV4 : Z -> M nsys Z := socket_field ip_ipv4.
Definition getSocketIPV6 : Z -> M nsys Z := socket_field ip_ipv6.
Definition getSocketPort : Z -> M nsys Z := socket_field sk_port.

Definition update_socket (p ipv4 port : Z) : M nsys Z :=
  if p =? NULL then mret (-1) else
  set_socket p (fun x => x <| ip_ipv4 := u32 ipv4 |> <| sk_port := u16 port |>);;
  mret 0.

Definition get_socket_in_process_list (target_port : Z) : M nsys Z :=
  r ← for_return (range 0 PROCESS_COUNT_MAX) (fun i =>
    p ← on_ps (processList_at i);
    if p =? NULL then mret None else
    x ← on_ps (deref_process p);
    if negb (p_magic x =? 1234) then mret None else
    let sock := p_priv x in
    if sock =? NULL then mret None else
    y ← deref_socket sock;
    if negb (sk_magic y =? 1234) then mret None else
    if negb (sk_objectType y =? ObjectTypeSocket) then mret None else
    if sk_port y =? target_port then mret (Some sock) else mret None);
  mret (default NULL r).

(** The first free object from 3 to 30: 31 is for the client of a server. *)
Definition find_socket_slot (p : Z) : M nsys (option Z) :=
  for_return (range 3 31) (fun i =>
    v ← on_fs (object_at p i); mret (if v =? 0 then Some i else None)).

(** The file that the three families make of a cleared structure. *)
Definition socket_file (pid user group buff sock slot : Z) : file_d :=
  zero_file <| f_object := ObjectTypeSocket |> <| f_pid := pid |> <| f_uid := user |> <| f_gid := group |>
    <| sync := mk_sync (-1) (-1) ACTION_NULL TRUE TRUE FALSE TRUE TRUE TRUE TRUE FALSE TRUE |>
    <| _flags := __SWR |> <| _tmpfname := NULL |> <| _base := buff |> <| _p := buff |>
    <| _lbfsize := BUFSIZ |> <| _cnt := BUFSIZ |> <| _r := 0 |> <| _w := 0 |>
    <| socket_buffer_full := 0 |> <| f_socket := sock |> <| _file := slot |>
    <| f_used := TRUE |> <| f_magic := 1234 |>.

(** The common part of the three families, from the test of the process on. *)
Definition attach_socket (sock : Z) : M nsys Z :=
  pid ← on_ps get_current_process;
  if (pid <? 0) || (PROCESS_COUNT_MAX <=? pid) then mret (-1) else
  Process ← on_ps (processList_at pid);
  if Process =? NULL then mret (-1) else
  x ← on_ps (deref_process Process);
  if negb (p_used x =? TRUE) || negb (p_magic x =? 1234) then mret (-1) else
  slot ← find_socket_slot Process;
  match slot with
  | None => mret (-1)
  | Some slot =>
      buff ← on_fs (on_heap (kmalloc BUFSIZ));
      if buff =? NULL then mret (-1) else
      f ← on_fs (on_heap (kmalloc FILE_SIZE));
      if f =? NULL then mret (-1) else
      user ← gets (fun n => current_user (nfs n));
      group ← gets (fun n => current_group (nfs n));
      on_fs (put_file f (socket_file pid user group buff sock slot));;
      set_socket sock (fun y => y <| private_file := f |>);;
      on_ps (update_process Process (fun x => x <| p_priv := sock |>));;
      on_fs (set_object Process slot f);;
      mret slot
  end.

(** The tests of the parameters of a family and its address. *)
Definition socket_of_family (expected : Z) (address : socket_d -> socket_d) (sock family : Z) : M nsys Z :=
  if sock =? NULL then mret (-1) else
  x ← deref_socket sock;
  if negb (sk_magic x =? 1234) then mret (-1) else
  if negb (family =? expected) then mret (-1) else
  put_socket sock (address x);;
  attach_socket sock.

(** The address ["xx"] of a local socket. *)
Definition xx_address (family : Z) (x : socket_d) : socket_d :=
  x <| sa_family := family |> <| sa_data := zinsert (zinsert (sa_data x) 0 120) 1 120 |>.

Definition socket_gramado (sock family type protocol : Z) : M nsys Z :=
  socket_of_family AF_GRAMADO (xx_address family) sock family.

Definition socket_unix (sock family type protocol : Z) : M nsys Z :=
  socket_of_family AF_UNIX (xx_address family) sock family.

(** 127.0.0.1, port 11369 *)
Definition socket_inet (sock family type protocol : Z) : M nsys Z :=
  socket_of_family AF_INET (fun x => x <| sin_family := AF_INET |> <| s_addr := 2130706433 |>
    <| sin_port := 11369 |>) sock family.

(** ** socket.c: creation *)

Definition sys_socket (family type protocol : Z) : M nsys Z :=
  on_fs credit_current;;
  if family <? 0 then mret (- EINVAL) else
  if negb (type =? SOCK_STREAM) && negb (type =? SOCK_DGRAM) && negb (type =? SOCK_RAW)
  then mret (- EINVAL) else
  if protocol <? 0 then mret (- EINVAL) else
  if negb (protocol =? 0) then panic "sys_socket: protocol not supported yet" else
  pid ← on_ps get_current_process;
  if (pid <? 0) || (PROCESS_COUNT_MAX <=? pid) then panic "sys_socket: current_process fail" else
  p ← on_ps (processList_at pid);
  if p =? NULL then panic "sys_socket: p" else
  x ← on_ps (deref_process p);
  if negb (p_magic x =? 1234) then panic "sys_socket: p validation" else
  sock ← create_socket_object;
  if sock =? NULL then mret (-1) else
  user ← gets (fun n => current_user (nfs n));
  group ← gets (fun n => current_group (nfs n));
  set_socket sock (fun y => y <| sk_family := family |> <| sk_type := type |> <| sk_protocol := protocol |>
    <| ip_ipv6 := 0 |> <| ip_ipv4 := 0 |> <| sk_port := 0 |>
    <| sk_pid := pid |> <| sk_uid := user |> <| sk_gid := group |>);;
  on_ps (update_process p (fun x => x <| p_priv := sock |>));;
  if family =? AF_GRAMADO then
    set_socket sock (fun y => y <| connection_type := 1 |>);;
    socket_gramado sock AF_GRAMADO type protocol
  else if family =? AF_UNIX then
    set_socket sock (fun y => y <| connection_type := 1 |>);;
    socket_unix sock AF_UNIX type protocol
  else if family =? AF_INET then
    set_socket sock (fun y => y <| connection_type := 0 |>);;
    if negb (type =? SOCK_RAW) then panic "sys_socket: Only SOCK_RAW in AF_INET for now" else
    socket_inet sock AF_INET type protocol
  else mret (-1).

(** Two sockets of the current process, their descriptors stored at [usockvec]. *)
Definition sock_socketpair (family type protocol usockvec : Z) : M nsys Z :=
  fd1 ← sys_socket family type protocol;
  sock1 ← get_socket_from_fd fd1;
  if sock1 =? NULL then mret (-1) else
  fd2 ← sys_socket family type protocol;
  sock2 ← get_socket_from_fd fd2;
  if sock2 =? NULL then mret (-1) else
  on_fs (modify (set_ram (poke32 usockvec fd1)));;
  on_fs (modify (set_ram (poke32 (usockvec + 4) fd2)));;
  mret 0.

Definition socket_dialog (number arg2 arg3 arg4 : Z) : M nsys Z :=
  if (number <? 7000) || (8000 <=? number) then mret 0 else
  if number =? 7000 then
    fd ← sys_socket (i32 arg2) (i32 arg3) (i32 arg4); mret (u64 fd)
  else mret 0.

(** ** socket.c: addresses in the memory of the caller *)

Definition peek16 (m : memory) (a : Z) : Z := m a + 256 * m (a + 1).

(** struct sockaddr: [sa_family] at 0, [sa_data] at 2; struct sockaddr_in:
    [sin_family] at 1, [sin_port] at 2, [sin_addr] at 4. *)
Definition addr_family (m : memory) (addr : Z) : Z := peek16 m addr.
Definition addr_data (m : memory) (addr i : Z) : Z := m (addr + 2 + i).

(** The file of a descriptor of a process, as the calls on sockets look it up. *)
Definition is_socket (f : Z) : M fsys bool :=
  if f =? NULL then mret false else
  x ← deref_file f;
  if negb (f_magic x =? 1234) then mret false else mret (f_object x =? ObjectTypeSocket).

Definition sys_bind (sockfd addr addrlen : Z) : M nsys Z :=
  on_fs credit_current;;
  if bad_fd sockfd then mret (- EBADF) else
  if addr =? NULL then mret (-1) else
  if addr <? CONTROLTHREAD_BASE then panic "sys_bind: addr is not ring3" else
  if addrlen =? 0 then mret (- EINVAL) else
  pid ← on_ps get_current_process;
  if (pid <? 0) || (PROCESS_COUNT_MAX <=? pid) then mret (-1) else
  p ← on_ps (processList_at pid);
  if p =? NULL then mret (-1) else
  x ← on_ps (deref_process p);
  if negb (p_magic x =? 1234) then mret (-1) else
  f ← on_fs (object_at p sockfd);
  if f =? NULL then mret (-1) else
  y ← on_fs (deref_file f);
  if negb (f_magic y =? 1234) then mret (-1) else
  ok ← on_fs (is_socket f);
  if negb ok then mret (- ENOTSOCK) else
  let s := f_socket y in
  if s =? NULL then mret (-1) else
  z ← deref_socket s;
  if sa_family z =? AF_GRAMADO then
    m ← gets (fun n => ram (nfs n));
    put_socket s (z <| sa_data := addr_data m addr <$> range 0 14 |>);;
    mret 0
  else mret (-1).

Definition sys_listen (sockfd backlog : Z) : M nsys Z :=
  on_fs credit_current;;
  if bad_fd sockfd then mret (- EBADF) else
  let Backlog := if backlog <=? 0 then 1 else if 32 <=? backlog then 31 else backlog in
  pid ← on_ps get_current_process;
  if (pid <? 0) || (PROCESS_COUNT_MAX <=? pid) then mret (-1) else
  p ← on_ps (processList_at pid);
  if p =? NULL then mret (-1) else
  f ← on_fs (object_at p sockfd);
  if f =? NULL then mret (-1) else
  ok ← on_fs (is_socket f);
  if negb ok then mret (- ENOTSOCK) else
  y ← on_fs (deref_file f);
  let s := f_socket y in
  if s =? NULL then mret (-1) else
  x ← on_ps (deref_process p);
  if negb (f_socket y =? p_priv x) then panic "sys_listen: [TEST] f->socket != p->priv" else
  set_socket s (fun z => z <| backlog_max := Backlog |> <| isAcceptingConnections := TRUE |>);;
  mret 0.

(** The state 216 is none of the defined ones. *)
Definition sys_socket_shutdown (socket how : Z) : M nsys Z :=
  if bad_fd socket then mret (- EBADF) else
  pid ← on_ps get_current_process;
  if (pid <? 0) || (PROCESS_COUNT_MAX <=? pid) then mret (-1) else
  p ← on_ps (processList_at pid);
  if p =? NULL then mret (-1) else
  f ← on_fs (object_at p socket);
  if f =? NULL then mret (-1) else
  ok ← on_fs (is_socket f);
  if negb ok then mret (- ENOTSOCK) else
  y ← on_fs (deref_file f);
  let s := f_socket y in
  if s =? NULL then mret (-1) else
  set_socket s (fun z => z <| sk_state := 216 |>);;
  mret 0.

(** The size that is answered is 0. *)
Definition sys_getsockname (sockfd addr addrlen : Z) : M nsys Z :=
  if bad_fd sockfd then mret (-1) else
  if addr =? NULL then mret (-1) else
  if addrlen =? NULL then mret (- EINVAL) else
  pid ← on_ps get_current_process;
  p ← on_ps (processList_at pid);
  if p =? NULL then mret (-1) else
  f ← on_fs (object_at p sockfd);
  if f =? NULL then mret (-1) else
  x ← on_ps (deref_process p);
  let s := p_priv x in
  if s =? NULL then mret (-1) else
  z ← deref_socket s;
  if sa_family z =? AF_GRAMADO then
    on_fs (modify (set_ram (poke32 addrlen 0)));;
    on_fs (modify (set_ram (put (addr + 2) (sa_data z))));;
    mret 0
  else mret (-1).

Definition sys_sendto (sockfd ubuf len flags dest_addr addrlen : Z) : M nsys Z := mret (- ENOSYS).
Definition sys_sendmsg (sockfd msg flags : Z) : M nsys Z := mret (- ENOSYS).

(** ** socket.c: connections *)

(** The client [client_socket] enters the queue of [server_socket]: the next
    place after the tail, whatever it holds. *)
Definition enqueue_client (server_socket client_socket : Z) : M nsys unit :=
  set_socket server_socket (fun z =>
    z <| backlog_tail := let t := i32 (backlog_tail z + 1) in if backlog_max z <=? t then 0 else t |>);;
  z ← deref_socket server_socket;
  let BacklogTail := backlog_tail z in
  if negb ((0 <=? BacklogTail) && (BacklogTail <? 32)) then undef else
  set_socket server_socket (fun z => z <|
    pending_connections := zinsert (pending_connections z) BacklogTail client_socket |>);;
  set_socket client_socket (fun z => z <| client_backlog_pos := BacklogTail |>).

(** The part that [__connect_local] and [__connect_inet] share, once they know
    the process of the server. *)
Definition connect_to (sockfd target_pid : Z) : M nsys Z :=
  current ← on_ps get_current_process;
  if (current <? 0) || (PROCESS_COUNT_MAX <=? current) then mret (-1) else
  cProcess ← on_ps (processList_at current);
  if cProcess =? NULL then mret (-1) else
  f ← on_fs (object_at cProcess sockfd);
  if f =? NULL then mret (-1) else
  ok ← on_fs (is_socket f);
  if negb ok then mret (- ENOTSOCK) else
  x ← on_fs (deref_file f);
  if negb (can_connect (sync x) =? TRUE) then mret (-1) else
  let client_socket := f_socket x in
  if client_socket =? NULL then mret (-1) else
  c ← deref_socket client_socket;
  if negb (sk_state c =? SS_UNCONNECTED) then mret (-1) else
  modify (fun s => s <| new_client_port := u16 (new_client_port s + 1) |>);;
  port ← gets new_client_port;
  put_socket client_socket (c <| sk_port := port |>);;
  if (target_pid <? 0) || (PROCESS_COUNT_MAX <=? target_pid) then mret (-1) else
  sProcess ← on_ps (processList_at target_pid);
  if sProcess =? NULL then mret (-1) else
  slot ← find_socket_slot sProcess;
  match slot with
  | None => panic "connect: [FIXME] We need a slot in the server"
  | Some slot =>
      y ← on_ps (deref_process sProcess);
      let server_socket := p_priv y in
      if server_socket =? NULL then mret (-1) else
      set_socket server_socket (fun z => z <| clientfd_on_server := slot |>);;
      set_socket client_socket (fun z => z <| clientfd_on_server := slot |>);;
      on_fs (set_object sProcess 31 f);;
      set_socket client_socket (fun z => z <| sk_link := server_socket |>);;
      set_socket server_socket (fun z => z <| sk_link := client_socket |>);;
      set_socket client_socket (fun z => z <| sk_state := SS_CONNECTING |>);;
      set_socket server_socket (fun z => z <| sk_state := SS_CONNECTING |>);;
      set_socket client_socket (fun z => z <| magic_string := 67 |>);;
      enqueue_client server_socket client_socket;;
      mret 0
  end.

Definition gramado_port (port : Z) : M nsys Z := on_fs (on_kern (socket_get_gramado_port port)).

(** The process that the name of two letters of a server designates. *)
Definition target_of_name (a b : Z) : M nsys Z :=
  if (a =? 100) && (b =? 115) then gramado_port GRAMADO_PORT_WS else
  if (a =? 110) && (b =? 115) then gramado_port GRAMADO_PORT_NS else
  if (a =? 102) && (b =? 115) then gramado_port GRAMADO_PORT_FS else mret (-1).

Definition __connect_local (sockfd addr addrlen : Z) : M nsys Z :=
  on_fs credit_current;;
  if bad_fd sockfd then mret (- EINVAL) else
  if addr =? NULL then mret (- EINVAL) else
  m ← gets (fun n => ram (nfs n));
  if negb (addr_family m addr =? AF_GRAMADO) then mret (-1) else
  target_pid ← target_of_name (addr_data m addr 0) (addr_data m addr 1);
  if (target_pid <? 0) || (PROCESS_COUNT_MAX <=? target_pid) then mret (-1) else
  connect_to sockfd target_pid.

(** 127.0.0.1 as the bytes of [sin_addr], the low byte first. *)
Definition is_localhost (m : memory) (addr : Z) : bool :=
  (m (addr + 7) =? 127) && (m (addr + 6) =? 0) && (m (addr + 5) =? 0) && (m (addr + 4) =? 1).

Definition __connect_inet (sockfd addr addrlen : Z) : M nsys Z :=
  on_fs credit_current;;
  if bad_fd sockfd then mret (- EINVAL) else
  if addr =? NULL then mret (- EINVAL) else
  m ← gets (fun n => ram (nfs n));
  if (addr_family m addr =? AF_UNIX) || (addr_family m addr =? AF_GRAMADO) then mret (-1) else
  if negb (m (addr + 1) =? AF_INET) then mret (-1) else
  let port := peek16 m (addr + 2) in
  if (port =? 21) || (port =? 23) || (port =? 67) || (port =? 80) || (port =? 443) then mret (-1) else
  target ← (if port =? PORTS_WS then t ← gramado_port GRAMADO_PORT_WS; mret (Some t)
            else if port =? PORTS_NS then t ← gramado_port GRAMADO_PORT_NS; mret (Some t)
            else mret None);
  match target with
  | None => mret (-1)
  | Some target_pid =>
      if negb (is_localhost m addr) then mret (-1) else connect_to sockfd target_pid
  end.

Definition sys_connect (sockfd addr addrlen : Z) : M nsys Z :=
  if bad_fd sockfd then mret (- EBADF) else
  if addr =? NULL then mret (- EINVAL) else
  if addr <? CONTROLTHREAD_BASE then panic "sys_connect: addr is not ring3" else
  if addrlen =? 0 then mret (- EINVAL) else
  m ← gets (fun n => ram (nfs n));
  let family := addr_family m addr in
  if (family =? AF_UNIX) || (family =? AF_GRAMADO) then __connect_local sockfd addr addrlen
  else __connect_inet sockfd addr addrlen.

(** The next pending connection: the head advances by one, and the first socket
    at or after it is taken; the places after the last one are not searched, and
    [while (i <= max)] looks at one place too many.  NULL: there is none. *)
Definition next_pending (sSocket : Z) : M nsys Z :=
  set_socket sSocket (fun z => z <| backlog_head :=
    let h := i32 (backlog_head z + 1) in if backlog_max z <=? h then 0 else h |>);;
  z ← deref_socket sSocket;
  let i := backlog_head z in
  if (i <? 0) || (backlog_max z <=? i) then panic "sys_accept: Backlog limits" else
  r ← for_return (range i (backlog_max z + 1)) (fun i =>
    c ← getsome (fun _ => zlookup (pending_connections z) i);
    mret (if c =? NULL then None else Some c));
  mret (default NULL r).

(** The connection of a server with the next client of its queue. *)
Definition accept_pending (sProcess sSocket : Z) : M nsys Z :=
  set_socket sSocket (fun z => z <| sk_state := SS_CONNECTED |>);;
  cSocket ← next_pending sSocket;
  if cSocket =? NULL then
    set_socket sSocket (fun z => z <| sk_state := SS_CONNECTING |>);; mret (-1) else
  c ← deref_socket cSocket;
  if negb (sk_used c =? TRUE) || negb (sk_magic c =? 1234) then
    set_socket sSocket (fun z => z <| sk_state := SS_CONNECTING |>);; mret (-1) else
  put_socket cSocket (c <| sk_state := SS_CONNECTED |>);;
  let cFile := private_file c in
  on_fs (set_object sProcess 31 cFile);;
  on_fs (update_file cFile (fun y => y <| _file := 31 |>));;
  mret 31.

Definition sys_accept (sockfd addr addrlen : Z) : M nsys Z :=
  on_fs credit_current;;
  if bad_fd sockfd then mret (- EBADF) else
  if addr =? NULL then mret (- EINVAL) else
  if addr <? CONTROLTHREAD_BASE then panic "sys_accept: addr is not ring3" else
  if addrlen =? NULL then mret (- EINVAL) else
  pid ← on_ps get_current_process;
  if (pid <? 0) || (PROCESS_COUNT_MAX <=? pid) then mret (-1) else
  sProcess ← on_ps (processList_at pid);
  if sProcess =? NULL then mret (-1) else
  x ← on_ps (deref_process sProcess);
  if negb (p_used x =? TRUE) || negb (p_magic x =? 1234) then mret (-1) else
  sFile ← on_fs (object_at sProcess sockfd);
  if sFile =? NULL then mret (-1) else
  y ← on_fs (deref_file sFile);
  if negb (f_used y =? TRUE) || negb (f_magic y =? 1234) then mret (-1) else
  ok ← on_fs (is_socket sFile);
  if negb ok then mret (- ENOTSOCK) else
  if negb (can_accept (sync y) =? TRUE) then mret (-1) else
  let sSocket := f_socket y in
  if sSocket =? NULL then mret (-1) else
  z ← deref_socket sSocket;
  if negb (sk_used z =? TRUE) || negb (sk_magic z =? 1234) then mret (-1) else
  if (sk_state z =? SS_CONNECTING) || (sk_state z =? SS_CONNECTED)
  then accept_pending sProcess sSocket else mret (-1).

(** ** sockint.c: input, output and control *)

Definition socket_read (fd buf count : Z) : M nsys Z :=
  if fd <? 0 then mret (- EINVAL) else on_fs (__read_imp fd buf count).

(** The console device is a parameter, as it is of [__write_imp]. *)
Definition socket_write (console_output : Z -> Z -> M fsys Z) (fd buf count : Z) : M nsys Z :=
  if fd <? 0 then mret (- EINVAL) else on_fs (__write_imp console_output fd buf count).

Definition socket_ioctl (fd request arg : Z) : M nsys Z :=
  if bad_fd fd then mret (- EBADF) else
  pid ← on_ps get_current_process;
  p ← on_ps (processList_at pid);
  if p =? NULL then mret (-1) else
  f ← on_fs (object_at p fd);
  if f =? NULL then mret (-1) else
  x ← on_fs (deref_file f);
  if negb (f_used x =? TRUE) || negb (f_magic x =? 1234) then panic "socket_ioctl: validation" else
  if request =? 4000 then
    on_fs (put_file f (x <| sync := (sync x) <| sender_pid := i32 arg |> |>));; mret 0
  else if request =? 4001 then mret (sender_pid (sync x))
  else if request =? 4002 then mret (can_read (sync x))
  else if request =? 4003 then mret (can_write (sync x))
  else if request =? 4004 then mret (can_execute (sync x))
  else mret (- EINVAL).

(** ** Lemmas on the socket layer *)

Lemma on_fs_run {A} (m : M fsys A) s a f : m (nfs s) = Done a f -> on_fs m s = Done a (s <| nfs := f |>).
Proof. intros E. unfold on_fs. by rewrite E. Qed.

Lemma on_fs_Done {A} (m : M fsys A) s a : m (nfs s) = Done a (nfs s) -> on_fs m s = Done a s.
Proof. intros E. rewrite (on_fs_run _ _ _ _ E). by destruct s. Qed.

Lemma on_ps_gets {A} (g : ptab -> A) s : on_ps (gets g) s = Done (g (pt (kern (nfs s)))) s.
Proof. apply on_fs_Done, on_pt_gets. Qed.

Lemma on_ps_getsome {A} (g : ptab -> option A) s a :
  g (pt (kern (nfs s))) = Some a -> on_ps (getsome g) s = Done a s.
Proof. intros E. by apply on_fs_Done, on_pt_getsome. Qed.

Lemma on_fs_deref s f x : files (nfs s) !! f = Some x -> on_fs (deref_file f) s = Done x s.
Proof. intros E. by apply on_fs_Done, deref_file_Done. Qed.

Lemma on_fs_object s p x i v :
  procs (pt (kern (nfs s))) !! p = Some x -> zlookup (p_Objects x) i = Some v ->
  on_fs (object_at p i) s = Done v s.
Proof. intros Hx Hv. by apply on_fs_Done, (object_at_spec _ _ x). Qed.

Lemma is_socket_done s f x :
  files (nfs s) !! f = Some x -> f <> NULL -> f_magic x = 1234 -> f_object x = ObjectTypeSocket ->
  on_fs (is_socket f) s = Done true s.
Proof.
  intros Hf Hn Hm Ho. apply on_fs_Done. unfold is_socket, NULL in *. zguard.
  by rewrite (bind_Done _ _ _ _ _ (deref_file_Done _ _ _ Hf)), Hm, Ho.
Qed.

Lemma deref_socket_done s p x : socks s !! p = Some x -> deref_socket p s = Done x s.
Proof. intros E. unfold deref_socket, getsome. by rewrite E. Qed.

(** The size of the queue that [sys_listen] sets. *)
Definition backlog_of (backlog : Z) : Z :=
  if backlog <=? 0 then 1 else if 32 <=? backlog then 31 else backlog.

Lemma backlog_of_range b : 1 <= backlog_of b <= 31.
Proof. unfold backlog_of. repeat ztest; lia. Qed.

(** ** The invariant of the sockets *)

(** A socket structure between two calls.  Its type is never set. *)
Record wf_sock (x : socket_d) : Prop := {
  wo_type : sk_objectType x = 0;
  wo_used : sk_used x = TRUE;
  wo_magic : sk_magic x = 1234;
  wo_max : 1 <= backlog_max x <= 31;
  wo_head : 0 <= backlog_head x < 32;
  wo_tail : 0 <= backlog_tail x < 32;
  wo_pending : length (pending_connections x) = 32%nat;
  wo_data : length (sa_data x) = 14%nat;
  wo_port : in_u16 (sk_port x);
  wo_state : sk_state x ∈ [SS_UNCONNECTED; SS_CONNECTING; SS_CONNECTED; 216]
}.

Definition sockets_ok (s : nsys) : Prop := map_Forall (fun _ => wf_sock) (socks s) /\ in_u16 (new_client_port s).

(** What processes ask of the socket layer. *)
Inductive socket_call :=
  | CallSwitch (pid : Z)
  | CallSocket (family type protocol : Z)
  | CallPair (family type protocol usockvec : Z)
  | CallBind (fd addr len : Z)
  | CallListen (fd backlog : Z)
  | CallConnect (fd addr len : Z)
  | CallAccept (fd addr len : Z)
  | CallShutdown (fd how : Z)
  | CallName (fd addr len : Z)
  | CallUpdate (fd ipv4 port : Z)
  | CallIoctl (fd request arg : Z).

Definition run_socket_call (c : socket_call) : M nsys unit :=
  match c with
  | CallSwitch pid => on_ps (set_current_process pid)
  | CallSocket f t p => sys_socket f t p;; mret tt
  | CallPair f t p v => sock_socketpair f t p v;; mret tt
  | CallBind fd a n => sys_bind fd a n;; mret tt
  | CallListen fd n => sys_listen fd n;; mret tt
  | CallConnect fd a n => sys_connect fd a n;; mret tt
  | CallAccept fd a n => sys_accept fd a n;; mret tt
  | CallShutdown fd h => sys_socket_shutdown fd h;; mret tt
  | CallName fd a n => sys_getsockname fd a n;; mret tt
  | CallUpdate fd ip port => p ← get_socket_from_fd fd; update_socket p ip port;; mret tt
  | CallIoctl fd r a => socket_ioctl fd r a;; mret tt
  end.

Fixpoint run_socket_calls (cs : list socket_call) : M nsys unit :=
  match cs with [] => mret tt | c :: cs => run_socket_call c;; run_socket_calls cs end.

(** A computation that keeps the invariant, however it ends. *)
Definition sound {A} (m : M nsys A) : Prop :=
  forall s, sockets_ok s -> ensures m s (fun _ => sockets_ok) sockets_ok.

Lemma sound_ret {A} (a : A) : sound (mret a).
Proof. by intros s Hs. Qed.
Lemma sound_panic {A} msg : sound (panic msg : M nsys A).
Proof. by intros s Hs. Qed.
Lemma sound_undef {A} : sound (undef : M nsys A).
Proof. by intros s Hs. Qed.
Lemma sound_gets {A} (g : nsys -> A) : sound (gets g).
Proof. by intros s Hs. Qed.
Lemma sound_getsome {A} (g : nsys -> option A) : sound (getsome g).
Proof. intros s Hs. by apply ensures_getsome. Qed.

Lemma sound_fs {A} (m : M fsys A) : sound (on_fs m).
Proof. intros s Hs. unfold ensures, on_fs. by destruct (m (nfs s)). Qed.

Lemma sound_bind {A B} (m : M nsys A) (k : A -> M nsys B) : sound m -> (forall a, sound (k a)) -> sound (m ≫= k).
Proof.
  intros Hm Hk s Hs. apply ensures_bind. eapply ensures_mono; [by apply Hm| |done].
  intros a s' Hs'. by apply Hk.
Qed.

Lemma sound_deref {B} p (k : socket_d -> M nsys B) :
  (forall x, wf_sock x -> sound (k x)) -> sound (deref_socket p ≫= k).
Proof.
  intros Hk s Hs. apply ensures_bind, ensures_getsome. intros x Hx. apply Hk; [|done].
  by apply (proj1 Hs p).
Qed.

Lemma sound_put p x : wf_sock x -> sound (put_socket p x).
Proof. intros Hx s [Hs Hp]. apply ensures_modify. split; [|done]. by apply map_Forall_insert_2. Qed.

Lemma sound_set p g : (forall x, wf_sock x -> wf_sock (g x)) -> sound (set_socket p g).
Proof. intros Hg. apply sound_deref. intros x Hx. by apply sound_put, Hg. Qed.

Lemma sound_port : sound (modify (fun s => s <| new_client_port := u16 (new_client_port s + 1) |>)).
Proof. intros s [Hs Hp]. apply ensures_modify. split; [done|]. apply u16_in. Qed.

Lemma sound_read_port {B} (k : Z -> M nsys B) :
  (forall v, in_u16 v -> sound (k v)) -> sound (gets new_client_port ≫= k).
Proof. intros Hk s Hs. apply ensures_bind, ensures_gets. apply Hk; [|done]. by destruct Hs. Qed.

Lemma sound_for_return {A R} (l : list A) (body : A -> M nsys (option R)) :
  (forall x, sound (body x)) -> sound (for_return l body).
Proof.
  intros Hb. induction l as [|x l IH]; cbn [for_return]; [apply sound_ret|].
  apply sound_bind; [apply Hb|]. intros [r|]; [apply sound_ret|apply IH].
Qed.

Create HintDb sound.
#[export] Hint Resolve sound_ret sound_panic sound_undef sound_gets sound_getsome sound_fs sound_port : sound.
#[export] Hint Extern 1 (sound (on_ps _)) => apply sound_fs : sound.

(** An update of the fields of a well-formed socket. *)
Ltac wf_set :=
  repeat match goal with H : wf_sock _ |- _ => destruct H end;
  split; cbn -[zinsert range]; rewrite ?length_zinsert; try assumption; try done;
  try apply u16_in; try solve [repeat constructor]; try lia.

(** Follow the branches of a call. *)
Ltac sounds :=
  repeat first
    [ progress cbv zeta
    | progress auto with sound
    | apply sound_deref; intros ? ?
    | apply sound_read_port; intros ? ?
    | apply sound_put; wf_set
    | apply sound_set; intros ? ?; wf_set
    | apply sound_for_return; intros ?
    | apply sound_bind; [|intros ?]
    | match goal with |- sound (if ?c then _ else _) => destruct c eqn:? end
    | match goal with |- sound (match ?c with _ => _ end) => destruct c eqn:? end ].

Lemma sound_create : sound create_socket_object.
Proof. unfold create_socket_object. sounds. Qed.

Lemma sound_attach sock : sound (attach_socket sock).
Proof. unfold attach_socket, find_socket_slot. sounds. Qed.

#[export] Hint Resolve sound_create sound_attach : sound.

Lemma sound_socket f t p : sound (sys_socket f t p).
Proof.
  unfold sys_socket, socket_gramado, socket_unix, socket_inet, socket_of_family, xx_address. sounds.
Qed.

#[export] Hint Resolve sound_socket : sound.

Lemma sound_enqueue ss cs : sound (enqueue_client ss cs).
Proof.
  unfold enqueue_client. apply sound_bind; [|intros []; sounds].
  apply sound_set. intros x []. split; cbn; try done. rewrite i32_id by lia. case_match; [lia|].
  rewrite Z.leb_gt in *. lia.
Qed.

Lemma sound_next ss : sound (next_pending ss).
Proof.
  unfold next_pending. apply sound_bind; [|intros []; sounds].
  apply sound_set. intros x []. split; cbn; try done. rewrite i32_id by lia. case_match; [lia|].
  rewrite Z.leb_gt in *. lia.
Qed.

#[export] Hint Resolve sound_enqueue sound_next : sound.

Lemma sound_connect_to fd pid : sound (connect_to fd pid).
Proof.
  unfold connect_to, find_socket_slot. sounds.
Qed.

Lemma sound_accept fd a n : sound (sys_accept fd a n).
Proof. unfold sys_accept, accept_pending. sounds. Qed.

Lemma sound_listen fd n : sound (sys_listen fd n).
Proof. unfold sys_listen. sounds. apply backlog_of_range. Qed.

#[export] Hint Resolve sound_connect_to sound_accept sound_listen : sound.

Lemma sound_call c : sound (run_socket_call c).
Proof.
  destruct c; cbn [run_socket_call]; try (apply sound_bind; [|intros ?; apply sound_ret]); try (by auto with sound).
  - unfold sock_socketpair, get_socket_from_fd. sounds.
  - unfold sys_bind. sounds.
  - unfold sys_connect, __connect_local, __connect_inet, target_of_name, gramado_port. sounds.
  - unfold sys_socket_shutdown. sounds.
  - unfold sys_getsockname. sounds.
  - unfold get_socket_from_fd, update_socket. sounds.
  - unfold socket_ioctl. sounds.
Qed.

Lemma sound_calls cs : sound (run_socket_calls cs).
Proof.
  induction cs as [|c cs IH]; cbn [run_socket_calls]; [apply sound_ret|].
  apply sound_bind; [apply sound_call|by intros []].
Qed.

(** A search that reads sockets of type 0 finds nothing. *)
Lemma port_search_none port s : sockets_ok s ->
  ensures (get_socket_in_process_list port) s (fun r s' => r = NULL /\ s' = s) (fun _ => False).
Proof.
  intros [Hs _]. unfold get_socket_in_process_list. apply ensures_bind.
  assert (Hgo : forall l, ensures (for_return l (fun i =>
    p ← on_ps (processList_at i);
    if p =? NULL then mret None else
    x ← on_ps (deref_process p);
    if negb (p_magic x =? 1234) then mret None else
    let sock := p_priv x in
    if sock =? NULL then mret None else
    y ← deref_socket sock;
    if negb (sk_magic y =? 1234) then mret None else
    if negb (sk_objectType y =? ObjectTypeSocket) then mret None else
    if sk_port y =? port then mret (Some sock) else mret None)) s
    (fun r s' => r = None /\ s' = s) (fun _ => False)).
  { induction l as [|i l IH]; [by split|]. cbn [for_return]. apply ensures_bind.
    unfold processList_at, deref_process. destruct (zlookup (processList (pt (kern (nfs s)))) i) as [p|] eqn:Hp.
    2: { unfold ensures. rewrite bind_Undef; [done|].
      unfold on_ps, on_fs, on_pt, on_kern, on_ptab, getsome. by rewrite Hp. }
    eapply (ensures_mono _ _ (fun r s' => r = None /\ s' = s) _ (fun _ => False)); [|intros r s' [-> ->]; exact IH|by intros ? []].
    unfold ensures. rewrite (bind_Done _ _ _ _ _ (on_ps_getsome _ s _ Hp)). destruct (p =? NULL); [by split|].
    destruct (procs (pt (kern (nfs s))) !! p) as [x|] eqn:Hx.
    2: { rewrite bind_Undef; [done|]. unfold on_ps, on_fs, on_pt, on_kern, on_ptab, getsome. by rewrite Hx. }
    rewrite (bind_Done _ _ _ _ _ (on_ps_getsome _ s _ Hx)). cbv zeta. destruct (negb (p_magic x =? 1234)); [by split|]. destruct (p_priv x =? NULL); [by split|].
    destruct (socks s !! p_priv x) as [y|] eqn:Hy.
    2: { rewrite bind_Undef; [done|]. unfold deref_socket, getsome. by rewrite Hy. }
    rewrite (bind_Done _ _ _ _ _ (deref_socket_done s _ _ Hy)), (wo_type _ (Hs _ _ Hy)).
    destruct (negb (sk_magic y =? 1234)); by split. }
  eapply ensures_mono; [apply Hgo| |by intros ? []]. by intros r s' [-> ->].
Qed.

(** ** Theorem *)

(** [C23] The sockets keep their invariant through every sequence of calls: the
    queue of every socket has 32 places, its size is 1 to 31 and its head and
    tail are places of it, so that no search or entry leaves it.  But the search
    of a socket by its port, which tests a type that nothing sets, never finds
    one. *)
Theorem sockets_invariant cs s s' port :
  sockets_ok s -> run_socket_calls cs s = Done tt s' ->
  sockets_ok s' /\
  ensures (get_socket_in_process_list port) s' (fun r s'' => r = NULL /\ s'' = s') (fun _ => False).
Proof.
  intros Hs E. assert (Hs' : sockets_ok s').
  { pose proof (sound_calls cs s Hs) as H. unfold ensures in H. by rewrite E in H. }
  split; [done|]. by apply port_search_none.
Qed.

(** ** Witness *)

(** Two processes, 0 and 1, and at 2097152 the address 127.0.0.1, port 4040, of
    the server with Gramado port 11: process 0. *)
Definition two_demo (x y : process_d) : fsys :=
  let s := sample_fsys ∅ in
  (set_ram (put 2097152 [0; 2; 200; 15; 1; 0; 0; 127]) s) <| kern := (kern s) <| pt :=
    mk_ptab SYSTEM_RUNNING 0 (4096 :: 5120 :: replicate 1022 0) (<[4096 := x]> {[ 5120 := y ]}) |> |>.

Definition fresh_demo : nsys :=
  mk_nsys (two_demo (sample_process 0) (sample_process 1)) ∅ 11000 (replicate 32 0).

Lemma sockets_ok_fresh : sockets_ok fresh_demo.
Proof. split; [by apply map_Forall_empty|]. unfold in_u16. cbn. lia. Qed.

Lemma sockets_invariant_witness :
  exists s', run_socket_calls [CallSocket AF_GRAMADO SOCK_STREAM 0; CallListen 3 100] fresh_demo = Done tt s' /\
    sockets_ok s' /\
    ensures (get_socket_in_process_list 0) s' (fun r s'' => r = NULL /\ s'' = s') (fun _ => False).
Proof.
  set (cs := [CallSocket AF_GRAMADO SOCK_STREAM 0; CallListen 3 100]).
  assert (T : match run_socket_calls cs fresh_demo with Done _ _ => true | _ => false end = true) by by vm_compute.
  destruct (run_socket_calls cs fresh_demo) as [[] s'| | | |] eqn:E;
    [|discriminate T..]. exists s'. split; [done|].
  apply (sockets_invariant cs fresh_demo s' 0 sockets_ok_fresh E).
Defined.
