(* ===== verification/Connections.v ===== *)
(** * Connections: clients that meet a server

    Proofs on [sys_connect], [sys_accept] and the creation of sockets: the queue
    of pending connections as a ring, its specification as a queue of clients,
    and a connection from the first call of both processes to the mailbox that
    they share. *)
From Stdlib Require Import ZArith Lia.
From stdpp Require Import base gmap list strings.
From S2P Require Import Config Prelude Strings Format Process KState Samples Threads Heap Files Descriptors TaskSwitch Sockets.

#[local] Open Scope Z_scope.
#[local] Open Scope gramado_scope.

(** ** Lemmas on the calls *)

(** Only the threads of the microkernel change. *)
Definition with_threads (ts : gmap Z thread_d) (s : nsys) : nsys :=
  s <| nfs := (nfs s) <| kern := (kern (nfs s)) <| threads := ts |> |> |>.

Lemma credit_net s : wf_threads (kern (nfs s)) ->
  exists ts, on_fs credit_current s = Done tt (with_threads ts s) /\
    wf_threads (kern (nfs (with_threads ts s))).
Proof.
  intros Hw. destruct (run_op_refines _ (OpCredits (current_thread (kern (nfs s)))) Hw)
    as (k & E & Hwk & Hg & _). unfold same_globals in Hg. exists (threads k). split.
  - unfold with_threads. rewrite <- Hg. apply on_fs_run. unfold credit_current, on_kern.
    rewrite bind_gets. cbn in E. by rewrite E.
  - cbn. by rewrite <- Hg.
Qed.

(** The process of [pid] has the socket [sk] as its last one, and a free object. *)
Definition serves (s : nsys) (pid sk : Z) : Prop :=
  0 <= pid < PROCESS_COUNT_MAX /\
  exists p x i, zlookup (processList (pt (kern (nfs s)))) pid = Some p /\ p <> NULL /\
    procs (pt (kern (nfs s))) !! p = Some x /\ p_priv x = sk /\
    length (p_Objects x) = 64%nat /\ first_free (p_Objects x) i /\ i < 31.

(** Descriptor [h.2] of process [h.1] is the file [f] of the socket [sk]. *)
Record open_socket (s : nsys) (h : Z * Z) (f sk : Z) : Prop := {
  os_holder : holder (kern (nfs s)) f h;
  os_file : f <> NULL /\ exists x, files (nfs s) !! f = Some x /\ f_used x = TRUE /\ f_magic x = 1234 /\
    f_object x = ObjectTypeSocket /\ can_accept (sync x) = TRUE /\ can_connect (sync x) = TRUE /\
    f_socket x = sk;
  os_socket : sk <> NULL /\ exists z, socks s !! sk = Some z /\ sk_used z = TRUE /\
    sk_magic z = 1234 /\ private_file z = f
}.

Definition same_sock (x y : socket_d) : Prop :=
  sk_used y = sk_used x /\ sk_magic y = sk_magic x /\ private_file y = private_file x.

(** What connections keep: every descriptor but 31 of every process, the files
    but their own number, the identity of every socket, memory and ports. *)
Record net_kept (s s' : nsys) : Prop := {
  nk_threads : wf_threads (kern (nfs s)) -> wf_threads (kern (nfs s'));
  nk_holder : forall f h, h.2 <> 31 -> holder (kern (nfs s)) f h -> holder (kern (nfs s')) f h;
  nk_serves : forall pid sk, serves s pid sk -> serves s' pid sk;
  nk_files : forall f x, files (nfs s) !! f = Some x -> exists v, files (nfs s') !! f = Some (x <| _file := v |>)
    /\ (v = _file x \/ v = 31);
  nk_socks : forall p x, socks s !! p = Some x -> exists y, socks s' !! p = Some y /\ same_sock x y;
  nk_ram : ram (nfs s') = ram (nfs s);
  nk_ports : gramado_ports (kern (nfs s')) = gramado_ports (kern (nfs s))
}.

#[local] Instance net_kept_preorder : PreOrder net_kept.
Proof.
  split.
  - intros s. split; try done.
    + intros f x Hx. exists (_file x). split; [|by left]. rewrite Hx. by destruct x.
    + intros p x Hx. by exists x.
  - intros s1 s2 s3 [A1 A2 A3 A4 A5 A6 A7] [B1 B2 B3 B4 B5 B6 B7].
    split; [by auto|by auto|by auto| | |congruence|congruence].
    + intros f x Hx. destruct (A4 f x Hx) as (v & Hv & Hc). destruct (B4 f _ Hv) as (w & Hw & Hd).
      exists w. split; [exact Hw|]. cbn in Hd. destruct Hd as [->|]; [done|by right].
    + intros p x Hx. destruct (A5 p x Hx) as (y & Hy & E1 & E2 & E3).
      destruct (B5 p y Hy) as (z & Hz & F1 & F2 & F3). exists z. split; [done|]. split_and!; congruence.
Qed.

Lemma open_socket_kept s s' h f sk : net_kept s s' -> h.2 <> 31 -> open_socket s h f sk -> open_socket s' h f sk.
Proof.
  intros Hk Hh [Ho (Hf & x & Hx & Hr) (Hs & z & Hz & Hu & Hm & Hp)]. split.
  - by apply (nk_holder _ _ Hk).
  - split; [done|]. destruct (nk_files _ _ Hk f x Hx) as (v & Hv & _). by exists (x <| _file := v |>).
  - split; [done|]. destruct (nk_socks _ _ Hk sk z Hz) as (y & Hy & E1 & E2 & E3). exists y.
    split; [done|]. split_and!; congruence.
Qed.

(** A state with two sockets changed. *)
Definition with_two (a : Z) (x : socket_d) (b : Z) (y : socket_d) (s : nsys) : nsys :=
  s <| socks := <[a := x]> (<[b := y]> (socks s)) |>.

Lemma set_first a x b y s g :
  set_socket a g (with_two a x b y s) = Done tt (with_two a (g x) b y s).
Proof.
  unfold set_socket, put_socket. rewrite (bind_Done _ _ _ x (with_two a x b y s)); [|by apply deref_socket_done, lookup_insert_eq].
  unfold modify, with_two. cbn. by rewrite insert_insert_eq.
Qed.

Lemma set_second a x b y s g : a <> b ->
  set_socket b g (with_two a x b y s) = Done tt (with_two a x b (g y) s).
Proof.
  intros Hab. unfold set_socket, put_socket. rewrite (bind_Done _ _ _ y (with_two a x b y s)).
  2: { apply deref_socket_done. cbn. by rewrite lookup_insert_ne, lookup_insert_eq by done. }
  unfold modify, with_two. cbn. rewrite insert_insert_ne by done. by rewrite insert_insert_eq.
Qed.

Lemma with_two_intro s a x b y : socks s !! a = Some x -> socks s !! b = Some y -> s = with_two a x b y s.
Proof. intros Ha Hb. unfold with_two. destruct s. cbn in *. by rewrite !insert_id by (rewrite ?insert_id; done). Qed.

Lemma put_second a x b y s y' : a <> b ->
  put_socket b y' (with_two a x b y s) = Done tt (with_two a x b y' s).
Proof.
  intros Hab. unfold put_socket, modify, with_two. cbn. rewrite insert_insert_ne by done.
  by rewrite insert_insert_eq.
Qed.

Lemma deref_first a x b y s : deref_socket a (with_two a x b y s) = Done x (with_two a x b y s).
Proof. apply deref_socket_done, lookup_insert_eq. Qed.

Lemma deref_second a x b y s : a <> b ->
  deref_socket b (with_two a x b y s) = Done y (with_two a x b y s).
Proof. intros. apply deref_socket_done. cbn. by rewrite lookup_insert_ne, lookup_insert_eq. Qed.

Lemma two_kept s a x b y x' y' :
  socks s !! a = Some x -> socks s !! b = Some y -> same_sock x x' -> same_sock y y' ->
  net_kept s (with_two a x' b y' s).
Proof.
  intros Ha Hb Hx Hy. split; try done.
  - intros f w Hw. exists (_file w). split; [|by left]. cbn. rewrite Hw. by destruct w.
  - intros p w Hw. cbn. destruct (decide (p = a)) as [->|Hpa].
    + exists x'. rewrite lookup_insert_eq. split; [done|]. by assert (w = x) as -> by congruence.
    + rewrite lookup_insert_ne by done. destruct (decide (p = b)) as [->|Hpb].
      * exists y'. rewrite lookup_insert_eq. split; [done|]. by assert (w = y) as -> by congruence.
      * exists w. by rewrite lookup_insert_ne.
Qed.

(** A state with the last object of a process set. *)
Definition with_last_object (p : Z) (x : process_d) (f : Z) (s : nsys) : nsys :=
  s <| nfs := with_process p (x <| p_Objects := zinsert (p_Objects x) 31 f |>) (nfs s) |>.

Lemma set_last_object s p x f : procs (pt (kern (nfs s))) !! p = Some x ->
  on_fs (set_object p 31 f) s = Done tt (with_last_object p x f s).
Proof. intros Hx. by apply on_fs_run, set_object_done. Qed.

Lemma first_free_31 l f i : first_free l i -> i < 31 -> first_free (zinsert l 31 f) i.
Proof.
  intros (Hi & H0 & Hlt) H31. split; [done|]. split; [by rewrite zlookup_insert_ne by lia|].
  intros j Hj. rewrite zlookup_insert_ne by lia. by apply Hlt.
Qed.

Lemma last_object_kept s p x f : procs (pt (kern (nfs s))) !! p = Some x ->
  net_kept s (with_last_object p x f s).
Proof.
  intros Hx. split; try done.
  - by intros [? ? ?].
  - intros g h Hh (H1 & H2 & q & y & Hl & Hq & Hy & Hu & Hm & Ho). split; [done|]. split; [done|].
    destruct (decide (p = q)) as [->|Hne].
    + assert (y = x) as -> by congruence. eexists q, _. cbn. rewrite lookup_insert_eq.
      do 5 (split; [done|]). etrans; [apply (zlookup_insert_ne (p_Objects x) 31 h.2 f); lia|done].
    + exists q, y. cbn. by rewrite lookup_insert_ne.
  - intros pid sk (Hpid & q & y & i & Hl & Hq & Hy & Hsk & Hlen & Hi & Hi31). split; [done|].
    destruct (decide (p = q)) as [->|Hne].
    + assert (y = x) as -> by congruence. eexists q, _, i. cbn. rewrite lookup_insert_eq.
      do 4 (split; [done|]). split; [etrans; [apply (length_zinsert (p_Objects x) 31 f)|done]|].
      split; [by apply (first_free_31 (p_Objects x))|done].
    + exists q, y, i. cbn. by rewrite lookup_insert_ne.
  - intros g y Hy. exists (_file y). split; [|by left]. cbn. rewrite Hy. by destruct y.
  - intros q y Hy. by exists y.
Qed.

Lemma threads_kept s ts : (wf_threads (kern (nfs s)) -> wf_threads (kern (nfs (with_threads ts s)))) ->
  net_kept s (with_threads ts s).
Proof.
  intros Hw. split; try done.
  - intros f w Hf. exists (_file w). split; [|by left]. cbn. rewrite Hf. by destruct w.
  - intros p w Hp. by exists w.
Qed.

Lemma port_kept s v : net_kept s (s <| new_client_port := v |>).
Proof.
  split; try done.
  - intros f w Hf. exists (_file w). split; [|by left]. cbn. rewrite Hf. by destruct w.
  - intros p w Hp. by exists w.
Qed.

Lemma find_socket_slot_spec s p x i :
  procs (pt (kern (nfs s))) !! p = Some x -> first_free (p_Objects x) i -> i < 31 ->
  find_socket_slot p s = Done (Some i) s.
Proof.
  intros Hx (Hi & H0 & Hlt) H31. unfold find_socket_slot.
  assert (Hgo : forall n a, a + Z.of_nat n = i -> 3 <= a ->
    for_return (range a 31) (fun i => v ← on_fs (object_at p i); mret (if v =? 0 then Some i else None)) s =
      Done (Some i) s).
  { induction n as [|n IH]; intros a Ha H3; rewrite range_cons by lia; cbn [for_return].
    - assert (a = i) as -> by lia.
      by rewrite bind_bind, (bind_Done _ _ _ _ _ (on_fs_object _ _ _ _ _ Hx H0)).
    - destruct (Hlt a) as (v & Hv & Hvn); [lia|]. apply Z.eqb_neq in Hvn.
      rewrite bind_bind, (bind_Done _ _ _ _ _ (on_fs_object _ _ _ _ _ Hx Hv)), Hvn, bind_ret.
      apply IH; lia. }
  apply (Hgo (Z.to_nat (i - 3)) 3); lia.
Qed.

(** The place after the last one of the queue of a server. *)
Definition next_place (x : Z) (z : socket_d) : Z := if backlog_max z <=? x + 1 then 0 else x + 1.

(** The socket of the server after a client entered its queue. *)
Definition queued (slot cs : Z) (z : socket_d) : socket_d :=
  z <| clientfd_on_server := slot |> <| sk_link := cs |> <| sk_state := SS_CONNECTING |>
    <| backlog_tail := next_place (backlog_tail z) z |>
    <| pending_connections := zinsert (pending_connections z) (next_place (backlog_tail z) z) cs |>.

Lemma enqueue_done s ss z cs c : ss <> cs -> 0 <= backlog_tail z < 32 -> backlog_max z <= 31 ->
  exists c', enqueue_client ss cs (with_two ss z cs c s) =
    Done tt (with_two ss (z <| backlog_tail := next_place (backlog_tail z) z |>
      <| pending_connections := zinsert (pending_connections z) (next_place (backlog_tail z) z) cs |>) cs c' s)
    /\ same_sock c c'.
Proof.
  intros Hne Ht Hm. unfold enqueue_client. rewrite (bind_Done _ _ _ _ _ (set_first _ _ _ _ _ _)).
  rewrite (bind_Done _ _ _ _ _ (deref_first _ _ _ _ _)). cbn zeta. rewrite i32_id by lia.
  fold (next_place (backlog_tail z) z). set (t := next_place (backlog_tail z) z).
  assert (Htr : 0 <= t < 32) by (unfold t, next_place; destruct (Z.leb_spec (backlog_max z) (backlog_tail z + 1)); lia).
  cbn [backlog_tail set_field set_backlog_tail]. change (backlog_tail _) with t. zguard.
  rewrite (bind_Done _ _ _ _ _ (set_first _ _ _ _ _ _)), (set_second _ _ _ _ _ _ Hne).
  eexists. split; [reflexivity|]. by split_and!.
Qed.

(** The object 31 of a process. *)
Definition last_object (s : nsys) (pid : Z) : option Z :=
  p ← zlookup (processList (pt (kern (nfs s)))) pid;
  x ← procs (pt (kern (nfs s))) !! p;
  zlookup (p_Objects x) 31.

Lemma with_last_object_eq s p x f pid :
  zlookup (processList (pt (kern (nfs s)))) pid = Some p -> length (p_Objects x) = 64%nat ->
  last_object (with_last_object p x f s) pid = Some f.
Proof.
  intros Hl Hn. unfold last_object. change (processList _) with (processList (pt (kern (nfs s)))).
  rewrite Hl. cbn [mbind option_bind]. change (procs _) with
    (<[p := x <| p_Objects := zinsert (p_Objects x) 31 f |>]> (procs (pt (kern (nfs s))))).
  rewrite lookup_insert_eq. apply (zlookup_insert_eq (p_Objects x) 31 f). lia.
Qed.

Lemma connect_to_spec s pid fd f cs c spid ss z :
  current_pid (pt (kern (nfs s))) = pid -> open_socket s (pid, fd) f cs -> socks s !! cs = Some c ->
  sk_state c = SS_UNCONNECTED -> serves s spid ss -> ss <> NULL -> socks s !! ss = Some z -> ss <> cs ->
  0 <= backlog_tail z < 32 -> backlog_max z <= 31 ->
  exists slot c' s', connect_to fd spid s = Done 0 s' /\ net_kept s s' /\ last_object s' spid = Some f /\
    socks s' = <[ss := queued slot cs z]> (<[cs := c']> (socks s)).
Proof.
  intros Hc [Hh (Hfn & x & Hfx & Hu & Hm & Ho & _ & Hcan & Hfs) (Hcn & c0 & Hc0 & _)] Hcs Hst
    (Hspid & sp & y & slot & Hsl & Hspn & Hsy & Hpriv & Hlen & Hfree & H31) Hssn Hss Hne Ht Hmax.
  destruct Hh as (Hpid & Hfd & p & w & Hl & Hpn & Hw & _ & _ & Hob). cbn in *.
  unfold connect_to, get_current_process, processList_at, deref_process, NULL in *.
  rewrite (bind_Done _ _ _ _ _ (on_ps_gets _ _)), Hc. zguard.
  rewrite (bind_Done _ _ _ _ _ (on_ps_getsome _ _ _ Hl)). zguard.
  rewrite (bind_Done _ _ _ _ _ (on_fs_object _ _ _ _ _ Hw Hob)). zguard.
  rewrite (bind_Done _ _ _ _ _ (is_socket_done _ _ _ Hfx Hfn Hm Ho)). cbn [negb].
  rewrite (bind_Done _ _ _ _ _ (on_fs_deref _ _ _ Hfx)), Hcan, Hfs. cbn [negb Z.eqb Pos.eqb TRUE]. zguard.
  rewrite (bind_Done _ _ _ _ _ (deref_socket_done _ _ _ Hcs)), Hst. cbn [negb Z.eqb Pos.eqb SS_UNCONNECTED].
  rewrite bind_modify, bind_gets. cbn beta. set (s1 := s <| new_client_port := _ |>).
  rewrite (with_two_intro s1 ss z cs c Hss Hcs).
  rewrite (bind_Done _ _ _ _ _ (put_second _ _ _ _ _ _ Hne)). zguard.
  rewrite (bind_Done _ _ _ _ _ (on_ps_getsome _ (with_two _ _ _ _ s1) _ Hsl)). zguard.
  rewrite (bind_Done _ _ _ _ _ (find_socket_slot_spec (with_two _ _ _ _ s1) sp y slot Hsy Hfree H31)).
  rewrite (bind_Done _ _ _ _ _ (on_ps_getsome _ (with_two _ _ _ _ s1) _ Hsy)), Hpriv. zguard.
  rewrite (bind_Done _ _ _ _ _ (set_first _ _ _ _ _ _)), (bind_Done _ _ _ _ _ (set_second _ _ _ _ _ _ Hne)).
  rewrite (bind_Done _ _ _ _ _ (set_last_object (with_two _ _ _ _ s1) sp y f Hsy)).
  change (with_last_object sp y f (with_two ?a ?b ?c ?d s1)) with
    (with_two a b c d (with_last_object sp y f s1)). set (s2 := with_last_object sp y f s1).
  rewrite (bind_Done _ _ _ _ _ (set_second _ _ _ _ _ _ Hne)), (bind_Done _ _ _ _ _ (set_first _ _ _ _ _ _)).
  rewrite (bind_Done _ _ _ _ _ (set_second _ _ _ _ _ _ Hne)), (bind_Done _ _ _ _ _ (set_first _ _ _ _ _ _)).
  rewrite (bind_Done _ _ _ _ _ (set_second _ _ _ _ _ _ Hne)).
  destruct (enqueue_done s2 ss (z <| clientfd_on_server := slot |> <| sk_link := cs |>
    <| sk_state := SS_CONNECTING |>) cs (c <| sk_port := new_client_port s1 |> <| clientfd_on_server := slot |>
    <| sk_link := ss |> <| sk_state := SS_CONNECTING |> <| magic_string := 67 |>))
    as (c' & E & Hcc); [done|done|done|].
  rewrite (bind_Done _ _ _ _ _ E). exists slot, c'. eexists. split; [reflexivity|]. split_and!.
  - transitivity s1; [apply port_kept|]. transitivity s2; [by apply last_object_kept|].
    apply (two_kept s2 ss z cs c); [done|done|done|exact Hcc].
  - by apply with_last_object_eq.
  - done.
Qed.

(** ** The queue of pending connections *)

(** The clients [q] wait in the queue of the socket [z], the oldest first. *)
Record queue_of (z : socket_d) (q : list Z) : Prop := {
  qo_max : 1 <= backlog_max z <= 31;
  qo_head : 0 <= backlog_head z < backlog_max z;
  qo_tail : backlog_tail z = (backlog_head z + zlen q) mod backlog_max z;
  qo_size : length (pending_connections z) = 32%nat;
  qo_fits : zlen q <= backlog_max z;
  qo_entries : forall j c, q !! j = Some c ->
    zlookup (pending_connections z) ((backlog_head z + 1 + Z.of_nat j) mod backlog_max z) = Some c;
  qo_state : q <> [] -> sk_state z = SS_CONNECTING \/ sk_state z = SS_CONNECTED
}.

Lemma next_place_mod x z : 0 <= x < backlog_max z -> next_place x z = (x + 1) mod backlog_max z.
Proof.
  intros Hx. unfold next_place. destruct (Z.leb_spec (backlog_max z) (x + 1)).
  - replace (x + 1) with (backlog_max z) by lia. by rewrite Z.mod_same by lia.
  - by rewrite Z.mod_small by lia.
Qed.

Lemma mod_apart a b m : 0 < b - a < m -> a mod m <> b mod m.
Proof.
  intros H E. pose proof (Z.div_mod a m). pose proof (Z.div_mod b m).
  assert (b - a = m * (b / m - a / m)) as Hd by lia.
  assert (0 < b / m - a / m < 1); [|lia]. split; nia.
Qed.

Lemma queue_enqueue z q slot cs :
  queue_of z q -> zlen q < backlog_max z -> queue_of (queued slot cs z) (q ++ [cs]).
Proof.
  intros [Hm Hh Ht Hs Hf He _] Hq. pose proof (Z.mod_pos_bound (backlog_head z + zlen q) (backlog_max z)).
  assert (Hp : next_place (backlog_tail z) z = (backlog_head z + 1 + zlen q) mod backlog_max z).
  { rewrite next_place_mod, Ht by lia. rewrite Z.add_mod_idemp_l by lia. f_equal. lia. }
  pose proof (Z.mod_pos_bound (backlog_head z + 1 + zlen q) (backlog_max z)).
  split; cbn -[zinsert Z.modulo]; try done.
  - rewrite Hp, zlen_app. f_equal. change (zlen [cs]) with 1. lia.
  - by rewrite length_zinsert.
  - rewrite zlen_app. change (zlen [cs]) with 1. lia.
  - intros j c Hj. apply lookup_app_Some in Hj as [Hj|[Hj Hc]].
    + pose proof (lookup_lt_Some _ _ _ Hj). unfold zlen in *.
      rewrite zlookup_insert_ne; [by apply He|lia|]. rewrite Hp. apply not_eq_sym, mod_apart. lia.
    + apply list_lookup_singleton_Some in Hc as [Hj0 <-]. unfold zlen in *.
      replace (Z.of_nat j) with (Z.of_nat (length q)) by lia. rewrite Hp. apply zlookup_insert_eq. lia.
  - by left.
Qed.

(** The socket of the server after its oldest client was accepted. *)
Definition dequeued (z : socket_d) : socket_d :=
  z <| sk_state := SS_CONNECTED |> <| backlog_head := next_place (backlog_head z) z |>.

Lemma queue_dequeue z c q : queue_of z (c :: q) -> queue_of (dequeued z) q.
Proof.
  intros [Hm Hh Ht Hs Hf He _]. rewrite zlen_cons in *.
  pose proof (Z.mod_pos_bound (backlog_head z + 1) (backlog_max z)).
  split; cbn -[zinsert]; try done; rewrite ?next_place_mod by done; try lia.
  - rewrite Ht, Z.add_mod_idemp_l by lia. f_equal. lia.
  - intros j d Hj. specialize (He (S j) d Hj). rewrite <- He. f_equal.
    rewrite <- Z.add_assoc, Z.add_mod_idemp_l by lia. f_equal. lia.
Qed.

Lemma queue_head z c q : queue_of z (c :: q) ->
  zlookup (pending_connections z) (next_place (backlog_head z) z) = Some c.
Proof.
  intros [Hm Hh Ht Hs Hf He _]. rewrite next_place_mod by done. rewrite <- (He O c eq_refl). f_equal. f_equal. lia.
Qed.

(** The search from the next place finds the client [c], at the place [k]. *)
Definition first_pending (z : socket_d) (k c : Z) : Prop :=
  next_place (backlog_head z) z <= k <= backlog_max z /\ c <> NULL /\
  zlookup (pending_connections z) k = Some c /\
  forall j, next_place (backlog_head z) z <= j < k -> zlookup (pending_connections z) j = Some NULL.

(** The search from the next place finds nothing. *)
Definition none_pending (z : socket_d) : Prop :=
  forall j, next_place (backlog_head z) z <= j <= backlog_max z ->
    zlookup (pending_connections z) j = Some NULL.

Definition head_ok (z : socket_d) : Prop :=
  1 <= backlog_max z <= 31 /\ 0 <= backlog_head z < backlog_max z.

Lemma next_head z : head_ok z -> 0 <= next_place (backlog_head z) z < backlog_max z.
Proof. intros [Hm Hh]. rewrite next_place_mod by done. apply Z.mod_pos_bound. lia. Qed.

Lemma queue_first z c q : queue_of z (c :: q) -> c <> NULL ->
  first_pending z (next_place (backlog_head z) z) c.
Proof.
  intros Hq Hc. pose proof (queue_head _ _ _ Hq). destruct Hq.
  pose proof (next_head z ltac:(by split)). split_and!; [lia|lia|done|done|]. lia.
Qed.

Lemma queue_head_ok z q : queue_of z q -> head_ok z.
Proof. intros []. by split. Qed.

(** The next client of a server, if there is one. *)
Definition next_client (z : socket_d) (r : option Z) : Prop :=
  match r with Some c => exists k, first_pending z k c | None => none_pending z end.

Lemma search_pending (l : list Z) (s : nsys) n : forall a k,
  a + Z.of_nat n = k -> (forall j, a <= j < k -> zlookup l j = Some NULL) -> forall b, k <= b ->
  let body i := c ← getsome (fun _ => zlookup l i); mret (if c =? NULL then None else Some c) in
  for_return (range a b) body s = for_return (range k b) body s.
Proof.
  induction n as [|n IH]; intros a k Hk Hz b Hb body; [by assert (a = k) as -> by lia|].
  rewrite (range_cons a) by lia. cbn [for_return].
  assert (Ha : body a s = Done None s).
  { unfold body. unfold getsome. unfold mbind, M_bind. by rewrite (Hz a) by lia. }
  rewrite (bind_Done _ _ _ _ _ Ha). apply IH; [lia| |done]. intros j Hj. apply Hz. lia.
Qed.

Lemma next_pending_done s ss z cs c r : head_ok z -> next_client z r ->
  next_pending ss (with_two ss z cs c s) =
    Done (default NULL r) (with_two ss (z <| backlog_head := next_place (backlog_head z) z |>) cs c s).
Proof.
  intros Hok Hr. pose proof (next_head z Hok) as Hn. pose proof Hok as [Hm Hh].
  unfold next_pending. rewrite (bind_Done _ _ _ _ _ (set_first _ _ _ _ _ _)).
  rewrite (bind_Done _ _ _ _ _ (deref_first _ _ _ _ _)). cbn zeta. rewrite i32_id by lia.
  fold (next_place (backlog_head z) z). set (h := next_place (backlog_head z) z) in *.
  cbn [backlog_head backlog_max pending_connections set_field set_backlog_head].
  change (backlog_head _) with h. change (backlog_max _) with (backlog_max z).
  change (pending_connections _) with (pending_connections z). zguard. set (s1 := with_two _ _ _ _ _).
  destruct r as [d|]; cbn [next_client default] in *.
  - destruct Hr as (k & Hk & Hd & Hl & Hz). fold h in Hk, Hz.
    rewrite (bind_Done _ _ _ (Some d) s1); [done|].
    rewrite (search_pending (pending_connections z) s1 (Z.to_nat (k - h)) h k) by (done || lia).
    rewrite range_cons by lia. cbn [for_return]. unfold getsome, mbind, M_bind. rewrite Hl.
    unfold NULL in *. zguard. done.
  - rewrite (bind_Done _ _ _ None s1); [done|]. unfold none_pending in Hr. fold h in Hr.
    rewrite (search_pending (pending_connections z) s1 (Z.to_nat (backlog_max z + 1 - h)) h
      (backlog_max z + 1)) by (intros; try apply Hr; lia).
    by rewrite range_nil by lia.
Qed.

Lemma file_number_kept s f x v : files (nfs s) !! f = Some x -> v = 31 ->
  net_kept s (s <| nfs := (nfs s) <| files := <[f := x <| _file := v |>]> (files (nfs s)) |> |>).
Proof.
  intros Hx ->. split; try done.
  - intros g y Hy. cbn. destruct (decide (g = f)) as [->|Hne].
    + exists 31. rewrite lookup_insert_eq. split; [by assert (y = x) as -> by congruence|by right].
    + exists (_file y). split; [|by left]. rewrite lookup_insert_ne, Hy by done. by destruct y.
  - intros p y Hy. by exists y.
Qed.

Lemma update_file_net s f x g : files (nfs s) !! f = Some x ->
  on_fs (update_file f g) s = Done tt (s <| nfs := (nfs s) <| files := <[f := g x]> (files (nfs s)) |> |>).
Proof.
  intros Hx. apply on_fs_run. unfold update_file. by rewrite (bind_Done _ _ _ _ _ (deref_file_Done _ _ _ Hx)).
Qed.

Lemma last_object_threads ts s pid : last_object (with_threads ts s) pid = last_object s pid.
Proof. done. Qed.

Lemma accept_pending_spec s sp y pid ss z cs c cf w k :
  procs (pt (kern (nfs s))) !! sp = Some y -> zlookup (processList (pt (kern (nfs s)))) pid = Some sp ->
  length (p_Objects y) = 64%nat -> socks s !! ss = Some z -> socks s !! cs = Some c -> ss <> cs ->
  head_ok z -> first_pending z k cs -> sk_used c = TRUE -> sk_magic c = 1234 ->
  private_file c = cf -> files (nfs s) !! cf = Some w ->
  exists s', accept_pending sp ss s = Done 31 s' /\ net_kept s s' /\ last_object s' pid = Some cf /\
    socks s' = <[ss := dequeued z]> (<[cs := c <| sk_state := SS_CONNECTED |>]> (socks s)).
Proof.
  intros Hy Hl Hlen Hss Hcs Hne Hok Hq Hu Hm Hcf Hw. unfold accept_pending. pose proof Hq as (_ & Hcn & _).
  set (s0 := s) at 1. assert (E0 : s0 = with_two ss z cs c s) by by apply with_two_intro.
  clearbody s0. rewrite E0. clear E0 s0.
  rewrite (bind_Done _ _ _ _ _ (set_first _ _ _ _ _ _)).
  set (z1 := z <| sk_state := SS_CONNECTED |>).
  rewrite (bind_Done _ _ _ _ _ (next_pending_done s ss z1 cs c (Some cs) Hok (ex_intro _ k Hq))).
  change (default NULL (Some cs)) with cs. unfold NULL in *. zguard.
  rewrite (bind_Done _ _ _ _ _ (deref_second _ _ _ _ _ Hne)), Hu, Hm. cbn [negb orb Z.eqb Pos.eqb TRUE].
  rewrite (bind_Done _ _ _ _ _ (put_second _ _ _ _ _ _ Hne)), Hcf.
  rewrite (bind_Done _ _ _ _ _ (set_last_object (with_two _ _ _ _ s) sp y cf Hy)).
  change (with_last_object sp y cf (with_two ?a ?b ?c ?d s)) with
    (with_two a b c d (with_last_object sp y cf s)). set (s2 := with_last_object sp y cf s).
  rewrite (bind_Done _ _ _ _ _ (update_file_net (with_two _ _ _ _ s2) cf w _ Hw)).
  eexists. split; [reflexivity|]. split_and!.
  - transitivity s2; [by apply last_object_kept|].
    transitivity (with_two ss (dequeued z) cs (c <| sk_state := SS_CONNECTED |>) s2);
      [by apply (two_kept s2 ss z cs c)|]. by apply (file_number_kept (with_two _ _ _ _ s2) cf w).
  - by apply with_last_object_eq.
  - done.
Qed.

(** The socket of a server that found nobody: its head has moved. *)
Definition missed (z : socket_d) : socket_d := (dequeued z) <| sk_state := SS_CONNECTING |>.

Lemma accept_pending_none s sp ss z : socks s !! ss = Some z -> head_ok z -> none_pending z ->
  accept_pending sp ss s = Done (-1) (with_two ss (missed z) ss z s).
Proof.
  intros Hss Hok Hn. unfold accept_pending. rewrite (with_two_intro s ss z ss z Hss Hss) at 1.
  rewrite (bind_Done _ _ _ _ _ (set_first _ _ _ _ _ _)).
  set (z1 := z <| sk_state := SS_CONNECTED |>).
  rewrite (bind_Done _ _ _ _ _ (next_pending_done s ss z1 ss z None Hok Hn)).
  change (default NULL None =? NULL) with true. cbn iota. by rewrite (bind_Done _ _ _ _ _ (set_first _ _ _ _ _ _)).
Qed.

(** The tests that precede the search, for an open socket that was connected to. *)
Lemma sys_accept_front s pid fd sf ss z addr len :
  wf_threads (kern (nfs s)) -> current_pid (pt (kern (nfs s))) = pid -> open_socket s (pid, fd) sf ss ->
  socks s !! ss = Some z -> (sk_state z = SS_CONNECTING \/ sk_state z = SS_CONNECTED) ->
  CONTROLTHREAD_BASE <= addr -> len <> NULL ->
  exists ts sp, wf_threads (kern (nfs (with_threads ts s))) /\
    zlookup (processList (pt (kern (nfs s)))) pid = Some sp /\
    sys_accept fd addr len s = accept_pending sp ss (with_threads ts s).
Proof.
  intros Hwt Hc [Hh (Hfn & x & Hfx & Hu & Hm & Ho & Hacc & _ & Hfs) (Hsn & z0 & Hz0 & Hzu & Hzm & _)] Hz Hst
    Ha Hlen0. assert (z0 = z) as -> by congruence.
  destruct Hh as (Hpid & Hfd & p & u & Hl & Hspn & Hy & Hpu & Hpm & Hob). cbn in *.
  destruct (credit_net s Hwt) as (ts & E & Hwt'). set (s1 := with_threads ts s) in *.
  exists ts, p. split; [done|]. split; [done|]. fold s1.
  unfold sys_accept, bad_fd, get_current_process, processList_at, deref_process, CONTROLTHREAD_BASE,
    OPEN_MAX, NULL in *.
  rewrite (bind_Done _ _ _ _ _ E). zguard. cbn [orb].
  rewrite (bind_Done _ _ _ _ _ (on_ps_gets _ s1)).
  change (current_pid (pt (kern (nfs s1)))) with (current_pid (pt (kern (nfs s)))). rewrite Hc. zguard.
  rewrite (bind_Done _ _ _ _ _ (on_ps_getsome _ s1 _ Hl)). zguard.
  rewrite (bind_Done _ _ _ _ _ (on_ps_getsome _ s1 _ Hy)), Hpu, Hpm. cbn [negb orb Z.eqb Pos.eqb TRUE].
  rewrite (bind_Done _ _ _ _ _ (on_fs_object s1 _ _ _ _ Hy Hob)). zguard.
  rewrite (bind_Done _ _ _ _ _ (on_fs_deref s1 _ _ Hfx)), Hu, Hm. cbn [negb orb Z.eqb Pos.eqb TRUE].
  rewrite (bind_Done _ _ _ _ _ (is_socket_done s1 _ _ Hfx Hfn Hm Ho)), Hacc, Hfs.
  cbn [negb Z.eqb Pos.eqb TRUE]. zguard.
  rewrite (bind_Done _ _ _ _ _ (deref_socket_done s1 _ _ Hz)), Hzu, Hzm. cbn [negb orb Z.eqb Pos.eqb TRUE].
  destruct Hst as [-> | ->]; done.
Qed.

Lemma sys_accept_spec s pid fd sf ss z cs h cf k addr len :
  wf_threads (kern (nfs s)) -> current_pid (pt (kern (nfs s))) = pid -> open_socket s (pid, fd) sf ss ->
  serves s pid ss -> socks s !! ss = Some z -> (sk_state z = SS_CONNECTING \/ sk_state z = SS_CONNECTED) ->
  head_ok z -> first_pending z k cs -> open_socket s h cf cs -> ss <> cs ->
  CONTROLTHREAD_BASE <= addr -> len <> NULL ->
  exists c s', sys_accept fd addr len s = Done 31 s' /\ net_kept s s' /\
    last_object s' pid = Some cf /\ socks s' = <[ss := dequeued z]> (<[cs := c]> (socks s)).
Proof.
  intros Hwt Hc Hso (Hpid & sp & y & slot & Hl & Hspn & Hy & _ & Hlen & _ & _) Hz Hst Hok Hq
    [_ (_ & w & Hw & _) (_ & c & Hc0 & Hcu & Hcm & Hcf)] Hne Ha Hlen0.
  destruct (sys_accept_front s pid fd sf ss z addr len) as (ts & p & Hwt' & Hl' & ->); [done..|].
  assert (p = sp) as -> by congruence. set (s1 := with_threads ts s) in *.
  destruct (accept_pending_spec s1 sp y pid ss z cs c cf w k) as (s' & Ea & Hk & Hlast & Hsocks); [done..|].
  exists (c <| sk_state := SS_CONNECTED |>), s'. split; [done|]. split; [|done].
  transitivity s1; [by apply threads_kept|done].
Qed.

Lemma sys_accept_none s pid fd sf ss z addr len :
  wf_threads (kern (nfs s)) -> current_pid (pt (kern (nfs s))) = pid -> open_socket s (pid, fd) sf ss ->
  socks s !! ss = Some z -> (sk_state z = SS_CONNECTING \/ sk_state z = SS_CONNECTED) ->
  head_ok z -> none_pending z -> CONTROLTHREAD_BASE <= addr -> len <> NULL ->
  exists s', sys_accept fd addr len s = Done (-1) s' /\ net_kept s s' /\
    last_object s' pid = last_object s pid /\ socks s' = <[ss := missed z]> (socks s).
Proof.
  intros Hwt Hc Hso Hz Hst Hok Hn Ha Hlen0.
  destruct (sys_accept_front s pid fd sf ss z addr len) as (ts & p & Hwt' & _ & ->); [done..|].
  rewrite (accept_pending_none _ _ _ z) by done. eexists. split; [reflexivity|].
  split; [|split; [done|]].
  - transitivity (with_threads ts s); [by apply threads_kept|]. by apply (two_kept _ ss z ss z).
  - cbn. by rewrite insert_insert_eq.
Qed.

(** The Gramado port that an address designates: a name of two letters, or a port
    of 127.0.0.1. *)
Definition local_port (m : memory) (addr : Z) : option Z :=
  if (addr_data m addr 0 =? 100) && (addr_data m addr 1 =? 115) then Some GRAMADO_PORT_WS else
  if (addr_data m addr 0 =? 110) && (addr_data m addr 1 =? 115) then Some GRAMADO_PORT_NS else
  if (addr_data m addr 0 =? 102) && (addr_data m addr 1 =? 115) then Some GRAMADO_PORT_FS else None.

Definition inet_port (m : memory) (addr : Z) : option Z :=
  if negb (is_localhost m addr) then None else
  if peek16 m (addr + 2) =? PORTS_WS then Some GRAMADO_PORT_WS else
  if peek16 m (addr + 2) =? PORTS_NS then Some GRAMADO_PORT_NS else None.

Definition address_port (m : memory) (addr : Z) : option Z :=
  if addr_family m addr =? AF_GRAMADO then local_port m addr else
  if addr_family m addr =? AF_UNIX then None else
  if m (addr + 1) =? AF_INET then inet_port m addr else None.

(** The process [pid] is the server at the address. *)
Definition server_at (s : nsys) (addr pid : Z) : Prop :=
  exists port, address_port (ram (nfs s)) addr = Some port /\
    zlookup (gramado_ports (kern (nfs s))) port = Some pid.

Lemma gramado_port_done s port pid : 0 <= port <= 31 ->
  zlookup (gramado_ports (kern (nfs s))) port = Some pid -> gramado_port port s = Done pid s.
Proof.
  intros Hp Hl. unfold gramado_port. apply on_fs_Done. unfold socket_get_gramado_port, on_kern. zguard.
  unfold getsome. rewrite Hl. by destruct (nfs s).
Qed.

Lemma connect_local_to s fd addr len pid :
  wf_threads (kern (nfs s)) -> 0 <= fd < OPEN_MAX -> addr <> NULL -> 0 <= pid < PROCESS_COUNT_MAX ->
  addr_family (ram (nfs s)) addr = AF_GRAMADO -> server_at s addr pid ->
  exists ts, wf_threads (kern (nfs (with_threads ts s))) /\
    __connect_local fd addr len s = connect_to fd pid (with_threads ts s).
Proof.
  intros Hw Hfd Ha Hpid Hfam (port & Hport & Hp). destruct (credit_net s Hw) as (ts & E & Hw').
  exists ts. split; [done|]. unfold __connect_local, bad_fd, OPEN_MAX, NULL in *.
  rewrite (bind_Done _ _ _ _ _ E). zguard. cbn [orb]. rewrite bind_gets. cbn beta.
  change (ram (nfs (with_threads ts s))) with (ram (nfs s)). rewrite Hfam.
  unfold address_port in Hport. rewrite Hfam in Hport. cbn [negb Z.eqb Pos.eqb AF_GRAMADO] in *.
  assert (Hgo : forall q, 0 <= q <= 31 -> Some q = Some port ->
    gramado_port q (with_threads ts s) = Done pid (with_threads ts s)).
  { intros q Hq [= ->]. by apply gramado_port_done. }
  unfold local_port in Hport. unfold target_of_name, GRAMADO_PORT_WS, GRAMADO_PORT_NS, GRAMADO_PORT_FS in *.
  destruct ((addr_data (ram (nfs s)) addr 0 =? 100) && _).
  { rewrite (bind_Done _ _ _ _ _ (Hgo 11 ltac:(lia) Hport)). by zguard. }
  destruct ((addr_data (ram (nfs s)) addr 0 =? 110) && _).
  { rewrite (bind_Done _ _ _ _ _ (Hgo 14 ltac:(lia) Hport)). by zguard. }
  destruct ((addr_data (ram (nfs s)) addr 0 =? 102) && _); [|done].
  rewrite (bind_Done _ _ _ _ _ (Hgo 16 ltac:(lia) Hport)). by zguard.
Qed.

Lemma connect_inet_to s fd addr len pid :
  wf_threads (kern (nfs s)) -> 0 <= fd < OPEN_MAX -> addr <> NULL -> 0 <= pid < PROCESS_COUNT_MAX ->
  addr_family (ram (nfs s)) addr <> AF_GRAMADO -> server_at s addr pid ->
  exists ts, wf_threads (kern (nfs (with_threads ts s))) /\
    __connect_inet fd addr len s = connect_to fd pid (with_threads ts s).
Proof.
  intros Hw Hfd Ha Hpid Hfam (port & Hport & Hp). destruct (credit_net s Hw) as (ts & E & Hw').
  exists ts. split; [done|]. unfold __connect_inet, bad_fd, OPEN_MAX, NULL in *.
  rewrite (bind_Done _ _ _ _ _ E). zguard. cbn [orb]. rewrite bind_gets. cbn beta.
  change (ram (nfs (with_threads ts s))) with (ram (nfs s)). apply Z.eqb_neq in Hfam.
  unfold address_port in Hport. rewrite Hfam in *.
  destruct (addr_family (ram (nfs s)) addr =? AF_UNIX); [done|].
  destruct (ram (nfs s) (addr + 1) =? AF_INET); [|done]. cbn [orb negb].
  unfold inet_port in Hport. destruct (is_localhost (ram (nfs s)) addr); [|done]. cbn [negb] in *.
  assert (Hgo : forall q, 0 <= q <= 31 -> Some q = Some port ->
    gramado_port q (with_threads ts s) = Done pid (with_threads ts s)).
  { intros q Hq [= ->]. by apply gramado_port_done. }
  unfold PORTS_WS, PORTS_NS, GRAMADO_PORT_WS, GRAMADO_PORT_NS in *.
  destruct (Z.eqb_spec (peek16 (ram (nfs s)) (addr + 2)) 4040) as [->|_].
  { cbn [Z.eqb Pos.eqb orb]. by rewrite bind_bind, (bind_Done _ _ _ _ _ (Hgo 11 ltac:(lia) Hport)), bind_ret. }
  destruct (Z.eqb_spec (peek16 (ram (nfs s)) (addr + 2)) 4041) as [->|_]; [|done].
  cbn [Z.eqb Pos.eqb orb]. by rewrite bind_bind, (bind_Done _ _ _ _ _ (Hgo 14 ltac:(lia) Hport)), bind_ret.
Qed.

Lemma sys_connect_spec s pid fd f cs c spid ss z addr len :
  wf_threads (kern (nfs s)) -> current_pid (pt (kern (nfs s))) = pid -> open_socket s (pid, fd) f cs ->
  socks s !! cs = Some c -> sk_state c = SS_UNCONNECTED -> serves s spid ss -> ss <> NULL ->
  socks s !! ss = Some z -> ss <> cs -> 0 <= backlog_tail z < 32 -> backlog_max z <= 31 ->
  CONTROLTHREAD_BASE <= addr -> len <> 0 -> server_at s addr spid ->
  exists slot c' s', sys_connect fd addr len s = Done 0 s' /\ net_kept s s' /\ last_object s' spid = Some f /\
    socks s' = <[ss := queued slot cs z]> (<[cs := c']> (socks s)).
Proof.
  intros Hw Hc Ho Hcs Hst Hsv Hsn Hss Hne Ht Hm Ha Hlen Hat.
  pose proof Ho as [(_ & Hfd & _) _ _]. pose proof Hsv as (Hpid & _). cbn in Hfd.
  assert (exists ts, wf_threads (kern (nfs (with_threads ts s))) /\
    sys_connect fd addr len s = connect_to fd spid (with_threads ts s)) as (ts & Hw' & ->).
  { unfold sys_connect, bad_fd, CONTROLTHREAD_BASE, OPEN_MAX, NULL in *. zguard. cbn [orb].
    rewrite bind_gets. cbv zeta. pose proof Hat as (port & Hport & _). unfold address_port in Hport.
    destruct (Z.eqb_spec (addr_family (ram (nfs s)) addr) AF_GRAMADO) as [Hg|Hg].
    - rewrite orb_true_r. apply connect_local_to; unfold OPEN_MAX, NULL; try done; lia.
    - destruct (addr_family (ram (nfs s)) addr =? AF_UNIX); [done|]. cbn [orb].
      apply connect_inet_to; unfold OPEN_MAX, NULL; try done; lia. }
  set (s1 := with_threads ts s) in *. assert (Hk : net_kept s s1) by by apply threads_kept.
  destruct (connect_to_spec s1 pid fd f cs c spid ss z) as (slot & c' & s' & E & Hk' & Hl & Hs); try done.
  - by destruct Ho as [].
  - exists slot, c', s'. split; [done|]. split; [by transitivity s1|done].
Qed.

(** ** Specification: the clients of a server *)

(** A client: its process, its descriptor, the file and the socket of it. *)
Record client := mk_client { cl_pid : Z; cl_fd : Z; cl_file : Z; cl_sock : Z }.

Inductive net_op := NConnect (c : client) | NAccept.

(** A call of the process [pid]. *)
Definition as_process {A} (pid : Z) (m : M nsys A) : M nsys A :=
  on_ps (set_current_process pid);; m.

(** A client connects to the address, or the server accepts; the result, and the
    file that is then the object 31 of the server. *)
Definition run_net (spid sfd addr len : Z) (op : net_op) : M nsys (Z * option Z) :=
  r ← match op with
      | NConnect c => as_process (cl_pid c) (sys_connect (cl_fd c) addr len)
      | NAccept => as_process spid (sys_accept sfd addr len)
      end;
  o ← gets (fun s => last_object s spid);
  mret (r, o).

Fixpoint run_nets (spid sfd addr len : Z) (ops : list net_op) : M nsys (list (Z * option Z)) :=
  match ops with
  | [] => mret []
  | op :: ops => r ← run_net spid sfd addr len op; rs ← run_nets spid sfd addr len ops; mret (r :: rs)
  end.

(** The specification: a queue of at most [max] clients.  [None]: a client comes
    when the queue is full, or the server accepts when nobody waits. *)
Fixpoint spec_nets (max : Z) (ops : list net_op) (q : list client) : option (list (Z * option Z)) :=
  match ops with
  | [] => Some []
  | NConnect c :: ops =>
      if zlen q <? max then cons (0, Some (cl_file c)) <$> spec_nets max ops (q ++ [c]) else None
  | NAccept :: ops =>
      match q with
      | c :: q => cons (31, Some (cl_file c)) <$> spec_nets max ops q
      | [] => None
      end
  end.

Definition newcomers (ops : list net_op) : list client :=
  omap (fun op => match op with NConnect c => Some c | NAccept => None end) ops.

Definition client_open (s : nsys) (c : client) : Prop :=
  cl_fd c <> 31 /\ open_socket s (cl_pid c, cl_fd c) (cl_file c) (cl_sock c).

Definition client_new (s : nsys) (c : client) : Prop :=
  exists x, socks s !! cl_sock c = Some x /\ sk_state x = SS_UNCONNECTED.

(** A server with descriptor [sfd] (file [sf], socket [ss]) at the address. *)
Record served (spid sfd sf ss addr : Z) (s : nsys) : Prop := {
  sv_threads : wf_threads (kern (nfs s));
  sv_server : sfd <> 31 /\ open_socket s (spid, sfd) sf ss;
  sv_serves : serves s spid ss;
  sv_addr : server_at s addr spid
}.

(** The clients [q] wait in the queue of the server, the clients [rest] are still
    to come. *)
Record listening (spid sfd sf ss addr max : Z) (s : nsys) (q rest : list client) : Prop := {
  ls_served : served spid sfd sf ss addr s;
  ls_queue : exists z, socks s !! ss = Some z /\ backlog_max z = max /\ queue_of z (cl_sock <$> q);
  ls_open : Forall (client_open s) (q ++ rest);
  ls_new : Forall (client_new s) rest;
  ls_apart : NoDup (ss :: (cl_sock <$> q ++ rest))
}.

(** ** The queue implements its specification *)

Definition with_pid (pid : Z) (s : nsys) : nsys :=
  s <| nfs := (nfs s) <| kern := (kern (nfs s)) <| pt := (pt (kern (nfs s))) <| current_pid := pid |> |> |> |>.

Lemma switch_net pid s : on_ps (set_current_process pid) s = Done tt (with_pid pid s).
Proof. done. Qed.

Lemma as_process_done {A} pid (m : M nsys A) s a s' :
  m (with_pid pid s) = Done a s' -> as_process pid m s = Done a s'.
Proof. intros E. unfold as_process. by rewrite (bind_Done _ _ _ _ _ (switch_net _ _)). Qed.

Lemma run_net_inv spid sfd addr len op s r o s' : run_net spid sfd addr len op s = Done (r, o) s' ->
  match op with
  | NConnect c => as_process (cl_pid c) (sys_connect (cl_fd c) addr len)
  | NAccept => as_process spid (sys_accept sfd addr len)
  end s = Done r s' /\ last_object s' spid = o.
Proof.
  unfold run_net, mbind at 1, M_bind at 1. destruct op as [c|];
    [destruct (as_process (cl_pid c) _ s) as [a s1| | | |]|destruct (as_process spid _ s) as [a s1| | | |]];
    try done; rewrite bind_gets; by intros [= -> <- <-].
Qed.

Lemma pid_kept pid s : net_kept s (with_pid pid s).
Proof.
  split; try done.
  - by intros [? ? ?].
  - intros f w Hf. exists (_file w). split; [|by left]. cbn. rewrite Hf. by destruct w.
  - intros p w Hp. by exists w.
Qed.

Lemma server_at_kept s s' addr pid : net_kept s s' -> server_at s addr pid -> server_at s' addr pid.
Proof. intros Hk (p & E1 & E2). exists p. by rewrite (nk_ram _ _ Hk), (nk_ports _ _ Hk). Qed.

Lemma client_kept s s' c : net_kept s s' -> client_open s c -> client_open s' c.
Proof. intros Hk [Hfd Ho]. split; [done|]. by apply (open_socket_kept s). Qed.

Lemma clients_kept s s' l : net_kept s s' -> Forall (client_open s) l -> Forall (client_open s') l.
Proof. intros Hk Hl. eapply Forall_impl; [exact Hl|]. intros c. by apply client_kept. Qed.

(** The clients to come are not touched by a change of other sockets. *)
Lemma news_kept s s' a x b y l : socks s' = <[a := x]> (<[b := y]> (socks s)) ->
  (forall c, c ∈ l -> cl_sock c <> a /\ cl_sock c <> b) ->
  Forall (client_new s) l -> Forall (client_new s') l.
Proof.
  intros E Hne Hl. apply Forall_forall. intros c Hc. destruct (proj1 (Forall_forall _ _) Hl c Hc) as (z & Hz & Hs).
  destruct (Hne c Hc). exists z. by rewrite E, !lookup_insert_ne.
Qed.

Section Steps.
Context (spid sfd sf ss addr max len : Z).
Hypothesis Haddr : CONTROLTHREAD_BASE <= addr.
Hypothesis Hlen : len <> 0.
Let serving := served spid sfd sf ss addr.
Let listens := listening spid sfd sf ss addr max.

Lemma served_kept s s' : net_kept s s' -> serving s -> serving s'.
Proof.
  intros Hk [Hw [Hsfd Hso] Hsv Hat]. split.
  - by apply (nk_threads _ _ Hk).
  - split; [done|]. by apply (open_socket_kept s).
  - by apply (nk_serves _ _ Hk).
  - by apply (server_at_kept s).
Qed.

Lemma connect_net s c z : serving s -> socks s !! ss = Some z -> client_open s c -> client_new s c ->
  ss <> cl_sock c -> 0 <= backlog_tail z < 32 -> backlog_max z <= 31 ->
  exists slot c' s', run_net spid sfd addr len (NConnect c) s = Done (0, Some (cl_file c)) s' /\
    net_kept s s' /\ socks s' = <[ss := queued slot (cl_sock c) z]> (<[cl_sock c := c']> (socks s)).
Proof.
  intros [Hw [Hsfd Hso] Hsv Hat] Hz [Hcfd Hco] (x & Hx & Hst) Hne Ht Hm.
  set (s1 := with_pid (cl_pid c) s). assert (Hk1 : net_kept s s1) by apply pid_kept.
  destruct (sys_connect_spec s1 (cl_pid c) (cl_fd c) (cl_file c) (cl_sock c) x spid ss z addr len)
    as (slot & c' & s' & E & Hk & Hlast & Hsocks); try done.
  { by apply (nk_threads _ _ Hk1). }
  { by apply (open_socket_kept s s1). }
  { by destruct Hso as [_ _ [? _]]. }
  exists slot, c', s'. split; [|split; [by transitivity s1|done]].
  unfold run_net. rewrite (bind_Done _ _ _ _ _ (as_process_done _ _ _ _ _ E)). by rewrite bind_gets, Hlast.
Qed.

Lemma accept_net s c z k : serving s -> socks s !! ss = Some z -> client_open s c -> ss <> cl_sock c ->
  (sk_state z = SS_CONNECTING \/ sk_state z = SS_CONNECTED) -> head_ok z -> first_pending z k (cl_sock c) ->
  exists c' s', run_net spid sfd addr len NAccept s = Done (31, Some (cl_file c)) s' /\
    net_kept s s' /\ socks s' = <[ss := dequeued z]> (<[cl_sock c := c']> (socks s)).
Proof.
  intros [Hw [Hsfd Hso] Hsv Hat] Hz [Hcfd Hco] Hne Hst Hok Hq.
  set (s1 := with_pid spid s). assert (Hk1 : net_kept s s1) by apply pid_kept.
  destruct (sys_accept_spec s1 spid sfd sf ss z (cl_sock c) (cl_pid c, cl_fd c) (cl_file c) k addr len)
    as (c' & s' & E & Hk & Hlast & Hsocks); try done.
  { by apply (nk_threads _ _ Hk1). }
  { by apply (open_socket_kept s s1). }
  { by apply (open_socket_kept s s1). }
  exists c', s'. split; [|split; [by transitivity s1|done]].
  unfold run_net. rewrite (bind_Done _ _ _ _ _ (as_process_done _ _ _ _ _ E)). by rewrite bind_gets, Hlast.
Qed.

Lemma poll_net s z : serving s -> socks s !! ss = Some z ->
  (sk_state z = SS_CONNECTING \/ sk_state z = SS_CONNECTED) -> head_ok z -> none_pending z ->
  exists s', run_net spid sfd addr len NAccept s = Done (-1, last_object s spid) s' /\
    net_kept s s' /\ socks s' = <[ss := missed z]> (socks s).
Proof.
  intros [Hw [Hsfd Hso] Hsv Hat] Hz Hst Hok Hn.
  set (s1 := with_pid spid s). assert (Hk1 : net_kept s s1) by apply pid_kept.
  destruct (sys_accept_none s1 spid sfd sf ss z addr len) as (s' & E & Hk & Hlast & Hsocks); try done.
  { by apply (nk_threads _ _ Hk1). }
  { by apply (open_socket_kept s s1). }
  exists s'. split; [|split; [by transitivity s1|done]].
  unfold run_net. rewrite (bind_Done _ _ _ _ _ (as_process_done _ _ _ _ _ E)). by rewrite bind_gets, Hlast.
Qed.

(** The queue of the server as it lies in memory: its size, head, tail, places. *)
Definition at_ring (s : nsys) (m h t : Z) (l : list Z) : Prop :=
  serving s /\ exists z, socks s !! ss = Some z /\ backlog_max z = m /\ backlog_head z = h /\
    backlog_tail z = t /\ pending_connections z = l /\
    (sk_state z = SS_CONNECTING \/ sk_state z = SS_CONNECTED).

Definition after (m x : Z) : Z := if m <=? x + 1 then 0 else x + 1.

Lemma accept_ring s c m h t l k : at_ring s m h t l -> client_open s c -> ss <> cl_sock c ->
  1 <= m <= 31 -> 0 <= h < m -> after m h <= k <= m -> zlookup l k = Some (cl_sock c) ->
  (forall j, after m h <= j < k -> zlookup l j = Some NULL) ->
  exists s', run_net spid sfd addr len NAccept s = Done (31, Some (cl_file c)) s' /\
    at_ring s' m (after m h) t l /\ net_kept s s' /\
    forall p, p <> ss -> p <> cl_sock c -> socks s' !! p = socks s !! p.
Proof.
  intros (Hsv & z & Hz & <- & <- & <- & <- & Hst) Hco Hne Hm Hh Hk Hl Hj.
  destruct (accept_net s c z k) as (c' & s' & E & Hkept & Hsocks); try done.
  { split; [done|]. split; [by destruct (os_socket _ _ _ _ (proj2 Hco))|by split]. }
  exists s'. split; [done|]. split; [|split; [done|intros p Hp1 Hp2; by rewrite Hsocks, !lookup_insert_ne]].
  split; [by apply (served_kept s)|]. exists (dequeued z). rewrite Hsocks, lookup_insert_eq.
  split_and!; try done. by right.
Qed.

Lemma poll_ring s m h t l : at_ring s m h t l -> 1 <= m <= 31 -> 0 <= h < m ->
  (forall j, after m h <= j <= m -> zlookup l j = Some NULL) ->
  exists s', run_net spid sfd addr len NAccept s = Done (-1, last_object s spid) s' /\
    at_ring s' m (after m h) t l /\ net_kept s s' /\ forall p, p <> ss -> socks s' !! p = socks s !! p.
Proof.
  intros (Hsv & z & Hz & <- & <- & <- & <- & Hst) Hm Hh Hj.
  destruct (poll_net s z) as (s' & E & Hkept & Hsocks); try done.
  exists s'. split; [done|]. split; [|split; [done|intros p Hp; by rewrite Hsocks, lookup_insert_ne]].
  split; [by apply (served_kept s)|]. exists (missed z). rewrite Hsocks, lookup_insert_eq.
  split_and!; try done. by left.
Qed.

Lemma connect_ring s c z : serving s -> socks s !! ss = Some z -> client_open s c -> client_new s c ->
  ss <> cl_sock c -> 0 <= backlog_tail z < 32 -> backlog_max z <= 31 ->
  let t := after (backlog_max z) (backlog_tail z) in
  exists s', run_net spid sfd addr len (NConnect c) s = Done (0, Some (cl_file c)) s' /\
    at_ring s' (backlog_max z) (backlog_head z) t (zinsert (pending_connections z) t (cl_sock c)) /\
    net_kept s s' /\ last_object s' spid = Some (cl_file c) /\
    forall p, p <> ss -> p <> cl_sock c -> socks s' !! p = socks s !! p.
Proof.
  intros Hsv Hz Hco Hcn Hne Ht Hm t. destruct (connect_net s c z) as (slot & c' & s' & E & Hk & Hsocks); try done.
  exists s'. split; [done|]. pose proof (run_net_inv _ _ _ _ _ _ _ _ _ E) as [_ Hlast].
  split; [|split; [done|split; [done|intros p Hp1 Hp2; by rewrite Hsocks, !lookup_insert_ne]]].
  split; [by apply (served_kept s)|]. exists (queued slot (cl_sock c) z). rewrite Hsocks, lookup_insert_eq.
  split_and!; try done. by left.
Qed.

Lemma connect_step s q c rest : listens s q (c :: rest) -> zlen q < max ->
  exists s', run_net spid sfd addr len (NConnect c) s = Done (0, Some (cl_file c)) s' /\
    listens s' (q ++ [c]) rest /\ net_kept s s'.
Proof.
  intros [Hsv (z & Hz & Hmax & Hq) Ho Hnew Hnd] Hroom.
  assert (Ho' := Ho). apply Forall_app in Ho' as [_ [Hoc _]%Forall_cons]. apply Forall_cons in Hnew as [Hnc Hnew].
  assert (Hne : ss <> cl_sock c).
  { apply NoDup_cons in Hnd as [Hnin _]. intros ->. apply Hnin, list_elem_of_fmap_2, elem_of_app. right. by left. }
  pose proof Hq as [Hm1 Hm2 Hm3 _ _ _ _].
  destruct (connect_net s c z) as (slot & c' & s' & E & Hk & Hsocks); try done.
  { rewrite Hm3. pose proof (Z.mod_pos_bound (backlog_head z + zlen (cl_sock <$> q)) (backlog_max z)). lia. }
  { lia. }
  exists s'. split; [done|]. split; [|done]. split.
  - by apply (served_kept s).
  - exists (queued slot (cl_sock c) z). split; [by rewrite Hsocks, lookup_insert_eq|]. split; [done|].
    rewrite fmap_app. apply queue_enqueue; [done|]. unfold zlen in *. rewrite length_fmap. lia.
  - rewrite <- app_assoc. by apply (clients_kept s).
  - eapply (news_kept s); [exact Hsocks| |exact Hnew]. intros d Hd. apply NoDup_cons in Hnd as [Hnin Hnd].
    split.
    + intros <-. apply Hnin, list_elem_of_fmap_2, elem_of_app. right. by right.
    + rewrite fmap_app in Hnd. apply NoDup_app in Hnd as (_ & _ & Hnd). cbn in Hnd.
      apply NoDup_cons in Hnd as [Hnd _]. intros Ed. apply Hnd. rewrite <- Ed. by apply list_elem_of_fmap_2.
  - by rewrite <- app_assoc.
Qed.

Lemma accept_step s c q rest : listens s (c :: q) rest ->
  exists s', run_net spid sfd addr len NAccept s = Done (31, Some (cl_file c)) s' /\
    listens s' q rest /\ net_kept s s'.
Proof.
  intros [Hsv (z & Hz & Hmax & Hq) Ho Hnew Hnd]. pose proof Ho as [Hoc Ho']%Forall_cons.
  assert (Hne : ss <> cl_sock c) by (apply NoDup_cons in Hnd as [Hnin _]; intros ->; apply Hnin; by left).
  assert (Hcn : cl_sock c <> NULL) by by destruct (os_socket _ _ _ _ (proj2 Hoc)).
  destruct (accept_net s c z (next_place (backlog_head z) z)) as (x & s' & E & Hk & Hsocks); try done.
  { by apply (qo_state _ _ Hq). }
  { by eapply queue_head_ok. }
  { by apply (queue_first z (cl_sock c) (cl_sock <$> q)). }
  exists s'. split; [done|]. split; [|done]. split.
  - by apply (served_kept s).
  - exists (dequeued z). split; [by rewrite Hsocks, lookup_insert_eq|]. split; [done|].
    by apply (queue_dequeue z (cl_sock c)).
  - by apply (clients_kept s).
  - eapply (news_kept s); [exact Hsocks| |exact Hnew]. intros d Hd. apply NoDup_cons in Hnd as [Hnin Hnd].
    split.
    + intros <-. apply Hnin, list_elem_of_fmap_2. right. apply elem_of_app. by right.
    + cbn in Hnd. apply NoDup_cons in Hnd as [Hnd _]. intros Ed. apply Hnd. rewrite <- Ed.
      apply list_elem_of_fmap_2, elem_of_app. by right.
  - apply NoDup_cons in Hnd as [Hnin Hnd]. cbn in Hnin, Hnd. apply NoDup_cons in Hnd as [_ Hnd].
    apply NoDup_cons. split; [|done]. intros Hin. apply Hnin. by right.
Qed.

Lemma nets_refine ops : forall s q rs, spec_nets max ops q = Some rs -> listens s q (newcomers ops) ->
  exists s', run_nets spid sfd addr len ops s = Done rs s'.
Proof.
  induction ops as [|op ops IH]; intros s q rs Hs Hl; [injection Hs as <-; by exists s|].
  destruct op as [c|]; cbn [spec_nets] in Hs.
  - destruct (Z.ltb_spec (zlen q) max) as [Hr|]; [|done].
    apply fmap_Some in Hs as (rs' & Hs & ->). destruct (connect_step s q c (newcomers ops) Hl Hr) as (s1 & E & Hl1 & _).
    destruct (IH _ _ _ Hs Hl1) as (s2 & E2). exists s2. cbn [run_nets].
    by rewrite (bind_Done _ _ _ _ _ E), (bind_Done _ _ _ _ _ E2).
  - destruct q as [|c q]; [done|]. apply fmap_Some in Hs as (rs' & Hs & ->).
    destruct (accept_step s c q (newcomers ops) Hl) as (s1 & E & Hl1 & _).
    destruct (IH _ _ _ Hs Hl1) as (s2 & E2). exists s2. cbn [run_nets].
    by rewrite (bind_Done _ _ _ _ _ E), (bind_Done _ _ _ _ _ E2).
Qed.

End Steps.

(** ** The creation of a socket *)

(** A state after an allocation for the process [p]. *)
Definition with_alloc (p : Z) (y : process_d) (h : mst) (s : fsys) : fsys :=
  (s <| kern := (kern s) <| pt := (pt (kern s)) <| procs := <[p := y]> (procs (pt (kern s))) |> |> |>)
    <| kheap := h |>.

Lemma kmalloc_exact s l size p x :
  wf_heap (kheap s) l -> current_valid (pt (kern s)) p x -> 0 < size < 2 ^ 31 ->
  g_heap_pointer (kheap s) + size + MMBLOCK_SIZE <= KERNEL_HEAP_END ->
  Z.of_nat (length l) + 1 < MMBLOCK_COUNT_MAX ->
  exists v h, on_heap (kmalloc size) s =
      Done (g_heap_pointer (kheap s) + MMBLOCK_SIZE) (with_alloc p (x <| p_allocated_memory := v |>) h s) /\
    wf_heap h (l ++ [g_heap_pointer (kheap s)]) /\ mem h = mem (kheap s) /\
    g_heap_pointer h = g_heap_pointer (kheap s) + MMBLOCK_SIZE + size.
Proof.
  intros Hw Hc Hs Hfit Hn. pose proof (wh_available _ _ Hw) as Hav.
  destruct (kmalloc_fits ((kheap s) <| mptab := pt (kern s) |>) l size p x) as (h & E & Hw' & Hm & Hg & Hp);
    [by destruct Hw|done|lia|cbn; lia|done|].
  exists (u64 (p_allocated_memory x + Z.max 1 size)), h. split.
  - unfold on_heap. rewrite E. by rewrite Hp.
  - split; [done|]. split; [done|]. rewrite Hg. cbn. lia.
Qed.

(** A socket [z] at [sk], its file [w] at [f], and the process [p], changed. *)
Definition made (p : Z) (y : process_d) (h : mst) (f : Z) (w : file_d) (sk : Z) (z : socket_d) (s : nsys) : nsys :=
  s <| nfs := (with_alloc p y h (nfs s)) <| files := <[f := w]> (files (nfs s)) |> |>
    <| socks := <[sk := z]> (socks s) |>.

(** The process with a new socket in slot [i]. *)
Definition with_socket (sk i f v : Z) (x : process_d) : process_d :=
  x <| p_allocated_memory := v |> <| p_priv := sk |> <| p_Objects := zinsert (p_Objects x) i f |>.

Lemma attach_spec s l p x i sk z :
  wf_heap (kheap (nfs s)) l -> current_valid (pt (kern (nfs s))) p x -> first_free (p_Objects x) i -> i < 31 ->
  let hp := g_heap_pointer (kheap (nfs s)) in
  hp + BUFSIZ + FILE_SIZE + 2 * MMBLOCK_SIZE <= KERNEL_HEAP_END -> Z.of_nat (length l) + 2 < MMBLOCK_COUNT_MAX ->
  socks s !! sk = Some z ->
  let base := hp + MMBLOCK_SIZE in let f := hp + MMBLOCK_SIZE + BUFSIZ + MMBLOCK_SIZE in
  exists v h l', attach_socket sk s = Done i (made p (with_socket sk i f v x) h f
      (socket_file (current_pid (pt (kern (nfs s)))) (current_user (nfs s)) (current_group (nfs s)) base sk i)
      sk (z <| private_file := f |>) s) /\
    wf_heap h l' /\ Z.of_nat (length l') = Z.of_nat (length l) + 2 /\ mem h = mem (kheap (nfs s)) /\
    g_heap_pointer h = hp + BUFSIZ + FILE_SIZE + 2 * MMBLOCK_SIZE.
Proof.
  intros Hw Hc Hi H31 hp Hfit Hn Hz base f. pose proof (wh_pointer _ _ Hw) as Hp. fold hp in Hp.
  destruct (kmalloc_exact (nfs s) l BUFSIZ p x) as (v1 & h1 & E1 & Hw1 & Hm1 & Hg1);
    [done|done|done|unfold FILE_SIZE, MMBLOCK_SIZE in *; lia|lia|].
  set (x1 := x <| p_allocated_memory := v1 |>) in *.
  pose proof (current_valid_alloc _ p x x1 Hc eq_refl eq_refl) as Hc1. fold hp in E1, Hg1. fold base in E1.
  destruct (kmalloc_exact (with_alloc p x1 h1 (nfs s)) (l ++ [hp]) FILE_SIZE p x1)
    as (v2 & h2 & E2 & Hw2 & Hm2 & Hg2);
    [done|done|done|cbn; rewrite Hg1; unfold BUFSIZ in *; lia|rewrite length_app; cbn; lia|].
  change (kheap (with_alloc p x1 h1 (nfs s))) with h1 in *. rewrite Hg1 in *.
  exists v2, h2, ((l ++ [hp]) ++ [hp + MMBLOCK_SIZE + BUFSIZ]).
  split; [|split; [done|split; [rewrite !length_app; cbn; lia|split; [by rewrite Hm2, Hm1|rewrite Hg2; lia]]]].
  pose proof Hc as (_ & Hpid & Hl & Hpn & Hx & Hu & Hm). unfold attach_socket, get_current_process,
    processList_at, deref_process, NULL in *.
  rewrite (bind_Done _ _ _ _ _ (on_ps_gets _ _)). zguard. cbn [orb].
  rewrite (bind_Done _ _ _ _ _ (on_ps_getsome _ _ _ Hl)). zguard.
  rewrite (bind_Done _ _ _ _ _ (on_ps_getsome _ _ _ Hx)), Hu, Hm. cbn [negb orb Z.eqb Pos.eqb TRUE].
  rewrite (bind_Done _ _ _ _ _ (find_socket_slot_spec s p x i Hx Hi H31)).
  rewrite (bind_Done _ _ _ _ _ (on_fs_run _ _ _ _ E1)).
  assert (Hb : base <> 0) by (unfold base, KERNEL_HEAP_START, MMBLOCK_SIZE in *; lia).
  assert (Hf : f <> 0) by (unfold f, KERNEL_HEAP_START, MMBLOCK_SIZE, BUFSIZ in *; lia). zguard.
  set (s1 := s <| nfs := _ |>). rewrite (bind_Done _ _ _ _ _ (on_fs_run _ s1 _ _ E2)). fold f. zguard.
  rewrite !bind_gets. set (s2 := s1 <| nfs := _ |>).
  rewrite (bind_Done (on_fs (put_file f _)) _ _ _ _ (on_fs_run _ _ _ _ eq_refl)). set (s3 := s2 <| nfs := _ |>).
  unfold set_socket. rewrite bind_bind, (bind_Done _ _ _ _ _ (deref_socket_done s3 sk z Hz)).
  unfold put_socket. rewrite bind_modify. cbn beta. set (s4 := s3 <| socks := _ |>).
  set (x2 := x1 <| p_allocated_memory := v2 |>) in *.
  assert (Hx4 : procs (pt (kern (nfs s4))) !! p = Some x2) by apply lookup_insert_eq.
  rewrite (bind_Done (on_ps (update_process p _)) _ _ _ _ (on_fs_run _ _ _ _ (update_process_done _ _ _ _ Hx4))).
  erewrite (bind_Done (on_fs (set_object p i f))).
  2: { apply on_fs_run, set_object_done. cbn. apply lookup_insert_eq. }
  unfold made, with_alloc, with_process. cbn -[zinsert socket_file]. rewrite !insert_insert_eq. done.
Qed.

(** A socket that was just created, with its file. *)
Record new_sock (z : socket_d) (f : Z) : Prop := {
  nw_used : sk_used z = TRUE;
  nw_magic : sk_magic z = 1234;
  nw_file : private_file z = f;
  nw_state : sk_state z = SS_UNCONNECTED;
  nw_max : backlog_max z = 4;
  nw_head : backlog_head z = 0;
  nw_tail : backlog_tail z = 0;
  nw_pending : pending_connections z = replicate 32 0
}.

(** The families that [sys_socket] creates: an Internet socket only raw. *)
Definition family_ok (family type : Z) : Prop :=
  (type = SOCK_STREAM \/ type = SOCK_DGRAM \/ type = SOCK_RAW) /\
  (family = AF_GRAMADO \/ family = AF_UNIX \/ family = AF_INET /\ type = SOCK_RAW).

Definition sk_at (s : nsys) : Z := g_heap_pointer (kheap (nfs s)) + MMBLOCK_SIZE.
Definition base_at (s : nsys) : Z := sk_at s + SOCKET_SIZE + MMBLOCK_SIZE.
Definition file_at (s : nsys) : Z := base_at s + BUFSIZ + MMBLOCK_SIZE.

Lemma create_socket_done s l p x :
  wf_heap (kheap (nfs s)) l -> current_valid (pt (kern (nfs s))) p x ->
  g_heap_pointer (kheap (nfs s)) + SOCKET_SIZE + MMBLOCK_SIZE <= KERNEL_HEAP_END ->
  Z.of_nat (length l) + 1 < MMBLOCK_COUNT_MAX ->
  exists v h, create_socket_object s = Done (sk_at s)
      (s <| nfs := with_alloc p (x <| p_allocated_memory := v |>) h (nfs s) |> <| socks := <[sk_at s :=
        fresh_socket (current_pid (pt (kern (nfs s)))) (current_user (nfs s)) (current_group (nfs s))]> (socks s) |>) /\
    sk_at s <> NULL /\ wf_heap h (l ++ [g_heap_pointer (kheap (nfs s))]) /\ mem h = mem (kheap (nfs s)) /\
    g_heap_pointer h = sk_at s + SOCKET_SIZE.
Proof.
  intros Hw Hc Hfit Hn. pose proof (wh_pointer _ _ Hw) as Hp.
  destruct (kmalloc_exact (nfs s) l SOCKET_SIZE p x) as (v & h & E & Hw1 & Hm & Hg);
    [done|done|unfold SOCKET_SIZE; lia|lia|done|]. fold (sk_at s) in *.
  assert (Hsk : sk_at s <> NULL) by (unfold sk_at, KERNEL_HEAP_START, MMBLOCK_SIZE, NULL in *; lia).
  exists v, h. split; [|done]. unfold create_socket_object. rewrite (bind_Done _ _ _ _ _ (on_fs_run _ _ _ _ E)).
  unfold get_current_process, NULL in *. zguard. set (s1 := s <| nfs := _ |>).
  by rewrite (bind_Done _ _ _ _ _ (on_ps_gets _ s1)).
Qed.

(** A step on the socket at [sk] of a state in which it is [z]. *)
Lemma set_socket_at s sk z g :
  set_socket sk g (s <| socks := <[sk := z]> (socks s) |>) = Done tt (s <| socks := <[sk := g z]> (socks s) |>).
Proof.
  unfold set_socket. rewrite (bind_Done _ _ _ z (s <| socks := <[sk := z]> (socks s) |>)).
  2: { apply deref_socket_done, lookup_insert_eq. }
  unfold put_socket, modify. cbn. by rewrite insert_insert_eq.
Qed.

Lemma family_done expected address s sk z family : sk <> NULL -> sk_magic z = 1234 -> family = expected ->
  socket_of_family expected address sk family (s <| socks := <[sk := z]> (socks s) |>) =
    attach_socket sk (s <| socks := <[sk := address z]> (socks s) |>).
Proof.
  intros Hn Hm ->. unfold socket_of_family, NULL in *. zguard.
  rewrite (bind_Done _ _ _ z (s <| socks := <[sk := z]> (socks s) |>)), Hm, Z.eqb_refl.
  2: { apply deref_socket_done, lookup_insert_eq. }
  cbn [negb Z.eqb Pos.eqb]. unfold put_socket. rewrite bind_modify. cbn. by rewrite insert_insert_eq.
Qed.

(** [sys_socket] up to the allocation of the file: the fields of the new socket. *)
Lemma family_branch family type s sk z : family_ok family type -> sk <> NULL -> new_sock z 0 ->
  exists z', new_sock z' 0 /\
    (if family =? AF_GRAMADO then
       set_socket sk (fun y => y <| connection_type := 1 |>);; socket_gramado sk AF_GRAMADO type 0
     else if family =? AF_UNIX then
       set_socket sk (fun y => y <| connection_type := 1 |>);; socket_unix sk AF_UNIX type 0
     else if family =? AF_INET then
       set_socket sk (fun y => y <| connection_type := 0 |>);;
       if negb (type =? SOCK_RAW) then panic "sys_socket: Only SOCK_RAW in AF_INET for now" else
       socket_inet sk AF_INET type 0
     else mret (-1)) (s <| socks := <[sk := z]> (socks s) |>) =
    attach_socket sk (s <| socks := <[sk := z']> (socks s) |>).
Proof.
  intros [_ Hf] Hn [H1 H2 H3 H4 H5 H6 H7 H8]. unfold socket_gramado, socket_unix, socket_inet.
  destruct Hf as [-> | [-> | [-> ->]]]; cbn [Z.eqb Pos.eqb negb AF_GRAMADO AF_UNIX AF_INET SOCK_RAW];
    (eexists; split; [|rewrite (bind_Done _ _ _ _ _ (set_socket_at _ _ _ _)); by rewrite family_done]); by split.
Qed.

Lemma made_collapse p y1 h1 sk z1 y h f w z (s : nsys) :
  made p y h f w sk z (s <| nfs := with_process p y1 (with_alloc p y1 h1 (nfs s)) |>
    <| socks := <[sk := z1]> (socks s) |>) = made p y h f w sk z s.
Proof.
  unfold made, with_alloc, with_process. cbn. by rewrite !insert_insert_eq.
Qed.

Lemma sys_socket_spec s l p x i family type :
  wf_threads (kern (nfs s)) -> wf_heap (kheap (nfs s)) l -> current_valid (pt (kern (nfs s))) p x ->
  first_free (p_Objects x) i -> i < 31 -> family_ok family type ->
  g_heap_pointer (kheap (nfs s)) + SOCKET_SIZE + BUFSIZ + FILE_SIZE + 3 * MMBLOCK_SIZE <= KERNEL_HEAP_END ->
  Z.of_nat (length l) + 3 < MMBLOCK_COUNT_MAX ->
  exists ts v h l' z, sys_socket family type 0 s = Done i (made p (with_socket (sk_at s) i (file_at s) v x) h
      (file_at s) (socket_file (current_pid (pt (kern (nfs s)))) (current_user (nfs s)) (current_group (nfs s))
        (base_at s) (sk_at s) i) (sk_at s) z (with_threads ts s)) /\
    wf_threads (kern (nfs (with_threads ts s))) /\ new_sock z (file_at s) /\ wf_heap h l' /\
    Z.of_nat (length l') = Z.of_nat (length l) + 3 /\ mem h = mem (kheap (nfs s)) /\
    g_heap_pointer h = file_at s + FILE_SIZE.
Proof.
  intros Hwt Hw Hc Hi H31 Hfam Hfit Hn. destruct (credit_net s Hwt) as (ts & E & Hwt').
  set (s1 := with_threads ts s) in *.
  destruct (create_socket_done s1 l p x) as (v1 & h1 & Ec & Hsk & Hw1 & Hm1 & Hg1);
    [done|done|cbn; unfold BUFSIZ, FILE_SIZE, MMBLOCK_SIZE in *; lia|lia|].
  pose proof Hc as (_ & Hpid & Hl & Hpn & Hx & Hu & Hm).
  set (x1 := x <| p_allocated_memory := v1 |>) in *. set (y := x1 <| p_priv := sk_at s |>).
  change (sk_at s1) with (sk_at s) in *.
  set (s2 := s1 <| nfs := with_process p y (with_alloc p x1 h1 (nfs s1)) |>).
  destruct (family_branch family type s2 (sk_at s) ((fresh_socket (current_pid (pt (kern (nfs s1))))
    (current_user (nfs s1)) (current_group (nfs s1))) <| sk_family := family |> <| sk_type := type |>
    <| sk_protocol := 0 |> <| ip_ipv6 := 0 |> <| ip_ipv4 := 0 |> <| sk_port := 0 |>
    <| sk_pid := current_pid (pt (kern (nfs s1))) |> <| sk_uid := current_user (nfs s1) |>
    <| sk_gid := current_group (nfs s1) |>)) as (z & Hz & Eb); [done|done|by split|].
  set (s3 := s2 <| socks := <[sk_at s := z]> (socks s2) |>) in *.
  assert (Hc3 : current_valid (pt (kern (nfs s3))) p y).
  { apply (current_valid_alloc (pt (kern (with_alloc p x1 h1 (nfs s1)))) p x1 y); [|done|done].
    by apply (current_valid_alloc _ p x x1). }
  destruct (attach_spec s3 (l ++ [g_heap_pointer (kheap (nfs s1))]) p y i (sk_at s) z)
    as (v & h & l' & Ea & Hw2 & Hl2 & Hm2 & Hg2);
    [done|done|done|done|cbn -[Z.mul]; rewrite Hg1; unfold sk_at in *; lia|rewrite length_app; cbn; lia|
     by apply lookup_insert_eq|].
  change (kheap (nfs s3)) with h1 in *. rewrite Hg1 in *. fold (base_at s) in Ea. fold (file_at s) in Ea.
  exists ts, v, h, l', (z <| private_file := file_at s |>). split.
  2: { split; [done|]. split; [by destruct Hz; split|]. split; [done|].
    split; [rewrite Hl2, length_app; cbn; lia|]. split; [by rewrite Hm2, Hm1|].
    rewrite Hg2. unfold file_at, base_at. lia. }
  unfold sys_socket, get_current_process, processList_at, deref_process, NULL in *.
  destruct Hfam as [Ht Hf].
  rewrite (bind_Done _ _ _ _ _ E). replace (family <? 0) with false
    by (symmetry; apply Z.ltb_ge; unfold AF_GRAMADO, AF_UNIX, AF_INET in Hf; lia).
  replace (negb (type =? SOCK_STREAM) && negb (type =? SOCK_DGRAM) && negb (type =? SOCK_RAW)) with false
    by (destruct Ht as [-> | [-> | ->]]; done).
  cbn [Z.ltb Z.eqb Z.compare negb]. rewrite (bind_Done _ _ _ _ _ (on_ps_gets _ s1)).
  change (current_pid (pt (kern (nfs s1)))) with (current_pid (pt (kern (nfs s)))) in *. zguard. cbn [orb].
  rewrite (bind_Done _ _ _ _ _ (on_ps_getsome _ s1 _ Hl)). zguard.
  rewrite (bind_Done _ _ _ _ _ (on_ps_getsome _ s1 _ Hx)), Hm. cbn [negb Z.eqb Pos.eqb].
  set (s1a := s1 <| nfs := with_alloc p x1 h1 (nfs s1) |>).
  set (z0 := fresh_socket _ _ _) in Ec.
  assert (Ec' : create_socket_object s1 = Done (sk_at s) (s1a <| socks := <[sk_at s := z0]> (socks s1a) |>))
    by exact Ec.
  rewrite (bind_Done _ _ _ _ _ Ec'). zguard. rewrite !bind_gets.
  rewrite (bind_Done _ _ _ _ _ (set_socket_at s1a _ _ _)).
  erewrite (bind_Done (on_ps (update_process p _))).
  2: { apply on_fs_run, (update_process_done _ p x1). apply lookup_insert_eq. }
  etrans; [exact Eb|]. rewrite Ea. f_equal. etrans; [|apply (made_collapse p y h1 (sk_at s) z)].
  unfold made, with_alloc, with_process. cbn -[zinsert socket_file]. by rewrite !insert_insert_eq.
Qed.

(** ** A connection from its beginning *)

(** The process [pid] is valid; [p] and [x] are its address and its structure. *)
Definition process_at (s : nsys) (pid p : Z) (x : process_d) : Prop :=
  current_valid (pt (kern (nfs (with_pid pid s)))) p x.

(** A server makes a socket and listens, a client makes a socket and connects,
    and the server accepts. *)
Definition local_connection (spid cpid family type backlog addr len : Z) : M nsys (list Z) :=
  sfd ← as_process spid (sys_socket family type 0);
  r1 ← as_process spid (sys_listen sfd backlog);
  cfd ← as_process cpid (sys_socket family type 0);
  r2 ← as_process cpid (sys_connect cfd addr len);
  r3 ← as_process spid (sys_accept sfd addr len);
  mret [sfd; r1; cfd; r2; r3].

Section Made.
Context (s : nsys) (p : Z) (x y : process_d) (h : mst) (f : Z) (w : file_d) (sk : Z) (z : socket_d).

Lemma made_keeps hd f' sk' p' :
  zlookup (processList (pt (kern (nfs s)))) hd.1 = Some p' -> p' <> p -> f' <> f -> sk' <> sk ->
  open_socket s hd f' sk' -> open_socket (made p y h f w sk z s) hd f' sk'.
Proof.
  intros Hl Hp Hf Hs [(H1 & H2 & q & u & Hlq & Hq & Hu & Hr) (Hfn & v & Hv & Hvr) (Hsn & c & Hc & Hcr)].
  assert (q = p') as -> by congruence. split.
  - split; [done|]. split; [done|]. exists p', u. cbn. by rewrite lookup_insert_ne.
  - split; [done|]. exists v. cbn. by rewrite lookup_insert_ne.
  - split; [done|]. exists c. cbn. by rewrite lookup_insert_ne.
Qed.

Lemma made_open pid i base user group :
  zlookup (processList (pt (kern (nfs s)))) pid = Some p -> 0 <= pid < PROCESS_COUNT_MAX -> p <> NULL ->
  p_used x = TRUE -> p_magic x = 1234 -> y = with_socket sk i f (p_allocated_memory y) x ->
  0 < i < 32 -> length (p_Objects x) = 64%nat -> f <> NULL -> sk <> NULL ->
  w = socket_file pid user group base sk i -> new_sock z f ->
  open_socket (made p y h f w sk z s) (pid, i) f sk.
Proof.
  intros Hl Hpid Hp Hu Hm Hy Hi Hlen Hf Hs -> [Hzu Hzm Hzf _ _ _ _ _]. split.
  - split; [done|]. split; [done|]. exists p, y. cbn. rewrite lookup_insert_eq, Hy. cbn -[zinsert].
    do 5 (split; [done|]). apply zlookup_insert_eq. lia.
  - split; [done|]. eexists. cbn. by rewrite lookup_insert_eq.
  - split; [done|]. exists z. cbn. by rewrite lookup_insert_eq.
Qed.

Lemma made_serves pid i :
  zlookup (processList (pt (kern (nfs s)))) pid = Some p -> 0 <= pid < PROCESS_COUNT_MAX -> p <> NULL ->
  y = with_socket sk i f (p_allocated_memory y) x -> f <> NULL ->
  first_free (p_Objects x) i -> zlookup (p_Objects x) (i + 1) = Some 0 -> i + 1 < 31 ->
  length (p_Objects x) = 64%nat -> serves (made p y h f w sk z s) pid sk.
Proof.
  intros Hl Hpid Hp Hy Hf (Hi & H0 & Hlt) Hnext H31 Hlen. split; [done|]. exists p, y, (i + 1). cbn.
  rewrite lookup_insert_eq, Hy. cbn -[zinsert]. rewrite length_zinsert. do 5 (split; [done|]).
  split; [|done]. split; [unfold NUMBER_OF_FILES; lia|].
  split; [by rewrite zlookup_insert_ne by lia|]. intros j Hj. destruct (decide (i = j)) as [->|Hne].
  - exists f. split; [apply zlookup_insert_eq; lia|done].
  - rewrite zlookup_insert_ne by lia. apply Hlt. lia.
Qed.

Lemma made_serves_other pid sk' p' : zlookup (processList (pt (kern (nfs s)))) pid = Some p' -> p' <> p ->
  serves s pid sk' -> serves (made p y h f w sk z s) pid sk'.
Proof.
  intros Hl Hne (Hpid & q & u & i & Hlq & Hr). assert (q = p') as -> by congruence.
  split; [done|]. exists p', u, i. cbn. by rewrite lookup_insert_ne.
Qed.

Lemma made_ram : mem h = mem (kheap (nfs s)) -> ram (nfs (made p y h f w sk z s)) = ram (nfs s).
Proof. by intros E. Qed.

Lemma made_threads : wf_threads (kern (nfs s)) -> wf_threads (kern (nfs (made p y h f w sk z s))).
Proof. by intros [? ? ?]. Qed.

End Made.

Lemma sys_listen_spec s pid p x fd f sk w z backlog :
  wf_threads (kern (nfs s)) -> current_pid (pt (kern (nfs s))) = pid ->
  0 <= pid < PROCESS_COUNT_MAX -> zlookup (processList (pt (kern (nfs s)))) pid = Some p -> p <> NULL ->
  procs (pt (kern (nfs s))) !! p = Some x -> 0 <= fd < OPEN_MAX -> zlookup (p_Objects x) fd = Some f ->
  f <> NULL -> files (nfs s) !! f = Some w -> f_magic w = 1234 -> f_object w = ObjectTypeSocket ->
  f_socket w = sk -> p_priv x = sk -> sk <> NULL -> socks s !! sk = Some z ->
  exists ts, wf_threads (kern (nfs (with_threads ts s))) /\ sys_listen fd backlog s = Done 0
    ((with_threads ts s) <| socks := <[sk := z <| backlog_max := backlog_of backlog |>
      <| isAcceptingConnections := TRUE |>]> (socks s) |>).
Proof.
  intros Hw Hc Hpid Hl Hp Hx Hfd Ho Hf Hfw Hm Ht Hs Hpr Hsn Hz.
  destruct (credit_net s Hw) as (ts & E & Hw'). exists ts. split; [done|]. set (s1 := with_threads ts s) in *.
  unfold sys_listen, bad_fd, get_current_process, processList_at, deref_process, OPEN_MAX, NULL in *.
  rewrite (bind_Done _ _ _ _ _ E). zguard. cbn [orb]. rewrite (bind_Done _ _ _ _ _ (on_ps_gets _ s1)).
  change (current_pid (pt (kern (nfs s1)))) with (current_pid (pt (kern (nfs s)))). rewrite Hc. zguard.
  rewrite (bind_Done _ _ _ _ _ (on_ps_getsome _ s1 _ Hl)). zguard.
  rewrite (bind_Done _ _ _ _ _ (on_fs_object s1 _ _ _ _ Hx Ho)). zguard.
  rewrite (bind_Done _ _ _ _ _ (is_socket_done s1 _ _ Hfw Hf Hm Ht)). cbn [negb].
  rewrite (bind_Done _ _ _ _ _ (on_fs_deref s1 _ _ Hfw)), Hs. zguard.
  rewrite (bind_Done _ _ _ _ _ (on_ps_getsome _ s1 _ Hx)), Hpr, Z.eqb_refl. cbn [negb].
  unfold set_socket. rewrite bind_bind, (bind_Done _ _ _ _ _ (deref_socket_done s1 _ _ Hz)). done.
Qed.

(** A server that has made its socket and listens, the heap below [top] used. *)
Record server_ready (s0 s : nsys) (spid i f sk backlog n : Z) (p : Z) : Prop := {
  sr_threads : wf_threads (kern (nfs s));
  sr_heap : exists l, wf_heap (kheap (nfs s)) l /\ Z.of_nat (length l) = n;
  sr_top : g_heap_pointer (kheap (nfs s)) =
    g_heap_pointer (kheap (nfs s0)) + SOCKET_SIZE + BUFSIZ + FILE_SIZE + 3 * MMBLOCK_SIZE;
  sr_below : sk < g_heap_pointer (kheap (nfs s)) /\ f < g_heap_pointer (kheap (nfs s));
  sr_server : open_socket s (spid, i) f sk;
  sr_serves : serves s spid sk;
  sr_queue : exists z, socks s !! sk = Some z /\ backlog_max z = backlog_of backlog /\ queue_of z [];
  sr_memory : ram (nfs s) = ram (nfs s0);
  sr_ports : gramado_ports (kern (nfs s)) = gramado_ports (kern (nfs s0));
  sr_table : processList (pt (kern (nfs s))) = processList (pt (kern (nfs s0))) /\
    system_state (pt (kern (nfs s))) = system_state (pt (kern (nfs s0)));
  sr_procs : forall q, q <> p -> procs (pt (kern (nfs s))) !! q = procs (pt (kern (nfs s0))) !! q
}.

Lemma new_queue z f b : new_sock z f ->
  queue_of (z <| backlog_max := backlog_of b |> <| isAcceptingConnections := TRUE |>) [].
Proof.
  intros [H1 H2 H3 H4 H5 H6 H7 H8]. pose proof (backlog_of_range b). split; cbn -[Z.modulo]; try done.
  - rewrite H6. lia.
  - rewrite H6, H7. by rewrite Z.mod_0_l by lia.
  - by rewrite H8.
  - change (0 <= backlog_of b). lia.
Qed.

Lemma server_phase s l spid p x i family type backlog :
  wf_threads (kern (nfs s)) -> wf_heap (kheap (nfs s)) l -> process_at s spid p x ->
  first_free (p_Objects x) i -> zlookup (p_Objects x) (i + 1) = Some 0 -> i + 1 < 31 ->
  length (p_Objects x) = 64%nat -> family_ok family type ->
  g_heap_pointer (kheap (nfs s)) + SOCKET_SIZE + BUFSIZ + FILE_SIZE + 3 * MMBLOCK_SIZE <= KERNEL_HEAP_END ->
  Z.of_nat (length l) + 3 < MMBLOCK_COUNT_MAX ->
  exists s1 s2 f sk, sys_socket family type 0 (with_pid spid s) = Done i s1 /\
    sys_listen i backlog (with_pid spid s1) = Done 0 s2 /\
    server_ready s s2 spid i f sk backlog (Z.of_nat (length l) + 3) p.
Proof.
  intros Hwt Hw Hc Hi Hnext H31 Hlen Hfam Hfit Hn. pose proof (wh_pointer _ _ Hw) as Hp.
  pose proof Hc as (Hrun & Hpid & Hl & Hpn & Hx & Hu & Hm). pose proof Hi as (Hi3 & _).
  destruct (sys_socket_spec (with_pid spid s) l p x i family type) as
    (ts & v & h & l' & z & E & Hwt1 & Hz & Hw1 & Hl1 & Hmem & Hg);
    [by apply (nk_threads _ _ (pid_kept spid s))|done|done|done|lia|done|done|done|].
  set (f := file_at (with_pid spid s)) in *. set (sk := sk_at (with_pid spid s)) in *.
  set (w := socket_file _ _ _ _ sk i) in E. set (s0 := with_threads ts (with_pid spid s)) in *.
  set (y := with_socket sk i f v x) in E. set (s1 := made p y h f w sk z s0) in E.
  assert (Hfn : f <> NULL) by (unfold f, file_at, base_at, sk_at, KERNEL_HEAP_START, MMBLOCK_SIZE, SOCKET_SIZE,
    BUFSIZ, NULL in *; cbn; lia).
  assert (Hsn : sk <> NULL) by (unfold sk, sk_at, KERNEL_HEAP_START, MMBLOCK_SIZE, NULL in *; cbn; lia).
  assert (Hob : zlookup (p_Objects y) i = Some f) by (apply (zlookup_insert_eq (p_Objects x) i f); lia).
  destruct (sys_listen_spec s1 spid p y i f sk w z backlog) as (ts2 & Hwt2 & E2);
    try done; [by apply made_threads|by apply lookup_insert_eq|unfold OPEN_MAX; lia|
      by apply lookup_insert_eq|by apply lookup_insert_eq|].
  eexists s1, _, f, sk. split; [done|]. split; [exact E2|].
  assert (Hos : open_socket s1 (spid, i) f sk).
  { apply (made_open s0 p x y h f w sk z spid i (base_at (with_pid spid s)) (current_user (nfs s))
      (current_group (nfs s))); try done. lia. }
  assert (Hsv : serves s1 spid sk) by by apply (made_serves s0 p x y h f w sk z spid i).
  split; try done.
  - by exists l'.
  - cbn. rewrite Hg. unfold f, file_at, base_at, sk_at. cbn. lia.
  - cbn. rewrite Hg. unfold f, file_at, base_at, sk, sk_at, FILE_SIZE, BUFSIZ, SOCKET_SIZE, MMBLOCK_SIZE. cbn. lia.
  - destruct Hos as [Hh Hfo (_ & z' & Hz' & Hr)]. split; [done|done|]. split; [done|].
    assert (z' = z) as -> by (cbn in Hz'; rewrite lookup_insert_eq in Hz'; congruence).
    eexists. cbn. split; [apply lookup_insert_eq|]. done.
  - eexists. cbn. split; [apply lookup_insert_eq|]. split; [done|]. by apply (new_queue z f).
  - intros q Hq. cbn. by rewrite lookup_insert_ne.
Qed.

Lemma client_phase s0 s spid i f sk backlog n p cpid q y j family type addr :
  server_ready s0 s spid i f sk backlog n p -> process_at s cpid q y -> q <> p -> i <> 31 ->
  zlookup (processList (pt (kern (nfs s)))) spid = Some p ->
  first_free (p_Objects y) j -> j < 31 -> length (p_Objects y) = 64%nat -> family_ok family type ->
  g_heap_pointer (kheap (nfs s)) + SOCKET_SIZE + BUFSIZ + FILE_SIZE + 3 * MMBLOCK_SIZE <= KERNEL_HEAP_END ->
  n + 3 < MMBLOCK_COUNT_MAX -> server_at s addr spid ->
  exists s' cf cs w base, sys_socket family type 0 (with_pid cpid s) = Done j s' /\
    listening spid i f sk addr (backlog_of backlog) s' [] [mk_client cpid j cf cs] /\
    files (nfs s') !! cf = Some w /\ wf_socket base BEmpty w /\ ram (nfs s') = ram (nfs s).
Proof.
  intros [Hwt (l & Hw & Hln) _ [Hb1 Hb2] Hso Hsv (z0 & Hz0 & Hmax0 & Hq0) _ _ _ _] Hc Hqp Hi31 Hlp Hj Hj31
    Hlen Hfam Hfit Hn Hat. pose proof (wh_pointer _ _ Hw) as Hp.
  pose proof Hc as (Hrun & Hpid & Hl & Hpn & Hx & Hu & Hm). pose proof Hj as (Hj3 & _).
  destruct (sys_socket_spec (with_pid cpid s) l q y j family type) as
    (ts & v & h & l' & z & E & Hwt1 & Hz & Hw1 & Hl1 & Hmem & Hg);
    [by apply (nk_threads _ _ (pid_kept cpid s))|done|done|done|lia|done|done|lia|].
  set (cf := file_at (with_pid cpid s)) in *. set (cs := sk_at (with_pid cpid s)) in *.
  set (base := base_at (with_pid cpid s)) in *. set (w := socket_file _ _ _ base cs j) in E.
  set (s1 := with_threads ts (with_pid cpid s)) in *. set (y1 := with_socket cs j cf v y) in E.
  assert (Hcs : g_heap_pointer (kheap (nfs s)) < cs < cf)
    by (unfold cf, cs, file_at, base_at, sk_at, MMBLOCK_SIZE, SOCKET_SIZE, BUFSIZ; cbn; lia).
  unfold KERNEL_HEAP_START in Hp.
  assert (Hk : net_kept s s1).
  { transitivity (with_pid cpid s); [apply pid_kept|by apply threads_kept]. }
  assert (Hos : open_socket (made q y1 h cf w cs z s1) (cpid, j) cf cs).
  { apply (made_open s1 q y y1 h cf w cs z cpid j base (current_user (nfs s)) (current_group (nfs s)));
      try done; unfold NULL in *; lia. }
  exists (made q y1 h cf w cs z s1), cf, cs, w, base. split; [exact E|].
  split.
  2: { split; [apply lookup_insert_eq|]. split; [|exact Hmem]. split; try done.
    cbn. unfold STDERR_FILENO. lia. }
  split; [split|..].
  - by apply made_threads.
  - split; [done|]. apply (made_keeps s1 q y1 h cf w cs z (spid, i) f sk p); [done|done|lia|lia|].
    by apply (open_socket_kept s s1).
  - apply (made_serves_other s1 q y1 h cf w cs z spid sk p); [done|done|]. by apply (nk_serves _ _ Hk).
  - destruct Hat as (port & Hp1 & Hp2). exists port. split; [|done].
    by rewrite (made_ram s1 q y1 h cf w cs z Hmem).
  - exists z0. split; [|done]. cbn. by rewrite lookup_insert_ne by lia.
  - apply Forall_singleton. split; [cbn; lia|done].
  - apply Forall_singleton. exists z. split; [apply lookup_insert_eq|by destruct Hz].
  - cbn. apply NoDup_cons. split; [|apply NoDup_singleton]. intros Hin%list_elem_of_singleton. cbn in Hin. lia.
Qed.

(** What the connected client and server share. *)
Lemma connected_box s spid sfd sf ss addr max q cpid cfd cf base w v :
  listening spid sfd sf ss addr max s q [] -> last_object s spid = Some cf -> cf <> NULL ->
  holder (kern (nfs s)) cf (cpid, cfd) -> files (nfs s) !! cf = Some (w <| _file := v |>) ->
  STDERR_FILENO < v -> wf_socket base BEmpty w -> bytes (ram (nfs s)) ->
  box_rel [(spid, 31); (cpid, cfd)] cf base (nfs s) (BEmpty, bytes_at (ram (nfs s)) base BUFSIZ).
Proof.
  intros [[Hw [_ Hso] _ _] _ _ _ _] Hlast Hn Hh Hf Hv [] Hb. split; try done.
  - apply Forall_cons_2; [|apply Forall_singleton; exact Hh].
    destruct (os_holder _ _ _ _ Hso) as (Hpid & _ & p & x & Hl & Hp & Hx & Hu & Hm & _). cbn in *.
    split; [done|]. split; [unfold OPEN_MAX; cbn; lia|]. exists p, x. do 5 (split; [done|]).
    unfold last_object in Hlast. rewrite Hl in Hlast. cbn in Hlast. rewrite Hx in Hlast. exact Hlast.
  - exists (w <| _file := v |>). split; [done|]. by split.
Qed.

Lemma process_at_ready s0 s spid i f sk backlog n p cpid q y :
  server_ready s0 s spid i f sk backlog n p -> q <> p -> process_at s0 cpid q y -> process_at s cpid q y.
Proof.
  intros Hr Hne (H1 & H2 & H3 & H4 & H5 & H6 & H7). destruct (sr_table _ _ _ _ _ _ _ _ _ Hr) as [Ht Hs].
  pose proof (sr_procs _ _ _ _ _ _ _ _ _ Hr q Hne) as Hp. cbn in *.
  split; [by cbn; rewrite Hs|]. split; [done|]. split; [by cbn; rewrite Ht|]. split; [done|].
  split; [by cbn; rewrite Hp|done].
Qed.

(** ** Theorems *)

(** [C22] Clients are served in the order of their connections.  For every script
    in which clients, each with a new socket, connect to a listening server, at
    most as many at a time as its queue has places, and the server accepts only
    when a client waits: [sys_connect] answers 0, [sys_accept] answers 31 and
    puts the file of the oldest waiting client in object 31 of the server.  But
    each [sys_connect] puts the file of its own client there at once, in the
    place of the one that the server was serving. *)
Theorem backlog_fifo spid sfd sf ss addr max len ops s q rs :
  CONTROLTHREAD_BASE <= addr -> len <> 0 ->
  listening spid sfd sf ss addr max s q (newcomers ops) -> spec_nets max ops q = Some rs ->
  exists s', run_nets spid sfd addr len ops s = Done rs s'.
Proof. intros Ha Hl Hs Hr. by apply (nets_refine spid sfd sf ss addr max len Ha Hl ops s q). Qed.

(** [C10] A connection from its beginning.  When a server makes a socket of any
    family and listens, a client makes a socket and connects to the address of
    the server, and the server accepts, all five calls succeed; the descriptor 31
    of the server and the descriptor of the client then designate one file, whose
    buffer is an empty mailbox between the two processes. *)
Theorem local_connection_made s l spid p x i cpid q y j family type backlog addr len :
  wf_threads (kern (nfs s)) -> wf_heap (kheap (nfs s)) l -> bytes (ram (nfs s)) ->
  process_at s spid p x -> process_at s cpid q y -> q <> p ->
  first_free (p_Objects x) i -> zlookup (p_Objects x) (i + 1) = Some 0 -> i + 1 < 31 ->
  first_free (p_Objects y) j -> j < 31 ->
  length (p_Objects x) = 64%nat -> length (p_Objects y) = 64%nat -> family_ok family type ->
  g_heap_pointer (kheap (nfs s)) + 2 * (SOCKET_SIZE + BUFSIZ + FILE_SIZE + 3 * MMBLOCK_SIZE) <= KERNEL_HEAP_END ->
  Z.of_nat (length l) + 6 < MMBLOCK_COUNT_MAX ->
  server_at s addr spid -> CONTROLTHREAD_BASE <= addr -> len <> 0 ->
  exists s' f base B, local_connection spid cpid family type backlog addr len s = Done [i; 0; j; 0; 31] s' /\
    box_rel [(spid, 31); (cpid, j)] f base (nfs s') (BEmpty, B).
Proof.
  intros Hwt Hw Hby Hps Hpc Hqp Hi Hi1 Hi31 Hj Hj31 Hlx Hly Hfam Hfit Hn Hat Ha Hlen.
  pose proof (wh_pointer _ _ Hw) as Hp0.
  destruct (server_phase s l spid p x i family type backlog) as (s1 & s2 & f & sk & E1 & E2 & Hr);
    [done|done|done|done|done|done|done|done|unfold SOCKET_SIZE, BUFSIZ, FILE_SIZE, MMBLOCK_SIZE in *; lia|lia|].
  assert (Hat2 : server_at s2 addr spid).
  { destruct Hat as (port & Hq1 & Hq2). exists port. by rewrite (sr_memory _ _ _ _ _ _ _ _ _ Hr),
      (sr_ports _ _ _ _ _ _ _ _ _ Hr). }
  assert (Hlp : zlookup (processList (pt (kern (nfs s2)))) spid = Some p).
  { destruct (sr_table _ _ _ _ _ _ _ _ _ Hr) as [-> _]. by destruct Hps as (_ & _ & ? & _). }
  destruct (client_phase s s2 spid i f sk backlog (Z.of_nat (length l) + 3) p cpid q y j family type addr)
    as (s3 & cf & cs & w & base & E3 & Hls & Hw3 & Hwf & Hram);
    [done|by eapply process_at_ready|done|lia|done|done|done|done|done|
     rewrite (sr_top _ _ _ _ _ _ _ _ _ Hr); lia|lia|done|].
  destruct (connect_step spid i f sk addr (backlog_of backlog) len Ha Hlen s3 [] _ [] Hls) as (s4 & E4 & Hls4 & Hk4).
  { pose proof (backlog_of_range backlog). cbn. unfold zlen. cbn. lia. }
  destruct (accept_step spid i f sk addr (backlog_of backlog) len Ha Hlen s4 _ [] [] Hls4) as (s5 & E5 & Hls5 & Hk5).
  pose proof (ls_open _ _ _ _ _ _ _ _ _ Hls4) as [Hco _]%Forall_cons.
  destruct (nk_files _ _ (transitivity Hk4 Hk5) cf w Hw3) as (v & Hv & Hv31).
  exists s5, cf, base, (bytes_at (ram (nfs s5)) base BUFSIZ). split.
  - apply run_net_inv in E4 as [E4 _], E5 as [E5 _]. unfold local_connection.
    rewrite (bind_Done _ _ _ _ _ (as_process_done _ _ _ _ _ E1)).
    rewrite (bind_Done _ _ _ _ _ (as_process_done _ _ _ _ _ E2)).
    rewrite (bind_Done _ _ _ _ _ (as_process_done _ _ _ _ _ E3)).
    by rewrite (bind_Done _ _ _ _ _ E4), (bind_Done _ _ _ _ _ E5).
  - apply run_net_inv in E5 as [_ Hlast]. destruct Hco as [Hfd Hco].
    apply (connected_box s5 spid i f sk addr (backlog_of backlog) [] cpid j cf base w v); try done.
    + by destruct (os_file _ _ _ _ Hco).
    + by apply (nk_holder _ _ Hk5), (os_holder _ _ _ _ Hco).
    + pose proof (wk_file _ _ _ Hwf). unfold STDERR_FILENO in *. lia.
    + by rewrite (nk_ram _ _ Hk5), (nk_ram _ _ Hk4), Hram, (sr_memory _ _ _ _ _ _ _ _ _ Hr).
Qed.

(** A server that polls its queue loses a client.  After a new server has
    served one client, an [accept] while nobody waits fails, as it should, but
    moves the head of the queue: the next client that connects is skipped, and
    the one that was served already is served again. *)
Theorem poll_loses_client spid sfd sf ss addr len s z a b :
  CONTROLTHREAD_BASE <= addr -> len <> 0 ->
  served spid sfd sf ss addr s -> socks s !! ss = Some z -> new_sock z sf ->
  client_open s a -> client_open s b -> client_new s a -> client_new s b ->
  ss <> cl_sock a -> ss <> cl_sock b -> cl_sock a <> cl_sock b ->
  exists s', run_nets spid sfd addr len
      [NConnect a; NAccept; NAccept; NConnect b; NAccept; NAccept] s =
    Done [(0, Some (cl_file a)); (31, Some (cl_file a)); (-1, Some (cl_file a));
          (0, Some (cl_file b)); (-1, Some (cl_file b)); (31, Some (cl_file a))] s'.
Proof.
  intros Ha Hlen Hsv Hz [_ _ _ _ Hm Hh Ht Hp] Hoa Hob Hna Hnb Hsa Hsb Hab.
  destruct (connect_ring spid sfd sf ss addr len Ha Hlen s a z) as (s1 & E1 & R1 & K1 & _ & S1); try done; [lia|lia|].
  rewrite Hm, Hh, Ht, Hp in R1. change (after 4 0) with 1 in R1.
  pose proof (client_kept s s1 a K1 Hoa) as Hoa1. pose proof (client_kept s s1 b K1 Hob) as Hob1.
  destruct (accept_ring spid sfd sf ss addr len Ha Hlen s1 a _ _ _ _ 1 R1 Hoa1 Hsa)
    as (s2 & E2 & R2 & K2 & S2); [lia|lia|by vm_compute|done|change (after 4 0) with 1; lia|].
  change (after 4 0) with 1 in R2.
  pose proof (client_kept s1 s2 a K2 Hoa1) as Hoa2. pose proof (client_kept s1 s2 b K2 Hob1) as Hob2.
  destruct (poll_ring spid sfd sf ss addr len Ha Hlen s2 _ _ _ _ R2) as (s3 & E3 & R3 & K3 & S3); [lia|done| |].
  { intros j Hj. change (after 4 1) with 2 in Hj. assert (j = 2 \/ j = 3 \/ j = 4) as [-> | [-> | ->]] by lia; done. }
  pose proof (client_kept s2 s3 a K3 Hoa2) as Hoa3. pose proof (client_kept s2 s3 b K3 Hob2) as Hob3.
  change (after 4 1) with 2 in R3.
  assert (Hnb3 : client_new s3 b).
  { destruct Hnb as (xb & Hxb & Hsb'). exists xb. by rewrite S3, S2, S1 by done. }
  destruct R3 as (Hsv3 & z3 & Hz3 & Hm3 & Hh3 & Ht3 & Hp3 & _).
  destruct (connect_ring spid sfd sf ss addr len Ha Hlen s3 b z3) as (s4 & E4 & R4 & K4 & L4 & _); try done; [lia|lia|].
  rewrite Hm3, Hh3, Ht3, Hp3 in R4. change (after 4 1) with 2 in R4.
  pose proof (client_kept s3 s4 a K4 Hoa3) as Hoa4.
  destruct (poll_ring spid sfd sf ss addr len Ha Hlen s4 _ _ _ _ R4) as (s5 & E5 & R5 & K5 & _); [lia|done| |].
  { intros j Hj. change (after 4 2) with 3 in Hj. assert (j = 3 \/ j = 4) as [-> | ->] by lia; done. }
  pose proof (client_kept s4 s5 a K5 Hoa4) as Hoa5.
  change (after 4 2) with 3 in R5.
  destruct (accept_ring spid sfd sf ss addr len Ha Hlen s5 a _ _ _ _ 1 R5 Hoa5 Hsa)
    as (s6 & E6 & _); [lia|done|by vm_compute|done| |].
  { intros j Hj. change (after 4 3) with 0 in Hj. by assert (j = 0) as -> by lia. }
  exists s6. cbn [run_nets]. rewrite (bind_Done _ _ _ _ _ E1), bind_bind.
  pose proof (run_net_inv _ _ _ _ _ _ _ _ _ E2) as [_ L2]. rewrite L2 in E3. rewrite L4 in E5.
  rewrite (bind_Done _ _ _ _ _ E2), !bind_bind, (bind_Done _ _ _ _ _ E3), !bind_bind.
  rewrite (bind_Done _ _ _ _ _ E4), !bind_bind, (bind_Done _ _ _ _ _ E5), !bind_bind.
  by rewrite (bind_Done _ _ _ _ _ E6).
Qed.

(** ** Witnesses *)

Lemma two_demo_threads x y : wf_threads (kern (two_demo x y)).
Proof. cbn. wf_concrete. Qed.

Lemma server_at_demo s : ram (nfs s) = ram (two_demo (sample_process 0) (sample_process 1)) ->
  gramado_ports (kern (nfs s)) = replicate 32 0 -> server_at s 2097152 0.
Proof. intros Hr Hg. exists GRAMADO_PORT_WS. rewrite Hr, Hg. split; [by vm_compute|done]. Qed.

Lemma first_free_demo l : first_free (0 :: 0 :: 0 :: 0 :: l) 3.
Proof. split; [unfold NUMBER_OF_FILES; lia|]. split; [done|]. intros j Hj. lia. Qed.

(** The two processes connect and share a file. *)
Lemma local_connection_made_witness :
  exists s' f base B, local_connection 0 1 AF_INET SOCK_RAW 5 2097152 16 fresh_demo = Done [3; 0; 3; 0; 31] s' /\
    box_rel [(0, 31); (1, 3)] f base (nfs s') (BEmpty, B).
Proof.
  apply (local_connection_made fresh_demo [] 0 4096 (sample_process 0) 3 1 5120 (sample_process 1) 3).
  - apply two_demo_threads.
  - destruct sample_booted_wf. by split.
  - apply put_bytes; [by intros x|]. repeat (apply Forall_cons_2; [lia|]). apply Forall_nil_2.
  - by split_and!.
  - by split_and!.
  - done.
  - apply first_free_demo.
  - done.
  - lia.
  - apply first_free_demo.
  - lia.
  - done.
  - done.
  - split; [right; by right|]. right. by right.
  - by vm_compute.
  - by vm_compute.
  - by apply server_at_demo.
  - unfold CONTROLTHREAD_BASE. lia.
  - done.
Defined.

(** A server in process 0, and two sockets of process 1. *)
Definition queue_server : process_d :=
  (sample_process 0) <| p_Objects := zinsert (replicate 64 0) 3 8192 |> <| p_priv := 20480 |>.
Definition queue_clients : process_d :=
  (sample_process 1) <| p_Objects := zinsert (zinsert (replicate 64 0) 3 12288) 4 16384 |>.
Definition new_demo (f : Z) : socket_d := (fresh_socket 0 0 0) <| private_file := f |>.

Definition queue_demo : nsys :=
  mk_nsys ((two_demo queue_server queue_clients) <| files := <[8192 := socket_file 0 0 0 900000 20480 3]>
      (<[12288 := socket_file 1 0 0 910000 24576 3]> {[ 16384 := socket_file 1 0 0 920000 28672 4 ]}) |>)
    (<[20480 := new_demo 8192]> (<[24576 := new_demo 12288]> {[ 28672 := new_demo 16384 ]})) 11000
    (replicate 32 0).

Definition client_a : client := mk_client 1 3 12288 24576.
Definition client_b : client := mk_client 1 4 16384 28672.

Lemma queue_demo_served : served 0 3 8192 20480 2097152 queue_demo.
Proof.
  split; [exact (two_demo_threads queue_server queue_clients)| | |by apply server_at_demo].
  - split; [done|]. split.
    + split; [done|]. split; [done|]. exists 4096, queue_server. by split_and!.
    + split; [done|]. exists (socket_file 0 0 0 900000 20480 3). by split_and!.
    + split; [done|]. exists (new_demo 8192). by split_and!.
  - split; [done|]. exists 4096, queue_server, 4. do 5 (split; [done|]). split; [|done].
    split; [done|]. split; [done|]. intros j Hj. assert (j = 3) as -> by lia. by exists 8192.
Qed.

Lemma client_demo c : c = client_a \/ c = client_b -> client_open queue_demo c /\ client_new queue_demo c.
Proof.
  intros [-> | ->].
  - split; [split; [done|]; split|exists (new_demo 12288); by split].
    + split; [done|]. split; [done|]. exists 5120, queue_clients. by split_and!.
    + split; [done|]. exists (socket_file 1 0 0 910000 24576 3). by split_and!.
    + split; [done|]. exists (new_demo 12288). by split_and!.
  - split; [split; [done|]; split|exists (new_demo 16384); by split].
    + split; [done|]. split; [done|]. exists 5120, queue_clients. by split_and!.
    + split; [done|]. exists (socket_file 1 0 0 920000 28672 4). by split_and!.
    + split; [done|]. exists (new_demo 16384). by split_and!.
Qed.

Lemma backlog_fifo_witness :
  exists s', run_nets 0 3 2097152 16 [NConnect client_a; NConnect client_b; NAccept; NAccept] queue_demo =
    Done [(0, Some 12288); (0, Some 16384); (31, Some 12288); (31, Some 16384)] s'.
Proof.
  apply (backlog_fifo 0 3 8192 20480 2097152 4 16 _ queue_demo []).
  - unfold CONTROLTHREAD_BASE. lia.
  - done.
  - destruct (client_demo client_a (or_introl eq_refl)), (client_demo client_b (or_intror eq_refl)). split.
    + apply queue_demo_served.
    + exists (new_demo 8192). split; [done|]. split; [done|]. split; done || (cbn; lia).
    + by repeat apply Forall_cons_2.
    + by repeat apply Forall_cons_2.
    + apply (bool_decide_eq_true_1 _). by vm_compute.
  - done.
Defined.

Lemma poll_loses_client_witness :
  exists s', run_nets 0 3 2097152 16
      [NConnect client_a; NAccept; NAccept; NConnect client_b; NAccept; NAccept] queue_demo =
    Done [(0, Some 12288); (31, Some 12288); (-1, Some 12288);
          (0, Some 16384); (-1, Some 16384); (31, Some 12288)] s'.
Proof.
  destruct (client_demo client_a (or_introl eq_refl)), (client_demo client_b (or_intror eq_refl)).
  apply (poll_loses_client 0 3 8192 20480 2097152 16 queue_demo (new_demo 8192)
    client_a client_b); try done.
  apply queue_demo_served.
Defined.
