(* ===== verification/Ata.v ===== *)
(** * The ATA disk driver in PIO mode (res/dev/blkdev/ata/)

    The storage globals ([storage]), the port-level driver of atahdd.c, the
    interrupt flag of atairq.c, the polling helpers of ata.c, and [read_lba]
    and [write_lba] of storage.c.  The disk controller is not part of the
    kernel: it is a type [D] with the port operations of the class [AtaBus];
    the class [AtaDevice] states the documented behaviour of the PIO command
    protocol through an abstract [channel].  The theorems are proved for every
    device that satisfies the class; [ata_model] is an instance of it. *)
From Stdlib Require Import ZArith Lia.
From stdpp Require Import base gmap list strings.
From S2P Require Import Config Prelude Strings Memory.

#[local] Open Scope Z_scope.
#[local] Open Scope gramado_scope.

(** ** The bus: the x86 port instructions *)
Class AtaBus (D : Type) := {
  in8 : Z -> D -> Z * D;
  out8 : Z -> Z -> D -> D;
  in16 : Z -> D -> Z * D;
  out16 : Z -> Z -> D -> D
}.

(** ** ata.h *)
Definition ATA_PRIMARY : Z := 0.
Definition ATA_SECONDARY : Z := 1.
Definition ATA_MASTER : Z := 0.
Definition ATA_SLAVE : Z := 1.
Definition ATA_CMD_FLUSH_CACHE : Z := 0xE7.
Definition ATA_SR_BSY : Z := 0x80.
Definition ATA_SR_DRQ : Z := 0x08.
Definition ATA_SR_ERR : Z := 0x01.
Definition ATA_REG_DATA : Z := 0.
Definition ATA_REG_SECCOUNT : Z := 2.
Definition ATA_REG_LBA0 : Z := 3.
Definition ATA_REG_LBA1 : Z := 4.
Definition ATA_REG_LBA2 : Z := 5.
Definition ATA_REG_DEVSEL : Z := 6.
Definition ATA_REG_CMD : Z := 7.
Definition ATA_REG_STATUS : Z := 7.
Definition __OPERATION_PIO_READ : Z := 1000.
Definition __OPERATION_PIO_WRITE : Z := 2000.

(** The fields of [struct ide_port_d] and [struct ata_port_d] the driver uses. *)
Record ide_port_d := mk_ide_port { base_port : Z; dev_num : Z }.
Record ata_port_d := mk_ata_port {
  channel : Z;
  ata_dev_num : Z;
  cmd_block_base_address : Z;
  ctrl_block_base_address : Z;
  bus_master_base_address : Z
}.

(** The fields of the root file-system structure ([struct filesystem_d], fs.h)
    that the FAT code reads. *)
Record filesystem_d := mk_filesystem {
  fs_used : Z;
  fs_magic : Z;
  fs_type : Z;
  spc : Z;
  dir_entries : Z;
  root_fat_address : Z;
  root_fat_first_lba : Z;
  root_fat_last_lba : Z
}.

(** [struct fat_d] (fat.h), the fields that are set. *)
Record fat_d := mk_fat {
  fat_used : Z;
  fat_magic : Z;
  fat_initialized : Z;
  fat_type : Z;
  fat_address : Z;
  fat_first_lba : Z;
  fat_last_lba : Z
}.

(** [struct system_directory_d] (fs.h). *)
Record system_directory_d := mk_sysdir { sd_initialized : Z; sd_address : Z }.

(** The storage part of the kernel: the memory, the device, and the globals of
    ata.c, atairq.c, storage.c, fat16.c, fsbp.c and fs.c. *)
Record storage {D : Type} := mk_storage {
  ram : memory;
  dev : D;
  ide_port : list ide_port_d;
  ata_port : list ata_port_d;
  g_current_ide_port_index : Z;
  g_boottime_ide_port_index : Z;
  gNumberOfSectorsInBootDisk : Z;
  ata_irq_invoked : Z;
  __breaker_ata1_initialized : Z;
  __breaker_ata2_initialized : Z;
  g_profiler_ints_irq14 : Z;
  g_profiler_ints_irq15 : Z;
  g_currentvolume_fatbits : Z;
  g_fat_cache_loaded : Z;
  g_fat_cache_saved : Z;
  root : option filesystem_d;
  bootvolume_fat : option fat_d;
  fat16ClustersToSave : list Z;
  fs_buffers : list Z;
  bpFAT_initialized : Z;
  sdROOT : system_directory_d;
  sdGRAMADO : system_directory_d;
  sdDE : system_directory_d
}.
Arguments storage D : clear implicits.
Arguments mk_storage {D}.

#[export] Instance eta_storage D : Eta (storage D) := fun s =>
  mk_storage (ram s) (dev s) (ide_port s) (ata_port s) (g_current_ide_port_index s)
    (g_boottime_ide_port_index s) (gNumberOfSectorsInBootDisk s) (ata_irq_invoked s)
    (__breaker_ata1_initialized s) (__breaker_ata2_initialized s)
    (g_profiler_ints_irq14 s) (g_profiler_ints_irq15 s) (g_currentvolume_fatbits s)
    (g_fat_cache_loaded s) (g_fat_cache_saved s) (root s) (bootvolume_fat s)
    (fat16ClustersToSave s) (fs_buffers s) (bpFAT_initialized s) (sdROOT s)
    (sdGRAMADO s) (sdDE s).
#[export] Instance set_ram D : Setter (@ram D). Proof. solve_setter. Defined.
#[export] Instance set_dev D : Setter (@dev D). Proof. solve_setter. Defined.
#[export] Instance set_ide_port D : Setter (@ide_port D). Proof. solve_setter. Defined.
#[export] Instance set_ata_port D : Setter (@ata_port D). Proof. solve_setter. Defined.
#[export] Instance set_g_current_ide_port_index D : Setter (@g_current_ide_port_index D). Proof. solve_setter. Defined.
#[export] Instance set_g_boottime_ide_port_index D : Setter (@g_boottime_ide_port_index D). Proof. solve_setter. Defined.
#[export] Instance set_ata_irq_invoked D : Setter (@ata_irq_invoked D). Proof. solve_setter. Defined.
#[export] Instance set_g_profiler_ints_irq14 D : Setter (@g_profiler_ints_irq14 D). Proof. solve_setter. Defined.
#[export] Instance set_g_profiler_ints_irq15 D : Setter (@g_profiler_ints_irq15 D). Proof. solve_setter. Defined.
#[export] Instance set_g_currentvolume_fatbits D : Setter (@g_currentvolume_fatbits D). Proof. solve_setter. Defined.
#[export] Instance set_g_fat_cache_loaded D : Setter (@g_fat_cache_loaded D). Proof. solve_setter. Defined.
#[export] Instance set_g_fat_cache_saved D : Setter (@g_fat_cache_saved D). Proof. solve_setter. Defined.
#[export] Instance set_root D : Setter (@root D). Proof. solve_setter. Defined.
#[export] Instance set_bootvolume_fat D : Setter (@bootvolume_fat D). Proof. solve_setter. Defined.
#[export] Instance set_fat16ClustersToSave D : Setter (@fat16ClustersToSave D). Proof. solve_setter. Defined.
#[export] Instance set_bpFAT_initialized D : Setter (@bpFAT_initialized D). Proof. solve_setter. Defined.
#[export] Instance set_sdROOT D : Setter (@sdROOT D). Proof. solve_setter. Defined.
#[export] Instance set_sdGRAMADO D : Setter (@sdGRAMADO D). Proof. solve_setter. Defined.
#[export] Instance set_sdDE D : Setter (@sdDE D). Proof. solve_setter. Defined.

(** ** The abstract device: one channel of the controller

    What the ATA command protocol documents of a channel: it is busy for some
    more status reads, then idle, or has words of a sector to give, or accepts
    words of a sector; the task-file registers select the drive and the
    sector. *)
Inductive ata_phase := Idle | DataIn (ws : list Z) | DataOut (acc : list Z).
Record ata_channel := mk_channel {
  ch_busy : nat;
  ch_phase : ata_phase;
  ch_devsel : Z;
  ch_seccount : Z;
  ch_lba0 : Z;
  ch_lba1 : Z;
  ch_lba2 : Z;
  ch_disk : bool -> Z -> list Z
}.

Definition ch_slave (ch : ata_channel) : bool := Z.testbit (ch_devsel ch) 4.
Definition ch_lba (ch : ata_channel) : Z :=
  ch_lba0 ch + 2 ^ 8 * ch_lba1 ch + 2 ^ 16 * ch_lba2 ch + 2 ^ 24 * (ch_devsel ch mod 16).

(** A status byte that says what the channel is doing: BSY alone while busy. *)
Definition status_of (ch : ata_channel) (st : Z) : Prop :=
  match ch_busy ch, ch_phase ch with
  | S _, _ => Z.testbit st 7 = true /\ Z.testbit st 3 = false
  | O, Idle => Z.testbit st 7 = false /\ Z.testbit st 3 = false
  | O, _ => Z.testbit st 7 = false /\ Z.testbit st 3 = true
  end /\ Z.testbit st 0 = false.

Definition ch_poll (ch : ata_channel) : ata_channel :=
  mk_channel (pred (ch_busy ch)) (ch_phase ch) (ch_devsel ch) (ch_seccount ch)
    (ch_lba0 ch) (ch_lba1 ch) (ch_lba2 ch) (ch_disk ch).

Definition ch_write (r v : Z) (ch : ata_channel) : ata_channel :=
  mk_channel (ch_busy ch) (ch_phase ch)
    (if r =? 6 then v else ch_devsel ch) (if r =? 2 then v else ch_seccount ch)
    (if r =? 3 then v else ch_lba0 ch) (if r =? 4 then v else ch_lba1 ch)
    (if r =? 5 then v else ch_lba2 ch) (ch_disk ch).

Definition ch_enter (k : nat) (ph : ata_phase) (ch : ata_channel) : ata_channel :=
  mk_channel k ph (ch_devsel ch) (ch_seccount ch) (ch_lba0 ch) (ch_lba1 ch) (ch_lba2 ch)
    (ch_disk ch).

(** READ SECTORS, WRITE SECTORS and FLUSH CACHE, for one sector in LBA mode. *)
Definition ch_command (v : Z) (k : nat) (ch : ata_channel) : option ata_channel :=
  if v =? 0xE7 then Some (ch_enter k Idle ch)
  else if negb ((ch_seccount ch =? 1) && Z.testbit (ch_devsel ch) 6) then None
  else if v =? 0x20 then Some (ch_enter k (DataIn (ch_disk ch (ch_slave ch) (ch_lba ch))) ch)
  else if v =? 0x30 then Some (ch_enter k (DataOut []) ch)
  else None.

Definition ch_give (ws : list Z) (ch : ata_channel) : ata_channel :=
  ch_enter 0 (match ws with [] => Idle | _ => DataIn ws end) ch.

(** The disk after sector [lba] of a drive is written. *)
Definition disk_put (slave : bool) (lba : Z) (ws : list Z) (d : bool -> Z -> list Z)
    : bool -> Z -> list Z :=
  fun sl l => if Bool.eqb sl slave && (l =? lba) then ws else d sl l.

Definition ch_store (ws : list Z) (k : nat) (ch : ata_channel) : ata_channel :=
  mk_channel k Idle (ch_devsel ch) (ch_seccount ch) (ch_lba0 ch) (ch_lba1 ch) (ch_lba2 ch)
    (disk_put (ch_slave ch) (ch_lba ch) ws (ch_disk ch)).

Definition ch_accept (acc : list Z) (v : Z) (k : nat) (ch : ata_channel) : ata_channel :=
  if (length acc =? 255)%nat then ch_store (acc ++ [v]) k ch
  else ch_enter 0 (DataOut (acc ++ [v])) ch.

(** The documented behaviour, as a simulation of the device by its channels:
    each port access acts on the channel it addresses and on no other. *)
Class AtaDevice (D : Type) `{!AtaBus D} := {
  bases : list Z;
  channel_at : Z -> D -> ata_channel;
  latency : Z -> D -> nat;
  acts (base : Z) (f : ata_channel -> ata_channel) (d d' : D) : Prop :=
    channel_at base d' = f (channel_at base d) /\
    forall b, b ∈ bases -> b <> base -> channel_at b d' = channel_at b d;
  bases_range base : base ∈ bases -> 0 <= base < 2 ^ 16 - 8 /\ (0x80 < base \/ base + 8 <= 0x80);
  law_status base d : base ∈ bases ->
    status_of (channel_at base d) (in8 (base + 7) d).1 /\
    acts base ch_poll d (in8 (base + 7) d).2;
  law_register base r v d : base ∈ bases -> 2 <= r <= 6 -> 0 <= v < 256 ->
    ch_busy (channel_at base d) = 0%nat -> ch_phase (channel_at base d) = Idle ->
    acts base (ch_write r v) d (out8 (base + r) v d);
  law_command base v d ch : base ∈ bases ->
    ch_busy (channel_at base d) = 0%nat -> ch_phase (channel_at base d) = Idle ->
    ch_command v (latency v d) (channel_at base d) = Some ch ->
    acts base (fun _ => ch) d (out8 (base + 7) v d);
  law_data_in base d w ws : base ∈ bases ->
    ch_busy (channel_at base d) = 0%nat -> ch_phase (channel_at base d) = DataIn (w :: ws) ->
    (in16 base d).1 = w /\ acts base (ch_give ws) d (in16 base d).2;
  law_data_out base d v acc : base ∈ bases -> 0 <= v < 2 ^ 16 ->
    ch_busy (channel_at base d) = 0%nat -> ch_phase (channel_at base d) = DataOut acc ->
    acts base (ch_accept acc v (latency 0 d)) d (out16 base v d);
  law_delay base d : base ∈ bases -> channel_at base (out8 0x80 0 d) = channel_at base d
}.

(** ** The driver *)
Section Driver.
Context {D : Type} `{!AtaBus D}.
(** The iterations allowed to the loops that poll without a bound. *)
Context (fuel : nat).
#[local] Abbreviation K := (M (storage D)).

Definition kin8 (port : Z) : K Z := fun s =>
  let r := in8 (u16 port) (dev s) in Done r.1 (s <| dev := r.2 |>).
Definition kout8 (port v : Z) : K unit :=
  modify (fun s => s <| dev := out8 (u16 port) (u8 v) (dev s) |>).
Definition kin16 (port : Z) : K Z := fun s =>
  let r := in16 (u16 port) (dev s) in Done r.1 (s <| dev := r.2 |>).
Definition kout16 (port v : Z) : K unit :=
  modify (fun s => s <| dev := out16 (u16 port) (u16 v) (dev s) |>).

(** [rep; insw] and [rep; outsw]: [n] words between the port and the memory. *)
Fixpoint insw (n : nat) (port buffer : Z) : K unit :=
  match n with
  | O => mret tt
  | S n =>
      kin16 port ≫= fun w =>
      modify (fun s => s <| ram := poke (buffer + 1) (Z.shiftr w 8) (poke buffer w (ram s)) |>) ≫= fun _ =>
      insw n port (buffer + 2)
  end.
Fixpoint outsw (n : nat) (port buffer : Z) : K unit :=
  match n with
  | O => mret tt
  | S n =>
      gets (fun s => ram s buffer + 2 ^ 8 * ram s (buffer + 1)) ≫= fun w =>
      kout16 port w ≫= fun _ =>
      outsw n port (buffer + 2)
  end.

Definition io_delay : K unit := kout8 0x80 0.

Definition ata_wait (val : Z) : K unit :=
  let val := if val <=? 100 then 400 else val in
  for_each (range 0 (Z.quot val 100)) (fun _ => io_delay).

(** *** ata.c *)
Definition ata_status_read (p : Z) : K Z :=
  getsome (fun s => zlookup (ata_port s) p) ≫= fun a =>
  kin8 (cmd_block_base_address a + ATA_REG_STATUS).

(** [while (test(status)) { if (status & ERR) return 1; } return 0;] *)
Fixpoint poll_while (n : nat) (read : K Z) (test : Z -> bool) : K Z :=
  match n with
  | O => diverge
  | S n =>
      read ≫= fun st =>
      if test st then
        read ≫= fun st2 =>
        if negb (Z.land st2 ATA_SR_ERR =? 0) then mret 1 else poll_while n read test
      else mret 0
  end.

Definition ata_wait_drq (p : Z) : K Z :=
  poll_while fuel (ata_status_read p) (fun st => Z.land st ATA_SR_DRQ =? 0).
Definition ata_wait_no_drq (p : Z) : K Z :=
  poll_while fuel (ata_status_read p) (fun st => negb (Z.land st ATA_SR_DRQ =? 0)).
Definition ata_wait_busy (p : Z) : K Z :=
  poll_while fuel (ata_status_read p) (fun st => Z.land st ATA_SR_BSY =? 0).
Definition ata_wait_not_busy (p : Z) : K Z :=
  poll_while fuel (ata_status_read p) (fun st => negb (Z.land st ATA_SR_BSY =? 0)).

Definition ata_cmd_write (p cmd_val : Z) : K unit :=
  ata_wait_not_busy p ≫= fun _ =>
  getsome (fun s => zlookup (ata_port s) p) ≫= fun a =>
  kout8 (Z.land (cmd_block_base_address a + ATA_REG_CMD) 0xFFFF) (Z.land cmd_val 0xFF) ≫= fun _ =>
  ata_wait 400.

Definition ata_soft_reset (p : Z) : K unit :=
  getsome (fun s => zlookup (ata_port s) p) ≫= fun a =>
  kin8 (ctrl_block_base_address a) ≫= fun data =>
  kout8 (ctrl_block_base_address a) (Z.lor data 0x4) ≫= fun _ =>
  kout8 (ctrl_block_base_address a) (Z.land data 0xFB).

Definition ata_set_boottime_ide_port_index (port_index : Z) : K unit :=
  modify (fun s => s <| g_boottime_ide_port_index := i32 port_index |>).
Definition ata_get_boottime_ide_port_index : K Z := gets g_boottime_ide_port_index.
Definition ata_set_current_ide_port_index (port_index : Z) : K unit :=
  modify (fun s => s <| g_current_ide_port_index := i32 port_index |>).
Definition ata_get_current_ide_port_index : K Z := gets g_current_ide_port_index.

(** *** atahdd.c *)
Definition ide_base (port_index : Z) : K Z :=
  getsome (fun s => base_port <$> zlookup (ide_port s) port_index).

Definition __hdd_ata_status_read (port_index : Z) : K Z :=
  if 3 <? port_index then panic "__hdd_ata_status_read: port_index"
  else ide_base port_index ≫= fun b => kin8 (u16 (b + 7)).

Definition __hdd_ata_wait_not_busy (port_index : Z) : K Z :=
  if 3 <? port_index then panic "__hdd_ata_wait_not_busy: port_index"
  else poll_while fuel (__hdd_ata_status_read port_index)
         (fun st => negb (Z.land st ATA_SR_BSY =? 0)).

Definition __hdd_ata_wait_no_drq (port_index : Z) : K Z :=
  if 3 <? port_index then panic "__hdd_ata_wait_no_drq: port_index"
  else poll_while fuel (__hdd_ata_status_read port_index)
         (fun st => negb (Z.land st ATA_SR_DRQ =? 0)).

Definition __hdd_ata_cmd_write (port_index cmd_val : Z) : K unit :=
  if 3 <? port_index then panic "__hdd_ata_cmd_write: port_index"
  else
    __hdd_ata_wait_not_busy port_index ≫= fun _ =>
    ide_base port_index ≫= fun b =>
    kout8 (u16 (b + 7)) cmd_val ≫= fun _ =>
    ata_wait 400.

(** The test of [next_lba], a local that is always 0, is not reached. *)
Definition __hdd_ata_pio_read (port_index buffer bytes : Z) : K unit :=
  if 3 <? port_index then panic "__hdd_ata_pio_read: We only support 4 ata ports"
  else
    ide_base port_index ≫= fun b =>
    insw (Z.to_nat (Z.shiftr bytes 1)) (u16 (b + 0)) buffer.

Definition __hdd_ata_pio_write (port_index buffer bytes : Z) : K unit :=
  if 3 <? port_index then panic "__hdd_ata_pio_write: We only support 4 ata ports"
  else
    ide_base port_index ≫= fun b =>
    outsw (Z.to_nat (Z.shiftr bytes 1)) (u16 (b + 0)) buffer.

(** [again:] read the status until DRQ, [TimeoutCounter] times at most:
    [TRUE] on DRQ, [FALSE] when the counter reaches zero. *)
Fixpoint again (TimeoutCounter : nat) (port : Z) : K Z :=
  match TimeoutCounter with
  | O => mret FALSE
  | S n => kin8 port ≫= fun c => if Z.land c 8 =? 0 then again n port else mret TRUE
  end.

Definition select_byte (_lba value : Z) : Z :=
  let lba := Z.shiftr _lba 24 in
  if value =? ATA_SLAVE then Z.lor lba 0xF0 else Z.lor lba 0xE0.

Definition __pio_rw_sector (buffer _lba operation_number port_index : Z) : K Z :=
  if negb (operation_number =? __OPERATION_PIO_READ) &&
     negb (operation_number =? __OPERATION_PIO_WRITE) then mret (-1)
  else
  let port_index := Z.land port_index 0xFF in
  if 3 <? port_index then panic "__pio_rw_sector: We only support 4 ata ports."
  else
  getsome (fun s => zlookup (ide_port s) port_index) ≫= fun ide =>
  let value := u8 (dev_num ide) in
  if negb (value =? ATA_MASTER) && negb (value =? ATA_SLAVE) then panic "__pio_rw_sector: value?"
  else
  let base := base_port ide in
  kout8 (u16 (base + ATA_REG_DEVSEL)) (select_byte _lba value) ≫= fun _ =>
  kout8 (u16 (base + ATA_REG_SECCOUNT)) 1 ≫= fun _ =>
  kout8 (u16 (base + ATA_REG_LBA0)) (Z.land _lba 0xFF) ≫= fun _ =>
  kout8 (u16 (base + ATA_REG_LBA1)) (Z.land (Z.shiftr _lba 8) 0xFF) ≫= fun _ =>
  kout8 (u16 (base + ATA_REG_LBA2)) (Z.land (Z.shiftr _lba 16) 0xFF) ≫= fun _ =>
  kout8 (u16 (base + ATA_REG_CMD))
    (if operation_number =? __OPERATION_PIO_READ then 0x20 else 0x30) ≫= fun _ =>
  again (Z.to_nat 20000) (u16 (base + 7)) ≫= fun ready =>
  if ready =? FALSE then mret (-3)
  else if operation_number =? __OPERATION_PIO_READ then
    __hdd_ata_pio_read port_index buffer 512 ≫= fun _ => mret 0
  else
    __hdd_ata_pio_write port_index buffer 512 ≫= fun _ =>
    __hdd_ata_cmd_write port_index ATA_CMD_FLUSH_CACHE ≫= fun _ =>
    __hdd_ata_wait_not_busy port_index ≫= fun _ =>
    __hdd_ata_wait_no_drq port_index ≫= fun e =>
    if negb (e =? 0) then mret (-1) else mret 0.

Definition atahdd_pio_rw_sector (buffer _lba operation_number port_index : Z) : K Z :=
  __pio_rw_sector buffer _lba operation_number port_index.

Definition ataReadSector (buffer lba : Z) : K Z :=
  ata_get_current_ide_port_index ≫= fun idePort =>
  gets gNumberOfSectorsInBootDisk ≫= fun n =>
  if n =? 0 then panic "ataReadSector: gNumberOfSectorsInBootDisk"
  else if n <=? lba then panic "ataReadSector: lba limits"
  else __pio_rw_sector buffer (u32 lba) __OPERATION_PIO_READ (u32 idePort).

Definition ataWriteSector (buffer lba : Z) : K Z :=
  ata_get_current_ide_port_index ≫= fun idePort =>
  gets gNumberOfSectorsInBootDisk ≫= fun n =>
  if n =? 0 then panic "ataWriteSector: gNumberOfSectorsInBootDisk"
  else if n <=? lba then panic "ataWriteSector: lba limits"
  else __pio_rw_sector buffer (u32 lba) __OPERATION_PIO_WRITE (u32 idePort).

(** *** atairq.c *)
Definition DeviceInterface_PrimaryIDE : K unit :=
  gets __breaker_ata1_initialized ≫= fun b =>
  if b =? FALSE then mret tt
  else modify (fun s => s <| g_profiler_ints_irq14 := u64 (g_profiler_ints_irq14 s + 1) |>
                          <| ata_irq_invoked := TRUE |>).
Definition DeviceInterface_SecondaryIDE : K unit :=
  gets __breaker_ata2_initialized ≫= fun b =>
  if b =? FALSE then mret tt
  else modify (fun s => s <| g_profiler_ints_irq15 := u64 (g_profiler_ints_irq15 s + 1) |>
                          <| ata_irq_invoked := TRUE |>).
Definition irq14_PRIMARY_IDE : K unit := DeviceInterface_PrimaryIDE.
Definition irq15_SECONDARY_IDE : K unit := DeviceInterface_SecondaryIDE.
Definition disk_reset_ata_irq_invoked : K unit :=
  modify (fun s => s <| ata_irq_invoked := FALSE |>).

(** The polling loop, when no interrupt is delivered while it runs. *)
Fixpoint wait_irq_loop (Timeout : nat) (p : Z) : K Z :=
  ata_status_read p ≫= fun Data =>
  if negb (Z.land Data ATA_SR_ERR =? 0) then disk_reset_ata_irq_invoked ≫= fun _ => mret (-1)
  else match Timeout with
  | O => disk_reset_ata_irq_invoked ≫= fun _ => mret 0x80
  | S n => ata_wait 400 ≫= fun _ => wait_irq_loop n p
  end.

Definition disk_ata_wait_irq (p : Z) : K Z :=
  gets ata_irq_invoked ≫= fun f =>
  if f =? FALSE then wait_irq_loop (Z.to_nat 1000) p
  else disk_reset_ata_irq_invoked ≫= fun _ => mret 0.

(** *** storage.c *)
Definition read_lba (address lba : Z) : K unit :=
  gets g_currentvolume_fatbits ≫= fun bits =>
  if bits =? 32 then mret tt
  else if bits =? 16 then ataReadSector address lba ≫= fun _ => mret tt
  else if bits =? 12 then mret tt
  else panic "read_lba: default".

Definition write_lba (address lba : Z) : K unit :=
  if address =? 0 then mret tt else
  gets g_currentvolume_fatbits ≫= fun bits =>
  if bits =? 32 then mret tt
  else if bits =? 16 then ataWriteSector address lba ≫= fun _ => mret tt
  else if bits =? 12 then mret tt
  else panic "read_lba: default".
End Driver.

(** ** The words of a sector in memory *)

Fixpoint store_words (buffer : Z) (ws : list Z) (m : memory) : memory :=
  match ws with
  | [] => m
  | w :: ws => store_words (buffer + 2) ws (poke (buffer + 1) (Z.shiftr w 8) (poke buffer w m))
  end.

Definition read_words (n : nat) (buffer : Z) (m : memory) : list Z :=
  (fun i => m (buffer + 2 * i) + 2 ^ 8 * m (buffer + 2 * i + 1)) <$> range 0 (Z.of_nat n).

Definition is_word (w : Z) : Prop := 0 <= w < 2 ^ 16.
Definition is_sector (ws : list Z) : Prop := length ws = 256%nat /\ Forall is_word ws.

(** Byte [i] of a list of little-endian words. *)
Definition word_byte (ws : list Z) (i : Z) : Z :=
  let w := default 0 (zlookup ws (i / 2)) in
  if i mod 2 =? 0 then w mod 2 ^ 8 else w / 2 ^ 8.

Lemma word_byte_0 w ws : word_byte (w :: ws) 0 = w mod 2 ^ 8.
Proof. done. Qed.

Lemma word_byte_1 w ws : word_byte (w :: ws) 1 = w / 2 ^ 8.
Proof. done. Qed.

Lemma word_byte_cons w ws i : 0 <= i -> word_byte (w :: ws) (2 + i) = word_byte ws i.
Proof.
  intros Hi. unfold word_byte.
  replace (2 + i) with (i + 1 * 2) by lia. rewrite Z.mod_add, Z.div_add, (Z.add_comm (i / 2)) by lia.
  by rewrite zlookup_cons_S by (apply Z.div_pos; lia).
Qed.

Lemma word_byte_range ws i : Forall is_word ws -> 0 <= word_byte ws i < 256.
Proof.
  intros H. unfold word_byte. destruct (zlookup ws (i / 2)) as [w|] eqn:E; cbn [from_option]; unfold id.
  - apply zlookup_elem in E. rewrite Forall_forall in H. specialize (H _ E). unfold is_word in H.
    case_match; [apply Z.mod_pos_bound; lia|].
    split; [apply Z.div_pos; lia|apply Z.div_lt_upper_bound; lia].
  - case_match; [by rewrite Z.mod_0_l|by rewrite Z.div_0_l].
Qed.

Lemma store_words_spec buffer ws m x :
  Forall is_word ws ->
  store_words buffer ws m x =
    if (buffer <=? x) && (x <? buffer + 2 * zlen ws) then word_byte ws (x - buffer) else m x.
Proof.
  intros H. revert buffer m. induction H as [|w ws Hw Hws IH]; intros buffer m; cbn [store_words].
  - change (zlen (@nil Z)) with 0. destruct (Z.leb_spec buffer x), (Z.ltb_spec x (buffer + 2 * 0)); cbn; lia || done.
  - rewrite IH, zlen_cons. pose proof (zlen_nonneg ws). unfold is_word in Hw.
    destruct (decide (x = buffer)) as [->|N0]; [|destruct (decide (x = buffer + 1)) as [->|N1]].
    + zguard. rewrite Z.sub_diag, word_byte_0, poke_ne by lia. unfold poke. by rewrite Z.eqb_refl.
    + zguard. replace (buffer + 1 - buffer) with 1 by lia. rewrite word_byte_1. unfold poke.
      rewrite Z.eqb_refl, Z.shiftr_div_pow2 by lia. unfold u8.
      rewrite Z.mod_small; [done|]. split; [apply Z.div_pos; lia|apply Z.div_lt_upper_bound; lia].
    + rewrite !poke_ne by done.
      destruct (Z.leb_spec (buffer + 2) x), (Z.ltb_spec x (buffer + 2 + 2 * zlen ws)),
        (Z.leb_spec buffer x), (Z.ltb_spec x (buffer + 2 * (1 + zlen ws))); cbn [andb]; try lia; try done.
      replace (x - buffer) with (2 + (x - (buffer + 2))) by lia. by rewrite word_byte_cons by lia.
Qed.

Lemma bytes_store_words buffer ws m : bytes m -> bytes (store_words buffer ws m).
Proof. revert buffer m. induction ws as [|w ws IH]; intros buffer m Hm; cbn [store_words]; auto using bytes_poke. Qed.

Lemma read_words_cons n buffer m :
  read_words (S n) buffer m = (m buffer + 2 ^ 8 * m (buffer + 1)) :: read_words n (buffer + 2) m.
Proof.
  unfold read_words. rewrite range_cons by lia. cbn [fmap list_fmap].
  f_equal; [by replace (buffer + 2 * 0) with buffer by lia|].
  unfold range. replace (0 + 1) with (1 + 0) by lia. replace (Z.of_nat (S n) - (1 + 0)) with (Z.of_nat n - 0) by lia.
  rewrite <- (fmap_add_seqZ 1 0), <- list_fmap_compose. apply list_fmap_ext. intros i x _.
  unfold compose. by replace (buffer + 2 * (1 + x)) with (buffer + 2 + 2 * x) by lia.
Qed.

Lemma length_read_words n buffer m : length (read_words n buffer m) = n.
Proof. unfold read_words, range. rewrite length_fmap, length_seqZ. lia. Qed.

Lemma read_words_words n buffer m : bytes m -> Forall is_word (read_words n buffer m).
Proof.
  intros Hm. apply Forall_forall. intros w (i & -> & _)%list_elem_of_fmap. unfold is_word.
  pose proof (Hm (buffer + 2 * i)). pose proof (Hm (buffer + 2 * i + 1)). lia.
Qed.

Lemma read_words_sector buffer m : bytes m -> is_sector (read_words 256 buffer m).
Proof. intros Hm. split; [apply length_read_words|by apply read_words_words]. Qed.

Lemma read_words_byte n buffer m i :
  bytes m -> 0 <= i < 2 * Z.of_nat n -> word_byte (read_words n buffer m) i = m (buffer + i).
Proof.
  intros Hm. revert buffer i. induction n as [|n IH]; intros buffer i Hi; [lia|].
  rewrite read_words_cons. pose proof (Hm buffer). pose proof (Hm (buffer + 1)).
  destruct (decide (i = 0)) as [->|]; [|destruct (decide (i = 1)) as [->|]].
  - rewrite word_byte_0, Z.add_0_r, Z.mul_comm, Z.mod_add, Z.mod_small; lia.
  - rewrite word_byte_1, Z.mul_comm, Z.div_add by lia. rewrite Z.div_small; lia.
  - replace i with (2 + (i - 2)) at 1 by lia. rewrite word_byte_cons, IH by lia. f_equal. lia.
Qed.

(** ** The driver on a device that follows the protocol *)
Section Protocol.
Context {D : Type} `{HD : AtaDevice D} (fuel : nat).
Implicit Types (s : storage D) (d : D) (m : memory).

(** The state [s] with memory [m] and device [d]. *)
Definition io s m d : storage D := s <| ram := m |> <| dev := d |>.

Lemma io_id s : io s (ram s) (dev s) = s.
Proof. by destruct s. Qed.

(** [goes base d ch d']: from [d] to [d'] the channel at [base] becomes [ch]
    and the others are untouched. *)
Definition goes (base : Z) d (ch : ata_channel) d' : Prop :=
  channel_at base d' = ch /\ forall b, b ∈ bases -> b <> base -> channel_at b d' = channel_at b d.

Lemma goes_refl base d : goes base d (channel_at base d) d.
Proof. done. Qed.

Lemma goes_trans base d d1 d2 ch1 ch2 : goes base d ch1 d1 -> goes base d1 ch2 d2 -> goes base d ch2 d2.
Proof. intros (E1 & O1) (E2 & O2). split; [done|]. intros b Hb N. by rewrite O2, O1. Qed.

Lemma goes_acts base f d d' ch :
  acts base f d d' -> f (channel_at base d) = ch -> goes base d ch d'.
Proof. intros (E & O) H. split; [by rewrite E|done]. Qed.

Lemma port_id base r : base ∈ bases -> 0 <= r <= 7 -> u16 (u16 (base + r)) = base + r.
Proof.
  intros H Hr. apply bases_range in H. unfold u16. rewrite Z.mod_mod, Z.mod_small by lia. lia.
Qed.

Lemma kout8_io base r v s m d :
  base ∈ bases -> 0 <= r <= 7 -> 0 <= v < 256 ->
  kout8 (u16 (base + r)) v (io s m d) = Done tt (io s m (out8 (base + r) v d)).
Proof. intros. unfold kout8, modify. rewrite port_id, u8_id by (done || lia). done. Qed.

Lemma kin8_io base s m d :
  base ∈ bases ->
  kin8 (u16 (base + 7)) (io s m d) = Done (in8 (base + 7) d).1 (io s m (in8 (base + 7) d).2).
Proof. intros. unfold kin8. rewrite port_id by (done || lia). done. Qed.

Lemma bit_land st k : 0 <= k -> (Z.land st (2 ^ k) =? 0) = negb (Z.testbit st k).
Proof.
  intros Hk. destruct (Z.testbit st k) eqn:E; cbn [negb].
  - apply Z.eqb_neq. intros H. assert (Z.testbit (Z.land st (2 ^ k)) k = true) as T.
    { rewrite Z.land_spec, E, Z.pow2_bits_true; done || lia. }
    rewrite H, Z.bits_0 in T. done.
  - apply Z.eqb_eq, Z.bits_inj'. intros n Hn. rewrite Z.land_spec, Z.bits_0, Z.pow2_bits_eqb by lia.
    destruct (Z.eqb_spec k n) as [->|]; [by rewrite E|by rewrite andb_false_r].
Qed.

(** *** Polling *)

Lemma again_ready n base s m d :
  base ∈ bases -> ch_phase (channel_at base d) <> Idle -> (ch_busy (channel_at base d) < n)%nat ->
  exists d', again n (u16 (base + 7)) (io s m d) = Done TRUE (io s m d') /\
    goes base d (ch_enter 0 (ch_phase (channel_at base d)) (channel_at base d)) d'.
Proof.
  revert d. induction n as [|n IH]; intros d Hb Hp Hk; [lia|]. cbn [again].
  destruct (law_status base d Hb) as (Hst & Hact). rewrite (bind_Done _ _ _ _ _ (kin8_io base s m d Hb)).
  change 8 with (2 ^ 3) at 1. rewrite bit_land by lia. unfold status_of in Hst.
  destruct (channel_at base d) as [k ph ds sc l0 l1 l2 dk] eqn:E; cbn [ch_busy ch_phase] in Hp, Hk, Hst. destruct k as [|k].
  - destruct Hst as (Hst & _). assert (Z.testbit (in8 (base + 7) d).1 3 = true) as -> by (destruct ph; [done|apply Hst..]).
    cbn [negb]. eexists. split; [done|]. eapply goes_acts; [done|]. by rewrite E.
  - destruct Hst as ((_ & ->) & _). cbn [negb].
    destruct Hact as (Hc & Ho). rewrite E in Hc.
    destruct (IH (in8 (base + 7) d).2 Hb) as (d' & Hr & Hg); [rewrite Hc; cbn; done|rewrite Hc; cbn; lia|].
    exists d'. split; [done|]. rewrite Hc in Hg. eapply goes_trans; [|exact Hg]. by split.
Qed.

Lemma again_timeout n base s m d :
  base ∈ bases -> (n <= ch_busy (channel_at base d))%nat ->
  exists d', again n (u16 (base + 7)) (io s m d) = Done FALSE (io s m d') /\
    ch_disk (channel_at base d') = ch_disk (channel_at base d).
Proof.
  revert d. induction n as [|n IH]; intros d Hb Hk; [by exists d|]. cbn [again].
  destruct (law_status base d Hb) as (Hst & Hact). rewrite (bind_Done _ _ _ _ _ (kin8_io base s m d Hb)).
  change 8 with (2 ^ 3) at 1. rewrite bit_land by lia. unfold status_of in Hst.
  destruct (channel_at base d) as [k ph ds sc l0 l1 l2 dk] eqn:E; cbn [ch_busy ch_phase] in Hk, Hst. destruct k as [|k]; [lia|].
  destruct Hst as ((_ & ->) & _). cbn [negb]. destruct Hact as (Hc & Ho). rewrite E in Hc.
  destruct (IH (in8 (base + 7) d).2 Hb) as (d' & Hr & Hg); [rewrite Hc; cbn; lia|].
  exists d'. split; [done|]. by rewrite Hg, Hc.
Qed.
(** *** Transfers *)

Lemma insw_spec ws n base s m d buffer :
  base ∈ bases -> n = length ws -> ws <> [] ->
  ch_busy (channel_at base d) = 0%nat -> ch_phase (channel_at base d) = DataIn ws ->
  exists d', insw n (u16 (base + 0)) buffer (io s m d) = Done tt (io s (store_words buffer ws m) d') /\
    goes base d (ch_enter 0 Idle (channel_at base d)) d'.
Proof.
  intros Hb -> Hne. revert buffer m d. induction ws as [|w ws IH]; [done|].
  intros buffer m d Hk Hp. cbn [insw length store_words].
  destruct (law_data_in base d w ws Hb Hk Hp) as (Hw & Hact).
  assert (kin16 (u16 (base + 0)) (io s m d) = Done w (io s m (in16 base d).2)) as R.
  { unfold kin16. rewrite port_id, Z.add_0_r by (done || lia). cbn [dev io set_field set_dev eta_expand eta_storage].
    by rewrite Hw. }
  rewrite (bind_Done _ _ _ _ _ R), bind_modify.
  destruct Hact as (Hc & Ho). destruct ws as [|w' ws].
  - eexists. split; [done|]. by split.
  - destruct (IH ltac:(done) (buffer + 2) (poke (buffer + 1) (Z.shiftr w 8) (poke buffer w m)) (in16 base d).2)
      as (d' & Hr & Hg); [by rewrite Hc..|].
    exists d'. split; [exact Hr|]. rewrite Hc in Hg. eapply goes_trans; [by split|exact Hg].
Qed.

Lemma outsw_spec n acc base s m d buffer :
  base ∈ bases -> bytes m -> n <> 0%nat -> (length acc + n = 256)%nat ->
  ch_busy (channel_at base d) = 0%nat -> ch_phase (channel_at base d) = DataOut acc ->
  exists d' k, outsw n (u16 (base + 0)) buffer (io s m d) = Done tt (io s m d') /\
    goes base d (ch_store (acc ++ read_words n buffer m) k (channel_at base d)) d' /\
    exists d0, k = latency 0 d0.
Proof.
  intros Hb Hm. revert acc d buffer. induction n as [|n IH]; [done|].
  intros acc d buffer _ Hl Hk Hp. cbn [outsw]. rewrite bind_gets, read_words_cons. cbn [ram io set_field].
  set (w := ram (io s m d) buffer + 2 ^ 8 * ram (io s m d) (buffer + 1)).
  change (m buffer + 2 ^ 8 * m (buffer + 1)) with w.
  assert (0 <= w < 2 ^ 16) as Hw by (pose proof (Hm buffer); pose proof (Hm (buffer + 1)); cbn in w; lia).
  destruct (law_data_out base d w acc Hb Hw Hk Hp) as (Hc & Ho).
  assert (kout16 (u16 (base + 0)) w (io s m d) = Done tt (io s m (out16 base w d))) as R.
  { unfold kout16, modify. rewrite port_id, Z.add_0_r by (done || lia). unfold u16. by rewrite Z.mod_small by lia. }
  rewrite (bind_Done _ _ _ _ _ R). clear R. unfold ch_accept in Hc. destruct n as [|n].
  - replace (length acc =? 255)%nat with true in Hc by (symmetry; apply Nat.eqb_eq; lia).
    exists (out16 base w d), (latency 0 d). split; [done|]. split; [by split|by exists d].
  - replace (length acc =? 255)%nat with false in Hc by (symmetry; apply Nat.eqb_neq; lia).
    destruct (IH (acc ++ [w]) (out16 base w d) (buffer + 2)) as (d' & k & Hr & Hg & Hlat);
      [done|rewrite length_app; cbn; lia|by rewrite Hc..|].
    exists d', k. split; [exact Hr|]. rewrite Hc, <- app_assoc in Hg. split; [|done].
    eapply goes_trans; [by split|exact Hg].
Qed.

(** *** Waiting *)

Lemma hdd_status_io port_index ide base s m d :
  base ∈ bases -> port_index <= 3 -> zlookup (ide_port s) port_index = Some ide -> base_port ide = base ->
  __hdd_ata_status_read port_index (io s m d) = Done (in8 (base + 7) d).1 (io s m (in8 (base + 7) d).2).
Proof.
  intros Hb Hi Hl <-. unfold __hdd_ata_status_read, ide_base. zguard.
  erewrite bind_getsome by (cbn; by rewrite Hl). by apply kin8_io.
Qed.

Lemma poll_while_spec n base s m d (read : M (storage D) Z) (test : Z -> bool) :
  base ∈ bases -> (ch_busy (channel_at base d) < n)%nat ->
  (forall d, read (io s m d) = Done (in8 (base + 7) d).1 (io s m (in8 (base + 7) d).2)) ->
  (forall ch st, status_of ch st -> ch_phase ch = ch_phase (channel_at base d) ->
     ch_busy ch = 0%nat -> test st = false) ->
  exists d' k, poll_while n read test (io s m d) = Done 0 (io s m d') /\
    goes base d (ch_enter k (ch_phase (channel_at base d)) (channel_at base d)) d' /\
    (k <= ch_busy (channel_at base d))%nat /\
    ((forall ch st, status_of ch st -> ch_busy ch <> 0%nat -> test st = true) -> k = 0%nat).
Proof.
  intros Hb Hk Hread Htest. revert d Hk Htest. induction n as [|n IH]; intros d Hk Htest; [lia|].
  cbn [poll_while]. rewrite (bind_Done _ _ _ _ _ (Hread d)).
  destruct (law_status base d Hb) as (Hst & Hc & Ho).
  destruct (test (in8 (base + 7) d).1) eqn:T.
  - set (d1 := (in8 (base + 7) d).2) in *. destruct (law_status base d1 Hb) as (Hst1 & Hc1 & Ho1).
    rewrite (bind_Done _ _ _ _ _ (Hread d1)). change ATA_SR_ERR with (2 ^ 0). rewrite bit_land by lia.
    assert (Z.testbit (in8 (base + 7) d1).1 0 = false) as -> by apply Hst1. cbn [negb].
    set (d2 := (in8 (base + 7) d1).2) in *.
    assert (ch_busy (channel_at base d) <> 0%nat) as Hnz by (intros Z0; by rewrite (Htest _ _ Hst) in T).
    assert (channel_at base d2 = ch_enter (pred (pred (ch_busy (channel_at base d))))
              (ch_phase (channel_at base d)) (channel_at base d)) as Hc2 by (by rewrite Hc1, Hc).
    destruct (IH d2) as (d' & k & Hr & Hg & Hle & Hz); [rewrite Hc2; cbn; lia|by rewrite Hc2|].
    exists d', k. split; [done|]. rewrite Hc2 in Hg, Hle. cbn in Hg, Hle.
    split; [|split; [lia|done]]. eapply goes_trans; [|exact Hg]. split; [done|]. intros b Hb' N. unfold d2, d1. by rewrite Ho1, Ho.
  - eexists _, _. split; [done|]. split; [split; [exact Hc|exact Ho]|].
    split; [apply Nat.le_pred_l|]. intros Hbusy. destruct (ch_busy (channel_at base d)) eqn:E; [done|].
    rewrite (Hbusy _ _ Hst) in T; [done|]. by rewrite E.
Qed.

Definition idle base d : Prop :=
  ch_busy (channel_at base d) = 0%nat /\ ch_phase (channel_at base d) = Idle.

(** [bases] is polled until it is not busy, then until it has no data. *)
Lemma wait_not_busy_spec i ide base s m d :
  base ∈ bases -> i <= 3 -> zlookup (ide_port s) i = Some ide -> base_port ide = base ->
  (ch_busy (channel_at base d) < fuel)%nat ->
  exists d', __hdd_ata_wait_not_busy fuel i (io s m d) = Done 0 (io s m d') /\
    goes base d (ch_enter 0 (ch_phase (channel_at base d)) (channel_at base d)) d'.
Proof.
  intros Hb Hi Hl Hbase Hk. unfold __hdd_ata_wait_not_busy. zguard.
  destruct (poll_while_spec fuel base s m d (__hdd_ata_status_read i)
    (fun st => negb (Z.land st ATA_SR_BSY =? 0))) as (d' & k & Hr & Hg & _ & Hz); try done.
  - intros d0. by eapply hdd_status_io.
  - intros ch st (Hst & _) _ H0. change ATA_SR_BSY with (2 ^ 7). rewrite bit_land, negb_involutive by lia.
    rewrite H0 in Hst. destruct (ch_phase ch); apply Hst.
  - exists d'. split; [exact Hr|]. rewrite Hz in Hg; [exact Hg|].
    intros ch st (Hst & _) H0. change ATA_SR_BSY with (2 ^ 7). rewrite bit_land, negb_involutive by lia.
    destruct (ch_busy ch); [done|apply Hst].
Qed.

Lemma wait_no_drq_spec i ide base s m d :
  base ∈ bases -> i <= 3 -> zlookup (ide_port s) i = Some ide -> base_port ide = base ->
  idle base d -> fuel <> 0%nat ->
  exists d', __hdd_ata_wait_no_drq fuel i (io s m d) = Done 0 (io s m d') /\
    goes base d (channel_at base d) d'.
Proof.
  intros Hb Hi Hl Hbase (Hk & Hp) Hf. unfold __hdd_ata_wait_no_drq. zguard.
  destruct (poll_while_spec fuel base s m d (__hdd_ata_status_read i)
    (fun st => negb (Z.land st ATA_SR_DRQ =? 0))) as (d' & k & Hr & Hg & Hle & _); try done.
  - rewrite Hk. lia.
  - intros d0. by eapply hdd_status_io.
  - intros ch st (Hst & _) Hph H0. change ATA_SR_DRQ with (2 ^ 3). rewrite bit_land, negb_involutive by lia.
    rewrite H0, Hph, Hp in Hst. apply Hst.
  - exists d'. split; [exact Hr|]. rewrite Hk in Hle. assert (k = 0%nat) as -> by lia.
    rewrite Hp in Hg. destruct (channel_at base d); cbn in *. by subst.
Qed.

Lemma delays_io (l : list Z) s m d :
  exists d', for_each l (fun _ => io_delay) (io s m d) = Done tt (io s m d') /\
    forall b, b ∈ bases -> channel_at b d' = channel_at b d.
Proof.
  revert d. induction l as [|x l IH]; intros d; [by exists d|]. cbn [for_each].
  assert (io_delay (io s m d) = Done tt (io s m (out8 0x80 0 d))) as R by done.
  rewrite (bind_Done _ _ _ _ _ R). destruct (IH (out8 0x80 0 d)) as (d' & Hr & Hc).
  exists d'. split; [done|]. intros b Hb. by rewrite Hc, law_delay.
Qed.

(** A command without data: FLUSH CACHE. *)
Lemma cmd_write_spec i ide base s m d ch :
  base ∈ bases -> i <= 3 -> zlookup (ide_port s) i = Some ide -> base_port ide = base ->
  (ch_busy (channel_at base d) < fuel)%nat -> ch_phase (channel_at base d) = Idle ->
  channel_at base d = ch ->
  exists d' k, __hdd_ata_cmd_write fuel i ATA_CMD_FLUSH_CACHE (io s m d) = Done tt (io s m d') /\
    goes base d (ch_enter k Idle ch) d' /\ exists d0, k = latency ATA_CMD_FLUSH_CACHE d0.
Proof.
  intros Hb Hi Hl Hbase Hk Hp Hch. unfold __hdd_ata_cmd_write, ide_base. zguard.
  destruct (wait_not_busy_spec i ide base s m d Hb Hi Hl Hbase Hk) as (d1 & R1 & G1).
  rewrite (bind_Done _ _ _ _ _ R1). erewrite bind_getsome by (cbn; by rewrite Hl). rewrite Hbase.
  rewrite (bind_Done _ _ _ _ _ (kout8_io base 7 0xE7 s m d1 Hb ltac:(lia) ltac:(lia))).
  destruct G1 as (C1 & O1). rewrite Hp, Hch in C1.
  destruct (law_command base 0xE7 d1 (ch_enter (latency 0xE7 d1) Idle (channel_at base d1)) Hb) as (C2 & O2);
    [by rewrite C1..|done|].
  unfold ata_wait. destruct (delays_io (range 0 (Z.quot (if 400 <=? 100 then 400 else 400) 100)) s m
    (out8 (base + 7) 0xE7 d1)) as (d3 & R3 & C3).
  exists d3, (latency 0xE7 d1). split; [exact R3|]. split; [|by exists d1]. split.
  - rewrite C3, C2, C1 by done. done.
  - intros b Hb' N. by rewrite C3, O2, O1.
Qed.
(** *** Selecting a sector *)

(** The five register writes that precede a command. *)
Definition selected (base lba value : Z) d : D :=
  out8 (base + 5) (Z.land (Z.shiftr lba 16) 0xFF)
    (out8 (base + 4) (Z.land (Z.shiftr lba 8) 0xFF)
      (out8 (base + 3) (Z.land lba 0xFF)
        (out8 (base + 2) 1 (out8 (base + 6) (select_byte lba value) d)))).

Definition task_file (lba value : Z) (ch : ata_channel) : ata_channel :=
  mk_channel 0 Idle (select_byte lba value) 1 (Z.land lba 0xFF) (Z.land (Z.shiftr lba 8) 0xFF)
    (Z.land (Z.shiftr lba 16) 0xFF) (ch_disk ch).

Lemma land_byte x : Z.land x 0xFF = x mod 2 ^ 8.
Proof. change 0xFF with (Z.ones 8). apply Z.land_ones. lia. Qed.

Lemma byte_range x : 0 <= Z.land x 0xFF < 256.
Proof. rewrite land_byte. apply Z.mod_pos_bound. lia. Qed.

Lemma select_byte_spec lba sl : 0 <= lba < 2 ^ 28 ->
  select_byte lba (Z.b2z sl) = (if sl then 0xF0 else 0xE0) + lba / 2 ^ 24.
Proof.
  intros H. unfold select_byte. rewrite Z.shiftr_div_pow2 by lia.
  assert (lba / 2 ^ 24 ∈ range 0 16) as Hin.
  { apply elem_range. split; [apply Z.div_pos; lia|apply Z.div_lt_upper_bound; lia]. }
  assert (Forall (fun q => (if Z.b2z sl =? ATA_SLAVE then Z.lor q 0xF0 else Z.lor q 0xE0) =
    (if sl then 0xF0 else 0xE0) + q) (range 0 16)) as HF by (destruct sl; by repeat constructor).
  rewrite Forall_forall in HF. by apply HF.
Qed.

Lemma task_file_spec lba sl ch : 0 <= lba < 2 ^ 28 ->
  0 <= select_byte lba (Z.b2z sl) < 256 /\
  ch_lba (task_file lba (Z.b2z sl) ch) = lba /\ ch_slave (task_file lba (Z.b2z sl) ch) = sl /\
  Z.testbit (ch_devsel (task_file lba (Z.b2z sl) ch)) 6 = true.
Proof.
  intros H. unfold ch_lba, ch_slave. cbn [task_file ch_devsel ch_lba0 ch_lba1 ch_lba2].
  rewrite select_byte_spec, !land_byte, !Z.shiftr_div_pow2 by lia.
  assert (lba / 2 ^ 24 ∈ range 0 16) as Hin.
  { apply elem_range. split; [apply Z.div_pos; lia|apply Z.div_lt_upper_bound; lia]. }
  assert (forall q, q ∈ range 0 16 -> 0 <= (if sl then 0xF0 else 0xE0) + q < 256 /\
    ((if sl then 0xF0 else 0xE0) + q) mod 16 = q /\
    Z.testbit ((if sl then 0xF0 else 0xE0) + q) 4 = sl /\
    Z.testbit ((if sl then 0xF0 else 0xE0) + q) 6 = true) as HF.
  { apply Forall_forall. destruct sl; repeat (constructor; [split_and!; done|]); constructor. }
  destruct (HF _ Hin) as (Hr & Hm & H4 & H6). split_and!; [lia|lia| |done|done].
  rewrite Hm. replace (2 ^ 24) with (2 ^ 8 * (2 ^ 8 * 2 ^ 8)) by done. replace (2 ^ 16) with (2 ^ 8 * 2 ^ 8) by done.
  rewrite <- !Z.div_div by lia.
  pose proof (Z.div_mod lba (2 ^ 8)). pose proof (Z.div_mod (lba / 2 ^ 8) (2 ^ 8)).
  pose proof (Z.div_mod (lba / 2 ^ 8 / 2 ^ 8) (2 ^ 8)). lia.
Qed.

Lemma register_step base r v d ch :
  base ∈ bases -> 2 <= r <= 6 -> 0 <= v < 256 -> channel_at base d = ch ->
  ch_busy ch = 0%nat -> ch_phase ch = Idle -> goes base d (ch_write r v ch) (out8 (base + r) v d).
Proof. intros Hb Hr Hv <- Hk Hp. eapply goes_acts; [by apply law_register|done]. Qed.

Lemma selected_spec base lba sl d :
  base ∈ bases -> idle base d -> 0 <= lba < 2 ^ 28 ->
  goes base d (task_file lba (Z.b2z sl) (channel_at base d)) (selected base lba (Z.b2z sl) d).
Proof.
  intros Hb (Hk & Hp) Hlba. destruct (task_file_spec lba sl (channel_at base d) Hlba) as (Hv & _).
  unfold selected. destruct (channel_at base d) as [k ph ds sc l0 l1 l2 dk] eqn:E. cbn in Hk, Hp. subst k ph.
  pose proof (register_step base 6 _ d _ Hb ltac:(lia) Hv E eq_refl eq_refl) as G1.
  pose proof (register_step base 2 1 _ _ Hb ltac:(lia) ltac:(lia) (proj1 G1) eq_refl eq_refl) as G2.
  pose proof (register_step base 3 _ _ _ Hb ltac:(lia) (byte_range lba) (proj1 G2) eq_refl eq_refl) as G3.
  pose proof (register_step base 4 _ _ _ Hb ltac:(lia) (byte_range (Z.shiftr lba 8))
    (proj1 G3) eq_refl eq_refl) as G4.
  pose proof (register_step base 5 _ _ _ Hb ltac:(lia) (byte_range (Z.shiftr lba 16))
    (proj1 G4) eq_refl eq_refl) as G5.
  exact (goes_trans _ _ _ _ _ _ G1 (goes_trans _ _ _ _ _ _ G2 (goes_trans _ _ _ _ _ _ G3
    (goes_trans _ _ _ _ _ _ G4 G5)))).
Qed.

(** Port [i] of the table is drive [sl] of the channel at [base]. *)
Definition attached s (i base : Z) (sl : bool) : Prop :=
  0 <= i <= 3 /\ base ∈ bases /\ zlookup (ide_port s) i = Some (mk_ide_port base (Z.b2z sl)).

(** The sectors of the two drives of channel [base]. *)
Definition sectors base d : bool -> Z -> list Z := ch_disk (channel_at base d).

(** From [d] to [d'] the channel at [base] ends idle with disk [f], and the
    other channels are untouched. *)
Definition leaves base d (f : bool -> Z -> list Z) d' : Prop :=
  idle base d' /\ sectors base d' = f /\
  forall b, b ∈ bases -> b <> base -> channel_at b d' = channel_at b d.

(** The commands are done within fewer than [n] status reads. *)
Definition prompt (n : nat) : Prop := forall v d, (latency v d < n)%nat.

Lemma selection_io i base sl op lba buffer s m d :
  attached s i base sl -> 0 <= lba < 2 ^ 28 ->
  op = __OPERATION_PIO_READ \/ op = __OPERATION_PIO_WRITE ->
  __pio_rw_sector fuel buffer lba op i (io s m d) =
    (again (Z.to_nat 20000) (u16 (base + 7)) ≫= fun ready =>
     if ready =? FALSE then mret (-3)
     else if op =? __OPERATION_PIO_READ then
       __hdd_ata_pio_read i buffer 512 ≫= fun _ => mret 0
     else
       __hdd_ata_pio_write i buffer 512 ≫= fun _ =>
       __hdd_ata_cmd_write fuel i ATA_CMD_FLUSH_CACHE ≫= fun _ =>
       __hdd_ata_wait_not_busy fuel i ≫= fun _ =>
       __hdd_ata_wait_no_drq fuel i ≫= fun e => if negb (e =? 0) then mret (-1) else mret 0)
    (io s m (out8 (base + 7) (if op =? __OPERATION_PIO_READ then 0x20 else 0x30)
       (selected base lba (Z.b2z sl) d))).
Proof.
  intros (Hi & Hb & Hl) Hlba Hop. unfold __pio_rw_sector.
  replace (negb (op =? __OPERATION_PIO_READ) && negb (op =? __OPERATION_PIO_WRITE)) with false
    by (destruct Hop as [-> | ->]; done).
  replace (Z.land i 0xFF) with i by (rewrite land_byte, Z.mod_small; lia). zguard.
  erewrite bind_getsome by (cbn; by rewrite Hl). cbn [dev_num base_port].
  replace (negb (u8 (Z.b2z sl) =? ATA_MASTER) && negb (u8 (Z.b2z sl) =? ATA_SLAVE)) with false
    by (by destruct sl).
  replace (u8 (Z.b2z sl)) with (Z.b2z sl) by (by destruct sl).
  destruct (task_file_spec lba sl (channel_at base d) Hlba) as (Hv & _).
  assert (0 <= (if op =? __OPERATION_PIO_READ then 0x20 else 0x30) < 256) as Hc by (case_match; lia).
  rewrite (bind_Done _ _ _ _ _ (kout8_io base 6 _ s m d Hb ltac:(lia) Hv)).
  rewrite (bind_Done _ _ _ _ _ (kout8_io base 2 1 s m _ Hb ltac:(lia) ltac:(lia))).
  rewrite (bind_Done _ _ _ _ _ (kout8_io base 3 _ s m _ Hb ltac:(lia) (byte_range lba))).
  rewrite (bind_Done _ _ _ _ _ (kout8_io base 4 _ s m _ Hb ltac:(lia) (byte_range (Z.shiftr lba 8)))).
  rewrite (bind_Done _ _ _ _ _ (kout8_io base 5 _ s m _ Hb ltac:(lia) (byte_range (Z.shiftr lba 16)))).
  rewrite (bind_Done _ _ _ _ _ (kout8_io base 7 _ s m _ Hb ltac:(lia) Hc)).
  done.
Qed.

(** The command byte, given to the selected sector. *)
Lemma command_spec base lba sl v d ph :
  base ∈ bases -> idle base d -> 0 <= lba < 2 ^ 28 ->
  v = 0x20 /\ ph = DataIn (sectors base d sl lba) \/ v = 0x30 /\ ph = DataOut [] ->
  let d1 := selected base lba (Z.b2z sl) d in
  goes base d (ch_enter (latency v d1) ph (task_file lba (Z.b2z sl) (channel_at base d)))
    (out8 (base + 7) v d1).
Proof.
  intros Hb Hidle Hlba Hv d1. pose proof (selected_spec base lba sl d Hb Hidle Hlba) as (C1 & O1).
  destruct (task_file_spec lba sl (channel_at base d) Hlba) as (_ & Hl & Hs & H6). fold d1 in C1, O1.
  destruct (law_command base v d1 (ch_enter (latency v d1) ph (task_file lba (Z.b2z sl) (channel_at base d))) Hb)
    as (C2 & O2); [by rewrite C1|by rewrite C1| |].
  - rewrite C1. unfold ch_command. rewrite Hl, Hs, H6. change (ch_seccount (task_file _ _ _)) with 1.
    destruct Hv as [(-> & ->) | (-> & ->)]; done.
  - split; [done|]. intros b Hb' N. by rewrite O2, O1.
Qed.

(** *** The driver's contract *)

(** A sector is read: [buffer] holds its bytes, and the disk is unchanged. *)
Lemma pio_read_spec s m d i base sl lba buffer :
  attached s i base sl -> idle base d -> 0 <= lba < 2 ^ 28 -> prompt (Z.to_nat 20000) ->
  length (sectors base d sl lba) = 256%nat ->
  exists d', __pio_rw_sector fuel buffer lba __OPERATION_PIO_READ i (io s m d) =
      Done 0 (io s (store_words buffer (sectors base d sl lba) m) d') /\
    leaves base d (sectors base d) d'.
Proof.
  intros Ha Hidle Hlba Hp Hlen. pose proof Ha as (Hi & Hb & Hl).
  rewrite (selection_io i base sl _ lba buffer s m d Ha Hlba (or_introl eq_refl)). rewrite Z.eqb_refl.
  pose proof (command_spec base lba sl 0x20 d _ Hb Hidle Hlba (or_introl (conj eq_refl eq_refl))) as G1.
  cbn zeta in G1. set (d1 := out8 (base + 7) 0x20 _) in *. destruct G1 as (C1 & O1).
  destruct (again_ready (Z.to_nat 20000) base s m d1 Hb) as (d2 & R2 & C2 & O2); [by rewrite C1|rewrite C1; apply Hp|].
  rewrite (bind_Done _ _ _ _ _ R2). change (TRUE =? FALSE) with false. cbn beta iota. rewrite C1 in C2. cbn in C2.
  unfold __hdd_ata_pio_read, ide_base. zguard. rewrite bind_bind.
  erewrite bind_getsome by (cbn; by rewrite Hl). cbn [base_port].
  destruct (insw_spec (sectors base d sl lba) 256 base s m d2 buffer Hb (eq_sym Hlen)) as (d3 & R3 & C3 & O3);
    [by destruct (sectors base d sl lba)|by rewrite C2|by rewrite C2|].
  change (Z.to_nat (Z.shiftr 512 1)) with 256%nat. rewrite (bind_Done _ _ _ _ _ R3).
  exists d3. split; [done|]. split; [split; by rewrite C3|]. split; [unfold sectors; by rewrite C3, C2|].
  intros b Hb' N. by rewrite O3, O2, O1.
Qed.

(** The device does not raise DRQ in 20000 status reads: the error is -3, the
    memory and the disk are unchanged. *)
Lemma pio_timeout_spec s m d i base sl lba op buffer :
  attached s i base sl -> idle base d -> 0 <= lba < 2 ^ 28 ->
  op = __OPERATION_PIO_READ \/ op = __OPERATION_PIO_WRITE ->
  (forall v d, 20000 <= Z.of_nat (latency v d)) ->
  exists d', __pio_rw_sector fuel buffer lba op i (io s m d) = Done (-3) (io s m d') /\
    sectors base d' = sectors base d.
Proof.
  intros Ha Hidle Hlba Hop Hlat. pose proof Ha as (Hi & Hb & Hl).
  rewrite (selection_io i base sl _ lba buffer s m d Ha Hlba Hop).
  assert (exists ph, (if op =? __OPERATION_PIO_READ then 0x20 else 0x30) = 0x20 /\ ph = DataIn (sectors base d sl lba) \/
    (if op =? __OPERATION_PIO_READ then 0x20 else 0x30) = 0x30 /\ ph = DataOut []) as (ph & Hph).
  { destruct (op =? __OPERATION_PIO_READ); eauto. }
  set (v := if op =? __OPERATION_PIO_READ then 0x20 else 0x30) in *.
  pose proof (command_spec base lba sl v d ph Hb Hidle Hlba Hph) as (C1 & _).
  set (d1 := out8 (base + 7) v _) in *.
  destruct (again_timeout (Z.to_nat 20000) base s m d1 Hb) as (d2 & R2 & C2).
  { rewrite C1. cbn [ch_busy ch_enter]. specialize (Hlat v (selected base lba (Z.b2z sl) d)). lia. }
  rewrite (bind_Done _ _ _ _ _ R2). rewrite Z.eqb_refl. exists d2. split; [done|].
  unfold sectors. by rewrite C2, C1.
Qed.

(** FLUSH CACHE and the waits that follow it. *)
Lemma flush_command_spec s m d i base sl :
  attached s i base sl -> ch_phase (channel_at base d) = Idle ->
  (ch_busy (channel_at base d) < fuel)%nat -> prompt fuel ->
  exists d', (__hdd_ata_cmd_write fuel i ATA_CMD_FLUSH_CACHE ≫= fun _ =>
       __hdd_ata_wait_not_busy fuel i ≫= fun _ =>
       __hdd_ata_wait_no_drq fuel i ≫= fun e => if negb (e =? 0) then mret (-1) else mret 0)
      (io s m d) = Done 0 (io s m d') /\
    leaves base d (sectors base d) d'.
Proof.
  intros (Hi & Hb & Hl) Hp Hk Hf.
  destruct (cmd_write_spec i _ base s m d _ Hb ltac:(lia) Hl eq_refl Hk Hp eq_refl)
    as (d1 & k & R1 & (C1 & O1) & d0 & ->).
  rewrite (bind_Done _ _ _ _ _ R1).
  destruct (wait_not_busy_spec i _ base s m d1 Hb ltac:(lia) Hl eq_refl) as (d2 & R2 & C2 & O2);
    [rewrite C1; apply Hf|].
  rewrite (bind_Done _ _ _ _ _ R2). rewrite C1 in C2. cbn in C2.
  destruct (wait_no_drq_spec i _ base s m d2 Hb ltac:(lia) Hl eq_refl) as (d3 & R3 & C3 & O3);
    [split; by rewrite C2|lia|].
  rewrite (bind_Done _ _ _ _ _ R3). exists d3. split; [done|].
  split; [split; by rewrite C3, C2|]. split; [unfold sectors; by rewrite C3, C2|].
  intros b Hb' N. by rewrite O3, O2, O1.
Qed.

(** A sector is written, and flushed: the disk holds the 512 bytes at [buffer]. *)
Lemma pio_write_spec s m d i base sl lba buffer :
  attached s i base sl -> idle base d -> 0 <= lba < 2 ^ 28 -> prompt (Z.to_nat 20000) -> prompt fuel ->
  bytes m ->
  exists d', __pio_rw_sector fuel buffer lba __OPERATION_PIO_WRITE i (io s m d) = Done 0 (io s m d') /\
    leaves base d (disk_put sl lba (read_words 256 buffer m) (sectors base d)) d'.
Proof.
  intros Ha Hidle Hlba Hp Hf Hm. pose proof Ha as (Hi & Hb & Hl).
  rewrite (selection_io i base sl _ lba buffer s m d Ha Hlba (or_intror eq_refl)).
  change (__OPERATION_PIO_WRITE =? __OPERATION_PIO_READ) with false. cbn beta iota.
  pose proof (command_spec base lba sl 0x30 d _ Hb Hidle Hlba (or_intror (conj eq_refl eq_refl))) as G1.
  cbn zeta in G1. set (d1 := out8 (base + 7) 0x30 _) in *. destruct G1 as (C1 & O1).
  destruct (again_ready (Z.to_nat 20000) base s m d1 Hb) as (d2 & R2 & C2 & O2); [by rewrite C1|rewrite C1; apply Hp|].
  rewrite (bind_Done _ _ _ _ _ R2). change (TRUE =? FALSE) with false. cbn beta iota. rewrite C1 in C2. cbn in C2.
  unfold __hdd_ata_pio_write at 1, ide_base. zguard. rewrite bind_bind.
  erewrite bind_getsome by (cbn; by rewrite Hl). cbn [base_port].
  change (Z.to_nat (Z.shiftr 512 1)) with 256%nat.
  destruct (outsw_spec 256 [] base s m d2 buffer Hb Hm ltac:(done) eq_refl)
    as (d3 & k3 & R3 & (C3 & O3) & d0 & ->);
    [by rewrite C2..|].
  rewrite (bind_Done _ _ _ _ _ R3). rewrite C2 in C3.
  destruct (flush_command_spec s m d3 i base sl Ha) as (d4 & R4 & I4 & S4 & O4); [by rewrite C3|rewrite C3; apply Hf|done|].
  exists d4. split; [exact R4|]. split; [done|]. split.
  - rewrite S4. unfold sectors. rewrite C3. cbn [ch_store ch_disk app]. unfold ch_store.
    destruct (task_file_spec lba sl (channel_at base d) Hlba) as (_ & El & Es & _).
    unfold ch_slave, ch_lba in *. cbn in *. by rewrite El, Es.
  - intros b Hb' N. by rewrite O4, O3, O2, O1.
Qed.

(** *** The boot disk as a function from sector numbers to sectors *)

Definition sector_put (lba : Z) (ws : list Z) (f : Z -> list Z) : Z -> list Z :=
  fun l => if l =? lba then ws else f l.

(** The current port is an idle drive whose sectors are [f]. *)
Definition online s (f : Z -> list Z) : Prop :=
  exists base sl,
    attached s (g_current_ide_port_index s) base sl /\ idle base (dev s) /\
    (forall l, sectors base (dev s) sl l = f l) /\ (forall l, is_sector (f l)) /\
    (exists a, zlookup (ata_port s) (g_current_ide_port_index s) = Some a /\
       cmd_block_base_address a = base) /\
    0 < gNumberOfSectorsInBootDisk s <= 2 ^ 28 /\ bytes (ram s).

Lemma online_ram s f : online s f -> bytes (ram s).
Proof. by intros (? & ? & _ & _ & _ & _ & _ & _ & H). Qed.

Lemma online_sector s f l : online s f -> is_sector (f l).
Proof. by intros (? & ? & _ & _ & _ & H & _). Qed.

Lemma current_index s : 0 <= g_current_ide_port_index s <= 3 ->
  u32 (g_current_ide_port_index s) = g_current_ide_port_index s.
Proof. intros. apply u32_id. lia. Qed.

Lemma read_online s f lba buffer :
  online s f -> prompt (Z.to_nat 20000) -> 0 <= lba < gNumberOfSectorsInBootDisk s ->
  exists d', ataReadSector fuel buffer lba s = Done 0 (io s (store_words buffer (f lba) (ram s)) d') /\
    online (io s (store_words buffer (f lba) (ram s)) d') f.
Proof.
  intros (base & sl & Ha & Hid & Hf & Hs & Hp & Hn & Hm) Hlat Hlba. pose proof Ha as (Hi & Hb & _).
  unfold ataReadSector, ata_get_current_ide_port_index. rewrite !bind_gets. zguard.
  rewrite u32_id, current_index by lia.
  destruct (pio_read_spec s (ram s) (dev s) _ base sl lba buffer Ha Hid ltac:(lia) Hlat) as (d' & R & Hid' & Hs' & _).
  { rewrite Hf. apply Hs. }
  rewrite Hf, io_id in R. exists d'. split; [exact R|]. exists base, sl.
  split; [done|]. split; [done|]. split; [intros l; change (sectors base d' sl l = f l); by rewrite Hs'|].
  split; [done|]. split; [done|]. split; [done|]. by apply bytes_store_words.
Qed.

Lemma write_online s f lba buffer :
  online s f -> prompt (Z.to_nat 20000) -> prompt fuel -> 0 <= lba < gNumberOfSectorsInBootDisk s ->
  exists d', ataWriteSector fuel buffer lba s = Done 0 (io s (ram s) d') /\
    online (io s (ram s) d') (sector_put lba (read_words 256 buffer (ram s)) f).
Proof.
  intros (base & sl & Ha & Hid & Hf & Hs & Hp & Hn & Hm) Hlat Hfuel Hlba. pose proof Ha as (Hi & Hb & _).
  unfold ataWriteSector, ata_get_current_ide_port_index. rewrite !bind_gets. zguard.
  rewrite u32_id, current_index by lia.
  destruct (pio_write_spec s (ram s) (dev s) _ base sl lba buffer Ha Hid ltac:(lia) Hlat Hfuel Hm)
    as (d' & R & Hid' & Hs' & _).
  rewrite io_id in R. exists d'. split; [exact R|]. exists base, sl. split; [done|]. split; [done|]. split; [|split; [|done]].
  - intros l. change (sectors base d' sl l = sector_put lba (read_words 256 buffer (ram s)) f l).
    rewrite Hs'. unfold disk_put, sector_put. rewrite eqb_reflx, Hf. done.
  - intros l. unfold sector_put. case_match; [by apply read_words_sector|done].
Qed.

(** Accesses that keep the channels keep the boot disk. *)
Lemma online_dev s f d' :
  online s f -> (forall b, b ∈ bases -> channel_at b d' = channel_at b (dev s)) -> online (io s (ram s) d') f.
Proof.
  intros (base & sl & Ha & (Hk & Hp) & Hf & Hs & Hport & Hn & Hm) Hc. pose proof Ha as (_ & Hb & _).
  exists base, sl. unfold idle, sectors in *. cbn [dev io]. rewrite Hc by done.
  split; [done|]. split; [by split|]. by repeat (split; [done|]).
Qed.

Lemma status_online s f :
  online s f -> exists st d',
    ata_status_read (g_current_ide_port_index s) s = Done st (io s (ram s) d') /\
    Z.testbit st 0 = false /\ online (io s (ram s) d') f.
Proof.
  intros Hon. pose proof Hon as (base & sl & Ha & (Hk & Hp) & Hf & Hs & (a & Hl & Hcmd) & Hn & Hm).
  pose proof Ha as (Hi & Hb & _). destruct (law_status base (dev s) Hb) as ((_ & He) & Hc & Ho).
  exists (in8 (base + 7) (dev s)).1, (in8 (base + 7) (dev s)).2. split; [|split; [done|]].
  - unfold ata_status_read. erewrite bind_getsome by exact Hl. rewrite Hcmd. unfold kin8.
    replace (u16 (base + ATA_REG_STATUS)) with (base + 7); [by destruct s|].
    symmetry. apply bases_range in Hb. apply Z.mod_small. unfold ATA_REG_STATUS. lia.
  - apply online_dev; [done|]. intros b Hb'. destruct (decide (b = base)) as [->|N]; [|by apply Ho].
    rewrite Hc. destruct (channel_at base (dev s)); cbn in *. by subst.
Qed.

Lemma ata_wait_online s f val :
  online s f -> exists d', ata_wait val s = Done tt (io s (ram s) d') /\ online (io s (ram s) d') f.
Proof.
  intros Hon. unfold ata_wait.
  destruct (delays_io (range 0 (Z.quot (if val <=? 100 then 400 else val) 100)) s (ram s) (dev s)) as (d' & R & Hc).
  rewrite io_id in R. exists d'. split; [done|]. by apply online_dev.
Qed.

(** Waiting for the interrupt before a write ends, and clears its flag. *)
Lemma wait_irq_loop_online n s f p :
  online s f -> p = g_current_ide_port_index s ->
  exists d', wait_irq_loop n p s = Done 0x80 ((io s (ram s) d') <| ata_irq_invoked := FALSE |>) /\
    online (io s (ram s) d') f.
Proof.
  intros Hon ->. revert s Hon. induction n as [|n IH]; intros s Hon; cbn [wait_irq_loop];
    destruct (status_online s f Hon) as (st & d1 & R1 & He & Hon1);
    rewrite (bind_Done _ _ _ _ _ R1); change ATA_SR_ERR with (2 ^ 0); rewrite bit_land, He by lia; cbn [negb].
  - by exists d1.
  - destruct (ata_wait_online (io s (ram s) d1) f 400 Hon1) as (d2 & R2 & Hon2).
    rewrite (bind_Done _ _ _ _ _ R2). destruct (IH _ Hon2) as (d3 & R3 & Hon3).
    by exists d3.
Qed.

Lemma wait_irq_online s f :
  online s f ->
  exists r d', disk_ata_wait_irq (g_current_ide_port_index s) s =
      Done r ((io s (ram s) d') <| ata_irq_invoked := FALSE |>) /\
    online (io s (ram s) d') f.
Proof.
  intros Hon. unfold disk_ata_wait_irq. rewrite bind_gets. case_match.
  - destruct (wait_irq_loop_online (Z.to_nat 1000) s f _ Hon eq_refl) as (d' & R & Hon'). eauto.
  - exists 0, (dev s). rewrite io_id. done.
Qed.
End Protocol.

(** ** A device that follows the protocol

    Two channels at the legacy addresses; every command takes [n] status
    reads. *)
Record ata_model (n : nat) := mk_model { am_primary : ata_channel; am_secondary : ata_channel }.
Arguments mk_model {n}.
Arguments am_primary {n}.
Arguments am_secondary {n}.

Definition am_base (port : Z) : option Z :=
  if (0x1F0 <=? port) && (port <=? 0x1F7) then Some 0x1F0
  else if (0x170 <=? port) && (port <=? 0x177) then Some 0x170 else None.
Definition am_get {n} (b : Z) (d : ata_model n) : ata_channel :=
  if b =? 0x1F0 then am_primary d else am_secondary d.
Definition am_set {n} (b : Z) (ch : ata_channel) (d : ata_model n) : ata_model n :=
  if b =? 0x1F0 then mk_model ch (am_secondary d) else mk_model (am_primary d) ch.
Definition am_status (ch : ata_channel) : Z :=
  match ch_busy ch, ch_phase ch with S _, _ => 0x80 | O, Idle => 0x40 | O, _ => 0x48 end.

#[export] Instance ata_model_bus n : AtaBus (ata_model n) := {
  in8 port d := match am_base port with
    | Some b => if port =? b + 7 then (am_status (am_get b d), am_set b (ch_poll (am_get b d)) d) else (0, d)
    | None => (0, d) end;
  out8 port v d := match am_base port with
    | Some b =>
        if port =? b + 7 then
          match ch_command v n (am_get b d) with Some ch => am_set b ch d | None => d end
        else if b + 2 <=? port then am_set b (ch_write (port - b) v (am_get b d)) d else d
    | None => d end;
  in16 port d := match am_base port with
    | Some b => match ch_phase (am_get b d) with
        | DataIn (w :: ws) => (w, am_set b (ch_give ws (am_get b d)) d)
        | _ => (0, d) end
    | None => (0, d) end;
  out16 port v d := match am_base port with
    | Some b => match ch_phase (am_get b d) with
        | DataOut acc => am_set b (ch_accept acc v n (am_get b d)) d
        | _ => d end
    | None => d end
}.

Lemma am_cases (b : Z) : b ∈ [0x1F0; 0x170] -> b = 0x1F0 \/ b = 0x170.
Proof. intros [->|[->|[]%not_elem_of_nil]%elem_of_cons]%elem_of_cons; auto. Qed.

Lemma am_base_at b r : b ∈ [0x1F0; 0x170] -> 0 <= r <= 7 -> am_base (b + r) = Some b.
Proof. intros [-> | ->]%am_cases Hr; unfold am_base; by zguard. Qed.

Lemma am_get_set {n} b ch (d : ata_model n) : am_get b (am_set b ch d) = ch.
Proof. unfold am_get, am_set. by destruct (b =? 0x1F0). Qed.

Lemma am_get_set_ne {n} b b' ch (d : ata_model n) :
  b ∈ [0x1F0; 0x170] -> b' ∈ [0x1F0; 0x170] -> b' <> b -> am_get b' (am_set b ch d) = am_get b' d.
Proof. intros [-> | ->]%am_cases [-> | ->]%am_cases N; done. Qed.

Lemma am_status_of ch : status_of ch (am_status ch).
Proof. destruct ch as [[|k] [] ? ? ? ? ? ?]; done. Qed.

Section ModelLaws.
Context {n : nat}.
Implicit Types (d : ata_model n).

Lemma am_acts base ch d f : base ∈ [0x1F0; 0x170] -> ch = f (am_get base d) ->
  am_get base (am_set base ch d) = f (am_get base d) /\
  forall b, b ∈ [0x1F0; 0x170] -> b <> base -> am_get b (am_set base ch d) = am_get b d.
Proof. intros Hb ->. split; [apply am_get_set|]. intros b Hb' N. by apply am_get_set_ne. Qed.

#[export] Program Instance ata_model_device : AtaDevice (ata_model n) := {
  bases := [0x1F0; 0x170];
  channel_at := am_get;
  latency _ _ := n
}.
Next Obligation. intros base [-> | ->]%am_cases; lia. Qed.
Next Obligation.
  intros base d Hb. cbn. rewrite am_base_at, Z.eqb_refl by (done || lia).
  split; [apply am_status_of|by apply am_acts].
Qed.
Next Obligation.
  intros base r v d Hb Hr Hv Hk Hp. cbn. rewrite am_base_at by (done || lia).
  replace (base + r =? base + 7) with false by lia. zguard. replace (base + r - base) with r by lia. by apply am_acts.
Qed.
Next Obligation.
  intros base v d ch Hb Hk Hp Hc. cbn. rewrite am_base_at, Z.eqb_refl, Hc by (done || lia).
  by apply (am_acts base ch d (fun _ => ch)).
Qed.
Next Obligation.
  intros base d w ws Hb Hk Hp. cbn. rewrite <- (Z.add_0_r base), am_base_at, Z.add_0_r, Hp by (done || lia).
  split; [done|by apply am_acts].
Qed.
Next Obligation.
  intros base d v acc Hb Hv Hk Hp. cbn. rewrite <- (Z.add_0_r base), am_base_at, Z.add_0_r, Hp by (done || lia).
  by apply am_acts.
Qed.
Next Obligation. done. Qed.
End ModelLaws.

Lemma ata_model_prompt n k : (n < k)%nat -> prompt (D := ata_model n) k.
Proof. intros H v d. exact H. Qed.

(** A blank storage with the port table of the four legacy ports. *)
Definition demo_channel (f : Z -> list Z) : ata_channel :=
  mk_channel 0 Idle 0 0 0 0 0 (fun sl l => if sl then replicate 256 0 else f l).
Definition demo_storage (n : nat) (m : memory) (f : Z -> list Z) : storage (ata_model n) :=
  mk_storage m (mk_model (demo_channel f) (demo_channel (fun _ => replicate 256 0)))
    [mk_ide_port 0x1F0 0; mk_ide_port 0x1F0 1; mk_ide_port 0x170 0; mk_ide_port 0x170 1]
    [mk_ata_port 0 0 0x1F0 0x3F6 0; mk_ata_port 0 1 0x1F0 0x3F6 0;
     mk_ata_port 1 0 0x170 0x376 8; mk_ata_port 1 1 0x170 0x376 8]
    0 0 65536 FALSE TRUE TRUE 0 0 16 0 0
    (Some (mk_filesystem TRUE 1234 1 1 512 0x30000 67 312)) None
    (replicate (Z.to_nat 32768) 0) [] 0
    (mk_sysdir 0 0) (mk_sysdir 0 0) (mk_sysdir 0 0).

Lemma demo_online n m f : bytes m -> (forall l, is_sector (f l)) -> online (demo_storage n m f) f.
Proof.
  intros Hm Hf. exists 0x1F0, false.
  split; [split; [done|]; split; [change (0x1F0 ∈ [0x1F0; 0x170]); left|done]|].
  split; [done|]. split; [done|]. split; [done|]. split; [by eexists|]. split; [cbn; lia|done].
Qed.

(** ** Theorems *)
Section Theorems.
Context {D : Type} `{HD : AtaDevice D} (fuel : nat).

(** [C27] A sector written from [a] and read back at [b] gives the same 512
    bytes: both routines return 0, nothing else in the memory changes, and the
    boot disk differs only in that sector, for every device that follows the
    PIO protocol and answers within the driver's 20000 polls. *)
Theorem sector_roundtrip (s : storage D) f a b lba :
  online s f -> prompt (Z.to_nat 20000) -> prompt fuel ->
  0 <= lba < gNumberOfSectorsInBootDisk s ->
  exists s1 s2,
    ataWriteSector fuel a lba s = Done 0 s1 /\ ataReadSector fuel b lba s1 = Done 0 s2 /\
    (forall i, 0 <= i < 512 -> ram s2 (b + i) = ram s (a + i)) /\
    (forall x, x < b \/ b + 512 <= x -> ram s2 x = ram s x) /\
    online s2 (sector_put lba (read_words 256 a (ram s)) f).
Proof.
  intros Hon Hp Hf Hlba. pose proof (online_ram _ _ Hon) as Hm.
  destruct (write_online fuel s f lba a Hon Hp Hf Hlba) as (d1 & R1 & Hon1).
  destruct (read_online fuel (io s (ram s) d1) _ lba b Hon1 Hp Hlba) as (d2 & R2 & Hon2).
  eexists _, _. split; [exact R1|]. split; [exact R2|].
  cbn [ram io set_field]. unfold sector_put at 1 2. rewrite Z.eqb_refl.
  pose proof (read_words_sector a (ram s) Hm) as (Hl & Hw).
  assert (2 * zlen (read_words 256 a (ram s)) = 512) as Hz by (unfold zlen; rewrite Hl; lia).
  split; [|split; [|exact Hon2]].
  - intros i Hi. cbn -[store_words]. rewrite store_words_spec, Hz by done. zguard.
    replace (b + i - b) with i by lia. rewrite read_words_byte by (done || lia). done.
  - intros x Hx. cbn -[store_words]. rewrite store_words_spec, Hz by done. destruct Hx; zguard; done.
Qed.

(** A device that does not raise DRQ within 20000 status reads makes the
    driver fail with -3, and [read_lba], which drops the status, returns to its
    caller as after a successful read although no byte was transferred. *)
Theorem read_lba_hides_timeout (s : storage D) f address lba :
  online s f -> (forall v d, 20000 <= Z.of_nat (latency v d)) ->
  g_currentvolume_fatbits s = 16 -> 0 <= lba < gNumberOfSectorsInBootDisk s ->
  exists s', ataReadSector fuel address lba s = Done (-3) s' /\
    read_lba fuel address lba s = Done tt s' /\ ram s' = ram s.
Proof.
  intros (base & sl & Ha & Hid & Hf & Hs & Hp & Hn & Hm) Hlat Hbits Hlba. pose proof Ha as (Hi & Hb & _).
  destruct (pio_timeout_spec fuel s (ram s) (dev s) _ base sl lba __OPERATION_PIO_READ address Ha Hid
    ltac:(lia) (or_introl eq_refl) Hlat) as (d' & R & _).
  rewrite io_id in R.
  assert (ataReadSector fuel address lba s = Done (-3) (io s (ram s) d')) as E.
  { unfold ataReadSector, ata_get_current_ide_port_index. rewrite !bind_gets. zguard.
    by rewrite u32_id, current_index by lia. }
  exists (io s (ram s) d'). split; [exact E|]. split; [|done].
  unfold read_lba. rewrite bind_gets, Hbits. cbn [Z.eqb Pos.eqb]. by rewrite (bind_Done _ _ _ _ _ E).
Qed.
End Theorems.

(** ** Witnesses *)
Definition demo_ram : memory := fun x => x mod 256.
Definition blank_disk : Z -> list Z := fun _ => replicate 256 0.

Lemma demo_ram_bytes : bytes demo_ram.
Proof. intros x. apply Z.mod_pos_bound. lia. Qed.

Lemma blank_disk_sectors l : is_sector (blank_disk l).
Proof. split; [done|]. apply Forall_replicate. unfold is_word. lia. Qed.

Lemma sector_roundtrip_witness :
  exists s1 s2,
    ataWriteSector 10 4096 700 (demo_storage 3 demo_ram blank_disk) = Done 0 s1 /\
    ataReadSector 10 8192 700 s1 = Done 0 s2 /\
    (forall i, 0 <= i < 512 -> ram s2 (8192 + i) = demo_ram (4096 + i)) /\
    (forall x, x < 8192 \/ 8192 + 512 <= x -> ram s2 x = demo_ram x) /\
    online s2 (sector_put 700 (read_words 256 4096 demo_ram) blank_disk).
Proof.
  apply (sector_roundtrip 10 (demo_storage 3 demo_ram blank_disk) blank_disk 4096 8192 700).
  - apply demo_online; [apply demo_ram_bytes|apply blank_disk_sectors].
  - apply ata_model_prompt. lia.
  - apply ata_model_prompt. lia.
  - cbn. lia.
Defined.

Lemma read_lba_hides_timeout_witness :
  exists s', ataReadSector 10 8192 700 (demo_storage (Z.to_nat 20000) demo_ram blank_disk) = Done (-3) s' /\
    read_lba 10 8192 700 (demo_storage (Z.to_nat 20000) demo_ram blank_disk) = Done tt s' /\
    ram s' = demo_ram.
Proof.
  apply (read_lba_hides_timeout 10 (demo_storage (Z.to_nat 20000) demo_ram blank_disk) blank_disk 8192 700).
  - apply demo_online; [apply demo_ram_bytes|apply blank_disk_sectors].
  - intros v d. change (latency v d) with (Z.to_nat 20000). lia.
  - reflexivity.
  - cbn. lia.
Defined.
