(* ===== verification/Fat.v ===== *)
(** * The FAT16 layer: disk sequences, directory entries, names, searches

    res/dev/blkdev/ata/disk_r.c and disk_w.c (sequences of sectors, the FAT
    and root-directory caches), res/fs/fat/fat16.c (8.3 names, directory
    entries, the size of a file, the FAT cache), res/fs/search.c, and the name
    conversion [fs_fntos] of res/fs/fslib.c.  A local array of the C code lives
    at a negative address, where no pointer of the kernel points; its contents
    are dropped when the routine returns. *)
From Stdlib Require Import ZArith Lia.
From stdpp Require Import base gmap list strings.
From S2P Require Import Config Prelude Strings Memory Ata.

#[local] Open Scope Z_scope.
#[local] Open Scope gramado_scope.

(** ** fatlib.h, storage.h, x64gpa.h, x64gva.h, config.h *)
Definition VOLUME1_FAT_ADDRESS : Z := 0x30000.
Definition VOLUME1_ROOTDIR_ADDRESS : Z := 0x70000.
Definition VOLUME1_FAT_LBA : Z := 67.
Definition VOLUME1_FAT_SIZE : Z := 246.
Definition VOLUME1_ROOTDIR_LBA : Z := 559.
Definition VOLUME1_DATAAREA_LBA : Z := 591.
Definition MBR_LBA : Z := 0.
Definition SECTOR_SIZE : Z := 512.
Definition FAT16_ROOT_ENTRIES : Z := 512.
Definition FAT16_ENTRY_SIZE : Z := 32.
Definition FAT_CACHE_LOADED : Z := 1.
Definition FAT_CACHE_NOT_LOADED : Z := 0.
Definition FAT_CACHE_SAVED : Z := 1.
Definition FAT_CACHE_NOT_SAVED : Z := 0.
Definition CLUSTERS_TO_SAVE_MAX : Z := 32 * 1024.
Definition FAT_DIRECTORY_ENTRY_FREE : Z := 0xE5.
Definition FAT_DIRECTORY_ENTRY_LAST : Z := 0.

(** The address of a local array. *)
Definition local_array : Z := -4096.

(** ** disk_r.c, disk_w.c *)
Section Sequences.
Context {D : Type} `{!AtaBus D} (fuel : nat).
#[local] Abbreviation K := (M (storage D)).

Definition __load_sequential_sectors (address lba sectors : Z) : K Z :=
  for_each (range 0 sectors) (fun i =>
    ataReadSector fuel (u64 (address + 512 * i)) (u64 (lba + i)) ≫= fun _ => mret tt) ≫= fun _ =>
  mret 0.

Definition fatClustToSect (cluster spc first_data_sector : Z) : Z :=
  u64 (u64 (u64 (cluster - 2) * spc) + first_data_sector).

Definition fatLoadCluster (sector address spc : Z) : K unit :=
  for_each (range 0 spc) (fun i => read_lba fuel (u64 (address + 512 * i)) (u64 (sector + i))).

Definition ata_load_boot_metafile (buffer first_lba size_in_sectors : Z) : K unit :=
  let SizeInSectors := Z.land size_in_sectors 0xFFFFFFFF in
  if buffer =? 0 then mret tt
  else if size_in_sectors =? 0 then mret tt
  else __load_sequential_sectors buffer first_lba SizeInSectors ≫= fun _ => mret tt.

Definition fs_load_mbr (mbr_address : Z) : K unit :=
  __load_sequential_sectors mbr_address MBR_LBA 1 ≫= fun _ => mret tt.

Definition fs_load_fat (fat_address fat_lba size_in_sectors : Z) : K unit :=
  gets g_fat_cache_loaded ≫= fun loaded =>
  if loaded =? FAT_CACHE_LOADED then mret tt
  else
    __load_sequential_sectors fat_address fat_lba (Z.land size_in_sectors 0xFFFF) ≫= fun _ =>
    modify (fun s => s <| g_fat_cache_loaded := FAT_CACHE_LOADED |>).

Definition fs_load_rootdir (root_address root_lba size_in_sectors : Z) : K unit :=
  __load_sequential_sectors root_address root_lba (Z.land size_in_sectors 0xFFFF) ≫= fun _ => mret tt.

(** [size_t] is [int]: the number of sectors is read as a signed integer. *)
Definition __do_save_sequence (p buffer_va lba number_of_sectors : Z) : K Z :=
  let Total := i32 (Z.land number_of_sectors 0xFFFFFFFF) in
  for_each (range 0 Total) (fun i =>
    disk_ata_wait_irq p ≫= fun _ =>
    ataWriteSector fuel (u64 (buffer_va + 512 * i)) (u64 (lba + i)) ≫= fun _ => mret tt) ≫= fun _ =>
  mret 0.

Definition fatWriteCluster (sector address spc : Z) : K unit :=
  if spc =? 0 then mret tt
  else for_each (range 0 spc) (fun i => write_lba fuel (u64 (address + 512 * i)) (u64 (sector + i))).

Definition ata_store_boot_metafile (buffer first_lba size_in_sectors : Z) : K unit :=
  if buffer =? 0 then panic "ata_store_boot_metafile: buffer"
  else if first_lba =? 0 then panic "ata_store_boot_metafile: first_lba"
  else gets g_current_ide_port_index ≫= fun p =>
       __do_save_sequence p buffer first_lba (i32 size_in_sectors) ≫= fun _ => mret tt.

Definition fs_save_fat (fat_address fat_lba fat_size : Z) : K Z :=
  if fat_address =? 0 then panic "fs_save_fat: fat_address"
  else if fat_lba =? 0 then panic "fs_save_fat: fat_lba"
  else if negb (fat_size =? VOLUME1_FAT_SIZE) then panic "fs_save_fat: fat_size"
  else gets g_current_ide_port_index ≫= fun p =>
       __do_save_sequence p fat_address fat_lba fat_size ≫= fun _ => mret 0.

Definition fs_save_rootdir (root_address root_lba root_size : Z) : K Z :=
  if root_address =? 0 then panic "fs_save_rootdir: root_address"
  else if root_lba =? 0 then panic "fs_save_rootdir: root_lba"
  else if negb (root_size =? 32) then panic "fs_save_rootdir: root_size"
  else gets g_current_ide_port_index ≫= fun p =>
       __do_save_sequence p root_address root_lba root_size ≫= fun _ => mret 0.

(** ** fat16.c: the FAT cache and the structures *)

(** [p = kmalloc(sizeof(struct fat_d))] is the argument. *)
Definition fat16_init_fat_structure (p : Z) : K unit :=
  gets root ≫= fun r =>
  match r with
  | None => panic "fs_init_fat: root"
  | Some r =>
      if p =? NULL then panic "fs_init_fat: bootvolume_fat"
      else
        let f := mk_fat 0 0 FALSE (i32 (fs_type r)) (root_fat_address r) (root_fat_first_lba r)
                   (root_fat_last_lba r) in
        if fat_address f =? 0 then panic "fs_init_fat: bootvolume_fat->fat_address"
        else if fat_type f <=? 0 then panic "fs_init_fat: fat->type"
        else modify (fun s => s <| bootvolume_fat :=
               Some (mk_fat TRUE 1234 TRUE (fat_type f) (fat_address f) (fat_first_lba f) (fat_last_lba f)) |>)
  end.

Definition fs_fat16_cache_not_saved : K unit :=
  modify (fun s => s <| g_fat_cache_saved := FAT_CACHE_NOT_SAVED |>).

Definition fs_save_fat16_cache : K Z :=
  gets g_fat_cache_saved ≫= fun saved =>
  if negb (saved =? FAT_CACHE_NOT_SAVED) then mret (-1)
  else
    fs_save_fat VOLUME1_FAT_ADDRESS VOLUME1_FAT_LBA VOLUME1_FAT_SIZE ≫= fun _ =>
    modify (fun s => s <| g_fat_cache_saved := FAT_CACHE_SAVED |>) ≫= fun _ =>
    mret 0.
End Sequences.

(** ** fat16.c: directory entries and 8.3 names *)

(** [dst[i] = src[i]], [i] from 0 to 31: the entry is read from the directory
    while the structure is written. *)
Definition fat16_get_entry_info {D} (entry directory_va entry_number entry_max : Z)
    : M (storage D) Z :=
  if entry =? NULL then panic "fat16_get_entry_info: p"
  else if directory_va =? 0 then panic "fat16_get_entry_info: directory_va"
  else if (entry_number <? 0) || (512 <? entry_number) then panic "fat16_get_entry_info: entry_number"
  else if (entry_max <? 0) || (512 <? entry_max) then panic "fat16_get_entry_info: entry_max"
  else
    modify (fun s => s <| ram :=
      copy_up (Z.to_nat FAT16_ENTRY_SIZE) entry (u64 (directory_va + FAT16_ENTRY_SIZE * entry_number)) (ram s) |>) ≫= fun _ =>
    mret 0.

(** [for (j=lo+n-1; j>=lo && src[j]==0x20; j--);]: the final [j]. *)
Fixpoint strip (m : memory) (src lo : Z) (n : nat) : Z :=
  match n with
  | O => lo - 1
  | S n => if char_at m (src + lo + Z.of_nat n) =? 0x20 then strip m src lo n else lo + Z.of_nat n
  end.

(** From 8.3. *)
Definition from_FAT_name (src dst : Z) (m : memory) : memory :=
  if src =? NULL then m
  else if dst =? NULL then m
  else if m src =? 0 then m
  else if m dst =? 0 then m
  else
    let j := strip m src 0 8 in
    let m := copy_up (Z.to_nat (j + 1)) dst src m in
    let k := j + 1 in
    let dot := negb (m src =? 46) in
    let m := if dot then poke (dst + k) 46 m else m in
    let k := if dot then k + 1 else k in
    let j := strip m src 8 3 in
    if j =? 7 then
      if k =? 1 then poke (dst + k) 0 m
      else if m dst =? 46 then poke (dst + k) 0 m
      else poke (dst + (k - 1)) 0 m
    else
      let m := copy_up (Z.to_nat (j - 7)) (dst + k) (src + 8) m in
      poke (dst + k + (j - 7)) 0 m.

(** [strcmp(src, lit) == 0] for a literal without null characters. *)
Fixpoint streq (m : memory) (src : Z) (lit : list Z) : bool :=
  match lit with
  | [] => m src =? 0
  | c :: lit => (m src =? c) && streq m (src + 1) lit
  end.

(** [while (i<limit && *ptr && *ptr != stop) dst[i++] = *ptr++;], at most [n]
    times: the memory, [i] and [ptr]; [stop] is absent in the second loop. *)
Fixpoint copy_part (n : nat) (stop : option Z) (dst i ptr : Z) (m : memory) : memory * Z * Z :=
  match n with
  | O => (m, i, ptr)
  | S n =>
      if (m ptr =? 0) || (if stop is Some c then m ptr =? c else false) then (m, i, ptr)
      else copy_part n stop dst (i + 1) (ptr + 1) (poke (dst + i) (m ptr) m)
  end.

(** [while (i<limit) dst[i++] = 0x20;] *)
Fixpoint blanks (n : nat) (a : Z) (m : memory) : memory :=
  match n with O => m | S n => blanks n (a + 1) (poke a 0x20 m) end.

(** To 8.3; [strcpy] of a literal is written out. *)
Definition to_FAT_name (src dst : Z) (m : memory) : memory :=
  if streq m src [46; 46] then
    blanks 9 (dst + 2) (poke_list dst [46; 46; 0] m)
  else if streq m src [46] then
    blanks 10 (dst + 1) (poke_list dst [46; 0] m)
  else
    let '(m, i, ptr) := copy_part 8 (Some 46) dst 0 src m in
    let m := blanks (Z.to_nat (8 - i)) (dst + i) m in
    let ptr := if m ptr =? 46 then ptr + 1 else ptr in
    let '(m, i, _) := copy_part 3 None dst 8 ptr m in
    blanks (Z.to_nat (11 - i)) (dst + i) m.

(** ** fslib.c: [fs_fntos] and [fs_fntos2] *)

Definition is_lower (c : Z) : bool := (97 <=? c) && (c <=? 122).

(** The symbols kept in an extension: $ % - _ ( ) { } *)
Definition ext_symbol (c : Z) : bool :=
  (c =? 36) || (c =? 37) || (c =? 45) || (c =? 95) || (c =? 40) || (c =? 41) || (c =? 123) || (c =? 125).
Definition ext_digit (c : Z) : bool := (48 <=? c) && (c <=? 57).

(** The first loop: upper case up to the dot or the end; [name] and [ns]. *)
Fixpoint fntos_name (fuel : nat) (name ns : Z) (m : memory) : option (memory * Z * Z) :=
  match fuel with
  | O => None
  | S fuel =>
      if (m name =? 0) || (m name =? 46) then Some (m, name, ns)
      else
        let m := if is_lower (m name) then poke name (m name - 0x20) m else m in
        fntos_name fuel (name + 1) (ns + 1) m
  end.

(** The extension loop: characters are changed in place and saved in [ext]. *)
Fixpoint fntos_ext (n : nat) (name : Z) (ext : list Z) (m : memory) : memory * list Z :=
  match n with
  | O => (m, ext)
  | S n' =>
      let i := 3 - Z.of_nat n in
      let a := name + i + 1 in
      if m a =? 0 then (m, ext)
      else
        let low := is_lower (m a) in
        let m := if low then poke a (m a - 0x20) m else m in
        let ext := if low then zinsert ext i (m a) else ext in
        let ext := if ext_symbol (m a) then zinsert ext i (m a) else ext in
        let ext := if ext_digit (m a) then zinsert ext i (m a) else ext in
        fntos_ext n' name ext m
  end.

(** [if (ext[i]) *name++ = ext[i]; else *name++ = ' ';] *)
Definition ext_char (c : Z) : Z := if c =? 0 then 32 else c.

Definition fntos_with (added : list Z) (fuel : nat) (name : Z) (m : memory) : option memory :=
  if name =? NULL then Some m
  else if m name =? 0 then Some m
  else
    '(m, name, ns) ← fntos_name fuel name 0 m;
    let fAddNewExt := (m name =? 0) && (ns <=? 8) in
    let '(m, ext) := if fAddNewExt then (m, [0; 0; 0]) else fntos_ext 3 name [0; 0; 0] m in
    let pad := Z.max 0 (8 - ns) in
    let m := blanks (Z.to_nat pad) name m in
    let name := name + pad in
    let ext := if fAddNewExt then added else ext in
    Some (poke (name + 3) 0 (poke_list name (ext_char <$> ext) m)).

(** [fs_fntos] adds the extension BIN to a name without a dot, [fs_fntos2]
    adds blanks. *)
Definition fs_fntos : nat -> Z -> memory -> option memory := fntos_with [66; 73; 78].
Definition fs_fntos2 : nat -> Z -> memory -> option memory := fntos_with [32; 32; 32].

(** [fs_count_path_levels]: the slashes among the first 2000 characters. *)
Fixpoint count_levels (n : nat) (path Counter : Z) (m : memory) : Z :=
  match n with
  | O => Counter
  | S n =>
      let Counter := if m path =? 47 then Counter + 1 else Counter in
      if m path =? 0 then Counter else count_levels n (path + 1) Counter m
  end.
Definition fs_count_path_levels (path : Z) (m : memory) : Z :=
  if path =? NULL then 0 else if m path =? 0 then 0 else count_levels 2000 path 0 m.

(** ** search.c, and the size of a file (fat16.c) *)
Section Search.
Context {D : Type} `{!AtaBus D} (fuel : nat).
#[local] Abbreviation K := (M (storage D)).

(** A string function of the library on the memory; a string without end is
    read for ever. *)
Definition strlenM (a : Z) : K Z := fun s =>
  match strlen fuel (ram s) a with Some n => Done n s | None => OutOfFuel end.

(** [memcpy(local, entry, n); local[n] = 0; kstrncmp(name, local, n)] *)
Definition entry_compare (m : memory) (name entry n : Z) : Z :=
  kstrncmp (poke (local_array + n) 0 (memcpy local_array entry n m)) name local_array n.

(** [strncpy(Name_Desired, file_name, 11); Name_Desired[11] = 0;] after the
    blanks stored for the lengths 8, 9 and 10. *)
Definition Name_Desired : Z := local_array.
Definition Name_InEntry : Z := local_array + 16.
Definition desired (m : memory) (file_name stringSize : Z) : memory :=
  let m := if (8 <=? stringSize) && (stringSize <? 11)
           then blanks (Z.to_nat (11 - stringSize)) (Name_Desired + stringSize) m else m in
  poke (Name_Desired + 11) 0 (strncpy Name_Desired file_name 11 m).

Definition search_in_dir (file_name dir_address : Z) : K Z :=
  gets ram ≫= fun m =>
  if file_name =? NULL then mret (-1)
  else if m file_name =? 0 then mret (-1)
  else if dir_address =? 0 then mret (-1)
  else
    strlenM file_name ≫= fun stringSize =>
    if 11 <? stringSize then mret (-1)
    else
      let md := desired m file_name stringSize in
      if m file_name =? 47 then mret (-1)
      else
        for_return (range 0 512) (fun i =>
          let j := dir_address + 0x20 * i in
          if char_at m j =? i8 0xE5 then mret None
          else if m j =? 46 then mret None
          else if negb (m j =? 0) then
            let mi := poke (Name_InEntry + 11) 0 (memcpy Name_InEntry j 11 md) in
            if kstrncmp mi Name_Desired Name_InEntry 11 =? 0 then mret (Some TRUE) else mret None
          else mret None) ≫= fun r =>
        mret (default (-1) r).

Definition search_in_root (file_name : Z) : K Z :=
  gets ram ≫= fun m =>
  if file_name =? NULL then mret (-1)
  else if m file_name =? 0 then mret (-1)
  else search_in_dir file_name VOLUME1_ROOTDIR_ADDRESS.

Definition fsSearchFileInRoot (file_name : Z) : K Z :=
  if file_name =? NULL then mret (-1) else search_in_root file_name.

Definition findEmptyDirectoryEntry (dir_address number_of_entries : Z) : K Z :=
  gets ram ≫= fun m =>
  if dir_address =? 0 then mret (-1)
  else if number_of_entries <? 0 then mret (-1)
  else
    for_return (range 0 number_of_entries) (fun i =>
      if m (dir_address + 32 * i) =? 0 then mret (Some i) else mret None) ≫= fun r =>
    mret (default (-1) r).

(** The two routines that are not written yet. *)
Definition fs_find_n_empty_entries (n : Z) : K Z := panic "fs_find_n_empty_entries: #fixme".
Definition fs_find_empty_entry_in_fat (fat_address : Z) : K Z := panic "fs_find_empty_entry_in_fat:".

(** The scan shared by [fsGetFileSize] and [fsLoadFile]: the first of [max]
    entries whose first word is not null and whose name begins with the name. *)
Definition find_entry (file_name dir n max : Z) : K (option Z) :=
  gets ram ≫= fun m =>
  for_return (range 0 max) (fun i =>
    let a := dir + 32 * i in
    if negb (load16 m a =? 0) && (entry_compare m file_name a n =? 0)
    then mret (Some i) else mret None).

Definition fsGetFileSize (file_name dir_address : Z) : K Z :=
  gets ram ≫= fun m =>
  if file_name =? NULL then mret 0
  else if m file_name =? 0 then mret 0
  else if dir_address =? 0 then mret 0
  else
    (if dir_address =? VOLUME1_ROOTDIR_ADDRESS
     then fs_load_rootdir fuel VOLUME1_ROOTDIR_ADDRESS VOLUME1_ROOTDIR_LBA 32 else mret tt) ≫= fun _ =>
    gets root ≫= fun r =>
    match r with
    | None => panic "fsGetFileSize: [FAIL] No root file system!"
    | Some r =>
        if spc r <=? 0 then panic "fsGetFileSize: [FAIL] spc"
        else
          let max := u64 (dir_entries r) in
          if max <=? 0 then panic "fsGetFileSize: [FAIL] max root entries"
          else
            strlenM file_name ≫= fun n =>
            let szFileName := if 11 <? n then 11 else n in
            find_entry file_name dir_address szFileName max ≫= fun i =>
            match i with
            | None => mret 0
            | Some i => gets ram ≫= fun m => mret (Z.land (load32 m (dir_address + 32 * i + 28)) 0xFFFFFFFF)
            end
    end.
End Search.

(** ** Lemmas: sequences of sectors *)

(** Byte [o] of the disk. *)
Definition disk_byte (f : Z -> list Z) (o : Z) : Z := word_byte (f (o / 512)) (o mod 512).

(** The disk after [n] sectors of the memory at [address] are written at [lba]. *)
Definition disk_store (f : Z -> list Z) (lba n address : Z) (m : memory) : Z -> list Z :=
  fun l => if (lba <=? l) && (l <? lba + n) then read_words 256 (address + 512 * (l - lba)) m else f l.

Section SequenceLemmas.
Context {D : Type} `{HD : AtaDevice D} (fuel : nat).
Implicit Types (s : storage D) (d : D) (m : memory).

(** The state [s] with memory [m], device [d] and interrupt flag [b]. *)
Definition at_io s m d (b : Z) : storage D := (io s m d) <| ata_irq_invoked := b |>.

Lemma at_io_id s : at_io s (ram s) (dev s) (ata_irq_invoked s) = s.
Proof. by destruct s. Qed.

Lemma sector_bytes ws buffer m x : is_sector ws ->
  store_words buffer ws m x =
    if (buffer <=? x) && (x <? buffer + 512) then word_byte ws (x - buffer) else m x.
Proof.
  intros (Hl & Hw). rewrite store_words_spec by done. unfold zlen. rewrite Hl.
  by replace (buffer + 2 * Z.of_nat 256) with (buffer + 512) by lia.
Qed.

Lemma disk_byte_in f lba o : 0 <= o < 512 -> disk_byte f (512 * lba + o) = word_byte (f lba) o.
Proof.
  intros H. unfold disk_byte. rewrite Z.mul_comm, Z.div_add_l, Z.div_small, Z.add_0_r by lia.
  by rewrite Z.add_comm, Z.mod_add, Z.mod_small by lia.
Qed.

Lemma load_sequential_spec s f address lba n :
  online s f -> prompt (Z.to_nat 20000) -> 0 <= address -> address + 512 * n <= 2 ^ 64 ->
  0 <= n -> 0 <= lba -> lba + n <= gNumberOfSectorsInBootDisk s ->
  exists m' d', __load_sequential_sectors fuel address lba n s = Done 0 (io s m' d') /\
    online (io s m' d') f /\
    forall x, m' x = if (address <=? x) && (x <? address + 512 * n)
                     then disk_byte f (512 * lba + (x - address)) else ram s x.
Proof.
  intros Hon Hp Ha Hmax Hn Hlba Hend. assert (gNumberOfSectorsInBootDisk s <= 2 ^ 28) as Hg
    by (destruct Hon as (? & ? & _ & _ & _ & _ & _ & ? & _); lia).
  unfold __load_sequential_sectors.
  assert (wp (for_each (range 0 n) (fun i =>
      ataReadSector fuel (u64 (address + 512 * i)) (u64 (lba + i)) ≫= fun _ => mret tt)) s
    (fun _ s' => exists m' d', s' = io s m' d' /\ online s' f /\
       forall x, m' x = if (address <=? x) && (x <? address + 512 * n)
                     then disk_byte f (512 * lba + (x - address)) else ram s x)) as HW.
  { apply (wp_for_range (fun i s' => exists m' d', s' = io s m' d' /\ online s' f /\
       forall x, m' x = if (address <=? x) && (x <? address + 512 * i)
                     then disk_byte f (512 * lba + (x - address)) else ram s x)); [lia| | |done].
    - exists (ram s), (dev s). rewrite io_id. split; [done|]. split; [done|]. intros x.
      destruct (Z.leb_spec address x), (Z.ltb_spec x (address + 512 * 0)); cbn [andb]; done || lia.
    - intros i s' Hi (m' & d' & -> & Hon' & Hm'). rewrite !u64_id by lia.
      destruct (read_online fuel (io s m' d') f (lba + i) (address + 512 * i) Hon' Hp) as (d2 & R & Hon2);
        [cbn; lia|].
      apply wp_bind. eapply wp_eq; [exact R|]. apply wp_ret. eexists _, d2. split; [reflexivity|]. split; [exact Hon2|].
      intros x. rewrite sector_bytes by (eapply online_sector; exact Hon). cbn [ram io set_field set_ram set_dev eta_expand eta_storage].
      rewrite Hm'.
      destruct (Z.leb_spec (address + 512 * i) x), (Z.ltb_spec x (address + 512 * i + 512)),
        (Z.leb_spec address x), (Z.ltb_spec x (address + 512 * i)), (Z.ltb_spec x (address + 512 * (i + 1)));
        cbn [andb]; try lia; try done.
      replace (512 * lba + (x - address)) with (512 * (lba + i) + (x - (address + 512 * i))) by lia.
      by rewrite disk_byte_in by lia. }
  apply wp_Done in HW as ([] & s' & R & (m' & d' & -> & Hon' & Hm')).
  rewrite (bind_Done _ _ _ _ _ R). by exists m', d'.
Qed.

Lemma save_sequence_spec s f p address lba n :
  online s f -> prompt (Z.to_nat 20000) -> prompt fuel -> p = g_current_ide_port_index s ->
  0 <= address -> address + 512 * n <= 2 ^ 64 ->
  0 <= n -> 0 <= lba -> lba + n <= gNumberOfSectorsInBootDisk s ->
  exists d' b f', __do_save_sequence fuel p address lba n s = Done 0 (at_io s (ram s) d' b) /\
    online (at_io s (ram s) d' b) f' /\ forall l, f' l = disk_store f lba n address (ram s) l.
Proof.
  intros Hon Hp Hf -> Ha Hmax Hn Hlba Hend. assert (gNumberOfSectorsInBootDisk s <= 2 ^ 28) as Hg
    by (destruct Hon as (? & ? & _ & _ & _ & _ & _ & ? & _); lia).
  unfold __do_save_sequence. rewrite land_FFFFFFFF, Z.mod_small, i32_id by lia.
  assert (wp (for_each (range 0 n) (fun i =>
      disk_ata_wait_irq (g_current_ide_port_index s) ≫= fun _ =>
      ataWriteSector fuel (u64 (address + 512 * i)) (u64 (lba + i)) ≫= fun _ => mret tt)) s
    (fun _ s' => exists d' b f', s' = at_io s (ram s) d' b /\ online s' f' /\
       forall l, f' l = disk_store f lba n address (ram s) l)) as HW.
  { apply (wp_for_range (fun i s' => exists d' b f', s' = at_io s (ram s) d' b /\ online s' f' /\
       forall l, f' l = disk_store f lba i address (ram s) l)); [lia| | |done].
    - exists (dev s), (ata_irq_invoked s), f. rewrite at_io_id. split; [done|]. split; [done|]. intros l.
      unfold disk_store. destruct (Z.leb_spec lba l), (Z.ltb_spec l (lba + 0)); cbn [andb]; done || lia.
    - intros i s' Hi (d' & b & f' & -> & Hon' & Hf'). rewrite !u64_id by lia.
      destruct (wait_irq_online (at_io s (ram s) d' b) f' Hon') as (r & d1 & R1 & Hon1).
      apply wp_bind. eapply wp_eq; [exact R1|].
      destruct (write_online fuel (at_io s (ram s) d1 FALSE) f' (lba + i) (address + 512 * i) Hon1 Hp Hf) as (d2 & R2 & Hon2); [cbn; lia|].
      apply wp_bind. eapply wp_eq; [exact R2|]. apply wp_ret.
      eexists d2, FALSE, _. split; [reflexivity|]. split; [exact Hon2|].
      intros l. unfold sector_put. rewrite Hf'. unfold disk_store.
      destruct (Z.eqb_spec l (lba + i)) as [->|N].
      + zguard. by replace (lba + i - lba) with i by lia.
      + destruct (Z.leb_spec lba l), (Z.ltb_spec l (lba + i)), (Z.ltb_spec l (lba + (i + 1))); cbn [andb]; done || lia. }
  apply wp_Done in HW as ([] & s' & R & (d' & b & f' & -> & Hon' & Hf')).
  rewrite (bind_Done _ _ _ _ _ R). by exists d', b, f'.
Qed.
End SequenceLemmas.

(** ** Lemmas: names in memory *)

(** The bytes [l] are at [a]. *)
Fixpoint holdsb (m : memory) (a : Z) (l : list Z) : bool :=
  match l with [] => true | c :: l => (m a =? c) && holdsb m (a + 1) l end.

Lemma holdsb_spec m a l : holdsb m a l = true <-> forall i c, zlookup l i = Some c -> m (a + i) = c.
Proof.
  revert a. induction l as [|c l IH]; intros a; cbn [holdsb].
  - split; [|done]. intros _ i c. unfold zlookup. by case_match.
  - rewrite andb_true_iff, Z.eqb_eq, IH. split.
    + intros (H0 & H) i d Hi. pose proof (zlookup_lt _ _ _ Hi) as Hr.
      destruct (decide (i = 0)) as [->|N]; [rewrite Z.add_0_r; injection Hi as ->; done|].
      replace i with (1 + (i - 1)) in Hi by lia. rewrite zlookup_cons_S in Hi by lia.
      specialize (H _ _ Hi). by replace (a + i) with (a + 1 + (i - 1)) by lia.
    + intros H. split; [rewrite <- (H 0 c); [f_equal; lia|done]|].
      intros i d Hi. pose proof (zlookup_lt _ _ _ Hi). rewrite <- (H (1 + i) d); [f_equal; lia|].
      by rewrite zlookup_cons_S by lia.
Qed.

Lemma holdsb_ext m m' a l :
  (forall x, a <= x < a + zlen l -> m' x = m x) -> holdsb m' a l = holdsb m a l.
Proof.
  revert a. induction l as [|c l IH]; intros a H; cbn [holdsb]; [done|]. rewrite zlen_cons in H.
  pose proof (zlen_nonneg l). rewrite H, IH; [done|intros; apply H; lia|lia].
Qed.

Lemma str_at_holds m a l :
  str_at m a l <-> holdsb m a l = true /\ m (a + zlen l) = 0 /\ Forall (fun c => 0 < c < 256) l.
Proof.
  split.
  - intros H. pose proof (str_at_chars _ _ _ H) as Hc. rewrite holdsb_spec.
    rewrite <- (app_nil_r l) in H. apply str_at_app in H as (H & H0); [|done]. done.
  - rewrite holdsb_spec. intros (H & H0 & Hc). rewrite <- (app_nil_r l). apply str_at_app; [done|]. done.
Qed.

Lemma kstrncmp_loop_spec n m s1 s2 :
  bytes m ->
  kstrncmp_loop n m s1 s2 = 0 <->
    (forall i, 0 <= i < Z.of_nat n -> m (s1 + i) = m (s2 + i)) /\ m (s1 + Z.of_nat n) = 0 /\ m (s2 + Z.of_nat n) = 0.
Proof.
  intros Hm. revert s1 s2. induction n as [|n IH]; intros s1 s2; cbn [kstrncmp_loop]; unfold char_at.
  - rewrite !i8_0, !Z.add_0_r by auto. destruct (Z.eqb_spec (m s1) 0), (Z.eqb_spec (m s2) 0); cbn; split; intros H;
      try done; try lia. split; [intros; lia|done].
  - destruct (Z.eqb_spec (i8 (m s1)) (i8 (m s2))) as [E|E]; cbn [negb].
    + apply i8_inj in E; [|auto..]. rewrite IH.
      replace (s1 + 1 + Z.of_nat n) with (s1 + Z.of_nat (S n)) by lia.
      replace (s2 + 1 + Z.of_nat n) with (s2 + Z.of_nat (S n)) by lia. split; intros (H & Ht); split; [|done| |done].
      * intros i Hi. destruct (decide (i = 0)) as [->|]; [by rewrite !Z.add_0_r|].
        replace (s1 + i) with (s1 + 1 + (i - 1)) by lia. replace (s2 + i) with (s2 + 1 + (i - 1)) by lia. apply H. lia.
      * intros i Hi. replace (s1 + 1 + i) with (s1 + (1 + i)) by lia.
        replace (s2 + 1 + i) with (s2 + (1 + i)) by lia. apply H. lia.
    + split; [done|]. intros (H & _). specialize (H 0 ltac:(lia)). rewrite !Z.add_0_r in H. by rewrite H in E.
Qed.

(** A pointer to 12 bytes that are not in the local arrays. *)
Definition apart (a : Z) : Prop := a + 12 <= local_array \/ 0 <= a.

Lemma bytes_copy_up n dst src m : bytes m -> bytes (copy_up n dst src m).
Proof. revert dst src m. induction n as [|n IH]; intros dst src m Hm; cbn [copy_up]; auto using bytes_poke. Qed.

Lemma entry_compare_spec m name a nm :
  bytes m -> str_at m name nm -> zlen nm <= 11 -> apart name -> 0 <= a ->
  (entry_compare m name a (zlen nm) =? 0) = holdsb m a nm.
Proof.
  intros Hm Hs Hl Hap Ha. pose proof (zlen_nonneg nm) as H0. unfold apart, local_array in Hap.
  apply str_at_holds in Hs as (Hh & He & Hc). rewrite holdsb_spec in Hh.
  unfold entry_compare, kstrncmp. set (n := zlen nm) in *.
  set (m' := poke (local_array + n) 0 (memcpy local_array a n m)).
  assert (bytes m') as Hm' by (apply bytes_poke; unfold memcpy; by apply bytes_copy_up).
  assert (forall x, x < local_array \/ local_array + 12 <= x -> m' x = m x) as Hout.
  { intros x Hx. unfold m', local_array in *. rewrite poke_ne, memcpy_spec by (done || lia).
    destruct (Z.leb_spec (-4096) x), (Z.ltb_spec x (-4096 + n)); cbn [andb]; done || lia. }
  assert (forall i, 0 <= i < n -> m' (local_array + i) = m (a + i)) as Hin.
  { intros i Hi. unfold m', local_array in *. rewrite poke_ne, memcpy_spec by (done || lia). zguard.
    f_equal. lia. }
  assert (m' (local_array + n) = 0) as Hn by (unfold m'; by apply poke_eq).
  apply eq_true_iff_eq. rewrite Z.eqb_eq, kstrncmp_loop_spec, holdsb_spec, Z2Nat.id by (done || lia).
  assert (forall i, 0 <= i <= n -> m' (name + i) = m (name + i)) as Hname
    by (intros i Hi; apply Hout; unfold local_array; lia).
  split.
  - intros (H & _) i c Hi. pose proof (zlookup_lt _ _ _ Hi) as Hr. change (Z.of_nat (length nm)) with n in Hr.
    rewrite <- (Hh i c Hi), <- Hin, <- Hname by lia. symmetry. apply H. lia.
  - intros H. split; [|split; [rewrite Hname by lia; exact He|exact Hn]].
    intros i Hi. destruct (zlookup_some nm i) as (c & E); [exact Hi|].
    rewrite Hname, Hin by lia. by rewrite (Hh i c E), (H i c E).
Qed.

(** The entry at index [i] of a directory is in use and its name begins with
    [nm]; the first such index below [max]. *)
Definition is_match (m : memory) (dir : Z) (nm : list Z) (i : Z) : bool :=
  negb (load16 m (dir + 32 * i) =? 0) && holdsb m (dir + 32 * i) nm.
Definition first_match (m : memory) (dir : Z) (nm : list Z) (max : Z) : option Z :=
  head (filter (fun i => is_match m dir nm i = true) (range 0 max)).

Lemma omap_filter {A} (f : A -> bool) (l : list A) :
  omap (fun x => if f x then Some x else None) l = filter (fun x => f x = true) l.
Proof.
  induction l as [|x l IH]; [done|]. cbn [omap list_omap]. rewrite filter_cons, IH.
  destruct (f x); by case_decide.
Qed.

Section FindEntry.
Context {D : Type}.

Lemma find_entry_spec (s : storage D) name dir nm max :
  bytes (ram s) -> str_at (ram s) name nm -> zlen nm <= 11 -> apart name -> 0 <= dir ->
  find_entry name dir (zlen nm) max s = Done (first_match (ram s) dir nm max) s.
Proof.
  intros Hm Hs Hl Hap Hd. unfold find_entry. rewrite bind_gets.
  rewrite (for_return_find _ _ s (fun i => if is_match (ram s) dir nm i then Some i else None)).
  - unfold first_match. by rewrite omap_filter.
  - intros i Hi%elem_range. rewrite (entry_compare_spec _ _ _ nm) by (done || lia).
    unfold is_match. by case_match.
Qed.

Lemma strlenM_spec fuel (s : storage D) a l :
  str_at (ram s) a l -> (length l < fuel)%nat -> strlenM fuel a s = Done (zlen l) s.
Proof. intros Hs Hf. unfold strlenM. by rewrite (strlen_spec fuel _ _ l). Qed.

Lemma findEmpty_spec (s : storage D) dir n :
  dir <> 0 -> 0 <= n ->
  findEmptyDirectoryEntry dir n s =
    Done (default (-1) (head (filter (fun i => ram s (dir + 32 * i) = 0) (range 0 n)))) s.
Proof.
  intros Hd Hn. unfold findEmptyDirectoryEntry. rewrite bind_gets. zguard.
  rewrite (bind_Done _ _ s (head (filter (fun i => ram s (dir + 32 * i) = 0) (range 0 n))) s); [done|].
  rewrite (for_return_find _ _ s (fun i => if ram s (dir + 32 * i) =? 0 then Some i else None)).
  - rewrite omap_filter. f_equal. f_equal. apply list_filter_iff. intros i. apply Z.eqb_eq.
  - intros i _. by case_match.
Qed.
End FindEntry.

Lemma head_filter_some {A} (P : A -> Prop) `{!forall x, Decision (P x)} l x :
  head (filter P l) = Some x -> P x /\ x ∈ l.
Proof.
  intros E. assert (x ∈ filter P l) as Hx by (destruct (filter P l); [done|]; injection E as ->; left).
  by apply list_elem_of_filter in Hx.
Qed.

(** ** Lemmas: the search in a directory *)

Lemma strncpy_pad_spec n a m x :
  strncpy_pad n a m x = if (a <=? x) && (x <? a + Z.of_nat n) then 0 else m x.
Proof.
  revert a m. induction n as [|n IH]; intros a m; cbn [strncpy_pad].
  - destruct (Z.leb_spec a x), (Z.ltb_spec x (a + Z.of_nat 0)); cbn; done || lia.
  - rewrite IH. destruct (decide (x = a)) as [->|N]; [rewrite poke_eq by done|rewrite poke_ne by done];
      repeat ztest; cbn [andb]; done || lia.
Qed.

Lemma strncpy_loop_spec n dst src m l x :
  str_at m src l -> dst + Z.of_nat n <= src \/ src + zlen l < dst ->
  strncpy_loop n dst src m x =
    if (dst <=? x) && (x <? dst + Z.of_nat n) then default 0 (zlookup l (x - dst)) else m x.
Proof.
  revert dst src m l. induction n as [|n IH]; intros dst src m l Hl Hd; cbn [strncpy_loop].
  - destruct (Z.leb_spec dst x), (Z.ltb_spec x (dst + Z.of_nat 0)); cbn; done || lia.
  - destruct (str_at_first _ _ _ Hl) as (Hc & Hr). unfold char_at. rewrite Hc, i8_0 by done.
    destruct l as [|c l]; cbn [first] in *.
    + rewrite Z.eqb_refl. cbn [negb]. rewrite strncpy_pad_spec. case_match; [|done].
      unfold zlookup. by case_match.
    + destruct Hl as (_ & Hc' & Hl). destruct (Z.eqb_spec c 0); [lia|]. cbn [negb].
      rewrite zlen_cons in Hd. pose proof (zlen_nonneg l).
      rewrite (IH _ _ _ l); [|eapply str_at_ext; [|exact Hl]; intros y Hy; apply poke_ne; lia|lia].
      destruct (decide (x = dst)) as [->|N].
      * zguard. rewrite Z.sub_diag, poke_eq by done. cbn [andb zlookup]. repeat ztest; cbn [andb]; done || lia.
      * rewrite poke_ne by done. destruct (Z.leb_spec (dst + 1) x), (Z.ltb_spec x (dst + 1 + Z.of_nat n)),
          (Z.leb_spec dst x), (Z.ltb_spec x (dst + Z.of_nat (S n))); cbn [andb]; try done; try lia.
        replace (x - dst) with (1 + (x - (dst + 1))) by lia. by rewrite zlookup_cons_S by lia.
Qed.

Lemma blanks_spec n a m x :
  blanks n a m x = if (a <=? x) && (x <? a + Z.of_nat n) then 32 else m x.
Proof.
  revert a m. induction n as [|n IH]; intros a m; cbn [blanks].
  - destruct (Z.leb_spec a x), (Z.ltb_spec x (a + Z.of_nat 0)); cbn; done || lia.
  - rewrite IH. destruct (decide (x = a)) as [->|N]; [rewrite poke_eq by done|rewrite poke_ne by done];
      repeat ztest; cbn [andb]; done || lia.
Qed.

Lemma bytes_blanks n a m : bytes m -> bytes (blanks n a m).
Proof. revert a m. induction n as [|n IH]; intros a m Hm; cbn [blanks]; auto using bytes_poke. Qed.

(** The name filled up with null characters to its 11 bytes. *)
Definition zero_padded (nm : list Z) : list Z := nm ++ replicate (11 - length nm) 0.

Lemma zlookup_zero_padded nm i : zlen nm <= 11 -> 0 <= i < 11 ->
  zlookup (zero_padded nm) i = Some (default 0 (zlookup nm i)).
Proof.
  intros Hl Hi. unfold zlookup, zero_padded. destruct (Z.ltb_spec i 0); [lia|]. unfold zlen in Hl.
  destruct (nm !! Z.to_nat i) as [c|] eqn:E.
  - by rewrite lookup_app_l by (by eapply lookup_lt_Some).
  - apply lookup_ge_None in E. rewrite lookup_app_r by done. rewrite lookup_replicate_2 by lia. done.
Qed.

(** An entry that [search_in_dir] compares. *)
Definition listed (m : memory) (a : Z) : bool :=
  negb ((m a =? 0xE5) || (m a =? 46) || (m a =? 0)).

Lemma desired_spec m name nm x :
  str_at m name nm -> zlen nm <= 11 -> 0 <= name ->
  desired m name (zlen nm) x =
    if (Name_Desired <=? x) && (x <? Name_Desired + 11) then default 0 (zlookup nm (x - Name_Desired))
    else if x =? Name_Desired + 11 then 0 else m x.
Proof.
  intros Hs Hl Hn. pose proof (zlen_nonneg nm). unfold desired, strncpy.
  set (m1 := if (8 <=? zlen nm) && (zlen nm <? 11) then _ else m).
  assert (forall y, Name_Desired + 11 <= y \/ y < Name_Desired -> m1 y = m y) as Hm1.
  { intros y Hy. unfold m1. destruct (Z.leb_spec 8 (zlen nm)), (Z.ltb_spec (zlen nm) 11); cbn [andb]; try done.
    rewrite blanks_spec. destruct (Z.leb_spec (Name_Desired + zlen nm) y),
      (Z.ltb_spec y (Name_Desired + zlen nm + Z.of_nat (Z.to_nat (11 - zlen nm)))); cbn [andb]; done || lia. }
  assert (str_at m1 name nm) as Hs1.
  { eapply str_at_ext; [|exact Hs]. intros y Hy. apply Hm1. unfold Name_Desired, local_array. lia. }
  destruct (decide (x = Name_Desired + 11)) as [->|N].
  - rewrite poke_eq, Z.eqb_refl by done.
    destruct (Z.ltb_spec (Name_Desired + 11) (Name_Desired + 11)); [lia|]. by rewrite andb_false_r.
  - rewrite poke_ne by done. rewrite (strncpy_loop_spec _ _ _ _ nm) by
      (done || (unfold Name_Desired, local_array; lia)).
    change (Z.of_nat (Z.to_nat 11)) with 11. destruct (Z.eqb_spec x (Name_Desired + 11)); [done|].
    case_match eqn:E; [done|]. apply Hm1. apply andb_false_iff in E as [E|E]; lia.
Qed.

Lemma search_compare m name nm a :
  bytes m -> str_at m name nm -> zlen nm <= 11 -> 0 <= name -> 0 <= a ->
  (kstrncmp (poke (Name_InEntry + 11) 0 (memcpy Name_InEntry a 11 (desired m name (zlen nm))))
     Name_Desired Name_InEntry 11 =? 0) = holdsb m a (zero_padded nm).
Proof.
  intros Hm Hs Hl Hn Ha. pose proof (fun x => desired_spec m name nm x Hs Hl Hn) as Hd.
  assert (bytes (desired m name (zlen nm))) as Hbd.
  { intros x. rewrite Hd. repeat case_match; try apply Hm; try lia.
    destruct (zlookup nm (x - Name_Desired)) as [c|] eqn:E; cbn; [|lia].
    pose proof (str_at_chars _ _ _ Hs) as Hc. apply zlookup_elem in E. rewrite Forall_forall in Hc.
    specialize (Hc _ E). lia. }
  set (md := desired m name (zlen nm)) in *. unfold kstrncmp.
  set (m' := poke (Name_InEntry + 11) 0 (memcpy Name_InEntry a 11 md)).
  assert (bytes m') as Hm' by (apply bytes_poke; unfold memcpy; by apply bytes_copy_up).
  apply eq_true_iff_eq. rewrite Z.eqb_eq, kstrncmp_loop_spec, holdsb_spec by done.
  change (Z.of_nat (Z.to_nat 11)) with 11.
  assert (forall i, 0 <= i < 11 -> m' (Name_Desired + i) = default 0 (zlookup nm i)) as H1.
  { intros i Hi. unfold m'. rewrite poke_ne, memcpy_spec by
      (done || (unfold Name_Desired, Name_InEntry, local_array; lia)).
    replace (Name_InEntry <=? Name_Desired + i) with false
      by (symmetry; apply Z.leb_gt; unfold Name_Desired, Name_InEntry; lia). cbn [andb].
    rewrite Hd. zguard. f_equal. f_equal. lia. }
  assert (forall i, 0 <= i < 11 -> m' (Name_InEntry + i) = m (a + i)) as H2.
  { intros i Hi. unfold m'. rewrite poke_ne, memcpy_spec by
      (done || (unfold Name_InEntry, local_array; lia)). zguard.
    replace (a + (Name_InEntry + i - Name_InEntry)) with (a + i) by lia. rewrite Hd.
    unfold Name_Desired, local_array. zguard. done. }
  assert (m' (Name_Desired + 11) = 0) as H3.
  { unfold m'. rewrite poke_ne, memcpy_spec by (done || (unfold Name_Desired, Name_InEntry, local_array; lia)).
    replace (Name_InEntry <=? Name_Desired + 11) with false
      by (symmetry; apply Z.leb_gt; unfold Name_Desired, Name_InEntry; lia). cbn [andb].
    rewrite Hd. rewrite Z.eqb_refl. destruct (Z.ltb_spec (Name_Desired + 11) (Name_Desired + 11)); [lia|].
    by rewrite andb_false_r. }
  assert (m' (Name_InEntry + 11) = 0) as H4 by (unfold m'; by apply poke_eq).
  split.
  - intros (H & _) i c Hi. assert (0 <= i < 11) as Hr.
    { apply zlookup_lt in Hi. unfold zero_padded in Hi. rewrite length_app, length_replicate in Hi. unfold zlen in Hl. lia. }
    rewrite zlookup_zero_padded in Hi by done. injection Hi as <-. rewrite <- H1, <- H2 by done. symmetry. by apply H.
  - intros H. split; [|done]. intros i Hi. rewrite H1, H2 by done. symmetry. apply H. by apply zlookup_zero_padded.
Qed.

(** ** Theorems *)

Lemma head_omap_const {A} (b : A -> bool) (l : list A) (v e : Z) :
  default e (head (omap (fun i => if b i then Some v else None) l)) = if existsb b l then v else e.
Proof.
  induction l as [|x l IH]; [done|]. cbn [omap list_omap existsb]. destruct (b x); cbn; [done|]. exact IH.
Qed.

Section SearchTheorem.
Context {D : Type}.

(** [C36] [search_in_dir] returns [TRUE] exactly when one of the 512 entries
    that is not free, deleted or a dot entry has the 11 bytes of the name,
    and -1 otherwise.  A name of fewer than 11 characters is compared filled up
    with null characters: [strncpy] overwrites the blanks stored before. *)
Theorem search_in_dir_exact (fuel : nat) (s : storage D) name dir c nm :
  bytes (ram s) -> str_at (ram s) name (c :: nm) -> (length (c :: nm) < fuel)%nat ->
  0 < name -> 0 < dir -> c <> 47 ->
  search_in_dir fuel name dir s =
    Done (if (zlen (c :: nm) <=? 11) &&
             existsb (fun i => listed (ram s) (dir + 32 * i) && holdsb (ram s) (dir + 32 * i) (zero_padded (c :: nm)))
               (range 0 512)
          then TRUE else -1) s.
Proof.
  intros Hm Hs Hf Hn Hd Hc. set (m := ram s) in *. pose proof Hs as (H0 & Hc0 & _).
  set (l := c :: nm) in *. unfold search_in_dir. rewrite bind_gets. fold m. unfold NULL. rewrite H0. zguard.
  rewrite (bind_Done _ _ _ _ _ (strlenM_spec fuel s name l Hs Hf)).
  destruct (Z.ltb_spec 11 (zlen l)) as [|Hl]; [by replace (zlen l <=? 11) with false by lia|].
  replace (zlen l <=? 11) with true by lia. cbn [andb]. zguard.
  erewrite bind_Done.
  2: { apply (for_return_find _ _ s (fun i => if listed m (dir + 32 * i) && holdsb m (dir + 32 * i) (zero_padded l)
         then Some TRUE else None)).
       intros i Hi%elem_range. replace (dir + 0x20 * i) with (dir + 32 * i) by lia.
       set (a := dir + 32 * i). unfold char_at, listed.
       rewrite (search_compare m name l a) by (done || lia).
       replace (i8 (m a) =? i8 0xE5) with (m a =? 0xE5)
         by (apply eq_true_iff_eq; rewrite !Z.eqb_eq; split; [by intros ->|]; apply i8_inj; [apply Hm|lia]).
       destruct (m a =? 0xE5), (m a =? 46), (m a =? 0); cbn [negb orb andb]; try done.
       by destruct (holdsb m a (zero_padded l)). }
  by rewrite head_omap_const.
Qed.
End SearchTheorem.

(** ** Lemmas: conversion of a file name *)

Lemma poke_list_holds a l m : Forall (fun c => 0 <= c < 256) l -> holdsb (poke_list a l m) a l = true.
Proof.
  intros Hl. apply holdsb_spec. intros i c Hi. pose proof (zlookup_lt _ _ _ Hi) as Hr.
  rewrite poke_list_spec by done. unfold zlen. zguard. replace (a + i - a) with i by lia. by rewrite Hi.
Qed.

Definition upper (c : Z) : Z := if is_lower c then c - 0x20 else c.
(** The character of an extension as it is saved: upper-case letters are not. *)
Definition saved (c : Z) : Z :=
  if is_lower c then c - 0x20 else if ext_symbol c || ext_digit c then c else 0.

Definition name_char (c : Z) : Prop := 0 < c < 256 /\ c <> 46.

Lemma upper_range c : 0 < c < 256 -> 0 < upper c < 256.
Proof. unfold upper, is_lower. intros. repeat ztest; cbn [andb]; lia. Qed.

Lemma fntos_name_spec fuel name ns m l :
  Forall name_char l -> holdsb m name l = true -> m (name + zlen l) = 0 \/ m (name + zlen l) = 46 ->
  (length l < fuel)%nat ->
  exists m', fntos_name fuel name ns m = Some (m', name + zlen l, ns + zlen l) /\
    holdsb m' name (upper <$> l) = true /\
    forall x, x < name \/ name + zlen l <= x -> m' x = m x.
Proof.
  revert fuel name ns m. induction l as [|c l IH]; intros fuel name ns m Hl Hh He Hf;
    (destruct fuel as [|fuel]; [cbn in Hf; lia|]); cbn [fntos_name].
  - change (zlen (@nil Z)) with 0 in *. rewrite Z.add_0_r in He.
    replace ((m name =? 0) || (m name =? 46)) with true by (destruct He as [-> | ->]; done).
    exists m. rewrite !Z.add_0_r. done.
  - inversion Hl as [|? ? (Hc & N) Hl']; subst. cbn [holdsb] in Hh. apply andb_true_iff in Hh as (H0%Z.eqb_eq & Hh).
    rewrite zlen_cons in *. pose proof (zlen_nonneg l) as Hn. rewrite H0. zguard.
    set (m1 := if is_lower c then poke name (c - 0x20) m else m).
    assert (m1 name = upper c) as Hm1.
    { unfold m1, upper. destruct (is_lower c) eqn:E; [|done]. apply poke_eq.
      unfold is_lower in E. lia. }
    assert (forall x, x <> name -> m1 x = m x) as Ho1 by (intros x Hx; unfold m1; case_match; [by apply poke_ne|done]).
    destruct (IH fuel (name + 1) (ns + 1) m1) as (m' & R & Hu & Ho); [done| | |cbn in Hf; lia|].
    + rewrite <- Hh. apply holdsb_ext. intros x Hx. apply Ho1. lia.
    + rewrite Ho1 by lia. by replace (name + 1 + zlen l) with (name + (1 + zlen l)) by lia.
    + exists m'. split; [by rewrite R, !Z.add_assoc|]. split.
      * cbn [fmap list_fmap holdsb]. apply andb_true_iff. split; [|done]. apply Z.eqb_eq. by rewrite Ho by lia.
      * intros x Hx. rewrite Ho by lia. apply Ho1. lia.
Qed.

(** One character of the extension loop. *)
Lemma saved_step c : 0 < c < 256 ->
  let c' := if is_lower c then c - 0x20 else c in
  (if ext_digit c' then c' else if ext_symbol c' then c' else if is_lower c then c' else 0) = saved c.
Proof.
  intros Hc. unfold saved. destruct (is_lower c) eqn:E; cbn zeta iota.
  - unfold is_lower in E. unfold ext_digit, ext_symbol. zguard. done.
  - by destruct (ext_digit c), (ext_symbol c).
Qed.

Lemma fntos_ext_spec n name ext m e :
  (n <= 3)%nat -> length ext = 3%nat -> drop (3 - n) ext = replicate n 0 ->
  str_at m (name + 4 - Z.of_nat n) e ->
  exists m', fntos_ext n name ext m =
      (m', take (3 - n) ext ++ take n ((saved <$> e) ++ replicate n 0)) /\
    forall x, x < name + 4 - Z.of_nat n \/ name + 4 <= x -> m' x = m x.
Proof.
  revert ext m e. induction n as [|n IH]; intros ext m e Hn Hl Hz Hs; cbn [fntos_ext].
  - exists m. split; [|done]. by rewrite take_0, app_nil_r, take_ge by (rewrite Hl; lia).
  - set (i := 3 - Z.of_nat (S n)). set (a := name + i + 1).
    replace (name + 4 - Z.of_nat (S n)) with a in * by (unfold a, i; lia).
    destruct (str_at_first _ _ _ Hs) as (Hc & Hr). rewrite Hc. destruct e as [|c e]; cbn [first] in *.
    + cbn [Z.eqb]. exists m. split; [|done].
      rewrite <- (take_drop (3 - S n) ext) at 1. f_equal. f_equal. rewrite Hz. cbn [fmap list_fmap app].
      by rewrite take_ge by (by rewrite length_replicate).
    + destruct Hs as (_ & Hc' & Hs). destruct (Z.eqb_spec c 0); [lia|].
      set (m1 := if is_lower c then poke a (c - 0x20) m else m).
      assert (m1 a = if is_lower c then c - 0x20 else c) as Hm1.
      { unfold m1. destruct (is_lower c) eqn:E; [|done]. apply poke_eq. unfold is_lower in E. lia. }
      assert (forall x, x <> a -> m1 x = m x) as Ho1 by (intros x Hx; unfold m1; case_match; [by apply poke_ne|done]).
      set (ext1 := if ext_digit (m1 a) then _ else _).
      assert (ext1 = zinsert ext i (saved c)) as ->.
      { unfold ext1. rewrite Hm1, <- saved_step by done. cbn zeta.
        set (c' := if is_lower c then c - 0x20 else c).
        assert (ext = zinsert ext i 0) as Hi.
        { unfold zinsert. destruct (Z.ltb_spec i 0); [unfold i in *; lia|]. symmetry. apply list_insert_id.
          rewrite <- (take_drop (3 - S n) ext), Hz. rewrite lookup_app_r by (rewrite length_take; unfold i; lia).
          rewrite length_take, lookup_replicate. unfold i. split; [done|lia]. }
        destruct (ext_digit c'), (ext_symbol c'), (is_lower c); rewrite ?zinsert_twice; done. }
      destruct (IH (zinsert ext i (saved c)) m1 e) as (m' & R & Ho).
      * lia.
      * by rewrite length_zinsert.
      * unfold zinsert. destruct (Z.ltb_spec i 0); [unfold i in *; lia|].
        rewrite drop_insert_lt by (unfold i; lia). replace (3 - n)%nat with (3 - S n + 1)%nat by lia.
        rewrite <- drop_drop, Hz. cbn [replicate drop]. done.
      * replace (name + 4 - Z.of_nat n) with (a + 1) by (unfold a, i; lia).
        eapply str_at_ext; [|exact Hs]. intros x Hx. apply Ho1. lia.
      * exists m'. rewrite R. split.
        -- f_equal. cbn [fmap list_fmap app take]. unfold zinsert. destruct (Z.ltb_spec i 0); [unfold i in *; lia|].
           replace (3 - n)%nat with (S (3 - S n)) by lia.
           replace (3 - S n)%nat with (Z.to_nat i) by (unfold i; lia).
           rewrite (take_S_r _ _ (saved c)) by (apply list_lookup_insert_eq; unfold i; lia).
           rewrite take_insert_ge by (unfold i; lia). rewrite <- app_assoc. f_equal. cbn [app]. f_equal.
           symmetry. rewrite replicate_S_end, app_assoc, take_app_le; [done|].
           rewrite length_app, length_fmap, length_replicate. lia.
        -- intros x Hx. rewrite Ho by (unfold a, i in *; lia). apply Ho1. unfold a, i in *. lia.
Qed.

(** The 11 characters that [fs_fntos] makes of a base name and an extension. *)
Definition eight_three (base ext : list Z) : list Z :=
  (upper <$> base) ++ replicate (8 - length base) 32 ++
  take 3 ((ext_char ∘ saved <$> ext) ++ replicate 3 32).

Lemma saved_range c : 0 < c < 256 -> 0 <= saved c < 256.
Proof. unfold saved, is_lower. intros. repeat case_match; lia. Qed.

Lemma ext_char_range c : 0 <= c < 256 -> 0 < ext_char c < 256.
Proof. unfold ext_char. intros. case_match; lia. Qed.

(** Blanks, then three characters and the terminator, after the base. *)
Lemma fntos_tail m name pad u ext :
  Forall (fun c => 0 < c < 256) u -> holdsb m name u = true -> length ext = 3%nat ->
  Forall (fun c => 0 < c < 256) ext ->
  let m' := poke (name + zlen u + Z.of_nat pad + 3) 0
              (poke_list (name + zlen u + Z.of_nat pad) ext (blanks pad (name + zlen u) m)) in
  str_at m' name (u ++ replicate pad 32 ++ ext) /\
  forall x, x < name + zlen u \/ name + zlen u + Z.of_nat pad + 3 < x -> m' x = m x.
Proof.
  intros Hu Hh Hl He m'. pose proof (zlen_nonneg u) as Hz. assert (zlen ext = 3) as H3 by (unfold zlen; by rewrite Hl).
  assert (Forall (fun c => 0 <= c < 256) ext) as He' by (eapply Forall_impl; [exact He|cbn; intros; lia]).
  assert (forall x, x < name + zlen u \/ name + zlen u + Z.of_nat pad + 3 < x -> m' x = m x) as Ho.
  { intros x Hx. unfold m'. rewrite poke_ne, poke_list_spec, blanks_spec by (done || lia). rewrite H3.
    repeat ztest; cbn [andb]; done || lia. }
  split; [|exact Ho]. apply str_at_app; [done|]. split.
  - intros i c Hi. pose proof (zlookup_lt _ _ _ Hi) as Hr. fold (zlen u) in Hr. rewrite Ho by (unfold zlen in *; lia).
    rewrite holdsb_spec in Hh. by apply Hh.
  - apply str_at_app; [apply Forall_replicate; lia|].
    assert (zlen (replicate pad 32) = Z.of_nat pad) as -> by (unfold zlen; by rewrite length_replicate). split.
    + intros i c Hi. pose proof (zlookup_lt _ _ _ Hi) as Hr. rewrite length_replicate in Hr.
      assert (c = 32) as ->.
      { apply zlookup_elem, elem_of_replicate_inv in Hi. done. }
      unfold m'. rewrite poke_ne, poke_list_spec, blanks_spec by (done || lia). zguard. done.
    + apply str_at_holds. rewrite H3. split; [|split; [unfold m'; by apply poke_eq|done]].
      unfold m'. rewrite <- (poke_list_holds (name + zlen u + Z.of_nat pad) ext (blanks pad (name + zlen u) m)) by done.
      apply holdsb_ext. rewrite H3. intros x Hx. apply poke_ne. lia.
Qed.

Lemma zlen_fmap {A B} (g : A -> B) (l : list A) : zlen (g <$> l) = zlen l.
Proof. unfold zlen. by rewrite length_fmap. Qed.

Lemma upper_chars l : Forall name_char l -> Forall (fun c => 0 < c < 256) (upper <$> l).
Proof. intros H. apply Forall_fmap. eapply Forall_impl; [exact H|]. intros c (Hc & _). by apply upper_range. Qed.

Lemma saved_chars e : Forall (fun c => 0 < c < 256) e ->
  ext_char <$> take 3 ((saved <$> e) ++ replicate 3 0) = take 3 ((ext_char ∘ saved <$> e) ++ replicate 3 32) /\
  length (take 3 ((ext_char ∘ saved <$> e) ++ replicate 3 32)) = 3%nat /\
  Forall (fun c => 0 < c < 256) (take 3 ((ext_char ∘ saved <$> e) ++ replicate 3 32)).
Proof.
  intros He. split; [|split].
  - by rewrite fmap_take, fmap_app, list_fmap_compose.
  - rewrite length_take, length_app, length_replicate. lia.
  - apply Forall_take, Forall_app. split; [|repeat constructor].
    apply Forall_fmap. eapply Forall_impl; [exact He|]. intros c Hc. by apply ext_char_range, saved_range.
Qed.

(** What follows the first loop. *)
Lemma fntos_rest fuel name m (added base : list Z) m1 ext :
  name <> 0 -> base <> [] -> Forall name_char base -> zlen base <= 8 -> m name <> 0 ->
  fntos_name fuel name 0 m = Some (m1, name + zlen base, zlen base) ->
  holdsb m1 name (upper <$> base) = true ->
  (let add := m1 (name + zlen base) =? 0 in
   exists m2 ext1, (if add then (m1, [0; 0; 0]) else fntos_ext 3 (name + zlen base) [0; 0; 0] m1) = (m2, ext1) /\
     ext = ext_char <$> (if add then added else ext1) /\
     forall x, x < name + zlen base \/ name + zlen base + 4 <= x -> m2 x = m1 x) ->
  length ext = 3%nat -> Forall (fun c => 0 < c < 256) ext ->
  exists m', fntos_with added fuel name m = Some m' /\
    str_at m' name ((upper <$> base) ++ replicate (8 - length base) 32 ++ ext) /\
    forall x, x < name \/ name + 12 <= x -> m' x = m1 x.
Proof.
  intros Hn Hne Hb Hl Hm R Hh (m2 & ext1 & R2 & -> & Ho) He Hc. unfold fntos_with, NULL. zguard.
  rewrite R. cbn [mbind option_bind]. cbv beta iota zeta. replace (zlen base <=? 8) with true by lia. rewrite andb_true_r.
  pose proof (zlen_nonneg base). replace (Z.max 0 (8 - zlen base)) with (8 - zlen base) by lia.
  set (ext := ext_char <$> (if m1 (name + zlen base) =? 0 then added else ext1)) in *.
  assert (0 < zlen base) as Hpos by (destruct base; [done|]; rewrite zlen_cons; pose proof (zlen_nonneg base); lia).
  destruct (fntos_tail m2 name (Z.to_nat (8 - zlen base)) (upper <$> base) ext) as (Hs & Ht).
  - by apply upper_chars.
  - rewrite <- Hh. apply holdsb_ext. intros x Hx. rewrite zlen_fmap in Hx. apply Ho. lia.
  - done.
  - done.
  - rewrite zlen_fmap, Z2Nat.id in Hs, Ht by lia. match type of Hs with str_at ?mm _ _ => exists mm end. split.
    { unfold ext. destruct (m1 (name + zlen base) =? 0); [by injection R2 as <- <-|by rewrite R2]. }
    split.
    + replace (8 - length base)%nat with (Z.to_nat (8 - zlen base)) by (unfold zlen; lia). exact Hs.
    + intros x Hx. rewrite Ht by lia. apply Ho. lia.
Qed.

(** [fs_fntos] turns a name whose base has at most eight characters into
    the 11 characters of a directory entry: the base in upper case, blanks, and
    three characters of extension, BIN when there is no dot.  Of an extension
    only lower-case letters, digits and eight symbols survive: an upper-case
    letter becomes a blank. *)
Theorem fntos_8_3 (fuel : nat) name m base (dot : bool) ext :
  Forall name_char base -> base <> [] -> zlen base <= 8 -> (length base < fuel)%nat -> 0 < name ->
  (if dot then str_at m name (base ++ 46 :: ext) else str_at m name base) ->
  exists m', fs_fntos fuel name m = Some m' /\
    str_at m' name (if dot then eight_three base ext
                    else (upper <$> base) ++ replicate (8 - length base) 32 ++ [66; 73; 78]) /\
    forall x, x < name \/ name + 12 <= x -> m' x = m x.
Proof.
  intros Hb Hne Hl Hf Hn Hs. pose proof (zlen_nonneg base) as Hz.
  assert (Forall (fun c => 0 < c < 256) base) as Hb' by (eapply Forall_impl; [exact Hb|]; by intros c (Hc & _)).
  assert (holdsb m name base = true /\ m (name + zlen base) = (if dot then 46 else 0)) as (Hh & He).
  { destruct dot.
    - apply str_at_app in Hs as (Hs & (He & _)); [|done]. split; [by apply holdsb_spec|done].
    - apply str_at_holds in Hs as (Hh & He & _). done. }
  assert (m name <> 0) as H0.
  { destruct base as [|c base]; [done|]. cbn [holdsb] in Hh. apply andb_true_iff in Hh as (->%Z.eqb_eq & _).
    inversion Hb'; subst. lia. }
  destruct (fntos_name_spec fuel name 0 m base Hb Hh) as (m1 & R & Hu & Ho); [destruct dot; auto|done|].
  rewrite Z.add_0_l in R. assert (m1 (name + zlen base) = if dot then 46 else 0) as He1 by (by rewrite Ho by lia).
  destruct dot.
  - apply str_at_app in Hs as (_ & (_ & _ & Hs)); [|done]. pose proof (saved_chars ext (str_at_chars _ _ _ Hs)) as (E1 & E2 & E3).
    destruct (fntos_ext_spec 3 (name + zlen base) [0; 0; 0] m1 ext) as (m2 & R2 & Ho2); [lia|done|done| |].
    { replace (name + zlen base + 4 - Z.of_nat 3) with (name + zlen base + 1) by lia.
      eapply str_at_ext; [|exact Hs]. intros x Hx. apply Ho. lia. }
    destruct (fntos_rest fuel name m [66; 73; 78] base m1 (take 3 ((ext_char ∘ saved <$> ext) ++ replicate 3 32)))
      as (m' & R' & Hs' & Ho'); try done; [lia| |].
    + cbn zeta. rewrite He1. eexists _, _. split; [exact R2|]. split; [symmetry; exact E1|].
      intros x Hx. apply Ho2. lia.
    + exists m'. split; [exact R'|]. split; [exact Hs'|]. intros x Hx. rewrite Ho' by done. apply Ho. lia.
  - destruct (fntos_rest fuel name m [66; 73; 78] base m1 [66; 73; 78]) as (m' & R' & Hs' & Ho'); try done; [lia| |by repeat constructor|].
    + cbn zeta. rewrite He1. by eexists _, _.
    + exists m'. split; [exact R'|]. split; [exact Hs'|]. intros x Hx. rewrite Ho' by done. apply Ho. lia.
Qed.

(** ** Lemmas: 8.3 names *)

Lemma holdsb_app m a l k : holdsb m a (l ++ k) = holdsb m a l && holdsb m (a + zlen l) k.
Proof.
  revert a. induction l as [|c l IH]; intros a; cbn [app holdsb].
  - change (zlen (@nil Z)) with 0. by rewrite Z.add_0_r.
  - rewrite IH, zlen_cons, Z.add_assoc. by rewrite andb_assoc.
Qed.

Lemma holdsb_replicate m a n c :
  holdsb m a (replicate n c) = true <-> forall x, a <= x < a + Z.of_nat n -> m x = c.
Proof.
  rewrite holdsb_spec. split.
  - intros H x Hx. rewrite <- (H (x - a) c); [f_equal; lia|]. unfold zlookup.
    destruct (Z.ltb_spec (x - a) 0); [lia|]. apply lookup_replicate_2. lia.
  - intros H i d Hi. pose proof (zlookup_lt _ _ _ Hi) as Hr. rewrite length_replicate in Hr.
    apply zlookup_elem, elem_of_replicate_inv in Hi as ->. apply H. lia.
Qed.

(** [stop] does not occur in [l], nor does the null character. *)
Definition part_of (stop : option Z) (l : list Z) : Prop :=
  Forall (fun c => 0 < c < 256 /\ Some c <> stop) l.

Lemma copy_part_spec n stop dst i ptr m l :
  bytes m -> part_of stop l -> holdsb m ptr l = true -> (length l <= n)%nat ->
  (length l = n \/ m (ptr + zlen l) = 0 \/ Some (m (ptr + zlen l)) = stop) ->
  dst + i + Z.of_nat n <= ptr \/ ptr + zlen l < dst + i ->
  exists m', copy_part n stop dst i ptr m = (m', i + zlen l, ptr + zlen l) /\
    bytes m' /\ holdsb m' (dst + i) l = true /\
    forall x, x < dst + i \/ dst + i + zlen l <= x -> m' x = m x.
Proof.
  intros Hm Hl. revert n i ptr m Hm. induction Hl as [|c l (Hc & Hs) Hl IH]; intros n i ptr m Hm Hh Hn He Hd.
  - change (zlen (@nil Z)) with 0 in *. rewrite !Z.add_0_r in *.
    exists m. split; [|done]. destruct n as [|n]; [done|]. cbn [copy_part].
    destruct He as [He | [-> | He]]; [done|done|]. rewrite <- He, Z.eqb_refl, orb_true_r. done.
  - rewrite zlen_cons in *. pose proof (zlen_nonneg l) as Hz. destruct n as [|n]; [cbn in Hn; lia|]. cbn [copy_part].
    cbn [holdsb] in Hh. apply andb_true_iff in Hh as (H0%Z.eqb_eq & Hh). rewrite H0.
    replace (c =? 0) with false by lia.
    replace (if stop is Some c0 then c =? c0 else false) with false
      by (destruct stop as [d|]; [|done]; destruct (Z.eqb_spec c d) as [->|]; done). cbn [orb].
    assert (forall x, x <> dst + i -> poke (dst + i) c m x = m x) as Ho by (intros; by apply poke_ne).
    destruct (IH n (i + 1) (ptr + 1) (poke (dst + i) c m)) as (m' & R & Hb & Hh' & Ho').
    + by apply bytes_poke.
    + rewrite <- Hh. apply holdsb_ext. intros x Hx. apply Ho. lia.
    + cbn in Hn. lia.
    + rewrite Ho by lia. replace (ptr + 1 + zlen l) with (ptr + (1 + zlen l)) by lia.
      destruct He as [He|He]; [left; cbn in He; lia|by right].
    + lia.
    + exists m'. split; [rewrite R; by rewrite !Z.add_assoc|]. split; [done|]. split.
      * cbn [holdsb]. rewrite <- Z.add_assoc, Hh', andb_true_r. apply Z.eqb_eq.
        rewrite Ho' by lia. apply poke_eq. lia.
      * intros x Hx. rewrite Ho' by lia. apply Ho. lia.
Qed.

Definition short_name (base ext : list Z) : list Z :=
  base ++ replicate (8 - length base) 32 ++ ext ++ replicate (3 - length ext) 32.

(** The name given to [to_FAT_name]. *)
Definition dotted (base ext : list Z) : list Z := base ++ match ext with [] => [] | _ => 46 :: ext end.

Definition base_ok (base : list Z) : Prop :=
  part_of (Some 46) base /\ base <> [] /\ (length base <= 8)%nat /\ last base <> Some 32.
Definition ext_ok (ext : list Z) : Prop :=
  part_of None ext /\ (length ext <= 3)%nat /\ last ext <> Some 32.

Lemma part_chars stop l : part_of stop l -> Forall (fun c => 0 < c < 256) l.
Proof. intros H. eapply Forall_impl; [exact H|]. by intros c (Hc & _). Qed.

Lemma streq_dot m src base rest k :
  base_ok base -> holdsb m src (base ++ rest) = true -> streq m src (46 :: k) = false.
Proof.
  intros (Hp & Hne & _) Hh. destruct base as [|c base]; [done|]. inversion Hp as [|? ? (Hc & N) _]; subst.
  cbn [app holdsb] in Hh. apply andb_true_iff in Hh as (H0%Z.eqb_eq & _). cbn [streq]. rewrite H0.
  destruct (Z.eqb_spec c 46) as [->|]; done.
Qed.

Lemma to_FAT_name_spec src dst m base ext :
  bytes m -> base_ok base -> ext_ok ext -> str_at m src (dotted base ext) ->
  dst + 11 <= src \/ src + 13 <= dst ->
  let m' := to_FAT_name src dst m in
  bytes m' /\ holdsb m' dst (short_name base ext) = true /\
  forall x, x < dst \/ dst + 11 <= x -> m' x = m x.
Proof.
  intros Hm Hb He Hs Hd m'. pose proof Hb as (Hp & Hne & Hl & _). pose proof He as (Hpe & Hle & _).
  pose proof (zlen_nonneg base) as Hz. pose proof (zlen_nonneg ext) as Hze.
  apply str_at_holds in Hs as (Hh & H0 & _). unfold m', to_FAT_name.
  unfold dotted in Hh. rewrite !(streq_dot m src base _ _ Hb Hh). rewrite holdsb_app in Hh. apply andb_true_iff in Hh as (Hh & Hh2).
  assert (zlen base <= 8 /\ zlen ext <= 3) as (Hl8 & Hl3) by (unfold zlen; lia).
  set (tail := match ext with [] => [] | _ => 46 :: ext end) in *.
  assert (m (src + zlen base) = match ext with [] => 0 | _ => 46 end) as Hend.
  { unfold dotted in H0. fold tail in H0. rewrite zlen_app in H0. unfold tail in *. destruct ext; cbn in *.
    - by rewrite Z.add_0_r in H0.
    - by apply andb_true_iff in Hh2 as (?%Z.eqb_eq & _). }
  destruct (copy_part_spec 8 (Some 46) dst 0 src m base) as (m1 & R1 & Hm1 & Hh1 & Ho1); try done.
  { rewrite Hend. destruct ext; auto. }
  { lia. }
  rewrite R1, Z.add_0_l. rewrite Z.add_0_r in Hh1, Ho1.
  set (m2 := blanks (Z.to_nat (8 - zlen base)) (dst + zlen base) m1).
  assert (forall x, x < dst \/ dst + 8 <= x -> m2 x = m x) as Ho2.
  { intros x Hx. unfold m2. rewrite blanks_spec. rewrite <- (Ho1 x) by lia.
    repeat ztest; cbn [andb]; done || lia. }
  assert (holdsb m2 dst (base ++ replicate (8 - length base) 32) = true) as Hh8.
  { rewrite holdsb_app. apply andb_true_iff. split.
    - rewrite <- Hh1. apply holdsb_ext. intros x Hx. unfold m2. rewrite blanks_spec. zguard. done.
    - apply holdsb_replicate. intros x Hx. unfold m2. rewrite blanks_spec. unfold zlen in *. zguard. done. }
  set (ptr := if m2 (src + zlen base) =? 46 then src + zlen base + 1 else src + zlen base).
  assert (holdsb m2 ptr ext = true /\ m2 (ptr + zlen ext) = 0 /\ src + zlen base <= ptr <= src + zlen base + 1)
    as (Hh3 & Hz3 & Hptr).
  { unfold ptr. rewrite Ho2 by lia. rewrite Hend. unfold tail, dotted in *. destruct ext as [|c ext].
    - cbn [Z.eqb holdsb]. change (zlen (@nil Z)) with 0. rewrite Z.add_0_r, Ho2, Hend by lia. split_and!; done || lia.
    - cbn [Z.eqb Pos.eqb]. cbn [holdsb] in Hh2. apply andb_true_iff in Hh2 as (_ & Hh2).
      rewrite zlen_app, zlen_cons in H0.
      split; [|split; [|lia]].
      + change ((m2 (src + zlen base + 1) =? c) && holdsb m2 (src + zlen base + 1 + 1) ext) with
          (holdsb m2 (src + zlen base + 1) (c :: ext)).
        rewrite (holdsb_ext m m2); [done|]. intros x Hx. apply Ho2. lia.
      + rewrite Ho2 by lia. rewrite <- H0. f_equal. lia. }
  assert (bytes m2) as Hm2 by (by apply bytes_blanks).
  destruct (copy_part_spec 3 None dst 8 ptr m2 ext) as (m3 & R3 & Hm3 & Hh4 & Ho3); try done; [auto|lia|].
  cbv zeta. fold m2. fold ptr. rewrite R3.
  split; [by apply bytes_blanks|]. split.
  - unfold short_name. rewrite app_assoc, holdsb_app. apply andb_true_iff. split.
    + rewrite <- Hh8. apply holdsb_ext. rewrite zlen_app. unfold zlen at 2. rewrite length_replicate. intros x Hx.
      rewrite blanks_spec, Ho3 by (unfold zlen in *; lia). unfold zlen in *. zguard. done.
    + replace (dst + zlen (base ++ replicate (8 - length base) 32)) with (dst + 8)
        by (rewrite zlen_app; unfold zlen; rewrite length_replicate; lia).
      rewrite holdsb_app. apply andb_true_iff. split.
      * rewrite <- Hh4. apply holdsb_ext. intros x Hx. rewrite blanks_spec. zguard. done.
      * apply holdsb_replicate. intros x Hx. rewrite blanks_spec. unfold zlen in *. zguard. done.
  - intros x Hx. rewrite blanks_spec, Ho3, Ho2 by lia. repeat ztest; cbn [andb]; done || lia.
Qed.

(** The part of [n] characters at [lo] is [l] filled up with blanks. *)
Lemma strip_spec m src lo n l :
  bytes m -> holdsb m (src + lo) (l ++ replicate (n - length l) 32) = true -> (length l <= n)%nat ->
  last l <> Some 32 -> strip m src lo n = lo + zlen l - 1.
Proof.
  intros Hm. induction n as [|n IH]; intros Hh Hl Hlast; cbn [strip].
  - destruct l; [|cbn in Hl; lia]. change (zlen (@nil Z)) with 0. lia.
  - pose proof (Hm (src + lo + Z.of_nat n)) as Hr. unfold char_at.
    destruct (decide (length l = S n)) as [E|N].
    + rewrite E, Nat.sub_diag in Hh. cbn [replicate] in Hh. rewrite app_nil_r in Hh.
      assert (exists c, last l = Some c /\ m (src + lo + Z.of_nat n) = c) as (c & Hc & Em).
      { rewrite last_lookup, E. cbn [pred]. destruct (lookup_lt_is_Some_2 l n) as (c & Hc); [lia|].
        exists c. split; [done|]. rewrite holdsb_spec in Hh. apply Hh. unfold zlookup.
        destruct (Z.ltb_spec (Z.of_nat n) 0); [lia|]. by rewrite Nat2Z.id. }
      rewrite Em in *. replace (i8 c =? 32) with false; [unfold zlen; lia|].
      symmetry. apply Z.eqb_neq. rewrite i8_char by lia. intros H. apply Hlast. rewrite Hc. f_equal.
      destruct (Z.ltb_spec c 128); lia.
    + replace (S n - length l)%nat with (S (n - length l)) in Hh by lia.
      rewrite replicate_S_end, app_assoc, holdsb_app in Hh. apply andb_true_iff in Hh as (Hh & Ht).
      cbn [holdsb] in Ht. rewrite andb_true_r in Ht. apply Z.eqb_eq in Ht.
      rewrite zlen_app in Ht. unfold zlen in Ht. rewrite length_replicate in Ht.
      replace (src + lo + (Z.of_nat (length l) + Z.of_nat (n - length l))) with (src + lo + Z.of_nat n) in Ht by lia.
      rewrite Ht. cbn. apply IH; [done|lia|done].
Qed.

Lemma copy_up_holds n dst src m l :
  bytes m -> holdsb m src l = true -> n = length l -> dst <= src \/ src + Z.of_nat n <= dst ->
  holdsb (copy_up n dst src m) dst l = true.
Proof.
  intros Hm Hh -> Hd. rewrite holdsb_spec in *. intros i c Hi. pose proof (zlookup_lt _ _ _ Hi) as Hr.
  rewrite copy_up_spec by done. zguard. rewrite <- (Hh i c Hi). f_equal. lia.
Qed.

Lemma from_FAT_name_spec src dst m base ext :
  bytes m -> base_ok base -> ext_ok ext -> holdsb m src (short_name base ext) = true ->
  0 < src -> 0 < dst -> m dst <> 0 -> dst + 13 <= src \/ src + 11 <= dst ->
  let m' := from_FAT_name src dst m in
  str_at m' dst (dotted base ext) /\ forall x, x < dst \/ dst + 13 <= x -> m' x = m x.
Proof.
  intros Hm Hb He Hh Hs0 Hd0 Hd Hap m'. pose proof Hb as (Hp & Hne & Hl & Hlast). pose proof He as (Hpe & Hle & Hlaste).
  pose proof (part_chars _ _ Hp) as Hcb. pose proof (part_chars _ _ Hpe) as Hce.
  assert (0 < zlen base <= 8 /\ 0 <= zlen ext <= 3) as (Hl8 & Hl3) by (unfold zlen; destruct base; [done|cbn in *; lia]).
  unfold short_name in Hh. rewrite app_assoc, holdsb_app in Hh. apply andb_true_iff in Hh as (Hh8 & Hh3).
  replace (src + zlen (base ++ replicate (8 - length base) 32)) with (src + 8) in Hh3
    by (rewrite zlen_app; unfold zlen; rewrite length_replicate; lia).
  assert (strip m src 0 8 = zlen base - 1) as S1 by (rewrite (strip_spec m src 0 8 base); [lia|done|by rewrite Z.add_0_r|done|done]).
  pose proof Hh8 as Hhb. rewrite holdsb_app in Hhb. apply andb_true_iff in Hhb as (Hhb & _).
  assert (m src <> 0 /\ m src <> 46) as (Hn0 & Hn46).
  { destruct base as [|c base]; [done|]. inversion Hp as [|? ? (Hc & N) _]; subst.
    cbn [holdsb] in Hhb. apply andb_true_iff in Hhb as (->%Z.eqb_eq & _). split; [lia|]. by intros ->. }
  unfold m', from_FAT_name, NULL. zguard. rewrite S1.
  replace (zlen base - 1 + 1) with (zlen base) by lia.
  set (m1 := copy_up (Z.to_nat (zlen base)) dst src m).
  assert (bytes m1) as Hm1 by (by apply bytes_copy_up).
  assert (holdsb m1 dst base = true) as Hh1 by (apply copy_up_holds; try done; unfold zlen; lia).
  assert (forall x, x < dst \/ dst + zlen base <= x -> m1 x = m x) as Ho1.
  { intros x Hx. unfold m1. rewrite copy_up_spec by (done || lia). rewrite Z2Nat.id by lia.
    repeat ztest; cbn [andb]; done || lia. }
  rewrite (Ho1 src) by lia. zguard. set (m2 := poke (dst + zlen base) 46 m1).
  assert (forall x, x < dst \/ dst + zlen base + 1 <= x -> m2 x = m x) as Ho2
    by (intros x Hx; unfold m2; rewrite poke_ne by lia; apply Ho1; lia).
  assert (holdsb m2 dst (base ++ [46]) = true) as Hh2.
  { rewrite holdsb_app. apply andb_true_iff. split; [rewrite <- Hh1; apply holdsb_ext; intros x Hx; apply poke_ne; lia|].
    cbn [holdsb]. unfold m2. by rewrite poke_eq, Z.eqb_refl. }
  assert (strip m2 src 8 3 = 7 + zlen ext) as S2.
  { rewrite (strip_spec m2 src 8 3 ext); try done; [lia|by apply bytes_poke|].
    rewrite <- Hh3. apply holdsb_ext. rewrite zlen_app. unfold zlen. rewrite length_replicate. intros x Hx. apply Ho2.
    unfold zlen in *. lia. }
  rewrite S2. replace (7 + zlen ext - 7) with (zlen ext) by lia.
  assert (m2 dst <> 46) as Hd46.
  { destruct base as [|c base]; [done|]. inversion Hp as [|? ? (Hc & N) _]; subst. cbn [app holdsb] in Hh2.
    apply andb_true_iff in Hh2 as (->%Z.eqb_eq & _). by intros ->. }
  unfold dotted. destruct ext as [|e ext].
  - change (zlen (@nil Z)) with 0. rewrite app_nil_r. zguard.
    replace (dst + (zlen base + 1 - 1)) with (dst + zlen base) by lia. split.
    + apply str_at_holds. split; [|split; [by apply poke_eq|done]]. rewrite <- Hh1. apply holdsb_ext.
      intros x Hx. unfold m2. rewrite !poke_ne by lia. done.
    + intros x Hx. rewrite poke_ne by lia. apply Ho2. lia.
  - set (ex := e :: ext) in *. assert (0 < zlen ex) as Hz by (unfold ex; rewrite zlen_cons; pose proof (zlen_nonneg ext); lia).
    zguard. set (a := dst + (zlen base + 1)). set (m3 := copy_up (Z.to_nat (zlen ex)) a (src + 8) m2).
    assert (bytes m2) as Hm2 by (by apply bytes_poke).
    assert (holdsb m2 (src + 8) ex = true) as Hhx.
    { rewrite holdsb_app in Hh3. apply andb_true_iff in Hh3 as (Hh3 & _). rewrite <- Hh3. apply holdsb_ext.
      intros x Hx. apply Ho2. lia. }
    assert (holdsb m3 a ex = true) as Hh4 by (apply copy_up_holds; try done; unfold a, zlen in *; lia).
    assert (forall x, x < a \/ a + zlen ex <= x -> m3 x = m2 x) as Ho3.
    { intros x Hx. unfold m3. rewrite copy_up_spec by (done || (unfold a; lia)). rewrite Z2Nat.id by lia.
      repeat ztest; cbn [andb]; done || lia. }
    split.
    + apply str_at_holds. rewrite zlen_app, zlen_cons.
      split; [|split; [|apply Forall_app; split; [done|constructor; [lia|done]]]].
      * change (46 :: ex) with ([46] ++ ex). rewrite app_assoc, holdsb_app. apply andb_true_iff. split.
        -- rewrite <- Hh2. apply holdsb_ext. rewrite zlen_app. change (zlen [46]) with 1. intros x Hx.
           rewrite poke_ne, Ho3 by (unfold a in *; lia). done.
        -- rewrite zlen_app. change (zlen [46]) with 1. fold a. rewrite <- Hh4. apply holdsb_ext. intros x Hx.
           apply poke_ne. lia.
      * replace (dst + (zlen base + (1 + zlen ex))) with (a + zlen ex) by (unfold a; lia). by apply poke_eq.
    + intros x Hx. assert (zlen ex <= 3) by lia. rewrite poke_ne, Ho3, Ho2 by (unfold a in *; lia). done.
Qed.

(** The conversions to and from 8.3 names are inverse: a name of at most
    eight characters, with an extension of at most three if any, comes back as
    it was written, through an 11-byte entry name filled up with blanks; only
    the two destinations change. *)
Theorem fat_name_roundtrip src dst out m base ext :
  bytes m -> base_ok base -> ext_ok ext -> str_at m src (dotted base ext) ->
  0 < dst -> 0 < out -> m out <> 0 ->
  dst + 11 <= src \/ src + 13 <= dst -> dst + 11 <= out \/ out + 13 <= dst ->
  let m1 := to_FAT_name src dst m in
  let m2 := from_FAT_name dst out m1 in
  holdsb m1 dst (short_name base ext) = true /\
  str_at m2 out (dotted base ext) /\
  forall x, (x < dst \/ dst + 11 <= x) -> (x < out \/ out + 13 <= x) -> m2 x = m x.
Proof.
  intros Hm Hb He Hs Hd Ho Hne Hap Hap' m1 m2.
  destruct (to_FAT_name_spec src dst m base ext Hm Hb He Hs Hap) as (Hm1 & Hh & Ho1). fold m1 in Hm1, Hh, Ho1.
  destruct (from_FAT_name_spec dst out m1 base ext Hm1 Hb He Hh Hd Ho) as (Hs2 & Ho2);
    [rewrite Ho1 by lia; done|lia|].
  split; [done|]. split; [done|]. intros x Hx Hx'. unfold m2. rewrite Ho2, Ho1 by done. done.
Qed.

(** ** Witnesses *)

(** A closed decidable proposition that evaluates to true. *)
Ltac decided := apply (bool_decide_eq_true_1 _); by vm_compute.

Lemma bytes_put a l m : Forall (fun c => 0 <= c < 256) l -> bytes m -> bytes (put a l m).
Proof.
  intros Hl Hm x. unfold put. case_match; [|apply Hm].
  destruct (zlookup l (x - a)) as [c|] eqn:E; cbn; [|lia]. apply zlookup_elem in E.
  rewrite Forall_forall in Hl. by apply Hl.
Qed.

(** "init.bin" at 1000, "INIT    BIN" at 2000; the entries "BOOT    BIN" and
    "INIT    BIN" in the directory at 4096. *)
Definition names_demo : memory :=
  put 1000 [105; 110; 105; 116; 46; 98; 105; 110]
  (put 2000 [73; 78; 73; 84; 32; 32; 32; 32; 66; 73; 78]
  (put 4096 [66; 79; 79; 84; 32; 32; 32; 32; 66; 73; 78]
  (put 4128 [73; 78; 73; 84; 32; 32; 32; 32; 66; 73; 78] (put 3000 [1] (fun _ => 0))))).

Lemma names_demo_bytes : bytes names_demo.
Proof. repeat (apply bytes_put; [decided|]). done. Qed.

Lemma search_in_dir_exact_witness :
  search_in_dir 20 2000 4096 (demo_storage 3 names_demo blank_disk) =
    Done TRUE (demo_storage 3 names_demo blank_disk).
Proof.
  rewrite (search_in_dir_exact 20 (demo_storage 3 names_demo blank_disk) 2000 4096 73
    [78; 73; 84; 32; 32; 32; 32; 66; 73; 78]); [|apply names_demo_bytes|by vm_compute|cbn; lia|lia|lia|done].
  match goal with |- Done (if ?b then _ else _) _ = _ => replace b with true by (by vm_compute) end.
  reflexivity.
Defined.

Lemma fntos_8_3_witness :
  exists m', fs_fntos 20 1000 names_demo = Some m' /\
    str_at m' 1000 [73; 78; 73; 84; 32; 32; 32; 32; 66; 73; 78] /\
    forall x, x < 1000 \/ 1012 <= x -> m' x = names_demo x.
Proof.
  apply (fntos_8_3 20 1000 names_demo [105; 110; 105; 116] true [98; 105; 110]).
  - decided.
  - done.
  - by vm_compute.
  - cbn. lia.
  - lia.
  - by vm_compute.
Defined.

Lemma fat_name_roundtrip_witness :
  holdsb (to_FAT_name 1000 2500 names_demo) 2500 [105; 110; 105; 116; 32; 32; 32; 32; 98; 105; 110] = true /\
  str_at (from_FAT_name 2500 3000 (to_FAT_name 1000 2500 names_demo)) 3000 [105; 110; 105; 116; 46; 98; 105; 110] /\
  forall x, (x < 2500 \/ 2511 <= x) -> (x < 3000 \/ 3013 <= x) ->
    from_FAT_name 2500 3000 (to_FAT_name 1000 2500 names_demo) x = names_demo x.
Proof.
  apply (fat_name_roundtrip 1000 2500 3000 names_demo [105; 110; 105; 116] [98; 105; 110]).
  - apply names_demo_bytes.
  - split; [decided|]. split; [done|]. split; [cbn; lia|done].
  - split; [decided|]. split; [cbn; lia|done].
  - by vm_compute.
  - lia.
  - lia.
  - by vm_compute.
  - lia.
  - lia.
Defined.
