(* ===== verification/FatFiles.v ===== *)
(** * Loading and saving files of the FAT16 volume

    res/fs/fsload.c ([fsLoadFile], the program loaders, [fs_load_path],
    [fs_load_image]), res/fs/fslib.c ([fsSaveFile], [do_write_file_to_disk])
    and res/fs/fsbp.c (the caches filled at boot).  The loop over a cluster
    chain has no bound in the source: it gets the fuel of the section. *)
From Stdlib Require Import ZArith Lia.
From stdpp Require Import base gmap list strings.
From S2P Require Import Config Prelude Strings Memory Ata Fat.

#[local] Open Scope Z_scope.
#[local] Open Scope gramado_scope.

Definition IMAGESIZE_LIMIT_IN_KB : Z := 405.
Definition KERNEL_IMAGE_BASE : Z := 0x30000000.
Definition DEFAULT_LFB_VIRTUALADDRESS : Z := 0x30200000.
Definition DEFAULT_BACKBUFFER_VIRTUALADDRESS : Z := 0x30400000.
Definition FS_N_BUFFERS : Z := 5.

Definition __check_address_validation (address : Z) : Z :=
  if (address =? VOLUME1_FAT_ADDRESS) || (address =? VOLUME1_ROOTDIR_ADDRESS) ||
     (address =? KERNEL_IMAGE_BASE) || (address =? DEFAULT_LFB_VIRTUALADDRESS) ||
     (address =? DEFAULT_BACKBUFFER_VIRTUALADDRESS)
  then FALSE else TRUE.

(** The 32 bytes of the directory entry built by [fsSaveFile]. *)
Definition dir_entry (m : memory) (file_name flag first_cluster size_in_bytes : Z) : list Z :=
  let folder := flag =? 0x10 in
  ((fun i => if folder && (8 <=? i) then 0x20 else m (file_name + i)) <$> range 0 11) ++
  [u8 flag; 0; 0x97; 0xD3; 0xBA; 0xE2; 0x58; 0xE2; 0x58; 0; 0; 0xD3; 0xBA; 0xE2; 0x58;
   u8 first_cluster; u8 (Z.shiftr first_cluster 8)] ++
  ((fun i => if folder then 0 else u8 (Z.shiftr size_in_bytes (8 * i))) <$> range 0 4).

Section Files.
Context {D : Type} `{!AtaBus D} (fuel : nat).
#[local] Abbreviation K := (M (storage D)).

(** ** fsload.c: [fsLoadFile] *)

(** [__loop_next_entry:] *)
Fixpoint load_clusters (n : nat) (fat_address Buffer cluster nreads : Z) : K Z :=
  match n with
  | O => diverge
  | S n =>
      if negb (__check_address_validation Buffer =? TRUE) then panic "fsLoadFile: Not a valid address"
      else if (cluster <=? 0) || (0xFFF0 <? cluster) then panic "fsLoadFile: fat[] vector limits."
      else
        read_lba fuel Buffer (VOLUME1_DATAAREA_LBA + cluster - 2) ≫= fun _ =>
        gets (fun s => load16 (ram s) (fat_address + 2 * cluster)) ≫= fun next =>
        let cluster := Z.land next 0xFFFF in
        if cluster =? 0xFFF7 then panic "fsLoadFile: Bad cluster"
        else if (cluster =? 0xFFFF) || (cluster =? 0xFFF8) then
          (if IMAGESIZE_LIMIT_IN_KB <? Z.quot (nreads + 1) 2 then panic "fsLoadFile: nreads" else mret 0)
        else load_clusters n fat_address (u64 (Buffer + SECTOR_SIZE)) cluster (nreads + 1)
  end.

Definition fsLoadFile (fat_address dir_address dir_entries file_name buffer buffer_size_in_bytes : Z) : K Z :=
  let DirEntries := Z.land dir_entries 0xFFFF in
  let BufferSizeInBytes := Z.land buffer_size_in_bytes 0xFFFFFFFF in
  if fat_address =? 0 then panic "fsLoadFile: fat_address"
  else if dir_address =? 0 then panic "fsLoadFile: dir_address"
  else if negb (fat_address =? VOLUME1_FAT_ADDRESS) then panic "fsLoadFile: Not valid FAT address"
  else if FAT16_ROOT_ENTRIES <? DirEntries then panic "fsLoadFile: DirEntries"
  else if negb (DirEntries =? FAT16_ROOT_ENTRIES) then panic "fsLoadFile: [DEBUG] DirEntries IS LESS THE 512"
  else if BufferSizeInBytes =? 0 then panic "fsLoadFile: BufferSizeInBytes = 0"
  else if 512 * 4096 <? BufferSizeInBytes then panic "fsLoadFile: BufferSizeInBytes limits"
  else
    gets root ≫= fun r =>
    match r with
    | None => panic "fsLoadFile: root"
    | Some r =>
        if negb (fs_used r =? TRUE) || negb (fs_magic r =? 1234) then panic "fsLoadFile: root validation"
        else if spc r <=? 0 then panic "fsLoadFile: Spc"
        else if negb (Ata.dir_entries r =? FAT16_ROOT_ENTRIES) then panic "fsLoadFile: root->dir_entries"
        else
          gets ram ≫= fun m =>
          if file_name =? NULL then mret 1
          else if m file_name =? 0 then mret 1
          else
            strlenM fuel file_name ≫= fun FileNameSize =>
            if 11 <? FileNameSize then mret 1
            else
              fsGetFileSize fuel file_name dir_address ≫= fun FileSize =>
              if BufferSizeInBytes <=? FileSize then mret 1
              else
                find_entry file_name dir_address FileNameSize FAT16_ROOT_ENTRIES ≫= fun i =>
                match i with
                | None => mret 1
                | Some i =>
                    gets (fun s => load16 (ram s) (dir_address + 32 * i + 26)) ≫= fun cluster =>
                    if (cluster <=? 0) || (0xFFF0 <? cluster) then mret 1
                    else
                      fs_load_fat fuel VOLUME1_FAT_ADDRESS VOLUME1_FAT_LBA 246 ≫= fun _ =>
                      load_clusters fuel fat_address buffer cluster 0
                end
    end.

(** ** fslib.c: [fsSaveFile] *)

(** The search for free clusters: [i] counts the probes, [c] is the cluster,
    [j] the length of the list, [file_size] the sectors still to place.
    [Some]: the list is complete; [None]: no free cluster. *)
Fixpoint find_clusters (n : nat) (fat_address c j file_size : Z) : K (option Z) :=
  match n with
  | O => mret None
  | S n =>
      gets (fun s => load16 (ram s) (fat_address + 2 * c)) ≫= fun w =>
      if w =? 0 then
        if file_size =? 0 then
          modify (fun s => s <| fat16ClustersToSave := zinsert (fat16ClustersToSave s) j 0xFFF8 |>) ≫= fun _ =>
          mret (Some j)
        else
          modify (fun s => s <| fat16ClustersToSave := zinsert (fat16ClustersToSave s) j (u16 c) |>) ≫= fun _ =>
          find_clusters n fat_address (c + 1) (j + 1) (file_size - 1)
      else find_clusters n fat_address (c + 1) j file_size
  end.

Definition to_save (i : Z) : K Z := getsome (fun s => zlookup (fat16ClustersToSave s) i).

Definition set_fat (fat_address c v : Z) : K unit :=
  modify (fun s => s <| ram := store16 (fat_address + 2 * c) v (ram s) |>).

(** [while (TRUE)]: at most 17 rounds, [i > 16] fails. *)
Fixpoint write_clusters (n : nat) (fat_address i address : Z) : K bool :=
  match n with
  | O => mret false
  | S n =>
      to_save i ≫= fun next =>
      if next =? 0xFFF8 then
        to_save (i - 1) ≫= fun last =>
        set_fat fat_address last 0xFFF8 ≫= fun _ =>
        mret true
      else
        to_save (i + 1) ≫= fun following =>
        set_fat fat_address next following ≫= fun _ =>
        gets g_current_ide_port_index ≫= fun p =>
        disk_ata_wait_irq p ≫= fun _ =>
        ataWriteSector fuel address (VOLUME1_DATAAREA_LBA + next - 2) ≫= fun _ =>
        write_clusters n fat_address (i + 1) (u64 (address + 512))
  end.

Definition fsSaveFile (fat_address dir_address dir_entries file_name file_size size_in_bytes
    file_address flag : Z) : K Z :=
  if fat_address =? 0 then panic "fsSaveFile: fat_address"
  else if dir_address =? 0 then panic "fsSaveFile: dir_address"
  else if negb (fat_address =? VOLUME1_FAT_ADDRESS) then panic "fsSaveFile: fat_address"
  else
    gets ram ≫= fun m =>
    if file_name =? NULL then mret 1
    else if m file_name =? 0 then mret 1
    else if (dir_entries =? 0) || (FAT16_ROOT_ENTRIES <? dir_entries) then panic "fsSaveFile: [FAIL] max dir entries"
    else if 16 <? file_size then mret 1
    else
      fs_load_rootdir fuel VOLUME1_ROOTDIR_ADDRESS VOLUME1_ROOTDIR_LBA 32 ≫= fun _ =>
      fs_load_fat fuel VOLUME1_FAT_ADDRESS VOLUME1_FAT_LBA 246 ≫= fun _ =>
      find_clusters (Z.to_nat CLUSTERS_TO_SAVE_MAX) fat_address 3 0 file_size ≫= fun found =>
      match found with
      | None => mret 1
      | Some _ =>
          to_save 0 ≫= fun OurFirstCluster =>
          gets (fun s => dir_entry (ram s) file_name flag OurFirstCluster size_in_bytes) ≫= fun DirEntry =>
          findEmptyDirectoryEntry dir_address dir_entries ≫= fun FreeIndex =>
          if FreeIndex =? -1 then mret 1
          else
            modify (fun s => s <| ram := poke_list (dir_address + 32 * FreeIndex) DirEntry (ram s) |>) ≫= fun _ =>
            write_clusters (Z.to_nat 17) fat_address 0 file_address ≫= fun ok =>
            if negb ok then mret 1
            else
              fs_save_rootdir fuel VOLUME1_ROOTDIR_ADDRESS VOLUME1_ROOTDIR_LBA 32 ≫= fun _ =>
              fs_fat16_cache_not_saved ≫= fun _ =>
              mret 0
      end.

Definition do_write_file_to_disk (file_name file_size size_in_bytes file_address flag : Z) : K Z :=
  gets ram ≫= fun m =>
  if file_name =? NULL then mret (- EINVAL)
  else if m file_name =? 0 then mret (- EINVAL)
  else
    fsSaveFile VOLUME1_FAT_ADDRESS VOLUME1_ROOTDIR_ADDRESS FAT16_ROOT_ENTRIES
      (if m file_name =? 47 then file_name + 1 else file_name) file_size size_in_bytes file_address flag.

(** ** fsload.c: programs *)

Definition fsLoadProgram (sd : storage D -> system_directory_d) (program_name buffer buffer_size_in_bytes : Z) : K Z :=
  if buffer =? NULL then mret 1
  else if buffer_size_in_bytes =? 0 then mret 1
  else
    gets sd ≫= fun d =>
    if negb (sd_initialized d =? TRUE) then mret 1
    else if sd_address d =? 0 then mret 1
    else
      fsLoadFile VOLUME1_FAT_ADDRESS (sd_address d) 512 program_name buffer buffer_size_in_bytes ≫= fun Status =>
      if negb (Status =? 0) then mret 1 else mret 0.

Definition fsLoadProgramFromGRAMADO : Z -> Z -> Z -> K Z := fsLoadProgram sdGRAMADO.
Definition fsLoadProgramFromDE : Z -> Z -> Z -> K Z := fsLoadProgram sdDE.

Definition fntosM (name : Z) : K unit := fun s =>
  match fs_fntos fuel name (ram s) with Some m => Done tt (s <| ram := m |>) | None => OutOfFuel end.

Definition __try_to_load_program_from_special_folder (filename image_va : Z) : K Z :=
  gets ram ≫= fun m =>
  if filename =? NULL then mret (-1)
  else if m filename =? 0 then mret (-1)
  else if m filename =? 64 then
    fntosM (filename + 1) ≫= fun _ =>
    fsLoadProgramFromGRAMADO (filename + 1) image_va 2097152 ≫= fun status =>
    mret (if status =? 0 then 0 else -1)
  else if m filename =? 35 then
    fntosM (filename + 1) ≫= fun _ =>
    fsLoadProgramFromDE (filename + 1) image_va 2097152 ≫= fun status =>
    mret (if status =? 0 then 0 else -1)
  else mret (-1).

Definition fs_load_image (filename image_va : Z) : K Z :=
  gets ram ≫= fun m =>
  if filename =? NULL then panic "fs_load_image: filename"
  else if m filename =? 0 then panic "fs_load_image: *filename"
  else if (m filename =? 46) && (m (filename + 1) =? 47) then panic "fs_load_image: fail"
  else if (m filename =? 64) || (m filename =? 35) then
    __try_to_load_program_from_special_folder filename image_va
  else
    let name := if m filename =? 47 then filename + 1 else filename in
    fntosM name ≫= fun _ =>
    search_in_dir fuel name VOLUME1_ROOTDIR_ADDRESS ≫= fun Status =>
    if negb (Status =? 1) then panic "fs_load_image: fail"
    else if image_va =? NULL then panic "fs_load_image: image_va"
    else fsLoadFile VOLUME1_FAT_ADDRESS VOLUME1_ROOTDIR_ADDRESS FAT16_ROOT_ENTRIES name image_va (512 * 4096).

(** ** fsload.c: [fs_load_path] *)

(** What a level of the path ends in: the file is loaded, a directory is
    loaded (the next separator, its buffer), or twelve characters without a
    separator are passed over. *)
Inductive path_step := Loaded | Entered (p buffer : Z) | Passed (p : Z).

(** The address of [name_buffer], a local array. *)
Definition name_buffer : Z := -8192.

Definition load_named (dir : Z) (buf : list Z) (dst size : Z) : K Z :=
  modify (fun s => s <| ram := poke_list name_buffer (take 11 buf ++ [0]) (ram s) |>) ≫= fun _ =>
  fsLoadFile VOLUME1_FAT_ADDRESS dir FAT16_ROOT_ENTRIES name_buffer dst size.

(** At most three characters of the extension, up to the null character. *)
Fixpoint extension (n : nat) (m : memory) (p : Z) : list Z :=
  match n with
  | O => []
  | S n => if m p =? 0 then [] else m p :: extension n m (p + 1)
  end.

Definition pad_to (n : nat) (l : list Z) : list Z := take n (l ++ replicate n 0x20).

Fixpoint load_level (n : nat) (l n_levels p src address size : Z) (buf : list Z) : K path_step :=
  match n with
  | O => mret (Passed p)
  | S n =>
      gets ram ≫= fun m =>
      let i := Z.of_nat (length buf) in
      if m p =? 46 then
        if negb (l =? n_levels - 1) then panic "fs_load_path: '.' found into a subdirectory"
        else if i =? 0 then panic "fs_load_path: [fail] Filename starting with a dot."
        else if 8 <? i then panic "fs_load_path: Filename bigger than 8."
        else
          load_named src (pad_to 11 (pad_to 8 buf ++ extension 3 m (p + 1))) address size ≫= fun Ret =>
          if Ret =? 0 then mret Loaded else panic "fs_load_path: [FAIL] Loading level 0"
      else if m p =? 47 then
        if i =? 0 then panic "fs_load_path: Invalid folder name"
        else if 11 <=? i then panic "fs_load_path: The folder name is too long"
        else if (l <? 0) || (FS_N_BUFFERS <=? l) then panic "fs_load_path: l"
        else
          getsome (fun s => zlookup (fs_buffers s) l) ≫= fun dst =>
          if dst =? NULL then panic "fs_load_path: __dst_buffer"
          else
            load_named src (pad_to 11 buf) dst 16384 ≫= fun Ret =>
            if Ret =? 0 then mret (Entered p dst) else panic "fs_load_path: [FAIL] Loading level 0"
      else load_level n l n_levels (p + 1) src address size (buf ++ [m p])
  end.

Fixpoint load_levels (k : nat) (l n_levels p src address size : Z) : K Z :=
  match k with
  | O => mret (-1)
  | S k =>
      gets ram ≫= fun m =>
      if negb (m p =? 47) then panic "fs_load_path: All levels need to start with '/'"
      else
        load_level 12 l n_levels (p + 1) src address size [] ≫= fun st =>
        match st with
        | Loaded => mret 0
        | Entered p dst => load_levels k (l + 1) n_levels p dst address size
        | Passed p => load_levels k (l + 1) n_levels p src address size
        end
  end.

Definition fs_load_path (path address buffer_size : Z) : K Z :=
  gets ram ≫= fun m =>
  if path =? NULL then panic "fs_load_path: path"
  else if m path =? 0 then panic "fs_load_path: *path"
  else if address =? 0 then panic "fs_load_path: address"
  else if buffer_size =? 0 then panic "fs_load_path: buffer_size"
  else
    let n_levels := fs_count_path_levels path m in
    if (n_levels <=? 0) || (FS_N_BUFFERS <=? n_levels) then panic "fs_load_path: n_levels"
    else if negb (m path =? 47) then panic "fs_load_path: Not absolute pathname"
    else load_levels (Z.to_nat n_levels) 0 n_levels path VOLUME1_ROOTDIR_ADDRESS address
           (Z.land buffer_size 0xFFFFFFFF).

(** ** fsbp.c: the caches at boot *)

Definition fsbp_initialize_fat : K unit :=
  fs_load_fat fuel VOLUME1_FAT_ADDRESS VOLUME1_FAT_LBA 246 ≫= fun _ =>
  modify (fun s => s <| bpFAT_initialized := TRUE |>).

Definition __do_initialize_sdROOT : K unit :=
  modify (fun s => s <| sdROOT := mk_sysdir FALSE (sd_address (sdROOT s)) |>) ≫= fun _ =>
  gets bpFAT_initialized ≫= fun b =>
  if negb (b =? TRUE) then panic "__do_initialize_sdROOT: bpFAT"
  else
    fs_load_rootdir fuel VOLUME1_ROOTDIR_ADDRESS VOLUME1_ROOTDIR_LBA 32 ≫= fun _ =>
    modify (fun s => s <| sdROOT := mk_sysdir TRUE VOLUME1_ROOTDIR_ADDRESS |>).
End Files.

(** ** The volume as the kernel sees it *)

Definition FAT_BYTES : Z := 512 * VOLUME1_FAT_SIZE.
Definition ROOT_BYTES : Z := 512 * 32.
Definition in_root (x : Z) : bool :=
  (VOLUME1_ROOTDIR_ADDRESS <=? x) && (x <? VOLUME1_ROOTDIR_ADDRESS + ROOT_BYTES).
Definition in_fat (x : Z) : bool :=
  (VOLUME1_FAT_ADDRESS <=? x) && (x <? VOLUME1_FAT_ADDRESS + FAT_BYTES).
Definition root_byte (f : Z -> list Z) (x : Z) : Z :=
  disk_byte f (512 * VOLUME1_ROOTDIR_LBA + (x - VOLUME1_ROOTDIR_ADDRESS)).
Definition fat_byte (f : Z -> list Z) (x : Z) : Z :=
  disk_byte f (512 * VOLUME1_FAT_LBA + (x - VOLUME1_FAT_ADDRESS)).

(** The memory once the root directory and the FAT are cached: the directory
    always comes from the disk, the FAT only if it is not loaded yet. *)
Definition boot_view {D} (s : storage D) (f : Z -> list Z) : memory := fun x =>
  if in_root x then root_byte f x
  else if in_fat x && negb (g_fat_cache_loaded s =? FAT_CACHE_LOADED) then fat_byte f x
  else ram s x.

Definition fat_word (m : memory) (c : Z) : Z := load16 m (VOLUME1_FAT_ADDRESS + 2 * c).

(** A chain of clusters in the FAT, ended by one of the two end marks. *)
Fixpoint chain (m : memory) (l : list Z) : Prop :=
  match l with
  | [] => False
  | x :: l' => 0 < x <= 0xFFF0 /\
      match l' with
      | [] => fat_word m x = 0xFFFF \/ fat_word m x = 0xFFF8
      | y :: _ => fat_word m x = y /\ chain m l'
      end
  end.

(** Byte [o] of the data of the chain [l]. *)
Definition chain_byte (f : Z -> list Z) (l : list Z) (o : Z) : Z :=
  word_byte (f (VOLUME1_DATAAREA_LBA + default 0 (zlookup l (o / 512)) - 2)) (o mod 512).

(** The file [nm] of the root directory: its entry, its clusters and size. *)
Definition stored (m : memory) (nm l : list Z) (size : Z) : Prop :=
  exists i, first_match m VOLUME1_ROOTDIR_ADDRESS nm FAT16_ROOT_ENTRIES = Some i /\
    head l = Some (load16 m (VOLUME1_ROOTDIR_ADDRESS + 32 * i + 26)) /\
    load32 m (VOLUME1_ROOTDIR_ADDRESS + 32 * i + 28) = size /\ chain m l.

(** Where [n] sectors may be loaded: in the address space, not on the FAT, not
    at one of the addresses that the loader refuses. *)
Definition loadable (buffer n : Z) : Prop :=
  0 < buffer /\ buffer + 512 * n <= 2 ^ 64 /\
  (buffer + 512 * n <= VOLUME1_FAT_ADDRESS \/ VOLUME1_FAT_ADDRESS + 0x20000 <= buffer) /\
  forall k, 0 <= k < n -> __check_address_validation (buffer + 512 * k) = TRUE.

Lemma is_match_ext m m' dir nm i :
  zlen nm <= 11 -> (forall x, dir + 32 * i <= x < dir + 32 * i + 32 -> m' x = m x) ->
  is_match m' dir nm i = is_match m dir nm i.
Proof.
  intros Hl H. unfold is_match. rewrite (load16_ext m m') by (apply H; lia). f_equal. apply holdsb_ext.
  intros x Hx. apply H. lia.
Qed.

Lemma filter_iff_elem {A} (P Q : A -> Prop) `{!forall x, Decision (P x), !forall x, Decision (Q x)} (l : list A) :
  (forall x, x ∈ l -> P x <-> Q x) -> filter P l = filter Q l.
Proof.
  induction l as [|x l IH]; intros HPQ; [done|]. rewrite !filter_cons.
  assert (P x <-> Q x) as Hx by (apply HPQ; left). rewrite IH by (intros; apply HPQ; by right).
  destruct (decide (P x)), (decide (Q x)); tauto.
Qed.

Lemma first_match_ext m m' dir nm n :
  zlen nm <= 11 -> (forall x, dir <= x < dir + 32 * n -> m' x = m x) ->
  first_match m' dir nm n = first_match m dir nm n.
Proof.
  intros Hl H. unfold first_match. f_equal. apply filter_iff_elem. intros i Hi%elem_range.
  rewrite (is_match_ext m m'); [done|done|]. intros x Hx. apply H. lia.
Qed.

(** ** Lemmas: loading *)
Section Loading.
Context {D : Type} `{HD : AtaDevice D} (fuel : nat).
Implicit Types (s : storage D) (d : D) (m : memory).

(** The structures of a mounted FAT16 volume. *)
Definition volume_ok s : Prop :=
  g_currentvolume_fatbits s = 16 /\
  VOLUME1_DATAAREA_LBA <= gNumberOfSectorsInBootDisk s /\
  exists r, root s = Some r /\ fs_used r = TRUE /\ fs_magic r = 1234 /\ 0 < spc r /\
    Ata.dir_entries r = FAT16_ROOT_ENTRIES.

(** A file name outside the caches and the local arrays. *)
Definition name_at m name nm : Prop :=
  str_at m name nm /\ nm <> [] /\ zlen nm <= 11 /\ (length nm < fuel)%nat /\
  0 < name /\ (name + 12 <= VOLUME1_FAT_ADDRESS \/ VOLUME1_ROOTDIR_ADDRESS + ROOT_BYTES <= name).

Lemma name_kept m m' name nm :
  name_at m name nm ->
  (forall x, m' x = m x \/ VOLUME1_FAT_ADDRESS <= x < VOLUME1_ROOTDIR_ADDRESS + ROOT_BYTES) ->
  name_at m' name nm.
Proof.
  intros (Hs & Hne & Hl & Hf & Hn & Hap) H. split; [|by repeat (split; [done|])].
  eapply str_at_ext; [|exact Hs]. intros x Hx. destruct (H x) as [E|E]; [done|lia].
Qed.

Lemma name_start m name nm : name_at m name nm -> m name <> 0.
Proof. intros (Hs & Hne & _). destruct nm as [|c nm]; [done|]. destruct Hs as (-> & Hc & _). lia. Qed.

Lemma load_rootdir_spec s f :
  online s f -> prompt (Z.to_nat 20000) -> VOLUME1_DATAAREA_LBA <= gNumberOfSectorsInBootDisk s ->
  exists m' d', fs_load_rootdir fuel VOLUME1_ROOTDIR_ADDRESS VOLUME1_ROOTDIR_LBA 32 s = Done tt (io s m' d') /\
    online (io s m' d') f /\ forall x, m' x = if in_root x then root_byte f x else ram s x.
Proof.
  intros Hon Hp Hg. unfold fs_load_rootdir. change (Z.land 32 0xFFFF) with 32.
  unfold VOLUME1_DATAAREA_LBA in Hg.
  destruct (load_sequential_spec fuel s f VOLUME1_ROOTDIR_ADDRESS VOLUME1_ROOTDIR_LBA 32 Hon Hp)
    as (m' & d' & R & Hon' & Hm'); [done|done|done|done|unfold VOLUME1_ROOTDIR_LBA; lia|].
  rewrite (bind_Done _ _ _ _ _ R). by exists m', d'.
Qed.

Lemma load_fat_spec s f :
  online s f -> prompt (Z.to_nat 20000) -> VOLUME1_DATAAREA_LBA <= gNumberOfSectorsInBootDisk s ->
  exists m' d', fs_load_fat fuel VOLUME1_FAT_ADDRESS VOLUME1_FAT_LBA 246 s =
      Done tt ((io s m' d') <| g_fat_cache_loaded := FAT_CACHE_LOADED |>) /\
    online (io s m' d') f /\
    forall x, m' x = if in_fat x && negb (g_fat_cache_loaded s =? FAT_CACHE_LOADED) then fat_byte f x else ram s x.
Proof.
  intros Hon Hp Hg. unfold fs_load_fat. rewrite bind_gets. unfold VOLUME1_DATAAREA_LBA in Hg.
  destruct (Z.eqb_spec (g_fat_cache_loaded s) FAT_CACHE_LOADED) as [E|N].
  - exists (ram s), (dev s). rewrite io_id. split; [|split; [done|intros x; by rewrite andb_false_r]].
    rewrite <- E. by destruct s.
  - change (Z.land 246 0xFFFF) with 246.
    destruct (load_sequential_spec fuel s f VOLUME1_FAT_ADDRESS VOLUME1_FAT_LBA 246 Hon Hp)
      as (m' & d' & R & Hon' & Hm'); [done|done|done|done|unfold VOLUME1_FAT_LBA; lia|].
    rewrite (bind_Done _ _ _ _ _ R). exists m', d'. split; [done|]. split; [done|].
    intros x. rewrite andb_true_r. apply Hm'.
Qed.

Lemma in_root_entry i x : 0 <= i < 512 -> VOLUME1_ROOTDIR_ADDRESS + 32 * i <= x < VOLUME1_ROOTDIR_ADDRESS + 32 * i + 32 ->
  in_root x = true.
Proof. intros Hi Hx. unfold in_root, ROOT_BYTES, VOLUME1_ROOTDIR_ADDRESS in *. lia. Qed.

(** The size of a file of the root directory; the directory is read again. *)
Lemma get_size_spec s f name nm :
  online s f -> prompt (Z.to_nat 20000) -> volume_ok s -> name_at (ram s) name nm ->
  exists m' d', fsGetFileSize fuel name VOLUME1_ROOTDIR_ADDRESS s =
      Done (match first_match m' VOLUME1_ROOTDIR_ADDRESS nm 512 with
            | Some i => load32 m' (VOLUME1_ROOTDIR_ADDRESS + 32 * i + 28) | None => 0 end) (io s m' d') /\
    online (io s m' d') f /\ forall x, m' x = if in_root x then root_byte f x else ram s x.
Proof.
  intros Hon Hp (Hbits & Hg & r & Hr & Hu & Hmag & Hspc & Hde) Hn.
  destruct (load_rootdir_spec s f Hon Hp Hg) as (m' & d' & R & Hon' & Hm').
  pose proof (name_start _ _ _ Hn) as H0.
  assert (name_at m' name nm) as Hn'.
  { eapply name_kept; [exact Hn|]. intros x. rewrite Hm'. destruct (in_root x) eqn:E; [right|by left].
    unfold in_root in E. unfold VOLUME1_FAT_ADDRESS, VOLUME1_ROOTDIR_ADDRESS in *. lia. }
  exists m', d'. split; [|done]. destruct Hn' as (Hs & Hne & Hl & Hf & Hpos & Hap).
  unfold fsGetFileSize. rewrite bind_gets. unfold NULL. zguard.
  change (VOLUME1_ROOTDIR_ADDRESS =? 0) with false. cbn iota. rewrite (bind_Done _ _ _ _ _ R), bind_gets.
  change (root (io s m' d')) with (root s). rewrite Hr, Hde.
  replace (spc r <=? 0) with false by lia. change (u64 FAT16_ROOT_ENTRIES) with 512. change (512 <=? 0) with false. cbn iota.
  rewrite (bind_Done _ _ _ _ _ (strlenM_spec fuel (io s m' d') name nm Hs Hf)).
  replace (11 <? zlen nm) with false by lia.
  assert (bytes m') as Hbm by apply (online_ram _ _ Hon').
  rewrite (bind_Done _ _ _ _ _ (find_entry_spec (io s m' d') name VOLUME1_ROOTDIR_ADDRESS nm 512
    Hbm Hs Hl ltac:(right; lia) ltac:(done))).
  change (ram (io s m' d')) with m'. destruct (first_match _ _ _ _) as [i|]; [|done].
  rewrite bind_gets. change (ram (io s m' d')) with m'. cbn [mret M_ret]. unfold mret, M_ret. f_equal.
  change 0xFFFFFFFF with (Z.ones 32). rewrite Z.land_ones by lia. apply Z.mod_small, load32_range, Hbm.
Qed.

Lemma chain_head m x l : chain m (x :: l) -> 0 < x <= 0xFFF0.
Proof. by intros (H & _). Qed.

Lemma read_lba_spec s f Buffer lba :
  online s f -> prompt (Z.to_nat 20000) -> g_currentvolume_fatbits s = 16 ->
  0 <= lba < gNumberOfSectorsInBootDisk s ->
  exists d', read_lba fuel Buffer lba s = Done tt (io s (store_words Buffer (f lba) (ram s)) d') /\
    online (io s (store_words Buffer (f lba) (ram s)) d') f.
Proof.
  intros Hon Hp Hbits Hlba. destruct (read_online fuel s f lba Buffer Hon Hp Hlba) as (d' & R & Hon').
  exists d'. split; [|done]. unfold read_lba. rewrite bind_gets, Hbits. cbn [Z.eqb Pos.eqb].
  by rewrite (bind_Done _ _ _ _ _ R).
Qed.

Lemma fat_word_range m c : bytes m -> 0 <= fat_word m c < 2 ^ 16.
Proof. intros. by apply load16_range. Qed.

Lemma loadable_tail buffer n : loadable buffer (1 + n) -> 0 <= n -> loadable (buffer + 512) n.
Proof.
  intros (H0 & H1 & H2 & H3) Hn. split; [lia|]. split; [lia|]. split; [lia|].
  intros k Hk. replace (buffer + 512 + 512 * k) with (buffer + 512 * (k + 1)) by lia. apply H3. lia.
Qed.

(** A byte of the buffer lies outside the FAT words of clusters. *)
Lemma chain_ext m m' l :
  (forall x, VOLUME1_FAT_ADDRESS <= x < VOLUME1_FAT_ADDRESS + 0x20000 -> m' x = m x) ->
  chain m l -> chain m' l.
Proof.
  intros H. induction l as [|x l IH]; [done|]. cbn [chain]. intros (Hx & Hl). split; [done|].
  assert (fat_word m' x = fat_word m x) as E by (apply load16_ext; apply H; lia).
  rewrite E. destruct l as [|y l]; [done|]. destruct Hl as (Hy & Hl). split; [done|]. by apply IH.
Qed.

Lemma chain_byte_0 f x l o : 0 <= o < 512 ->
  chain_byte f (x :: l) o = word_byte (f (VOLUME1_DATAAREA_LBA + x - 2)) o.
Proof. intros H. unfold chain_byte. by rewrite Z.div_small, Z.mod_small by lia. Qed.

Lemma chain_byte_cons f x l o : 0 <= o -> chain_byte f (x :: l) (512 + o) = chain_byte f l o.
Proof.
  intros H. unfold chain_byte. replace (512 + o) with (o + 1 * 512) by lia.
  rewrite Z.div_add, Z.mod_add, (Z.add_comm (o / 512)) by lia.
  by rewrite zlookup_cons_S by (apply Z.div_pos; lia).
Qed.

(** The step of [load_clusters] that loads one cluster. *)
Lemma load_step n s f Buffer x nreads :
  online s f -> prompt (Z.to_nat 20000) -> volume_ok s -> loadable Buffer 1 -> 0 < x <= 0xFFF0 ->
  VOLUME1_DATAAREA_LBA + x - 2 < gNumberOfSectorsInBootDisk s ->
  exists d', let m' := store_words Buffer (f (VOLUME1_DATAAREA_LBA + x - 2)) (ram s) in
    online (io s m' d') f /\
    load_clusters fuel (S n) VOLUME1_FAT_ADDRESS Buffer x nreads s =
      (let cluster := fat_word (ram s) x in
       if cluster =? 0xFFF7 then panic "fsLoadFile: Bad cluster"
       else if (cluster =? 0xFFFF) || (cluster =? 0xFFF8) then
         (if IMAGESIZE_LIMIT_IN_KB <? Z.quot (nreads + 1) 2 then panic "fsLoadFile: nreads" else mret 0)
       else load_clusters fuel n VOLUME1_FAT_ADDRESS (u64 (Buffer + SECTOR_SIZE)) cluster (nreads + 1)) (io s m' d').
Proof.
  intros Hon Hp (Hbits & Hg & _) (H0 & H1 & H2 & H3) Hx Hlba.
  destruct (read_lba_spec s f Buffer (VOLUME1_DATAAREA_LBA + x - 2) Hon Hp Hbits) as (d' & R & Hon').
  { split; [|done]. unfold VOLUME1_DATAAREA_LBA. lia. }
  exists d'. cbn zeta. split; [exact Hon'|]. cbn [load_clusters].
  specialize (H3 0 ltac:(lia)). rewrite Z.mul_0_r, Z.add_0_r in H3. rewrite H3. cbn [negb Z.eqb TRUE Pos.eqb].
  replace ((x <=? 0) || (65520 <? x)) with false by lia.
  rewrite (bind_Done _ _ _ _ _ R), bind_gets.
  set (m' := store_words Buffer (f (VOLUME1_DATAAREA_LBA + x - 2)) (ram s)).
  change (load16 (ram (io s m' d')) (VOLUME1_FAT_ADDRESS + 2 * x)) with (fat_word m' x).
  assert (fat_word m' x = fat_word (ram s) x) as E.
  { unfold m'. apply load16_ext; rewrite sector_bytes by (eapply online_sector; exact Hon);
      repeat ztest; cbn [andb]; done || lia. }
  rewrite E, land_FFFF, Z.mod_small by apply fat_word_range, (online_ram _ _ Hon). reflexivity.
Qed.

Lemma load_clusters_spec l n s f Buffer x nreads :
  online s f -> prompt (Z.to_nat 20000) -> volume_ok s -> chain (ram s) (x :: l) ->
  loadable Buffer (zlen (x :: l)) -> 0 <= nreads -> nreads + zlen (x :: l) <= 811 -> (length (x :: l) <= n)%nat ->
  (forall y, y ∈ x :: l -> VOLUME1_DATAAREA_LBA + y - 2 < gNumberOfSectorsInBootDisk s) ->
  exists m' d', load_clusters fuel n VOLUME1_FAT_ADDRESS Buffer x nreads s = Done 0 (io s m' d') /\
    online (io s m' d') f /\
    forall a, m' a = if (Buffer <=? a) && (a <? Buffer + 512 * zlen (x :: l))
                     then chain_byte f (x :: l) (a - Buffer) else ram s a.
Proof.
  revert n s Buffer x nreads. induction l as [|y l IH]; intros n s Buffer x nreads Hon Hp Hv Hc Hb Hn0 Hnr Hn Hlba;
    (destruct n as [|n]; [cbn in Hn; lia|]); rewrite zlen_cons in *.
  - change (zlen (@nil Z)) with 0 in *. destruct Hc as (Hx & Hend).
    destruct (load_step n s f Buffer x nreads Hon Hp Hv Hb Hx) as (d' & Hon' & R); [apply Hlba; left|].
    cbn zeta in R, Hon'. eexists _, d'. split; [|split; [exact Hon'|]].
    + rewrite R. destruct Hend as [-> | ->]; cbn [Z.eqb Pos.eqb orb]; unfold IMAGESIZE_LIMIT_IN_KB;
        (destruct (Z.ltb_spec 405 (Z.quot (nreads + 1) 2)) as [Hlt|]; [|done]);
        rewrite Z.quot_div_nonneg in Hlt by lia; pose proof (Z.div_mod (nreads + 1) 2); 
        pose proof (Z.mod_pos_bound (nreads + 1) 2); lia.
    + intros a. rewrite sector_bytes by (eapply online_sector; exact Hon).
      change (Buffer + 512 * (1 + 0)) with (Buffer + 512).
      destruct (Z.leb_spec Buffer a), (Z.ltb_spec a (Buffer + 512)); cbn [andb]; try done.
      by rewrite chain_byte_0 by lia.
  - rewrite zlen_cons in *. pose proof (zlen_nonneg l). pose proof Hc as (Hx & Hw & Hc').
    assert (loadable Buffer 1) as Hb1.
    { destruct Hb as (B0 & B1 & B2 & B3). split; [done|]. split; [lia|]. split; [lia|]. intros k Hk. apply B3. lia. }
    destruct (load_step n s f Buffer x nreads Hon Hp Hv Hb1 Hx) as (d' & Hon' & R); [apply Hlba; left|].
    cbn zeta in R, Hon'. rewrite Hw in R. pose proof (chain_head _ _ _ Hc') as Hy.
    replace (y =? 65527) with false in R by lia. replace ((y =? 65535) || (y =? 65528)) with false in R by lia.
    set (m1 := store_words Buffer (f (VOLUME1_DATAAREA_LBA + x - 2)) (ram s)) in *.
    assert (forall a, m1 a = if (Buffer <=? a) && (a <? Buffer + 512) then chain_byte f (x :: y :: l) (a - Buffer) else ram s a) as Hm1.
    { intros a. unfold m1. rewrite sector_bytes by (eapply online_sector; exact Hon).
      destruct (Z.leb_spec Buffer a), (Z.ltb_spec a (Buffer + 512)); cbn [andb]; try done.
      by rewrite chain_byte_0 by lia. }
    destruct Hb as (B0 & B1 & B2 & B3). change SECTOR_SIZE with 512 in R. rewrite u64_id in R by lia.
    destruct (IH n (io s m1 d') (Buffer + 512) y (nreads + 1) Hon' Hp Hv) as (m' & d2 & R2 & Hon2 & Hm').
    + apply (chain_ext (ram s)); [|exact Hc']. intros a Ha. change (m1 a = ram s a). rewrite Hm1.
      destruct (Z.leb_spec Buffer a), (Z.ltb_spec a (Buffer + 512)); cbn [andb]; done || lia.
    + rewrite zlen_cons. apply loadable_tail; [by split_and!|lia].
    + lia.
    + rewrite zlen_cons. lia.
    + cbn in Hn |- *. lia.
    + intros z Hz. apply Hlba. by right.
    + exists m', d2. split; [rewrite R; exact R2|]. split; [exact Hon2|]. intros a. rewrite Hm'. change (ram (io s m1 d')) with m1.
      rewrite zlen_cons, Hm1.
      destruct (Z.leb_spec (Buffer + 512) a), (Z.ltb_spec a (Buffer + 512 + 512 * (1 + zlen l))),
        (Z.leb_spec Buffer a), (Z.ltb_spec a (Buffer + 512)), (Z.ltb_spec a (Buffer + 512 * (1 + (1 + zlen l))));
        cbn [andb]; try done; try lia.
      replace (a - Buffer) with (512 + (a - (Buffer + 512))) by lia. by rewrite (chain_byte_cons f x (y :: l)) by lia.
Qed.

Lemma boot_view_root s f m x :
  (forall y, m y = if in_root y then root_byte f y else ram s y) -> in_root x = true -> m x = boot_view s f x.
Proof. intros H E. rewrite H. unfold boot_view. by rewrite E. Qed.

Lemma in_fat_not_root x : in_fat x = true -> in_root x = false.
Proof.
  unfold in_fat, in_root, FAT_BYTES, VOLUME1_FAT_ADDRESS, VOLUME1_FAT_SIZE, VOLUME1_ROOTDIR_ADDRESS. lia.
Qed.

(** From the entry on: the FAT is cached and the chain is loaded. *)
Lemma load_from_entry s1 f x l buffer :
  online s1 f -> prompt (Z.to_nat 20000) -> volume_ok s1 ->
  let v := fun a => if in_fat a && negb (g_fat_cache_loaded s1 =? FAT_CACHE_LOADED) then fat_byte f a else ram s1 a in
  chain v (x :: l) -> loadable buffer (zlen (x :: l)) -> zlen (x :: l) <= 811 -> (length (x :: l) <= fuel)%nat ->
  (forall y, y ∈ x :: l -> VOLUME1_DATAAREA_LBA + y - 2 < gNumberOfSectorsInBootDisk s1) ->
  exists m' d',
    (fs_load_fat fuel VOLUME1_FAT_ADDRESS VOLUME1_FAT_LBA 246 ≫= fun _ =>
     load_clusters fuel fuel VOLUME1_FAT_ADDRESS buffer x 0) s1 =
      Done 0 ((io s1 m' d') <| g_fat_cache_loaded := FAT_CACHE_LOADED |>) /\
    online (io s1 m' d') f /\
    forall a, m' a = if (buffer <=? a) && (a <? buffer + 512 * zlen (x :: l))
                     then chain_byte f (x :: l) (a - buffer) else v a.
Proof.
  intros Hon Hp Hv v Hc Hb Hl Hf Hlba. pose proof Hv as (_ & Hg & _).
  destruct (load_fat_spec s1 f Hon Hp Hg) as (m2 & d2 & R2 & Hon2 & Hm2).
  rewrite (bind_Done _ _ _ _ _ R2). set (s2 := (io s1 m2 d2) <| g_fat_cache_loaded := FAT_CACHE_LOADED |>) in *.
  assert (online s2 f) as Hon2' by exact Hon2.
  assert (chain (ram s2) (x :: l)) as Hc2.
  { apply (chain_ext v); [|done]. intros a _. apply Hm2. }
  destruct (load_clusters_spec l fuel s2 f buffer x 0 Hon2' Hp Hv Hc2 Hb) as (m3 & d3 & R3 & Hon3 & Hm3);
    [lia|lia|done|done|].
  exists m3, d3. split; [exact R3|]. split; [exact Hon3|]. intros a. rewrite Hm3. case_match; [done|]. apply Hm2.
Qed.

(** The contract of [fsLoadFile], for a file of the root directory. *)
Lemma load_file_spec s f name nm l size buffer limit :
  online s f -> prompt (Z.to_nat 20000) -> volume_ok s -> name_at (ram s) name nm ->
  stored (boot_view s f) nm l size -> size < limit <= 512 * 4096 ->
  loadable buffer (zlen l) -> zlen l <= 811 -> (length l <= fuel)%nat ->
  (forall y, y ∈ l -> VOLUME1_DATAAREA_LBA + y - 2 < gNumberOfSectorsInBootDisk s) ->
  exists m' d',
    fsLoadFile fuel VOLUME1_FAT_ADDRESS VOLUME1_ROOTDIR_ADDRESS FAT16_ROOT_ENTRIES name buffer limit s =
      Done 0 ((io s m' d') <| g_fat_cache_loaded := FAT_CACHE_LOADED |>) /\
    online (io s m' d') f /\
    forall a, m' a = if (buffer <=? a) && (a <? buffer + 512 * zlen l)
                     then chain_byte f l (a - buffer) else boot_view s f a.
Proof.
  intros Hon Hp Hv Hn (i & Hi & Hx & Hsize & Hc) Hlim Hb Hl Hf Hlba.
  pose proof Hv as (Hbits & Hg & r & Hr & Hu & Hmag & Hspc & Hde). pose proof (name_start _ _ _ Hn) as H0.
  destruct (get_size_spec s f name nm Hon Hp Hv Hn) as (m1 & d1 & R1 & Hon1 & Hm1).
  assert (forall a, in_root a = true -> m1 a = boot_view s f a) as Hroot by (intros; by apply boot_view_root).
  pose proof (head_filter_some _ _ _ Hi) as (Him & Hir%elem_range). unfold FAT16_ROOT_ENTRIES in Hir.
  assert (bytes m1) as Hbm by apply (online_ram _ _ Hon1).
  destruct l as [|x l]; [done|]. injection Hx as Ex. pose proof (chain_head _ _ _ Hc) as Hxr.
  assert (name_at m1 name nm) as Hn1.
  { eapply name_kept; [exact Hn|]. intros a. rewrite Hm1. destruct (in_root a) eqn:E; [right|by left].
    unfold in_root in E. unfold VOLUME1_FAT_ADDRESS, VOLUME1_ROOTDIR_ADDRESS in *. lia. }
  destruct Hn1 as (Hs1 & _ & Hl1 & Hf1 & Hp1 & _). destruct Hn as (Hs & _).
  assert (first_match m1 VOLUME1_ROOTDIR_ADDRESS nm 512 = Some i) as Hi1.
  { rewrite <- Hi. apply first_match_ext; [done|]. intros a Ha. apply Hroot.
    unfold in_root, ROOT_BYTES. unfold FAT16_ROOT_ENTRIES in Ha. lia. }
  assert (forall a, VOLUME1_ROOTDIR_ADDRESS + 32 * i <= a < VOLUME1_ROOTDIR_ADDRESS + 32 * i + 32 -> m1 a = boot_view s f a)
    as Hent by (intros a Ha; apply Hroot, (in_root_entry i); lia).
  rewrite Hi1, (load32_ext (boot_view s f) m1), Hsize in R1 by (intros; apply Hent; lia).
  rewrite <- (load16_ext (boot_view s f) m1) in Ex by (apply Hent; lia).
  assert (0 <= size) as Hsz by (rewrite <- Hsize, <- (load32_ext (boot_view s f) m1) by
    (intros; apply Hent; lia); apply load32_range, Hbm).
  set (s1 := io s m1 d1) in *.
  destruct (load_from_entry s1 f x l buffer Hon1 Hp Hv) as (m' & d' & R2 & Hon2 & Hm2); try done.
  { apply (chain_ext (boot_view s f)); [|done]. intros a Ha. change (ram s1) with m1. change (g_fat_cache_loaded s1) with (g_fat_cache_loaded s).
    rewrite Hm1. unfold boot_view. destruct (in_fat a) eqn:E; [by rewrite (in_fat_not_root _ E)|]. done. }
  exists m', d'. split; [|split; [exact Hon2|]].
  - unfold fsLoadFile. replace (Z.land limit 4294967295) with limit by
      (symmetry; change 4294967295 with (Z.ones 32); rewrite Z.land_ones by lia; apply Z.mod_small; lia).
    change (Z.land FAT16_ROOT_ENTRIES 65535) with 512. change FAT16_ROOT_ENTRIES with 512.
    change (VOLUME1_FAT_ADDRESS =? 0) with false. change (VOLUME1_ROOTDIR_ADDRESS =? 0) with false.
    rewrite !Z.eqb_refl. unfold NULL. zguard. rewrite bind_gets, Hr, Hu, Hmag, Hde. cbn [negb orb Z.eqb Pos.eqb TRUE].
    change FAT16_ROOT_ENTRIES with 512. zguard. rewrite bind_gets. zguard.
    rewrite (bind_Done _ _ _ _ _ (strlenM_spec fuel s name nm Hs Hf1)). zguard.
    rewrite (bind_Done _ _ _ _ _ R1). zguard.
    rewrite (bind_Done _ _ _ _ _ (find_entry_spec s1 name VOLUME1_ROOTDIR_ADDRESS nm 512
      Hbm Hs1 Hl1 ltac:(right; lia) ltac:(done))).
    change (ram s1) with m1. rewrite Hi1, bind_gets. change (ram s1) with m1. rewrite <- Ex. zguard. cbn [orb].
    exact R2.
  - intros a. rewrite Hm2. case_match; [done|]. change (ram s1) with m1. change (g_fat_cache_loaded s1) with (g_fat_cache_loaded s).
    rewrite Hm1. unfold boot_view. destruct (in_root a) eqn:E; [|done].
    destruct (in_fat a) eqn:E2; [by rewrite (in_fat_not_root _ E2) in E|]. done.
Qed.

Lemma boot_view_bytes s f : online s f -> bytes (boot_view s f).
Proof.
  intros Hon x. pose proof (online_ram _ _ Hon x) as H. assert (forall o, 0 <= disk_byte f o < 256) as Hd.
  { intros o. apply word_byte_range, (online_sector s f); done. }
  unfold boot_view, root_byte, fat_byte. repeat case_match; auto.
Qed.

Lemma load_in_view s f name nm l size buffer limit :
  online s f -> prompt (Z.to_nat 20000) -> volume_ok s -> name_at (ram s) name nm ->
  stored (boot_view s f) nm l size -> size < limit <= 512 * 4096 ->
  loadable buffer (zlen l) -> zlen l <= 811 -> (length l <= fuel)%nat ->
  (forall y, y ∈ l -> VOLUME1_DATAAREA_LBA + y - 2 < gNumberOfSectorsInBootDisk s) ->
  exists s', fsLoadFile fuel VOLUME1_FAT_ADDRESS VOLUME1_ROOTDIR_ADDRESS FAT16_ROOT_ENTRIES name buffer limit s = Done 0 s' /\
    online s' f /\ forall o, 0 <= o < 512 * zlen l -> ram s' (buffer + o) = chain_byte f l o.
Proof.
  intros Hon Hp Hv Hn Hs Hlim Hb Hl Hf Hlba.
  destruct (load_file_spec s f name nm l size buffer limit) as (m & d & R & Hon' & Hm); try done.
  eexists. split; [exact R|]. split; [exact Hon'|]. intros o Ho. cbn [ram].
  change (m (buffer + o) = chain_byte f l o). rewrite Hm. zguard. cbn [andb]. f_equal. lia.
Qed.

End Loading.

(** ** Theorem *)
Section Overrun.
Context {D : Type} `{HD : AtaDevice D} (fuel : nat).

(** The size of the buffer bounds the size written in the directory entry,
    not the sectors that are loaded: a file whose chain is longer than the
    buffer is loaded without an error and every byte of the chain past the end
    of the buffer is written to the memory that follows. *)
Theorem load_overruns_buffer (s : storage D) f name nm l size buffer limit :
  online s f -> prompt (Z.to_nat 20000) -> volume_ok s -> name_at fuel (ram s) name nm ->
  stored (boot_view s f) nm l size -> size < limit <= 512 * 4096 -> limit < 512 * zlen l ->
  loadable buffer (zlen l) -> zlen l <= 811 -> (length l <= fuel)%nat ->
  (forall y, y ∈ l -> VOLUME1_DATAAREA_LBA + y - 2 < gNumberOfSectorsInBootDisk s) ->
  exists s', fsLoadFile fuel VOLUME1_FAT_ADDRESS VOLUME1_ROOTDIR_ADDRESS FAT16_ROOT_ENTRIES name buffer limit s = Done 0 s' /\
    forall o, limit <= o < 512 * zlen l -> ram s' (buffer + o) = chain_byte f l o.
Proof.
  intros Hon Hp Hv Hn Hs Hlim Hover Hb Hl Hf Hlba.
  destruct (load_in_view fuel s f name nm l size buffer limit) as (s' & R & _ & Hm); try done.
  exists s'. split; [exact R|]. intros o Ho. apply Hm. split; [|lia].
  assert (0 <= size); [|lia]. destruct Hs as (i & _ & _ & <- & _). apply load32_range. by apply boot_view_bytes.
Qed.
End Overrun.

(** ** Witnesses *)

Lemma save_demo_volume n m f : volume_ok (demo_storage n m f).
Proof. split; [done|]. split; [done|]. eexists. split; [done|]. by vm_compute. Qed.

Lemma save_demo_name : name_at 3000 names_demo 2000 [73; 78; 73; 84; 32; 32; 32; 32; 66; 73; 78].
Proof.
  split; [by vm_compute|]. split; [done|]. split; [done|]. split; [apply Nat.ltb_lt; by vm_compute|].
  split; [lia|]. left. done.
Qed.

Lemma demo_loadable n : 0 <= n <= 16 -> loadable 0x200000 n.
Proof.
  intros Hn. split; [lia|]. split; [lia|]. split; [right; done|]. intros k Hk. unfold __check_address_validation,
    VOLUME1_FAT_ADDRESS, VOLUME1_ROOTDIR_ADDRESS, KERNEL_IMAGE_BASE, DEFAULT_LFB_VIRTUALADDRESS, DEFAULT_BACKBUFFER_VIRTUALADDRESS.
  zguard. done.
Qed.

Lemma fuel_prompt : prompt (D := ata_model 3) 3000.
Proof. apply ata_model_prompt. lia. Qed.

Lemma driver_prompt : prompt (D := ata_model 3) (Z.to_nat 20000).
Proof. apply ata_model_prompt. lia. Qed.

(** "INIT    BIN" of 100 bytes whose chain has the two clusters 3 and 4. *)
Definition overrun_disk : Z -> list Z := fun l =>
  if l =? VOLUME1_ROOTDIR_LBA
  then [73 + 78 * 256; 73 + 84 * 256; 8224; 8224; 66 + 73 * 256; 78; 0; 0; 0; 0; 0; 0; 0; 3; 100; 0] ++ replicate 240 0
  else if l =? VOLUME1_FAT_LBA then [0; 0; 0; 4; 0xFFFF] ++ replicate 251 0
  else blank_disk l.

Lemma overrun_disk_sectors l : is_sector (overrun_disk l).
Proof.
  unfold overrun_disk. case_match; [split; [done|decided]|]. case_match; [split; [done|decided]|]. apply blank_disk_sectors.
Qed.

Lemma load_overruns_buffer_witness :
  exists s', fsLoadFile 3000 VOLUME1_FAT_ADDRESS VOLUME1_ROOTDIR_ADDRESS FAT16_ROOT_ENTRIES 2000 0x200000 512
      (demo_storage 3 names_demo overrun_disk) = Done 0 s' /\
    forall o, 512 <= o < 1024 -> ram s' (0x200000 + o) = chain_byte overrun_disk [3; 4] o.
Proof.
  apply (load_overruns_buffer 3000 (demo_storage 3 names_demo overrun_disk) overrun_disk 2000
    [73; 78; 73; 84; 32; 32; 32; 32; 66; 73; 78] [3; 4] 100 0x200000 512).
  - apply demo_online; [apply names_demo_bytes|apply overrun_disk_sectors].
  - exact driver_prompt.
  - apply save_demo_volume.
  - exact save_demo_name.
  - exists 0. split; [by vm_compute|]. split; [by vm_compute|]. split; [by vm_compute|].
    split; [lia|]. split; [by vm_compute|]. split; [lia|]. left. by vm_compute.
  - lia.
  - done.
  - apply (demo_loadable 2). lia.
  - done.
  - cbn. lia.
  - intros y Hy. repeat (apply elem_of_cons in Hy as [-> | Hy]; [done|]). by apply not_elem_of_nil in Hy.
Defined.
