(* ===== verification/FatSave.v ===== *)
(** * Saving a file and loading it back

    The contract of [fsSaveFile] (res/fs/fslib.c): the free clusters it takes,
    the chain it makes in the FAT cache, the directory entry it fills and the
    sectors it writes; then what the two routines and the flush of the FAT
    cache ([fs_save_fat16_cache]) give together. *)
From Stdlib Require Import ZArith Lia.
From stdpp Require Import base gmap list strings.
From S2P Require Import Config Prelude Strings Memory Ata Fat FatFiles.

#[local] Open Scope Z_scope.
#[local] Open Scope gramado_scope.

(** ** The free clusters *)

(** The clusters, from [c] on and among [n], whose FAT word is zero. *)
Definition free_clusters (m : memory) (c : Z) (n : nat) : list Z :=
  filter (fun x => fat_word m x = 0) (range c (c + Z.of_nat n)).

Lemma free_clusters_S m c n :
  free_clusters m c (S n) =
    if fat_word m c =? 0 then c :: free_clusters m (c + 1) n else free_clusters m (c + 1) n.
Proof.
  unfold free_clusters. rewrite range_cons by lia.
  replace (c + Z.of_nat (S n)) with (c + 1 + Z.of_nat n) by lia. rewrite filter_cons.
  by destruct (Z.eqb_spec (fat_word m c) 0), (decide (fat_word m c = 0)).
Qed.

(** [l] is stored in the array from index [j] on. *)
Fixpoint put_at (arr : list Z) (j : Z) (l : list Z) : list Z :=
  match l with [] => arr | x :: l => put_at (zinsert arr j x) (j + 1) l end.

Lemma length_put_at arr j l : length (put_at arr j l) = length arr.
Proof. revert arr j. induction l as [|x l IH]; intros arr j; [done|]. cbn [put_at]. by rewrite IH, length_zinsert. Qed.

Lemma put_at_before arr j l i : 0 <= i < j -> zlookup (put_at arr j l) i = zlookup arr i.
Proof.
  revert arr j. induction l as [|x l IH]; intros arr j Hi; [done|]. cbn [put_at].
  rewrite IH by lia. apply zlookup_insert_ne; lia.
Qed.

Lemma put_at_in arr j l i x :
  0 <= j -> j + zlen l <= zlen arr -> zlookup l i = Some x -> zlookup (put_at arr j l) (j + i) = Some x.
Proof.
  revert arr j i. induction l as [|y l IH]; intros arr j i Hj Hl Hi; [unfold zlookup in Hi; by case_match|].
  rewrite zlen_cons in Hl. pose proof (zlookup_lt _ _ _ Hi) as Hr. pose proof (zlen_nonneg l). cbn [put_at].
  destruct (decide (i = 0)) as [->|N].
  - injection Hi as ->. rewrite Z.add_0_r, put_at_before by lia. apply zlookup_insert_eq. unfold zlen in *. lia.
  - replace i with (1 + (i - 1)) in Hi by lia. rewrite zlookup_cons_S in Hi by lia.
    replace (j + i) with (j + 1 + (i - 1)) by lia. apply IH; [lia| |done].
    unfold zlen in *. rewrite length_zinsert. lia.
Qed.

Section Saving.
Context {D : Type} `{HD : AtaDevice D} (fuel : nat).
Implicit Types (s : storage D) (d : D) (m : memory).

(** The list of clusters is the first [k] free ones, then the end mark; one
    more free cluster has to exist. *)
Lemma find_clusters_spec n s c j k :
  0 <= c -> c + Z.of_nat n <= 2 ^ 16 -> (k < length (free_clusters (ram s) c n))%nat ->
  find_clusters n VOLUME1_FAT_ADDRESS c j (Z.of_nat k) s =
    Done (Some (j + Z.of_nat k))
      (s <| fat16ClustersToSave :=
         put_at (fat16ClustersToSave s) j (take k (free_clusters (ram s) c n) ++ [0xFFF8]) |>).
Proof.
  revert s c j k. induction n as [|n IH]; intros s c j k Hc Hn Hk.
  { unfold free_clusters in Hk. rewrite range_nil in Hk by lia. cbn in Hk. lia. }
  cbn [find_clusters]. rewrite bind_gets. change (load16 (ram s) (VOLUME1_FAT_ADDRESS + 2 * c)) with (fat_word (ram s) c).
  rewrite free_clusters_S in *. destruct (Z.eqb_spec (fat_word (ram s) c) 0) as [E|N].
  - destruct k as [|k].
    + change (Z.of_nat 0 =? 0) with true. cbn iota. rewrite bind_modify, Z.add_0_r. done.
    + destruct (Z.eqb_spec (Z.of_nat (S k)) 0) as [|_]; [lia|]. rewrite bind_modify.
      unfold u16. rewrite Z.mod_small by lia. cbn [length] in Hk.
      set (s1 := s <| fat16ClustersToSave := zinsert (fat16ClustersToSave s) j c |>).
      replace (Z.of_nat (S k) - 1) with (Z.of_nat k) by lia.
      rewrite (IH s1 (c + 1) (j + 1) k) by (lia || (cbn; lia)).
      unfold s1. cbn [take app put_at]. replace (j + 1 + Z.of_nat k) with (j + Z.of_nat (S k)) by lia. done.
  - rewrite (IH s (c + 1) j k) by lia. done.
Qed.

(** ** The chain in the FAT *)

(** The FAT words of [l] linked one to the next, the last to the end mark. *)
Fixpoint link (l : list Z) (m : memory) : memory :=
  match l with
  | [] => m
  | x :: l' => link l' (store16 (VOLUME1_FAT_ADDRESS + 2 * x) (default 0xFFF8 (head l')) m)
  end.

Lemma link_bytes l m : bytes m -> bytes (link l m).
Proof. revert m. induction l as [|x l IH]; intros m Hm; cbn [link]; auto using bytes_store16. Qed.

(** Only the words of the clusters of [l] change. *)
Lemma link_other l m a :
  (forall x, x ∈ l -> a <> VOLUME1_FAT_ADDRESS + 2 * x /\ a <> VOLUME1_FAT_ADDRESS + 2 * x + 1) -> link l m a = m a.
Proof.
  revert m. induction l as [|x l IH]; intros m H; cbn [link]; [done|].
  rewrite IH by (intros; apply H; by right). apply store16_ne; apply H; left.
Qed.

Lemma link_outside l m a :
  (forall x, x ∈ l -> 0 <= x < 2 ^ 16) ->
  a < VOLUME1_FAT_ADDRESS \/ VOLUME1_FAT_ADDRESS + 0x20000 <= a -> link l m a = m a.
Proof. intros H Ha. apply link_other. intros x Hx. specialize (H _ Hx). lia. Qed.

Lemma link_word_other l m c : c ∉ l -> fat_word (link l m) c = fat_word m c.
Proof.
  intros Hc. apply load16_ext; apply link_other; intros x Hx; assert (x <> c) by (by intros ->); lia.
Qed.

Lemma link_chain l m :
  l <> [] -> NoDup l -> (forall x, x ∈ l -> 0 < x <= 0xFFF0) -> chain (link l m) l.
Proof.
  revert m. induction l as [|x l IH]; [done|]. intros m _ Hnd Hr. apply NoDup_cons in Hnd as (Hx & Hnd).
  cbn [chain link]. split; [apply Hr; left|]. destruct l as [|y l].
  - right. cbn [link head default]. by apply store16_eq.
  - split.
    + rewrite link_word_other by done. cbn [head default]. apply store16_eq.
      assert (0 < y <= 0xFFF0) by (apply Hr; right; left). lia.
    + apply IH; [done|done|]. intros; apply Hr; by right.
Qed.

Lemma link_last l m x : last l = Some x ->
  link l m (VOLUME1_FAT_ADDRESS + 2 * x) = 0xF8 /\ link l m (VOLUME1_FAT_ADDRESS + 2 * x + 1) = 0xFF.
Proof.
  revert m. induction l as [|y l IH]; intros m Hl; [done|]. cbn [link]. destruct l as [|z l].
  - injection Hl as ->. cbn [link head default]. unfold store16. rewrite poke_ne by lia. unfold poke.
    by rewrite !Z.eqb_refl.
  - apply IH. done.
Qed.

(** The last word is written once more. *)
Lemma link_again l m x a : last l = Some x ->
  store16 (VOLUME1_FAT_ADDRESS + 2 * x) 0xFFF8 (link l m) a = link l m a.
Proof.
  intros Hl. destruct (link_last l m x Hl) as (E0 & E1). unfold store16, poke.
  destruct (Z.eqb_spec a (VOLUME1_FAT_ADDRESS + 2 * x + 1)) as [->|]; [by rewrite E1|].
  destruct (Z.eqb_spec a (VOLUME1_FAT_ADDRESS + 2 * x)) as [->|]; [by rewrite E0|done].
Qed.

(** ** The sectors of the file *)

Fixpoint data_put (f : Z -> list Z) (l : list Z) (address : Z) (m : memory) : Z -> list Z :=
  match l with
  | [] => f
  | x :: l => data_put (sector_put (VOLUME1_DATAAREA_LBA + x - 2) (read_words 256 address m) f) l (address + 512) m
  end.

Lemma read_words_ext n a m m' :
  (forall x, a <= x < a + 2 * Z.of_nat n -> m' x = m x) -> read_words n a m' = read_words n a m.
Proof.
  intros H. unfold read_words. apply list_fmap_ext. intros k i Hi.
  apply list_elem_of_lookup_2, elem_range in Hi. by rewrite !H by lia.
Qed.

Lemma data_put_ext f f' l a m m' :
  (forall x, a <= x < a + 512 * zlen l -> m' x = m x) -> (forall z, f' z = f z) ->
  forall z, data_put f' l a m' z = data_put f l a m z.
Proof.
  revert f f' a. induction l as [|x l IH]; intros f f' a H Hf z; cbn [data_put]; [apply Hf|].
  rewrite zlen_cons in H. pose proof (zlen_nonneg l). apply IH; [intros; apply H; lia|].
  intros y. unfold sector_put. rewrite Hf, (read_words_ext _ _ m) by (intros; apply H; lia). done.
Qed.

Lemma data_put_other f l a m z :
  (forall x, x ∈ l -> z <> VOLUME1_DATAAREA_LBA + x - 2) -> data_put f l a m z = f z.
Proof.
  revert f a. induction l as [|x l IH]; intros f a H; cbn [data_put]; [done|].
  rewrite IH by (intros; apply H; by right). unfold sector_put.
  destruct (Z.eqb_spec z (VOLUME1_DATAAREA_LBA + x - 2)); [|done]. exfalso. eapply H; [left|done].
Qed.

(** The data of the chain are the bytes that were at [a]. *)
Lemma data_put_bytes f l a m o :
  bytes m -> NoDup l -> 0 <= o < 512 * zlen l -> chain_byte (data_put f l a m) l o = m (a + o).
Proof.
  intros Hm. revert f a o. induction l as [|x l IH]; intros f a o Hnd Ho.
  { change (zlen (@nil Z)) with 0 in Ho. lia. }
  apply NoDup_cons in Hnd as (Hx & Hnd). rewrite zlen_cons in Ho. pose proof (zlen_nonneg l).
  cbn [data_put]. destruct (decide (o < 512)) as [Hlt|Hge].
  - rewrite chain_byte_0 by lia. rewrite data_put_other.
    + unfold sector_put. rewrite Z.eqb_refl. apply read_words_byte; [done|lia].
    + intros y Hy E. apply Hx. replace x with y by lia. done.
  - replace o with (512 + (o - 512)) at 1 by lia. rewrite chain_byte_cons, IH by (done || lia). f_equal. lia.
Qed.

(** ** The writing loop *)

(** The array of clusters holds [l] and the end mark from index [i] on. *)
Definition listed_from (arr : list Z) (i : Z) (l : list Z) : Prop :=
  forall k x, zlookup (l ++ [0xFFF8]) k = Some x -> zlookup arr (i + k) = Some x.

Lemma listed_head arr i l : listed_from arr i l -> zlookup arr i = Some (default 0xFFF8 (head l)).
Proof. intros H. rewrite <- (Z.add_0_r i). apply H. by destruct l. Qed.

Lemma listed_tail arr i x l : listed_from arr i (x :: l) -> listed_from arr (i + 1) l.
Proof.
  intros H k y Hk. replace (i + 1 + k) with (i + (1 + k)) by lia. apply H.
  pose proof (zlookup_lt _ _ _ Hk). cbn [app]. by rewrite zlookup_cons_S by lia.
Qed.

(** What a cluster has to be for its sector to be on the disk. *)
Definition cluster_ok s (x : Z) : Prop :=
  0 < x <= 0xFFF0 /\ VOLUME1_DATAAREA_LBA + x - 2 < gNumberOfSectorsInBootDisk s.

(** [n] sectors at [address] are off the FAT cache. *)
Definition off_fat (address n : Z) : Prop :=
  0 <= address /\ address + 512 * n < 2 ^ 64 /\ (address + 512 * n <= VOLUME1_FAT_ADDRESS \/ VOLUME1_FAT_ADDRESS + 0x20000 <= address).

Lemma last_default (x p : Z) (l : list Z) : default p (last (x :: l)) = default x (last l).
Proof. revert x p. induction l as [|y l IH]; intros x p; [done|]. change (last (x :: y :: l)) with (last (y :: l)). by rewrite !IH. Qed.

Lemma to_save_spec s i x : zlookup (fat16ClustersToSave s) i = Some x -> to_save i s = Done x s.
Proof. intros H. unfold to_save, getsome. by rewrite H. Qed.

Lemma write_clusters_spec l n i s f address prev :
  online s f -> prompt (Z.to_nat 20000) -> prompt fuel ->
  listed_from (fat16ClustersToSave s) i l -> (l = [] -> zlookup (fat16ClustersToSave s) (i - 1) = Some prev) ->
  (forall x, x ∈ l -> cluster_ok s x) -> off_fat address (zlen l) -> (length l < n)%nat ->
  exists d' b f',
    write_clusters fuel n VOLUME1_FAT_ADDRESS i address s =
      Done true (at_io s (store16 (VOLUME1_FAT_ADDRESS + 2 * default prev (last l)) 0xFFF8 (link l (ram s))) d' b) /\
    online (at_io s (store16 (VOLUME1_FAT_ADDRESS + 2 * default prev (last l)) 0xFFF8 (link l (ram s))) d' b) f' /\
    forall z, f' z = data_put f l address (ram s) z.
Proof.
  revert n i s f address prev. induction l as [|x l IH]; intros n i s f address prev Hon Hp Hf Hl Hprev Hok Hoff Hn;
    (destruct n as [|n]; [cbn in Hn; lia|]); cbn [write_clusters];
    rewrite (bind_Done _ _ _ _ _ (to_save_spec s i _ (listed_head _ _ _ Hl))); cbn [head default from_option].
  - rewrite Z.eqb_refl.
    rewrite (bind_Done _ _ _ _ _ (to_save_spec s (i - 1) prev (Hprev eq_refl))).
    exists (dev s), (ata_irq_invoked s), f. split; [by destruct s|]. split; [|done].
    destruct Hon as (base & sl & H1 & H2 & H3 & H4 & H5 & H6 & H7). exists base, sl.
    split; [done|]. split; [done|]. split; [done|]. split; [done|]. split; [done|]. split; [done|]. by apply bytes_store16.
  - change (id x) with x. assert (cluster_ok s x) as (Hx & Hlba) by (apply Hok; left). replace (x =? 65528) with false by lia. cbn iota.
    rewrite (bind_Done _ _ _ _ _ (to_save_spec s (i + 1) _ (listed_head _ _ _ (listed_tail _ _ _ _ Hl)))).
    unfold set_fat at 1. rewrite bind_modify, bind_gets.
    rewrite zlen_cons in Hoff. pose proof (zlen_nonneg l) as Hz. destruct Hoff as (O0 & O1 & O2).
    set (m1 := store16 (VOLUME1_FAT_ADDRESS + 2 * x) (default 65528 (head l)) (ram s)).
    assert (online (io s m1 (dev s)) f) as Hon1.
    { destruct Hon as (base & sl & H1 & H2 & H3 & H4 & H5 & H6 & H7). exists base, sl.
      split; [done|]. split; [done|]. split; [done|]. split; [done|]. split; [done|]. split; [done|]. by apply bytes_store16. }
    assert (s <| ram := m1 |> = io s m1 (dev s)) as Es by (by destruct s). fold m1. rewrite Es.
    destruct (wait_irq_online (io s m1 (dev s)) f Hon1) as (r & d1 & R1 & Hon2).
    rewrite (bind_Done _ _ _ _ _ R1).
    destruct (write_online fuel (at_io s m1 d1 FALSE) f (VOLUME1_DATAAREA_LBA + x - 2) address Hon2 Hp Hf) as (d2 & R2 & Hon3).
    { split; [unfold VOLUME1_DATAAREA_LBA; lia|exact Hlba]. }
    rewrite (bind_Done _ _ _ _ _ R2). rewrite u64_id by lia.
    assert (forall a, address <= a < address + 512 * (1 + zlen l) -> m1 a = ram s a) as Hm1
      by (intros a Ha; apply store16_ne; lia).
    destruct (IH n (i + 1) (at_io s m1 d2 FALSE) _ (address + 512) x Hon3 Hp Hf) as (d3 & b & f' & R3 & Hon4 & Hf').
    + by eapply listed_tail.
    + intros _. replace (i + 1 - 1) with i by lia. apply (listed_head _ _ _ Hl).
    + intros y Hy. apply Hok. by right.
    + split; [lia|]. split; [lia|]. lia.
    + cbn in Hn. lia.
    + change (ram (at_io s m1 d2 FALSE)) with m1 in *.
      rewrite last_default.
      exists d3, b, f'. split; [exact R3|]. split; [exact Hon4|]. intros z. rewrite Hf'. cbn [data_put].
      change (ram (at_io s m1 d1 FALSE)) with m1. apply data_put_ext; [intros a Ha; apply Hm1; lia|].
      intros y. unfold sector_put. by rewrite (read_words_ext _ _ (ram s)) by (intros; apply Hm1; lia).
Qed.

(** ** The contract of [fsSaveFile] *)

(** The memory after the save, from the memory [v] with the caches loaded: the
    entry [i] is filled, the clusters are linked. *)
Definition saved_memory v name flag size i cl : memory :=
  link cl (poke_list (VOLUME1_ROOTDIR_ADDRESS + 32 * i) (dir_entry v name flag (default 0 (head cl)) size) v).

(** Outside both caches. *)
Definition off_caches (a n : Z) : Prop :=
  0 < a /\ a + 512 * n < 2 ^ 64 /\
  (a + 512 * n <= VOLUME1_FAT_ADDRESS \/ VOLUME1_ROOTDIR_ADDRESS + ROOT_BYTES <= a).

Definition free_entry (m : memory) (i : Z) : Prop :=
  head (filter (fun i => m (VOLUME1_ROOTDIR_ADDRESS + 32 * i) = 0) (range 0 512)) = Some i.

(** The same volume is mounted on the same disk. *)
Definition mounted s s' : Prop :=
  g_currentvolume_fatbits s' = g_currentvolume_fatbits s /\
  gNumberOfSectorsInBootDisk s' = gNumberOfSectorsInBootDisk s /\ root s' = root s.

Lemma link_ext l m m' a : m' a = m a -> link l m' a = link l m a.
Proof.
  revert m m'. induction l as [|x l IH]; intros m m' H; cbn [link]; [done|].
  apply IH. unfold store16, poke. repeat case_match; done.
Qed.

Lemma dir_entry_ext m m' name flag c size :
  (forall x, m' x = m x) -> dir_entry m' name flag c size = dir_entry m name flag c size.
Proof. intros H. unfold dir_entry. f_equal. apply list_fmap_ext. intros k i _. case_match; done. Qed.

Lemma free_clusters_ext m m' c n : (forall x, m' x = m x) -> free_clusters m' c n = free_clusters m c n.
Proof. intros H. apply filter_iff_elem. intros x _. unfold fat_word. by rewrite (load16_ext m m'). Qed.

Lemma free_clusters_elem m c n x :
  x ∈ free_clusters m c n <-> fat_word m x = 0 /\ c <= x < c + Z.of_nat n.
Proof. unfold free_clusters. by rewrite list_elem_of_filter, elem_range. Qed.

Lemma listed_put arr l : zlen l < zlen arr -> listed_from (put_at arr 0 (l ++ [0xFFF8])) 0 l.
Proof.
  intros Hl k x Hk. apply put_at_in; [lia| |done]. rewrite zlen_app. change (zlen [65528]) with 1. lia.
Qed.

(** The first part of the save: caches, clusters. *)
Lemma prepare_spec s f k :
  online s f -> prompt (Z.to_nat 20000) -> volume_ok s ->
  (k < length (free_clusters (boot_view s f) 3 (Z.to_nat CLUSTERS_TO_SAVE_MAX)))%nat ->
  let cl := take k (free_clusters (boot_view s f) 3 (Z.to_nat CLUSTERS_TO_SAVE_MAX)) in
  exists m1 d1,
    (fs_load_rootdir fuel VOLUME1_ROOTDIR_ADDRESS VOLUME1_ROOTDIR_LBA 32 ≫= fun _ =>
     fs_load_fat fuel VOLUME1_FAT_ADDRESS VOLUME1_FAT_LBA 246 ≫= fun _ =>
     find_clusters (Z.to_nat CLUSTERS_TO_SAVE_MAX) VOLUME1_FAT_ADDRESS 3 0 (Z.of_nat k)) s =
      Done (Some (Z.of_nat k))
        ((io s m1 d1) <| g_fat_cache_loaded := FAT_CACHE_LOADED |>
           <| fat16ClustersToSave := put_at (fat16ClustersToSave s) 0 (cl ++ [0xFFF8]) |>) /\
    online (io s m1 d1) f /\ forall a, m1 a = boot_view s f a.
Proof.
  intros Hon Hp (_ & Hg & _) Hk cl.
  destruct (load_rootdir_spec fuel s f Hon Hp Hg) as (m1 & d1 & R1 & Hon1 & Hm1).
  destruct (load_fat_spec fuel (io s m1 d1) f Hon1 Hp Hg) as (m2 & d2 & R2 & Hon2 & Hm2).
  assert (forall a, m2 a = boot_view s f a) as Hv.
  { intros a. rewrite Hm2. change (ram (io s m1 d1)) with m1. rewrite Hm1. unfold boot_view.
    change (g_fat_cache_loaded (io s m1 d1)) with (g_fat_cache_loaded s).
    destruct (in_fat a) eqn:E; [|done]. rewrite (in_fat_not_root _ E). done. }
  exists m2, d2. split; [|done]. rewrite (bind_Done _ _ _ _ _ R1), (bind_Done _ _ _ _ _ R2).
  pose proof (free_clusters_ext (boot_view s f) m2 3 (Z.to_nat CLUSTERS_TO_SAVE_MAX) Hv) as Efree.
  rewrite (find_clusters_spec _ _ 3 0 k).
  - change (ram ((io (io s m1 d1) m2 d2) <| g_fat_cache_loaded := FAT_CACHE_LOADED |>)) with m2. rewrite Efree. done.
  - lia.
  - unfold CLUSTERS_TO_SAVE_MAX. lia.
  - change (ram ((io (io s m1 d1) m2 d2) <| g_fat_cache_loaded := FAT_CACHE_LOADED |>)) with m2. by rewrite Efree.
Qed.

Lemma bind_assoc3 {S A B C E} (a : M S A) (b : M S B) (c : M S C) (k : C -> M S E) (z : S) :
  (a ≫= fun _ => b ≫= fun _ => c ≫= k) z = ((a ≫= fun _ => b ≫= fun _ => c) ≫= k) z.
Proof.
  unfold mbind, M_bind. destruct (a z) as [? s1| | | |]; try done. destruct (b s1) as [? s2| | | |]; done.
Qed.

Lemma online_ram_set s f : online s f -> forall m, bytes m -> online (s <| ram := m |>) f.
Proof.
  intros (base & sl & H1 & H2 & H3 & H4 & H5 & H6 & H7) m Hm. exists base, sl.
  by repeat (split; [done|]).
Qed.

Lemma free_entry_range m i : free_entry m i -> 0 <= i < 512 /\ m (VOLUME1_ROOTDIR_ADDRESS + 32 * i) = 0.
Proof. intros H. apply head_filter_some in H as (H & Hi%elem_range). done. Qed.

Lemma dir_entry_bytes m name flag c size : bytes m ->
  Forall (fun c => 0 <= c < 256) (dir_entry m name flag c size) /\ zlen (dir_entry m name flag c size) = 32.
Proof.
  intros Hm. assert (forall z, 0 <= u8 z < 256) as H8 by (intros; unfold u8; apply Z.mod_pos_bound; lia).
  unfold dir_entry. split.
  - apply Forall_app. split; [apply Forall_fmap, Forall_forall; intros z _; cbn; case_match; [lia|apply Hm]|].
    apply Forall_app. split; [repeat constructor; try apply H8; lia|].
    apply Forall_fmap, Forall_forall; intros z _; cbn; case_match; [lia|apply H8].
  - done.
Qed.

Lemma take_cluster_ok s v k x :
  VOLUME1_DATAAREA_LBA + 3 + CLUSTERS_TO_SAVE_MAX <= gNumberOfSectorsInBootDisk s ->
  x ∈ take k (free_clusters v 3 (Z.to_nat CLUSTERS_TO_SAVE_MAX)) -> 3 <= x <= 32770 /\ cluster_ok s x.
Proof.
  intros Hg Hx. assert (x ∈ free_clusters v 3 (Z.to_nat CLUSTERS_TO_SAVE_MAX)) as Hin.
  { rewrite <- (take_drop k (free_clusters _ _ _)). apply elem_of_app. by left. }
  apply free_clusters_elem in Hin as (_ & Hr). unfold cluster_ok, CLUSTERS_TO_SAVE_MAX, VOLUME1_DATAAREA_LBA in *. lia.
Qed.


(** The second part: the entry, the sectors and the directory. *)
Lemma commit_spec s f cl i entry address :
  online s f -> prompt (Z.to_nat 20000) -> prompt fuel -> VOLUME1_DATAAREA_LBA <= gNumberOfSectorsInBootDisk s ->
  listed_from (fat16ClustersToSave s) 0 cl -> cl <> [] -> (length cl <= 16)%nat ->
  (forall x, x ∈ cl -> cluster_ok s x) -> off_caches address (zlen cl) ->
  0 <= i < 512 -> Forall (fun c => 0 <= c < 256) entry -> zlen entry = 32 ->
  exists m3 d b f',
    (modify (fun s => s <| ram := poke_list (VOLUME1_ROOTDIR_ADDRESS + 32 * i) entry (ram s) |>) ≫= fun _ =>
     write_clusters fuel (Z.to_nat 17) VOLUME1_FAT_ADDRESS 0 address ≫= fun ok =>
     if negb ok then mret 1
     else
       fs_save_rootdir fuel VOLUME1_ROOTDIR_ADDRESS VOLUME1_ROOTDIR_LBA 32 ≫= fun _ =>
       fs_fat16_cache_not_saved ≫= fun _ => mret 0) s =
      Done 0 ((at_io s m3 d b) <| g_fat_cache_saved := FAT_CACHE_NOT_SAVED |>) /\
    online (at_io s m3 d b) f' /\
    (forall a, m3 a = link cl (poke_list (VOLUME1_ROOTDIR_ADDRESS + 32 * i) entry (ram s)) a) /\
    (forall z, f' z = disk_store (data_put f cl address (ram s)) VOLUME1_ROOTDIR_LBA 32 VOLUME1_ROOTDIR_ADDRESS m3 z).
Proof.
  intros Hon Hp Hf Hg Hlist Hne Hl Hok Hoff Hir He Hel. rewrite bind_modify.
  set (m2 := poke_list (VOLUME1_ROOTDIR_ADDRESS + 32 * i) entry (ram s)).
  assert (bytes m2) as Hb2 by (apply bytes_poke_list, (online_ram _ _ Hon)).
  set (s2 := s <| ram := m2 |>).
  assert (online s2 f) as Hon2 by (apply (online_ram_set _ _ Hon m2 Hb2)).
  unfold off_caches, ROOT_BYTES, VOLUME1_FAT_ADDRESS, VOLUME1_ROOTDIR_ADDRESS in Hoff.
  destruct (write_clusters_spec cl (Z.to_nat 17) 0 s2 f address 0 Hon2 Hp Hf) as (d3 & b3 & f3 & R3 & Hon3 & Hf3);
    [exact Hlist|done|exact Hok|unfold off_fat, VOLUME1_FAT_ADDRESS; lia|lia|].
  set (m3 := store16 (VOLUME1_FAT_ADDRESS + 2 * default 0 (last cl)) 65528 (link cl (ram s2))) in *.
  set (s3 := at_io s2 m3 d3 b3) in *.
  destruct (save_sequence_spec fuel s3 f3 _ VOLUME1_ROOTDIR_ADDRESS VOLUME1_ROOTDIR_LBA 32 Hon3 Hp Hf eq_refl)
    as (d4 & b4 & f4 & R4 & Hon4 & Hf4); [done|done|done|done| |].
  { change (gNumberOfSectorsInBootDisk s3) with (gNumberOfSectorsInBootDisk s).
    unfold VOLUME1_DATAAREA_LBA, VOLUME1_ROOTDIR_LBA in *. lia. }
  exists m3, d4, b4, f4. split; [|split; [exact Hon4|split]].
  - rewrite (bind_Done _ _ _ _ _ R3). cbn [negb].
    assert (fs_save_rootdir fuel VOLUME1_ROOTDIR_ADDRESS VOLUME1_ROOTDIR_LBA 32 s3 = Done 0 (at_io s3 (ram s3) d4 b4)) as R5.
    { unfold fs_save_rootdir. change (VOLUME1_ROOTDIR_ADDRESS =? 0) with false. change (VOLUME1_ROOTDIR_LBA =? 0) with false.
      rewrite Z.eqb_refl. cbn [negb]. by rewrite bind_gets, (bind_Done _ _ _ _ _ R4). }
    rewrite (bind_Done _ _ _ _ _ R5). done.
  - intros a. unfold m3. destruct (last cl) as [x|] eqn:E; [|by apply last_None in E]. by apply link_again.
  - intros z. rewrite Hf4. unfold disk_store. case_match; [done|]. rewrite Hf3. apply data_put_ext; [|done].
    intros x Hx. change (m2 x = ram s x). unfold m2. rewrite poke_list_spec by done. rewrite Hel.
    unfold VOLUME1_ROOTDIR_ADDRESS. repeat ztest; cbn [andb]; done || lia.
Qed.

Lemma save_file_spec s f name nm k size address flag i :
  online s f -> prompt (Z.to_nat 20000) -> prompt fuel -> volume_ok s ->
  VOLUME1_DATAAREA_LBA + 3 + CLUSTERS_TO_SAVE_MAX <= gNumberOfSectorsInBootDisk s ->
  name_at fuel (ram s) name nm -> (0 < k <= 16)%nat -> off_caches address (Z.of_nat k) ->
  zlen (fat16ClustersToSave s) = CLUSTERS_TO_SAVE_MAX ->
  let v := boot_view s f in
  (k < length (free_clusters v 3 (Z.to_nat CLUSTERS_TO_SAVE_MAX)))%nat -> free_entry v i ->
  let cl := take k (free_clusters v 3 (Z.to_nat CLUSTERS_TO_SAVE_MAX)) in
  exists s' f',
    fsSaveFile fuel VOLUME1_FAT_ADDRESS VOLUME1_ROOTDIR_ADDRESS FAT16_ROOT_ENTRIES name (Z.of_nat k) size address flag s =
      Done 0 s' /\
    online s' f' /\ mounted s s' /\
    g_fat_cache_loaded s' = FAT_CACHE_LOADED /\ g_fat_cache_saved s' = FAT_CACHE_NOT_SAVED /\
    (forall a, ram s' a = saved_memory v name flag size i cl a) /\
    (forall z, f' z = disk_store (data_put f cl address (ram s)) VOLUME1_ROOTDIR_LBA 32 VOLUME1_ROOTDIR_ADDRESS (ram s') z).
Proof.
  intros Hon Hp Hf Hv Hg Hn Hk Hoff Harr v Hfree Hi cl. pose proof (name_start _ _ _ _ Hn) as H0.
  destruct (free_entry_range _ _ Hi) as (Hir & Hi0).
  assert (zlen cl = Z.of_nat k) as Hcl by (unfold cl, zlen; rewrite length_take; lia).
  assert (cl <> []) as Hne by (intros E; rewrite E in Hcl; cbn in Hcl; change (zlen (@nil Z)) with 0 in Hcl; lia).
  destruct (prepare_spec s f k Hon Hp Hv Hfree) as (m1 & d1 & R1 & Hon1 & Hm1). fold v cl in R1, Hm1.
  set (arr := put_at (fat16ClustersToSave s) 0 (cl ++ [65528])) in *.
  set (s1 := (io s m1 d1) <| g_fat_cache_loaded := FAT_CACHE_LOADED |> <| fat16ClustersToSave := arr |>) in *.
  assert (online s1 f) as Hon1' by exact Hon1. assert (bytes m1) as Hb1 by apply (online_ram _ _ Hon1).
  assert (listed_from arr 0 cl) as Hlist by (apply listed_put; unfold CLUSTERS_TO_SAVE_MAX in *; lia).
  assert (findEmptyDirectoryEntry VOLUME1_ROOTDIR_ADDRESS 512 s1 = Done i s1) as R2.
  { rewrite findEmpty_spec by done. change (ram s1) with m1.
    replace (head (filter (fun i => m1 (VOLUME1_ROOTDIR_ADDRESS + 32 * i) = 0) (range 0 512))) with (Some i); [done|].
    rewrite <- Hi. f_equal. apply filter_iff_elem. intros j _. by rewrite Hm1. }
  assert (forall c, dir_entry m1 name flag c size = dir_entry v name flag c size) as Ede
    by (intros; by apply dir_entry_ext).
  set (entry := dir_entry v name flag (default 0 (head cl)) size) in *.
  destruct (dir_entry_bytes m1 name flag (default 0 (head cl)) size Hb1) as (He & Hel). rewrite Ede in He, Hel.
  fold entry in He, Hel.
  destruct (commit_spec s1 f cl i entry address Hon1' Hp Hf) as (m3 & d3 & b3 & f3 & R3 & Hon3 & Hm3 & Hf3); try done.
  { apply Hv. }
  { unfold zlen in Hcl. lia. }
  { intros x Hx. by apply (take_cluster_ok s v k). }
  { by rewrite Hcl. }
  exists ((at_io s1 m3 d3 b3) <| g_fat_cache_saved := FAT_CACHE_NOT_SAVED |>), f3.
  split; [|split; [exact Hon3|split; [done|split; [done|split; [done|split]]]]].
  - unfold fsSaveFile. change (VOLUME1_FAT_ADDRESS =? 0) with false. change (VOLUME1_ROOTDIR_ADDRESS =? 0) with false.
    change (FAT16_ROOT_ENTRIES =? 0) with false. unfold NULL. rewrite !Z.eqb_refl. cbn [negb]. rewrite bind_gets.
    destruct Hn as (_ & _ & _ & _ & Hpos & _). zguard. change (FAT16_ROOT_ENTRIES <? FAT16_ROOT_ENTRIES) with false.
    cbn [orb]. rewrite bind_assoc3, (bind_Done _ _ _ _ _ R1).
    rewrite (bind_Done _ _ s1 (default 0xFFF8 (head cl)) s1) by (apply to_save_spec, (listed_head arr 0 cl Hlist)).
    rewrite bind_gets. change (ram s1) with m1. rewrite Ede.
    replace (default 65528 (head cl)) with (default 0 (head cl)) by (by destruct cl). fold entry.
    rewrite (bind_Done _ _ _ _ _ R2). replace (i =? -1) with false by lia. exact R3.
  - intros a. cbn [ram]. change (m3 a = saved_memory v name flag size i cl a). rewrite Hm3. unfold saved_memory. fold entry.
    apply link_ext, poke_list_ext. apply Hm1.
  - intros z. rewrite Hf3. unfold disk_store. case_match; [done|]. apply data_put_ext; [|done].
    intros x Hx. change (m1 x = ram s x). rewrite Hm1. unfold v, boot_view.
    replace (in_root x) with false; [replace (in_fat x) with false; [done|]|];
      unfold in_root, in_fat, off_caches, FAT_BYTES, ROOT_BYTES, VOLUME1_FAT_SIZE, VOLUME1_FAT_ADDRESS, VOLUME1_ROOTDIR_ADDRESS in *; lia.
Qed.

(** ** The file that the save leaves *)

Lemma chain_ext_in m m' l :
  (forall x, x ∈ l -> fat_word m' x = fat_word m x) -> chain m l -> chain m' l.
Proof.
  induction l as [|x l IH]; [done|]. intros H (Hx & Hl). cbn [chain]. split; [done|]. rewrite H by left.
  destruct l as [|y l]; [done|]. destruct Hl as (Hy & Hl). split; [done|]. apply IH; [|done].
  intros; apply H; by right.
Qed.

(** The file is where two memories agree on the directory and on its chain. *)
Lemma stored_ext m m' nm l size :
  zlen nm <= 11 -> (forall x, in_root x = true -> m' x = m x) -> (forall x, x ∈ l -> fat_word m' x = fat_word m x) ->
  stored m nm l size -> stored m' nm l size.
Proof.
  intros Hl Hr Hf (i & Hi & Hh & Hs & Hc). pose proof (head_filter_some _ _ _ Hi) as (_ & Hir%elem_range).
  unfold FAT16_ROOT_ENTRIES in *.
  assert (forall a, VOLUME1_ROOTDIR_ADDRESS + 32 * i <= a < VOLUME1_ROOTDIR_ADDRESS + 32 * i + 32 -> m' a = m a) as He
    by (intros a Ha; apply Hr, (in_root_entry i); lia).
  exists i. split; [|split; [|split]].
  - unfold FAT16_ROOT_ENTRIES. rewrite <- Hi. apply first_match_ext; [done|]. intros a Ha. apply Hr.
    unfold in_root, ROOT_BYTES. lia.
  - rewrite Hh. f_equal. symmetry. apply load16_ext; apply He; lia.
  - rewrite <- Hs. apply load32_ext. intros; apply He; lia.
  - by apply (chain_ext_in m).
Qed.

Lemma head_filter_first (P : Z -> Prop) `{!forall x, Decision (P x)} n i :
  0 <= i < n -> P i -> (forall j, 0 <= j < i -> ~ P j) -> head (filter P (range 0 n)) = Some i.
Proof.
  intros Hi Pi Hj. replace n with (i + (n - i)) by lia. unfold range. rewrite Z.sub_0_r, seqZ_app by lia.
  rewrite filter_app. replace (filter P (seqZ 0 i)) with (@nil Z).
  - rewrite seqZ_cons by lia. cbn [app]. rewrite filter_cons. by rewrite decide_True by (by rewrite Z.add_0_l).
  - destruct (filter P (seqZ 0 i)) as [|j l] eqn:E; [done|].
    assert (j ∈ filter P (seqZ 0 i)) as (Pj & Hin%elem_of_seqZ)%list_elem_of_filter by (rewrite E; left).
    exfalso. apply (Hj j); [lia|done].
Qed.

Lemma head_filter_none (P : Z -> Prop) `{!forall x, Decision (P x)} l :
  head (filter P l) = None -> forall x, x ∈ l -> ~ P x.
Proof.
  intros E x Hx Hp. assert (x ∈ filter P l) as Hf by (by apply list_elem_of_filter).
  destruct (filter P l); [by apply not_elem_of_nil in Hf|done].
Qed.

(** A byte of the entry that is written. *)
Lemma dir_entry_name m name flag c size j :
  flag <> 0x10 -> 0 <= j < 11 -> zlookup (dir_entry m name flag c size) j = Some (m (name + j)).
Proof.
  intros Hf Hj. unfold dir_entry. replace (flag =? 16) with false by lia.
  assert (j = 0 \/ j = 1 \/ j = 2 \/ j = 3 \/ j = 4 \/ j = 5 \/ j = 6 \/ j = 7 \/ j = 8 \/ j = 9 \/ j = 10) as Hc by lia.
  destruct_or! Hc; by subst j.
Qed.

Lemma dir_entry_cluster m name flag c size :
  zlookup (dir_entry m name flag c size) 26 = Some (u8 c) /\
  zlookup (dir_entry m name flag c size) 27 = Some (u8 (Z.shiftr c 8)).
Proof. done. Qed.

Lemma dir_entry_size m name flag c size j :
  flag <> 0x10 -> 0 <= j < 4 ->
  zlookup (dir_entry m name flag c size) (28 + j) = Some (u8 (Z.shiftr size (8 * j))).
Proof.
  intros Hf Hj. unfold dir_entry. replace (flag =? 16) with false by lia.
  assert (j = 0 \/ j = 1 \/ j = 2 \/ j = 3) as Hc by lia. destruct_or! Hc; by subst j.
Qed.

(** The bytes of the entry, and the rest of the directory. *)
Lemma saved_entry v name flag size i cl :
  bytes v -> 0 <= i < 512 -> (forall x, x ∈ cl -> 3 <= x <= 32770) ->
  let E := VOLUME1_ROOTDIR_ADDRESS + 32 * i in
  let m := saved_memory v name flag size i cl in
  (forall j c, zlookup (dir_entry v name flag (default 0 (head cl)) size) j = Some c -> m (E + j) = c) /\
  (forall x, in_root x = true -> x < E \/ E + 32 <= x -> m x = v x).
Proof.
  intros Hv Hi Hcl E m. destruct (dir_entry_bytes v name flag (default 0 (head cl)) size Hv) as (He & Hel).
  assert (forall x, in_root x = true -> m x = poke_list E (dir_entry v name flag (default 0 (head cl)) size) v x) as Hout.
  { intros x Hx. unfold m, saved_memory. apply link_outside; [intros y Hy; specialize (Hcl _ Hy); lia|].
    unfold in_root, VOLUME1_ROOTDIR_ADDRESS, VOLUME1_FAT_ADDRESS in *. lia. }
  split.
  - intros j c Hj. pose proof (zlookup_lt _ _ _ Hj) as Hr. change (Z.of_nat (length _)) with 32 in Hr.
    rewrite Hout by (apply (in_root_entry i); lia). rewrite poke_list_spec, Hel by done. zguard.
    replace (E + j - E) with j by lia. by rewrite Hj.
  - intros x Hx Ho. rewrite Hout by done. rewrite poke_list_spec, Hel by done.
    repeat ztest; cbn [andb]; done || lia.
Qed.

Lemma saved_stored v name nm flag size i cl :
  bytes v -> flag <> 0x10 -> 0 <= size < 2 ^ 32 -> zlen nm = 11 -> str_at v name nm ->
  free_entry v i -> first_match v VOLUME1_ROOTDIR_ADDRESS nm 512 = None ->
  cl <> [] -> NoDup cl -> (forall x, x ∈ cl -> 3 <= x <= 32770) ->
  stored (saved_memory v name flag size i cl) nm cl size.
Proof.
  intros Hv Hf Hsize Hl Hs Hi Hnone Hne Hnd Hcl. destruct (free_entry_range _ _ Hi) as (Hir & _).
  destruct (saved_entry v name flag size i cl Hv Hir Hcl) as (Hent & Hrest).
  set (E := VOLUME1_ROOTDIR_ADDRESS + 32 * i) in *. set (m := saved_memory v name flag size i cl) in *.
  apply str_at_holds in Hs as (Hh & _ & Hc). rewrite holdsb_spec in Hh.
  assert (forall j, 0 <= j < 11 -> m (E + j) = v (name + j)) as HE
    by (intros j Hj; by apply Hent, dir_entry_name).
  assert (forall j, 0 <= j < 4 -> m (E + (28 + j)) = u8 (Z.shiftr size (8 * j))) as HS
    by (intros j Hj; by apply Hent, dir_entry_size).
  exists i. split; [|split; [|split]].
  - apply head_filter_first; [done| |].
    + unfold is_match. fold E. apply andb_true_iff. split.
      * apply negb_true_iff, Z.eqb_neq. unfold load16. destruct (zlookup_some nm 0) as (c0 & Ec0); [unfold zlen in Hl; lia|].
        destruct (zlookup_some nm 1) as (c1 & Ec1); [unfold zlen in Hl; lia|].
        rewrite <- (Z.add_0_r E) at 1. rewrite !HE, (Hh _ _ Ec0), (Hh _ _ Ec1) by lia. rewrite Forall_forall in Hc.
        pose proof (Hc _ (zlookup_elem _ _ _ Ec0)). pose proof (Hc _ (zlookup_elem _ _ _ Ec1)). lia.
      * apply holdsb_spec. intros j c Hj. pose proof (zlookup_lt _ _ _ Hj) as Hr. fold (zlen nm) in Hr.
        rewrite HE by lia. by apply Hh.
    + intros j Hj. rewrite (is_match_ext v m); [|lia|].
      * unfold first_match in Hnone. apply (head_filter_none _ _ Hnone). apply elem_range. lia.
      * intros x Hx. apply Hrest; [apply (in_root_entry j); lia|unfold E; lia].
  - destruct cl as [|x cl']; [done|]. cbn [head default] in *. f_equal. fold E.
    destruct (dir_entry_cluster v name flag x size) as (E1 & E2). unfold load16.
    replace (E + 26 + 1) with (E + 27) by lia. rewrite (Hent _ _ E1), (Hent _ _ E2). symmetry. apply two_bytes.
    assert (3 <= x <= 32770) by (apply Hcl; left). lia.
  - fold E. unfold load32, load16. replace (E + 28) with (E + (28 + 0)) by lia.
    replace (E + (28 + 0) + 1) with (E + (28 + 1)) by lia. replace (E + (28 + 0) + 2) with (E + (28 + 2)) by lia.
    replace (E + (28 + 2) + 1) with (E + (28 + 3)) by lia.
    rewrite !HS by lia. by apply four_bytes.
  - unfold m, saved_memory. apply link_chain; [done|done|]. intros x Hx. specialize (Hcl _ Hx). lia.
Qed.

(** ** Saving, then loading *)

(** The hypotheses of a save: a mounted volume, an 11-character name that the
    directory does not have, room in the directory and in the FAT. *)
Record save_ready s (f : Z -> list Z) name nm (k : nat) size address flag : Prop := {
  sr_online : online s f;
  sr_volume : volume_ok s;
  sr_room : VOLUME1_DATAAREA_LBA + 3 + CLUSTERS_TO_SAVE_MAX <= gNumberOfSectorsInBootDisk s;
  sr_array : zlen (fat16ClustersToSave s) = CLUSTERS_TO_SAVE_MAX;
  sr_name : name_at fuel (ram s) name nm;
  sr_length : zlen nm = 11;
  sr_sectors : (0 < k <= 16)%nat;
  sr_data : off_caches address (Z.of_nat k);
  sr_flag : flag <> 0x10;
  sr_size : 0 <= size < 2 ^ 32;
  sr_free : (k < length (free_clusters (boot_view s f) 3 (Z.to_nat CLUSTERS_TO_SAVE_MAX)))%nat;
  sr_entry : exists i, free_entry (boot_view s f) i;
  sr_new : first_match (boot_view s f) VOLUME1_ROOTDIR_ADDRESS nm 512 = None
}.

Lemma disk_byte_eq f g o : f (o / 512) = g (o / 512) -> disk_byte f o = disk_byte g o.
Proof. intros H. unfold disk_byte. by rewrite H. Qed.

Lemma disk_store_byte f lba n a m o :
  bytes m -> 0 <= o < 512 * n -> disk_byte (disk_store f lba n a m) (512 * lba + o) = m (a + o).
Proof.
  intros Hm Ho. unfold disk_byte. replace (512 * lba + o) with (o + lba * 512) by lia.
  rewrite Z.div_add, Z.mod_add by lia. pose proof (Z.div_mod o 512). pose proof (Z.mod_pos_bound o 512).
  unfold disk_store. assert (0 <= o / 512 < n) by (split; [apply Z.div_pos|apply Z.div_lt_upper_bound]; lia). zguard.
  rewrite read_words_byte by (done || lia). f_equal. lia.
Qed.

Lemma sector_of lba o n : 0 <= o < 512 * n -> lba <= (512 * lba + o) / 512 < lba + n.
Proof.
  intros Ho. replace (512 * lba + o) with (o + lba * 512) by lia. rewrite Z.div_add by lia.
  assert (0 <= o / 512 < n) by (split; [apply Z.div_pos|apply Z.div_lt_upper_bound]; lia). lia.
Qed.

Lemma boot_view_out s f x :
  x < VOLUME1_FAT_ADDRESS \/ VOLUME1_ROOTDIR_ADDRESS + ROOT_BYTES <= x -> boot_view s f x = ram s x.
Proof.
  intros H. unfold boot_view. replace (in_root x) with false; [replace (in_fat x) with false; [done|]|];
    unfold in_root, in_fat, FAT_BYTES, ROOT_BYTES, VOLUME1_FAT_SIZE, VOLUME1_FAT_ADDRESS, VOLUME1_ROOTDIR_ADDRESS in *; lia.
Qed.

(** The bytes of a chain do not depend on the sectors before the data area. *)
Lemma chain_byte_ext f g l o :
  0 <= o < 512 * zlen l -> (forall x, x ∈ l -> f (VOLUME1_DATAAREA_LBA + x - 2) = g (VOLUME1_DATAAREA_LBA + x - 2)) ->
  chain_byte f l o = chain_byte g l o.
Proof.
  intros Ho H. unfold chain_byte. destruct (zlookup_some l (o / 512)) as (x & Ex).
  { fold (zlen l). split; [apply Z.div_pos|apply Z.div_lt_upper_bound]; lia. }
  rewrite Ex. cbn [from_option]. unfold id. by rewrite H by (by eapply zlookup_elem).
Qed.

Lemma free_clusters_NoDup m c n k : NoDup (take k (free_clusters m c n)).
Proof.
  assert (NoDup (free_clusters m c n)) as H by (apply NoDup_filter, NoDup_range).
  rewrite <- (take_drop k (free_clusters m c n)) in H. by apply NoDup_app in H as (H & _).
Qed.

(** What the save leaves: the file in the memory and on the disk. *)
Lemma save_stored s f name nm k size address flag :
  prompt (Z.to_nat 20000) -> prompt fuel -> save_ready s f name nm k size address flag ->
  exists s' f' cl,
    fsSaveFile fuel VOLUME1_FAT_ADDRESS VOLUME1_ROOTDIR_ADDRESS FAT16_ROOT_ENTRIES name (Z.of_nat k) size address flag s =
      Done 0 s' /\
    online s' f' /\ volume_ok s' /\ gNumberOfSectorsInBootDisk s' = gNumberOfSectorsInBootDisk s /\
    g_fat_cache_loaded s' = FAT_CACHE_LOADED /\ g_fat_cache_saved s' = FAT_CACHE_NOT_SAVED /\
    name_at fuel (ram s') name nm /\
    stored (ram s') nm cl size /\ zlen cl = Z.of_nat k /\ (forall x, x ∈ cl -> 3 <= x <= 32770) /\
    (forall x, in_root x = true -> root_byte f' x = ram s' x) /\
    (forall l, VOLUME1_FAT_LBA <= l < VOLUME1_FAT_LBA + VOLUME1_FAT_SIZE -> f' l = f l) /\
    (forall o, 0 <= o < 512 * Z.of_nat k -> chain_byte f' cl o = ram s (address + o)).
Proof.
  intros Hp Hf [Hon Hv Hg Harr Hn Hl Hk Hoff Hflag Hsize Hfree (i & Hi) Hnew].
  destruct (save_file_spec s f name nm k size address flag i Hon Hp Hf Hv Hg Hn Hk Hoff Harr Hfree Hi)
    as (s' & f' & R & Hon' & (M1 & M2 & M3) & Hcl & Hcs & Hram & Hdisk).
  set (v := boot_view s f) in *. set (cl := take k (free_clusters v 3 (Z.to_nat CLUSTERS_TO_SAVE_MAX))) in *.
  assert (zlen cl = Z.of_nat k) as Hlen by (unfold cl, zlen; rewrite length_take; lia).
  assert (forall x, x ∈ cl -> 3 <= x <= 32770) as Hrange by (intros x Hx; by apply (take_cluster_ok s v k)).
  pose proof (boot_view_bytes s f Hon) as Hbv. fold v in Hbv. destruct (free_entry_range _ _ Hi) as (Hir & _).
  destruct (saved_entry v name flag size i cl Hbv Hir Hrange) as (_ & Hrest).
  assert (name_at fuel v name nm) as Hnv.
  { eapply name_kept; [exact Hn|]. intros x. destruct (decide (x < VOLUME1_FAT_ADDRESS \/ VOLUME1_ROOTDIR_ADDRESS + ROOT_BYTES <= x));
      [left; by apply boot_view_out|right; lia]. }
  exists s', f', cl. split; [exact R|]. split; [done|].
  split. { destruct Hv as (V1 & V2 & V3). unfold volume_ok. rewrite M1, M2, M3. done. }
  split; [done|]. split; [done|]. split; [done|]. split; [|split; [|split; [done|split; [done|split; [|split]]]]].
  - eapply name_kept; [exact Hnv|]. intros x. destruct (decide (x < VOLUME1_FAT_ADDRESS \/ VOLUME1_ROOTDIR_ADDRESS + ROOT_BYTES <= x));
      [left|right; lia]. rewrite Hram. unfold saved_memory.
    assert (x < VOLUME1_FAT_ADDRESS \/ VOLUME1_FAT_ADDRESS + 0x20000 <= x) as Hx1.
    { unfold VOLUME1_FAT_ADDRESS, VOLUME1_ROOTDIR_ADDRESS, ROOT_BYTES in *. lia. }
    rewrite link_outside; [|intros y Hy; specialize (Hrange _ Hy); lia|exact Hx1].
    destruct (dir_entry_bytes v name flag (default 0 (head cl)) size Hbv) as (He & Hel).
    rewrite poke_list_spec, Hel by done.
    unfold VOLUME1_FAT_ADDRESS, VOLUME1_ROOTDIR_ADDRESS, ROOT_BYTES in *. repeat ztest; cbn [andb]; done || lia.
  - apply (stored_ext (saved_memory v name flag size i cl)); [lia|intros; apply Hram| |].
    + intros x _. apply load16_ext; apply Hram.
    + apply saved_stored; try done; [apply Hnv| |apply free_clusters_NoDup].
      intros E. rewrite E in Hlen. change (zlen (@nil Z)) with 0 in Hlen. lia.
  - intros x Hx. unfold in_root in Hx.
    assert (x = VOLUME1_ROOTDIR_ADDRESS + (x - VOLUME1_ROOTDIR_ADDRESS)) as Ex by lia.
    unfold root_byte. rewrite (disk_byte_eq f' (disk_store (data_put f cl address (ram s)) VOLUME1_ROOTDIR_LBA 32
      VOLUME1_ROOTDIR_ADDRESS (ram s'))) by apply Hdisk.
    rewrite disk_store_byte; [by rewrite <- Ex|apply (online_ram _ _ Hon')|unfold ROOT_BYTES in Hx; lia].
  - intros l Hl'. rewrite Hdisk. unfold disk_store. case_match eqn:E.
    { unfold VOLUME1_FAT_LBA, VOLUME1_FAT_SIZE, VOLUME1_ROOTDIR_LBA in *. lia. }
    apply data_put_other. intros x Hx. specialize (Hrange _ Hx).
    unfold VOLUME1_FAT_LBA, VOLUME1_FAT_SIZE, VOLUME1_DATAAREA_LBA in *. lia.
  - intros o Ho. rewrite (chain_byte_ext f' (data_put f cl address (ram s))).
    + apply data_put_bytes; [apply (online_ram _ _ Hon)|apply free_clusters_NoDup|by rewrite Hlen].
    + by rewrite Hlen.
    + intros x Hx. rewrite Hdisk. unfold disk_store. case_match eqn:E; [|done]. specialize (Hrange _ Hx).
      unfold VOLUME1_ROOTDIR_LBA, VOLUME1_DATAAREA_LBA in *. lia.
Qed.

(** The flush writes the FAT of the memory to the disk. *)
Lemma flush_cache_spec s f :
  online s f -> prompt (Z.to_nat 20000) -> prompt fuel -> VOLUME1_DATAAREA_LBA <= gNumberOfSectorsInBootDisk s ->
  g_fat_cache_saved s = FAT_CACHE_NOT_SAVED ->
  exists s' f', fs_save_fat16_cache fuel s = Done 0 s' /\ online s' f' /\ ram s' = ram s /\
    g_fat_cache_saved s' = FAT_CACHE_SAVED /\
    forall z, f' z = disk_store f VOLUME1_FAT_LBA VOLUME1_FAT_SIZE VOLUME1_FAT_ADDRESS (ram s) z.
Proof.
  intros Hon Hp Hf Hg Hsv.
  destruct (save_sequence_spec fuel s f _ VOLUME1_FAT_ADDRESS VOLUME1_FAT_LBA VOLUME1_FAT_SIZE Hon Hp Hf eq_refl)
    as (d & b & f' & R & Hon' & Hf'); [done|done|done|done| |].
  { unfold VOLUME1_DATAAREA_LBA, VOLUME1_FAT_LBA, VOLUME1_FAT_SIZE in *. lia. }
  exists ((at_io s (ram s) d b) <| g_fat_cache_saved := FAT_CACHE_SAVED |>), f'.
  split; [|split; [exact Hon'|done]].
  unfold fs_save_fat16_cache. rewrite bind_gets, Hsv. cbn [negb Z.eqb Pos.eqb FAT_CACHE_NOT_SAVED].
  assert (fs_save_fat fuel VOLUME1_FAT_ADDRESS VOLUME1_FAT_LBA VOLUME1_FAT_SIZE s = Done 0 (at_io s (ram s) d b)) as R2.
  { unfold fs_save_fat. change (VOLUME1_FAT_ADDRESS =? 0) with false. change (VOLUME1_FAT_LBA =? 0) with false.
    rewrite Z.eqb_refl. cbn [negb]. by rewrite bind_gets, (bind_Done _ _ _ _ _ R). }
  rewrite (bind_Done _ _ _ _ _ R2). done.
Qed.

(** A word of the FAT in a memory that agrees with [m] in the FAT area. *)
Lemma fat_word_in m m' x :
  (forall a, in_fat a = true -> m' a = m a) -> 3 <= x <= 32770 -> fat_word m' x = fat_word m x.
Proof.
  intros H Hx. apply load16_ext; apply H; unfold in_fat, FAT_BYTES, VOLUME1_FAT_ADDRESS, VOLUME1_FAT_SIZE; lia.
Qed.

Lemma clusters_on_disk s (cl : list Z) :
  VOLUME1_DATAAREA_LBA + 3 + CLUSTERS_TO_SAVE_MAX <= gNumberOfSectorsInBootDisk s ->
  (forall x, x ∈ cl -> 3 <= x <= 32770) ->
  forall y, y ∈ cl -> VOLUME1_DATAAREA_LBA + y - 2 < gNumberOfSectorsInBootDisk s.
Proof. intros Hg H y Hy. specialize (H _ Hy). unfold CLUSTERS_TO_SAVE_MAX in *. lia. Qed.
End Saving.

(** ** Theorems *)
Section Theorems.
Context {D : Type} `{HD : AtaDevice D} (fuel : nat).

(** [C13] A file saved under a new name is what a later load brings back: both
    routines return 0 and the [512 * k] bytes of the buffer are the bytes that
    were saved, for every device that follows the PIO protocol.  Up to the
    load, the FAT on the disk is the one from before the save: the chain is in
    the cache only. *)
Theorem save_then_load (s : storage D) f name nm (k : nat) size address flag buffer limit :
  prompt (Z.to_nat 20000) -> prompt fuel -> save_ready fuel s f name nm k size address flag ->
  size < limit <= 512 * 4096 -> loadable buffer (Z.of_nat k) -> (k <= fuel)%nat ->
  exists s1 s2 f',
    fsSaveFile fuel VOLUME1_FAT_ADDRESS VOLUME1_ROOTDIR_ADDRESS FAT16_ROOT_ENTRIES name (Z.of_nat k) size address flag s =
      Done 0 s1 /\
    fsLoadFile fuel VOLUME1_FAT_ADDRESS VOLUME1_ROOTDIR_ADDRESS FAT16_ROOT_ENTRIES name buffer limit s1 = Done 0 s2 /\
    (forall o, 0 <= o < 512 * Z.of_nat k -> ram s2 (buffer + o) = ram s (address + o)) /\
    online s2 f' /\
    forall l, VOLUME1_FAT_LBA <= l < VOLUME1_FAT_LBA + VOLUME1_FAT_SIZE -> f' l = f l.
Proof.
  intros Hp Hf Hr Hlim Hb Hk. pose proof (sr_sectors _ _ _ _ _ _ _ _ _ Hr) as Hk16.
  destruct (save_stored fuel s f name nm k size address flag Hp Hf Hr)
    as (s1 & f' & cl & R1 & Hon1 & Hv1 & Hg1 & Hcl & _ & Hn1 & Hs1 & Hlen & Hrange & Hroot & Hfat & Hdata).
  destruct (load_in_view fuel s1 f' name nm cl size buffer limit) as (s2 & R2 & Hon2 & Hm2); try done.
  - apply (stored_ext (ram s1)); [rewrite (sr_length _ _ _ _ _ _ _ _ _ Hr); lia| | |done].
    + intros x Hx. unfold boot_view. rewrite Hx. by apply Hroot.
    + intros x Hx. apply fat_word_in; [|by apply Hrange]. intros a Ha. unfold boot_view.
      by rewrite (in_fat_not_root _ Ha), Hcl, andb_false_r.
  - by rewrite Hlen.
  - rewrite Hlen. lia.
  - unfold zlen in Hlen. lia.
  - apply clusters_on_disk; [|done]. rewrite Hg1. apply (sr_room _ _ _ _ _ _ _ _ _ Hr).
  - exists s1, s2, f'. split; [exact R1|]. split; [exact R2|]. split; [|done].
    intros o Ho. rewrite Hm2 by (by rewrite Hlen). by apply Hdata.
Qed.

(** [C14] After the flush of the FAT cache the file survives a reboot: any
    machine with the disk that the save and the flush left, whose caches are
    empty and whose volume is mounted, loads the bytes that were saved. *)
Theorem save_survives_reboot (s : storage D) f name nm (k : nat) size address flag :
  prompt (Z.to_nat 20000) -> prompt fuel -> save_ready fuel s f name nm k size address flag -> (k <= fuel)%nat ->
  exists s1 s2 f2,
    fsSaveFile fuel VOLUME1_FAT_ADDRESS VOLUME1_ROOTDIR_ADDRESS FAT16_ROOT_ENTRIES name (Z.of_nat k) size address flag s =
      Done 0 s1 /\
    fs_save_fat16_cache fuel s1 = Done 0 s2 /\ online s2 f2 /\
    forall (t : storage D) name' buffer limit,
      online t f2 -> volume_ok t -> g_fat_cache_loaded t <> FAT_CACHE_LOADED ->
      gNumberOfSectorsInBootDisk t = gNumberOfSectorsInBootDisk s -> name_at fuel (ram t) name' nm ->
      size < limit <= 512 * 4096 -> loadable buffer (Z.of_nat k) ->
      exists t', fsLoadFile fuel VOLUME1_FAT_ADDRESS VOLUME1_ROOTDIR_ADDRESS FAT16_ROOT_ENTRIES name' buffer limit t =
          Done 0 t' /\
        forall o, 0 <= o < 512 * Z.of_nat k -> ram t' (buffer + o) = ram s (address + o).
Proof.
  intros Hp Hf Hr Hk. pose proof (sr_sectors _ _ _ _ _ _ _ _ _ Hr) as Hk16.
  pose proof (sr_room _ _ _ _ _ _ _ _ _ Hr) as Hroom.
  destruct (save_stored fuel s f name nm k size address flag Hp Hf Hr)
    as (s1 & f1 & cl & R1 & Hon1 & Hv1 & Hg1 & Hcl & Hsv & Hn1 & Hs1 & Hlen & Hrange & Hroot & Hfat & Hdata).
  pose proof (online_ram _ _ Hon1) as Hb1.
  destruct (flush_cache_spec fuel s1 f1 Hon1 Hp Hf) as (s2 & f2 & R2 & Hon2 & _ & _ & Hf2); [apply Hv1|done|].
  exists s1, s2, f2. split; [exact R1|]. split; [exact R2|]. split; [exact Hon2|].
  intros t name' buffer limit Hont Hvt Hct Hgt Hnt Hlim Hb.
  assert (forall z, VOLUME1_ROOTDIR_LBA <= z -> f2 z = f1 z) as Hrest.
  { intros z Hz. rewrite Hf2. unfold disk_store. unfold VOLUME1_FAT_LBA, VOLUME1_FAT_SIZE, VOLUME1_ROOTDIR_LBA in *. by zguard. }
  destruct (load_in_view fuel t f2 name' nm cl size buffer limit) as (t' & R & _ & Hm); try done.
  - apply (stored_ext (ram s1)); [rewrite (sr_length _ _ _ _ _ _ _ _ _ Hr); lia| | |done].
    + intros x Hx. unfold boot_view. rewrite Hx, <- (Hroot x Hx). apply disk_byte_eq, Hrest.
      unfold in_root, ROOT_BYTES in Hx. apply (sector_of _ _ 32). lia.
    + intros x Hx. apply fat_word_in; [|by apply Hrange]. intros a Ha. unfold boot_view.
      rewrite (in_fat_not_root _ Ha), Ha. destruct (Z.eqb_spec (g_fat_cache_loaded t) FAT_CACHE_LOADED); [done|].
      cbn [negb andb]. unfold fat_byte. unfold in_fat, FAT_BYTES in Ha.
      rewrite (disk_byte_eq _ _ _ (Hf2 _)), disk_store_byte by (done || lia). f_equal. lia.
  - by rewrite Hlen.
  - rewrite Hlen. lia.
  - unfold zlen in Hlen. lia.
  - apply clusters_on_disk; [|done]. by rewrite Hgt.
  - exists t'. split; [exact R|]. intros o Ho. rewrite Hm by (by rewrite Hlen). rewrite <- Hdata by done.
    apply chain_byte_ext; [by rewrite Hlen|]. intros x Hx. apply Hrest. specialize (Hrange _ Hx).
    unfold VOLUME1_ROOTDIR_LBA, VOLUME1_DATAAREA_LBA. lia.
Qed.

End Theorems.

(** ** Witnesses *)

(** A blank volume, "INIT    BIN" at 2000, data at 0x100000. *)
Definition save_demo : storage (ata_model 3) := demo_storage 3 names_demo blank_disk.

Lemma two_free m c n :
  fat_word m c = 0 -> fat_word m (c + 1) = 0 -> (1 < n)%nat -> (1 < length (free_clusters m c n))%nat.
Proof.
  intros H1 H2 Hn. destruct n as [|[|n]]; [lia|lia|]. rewrite !free_clusters_S, H1, H2. cbn [Z.eqb length]. lia.
Qed.

Lemma save_demo_ready : save_ready 3000 save_demo blank_disk 2000 [73; 78; 73; 84; 32; 32; 32; 32; 66; 73; 78] 1 500 0x100000 0x20.
Proof.
  constructor.
  - apply demo_online; [apply names_demo_bytes|apply blank_disk_sectors].
  - apply save_demo_volume.
  - done.
  - by vm_compute.
  - exact save_demo_name.
  - done.
  - lia.
  - unfold off_caches, VOLUME1_FAT_ADDRESS, VOLUME1_ROOTDIR_ADDRESS, ROOT_BYTES. lia.
  - done.
  - lia.
  - apply two_free; [by vm_compute|by vm_compute|unfold CLUSTERS_TO_SAVE_MAX; lia].
  - exists 0. by vm_compute.
  - by vm_compute.
Qed.

Lemma save_then_load_witness :
  exists s1 s2 f',
    fsSaveFile 3000 VOLUME1_FAT_ADDRESS VOLUME1_ROOTDIR_ADDRESS FAT16_ROOT_ENTRIES 2000 1 500 0x100000 0x20 save_demo =
      Done 0 s1 /\
    fsLoadFile 3000 VOLUME1_FAT_ADDRESS VOLUME1_ROOTDIR_ADDRESS FAT16_ROOT_ENTRIES 2000 0x200000 512 s1 = Done 0 s2 /\
    (forall o, 0 <= o < 512 -> ram s2 (0x200000 + o) = ram save_demo (0x100000 + o)) /\
    online s2 f' /\
    forall l, VOLUME1_FAT_LBA <= l < VOLUME1_FAT_LBA + VOLUME1_FAT_SIZE -> f' l = blank_disk l.
Proof.
  apply (save_then_load 3000 save_demo blank_disk 2000 [73; 78; 73; 84; 32; 32; 32; 32; 66; 73; 78] 1 500 0x100000 0x20
    0x200000 512).
  - exact driver_prompt.
  - exact fuel_prompt.
  - exact save_demo_ready.
  - lia.
  - apply (demo_loadable 1). lia.
  - lia.
Defined.

Lemma save_survives_reboot_witness :
  exists s1 s2 f2,
    fsSaveFile 3000 VOLUME1_FAT_ADDRESS VOLUME1_ROOTDIR_ADDRESS FAT16_ROOT_ENTRIES 2000 1 500 0x100000 0x20 save_demo =
      Done 0 s1 /\
    fs_save_fat16_cache 3000 s1 = Done 0 s2 /\ online s2 f2 /\
    exists t', fsLoadFile 3000 VOLUME1_FAT_ADDRESS VOLUME1_ROOTDIR_ADDRESS FAT16_ROOT_ENTRIES 2000 0x200000 512
        (demo_storage 3 names_demo f2) = Done 0 t' /\
      forall o, 0 <= o < 512 -> ram t' (0x200000 + o) = ram save_demo (0x100000 + o).
Proof.
  destruct (save_survives_reboot 3000 save_demo blank_disk 2000 [73; 78; 73; 84; 32; 32; 32; 32; 66; 73; 78] 1 500
    0x100000 0x20 driver_prompt fuel_prompt save_demo_ready) as (s1 & s2 & f2 & R1 & R2 & Hon & H); [lia|].
  exists s1, s2, f2. split; [exact R1|]. split; [exact R2|]. split; [exact Hon|].
  apply (H (demo_storage 3 names_demo f2) 2000 0x200000 512).
  - apply demo_online; [apply names_demo_bytes|]. intros l. by apply (online_sector s2).
  - apply save_demo_volume.
  - done.
  - done.
  - exact save_demo_name.
  - lia.
  - apply (demo_loadable 1). lia.
Defined.

