(* ===== verification/Paging.v ===== *)
(** * Paging: the page tables

    res/mm/x86_64/x64mm.c and paging.c, res/mm/mmft.c, mmsize.c and slab.c: the
    four levels of tables, the regions that the kernel maps when it starts, the
    tables that are cloned for a process, the frame table and the slab pool.
    The tables lie in the first 2 MB, whose virtual and physical addresses are
    equal: an entry is a word of the memory at its address. *)
From Stdlib Require Import ZArith Lia.
From stdpp Require Import base gmap list strings.
From S2P Require Import Config Prelude Strings Memory Process Samples Heap.

#[local] Open Scope Z_scope.
#[local] Open Scope gramado_scope.

(** ** x64gpa.h, x64gva.h, paging.h, mmft.h, mmsize.h *)
Definition PAGE_PRESENT : Z := 1.
Definition PAGE_WRITE : Z := 2.
Definition PAGE_USER : Z := 4.
Definition TABLE_POINTER_HEAP_BASE : Z := 0x1000.
Definition FAT_ADDRESS : Z := 0x30000.
Definition KERNEL_PD_PA : Z := 0x9A000.
Definition KERNEL_PDPT_PA : Z := 0x9B000.
Definition KERNEL_PML4_PA : Z := 0x9C000.
Definition KERNEL_PML4_VA : Z := 0x9C000.
Definition SYSTEM_ORIGIN : Z := 0.
Definition KERNEL_BASE_PA : Z := 0x100000.
Definition USER_BASE_PA : Z := 0x2000000.
Definition CGA_PA : Z := 0xB8000.
Definition BACKBUFFER_PA : Z := 0x4000000.
Definition HEAPPOOL_PA : Z := 0x1000000.
Definition EXTRAHEAP1_PA : Z := 0x1200000.
Definition EXTRAHEAP2_PA : Z := 0x1400000.
Definition EXTRAHEAP3_PA : Z := 0x1600000.
Definition PAGEDPOOL1_PA : Z := 0x1800000.
Definition FRAMETABLE_START_PA : Z := 0x8000000.
Definition FRAMETABLE_END_PA : Z := 0xF800000.
Definition FT_NUMBER_OF_SYSTEM_FRAMES : Z := 512.
Definition FT_NUMBER_OF_USER_FRAMES : Z := 512.
Definition FT_TOTAL_FRAMES : Z := FT_NUMBER_OF_SYSTEM_FRAMES + FT_NUMBER_OF_USER_FRAMES.
Definition RING0AREA_VA : Z := 0.
Definition RING3AREA_VA : Z := 0x200000.
Definition KERNELIMAGE_VA : Z := 0x30000000.
Definition PAGEDPOOL_VA : Z := 0x30600000.
Definition HEAPPOOL_VA : Z := 0x30800000.
Definition EXTRAHEAP1_VA : Z := 0x30A00000.
Definition EXTRAHEAP2_VA : Z := 0x30C00000.
Definition EXTRAHEAP3_VA : Z := 0x30E00000.
Definition G_DEFAULT_PROCESSHEAP_SIZE : Z := 32 * 1024.
Definition G_DEFAULT_PROCESSHEAP_COUNTMAX : Z := 64.
Definition SMALLSYSTEM_SIZE_KB : Z := 255 * 1024.
Definition MEDIUMSYSTEM_SIZE_KB : Z := 511 * 1024.
Definition LARGESYSTEM_SIZE_KB : Z := 1023 * 1024.
Definition X64_GET_PDE_INDEX (va : Z) : Z := Z.land (Z.shiftr (u32 va) 21) 0x1FF.

(** ** Data *)

(** The MM_COMPONENT names that index paList and vaList, and the static
    variables of paging.c. *)
Inductive mm_component :=
  | SYSTEM_ORIGIN_C | KERNEL_BASE_C | USER_BASE_C | CGA_C | FRONTBUFFER_C | BACKBUFFER_C
  | PAGEDPOOL_C | HEAPPOOL_C | EXTRAHEAP1_C | EXTRAHEAP2_C | EXTRAHEAP3_C.

#[export] Instance mm_component_eq : EqDecision mm_component.
Proof. solve_decision. Defined.

(** An array indexed by component, with one place changed. *)
Definition upd {A} (c : mm_component) (v : A) (f : mm_component -> A) : mm_component -> A :=
  fun x => if decide (x = c) then v else f x.

Inductive mm_system_type_t := stNull | stSmallSystem | stMediumSystem | stLargeSystem.

Record mm_data_d := mk_mm_data {
  mm_used_flag : Z; mm_magic : Z;
  pml4_va : Z; pml4_pa : Z; pdpt0_va : Z; pdpt0_pa : Z; pd0_va : Z; pd0_pa : Z
}.

(** struct frame_table_d, without the arrays of frames, which nothing uses. *)
Record frame_table_d := mk_frame_table {
  ft_used : Z; ft_magic : Z; ft_initialized : Z;
  start_pa : Z; end_pa : Z;
  size_in_bytes : Z; size_in_kb : Z; size_in_mb : Z; size_in_frames : Z;
  number_of_system_frames : Z; number_of_user_frames : Z;
  number_of_used_frames : Z; number_of_reserved_frames : Z
}.

#[export] Instance eta_frame_table : Eta frame_table_d := fun r =>
  mk_frame_table (ft_used r) (ft_magic r) (ft_initialized r) (start_pa r) (end_pa r)
    (size_in_bytes r) (size_in_kb r) (size_in_mb r) (size_in_frames r)
    (number_of_system_frames r) (number_of_user_frames r) (number_of_used_frames r)
    (number_of_reserved_frames r).
#[export] Instance set_ft_used : Setter ft_used. Proof. solve_setter. Defined.
#[export] Instance set_ft_magic : Setter ft_magic. Proof. solve_setter. Defined.
#[export] Instance set_ft_initialized : Setter ft_initialized. Proof. solve_setter. Defined.
#[export] Instance set_start_pa : Setter start_pa. Proof. solve_setter. Defined.
#[export] Instance set_end_pa : Setter end_pa. Proof. solve_setter. Defined.
#[export] Instance set_size_in_bytes : Setter size_in_bytes. Proof. solve_setter. Defined.
#[export] Instance set_size_in_kb : Setter size_in_kb. Proof. solve_setter. Defined.
#[export] Instance set_size_in_mb : Setter size_in_mb. Proof. solve_setter. Defined.
#[export] Instance set_size_in_frames : Setter size_in_frames. Proof. solve_setter. Defined.
#[export] Instance set_number_of_system_frames : Setter number_of_system_frames. Proof. solve_setter. Defined.
#[export] Instance set_number_of_user_frames : Setter number_of_user_frames. Proof. solve_setter. Defined.
#[export] Instance set_number_of_used_frames : Setter number_of_used_frames. Proof. solve_setter. Defined.
#[export] Instance set_number_of_reserved_frames : Setter number_of_reserved_frames. Proof. solve_setter. Defined.

(** struct newpagedpool_d of slab.c *)
Record newpagedpool_d := mk_newpagedpool {
  np_initialized : Z; a1_va : Z; a2_va : Z; b1_va : Z; b2_va : Z; np_Free : list Z
}.

#[export] Instance eta_newpagedpool : Eta newpagedpool_d := fun r =>
  mk_newpagedpool (np_initialized r) (a1_va r) (a2_va r) (b1_va r) (b2_va r) (np_Free r).
#[export] Instance set_np_initialized : Setter np_initialized. Proof. solve_setter. Defined.
#[export] Instance set_a1_va : Setter a1_va. Proof. solve_setter. Defined.
#[export] Instance set_a2_va : Setter a2_va. Proof. solve_setter. Defined.
#[export] Instance set_b1_va : Setter b1_va. Proof. solve_setter. Defined.
#[export] Instance set_b2_va : Setter b2_va. Proof. solve_setter. Defined.
#[export] Instance set_np_Free : Setter np_Free. Proof. solve_setter. Defined.

(** struct page_d of x64mm.h *)
Record page_d := mk_page {
  pg_id : Z; pg_used : Z; pg_magic : Z; absolute_frame_number : Z;
  pg_locked : Z; pg_free : Z; ref_count : Z; pg_next : Z
}.

#[export] Instance eta_page : Eta page_d := fun r =>
  mk_page (pg_id r) (pg_used r) (pg_magic r) (absolute_frame_number r) (pg_locked r) (pg_free r) (ref_count r) (pg_next r).
#[export] Instance set_pg_id : Setter pg_id. Proof. solve_setter. Defined.
#[export] Instance set_pg_used : Setter pg_used. Proof. solve_setter. Defined.
#[export] Instance set_pg_magic : Setter pg_magic. Proof. solve_setter. Defined.
#[export] Instance set_absolute_frame_number : Setter absolute_frame_number. Proof. solve_setter. Defined.
#[export] Instance set_pg_locked : Setter pg_locked. Proof. solve_setter. Defined.
#[export] Instance set_pg_free : Setter pg_free. Proof. solve_setter. Defined.
#[export] Instance set_ref_count : Setter ref_count. Proof. solve_setter. Defined.
#[export] Instance set_pg_next : Setter pg_next. Proof. solve_setter. Defined.

(** The globals of the memory manager, with the kernel heap (and its memory and
    process table) of mm.c. *)
Record pgst := mk_pgst {
  kh : mst;
  table_pointer_heap_base : Z;
  gKernelPML4Address : Z;
  cr3 : Z;
  kernel_mm_data : mm_data_d;
  gSavedLFB : Z;
  SMALL_pa : mm_component -> Z;
  MEDIUM_pa : mm_component -> Z;
  LARGE_pa : mm_component -> Z;
  paList : mm_component -> Z;
  vaList : mm_component -> Z;
  g_va : mm_component -> Z;             (** g_ring0area_va, g_pagedpool_va, ... *)
  g_pa : mm_component -> Z;             (** g_frontbuffer_pa, g_backbuffer_pa *)
  mm_used : mm_component -> Z;          (** mm_used_ring0_area, ...; the front buffer's is mm_used_lfb *)
  mm_used_frame_table : Z;
  extraheap_size : mm_component -> Z;
  extraheap_initialized : mm_component -> Z;
  g_heap_count : Z;
  g_heap_count_max : Z;
  g_heap_size : Z;
  memorysizeBaseMemoryViaCMOS : Z;
  memorysizeBaseMemory : Z;
  memorysizeOtherMemory : Z;
  memorysizeExtendedMemory : Z;
  memorysizeTotal : Z;
  memorysizeUsed : Z;
  memorysizeFree : Z;
  MemorySizeInfo_initialized : Z;
  g_mm_system_type : mm_system_type_t;
  FT : frame_table_d;
  NewPagedPool : newpagedpool_d;
  pageAllocList : list Z;
  page_structs : gmap Z page_d
}.

#[export] Instance eta_pgst : Eta pgst := fun r =>
  mk_pgst (kh r) (table_pointer_heap_base r) (gKernelPML4Address r) (cr3 r) (kernel_mm_data r) (gSavedLFB r)
    (SMALL_pa r) (MEDIUM_pa r) (LARGE_pa r) (paList r) (vaList r) (g_va r) (g_pa r) (mm_used r)
    (mm_used_frame_table r) (extraheap_size r) (extraheap_initialized r) (g_heap_count r)
    (g_heap_count_max r) (g_heap_size r) (memorysizeBaseMemoryViaCMOS r) (memorysizeBaseMemory r)
    (memorysizeOtherMemory r) (memorysizeExtendedMemory r) (memorysizeTotal r) (memorysizeUsed r)
    (memorysizeFree r) (MemorySizeInfo_initialized r) (g_mm_system_type r) (FT r) (NewPagedPool r)
    (pageAllocList r) (page_structs r).
#[export] Instance set_kh : Setter kh. Proof. solve_setter. Defined.
#[export] Instance set_table_pointer_heap_base : Setter table_pointer_heap_base. Proof. solve_setter. Defined.
#[export] Instance set_gKernelPML4Address : Setter gKernelPML4Address. Proof. solve_setter. Defined.
#[export] Instance set_cr3 : Setter cr3. Proof. solve_setter. Defined.
#[export] Instance set_kernel_mm_data : Setter kernel_mm_data. Proof. solve_setter. Defined.
#[export] Instance set_gSavedLFB : Setter gSavedLFB. Proof. solve_setter. Defined.
#[export] Instance set_SMALL_pa : Setter SMALL_pa. Proof. solve_setter. Defined.
#[export] Instance set_MEDIUM_pa : Setter MEDIUM_pa. Proof. solve_setter. Defined.
#[export] Instance set_LARGE_pa : Setter LARGE_pa. Proof. solve_setter. Defined.
#[export] Instance set_paList : Setter paList. Proof. solve_setter. Defined.
#[export] Instance set_vaList : Setter vaList. Proof. solve_setter. Defined.
#[export] Instance set_g_va : Setter g_va. Proof. solve_setter. Defined.
#[export] Instance set_g_pa : Setter g_pa. Proof. solve_setter. Defined.
#[export] Instance set_mm_used : Setter mm_used. Proof. solve_setter. Defined.
#[export] Instance set_mm_used_frame_table : Setter mm_used_frame_table. Proof. solve_setter. Defined.
#[export] Instance set_extraheap_size : Setter extraheap_size. Proof. solve_setter. Defined.
#[export] Instance set_extraheap_initialized : Setter extraheap_initialized. Proof. solve_setter. Defined.
#[export] Instance set_g_heap_count : Setter g_heap_count. Proof. solve_setter. Defined.
#[export] Instance set_g_heap_count_max : Setter g_heap_count_max. Proof. solve_setter. Defined.
#[export] Instance set_g_heap_size : Setter g_heap_size. Proof. solve_setter. Defined.
#[export] Instance set_memorysizeBaseMemoryViaCMOS : Setter memorysizeBaseMemoryViaCMOS. Proof. solve_setter. Defined.
#[export] Instance set_memorysizeBaseMemory : Setter memorysizeBaseMemory. Proof. solve_setter. Defined.
#[export] Instance set_memorysizeOtherMemory : Setter memorysizeOtherMemory. Proof. solve_setter. Defined.
#[export] Instance set_memorysizeExtendedMemory : Setter memorysizeExtendedMemory. Proof. solve_setter. Defined.
#[export] Instance set_memorysizeTotal : Setter memorysizeTotal. Proof. solve_setter. Defined.
#[export] Instance set_memorysizeUsed : Setter memorysizeUsed. Proof. solve_setter. Defined.
#[export] Instance set_memorysizeFree : Setter memorysizeFree. Proof. solve_setter. Defined.
#[export] Instance set_MemorySizeInfo_initialized : Setter MemorySizeInfo_initialized. Proof. solve_setter. Defined.
#[export] Instance set_g_mm_system_type : Setter g_mm_system_type. Proof. solve_setter. Defined.
#[export] Instance set_FT : Setter FT. Proof. solve_setter. Defined.
#[export] Instance set_NewPagedPool : Setter NewPagedPool. Proof. solve_setter. Defined.
#[export] Instance set_pageAllocList : Setter pageAllocList. Proof. solve_setter. Defined.
#[export] Instance set_page_structs : Setter page_structs. Proof. solve_setter. Defined.

#[local] Abbreviation K := (M pgst).

(** ** Entries of the tables *)

Definition entry (m : memory) (table i : Z) : Z := load64 m (table + 8 * i).
Definition frame (e : Z) : Z := Z.land e 0xFFFFFFFFF000.

Definition on_ram (f : memory -> memory) (s : pgst) : pgst :=
  s <| kh := (kh s) <| mem := f (mem (kh s)) |> |>.
Definition ram_of (s : pgst) : memory := mem (kh s).

(** ** x64mm.c *)

(** The walk through the four tables; no level looks at the present bit. *)
Definition walk (m : memory) (va pml4 : Z) : Z :=
  let a := Z.land (Z.shiftr va 39) 0x1FF in
  let b := Z.land (Z.shiftr va 30) 0x1FF in
  let d := Z.land (Z.shiftr va 21) 0x1FF in
  let t := Z.land (Z.shiftr va 12) 0x1FF in
  let o := Z.land va 0xFFF in
  let ptpt := frame (entry m pml4 a) in
  let dir := frame (entry m ptpt b) in
  let pt := frame (entry m dir d) in
  u64 (frame (entry m pt t) + o).

(** The routine stops in an endless loop for an address over 1 GB. *)
Definition __virtual_to_physical (virtual_address pml4_va : Z) : K Z :=
  if negb (Z.land (Z.shiftr virtual_address 39) 0x1FF =? 0) then diverge
  else if negb (Z.land (Z.shiftr virtual_address 30) 0x1FF =? 0) then diverge
  else if pml4_va =? 0 then panic "__virtual_to_physical: [FAIL] Invalid pml4_va"
  else gets (fun s => walk (ram_of s) virtual_address pml4_va).

Definition virtual_to_physical (virtual_address pml4_va : Z) : K Z :=
  __virtual_to_physical virtual_address pml4_va.

(** [pt[i] = pa | flags; pa = pa + 4096], [i] from 0 to 511. *)
Fixpoint fill_entries (n : nat) (pt pa flags : Z) (m : memory) : memory :=
  match n with
  | O => m
  | S n => fill_entries n (pt + 8) (u64 (pa + 4096)) flags (store64 pt (Z.lor pa flags) m)
  end.

Definition mm_fill_page_table (directory_va directory_entry pt_va region_2mb_pa flags : Z) : K Z :=
  if (directory_entry <? 0) || (512 <=? directory_entry) then mret (-1)
  else
    modify (on_ram (fill_entries 512 pt_va region_2mb_pa flags));;
    modify (on_ram (store64 (directory_va + 8 * directory_entry) pt_va));;
    modify (fun s => on_ram (store64 (directory_va + 8 * directory_entry)
                               (Z.lor (entry (ram_of s) directory_va directory_entry) flags)) s);;
    mret 0.

Definition load_pml4_table (phy_addr : Z) : K unit := modify (fun s => s <| cr3 := phy_addr |>).
Definition x64mm_load_pml4_table (phy_addr : Z) : K unit := modify (fun s => s <| cr3 := phy_addr |>).

(** ** paging.c: tables *)

Definition CreateAndIntallPageTable (pml4 pml4_index pdpt pdpt_index pd pd_index region_pa : Z) : K Z :=
  panic "CreateAndIntallPageTable: suspended".

Definition get_new_frame : K Z := panic "get_new_frame: [FIXME] This is a work in progress".
Definition alloc_frame : K Z := panic "alloc_frame: [FIXME] This is a work in progress".

Definition get_table_pointer_va : K Z :=
  modify (fun s => s <| table_pointer_heap_base := u64 (table_pointer_heap_base s + 0x1000) |>);;
  base ← gets table_pointer_heap_base;
  if FAT_ADDRESS <=? base then panic "get_table_pointer_va: [FIXME] Limits" else mret base.

(** [dst[i] = src[i]], [i] from 0 to 511. *)
Fixpoint copy_entries (n : nat) (dst src : Z) (m : memory) : memory :=
  match n with
  | O => m
  | S n => copy_entries n (dst + 8) (src + 8) (store64 dst (load64 m src) m)
  end.

Definition CloneKernelPDPT0 : K Z :=
  dst ← get_table_pointer_va;
  if dst =? 0 then panic "CloneKernelPDPT0: destAddressVA" else
  src ← gets (fun s => pdpt0_va (kernel_mm_data s));
  modify (on_ram (copy_entries 512 dst src));;
  mret dst.

Definition CloneKernelPD0 : K Z :=
  dst ← get_table_pointer_va;
  if dst =? 0 then panic "CloneKernelPD0: destAddressVA" else
  src ← gets (fun s => pd0_va (kernel_mm_data s));
  modify (on_ram (copy_entries 512 dst src));;
  mret dst.

Definition CloneKernelPML4 : K Z :=
  dst ← get_table_pointer_va;
  if dst =? 0 then panic "CloneKernelPML4: destAddressVA" else
  src ← gets gKernelPML4Address;
  modify (on_ram (copy_entries 512 dst src));;
  mret dst.

Definition clone_pml4 (src : Z) : K Z :=
  if src =? 0 then panic "clone_pml4: pml4_va" else
  dst ← get_table_pointer_va;
  if dst =? 0 then panic "clone_pml4: destAddressVA" else
  modify (on_ram (copy_entries 512 dst src));;
  mret dst.

Definition isValidPageStruct (p : Z) : Z := if p =? NULL then TRUE else FALSE.

Definition deref_page (p : Z) : K page_d := getsome (fun s => page_structs s !! p).
Definition update_page (p : Z) (f : page_d -> page_d) : K unit :=
  x ← deref_page p;
  modify (fun s => s <| page_structs := <[p := f x]> (page_structs s) |>).

Definition freePage (p : Z) : K unit :=
  if p =? NULL then mret tt else
  x ← deref_page p;
  if (pg_used x =? TRUE) && (pg_magic x =? 1234)
  then update_page p (fun x => x <| pg_free := TRUE |>) else mret tt.

Definition notfreePage (p : Z) : K unit :=
  if p =? NULL then mret tt else
  x ← deref_page p;
  if (pg_used x =? 1) && (pg_magic x =? 1234)
  then update_page p (fun x => x <| pg_free := 0 |>) else mret tt.

Definition mm_is_page_aligned_va (va : Z) : Z := if Z.land va 0xFFF =? 0 then TRUE else FALSE.

(** ** paging.c: the regions *)

Definition set_pa_va (c : mm_component) (pa va : Z) (s : pgst) : pgst :=
  s <| paList := upd c pa (paList s) |> <| vaList := upd c va (vaList s) |> <| g_va := upd c va (g_va s) |>.

Definition __initialize_ram_usage_varables : K unit :=
  modify (fun s => s <| memorysizeUsed := 0 |> <| memorysizeFree := 0 |>
    <| mm_used := fun c => if decide (c = FRONTBUFFER_C) then mm_used s c else 0 |>
    <| mm_used_frame_table := 0 |>).

Definition canonical_pa (lfb : Z) (c : mm_component) : Z :=
  match c with
  | SYSTEM_ORIGIN_C => SYSTEM_ORIGIN | KERNEL_BASE_C => KERNEL_BASE_PA | USER_BASE_C => USER_BASE_PA
  | CGA_C => CGA_PA | FRONTBUFFER_C => lfb | BACKBUFFER_C => BACKBUFFER_PA
  | PAGEDPOOL_C => PAGEDPOOL1_PA | HEAPPOOL_C => HEAPPOOL_PA
  | EXTRAHEAP1_C => EXTRAHEAP1_PA | EXTRAHEAP2_C => EXTRAHEAP2_PA | EXTRAHEAP3_C => EXTRAHEAP3_PA
  end.

Definition __initialize_canonical_physical_regions : K unit :=
  modify (fun s => s <| SMALL_pa := canonical_pa (gSavedLFB s) |>
    <| MEDIUM_pa := canonical_pa (gSavedLFB s) |> <| LARGE_pa := canonical_pa (gSavedLFB s) |>).

Definition __initialize_ring0area : K unit :=
  pt ← get_table_pointer_va;
  modify (set_pa_va SYSTEM_ORIGIN_C SYSTEM_ORIGIN RING0AREA_VA);;
  modify (fun s => s <| mm_used := upd SYSTEM_ORIGIN_C (1024 * 1) (mm_used s) |>);;
  mm_fill_page_table KERNEL_PD_PA (X64_GET_PDE_INDEX RING0AREA_VA) pt SYSTEM_ORIGIN (Z.lor PAGE_WRITE PAGE_PRESENT);;
  mret tt.

Definition __initialize_ring3area : K unit :=
  pt ← get_table_pointer_va;
  modify (set_pa_va USER_BASE_C USER_BASE_PA RING3AREA_VA);;
  modify (fun s => s <| mm_used := upd USER_BASE_C (1024 * 2) (mm_used s) |>);;
  mm_fill_page_table KERNEL_PD_PA (X64_GET_PDE_INDEX RING3AREA_VA) pt USER_BASE_PA
    (Z.lor (Z.lor PAGE_USER PAGE_WRITE) PAGE_PRESENT);;
  mret tt.

Definition __initialize_kernelimage_region : K unit :=
  pt ← get_table_pointer_va;
  modify (set_pa_va KERNEL_BASE_C KERNEL_BASE_PA KERNELIMAGE_VA);;
  modify (fun s => s <| mm_used := upd KERNEL_BASE_C (1024 * 2) (mm_used s) |>);;
  mm_fill_page_table KERNEL_PD_PA (X64_GET_PDE_INDEX KERNELIMAGE_VA) pt KERNEL_BASE_PA (Z.lor PAGE_WRITE PAGE_PRESENT);;
  mret tt.

Definition __initialize_frontbuffer : K unit :=
  pt ← get_table_pointer_va;
  pa ← gets (fun s => SMALL_pa s FRONTBUFFER_C);
  modify (set_pa_va FRONTBUFFER_C pa FRONTBUFFER_VA);;
  modify (fun s => s <| g_pa := upd FRONTBUFFER_C pa (g_pa s) |>
    <| mm_used := upd FRONTBUFFER_C (1024 * 2) (mm_used s) |>);;
  mm_fill_page_table KERNEL_PD_PA (X64_GET_PDE_INDEX FRONTBUFFER_VA) pt pa
    (Z.lor (Z.lor PAGE_USER PAGE_WRITE) PAGE_PRESENT);;
  mret tt.

Definition __initialize_backbuffer : K unit :=
  pt ← get_table_pointer_va;
  pa ← gets (fun s => SMALL_pa s BACKBUFFER_C);
  modify (set_pa_va BACKBUFFER_C pa BACKBUFFER_VA);;
  modify (fun s => s <| g_pa := upd BACKBUFFER_C pa (g_pa s) |>
    <| mm_used := upd BACKBUFFER_C (1024 * 2) (mm_used s) |>);;
  mm_fill_page_table KERNEL_PD_PA (X64_GET_PDE_INDEX BACKBUFFER_VA) pt pa
    (Z.lor (Z.lor PAGE_USER PAGE_WRITE) PAGE_PRESENT);;
  mret tt.

Definition __initialize_pagedpool : K unit :=
  pt ← get_table_pointer_va;
  pa ← gets (fun s => SMALL_pa s PAGEDPOOL_C);
  modify (set_pa_va PAGEDPOOL_C pa PAGEDPOOL_VA);;
  modify (fun s => s <| mm_used := upd PAGEDPOOL_C (1024 * 2) (mm_used s) |>);;
  mm_fill_page_table KERNEL_PD_PA (X64_GET_PDE_INDEX PAGEDPOOL_VA) pt pa
    (Z.lor (Z.lor PAGE_USER PAGE_WRITE) PAGE_PRESENT);;
  mret tt.

(** The page directory is always the kernel's, the flags always 0x1B. *)
Definition mm_map_2mb_region (pa va : Z) : K Z :=
  pt ← get_table_pointer_va;
  if pt =? NULL then mret (-1) else
  let pdindex := X64_GET_PDE_INDEX va in
  if pdindex <? 0 then mret (-1) else
  if 512 <=? pdindex then mret (-1) else
  mm_fill_page_table KERNEL_PD_PA pdindex pt pa 0x1B;;
  mret 0.

Definition __initialize_heappool : K unit :=
  pt ← get_table_pointer_va;
  pa ← gets (fun s => SMALL_pa s HEAPPOOL_C);
  modify (set_pa_va HEAPPOOL_C pa HEAPPOOL_VA);;
  modify (fun s => s <| mm_used := upd HEAPPOOL_C (1024 * 2) (mm_used s) |>
    <| g_heap_count := 0 |> <| g_heap_count_max := G_DEFAULT_PROCESSHEAP_COUNTMAX |>
    <| g_heap_size := G_DEFAULT_PROCESSHEAP_SIZE |>);;
  mm_fill_page_table KERNEL_PD_PA (X64_GET_PDE_INDEX HEAPPOOL_VA) pt pa
    (Z.lor (Z.lor PAGE_USER PAGE_WRITE) PAGE_PRESENT);;
  mret tt.

Definition set_extraheap (c : mm_component) (s : pgst) : pgst :=
  s <| extraheap_size := upd c (1024 * 2) (extraheap_size s) |> <| mm_used := upd c (1024 * 2) (mm_used s) |>.
Definition extraheap_ready (c : mm_component) (s : pgst) : pgst :=
  s <| extraheap_initialized := upd c TRUE (extraheap_initialized s) |>.

Definition __initialize_extraheap1 : K unit :=
  pt ← get_table_pointer_va;
  pa ← gets (fun s => SMALL_pa s EXTRAHEAP1_C);
  modify (set_pa_va EXTRAHEAP1_C pa EXTRAHEAP1_VA);;
  modify (set_extraheap EXTRAHEAP1_C);;
  mm_fill_page_table KERNEL_PD_PA (X64_GET_PDE_INDEX EXTRAHEAP1_VA) pt pa (Z.lor PAGE_WRITE PAGE_PRESENT);;
  modify (extraheap_ready EXTRAHEAP1_C).

Definition __initialize_extraheap2 : K unit :=
  pt ← get_table_pointer_va;
  pa ← gets (fun s => SMALL_pa s EXTRAHEAP2_C);
  modify (set_pa_va EXTRAHEAP2_C pa EXTRAHEAP2_VA);;
  modify (set_extraheap EXTRAHEAP2_C);;
  mm_fill_page_table KERNEL_PD_PA (X64_GET_PDE_INDEX EXTRAHEAP2_VA) pt pa
    (Z.lor (Z.lor PAGE_USER PAGE_WRITE) PAGE_PRESENT);;
  modify (extraheap_ready EXTRAHEAP2_C).

Definition __initialize_extraheap3 : K unit :=
  pt ← get_table_pointer_va;
  pa ← gets (fun s => SMALL_pa s EXTRAHEAP3_C);
  modify (set_pa_va EXTRAHEAP3_C pa EXTRAHEAP3_VA);;
  modify (set_extraheap EXTRAHEAP3_C);;
  mm_fill_page_table KERNEL_PD_PA (X64_GET_PDE_INDEX EXTRAHEAP3_VA) pt pa
    (Z.lor (Z.lor PAGE_USER PAGE_WRITE) PAGE_PRESENT);;
  modify (extraheap_ready EXTRAHEAP3_C).

(** ** slab.c *)

Definition slab_initialize : K unit :=
  modify (fun s => s <| NewPagedPool := (NewPagedPool s) <| np_initialized := FALSE |> |>);;
  s ← gets id;
  if (g_va s EXTRAHEAP2_C =? 0) || (g_va s EXTRAHEAP3_C =? 0) then panic "slab_initialize: address" else
  modify (fun s => s <| NewPagedPool :=
    mk_newpagedpool TRUE (g_va s EXTRAHEAP2_C) (u64 (g_va s EXTRAHEAP2_C + 1024 * 1024))
      (g_va s EXTRAHEAP3_C) (u64 (g_va s EXTRAHEAP3_C + 1024 * 1024)) [TRUE; TRUE; TRUE; TRUE] |>).

Definition on_heap {A} (m : M mst A) : K A := fun s =>
  match m (kh s) with
  | Done a h => Done a (s <| kh := h |>)
  | Panic msg => Panic msg
  | Undef => Undef
  | Leave h => Leave (s <| kh := h |>)
  | OutOfFuel => OutOfFuel
  end.

(** The block [i] of the pool at [va] goes to the process. *)
Definition take_slab (process i va : Z) : K Z :=
  modify (fun s => s <| NewPagedPool := (NewPagedPool s) <| np_Free := zinsert (np_Free (NewPagedPool s)) i FALSE |> |>);;
  on_heap (on_mptab (update_process process (fun p =>
    p <| p_allocated_memory := u64 (p_allocated_memory p + 1 * 1024 * 1024) |>)));;
  mret va.

Definition slab_1MB_allocator : K Z :=
  ini ← gets (fun s => np_initialized (NewPagedPool s));
  if negb (ini =? TRUE) then mret NULL else
  process ← on_heap (on_mptab get_current_process_pointer);
  if process =? NULL then panic "slab_1MB_allocator: process" else
  p ← on_heap (on_mptab (deref_process process));
  if negb (p_magic p =? 1234) then panic "slab_1MB_allocator: process validation" else
  pool ← gets NewPagedPool;
  let free i := default FALSE (zlookup (np_Free pool) i) =? TRUE in
  if free 0 then take_slab process 0 (a1_va pool)
  else if free 1 then take_slab process 1 (a2_va pool)
  else if free 2 then take_slab process 2 (b1_va pool)
  else if free 3 then take_slab process 3 (b2_va pool)
  else mret NULL.

(** ** mmft.c *)

Definition on_FT (f : frame_table_d -> frame_table_d) : K unit := modify (fun s => s <| FT := f (FT s) |>).

(** The end of the table, by the size of the memory. *)
Definition frame_table_end (total : Z) : K unit :=
  if 1024 * 1024 <=? total then on_FT (fun t => t <| end_pa := FRAMETABLE_END_PA |>)
  else if 512 * 1024 <=? total then on_FT (fun t => t <| end_pa := FRAMETABLE_END_PA |>)
  else if 256 * 1024 <=? total then on_FT (fun t => t <| end_pa := FRAMETABLE_END_PA |>)
  else if total <? 250 * 1024 then panic "I_initialize_frame_table: Less than 250MB"
  else if total <=? FRAMETABLE_END_PA / 1024 then panic "I_initialize_frame_table:  Invalid FRAMETABLE_END_PA"
  else on_FT (fun t => t <| end_pa := FRAMETABLE_END_PA |>).

(** The fields that follow from the start and the end. *)
Definition frame_table_sizes (t : frame_table_d) : frame_table_d :=
  let size := end_pa t - start_pa t in
  t <| size_in_bytes := size |> <| size_in_kb := size / 1024 |>
    <| size_in_mb := size / 1024 / 1024 |> <| size_in_frames := size / 4096 |>
    <| number_of_system_frames := FT_NUMBER_OF_SYSTEM_FRAMES |>
    <| number_of_user_frames := FT_NUMBER_OF_USER_FRAMES |> <| number_of_used_frames := FT_TOTAL_FRAMES |>.

Definition frame_table_done (t : frame_table_d) : frame_table_d :=
  t <| number_of_reserved_frames := size_in_frames t - number_of_used_frames t |>
    <| ft_used := TRUE |> <| ft_magic := 1234 |> <| ft_initialized := TRUE |>.

(** [initialize_frame_table:] *)
Definition frame_table_fill : K Z :=
  t ← gets FT;
  if end_pa t <? start_pa t then panic "I_initialize_frame_table: FT.end_pa < FT.start_pa" else
  if end_pa t =? start_pa t then panic "I_initialize_frame_table: No table" else
  if FRAMETABLE_END_PA <? end_pa t then panic "I_initialize_frame_table: FT.end_pa > FRAMETABLE_END_PA" else
  modify (fun s => s <| mm_used_frame_table := (end_pa t - start_pa t) / 1024 |>);;
  if start_pa t =? 0 then panic "I_initialize_frame_table: FT.start_pa" else
  if end_pa t =? 0 then panic "I_initialize_frame_table: FT.end_pa" else
  on_FT frame_table_sizes;;
  t ← gets FT;
  if size_in_frames t <=? number_of_used_frames t then panic "I_initialize_frame_table: FT.size_in_frames" else
  on_FT frame_table_done;;
  mret 0.

Definition frame_table_clear (t : frame_table_d) : frame_table_d :=
  t <| ft_initialized := FALSE |> <| ft_used := FALSE |> <| ft_magic := 0 |>
    <| start_pa := FRAMETABLE_START_PA |> <| end_pa := FRAMETABLE_START_PA |>.

Definition I_initialize_frame_table : K Z :=
  ini ← gets MemorySizeInfo_initialized;
  if negb (ini =? TRUE) then panic "I_initialize_frame_table: MemorySizeInfo" else
  on_FT frame_table_clear;;
  total ← gets memorysizeTotal;
  frame_table_end total;;
  frame_table_fill.

Definition mmGetFTStartPA : K Z := gets (fun s => start_pa (FT s)).
Definition mmGetFTEndPA : K Z := gets (fun s => end_pa (FT s)).

(** ** mmsize.c *)

(** [last] is the address given by the boot loader, [base] what the RTC tells. *)
Definition mmsize_initialize (last base : Z) : K Z :=
  modify (fun s => s <| MemorySizeInfo_initialized := FALSE |>);;
  let other := u64 (1024 - base) in
  let extended := u64 (last / 0x400 - base - other) in
  let total := u64 (base + other + extended) in
  modify (fun s => s <| memorysizeBaseMemoryViaCMOS := base |> <| memorysizeBaseMemory := base |>
    <| memorysizeOtherMemory := other |> <| memorysizeExtendedMemory := extended |> <| memorysizeTotal := total |>
    <| g_mm_system_type :=
         if LARGESYSTEM_SIZE_KB <=? total then stLargeSystem
         else if MEDIUMSYSTEM_SIZE_KB <=? total then stMediumSystem
         else if SMALLSYSTEM_SIZE_KB <=? total then stSmallSystem else stNull |>);;
  if total =? 0 then
    modify (fun s => s <| g_mm_system_type := stNull |> <| MemorySizeInfo_initialized := FALSE |>);;
    mret FALSE
  else
    modify (fun s => s <| MemorySizeInfo_initialized := TRUE |>);;
    mret TRUE.

(** ** paging.c: initialization *)

Definition __mmSetupMemoryUsage : K unit :=
  modify (fun s => s <| memorysizeUsed := u64 (mm_used s SYSTEM_ORIGIN_C + mm_used s USER_BASE_C +
    mm_used s KERNEL_BASE_C + mm_used s BACKBUFFER_C + mm_used s PAGEDPOOL_C + mm_used s HEAPPOOL_C +
    mm_used s EXTRAHEAP1_C + mm_used s EXTRAHEAP2_C + mm_used s EXTRAHEAP3_C + mm_used_frame_table s) |>);;
  modify (fun s => s <| memorysizeFree := u64 (memorysizeTotal s - memorysizeUsed s) |>).

Definition __initialize_canonical_kernel_pagetables : K unit :=
  __initialize_ring0area;;
  __initialize_ring3area;;
  __initialize_kernelimage_region;;
  __initialize_frontbuffer;;
  __initialize_backbuffer;;
  __initialize_pagedpool;;
  __initialize_heappool;;
  __initialize_extraheap1;;
  __initialize_extraheap2;;
  __initialize_extraheap3;;
  slab_initialize.

(** [table[i] = 0 | PAGE_WRITE], [i] from 0 to 511. *)
Fixpoint clear_entries (n : nat) (table : Z) (m : memory) : memory :=
  match n with
  | O => m
  | S n => clear_entries n (table + 8) (store64 table PAGE_WRITE m)
  end.

(** [table[0] = next; table[0] = table[0] | 7]. *)
Definition point_first (table next : Z) (m : memory) : memory :=
  let m := store64 table next m in
  store64 table (Z.lor (load64 m table) (Z.lor (Z.lor PAGE_USER PAGE_WRITE) PAGE_PRESENT)) m.

Definition pagesInitializePaging : K Z :=
  __initialize_ram_usage_varables;;
  __initialize_canonical_physical_regions;;
  modify (fun s => s <| gKernelPML4Address := KERNEL_PML4_VA |>
    <| kernel_mm_data := mk_mm_data TRUE 1234 KERNEL_PML4_PA KERNEL_PML4_PA KERNEL_PDPT_PA KERNEL_PDPT_PA
         KERNEL_PD_PA KERNEL_PD_PA |>);;
  modify (on_ram (clear_entries 512 KERNEL_PML4_PA));;
  modify (on_ram (clear_entries 512 KERNEL_PDPT_PA));;
  modify (on_ram (clear_entries 512 KERNEL_PD_PA));;
  modify (on_ram (point_first KERNEL_PDPT_PA KERNEL_PD_PA));;
  modify (on_ram (point_first KERNEL_PML4_PA KERNEL_PDPT_PA));;
  __initialize_canonical_kernel_pagetables;;
  I_initialize_frame_table;;
  __mmSetupMemoryUsage;;
  load_pml4_table KERNEL_PML4_PA;;
  mret 0.

(** ** Specification *)

(** The page directory as a map: an index of the directory gives the address of
    its table, and the physical address and the flags of its 2 MB region. *)
Definition directory := gmap Z (Z * Z * Z).

(** The entry [d] of the directory and the 512 entries of its table. *)
Definition region_ok (m : memory) (base d : Z) (r : Z * Z * Z) : Prop :=
  let '(pt, pa, flags) := r in
  (0 <= d < 512 /\ TABLE_POINTER_HEAP_BASE < pt <= base /\ pt mod 4096 = 0) /\
  (0 <= pa < 2 ^ 47 /\ pa mod 4096 = 0 /\ 0 <= flags < 4096) /\
  entry m KERNEL_PD_PA d = Z.lor pt flags /\
  forall i, 0 <= i < 512 -> entry m pt i = Z.lor (pa + 4096 * i) flags.

(** The memory [m] holds the kernel's tables for [L]; the tables are taken from
    the heap of tables, which is used up to [base]. *)
Record tables_ok (m : memory) (base : Z) (L : directory) : Prop := {
  to_base : TABLE_POINTER_HEAP_BASE <= base < FAT_ADDRESS /\ base mod 4096 = 0;
  to_pml4 : entry m KERNEL_PML4_PA 0 = Z.lor KERNEL_PDPT_PA 7;
  to_pdpt : entry m KERNEL_PDPT_PA 0 = Z.lor KERNEL_PD_PA 7;
  to_rest : forall i, 0 < i < 512 -> entry m KERNEL_PML4_PA i = PAGE_WRITE /\ entry m KERNEL_PDPT_PA i = PAGE_WRITE;
  to_regions : forall d r, L !! d = Some r -> region_ok m base d r;
  to_free : forall d, 0 <= d < 512 -> L !! d = None -> entry m KERNEL_PD_PA d = PAGE_WRITE;
  to_inj : forall d d' r r', L !! d = Some r -> L !! d' = Some r' -> r.1.1 = r'.1.1 -> d = d'
}.

(** ** Lemmas: entries *)

Lemma frame_spec e : frame e = (e / 4096) mod 2 ^ 36 * 4096.
Proof.
  unfold frame. change 0xFFFFFFFFF000 with (Z.shiftl (Z.ones 36) 12).
  change (e / 4096) with (e / 2 ^ 12). rewrite <- Z.shiftr_div_pow2, <- Z.land_ones by lia.
  change 4096 with (2 ^ 12). rewrite <- Z.shiftl_mul_pow2, Z.shiftl_land by lia. apply Z.bits_inj'. intros n Hn. rewrite !Z.land_spec, !Z.shiftl_spec by lia.
  destruct (decide (n < 12)).
  - rewrite (Z.testbit_neg_r (Z.ones 36)) by lia. by rewrite !andb_false_r.
  - rewrite Z.shiftr_spec by lia. f_equal. f_equal. lia.
Qed.

Lemma lor_flags a f : a mod 4096 = 0 -> 0 <= f < 4096 -> Z.lor a f = a + f.
Proof.
  intros Ha Hf. rewrite <- Z.lxor_lor, <- Z.add_nocarry_lxor; [done|..];
    apply Z.bits_inj'; intros n Hn; rewrite Z.land_spec, Z.bits_0;
    (destruct (decide (n < 12)) as [L|G];
     [replace (Z.testbit a n) with false; [done|];
      rewrite <- (Z.mod_pow2_bits_low a 12 n) by lia; change (2 ^ 12) with 4096; rewrite Ha; by rewrite Z.bits_0
     |replace (Z.testbit f n) with false; [apply andb_false_r|];
      rewrite <- (Z.mod_small f (2 ^ 12)) by lia; symmetry; apply Z.mod_pow2_bits_high; lia]).
Qed.

Lemma frame_lor a f : a mod 4096 = 0 -> 0 <= a < 2 ^ 48 -> 0 <= f < 4096 -> frame (Z.lor a f) = a.
Proof.
  intros Ha Hr Hf. rewrite lor_flags by done. rewrite frame_spec. pose proof (Z.div_mod a 4096).
  replace ((a + f) / 4096) with (a / 4096).
  - rewrite Z.mod_small; [lia|]. split; [apply Z.div_pos; lia|apply Z.div_lt_upper_bound; lia].
  - apply (Z.div_unique _ _ _ f); lia.
Qed.

Lemma lor_range a f : 0 <= a < 2 ^ 64 -> 0 <= f < 2 ^ 64 -> 0 <= Z.lor a f < 2 ^ 64.
Proof.
  intros Ha Hf. split; [apply Z.lor_nonneg; lia|]. apply Z.log2_lt_cancel. destruct (decide (Z.lor a f = 0)) as [->|N].
  - done.
  - rewrite Z.log2_lor by lia. change (Z.log2 (2 ^ 64)) with 64. apply Z.max_lub_lt.
    + destruct (decide (a = 0)) as [->|]; [done|]. apply Z.log2_lt_pow2; lia.
    + destruct (decide (f = 0)) as [->|]; [done|]. apply Z.log2_lt_pow2; lia.
Qed.

Lemma entry_ext m m' t i : (forall x, t + 8 * i <= x < t + 8 * i + 8 -> m' x = m x) -> entry m' t i = entry m t i.
Proof. apply load64_ext. Qed.

Lemma fill_outside_spec n pt pa flags m x : x < pt \/ pt + 8 * Z.of_nat n <= x -> fill_entries n pt pa flags m x = m x.
Proof.
  revert pt pa m. induction n as [|n IH]; intros pt pa m Hx; cbn [fill_entries]; [done|].
  rewrite IH by lia. apply store64_ne. lia.
Qed.

Lemma fill_entries_spec n pt pa flags m i :
  0 <= pa -> pa + 4096 * Z.of_nat n <= 2 ^ 64 -> 0 <= flags < 2 ^ 64 -> 0 <= i < Z.of_nat n ->
  entry (fill_entries n pt pa flags m) pt i = Z.lor (pa + 4096 * i) flags.
Proof.
  revert pt pa m i. induction n as [|n IH]; intros pt pa m i Hpa Hmax Hf Hi; [lia|]. cbn [fill_entries].
  destruct (decide (i = 0)) as [->|N].
  - unfold entry. rewrite !Z.mul_0_r, !Z.add_0_r.
    rewrite (load64_ext (store64 pt (Z.lor pa flags) m)) by (intros; apply fill_outside_spec; lia).
    apply load64_store64, lor_range; lia.
  - destruct n as [|n]; [lia|]. rewrite u64_id by lia.
    replace i with (1 + (i - 1)) by lia. unfold entry in *.
    replace (pt + 8 * (1 + (i - 1))) with (pt + 8 + 8 * (i - 1)) by lia.
    rewrite IH by lia. f_equal. lia.
Qed.

Lemma copy_outside n dst src m x : x < dst \/ dst + 8 * Z.of_nat n <= x -> copy_entries n dst src m x = m x.
Proof.
  revert dst src m. induction n as [|n IH]; intros dst src m Hx; cbn [copy_entries]; [done|].
  rewrite IH by lia. apply store64_ne. lia.
Qed.

Lemma copy_entries_spec n dst src m i :
  bytes m -> dst + 8 * Z.of_nat n <= src \/ src + 8 * Z.of_nat n <= dst -> 0 <= i < Z.of_nat n ->
  entry (copy_entries n dst src m) dst i = entry m src i.
Proof.
  revert dst src m i. induction n as [|n IH]; intros dst src m i Hm Hd Hi; [lia|]. cbn [copy_entries].
  destruct (decide (i = 0)) as [->|N].
  - unfold entry. rewrite !Z.mul_0_r, !Z.add_0_r.
    rewrite (load64_ext (store64 dst (load64 m src) m)) by (intros; apply copy_outside; lia).
    apply load64_store64, load64_range, Hm.
  - destruct n as [|n]; [lia|]. replace i with (1 + (i - 1)) by lia. unfold entry in *.
    replace (dst + 8 * (1 + (i - 1))) with (dst + 8 + 8 * (i - 1)) by lia.
    rewrite IH by (try apply bytes_store64; done || lia).
    replace (src + 8 * (1 + (i - 1))) with (src + 8 + 8 * (i - 1)) by lia.
    apply load64_ext. intros x Hx. apply store64_ne. lia.
Qed.

Lemma clear_outside n t m x : x < t \/ t + 8 * Z.of_nat n <= x -> clear_entries n t m x = m x.
Proof.
  revert t m. induction n as [|n IH]; intros t m Hx; cbn [clear_entries]; [done|].
  rewrite IH by lia. apply store64_ne. lia.
Qed.

Lemma clear_entries_spec n t m i : 0 <= i < Z.of_nat n -> entry (clear_entries n t m) t i = PAGE_WRITE.
Proof.
  revert t m i. induction n as [|n IH]; intros t m i Hi; [lia|]. cbn [clear_entries].
  destruct (decide (i = 0)) as [->|N].
  - unfold entry. rewrite !Z.mul_0_r, !Z.add_0_r.
    rewrite (load64_ext (store64 t PAGE_WRITE m)) by (intros; apply clear_outside; lia). by apply load64_store64.
  - destruct n as [|n]; [lia|]. replace i with (1 + (i - 1)) by lia. unfold entry in *.
    replace (t + 8 * (1 + (i - 1))) with (t + 8 + 8 * (i - 1)) by lia. apply IH. lia.
Qed.

(** ** Lemmas: the walk *)

Lemma index_spec va k : 0 <= k -> Z.land (Z.shiftr va k) 0x1FF = va / 2 ^ k mod 512.
Proof. intros Hk. change 0x1FF with (Z.ones 9). by rewrite Z.land_ones, Z.shiftr_div_pow2 by lia. Qed.

Lemma offset_spec va : Z.land va 0xFFF = va mod 4096.
Proof. change 0xFFF with (Z.ones 12). by rewrite Z.land_ones by lia. Qed.

(** The parts of an address of the region [d]. *)
Lemma va_parts d o : 0 <= d < 512 -> 0 <= o < 2 ^ 21 ->
  let va := 2 ^ 21 * d + o in
  va / 2 ^ 39 mod 512 = 0 /\ va / 2 ^ 30 mod 512 = 0 /\ va / 2 ^ 21 mod 512 = d /\
  va / 2 ^ 12 mod 512 = o / 4096 /\ va mod 4096 = o mod 4096.
Proof.
  intros Hd Ho va. assert (0 <= va < 2 ^ 30) by (unfold va; lia).
  assert (0 <= o / 4096 < 512) by (split; [apply Z.div_pos; lia|apply Z.div_lt_upper_bound; lia]).
  split; [by rewrite Z.div_small by lia|]. split; [by rewrite Z.div_small by lia|]. split; [|split].
  - unfold va. rewrite (Z.mul_comm (2 ^ 21)), Z.div_add_l, (Z.div_small o), Z.add_0_r by lia. by apply Z.mod_small.
  - unfold va. replace (2 ^ 21 * d + o) with (o + (512 * d) * 2 ^ 12) by lia. rewrite Z.div_add by lia.
    change (2 ^ 12) with 4096. rewrite (Z.mul_comm 512), Z.mod_add by lia. by apply Z.mod_small.
  - unfold va. replace (2 ^ 21 * d + o) with (o + (512 * d) * 4096) by lia. by apply Z.mod_add.
Qed.

Lemma walk_chain m pml4 pdpt pd pt pa fl d o :
  pdpt mod 4096 = 0 -> 0 <= pdpt < 2 ^ 47 -> pd mod 4096 = 0 -> 0 <= pd < 2 ^ 47 ->
  pt mod 4096 = 0 -> 0 <= pt < 2 ^ 47 -> pa mod 4096 = 0 -> 0 <= pa < 2 ^ 47 -> 0 <= fl < 4096 ->
  entry m pml4 0 = Z.lor pdpt 7 -> entry m pdpt 0 = Z.lor pd 7 -> entry m pd d = Z.lor pt fl ->
  (forall i, 0 <= i < 512 -> entry m pt i = Z.lor (pa + 4096 * i) fl) ->
  0 <= d < 512 -> 0 <= o < 2 ^ 21 -> walk m (2 ^ 21 * d + o) pml4 = pa + o.
Proof.
  intros A1 R1 A2 R2 A3 R3 A4 R4 Hf E1 E2 E3 E4 Hd Ho.
  destruct (va_parts d o Hd Ho) as (P1 & P2 & P3 & P4 & P5).
  unfold walk. rewrite !index_spec, offset_spec, P1, P2, P3, P4, P5 by lia.
  rewrite E1, frame_lor, E2, frame_lor, E3, frame_lor by lia.
  assert (0 <= o / 4096 < 512) as Ht by (split; [apply Z.div_pos; lia|apply Z.div_lt_upper_bound; lia]).
  rewrite E4, frame_lor; [|rewrite Z.add_comm, (Z.mul_comm 4096), Z.add_comm, Z.mod_add by lia; done|lia|done|done].
  pose proof (Z.div_mod o 4096). pose proof (Z.mod_pos_bound o 4096). rewrite u64_id by lia. lia.
Qed.

Lemma walk_mapped m base L d pt pa fl o :
  tables_ok m base L -> L !! d = Some (pt, pa, fl) -> 0 <= o < 2 ^ 21 ->
  walk m (2 ^ 21 * d + o) KERNEL_PML4_PA = pa + o.
Proof.
  intros Ht HL Ho. destruct (to_regions _ _ _ Ht d _ HL) as ((Hd & Hpt & Hal) & (Hpa & Hpal & Hfl) & Hpd & He).
  pose proof (to_base _ _ _ Ht) as (Hb & _). unfold TABLE_POINTER_HEAP_BASE, FAT_ADDRESS in *.
  apply (walk_chain m _ KERNEL_PDPT_PA KERNEL_PD_PA pt pa fl d o); try done; try lia; apply Ht.
Qed.

(** ** Lemmas: one more region *)

(** What [mm_fill_page_table] writes, as one function. *)
Definition mapped (d pt pa fl : Z) (m : memory) : memory :=
  let m1 := store64 (KERNEL_PD_PA + 8 * d) pt (fill_entries 512 pt pa fl m) in
  store64 (KERNEL_PD_PA + 8 * d) (Z.lor (entry m1 KERNEL_PD_PA d) fl) m1.

Lemma mapped_outside d pt pa fl m x :
  x < pt \/ pt + 4096 <= x -> x < KERNEL_PD_PA + 8 * d \/ KERNEL_PD_PA + 8 * d + 8 <= x -> mapped d pt pa fl m x = m x.
Proof.
  intros H1 H2. unfold mapped. rewrite !store64_ne by done. apply fill_outside_spec. lia.
Qed.

Lemma bytes_fill n pt pa fl m : bytes m -> bytes (fill_entries n pt pa fl m).
Proof. revert pt pa m. induction n; intros; cbn [fill_entries]; auto using bytes_store64. Qed.

Lemma bytes_copy_entries n dst src m : bytes m -> bytes (copy_entries n dst src m).
Proof. revert dst src m. induction n; intros; cbn [copy_entries]; auto using bytes_store64. Qed.

Lemma bytes_clear n t m : bytes m -> bytes (clear_entries n t m).
Proof. revert t m. induction n; intros; cbn [clear_entries]; auto using bytes_store64. Qed.

Lemma bytes_mapped d pt pa fl m : bytes m -> bytes (mapped d pt pa fl m).
Proof. intros. unfold mapped. auto using bytes_store64, bytes_fill. Qed.

Lemma mapped_dir d pt pa fl m : 0 <= pt < 2 ^ 47 -> 0 <= fl < 4096 ->
  entry (mapped d pt pa fl m) KERNEL_PD_PA d = Z.lor pt fl.
Proof.
  intros Hp Hf. unfold mapped, entry. rewrite (load64_store64 _ pt) by lia. apply load64_store64, lor_range; lia.
Qed.

Lemma mapped_entry d pt pa fl m i :
  pt + 4096 <= KERNEL_PD_PA -> 0 <= d -> 0 <= pa < 2 ^ 47 -> 0 <= fl < 4096 -> 0 <= i < 512 ->
  entry (mapped d pt pa fl m) pt i = Z.lor (pa + 4096 * i) fl.
Proof.
  intros Hp Hd Hpa Hf Hi. unfold mapped. rewrite <- (fill_entries_spec 512 pt pa fl m i) by lia.
  apply entry_ext. intros x Hx. rewrite !store64_ne by lia. done.
Qed.

Lemma mapped_tables m base L d pa fl :
  tables_ok m base L -> base + 0x1000 < FAT_ADDRESS -> 0 <= d < 512 ->
  0 <= pa < 2 ^ 47 -> pa mod 4096 = 0 -> 0 <= fl < 4096 ->
  tables_ok (mapped d (base + 0x1000) pa fl m) (base + 0x1000) (<[d := (base + 0x1000, pa, fl)]> L).
Proof.
  intros Ht Hb Hd Hpa Hal Hfl. pose proof (to_base _ _ _ Ht) as (Hb0 & Hbal).
  unfold TABLE_POINTER_HEAP_BASE, FAT_ADDRESS in *. set (pt := base + 0x1000) in *.
  assert (forall x, x < pt \/ pt + 4096 <= x -> x < KERNEL_PD_PA + 8 * d \/ KERNEL_PD_PA + 8 * d + 8 <= x ->
    mapped d pt pa fl m x = m x) as Hout by (intros; by apply mapped_outside).
  assert (pt mod 4096 = 0) as Hpt by (unfold pt; rewrite Z.add_mod, Hbal by lia; done).
  unfold KERNEL_PD_PA in *. constructor; unfold TABLE_POINTER_HEAP_BASE, FAT_ADDRESS.
  - split; [unfold pt; lia|done].
  - rewrite <- (to_pml4 _ _ _ Ht). apply entry_ext. unfold KERNEL_PML4_PA. intros x Hx. apply Hout; lia.
  - rewrite <- (to_pdpt _ _ _ Ht). apply entry_ext. unfold KERNEL_PDPT_PA. intros x Hx. apply Hout; lia.
  - intros i Hi. destruct (to_rest _ _ _ Ht i Hi) as (<- & E2).
    split; [|rewrite <- E2]; apply entry_ext; unfold KERNEL_PML4_PA, KERNEL_PDPT_PA; intros x Hx; apply Hout; lia.
  - intros d' r HL. apply lookup_insert_Some in HL as [(<- & <-)|(N & HL)].
    + split; [unfold TABLE_POINTER_HEAP_BASE, pt in *; lia|]. split; [done|]. split; [apply mapped_dir; lia|].
      intros i Hi. apply mapped_entry; unfold KERNEL_PD_PA; lia.
    + pose proof (to_regions _ _ _ Ht d' r HL) as Hr. destruct r as ((pt' & pa') & fl').
      destruct Hr as ((D1 & D2 & D3) & D4 & D5 & D6). unfold TABLE_POINTER_HEAP_BASE in *.
      split; [unfold TABLE_POINTER_HEAP_BASE, pt; lia|]. split; [done|]. split.
      * rewrite <- D5. apply entry_ext. unfold KERNEL_PD_PA. intros x Hx. apply Hout; lia.
      * intros i Hi. rewrite <- D6 by done. apply entry_ext. intros x Hx. apply Hout; [unfold pt|]; lia.
  - intros d' Hd' HL. apply lookup_insert_None in HL as (HL & N). rewrite <- (to_free _ _ _ Ht d' Hd' HL).
    apply entry_ext. unfold KERNEL_PD_PA. intros x Hx. apply Hout; lia.
  - intros d1 d2 r1 r2 H1 H2 E.
    assert (forall d' r, L !! d' = Some r -> r.1.1 <= base) as Hle.
    { intros d' r HL. pose proof (to_regions _ _ _ Ht d' r HL) as Hr. destruct r as ((pt' & pa') & fl').
      destruct Hr as ((_ & D2 & _) & _). cbn. lia. }
    apply lookup_insert_Some in H1 as [(<- & <-)|(N1 & H1)];
      apply lookup_insert_Some in H2 as [(<- & <-)|(N2 & H2)]; try done.
    + specialize (Hle _ _ H2). cbn in *. unfold pt in *. lia.
    + specialize (Hle _ _ H1). cbn in *. unfold pt in *. lia.
    + by apply (to_inj _ _ _ Ht d1 d2 r1 r2).
Qed.

(** ** Lemmas: the regions of the kernel *)

Lemma get_table_spec s :
  0 <= table_pointer_heap_base s -> table_pointer_heap_base s + 0x1000 < FAT_ADDRESS ->
  get_table_pointer_va s =
    Done (table_pointer_heap_base s + 0x1000) (s <| table_pointer_heap_base := table_pointer_heap_base s + 0x1000 |>).
Proof.
  intros H0 H. unfold get_table_pointer_va. rewrite bind_modify, bind_gets.
  unfold FAT_ADDRESS in *. rewrite u64_id by lia. set (b := table_pointer_heap_base s + 0x1000) in *.
  change (table_pointer_heap_base _) with b. by zguard.
Qed.

Lemma fill_page_table_spec s d pt pa fl : 0 <= d < 512 ->
  mm_fill_page_table KERNEL_PD_PA d pt pa fl s = Done 0 (on_ram (mapped d pt pa fl) s).
Proof. intros Hd. unfold mm_fill_page_table. zguard. reflexivity. Qed.

(** The address and the flags of the region of a component. *)
Definition region_va (c : mm_component) : Z :=
  match c with
  | SYSTEM_ORIGIN_C => RING0AREA_VA | USER_BASE_C => RING3AREA_VA | KERNEL_BASE_C => KERNELIMAGE_VA
  | FRONTBUFFER_C => FRONTBUFFER_VA | BACKBUFFER_C => BACKBUFFER_VA | PAGEDPOOL_C => PAGEDPOOL_VA
  | HEAPPOOL_C => HEAPPOOL_VA | EXTRAHEAP1_C => EXTRAHEAP1_VA | EXTRAHEAP2_C => EXTRAHEAP2_VA
  | EXTRAHEAP3_C => EXTRAHEAP3_VA | CGA_C => 0
  end.
Definition region_flags (c : mm_component) : Z :=
  match c with SYSTEM_ORIGIN_C | KERNEL_BASE_C | EXTRAHEAP1_C => 3 | _ => 7 end.
Definition region_index (c : mm_component) : Z := region_va c / 2 ^ 21.

(** From [s] to [s'] the region of [c] is mapped. *)
Record region_done (lfb : Z) (c : mm_component) (s s' : pgst) : Prop := {
  rd_kh : kh s' = (kh s) <| mem := mapped (region_index c) (table_pointer_heap_base s + 0x1000)
                               (canonical_pa lfb c) (region_flags c) (ram_of s) |>;
  rd_base : table_pointer_heap_base s' = table_pointer_heap_base s + 0x1000;
  rd_gva : g_va s' = upd c (region_va c) (g_va s);
  rd_small : SMALL_pa s' = SMALL_pa s;
  rd_size : MemorySizeInfo_initialized s' = MemorySizeInfo_initialized s;
  rd_total : memorysizeTotal s' = memorysizeTotal s;
  rd_data : kernel_mm_data s' = kernel_mm_data s /\ gKernelPML4Address s' = gKernelPML4Address s;
  rd_pages : pageAllocList s' = pageAllocList s /\ page_structs s' = page_structs s
}.

Definition maps_region (lfb : Z) (X : K unit) (c : mm_component) : Prop := forall s,
  SMALL_pa s = canonical_pa lfb -> 0 <= table_pointer_heap_base s ->
  table_pointer_heap_base s + 0x1000 < FAT_ADDRESS ->
  exists s', X s = Done tt s' /\ region_done lfb c s s'.

#[local] Opaque mapped.

Ltac region_tac X :=
  let HS := fresh in let H0 := fresh in let H1 := fresh in
  intros s HS H0 H1; unfold X; rewrite (bind_Done _ _ _ _ _ (get_table_spec s H0 H1));
  rewrite ?bind_gets, !bind_modify;
  try match goal with |- context [SMALL_pa ?x ?c] => change (SMALL_pa x c) with (SMALL_pa s c) end; rewrite ?HS;
  erewrite (bind_Done (mm_fill_page_table _ _ _ _ _)) by (apply fill_page_table_spec; split; by vm_compute);
  eexists; split; [reflexivity|]; constructor; first [reflexivity | split; reflexivity].

Lemma ring0area_spec lfb : maps_region lfb __initialize_ring0area SYSTEM_ORIGIN_C.
Proof. region_tac __initialize_ring0area. Qed.
Lemma ring3area_spec lfb : maps_region lfb __initialize_ring3area USER_BASE_C.
Proof. region_tac __initialize_ring3area. Qed.
Lemma kernelimage_spec lfb : maps_region lfb __initialize_kernelimage_region KERNEL_BASE_C.
Proof. region_tac __initialize_kernelimage_region. Qed.
Lemma frontbuffer_spec lfb : maps_region lfb __initialize_frontbuffer FRONTBUFFER_C.
Proof. region_tac __initialize_frontbuffer. Qed.
Lemma backbuffer_spec lfb : maps_region lfb __initialize_backbuffer BACKBUFFER_C.
Proof. region_tac __initialize_backbuffer. Qed.
Lemma pagedpool_spec lfb : maps_region lfb __initialize_pagedpool PAGEDPOOL_C.
Proof. region_tac __initialize_pagedpool. Qed.
Lemma heappool_spec lfb : maps_region lfb __initialize_heappool HEAPPOOL_C.
Proof. region_tac __initialize_heappool. Qed.
Lemma extraheap1_spec lfb : maps_region lfb __initialize_extraheap1 EXTRAHEAP1_C.
Proof. region_tac __initialize_extraheap1. Qed.
Lemma extraheap2_spec lfb : maps_region lfb __initialize_extraheap2 EXTRAHEAP2_C.
Proof. region_tac __initialize_extraheap2. Qed.
Lemma extraheap3_spec lfb : maps_region lfb __initialize_extraheap3 EXTRAHEAP3_C.
Proof. region_tac __initialize_extraheap3. Qed.

(** The directory after the regions of [cs], one table each. *)
Fixpoint add_regions (lfb : Z) (cs : list mm_component) (base : Z) (L : directory) : directory :=
  match cs with
  | [] => L
  | c :: cs => add_regions lfb cs (base + 0x1000)
                 (<[region_index c := (base + 0x1000, canonical_pa lfb c, region_flags c)]> L)
  end.

Lemma canonical_ok lfb c :
  0 <= lfb < 2 ^ 47 -> lfb mod 4096 = 0 -> 0 <= canonical_pa lfb c < 2 ^ 47 /\ canonical_pa lfb c mod 4096 = 0.
Proof. intros H1 H2. destruct c; (split; [|by try done]); cbn [canonical_pa]; try done; split; done. Qed.

Lemma region_index_range c : 0 <= region_index c < 512.
Proof. destruct c; split; by vm_compute. Qed.

Lemma region_flags_range c : 0 <= region_flags c < 4096.
Proof. destruct c; cbn; lia. Qed.

(** What the steps that map regions keep. *)
Record same_system (s s' : pgst) : Prop := {
  ss_small : SMALL_pa s' = SMALL_pa s;
  ss_size : MemorySizeInfo_initialized s' = MemorySizeInfo_initialized s;
  ss_total : memorysizeTotal s' = memorysizeTotal s;
  ss_data : kernel_mm_data s' = kernel_mm_data s /\ gKernelPML4Address s' = gKernelPML4Address s;
  ss_pages : pageAllocList s' = pageAllocList s /\ page_structs s' = page_structs s;
  ss_heap : (kh s') <| mem := mem (kh s) |> = kh s
}.

Lemma same_system_refl s : same_system s s.
Proof. constructor; try done. by destruct s as [[]]. Qed.

Lemma same_system_trans s s1 s2 : same_system s s1 -> same_system s1 s2 -> same_system s s2.
Proof.
  intros [A1 A2 A3 (A4 & A4') (A5 & A5') A6] [B1 B2 B3 (B4 & B4') (B5 & B5') B6].
  constructor; [congruence|congruence|congruence|split; congruence|split; congruence|].
  rewrite <- A6, <- B6. done.
Qed.

Definition run_all (l : list (K unit)) (last : K unit) : K unit := foldr (fun k r => k ≫= fun _ => r) last l.

Lemma run_regions lfb (Xs : list (K unit)) cs last s L :
  Forall2 (maps_region lfb) Xs cs -> SMALL_pa s = canonical_pa lfb -> 0 <= lfb < 2 ^ 47 -> lfb mod 4096 = 0 ->
  tables_ok (ram_of s) (table_pointer_heap_base s) L -> bytes (ram_of s) ->
  table_pointer_heap_base s + 0x1000 * Z.of_nat (length cs) < FAT_ADDRESS ->
  exists s', run_all Xs last s = last s' /\ same_system s s' /\ bytes (ram_of s') /\
    tables_ok (ram_of s') (table_pointer_heap_base s') (add_regions lfb cs (table_pointer_heap_base s) L) /\
    table_pointer_heap_base s' = table_pointer_heap_base s + 0x1000 * Z.of_nat (length cs) /\
    g_va s' = foldl (fun g c => upd c (region_va c) g) (g_va s) cs.
Proof.
  intros HX Hs Hl Hal. revert s L Hs. induction HX as [|X c Xs cs HXc HX IH]; intros s L Hs Ht Hb Hlim.
  { exists s. split; [done|]. split; [apply same_system_refl|]. split; [done|]. split; [done|]. split; [cbn; lia|done]. }
  cbn [length] in Hlim. pose proof (to_base _ _ _ Ht) as (B0 & _). unfold TABLE_POINTER_HEAP_BASE in B0.
  destruct (HXc s Hs) as (s1 & R1 & Hd); [lia|lia|].
  destruct (canonical_ok lfb c Hl Hal) as (C1 & C2).
  assert (ram_of s1 = mapped (region_index c) (table_pointer_heap_base s + 0x1000) (canonical_pa lfb c) (region_flags c) (ram_of s)) as Hr
    by (unfold ram_of at 1; by rewrite (rd_kh _ _ _ _ Hd)).
  destruct (IH s1 (<[region_index c := (table_pointer_heap_base s + 0x1000, canonical_pa lfb c, region_flags c)]> L))
    as (s' & R & Hss & Hb' & Ht' & Hbase & Hg).
  - by rewrite (rd_small _ _ _ _ Hd).
  - rewrite Hr, (rd_base _ _ _ _ Hd). apply mapped_tables; try done; [lia|apply region_index_range|apply region_flags_range].
  - rewrite Hr. by apply bytes_mapped.
  - rewrite (rd_base _ _ _ _ Hd). lia.
  - exists s'. cbn [run_all foldr]. rewrite (bind_Done _ _ _ _ _ R1). split; [exact R|]. split; [|split; [done|split; [|split]]].
    + eapply same_system_trans; [|exact Hss]. constructor; try apply Hd. rewrite (rd_kh _ _ _ _ Hd). by destruct (kh s).
    + cbn [add_regions]. rewrite (rd_base _ _ _ _ Hd) in Ht'. exact Ht'.
    + rewrite Hbase, (rd_base _ _ _ _ Hd). cbn [length]. lia.
    + rewrite Hg, (rd_gva _ _ _ _ Hd). done.
Qed.

(** The components in the order of [__initialize_canonical_kernel_pagetables]. *)
Definition boot_components : list mm_component :=
  [SYSTEM_ORIGIN_C; USER_BASE_C; KERNEL_BASE_C; FRONTBUFFER_C; BACKBUFFER_C; PAGEDPOOL_C; HEAPPOOL_C;
   EXTRAHEAP1_C; EXTRAHEAP2_C; EXTRAHEAP3_C].
Definition boot_directory (lfb : Z) : directory := add_regions lfb boot_components 0x1000 ∅.

Lemma canonical_tables lfb s :
  SMALL_pa s = canonical_pa lfb -> 0 <= lfb < 2 ^ 47 -> lfb mod 4096 = 0 ->
  tables_ok (ram_of s) (table_pointer_heap_base s) ∅ -> bytes (ram_of s) -> table_pointer_heap_base s = 0x1000 ->
  exists s', __initialize_canonical_kernel_pagetables s = Done tt s' /\ same_system s s' /\ bytes (ram_of s') /\
    tables_ok (ram_of s') 0xB000 (boot_directory lfb) /\ table_pointer_heap_base s' = 0xB000 /\
    (forall c, c ∈ boot_components -> g_va s' c = region_va c) /\
    NewPagedPool s' = mk_newpagedpool TRUE EXTRAHEAP2_VA (EXTRAHEAP2_VA + 0x100000) EXTRAHEAP3_VA (EXTRAHEAP3_VA + 0x100000)
      [TRUE; TRUE; TRUE; TRUE].
Proof.
  intros Hs Hl Hal Ht Hb Hbase.
  destruct (run_regions lfb [__initialize_ring0area; __initialize_ring3area; __initialize_kernelimage_region;
    __initialize_frontbuffer; __initialize_backbuffer; __initialize_pagedpool; __initialize_heappool;
    __initialize_extraheap1; __initialize_extraheap2; __initialize_extraheap3] boot_components slab_initialize s ∅)
    as (s' & R & Hss & Hb' & Ht' & Hb2 & Hg); try done.
  { repeat constructor; auto using ring0area_spec, ring3area_spec, kernelimage_spec, frontbuffer_spec, backbuffer_spec,
      pagedpool_spec, heappool_spec, extraheap1_spec, extraheap2_spec, extraheap3_spec. }
  { rewrite Hbase. done. }
  rewrite Hbase in Ht', Hb2. change (0x1000 + 0x1000 * Z.of_nat (length boot_components)) with 0xB000 in Hb2.
  rewrite Hb2 in Ht'.
  assert (g_va s' EXTRAHEAP2_C = EXTRAHEAP2_VA /\ g_va s' EXTRAHEAP3_C = EXTRAHEAP3_VA) as (G2 & G3) by (by rewrite Hg).
  eexists. split; [|split; [|split; [|split; [|split; [|split]]]]].
  - change (__initialize_canonical_kernel_pagetables s) with
      (run_all [__initialize_ring0area; __initialize_ring3area; __initialize_kernelimage_region;
         __initialize_frontbuffer; __initialize_backbuffer; __initialize_pagedpool; __initialize_heappool;
         __initialize_extraheap1; __initialize_extraheap2; __initialize_extraheap3] slab_initialize s).
    rewrite R. unfold slab_initialize. rewrite bind_modify, bind_gets. unfold id.
    change (g_va (s' <| NewPagedPool := _ |>)) with (g_va s'). rewrite G2, G3. reflexivity.
  - eapply same_system_trans; [exact Hss|]. constructor; try done. by destruct s' as [[]].
  - exact Hb'.
  - exact Ht'.
  - exact Hb2.
  - intros c Hc. change (g_va s' c = region_va c). rewrite Hg. clear -Hc.
    repeat (apply elem_of_cons in Hc as [-> |Hc]; [done|]). by apply not_elem_of_nil in Hc.
  - cbn. rewrite G2, G3. done.
Qed.

(** The three directories of the kernel, cleared and linked. *)
Definition linked (m : memory) : memory :=
  point_first KERNEL_PML4_PA KERNEL_PDPT_PA (point_first KERNEL_PDPT_PA KERNEL_PD_PA
    (clear_entries 512 KERNEL_PD_PA (clear_entries 512 KERNEL_PDPT_PA (clear_entries 512 KERNEL_PML4_PA m)))).

Lemma point_first_outside t n m x : x < t \/ t + 8 <= x -> point_first t n m x = m x.
Proof. intros H. unfold point_first. by rewrite !store64_ne by done. Qed.

Lemma point_first_entry t n m : 0 <= n < 2 ^ 47 -> entry (point_first t n m) t 0 = Z.lor n 7.
Proof.
  intros Hn. unfold point_first, entry. rewrite Z.mul_0_r, Z.add_0_r.
  change (Z.lor (Z.lor PAGE_USER PAGE_WRITE) PAGE_PRESENT) with 7.
  rewrite (load64_store64 _ n) by lia. apply load64_store64, lor_range; lia.
Qed.

Lemma bytes_linked m : bytes m -> bytes (linked m).
Proof. intros. unfold linked, point_first. auto 12 using bytes_store64, bytes_clear. Qed.

Lemma linked_tables m : tables_ok (linked m) 0x1000 ∅.
Proof.
  constructor; [done| | | |by intros d r ?%lookup_empty_Some| |by intros d d' r r' ?%lookup_empty_Some].
  - unfold linked. by apply point_first_entry.
  - unfold linked. rewrite (entry_ext (point_first KERNEL_PDPT_PA KERNEL_PD_PA
      (clear_entries 512 KERNEL_PD_PA (clear_entries 512 KERNEL_PDPT_PA (clear_entries 512 KERNEL_PML4_PA m))))).
    + by apply point_first_entry.
    + intros x Hx. apply point_first_outside. unfold KERNEL_PML4_PA, KERNEL_PDPT_PA in *. lia.
  - intros i Hi. unfold linked. split.
    + rewrite <- (clear_entries_spec 512 KERNEL_PML4_PA m i) by lia. apply entry_ext. intros x Hx.
      unfold KERNEL_PML4_PA in Hx. rewrite !point_first_outside; [|unfold KERNEL_PDPT_PA; lia|unfold KERNEL_PML4_PA; lia].
      rewrite (clear_outside _ KERNEL_PD_PA), (clear_outside _ KERNEL_PDPT_PA);
        [done|unfold KERNEL_PDPT_PA; lia|unfold KERNEL_PD_PA; lia].
    + rewrite <- (clear_entries_spec 512 KERNEL_PDPT_PA (clear_entries 512 KERNEL_PML4_PA m) i) by lia.
      apply entry_ext. intros x Hx. unfold KERNEL_PDPT_PA in Hx.
      rewrite !point_first_outside; [|unfold KERNEL_PDPT_PA; lia|unfold KERNEL_PML4_PA; lia].
      rewrite (clear_outside _ KERNEL_PD_PA); [done|unfold KERNEL_PD_PA; lia].
  - intros d Hd _. unfold linked. rewrite <- (clear_entries_spec 512 KERNEL_PD_PA
      (clear_entries 512 KERNEL_PDPT_PA (clear_entries 512 KERNEL_PML4_PA m)) d) by lia.
    apply entry_ext. intros x Hx. unfold KERNEL_PD_PA in Hx.
    rewrite !point_first_outside; [done|unfold KERNEL_PDPT_PA; lia|unfold KERNEL_PML4_PA; lia].
Qed.

Lemma frame_table_end_spec s :
  250 * 1024 <= memorysizeTotal s ->
  frame_table_end (memorysizeTotal s) s = Done tt (s <| FT := (FT s) <| end_pa := FRAMETABLE_END_PA |> |>).
Proof.
  intros Ht. unfold frame_table_end. destruct (1024 * 1024 <=? memorysizeTotal s); [done|].
  destruct (512 * 1024 <=? memorysizeTotal s); [done|]. destruct (256 * 1024 <=? memorysizeTotal s); [done|].
  replace (memorysizeTotal s <? 250 * 1024) with false by lia.
  replace (memorysizeTotal s <=? FRAMETABLE_END_PA / 1024) with false; [done|].
  change (FRAMETABLE_END_PA / 1024) with 253952. lia.
Qed.

Lemma frame_table_fill_spec s :
  start_pa (FT s) = FRAMETABLE_START_PA -> end_pa (FT s) = FRAMETABLE_END_PA ->
  frame_table_fill s = Done 0 (s <| mm_used_frame_table := 120 * 1024 |> <| FT := frame_table_done (frame_table_sizes (FT s)) |>).
Proof.
  intros H1 H2. unfold frame_table_fill. rewrite bind_gets, H1, H2.
  change (FRAMETABLE_END_PA <? FRAMETABLE_START_PA) with false. change (FRAMETABLE_END_PA =? FRAMETABLE_START_PA) with false.
  change (FRAMETABLE_END_PA <? FRAMETABLE_END_PA) with false. cbn iota. rewrite bind_modify.
  change (FRAMETABLE_START_PA =? 0) with false. change (FRAMETABLE_END_PA =? 0) with false. cbn iota.
  unfold on_FT. rewrite bind_modify, bind_gets. set (t := FT s) in *.
  assert (size_in_frames (frame_table_sizes t) = (end_pa t - start_pa t) / 4096) as E1 by done.
  rewrite H1, H2 in E1. change ((FRAMETABLE_END_PA - FRAMETABLE_START_PA) / 4096) with 30720 in E1.
  lazymatch goal with |- context [size_in_frames (FT ?z)] => change (FT z) with (frame_table_sizes t) end. rewrite E1.
  change (number_of_used_frames (frame_table_sizes t)) with 1024. change (30720 <=? 1024) with false. cbn iota.
  done.
Qed.

Lemma frame_table_spec s :
  MemorySizeInfo_initialized s = TRUE -> 250 * 1024 <= memorysizeTotal s ->
  exists t, I_initialize_frame_table s = Done 0 (s <| mm_used_frame_table := 120 * 1024 |> <| FT := t |>).
Proof.
  intros Hi Ht. unfold I_initialize_frame_table. rewrite bind_gets, Hi. change (negb (TRUE =? TRUE)) with false. cbn iota.
  unfold on_FT. rewrite bind_modify, bind_gets. set (s1 := s <| FT := frame_table_clear (FT s) |>).
  rewrite (bind_Done _ _ _ _ _ (frame_table_end_spec s1 Ht)). rewrite frame_table_fill_spec by done.
  eexists. done.
Qed.

(** The system before paging: an empty heap of tables, a boot loader's frame
    buffer on a page, at least 250 MB of memory. *)
Record boot_ready (s : pgst) : Prop := {
  br_base : table_pointer_heap_base s = TABLE_POINTER_HEAP_BASE;
  br_bytes : bytes (ram_of s);
  br_lfb : 0 <= gSavedLFB s < 2 ^ 47 /\ gSavedLFB s mod 4096 = 0;
  br_size : MemorySizeInfo_initialized s = TRUE;
  br_total : 250 * 1024 <= memorysizeTotal s
}.

Lemma boot_spec s : boot_ready s ->
  exists s', pagesInitializePaging s = Done 0 s' /\ cr3 s' = KERNEL_PML4_PA /\ bytes (ram_of s') /\
    tables_ok (ram_of s') 0xB000 (boot_directory (gSavedLFB s)) /\ table_pointer_heap_base s' = 0xB000 /\
    gKernelPML4Address s' = KERNEL_PML4_PA /\
    kernel_mm_data s' = mk_mm_data TRUE 1234 KERNEL_PML4_PA KERNEL_PML4_PA KERNEL_PDPT_PA KERNEL_PDPT_PA KERNEL_PD_PA KERNEL_PD_PA /\
    (forall c, c ∈ boot_components -> g_va s' c = region_va c) /\
    NewPagedPool s' = mk_newpagedpool TRUE EXTRAHEAP2_VA (EXTRAHEAP2_VA + 0x100000) EXTRAHEAP3_VA (EXTRAHEAP3_VA + 0x100000)
      [TRUE; TRUE; TRUE; TRUE] /\
    pageAllocList s' = pageAllocList s /\ page_structs s' = page_structs s /\ (kh s') <| mem := mem (kh s) |> = kh s.
Proof.
  intros [Hb Hm (Hl & Hal) Hi Ht]. unfold pagesInitializePaging.
  unfold __initialize_ram_usage_varables, __initialize_canonical_physical_regions. rewrite !bind_modify.
  match goal with |- context [(__initialize_canonical_kernel_pagetables ≫= _) ?z] => set (s1 := z) end.
  destruct (canonical_tables (gSavedLFB s) s1) as (s2 & R2 & Hss & Hb2 & Ht2 & Hbase & Hg & Hp); try done.
  { change (ram_of s1) with (linked (ram_of s)). change (table_pointer_heap_base s1) with (table_pointer_heap_base s).
    rewrite Hb. apply linked_tables. }
  { by apply bytes_linked. }
  rewrite (bind_Done _ _ _ _ _ R2).
  destruct (frame_table_spec s2) as (t & R3); [by rewrite (ss_size _ _ Hss)|by rewrite (ss_total _ _ Hss)|].
  rewrite (bind_Done _ _ _ _ _ R3). destruct (ss_data _ _ Hss) as (D1 & D2), (ss_pages _ _ Hss) as (P1 & P2).
  eexists. split; [reflexivity|]. split; [done|]. split; [exact Hb2|]. split; [exact Ht2|]. split; [exact Hbase|].
  split; [exact D2|]. split; [exact D1|]. split; [exact Hg|]. split; [exact Hp|]. split; [exact P1|].
  split; [exact P2|]. pose proof (ss_heap _ _ Hss) as E. change (kh s1) with ((kh s) <| mem := linked (mem (kh s)) |>) in E.
  apply (f_equal (fun h => h <| mem := mem (kh s) |>)) in E. etrans; [exact E|]. by destruct (kh s).
Qed.

(** ** Lemmas: addresses without a region, later mappings *)

Lemma va_split va : 0 <= va < 2 ^ 30 ->
  va = 2 ^ 21 * (va / 2 ^ 21) + va mod 2 ^ 21 /\ 0 <= va / 2 ^ 21 < 512 /\ 0 <= va mod 2 ^ 21 < 2 ^ 21.
Proof.
  intros Hv. split; [apply Z.div_mod; lia|]. split; [|apply Z.mod_pos_bound; lia].
  split; [apply Z.div_pos; lia|apply Z.div_lt_upper_bound; lia].
Qed.

(** The walk goes on through the table at address 0, whatever lies there. *)
Lemma walk_unmapped m base L d o :
  tables_ok m base L -> 0 <= d < 512 -> L !! d = None -> 0 <= o < 2 ^ 21 ->
  walk m (2 ^ 21 * d + o) KERNEL_PML4_PA = u64 (frame (entry m 0 (o / 4096)) + o mod 4096).
Proof.
  intros Ht Hd HL Ho. destruct (va_parts d o Hd Ho) as (P1 & P2 & P3 & P4 & P5).
  unfold walk. rewrite !index_spec, offset_spec, P1, P2, P3, P4, P5 by lia.
  rewrite (to_pml4 _ _ _ Ht), frame_lor, (to_pdpt _ _ _ Ht), frame_lor, (to_free _ _ _ Ht d Hd HL) by done.
  change (frame PAGE_WRITE) with 0. done.
Qed.

Lemma walk_after m base L d pa fl va :
  tables_ok m base L -> base + 0x1000 < FAT_ADDRESS -> 0 <= d < 512 ->
  0 <= pa < 2 ^ 47 -> pa mod 4096 = 0 -> 0 <= fl < 4096 -> 0 <= va < 2 ^ 30 ->
  walk (mapped d (base + 0x1000) pa fl m) va KERNEL_PML4_PA =
    if va / 2 ^ 21 =? d then pa + va mod 2 ^ 21 else walk m va KERNEL_PML4_PA.
Proof.
  intros Ht Hb Hd Hpa Hal Hfl Hva. pose proof (mapped_tables m base L d pa fl Ht Hb Hd Hpa Hal Hfl) as Ht'.
  destruct (va_split va Hva) as (E & Hd' & Ho). set (o := va mod 2 ^ 21) in *. set (d' := va / 2 ^ 21) in *. rewrite E.
  destruct (Z.eqb_spec d' d) as [->|N].
  - apply (walk_mapped _ _ _ d (base + 0x1000) pa fl o Ht'); [by apply lookup_insert_eq|done].
  - destruct (L !! d') as [((pt & pa') & fl')|] eqn:HL.
    + rewrite (walk_mapped m base L d' pt pa' fl' o Ht HL Ho).
      apply (walk_mapped _ _ _ d' pt pa' fl' o Ht'); [etrans; [by apply lookup_insert_ne|done]|done].
    + rewrite (walk_unmapped m base L d' o Ht Hd' HL Ho).
      assert ((<[d := (base + 0x1000, pa, fl)]> L : directory) !! d' = None) as HL' by (etrans; [by apply lookup_insert_ne|done]).
      rewrite (walk_unmapped _ _ _ d' o Ht' Hd' HL' Ho).
      f_equal. f_equal. f_equal. apply entry_ext. intros x Hx.
      assert (0 <= o / 4096 < 512) by (split; [apply Z.div_pos; lia|apply Z.div_lt_upper_bound; lia]).
      pose proof (to_base _ _ _ Ht) as (B & _). unfold TABLE_POINTER_HEAP_BASE in B.
      apply mapped_outside; [lia|unfold KERNEL_PD_PA; lia].
Qed.

Lemma pde_index va : 0 <= va < 2 ^ 30 -> X64_GET_PDE_INDEX va = va / 2 ^ 21.
Proof.
  intros Hv. unfold X64_GET_PDE_INDEX. rewrite u32_id, index_spec by lia. apply Z.mod_small, va_split. done.
Qed.

Lemma map_2mb_spec s L pa va :
  tables_ok (ram_of s) (table_pointer_heap_base s) L -> table_pointer_heap_base s + 0x1000 < FAT_ADDRESS ->
  0 <= va < 2 ^ 30 ->
  mm_map_2mb_region pa va s =
    Done 0 (on_ram (mapped (va / 2 ^ 21) (table_pointer_heap_base s + 0x1000) pa 0x1B)
              (s <| table_pointer_heap_base := table_pointer_heap_base s + 0x1000 |>)).
Proof.
  intros Ht Hb Hv. pose proof (to_base _ _ _ Ht) as (B & _). unfold TABLE_POINTER_HEAP_BASE in B.
  destruct (va_split va Hv) as (_ & Hd & _).
  unfold mm_map_2mb_region. rewrite (bind_Done _ _ _ _ _ (get_table_spec s ltac:(lia) Hb)), pde_index by done.
  unfold NULL. zguard. by rewrite (bind_Done _ _ _ _ _ (fill_page_table_spec _ _ _ _ _ Hd)).
Qed.

(** ** Protection *)

(** The rights that the four levels give to ring 3 together. *)
Definition user_page (m : memory) (va pml4 : Z) : bool :=
  let e1 := entry m pml4 (va / 2 ^ 39 mod 512) in
  let e2 := entry m (frame e1) (va / 2 ^ 30 mod 512) in
  let e3 := entry m (frame e2) (va / 2 ^ 21 mod 512) in
  let e4 := entry m (frame e3) (va / 2 ^ 12 mod 512) in
  let all n := Z.testbit e1 n && Z.testbit e2 n && Z.testbit e3 n && Z.testbit e4 n in
  all 0 && all 2.

Lemma testbit_flags a f n : a mod 4096 = 0 -> 0 <= n < 12 -> Z.testbit (Z.lor a f) n = Z.testbit f n.
Proof.
  intros Ha Hn. rewrite Z.lor_spec. replace (Z.testbit a n) with false; [done|].
  rewrite <- (Z.mod_pow2_bits_low a 12 n) by lia. change (2 ^ 12) with 4096. rewrite Ha. by rewrite Z.bits_0.
Qed.

Lemma user_page_mapped m base L d pt pa fl o :
  tables_ok m base L -> L !! d = Some (pt, pa, fl) -> 0 <= o < 2 ^ 21 ->
  user_page m (2 ^ 21 * d + o) KERNEL_PML4_PA = Z.testbit fl 0 && Z.testbit fl 2.
Proof.
  intros Ht HL Ho. destruct (to_regions _ _ _ Ht d _ HL) as ((Hd & Hpt & Hal) & (Hpa & Hpal & Hfl) & Hpd & He).
  pose proof (to_base _ _ _ Ht) as (Hb & _). unfold TABLE_POINTER_HEAP_BASE, FAT_ADDRESS in *.
  destruct (va_parts d o Hd Ho) as (P1 & P2 & P3 & P4 & _).
  assert (0 <= o / 4096 < 512) as Ht' by (split; [apply Z.div_pos; lia|apply Z.div_lt_upper_bound; lia]).
  unfold user_page. rewrite P1, P2, P3, P4.
  rewrite (to_pml4 _ _ _ Ht), frame_lor, (to_pdpt _ _ _ Ht), frame_lor, Hpd, frame_lor, He by (done || lia).
  rewrite !(testbit_flags pt), !(testbit_flags (pa + _)), !(testbit_flags KERNEL_PDPT_PA), !(testbit_flags KERNEL_PD_PA);
    try done; try lia; [|rewrite (Z.mul_comm 4096), Z.mod_add by lia; done..].
  change (Z.testbit 7 0) with true. change (Z.testbit 7 2) with true. cbn [andb].
  by destruct (Z.testbit fl 0), (Z.testbit fl 2).
Qed.

Lemma user_page_unmapped m base L va :
  tables_ok m base L -> 0 <= va < 2 ^ 48 -> (va < 2 ^ 30 -> L !! (va / 2 ^ 21) = None) ->
  user_page m va KERNEL_PML4_PA = false.
Proof.
  intros Ht Hva HL. unfold user_page.
  assert (0 <= va / 2 ^ 39 < 512) as H1 by (split; [apply Z.div_pos; lia|apply Z.div_lt_upper_bound; lia]).
  rewrite (Z.mod_small (va / 2 ^ 39)) by done. destruct (decide (va / 2 ^ 39 = 0)) as [E1|N1].
  2: { rewrite (proj1 (to_rest _ _ _ Ht (va / 2 ^ 39) ltac:(lia))). reflexivity. }
  assert (va < 2 ^ 39) as L1 by (apply Z.div_small_iff in E1; lia).
  assert (0 <= va / 2 ^ 30 < 512) as H2 by (split; [apply Z.div_pos; lia|apply Z.div_lt_upper_bound; lia]).
  rewrite E1, (to_pml4 _ _ _ Ht), frame_lor, (Z.mod_small (va / 2 ^ 30)) by done.
  destruct (decide (va / 2 ^ 30 = 0)) as [E2|N2].
  2: { rewrite (proj2 (to_rest _ _ _ Ht (va / 2 ^ 30) ltac:(lia))). by rewrite andb_false_r. }
  assert (va < 2 ^ 30) as L2 by (apply Z.div_small_iff in E2; lia).
  destruct (va_split va ltac:(lia)) as (_ & Hd & _).
  rewrite E2, (to_pdpt _ _ _ Ht), frame_lor, (Z.mod_small (va / 2 ^ 21)), (to_free _ _ _ Ht _ Hd (HL L2)) by done.
  change (Z.testbit PAGE_WRITE 0) with false. by rewrite !andb_false_r.
Qed.

(** ** Lemmas: the boot directory *)

Lemma add_regions_other lfb cs base L d :
  Forall (fun c => region_index c <> d) cs -> add_regions lfb cs base L !! d = L !! d.
Proof.
  intros HF. revert base L. induction HF as [|c cs Hc HF IH]; intros base L; cbn [add_regions]; [done|].
  rewrite IH. by apply lookup_insert_ne.
Qed.

Lemma boot_directory_at lfb c : c ∈ boot_components ->
  exists pt, boot_directory lfb !! region_index c = Some (pt, canonical_pa lfb c, region_flags c).
Proof.
  intros Hc. unfold boot_directory, boot_components in *. clear -Hc.
  repeat (apply elem_of_cons in Hc as [-> |Hc]; [eexists; vm_compute; reflexivity|]). by apply not_elem_of_nil in Hc.
Qed.

Lemma boot_directory_none lfb d :
  Forall (fun c => region_index c <> d) boot_components -> boot_directory lfb !! d = None.
Proof. intros H. unfold boot_directory. by rewrite add_regions_other. Qed.

(** The component whose region holds an address, if one does. *)
Definition component_at (va : Z) : option mm_component :=
  head (filter (fun c => region_index c = va / 2 ^ 21) boot_components).

Lemma component_at_some va c : component_at va = Some c -> c ∈ boot_components /\ region_index c = va / 2 ^ 21.
Proof.
  unfold component_at. intros H. destruct (filter _ boot_components) as [|c' l] eqn:E; [done|]. injection H as ->.
  assert (c ∈ filter (fun c => region_index c = va / 2 ^ 21) boot_components) as Hin by (rewrite E; apply list_elem_of_here).
  apply list_elem_of_filter in Hin. tauto.
Qed.

Lemma component_at_none va : component_at va = None -> Forall (fun c => region_index c <> va / 2 ^ 21) boot_components.
Proof.
  unfold component_at. intros H. destruct (filter _ boot_components) as [|c' l] eqn:E; [|done].
  apply Forall_forall. intros c Hc N.
  assert (c ∈ filter (fun c => region_index c = va / 2 ^ 21) boot_components) as Hin by (apply list_elem_of_filter; done).
  rewrite E in Hin. by apply not_elem_of_nil in Hin.
Qed.

Lemma region_start c : 2 ^ 21 * region_index c = region_va c.
Proof. by destruct c. Qed.

Lemma high_index va k : 0 <= k -> 0 <= va < 2 ^ k -> Z.land (Z.shiftr va k) 0x1FF = 0.
Proof. intros Hk Hv. rewrite index_spec, Z.div_small by done. done. Qed.

Lemma virtual_to_physical_spec va pml4 s :
  0 <= va < 2 ^ 30 -> pml4 <> 0 -> virtual_to_physical va pml4 s = Done (walk (ram_of s) va pml4) s.
Proof.
  intros Hv Hp. unfold virtual_to_physical, __virtual_to_physical.
  rewrite (high_index va 39), (high_index va 30) by lia. change (negb (0 =? 0)) with false. cbn iota.
  apply Z.eqb_neq in Hp. rewrite Hp. done.
Qed.

(** ** The kernel's address space *)

(** [C5] [pagesInitializePaging] returns 0 with the kernel's PML4 in CR3 and ten
    of the 46 tables used. Each of its ten regions is then translated, over its
    whole 2 MB, to the physical region of its component, the front buffer to the
    address that the boot loader saved; every other entry of the directory is
    the empty one. *)
Theorem boot_translation (s : pgst) : boot_ready s ->
  exists s', pagesInitializePaging s = Done 0 s' /\ cr3 s' = KERNEL_PML4_PA /\ table_pointer_heap_base s' = 0xB000 /\
    (forall c o, c ∈ boot_components -> 0 <= o < 2 ^ 21 ->
       virtual_to_physical (region_va c + o) (cr3 s') s' = Done (canonical_pa (gSavedLFB s) c + o) s') /\
    (forall d, 0 <= d < 512 -> Forall (fun c => region_va c <> 2 ^ 21 * d) boot_components ->
       entry (ram_of s') KERNEL_PD_PA d = PAGE_WRITE).
Proof.
  intros Hr. destruct (boot_spec s Hr) as (s' & R & Hcr & _ & Ht & Hb & _). exists s'. split; [done|].
  split; [done|]. split; [done|]. rewrite Hcr. split.
  - intros c o Hc Ho. pose proof (region_index_range c). destruct (boot_directory_at (gSavedLFB s) c Hc) as (pt & HL).
    rewrite <- region_start. rewrite virtual_to_physical_spec by (done || lia).
    by rewrite (walk_mapped _ _ _ _ _ _ _ _ Ht HL).
  - intros d Hd HF. apply (to_free _ _ _ Ht d Hd). apply boot_directory_none.
    apply (Forall_impl _ _ _ HF). intros c Hc <-. apply Hc. symmetry. apply region_start.
Qed.

(** The regions that ring 3 may read and write. *)
Definition ring3_components : list mm_component :=
  [USER_BASE_C; FRONTBUFFER_C; BACKBUFFER_C; PAGEDPOOL_C; HEAPPOOL_C; EXTRAHEAP2_C; EXTRAHEAP3_C].

Lemma in_region c va : region_va c <= va < region_va c + 2 ^ 21 <-> region_index c = va / 2 ^ 21.
Proof.
  rewrite <- (region_start c). pose proof (Z.div_mod va (2 ^ 21)). pose proof (Z.mod_pos_bound va (2 ^ 21)).
  split; [intros Hv; apply (Z.div_unique _ _ _ (va - 2 ^ 21 * region_index c)); lia|intros E; rewrite E; lia].
Qed.

Lemma cga_not_mapped : CGA_C ∉ boot_components.
Proof. by apply (bool_decide_unpack _). Qed.

Lemma region_inj c c' : c ∈ boot_components -> c' ∈ boot_components -> region_index c = region_index c' -> c = c'.
Proof.
  intros Hc Hc' E. pose proof cga_not_mapped as N. clear -Hc Hc' E N. destruct c, c'; try done; exfalso; auto.
Qed.

Lemma ring3_flags c : c ∈ boot_components ->
  Z.testbit (region_flags c) 0 && Z.testbit (region_flags c) 2 = bool_decide (c ∈ ring3_components).
Proof.
  intros Hc. clear -Hc. unfold boot_components in *. 
  repeat (apply elem_of_cons in Hc as [-> |Hc]; [by vm_compute|]). by apply not_elem_of_nil in Hc.
Qed.

Lemma ring3_far lfb c : c ∈ ring3_components -> 0x1000000 <= lfb -> 0x1000000 <= canonical_pa lfb c.
Proof.
  intros Hc Hl. clear -Hc Hl. unfold ring3_components in *. 
  repeat (apply elem_of_cons in Hc as [-> |Hc]; [cbn [canonical_pa]; try done|]). by apply not_elem_of_nil in Hc.
Qed.

Lemma ring3_boot c : c ∈ ring3_components -> c ∈ boot_components.
Proof.
  intros Hc. unfold ring3_components, boot_components in *. clear -Hc.
  repeat (apply elem_of_cons in Hc as [-> |Hc]; [by apply (bool_decide_unpack _)|]). by apply not_elem_of_nil in Hc.
Qed.

(** [C7] Over the whole of the 48 bits of an address, the tables that
    [pagesInitializePaging] loads let ring 3 through exactly in the seven user
    regions. With a frame buffer over 16 MB, no access from ring 3 reaches the
    first 16 MB of memory, where the kernel, its tables and its stack lie. *)
Theorem boot_protection (s : pgst) (va : Z) : boot_ready s -> 0 <= va < 2 ^ 48 ->
  exists s', pagesInitializePaging s = Done 0 s' /\
    (user_page (ram_of s') va (cr3 s') = true <->
       exists c, c ∈ ring3_components /\ region_va c <= va < region_va c + 2 ^ 21) /\
    (0x1000000 <= gSavedLFB s -> user_page (ram_of s') va (cr3 s') = true ->
       0x1000000 <= walk (ram_of s') va (cr3 s')).
Proof.
  intros Hr Hva. destruct (boot_spec s Hr) as (s' & R & Hcr & _ & Ht & _). exists s'. split; [done|]. rewrite Hcr.
  destruct (component_at va) as [c|] eqn:Ec.
  - apply component_at_some in Ec as (Hc & Ei). destruct (boot_directory_at (gSavedLFB s) c Hc) as (pt & HL).
    pose proof (Z.mod_pos_bound va (2 ^ 21) ltac:(lia)) as Ho.
    assert (va = 2 ^ 21 * region_index c + va mod 2 ^ 21) as E by (rewrite Ei; apply Z.div_mod; lia).
    pose proof (user_page_mapped _ _ _ _ _ _ _ _ Ht HL Ho) as U. pose proof (walk_mapped _ _ _ _ _ _ _ _ Ht HL Ho) as W.
    rewrite <- E in U, W. rewrite U, W, (ring3_flags c Hc).
    rewrite bool_decide_eq_true. split; [split|].
    + intros Hc3. exists c. by rewrite in_region.
    + intros (c' & Hc' & Hv). apply in_region in Hv.
      by assert (c' = c) as <- by (apply region_inj; [by apply ring3_boot|done|congruence]).
    + intros Hl Hc3. pose proof (ring3_far _ c Hc3 Hl). lia.
  - apply component_at_none in Ec. pose proof (boot_directory_none (gSavedLFB s) _ Ec) as HL.
    rewrite (user_page_unmapped _ _ _ va Ht Hva (fun _ => HL)). rewrite Forall_forall in Ec.
    split; [split|done]; [done|]. intros (c & Hc & Hv). exfalso. apply in_region in Hv. by apply (Ec c (ring3_boot c Hc)).
Qed.

(** ** Later mappings *)

(** A script of calls of [mm_map_2mb_region]: the physical and the virtual addresses. *)
Definition map_script (script : list (Z * Z)) : K unit :=
  run_all (map (fun r => mm_map_2mb_region r.1 r.2;; mret tt) script) (mret tt).

(** The abstract address space: a function of the virtual address; a mapping
    replaces the 2 MB around its virtual address. *)
Definition remap (tr : Z -> Z) (r : Z * Z) : Z -> Z :=
  fun va => if va / 2 ^ 21 =? r.2 / 2 ^ 21 then r.1 + va mod 2 ^ 21 else tr va.

Definition good_mapping (r : Z * Z) : Prop := (0 <= r.1 < 2 ^ 47 /\ r.1 mod 4096 = 0) /\ 0 <= r.2 < 2 ^ 30.

(** The step of a script that has room for one table. *)
Lemma map_script_step pa va script s L :
  tables_ok (ram_of s) (table_pointer_heap_base s) L -> table_pointer_heap_base s + 0x1000 < FAT_ADDRESS ->
  good_mapping (pa, va) ->
  exists s1 L1, map_script ((pa, va) :: script) s = map_script script s1 /\
    table_pointer_heap_base s1 = table_pointer_heap_base s + 0x1000 /\
    tables_ok (ram_of s1) (table_pointer_heap_base s1) L1 /\
    ram_of s1 = mapped (va / 2 ^ 21) (table_pointer_heap_base s + 0x1000) pa 0x1B (ram_of s).
Proof.
  intros Ht Hb ((Hpa & Hal) & Hv). cbn [fst snd] in *. destruct (va_split va Hv) as (_ & Hd & _).
  exists (on_ram (mapped (va / 2 ^ 21) (table_pointer_heap_base s + 0x1000) pa 0x1B)
    (s <| table_pointer_heap_base := table_pointer_heap_base s + 0x1000 |>)).
  exists (<[va / 2 ^ 21 := (table_pointer_heap_base s + 0x1000, pa, 0x1B)]> L).
  split; [|split; [done|split; [apply mapped_tables; done || lia|done]]].
  unfold map_script. cbn [map run_all foldr fst snd].
  by erewrite (bind_Done (_ ≫= _)) by (rewrite (bind_Done _ _ _ _ _ (map_2mb_spec s L pa va Ht Hb Hv)); reflexivity).
Qed.

Lemma foldl_remap_ext script (f g : Z -> Z) x : f x = g x -> foldl remap f script x = foldl remap g script x.
Proof.
  revert f g. induction script as [|r script IH]; intros f g E; cbn [foldl]; [done|].
  apply IH. unfold remap. by rewrite E.
Qed.

Lemma map_script_full script s L :
  tables_ok (ram_of s) (table_pointer_heap_base s) L -> Forall good_mapping script ->
  FAT_ADDRESS <= table_pointer_heap_base s + 0x1000 * Z.of_nat (length script) ->
  map_script script s = Panic "get_table_pointer_va: [FIXME] Limits".
Proof.
  intros Ht HF. revert s L Ht. induction HF as [|[pa va] script Hg HF IH]; intros s L Ht Hfull;
    pose proof (to_base _ _ _ Ht) as (B & _); cbn [length] in *; [lia|].
  destruct (decide (table_pointer_heap_base s + 0x1000 < FAT_ADDRESS)) as [Hb|Hb].
  - destruct (map_script_step pa va script s L Ht Hb Hg) as (s1 & L1 & -> & Hb1 & Ht1 & _).
    apply (IH s1 L1 Ht1). lia.
  - unfold map_script. cbn [map run_all foldr fst snd]. apply bind_Panic, bind_Panic. unfold mm_map_2mb_region.
    apply bind_Panic. unfold get_table_pointer_va. rewrite bind_modify, bind_gets.
    unfold TABLE_POINTER_HEAP_BASE, FAT_ADDRESS in *. rewrite u64_id by lia.
    set (b := table_pointer_heap_base s + 0x1000) in *. change (table_pointer_heap_base _) with b. by zguard.
Qed.

(** [C24] The implementation refines an address space that is a function: after
    any script of calls of [mm_map_2mb_region], the translation of every address
    is the last mapping of its 2 MB, or what it was before; with one table per
    call, the first call past the limit of the heap of tables panics. *)
Theorem map_2mb_refines (script : list (Z * Z)) (s : pgst) (L : directory) :
  tables_ok (ram_of s) (table_pointer_heap_base s) L -> Forall good_mapping script ->
  (table_pointer_heap_base s + 0x1000 * Z.of_nat (length script) < FAT_ADDRESS ->
   exists s', map_script script s = Done tt s' /\
     forall va, 0 <= va < 2 ^ 30 ->
       walk (ram_of s') va KERNEL_PML4_PA = foldl remap (fun va => walk (ram_of s) va KERNEL_PML4_PA) script va) /\
  (FAT_ADDRESS <= table_pointer_heap_base s + 0x1000 * Z.of_nat (length script) ->
   map_script script s = Panic "get_table_pointer_va: [FIXME] Limits").
Proof.
  intros Ht HF. split; [|by apply (map_script_full _ _ L)].
  revert s L Ht. induction HF as [|[pa va0] script Hg HF IH]; intros s L Ht Hroom; [by exists s|].
  cbn [length] in *. assert (table_pointer_heap_base s + 0x1000 < FAT_ADDRESS) as Hb by lia.
  destruct (map_script_step pa va0 script s L Ht Hb Hg) as (s1 & L1 & E & Hb1 & Ht1 & Hram).
  destruct (IH s1 L1 Ht1) as (s' & R & Hw); [lia|]. exists s'. split; [by rewrite E|].
  intros va Hva. rewrite (Hw va Hva). cbn [foldl]. apply foldl_remap_ext. unfold remap. cbn [fst snd]. rewrite Hram.
  destruct Hg as ((Hpa & Hal) & Hv0). destruct (va_split va0 Hv0) as (_ & Hd & _).
  apply (walk_after (ram_of s) _ L (va0 / 2 ^ 21) pa 0x1B va); done || lia.
Qed.

(** [virtual_to_physical] reports no error for an address that nothing maps:
    it takes the empty entry of the directory for a table at address 0 and
    returns whatever lies there, so that the answer depends on the first 4096
    bytes of memory and not on the tables. Over 1 GB it never returns, and
    without a PML4 it panics. *)
Theorem unmapped_translates (s : pgst) (L : directory) (va : Z) :
  tables_ok (ram_of s) (table_pointer_heap_base s) L -> 0 <= va < 2 ^ 48 ->
  (va < 2 ^ 30 -> L !! (va / 2 ^ 21) = None ->
   virtual_to_physical va KERNEL_PML4_PA s =
     Done (u64 (frame (entry (ram_of s) 0 (va mod 2 ^ 21 / 4096)) + va mod 4096)) s) /\
  (2 ^ 30 <= va -> forall pml4, virtual_to_physical va pml4 s = OutOfFuel) /\
  (va < 2 ^ 30 -> virtual_to_physical va 0 s = Panic "__virtual_to_physical: [FAIL] Invalid pml4_va").
Proof.
  intros Ht Hva. split; [|split].
  - intros Hv HL. rewrite virtual_to_physical_spec by (done || lia). destruct (va_split va ltac:(lia)) as (E & Hd & Ho).
    rewrite E at 1. rewrite (walk_unmapped _ _ _ _ _ Ht Hd HL Ho). f_equal. f_equal. f_equal.
    rewrite E at 2. replace (2 ^ 21 * (va / 2 ^ 21) + va mod 2 ^ 21) with (va mod 2 ^ 21 + (512 * (va / 2 ^ 21)) * 4096) by lia.
    by rewrite Z.mod_add.
  - intros Hv pml4. unfold virtual_to_physical, __virtual_to_physical. rewrite !index_spec by lia.
    destruct (negb (va / 2 ^ 39 mod 512 =? 0)) eqn:E1; [done|]. destruct (negb (va / 2 ^ 30 mod 512 =? 0)) eqn:E2; [done|].
    exfalso. apply negb_false_iff, Z.eqb_eq in E1, E2.
    rewrite Z.mod_small in E1 by (split; [apply Z.div_pos; lia|apply Z.div_lt_upper_bound; lia]).
    assert (va < 2 ^ 39) by (apply Z.div_small_iff in E1; lia).
    rewrite Z.mod_small in E2 by (split; [apply Z.div_pos; lia|apply Z.div_lt_upper_bound; lia]).
    apply Z.div_small_iff in E2; lia.
  - intros Hv. unfold virtual_to_physical, __virtual_to_physical.
    by rewrite (high_index va 39), (high_index va 30) by lia.
Qed.

(** ** Witnesses *)

(** 256 MB of memory, a frame buffer at 0xE0000000, all bytes zero. *)
Definition sample_pgst (m : memory) : pgst :=
  mk_pgst ((booted sample_mst) <| mem := m |>) TABLE_POINTER_HEAP_BASE 0 0 (mk_mm_data 0 0 0 0 0 0 0 0) 0xE0000000
    (fun _ => 0) (fun _ => 0) (fun _ => 0) (fun _ => 0) (fun _ => 0) (fun _ => 0) (fun _ => 0) (fun _ => 0)
    0 (fun _ => 0) (fun _ => 0) 0 0 0 640 640 384 261120 262144 0 0 TRUE stSmallSystem
    (mk_frame_table 0 0 0 0 0 0 0 0 0 0 0 0 0) (mk_newpagedpool 0 0 0 0 0 [0; 0; 0; 0])
    (replicate 512 0) ∅.

Lemma sample_boot_ready : boot_ready (sample_pgst (fun _ => 0)).
Proof. constructor; try done. Qed.

(** The memory with the three directories of the kernel, before any region. *)
Definition linked_pgst : pgst := sample_pgst (linked (fun _ => 0)).

Lemma sample_regions :
  FRONTBUFFER_C ∈ boot_components /\ USER_BASE_C ∈ ring3_components /\
  Forall (fun c => region_va c <> 2 ^ 21 * 2) boot_components.
Proof. split; [|split; [|by repeat constructor]]; unfold boot_components, ring3_components; rewrite !elem_of_cons; tauto. Qed.

Lemma boot_translation_witness :
  exists s', pagesInitializePaging (sample_pgst (fun _ => 0)) = Done 0 s' /\
    virtual_to_physical 0x30212345 (cr3 s') s' = Done 0xE0012345 s' /\ entry (ram_of s') KERNEL_PD_PA 2 = PAGE_WRITE.
Proof.
  assert (0 <= 0x12345 < 2 ^ 21 /\ 0 <= 2 < 512) as (Ho & Hd) by lia. destruct sample_regions as (Hc & _ & Hf).
  destruct (boot_translation (sample_pgst (fun _ => 0)) sample_boot_ready) as (s' & R & _ & _ & H1 & H2).
  exists s'. exact (conj R (conj (H1 FRONTBUFFER_C 0x12345 Hc Ho) (H2 2 Hd Hf))).
Defined.

Lemma kernel_image_alone c : c ∈ ring3_components -> ~ (region_va c <= 0x30001000 < region_va c + 2 ^ 21).
Proof.
  intros Hc. unfold ring3_components in Hc.
  repeat (apply elem_of_cons in Hc as [-> |Hc];
    [cbn [region_va]; unfold RING3AREA_VA, FRONTBUFFER_VA, BACKBUFFER_VA, PAGEDPOOL_VA, HEAPPOOL_VA, EXTRAHEAP2_VA, EXTRAHEAP3_VA; lia|]).
  by apply not_elem_of_nil in Hc.
Qed.

Lemma boot_protection_witness :
  exists s', pagesInitializePaging (sample_pgst (fun _ => 0)) = Done 0 s' /\
    user_page (ram_of s') 0x30001000 (cr3 s') <> true /\ user_page (ram_of s') 0x201000 (cr3 s') = true.
Proof.
  assert (0 <= 0x30001000 < 2 ^ 48 /\ 0 <= 0x201000 < 2 ^ 48) as (V1 & V2) by lia.
  assert (region_va USER_BASE_C <= 0x201000 < region_va USER_BASE_C + 2 ^ 21) as Hu by by cbn [region_va].
  destruct (boot_protection (sample_pgst (fun _ => 0)) 0x30001000 sample_boot_ready V1) as (s' & R & H & _).
  destruct (boot_protection (sample_pgst (fun _ => 0)) 0x201000 sample_boot_ready V2) as (s2 & R2 & H2 & _).
  pose proof (eq_trans (eq_sym R2) R) as E. injection E as E. rewrite E in H2. exists s'.
  refine (conj R (conj (fun U => _) (proj2 H2 (ex_intro _ USER_BASE_C (conj (proj1 (proj2 sample_regions)) Hu))))).
  apply H in U as (c & Hc & Hv). exact (kernel_image_alone c Hc Hv).
Defined.

Lemma map_2mb_refines_witness :
  exists s', map_script [(0x1000000, 0x10000000); (0x2000000, 0x10000000)] linked_pgst = Done tt s' /\
    walk (ram_of s') 0x10000005 KERNEL_PML4_PA = 0x2000005.
Proof.
  destruct (map_2mb_refines [(0x1000000, 0x10000000); (0x2000000, 0x10000000)] linked_pgst ∅
    (linked_tables _)) as (H & _); [by repeat constructor|].
  destruct (H eq_refl) as (s' & R & W). exists s'. split; [exact R|]. by rewrite W.
Defined.

Lemma unmapped_translates_witness :
  virtual_to_physical 0x10000005 KERNEL_PML4_PA linked_pgst =
    Done (u64 (frame (entry (ram_of linked_pgst) 0 0) + 5)) linked_pgst.
Proof.
  assert (0 <= 0x10000005 < 2 ^ 48 /\ 0x10000005 < 2 ^ 30) as (V1 & V2) by lia.
  exact (proj1 (unmapped_translates linked_pgst ∅ 0x10000005 (linked_tables _) V1) V2 eq_refl).
Defined.
