(* ===== verification/AddressSpace.v ===== *)
(** * AddressSpace: the pool of pages and the tables of a clone

    res/mm/mmpool.c (one structure per page of the paged pool), the part of
    core/ke/intake/process.c and clone.c that gives a clone its memory: the slab
    of the image, the stack, and the four tables of its address space, which are
    copies of the kernel's with the image mapped at 0x200000. A process's
    memory fields are a record of their own, indexed by the process's address
    as the structure itself is. *)
From Stdlib Require Import ZArith Lia.
From stdpp Require Import base gmap list strings.
From S2P Require Import Config Prelude Strings Memory Process Samples Heap Paging.

#[local] Open Scope Z_scope.
#[local] Open Scope gramado_scope.

Definition PAGE_COUNT_MAX : Z := 512.
Definition PAGE_SIZE : Z := 4096.
Definition SIZEOF_PAGE : Z := 40.
Definition CONTROLTHREAD_BASE : Z := 0x200000.
Definition CONTROLTHREAD_ENTRYPOINT : Z := 0x201000.
Definition CONTROLTHREAD_STACK : Z := 0x3FFFF0.
Definition IMAGESIZE_LIMIT_IN_KB : Z := 405.

#[local] Abbreviation K := (M pgst).

(** ** mmpool.c *)

Definition page_slot (i : Z) : K Z := getsome (fun s => zlookup (pageAllocList s) i).
Definition set_page_slot (i p : Z) : K unit :=
  modify (fun s => s <| pageAllocList := zinsert (pageAllocList s) i p |>).
Definition put_page (p : Z) (x : page_d) : K unit :=
  modify (fun s => s <| page_structs := <[p := x]> (page_structs s) |>).

(** A structure as [memset] and the assignments that follow it leave it. *)
Definition new_page_d (slot : Z) : page_d := mk_page slot TRUE 1234 0 0 0 0 NULL.

(** The loop over the slots; [n] slots are left from [slot] on. *)
Fixpoint page_object_loop (n : nat) (slot : Z) : K Z :=
  match n with
  | O => mret NULL
  | S n =>
      x ← page_slot slot;
      if x =? NULL then
        New ← on_heap (kmalloc SIZEOF_PAGE);
        if New =? NULL then mret NULL else
        put_page New (new_page_d slot);;
        set_page_slot slot New;;
        mret New
      else page_object_loop n (slot + 1)
  end.

Definition __pageObject : K Z := page_object_loop (Z.to_nat PAGE_COUNT_MAX) 0.

Definition newPage : K Z :=
  base ← gets (fun s => g_va s PAGEDPOOL_C);
  if base =? 0 then panic "newPage: base" else
  New ← __pageObject;
  if New =? NULL then panic "newPage: New" else
  x ← deref_page New;
  if negb (pg_used x =? TRUE) then panic "newPage: New used" else
  if negb (pg_magic x =? 1234) then panic "newPage: New magic" else
  if pg_id x <? 0 then panic "newPage: id underflow" else
  if PAGE_COUNT_MAX <=? pg_id x then panic "newPage: id overflow" else
  update_page New (fun x => x <| pg_locked := FALSE |>);;
  update_page New (fun x => x <| ref_count := 1 |>);;
  let va := u64 (base + u64 (i32 (pg_id x * PAGE_SIZE))) in
  if va =? 0 then panic "newPage: va==0" else
  pml4 ← gets gKernelPML4Address;
  pa ← virtual_to_physical va pml4;
  if pa =? 0 then panic "newPage: pa==0" else
  let alignedPA := if negb (pa mod PAGE_SIZE =? 0) then pa - pa mod PAGE_SIZE else pa in
  update_page New (fun x => x <| absolute_frame_number := u32 (alignedPA / PAGE_SIZE) |>);;
  mret va.

Definition mm_alloc_single_page : K Z := newPage.
Definition mm_alloc_contig_pages (size : Z) : K Z := panic "mm_alloc_contig_pages: [TODO] its a work in progress".

(** The loop over the slots with its [goto tryAgain]; the fuel counts the slots
    that are read, each at most once. *)
Fixpoint first_slot_loop (fuel : nat) (size Base Count i : Z) : K Z :=
  match fuel with
  | O => diverge
  | S fuel =>
      if negb (i <? PAGE_COUNT_MAX) then mret (-1) else
      slot ← page_slot i;
      if negb (slot =? NULL) then
        let Base := Base + Count + 1 in
        first_slot_loop fuel size Base 0 Base
      else
        let Count := Count + 1 in
        if size <=? Count then mret Base else first_slot_loop fuel size Base Count (i + 1)
  end.

Definition __firstSlotForAList (size : Z) : K Z := first_slot_loop (S (Z.to_nat PAGE_COUNT_MAX)) size 0 0 0.

(** The loop of [allocPages] over the slots [slot] to [first + size].
    [conductor] is the variable [pageConductor], which nothing initializes:
    [None] until it is assigned. *)
Fixpoint alloc_pages_loop (n : nat) (process : option Z) (base pml4 size first slot Count : Z) (conductor : option Z) : K Z :=
  match n with
  | O => panic "allocPages: fail"
  | S n =>
      p ← page_slot slot;
      if p =? NULL then
        p ← on_heap (kmalloc SIZEOF_PAGE);
        if p =? NULL then panic "allocPages: fail 2" else
        put_page p ((new_page_d slot) <| ref_count := 1 |>);;
        pa ← virtual_to_physical (u64 (base + slot * PAGE_SIZE)) pml4;
        let pa := if negb (pa mod PAGE_SIZE =? 0) then pa - pa mod PAGE_SIZE else pa in
        update_page p (fun x => x <| absolute_frame_number := u32 (pa / PAGE_SIZE) |>);;
        set_page_slot slot p;;
        c ← getsome (fun _ => conductor);
        update_page c (fun x => x <| pg_next := p |>);;
        if size <=? Count + 1 then
          Ret ← page_slot first;
          (match process with
           | Some process => on_heap (on_mptab (update_process process (fun x =>
               x <| p_allocated_memory := u64 (p_allocated_memory x + size * PAGE_SIZE) |>)))
           | None => mret tt
           end);;
          r ← deref_page Ret;
          mret (u64 (base + pg_id r * PAGE_SIZE))
        else alloc_pages_loop n process base pml4 size first (slot + 1) (Count + 1) (Some p)
      else alloc_pages_loop n process base pml4 size first (slot + 1) Count conductor
  end.

(** The process whose counter grows: the magic number is read even of a null
    pointer. *)
Definition allocPages (size : Z) : K Z :=
  base ← gets (fun s => g_va s PAGEDPOOL_C);
  process ← on_heap (on_mptab get_current_process_pointer);
  x ← on_heap (on_mptab (deref_process process));
  let counted := if (process =? NULL) || negb (p_magic x =? 1234) then None else Some process in
  if size <=? 0 then panic "allocPages: size 0" else
  if size =? 1 then
    final_va ← newPage;
    (if negb (final_va =? NULL) then
       modify (on_ram (memset final_va 0 PAGE_SIZE));;
       match counted with
       | Some process => on_heap (on_mptab (update_process process (fun x =>
           x <| p_allocated_memory := u64 (p_allocated_memory x + PAGE_SIZE) |>)))
       | None => mret tt
       end
     else mret tt);;
    mret final_va
  else if PAGE_COUNT_MAX <=? size then panic "allocPages: size limits" else
  first ← __firstSlotForAList size;
  if first =? -1 then panic "allocPages: No more free slots" else
  pml4 ← gets gKernelPML4Address;
  alloc_pages_loop (Z.to_nat (size + 1)) counted base pml4 size first first 0 None.

Definition mmAllocPage : K Z := newPage.
Definition mmAllocPages (size : Z) : K Z := allocPages size.

Definition initializeFramesAlloc : K unit :=
  modify (fun s => s <| pageAllocList := replicate (Z.to_nat PAGE_COUNT_MAX) 0 |>);;
  p ← on_heap (kmalloc SIZEOF_PAGE);
  if p =? NULL then panic "initializeFramesAlloc:" else
  put_page p ((new_page_d 0) <| pg_free := TRUE |>);;
  set_page_slot 0 p.

(** ** The memory of a process *)

(** The memory fields of struct process_d. *)
Record process_mm := mk_process_mm {
  pml4_VA : Z; pml4_PA : Z; pdpt0_VA : Z; pdpt0_PA : Z; pd0_VA : Z; pd0_PA : Z;
  Image : Z; ImagePA : Z;
  childImage : Z; childStack : Z; childImage_PA : Z; childStackPA : Z
}.

#[export] Instance eta_process_mm : Eta process_mm := fun r =>
  mk_process_mm (pml4_VA r) (pml4_PA r) (pdpt0_VA r) (pdpt0_PA r) (pd0_VA r) (pd0_PA r) (Image r) (ImagePA r)
    (childImage r) (childStack r) (childImage_PA r) (childStackPA r).
#[export] Instance set_pml4_VA : Setter pml4_VA. Proof. solve_setter. Defined.
#[export] Instance set_pml4_PA : Setter pml4_PA. Proof. solve_setter. Defined.
#[export] Instance set_pdpt0_VA : Setter pdpt0_VA. Proof. solve_setter. Defined.
#[export] Instance set_pdpt0_PA : Setter pdpt0_PA. Proof. solve_setter. Defined.
#[export] Instance set_pd0_VA : Setter pd0_VA. Proof. solve_setter. Defined.
#[export] Instance set_pd0_PA : Setter pd0_PA. Proof. solve_setter. Defined.
#[export] Instance set_Image : Setter Image. Proof. solve_setter. Defined.
#[export] Instance set_ImagePA : Setter ImagePA. Proof. solve_setter. Defined.
#[export] Instance set_childImage : Setter childImage. Proof. solve_setter. Defined.
#[export] Instance set_childStack : Setter childStack. Proof. solve_setter. Defined.
#[export] Instance set_childImage_PA : Setter childImage_PA. Proof. solve_setter. Defined.
#[export] Instance set_childStackPA : Setter childStackPA. Proof. solve_setter. Defined.

Record asst := mk_asst { pg : pgst; pmm : gmap Z process_mm }.

#[export] Instance eta_asst : Eta asst := fun r => mk_asst (pg r) (pmm r).
#[export] Instance set_pg : Setter pg. Proof. solve_setter. Defined.
#[export] Instance set_pmm : Setter pmm. Proof. solve_setter. Defined.

Definition on_pg {A} (m : K A) : M asst A := fun s =>
  match m (pg s) with
  | Done a g => Done a (s <| pg := g |>)
  | Panic msg => Panic msg
  | Undef => Undef
  | Leave g => Leave (s <| pg := g |>)
  | OutOfFuel => OutOfFuel
  end.

Definition deref_mm (p : Z) : M asst process_mm := getsome (fun s => pmm s !! p).
Definition update_mm (p : Z) (f : process_mm -> process_mm) : M asst unit :=
  x ← deref_mm p; modify (fun s => s <| pmm := <[p := f x]> (pmm s) |>).

(** [virtual_to_physical(va, gKernelPML4Address)] *)
Definition kernel_pa (va : Z) : M asst Z :=
  pml4 ← on_pg (gets gKernelPML4Address);
  on_pg (virtual_to_physical va pml4).

(** ** process.c *)

Definition memcpy_ram (dst src n : Z) : M asst unit :=
  on_pg (modify (on_ram (memcpy dst src n))).

Definition alloc_memory_for_image_and_stack (process : Z) : M asst Z :=
  if process =? NULL then panic "alloc_memory_for_image_and_stack: process" else
  p ← on_pg (on_heap (on_mptab (deref_process process)));
  if negb (p_magic p =? 1234) then panic "alloc_memory_for_image_and_stack: process validation" else
  let number_of_pages_on_image := IMAGESIZE_LIMIT_IN_KB * 1024 / 4096 in
  base ← on_pg slab_1MB_allocator;
  __new_base ← (if base =? 0 then on_pg (mmAllocPages number_of_pages_on_image) else mret base);
  if __new_base =? 0 then panic "alloc_memory_for_image_and_stack: __new_base" else
  on_pg (modify (on_ram (memset __new_base 0 (IMAGESIZE_LIMIT_IN_KB * 1024))));;
  __new_stack ← on_pg (mmAllocPages (32 * 1024 / 4096));
  if __new_stack =? 0 then panic "alloc_memory_for_image_and_stack: __new_stack" else
  on_pg (modify (on_ram (memset __new_stack 0 (32 * 1024))));;
  memcpy_ram __new_base CONTROLTHREAD_ENTRYPOINT (IMAGESIZE_LIMIT_IN_KB * 1024);;
  memcpy_ram __new_stack (CONTROLTHREAD_STACK - 32 * 1024) (32 * 1024);;
  new_base_PA ← kernel_pa __new_base;
  new_stack_PA ← kernel_pa __new_stack;
  if new_base_PA =? 0 then panic "alloc_memory_for_image_and_stack: new_base_PA" else
  if new_stack_PA =? 0 then mret (-1) else
  update_mm process (fun x => x <| childImage := __new_base |> <| childStack := __new_stack |>
    <| childImage_PA := new_base_PA |> <| childStackPA := new_stack_PA |>);;
  mret 0.

(** ** clone.c: the address space of the child *)

(** [table[i] = e; table[i] = table[i] | flags]. *)
Definition link_entry (table i e flags : Z) (m : memory) : memory :=
  let m1 := store64 (table + 8 * i) e m in
  store64 (table + 8 * i) (Z.lor (entry m1 table i) flags) m1.

(** The PML4 of the clone, before the child exists. *)
Definition clone_pml4_step : M asst Z :=
  _pml4 ← on_pg CloneKernelPML4;
  if _pml4 =? NULL then panic "copy_process: _pml4" else mret _pml4.

(** The tables of the child, first its parent's. *)
Definition clone_parent_tables (parent child _pml4 : Z) : M asst unit :=
  update_mm child (fun c => c <| pml4_VA := _pml4 |>);;
  c ← deref_mm child;
  if pml4_VA c =? NULL then panic "copy_process: [FAIL] child_process->pml4_VA" else
  pa ← kernel_pa (pml4_VA c);
  p ← deref_mm parent;
  update_mm child (fun c => c <| pml4_PA := pa |> <| pdpt0_VA := pdpt0_VA p |> <| pdpt0_PA := pdpt0_PA p |>
    <| pd0_VA := pd0_VA p |> <| pd0_PA := pd0_PA p |>).

(** The image that was allocated for the child becomes its own. *)
Definition clone_image (parent child : Z) : M asst unit :=
  p ← deref_mm parent;
  update_mm child (fun c => c <| Image := childImage p |> <| ImagePA := childImage_PA p |>);;
  c ← deref_mm child;
  if Image c =? NULL then panic "copy_process: [FAIL] child_process->Image" else
  if ImagePA c =? NULL then panic "copy_process: [FAIL] child_process->ImagePA" else mret tt.

(** The page table of the image, the copies of the kernel's directories, and
    the entries that link the four levels. *)
Definition clone_tables (child : Z) : M asst unit :=
  c ← deref_mm child;
  if pml4_VA c =? NULL then panic "copy_process: [2nd time] child_process->pml4_VA" else
  if pdpt0_VA c =? NULL then panic "copy_process: [2nd time] child_process->pdpt0_VA" else
  if pd0_VA c =? NULL then panic "copy_process: [2nd time] child_process->pd0_VA" else
  ptVA ← on_pg get_table_pointer_va;
  if ptVA =? 0 then panic "copy_process: [FAIL] ptVA" else
  ptPA ← kernel_pa ptVA;
  pd ← on_pg CloneKernelPD0;
  update_mm child (fun c => c <| pd0_VA := pd |>);;
  pdPA ← kernel_pa pd;
  update_mm child (fun c => c <| pd0_PA := pdPA |>);;
  if pd =? 0 then panic "copy_process: child_process->pd0_VA==0" else
  if pdPA =? 0 then panic "copy_process: child_process->pd0_PA==0" else
  let __pdindex := X64_GET_PDE_INDEX CONTROLTHREAD_BASE in
  let __flags := Z.lor (Z.lor PAGE_USER PAGE_WRITE) PAGE_PRESENT in
  on_pg (mm_fill_page_table pd __pdindex ptVA (ImagePA c) __flags);;
  update_mm child (fun c => c <| Image := CONTROLTHREAD_BASE |>);;
  pdpt ← on_pg CloneKernelPDPT0;
  update_mm child (fun c => c <| pdpt0_VA := pdpt |>);;
  pdptPA ← kernel_pa pdpt;
  update_mm child (fun c => c <| pdpt0_PA := pdptPA |>);;
  if pdpt =? 0 then panic "copy_process: child_process->pdpt0_VA==0" else
  if pdptPA =? 0 then panic "copy_process: child_process->pdpt0_PA==0" else
  on_pg (modify (on_ram (link_entry pd __pdindex ptPA __flags)));;
  on_pg (modify (on_ram (link_entry pdpt 0 pdPA 7)));;
  on_pg (modify (on_ram (link_entry (pml4_VA c) 0 pdptPA 7))).

Definition clone_address_space (parent child : Z) : M asst unit :=
  _pml4 ← clone_pml4_step;
  clone_parent_tables parent child _pml4;;
  clone_image parent child;;
  clone_tables child.

(** ** Specification *)

(** [n] slots are free from [b] on. *)
Definition run_free (l : list Z) (b n : Z) : Prop := forall i, b <= i < b + n -> zlookup l i = Some 0.

(** The first run of [size] free slots. *)
Definition first_run (l : list Z) (size r : Z) : Prop :=
  (0 <= r /\ run_free l r size /\ forall b, 0 <= b < r -> ~ run_free l b size) \/
  (r = -1 /\ forall b, 0 <= b -> ~ run_free l b size).

Lemma page_slot_at i x s : zlookup (pageAllocList s) i = Some x -> page_slot i s = Done x s.
Proof. intros H. unfold page_slot, getsome. by rewrite H. Qed.

Lemma first_slot_loop_spec fuel l size Base Count s :
  pageAllocList s = l -> length l = Z.to_nat PAGE_COUNT_MAX -> 0 < size ->
  0 <= Base -> 0 <= Count < size -> Base + Count <= PAGE_COUNT_MAX -> run_free l Base Count ->
  (forall b, 0 <= b < Base -> ~ run_free l b size) -> PAGE_COUNT_MAX - (Base + Count) < Z.of_nat fuel ->
  exists r, first_slot_loop fuel size Base Count (Base + Count) s = Done r s /\ first_run l size r.
Proof.
  intros Hl Hlen Hsz. revert Base Count. induction fuel as [|fuel IH]; intros Base Count HB HC Hmax Hrun Hno Hfuel; [lia|].
  cbn [first_slot_loop]. destruct (Z.ltb_spec (Base + Count) PAGE_COUNT_MAX) as [Hlt|Hge]; cbn [negb].
  - destruct (zlookup_some l (Base + Count)) as (x & Hx); [rewrite Hlen; unfold PAGE_COUNT_MAX in *; lia|].
    rewrite <- Hl in Hx. rewrite (bind_Done _ _ _ _ _ (page_slot_at _ _ _ Hx)). rewrite Hl in Hx.
    unfold NULL. destruct (Z.eqb_spec x 0) as [->|N]; cbn [negb].
    + assert (run_free l Base (Count + 1)) as Hrun'.
      { intros i Hi. destruct (decide (i = Base + Count)) as [->|]; [done|]. apply Hrun. lia. }
      destruct (Z.leb_spec size (Count + 1)).
      * exists Base. split; [done|]. left. replace size with (Count + 1) in * by lia. done.
      * replace (Base + Count + 1) with (Base + (Count + 1)) by lia. apply IH; try done; lia.
    + specialize (IH (Base + Count + 1) 0). rewrite !Z.add_0_r in IH. apply IH; try lia.
      * intros i Hi. lia.
      * intros b Hb Hr. destruct (decide (b < Base)) as [|]; [exact (Hno b ltac:(lia) Hr)|].
        rewrite (Hr (Base + Count)) in Hx by lia. congruence.
  - exists (-1). split; [done|]. right. split; [done|]. intros b Hb Hr.
    destruct (decide (b < Base)); [exact (Hno b ltac:(lia) Hr)|]. specialize (Hr (b + size - 1) ltac:(lia)).
    apply zlookup_lt in Hr. rewrite Hlen in Hr. unfold PAGE_COUNT_MAX in *. lia.
Qed.

(** [C37] [__firstSlotForAList] always returns, in at most one reading of each of
    the 512 slots, and what it returns is the index of the first run of [size]
    free slots of the list, or -1 when there is no such run. *)
Theorem first_slot_spec (size : Z) (s : pgst) :
  length (pageAllocList s) = Z.to_nat PAGE_COUNT_MAX -> 0 < size ->
  exists r, __firstSlotForAList size s = Done r s /\ first_run (pageAllocList s) size r.
Proof.
  intros Hlen Hsz. apply (first_slot_loop_spec _ _ size 0 0 s eq_refl Hlen); unfold PAGE_COUNT_MAX; try lia.
  intros i Hi. lia.
Qed.

(** ** Lemmas: the pool *)

(** What [newPage] relies on: the first [k] slots are taken and the others free,
    the heap has a current process to account to, and the paged pool is mapped. *)
Record pool_ready (k : nat) (hl : list Z) (p : Z) (x : process_d) (s : pgst) : Prop := {
  pr_slots : exists used, pageAllocList s = used ++ replicate (512 - k) 0 /\ length used = k /\ Forall (fun a => a <> 0) used;
  pr_limit : (k <= 512)%nat;
  pr_base : g_va s PAGEDPOOL_C = PAGEDPOOL_VA;
  pr_pml4 : gKernelPML4Address s = KERNEL_PML4_PA;
  pr_map : forall o, 0 <= o < 2 ^ 21 -> walk (ram_of s) (PAGEDPOOL_VA + o) KERNEL_PML4_PA = PAGEDPOOL1_PA + o;
  pr_heap : wf_heap (kh s) hl;
  pr_process : current_valid (mptab (kh s)) p x
}.

(** Room in the kernel heap for [n] structures. *)
Definition page_room (n : nat) (hl : list Z) (s : pgst) : Prop :=
  Z.of_nat n * (SIZEOF_PAGE + MMBLOCK_SIZE) <= g_available_heap (kh s) /\
  Z.of_nat (length hl) + Z.of_nat n < MMBLOCK_COUNT_MAX.

Lemma on_heap_run {A} (m : M mst A) s a h : m (kh s) = Done a h -> on_heap m s = Done a (s <| kh := h |>).
Proof. intros H. unfold on_heap. by rewrite H. Qed.

(** The search goes to the first free slot. *)
Lemma page_object_loop_skip used rest n slot s :
  (exists before, pageAllocList s = before ++ used ++ rest /\ slot = Z.of_nat (length before)) ->
  Forall (fun a => a <> 0) used -> (length used <= n)%nat ->
  page_object_loop n slot s = page_object_loop (n - length used) (slot + Z.of_nat (length used)) s.
Proof.
  intros (before & Hl & Hs) Hu. revert n slot before Hl Hs. induction Hu as [|a used Ha Hu IH]; intros n slot before Hl Hs Hn.
  { cbn [length]. by rewrite Nat.sub_0_r, Z.add_0_r. }
  cbn [length] in *. destruct n as [|n]; [lia|]. cbn [page_object_loop].
  assert (zlookup (pageAllocList s) slot = Some a) as Hx.
  { rewrite Hl, Hs. unfold zlookup. destruct (Z.ltb_spec (Z.of_nat (length before)) 0); [lia|].
    rewrite Nat2Z.id. rewrite lookup_app_r, Nat.sub_diag by lia. done. }
  rewrite (bind_Done _ _ _ _ _ (page_slot_at _ _ _ Hx)). unfold NULL. apply Z.eqb_neq in Ha. rewrite Ha.
  rewrite (IH n (slot + 1) (before ++ [a])); [|by rewrite Hl, <- app_assoc|rewrite length_app; cbn; lia|lia].
  cbn [Nat.sub]. f_equal. lia.
Qed.

Lemma kmalloc_page s hl p x :
  wf_heap (kh s) hl -> current_valid (mptab (kh s)) p x -> page_room 1 hl s ->
  exists h x', on_heap (kmalloc SIZEOF_PAGE) s = Done (g_heap_pointer (kh s) + MMBLOCK_SIZE) (s <| kh := h |>) /\
    wf_heap h (hl ++ [g_heap_pointer (kh s)]) /\ mem h = mem (kh s) /\
    g_available_heap h = g_available_heap (kh s) - (SIZEOF_PAGE + MMBLOCK_SIZE) /\ current_valid (mptab h) p x'.
Proof.
  intros Hw Hc (Hroom & Hn). destruct (kmalloc_fits (kh s) hl SIZEOF_PAGE p x Hw Hc) as (h & E & Hw' & Hm & Hp & Ht);
    [done|unfold SIZEOF_PAGE in *; lia|lia|].
  exists h, (x <| p_allocated_memory := u64 (p_allocated_memory x + Z.max 1 SIZEOF_PAGE) |>).
  split; [by apply on_heap_run|]. split; [done|]. split; [done|]. split.
  - pose proof (wh_available _ _ Hw). pose proof (wh_available _ _ Hw'). unfold SIZEOF_PAGE in *. lia.
  - rewrite Ht. by apply (current_valid_alloc _ p x).
Qed.

(** The structure of the page of slot [k]. *)
Definition page_of (k : nat) : page_d :=
  mk_page (Z.of_nat k) TRUE 1234 (PAGEDPOOL1_PA / PAGE_SIZE + Z.of_nat k) FALSE 0 1 NULL.

Lemma page_address k : (k < 512)%nat ->
  u64 (PAGEDPOOL_VA + u64 (i32 (Z.of_nat k * PAGE_SIZE))) = PAGEDPOOL_VA + 4096 * Z.of_nat k.
Proof.
  intros Hk. unfold PAGE_SIZE, PAGEDPOOL_VA. rewrite i32_id, (u64_id (Z.of_nat k * 4096)), u64_id by lia. lia.
Qed.

Lemma page_frame k : (k < 512)%nat ->
  let pa := PAGEDPOOL1_PA + 4096 * Z.of_nat k in
  u32 ((if negb (pa mod PAGE_SIZE =? 0) then pa - pa mod PAGE_SIZE else pa) / PAGE_SIZE) =
    PAGEDPOOL1_PA / PAGE_SIZE + Z.of_nat k.
Proof.
  intros Hk pa. unfold pa, PAGE_SIZE, PAGEDPOOL1_PA. replace (0x1800000 + 4096 * Z.of_nat k) with ((0x1800 + Z.of_nat k) * 4096) by lia.
  rewrite Z.mod_mul by lia. change (negb (0 =? 0)) with false. cbn iota. rewrite Z.div_mul, u32_id by lia. done.
Qed.

Lemma update_page_spec q f x s : page_structs s !! q = Some x ->
  update_page q f s = Done tt (s <| page_structs := <[q := f x]> (page_structs s) |>).
Proof. intros H. unfold update_page, deref_page. by rewrite (bind_getsome _ _ _ x). Qed.

(** The new object: its structure, its slot. *)
Lemma page_object_spec k hl p x s :
  pool_ready k hl p x s -> page_room 1 hl s -> (k < 512)%nat ->
  exists s' x', let New := g_heap_pointer (kh s) + MMBLOCK_SIZE in
    __pageObject s = Done New s' /\ pool_ready (S k) (hl ++ [g_heap_pointer (kh s)]) p x' s' /\
    page_structs s' = <[New := new_page_d (Z.of_nat k)]> (page_structs s) /\ ram_of s' = ram_of s /\
    g_available_heap (kh s') = g_available_heap (kh s) - (SIZEOF_PAGE + MMBLOCK_SIZE).
Proof.
  intros [(used & Hl & Hk & Hu) Hlim Hb Hp Hm Hw Hc] Hroom Hk'.
  destruct (kmalloc_page s hl p x Hw Hc Hroom) as (h & x' & E & Hw' & Hmem & Hav & Hc').
  pose proof (wh_pointer _ _ Hw) as Hhp. set (New := g_heap_pointer (kh s) + MMBLOCK_SIZE) in *.
  assert (New <> 0) as HN by (unfold New, KERNEL_HEAP_START, MMBLOCK_SIZE in *; lia).
  exists (s <| kh := h |> <| page_structs := <[New := new_page_d (Z.of_nat k)]> (page_structs s) |>
    <| pageAllocList := zinsert (pageAllocList s) (Z.of_nat k) New |>), x'. cbn zeta. split; [|split; [|done]].
  - unfold __pageObject. change (Z.to_nat PAGE_COUNT_MAX) with 512%nat.
    rewrite (page_object_loop_skip used (replicate (512 - k) 0)); [|by exists []|done|lia]. rewrite Hk, Z.add_0_l.
    replace (512 - k)%nat with (S (511 - k)) by lia. cbn [page_object_loop].
    assert (zlookup (pageAllocList s) (Z.of_nat k) = Some 0) as Hx.
    { rewrite Hl. unfold zlookup. destruct (Z.ltb_spec (Z.of_nat k) 0); [lia|]. rewrite Nat2Z.id.
      rewrite lookup_app_r by lia. apply lookup_replicate_2. lia. }
    rewrite (bind_Done _ _ _ _ _ (page_slot_at _ _ _ Hx)). change (0 =? NULL) with true. cbn iota.
    rewrite (bind_Done _ _ _ _ _ E). unfold NULL. apply Z.eqb_neq in HN. rewrite HN. reflexivity.
  - constructor; try done.
    + exists (used ++ [New]). split; [|split; [rewrite length_app; cbn; lia|]].
      * change (zinsert (pageAllocList s) (Z.of_nat k) New = (used ++ [New]) ++ replicate (512 - S k) 0).
        rewrite Hl. unfold zinsert. destruct (Z.ltb_spec (Z.of_nat k) 0); [lia|]. rewrite Nat2Z.id.
        rewrite insert_app_r_alt by lia. rewrite Hk, Nat.sub_diag. replace (512 - k)%nat with (S (512 - S k)) by lia.
        cbn [replicate insert list_insert]. by rewrite <- app_assoc.
      * apply Forall_app. split; [done|]. by repeat constructor.
    + unfold ram_of in *. change (kh _) with h. by rewrite Hmem.
Qed.

Lemma new_page_spec k hl p x s :
  pool_ready k hl p x s -> page_room 1 hl s -> (k < 512)%nat ->
  exists s' x', let New := g_heap_pointer (kh s) + MMBLOCK_SIZE in
    newPage s = Done (PAGEDPOOL_VA + 4096 * Z.of_nat k) s' /\ pool_ready (S k) (hl ++ [g_heap_pointer (kh s)]) p x' s' /\
    page_structs s' = <[New := page_of k]> (page_structs s) /\ ram_of s' = ram_of s /\
    g_available_heap (kh s') = g_available_heap (kh s) - (SIZEOF_PAGE + MMBLOCK_SIZE).
Proof.
  intros Hr Hroom Hk. destruct (page_object_spec k hl p x s Hr Hroom Hk) as (s1 & x' & E & Hr1 & Hs1 & Hm1 & Hav).
  pose proof (wh_pointer _ _ (pr_heap _ _ _ _ _ Hr)) as Hhp. cbn zeta in *.
  set (New := g_heap_pointer (kh s) + MMBLOCK_SIZE) in *.
  assert (New <> 0) as HN by (unfold New, KERNEL_HEAP_START, MMBLOCK_SIZE in *; lia). apply Z.eqb_neq in HN.
  exists (s1 <| page_structs := <[New := page_of k]> (page_structs s) |>), x'.
  split; [|split; [destruct Hr1; by constructor|done]].
  unfold newPage. rewrite bind_gets, (pr_base _ _ _ _ _ Hr). change (PAGEDPOOL_VA =? 0) with false. cbn iota.
  rewrite (bind_Done _ _ _ _ _ E). unfold NULL. rewrite HN.
  assert (page_structs s1 !! New = Some (new_page_d (Z.of_nat k))) as L1 by (rewrite Hs1; apply lookup_insert_eq).
  rewrite (bind_Done (deref_page New) _ _ _ s1 ltac:(unfold deref_page, getsome; by rewrite L1)).
  cbn [new_page_d pg_used pg_magic pg_id]. change (TRUE =? TRUE) with true. change (1234 =? 1234) with true. cbn [negb].
  unfold PAGE_COUNT_MAX. zguard. rewrite (bind_Done _ _ _ _ _ (update_page_spec _ _ _ _ L1)).
  rewrite (bind_Done (update_page New _) _ _ _ _ (update_page_spec _ _ _ _ (lookup_insert_eq _ _ _))).
  rewrite page_address by done.
  assert ((PAGEDPOOL_VA + 4096 * Z.of_nat k =? 0) = false) as -> by (apply Z.eqb_neq; unfold PAGEDPOOL_VA; lia).
  rewrite bind_gets. lazymatch goal with |- context [gKernelPML4Address ?z] =>
    change (gKernelPML4Address z) with (gKernelPML4Address s1) end. rewrite (pr_pml4 _ _ _ _ _ Hr1).
  erewrite (bind_Done (virtual_to_physical _ _)) by (apply virtual_to_physical_spec; [unfold PAGEDPOOL_VA; lia|done]).
  lazymatch goal with |- context [walk (ram_of ?z)] => change (ram_of z) with (ram_of s1) end.
  rewrite (pr_map _ _ _ _ _ Hr1) by lia.
  assert ((PAGEDPOOL1_PA + 4096 * Z.of_nat k =? 0) = false) as -> by (apply Z.eqb_neq; unfold PAGEDPOOL1_PA; lia).
  rewrite (page_frame k Hk). rewrite (bind_Done (update_page New _) _ _ _ _ (update_page_spec _ _ _ _ (lookup_insert_eq _ _ _))).
  cbn. rewrite Hs1, !insert_insert_eq. reflexivity.
Qed.

(** [n] calls of [newPage]. *)
Fixpoint new_pages (n : nat) : K (list Z) :=
  match n with
  | O => mret []
  | S n => va ← newPage; l ← new_pages n; mret (va :: l)
  end.

Lemma page_room_next n hl s s' :
  page_room (S n) hl s -> g_available_heap (kh s') = g_available_heap (kh s) - (SIZEOF_PAGE + MMBLOCK_SIZE) ->
  page_room 1 hl s /\ page_room n (hl ++ [g_heap_pointer (kh s)]) s'.
Proof. intros (H1 & H2) E. unfold page_room, SIZEOF_PAGE, MMBLOCK_SIZE in *. rewrite length_app. cbn [length]. lia. Qed.

Lemma heap_pointer_grows s s' hl hl' p x p' x' k k' :
  pool_ready k hl p x s -> pool_ready k' hl' p' x' s' ->
  g_available_heap (kh s') = g_available_heap (kh s) - (SIZEOF_PAGE + MMBLOCK_SIZE) ->
  g_heap_pointer (kh s') = g_heap_pointer (kh s) + SIZEOF_PAGE + MMBLOCK_SIZE.
Proof.
  intros H H' E. pose proof (wh_available _ _ (pr_heap _ _ _ _ _ H)). pose proof (wh_available _ _ (pr_heap _ _ _ _ _ H')). lia.
Qed.

Lemma new_pages_run n k hl p x s :
  pool_ready k hl p x s -> page_room n hl s -> (k + n <= 512)%nat ->
  exists s' x' hl', new_pages n s = Done (map (fun i => PAGEDPOOL_VA + 4096 * Z.of_nat i) (seq k n)) s' /\
    pool_ready (k + n) hl' p x' s' /\ ram_of s' = ram_of s /\
    (forall a, a <= g_heap_pointer (kh s) -> page_structs s' !! a = page_structs s !! a) /\
    (forall i, (k <= i < k + n)%nat -> exists a, page_structs s' !! a = Some (page_of i)).
Proof.
  revert k hl x s. induction n as [|n IH]; intros k hl x s Hr Hroom Hk.
  { exists s, x, hl. rewrite Nat.add_0_r. do 4 (split; [done|]). intros i Hi. lia. }
  destruct (new_page_spec k hl p x s Hr) as (s1 & x1 & E1 & Hr1 & Hs1 & Hm1 & Hav);
    [unfold page_room, SIZEOF_PAGE, MMBLOCK_SIZE in *; lia|lia|]. cbn zeta in *.
  destruct (page_room_next _ _ _ _ Hroom Hav) as (_ & Hroom1).
  pose proof (heap_pointer_grows _ _ _ _ _ _ _ _ _ _ Hr Hr1 Hav) as Hhp. unfold SIZEOF_PAGE, MMBLOCK_SIZE in *.
  destruct (IH (S k) _ x1 s1 Hr1 Hroom1 ltac:(lia)) as (s' & x' & hl' & E & Hr' & Hm & Hkeep & Hnew).
  exists s', x', hl'. split; [|split; [by rewrite <- Nat.add_succ_comm|split; [by rewrite Hm, Hm1|split]]].
  - cbn [new_pages seq map]. by rewrite (bind_Done _ _ _ _ _ E1), (bind_Done _ _ _ _ _ E).
  - intros a Ha. rewrite Hkeep by lia. rewrite Hs1. apply lookup_insert_ne. lia.
  - intros i Hi. destruct (decide (i = k)) as [->|]; [|apply Hnew; lia].
    eexists. rewrite Hkeep; [rewrite Hs1; apply lookup_insert_eq|lia].
Qed.

Lemma page_object_full hl p x s : pool_ready 512 hl p x s -> __pageObject s = Done NULL s.
Proof.
  intros [(used & Hl & Hk & Hu) _ _ _ _ _ _]. unfold __pageObject. change (Z.to_nat PAGE_COUNT_MAX) with 512%nat.
  rewrite (page_object_loop_skip used []); [|by exists []|done|lia]. by rewrite Hk, Nat.sub_diag.
Qed.

(** The paged pool: from a pool with [k] taken slots, [n] calls of
    [newPage] return the pages [k] to [k + n - 1] of the region in order, so no
    two are the same; the bytes of memory do not change, each page is
    translated to its frame of the pool and has a structure with that frame's
    number, and after the 512th page the next call panics. *)
Theorem paged_pool_pages (n k : nat) (hl : list Z) (p : Z) (x : process_d) (s : pgst) :
  pool_ready k hl p x s -> page_room n hl s -> (k + n <= 512)%nat ->
  exists s', new_pages n s = Done (map (fun i => PAGEDPOOL_VA + 4096 * Z.of_nat i) (seq k n)) s' /\ ram_of s' = ram_of s /\
    (forall i, (k <= i < k + n)%nat ->
       virtual_to_physical (PAGEDPOOL_VA + 4096 * Z.of_nat i) (gKernelPML4Address s') s' =
         Done (PAGEDPOOL1_PA + 4096 * Z.of_nat i) s' /\
       exists a, page_structs s' !! a = Some (page_of i)) /\
    ((k + n)%nat = 512%nat -> newPage s' = Panic "newPage: New").
Proof.
  intros Hr Hroom Hk. destruct (new_pages_run n k hl p x s Hr Hroom Hk) as (s' & x' & hl' & E & Hr' & Hm & _ & Hnew).
  exists s'. split; [done|]. split; [done|]. split.
  - intros i Hi. split; [|by apply Hnew]. rewrite (pr_pml4 _ _ _ _ _ Hr').
    rewrite virtual_to_physical_spec by (unfold PAGEDPOOL_VA; done || lia). by rewrite (pr_map _ _ _ _ _ Hr') by lia.
  - intros Hfull. rewrite Hfull in Hr'. unfold newPage. rewrite bind_gets, (pr_base _ _ _ _ _ Hr').
    change (PAGEDPOOL_VA =? 0) with false. cbn iota. by rewrite (bind_Done _ _ _ _ _ (page_object_full _ _ _ _ Hr')).
Qed.

(** Reading the current process and its structure. *)
Lemma current_process_reads s p x : current_valid (mptab (kh s)) p x ->
  on_heap (on_mptab get_current_process_pointer) s = Done p s /\ on_heap (on_mptab (deref_process p)) s = Done x s.
Proof.
  intros Hc. pose proof Hc as (_ & _ & _ & _ & Hx & _).
  assert (forall (A : Type) (m : M ptab A) a, m (mptab (kh s)) = Done a (mptab (kh s)) -> on_heap (on_mptab m) s = Done a s) as Hr.
  { intros A m a Hm. rewrite (on_heap_run _ _ _ _ (on_mptab_read _ _ _ Hm)). by destruct s. }
  split; apply Hr; [by apply get_current_process_pointer_valid with x|unfold deref_process, getsome; by rewrite Hx].
Qed.

Lemma pool_slots k hl p x s : pool_ready k hl p x s ->
  length (pageAllocList s) = Z.to_nat PAGE_COUNT_MAX /\
  (forall i, Z.of_nat k <= i < PAGE_COUNT_MAX -> zlookup (pageAllocList s) i = Some 0) /\
  (forall i, 0 <= i < Z.of_nat k -> zlookup (pageAllocList s) i <> Some 0).
Proof.
  intros [(used & Hl & Hk & Hu) Hlim _ _ _ _ _]. unfold PAGE_COUNT_MAX. rewrite Hl. split; [|split].
  - rewrite length_app, length_replicate. lia.
  - intros i Hi. unfold zlookup. destruct (Z.ltb_spec i 0); [lia|]. rewrite lookup_app_r by lia.
    apply lookup_replicate_2. lia.
  - intros i Hi. unfold zlookup. destruct (Z.ltb_spec i 0); [lia|]. rewrite lookup_app_l by lia. intros E.
    by apply (proj1 (Forall_lookup _ _) Hu _ _ E).
Qed.

(** In a pool of [k] taken slots the first run starts there, if it fits. *)
Lemma pool_first_run k hl p x s size r : pool_ready k hl p x s -> 0 < size -> first_run (pageAllocList s) size r ->
  r = if Z.of_nat k + size <=? PAGE_COUNT_MAX then Z.of_nat k else -1.
Proof.
  intros Hr Hsz Hf. destruct (pool_slots _ _ _ _ _ Hr) as (Hlen & Hfree & Hused).
  assert (forall b, 0 <= b -> run_free (pageAllocList s) b size -> Z.of_nat k <= b /\ b + size <= PAGE_COUNT_MAX) as Hrun.
  { intros b Hb H. split.
    - destruct (decide (b < Z.of_nat k)); [|lia]. destruct (Hused b); [lia|]. apply H. lia.
    - pose proof (zlookup_lt _ _ _ (H (b + size - 1) ltac:(lia))) as L. rewrite Hlen in L. unfold PAGE_COUNT_MAX in *. lia. }
  destruct (Z.leb_spec (Z.of_nat k + size) PAGE_COUNT_MAX) as [Hfit|Hfull].
  - assert (run_free (pageAllocList s) (Z.of_nat k) size) as Hk by (intros i Hi; apply Hfree; lia).
    destruct Hf as [(H0 & H1 & H2)|(_ & H2)]; [|destruct (H2 (Z.of_nat k) ltac:(lia) Hk)].
    destruct (Hrun r H0 H1) as (H3 & _). destruct (decide (r = Z.of_nat k)); [done|].
    destruct (H2 (Z.of_nat k) ltac:(lia) Hk).
  - destruct Hf as [(H0 & H1 & _)|(H0 & _)]; [|done]. destruct (Hrun r H0 H1). lia.
Qed.

(** The first structure that [allocPages] makes has no predecessor. *)
Lemma alloc_pages_first n process k hl p x s size :
  pool_ready k hl p x s -> page_room 1 hl s -> (k < 512)%nat ->
  alloc_pages_loop (S n) process PAGEDPOOL_VA KERNEL_PML4_PA size (Z.of_nat k) (Z.of_nat k) 0 None s = Undef.
Proof.
  intros Hr Hroom Hk. destruct (pool_slots _ _ _ _ _ Hr) as (_ & Hfree & _).
  pose proof Hr as [_ _ Hb Hp Hm Hw Hc].
  destruct (kmalloc_page s hl p x Hw Hc Hroom) as (h & x' & E & _ & Hmem & _ & _).
  pose proof (wh_pointer _ _ Hw). cbn [alloc_pages_loop].
  rewrite (bind_Done _ _ _ _ _ (page_slot_at _ _ _ (Hfree (Z.of_nat k) ltac:(unfold PAGE_COUNT_MAX; lia)))).
  change (0 =? NULL) with true. cbn iota. rewrite (bind_Done _ _ _ _ _ E).
  set (New := g_heap_pointer (kh s) + MMBLOCK_SIZE) in *.
  assert ((New =? NULL) = false) as -> by (apply Z.eqb_neq; unfold New, NULL, KERNEL_HEAP_START, MMBLOCK_SIZE in *; lia).
  unfold put_page. rewrite bind_modify. rewrite (u64_id (PAGEDPOOL_VA + _)) by (unfold PAGEDPOOL_VA, PAGE_SIZE; lia).
  erewrite (bind_Done (virtual_to_physical _ _)) by (apply virtual_to_physical_spec; [unfold PAGEDPOOL_VA, PAGE_SIZE; lia|done]).
  erewrite (bind_Done (update_page New _)) by (apply update_page_spec, lookup_insert_eq).
  unfold set_page_slot. by rewrite bind_modify.
Qed.

(** More than one page at a time is never had: when a run of [size] slots is
    free, [allocPages] creates the first structure and stores its address
    through [pageConductor], a local pointer that nothing has initialized; the
    eight pages of a new process's stack are such a request. The other sizes
    panic: none, too many for the pool, too many for what is left of it. *)
Theorem alloc_pages_uninitialised (size : Z) (k : nat) (hl : list Z) (p : Z) (x : process_d) (s : pgst) :
  pool_ready k hl p x s -> page_room 1 hl s -> size <> 1 ->
  allocPages size s =
    if size <=? 0 then Panic "allocPages: size 0"
    else if PAGE_COUNT_MAX <=? size then Panic "allocPages: size limits"
    else if Z.of_nat k + size <=? PAGE_COUNT_MAX then Undef
    else Panic "allocPages: No more free slots".
Proof.
  intros Hr Hroom H1. pose proof (pr_process _ _ _ _ _ Hr) as Hc. unfold allocPages.
  destruct (current_process_reads s p x Hc) as (R1 & R2).
  rewrite bind_gets, (pr_base _ _ _ _ _ Hr), (bind_Done _ _ _ _ _ R1), (bind_Done _ _ _ _ _ R2).
  destruct (Z.leb_spec size 0); [done|]. apply Z.eqb_neq in H1. rewrite H1.
  destruct (Z.leb_spec PAGE_COUNT_MAX size); [done|].
  destruct (first_slot_loop_spec (S (Z.to_nat PAGE_COUNT_MAX)) _ size 0 0 s eq_refl (proj1 (pool_slots _ _ _ _ _ Hr)))
    as (r & E & Hf); try (unfold PAGE_COUNT_MAX in *; lia); [intros i Hi; lia|].
  rewrite (pool_first_run _ _ _ _ _ size r Hr ltac:(lia) Hf) in E.
  unfold __firstSlotForAList. rewrite (bind_Done _ _ _ _ _ E).
  destruct (Z.leb_spec (Z.of_nat k + size) PAGE_COUNT_MAX); [|done].
  replace (Z.of_nat k =? -1) with false by lia. rewrite bind_gets, (pr_pml4 _ _ _ _ _ Hr).
  replace (Z.to_nat (size + 1)) with (S (Z.to_nat size)) by lia.
  apply (alloc_pages_first _ _ _ hl p x); [done|done|unfold PAGE_COUNT_MAX in *; lia].
Qed.

(** ** The slabs *)

(** The pool as [slab_initialize] leaves it after [pagesInitializePaging]. *)
Definition boot_pool (free : list Z) : newpagedpool_d :=
  mk_newpagedpool TRUE EXTRAHEAP2_VA (EXTRAHEAP2_VA + 0x100000) EXTRAHEAP3_VA (EXTRAHEAP3_VA + 0x100000) free.
Definition slab_va (i : nat) : Z := nth i [EXTRAHEAP2_VA; EXTRAHEAP2_VA + 0x100000; EXTRAHEAP3_VA; EXTRAHEAP3_VA + 0x100000] NULL.
Definition slab_free (i : nat) : list Z := replicate i FALSE ++ replicate (4 - i) TRUE.

(** The state when the process [p] has taken the blocks up to [i]. *)
Definition with_slabs (i : nat) (p : Z) (x : process_d) (s : pgst) : pgst :=
  s <| NewPagedPool := boot_pool (slab_free i) |>
    <| kh := (kh s) <| mptab := (mptab (kh s)) <| procs := <[p := x]> (procs (mptab (kh s))) |> |> |>.

Definition charged (x : process_d) : process_d := x <| p_allocated_memory := u64 (p_allocated_memory x + 0x100000) |>.

Lemma slab_step i p x s :
  (i <= 4)%nat -> NewPagedPool s = boot_pool (slab_free i) -> current_valid (mptab (kh s)) p x ->
  slab_1MB_allocator s =
    if (i =? 4)%nat then Done NULL s else Done (slab_va i) (with_slabs (S i) p (charged x) s).
Proof.
  intros Hi Hp Hc. unfold slab_1MB_allocator. rewrite bind_gets, Hp. cbn [np_initialized boot_pool].
  change (negb (TRUE =? TRUE)) with false. cbn iota. destruct (current_process_reads s p x Hc) as (R1 & R2).
  pose proof Hc as (_ & _ & _ & Hpn & Hx & _ & Hm). apply Z.eqb_neq in Hpn.
  rewrite (bind_Done _ _ _ _ _ R1), Hpn, (bind_Done _ _ _ _ _ R2), Hm.
  change (negb (1234 =? 1234)) with false. cbn iota. rewrite bind_gets, Hp.
  assert (forall j va, zinsert (slab_free i) j FALSE = slab_free (S i) ->
    take_slab p j va s = Done va (with_slabs (S i) p (charged x) s)) as Htake.
  { intros j va Hg. unfold take_slab. rewrite bind_modify, Hp. erewrite (bind_Done (on_heap _)).
    2: { apply on_heap_run. unfold on_mptab, update_process, deref_process. cbn.
         rewrite (bind_getsome _ _ _ x) by exact Hx. reflexivity. }
    cbn. unfold with_slabs. rewrite <- Hg. reflexivity. }
  destruct i as [|[|[|[|[|]]]]]; [..|lia]; [by apply Htake..|done].
Qed.

Fixpoint slab_calls (n : nat) : K (list Z) :=
  match n with
  | O => mret []
  | S n => va ← slab_1MB_allocator; l ← slab_calls n; mret (va :: l)
  end.

(** ** Lemmas: the tables of a clone *)

Lemma link_entry_outside t i e fl m x : x < t + 8 * i \/ t + 8 * i + 8 <= x -> link_entry t i e fl m x = m x.
Proof. intros H. unfold link_entry. by rewrite !store64_ne by done. Qed.

Lemma link_at t i e fl m : 0 <= e < 2 ^ 47 -> 0 <= fl < 4096 -> entry (link_entry t i e fl m) t i = Z.lor e fl.
Proof.
  intros He Hf. unfold link_entry, entry. rewrite (load64_store64 _ e) by lia. apply load64_store64, lor_range; lia.
Qed.

Lemma link_entry_other t i e fl m t' j : t' + 8 * j + 8 <= t + 8 * i \/ t + 8 * i + 8 <= t' + 8 * j ->
  entry (link_entry t i e fl m) t' j = entry m t' j.
Proof. intros H. apply entry_ext. intros x Hx. apply link_entry_outside. lia. Qed.

Lemma fill_other n pt pa fl m t' j : t' + 8 * j + 8 <= pt \/ pt + 8 * Z.of_nat n <= t' + 8 * j ->
  entry (fill_entries n pt pa fl m) t' j = entry m t' j.
Proof. intros H. apply entry_ext. intros x Hx. apply fill_outside_spec. lia. Qed.

Lemma copy_other n dst src m t' j : t' + 8 * j + 8 <= dst \/ dst + 8 * Z.of_nat n <= t' + 8 * j ->
  entry (copy_entries n dst src m) t' j = entry m t' j.
Proof. intros H. apply entry_ext. intros x Hx. apply copy_outside. lia. Qed.

Lemma bytes_link t i e fl m : bytes m -> bytes (link_entry t i e fl m).
Proof. intros H. unfold link_entry. auto using bytes_store64. Qed.

(** The memory when the child's tables are made: the PML4 at [A], the page table
    at [A + 0x1000], the directory at [A + 0x2000], the PDPT at [A + 0x3000]. *)
Definition child_memory (A img : Z) (m : memory) : memory :=
  let B := A + 0x1000 in let C := A + 0x2000 in let D := A + 0x3000 in
  let m1 := copy_entries 512 A KERNEL_PML4_PA m in
  let m2 := copy_entries 512 C KERNEL_PD_PA m1 in
  let m3 := link_entry C 1 B 7 (fill_entries 512 B img 7 m2) in
  let m4 := copy_entries 512 D KERNEL_PDPT_PA m3 in
  link_entry A 0 D 7 (link_entry D 0 C 7 (link_entry C 1 B 7 m4)).

Lemma child_memory_outside A img m x : x < A \/ A + 0x4000 <= x -> child_memory A img m x = m x.
Proof.
  intros H. unfold child_memory. rewrite !link_entry_outside by lia. rewrite copy_outside by lia.
  rewrite link_entry_outside by lia. rewrite fill_outside_spec, !copy_outside by lia. done.
Qed.

(** The four tables of the child, over the kernel's. *)
Record child_tables (A img : Z) (m m' : memory) : Prop := {
  ct_pml4 : entry m' A 0 = Z.lor (A + 0x3000) 7;
  ct_pml4_rest : forall i, 0 < i < 512 -> entry m' A i = entry m KERNEL_PML4_PA i;
  ct_pdpt : entry m' (A + 0x3000) 0 = Z.lor (A + 0x2000) 7;
  ct_pdpt_rest : forall i, 0 < i < 512 -> entry m' (A + 0x3000) i = entry m KERNEL_PDPT_PA i;
  ct_pd : entry m' (A + 0x2000) 1 = Z.lor (A + 0x1000) 7;
  ct_pd_rest : forall i, 0 <= i < 512 -> i <> 1 -> entry m' (A + 0x2000) i = entry m KERNEL_PD_PA i;
  ct_pt : forall i, 0 <= i < 512 -> entry m' (A + 0x1000) i = Z.lor (img + 4096 * i) 7;
  ct_outside : forall x, x < A \/ A + 0x4000 <= x -> m' x = m x
}.

Lemma child_memory_tables A img m :
  bytes m -> 0 <= A -> A + 0x4000 <= KERNEL_PD_PA -> 0 <= img < 2 ^ 47 -> child_tables A img m (child_memory A img m).
Proof.
  intros Hm HA Hlim Himg. unfold KERNEL_PD_PA in Hlim.
  constructor; [..|apply child_memory_outside]; unfold child_memory.
  - apply link_at; lia.
  - intros i Hi. rewrite !link_entry_other by lia. rewrite copy_other, link_entry_other, fill_other, copy_other by lia.
    apply copy_entries_spec; [done|unfold KERNEL_PML4_PA; lia|lia].
  - rewrite link_entry_other by lia. apply link_at; lia.
  - intros i Hi. rewrite !link_entry_other by lia. rewrite copy_entries_spec;
      [|auto 10 using bytes_copy_entries, bytes_fill, bytes_link|unfold KERNEL_PDPT_PA; lia|lia].
    by rewrite link_entry_other, fill_other, !copy_other by (unfold KERNEL_PDPT_PA; lia).
  - rewrite 2!link_entry_other by lia. apply link_at; lia.
  - intros i Hi N. rewrite !link_entry_other by lia. rewrite copy_other, link_entry_other, fill_other by lia.
    rewrite copy_entries_spec; [|auto using bytes_copy_entries|unfold KERNEL_PD_PA; lia|lia].
    by rewrite copy_other by (unfold KERNEL_PD_PA; lia).
  - intros i Hi. rewrite !link_entry_other by lia. rewrite copy_other, link_entry_other by lia.
    apply fill_entries_spec; lia.
Qed.

(** A change of memory above the heap of tables keeps the kernel's tables. *)
Lemma tables_kept m m' base base' L :
  tables_ok m base L -> base <= base' < FAT_ADDRESS -> base' mod 4096 = 0 ->
  (forall x, x < base + 0x1000 \/ KERNEL_PD_PA <= x -> m' x = m x) -> tables_ok m' base' L.
Proof.
  intros Ht Hb Hal Hout. pose proof (to_base _ _ _ Ht) as (B & _). unfold TABLE_POINTER_HEAP_BASE in B.
  assert (forall t i, t + 8 * i + 8 <= base + 0x1000 \/ KERNEL_PD_PA <= t + 8 * i -> entry m' t i = entry m t i) as He.
  { intros t i H. apply entry_ext. intros x Hx. apply Hout. lia. }
  constructor; [unfold TABLE_POINTER_HEAP_BASE; lia|..|apply Ht].
  - rewrite He by (unfold KERNEL_PD_PA, KERNEL_PML4_PA; lia). apply Ht.
  - rewrite He by (unfold KERNEL_PD_PA, KERNEL_PDPT_PA; lia). apply Ht.
  - intros i Hi. rewrite !He by (unfold KERNEL_PD_PA, KERNEL_PDPT_PA, KERNEL_PML4_PA; lia). by apply (to_rest _ _ _ Ht).
  - intros d ((pt & pa) & fl) HL. destruct (to_regions _ _ _ Ht d _ HL) as ((Hd & Hpt & Hpal) & Hpa & Hpd & Hen).
    split; [split; [done|split; [lia|done]]|]. split; [done|]. split; [by rewrite He by lia|].
    intros i Hi. rewrite He by lia. by apply Hen.
  - intros d Hd HL. rewrite He by lia. by apply (to_free _ _ _ Ht).
Qed.

Lemma user_page_high mm pml4 va : 0 <= va < 2 ^ 48 -> 2 ^ 30 <= va ->
  (forall i, 0 < i < 512 -> entry mm pml4 i = PAGE_WRITE) ->
  (forall i, 0 < i < 512 -> entry mm (frame (entry mm pml4 0)) i = PAGE_WRITE) -> user_page mm va pml4 = false.
Proof using.
  intros Hva Hhigh H1 H2. unfold user_page.
  assert (0 <= va / 2 ^ 39 < 512) as R1 by (split; [apply Z.div_pos; lia|apply Z.div_lt_upper_bound; lia]).
  rewrite (Z.mod_small (va / 2 ^ 39)) by done. destruct (decide (va / 2 ^ 39 = 0)) as [E1|N1].
  2: { rewrite (H1 (va / 2 ^ 39)) by lia. reflexivity. }
  assert (va < 2 ^ 39) as L1 by (apply Z.div_small_iff in E1; lia).
  assert (0 < va / 2 ^ 30 < 512) as R2 by (split; [apply Z.div_str_pos; lia|apply Z.div_lt_upper_bound; lia]).
  rewrite E1, (Z.mod_small (va / 2 ^ 30)) by lia. rewrite (H2 (va / 2 ^ 30)) by done.
  change (Z.testbit PAGE_WRITE 0) with false. by rewrite andb_false_r.
Qed.

Section ChildWalk.
Context (A img base : Z) (m m' : memory) (L : directory).
Context (Ht : tables_ok m base L) (HA : A = base + 0x1000) (Hlim : A + 0x3000 < FAT_ADDRESS)
  (Hc : child_tables A img m m') (Himg : 0 <= img < 2 ^ 47) (Hal : img mod 4096 = 0).

Lemma child_aligned : A mod 4096 = 0 /\ (A + 0x1000) mod 4096 = 0 /\ (A + 0x2000) mod 4096 = 0 /\ (A + 0x3000) mod 4096 = 0.
Proof. pose proof (to_base _ _ _ Ht) as (_ & B). rewrite HA. split_and!; rewrite <- ?Z.add_assoc, Z.add_mod, B by lia; done. Qed.

Lemma child_range : 0x2000 <= A < FAT_ADDRESS.
Proof. pose proof (to_base _ _ _ Ht) as (B & _). unfold TABLE_POINTER_HEAP_BASE, FAT_ADDRESS in *. lia. Qed.

Lemma walk_child_image o : 0 <= o < 2 ^ 21 -> walk m' (CONTROLTHREAD_BASE + o) A = img + o.
Proof.
  intros Ho. pose proof child_range as R. unfold FAT_ADDRESS in *. destruct child_aligned as (A0 & A1 & A2 & A3).
  apply (walk_chain m' A (A + 0x3000) (A + 0x2000) (A + 0x1000) img 7 1 o); try done; try lia; apply Hc.
Qed.

Lemma frame_kernel d : 0 <= d < 512 -> frame (entry m KERNEL_PD_PA d) = 0 \/
  TABLE_POINTER_HEAP_BASE < frame (entry m KERNEL_PD_PA d) <= base.
Proof.
  intros Hd. pose proof (to_base _ _ _ Ht) as (B & _). unfold TABLE_POINTER_HEAP_BASE, FAT_ADDRESS in *.
  destruct (L !! d) as [((pt & pa) & fl)|] eqn:HL.
  - right. destruct (to_regions _ _ _ Ht d _ HL) as ((_ & Hpt & Hpal) & (_ & _ & Hfl) & -> & _).
    unfold TABLE_POINTER_HEAP_BASE in Hpt. rewrite frame_lor by (done || lia). lia.
  - left. by rewrite (to_free _ _ _ Ht d Hd HL).
Qed.

Lemma child_entry d t : 0 <= d < 512 -> 0 <= t < 512 ->
  entry m' (frame (entry m KERNEL_PD_PA d)) t = entry m (frame (entry m KERNEL_PD_PA d)) t.
Proof.
  intros Hd Ht'. pose proof child_range as R. apply entry_ext. intros x Hx. apply (ct_outside _ _ _ _ Hc).
  destruct (frame_kernel d Hd) as [E|E]; unfold TABLE_POINTER_HEAP_BASE in *; lia.
Qed.

(** The way down to the directory, in the kernel's tables and in the child's. *)
Lemma walk_both va : 0 <= va < 2 ^ 30 ->
  (frame (entry m (frame (entry m KERNEL_PML4_PA 0)) 0) = KERNEL_PD_PA /\
   frame (entry m' (frame (entry m' A 0)) 0) = A + 0x2000) /\
  va / 2 ^ 39 mod 512 = 0 /\ va / 2 ^ 30 mod 512 = 0 /\ va / 2 ^ 21 mod 512 = va / 2 ^ 21 /\ 0 <= va / 2 ^ 21 < 512.
Proof.
  intros Hv. pose proof child_range as R. unfold FAT_ADDRESS in R. destruct child_aligned as (A0 & A1 & A2 & A3).
  destruct (va_split va Hv) as (E & Hd & Ho). split; [split|].
  - by rewrite (to_pml4 _ _ _ Ht), frame_lor, (to_pdpt _ _ _ Ht), frame_lor.
  - rewrite (ct_pml4 _ _ _ _ Hc), frame_lor by (done || lia). by rewrite (ct_pdpt _ _ _ _ Hc), frame_lor by (done || lia).
  - rewrite (Z.div_small va (2 ^ 39)), (Z.div_small va (2 ^ 30)), (Z.mod_small (va / 2 ^ 21)) by lia. done.
Qed.

Lemma walk_child_other va : 0 <= va < 2 ^ 30 -> va / 2 ^ 21 <> 1 -> walk m' va A = walk m va KERNEL_PML4_PA.
Proof.
  intros Hv N. destruct (walk_both va Hv) as ((E1 & E2) & I1 & I2 & I3 & Hd).
  unfold walk. rewrite !index_spec, I1, I2, I3, E1, E2 by lia. rewrite (ct_pd_rest _ _ _ _ Hc) by done.
  by rewrite child_entry by (done || apply Z.mod_pos_bound; lia).
Qed.

Lemma walk_kernel_kept va : 0 <= va < 2 ^ 30 -> walk m' va KERNEL_PML4_PA = walk m va KERNEL_PML4_PA.
Proof.
  intros Hv. pose proof child_range as R. unfold FAT_ADDRESS in *. destruct (walk_both va Hv) as ((E1 & _) & I1 & I2 & I3 & Hd).
  assert (forall t i, KERNEL_PD_PA <= t -> 0 <= i -> entry m' t i = entry m t i) as He.
  { intros t i H Hi. apply entry_ext. intros x Hx. apply (ct_outside _ _ _ _ Hc). unfold KERNEL_PD_PA in H. lia. }
  unfold walk. rewrite !index_spec, I1, I2, I3 by lia.
  rewrite (He KERNEL_PML4_PA 0) by done. rewrite (to_pml4 _ _ _ Ht), frame_lor, (He KERNEL_PDPT_PA 0) by done.
  rewrite (to_pdpt _ _ _ Ht), frame_lor, (He KERNEL_PD_PA) by (done || lia).
  by rewrite child_entry by (done || apply Z.mod_pos_bound; lia).
Qed.

Lemma user_page_child va : 0 <= va < 2 ^ 48 ->
  user_page m' va A = (va / 2 ^ 21 =? 1) || user_page m va KERNEL_PML4_PA.
Proof.
  intros Hva. pose proof child_range as R. unfold FAT_ADDRESS in *. destruct child_aligned as (A0 & A1 & A2 & A3).
  destruct (decide (va < 2 ^ 30)) as [Hlow|Hhigh].
  - destruct (walk_both va ltac:(lia)) as ((E1 & E2) & I1 & I2 & I3 & Hd).
    unfold user_page. rewrite I1, I2, I3, E1, E2.
    rewrite (ct_pml4 _ _ _ _ Hc), (to_pml4 _ _ _ Ht), !frame_lor by (done || lia).
    rewrite (ct_pdpt _ _ _ _ Hc), (to_pdpt _ _ _ Ht), !(testbit_flags KERNEL_PDPT_PA), !(testbit_flags KERNEL_PD_PA),
      !(testbit_flags (A + 0x3000)), !(testbit_flags (A + 0x2000)) by (done || lia).
    change (Z.testbit 7 0) with true. change (Z.testbit 7 2) with true. cbn [andb].
    destruct (Z.eqb_spec (va / 2 ^ 21) 1) as [E|N]; cbn [orb].
    + rewrite E, (ct_pd _ _ _ _ Hc), frame_lor, (ct_pt _ _ _ _ Hc) by (done || lia || apply Z.mod_pos_bound; lia).
      rewrite !(testbit_flags (A + 0x1000)), !(testbit_flags (img + _)); try done; try lia;
        rewrite (Z.mul_comm 4096), Z.mod_add by lia; done.
    + rewrite (ct_pd_rest _ _ _ _ Hc) by done. by rewrite child_entry by (done || apply Z.mod_pos_bound; lia).
  - assert ((va / 2 ^ 21 =? 1) = false) as -> by (apply Z.eqb_neq; intros E; pose proof (Z.div_mod va (2 ^ 21));
      pose proof (Z.mod_pos_bound va (2 ^ 21)); lia). cbn [orb].
    rewrite !user_page_high; try done; try lia.
    + intros i Hi. by apply (to_rest _ _ _ Ht).
    + intros i Hi. rewrite (to_pml4 _ _ _ Ht), frame_lor by done. by apply (to_rest _ _ _ Ht).
    + intros i Hi. rewrite (ct_pml4_rest _ _ _ _ Hc) by done. by apply (to_rest _ _ _ Ht).
    + intros i Hi. rewrite (ct_pml4 _ _ _ _ Hc), frame_lor, (ct_pdpt_rest _ _ _ _ Hc) by (done || lia).
      by apply (to_rest _ _ _ Ht).
Qed.
End ChildWalk.

(** ** Lemmas: the run of the clone *)

Definition boot_mm_data : mm_data_d :=
  mk_mm_data TRUE 1234 KERNEL_PML4_PA KERNEL_PML4_PA KERNEL_PDPT_PA KERNEL_PDPT_PA KERNEL_PD_PA KERNEL_PD_PA.

Section CloneRun.
Context (s0 : asst) (base : Z) (L : directory) (pt0 fl0 : Z).
Context (Hdata : kernel_mm_data (pg s0) = boot_mm_data) (Hpml4 : gKernelPML4Address (pg s0) = KERNEL_PML4_PA)
  (HL0 : L !! 0 = Some (pt0, 0, fl0)).

(** The state that differs from [s0] in the heap of tables, the memory and the
    memory fields of the processes. *)
Definition cst (b : Z) (m : memory) (pm : gmap Z process_mm) : asst :=
  mk_asst (on_ram (fun _ => m) ((pg s0) <| table_pointer_heap_base := b |>)) pm.

Lemma cst_start : s0 = cst (table_pointer_heap_base (pg s0)) (ram_of (pg s0)) (pmm s0).
Proof. unfold cst. clear. destruct s0 as [g pm]. destruct g as [k]. destruct k. reflexivity. Qed.

Lemma cst_table b m pm : 0 <= b -> b + 0x1000 < FAT_ADDRESS ->
  on_pg get_table_pointer_va (cst b m pm) = Done (b + 0x1000) (cst (b + 0x1000) m pm).
Proof. intros H0 H1. unfold on_pg. by rewrite get_table_spec. Qed.

(** The three copies have one shape. *)
Lemma cst_copy (X : K Z) msg (source : pgst -> Z) src b m pm :
  X = (dst ← get_table_pointer_va; if dst =? 0 then panic msg else
       x ← gets source; modify (on_ram (copy_entries 512 dst x));; mret dst) ->
  (forall b' m', source (pg (cst b' m' pm)) = src) -> 0 <= b -> b + 0x1000 < FAT_ADDRESS ->
  on_pg X (cst b m pm) = Done (b + 0x1000) (cst (b + 0x1000) (copy_entries 512 (b + 0x1000) src m) pm).
Proof.
  intros -> Hs H0 H1. unfold on_pg. rewrite (bind_Done _ _ _ _ _ (get_table_spec (pg (cst b m pm)) H0 H1)).
  change (table_pointer_heap_base (pg (cst b m pm))) with b.
  assert ((b + 0x1000 =? 0) = false) as -> by (apply Z.eqb_neq; lia). rewrite bind_gets.
  change (source ((pg (cst b m pm)) <| table_pointer_heap_base := b + 0x1000 |>)) with (source (pg (cst (b + 0x1000) m pm))).
  rewrite Hs. reflexivity.
Qed.

Lemma cst_pml4 b m pm : 0 <= b -> b + 0x1000 < FAT_ADDRESS ->
  on_pg CloneKernelPML4 (cst b m pm) = Done (b + 0x1000) (cst (b + 0x1000) (copy_entries 512 (b + 0x1000) KERNEL_PML4_PA m) pm).
Proof. intros H0 H1. by eapply (cst_copy _ _ gKernelPML4Address); [reflexivity|intros; apply Hpml4|..]. Qed.

Lemma cst_pd b m pm : 0 <= b -> b + 0x1000 < FAT_ADDRESS ->
  on_pg CloneKernelPD0 (cst b m pm) = Done (b + 0x1000) (cst (b + 0x1000) (copy_entries 512 (b + 0x1000) KERNEL_PD_PA m) pm).
Proof.
  intros H0 H1. eapply (cst_copy _ _ (fun s => pd0_va (kernel_mm_data s))); [reflexivity| |done..].
  intros. change (pd0_va (kernel_mm_data (pg s0)) = KERNEL_PD_PA). by rewrite Hdata.
Qed.

Lemma cst_pdpt b m pm : 0 <= b -> b + 0x1000 < FAT_ADDRESS ->
  on_pg CloneKernelPDPT0 (cst b m pm) = Done (b + 0x1000) (cst (b + 0x1000) (copy_entries 512 (b + 0x1000) KERNEL_PDPT_PA m) pm).
Proof.
  intros H0 H1. eapply (cst_copy _ _ (fun s => pdpt0_va (kernel_mm_data s))); [reflexivity| |done..].
  intros. change (pdpt0_va (kernel_mm_data (pg s0)) = KERNEL_PDPT_PA). by rewrite Hdata.
Qed.

Lemma cst_pa a b m pm : tables_ok m base L -> 0 <= a < 2 ^ 21 -> kernel_pa a (cst b m pm) = Done a (cst b m pm).
Proof.
  intros Ht Ha. unfold kernel_pa. rewrite (bind_Done (on_pg (gets _)) _ _ KERNEL_PML4_PA (cst b m pm)).
  - unfold on_pg. rewrite virtual_to_physical_spec by (done || lia). change (ram_of (pg (cst b m pm))) with m.
    pose proof (walk_mapped m base L 0 pt0 0 fl0 a Ht HL0 Ha) as W. rewrite Z.mul_0_r, !Z.add_0_l in W. by rewrite W.
  - unfold on_pg, gets. change (gKernelPML4Address (pg (cst b m pm))) with (gKernelPML4Address (pg s0)). by rewrite Hpml4.
Qed.

Lemma cst_deref p x b m pm : pm !! p = Some x -> deref_mm p (cst b m pm) = Done x (cst b m pm).
Proof. intros H. unfold deref_mm, getsome. change (pmm (cst b m pm)) with pm. by rewrite H. Qed.

Lemma cst_update p x f b m pm : pm !! p = Some x ->
  update_mm p f (cst b m pm) = Done tt (cst b m (<[p := f x]> pm)).
Proof. intros H. unfold update_mm. by rewrite (bind_Done _ _ _ _ _ (cst_deref _ _ _ _ _ H)). Qed.

Lemma cst_ram f b m pm : on_pg (modify (on_ram f)) (cst b m pm) = Done tt (cst b (f m) pm).
Proof. done. Qed.

Lemma cst_fill dir i pt pa fl b m pm : 0 <= i < 512 ->
  on_pg (mm_fill_page_table dir i pt pa fl) (cst b m pm) = Done 0 (cst b (link_entry dir i pt fl (fill_entries 512 pt pa fl m)) pm).
Proof. intros H. unfold on_pg, mm_fill_page_table. zguard. reflexivity. Qed.

#[local] Opaque copy_entries fill_entries link_entry.

(** What the steps of the clone add to the memory [m1] of the first step. *)
Definition child_rest (A img : Z) (m1 : memory) : memory :=
  let B := A + 0x1000 in let C := A + 0x2000 in let D := A + 0x3000 in
  let m3 := link_entry C 1 B 7 (fill_entries 512 B img 7 (copy_entries 512 C KERNEL_PD_PA m1)) in
  link_entry A 0 D 7 (link_entry D 0 C 7 (link_entry C 1 B 7 (copy_entries 512 D KERNEL_PDPT_PA m3))).

Definition child_final (A : Z) (c : process_mm) : process_mm :=
  c <| pd0_VA := A + 0x2000 |> <| pd0_PA := A + 0x2000 |> <| Image := CONTROLTHREAD_BASE |>
    <| pdpt0_VA := A + 0x3000 |> <| pdpt0_PA := A + 0x3000 |>.

Lemma clone_tables_run A c img child m1 pm :
  tables_ok m1 base L -> A = base + 0x1000 -> A + 0x3000 < FAT_ADDRESS -> pm !! child = Some c ->
  pml4_VA c = A -> pdpt0_VA c <> 0 -> pd0_VA c <> 0 -> ImagePA c = img ->
  clone_tables child (cst A m1 pm) = Done tt (cst (A + 0x3000) (child_rest A img m1) (<[child := child_final A c]> pm)).
Proof.
  intros Ht HA Hlim Hc HV Hp Hd HI. pose proof (to_base _ _ _ Ht) as (B & _). unfold TABLE_POINTER_HEAP_BASE, FAT_ADDRESS in *.
  assert (forall m', (forall x, x < A \/ KERNEL_PD_PA <= x -> m' x = m1 x) -> tables_ok m' base L) as Hk.
  { intros m' H. apply (tables_kept m1 m' base base L Ht); [unfold FAT_ADDRESS; lia|apply Ht|]. by rewrite <- HA. }
  assert (forall z, z < 2 ^ 47 -> 0 < z -> (z =? 0) = false) as Hz by (intros; apply Z.eqb_neq; lia).
  unfold clone_tables. rewrite (bind_Done _ _ _ _ _ (cst_deref _ _ _ _ _ Hc)), HV. apply Z.eqb_neq in Hp, Hd.
  unfold NULL. rewrite (Hz A), Hp, Hd by lia.
  rewrite (bind_Done _ _ _ _ _ (cst_table A m1 pm ltac:(lia) ltac:(unfold FAT_ADDRESS; lia))), (Hz (A + 0x1000)) by lia.
  rewrite (bind_Done _ _ _ _ _ (cst_pa (A + 0x1000) _ _ _ Ht ltac:(lia))).
  rewrite (bind_Done _ _ _ _ _ (cst_pd (A + 0x1000) m1 pm ltac:(lia) ltac:(unfold FAT_ADDRESS; lia))).
  replace (A + 0x1000 + 0x1000) with (A + 0x2000) by lia. set (m2 := copy_entries 512 (A + 0x2000) KERNEL_PD_PA m1).
  assert (tables_ok m2 base L) as Ht2 by (apply Hk; intros x Hx; apply copy_outside; unfold KERNEL_PD_PA in Hx; lia).
  rewrite (bind_Done _ _ _ _ _ (cst_update _ _ _ _ _ _ Hc)).
  rewrite (bind_Done _ _ _ _ _ (cst_pa (A + 0x2000) _ _ _ Ht2 ltac:(lia))).
  rewrite (bind_Done _ _ _ _ _ (cst_update _ _ _ _ _ _ (lookup_insert_eq _ _ _))). rewrite (Hz (A + 0x2000)) by lia.
  change (X64_GET_PDE_INDEX CONTROLTHREAD_BASE) with 1. change (Z.lor (Z.lor PAGE_USER PAGE_WRITE) PAGE_PRESENT) with 7.
  rewrite (bind_Done _ _ _ _ _ (cst_fill (A + 0x2000) 1 _ _ _ _ _ _ ltac:(lia))), HI.
  rewrite (bind_Done _ _ _ _ _ (cst_update _ _ _ _ _ _ (lookup_insert_eq _ _ _))).
  set (m3 := link_entry (A + 0x2000) 1 (A + 0x1000) 7 (fill_entries 512 (A + 0x1000) img 7 m2)).
  rewrite (bind_Done _ _ _ _ _ (cst_pdpt (A + 0x2000) m3 _ ltac:(lia) ltac:(unfold FAT_ADDRESS; lia))).
  replace (A + 0x2000 + 0x1000) with (A + 0x3000) by lia. set (m4 := copy_entries 512 (A + 0x3000) KERNEL_PDPT_PA m3).
  rewrite (bind_Done _ _ _ _ _ (cst_update _ _ _ _ _ _ (lookup_insert_eq _ _ _))).
  assert (tables_ok m4 base L) as Ht4.
  { apply Hk. intros x Hx. unfold KERNEL_PD_PA in Hx. unfold m4, m3, m2.
    by rewrite copy_outside, link_entry_outside, fill_outside_spec, copy_outside by lia. }
  rewrite (bind_Done _ _ _ _ _ (cst_pa (A + 0x3000) _ _ _ Ht4 ltac:(lia))).
  rewrite (bind_Done _ _ _ _ _ (cst_update _ _ _ _ _ _ (lookup_insert_eq _ _ _))). rewrite (Hz (A + 0x3000)) by lia.
  rewrite !(bind_Done _ _ _ _ _ (cst_ram _ _ _ _)), cst_ram, !insert_insert_eq. unfold child_rest, child_final.
  fold m2. fold m3. fold m4. lazymatch goal with |- ?x = ?y => constr_eq x y end. reflexivity.
Qed.

Lemma clone_run parent child pmp c :
  tables_ok (ram_of (pg s0)) base L -> base + 0x4000 < FAT_ADDRESS ->
  pmm s0 !! parent = Some pmp -> pmm s0 !! child = Some c -> parent <> child ->
  pdpt0_VA pmp <> 0 -> pd0_VA pmp <> 0 -> childImage pmp <> 0 -> childImage_PA pmp <> 0 ->
  exists c', clone_address_space parent child (cst base (ram_of (pg s0)) (pmm s0)) =
      Done tt (cst (base + 0x4000) (child_memory (base + 0x1000) (childImage_PA pmp) (ram_of (pg s0))) (<[child := c']> (pmm s0))) /\
    pml4_VA c' = base + 0x1000 /\ pml4_PA c' = base + 0x1000 /\ Image c' = CONTROLTHREAD_BASE.
Proof.
  intros Ht Hlim Hpp Hpc Hne H1 H2 H3 H4. pose proof (to_base _ _ _ Ht) as (B & _).
  unfold TABLE_POINTER_HEAP_BASE in B. set (m := ram_of (pg s0)) in *. set (A := base + 0x1000).
  assert (A + 0x3000 < FAT_ADDRESS) as HA by (unfold A; lia).
  unfold clone_address_space, clone_pml4_step. rewrite bind_bind.
  rewrite (bind_Done _ _ _ _ _ (cst_pml4 base m _ ltac:(lia) ltac:(unfold FAT_ADDRESS in *; lia))). fold A.
  assert ((A =? NULL) = false) as EA by (apply Z.eqb_neq; unfold A, NULL; lia). rewrite EA, bind_ret.
  set (m1 := copy_entries 512 A KERNEL_PML4_PA m).
  assert (tables_ok m1 base L) as Ht1.
  { apply (tables_kept m m1 base base L Ht); [unfold FAT_ADDRESS in *; lia|apply Ht|]. fold A. intros x Hx.
    apply copy_outside. unfold KERNEL_PD_PA, FAT_ADDRESS in *. lia. }
  unfold clone_parent_tables. rewrite !bind_bind, (bind_Done _ _ _ _ _ (cst_update _ _ _ _ _ _ Hpc)), bind_bind.
  rewrite (bind_Done _ _ _ _ _ (cst_deref _ _ _ _ _ (lookup_insert_eq _ _ _))).
  change (pml4_VA (c <| pml4_VA := A |>)) with A. rewrite EA, bind_bind.
  rewrite (bind_Done _ _ _ _ _ (cst_pa A _ _ _ Ht1 ltac:(unfold FAT_ADDRESS in *; unfold A in *; lia))), bind_bind.
  assert (forall y, (<[child := y]> (pmm s0)) !! parent = Some pmp) as Hpar by (intros y; by rewrite lookup_insert_ne).
  rewrite (bind_Done _ _ _ _ _ (cst_deref _ _ _ _ _ (Hpar _))).
  rewrite (bind_Done _ _ _ _ _ (cst_update _ _ _ _ _ _ (lookup_insert_eq _ _ _))), insert_insert_eq.
  unfold clone_image. rewrite bind_bind, (bind_Done _ _ _ _ _ (cst_deref _ _ _ _ _ (Hpar _))), bind_bind.
  rewrite (bind_Done _ _ _ _ _ (cst_update _ _ _ _ _ _ (lookup_insert_eq _ _ _))), insert_insert_eq, bind_bind.
  rewrite (bind_Done _ _ _ _ _ (cst_deref _ _ _ _ _ (lookup_insert_eq _ _ _))).
  match goal with |- context [<[child := ?y]>] => set (c1 := y) end.
  change (Image c1) with (childImage pmp). change (ImagePA c1) with (childImage_PA pmp). apply Z.eqb_neq in H3, H4.
  unfold NULL. rewrite H3, H4, bind_ret. exists (child_final A c1).
  rewrite (clone_tables_run A c1 (childImage_PA pmp) child m1 _ Ht1 eq_refl HA (lookup_insert_eq _ _ _)) by done.
  rewrite insert_insert_eq. replace (A + 0x3000) with (base + 0x4000) by (unfold A; lia). done.
Qed.
End CloneRun.

(** ** The address space of a clone *)

(** The kernel after paging, a parent whose image was allocated, and a child. *)
Record clone_ready (L : directory) (parent child : Z) (pmp : process_mm) (s : asst) : Prop := {
  cr_tables : tables_ok (ram_of (pg s)) (table_pointer_heap_base (pg s)) L;
  cr_bytes : bytes (ram_of (pg s));
  cr_room : table_pointer_heap_base (pg s) + 0x4000 < FAT_ADDRESS;
  cr_data : kernel_mm_data (pg s) = boot_mm_data /\ gKernelPML4Address (pg s) = KERNEL_PML4_PA;
  cr_ident : exists pt fl, L !! 0 = Some (pt, 0, fl);
  cr_parent : pmm s !! parent = Some pmp /\ pdpt0_VA pmp <> 0 /\ pd0_VA pmp <> 0;
  cr_child : is_Some (pmm s !! child) /\ parent <> child;
  cr_image : childImage pmp <> 0 /\ 0 < childImage_PA pmp < 2 ^ 47 /\ childImage_PA pmp mod 4096 = 0
}.

Lemma clone_spec L parent child pmp s : clone_ready L parent child pmp s ->
  exists s' c, let A := table_pointer_heap_base (pg s) + 0x1000 in
    clone_address_space parent child s = Done tt s' /\ pmm s' !! child = Some c /\ pml4_VA c = A /\ pml4_PA c = A /\
    Image c = CONTROLTHREAD_BASE /\ table_pointer_heap_base (pg s') = table_pointer_heap_base (pg s) + 0x4000 /\
    child_tables A (childImage_PA pmp) (ram_of (pg s)) (ram_of (pg s')) /\
    tables_ok (ram_of (pg s')) (table_pointer_heap_base (pg s')) L.
Proof.
  intros [Ht Hm Hlim (Hd & Hp) (pt & fl & HL) (H1 & H2 & H3) ((c & Hc) & Hne) (H4 & H5 & H6)].
  set (base := table_pointer_heap_base (pg s)) in *.
  pose proof (to_base _ _ _ Ht) as (B & Bal). unfold TABLE_POINTER_HEAP_BASE, FAT_ADDRESS in *.
  destruct (clone_run s base L pt fl Hd Hp HL parent child pmp c) as (c' & E & E1 & E2 & E3); try done; [lia|].
  unfold base in E at 1. rewrite <- cst_start in E. eexists _, c'. split; [exact E|].
  pose proof (child_memory_tables (base + 0x1000) (childImage_PA pmp) (ram_of (pg s)) Hm ltac:(lia)
    ltac:(unfold KERNEL_PD_PA; lia) ltac:(lia)) as Hct.
  split; [apply lookup_insert_eq|]. do 4 (split; [done|]). split; [exact Hct|].
  apply (tables_kept (ram_of (pg s)) _ base _ L Ht).
  - change (table_pointer_heap_base (pg (cst s (base + 0x4000) _ _))) with (base + 0x4000). unfold FAT_ADDRESS. lia.
  - change (table_pointer_heap_base (pg (cst s (base + 0x4000) _ _))) with (base + 0x4000). by rewrite Z.add_mod, Bal by lia.
  - intros x Hx. apply (ct_outside _ _ _ _ Hct). unfold KERNEL_PD_PA in Hx. lia.
Qed.

(** [C6] The tables of a clone: the two megabytes from 0x200000 on are its image
    and belong to ring 3, every other address is translated and protected as in
    the kernel's tables when the clone was made, and the kernel's own
    translation does not change; the tables lie in four new pages of the heap. *)
Theorem clone_isolated (L : directory) (parent child : Z) (pmp : process_mm) (s : asst) :
  clone_ready L parent child pmp s ->
  exists s' c, clone_address_space parent child s = Done tt s' /\ pmm s' !! child = Some c /\ pml4_PA c = pml4_VA c /\
    let k := ram_of (pg s) in let m := ram_of (pg s') in
    (forall o, 0 <= o < 2 ^ 21 -> walk m (CONTROLTHREAD_BASE + o) (pml4_PA c) = childImage_PA pmp + o) /\
    (forall va, 0 <= va < 2 ^ 30 -> ~ (CONTROLTHREAD_BASE <= va < CONTROLTHREAD_BASE + 2 ^ 21) ->
       walk m va (pml4_PA c) = walk k va KERNEL_PML4_PA) /\
    (forall va, 0 <= va < 2 ^ 30 -> walk m va KERNEL_PML4_PA = walk k va KERNEL_PML4_PA) /\
    (forall va, 0 <= va < 2 ^ 48 ->
       user_page m va (pml4_PA c) = (va / 2 ^ 21 =? 1) || user_page k va KERNEL_PML4_PA).
Proof.
  intros Hr. destruct (clone_spec L parent child pmp s Hr) as (s' & c & E & Hc & E1 & E2 & E3 & Hb & Hct & _).
  destruct Hr as [Ht Hm Hlim _ _ _ _ (_ & H5 & H6)]. set (base := table_pointer_heap_base (pg s)) in *.
  exists s', c. rewrite E2. do 3 (split; [congruence|]). cbn zeta. unfold FAT_ADDRESS in *. split; [|split; [|split]].
  - intros o Ho. by apply (walk_child_image (base + 0x1000) _ base (ram_of (pg s)) _ L); try done; unfold FAT_ADDRESS; lia.
  - intros va Hva Hn. apply (walk_child_other (base + 0x1000) (childImage_PA pmp) base _ _ L); try done; unfold FAT_ADDRESS; try lia.
    intros E'. apply Hn. unfold CONTROLTHREAD_BASE. pose proof (Z.div_mod va (2 ^ 21)).
    pose proof (Z.mod_pos_bound va (2 ^ 21)). lia.
  - intros va Hva. apply (walk_kernel_kept (base + 0x1000) (childImage_PA pmp) base _ _ L); try done; unfold FAT_ADDRESS; lia.
  - intros va Hva. apply (user_page_child (base + 0x1000) (childImage_PA pmp) base _ _ L); try done; unfold FAT_ADDRESS; lia.
Qed.

(** What a clone reads of memory when it translates an address. *)
Lemma child_walk_ext A img base m m' m'' L va :
  tables_ok m base L -> A = base + 0x1000 -> A + 0x3000 < FAT_ADDRESS -> child_tables A img m m' ->
  (forall x, 0 <= x < A + 0x4000 -> m'' x = m' x) -> 0 <= va < 2 ^ 30 -> walk m'' va A = walk m' va A.
Proof.
  intros Ht HA Hlim Hc Hext Hv. pose proof (child_range A base m L Ht HA Hlim) as R. unfold FAT_ADDRESS in *.
  destruct (child_aligned A base m L Ht HA) as (A0 & A1 & A2 & A3).
  destruct (walk_both A img base m m' L Ht HA Hlim Hc va Hv) as (_ & I1 & I2 & I3 & Hd).
  assert (forall t i, 0 <= t -> t <= A + 0x3000 -> 0 <= i < 512 -> entry m'' t i = entry m' t i) as He
    by (intros t i H1 H2 Hi; apply entry_ext; intros x Hx; apply Hext; lia).
  unfold walk. rewrite !index_spec, I1, I2, I3, !(He A 0) by lia.
  rewrite (ct_pml4 _ _ _ _ Hc), frame_lor, (He (A + 0x3000) 0) by (done || lia).
  rewrite (ct_pdpt _ _ _ _ Hc), frame_lor, (He (A + 0x2000) (va / 2 ^ 21)) by (done || lia).
  rewrite He; [done|..|apply Z.mod_pos_bound; lia].
  all: destruct (decide (va / 2 ^ 21 = 1)) as [->|N];
    [rewrite (ct_pd _ _ _ _ Hc), frame_lor by (done || lia); lia|rewrite (ct_pd_rest _ _ _ _ Hc) by done].
  all: destruct (frame_kernel A base m L Ht HA Hlim _ Hd) as [->|E]; unfold TABLE_POINTER_HEAP_BASE in *; lia.
Qed.

(** A clone's directory is a snapshot: a region that the kernel maps later is
    in the kernel's tables only, and the clone goes on translating every
    address as before. *)
Theorem clone_snapshot (L : directory) (parent child pa va : Z) (pmp : process_mm) (s : asst) :
  clone_ready L parent child pmp s -> table_pointer_heap_base (pg s) + 0x5000 < FAT_ADDRESS -> good_mapping (pa, va) ->
  exists s' s2 c, clone_address_space parent child s = Done tt s' /\ pmm s' !! child = Some c /\
    on_pg (mm_map_2mb_region pa va) s' = Done 0 s2 /\
    walk (ram_of (pg s2)) va KERNEL_PML4_PA = pa + va mod 2 ^ 21 /\
    forall v, 0 <= v < 2 ^ 30 -> walk (ram_of (pg s2)) v (pml4_PA c) = walk (ram_of (pg s')) v (pml4_PA c).
Proof.
  intros Hr Hroom ((Hpa & Hal) & Hva). cbn [fst snd] in *.
  destruct (clone_spec L parent child pmp s Hr) as (s' & c & E & Hc & E1 & E2 & E3 & Hb & Hct & Ht').
  destruct Hr as [Ht Hm Hlim _ _ _ _ _]. rewrite Hb in Ht'. set (base := table_pointer_heap_base (pg s)) in *.
  destruct (va_split va Hva) as (_ & Hd & _). pose proof (to_base _ _ _ Ht) as (B & _). unfold TABLE_POINTER_HEAP_BASE in B.
  eexists s', _, c. split; [done|]. split; [done|]. split; [|split].
  - unfold on_pg. rewrite (map_2mb_spec (pg s') L pa va); [reflexivity|by rewrite Hb|rewrite Hb; lia|done].
  - rewrite Hb. lazymatch goal with |- walk ?x _ _ = _ => change x with
      (mapped (va / 2 ^ 21) (base + 0x4000 + 0x1000) pa 0x1B (ram_of (pg s'))) end.
    rewrite (walk_after _ _ L) by (done || lia). by rewrite Z.eqb_refl.
  - intros v Hv. rewrite E2, Hb. apply (child_walk_ext (base + 0x1000) (childImage_PA pmp) base (ram_of (pg s)) _ _ L v);
      try done; [lia|]. intros x Hx. apply mapped_outside; unfold KERNEL_PD_PA, FAT_ADDRESS in *; lia.
Qed.

(** ** The slabs and the clones *)

Lemma with_slabs_again i j p x y s : with_slabs j p y (with_slabs i p x s) = with_slabs j p y s.
Proof. unfold with_slabs. cbn. by rewrite insert_insert_eq. Qed.

(** The block [i] when the process [p] has taken those before. *)
Lemma slab_again i p x y s : (i < 4)%nat -> current_valid (mptab (kh s)) p x -> p_used y = p_used x -> p_magic y = p_magic x ->
  slab_1MB_allocator (with_slabs i p y s) = Done (slab_va i) (with_slabs (S i) p (charged y) s).
Proof.
  intros Hi Hc Hu Hm. pose proof (current_valid_alloc _ p x y Hc Hu Hm) as Hc'.
  rewrite (slab_step i p y) by (done || lia). replace (i =? 4)%nat with false by (symmetry; apply Nat.eqb_neq; lia).
  by rewrite with_slabs_again.
Qed.

Lemma slab_calls_cons n s va s1 l s2 :
  slab_1MB_allocator s = Done va s1 -> slab_calls n s1 = Done l s2 -> slab_calls (S n) s = Done (va :: l) s2.
Proof. intros H1 H2. cbn [slab_calls]. by rewrite (bind_Done _ _ _ _ _ H1), (bind_Done _ _ _ _ _ H2). Qed.

Lemma slab_calls_empty n p x s : NewPagedPool s = boot_pool (slab_free 4) -> current_valid (mptab (kh s)) p x ->
  slab_calls n s = Done (replicate n NULL) s.
Proof.
  intros Hp Hc. induction n as [|n IH]; [done|]. cbn [slab_calls].
  by rewrite (bind_Done _ _ _ _ _ (slab_step 4 p x s ltac:(lia) Hp Hc)), (bind_Done _ _ _ _ _ IH).
Qed.

Lemma slab_physical base L lfb s i o :
  tables_ok (ram_of s) base L -> L = boot_directory lfb -> (i < 4)%nat -> 0 <= o < 0x100000 ->
  walk (ram_of s) (slab_va i + o) KERNEL_PML4_PA = EXTRAHEAP2_PA + 0x100000 * Z.of_nat i + o.
Proof.
  intros Ht -> Hi Ho.
  destruct (boot_directory_at lfb EXTRAHEAP2_C) as (p2 & L2); [unfold boot_components; rewrite !elem_of_cons; tauto|].
  destruct (boot_directory_at lfb EXTRAHEAP3_C) as (p3 & L3); [unfold boot_components; rewrite !elem_of_cons; tauto|].
  pose proof (fun o => walk_mapped _ _ _ _ _ _ _ o Ht L2) as W2. pose proof (fun o => walk_mapped _ _ _ _ _ _ _ o Ht L3) as W3.
  rewrite region_start in W2, W3. cbn [region_va canonical_pa] in W2, W3.
  unfold EXTRAHEAP2_PA, EXTRAHEAP3_PA, EXTRAHEAP2_VA, EXTRAHEAP3_VA in *.
  destruct i as [|[|[|[|]]]]; [..|lia]; cbn [slab_va nth].
  - rewrite W2 by lia. lia.
  - rewrite <- Z.add_assoc, W2 by lia. lia.
  - rewrite W3 by lia. lia.
  - rewrite <- Z.add_assoc, W3 by lia. lia.
Qed.

(** The allocator of 1 MB blocks after paging: the first four calls give
    four blocks, on the four consecutive megabytes of memory from the second
    extra heap on, and charge each to the current process; every later call
    returns NULL and changes nothing, since no routine gives a block back. *)
Theorem slab_blocks (n : nat) (lfb base p : Z) (x : process_d) (s : pgst) :
  NewPagedPool s = boot_pool (slab_free 0) -> current_valid (mptab (kh s)) p x ->
  tables_ok (ram_of s) base (boot_directory lfb) ->
  exists s', slab_calls (4 + n) s = Done (map slab_va (seq 0 4) ++ replicate n NULL) s' /\
    s' = with_slabs 4 p (charged (charged (charged (charged x)))) s /\
    forall i o, (i < 4)%nat -> 0 <= o < 0x100000 ->
      walk (ram_of s') (slab_va i + o) KERNEL_PML4_PA = EXTRAHEAP2_PA + 0x100000 * Z.of_nat i + o.
Proof.
  intros Hp Hc Ht. eexists. split; [|split; [reflexivity|]].
  - cbn [Nat.add seq map app]. eapply slab_calls_cons; [apply (slab_step 0 p x s ltac:(lia) Hp Hc)|].
    do 3 (eapply slab_calls_cons; [by eapply slab_again; [lia|exact Hc|..]|]).
    eapply slab_calls_empty; [reflexivity|]. by apply (current_valid_alloc _ p x).
  - intros i o Hi Ho. by apply (slab_physical base (boot_directory lfb) lfb s).
Qed.

(** The megabyte after each block, by its address in the kernel. *)
Definition slab_next (i : nat) : Z := nth i [EXTRAHEAP2_VA + 0x100000; EXTRAHEAP3_VA; EXTRAHEAP3_VA + 0x100000; PAGEDPOOL_VA] NULL.

(** A clone's image is a block of 1 MB, but its page table maps 2 MB from the
    block on, all of them for ring 3: through the second megabyte of its
    address space the clone reads and writes the next block, which the
    allocator gives to the next process, and after the last block the pool of
    pages. *)
Theorem clone_reaches_neighbour (i : nat) (o lfb parent child : Z) (pmp : process_mm) (s : asst) :
  clone_ready (boot_directory lfb) parent child pmp s -> (i < 4)%nat -> 0 <= o < 0x100000 ->
  virtual_to_physical (slab_va i) KERNEL_PML4_PA (pg s) = Done (childImage_PA pmp) (pg s) ->
  exists s' c, clone_address_space parent child s = Done tt s' /\ pmm s' !! child = Some c /\
    user_page (ram_of (pg s')) (CONTROLTHREAD_BASE + 0x100000 + o) (pml4_PA c) = true /\
    walk (ram_of (pg s')) (CONTROLTHREAD_BASE + 0x100000 + o) (pml4_PA c) =
      walk (ram_of (pg s')) (slab_next i + o) KERNEL_PML4_PA.
Proof.
  intros Hr Hi Ho Hpa. pose proof (cr_tables _ _ _ _ _ Hr) as Ht.
  assert (childImage_PA pmp = EXTRAHEAP2_PA + 0x100000 * Z.of_nat i) as Himg.
  { pose proof (slab_physical _ _ lfb (pg s) i 0 Ht eq_refl Hi ltac:(lia)) as W. rewrite !Z.add_0_r in W.
    rewrite virtual_to_physical_spec in Hpa; [congruence| |done].
    destruct i as [|[|[|[|]]]]; [..|lia]; done. }
  destruct (clone_spec _ parent child pmp s Hr) as (s' & c & E & Hc & E1 & E2 & E3 & Hb & Hct & Ht').
  pose proof Hr as [_ _ Hlim _ _ _ _ (_ & H5 & H6)]. set (base := table_pointer_heap_base (pg s)) in *.
  exists s', c. split; [done|]. split; [done|]. rewrite E2. unfold FAT_ADDRESS in *. split.
  - rewrite (user_page_child (base + 0x1000) (childImage_PA pmp) base (ram_of (pg s)) _ (boot_directory lfb));
      try done; unfold FAT_ADDRESS, CONTROLTHREAD_BASE; try lia.
    replace ((0x200000 + 0x100000 + o) / 2 ^ 21) with 1; [done|].
    apply (Z.div_unique _ _ _ (0x100000 + o)); lia.
  - rewrite <- Z.add_assoc, (walk_child_image (base + 0x1000) (childImage_PA pmp) base (ram_of (pg s)) _ (boot_directory lfb));
      try done; unfold FAT_ADDRESS; try lia.
    rewrite Himg. destruct (decide (i = 3)%nat) as [->|N].
    + destruct (boot_directory_at lfb PAGEDPOOL_C) as (pt & HL); [unfold boot_components; rewrite !elem_of_cons; tauto|].
      pose proof (walk_mapped _ _ _ _ _ _ _ o Ht' HL ltac:(lia)) as W. rewrite region_start in W.
      cbn [region_va canonical_pa] in W. cbn [slab_next nth]. rewrite W. unfold EXTRAHEAP2_PA, PAGEDPOOL1_PA. lia.
    + replace (slab_next i) with (slab_va (S i)) by (destruct i as [|[|[|]]]; done || lia).
      rewrite (slab_physical _ _ lfb (pg s') (S i) o Ht' eq_refl) by lia. lia.
Qed.

(** ** Witnesses *)

(** The system that [pagesInitializePaging] leaves of [sample_pgst]. *)
Record sample_booted (g : pgst) : Prop := {
  sb_run : pagesInitializePaging (sample_pgst (fun _ => 0)) = Done 0 g;
  sb_tables : tables_ok (ram_of g) (table_pointer_heap_base g) (boot_directory 0xE0000000);
  sb_base : table_pointer_heap_base g = 0xB000;
  sb_bytes : bytes (ram_of g);
  sb_data : kernel_mm_data g = boot_mm_data /\ gKernelPML4Address g = KERNEL_PML4_PA;
  sb_slabs : NewPagedPool g = boot_pool (slab_free 0);
  sb_process : current_valid (mptab (kh g)) 4096 (sample_process 0);
  sb_pool : pool_ready 0 [] 4096 (sample_process 0) g;
  sb_room : page_room 4 [] g
}.

Lemma wf_heap_mem h m l : wf_heap (h <| mem := m |>) l -> wf_heap h l.
Proof. intros []. constructor; done. Qed.

Lemma sample_pgst_booted : exists g, sample_booted g.
Proof.
  destruct (boot_spec _ sample_boot_ready) as (g & R & _ & Hb & Ht & Hbase & Hp & Hd & Hg & Hn & Hl & _ & Hk). revert R.
  change (gSavedLFB (sample_pgst (fun _ => 0))) with 0xE0000000 in Ht.
  change (pageAllocList (sample_pgst (fun _ => 0))) with (replicate 512 0) in Hl.
  assert (wf_heap (kh g) []) as Hw.
  { eapply wf_heap_mem. rewrite Hk. apply (wf_heap_mem _ (mem (booted sample_mst))). apply sample_booted_wf. }
  assert (mptab (kh g) = sample_ptab) as Hpt by (apply (f_equal mptab) in Hk; exact Hk).
  assert (current_valid (mptab (kh g)) 4096 (sample_process 0)) as Hc by (rewrite Hpt; apply sample_current).
  assert (g_available_heap (kh g) = KERNEL_HEAP_END - KERNEL_HEAP_START) as Hav
    by (apply (f_equal g_available_heap) in Hk; exact Hk).
  assert (PAGEDPOOL_C ∈ boot_components) as Hin by (unfold boot_components; rewrite !elem_of_cons; tauto).
  assert (pool_ready 0 [] 4096 (sample_process 0) g) as Hpool.
  { constructor; [by exists []|lia|by apply Hg|exact Hp| |exact Hw|exact Hc].
    intros o Ho. destruct (boot_directory_at 0xE0000000 PAGEDPOOL_C Hin) as (pt & HL).
    exact (walk_mapped _ _ _ _ _ _ _ o Ht HL Ho). }
  assert (page_room 4 [] g) as Hroom by (unfold page_room; by rewrite Hav).
  rewrite <- Hbase in Ht. intros R. exists g.
  exact (Build_sample_booted g R Ht Hbase Hb (conj Hd Hp) Hn Hc Hpool Hroom).
Qed.

Lemma first_slot_spec_witness :
  exists r, __firstSlotForAList 8 linked_pgst = Done r linked_pgst /\ first_run (pageAllocList linked_pgst) 8 r.
Proof. apply (first_slot_spec 8 linked_pgst); [reflexivity|lia]. Defined.

Lemma paged_pool_pages_witness :
  exists g s', sample_booted g /\ new_pages 3 g = Done [0x30600000; 0x30601000; 0x30602000] s' /\ ram_of s' = ram_of g.
Proof.
  destruct sample_pgst_booted as (g & H).
  assert (page_room 3 [] g) as Hroom by (pose proof (sb_room _ H); unfold page_room in *; unfold SIZEOF_PAGE, MMBLOCK_SIZE in *; lia).
  destruct (paged_pool_pages 3 0 [] 4096 (sample_process 0) g (sb_pool _ H) Hroom) as (s' & R & Hm & _); [lia|].
  exists g, s'. exact (conj H (conj R Hm)).
Defined.

Lemma alloc_pages_uninitialised_witness : exists g, sample_booted g /\ allocPages 8 g = Undef.
Proof.
  destruct sample_pgst_booted as (g & H).
  assert (page_room 1 [] g) as Hroom by (pose proof (sb_room _ H); unfold page_room in *; unfold SIZEOF_PAGE, MMBLOCK_SIZE in *; lia).
  exists g. split; [exact H|].
  exact (alloc_pages_uninitialised 8 0 [] 4096 (sample_process 0) g (sb_pool _ H) Hroom ltac:(lia)).
Defined.

Lemma slab_blocks_witness :
  exists g s', sample_booted g /\
    slab_calls 5 g = Done [0x30C00000; 0x30D00000; 0x30E00000; 0x30F00000; NULL] s'.
Proof.
  destruct sample_pgst_booted as (g & H).
  destruct (slab_blocks 1 0xE0000000 _ 4096 (sample_process 0) g (sb_slabs _ H) (sb_process _ H) (sb_tables _ H)) as (s' & R & _).
  exists g, s'. exact (conj H R).
Defined.

(** A process 1 with the first block as its child's image, a child 2. *)
Definition parent_mm : process_mm := mk_process_mm 1 1 1 1 1 1 0 0 EXTRAHEAP2_VA 0 EXTRAHEAP2_PA 0.
Definition two_processes (g : pgst) : asst :=
  mk_asst g {[ 1 := parent_mm; 2 := mk_process_mm 0 0 0 0 0 0 0 0 0 0 0 0 ]}.

Lemma two_processes_ready g : sample_booted g -> clone_ready (boot_directory 0xE0000000) 1 2 parent_mm (two_processes g).
Proof.
  intros H. constructor.
  - exact (sb_tables _ H).
  - exact (sb_bytes _ H).
  - change (table_pointer_heap_base (pg (two_processes g))) with (table_pointer_heap_base g). by rewrite (sb_base _ H).
  - exact (sb_data _ H).
  - destruct (boot_directory_at 0xE0000000 SYSTEM_ORIGIN_C) as (pt & HL); [left|]. by exists pt, 3.
  - done.
  - split; [by eexists|done].
  - done.
Qed.

Lemma clone_isolated_witness :
  exists g s' c, sample_booted g /\ clone_address_space 1 2 (two_processes g) = Done tt s' /\
    walk (ram_of (pg s')) 0x201000 (pml4_PA c) = 0x1401000 /\
    walk (ram_of (pg s')) 0x30001000 (pml4_PA c) = walk (ram_of g) 0x30001000 KERNEL_PML4_PA.
Proof.
  destruct sample_pgst_booted as (g & H).
  assert (0 <= 0x1000 < 2 ^ 21 /\ 0 <= 0x30001000 < 2 ^ 30) as (Ho & Hv) by lia.
  assert (~ (CONTROLTHREAD_BASE <= 0x30001000 < CONTROLTHREAD_BASE + 2 ^ 21)) as Hn by (unfold CONTROLTHREAD_BASE; lia).
  destruct (clone_isolated _ 1 2 parent_mm _ (two_processes_ready g H)) as (s' & c & R & _ & _ & W1 & W2 & _).
  exists g, s', c. exact (conj H (conj R (conj (W1 0x1000 Ho) (W2 0x30001000 Hv Hn)))).
Defined.

Lemma clone_snapshot_witness :
  exists g s' s2 c, sample_booted g /\ clone_address_space 1 2 (two_processes g) = Done tt s' /\
    on_pg (mm_map_2mb_region 0x1000000 0x10000000) s' = Done 0 s2 /\
    walk (ram_of (pg s2)) 0x10000000 (pml4_PA c) = walk (ram_of (pg s')) 0x10000000 (pml4_PA c).
Proof.
  destruct sample_pgst_booted as (g & H).
  assert (good_mapping (0x1000000, 0x10000000)) as Hgm by done. assert (0 <= 0x10000000 < 2 ^ 30) as Hv by lia.
  assert (table_pointer_heap_base (pg (two_processes g)) + 0x5000 < FAT_ADDRESS) as Hroom
    by (change (table_pointer_heap_base g + 0x5000 < FAT_ADDRESS); by rewrite (sb_base _ H)).
  destruct (clone_snapshot _ 1 2 0x1000000 0x10000000 parent_mm _ (two_processes_ready g H) Hroom Hgm)
    as (s' & s2 & c & R & _ & R2 & _ & W).
  exists g, s', s2, c. exact (conj H (conj R (conj R2 (W 0x10000000 Hv)))).
Defined.

Lemma first_block_physical g : sample_booted g ->
  virtual_to_physical (slab_va 0) KERNEL_PML4_PA (pg (two_processes g)) = Done (childImage_PA parent_mm) (pg (two_processes g)).
Proof.
  intros H. rewrite virtual_to_physical_spec by done. f_equal. change (ram_of (pg (two_processes g))) with (ram_of g).
  rewrite <- (Z.add_0_r (slab_va 0)). by rewrite (slab_physical _ _ 0xE0000000 g 0 0 (sb_tables _ H)) by (done || lia).
Qed.

Lemma clone_reaches_neighbour_witness :
  exists g s' c, sample_booted g /\ clone_address_space 1 2 (two_processes g) = Done tt s' /\
    user_page (ram_of (pg s')) 0x300000 (pml4_PA c) = true /\
    walk (ram_of (pg s')) 0x300000 (pml4_PA c) = walk (ram_of (pg s')) 0x30D00000 KERNEL_PML4_PA.
Proof.
  destruct sample_pgst_booted as (g & H).
  assert ((0 < 4)%nat /\ 0 <= 0 < 0x100000) as (Hi & Ho) by lia.
  destruct (clone_reaches_neighbour 0 0 0xE0000000 1 2 parent_mm _ (two_processes_ready g H) Hi Ho (first_block_physical g H))
    as (s' & c & R & _ & U & W).
  exists g, s', c. exact (conj H (conj R (conj U W))).
Defined.
