(* ===== verification/Net.v ===== *)
(** * Net: frames, packets and the network protocols

    res/net/net.c, inet.h and res/net/prot (ethernet.c, arp.c, ipv4.c, udp.c,
    tcp.c, dhcp.c, gprot.c), with the send and the receive routines of
    res/dev/netdev/e1000. Frames lie in the byte memory, where the kernel builds
    and reads them; the headers that the C code builds in local structures are
    lists of bytes. What the adapter is given to send is recorded, frame by
    frame, in [wire]; its answers (the status of a descriptor) are a parameter. *)
From Stdlib Require Import ZArith Lia.
From stdpp Require Import base gmap list strings.
From S2P Require Import Config Prelude Strings Memory Format Process KState Threads Ipc.

#[local] Open Scope Z_scope.
#[local] Open Scope gramado_scope.

(** ** ethernet.h, arp.h, ip.h, udp.h, tcp.h, dhcp.h, e1000.h *)
Definition ETH_ALEN : Z := 6.
Definition ETHERTYPE_IPV4 : Z := 0x0800.
Definition ETHERTYPE_ARP : Z := 0x0806.
Definition ETHERTYPE_IPV6 : Z := 0x86DD.
Definition ETHERNET_HEADER_LENGHT : Z := 14.
Definition ARP_OPC_REQUEST : Z := 1.
Definition ARP_OPC_REPLY : Z := 2.
Definition ARP_HEADER_LENGTH : Z := 28.
Definition ARP_TABLE_COUNT_MAX : Z := 32.
Definition PROTOCOL_IP_ICMP : Z := 1.
Definition PROTOCOL_IP_TCP : Z := 6.
Definition PROTOCOL_IP_UDP : Z := 17.
Definition IP_HEADER_LENGHT : Z := 20.
Definition UDP_HEADER_LENGHT : Z := 8.
Definition TCP_HEADER_LENGHT : Z := 20.
Definition DORA_D : Z := 1.
Definition DORA_O : Z := 2.
Definition DORA_R : Z := 3.
Definition DORA_A : Z := 5.
Definition OPT_SUBNET_MASK : Z := 1.
Definition OPT_ROUTER : Z := 3.
Definition OPT_DNS : Z := 6.
Definition OPT_REQUESTED_IP_ADDR : Z := 50.
Definition OPT_DHCP_MESSAGE_TYPE : Z := 53.
Definition OPT_SERVER_ID : Z := 54.
Definition OPT_PARAMETER_REQUEST : Z := 55.
Definition OPT_END : Z := 255.
Definition SIZEOF_DHCP : Z := 548.
Definition SEND_BUFFER_MAX : Z := 8.
Definition RECEIVE_BUFFER_MAX : Z := 32.
Definition E1000_DEFAULT_BUFFER_SIZE : Z := 8192.
Definition NETWORK_DEFAULT_BUFFER_SIZE : Z := E1000_DEFAULT_BUFFER_SIZE.

(** ** Data *)

(** struct intel_nic_info_d, with the fields of its descriptors. *)
Record nic_d := mk_nic {
  nic_magic : Z;
  nic_initialized : Z;
  mac_address : list Z;      (** uint8_t [6] *)
  ip_address : list Z;       (** uint8_t [4] *)
  rx_cur : Z;
  tx_cur : Z;
  rx_status : list Z;        (** legacy_rx_descs[32].status *)
  rx_length : list Z;
  rx_buffers_virt : list Z;
  tx_status : list Z;        (** legacy_tx_descs[8].status *)
  tx_length : list Z;
  tx_cmd : list Z;
  tx_buffers_virt : list Z
}.

#[export] Instance eta_nic : Eta nic_d := fun r =>
  mk_nic (nic_magic r) (nic_initialized r) (mac_address r) (ip_address r) (rx_cur r) (tx_cur r) (rx_status r)
    (rx_length r) (rx_buffers_virt r) (tx_status r) (tx_length r) (tx_cmd r) (tx_buffers_virt r).
#[export] Instance set_ip_address : Setter ip_address. Proof. solve_setter. Defined.
#[export] Instance set_rx_cur : Setter rx_cur. Proof. solve_setter. Defined.
#[export] Instance set_tx_cur : Setter tx_cur. Proof. solve_setter. Defined.
#[export] Instance set_rx_status : Setter rx_status. Proof. solve_setter. Defined.
#[export] Instance set_tx_status : Setter tx_status. Proof. solve_setter. Defined.
#[export] Instance set_tx_length : Setter tx_length. Proof. solve_setter. Defined.
#[export] Instance set_tx_cmd : Setter tx_cmd. Proof. solve_setter. Defined.

Record network_info_d := mk_network_info {
  ni_magic : Z; ni_initialized : Z;
  gateway_ipv4 : list Z; gateway_mac : list Z;
  tx_counter : Z; rx_counter : Z
}.

#[export] Instance eta_network_info : Eta network_info_d := fun r =>
  mk_network_info (ni_magic r) (ni_initialized r) (gateway_ipv4 r) (gateway_mac r) (tx_counter r) (rx_counter r).
#[export] Instance set_gateway_ipv4 : Setter gateway_ipv4. Proof. solve_setter. Defined.
#[export] Instance set_gateway_mac : Setter gateway_mac. Proof. solve_setter. Defined.
#[export] Instance set_tx_counter : Setter tx_counter. Proof. solve_setter. Defined.
#[export] Instance set_rx_counter : Setter rx_counter. Proof. solve_setter. Defined.

Record dhcp_info_d := mk_dhcp_info {
  dhcp_initialized : Z; Step : Z; your_ipv4 : list Z; server_ipv4 : list Z
}.

#[export] Instance eta_dhcp_info : Eta dhcp_info_d := fun r =>
  mk_dhcp_info (dhcp_initialized r) (Step r) (your_ipv4 r) (server_ipv4 r).
#[export] Instance set_dhcp_initialized : Setter dhcp_initialized. Proof. solve_setter. Defined.
#[export] Instance set_Step : Setter Step. Proof. solve_setter. Defined.
#[export] Instance set_your_ipv4 : Setter your_ipv4. Proof. solve_setter. Defined.
#[export] Instance set_server_ipv4 : Setter server_ipv4. Proof. solve_setter. Defined.

(** struct network_buffer_d *)
Record network_buffer_d := mk_network_buffer {
  nb_initialized : Z; receive_tail : Z; receive_head : Z; nb_buffers : list Z; is_full : list Z
}.

#[export] Instance eta_network_buffer : Eta network_buffer_d := fun r =>
  mk_network_buffer (nb_initialized r) (receive_tail r) (receive_head r) (nb_buffers r) (is_full r).
#[export] Instance set_receive_tail : Setter receive_tail. Proof. solve_setter. Defined.
#[export] Instance set_receive_head : Setter receive_head. Proof. solve_setter. Defined.
#[export] Instance set_is_full : Setter is_full. Proof. solve_setter. Defined.

(** struct arp_cache_item_d *)
Record arp_item_d := mk_arp_item { arp_used : Z; arp_magic : Z; arp_id : Z; arp_ipv4 : list Z; arp_mac : list Z }.

(** The globals of the network modules, with the memory and the microkernel. *)
Record netst := mk_netst {
  nkern : kst;
  nmem : memory;
  wire : list (list Z);                  (** the frames given to the adapter, in order *)
  currentNIC : option nic_d;
  NetworkInfo : option network_info_d;
  net_initialized : Z;                   (** NetworkInitialization *)
  net_locked : Z;
  net_is_online : Z;
  caller_ipv4 : list Z;                  (** NetworkSaved *)
  caller_mac : list Z;
  dhcp_info : dhcp_info_d;
  dhcp_saved_server_id : list Z;
  udp_saved_mac : list Z;
  NETWORK_BUFFER : network_buffer_d;
  ARP_initialized : Z;                   (** ARP_Table *)
  arpTable : list arp_item_d;
  ipv4_counter : Z;
  on_sending_counter : Z;
  e1000_tx_counter : Z;
  e1000_rx_counter : Z;
  nodename : list Z                      (** kernel_utsname.nodename *)
}.

#[export] Instance eta_netst : Eta netst := fun r =>
  mk_netst (nkern r) (nmem r) (wire r) (currentNIC r) (NetworkInfo r) (net_initialized r) (net_locked r) (net_is_online r)
    (caller_ipv4 r) (caller_mac r) (dhcp_info r) (dhcp_saved_server_id r) (udp_saved_mac r) (NETWORK_BUFFER r)
    (ARP_initialized r) (arpTable r) (ipv4_counter r) (on_sending_counter r) (e1000_tx_counter r) (e1000_rx_counter r)
    (nodename r).
#[export] Instance set_nkern : Setter nkern. Proof. solve_setter. Defined.
#[export] Instance set_nmem : Setter nmem. Proof. solve_setter. Defined.
#[export] Instance set_wire : Setter wire. Proof. solve_setter. Defined.
#[export] Instance set_currentNIC : Setter currentNIC. Proof. solve_setter. Defined.
#[export] Instance set_NetworkInfo : Setter NetworkInfo. Proof. solve_setter. Defined.
#[export] Instance set_net_initialized : Setter net_initialized. Proof. solve_setter. Defined.
#[export] Instance set_net_locked : Setter net_locked. Proof. solve_setter. Defined.
#[export] Instance set_net_is_online : Setter net_is_online. Proof. solve_setter. Defined.
#[export] Instance set_caller_ipv4 : Setter caller_ipv4. Proof. solve_setter. Defined.
#[export] Instance set_caller_mac : Setter caller_mac. Proof. solve_setter. Defined.
#[export] Instance set_dhcp_info : Setter dhcp_info. Proof. solve_setter. Defined.
#[export] Instance set_dhcp_saved_server_id : Setter dhcp_saved_server_id. Proof. solve_setter. Defined.
#[export] Instance set_udp_saved_mac : Setter udp_saved_mac. Proof. solve_setter. Defined.
#[export] Instance set_NETWORK_BUFFER : Setter NETWORK_BUFFER. Proof. solve_setter. Defined.
#[export] Instance set_ARP_initialized : Setter ARP_initialized. Proof. solve_setter. Defined.
#[export] Instance set_arpTable : Setter arpTable. Proof. solve_setter. Defined.
#[export] Instance set_ipv4_counter : Setter ipv4_counter. Proof. solve_setter. Defined.
#[export] Instance set_on_sending_counter : Setter on_sending_counter. Proof. solve_setter. Defined.
#[export] Instance set_e1000_tx_counter : Setter e1000_tx_counter. Proof. solve_setter. Defined.
#[export] Instance set_e1000_rx_counter : Setter e1000_rx_counter. Proof. solve_setter. Defined.

#[local] Abbreviation K := (M netst).

(** ** Byte order *)

(** [(v >> 8) | (v << 8)], stored in 16 bits; both directions are one macro. *)
Definition ToNetByteOrder16 (v : Z) : Z := u16 (Z.lor (Z.shiftr v 8) (Z.shiftl v 8)).
Definition FromNetByteOrder16 (v : Z) : Z := ToNetByteOrder16 v.
Definition ToNetByteOrder32 (v : Z) : Z :=
  u32 (Z.lor (Z.lor (Z.lor (Z.land (Z.shiftr v 24) 0xFF) (Z.land (Z.shiftl v 8) 0xFF0000))
    (Z.land (Z.shiftr v 8) 0xFF00)) (Z.land (Z.shiftl v 24) 0xFF000000)).
Definition FromNetByteOrder32 (v : Z) : Z := ToNetByteOrder32 v.

(** inet.c *)
Definition htonl (hostlong : Z) : Z := ToNetByteOrder32 (u32 hostlong).
Definition htons (hostshort : Z) : Z := ToNetByteOrder16 (u16 hostshort).
Definition ntohl (netlong : Z) : Z := ToNetByteOrder32 (u32 netlong).
Definition ntohs (netshort : Z) : Z := ToNetByteOrder16 (u16 netshort).

(** The bytes of a word in memory. *)
Definition le16 (v : Z) : list Z := [u8 v; u8 (Z.shiftr v 8)].
Definition le32 (v : Z) : list Z := [u8 v; u8 (Z.shiftr v 8); u8 (Z.shiftr v 16); u8 (Z.shiftr v 24)].

Definition octets_at (m : memory) (a n : Z) : list Z := (fun i => m (a + i)) <$> range 0 n.

(** [f] on the adapter, which exists. *)
Definition deref_nic : K nic_d := getsome currentNIC.
Definition update_nic (f : nic_d -> nic_d) : K unit :=
  d ← deref_nic; modify (fun s => s <| currentNIC := Some (f d) |>).
Definition on_mem (f : memory -> memory) : K unit := modify (fun s => s <| nmem := f (nmem s) |>).
Definition on_dhcp (f : dhcp_info_d -> dhcp_info_d) : K unit := modify (fun s => s <| dhcp_info := f (dhcp_info s) |>).

(** ** net.c *)

Definition networkSetStatus (status : Z) : K unit :=
  if (status <? 0) || (1 <? status) then mret tt else modify (fun s => s <| net_initialized := status |>).
Definition networkGetStatus : K Z := gets net_initialized.
Definition networkLock : K unit := modify (fun s => s <| net_locked := TRUE |>).
Definition networkUnlock : K unit := modify (fun s => s <| net_locked := FALSE |>).
Definition networkIsLocked : K Z := gets net_locked.
Definition networkSetOnlineStatus (status : Z) : K unit :=
  if negb (status =? TRUE) && negb (status =? FALSE) then mret tt else modify (fun s => s <| net_is_online := status |>).
Definition networkGetOnlineStatus : K Z := gets net_is_online.

Definition networkUpdateCounter (the_counter : Z) : K unit :=
  ni ← gets NetworkInfo;
  match ni with
  | None => mret tt
  | Some n =>
      if negb (ni_magic n =? 1234) then mret tt else
      if the_counter =? 1 then modify (fun s => s <| NetworkInfo := Some (n <| tx_counter := u64 (tx_counter n + 1) |>) |>)
      else if the_counter =? 2 then modify (fun s => s <| NetworkInfo := Some (n <| rx_counter := u64 (rx_counter n + 1) |>) |>)
      else mret tt
  end.

(** The sum of the 16-bit words of [len] bytes at [p]: the new sum, the address
    and the length that are left. *)
Fixpoint sum_words (fuel : nat) (m : memory) (checksum p len : Z) : Z * Z * Z :=
  match fuel with
  | O => (checksum, p, len)
  | S fuel => if 1 <? len then sum_words fuel m (u32 (checksum + load16 m p)) (p + 2) (u32 (len - 2)) else (checksum, p, len)
  end.

(** The words of the pseudo header, if there is one, then those between [start]
    and [end_], with the last byte of an odd number. *)
Definition net_checksum (m : memory) (phdr phdr_len start end_ : Z) : Z :=
  let checksum := if phdr =? NULL then 0 else (sum_words (Z.to_nat (u32 phdr_len)) m 0 phdr (u32 phdr_len)).1.1 in
  let len := u32 (end_ - start) in
  let '(checksum, p, len) := sum_words (Z.to_nat len) m checksum start len in
  let checksum := if negb (len =? 0) then u32 (checksum + m p) else checksum in
  let checksum := u32 (Z.land checksum 0xffff + Z.shiftr checksum 16) in
  let checksum := u32 (checksum + Z.shiftr checksum 16) in
  ToNetByteOrder16 (u16 (Z.lnot checksum)).

Definition network_on_sending : K Z :=
  modify (fun s => s <| on_sending_counter := u64 (on_sending_counter s + 1) |>);; mret 0.

(** [tail] and [head] go round the 32 buffers. *)
Definition network_push_packet (src_buffer len : Z) : K Z :=
  if src_buffer =? NULL then panic "network_push_packet: src_buffer" else
  let len := if 1500 <? len then 1500 else len in
  b ← gets NETWORK_BUFFER;
  if negb (nb_initialized b =? TRUE) then panic "network_push_packet: Shared buffers not initialized" else
  let tail := receive_tail b in
  let next := i32 (tail + 1) in
  modify (fun s => s <| NETWORK_BUFFER := b <| receive_tail := if 32 <=? next then 0 else next |> |>);;
  if (tail <? 0) || (32 <=? tail) then panic "network_push_packet: tail" else
  dst ← getsome (fun s => zlookup (nb_buffers (NETWORK_BUFFER s)) tail);
  (if negb (dst =? NULL) then on_mem (memcpy dst src_buffer len) else mret tt);;
  modify (fun s => s <| NETWORK_BUFFER := (NETWORK_BUFFER s) <| is_full := zinsert (is_full (NETWORK_BUFFER s)) tail TRUE |> |>);;
  mret len.

(** The head advances even when the buffer is empty. *)
Definition network_pop_packet (u_buffer len : Z) : K Z :=
  if u_buffer =? NULL then panic "network_pop_packet: [FAIL] u_buffer" else
  let len := if 1500 <? len then 1500 else len in
  b ← gets NETWORK_BUFFER;
  if negb (nb_initialized b =? TRUE) then panic "network_pop_packet: Shared buffers not initialized" else
  let head := receive_head b in
  let next := i32 (head + 1) in
  modify (fun s => s <| NETWORK_BUFFER := b <| receive_head := if 32 <=? next then 0 else next |> |>);;
  if (head <? 0) || (32 <=? head) then panic "network_push_packet: head" else
  full ← getsome (fun s => zlookup (is_full (NETWORK_BUFFER s)) head);
  if negb (full =? TRUE) then mret 0 else
  src ← getsome (fun s => zlookup (nb_buffers (NETWORK_BUFFER s)) head);
  (if negb (src =? NULL) then
     on_mem (memcpy u_buffer src len);;
     modify (fun s => s <| NETWORK_BUFFER := (NETWORK_BUFFER s) <| is_full := zinsert (is_full (NETWORK_BUFFER s)) head FALSE |> |>)
   else mret tt);;
  mret len.

(** A kernel routine run from the network modules. *)
Definition on_kern {A} (m : M kst A) : K A := fun s =>
  match m (nkern s) with
  | Done a k => Done a (s <| nkern := k |>)
  | Panic msg => Panic msg
  | Undef => Undef
  | Leave k => Leave (s <| nkern := k |>)
  | OutOfFuel => OutOfFuel
  end.

(** [network_fill_mac(to, from)] and [network_fill_ipv4(to, from)]: the new
    contents of [to]. *)
Definition network_fill_mac (to from : list Z) : list Z := take 6 from ++ drop 6 to.
Definition network_fill_ipv4 (to from : list Z) : list Z := take 4 from ++ drop 4 to.

(** The text of a literal, and the string that starts at [a]. *)
Definition chars (s : string) : list Z := (fun c => Z.of_N (Ascii.N_of_ascii c)) <$> String.list_ascii_of_string s.
Fixpoint c_string (fuel : nat) (m : memory) (a : Z) : option (list Z) :=
  match fuel with
  | O => None
  | S fuel => if m a =? 0 then Some [] else l ← c_string fuel m (a + 1); Some (m a :: l)
  end.

(** The text is stored without a terminator. *)
Definition ksprintf (str : Z) (format : list Z) : K unit :=
  text ← getsome (fun _ => kinguio_vsprintf format []);
  on_mem (poke_list str text).

(** ** The headers, as the bytes of the C structures *)
Definition ether_header (dst src : list Z) (type : Z) : list Z := dst ++ src ++ le16 type.
Definition ether_arp (type proto hlen plen op : Z) (sha spa tha tpa : list Z) : list Z :=
  le16 type ++ le16 proto ++ [hlen; plen] ++ le16 op ++ sha ++ spa ++ tha ++ tpa.
Definition ip_d (v_hl tos len id off ttl p sum : Z) (src dst : list Z) : list Z :=
  [v_hl; tos] ++ le16 len ++ le16 id ++ le16 off ++ [ttl; p] ++ le16 sum ++ src ++ dst.
Definition udp_d (sport dport ulen sum : Z) : list Z := le16 sport ++ le16 dport ++ le16 ulen ++ le16 sum.

(** A local structure, at an address of its own. *)
Definition local_struct (l : list Z) : memory := poke_list 0 l (fun _ => 0).

Section Network.

(** [dd w n]: what the [n]-th read of the status of the descriptor finds once
    the frames [w] have been given to the adapter. *)
Context (dd : list (list Z) -> nat -> Z).
(** Bounds for the wait on the adapter and for the search of a terminator. *)
Context (txfuel sfuel : nat).
(** The addresses of the static and local buffers. *)
Context (udp_payload tcp_payload response_file Ldhcp message : Z).

(** ** e1000hw.c, e1000.c, ethernet.c: sending. [dev] is always [currentNIC]. *)

Fixpoint e1000_wait (fuel : nat) (old : Z) (n : nat) : K unit :=
  match fuel with
  | O => diverge
  | S fuel =>
      w ← gets wire;
      let st := u8 (dd w n) in
      update_nic (fun d => d <| tx_status := zinsert (tx_status d) old st |>);;
      if Z.land st 0xFF =? 0 then e1000_wait fuel old (S n) else mret tt
  end.

Definition e1000hw_send (len data : Z) : K Z :=
  nic ← gets currentNIC;
  match nic with
  | None => mret (-1)
  | Some d =>
      if negb (nic_magic d =? 1234) then mret (-1) else
      if len <=? 0 then panic "e1000_send: len=0" else
      if E1000_DEFAULT_BUFFER_SIZE <? len then panic "e1000_send: len" else
      if data =? NULL then panic "e1000:_send: data" else
      let old := tx_cur d in
      if SEND_BUFFER_MAX <=? old then panic "e1000_send: old" else
      buffer ← getsome (fun _ => zlookup (tx_buffers_virt d) old);
      on_mem (memcpy buffer data len);;
      update_nic (fun d => d <| tx_length := zinsert (tx_length d) old (u16 len) |>
        <| tx_cmd := zinsert (tx_cmd d) old 0x1B |> <| tx_status := zinsert (tx_status d) old 0 |>);;
      update_nic (fun d => d <| tx_cur := u16 ((tx_cur d + 1) mod 8) |>);;
      (* 0x3818: the tail moves, and the adapter takes the frame *)
      modify (fun s => s <| wire := wire s ++ [octets_at (nmem s) buffer (u16 len)] |>);;
      e1000_wait txfuel old 0;;
      mret 0
  end.

Definition e1000_send (len data : Z) : K Z :=
  nic ← gets currentNIC;
  match nic with
  | None => mret (-1)
  | Some _ =>
      if len <? 0 then mret (-1) else
      Status ← e1000hw_send len data;
      if Status =? 0 then mret 0 else mret (-1)
  end.

(** The result of the driver is dropped. *)
Definition ethernet_send (len data : Z) : K Z :=
  nic ← gets currentNIC;
  match nic with
  | None => mret (-1)
  | Some _ => network_on_sending;; e1000_send len data;; mret 0
  end.

Definition network_send_raw_packet (frame_len frame_address : Z) : K unit :=
  nic ← gets currentNIC;
  match nic with
  | None => mret tt
  | Some d =>
      if negb (nic_magic d =? 1234) then mret tt else
      if frame_len <? 0 then mret tt else
      if NETWORK_DEFAULT_BUFFER_SIZE <? frame_len then mret tt else
      if frame_address =? NULL then mret tt else
      ethernet_send frame_len frame_address;; mret tt
  end.

Definition e1000_ioctl (fd request arg : Z) : Z := if (fd <? 0) || (OPEN_MAX <=? fd) then - EBADF else - EINVAL.

(** ** arp.c *)
Definition __arp_broadcast_mac : list Z := [255; 255; 255; 255; 255; 255].
Definition __arp_gramado_default_ipv4 : list Z := [0; 0; 0; 0].
Definition __arp_target_default_ipv4 : list Z := [192; 168; 1; 1].
Definition __arp_gateway_default_ipv4 : list Z := [192; 168; 1; 1].

Definition arp_initialize_arp_table : K unit :=
  modify (fun s => s <| arpTable := (fun i => mk_arp_item TRUE 1234 i [0; 0; 0; 0] [0; 0; 0; 0; 0; 0]) <$>
    range 0 ARP_TABLE_COUNT_MAX |>);;
  modify (fun s => s <| ARP_initialized := TRUE |>).

Definition arp_table_set_entry (index : Z) (target_ip target_mac : list Z) : K unit :=
  ini ← gets ARP_initialized;
  if negb (ini =? TRUE) then mret tt else
  if index <? 0 then mret tt else
  if ARP_TABLE_COUNT_MAX <=? index then mret tt else
  e ← getsome (fun s => zlookup (arpTable s) index);
  modify (fun s => s <| arpTable := zinsert (arpTable s) index
    (mk_arp_item (arp_used e) (arp_magic e) (arp_id e) target_ip target_mac) |>).

Definition network_send_arp (target_mac source_ip target_ip : list Z) (op : Z) : K unit :=
  nic ← gets currentNIC;
  match nic with
  | None => mret tt
  | Some d =>
      update_nic (fun d => d <| ip_address := source_ip |>);;
      let Leh := ether_header target_mac (mac_address d) (ToNetByteOrder16 ETHERTYPE_ARP) in
      if negb (op =? ARP_OPC_REQUEST) && negb (op =? ARP_OPC_REPLY)
      then panic "network_send_arp: Invalid operation code" else
      let Larp := ether_arp 0x0100 0x0008 ETH_ALEN 4 (ToNetByteOrder16 op)
        (mac_address d) source_ip target_mac target_ip in
      frame ← getsome (fun _ => zlookup (tx_buffers_virt d) (tx_cur d));
      if frame =? NULL then panic "network_send_arp: frame" else
      on_mem (poke_list frame Leh);;
      on_mem (poke_list (frame + ETHERNET_HEADER_LENGHT) Larp);;
      ethernet_send (ETHERNET_HEADER_LENGHT + ARP_HEADER_LENGTH) frame;;
      mret tt
  end.

Definition network_arp_request_to (src_ipv4 dst_ipv4 : list Z) : K unit :=
  st ← networkGetStatus;
  if negb (st =? TRUE) then mret tt else
  network_send_arp __arp_broadcast_mac src_ipv4 dst_ipv4 ARP_OPC_REQUEST.

Definition network_send_arp_request : K unit :=
  network_arp_request_to __arp_gramado_default_ipv4 __arp_target_default_ipv4.
Definition network_send_arp_request2 : K unit :=
  network_arp_request_to __arp_gramado_default_ipv4 __arp_gateway_default_ipv4.

Definition network_send_arp_reply (target_mac target_ip : list Z) : K unit :=
  i ← gets dhcp_info;
  if negb (dhcp_initialized i =? TRUE) then mret tt else
  network_send_arp target_mac (your_ipv4 i) target_ip ARP_OPC_REPLY.

(** The target of a request is not looked at. *)
Definition network_handle_arp (buffer : Z) : K unit :=
  if buffer =? NULL then mret tt else
  m ← gets nmem;
  let op := FromNetByteOrder16 (load16 m (buffer + 6)) in
  let arp_sha := octets_at m (buffer + 8) 6 in
  let arp_spa := octets_at m (buffer + 14) 4 in
  if op =? ARP_OPC_REQUEST then network_send_arp_reply arp_sha arp_spa
  else if op =? ARP_OPC_REPLY then
    if bool_decide (arp_spa = [192; 168; 1; 1]) then
      ni ← gets NetworkInfo;
      match ni with
      | None => mret tt
      | Some n =>
          if ni_initialized n =? TRUE then
            modify (fun s => s <| NetworkInfo := Some (n <| gateway_ipv4 := network_fill_ipv4 (gateway_ipv4 n) arp_spa |>
              <| gateway_mac := network_fill_mac (gateway_mac n) arp_sha |>) |>)
          else mret tt
      end
    else mret tt
  else mret tt.

(** ** udp.c: sending *)
Definition __udp_gramado_default_ipv4 : list Z := [192; 168; 1; 12].
Definition __udp_target_default_ipv4 : list Z := [192; 168; 1; 10].
Definition __udp_target_gateway_ipv4 : list Z := [192; 168; 1; 1].
Definition __udp_target_mac : list Z := [255; 255; 255; 255; 255; 255].

(** The IP header of a datagram, without and with its checksum. *)
Definition udp_ip_header (iplen sum : Z) (source_ip target_ip : list Z) : list Z :=
  ip_d 0x45 0 (ToNetByteOrder16 iplen) 0 (ToNetByteOrder16 0x4000) 255 0x11 sum source_ip target_ip.
Definition header_sum (header : list Z) : Z :=
  ToNetByteOrder16 (net_checksum (local_struct header) 0 0 0 IP_HEADER_LENGHT).

Definition network_send_udp (source_ip target_ip target_mac : list Z) (source_port target_port data data_lenght : Z) : K Z :=
  nic ← gets currentNIC;
  match nic with
  | None => mret (-1)
  | Some d =>
      update_nic (fun d => d <| ip_address := source_ip |>);;
      if data =? NULL then mret (-1) else
      let Leh := ether_header target_mac (mac_address d) (ToNetByteOrder16 ETHERTYPE_IPV4) in
      let xxxdata := u16 (Z.land data_lenght 0xFFFF) in
      let iplen := u16 (IP_HEADER_LENGHT + u16 (UDP_HEADER_LENGHT + xxxdata)) in
      let sum := header_sum (udp_ip_header iplen 0 source_ip target_ip) in
      let Lipv4 := udp_ip_header iplen sum source_ip target_ip in
      let udplen := u16 (UDP_HEADER_LENGHT + xxxdata) in
      let Ludp := udp_d (ToNetByteOrder16 source_port) (ToNetByteOrder16 target_port) (ToNetByteOrder16 udplen) 0 in
      frame ← getsome (fun _ => zlookup (tx_buffers_virt d) (tx_cur d));
      if frame =? NULL then panic "network_send_udp: frame" else
      on_mem (poke_list frame Leh);;
      on_mem (poke_list (frame + ETHERNET_HEADER_LENGHT) Lipv4);;
      on_mem (poke_list (frame + (ETHERNET_HEADER_LENGHT + IP_HEADER_LENGHT)) Ludp);;
      let data_offset := ETHERNET_HEADER_LENGHT + IP_HEADER_LENGHT + UDP_HEADER_LENGHT in
      on_mem (copy_up (Z.to_nat data_lenght) (frame + data_offset) data);;
      ethernet_send (data_offset + data_lenght) frame;;
      mret 0
  end.

Definition udp_save_mac (mac : list Z) : K unit := modify (fun s => s <| udp_saved_mac := take 6 mac |>).

(** The text of the tests, in a local buffer of 512 bytes. *)
Definition test_message : K unit :=
  on_mem (memset message 0 512);;
  ksprintf message (chars "Hello from Gramado to Linux" ++ [10]).

Definition network_test_udp : K unit :=
  test_message;;
  st ← networkGetStatus;
  if negb (st =? TRUE) then mret tt else
  i ← gets dhcp_info;
  network_send_udp (your_ipv4 i) __udp_target_gateway_ipv4 __udp_target_mac 11888 11999 message 512;;
  mret tt.

Definition network_test_udp0 (tmac tip : list Z) (sport dport : Z) : K unit :=
  test_message;;
  network_send_udp __udp_gramado_default_ipv4 tip tmac sport dport message 512;;
  mret tt.

Definition network_test_udp2 : K unit :=
  mac ← gets udp_saved_mac;
  network_test_udp0 mac __udp_target_default_ipv4 34885 34884.

(** ** ipv4.c: sending. The two headers stay in local structures; the frame is
    the caller's buffer as it is. *)
Definition ipv4_send (protocol : Z) (source_ip target_ip target_mac : list Z) (data_buffer data_lenght : Z) : K Z :=
  d ← deref_nic;
  let Leh := ether_header target_mac (mac_address d) (ToNetByteOrder16 ETHERTYPE_IPV4) in
  let iplen := u16 (IP_HEADER_LENGHT + u16 (UDP_HEADER_LENGHT + u16 (Z.land data_lenght 0xFFFF))) in
  id ← gets ipv4_counter;
  modify (fun s => s <| ipv4_counter := u32 (id + 1) |>);;
  let header sum := ip_d 0x45 0 (ToNetByteOrder16 iplen) (ToNetByteOrder16 id) (ToNetByteOrder16 0x4000) 64 protocol sum
    source_ip target_ip in
  let Lipv4 := header (header_sum (header 0)) in
  Status ← ethernet_send (ETHERNET_HEADER_LENGHT + IP_HEADER_LENGHT + data_lenght) data_buffer;
  if Status <? 0 then mret (-1) else mret 0.

(** ** dhcp.c *)
Definition __dhcp_source_ipv4 : list Z := [0; 0; 0; 0].
Definition __dhcp_target_ipv4 : list Z := [255; 255; 255; 255].
Definition __dhcp_target_mac : list Z := [255; 255; 255; 255; 255; 255].

Definition network_save_dhcp_server_id (ip : list Z) : K unit :=
  modify (fun s => s <| dhcp_saved_server_id := take 4 ip |>).

(** struct dhcp_d, from op to giaddr, and the offsets of the fields after it. *)
Definition dhcp_fixed : list Z :=
  [1; 1; 6; 0] ++ le32 (ToNetByteOrder32 0x3903F326) ++ le16 (ToNetByteOrder16 0) ++ le16 (ToNetByteOrder16 0) ++
  le32 0 ++ le32 0 ++ le32 0 ++ le32 0.
Definition dhcp_chaddr : Z := 28.
Definition dhcp_sname : Z := 44.
Definition dhcp_file : Z := 108.
Definition dhcp_cookie : Z := 236.
Definition dhcp_options : Z := 240.

(** options[3..] of the two messages of a client. *)
Definition dhcp_discover_options : list Z :=
  [OPT_PARAMETER_REQUEST; 3; OPT_SUBNET_MASK; OPT_ROUTER; OPT_DNS; OPT_END].
Definition dhcp_request_options (source_ip target_ip name : list Z) : list Z :=
  [OPT_REQUESTED_IP_ADDR; 4] ++ source_ip ++ [OPT_SERVER_ID; 4] ++ target_ip ++
  [OPT_PARAMETER_REQUEST; 3; OPT_SUBNET_MASK; OPT_ROUTER; OPT_DNS; 12; 7] ++ take 7 name ++ [OPT_END].

Definition network_dhcp_send (dhcp message_type : Z) (source_ip target_ip : list Z) (sport dport : Z) : K unit :=
  if dhcp =? NULL then mret tt else
  if message_type <? 0 then mret tt else
  on_mem (poke_list dhcp dhcp_fixed);;
  on_mem (memset (dhcp + dhcp_chaddr) 0 16);;
  nic ← gets currentNIC;
  match nic with
  | None => mret tt
  | Some d =>
      on_mem (poke_list (dhcp + dhcp_chaddr) (mac_address d));;
      on_mem (memset (dhcp + dhcp_sname) 0 64);;
      on_mem (memset (dhcp + dhcp_file) 0 128);;
      on_mem (poke_list (dhcp + dhcp_cookie) (le32 (ToNetByteOrder32 0x63825363)));;
      on_mem (poke_list (dhcp + dhcp_options) [OPT_DHCP_MESSAGE_TYPE; 1; u8 message_type]);;
      if negb (message_type =? DORA_D) && negb (message_type =? DORA_R) then mret tt else
      (if message_type =? DORA_D then
         on_dhcp (fun i => i <| Step := 1 |>);;
         on_mem (poke_list (dhcp + dhcp_options + 3) dhcp_discover_options)
       else
         on_dhcp (fun i => i <| Step := 3 |>);;
         name ← gets nodename;
         on_mem (poke_list (dhcp + dhcp_options + 3) (dhcp_request_options source_ip target_ip name)));;
      network_send_udp __dhcp_source_ipv4 __dhcp_target_ipv4 __dhcp_target_mac sport dport dhcp SIZEOF_DHCP;;
      mret tt
  end.

Definition network_initialize_dhcp : K Z :=
  on_dhcp (fun i => i <| dhcp_initialized := FALSE |>);;
  on_dhcp (fun i => i <| Step := 0 |>);;
  let fail := on_dhcp (fun i => i <| dhcp_initialized := FALSE |>);; mret (-1) in
  st ← networkGetStatus;
  if negb (st =? TRUE) then fail else
  nic ← gets currentNIC;
  match nic with
  | None => fail
  | Some d =>
      if negb (nic_magic d =? 1234) then fail else
      if negb (nic_initialized d =? TRUE) then fail else
      network_dhcp_send Ldhcp DORA_D __dhcp_source_ipv4 __dhcp_target_ipv4 68 67;;
      mret 0
  end.

(** Neither the step, the transaction, the client address nor the direction of
    the message is compared. *)
Definition network_handle_dhcp (dhcp : Z) : K unit :=
  if dhcp =? NULL then mret tt else
  m ← gets nmem;
  let your_ipv4_ := octets_at m (dhcp + 16) 4 in
  let server_ipv4_ := octets_at m (dhcp + 20) 4 in
  let option2 := m (dhcp + dhcp_options + 2) in
  if option2 =? DORA_O then
    on_dhcp (fun i => i <| Step := 2 |>);;
    network_dhcp_send dhcp DORA_R your_ipv4_ server_ipv4_ 68 67
  else if option2 =? DORA_A then
    on_dhcp (fun i => i <| Step := 4 |>);;
    on_dhcp (fun i => i <| your_ipv4 := network_fill_ipv4 (your_ipv4 i) your_ipv4_ |>
      <| server_ipv4 := network_fill_ipv4 (server_ipv4 i) server_ipv4_ |> <| dhcp_initialized := TRUE |>);;
    networkSetOnlineStatus TRUE
  else mret tt.

(** ** gprot.c *)
Definition gprot_response_file : list Z :=
  chars "<html><head></head><body><span>This is the Gramado Kernel</span></body></html>".

(** There is no [return] before the label [fail]. *)
Definition gprot_send_udp (target_ip target_mac : list Z) (source_port target_port data_buffer data_lenght : Z) : K Z :=
  if data_buffer =? NULL then mret (-1) else
  if data_lenght <=? 0 then mret (-1) else
  i ← gets dhcp_info;
  network_send_udp (your_ipv4 i) target_ip target_mac source_port target_port data_buffer data_lenght;;
  mret (-1).

(** [memset(buf, 0, sizeof(buf))]: the size of a pointer; then a code of four
    characters and a text. *)
Definition gprot_answer (buf : Z) (code text : list Z) : K unit :=
  on_mem (memset buf 0 8);;
  ksprintf buf code;;
  ksprintf (buf + 4) text.

Definition gprot_handle_protocol (buf s_port d_port : Z) : K Z :=
  i ← gets dhcp_info;
  if negb (dhcp_initialized i =? TRUE) then mret (-1) else
  if buf =? NULL then mret (-1) else
  if negb (d_port =? 11888) then mret (-1) else
  m ← gets nmem;
  let kind c := (m buf =? 103) && (m (buf + 1) =? 58) && (m (buf + 2) =? c) in
  (if kind 47 then (* g:/ *)
     on_mem (memset response_file 0 512);;
     ksprintf response_file gprot_response_file;;
     file ← getsome (fun s => c_string sfuel (nmem s) response_file);
     gprot_answer buf (chars "g:1 ") file
   else if kind 120 then (* g:x *)
     gprot_answer buf (chars "g:1 ") (chars "Gramado OS received a g:x request" ++ [10]);;
     on_kern (ipc_post_message_to_ds 800800 0 0);; mret tt
   else if kind 48 then gprot_answer buf (chars "g:1 ") (chars "This is a response from Gramado OS" ++ [10])
   else if kind 49 then gprot_answer buf (chars "g:a ") (chars "ACK" ++ [10])
   else if kind 50 then gprot_answer buf (chars "g:a ") (chars "ACK" ++ [10])
   else if kind 51 then gprot_answer buf (chars "g:a ") (chars "ACK" ++ [10])
   else if kind 52 then gprot_answer buf (chars "g:0 ") (chars "exit")
   else on_mem (memset buf 0 8);; ksprintf buf (chars "g:3 "));;
  ip ← gets caller_ipv4;
  mac ← gets caller_mac;
  gprot_send_udp ip mac d_port s_port buf 256;;
  mret 0.

(** ** udp.c, tcp.c, ipv4.c, ethernet.c: receiving *)
Definition __udp_clear_payload_buffer : K unit := on_mem (memset udp_payload 0 1024).

Definition network_handle_udp (buffer : Z) : K unit :=
  if buffer =? NULL then mret tt else
  m ← gets nmem;
  let sport := FromNetByteOrder16 (load16 m buffer) in
  let dport := FromNetByteOrder16 (load16 m (buffer + 2)) in
  __udp_clear_payload_buffer;;
  let p2 := buffer + UDP_HEADER_LENGHT in
  p_size ← getsome (fun s => strlen sfuel (nmem s) p2);
  (if p_size <=? 512 then
     on_mem (strncpy udp_payload p2 p_size);;
     on_mem (poke (udp_payload + p_size) 0);;
     on_mem (poke (udp_payload + (p_size + 1)) 0)
   else mret tt);;
  on_mem (poke (udp_payload + 1021) 0);;
  if dport =? 68 then network_handle_dhcp p2
  else if (dport =? 11888) || (dport =? 22888) || (dport =? 34884) then
    gprot_handle_protocol udp_payload sport dport;;
    __udp_clear_payload_buffer
  else mret tt.

(** Only the copy of the payload outlives the call: the rest prints. *)
Definition network_handle_tcp (buffer : Z) : K unit :=
  if buffer =? NULL then mret tt else
  on_mem (memset tcp_payload 0 1024);;
  on_mem (strncpy tcp_payload (buffer + TCP_HEADER_LENGHT) 1020);;
  on_mem (poke (tcp_payload + 1021) 0).

Definition network_handle_ipv4 (buffer : Z) : K unit :=
  if buffer =? NULL then mret tt else
  m ← gets nmem;
  modify (fun s => s <| caller_ipv4 := network_fill_ipv4 (caller_ipv4 s) (octets_at m (buffer + 12) 4) |>);;
  let Version := Z.land (Z.shiftr (m buffer) 4) 0x0F in
  if negb (Version =? 4) then mret tt else
  let ip_lenght := FromNetByteOrder16 (load16 m (buffer + 2)) in
  if (ip_lenght <? 20) || (65535 <? ip_lenght) then panic "IP: Bad total lenght #debug" else
  let payload_pointer := buffer + IP_HEADER_LENGHT in
  let Protocol := m (buffer + 9) in
  if Protocol =? PROTOCOL_IP_TCP then network_handle_tcp payload_pointer
  else if Protocol =? PROTOCOL_IP_UDP then network_handle_udp payload_pointer
  else mret tt.

Definition network_handle_ethernet (frame frame_size : Z) : K Z :=
  ini ← gets net_initialized;
  if negb (ini =? TRUE) then mret (-1) else
  locked ← gets net_locked;
  if locked =? TRUE then mret (-1) else
  if frame =? NULL then mret (-1) else
  if (frame_size <=? 0) || (E1000_DEFAULT_BUFFER_SIZE <? frame_size) then mret (-1) else
  m ← gets nmem;
  modify (fun s => s <| caller_mac := network_fill_mac (caller_mac s) (octets_at m (frame + 6) 6) |>);;
  let Type_ := FromNetByteOrder16 (load16 m (frame + 12)) in
  if Type_ =? ETHERTYPE_IPV6 then mret (-1)
  else if Type_ =? ETHERTYPE_IPV4 then network_handle_ipv4 (frame + ETHERNET_HEADER_LENGHT);; mret 0
  else if Type_ =? ETHERTYPE_ARP then network_handle_arp (frame + ETHERNET_HEADER_LENGHT);; mret 0
  else mret (-1).

Definition network_on_receiving (frame frame_size : Z) : K Z :=
  st ← gets (fun s => system_state (pt (nkern s)));
  if negb (st =? SYSTEM_RUNNING) then mret (-1) else
  if frame =? NULL then mret (-1) else
  network_handle_ethernet frame frame_size.

(** ** e1000hw.c: the interrupt of the adapter. Nothing arrives while a frame is handled. *)
Definition __e1000_on_transmit : K unit :=
  modify (fun s => s <| e1000_tx_counter := u64 (e1000_tx_counter s + 1) |>);;
  networkUpdateCounter 1.

Fixpoint receive_loop (fuel : nat) : K unit :=
  match fuel with
  | O => diverge
  | S fuel =>
      d ← deref_nic;
      let old := rx_cur d in
      status ← getsome (fun _ => zlookup (rx_status d) old);
      if negb (Z.land status 1 =? 1) then mret tt else
      update_nic (fun d => d <| rx_cur := u16 ((rx_cur d + 1) mod RECEIVE_BUFFER_MAX) |>);;
      if RECEIVE_BUFFER_MAX <=? old then panic "__e1000_on_receive: [receive] old" else
      frame ← getsome (fun _ => zlookup (rx_buffers_virt d) old);
      frame_lenght ← getsome (fun _ => zlookup (rx_length d) old);
      if frame =? NULL then panic "__e1000_on_receive: frame" else
      if E1000_DEFAULT_BUFFER_SIZE <? frame_lenght then panic "__e1000_on_receive: frame_lenght" else
      update_nic (fun d => d <| rx_status := zinsert (rx_status d) old (Z.land status 0xFE) |>);;
      network_on_receiving frame (Z.land frame_lenght 0xFFFF);;
      modify (fun s => s <| e1000_rx_counter := u64 (e1000_rx_counter s + 1) |>);;
      networkUpdateCounter 2;;
      receive_loop fuel
  end.

Definition __e1000_on_receive (fuel : nat) : K unit :=
  nic ← gets currentNIC;
  match nic with
  | None => mret tt
  | Some d => if negb (nic_magic d =? 1234) then mret tt else receive_loop fuel
  end.

(** The causes are tried in order and the first one ends the interrupt; the
    registers of the link and the messages are left out. *)
Definition DeviceInterface_e1000 (fuel : nat) (InterruptCause : Z) : K unit :=
  nic ← gets currentNIC;
  match nic with
  | None => panic "DeviceInterface_e1000: currentNIC"
  | Some d =>
      if negb (nic_magic d =? 1234) then panic "DeviceInterface_e1000: currentNIC validation" else
      if InterruptCause =? 0 then mret tt else
      if negb (Z.land InterruptCause 0x01 =? 0) then __e1000_on_transmit
      else if negb (Z.land InterruptCause 0x02 =? 0) then mret tt
      else if negb (Z.land InterruptCause 0x04 =? 0) then mret tt
      else if negb (Z.land InterruptCause 0x80 =? 0) then __e1000_on_receive fuel
      else mret tt
  end.

End Network.
