(* ===== verification/NetProto.v ===== *)
(** * NetProto: what the network protocols put on the wire

    Theorems about [Net]: the checksum of the IP headers, the frames that
    answer an ARP request, a DHCP offer, an acknowledgement and a gprot
    request, each through the whole path from the receive routine of the
    adapter, the ring of packets, and the frames that stop the kernel. *)
From Stdlib Require Import ZArith Lia.
From stdpp Require Import base gmap list strings.
From S2P Require Import Config Prelude Strings Memory Format Process KState Samples Threads Ipc Net.

#[local] Open Scope Z_scope.
#[local] Open Scope gramado_scope.

(** ** Byte order *)

Definition is_byte (c : Z) : Prop := 0 <= c < 256.

(** A 16-bit number in the order of the network: high byte first. *)
Definition be16 (v : Z) : list Z := [v / 256; v mod 256].

Lemma ToNetByteOrder16_spec v : 0 <= v < 2 ^ 16 -> ToNetByteOrder16 v = 256 * (v mod 256) + v / 256.
Proof.
  intros Hv. unfold ToNetByteOrder16, u16. apply Z.bits_inj'. intros n Hn.
  assert (Hd : 0 <= v / 256 < 2 ^ 8) by (split; [apply Z.div_pos; lia|apply Z.div_lt_upper_bound; lia]).
  rewrite Z.testbit_mod_pow2 by lia. rewrite Z.lor_spec, Z.shiftr_spec, Z.shiftl_spec by lia.
  replace (256 * (v mod 256) + v / 256) with (Z.lor (Z.shiftl (v mod 2 ^ 8) 8) (v / 256)).
  2:{ rewrite <- Z.add_nocarry_lor; [rewrite Z.shiftl_mul_pow2 by lia; change (2 ^ 8) with 256; lia|].
      apply Z.bits_inj'. intros k Hk. rewrite Z.land_spec, Z.shiftl_spec, Z.bits_0 by lia.
      destruct (Z.ltb_spec k 8); [by rewrite Z.testbit_neg_r by lia|].
      rewrite (Z.bits_above_log2 (v / 256)); [by rewrite andb_false_r|lia|].
      destruct (Z.eq_dec (v / 256) 0) as [->|]; [cbn; lia|]. apply Z.log2_lt_pow2; [lia|].
      apply Z.lt_le_trans with (2 ^ 8); [lia|]. by apply Z.pow_le_mono_r; lia. }
  rewrite Z.lor_spec, Z.shiftl_spec by lia. change 256 with (2 ^ 8). rewrite <- (Z.shiftr_div_pow2 v 8) by lia.
  rewrite Z.shiftr_spec by lia. rewrite (orb_comm (Z.testbit _ (n - 8))).
  destruct (Z.ltb_spec n 8).
  - rewrite !(Z.testbit_neg_r _ (n - 8)) by lia. by zguard.
  - rewrite Z.testbit_mod_pow2 by lia. destruct (Z.ltb_spec n 16).
    + by zguard.
    + replace (n - 8 <? 8) with false by (symmetry; apply Z.ltb_ge; lia). cbn [andb]. rewrite orb_false_r.
      symmetry. apply (Z.testbit_false v) ; [lia|]. rewrite Z.div_small; [done|]. split; [lia|].
      apply Z.lt_le_trans with (2 ^ 16); [lia|]. apply Z.pow_le_mono_r; lia.
Qed.

Lemma ToNetByteOrder16_range v : 0 <= ToNetByteOrder16 v < 2 ^ 16.
Proof. unfold ToNetByteOrder16, u16. apply Z.mod_pos_bound. lia. Qed.

Lemma two_parts l h : is_byte h -> (256 * l + h) mod 256 = h /\ (256 * l + h) / 256 = l.
Proof.
  intros Hh. unfold is_byte in Hh. rewrite (Z.add_comm (256 * l)), (Z.mul_comm 256), Z.mod_add, Z.div_add by lia.
  by rewrite Z.mod_small, Z.div_small by lia.
Qed.

Lemma high_byte v : 0 <= v < 2 ^ 16 -> is_byte (v / 256).
Proof. intros. split; [apply Z.div_pos; lia|apply Z.div_lt_upper_bound; lia]. Qed.

Lemma ToNetByteOrder16_twice v : 0 <= v < 2 ^ 16 -> ToNetByteOrder16 (ToNetByteOrder16 v) = v.
Proof.
  intros Hv. rewrite (ToNetByteOrder16_spec (ToNetByteOrder16 v)) by apply ToNetByteOrder16_range.
  rewrite !ToNetByteOrder16_spec by done.
  destruct (two_parts (v mod 256) (v / 256) (high_byte v Hv)) as [-> ->]. pose proof (Z.div_mod v 256). lia.
Qed.

(** The bytes in memory of a swapped number are in network order. *)
Lemma le16_swapped v : 0 <= v < 2 ^ 16 -> le16 (ToNetByteOrder16 v) = be16 v.
Proof.
  intros Hv. rewrite ToNetByteOrder16_spec by done. unfold le16, be16, u8. rewrite Z.shiftr_div_pow2 by lia.
  change (2 ^ 8) with 256. destruct (two_parts (v mod 256) (v / 256) (high_byte v Hv)) as [-> ->].
  by rewrite Z.mod_mod by lia.
Qed.

(** Two bytes in network order are read as the number. *)
Lemma read_be16 m a v : 0 <= v < 2 ^ 16 -> m a = v / 256 -> m (a + 1) = v mod 256 -> FromNetByteOrder16 (load16 m a) = v.
Proof.
  intros Hv H0 H1. unfold FromNetByteOrder16, load16. rewrite H0, H1.
  rewrite <- (ToNetByteOrder16_twice v) at 3 by done. f_equal. rewrite ToNetByteOrder16_spec by done. lia.
Qed.

(** ** Bytes of the memory *)

Lemma length_octets_at m a n : 0 <= n -> zlen (octets_at m a n) = n.
Proof. intros. unfold octets_at, zlen, range. rewrite length_fmap, length_seqZ. lia. Qed.

Lemma octets_at_ext m m' a n : (forall x, a <= x < a + n -> m' x = m x) -> octets_at m' a n = octets_at m a n.
Proof.
  intros H. unfold octets_at. apply list_fmap_ext. intros i x Hx. apply list_elem_of_lookup_2, elem_range in Hx.
  apply H. lia.
Qed.

Lemma octets_at_app m a n k : 0 <= n -> 0 <= k -> octets_at m a (n + k) = octets_at m a n ++ octets_at m (a + n) k.
Proof.
  intros Hn Hk. unfold octets_at, range. rewrite !Z.sub_0_r, seqZ_app, fmap_app by lia. f_equal.
  rewrite Z.add_0_l. rewrite <- (Z.add_0_r n) at 1. rewrite <- fmap_add_seqZ, <- list_fmap_compose.
  apply list_fmap_ext. intros i x _. cbn. by rewrite Z.add_assoc.
Qed.

Lemma octets_at_byte m a n : bytes m -> Forall is_byte (octets_at m a n).
Proof. intros Hm. apply Forall_fmap, Forall_forall. intros i _. apply Hm. Qed.

Lemma octets_at_nil m a : octets_at m a 0 = [].
Proof. done. Qed.

Lemma octets_at_cons m a n : 0 <= n -> octets_at m a (1 + n) = m a :: octets_at m (a + 1) n.
Proof. intros. rewrite octets_at_app by lia. unfold octets_at at 1. change (range 0 1) with [0].
  cbn [fmap list_fmap app]. by rewrite Z.add_0_r. Qed.

Lemma octets_at_list m a l : (forall i c, zlookup l i = Some c -> m (a + i) = c) -> octets_at m a (zlen l) = l.
Proof.
  revert a. induction l as [|c l IH]; intros a H; [done|]. rewrite zlen_cons, octets_at_cons by apply zlen_nonneg. f_equal.
  - rewrite <- (Z.add_0_r a). by apply H.
  - apply IH. intros i d Hi. pose proof (zlookup_lt _ _ _ Hi). rewrite <- Z.add_assoc. apply H. by rewrite zlookup_cons_S by lia.
Qed.

Lemma poke_list_in a l m i c : Forall is_byte l -> zlookup l i = Some c -> poke_list a l m (a + i) = c.
Proof.
  intros Hl Hi. pose proof (zlookup_lt _ _ _ Hi). rewrite poke_list_spec by done. unfold zlen. zguard.
  replace (a + i - a) with i by lia. by rewrite Hi.
Qed.

Lemma poke_list_out a l m x : x < a \/ a + zlen l <= x -> poke_list a l m x = m x.
Proof.
  revert a m. induction l as [|c l IH]; intros a m Hx; cbn [poke_list]; [done|]. rewrite zlen_cons in Hx.
  pose proof (zlen_nonneg l). rewrite IH by lia. apply poke_ne. lia.
Qed.

Lemma octets_at_poke_list a l m : Forall is_byte l -> octets_at (poke_list a l m) a (zlen l) = l.
Proof. intros Hl. apply octets_at_list. intros i c. by apply poke_list_in. Qed.

Lemma octets_at_poke_list_ne a l m b n : b + n <= a \/ a + zlen l <= b -> octets_at (poke_list a l m) b n = octets_at m b n.
Proof. intros H. apply octets_at_ext. intros x Hx. apply poke_list_out. lia. Qed.

Lemma octets_at_lookup m a n i : 0 <= i < n -> zlookup (octets_at m a n) i = Some (m (a + i)).
Proof.
  intros Hi. unfold zlookup, octets_at. destruct (Z.ltb_spec i 0); [lia|]. rewrite list_lookup_fmap.
  unfold range. rewrite lookup_seqZ_lt by lia. cbn. do 2 f_equal. lia.
Qed.

Lemma fill_octets a n v m : bytes m -> is_byte v -> bytes (fill a n v m).
Proof. intros Hm Hv x. unfold fill. case_match; [apply Hv|apply Hm]. Qed.

(** A list of literal bytes. *)
Ltac byte_list := repeat (apply List.Forall_cons; [by split; [apply Z.leb_le|apply Z.ltb_lt]|]); apply List.Forall_nil.

Lemma byte_u8 v : is_byte (u8 v).
Proof. unfold is_byte, u8. apply Z.mod_pos_bound. lia. Qed.

Lemma bytes_le16 v : Forall is_byte (le16 v).
Proof. unfold le16. repeat constructor; apply byte_u8. Qed.

(** ** The checksum of the headers *)

(** The 16-bit words of a list in the order of this machine, and in the order of
    the network, added. *)
Fixpoint le_sum (l : list Z) : Z :=
  match l with a :: b :: l => a + 256 * b + le_sum l | _ => 0 end.
Fixpoint be_sum (l : list Z) : Z :=
  match l with a :: b :: l => 256 * a + b + be_sum l | _ => 0 end.

Lemma pairs_ind {A} (P : list A -> Prop) :
  P [] -> (forall a, P [a]) -> (forall a b l, P l -> P (a :: b :: l)) -> forall l, P l.
Proof.
  intros H0 H1 H2 l. cut (P l /\ forall a, P (a :: l)); [tauto|]. induction l as [|b l [IH1 IH2]]; [done|].
  split; [apply IH2|]. intros a. by apply H2.
Qed.

Lemma le_sum_range l : Forall is_byte l -> 0 <= le_sum l <= 65535 * (zlen l / 2).
Proof.
  induction l as [|a|a b l IH] using pairs_ind; intros Hl; [done..|]. cbn [le_sum].
  inversion_clear Hl as [|? ? Ha Hl']. inversion_clear Hl' as [|? ? Hb Hl]. specialize (IH Hl). rewrite !zlen_cons.
  replace (1 + (1 + zlen l)) with (zlen l + 1 * 2) by lia. rewrite Z.div_add by lia. unfold is_byte in *. lia.
Qed.

(** 256 * 256 is one modulo 65535: the two sums are the same up to a rotation. *)
Lemma be_le_sum l : (be_sum l - 256 * le_sum l) mod 65535 = 0.
Proof.
  induction l as [|a|a b l IH] using pairs_ind; [done..|]. cbn [be_sum le_sum].
  replace (256 * a + b + be_sum l - 256 * (a + 256 * b + le_sum l)) with (be_sum l - 256 * le_sum l + (- b) * 65535) by lia.
  by rewrite Z.mod_add.
Qed.

Lemma le_sum_app l k : Nat.Even (length l) -> le_sum (l ++ k) = le_sum l + le_sum k.
Proof.
  induction l as [|a|a b l IH] using pairs_ind; intros [n Hn]; cbn [app le_sum length] in *; [done|lia|].
  rewrite IH; [lia|]. exists (n - 1)%nat. lia.
Qed.

Lemma sum_words_even m k : bytes m -> forall fuel c p, (k <= fuel)%nat -> 0 <= c -> c + 65535 * Z.of_nat k < 2 ^ 32 ->
  sum_words fuel m c p (2 * Z.of_nat k) = (c + le_sum (octets_at m p (2 * Z.of_nat k)), p + 2 * Z.of_nat k, 0).
Proof.
  intros Hm. induction k as [|k IH]; intros fuel c p Hf Hc Hs.
  - replace (2 * Z.of_nat 0) with 0 by lia. rewrite octets_at_nil. cbn [le_sum]. rewrite !Z.add_0_r. by destruct fuel.
  - destruct fuel as [|fuel]; [lia|]. cbn [sum_words]. zguard. pose proof (load16_range m p Hm).
    rewrite (u32_id (c + load16 m p)) by lia. rewrite u32_id by lia.
    replace (2 * Z.of_nat (S k) - 2) with (2 * Z.of_nat k) by lia. rewrite IH by lia.
    replace (2 * Z.of_nat (S k)) with (1 + (1 + 2 * Z.of_nat k)) by lia. rewrite !octets_at_cons by lia. cbn [le_sum].
    unfold load16. replace (p + 1 + 1) with (p + 2) by lia. f_equal. f_equal; lia.
Qed.

(** The result, put back in the order of this machine, completes the sum. *)
Lemma net_checksum_even m start k : bytes m -> 0 < k <= 65536 ->
  let c := ToNetByteOrder16 (net_checksum m 0 0 start (start + 2 * k)) in
  0 <= c < 2 ^ 16 /\ (le_sum (octets_at m start (2 * k)) + c) mod 65535 = 0.
Proof.
  intros Hm Hk. assert (exists n, k = Z.of_nat n) as [n ->] by (exists (Z.to_nat k); lia). set (k := Z.of_nat n) in *.
  unfold net_checksum. change (0 =? NULL) with true. cbn match. replace (start + 2 * k - start) with (2 * k) by lia. rewrite u32_id by lia.
  subst k. rewrite sum_words_even by (done || lia). set (k := Z.of_nat n) in *. cbn [Z.eqb negb].
  rewrite Z.add_0_l. set (S := le_sum _).
  assert (HS : 0 <= S <= 65535 * k).
  { pose proof (le_sum_range (octets_at m start (2 * k)) (octets_at_byte _ _ _ Hm)) as H. rewrite length_octets_at in H by lia.
    rewrite (Z.mul_comm 2), Z.div_mul in H by lia. subst S. rewrite (Z.mul_comm 2). exact H. }
  rewrite land_FFFF. rewrite Z.shiftr_div_pow2 by lia. change (2 ^ 16) with 65536.
  pose proof (Z.div_mod S 65536). pose proof (Z.mod_pos_bound S 65536).
  assert (0 <= S / 65536 <= 65535) by (split; [apply Z.div_pos; lia|apply Z.lt_succ_r, Z.div_lt_upper_bound; lia]).
  rewrite (u32_id (S mod 65536 + S / 65536)) by lia. set (c1 := S mod 65536 + S / 65536) in *. rewrite Z.shiftr_div_pow2 by lia.
  change (2 ^ 16) with 65536. rewrite ToNetByteOrder16_twice by (unfold u16; apply Z.mod_pos_bound; lia).
  assert (Hc1 : 0 <= c1 <= 131070) by lia. assert (S = 65535 * (S / 65536) + c1) as HSc by lia.
  split; [unfold u16; apply Z.mod_pos_bound; lia|]. unfold Z.lnot, u16. change (2 ^ 16) with 65536.
  destruct (Z.ltb_spec c1 65536) as [Hlt|Hge].
  - rewrite Z.div_small, Z.add_0_r, u32_id by lia.
    replace (Z.pred (- c1) mod 65536) with (65535 - c1) by (apply (Z.mod_unique _ _ (-1)); lia).
    replace (S + (65535 - c1)) with ((S / 65536 + 1) * 65535) by lia. by apply Z.mod_mul.
  - replace (c1 / 65536) with 1 by (apply (Z.div_unique _ _ _ (c1 - 65536)); lia). rewrite u32_id by lia.
    replace (Z.pred (- (c1 + 1)) mod 65536) with (131070 - c1) by (apply (Z.mod_unique _ _ (-2)); lia).
    replace (S + (131070 - c1)) with ((S / 65536 + 2) * 65535) by lia. by apply Z.mod_mul.
Qed.

Lemma be_sum_insert l i c x : zlookup l i = Some x -> Nat.Even (length l) ->
  exists w, (w = 1 \/ w = 256) /\ be_sum (zinsert l i c) = be_sum l + w * (c - x).
Proof.
  revert i. induction l as [|a|a b l IH] using pairs_ind; intros i Hi [n Hn]; [by apply zlookup_lt in Hi; cbn in Hi; lia|cbn in Hn; lia|].
  pose proof (zlookup_lt _ _ _ Hi) as Hr. destruct (Z.eq_dec i 0) as [->|]; [|destruct (Z.eq_dec i 1) as [->|]].
  - injection Hi as ->. exists 256. split; [by right|]. change (be_sum (c :: b :: l) = 256 * x + b + be_sum l + 256 * (c - x)). cbn [be_sum]. lia.
  - injection Hi as ->. exists 1. split; [by left|]. change (be_sum (a :: c :: l) = 256 * a + x + be_sum l + 1 * (c - x)). cbn [be_sum]. lia.
  - replace i with (1 + (1 + (i - 2))) in Hi by lia. rewrite !zlookup_cons_S in Hi by lia. cbn [length] in Hn.
    destruct (IH (i - 2) Hi) as (w & Hw & E); [exists (n - 1)%nat; lia|]. exists w. split; [done|].
    unfold zinsert in *. zguard. destruct (Z.ltb_spec (i - 2) 0); [lia|].
    replace (Z.to_nat i) with (S (S (Z.to_nat (i - 2)))) by lia. 
    change (<[S (S (Z.to_nat (i - 2))) := c]> (a :: b :: l)) with (a :: b :: <[Z.to_nat (i - 2) := c]> l). cbn [be_sum]. lia.
Qed.

Lemma ip_d_parts v_hl tos len id off ttl p sum src dst :
  ip_d v_hl tos len id off ttl p sum src dst =
  ([v_hl; tos] ++ le16 len ++ le16 id ++ le16 off ++ [ttl; p]) ++ le16 sum ++ (src ++ dst).
Proof. reflexivity. Qed.

Lemma header_sum_spec h : Forall is_byte h -> length h = 20%nat ->
  0 <= header_sum h < 2 ^ 16 /\ (le_sum h + header_sum h) mod 65535 = 0.
Proof.
  intros Hb Hl. assert (Hz : zlen h = 20) by (unfold zlen; by rewrite Hl).
  pose proof (net_checksum_even (local_struct h) 0 10 ltac:(apply bytes_poke_list; intros ?; lia) ltac:(lia)) as H.
  cbn zeta in H. replace (2 * 10) with (zlen h) in H by lia. unfold local_struct in H at 3. rewrite octets_at_poke_list in H by done.
  rewrite Hz in H. exact H.
Qed.

(** The header of an IP packet passes the check of a receiver (its ten 16-bit
    words in network order add up to a multiple of 65535), and no header that
    differs from it in one byte does. *)
Definition header_valid (h : list Z) : Prop := be_sum h mod 65535 = 0.

(** [C19] The checksum that ipv4_send and network_send_udp compute, whatever the
    fields and the addresses, makes a header of twenty bytes that passes the
    check of RFC 1071 at the receiver, and every change of a single byte of it
    is detected there. *)
Theorem header_checksum v_hl tos len id off ttl p src dst :
  Forall is_byte [v_hl; tos; ttl; p] -> Forall is_byte src -> Forall is_byte dst -> length src = 4%nat -> length dst = 4%nat ->
  let h := ip_d v_hl tos len id off ttl p (header_sum (ip_d v_hl tos len id off ttl p 0 src dst)) src dst in
  length h = 20%nat /\ Forall is_byte h /\ header_valid h /\
  forall i x c, zlookup h i = Some x -> is_byte c -> c <> x -> ~ header_valid (zinsert h i c).
Proof.
  intros Hb Hs Hd Hls Hld h.
  assert (HB : forall sum, Forall is_byte (ip_d v_hl tos len id off ttl p sum src dst)).
  { intros sum. rewrite !Forall_cons in Hb. destruct Hb as (? & ? & ? & ? & _). rewrite ip_d_parts, !Forall_app.
    unfold le16. rewrite !Forall_cons, Forall_nil. repeat match goal with |- _ /\ _ => split end; done || apply byte_u8. }
  assert (HL : forall sum, length (ip_d v_hl tos len id off ttl p sum src dst) = 20%nat).
  { intros sum. rewrite ip_d_parts, !length_app, Hls, Hld. done. }
  assert (Hev : header_valid h).
  { unfold header_valid. assert (le_sum h mod 65535 = 0) as Hle.
    { destruct (header_sum_spec (ip_d v_hl tos len id off ttl p 0 src dst) (HB 0) (HL 0)) as [Hr Hc]. subst h.
      set (c := header_sum _) in *. rewrite ip_d_parts in Hc |- *. rewrite le_sum_app in Hc |- * by (by exists 5%nat).
      cbn [le16 app le_sum] in Hc |- *. rewrite <- (two_bytes c Hr) in Hc. change (u8 0 + 256 * u8 (Z.shiftr 0 8)) with 0 in Hc.
      etrans; [|exact Hc]. f_equal. change (2 ^ 8) with 256. lia. }
    pose proof (be_le_sum h) as Hbl. apply Z.mod_divide in Hle as [q Hq]; [|lia]. apply Z.mod_divide in Hbl as [r Hr]; [|lia].
    apply Z.mod_divide; [lia|]. exists (r + 256 * q). lia. }
  split; [apply HL|]. split; [apply HB|]. split; [exact Hev|]. intros i x c Hi Hc Hne Hv.
  destruct (be_sum_insert h i c x Hi) as (w & Hw & E); [exists 10%nat; apply HL|].
  assert (Hx : is_byte x) by (eapply (proj1 (Forall_forall _ _) (HB _)), zlookup_elem, Hi).
  unfold header_valid in Hev, Hv. rewrite E in Hv. apply Z.mod_divide in Hev as [q Hq]; [|lia]. apply Z.mod_divide in Hv as [r Hr]; [|lia].
  unfold is_byte in Hx, Hc. rewrite Hq in Hr. destruct Hw as [-> | ->]; nia.
Qed.

(** ** Sending *)

Section Send.
Context (dd : list (list Z) -> nat -> Z) (txfuel : nat).

#[local] Abbreviation ethernet_send := (ethernet_send dd txfuel).
#[local] Abbreviation network_send_arp := (network_send_arp dd txfuel).
#[local] Abbreviation network_send_udp := (network_send_udp dd txfuel).

(** Once the frames [w] are given, the adapter reports the last one as sent
    before the driver has read the status [txfuel] times. *)
Definition answers (w : list (list Z)) : Prop := exists n, (n < txfuel)%nat /\ u8 (dd w n) <> 0.

(** The adapter is usable, and its next frame goes to [buffer]. *)
Definition nic_ready (d : nic_d) (buffer : Z) : Prop :=
  nic_magic d = 1234 /\ 0 <= tx_cur d < 8 /\ zlookup (tx_buffers_virt d) (tx_cur d) = Some buffer /\ 0 < buffer /\
  length (mac_address d) = 6%nat /\ Forall is_byte (mac_address d).

(** What a transmission does to the structure of the adapter. *)
Definition nic_sent (d d' : nic_d) : Prop :=
  exists lens cmds stats, d' = d <| tx_length := lens |> <| tx_cmd := cmds |> <| tx_status := stats |>
    <| tx_cur := (tx_cur d + 1) mod 8 |>.

Lemma update_nic_run f s d : currentNIC s = Some d -> update_nic f s = Done tt (s <| currentNIC := Some (f d) |>).
Proof. intros H. unfold update_nic, deref_nic. by rewrite (bind_getsome _ _ _ d). Qed.

Lemma e1000_wait_run fuel old k s d :
  currentNIC s = Some d -> (exists n, (k <= n < k + fuel)%nat /\ u8 (dd (wire s) n) <> 0) ->
  exists st, e1000_wait dd fuel old k s = Done tt (s <| currentNIC := Some (d <| tx_status := zinsert (tx_status d) old st |>) |>).
Proof.
  revert k s d. induction fuel as [|fuel IH]; intros k s d Hd (n & Hn & Hdd); [lia|].
  cbn [e1000_wait]. rewrite bind_gets. erewrite bind_Done by (apply update_nic_run, Hd). cbn beta.
  assert (Z.land (u8 (dd (wire s) k)) 255 = u8 (dd (wire s) k)) as ->.
  { change 255 with (Z.ones 8). rewrite Z.land_ones by lia. unfold u8. by rewrite Z.mod_mod. }
  destruct (Z.eqb_spec (u8 (dd (wire s) k)) 0) as [E|E]; [|by eexists].
  assert (n <> k) by (intros ->; congruence).
  destruct (IH (S k) (s <| currentNIC := Some (d <| tx_status := zinsert (tx_status d) old (u8 (dd (wire s) k)) |>) |>)
    (d <| tx_status := zinsert (tx_status d) old (u8 (dd (wire s) k)) |>)) as (st & ->).
  - done.
  - exists n. split; [lia|exact Hdd].
  - exists st. cbn. by rewrite zinsert_twice.
Qed.

(** The frame that is already in the buffer of the adapter is sent as it is. *)
Lemma ethernet_send_run s d len buffer :
  currentNIC s = Some d -> nic_ready d buffer -> 0 < len <= 8192 -> bytes (nmem s) ->
  answers (wire s ++ [octets_at (nmem s) buffer len]) ->
  exists m' d', (forall x, m' x = nmem s x) /\ nic_sent d d' /\
    ethernet_send len buffer s = Done 0 (s <| on_sending_counter := u64 (on_sending_counter s + 1) |> <| nmem := m' |>
      <| wire := wire s ++ [octets_at (nmem s) buffer len] |> <| currentNIC := Some d' |>).
Proof.
  intros Hd (Hmag & Hcur & Hbuf & Hnz & Hmac & Hmb) Hlen Hm (n & Hn & Hdd).
  assert (Hcopy : forall x, memcpy buffer buffer len (nmem s) x = nmem s x).
  { intros x. unfold memcpy. rewrite u64_id, copy_up_spec by (done || lia).
    rewrite Z2Nat.id by lia. case_match; [f_equal; lia|done]. }
  unfold Net.ethernet_send. rewrite bind_gets, Hd. unfold network_on_sending. rewrite bind_bind, bind_modify, bind_ret.
  set (s0 := s <| on_sending_counter := _ |>).
  unfold e1000_send. rewrite bind_bind, bind_gets. change (currentNIC s0) with (currentNIC s). rewrite Hd. zguard. rewrite bind_bind.
  unfold e1000hw_send. rewrite bind_bind, bind_gets. change (currentNIC s0) with (currentNIC s). rewrite Hd, Hmag.
  change (SEND_BUFFER_MAX) with 8. change E1000_DEFAULT_BUFFER_SIZE with 8192. change NULL with 0. zguard.
  rewrite bind_bind. erewrite bind_getsome by exact Hbuf. cbn beta. unfold on_mem. rewrite bind_bind, bind_modify. cbn beta.
  rewrite bind_bind. erewrite bind_Done by (apply update_nic_run; exact Hd). cbn beta.
  rewrite bind_bind. erewrite bind_Done by (apply update_nic_run; reflexivity). cbn beta.
  rewrite bind_bind, bind_modify. cbn beta. set (s1 := _ <| wire := _ |>).
  assert (Hw : wire s1 = wire s ++ [octets_at (nmem s) buffer len]).
  { subst s1 s0. cbn. unfold u16. rewrite Z.mod_small by lia. do 2 f_equal. by apply octets_at_ext. }
  edestruct (e1000_wait_run txfuel (tx_cur d) 0 s1) as (st & Hwait); [reflexivity|rewrite Hw; exists n; split; [lia|done]|].
  rewrite bind_bind. erewrite bind_Done by exact Hwait. cbn beta.
  exists (memcpy buffer buffer len (nmem s)). eexists. split; [exact Hcopy|]. split; [|rewrite <- Hw; reflexivity].
  exists (zinsert (tx_length d) (tx_cur d) (u16 len)), (zinsert (tx_cmd d) (tx_cur d) 27),
    (zinsert (zinsert (tx_status d) (tx_cur d) 0) (tx_cur d) st). cbn. unfold u16. rewrite (Z.mod_small (_ mod 8)); [reflexivity|].
  pose proof (Z.mod_pos_bound (tx_cur d + 1) 8). lia.
Qed.

(** Two lists written one after the other. *)
Lemma octets_at_two a l k m b :
  Forall is_byte l -> Forall is_byte k -> b = a + zlen l ->
  octets_at (poke_list b k (poke_list a l m)) a (zlen l + zlen k) = l ++ k.
Proof.
  intros Hl Hk ->. pose proof (zlen_nonneg l). pose proof (zlen_nonneg k). rewrite octets_at_app by done. f_equal.
  - rewrite octets_at_poke_list_ne by lia. by apply octets_at_poke_list.
  - by apply octets_at_poke_list.
Qed.

Lemma zlen_eq {A} (l : list A) n : length l = n -> zlen l = Z.of_nat n.
Proof. unfold zlen. by intros ->. Qed.

(** The frame of an ARP message, byte by byte. *)
Definition arp_frame (dst src : list Z) (op : Z) (sha spa tha tpa : list Z) : list Z :=
  dst ++ src ++ [8; 6] ++ [0; 1; 8; 0; 6; 4] ++ be16 op ++ sha ++ spa ++ tha ++ tpa.

Definition addresses_ok (mac ip : list Z) : Prop :=
  length mac = 6%nat /\ Forall is_byte mac /\ length ip = 4%nat /\ Forall is_byte ip.

Lemma network_send_arp_run s d buffer target_mac source_ip target_ip op :
  currentNIC s = Some d -> nic_ready d buffer -> bytes (nmem s) ->
  addresses_ok target_mac target_ip -> addresses_ok target_mac source_ip ->
  op = ARP_OPC_REQUEST \/ op = ARP_OPC_REPLY ->
  let frame := arp_frame target_mac (mac_address d) op (mac_address d) source_ip target_mac target_ip in
  answers (wire s ++ [frame]) ->
  exists m' d', (forall x, x < buffer \/ buffer + 42 <= x -> m' x = nmem s x) /\ bytes m' /\
    nic_sent (d <| ip_address := source_ip |>) d' /\
    network_send_arp target_mac source_ip target_ip op s = Done tt (s <| on_sending_counter := u64 (on_sending_counter s + 1) |>
      <| nmem := m' |> <| wire := wire s ++ [frame] |> <| currentNIC := Some d' |>).
Proof.
  intros Hd Hready Hm (Hl1 & Hb1 & Hl2 & Hb2) (_ & _ & Hl3 & Hb3) Hop frame Hans.
  pose proof Hready as (Hmag & Hcur & Hbuf & Hnz & Hmac & Hmb).
  set (L1 := ether_header target_mac (mac_address d) (ToNetByteOrder16 ETHERTYPE_ARP)).
  set (L2 := ether_arp 0x0100 0x0008 ETH_ALEN 4 (ToNetByteOrder16 op) (mac_address d) source_ip target_mac target_ip).
  assert (Hf : L1 ++ L2 = frame).
  { subst L1 L2 frame. unfold ether_header, ether_arp, arp_frame. rewrite !le16_swapped by (unfold ARP_OPC_REQUEST, ARP_OPC_REPLY in Hop; lia || done).
    by rewrite <- !app_assoc. }
  assert (Hz1 : zlen L1 = 14) by (subst L1; unfold ether_header, zlen; rewrite !length_app, Hl1, Hmac; done).
  assert (Hz2 : zlen L2 = 28) by (subst L2; unfold ether_arp, zlen; rewrite !length_app, Hl1, Hl2, Hl3, Hmac; done).
  assert (HB1 : Forall is_byte L1) by (subst L1; unfold ether_header; rewrite !Forall_app; auto using bytes_le16).
  assert (HB2 : Forall is_byte L2).
  { subst L2. unfold ether_arp. rewrite !Forall_app. repeat apply conj; auto using bytes_le16; byte_list. }
  set (m1 := poke_list (buffer + 14) L2 (poke_list buffer L1 (nmem s))).
  assert (Hat : octets_at m1 buffer 42 = frame).
  { rewrite <- Hf. subst m1. replace 42 with (zlen L1 + zlen L2) by lia. apply octets_at_two; [done..|lia]. }
  assert (Hm1 : bytes m1) by (by apply bytes_poke_list, bytes_poke_list).
  set (s1 := s <| currentNIC := Some (d <| ip_address := source_ip |>) |> <| nmem := m1 |>).
  destruct (ethernet_send_run s1 (d <| ip_address := source_ip |>) 42 buffer) as (m' & d' & Hm' & Hd' & Hrun);
    [reflexivity|exact Hready|lia|exact Hm1|by change (nmem s1) with m1; rewrite Hat|].
  change (nmem s1) with m1 in Hm', Hrun. rewrite Hat in Hrun. exists m', d'.
  split; [|split; [intros x; rewrite Hm'; apply Hm1|split; [exact Hd'|]]].
  - intros x Hx. rewrite Hm'. subst m1. by rewrite !poke_list_out by lia.
  - unfold Net.network_send_arp. rewrite bind_gets, Hd. erewrite bind_Done by (apply update_nic_run, Hd). cbn beta.
    replace (negb (op =? ARP_OPC_REQUEST) && negb (op =? ARP_OPC_REPLY)) with false by (by destruct Hop as [-> | ->]).
    erewrite bind_getsome by exact Hbuf. change NULL with 0. zguard. unfold on_mem. rewrite !bind_modify. cbn beta.
    change ETHERNET_HEADER_LENGHT with 14. change (14 + ARP_HEADER_LENGTH) with 42.
    erewrite bind_Done by exact Hrun. reflexivity.
Qed.

(** ** The receive path *)
Context (sfuel : nat) (udp_payload tcp_payload response_file : Z).

#[local] Abbreviation network_handle_arp := (network_handle_arp dd txfuel).
#[local] Abbreviation network_handle_ipv4 := (network_handle_ipv4 dd txfuel sfuel udp_payload tcp_payload response_file).
#[local] Abbreviation network_handle_udp := (network_handle_udp dd txfuel sfuel udp_payload response_file).
#[local] Abbreviation network_on_receiving := (network_on_receiving dd txfuel sfuel udp_payload tcp_payload response_file).

(** The kernel runs with its network switched on and unlocked, and the frame is
    acceptable. *)
Definition receiving (s : netst) (frame size : Z) : Prop :=
  system_state (pt (nkern s)) = SYSTEM_RUNNING /\ net_initialized s = TRUE /\ net_locked s <> TRUE /\
  0 < frame /\ 0 < size <= 8192 /\ length (caller_mac s) = 6%nat /\ bytes (nmem s).

(** The two bytes at [a] are the number [v] in network order. *)
Definition be16_at (m : memory) (a v : Z) : Prop := m a = v / 256 /\ m (a + 1) = v mod 256.

Lemma be16_at_read m a v : 0 <= v < 2 ^ 16 -> be16_at m a v -> FromNetByteOrder16 (load16 m a) = v.
Proof. intros Hv [? ?]. by apply read_be16. Qed.

Lemma fill_mac_all to from : length to = 6%nat -> length from = 6%nat -> network_fill_mac to from = from.
Proof. intros H1 H2. unfold network_fill_mac. by rewrite take_ge, drop_ge, app_nil_r by lia. Qed.

Lemma fill_ipv4_all to from : length to = 4%nat -> length from = 4%nat -> network_fill_ipv4 to from = from.
Proof. intros H1 H2. unfold network_fill_ipv4. by rewrite take_ge, drop_ge, app_nil_r by lia. Qed.

Lemma receive_run s frame size type :
  receiving s frame size -> 0 <= type < 2 ^ 16 -> be16_at (nmem s) (frame + 12) type ->
  network_on_receiving frame size s =
    (if type =? ETHERTYPE_IPV6 then mret (-1)
     else if type =? ETHERTYPE_IPV4 then network_handle_ipv4 (frame + 14);; mret 0
     else if type =? ETHERTYPE_ARP then network_handle_arp (frame + 14);; mret 0
     else mret (-1)) (s <| caller_mac := octets_at (nmem s) (frame + 6) 6 |>).
Proof.
  intros (Hst & Hini & Hlock & Hf & Hsz & Hmac & Hm) Ht Htype.
  unfold Net.network_on_receiving. rewrite bind_gets, Hst. change NULL with 0. rewrite Z.eqb_refl. zguard.
  unfold network_handle_ethernet. rewrite bind_gets, Hini, Z.eqb_refl. cbn [negb]. rewrite bind_gets.
  change NULL with 0. change E1000_DEFAULT_BUFFER_SIZE with 8192. zguard. rewrite bind_gets, bind_modify. cbn beta.
  rewrite (be16_at_read _ _ type) by done. rewrite fill_mac_all by done. reflexivity.
Qed.

(** [C21] Any ARP request that reaches the kernel with a lease, whatever address it
    asks for, is answered by exactly one frame: an ARP reply to the sender, from
    the hardware address of the adapter, that claims the address of the lease;
    nothing but the transmit buffer changes in memory. *)
Theorem arp_reply_frame s d buffer frame size :
  receiving s frame size -> currentNIC s = Some d -> nic_ready d buffer ->
  dhcp_initialized (dhcp_info s) = TRUE -> addresses_ok (mac_address d) (your_ipv4 (dhcp_info s)) ->
  be16_at (nmem s) (frame + 12) 0x0806 -> be16_at (nmem s) (frame + 20) ARP_OPC_REQUEST ->
  let sha := octets_at (nmem s) (frame + 22) 6 in
  let spa := octets_at (nmem s) (frame + 28) 4 in
  let ours := your_ipv4 (dhcp_info s) in
  let reply := sha ++ mac_address d ++ [8; 6] ++ [0; 1; 8; 0; 6; 4; 0; 2] ++ mac_address d ++ ours ++ sha ++ spa in
  answers (wire s ++ [reply]) ->
  exists s' d', network_on_receiving frame size s = Done 0 s' /\ wire s' = wire s ++ [reply] /\
    currentNIC s' = Some d' /\ tx_cur d' = (tx_cur d + 1) mod 8 /\ ip_address d' = ours /\
    caller_mac s' = octets_at (nmem s) (frame + 6) 6 /\ dhcp_info s' = dhcp_info s /\
    (forall x, x < buffer \/ buffer + 42 <= x -> nmem s' x = nmem s x).
Proof.
  intros Hrec Hd Hready Hini (_ & _ & Hl4 & Hb4) Htype Hop sha spa ours reply Hans.
  pose proof Hrec as (_ & _ & _ & Hf & _ & _ & Hm).
  rewrite (receive_run s frame size 0x0806) by done. change (2054 =? ETHERTYPE_IPV6) with false.
  change (2054 =? ETHERTYPE_IPV4) with false. change (2054 =? ETHERTYPE_ARP) with true. cbn match.
  set (s1 := s <| caller_mac := _ |>).
  destruct (network_send_arp_run s1 d buffer sha ours spa ARP_OPC_REPLY) as (m' & d' & Hm' & _ & Hd' & Hrun);
    [exact Hd|exact Hready|exact Hm| | |by right|exact Hans|].
  { repeat apply conj; [done|by apply octets_at_byte|done|by apply octets_at_byte]. }
  { repeat apply conj; [done|by apply octets_at_byte|done..]. }
  destruct Hd' as (? & ? & ? & ->).
  assert (network_handle_arp (frame + 14) s1 = network_send_arp sha ours spa ARP_OPC_REPLY s1) as Hh.
  { unfold Net.network_handle_arp. change NULL with 0. zguard. rewrite bind_gets.
  replace (frame + 14 + 6) with (frame + 20) by lia. change (nmem s1) with (nmem s).
  rewrite (be16_at_read _ _ ARP_OPC_REQUEST) by done. change (ARP_OPC_REQUEST =? ARP_OPC_REQUEST) with true. cbn match. unfold network_send_arp_reply. rewrite bind_gets.
  change (dhcp_info s1) with (dhcp_info s). rewrite Hini. change (negb (TRUE =? TRUE)) with false. cbn match.
  replace (frame + 14 + 8) with (frame + 22) by lia. replace (frame + 14 + 14) with (frame + 28) by lia. reflexivity. }
  erewrite bind_Done by (rewrite Hh; exact Hrun). eexists _, _. split; [reflexivity|].
  repeat apply conj; try reflexivity. exact Hm'.
Qed.

(** ** UDP *)

(** The frame of a datagram, byte by byte, with the checksum of its header. *)
Definition udp_frame (dst_mac src_mac src_ip dst_ip : list Z) (sport dport : Z) (data : list Z) : list Z :=
  dst_mac ++ src_mac ++ [8; 0] ++
  udp_ip_header (28 + zlen data) (header_sum (udp_ip_header (28 + zlen data) 0 src_ip dst_ip)) src_ip dst_ip ++
  be16 sport ++ be16 dport ++ be16 (8 + zlen data) ++ [0; 0] ++ data.

Lemma octets_at_copy m dst src n : bytes m -> 0 <= n -> dst + n <= src \/ src + n <= dst ->
  octets_at (copy_up (Z.to_nat n) dst src m) dst n = octets_at m src n.
Proof.
  intros Hm Hn Hd. unfold octets_at. apply list_fmap_ext. intros i x Hx. apply list_elem_of_lookup_2, elem_range in Hx.
  rewrite copy_up_spec by (done || lia). rewrite Z2Nat.id by lia. zguard. f_equal. lia.
Qed.

Lemma copy_up_out m dst src n x : bytes m -> 0 <= n -> dst + n <= src \/ src + n <= dst -> x < dst \/ dst + n <= x ->
  copy_up (Z.to_nat n) dst src m x = m x.
Proof.
  intros Hm Hn Hd Hx. rewrite copy_up_spec by (done || lia). rewrite Z2Nat.id by lia.
  destruct (Z.leb_spec dst x), (Z.ltb_spec x (dst + n)); cbn [andb]; done || lia.
Qed.

Lemma copy_up_octets m dst src n : bytes m -> 0 <= n -> dst + n <= src \/ src + n <= dst ->
  bytes (copy_up (Z.to_nat n) dst src m).
Proof. intros Hm Hn Hd x. rewrite copy_up_spec by (done || lia). case_match; apply Hm. Qed.

Lemma udp_ip_header_ok iplen sum src dst :
  Forall is_byte src -> Forall is_byte dst -> length src = 4%nat -> length dst = 4%nat ->
  Forall is_byte (udp_ip_header iplen sum src dst) /\ zlen (udp_ip_header iplen sum src dst) = 20.
Proof.
  intros Hs Hd Hls Hld. unfold udp_ip_header, ip_d. split.
  - rewrite !Forall_app. repeat match goal with |- _ /\ _ => split end; auto using bytes_le16; byte_list.
  - unfold zlen. by rewrite !length_app, Hls, Hld.
Qed.

Lemma network_send_udp_run s d buffer target_mac source_ip target_ip sport dport data n :
  currentNIC s = Some d -> nic_ready d buffer -> bytes (nmem s) ->
  addresses_ok target_mac target_ip -> addresses_ok target_mac source_ip ->
  0 <= sport < 2 ^ 16 -> 0 <= dport < 2 ^ 16 -> 0 < data -> 0 <= n -> 42 + n <= 8192 ->
  data + n <= buffer \/ buffer + 42 + n <= data ->
  let frame := udp_frame target_mac (mac_address d) source_ip target_ip sport dport (octets_at (nmem s) data n) in
  answers (wire s ++ [frame]) ->
  exists m' d', (forall x, x < buffer \/ buffer + 42 + n <= x -> m' x = nmem s x) /\ bytes m' /\
    nic_sent (d <| ip_address := source_ip |>) d' /\
    network_send_udp source_ip target_ip target_mac sport dport data n s =
      Done 0 (s <| on_sending_counter := u64 (on_sending_counter s + 1) |>
        <| nmem := m' |> <| wire := wire s ++ [frame] |> <| currentNIC := Some d' |>).
Proof.
  intros Hd Hready Hm (Hl1 & Hb1 & Hl2 & Hb2) (_ & _ & Hl3 & Hb3) Hsp Hdp Hdata Hn Hmax Hdisj frame Hans.
  pose proof Hready as (Hmag & Hcur & Hbuf & Hnz & Hmac & Hmb).
  set (L1 := ether_header target_mac (mac_address d) (ToNetByteOrder16 ETHERTYPE_IPV4)).
  set (sum := header_sum (udp_ip_header (28 + n) 0 source_ip target_ip)).
  set (L2 := udp_ip_header (28 + n) sum source_ip target_ip).
  set (L3 := udp_d (ToNetByteOrder16 sport) (ToNetByteOrder16 dport) (ToNetByteOrder16 (8 + n)) 0).
  assert (Hf : ((L1 ++ L2) ++ L3) ++ octets_at (nmem s) data n = frame).
  { subst frame L1 L3. unfold udp_frame, udp_d, ether_header. rewrite length_octets_at by done.
    rewrite !le16_swapped by (done || lia). by rewrite <- !app_assoc. }
  assert (Hz1 : zlen L1 = 14) by (subst L1; unfold ether_header, zlen; rewrite !length_app, Hl1, Hmac; done).
  destruct (udp_ip_header_ok (28 + n) sum source_ip target_ip) as [HB2 Hz2]; [done..|]. fold L2 in HB2, Hz2.
  assert (HB1 : Forall is_byte L1) by (subst L1; unfold ether_header; rewrite !Forall_app; auto using bytes_le16).
  assert (HB3 : Forall is_byte L3) by (subst L3; unfold udp_d; rewrite !Forall_app; auto using bytes_le16).
  set (m1 := poke_list (buffer + 34) L3 (poke_list (buffer + 14) L2 (poke_list buffer L1 (nmem s)))).
  assert (Hm1 : bytes m1) by (by repeat apply bytes_poke_list).
  assert (Hz3 : zlen L3 = 8) by done.
  assert (Hout : forall x, x < buffer \/ buffer + 42 <= x -> m1 x = nmem s x)
    by (intros x Hx; subst m1; by rewrite !poke_list_out by lia).
  assert (Hat1 : octets_at m1 buffer 42 = (L1 ++ L2) ++ L3).
  { change 42 with (34 + 8). rewrite octets_at_app by lia. subst m1. f_equal.
    - rewrite octets_at_poke_list_ne by lia. replace 34 with (zlen L1 + zlen L2) by lia. apply octets_at_two; [done..|lia].
    - rewrite <- Hz3. by apply octets_at_poke_list. }
  set (m2 := copy_up (Z.to_nat n) (buffer + 42) data m1).
  assert (Hat : octets_at m2 buffer (42 + n) = frame).
  { rewrite octets_at_app by lia. rewrite <- Hf, <- Hat1. subst m2. f_equal.
    - apply octets_at_ext. intros x Hx. apply copy_up_out; done || lia.
    - rewrite octets_at_copy by (done || lia). apply octets_at_ext. intros x Hx. apply Hout. lia. }
  set (s1 := s <| currentNIC := Some (d <| ip_address := source_ip |>) |> <| nmem := m2 |>).
  destruct (ethernet_send_run s1 (d <| ip_address := source_ip |>) (42 + n) buffer) as (m' & d' & Hm' & Hd' & Hrun);
    [reflexivity|exact Hready|lia|apply copy_up_octets; done || lia|by change (nmem s1) with m2; rewrite Hat|].
  change (nmem s1) with m2 in Hm', Hrun. rewrite Hat in Hrun. exists m', d'.
  assert (Hm2 : bytes m2) by (apply copy_up_octets; done || lia).
  split; [|split; [intros x; rewrite Hm'; apply Hm2|split; [exact Hd'|]]].
  - intros x Hx. rewrite Hm'. subst m2. rewrite copy_up_out by (done || lia). apply Hout. lia.
  - unfold Net.network_send_udp. rewrite bind_gets, Hd. erewrite bind_Done by (apply update_nic_run, Hd). cbn beta.
    change NULL with 0. zguard. erewrite bind_getsome by exact Hbuf. zguard.
    assert (u16 (Z.land n 65535) = n) as -> by (rewrite land_FFFF; unfold u16; rewrite Z.mod_mod, Z.mod_small by lia; done).
    change UDP_HEADER_LENGHT with 8. change IP_HEADER_LENGHT with 20. change ETHERNET_HEADER_LENGHT with 14.
    assert (u16 (8 + n) = 8 + n) as -> by (unfold u16; apply Z.mod_small; lia).
    assert (u16 (20 + (8 + n)) = 28 + n) as -> by (unfold u16; rewrite Z.mod_small; lia).
    unfold on_mem. rewrite !bind_modify. cbn beta. change (14 + 20 + 8) with 42. change (14 + 20) with 34.
    erewrite bind_Done by exact Hrun. reflexivity.
Qed.

(** ** The copy of a UDP payload *)

Lemma memset_fill a v n m : a <> 0 -> 0 < n -> memset a v n m = fill a n (u8 v) m.
Proof. intros Ha Hn. unfold memset. change NULL with 0. by zguard. Qed.

(** As many characters as the string has: [strncpy] is a plain copy. *)
Lemma strncpy_exact m a b l : str_at m b l -> a + zlen l <= b \/ b + zlen l < a ->
  strncpy a b (zlen l) m = copy_up (length l) a b m.
Proof.
  unfold strncpy. replace (Z.to_nat (zlen l)) with (length l) by (unfold zlen; lia).
  revert a b m. induction l as [|c l IH]; intros a b m Hs Hd; [done|]. rewrite zlen_cons in Hd.
  destruct Hs as (Hc & Hr & Hs). cbn [length strncpy_loop copy_up]. unfold char_at. rewrite Hc, i8_char by lia.
  replace (negb ((if c <? 128 then c else c - 256) =? 0)) with true.
  2:{ symmetry. apply negb_true_iff, Z.eqb_neq. destruct (Z.ltb_spec c 128); lia. }
  apply IH; [|pose proof (zlen_nonneg l); lia]. eapply str_at_ext; [|exact Hs]. intros x Hx. apply poke_ne. pose proof (zlen_nonneg l). lia.
Qed.

(** What the datagram handler does once the payload is copied. *)
Definition udp_dispatch (buffer sport dport : Z) : M netst unit :=
  if dport =? 68 then network_handle_dhcp dd txfuel (buffer + 8)
  else if (dport =? 11888) || (dport =? 22888) || (dport =? 34884) then
    gprot_handle_protocol dd txfuel sfuel response_file udp_payload sport dport;;
    __udp_clear_payload_buffer udp_payload
  else mret tt.

(** The payload [l] is copied, followed by zeros, when it fits. *)
Lemma network_handle_udp_run s buffer sport dport l :
  bytes (nmem s) -> 0 < buffer -> 0 <= sport < 2 ^ 16 -> 0 <= dport < 2 ^ 16 ->
  be16_at (nmem s) buffer sport -> be16_at (nmem s) (buffer + 2) dport ->
  str_at (nmem s) (buffer + 8) l -> (length l < sfuel)%nat -> zlen l <= 512 ->
  0 < udp_payload -> udp_payload + 1024 <= buffer \/ buffer + 9 + zlen l <= udp_payload ->
  exists m', (forall x, x < udp_payload \/ udp_payload + 1024 <= x -> m' x = nmem s x) /\ bytes m' /\
    (forall i, 0 <= i < 1024 -> m' (udp_payload + i) = default 0 (zlookup l i)) /\
    network_handle_udp buffer s = udp_dispatch buffer sport dport (s <| nmem := m' |>).
Proof.
  intros Hm Hb Hsp Hdp Hs Hd Hl Hfuel Hlen Hup Hdisj. set (P := udp_payload) in *.
  pose proof (zlen_nonneg l) as Hz.
  set (m0 := fill P 1024 0 (nmem s)).
  assert (Hm0 : bytes m0) by (apply fill_octets; [done|split; lia]).
  assert (Hl0 : str_at m0 (buffer + 8) l).
  { eapply str_at_ext; [|exact Hl]. intros x Hx. apply fill_outside. lia. }
  set (m1 := copy_up (Z.to_nat (zlen l)) P (buffer + 8) m0).
  assert (Hm1 : bytes m1) by (apply copy_up_octets; done || lia).
  exists (poke (P + 1021) 0 (poke (P + (zlen l + 1)) 0 (poke (P + zlen l) 0 m1))).
  split; [|split; [by repeat apply bytes_poke|split]].
  - intros x Hx. rewrite !poke_ne by lia. subst m1. rewrite copy_up_out by (done || lia). apply fill_outside. lia.
  - intros i Hi. assert (Hin : m1 (P + i) = default 0 (zlookup l i)).
    { subst m1. rewrite copy_up_spec by (done || lia). rewrite Z2Nat.id by lia. destruct (Z.ltb_spec (P + i) (P + zlen l)).
      - zguard. destruct (zlookup_some l i) as (c & Hc); [unfold zlen in *; lia|]. rewrite Hc.
        rewrite <- (app_nil_r l) in Hl0. apply str_at_app in Hl0 as [Hl0 _]; [|by eapply str_at_chars]. rewrite (Hl0 (P + i - P) c).
        + done.
        + by replace (P + i - P) with i by lia.
      - zguard. subst m0. rewrite fill_inside by lia. unfold zlookup, zlen in *. zguard.
        by rewrite lookup_ge_None_2 by lia. }
    assert (Hz0 : zlen l <= i -> default 0 (zlookup l i) = 0).
    { intros H. unfold zlookup, zlen in *. zguard. by rewrite lookup_ge_None_2 by lia. }
    destruct (Z.eq_dec i 1021) as [->|]; [rewrite poke_eq by lia; symmetry; apply Hz0; lia|rewrite poke_ne by lia].
    destruct (Z.eq_dec i (zlen l + 1)) as [->|]; [rewrite poke_eq by lia; symmetry; apply Hz0; lia|rewrite poke_ne by lia].
    destruct (Z.eq_dec i (zlen l)) as [->|]; [rewrite poke_eq by lia; symmetry; apply Hz0; lia|by rewrite poke_ne by lia].
  - unfold Net.network_handle_udp. change NULL with 0. zguard. rewrite bind_gets.
    rewrite (be16_at_read _ buffer sport), (be16_at_read _ (buffer + 2) dport) by done. unfold __udp_clear_payload_buffer, on_mem.
    rewrite bind_modify. cbn beta. fold P. rewrite memset_fill by lia. change (u8 0) with 0. change UDP_HEADER_LENGHT with 8.
    erewrite bind_getsome by (apply (strlen_spec sfuel _ _ l); [exact Hl0|done]). zguard.
    rewrite bind_bind, bind_modify. cbn beta. rewrite bind_bind, bind_modify. cbn beta. rewrite bind_modify. cbn beta. rewrite bind_modify.
    cbn [nmem set_field set_nmem]. change (fill P 1024 0 (nmem s)) with m0.
    rewrite strncpy_exact by (done || lia). unfold udp_dispatch. subst m1. replace (Z.to_nat (zlen l)) with (length l) by (unfold zlen; lia).
    reflexivity.
Qed.

(** ** DHCP *)

#[local] Abbreviation network_dhcp_send := (network_dhcp_send dd txfuel).
#[local] Abbreviation network_handle_dhcp := (network_handle_dhcp dd txfuel).

Definition is_ipv4 (l : list Z) : Prop := length l = 4%nat /\ Forall is_byte l.

(** A message of the client, byte by byte; [tail] is what the structure held
    after the last option. *)
Definition dhcp_message (mac : list Z) (type : Z) (options tail : list Z) : list Z :=
  [1; 1; 6; 0] ++ [0x39; 0x03; 0xF3; 0x26] ++ replicate 20 0 ++ (mac ++ replicate 10 0) ++ replicate 64 0 ++ replicate 128 0 ++
  [99; 130; 83; 99] ++ [53; 1; type] ++ options ++ tail.

Lemma octets_at_fill a n v m : 0 <= n -> octets_at (fill a n v m) a n = replicate (Z.to_nat n) v.
Proof.
  intros Hn. apply list_eq. intros i. destruct (decide (i < Z.to_nat n)%nat) as [Hi|Hi].
  - rewrite lookup_replicate_2 by done. unfold octets_at, range. rewrite list_lookup_fmap, lookup_seqZ_lt by lia. cbn.
    f_equal. apply fill_inside. lia.
  - rewrite !lookup_ge_None_2; [done| |]; [rewrite length_replicate; lia|].
    pose proof (length_octets_at (fill a n v m) a n Hn) as H. unfold zlen in H. lia.
Qed.

Lemma fill_out_at a n v m b k : b + k <= a \/ a + n <= b -> octets_at (fill a n v m) b k = octets_at m b k.
Proof. intros H. apply octets_at_ext. intros x Hx. apply fill_outside. lia. Qed.

(** The memory once the structure at [a] holds a message. *)
Definition dhcp_memory (a : Z) (mac : list Z) (type : Z) (options : list Z) (m : memory) : memory :=
  poke_list (a + 243) options (poke_list (a + 240) [53; 1; type] (poke_list (a + 236) [99; 130; 83; 99]
    (fill (a + 108) 128 0 (fill (a + 44) 64 0 (poke_list (a + 28) mac (fill (a + 28) 16 0 (poke_list a dhcp_fixed m))))))).

Lemma dhcp_memory_out a mac type options m x : length mac = 6%nat -> zlen options <= 305 ->
  x < a \/ a + 548 <= x -> dhcp_memory a mac type options m x = m x.
Proof.
  intros Hmac Ho Hx. unfold dhcp_memory. pose proof (zlen_nonneg options).
  assert (zlen mac = 6) by (unfold zlen; lia). assert (zlen dhcp_fixed = 28) by done.
  assert (zlen [99; 130; 83; 99] = 4 /\ zlen [53; 1; type] = 3) as [? ?] by done.
  rewrite !poke_list_out by lia. rewrite !fill_outside by lia. rewrite poke_list_out by lia. rewrite fill_outside by lia.
  by rewrite poke_list_out by lia.
Qed.

Lemma bytes_dhcp_memory a mac type options m : bytes m -> bytes (dhcp_memory a mac type options m).
Proof.
  intros Hm. unfold dhcp_memory. repeat apply bytes_poke_list. repeat (apply fill_octets; [|split; lia]).
  apply bytes_poke_list. apply fill_octets; [by apply bytes_poke_list|split; lia].
Qed.

Lemma dhcp_memory_at a mac type options m :
  length mac = 6%nat -> Forall is_byte mac -> is_byte type -> Forall is_byte options -> zlen options <= 305 ->
  octets_at (dhcp_memory a mac type options m) a 548 =
  dhcp_message mac type options (octets_at m (a + 243 + zlen options) (305 - zlen options)).
Proof.
  intros Hmac Hmb Ht Hob Ho. pose proof (zlen_nonneg options) as Hz. assert (Hz6 : zlen mac = 6) by (unfold zlen; lia).
  assert (Hz28 : zlen dhcp_fixed = 28) by done.
  assert (zlen [99; 130; 83; 99] = 4 /\ zlen [53; 1; type] = 3) as [Hz4 Hz3] by done.
  assert (Hfix : dhcp_fixed = [1; 1; 6; 0] ++ [0x39; 0x03; 0xF3; 0x26] ++ replicate 20 0) by done.
  assert (HfB : Forall is_byte dhcp_fixed) by (rewrite Hfix; cbn [app replicate]; byte_list).
  unfold dhcp_message. rewrite (app_assoc [1; 1; 6; 0]), (app_assoc ([1; 1; 6; 0] ++ _)).
  rewrite <- (app_assoc [1; 1; 6; 0] [57; 3; 243; 38]). rewrite <- Hfix. rewrite <- (app_assoc mac).
  replace 548 with (28 + (6 + (10 + (64 + (128 + (4 + (3 + (zlen options + (305 - zlen options))))))))) by lia.
  rewrite !octets_at_app by lia. replace (a + 28 + 6 + 10) with (a + 44) by lia. replace (a + 44 + 64) with (a + 108) by lia.
  replace (a + 108 + 128) with (a + 236) by lia. replace (a + 236 + 4) with (a + 240) by lia. replace (a + 240 + 3) with (a + 243) by lia.
  unfold dhcp_memory.
  repeat match goal with |- _ ++ _ = _ ++ _ => apply (f_equal2 app) end.
  all: repeat first [rewrite octets_at_poke_list_ne by lia | rewrite fill_out_at by lia].
  - rewrite <- Hz28. by apply octets_at_poke_list.
  - rewrite <- Hz6. by apply octets_at_poke_list.
  - pose proof (octets_at_fill (a + 28) 16 0 (poke_list a dhcp_fixed m) ltac:(lia)) as H.
    replace 16 with (6 + 10) in H at 2 by lia. rewrite octets_at_app in H by lia.
    change (replicate (Z.to_nat 16) 0) with (replicate 6 0 ++ replicate 10 0) in H.
    apply app_inj_2 in H as [_ H]; [exact H|done].
  - by apply octets_at_fill.
  - by apply octets_at_fill.
  - rewrite <- Hz4. apply octets_at_poke_list. byte_list.
  - rewrite <- Hz3. apply octets_at_poke_list. by repeat (apply List.Forall_cons; [done|]).
  - by apply octets_at_poke_list.
  - done.
Qed.

Definition dhcp_client_options (s : netst) (type : Z) (source_ip target_ip : list Z) : list Z :=
  if type =? DORA_D then dhcp_discover_options else dhcp_request_options source_ip target_ip (nodename s).

(** The frame of a message of the client, built over the bytes at [dhcp]. *)
Definition dhcp_client_frame (s : netst) (mac : list Z) (dhcp type : Z) (source_ip target_ip : list Z) : list Z :=
  let options := dhcp_client_options s type source_ip target_ip in
  udp_frame [255; 255; 255; 255; 255; 255] mac [0; 0; 0; 0] [255; 255; 255; 255] 68 67
    (dhcp_message mac type options (octets_at (nmem s) (dhcp + 243 + zlen options) (305 - zlen options))).

Definition name_ok (s : netst) : Prop := (7 <= length (nodename s))%nat /\ Forall is_byte (nodename s).

Lemma dhcp_client_options_ok s type source_ip target_ip :
  name_ok s -> is_ipv4 source_ip -> is_ipv4 target_ip ->
  let options := dhcp_client_options s type source_ip target_ip in Forall is_byte options /\ zlen options <= 305.
Proof.
  intros [Hn Hnb] [Hls Hbs] [Hlt Hbt]. cbn zeta. unfold dhcp_client_options. destruct (type =? DORA_D).
  - split; [unfold dhcp_discover_options; byte_list|done].
  - unfold dhcp_request_options. split.
    + rewrite !Forall_app. repeat match goal with |- _ /\ _ => split end; try done; [byte_list..|by apply Forall_take|byte_list].
    + unfold zlen. rewrite !length_app, length_take, Hls, Hlt. cbn [length]. lia.
Qed.

Lemma network_dhcp_send_run s d buffer dhcp type source_ip target_ip :
  currentNIC s = Some d -> nic_ready d buffer -> bytes (nmem s) -> 0 < dhcp ->
  dhcp + 548 <= buffer \/ buffer + 590 <= dhcp -> name_ok s -> is_ipv4 source_ip -> is_ipv4 target_ip ->
  type = DORA_D \/ type = DORA_R ->
  let frame := dhcp_client_frame s (mac_address d) dhcp type source_ip target_ip in
  answers (wire s ++ [frame]) ->
  exists m' d', (forall x, x < buffer \/ buffer + 590 <= x -> x < dhcp \/ dhcp + 548 <= x -> m' x = nmem s x) /\ bytes m' /\
    nic_sent (d <| ip_address := [0; 0; 0; 0] |>) d' /\
    network_dhcp_send dhcp type source_ip target_ip 68 67 s =
      Done tt (s <| dhcp_info := (dhcp_info s) <| Step := type |> |> <| on_sending_counter := u64 (on_sending_counter s + 1) |>
        <| nmem := m' |> <| wire := wire s ++ [frame] |> <| currentNIC := Some d' |>).
Proof.
  intros Hd Hready Hm Hdhcp Hdisj Hname Hsrc Htgt Htype frame Hans.
  pose proof Hready as (_ & _ & _ & _ & Hmac & Hmb).
  destruct (dhcp_client_options_ok s type source_ip target_ip) as [HB HL]; [done..|].
  set (options := dhcp_client_options s type source_ip target_ip) in *.
  set (m1 := dhcp_memory dhcp (mac_address d) type options (nmem s)).
  set (s1 := s <| dhcp_info := (dhcp_info s) <| Step := type |> |> <| nmem := m1 |>).
  assert (Ht : is_byte type) by (destruct Htype as [-> | ->]; by split; [apply Z.leb_le|apply Z.ltb_lt]).
  assert (Hat : octets_at m1 dhcp 548 = dhcp_message (mac_address d) type options
    (octets_at (nmem s) (dhcp + 243 + zlen options) (305 - zlen options))) by (by apply dhcp_memory_at).
  destruct (network_send_udp_run s1 d buffer [255; 255; 255; 255; 255; 255] [0; 0; 0; 0] [255; 255; 255; 255] 68 67 dhcp 548)
    as (m' & d' & Hm' & Hbm & Hd' & Hrun); [exact Hd|exact Hready|by apply bytes_dhcp_memory| | |lia..| |].
  1, 2: repeat match goal with |- _ /\ _ => split end; repeat split; byte_list.
  { change (nmem s1) with m1. rewrite Hat. exact Hans. }
  exists m', d'. split; [|split; [exact Hbm|split; [exact Hd'|]]].
  - intros x Hx1 Hx2. rewrite Hm' by lia. by apply dhcp_memory_out.
  - unfold Net.network_dhcp_send. change NULL with 0. zguard.
    replace (type <? 0) with false by (symmetry; apply Z.ltb_ge; apply Ht). unfold on_mem. rewrite !bind_modify. cbn beta.
    rewrite bind_gets. cbn [currentNIC set_field set_nmem]. rewrite Hd. rewrite !bind_modify. cbn beta.
    rewrite !memset_fill by (unfold dhcp_chaddr, dhcp_sname, dhcp_file; lia).
    replace (u8 type) with type by (symmetry; by apply u8_id).
    replace (negb (type =? DORA_D) && negb (type =? DORA_R)) with false by (by destruct Htype as [-> | ->]).
    change (nmem s1) with m1 in Hrun. rewrite Hat in Hrun.
    assert (Hend : forall s2, s2 = s1 -> (network_send_udp __dhcp_source_ipv4 __dhcp_target_ipv4 __dhcp_target_mac 68 67 dhcp SIZEOF_DHCP;;
      mret tt) s2 = Done tt (s1 <| on_sending_counter := u64 (on_sending_counter s1 + 1) |> <| nmem := m' |>
        <| wire := wire s1 ++ [frame] |> <| currentNIC := Some d' |>)).
    { intros s2 ->. erewrite bind_Done by exact Hrun. reflexivity. }
    destruct Htype as [Et|Et]; unfold on_dhcp.
    + replace (type =? DORA_D) with true by (by rewrite Et). rewrite bind_bind, bind_modify, bind_modify. cbn beta. erewrite Hend; [reflexivity|].
      subst s1 m1 options. rewrite Et. unfold dhcp_memory. replace (dhcp + dhcp_options + 3) with (dhcp + 243) by (unfold dhcp_options; lia).
      reflexivity.
    + replace (type =? DORA_D) with false by (by rewrite Et). rewrite bind_bind, bind_modify, bind_bind, bind_gets, bind_modify.
      cbn beta.
      erewrite Hend; [reflexivity|].
      subst s1 m1 options. rewrite Et. unfold dhcp_memory. replace (dhcp + dhcp_options + 3) with (dhcp + 243) by (unfold dhcp_options; lia).
      reflexivity.
Qed.

(** The kernel runs with its network switched on, unlocked and well formed. *)
Definition net_up (s : netst) : Prop :=
  system_state (pt (nkern s)) = SYSTEM_RUNNING /\ net_initialized s = TRUE /\ net_locked s <> TRUE /\
  length (caller_mac s) = 6%nat /\ length (caller_ipv4 s) = 4%nat.

(** The frame at [frame] carries a UDP datagram whose payload starts with the
    string [l], away from the buffer of the handler. *)
Definition datagram_at (m : memory) (frame sport dport : Z) (l : list Z) : Prop :=
  0 < frame /\ 0 < udp_payload /\ bytes m /\ be16_at m (frame + 12) 0x0800 /\ m (frame + 14) = 0x45 /\
  (exists len, 20 <= len < 2 ^ 16 /\ be16_at m (frame + 16) len) /\ m (frame + 23) = 17 /\
  0 <= sport < 2 ^ 16 /\ be16_at m (frame + 34) sport /\ 0 <= dport < 2 ^ 16 /\ be16_at m (frame + 36) dport /\
  str_at m (frame + 42) l /\ (length l < sfuel)%nat /\ zlen l <= 512 /\
  (udp_payload + 1024 <= frame \/ frame + 590 <= udp_payload).

(** A DHCP message of type [type] with the addresses it offers. *)
Definition server_message (m : memory) (a type : Z) (yours server : list Z) : Prop :=
  m (a + 242) = type /\ octets_at m (a + 16) 4 = yours /\ octets_at m (a + 20) 4 = server.

(** The state when a datagram reaches the code of its port. *)
Definition arrived (s : netst) (frame : Z) (m' : memory) : netst :=
  s <| caller_mac := octets_at (nmem s) (frame + 6) 6 |> <| caller_ipv4 := octets_at (nmem s) (frame + 26) 4 |> <| nmem := m' |>.

Lemma datagram_run s frame size sport dport l :
  net_up s -> 0 < size <= 8192 -> datagram_at (nmem s) frame sport dport l ->
  exists m', (forall x, x < udp_payload \/ udp_payload + 1024 <= x -> m' x = nmem s x) /\ bytes m' /\
    (forall i, 0 <= i < 1024 -> m' (udp_payload + i) = default 0 (zlookup l i)) /\
    network_on_receiving frame size s = (udp_dispatch (frame + 34) sport dport;; mret 0) (arrived s frame m').
Proof.
  intros (Hst & Hini & Hlock & Hmac & Hip) Hsz
    (Hf & Hup & Hm & Htype & Hv & (len & Hlen & Hlen') & Hp & Hsp & Hsp' & Hdp & Hdp' & Hl & Hfuel & Hl512 & Hdisj).
  pose proof (zlen_nonneg l).
  set (s1 := s <| caller_mac := octets_at (nmem s) (frame + 6) 6 |> <| caller_ipv4 := octets_at (nmem s) (frame + 26) 4 |>).
  destruct (network_handle_udp_run s1 (frame + 34) sport dport l) as (m' & Hm' & Hbm & Hcopy & Hrun);
    [exact Hm|lia|done|done|exact Hsp'|by replace (frame + 34 + 2) with (frame + 36) by lia
    |by replace (frame + 34 + 8) with (frame + 42) by lia|done|done|done|lia|].
  exists m'. split; [exact Hm'|]. split; [exact Hbm|]. split; [exact Hcopy|].
  rewrite (receive_run s frame size 0x0800)
    by (unfold receiving; repeat match goal with |- _ /\ _ => split end; done || lia).
  change (2048 =? ETHERTYPE_IPV6) with false. change (2048 =? ETHERTYPE_IPV4) with true. cbn match.
  assert (network_handle_ipv4 (frame + 14) (s <| caller_mac := octets_at (nmem s) (frame + 6) 6 |>) =
    udp_dispatch (frame + 34) sport dport (arrived s frame m')) as E.
  { unfold Net.network_handle_ipv4. change NULL with 0. zguard. rewrite bind_gets, bind_modify. cbn beta.
    cbn [nmem set_field set_caller_mac]. rewrite Hv. change (negb (Z.land (Z.shiftr 69 4) 15 =? 4)) with false. cbn match.
    replace (frame + 14 + 2) with (frame + 16) by lia. rewrite (be16_at_read _ _ len) by (done || lia). zguard.
    replace (frame + 14 + 9) with (frame + 23) by lia. rewrite Hp. change (17 =? PROTOCOL_IP_TCP) with false.
    change (17 =? PROTOCOL_IP_UDP) with true. cbn match. replace (frame + 14 + IP_HEADER_LENGHT) with (frame + 34) by (unfold IP_HEADER_LENGHT; lia).
    replace (frame + 14 + 12) with (frame + 26) by lia. cbn [caller_ipv4 set_field set_caller_mac]. rewrite fill_ipv4_all by done. exact Hrun. }
  unfold mbind, M_bind. by rewrite E.
Qed.

Lemma dhcp_ack_run s frame size sport l yours server :
  net_up s -> 0 < size <= 8192 -> datagram_at (nmem s) frame sport 68 l ->
  server_message (nmem s) (frame + 42) DORA_A yours server ->
  length (your_ipv4 (dhcp_info s)) = 4%nat -> length (server_ipv4 (dhcp_info s)) = 4%nat ->
  exists m', network_on_receiving frame size s = Done 0 ((arrived s frame m') <| net_is_online := TRUE |>
    <| dhcp_info := mk_dhcp_info TRUE 4 yours server |>).
Proof.
  intros Hup Hsz Hdg (Ht & Hy & Hs) Hl1 Hl2.
  destruct (datagram_run s frame size sport 68 l Hup Hsz Hdg) as (m' & Hm' & _ & _ & Hrun).
  destruct Hdg as (Hf & Hpos & _ & _ & _ & _ & _ & _ & _ & _ & _ & _ & _ & _ & Hdisj). exists m'. rewrite Hrun.
  erewrite bind_Done; [reflexivity|]. unfold udp_dispatch. change (68 =? 68) with true. cbn match.
  unfold Net.network_handle_dhcp. change NULL with 0. zguard. rewrite bind_gets. cbn beta.
  replace (frame + 34 + 8) with (frame + 42) by lia. change (nmem (arrived s frame m')) with m'.
  replace (frame + 42 + dhcp_options + 2) with (frame + 42 + 242) by (unfold dhcp_options; lia).
  rewrite (Hm' (frame + 42 + 242)) by lia. rewrite Ht. change (DORA_A =? DORA_O) with false. change (DORA_A =? DORA_A) with true. cbn match.
  unfold on_dhcp. rewrite !bind_modify. cbn beta. rewrite !(octets_at_ext (nmem s) m') by (intros; apply Hm'; lia). rewrite Hy, Hs.
  assert (length yours = 4%nat) by (by rewrite <- Hy). assert (length server = 4%nat) by (by rewrite <- Hs).
  cbn [dhcp_info set_field set_dhcp_info arrived set_caller_mac set_caller_ipv4 set_nmem your_ipv4 server_ipv4 set_Step].
  rewrite !fill_ipv4_all by done. reflexivity.
Qed.

Lemma dhcp_offer_run s d buffer frame size sport l yours server :
  net_up s -> 0 < size <= 8192 -> datagram_at (nmem s) frame sport 68 l ->
  server_message (nmem s) (frame + 42) DORA_O yours server ->
  currentNIC s = Some d -> nic_ready d buffer -> name_ok s ->
  frame + 590 <= buffer \/ buffer + 590 <= frame ->
  let request := dhcp_client_frame s (mac_address d) (frame + 42) DORA_R yours server in
  answers (wire s ++ [request]) ->
  exists m' d', nic_sent (d <| ip_address := [0; 0; 0; 0] |>) d' /\
    network_on_receiving frame size s =
      Done 0 ((arrived s frame m') <| dhcp_info := (dhcp_info s) <| Step := 3 |> |>
        <| on_sending_counter := u64 (on_sending_counter s + 1) |> <| wire := wire s ++ [request] |> <| currentNIC := Some d' |>).
Proof.
  intros Hup Hsz Hdg (Ht & Hy & Hs) Hd Hready Hname Hbuf request Hans.
  destruct (datagram_run s frame size sport 68 l Hup Hsz Hdg) as (m1 & Hm1 & Hb1 & _ & Hrun).
  destruct Hdg as (Hf & Hpos & Hm & _ & _ & _ & _ & _ & _ & _ & _ & _ & _ & _ & Hdisj).
  set (s1 := (arrived s frame m1) <| dhcp_info := (dhcp_info s) <| Step := 2 |> |>).
  assert (Hsame : dhcp_client_frame s1 (mac_address d) (frame + 42) DORA_R yours server = request).
  { subst request. unfold dhcp_client_frame. change (dhcp_client_options s1) with (dhcp_client_options s).
    set (options := dhcp_client_options s DORA_R yours server). do 2 f_equal. apply octets_at_ext. intros x Hx. apply Hm1.
    pose proof (zlen_nonneg options). lia. }
  destruct (network_dhcp_send_run s1 d buffer (frame + 42) DORA_R yours server) as (m' & d' & _ & _ & Hd' & Hsend);
    [exact Hd|exact Hready|exact Hb1|lia|lia|exact Hname| | |by right|by rewrite Hsame|].
  1, 2: split; [by rewrite <- ?Hy, <- ?Hs|rewrite <- ?Hy, <- ?Hs; by apply octets_at_byte].
  rewrite Hsame in Hsend. exists m', d'. split; [exact Hd'|]. rewrite Hrun. erewrite bind_Done; [reflexivity|].
  unfold udp_dispatch. change (68 =? 68) with true. cbn match.
  unfold Net.network_handle_dhcp. change NULL with 0. zguard. rewrite bind_gets. cbn beta.
  replace (frame + 34 + 8) with (frame + 42) by lia. change (nmem (arrived s frame m1)) with m1.
  replace (frame + 42 + dhcp_options + 2) with (frame + 42 + 242) by (unfold dhcp_options; lia).
  rewrite (Hm1 (frame + 42 + 242)) by lia. rewrite Ht. change (DORA_O =? DORA_O) with true. cbn match.
  unfold on_dhcp. rewrite bind_modify. cbn beta. rewrite !(octets_at_ext (nmem s) m1) by (intros; apply Hm1; lia). rewrite Hy, Hs.
  exact Hsend.
Qed.

(** The lengths of the address fields. *)
Definition lease_ok (s : netst) : Prop := length (your_ipv4 (dhcp_info s)) = 4%nat /\ length (server_ipv4 (dhcp_info s)) = 4%nat.

Lemma dhcp_discover_run s d buffer Ldhcp :
  net_initialized s = TRUE -> currentNIC s = Some d -> nic_ready d buffer -> nic_initialized d = TRUE -> bytes (nmem s) ->
  name_ok s -> 0 < Ldhcp -> Ldhcp + 548 <= buffer \/ buffer + 590 <= Ldhcp ->
  let discover := dhcp_client_frame s (mac_address d) Ldhcp DORA_D [] [] in
  answers (wire s ++ [discover]) ->
  exists m' d', nic_sent (d <| ip_address := [0; 0; 0; 0] |>) d' /\
    network_initialize_dhcp dd txfuel Ldhcp s =
      Done 0 (s <| dhcp_info := (dhcp_info s) <| dhcp_initialized := FALSE |> <| Step := 1 |> |>
        <| on_sending_counter := u64 (on_sending_counter s + 1) |> <| nmem := m' |> <| wire := wire s ++ [discover] |>
        <| currentNIC := Some d' |>).
Proof.
  intros Hini Hd Hready Hdi Hm Hname Hpos Hdisj discover Hans.
  set (s1 := s <| dhcp_info := (dhcp_info s) <| dhcp_initialized := FALSE |> <| Step := 0 |> |>).
  destruct (network_dhcp_send_run s1 d buffer Ldhcp DORA_D [0; 0; 0; 0] [255; 255; 255; 255]) as (m' & d' & _ & _ & Hd' & Hrun);
    [exact Hd|exact Hready|exact Hm|done|done|exact Hname|split; [done|byte_list]|split; [done|byte_list]|by left|exact Hans|].
  exists m', d'. split; [exact Hd'|]. unfold network_initialize_dhcp, on_dhcp. rewrite !bind_modify. cbn beta zeta.
  unfold networkGetStatus. rewrite bind_gets. cbn [net_initialized set_field set_dhcp_info]. rewrite Hini.
  change (negb (TRUE =? TRUE)) with false. cbn match. rewrite bind_gets. cbn [currentNIC set_field set_dhcp_info]. rewrite Hd.
  destruct Hready as (Hmag & _). rewrite Hmag, Hdi. change (negb (1234 =? 1234)) with false. change (negb (TRUE =? TRUE)) with false.
  cbn match. erewrite bind_Done by exact Hrun. reflexivity.
Qed.

(** [C11] The DHCP dialogue. On an adapter that answers, with an offer and then an
    acknowledgement arriving from the server, network_initialize_dhcp and the
    two receptions return without an error; the adapter sends exactly a
    DISCOVER and a REQUEST of the offered address to the server that offered
    it, both broadcast from port 68 to port 67; the machine ends online, with
    the acknowledged addresses, at step 4. *)
Theorem dhcp_dialogue s d b0 b1 Ldhcp offer_mem ack_mem f1 size1 sport1 l1 f2 size2 sport2 l2 yours server yours' server' :
  (forall w, answers w) -> net_up s -> lease_ok s -> name_ok s -> bytes (nmem s) ->
  currentNIC s = Some d -> nic_ready d b0 -> nic_initialized d = TRUE ->
  zlookup (tx_buffers_virt d) ((tx_cur d + 1) mod 8) = Some b1 -> 0 < b1 ->
  0 < Ldhcp -> Ldhcp + 548 <= b0 \/ b0 + 590 <= Ldhcp -> 0 < size1 <= 8192 -> 0 < size2 <= 8192 ->
  datagram_at offer_mem f1 sport1 68 l1 -> server_message offer_mem (f1 + 42) DORA_O yours server ->
  f1 + 590 <= b1 \/ b1 + 590 <= f1 ->
  datagram_at ack_mem f2 sport2 68 l2 -> server_message ack_mem (f2 + 42) DORA_A yours' server' ->
  let broadcast := udp_frame [255; 255; 255; 255; 255; 255] (mac_address d) [0; 0; 0; 0] [255; 255; 255; 255] 68 67 in
  exists s1 s2 s3 stale1 stale2,
    network_initialize_dhcp dd txfuel Ldhcp s = Done 0 s1 /\
    network_on_receiving f1 size1 (s1 <| nmem := offer_mem |>) = Done 0 s2 /\
    network_on_receiving f2 size2 (s2 <| nmem := ack_mem |>) = Done 0 s3 /\
    wire s3 = wire s ++
      [broadcast (dhcp_message (mac_address d) 1 [55; 3; 1; 3; 6; 255] stale1);
       broadcast (dhcp_message (mac_address d) 3 ([50; 4] ++ yours ++ [54; 4] ++ server ++ [55; 3; 1; 3; 6; 12; 7] ++
         take 7 (nodename s) ++ [255]) stale2)] /\
    stale1 = octets_at (nmem s) (Ldhcp + 249) 299 /\
    dhcp_info s3 = mk_dhcp_info TRUE 4 yours' server' /\ net_is_online s3 = TRUE.
Proof.
  intros Hans Hup [Hl1 Hl2] Hname Hm Hd Hready Hdi Hb1 Hpos1 HL HLd Hsz1 Hsz2 Hdg1 Hsm1 Hdisj Hdg2 Hsm2 broadcast.
  pose proof Hup as (Hst & Hini & Hlock & Hmac & Hip).
  destruct (dhcp_discover_run s d b0 Ldhcp) as (m1 & d1 & (? & ? & ? & Hd1) & Hrun1); [done..|apply Hans|].
  match type of Hrun1 with _ = Done 0 ?t => set (s1 := t) in Hrun1 end.
  pose proof Hready as (Hmag & Hcur & _ & _ & Hmac6 & Hmacb).
  pose proof (Z.mod_pos_bound (tx_cur d + 1) 8 ltac:(lia)) as Hmod.
  assert (Hready1 : nic_ready d1 b1) by (subst d1; repeat match goal with |- _ /\ _ => split end; try done; apply Hmod).
  destruct (dhcp_offer_run (s1 <| nmem := offer_mem |>) d1 b1 f1 size1 sport1 l1 yours server) as (m2 & d2 & (? & ? & ? & Hd2) & Hrun2);
    [exact Hup|done|exact Hdg1|exact Hsm1|reflexivity|exact Hready1|exact Hname|done|apply Hans|].
  match type of Hrun2 with _ = Done 0 ?t => set (s2 := t) in Hrun2 end.
  destruct (dhcp_ack_run (s2 <| nmem := ack_mem |>) f2 size2 sport2 l2 yours' server') as (m3 & Hrun3);
    [|done|exact Hdg2|exact Hsm2|exact Hl1|exact Hl2|].
  { repeat match goal with |- _ /\ _ => split end; try done. }
  assert (Hmac1 : mac_address d1 = mac_address d) by (by subst d1).
  set (options := dhcp_request_options yours server (nodename s)).
  exists s1, s2. eexists _, _, (octets_at offer_mem (f1 + 42 + 243 + zlen options) (305 - zlen options)).
  split; [exact Hrun1|]. split; [exact Hrun2|]. split; [exact Hrun3|].
  split; [|split; [reflexivity|split; reflexivity]].
  change (wire (_ <| dhcp_info := _ |>)) with ((wire s ++ [dhcp_client_frame s (mac_address d) Ldhcp DORA_D [] []]) ++
    [dhcp_client_frame (s1 <| nmem := offer_mem |>) (mac_address d1) (f1 + 42) DORA_R yours server]).
  rewrite Hmac1, <- app_assoc. cbn [app]. do 3 f_equal. unfold dhcp_client_frame.
  change (zlen (dhcp_client_options s DORA_D [] [])) with 6. by replace (Ldhcp + 249) with (Ldhcp + 243 + 6) by lia.
Qed.

(** [C38] An acknowledgement is obeyed whatever the step of the dialogue and
    whatever its transaction, its client address and its sender: a machine that
    never asked for an address, or that has one, takes the one of the message. *)
Theorem dhcp_ack_unsolicited s frame size sport l yours server :
  net_up s -> lease_ok s -> 0 < size <= 8192 -> datagram_at (nmem s) frame sport 68 l ->
  server_message (nmem s) (frame + 42) DORA_A yours server ->
  exists s', network_on_receiving frame size s = Done 0 s' /\ dhcp_info s' = mk_dhcp_info TRUE 4 yours server /\
    net_is_online s' = TRUE /\ wire s' = wire s /\ currentNIC s' = currentNIC s.
Proof.
  intros Hup [Hl1 Hl2] Hsz Hdg Hsm. destruct (dhcp_ack_run s frame size sport l yours server) as (m' & Hrun); [done..|].
  eexists. split; [exact Hrun|]. by repeat apply conj.
Qed.

(** [C39] A frame of twenty bytes of IP header whose length field is below twenty
    stops the kernel, whoever it is addressed to. *)
Theorem short_length_panics s frame size len :
  receiving s frame size -> length (caller_ipv4 s) = 4%nat -> be16_at (nmem s) (frame + 12) 0x0800 -> Z.shiftr (nmem s (frame + 14)) 4 = 4 ->
  0 <= len < 20 -> be16_at (nmem s) (frame + 16) len ->
  network_on_receiving frame size s = Panic "IP: Bad total lenght #debug".
Proof.
  intros Hrec Hip Htype Hv Hlen Hlen'. pose proof Hrec as (_ & _ & _ & Hf & _).
  rewrite (receive_run s frame size 0x0800) by done. change (2048 =? ETHERTYPE_IPV6) with false. change (2048 =? ETHERTYPE_IPV4) with true.
  cbn match. apply bind_Panic. unfold Net.network_handle_ipv4. change NULL with 0. zguard. rewrite bind_gets, bind_modify. cbn beta.
  cbn [nmem set_field set_caller_mac]. rewrite Hv. change (negb (Z.land 4 15 =? 4)) with false. cbn match.
  replace (frame + 14 + 2) with (frame + 16) by lia. rewrite (be16_at_read _ _ len) by (done || lia). by zguard.
Qed.

(** ** gprot *)

Definition gprot_text : list Z := chars "g:1 This is a response from Gramado OS" ++ [10].

(** The answer to a request [l]: the text, then what is left of the request. *)
Definition gprot_payload (l : list Z) : list Z :=
  gprot_text ++ ((fun i => default 0 (zlookup l i)) <$> range 39 256).

Lemma gprot_answer_run s buf code text :
  0 < buf -> kinguio_vsprintf code [] = Some code -> kinguio_vsprintf text [] = Some text ->
  gprot_answer buf code text s = Done tt (s <| nmem := poke_list (buf + 4) text (poke_list buf code (fill buf 8 0 (nmem s))) |>).
Proof.
  intros Hb Hc Ht. unfold gprot_answer, on_mem, ksprintf. rewrite bind_modify. cbn beta. rewrite memset_fill by lia.
  rewrite bind_bind. erewrite bind_getsome by exact Hc. unfold on_mem. rewrite bind_modify. cbn beta.
  erewrite bind_getsome by exact Ht. reflexivity.
Qed.

Lemma gprot_payload_at m buf l : bytes m -> (forall i, 0 <= i < 1024 -> m (buf + i) = default 0 (zlookup l i)) ->
  octets_at (poke_list (buf + 4) (chars "This is a response from Gramado OS" ++ [10]) (poke_list buf (chars "g:1 ") (fill buf 8 0 m))) buf 256 =
  gprot_payload l.
Proof.
  intros Hm Hl. set (T1 := chars "g:1 "). set (T2 := chars "This is a response from Gramado OS" ++ [10]).
  assert (Hz1 : zlen T1 = 4) by done. assert (Hz2 : zlen T2 = 35) by done.
  assert (HB1 : Forall is_byte T1) by (vm_compute T1; byte_list). assert (HB2 : Forall is_byte T2) by (vm_compute T2; byte_list).
  change 256 with (39 + 217). rewrite octets_at_app by lia. unfold gprot_payload. apply (f_equal2 app).
  - change 39 with (zlen T1 + zlen T2). rewrite octets_at_two by (done || lia). reflexivity.
  - rewrite !octets_at_poke_list_ne by lia. rewrite fill_out_at by lia. unfold octets_at.
    change (range 39 256) with ((fun i => 39 + i) <$> range 0 217). rewrite <- list_fmap_compose.
    apply list_fmap_ext. intros i x Hx. apply list_elem_of_lookup_2, elem_range in Hx. cbn. rewrite <- Z.add_assoc. apply Hl. lia.
Qed.

Lemma addresses_in_memory m a b : bytes m -> addresses_ok (octets_at m a 6) (octets_at m b 4).
Proof. intros Hm. unfold addresses_ok. repeat match goal with |- _ /\ _ => split end; done || by apply octets_at_byte. Qed.

(** [C29] A request g:0 on port 11888 is answered, once there is a lease, by one
    datagram to the sender with the ports exchanged; its 256 bytes are the text
    of the answer followed by what the request held after the 39th character,
    because only the eight bytes of a pointer are cleared. *)
Theorem gprot_request_answered s d buffer frame size sport rest :
  net_up s -> 0 < size <= 8192 -> dhcp_initialized (dhcp_info s) = TRUE -> is_ipv4 (your_ipv4 (dhcp_info s)) ->
  datagram_at (nmem s) frame sport 11888 ([103; 58; 48] ++ rest) ->
  currentNIC s = Some d -> nic_ready d buffer -> udp_payload + 256 <= buffer \/ buffer + 298 <= udp_payload ->
  let answer := udp_frame (octets_at (nmem s) (frame + 6) 6) (mac_address d) (your_ipv4 (dhcp_info s)) (octets_at (nmem s) (frame + 26) 4)
    11888 sport (gprot_payload ([103; 58; 48] ++ rest)) in
  answers (wire s ++ [answer]) ->
  exists s', network_on_receiving frame size s = Done 0 s' /\ wire s' = wire s ++ [answer] /\ dhcp_info s' = dhcp_info s /\
    forall i, 0 <= i < 1024 -> nmem s' (udp_payload + i) = 0.
Proof.
  intros Hup Hsz Hini [Hli Hbi] Hdg Hd Hready Hbuf answer Hans. set (l := [103; 58; 48] ++ rest) in *.
  destruct (datagram_run s frame size sport 11888 l Hup Hsz Hdg) as (m1 & Hm1 & Hb1 & Hcopy & Hrun).
  destruct Hdg as (Hf & Hpos & Hm & _ & _ & _ & _ & Hsp & _).
  set (s1 := arrived s frame m1) in *. set (P := udp_payload) in *.
  set (m2 := poke_list (P + 4) (chars "This is a response from Gramado OS" ++ [10]) (poke_list P (chars "g:1 ") (fill P 8 0 m1))).
  assert (Hm2 : bytes m2) by (do 2 apply bytes_poke_list; apply fill_octets; [done|split; lia]).
  assert (Hat : octets_at m2 P 256 = gprot_payload l) by (by apply gprot_payload_at).
  set (s2 := s1 <| nmem := m2 |>).
  destruct (network_send_udp_run s2 d buffer (caller_mac s1) (your_ipv4 (dhcp_info s)) (caller_ipv4 s1) 11888 sport P 256)
    as (m' & d' & _ & _ & _ & Hsend); [exact Hd|exact Hready|exact Hm2| | |lia|done|exact Hpos|lia..| |].
  { by apply addresses_in_memory. }
  { destruct (addresses_in_memory (nmem s) (frame + 6) (frame + 26) Hm) as (? & ? & _). done. }
  { change (nmem s2) with m2. rewrite Hat. exact Hans. }
  change (nmem s2) with m2 in Hsend. rewrite Hat in Hsend. change (udp_frame (caller_mac s1) _ _ _ _ _ _) with answer in Hsend.
  assert (Hg : gprot_handle_protocol dd txfuel sfuel response_file P sport 11888 s1 =
    Done 0 (s2 <| on_sending_counter := u64 (on_sending_counter s2 + 1) |> <| nmem := m' |> <| wire := wire s2 ++ [answer] |>
      <| currentNIC := Some d' |>)).
  { unfold gprot_handle_protocol. rewrite bind_gets. change (dhcp_info s1) with (dhcp_info s). rewrite Hini.
    change (negb (TRUE =? TRUE)) with false. change (negb (11888 =? 11888)) with false. change NULL with 0. zguard. rewrite bind_gets.
    change (nmem s1) with m1. cbn zeta beta. replace (m1 P) with 103 by (rewrite <- (Z.add_0_r P), Hcopy by lia; done).
    rewrite !Hcopy by lia. change (default 0 (zlookup l 1)) with 58. change (default 0 (zlookup l 2)) with 48. cbn [Z.eqb Pos.eqb andb].
    erewrite bind_Done by (apply gprot_answer_run; [exact Hpos|reflexivity|reflexivity]).
    change (s1 <| nmem := _ |>) with s2. rewrite !bind_gets. change (caller_ipv4 s2) with (caller_ipv4 s1). change (caller_mac s2) with (caller_mac s1).
    erewrite bind_Done; [reflexivity|]. unfold gprot_send_udp. change NULL with 0. zguard. rewrite bind_gets.
    change (dhcp_info s2) with (dhcp_info s). erewrite bind_Done by exact Hsend. reflexivity. }
  rewrite Hrun. unfold udp_dispatch. change (11888 =? 68) with false. change (11888 =? 11888) with true. cbn [orb].
  rewrite bind_bind. erewrite bind_Done by exact Hg. unfold __udp_clear_payload_buffer, on_mem. rewrite bind_modify. cbn beta.
  eexists. split; [reflexivity|]. split; [reflexivity|]. split; [reflexivity|].
  intros i Hi. cbn [nmem set_field set_currentNIC set_wire set_nmem]. rewrite memset_fill by lia. change (u8 0) with 0. fold P. apply fill_inside. lia.
Qed.

End Send.

(** ** The ring of packets *)

Definition ring_step (k : Z) : Z := if 32 <=? k + 1 then 0 else k + 1.

(** The ring is usable, with its head and tail in place. *)
Definition ring_ok (s : netst) : Prop :=
  let b := NETWORK_BUFFER s in
  nb_initialized b = TRUE /\ length (nb_buffers b) = 32%nat /\ length (is_full b) = 32%nat /\
  0 <= receive_head b < 32 /\ 0 <= receive_tail b < 32.

Ltac ring_tac :=
  unfold ring_ok; cbn; repeat match goal with |- _ /\ _ => split end; rewrite ?length_zinsert; first [done | lia].

Definition ring_full (s : netst) (i : Z) : Prop := zlookup (is_full (NETWORK_BUFFER s)) i = Some TRUE.

(** A consumer that calls [network_pop_packet] [n] times. *)
Fixpoint pops (n : nat) (u_buffer len : Z) : M netst (list Z) :=
  match n with
  | O => mret []
  | S n => r ← network_pop_packet u_buffer len; rs ← pops n u_buffer len; mret (r :: rs)
  end.

Lemma pop_empty s u len :
  u <> 0 -> ring_ok s -> ~ ring_full s (receive_head (NETWORK_BUFFER s)) ->
  network_pop_packet u len s = Done 0 (s <| NETWORK_BUFFER := (NETWORK_BUFFER s) <| receive_head := ring_step (receive_head (NETWORK_BUFFER s)) |> |>).
Proof.
  intros Hu (Hini & _ & Hlen & Hh & _) Hfull. unfold network_pop_packet. change NULL with 0. zguard. rewrite bind_gets, Hini.
  change (negb (TRUE =? TRUE)) with false. cbn match. rewrite bind_modify. cbn beta. rewrite (i32_id (_ + 1)) by lia.
  change (receive_head _) with (receive_head (NETWORK_BUFFER s)). set (h := receive_head (NETWORK_BUFFER s)) in *. zguard.
  destruct (zlookup_some (is_full (NETWORK_BUFFER s)) h) as (f & Hf); [lia|].
  erewrite bind_getsome by exact Hf. cbn beta. unfold ring_full in Hfull. fold h in Hfull. rewrite Hf in Hfull.
  destruct (Z.eqb_spec f TRUE) as [->|]; [done|]. reflexivity.
Qed.

Lemma pop_full s u len src :
  u <> 0 -> len <= 1500 -> ring_ok s -> ring_full s (receive_head (NETWORK_BUFFER s)) ->
  zlookup (nb_buffers (NETWORK_BUFFER s)) (receive_head (NETWORK_BUFFER s)) = Some src -> src <> 0 ->
  network_pop_packet u len s = Done len (s <| nmem := memcpy u src len (nmem s) |>
    <| NETWORK_BUFFER := (NETWORK_BUFFER s) <| receive_head := ring_step (receive_head (NETWORK_BUFFER s)) |>
      <| is_full := zinsert (is_full (NETWORK_BUFFER s)) (receive_head (NETWORK_BUFFER s)) FALSE |> |>).
Proof.
  intros Hu Hlen (Hini & _ & Hl & Hh & _) Hfull Hsrc Hnz. unfold network_pop_packet. change NULL with 0. zguard. rewrite bind_gets, Hini.
  change (negb (TRUE =? TRUE)) with false. cbn match. rewrite bind_modify. cbn beta. rewrite (i32_id (_ + 1)) by lia. zguard.
  erewrite bind_getsome by exact Hfull. cbn beta. change (negb (TRUE =? TRUE)) with false. cbn match.
  erewrite bind_getsome by exact Hsrc. cbn beta. zguard. unfold on_mem. rewrite bind_bind, bind_modify. cbn beta. rewrite bind_modify.
  reflexivity.
Qed.

Lemma push_run s p len dst :
  p <> 0 -> len <= 1500 -> ring_ok s ->
  zlookup (nb_buffers (NETWORK_BUFFER s)) (receive_tail (NETWORK_BUFFER s)) = Some dst -> dst <> 0 ->
  network_push_packet p len s = Done len (s <| nmem := memcpy dst p len (nmem s) |>
    <| NETWORK_BUFFER := (NETWORK_BUFFER s) <| receive_tail := ring_step (receive_tail (NETWORK_BUFFER s)) |>
      <| is_full := zinsert (is_full (NETWORK_BUFFER s)) (receive_tail (NETWORK_BUFFER s)) TRUE |> |>).
Proof.
  intros Hp Hlen (Hini & _ & _ & _ & Ht) Hdst Hnz. unfold network_push_packet. change NULL with 0. zguard. rewrite bind_gets, Hini.
  change (negb (TRUE =? TRUE)) with false. cbn match. rewrite bind_modify. cbn beta. rewrite (i32_id (_ + 1)) by lia. zguard.
  erewrite bind_getsome by exact Hdst. cbn beta. zguard. unfold on_mem. rewrite bind_modify. cbn beta. rewrite bind_modify.
  reflexivity.
Qed.

(** The index [j] places after the one that follows [k]. *)
Definition slot_after (k j : Z) : Z := (k + 1 + j) mod 32.

Lemma slot_after_range k j : 0 <= slot_after k j < 32.
Proof. unfold slot_after. apply Z.mod_pos_bound. lia. Qed.

Lemma slot_after_next k j : ring_step (slot_after k j) = slot_after k (j + 1).
Proof.
  pose proof (slot_after_range k j) as H. unfold ring_step, slot_after in *. rewrite (Z.add_assoc (k + 1)).
  rewrite <- (Z.add_mod_idemp_l (k + 1 + j) 1) by lia.
  ztest; [apply (Z.mod_unique _ _ 1); lia|by rewrite (Z.mod_small (_ + 1)) by lia].
Qed.

Lemma slot_after_first k : 0 <= k < 32 -> slot_after k 0 = ring_step k.
Proof. intros. unfold slot_after, ring_step. rewrite Z.add_0_r. ztest; [symmetry; apply (Z.mod_unique _ _ 1); lia|by apply Z.mod_small; lia]. Qed.

Lemma slot_after_turn k : 0 <= k < 32 -> slot_after k 31 = k.
Proof. intros. unfold slot_after. symmetry. apply (Z.mod_unique _ _ 1); lia. Qed.

Lemma slot_after_ne k j : 0 <= k < 32 -> 0 <= j < 31 -> slot_after k j <> k.
Proof.
  intros Hk Hj. unfold slot_after. destruct (Z.ltb_spec (k + 1 + j) 32); [rewrite Z.mod_small; lia|].
  rewrite <- (Z.mod_unique _ 32 1 (k + 1 + j - 32)); lia.
Qed.

(** When only [k] is full, the consumer gets nothing before it comes round. *)
Lemma pops_empty k u len n : u <> 0 -> 0 <= k < 32 -> forall j s, 0 <= j -> j + Z.of_nat n <= 31 -> ring_ok s ->
  receive_head (NETWORK_BUFFER s) = slot_after k j -> (forall i, ring_full s i -> i = k) ->
  pops n u len s = Done (replicate n 0)
    (s <| NETWORK_BUFFER := (NETWORK_BUFFER s) <| receive_head := slot_after k (j + Z.of_nat n) |> |>).
Proof.
  intros Hu Hk. induction n as [|n IH]; intros j s Hj Hn Hok Hh Hfull.
  - cbn [pops replicate]. rewrite Z.add_0_r, <- Hh. by destruct s as [? ? ? ? ? ? ? ? ? ? ? ? ? []].
  - cbn [pops]. erewrite bind_Done.
    2:{ apply pop_empty; [done..|]. intros Hx%Hfull. rewrite Hh in Hx. by apply slot_after_ne in Hx; [|lia|lia]. }
    cbn beta. erewrite bind_Done.
    2:{ apply (IH (j + 1)); [lia|lia| |cbn; by rewrite Hh, slot_after_next|exact Hfull].
        pose proof (slot_after_range k (j + 1)). destruct Hok as (? & ? & ? & ? & ?). rewrite Hh, slot_after_next.
        ring_tac. }
    cbn [replicate]. replace (j + Z.of_nat (S n)) with (j + 1 + Z.of_nat n) by lia. reflexivity.
Qed.

Lemma copy_twice m u b p len : bytes m -> 0 < len <= 1500 -> b + len <= p \/ p + len <= b -> u + len <= b \/ b + len <= u ->
  octets_at (memcpy u b len (memcpy b p len m)) u len = octets_at m p len.
Proof.
  intros Hm Hlen H1 H2. unfold memcpy. rewrite u64_id by lia. rewrite !octets_at_copy by (done || lia || by apply copy_up_octets; done || lia).
  done.
Qed.

(** The head of the ring advances on an empty ring: a consumer that polls once
    before a packet comes gets nothing from the next 31 polls, and the packet
    only at the one after. *)
Theorem early_pop_delays_packet s k u p len src :
  u <> 0 -> p <> 0 -> 0 < len <= 1500 -> ring_ok s -> bytes (nmem s) ->
  receive_head (NETWORK_BUFFER s) = k -> receive_tail (NETWORK_BUFFER s) = k -> (forall i, ~ ring_full s i) ->
  zlookup (nb_buffers (NETWORK_BUFFER s)) k = Some src -> src <> 0 ->
  src + len <= p \/ p + len <= src -> u + len <= src \/ src + len <= u ->
  exists s1 s2 s3 s4, network_pop_packet u len s = Done 0 s1 /\ network_push_packet p len s1 = Done len s2 /\
    pops 31 u len s2 = Done (replicate 31 0) s3 /\ network_pop_packet u len s3 = Done len s4 /\
    octets_at (nmem s4) u len = octets_at (nmem s) p len.
Proof.
  intros Hu Hp Hlen Hok Hm Hh Ht Hempty Hsrc Hnz Hd1 Hd2. pose proof Hok as (Hini & Hlb & Hlf & Hhr & Htr).
  set (s1 := s <| NETWORK_BUFFER := (NETWORK_BUFFER s) <| receive_head := ring_step k |> |>).
  assert (Hpop1 : network_pop_packet u len s = Done 0 s1) by (subst s1; rewrite <- Hh; apply pop_empty; done || apply Hempty).
  assert (Hrs : 0 <= ring_step k < 32) by (unfold ring_step; ztest; lia).
  assert (Hok1 : ring_ok s1) by ring_tac.
  pose proof (push_run s1 p len src Hp ltac:(lia) Hok1) as Hpush. change (receive_tail (NETWORK_BUFFER s1)) with (receive_tail (NETWORK_BUFFER s)) in Hpush.
  rewrite Ht in Hpush. specialize (Hpush Hsrc Hnz).
  match type of Hpush with _ = Done _ ?t => set (s2 := t) in Hpush end.
  assert (Hok2 : ring_ok s2).
  { ring_tac. }
  assert (Honly : forall i, ring_full s2 i -> i = k).
  { intros i Hi. destruct (Z.eq_dec i k) as [|N]; [done|]. unfold ring_full, s2 in Hi. cbn in Hi.
    rewrite zlookup_insert_ne in Hi by lia. by apply Hempty in Hi. }
  pose proof (pops_empty k u len 31 Hu ltac:(lia) 0 s2 ltac:(lia) ltac:(lia) Hok2 ltac:(cbn; symmetry; apply slot_after_first; lia) Honly) as Hpops.
  change (0 + Z.of_nat 31) with 31 in Hpops. rewrite slot_after_turn in Hpops by lia.
  match type of Hpops with _ = Done _ ?t => set (s3 := t) in Hpops end.
  exists s1, s2, s3. eexists. split; [exact Hpop1|]. split; [exact Hpush|]. split; [exact Hpops|]. split.
  { apply (pop_full s3 u len src); [done|lia| | |exact Hsrc|done].
    - ring_tac.
    - unfold ring_full. cbn. apply zlookup_insert_eq. lia. }
  change (octets_at (memcpy u src len (memcpy src p len (nmem s))) u len = octets_at (nmem s) p len).
  apply copy_twice; done || lia.
Qed.

(** ** Witnesses *)

Definition sample_nic : nic_d :=
  mk_nic 1234 TRUE [2; 0; 0; 0; 0; 1] [0; 0; 0; 0] 0 0 (replicate 32 0) (replicate 32 0) (replicate 32 0x80000)
    (replicate 8 0) (replicate 8 0) (replicate 8 0) ((fun i => 0x20000 + 0x2000 * i) <$> range 0 8).

Definition sample_ring : network_buffer_d :=
  mk_network_buffer TRUE 3 3 ((fun i => 0x90000 + 0x1000 * i) <$> range 0 32) (replicate 32 FALSE).

(** A machine with its network on, with a lease or not, and the given memory. *)
Definition sample_net (lease : Z) (m : memory) : netst :=
  mk_netst (sample_kst []) m [] (Some sample_nic) None TRUE FALSE FALSE [0; 0; 0; 0] [0; 0; 0; 0; 0; 0]
    (mk_dhcp_info lease 0 [192; 168; 1; 12] [192; 168; 1; 1]) [192; 168; 1; 1] [255; 255; 255; 255; 255; 255] sample_ring
    FALSE [] 0 0 0 0 [71; 82; 65; 77; 65; 68; 79].

(** The frame [l] in a receive buffer, and nothing else. *)
Definition sample_frame (l : list Z) : memory := poke_list 0x80000 l (fun _ => 0).

Lemma bytes_sample_frame l : bytes (sample_frame l).
Proof. apply bytes_poke_list. intros x. lia. Qed.

Definition sample_answers : list (list Z) -> nat -> Z := fun _ _ => 1.

Lemma sample_adapter_answers w : answers sample_answers 1 w.
Proof. exists 0%nat. split; [lia|done]. Qed.

Lemma sample_nic_ready : nic_ready sample_nic 0x20000.
Proof. unfold nic_ready. cbn. repeat split; try lia; byte_list. Qed.

Definition peer_mac : list Z := [2; 0; 0; 0; 0; 9].

Definition sample_datagram (sport dport : Z) (payload : list Z) : memory :=
  sample_frame (udp_frame [2; 0; 0; 0; 0; 1] peer_mac [192; 168; 1; 1] [192; 168; 1; 12] sport dport payload).

Definition sample_dhcp (type : Z) (yours : list Z) : list Z :=
  [2; 1; 6; 0] ++ [57; 3; 243; 38] ++ replicate 8 0 ++ yours ++ [192; 168; 1; 1] ++ replicate 216 0 ++ [53; 1; type; 255] ++ replicate 304 0.

(** Decides a datagram of [n] bytes in a literal memory. *)
Ltac datagram_tac n :=
  unfold datagram_at; repeat match goal with |- _ /\ _ => split end;
  lazymatch goal with
  | |- bytes _ => apply bytes_sample_frame
  | |- exists _, _ => exists n; split; [lia|by split; vm_compute]
  | |- _ \/ _ => lia
  | |- (_ < _)%nat => cbn; lia
  | |- _ => by vm_compute
  end.

Lemma header_checksum_witness :
  let h := ip_d 0x45 0 (ToNetByteOrder16 28) 0 0 64 17
    (header_sum (ip_d 0x45 0 (ToNetByteOrder16 28) 0 0 64 17 0 [10; 0; 0; 1] [10; 0; 0; 2])) [10; 0; 0; 1] [10; 0; 0; 2] in
  header_valid h /\ ~ header_valid (zinsert h 19 3).
Proof.
  destruct (header_checksum 0x45 0 (ToNetByteOrder16 28) 0 0 64 17 [10; 0; 0; 1] [10; 0; 0; 2]) as (_ & _ & Hv & Hi);
    [byte_list..|done|done|]. split; [exact Hv|]. eapply (Hi 19 2 3); [vm_compute; reflexivity|by split|done].
Defined.

(** A request for an address that is not ours. *)
Definition sample_request : memory :=
  sample_frame (arp_frame [255; 255; 255; 255; 255; 255] peer_mac 1 peer_mac [192; 168; 1; 7] [0; 0; 0; 0; 0; 0] [192; 168; 1; 99]).

Lemma arp_reply_frame_witness : exists s' d',
  Net.network_on_receiving sample_answers 1 1 0x70000 0x71000 0x72000 0x80000 42 (sample_net TRUE sample_request) = Done 0 s' /\
  currentNIC s' = Some d' /\ tx_cur d' = 1 /\
  wire s' = [peer_mac ++ [2; 0; 0; 0; 0; 1] ++ [8; 6] ++ [0; 1; 8; 0; 6; 4; 0; 2] ++ [2; 0; 0; 0; 0; 1] ++ [192; 168; 1; 12] ++
    peer_mac ++ [192; 168; 1; 7]].
Proof.
  destruct (arp_reply_frame sample_answers 1 1 0x70000 0x71000 0x72000 (sample_net TRUE sample_request) sample_nic 0x20000 0x80000 42)
    as (s' & d' & Hrun & Hw & Hd & Hcur & _).
  - unfold receiving. repeat match goal with |- _ /\ _ => split end; try done; apply bytes_sample_frame.
  - reflexivity.
  - apply sample_nic_ready.
  - reflexivity.
  - repeat split; byte_list.
  - by split; vm_compute.
  - by split; vm_compute.
  - apply sample_adapter_answers.
  - exists s', d'. split; [exact Hrun|]. split; [exact Hd|]. split; [exact Hcur|]. rewrite Hw. vm_compute. reflexivity.
Defined.

Lemma sample_net_up lease m : net_up (sample_net lease m).
Proof. by repeat split. Qed.

Lemma dhcp_dialogue_witness : exists s1 s2 s3,
  network_initialize_dhcp sample_answers 1 0x60000 (sample_net FALSE (fun _ => 0)) = Done 0 s1 /\
  Net.network_on_receiving sample_answers 1 4 0x70000 0x71000 0x72000 0x80000 590
    (s1 <| nmem := sample_datagram 67 68 (sample_dhcp 2 [192; 168; 1; 44]) |>) = Done 0 s2 /\
  Net.network_on_receiving sample_answers 1 4 0x70000 0x71000 0x72000 0x80000 590
    (s2 <| nmem := sample_datagram 67 68 (sample_dhcp 5 [192; 168; 1; 44]) |>) = Done 0 s3 /\
  length (wire s3) = 2%nat /\ dhcp_info s3 = mk_dhcp_info TRUE 4 [192; 168; 1; 44] [192; 168; 1; 1] /\ net_is_online s3 = TRUE.
Proof.
  destruct (dhcp_dialogue sample_answers 1 4 0x70000 0x71000 0x72000 (sample_net FALSE (fun _ => 0)) sample_nic 0x20000 0x22000 0x60000
    (sample_datagram 67 68 (sample_dhcp 2 [192; 168; 1; 44])) (sample_datagram 67 68 (sample_dhcp 5 [192; 168; 1; 44]))
    0x80000 590 67 [2; 1; 6] 0x80000 590 67 [2; 1; 6] [192; 168; 1; 44] [192; 168; 1; 1] [192; 168; 1; 44] [192; 168; 1; 1])
    as (s1 & s2 & s3 & stale1 & stale2 & H1 & H2 & H3 & Hw & _ & Hi & Ho);
    [apply sample_adapter_answers|apply sample_net_up|by split|split; [cbn; lia|cbn [nodename sample_net]; byte_list]|intros x; cbn; lia|reflexivity
    |apply sample_nic_ready|reflexivity|reflexivity|lia..|datagram_tac 576|by repeat split; vm_compute|lia|datagram_tac 576|by repeat split; vm_compute|].
  - exists s1, s2, s3. split; [exact H1|]. split; [exact H2|]. split; [exact H3|]. rewrite Hw. by split.
Defined.

Lemma dhcp_ack_unsolicited_witness : exists s',
  Net.network_on_receiving sample_answers 1 4 0x70000 0x71000 0x72000 0x80000 590
    (sample_net FALSE (sample_datagram 67 68 (sample_dhcp 5 [10; 0; 0; 66]))) = Done 0 s' /\
  dhcp_info s' = mk_dhcp_info TRUE 4 [10; 0; 0; 66] [192; 168; 1; 1].
Proof.
  destruct (dhcp_ack_unsolicited sample_answers 1 4 0x70000 0x71000 0x72000
    (sample_net FALSE (sample_datagram 67 68 (sample_dhcp 5 [10; 0; 0; 66]))) 0x80000 590 67 [2; 1; 6] [10; 0; 0; 66] [192; 168; 1; 1])
    as (s' & Hrun & Hi & _); [apply sample_net_up|by split|lia|datagram_tac 576|by repeat split; vm_compute|].
  exists s'. by split.
Defined.

(** The length field says 8. *)
Definition short_frame : memory :=
  sample_frame (peer_mac ++ peer_mac ++ [8; 0] ++ [0x45; 0; 0; 8] ++ replicate 16 0).

Lemma short_length_panics_witness :
  Net.network_on_receiving sample_answers 1 4 0x70000 0x71000 0x72000 0x80000 34 (sample_net FALSE short_frame) =
  Panic "IP: Bad total lenght #debug".
Proof.
  apply (short_length_panics sample_answers 1 4 0x70000 0x71000 0x72000 (sample_net FALSE short_frame) 0x80000 34 8);
    [|done|by split; vm_compute|by vm_compute|lia|by split; vm_compute].
  unfold receiving. repeat match goal with |- _ /\ _ => split end; try done; apply bytes_sample_frame.
Defined.

(** The request "g:0 secret after the thirty-ninth character". *)
Definition sample_gprot : list Z := chars "g:0 a long request, the end of which comes back".

Lemma gprot_request_answered_witness : exists s',
  Net.network_on_receiving sample_answers 1 100 0x70000 0x71000 0x72000 0x80000 590
    (sample_net TRUE (sample_datagram 4000 11888 sample_gprot)) = Done 0 s' /\
  exists frame, wire s' = [frame] /\ take 47 (drop 42 frame) = chars "g:1 This is a response from Gramado OS" ++ [10] ++ chars "mes back".
Proof.
  destruct (gprot_request_answered sample_answers 1 100 0x70000 0x71000 0x72000 (sample_net TRUE (sample_datagram 4000 11888 sample_gprot))
    sample_nic 0x20000 0x80000 590 4000 (drop 3 sample_gprot)) as (s' & Hrun & Hw & _);
    [apply sample_net_up|lia|done|split; [done|byte_list]|datagram_tac 75|done|apply sample_nic_ready|lia|apply sample_adapter_answers|].
  exists s'. split; [exact Hrun|]. eexists. split; [exact Hw|]. vm_compute. reflexivity.
Defined.

Lemma early_pop_delays_packet_witness : exists s1 s2 s3 s4,
  network_pop_packet 0x50000 4 (sample_net TRUE (sample_frame [1; 2; 3; 4])) = Done 0 s1 /\
  network_push_packet 0x80000 4 s1 = Done 4 s2 /\ pops 31 0x50000 4 s2 = Done (replicate 31 0) s3 /\
  network_pop_packet 0x50000 4 s3 = Done 4 s4 /\ octets_at (nmem s4) 0x50000 4 = [1; 2; 3; 4].
Proof.
  destruct (early_pop_delays_packet (sample_net TRUE (sample_frame [1; 2; 3; 4])) 3 0x50000 0x80000 4 0x93000)
    as (s1 & s2 & s3 & s4 & H1 & H2 & H3 & H4 & Hb); try first [lia | done | apply bytes_sample_frame].
  - intros i Hi. apply zlookup_elem in Hi. change (TRUE ∈ replicate 32 FALSE) in Hi. by apply elem_of_replicate in Hi as [Hi _].
  - exists s1, s2, s3, s4. repeat match goal with |- _ /\ _ => split end; done.
Defined.
