(* ===== verification/Tty.v ===== *)
(** * Tty: terminals and the list of devices

    [res/dev/chardev/tty/tty.c] and [pty.c]: the structures of the terminals, the
    bytes that go through their raw queue, their parameters and their control
    requests; and [res/dev/dev.c]: the list of the devices, where a terminal is
    registered under the name /DEV/TTYn. *)
From Stdlib Require Import ZArith Lia.
From stdpp Require Import base gmap list strings.
From S2P Require Import Config Prelude Strings Memory Format Process KState Samples Threads Heap Files Descriptors.

#[local] Open Scope Z_scope.
#[local] Open Scope gramado_scope.

(** ** Data *)

(** struct tty_queue: the fields that are read after they are set. *)
Record tty_queue := mk_tty_queue {
  buf : list Z;  (** char buf[TTY_BUF_SIZE] *)
  q_head : Z;  (** head: unsigned long, the next byte in *)
  q_tail : Z  (** tail: unsigned long, the next byte out *)
}.

#[export] Instance tty_queue_eta : Eta tty_queue := fun r =>
  mk_tty_queue (buf r) (q_head r) (q_tail r).
#[export] Instance set_buf : Setter buf. Proof. solve_setter. Defined.
#[export] Instance set_q_head : Setter q_head. Proof. solve_setter. Defined.
#[export] Instance set_q_tail : Setter q_tail. Proof. solve_setter. Defined.

(** struct termios_d *)
Record termios_d := mk_termios {
  c_iflag : Z;  (** unsigned short *)
  c_oflag : Z;
  c_cflag : Z;
  c_lflag : Z;
  c_cc : list Z;  (** unsigned char c_cc[NCCS] *)
  c_ispeed : Z;  (** unsigned int *)
  c_ospeed : Z
}.

#[export] Instance termios_d_eta : Eta termios_d := fun r =>
  mk_termios (c_iflag r) (c_oflag r) (c_cflag r) (c_lflag r) (c_cc r) (c_ispeed r)
    (c_ospeed r).
#[export] Instance set_c_iflag : Setter c_iflag. Proof. solve_setter. Defined.
#[export] Instance set_c_oflag : Setter c_oflag. Proof. solve_setter. Defined.
#[export] Instance set_c_cflag : Setter c_cflag. Proof. solve_setter. Defined.
#[export] Instance set_c_lflag : Setter c_lflag. Proof. solve_setter. Defined.
#[export] Instance set_c_cc : Setter c_cc. Proof. solve_setter. Defined.
#[export] Instance set_c_ispeed : Setter c_ispeed. Proof. solve_setter. Defined.
#[export] Instance set_c_ospeed : Setter c_ospeed. Proof. solve_setter. Defined.

(** struct tty_d.  Left out: the canonical and the output queue and the pointers to
    structures that no routine reads. *)
Record tty_d := mk_tty {
  t_used : Z;  (** int *)
  t_magic : Z;  (** int *)
  t_index : Z;  (** int *)
  t_fp : Z;  (** file * *)
  t_type : Z;  (** short *)
  t_subtype : Z;  (** short *)
  owner_tid : Z;  (** __owner_tid *)
  initialized : Z;
  is_blocked : Z;
  nobuffers : Z;
  raw_queue : tty_queue;
  prev_char : Z;  (** char *)
  link : Z;  (** struct tty_d * *)
  is_linked : Z;
  operation_mode : Z;
  queue_operation_mode : Z;
  t_flags : Z;
  virtual_terminal_pid : Z;
  termios : termios_d;
  cursor_x : Z;  (** unsigned long, as the next seven *)
  cursor_y : Z;
  cursor_left : Z;
  cursor_top : Z;
  cursor_right : Z;
  cursor_bottom : Z;
  cursor_width_in_pixels : Z;
  cursor_height_in_pixels : Z;
  charset_id : Z;
  charset_lang_id : Z;
  bg_color : Z;  (** unsigned int *)
  fg_color : Z;  (** unsigned int *)
  fullscreen_flag : Z
}.

#[export] Instance tty_d_eta : Eta tty_d := fun r =>
  mk_tty (t_used r) (t_magic r) (t_index r) (t_fp r) (t_type r) (t_subtype r)
    (owner_tid r) (initialized r) (is_blocked r) (nobuffers r) (raw_queue r)
    (prev_char r) (link r) (is_linked r) (operation_mode r) (queue_operation_mode r)
    (t_flags r) (virtual_terminal_pid r) (termios r) (cursor_x r) (cursor_y r)
    (cursor_left r) (cursor_top r) (cursor_right r) (cursor_bottom r)
    (cursor_width_in_pixels r) (cursor_height_in_pixels r) (charset_id r)
    (charset_lang_id r) (bg_color r) (fg_color r) (fullscreen_flag r).
#[export] Instance set_t_used : Setter t_used. Proof. solve_setter. Defined.
#[export] Instance set_t_magic : Setter t_magic. Proof. solve_setter. Defined.
#[export] Instance set_t_index : Setter t_index. Proof. solve_setter. Defined.
#[export] Instance set_t_fp : Setter t_fp. Proof. solve_setter. Defined.
#[export] Instance set_t_type : Setter t_type. Proof. solve_setter. Defined.
#[export] Instance set_t_subtype : Setter t_subtype. Proof. solve_setter. Defined.
#[export] Instance set_owner_tid : Setter owner_tid. Proof. solve_setter. Defined.
#[export] Instance set_initialized : Setter initialized. Proof. solve_setter. Defined.
#[export] Instance set_is_blocked : Setter is_blocked. Proof. solve_setter. Defined.
#[export] Instance set_nobuffers : Setter nobuffers. Proof. solve_setter. Defined.
#[export] Instance set_raw_queue : Setter raw_queue. Proof. solve_setter. Defined.
#[export] Instance set_prev_char : Setter prev_char. Proof. solve_setter. Defined.
#[export] Instance set_link : Setter link. Proof. solve_setter. Defined.
#[export] Instance set_is_linked : Setter is_linked. Proof. solve_setter. Defined.
#[export] Instance set_operation_mode : Setter operation_mode. Proof. solve_setter. Defined.
#[export] Instance set_queue_operation_mode : Setter queue_operation_mode. Proof. solve_setter. Defined.
#[export] Instance set_t_flags : Setter t_flags. Proof. solve_setter. Defined.
#[export] Instance set_virtual_terminal_pid : Setter virtual_terminal_pid. Proof. solve_setter. Defined.
#[export] Instance set_termios : Setter termios. Proof. solve_setter. Defined.
#[export] Instance set_cursor_x : Setter cursor_x. Proof. solve_setter. Defined.
#[export] Instance set_cursor_y : Setter cursor_y. Proof. solve_setter. Defined.
#[export] Instance set_cursor_left : Setter cursor_left. Proof. solve_setter. Defined.
#[export] Instance set_cursor_top : Setter cursor_top. Proof. solve_setter. Defined.
#[export] Instance set_cursor_right : Setter cursor_right. Proof. solve_setter. Defined.
#[export] Instance set_cursor_bottom : Setter cursor_bottom. Proof. solve_setter. Defined.
#[export] Instance set_cursor_width_in_pixels : Setter cursor_width_in_pixels. Proof. solve_setter. Defined.
#[export] Instance set_cursor_height_in_pixels : Setter cursor_height_in_pixels. Proof. solve_setter. Defined.
#[export] Instance set_charset_id : Setter charset_id. Proof. solve_setter. Defined.
#[export] Instance set_charset_lang_id : Setter charset_lang_id. Proof. solve_setter. Defined.
#[export] Instance set_bg_color : Setter bg_color. Proof. solve_setter. Defined.
#[export] Instance set_fg_color : Setter fg_color. Proof. solve_setter. Defined.
#[export] Instance set_fullscreen_flag : Setter fullscreen_flag. Proof. solve_setter. Defined.

(** The fields of struct file_d that only the files of devices use. *)
Record fdev := mk_fdev {
  isDevice : Z;
  dev_major : Z;  (** short *)
  dev_minor : Z;  (** short *)
  f_tty : Z;  (** struct tty_d *tty *)
  f_device : Z  (** struct device_d *device *)
}.

#[export] Instance fdev_eta : Eta fdev := fun r =>
  mk_fdev (isDevice r) (dev_major r) (dev_minor r) (f_tty r) (f_device r).
#[export] Instance set_isDevice : Setter isDevice. Proof. solve_setter. Defined.
#[export] Instance set_dev_major : Setter dev_major. Proof. solve_setter. Defined.
#[export] Instance set_dev_minor : Setter dev_minor. Proof. solve_setter. Defined.
#[export] Instance set_f_tty : Setter f_tty. Proof. solve_setter. Defined.
#[export] Instance set_f_device : Setter f_device. Proof. solve_setter. Defined.

(** struct device_d *)
Record device_d := mk_device {
  d_used : Z;
  d_magic : Z;
  d_index : Z;
  d_name : list Z;  (** the text of char name[DEVICE_NAME_SIZE] *)
  d_name_len : Z;
  d_class : Z;  (** unsigned char __class *)
  d_type : Z;  (** unsigned char __type *)
  d_fp : Z;  (** file *_fp *)
  mount_point : Z;  (** char * *)
  pci_device : Z;
  d_tty : Z  (** struct tty_d *tty *)
}.

#[export] Instance device_d_eta : Eta device_d := fun r =>
  mk_device (d_used r) (d_magic r) (d_index r) (d_name r) (d_name_len r) (d_class r)
    (d_type r) (d_fp r) (mount_point r) (pci_device r) (d_tty r).
#[export] Instance set_d_used : Setter d_used. Proof. solve_setter. Defined.
#[export] Instance set_d_magic : Setter d_magic. Proof. solve_setter. Defined.
#[export] Instance set_d_index : Setter d_index. Proof. solve_setter. Defined.
#[export] Instance set_d_name : Setter d_name. Proof. solve_setter. Defined.
#[export] Instance set_d_name_len : Setter d_name_len. Proof. solve_setter. Defined.
#[export] Instance set_d_class : Setter d_class. Proof. solve_setter. Defined.
#[export] Instance set_d_type : Setter d_type. Proof. solve_setter. Defined.
#[export] Instance set_d_fp : Setter d_fp. Proof. solve_setter. Defined.
#[export] Instance set_mount_point : Setter mount_point. Proof. solve_setter. Defined.
#[export] Instance set_pci_device : Setter pci_device. Proof. solve_setter. Defined.
#[export] Instance set_d_tty : Setter d_tty. Proof. solve_setter. Defined.

(** The state of the devices. *)
Record dst := mk_dst {
  dsys : fsys;  (** the files, the heap and the microkernel *)
  ttys : gmap Z tty_d;  (** the terminals that were created, by address *)
  fdevs : gmap Z fdev;  (** the device fields of the files, by address *)
  devices : gmap Z device_d;  (** the device structures, by address *)
  deviceList : list Z;  (** unsigned long deviceList[DEVICE_LIST_MAX] *)
  nicList : list Z;  (** unsigned long nicList[8] *)
  new_tty_index : Z;  (** static int *)
  legacy_pty_master : Z;
  legacy_pty_slave : Z;
  redirect : Z;  (** the redirector of the console *)
  gSavedX : Z;  (** width of the screen, in pixels *)
  gSavedY : Z  (** height of the screen *)
}.

#[export] Instance dst_eta : Eta dst := fun r =>
  mk_dst (dsys r) (ttys r) (fdevs r) (devices r) (deviceList r) (nicList r)
    (new_tty_index r) (legacy_pty_master r) (legacy_pty_slave r) (redirect r)
    (gSavedX r) (gSavedY r).
#[export] Instance set_dsys : Setter dsys. Proof. solve_setter. Defined.
#[export] Instance set_ttys : Setter ttys. Proof. solve_setter. Defined.
#[export] Instance set_fdevs : Setter fdevs. Proof. solve_setter. Defined.
#[export] Instance set_devices : Setter devices. Proof. solve_setter. Defined.
#[export] Instance set_deviceList : Setter deviceList. Proof. solve_setter. Defined.
#[export] Instance set_nicList : Setter nicList. Proof. solve_setter. Defined.
#[export] Instance set_new_tty_index : Setter new_tty_index. Proof. solve_setter. Defined.
#[export] Instance set_legacy_pty_master : Setter legacy_pty_master. Proof. solve_setter. Defined.
#[export] Instance set_legacy_pty_slave : Setter legacy_pty_slave. Proof. solve_setter. Defined.
#[export] Instance set_redirect : Setter redirect. Proof. solve_setter. Defined.
#[export] Instance set_gSavedX : Setter gSavedX. Proof. solve_setter. Defined.
#[export] Instance set_gSavedY : Setter gSavedY. Proof. solve_setter. Defined.

(** Run an operation of the files, or of the process table. *)
Definition on_sys {A} (m : M fsys A) : M dst A := fun s =>
  match m (dsys s) with
  | Done a f => Done a (s <| dsys := f |>)
  | Panic msg => Panic msg
  | Undef => Undef
  | Leave f => Leave (s <| dsys := f |>)
  | OutOfFuel => OutOfFuel
  end.

Definition on_proc {A} (m : M ptab A) : M dst A := on_sys (on_pt m).

(** The bytes of memory. *)
Definition dram (s : dst) : memory := ram (dsys s).
Definition set_dram (g : memory -> memory) : M dst unit := on_sys (modify (set_ram g)).

(** [p->field] of a pointer to a terminal, a file of a device or a device. *)
Definition deref_tty (p : Z) : M dst tty_d := getsome (fun s => ttys s !! p).
Definition put_tty (p : Z) (x : tty_d) : M dst unit :=
  modify (fun s => s <| ttys := <[p := x]> (ttys s) |>).
Definition update_tty (p : Z) (g : tty_d -> tty_d) : M dst unit :=
  x ← deref_tty p; put_tty p (g x).
Definition deref_fdev (f : Z) : M dst fdev := getsome (fun s => fdevs s !! f).
Definition put_fdev (f : Z) (x : fdev) : M dst unit :=
  modify (fun s => s <| fdevs := <[f := x]> (fdevs s) |>).
Definition update_fdev (f : Z) (g : fdev -> fdev) : M dst unit :=
  x ← deref_fdev f; put_fdev f (g x).
Definition deref_device (d : Z) : M dst device_d := getsome (fun s => devices s !! d).
Definition put_device (d : Z) (x : device_d) : M dst unit :=
  modify (fun s => s <| devices := <[d := x]> (devices s) |>).
Definition update_device (d : Z) (g : device_d -> device_d) : M dst unit :=
  x ← deref_device d; put_device d (g x).

(** ** tty.c: the raw queue *)

(** Every byte of the raw queue; the pointers of the queue are not copied. *)
Definition tty_copy_raw_buffer (tty_to tty_from : Z) : M dst Z :=
  if tty_to =? NULL then mret (-1) else
  if tty_from =? NULL then mret (-1) else
  x ← deref_tty tty_to;
  if negb (t_magic x =? 1234) then mret (-1) else
  y ← deref_tty tty_from;
  if negb (t_magic y =? 1234) then mret (-1) else
  put_tty tty_to (x <| raw_queue := (raw_queue x) <| buf := buf (raw_queue y) |> |>);;
  mret TTY_BUF_SIZE.

(** The loop of [__tty_read]: up to [n] bytes go to the local buffer.  [false]:
    the routine returned from inside the loop; [None]: the index leaves the
    array. *)
Fixpoint tty_take (n : nat) (q : tty_queue) (data : list Z) : option (bool * tty_queue * list Z) :=
  match n with
  | O => Some (true, q, data)
  | S n =>
      if q_head q =? q_tail q then Some (false, q, data) else
      if TTY_BUF_SIZE <? q_tail q then Some (false, q, data) else
      match zlookup (buf q) (q_tail q) with
      | None => None
      | Some c => tty_take n (q <| q_tail := u64 (q_tail q + 1) |>) (data ++ [c])
      end
  end.

Definition __tty_read (tty buffer nr : Z) : M dst Z :=
  if tty =? NULL then mret (-1) else
  x ← deref_tty tty;
  if negb (t_used x =? TRUE) || negb (t_magic x =? 1234) then mret (-1) else
  if buffer =? NULL then panic "__tty_read: buffer" else
  if nr <=? 0 then mret (-1) else
  let rbytes := if TTY_BUF_SIZE <? nr then TTY_BUF_SIZE else nr in
  match tty_take (Z.to_nat rbytes) (raw_queue x) [] with
  | None => undef
  | Some (complete, q, data) =>
      put_tty tty (x <| raw_queue := q |>);;
      if complete : bool then
        if zlen data <=? 0 then mret 0 else
        set_dram (put buffer data);;
        mret (zlen data)
      else mret (zlen data)
  end.

(** The loop of [__tty_write]: how many bytes found room. *)
Fixpoint tty_fill (data : list Z) (q : tty_queue) (i : Z) : Z * tty_queue :=
  match data with
  | [] => (i, q)
  | c :: data =>
      if TTY_BUF_SIZE <=? q_head q then (i, q) else
      tty_fill data (q <| buf := zinsert (buf q) (q_head q) c |> <| q_head := u64 (q_head q + 1) |>) (i + 1)
  end.

(** After the write, the buffer of the linked terminal is copied. *)
Definition __tty_write (tty buffer nr : Z) : M dst Z :=
  if tty =? NULL then mret (-1) else
  x ← deref_tty tty;
  if negb (t_used x =? TRUE) || negb (t_magic x =? 1234) then mret (-1) else
  if buffer =? NULL then panic "__tty_write: Invalid buffer" else
  if nr <=? 0 then mret (-1) else
  let wbytes := if TTY_BUF_SIZE <? nr then TTY_BUF_SIZE else nr in
  data ← gets (fun s => bytes_at (dram s) buffer wbytes);
  let '(i, q) := tty_fill data (raw_queue x) 0 in
  put_tty tty (x <| raw_queue := q |>);;
  (if link x =? NULL then mret tt else
   y ← deref_tty (link x);
   if t_magic y =? 1234 then _ ← tty_copy_raw_buffer tty (link x); mret tt else mret tt);;
  if i <=? 0 then mret 0 else
  mret (if TTY_BUF_SIZE <? i then TTY_BUF_SIZE else i).

(** The terminal behind a descriptor of the current process; [None]: the call
    fails. *)
Definition tty_of_fd (fd : Z) : M dst (option Z) :=
  pid ← on_proc get_current_process;
  if (pid <? 0) || (PROCESS_COUNT_MAX <=? pid) then mret None else
  p ← on_proc (processList_at pid);
  if p =? NULL then mret None else
  x ← on_proc (deref_process p);
  if negb (p_magic x =? 1234) then mret None else
  f ← on_sys (object_at p fd);
  if f =? NULL then mret None else
  y ← on_sys (deref_file f);
  if negb (f_magic y =? 1234) then mret None else
  if negb (f_object y =? ObjectTypeTTY) then mret None else
  z ← deref_fdev f;
  if f_tty z =? NULL then mret None else mret (Some (f_tty z)).

Definition tty_read (fd buffer n : Z) : M dst Z :=
  if (fd <? 0) || (31 <? fd) then mret (- EBADF) else
  t ← tty_of_fd fd;
  match t with None => mret (-1) | Some tty => __tty_read tty buffer n end.

Definition tty_write (fd buffer n : Z) : M dst Z :=
  if (fd <? 0) || (31 <? fd) then mret (- EBADF) else
  t ← tty_of_fd fd;
  match t with None => mret (-1) | Some tty => __tty_write tty buffer n end.

(** ** tty.c: parameters and state *)

Definition reset_termios (t : termios_d) : termios_d :=
  t <| c_iflag := TTY_IFLAG |> <| c_oflag := OPOST |> <| c_cflag := TTY_CFLAG |>
    <| c_lflag := TTY_LFLAG |> <| c_ispeed := B9600 |> <| c_ospeed := B9600 |>
    <| c_cc := zinsert (zinsert (zinsert (zinsert (zinsert (zinsert (c_cc t) VEOF CEOF)
         VERASE CERASE) VINTR CINTR) VKILL CKILL) VQUIT CQUIT) VSUSP CSUSP |>.

Definition tty_reset_termios (tty : Z) : M dst Z :=
  if tty =? NULL then mret (-1) else
  update_tty tty (fun x => x <| termios := reset_termios (termios x) |>);;
  mret 0.

Definition file_tty (f : Z) : M dst Z :=
  if f =? NULL then mret NULL else x ← deref_fdev f; mret (f_tty x).

Definition tty_start (tty : Z) : M dst unit :=
  if tty =? NULL then mret tt else
  x ← deref_tty tty;
  if is_blocked x =? FALSE then mret tt else put_tty tty (x <| is_blocked := FALSE |>).

Definition tty_stop (tty : Z) : M dst unit :=
  if tty =? NULL then mret tt else
  x ← deref_tty tty;
  if is_blocked x =? TRUE then mret tt else put_tty tty (x <| is_blocked := TRUE |>).

Definition tty_delete (tty : Z) : M dst Z :=
  if tty =? NULL then mret (-1) else
  update_tty tty (fun x => x <| t_magic := 216 |>);;
  tty_stop tty;;
  mret 0.

(** sizeof(struct termios_d), and the structure as bytes: four words of 16 bits,
    twenty characters, two words of 32 bits. *)
Definition TERMIOS_SIZE : Z := 36.

Definition le (w v : Z) : list Z := byte_of v <$> range 0 w.

Definition termios_bytes (t : termios_d) : list Z :=
  le 2 (c_iflag t) ++ le 2 (c_oflag t) ++ le 2 (c_cflag t) ++ le 2 (c_lflag t) ++
  c_cc t ++ le 4 (c_ispeed t) ++ le 4 (c_ospeed t).

Definition termios_at (m : memory) (a : Z) : termios_d :=
  mk_termios (load16 m a) (load16 m (a + 2)) (load16 m (a + 4)) (load16 m (a + 6))
    (bytes_at m (a + 8) NCCS) (load32 m (a + 28)) (load32 m (a + 32)).

Definition tty_gets (tty termiosp : Z) : M dst Z :=
  if tty =? NULL then mret (-1) else
  if termiosp =? NULL then mret (-1) else
  x ← deref_tty tty;
  set_dram (put termiosp (termios_bytes (termios x)));;
  mret 0.

(** The result is -1, also when the parameters were set. *)
Definition tty_sets (tty options termiosp : Z) : M dst Z :=
  if tty =? NULL then mret (-1) else
  x ← deref_tty tty;
  if negb (t_magic x =? 1234) then mret (-1) else
  if options <? 0 then mret (-1) else
  if termiosp =? NULL then mret (-1) else
  if options =? TCSANOW then
    t ← gets (fun s => termios_at (dram s) termiosp);
    put_tty tty (x <| termios := t |>);;
    mret (-1)
  else mret (-1).

Definition is_superuser : M dst bool := gets (fun s => current_user (dsys s) =? 0).

(** The request TIOCCONS: redirect the output of the console. *)
Definition tioccons (tty other_tty : Z) (is_linked : bool) : M dst Z :=
  super ← is_superuser;
  if negb super then mret (- EPERM) else
  x ← deref_tty tty;
  if t_type x =? TTY_TYPE_CONSOLE then
    modify (fun s => s <| redirect := NULL |>);; mret 0 else
  r ← gets redirect;
  if negb (r =? NULL) then mret (- EBUSY) else
  if t_subtype x =? TTY_SUBTYPE_PTY_MASTER then
    if is_linked then modify (fun s => s <| redirect := other_tty |>);; mret 0
    else modify (fun s => s <| redirect := NULL |>);; mret (-1)
  else if t_subtype x =? TTY_SUBTYPE_PTY_SLAVE then
    modify (fun s => s <| redirect := tty |>);; mret 0
  else mret (- ENOTTY).

(** The other terminal is read before the request is looked at, also through a
    null pointer. *)
Definition tty_ioctl (fd request arg : Z) : M dst Z :=
  if bad_fd fd then mret (- EBADF) else
  pid ← on_proc get_current_process;
  if (pid <? 0) || (PROCESS_COUNT_MAX <=? pid) then mret (-1) else
  p ← on_proc (processList_at pid);
  if p =? NULL then mret (-1) else
  x ← on_proc (deref_process p);
  if negb (p_magic x =? 1234) then mret (-1) else
  f ← on_sys (object_at p fd);
  if f =? NULL then mret (-1) else
  y ← on_sys (deref_file f);
  if negb (f_magic y =? 1234) then mret (-1) else
  if negb (f_object y =? ObjectTypeTTY) then mret (- EINVAL) else
  z ← deref_fdev f;
  let tty := f_tty z in
  if tty =? NULL then mret (- EINVAL) else
  x ← deref_tty tty;
  if negb (t_magic x =? 1234) then mret (- EINVAL) else
  let other_tty := link x in
  o ← deref_tty other_tty;
  let other_tty := if t_magic o =? 1234 then other_tty else NULL in
  o ← deref_tty other_tty;
  let is_linked := t_magic o =? 1234 in
  o ← deref_tty other_tty;
  let other_tty := if t_type o =? TTY_TYPE_PTY then other_tty else NULL in
  if request =? TCGETS then
    if arg =? NULL then mret (- EINVAL) else tty_gets tty arg
  else if request =? TCSETS then
    if arg =? NULL then mret (- EINVAL) else tty_sets tty TCSANOW arg
  else if existsb (Z.eqb request) [TCFLSH; TCIFLUSH; TCOFLUSH; TCIOFLUSH; TCGETA; TCSETA; 900] then mret (-1)
  else if request =? TIOCCONS then tioccons tty other_tty is_linked
  else mret (- EINVAL).

(** ** dev.c: the list of devices *)

(** short *)
Definition i16 (x : Z) : Z := (x + 2 ^ 15) mod 2 ^ 16 - 2 ^ 15.

Section Devices.

(** Fuel of the loops over a string. *)
Variable fuel : nat.

(** kmalloc of the device manager. *)
Definition dmalloc (size : Z) : M dst Z := on_sys (on_heap (kmalloc size)).

Definition deviceList_at (i : Z) : M dst Z := getsome (fun s => zlookup (deviceList s) i).

(** One slot of the search: the file of the device whose mount point is [path]. *)
Definition search_slot (path size i : Z) : M dst (option Z) :=
  d ← deviceList_at i;
  if d =? NULL then mret None else
  x ← deref_device d;
  if negb (d_magic x =? 1234) then mret None else
  if mount_point x =? NULL then mret None else
  m ← gets dram;
  mret (if kstrncmp m (mount_point x) path size =? 0 then Some (d_fp x) else None).

Definition devmgr_search_in_dev_list (path : Z) : M dst Z :=
  if path =? NULL then mret NULL else
  m ← gets dram;
  match strlen fuel m path with
  | None => diverge
  | Some PathSize =>
      if 64 <=? PathSize then mret NULL else
      o ← for_return (range 0 DEVICE_LIST_MAX) (search_slot path PathSize);
      mret (default NULL o)
  end.

(** sizeof(struct device_d) *)
Definition DEVICE_SIZE : Z := 152.

(** A structure that memset cleared. *)
Definition zero_device : device_d := mk_device 0 0 0 [] 0 0 0 0 0 0 0.

Definition device_slot (i : Z) : M dst (option Z) :=
  tmp ← deviceList_at i;
  if tmp =? 0 then
    d ← dmalloc DEVICE_SIZE;
    if d =? NULL then panic "devmgr_device_object: [ERROR] d" else
    put_device d (zero_device <| d_used := TRUE |> <| d_magic := 1234 |> <| d_index := i |>
      <| d_name := [120] |>);;
    modify (fun s => s <| deviceList := zinsert (deviceList s) i d |>);;
    mret (Some d)
  else mret None.

Definition devmgr_device_object : M dst Z :=
  o ← for_return (range 0 DEVICE_LIST_MAX) device_slot;
  match o with
  | Some d => mret d
  | None => panic "devmgr_device_object: Overflow"
  end.

(** The format /DEV/%d or /DEV/%s, with its argument. *)
Definition dev_prefix : list Z := [47; 68; 69; 86; 47].
Definition mount_text (arg : va) : option (list Z) :=
  kinguio_vsprintf (dev_prefix ++ [37; match arg with VaInt _ => 100 | VaStr _ => 115 end]) [arg].

(** The name of a device and the text of its mount point: the index when there is
    no name. *)
Definition name_device (d id name new_mount_point : Z) : M dst unit :=
  if name =? NULL then
    match mount_text (VaInt id) with
    | None => undef
    | Some text => set_dram (put new_mount_point (text ++ [0]))
    end
  else
    m ← gets dram;
    match strlen fuel m name with
    | None => diverge
    | Some NameSize =>
        if 64 - 5 <=? NameSize then panic "devmgr_register_device: NameSize" else
        (if NameSize <=? DEVICE_NAME_SIZE
         then update_device d (fun x => x <| d_name := bytes_at m name NameSize |> <| d_name_len := NameSize |>)
         else mret tt);;
        match mount_text (VaStr (Some (bytes_at m name NameSize))) with
        | None => undef
        | Some text => set_dram (put new_mount_point (text ++ [0]))
        end
    end.

Definition devmgr_register_device (f name dev_class dev_type pci_dev tty_device : Z) : M dst Z :=
  let PathSize := 64 in
  new_mount_point ← dmalloc PathSize;
  if new_mount_point =? NULL then panic "devmgr_register_device: new_mount_point" else
  set_dram (memset new_mount_point 0 PathSize);;
  if f =? NULL then panic "devmgr_register_device: f" else
  y ← on_sys (deref_file f);
  if negb (f_used y =? TRUE) || negb (f_magic y =? 1234)
  then panic "devmgr_register_device: f validation" else
  z ← deref_fdev f;
  if negb (isDevice z =? TRUE) then panic "devmgr_register_device: This file is NOT a device" else
  d ← devmgr_device_object;
  if d =? NULL then panic "devmgr_register_device: d" else
  x ← deref_device d;
  if negb (d_used x =? TRUE) || negb (d_magic x =? 1234)
  then panic "devmgr_register_device: d validation" else
  let id := d_index x in
  if (id <? 0) || (DEVICE_LIST_MAX <=? id) then panic "devmgr_register_device: id" else
  update_device d (fun x => x <| d_class := u8 dev_class |> <| d_type := u8 dev_type |>);;
  update_fdev f (fun z => z <| dev_major := 0 |> <| dev_minor := i16 (Z.land id 65535) |>
    <| f_device := d |>);;
  update_device d (fun x => x <| d_fp := f |> <| d_name := [] |> <| d_name_len := 0 |>);;
  name_device d id name new_mount_point;;
  update_device d (fun x => x <| mount_point := new_mount_point |> <| pci_device := pci_dev |>
    <| d_tty := tty_device |>);;
  mret 0.

Definition __devmgr_init_device_list : M dst Z :=
  for_each (range 0 DEVICE_LIST_MAX)
    (fun i => modify (fun s => s <| deviceList := zinsert (deviceList s) i 0 |>));;
  mret 0.

Definition devInitialize : M dst unit :=
  _ ← __devmgr_init_device_list;
  for_each (range 0 8) (fun i => modify (fun s => s <| nicList := zinsert (nicList s) i 0 |>)).

(** ** tty.c: creation of a terminal *)

(** sizeof(struct tty_d) *)
Definition TTY_SIZE : Z := 3632.

Definition empty_queue : tty_queue := mk_tty_queue (replicate (Z.to_nat TTY_BUF_SIZE) 0) 0 0.

(** Structures that memset cleared. *)
Definition zero_termios : termios_d := mk_termios 0 0 0 0 (replicate (Z.to_nat NCCS) 0) 0 0.
Definition zero_tty : tty_d :=
  mk_tty 0 0 0 0 0 0 0 0 0 0 empty_queue 0 0 0 0 0 0 0 zero_termios 0 0 0 0 0 0 0 0 0 0 0 0 0.
Definition zero_file : file_d :=
  mk_file 0 0 0 0 0 0 0 0 0 0 0 0 0 0 0 0 0 0 0 (mk_sync 0 0 0 0 0 0 0 0 0 0 0 0) 0.

(** The fields that [tty_create] sets before the parameters of the terminal, and
    after them. *)
Definition tty_init (type subtype index : Z) (x : tty_d) : tty_d :=
  x <| t_used := TRUE |> <| t_magic := 1234 |> <| initialized := FALSE |> <| t_type := type |>
    <| t_subtype := subtype |> <| owner_tid := -1 |> <| t_index := Z.land index 65535 |>
    <| link := NULL |> <| is_linked := FALSE |>
    <| operation_mode := TTY_OPERATION_MODE_USING_FILE |>
    <| queue_operation_mode := TTYQUEUE_OPERATION_MODE_CHAR |>.

Definition tty_init2 (width height : Z) (x : tty_d) : tty_d :=
  x <| t_flags := 0 |> <| is_blocked := FALSE |> <| virtual_terminal_pid := 0 |> <| nobuffers := FALSE |>
    <| raw_queue := empty_queue |> <| cursor_width_in_pixels := 8 |> <| cursor_height_in_pixels := 8 |>
    <| bg_color := COLOR_BLACK |> <| fg_color := COLOR_WHITE |> <| cursor_x := 0 |> <| cursor_y := 0 |>
    <| cursor_left := 0 |> <| cursor_top := 0 |>
    <| cursor_right := u64 (width / 8 - 1) |> <| cursor_bottom := u64 (height / 8 - 1) |>.

(** The file of a terminal. *)
Definition tty_file : file_d :=
  zero_file <| f_used := TRUE |> <| f_magic := 1234 |> <| f_object := ObjectTypeTTY |>
    <| sync := (sync zero_file) <| sender_pid := -1 |> <| receiver_pid := -1 |> <| action := ACTION_NULL |>
         <| can_read := TRUE |> <| can_write := TRUE |> <| can_execute := FALSE |>
         <| can_accept := FALSE |> <| can_connect := FALSE |> |>.

(** The format TTY%d. *)
Definition tty_name (index : Z) : option (list Z) := kinguio_vsprintf [84; 84; 89; 37; 100] [VaInt index].

Definition tty_create (type subtype : Z) : M dst Z :=
  tty ← dmalloc TTY_SIZE;
  if tty =? NULL then panic "tty_create: __tty" else
  index ← gets new_tty_index;
  put_tty tty (tty_init type subtype index zero_tty);;
  modify (fun s => s <| new_tty_index := i32 (index + 1) |>);;
  _ ← tty_reset_termios tty;
  width ← gets gSavedX;
  height ← gets gSavedY;
  update_tty tty (tty_init2 width height);;
  match tty_name (Z.land (Z.land index 65535) 65535) with
  | None => undef
  | Some tmpname =>
      newname ← dmalloc TTY_NAME_SIZE;
      if newname =? NULL then panic "tty_create: newname" else
      set_dram (memset newname 0 TTY_NAME_SIZE);;
      set_dram (put newname (tmpname ++ [0]));;
      f ← dmalloc FILE_SIZE;
      if f =? NULL then panic "tty_create: __file" else
      on_sys (put_file f tty_file);;
      put_fdev f (mk_fdev TRUE 0 0 tty NULL);;
      update_tty tty (fun x => x <| t_fp := f |>);;
      _ ← devmgr_register_device f newname DEVICE_CLASS_CHAR DEVICE_TYPE_LEGACY NULL tty;
      update_tty tty (fun x => x <| initialized := TRUE |>);;
      mret tty
  end.

(** ** pty.c *)

Definition tty_initialize_legacy_pty : M dst Z :=
  pty_master ← tty_create TTY_TYPE_PTY TTY_SUBTYPE_PTY_MASTER;
  if pty_master =? NULL then panic "tty_initialize_legacy_tty: pty_master" else
  tty_start pty_master;;
  pty_slave ← tty_create TTY_TYPE_PTY TTY_SUBTYPE_PTY_SLAVE;
  if pty_slave =? NULL then panic "tty_initialize_legacy_tty: pty_slave" else
  tty_start pty_slave;;
  update_tty pty_master (fun x => x <| link := pty_slave |>);;
  update_tty pty_slave (fun x => x <| link := pty_master |>);;
  modify (fun s => s <| legacy_pty_master := pty_master |> <| legacy_pty_slave := pty_slave |>);;
  mret 0.

End Devices.
(** ** Specification of a terminal *)

(** The bytes of a queue that were written and not yet read. *)
Definition waiting (q : tty_queue) : list Z :=
  take (Z.to_nat (q_head q - q_tail q)) (drop (Z.to_nat (q_tail q)) (buf q)).

Record wf_queue (q : tty_queue) : Prop := {
  wq_size : zlen (buf q) = TTY_BUF_SIZE;
  wq_order : 0 <= q_tail q <= q_head q;
  wq_room : q_head q <= TTY_BUF_SIZE
}.

(** What a program does with a terminal: it stores [data] in its buffer [src] and
    writes it, or it clears its buffer [dst] with [old] and reads as many bytes. *)
Inductive tty_op := TWrite (src : Z) (data : list Z) | TRead (dst : Z) (old : list Z).

(** The result of the call, and the bytes that are then in the buffer of a read. *)
Definition run_tty (fd : Z) (op : tty_op) : M dst (Z * list Z) :=
  match op with
  | TWrite src data =>
      set_dram (put src data);;
      n ← tty_write fd src (zlen data);
      mret (n, [])
  | TRead dst old =>
      set_dram (put dst old);;
      n ← tty_read fd dst (zlen old);
      l ← gets (fun s => bytes_at (dram s) dst (zlen old));
      mret (n, l)
  end.

Fixpoint run_ttys (fd : Z) (ops : list tty_op) : M dst (list (Z * list Z)) :=
  match ops with
  | [] => mret []
  | op :: ops => r ← run_tty fd op; rs ← run_ttys fd ops; mret (r :: rs)
  end.

(** The queue of bytes, and the number of bytes it ever took: at most
    TTY_BUF_SIZE.  A read that asks for more than there is returns how much there
    was, leaves the buffer of the caller as it is and empties the queue. *)
Definition spec_tty (op : tty_op) (q : list Z * Z) : (Z * list Z) * (list Z * Z) :=
  match op with
  | TWrite _ data =>
      if zlen data =? 0 then ((-1, []), q) else
      let k := Z.min (zlen data) (TTY_BUF_SIZE - q.2) in
      ((k, []), (q.1 ++ take (Z.to_nat k) data, q.2 + k))
  | TRead _ old =>
      let c := Z.min (zlen old) TTY_BUF_SIZE in
      if c =? 0 then ((-1, []), q) else
      if c <=? zlen q.1
      then ((c, take (Z.to_nat c) q.1 ++ drop (Z.to_nat c) old), (drop (Z.to_nat c) q.1, q.2))
      else ((zlen q.1, old), ([], q.2))
  end.

Fixpoint spec_ttys (ops : list tty_op) (q : list Z * Z) : list (Z * list Z) * (list Z * Z) :=
  match ops with
  | [] => ([], q)
  | op :: ops =>
      let '(r, q) := spec_tty op q in
      let '(rs, q) := spec_ttys ops q in
      (r :: rs, q)
  end.

Definition tty_op_ok (op : tty_op) : Prop :=
  match op with
  | TWrite src data => src <> NULL
  | TRead dst old => dst <> NULL
  end.

(** The descriptor [fd] of the current process designates the terminal [tty]. *)
Record tty_fd (s : dst) (fd tty : Z) : Prop := {
  tf_fd : 0 <= fd < 32;
  tf_tty : tty <> NULL;
  tf_file : exists p px f y z, current_valid (pt (kern (dsys s))) p px /\
    zlookup (p_Objects px) fd = Some f /\ f <> NULL /\
    files (dsys s) !! f = Some y /\ f_magic y = 1234 /\ f_object y = ObjectTypeTTY /\
    fdevs s !! f = Some z /\ f_tty z = tty
}.

(** A terminal that is ready. *)
Definition live_tty (x : tty_d) : Prop := t_used x = TRUE /\ t_magic x = 1234 /\ wf_queue (raw_queue x).

(** The relation between a state and the specification. *)
Definition tty_rel (fd tty : Z) (s : dst) (q : list Z * Z) : Prop :=
  tty_fd s fd tty /\ exists x, ttys s !! tty = Some x /\ live_tty x /\ link x = NULL /\
    waiting (raw_queue x) = q.1 /\ q_head (raw_queue x) = q.2.

(** ** Lemmas on the queue *)

Lemma waiting_length q : wf_queue q -> zlen (waiting q) = q_head q - q_tail q.
Proof.
  intros [Hs Ho Hr]. unfold waiting, zlen in *. rewrite length_take, length_drop.
  unfold TTY_BUF_SIZE in *. lia.
Qed.

Definition push (c : Z) (q : tty_queue) : tty_queue :=
  q <| buf := zinsert (buf q) (q_head q) c |> <| q_head := q_head q + 1 |>.

Lemma wf_push c q : wf_queue q -> q_head q < TTY_BUF_SIZE -> wf_queue (push c q).
Proof. intros [Hs Ho Hr] Hlt. split; cbn; [unfold zlen; by rewrite length_zinsert|lia|lia]. Qed.

Lemma waiting_push c q : wf_queue q -> q_head q < TTY_BUF_SIZE -> waiting (push c q) = waiting q ++ [c].
Proof.
  intros [Hs Ho Hr] Hlt. unfold waiting, push. cbn. unfold zinsert.
  destruct (Z.ltb_spec (q_head q) 0); [lia|].
  set (h := Z.to_nat (q_head q)). set (t := Z.to_nat (q_tail q)).
  replace (Z.to_nat (q_head q + 1 - q_tail q)) with (S (h - t))%nat by lia.
  replace (Z.to_nat (q_head q - q_tail q)) with (h - t)%nat by lia.
  assert (Hl : (h < length (buf q))%nat) by (unfold zlen, TTY_BUF_SIZE in *; lia).
  rewrite (take_S_r _ (h - t) c).
  - f_equal. rewrite !take_drop_commute. replace (t + (h - t))%nat with h by lia.
    by rewrite take_insert_ge by lia.
  - rewrite lookup_drop. replace (t + (h - t))%nat with h by lia. by apply list_lookup_insert_eq.
Qed.

Lemma tty_fill_spec data q i : wf_queue q ->
  let k := Z.min (zlen data) (TTY_BUF_SIZE - q_head q) in
  exists q', tty_fill data q i = (i + k, q') /\ wf_queue q' /\
    waiting q' = waiting q ++ take (Z.to_nat k) data /\
    q_head q' = q_head q + k /\ q_tail q' = q_tail q.
Proof.
  revert q i. induction data as [|c data IH]; intros q i Hw k; cbn [tty_fill].
  - assert (k = 0) as -> by (pose proof (wq_room _ Hw); subst k; change (zlen []) with 0; lia).
    exists q. rewrite Z.add_0_r, app_nil_r. split_and!; done || lia.
  - pose proof (wq_order _ Hw). pose proof (wq_room _ Hw). pose proof (zlen_nonneg data).
    assert (Hk : k = Z.min (1 + zlen data) (TTY_BUF_SIZE - q_head q)) by by rewrite <- (zlen_cons c).
    destruct (Z.leb_spec TTY_BUF_SIZE (q_head q)) as [Hfull|Hroom].
    { assert (k = 0) as -> by lia. exists q. rewrite Z.add_0_r, app_nil_r. split_and!; done || lia. }
    rewrite u64_id by (unfold TTY_BUF_SIZE in *; lia). fold (push c q).
    destruct (IH (push c q) (i + 1) (wf_push _ _ Hw Hroom)) as (q' & E & Hw' & Hq & Hh & Ht).
    rewrite waiting_push, <- app_assoc in Hq by done. cbn in Hh, Ht, Hq, E.
    set (k' := Z.min (zlen data) (TTY_BUF_SIZE - (q_head q + 1))) in *.
    exists q'. rewrite E. split; [f_equal; lia|]. split; [done|]. split; [|lia].
    rewrite Hq. replace (Z.to_nat k) with (S (Z.to_nat k')) by lia. done.
Qed.

Lemma tty_take_spec n q data : wf_queue q ->
  exists q', wf_queue q' /\ q_head q' = q_head q /\
    if Z.of_nat n <=? zlen (waiting q)
    then tty_take n q data = Some (true, q', data ++ take n (waiting q)) /\ waiting q' = drop n (waiting q)
    else tty_take n q data = Some (false, q', data ++ waiting q) /\ waiting q' = [].
Proof.
  revert q data. induction n as [|n IH]; intros q data Hw; cbn [tty_take].
  { exists q. pose proof (zlen_nonneg (waiting q)). zguard. by rewrite take_0, app_nil_r. }
  pose proof (waiting_length q Hw) as Hl. destruct Hw as [Hs Ho Hr].
  destruct (Z.eqb_spec (q_head q) (q_tail q)) as [E|E].
  { assert (Hn : waiting q = []) by (unfold waiting; by rewrite E, Z.sub_diag).
    rewrite Hn. change (zlen []) with 0. zguard. exists q. by rewrite app_nil_r. }
  zguard. destruct (zlookup_some (buf q) (q_tail q)) as (c & Hc); [unfold zlen, TTY_BUF_SIZE in *; lia|].
  rewrite Hc, u64_id by (unfold TTY_BUF_SIZE in *; lia).
  set (q1 := q <| q_tail := q_tail q + 1 |>).
  assert (Hw1 : wf_queue q1) by (split; cbn; done || lia).
  assert (Hcons : waiting q = c :: waiting q1).
  { unfold waiting, q1. cbn. unfold zlookup in Hc. destruct (Z.ltb_spec (q_tail q) 0); [done|].
    rewrite (drop_S _ _ _ Hc).
    replace (Z.to_nat (q_head q - q_tail q)) with (S (Z.to_nat (q_head q - (q_tail q + 1)))) by lia.
    by replace (Z.to_nat (q_tail q + 1)) with (S (Z.to_nat (q_tail q))) by lia. }
  destruct (IH q1 (data ++ [c]) Hw1) as (q' & Hw' & Hh & H). exists q'. split; [done|]. split; [done|].
  rewrite Hcons, zlen_cons. rewrite Nat2Z.inj_succ. unfold Z.succ.
  destruct (Z.leb_spec (Z.of_nat n) (zlen (waiting q1))); destruct H as [-> ->]; zguard; by rewrite <- app_assoc.
Qed.

(** ** Lemmas on the state *)

Lemma on_sys_Done {A} (m : M fsys A) s a f : m (dsys s) = Done a f -> on_sys m s = Done a (s <| dsys := f |>).
Proof. intros E. unfold on_sys. by rewrite E. Qed.

Lemma on_sys_read {A} (m : M fsys A) s a : m (dsys s) = Done a (dsys s) -> on_sys m s = Done a s.
Proof. intros E. rewrite (on_sys_Done _ _ _ _ E). by destruct s. Qed.

Lemma on_proc_read {A} (m : M ptab A) s a :
  m (pt (kern (dsys s))) = Done a (pt (kern (dsys s))) -> on_proc m s = Done a s.
Proof. intros E. apply on_sys_read. by apply on_pt_Done. Qed.

Lemma set_dram_Done g s : set_dram g s = Done tt (s <| dsys := set_ram g (dsys s) |>).
Proof. done. Qed.

Lemma deref_tty_Done s t x : ttys s !! t = Some x -> deref_tty t s = Done x s.
Proof. intros E. unfold deref_tty, getsome. by rewrite E. Qed.

(** What a step must keep for its descriptors to stay. *)
Lemma tty_fd_keep s s' fd tty :
  kern (dsys s') = kern (dsys s) -> files (dsys s') = files (dsys s) -> fdevs s' = fdevs s ->
  tty_fd s fd tty -> tty_fd s' fd tty.
Proof. intros Ek Ef Ed [H1 H2 H3]. split; [done|done|]. by rewrite Ek, Ef, Ed. Qed.

Lemma tty_of_fd_spec s fd tty : tty_fd s fd tty -> tty_of_fd fd s = Done (Some tty) s.
Proof.
  intros [Hfd Ht (p & px & f & y & z & Hc & Ho & Hf & Hy & Hm & Hobj & Hz & <-)].
  pose proof Hc as (_ & Hpid & Hl & Hp & Hx & _ & Hpm). unfold tty_of_fd.
  erewrite bind_Done by by apply on_proc_read. unfold NULL in *. zguard.
  erewrite bind_Done. 2: { apply on_proc_read. unfold processList_at, getsome. by rewrite Hl. }
  zguard. erewrite bind_Done. 2: { apply on_proc_read. unfold deref_process, getsome. by rewrite Hx. }
  rewrite Hpm. change (negb (1234 =? 1234)) with false. cbn match.
  erewrite bind_Done. 2: { apply on_sys_read. by apply (object_at_spec _ _ px). }
  zguard. erewrite bind_Done. 2: { apply on_sys_read. by apply deref_file_Done. }
  rewrite Hm, Hobj, !Z.eqb_refl. cbn [negb].
  erewrite bind_Done. 2: { unfold deref_fdev, getsome. by rewrite Hz. }
  by zguard.
Qed.

(** [__tty_write] on a terminal that is not linked. *)
Lemma tty_write_spec s tty x buffer nr :
  ttys s !! tty = Some x -> live_tty x -> tty <> NULL -> buffer <> NULL -> 0 < nr ->
  let k := Z.min nr (TTY_BUF_SIZE - q_head (raw_queue x)) in
  exists q', wf_queue q' /\
    waiting q' = waiting (raw_queue x) ++ bytes_at (dram s) buffer k /\
    q_head q' = q_head (raw_queue x) + k /\ q_tail q' = q_tail (raw_queue x) /\
    __tty_write tty buffer nr s =
      ((if link x =? NULL then mret tt else
        y ← deref_tty (link x);
        if t_magic y =? 1234 then _ ← tty_copy_raw_buffer tty (link x); mret tt else mret tt);;
       mret k) (s <| ttys := <[tty := x <| raw_queue := q' |>]> (ttys s) |>).
Proof.
  intros Hx (Hu & Hm & Hw) Ht Hb Hn k. unfold __tty_write, NULL in *. zguard.
  rewrite (bind_Done _ _ _ _ _ (deref_tty_Done _ _ _ Hx)), Hu, Hm.
  change (negb (TRUE =? TRUE) || negb (1234 =? 1234)) with false. cbn match. zguard.
  set (w := if TTY_BUF_SIZE <? nr then TTY_BUF_SIZE else nr).
  assert (Hwn : w = Z.min nr TTY_BUF_SIZE) by (subst w; destruct (Z.ltb_spec TTY_BUF_SIZE nr); lia).
  rewrite bind_gets. pose proof (wq_order _ Hw). pose proof (wq_room _ Hw).
  destruct (tty_fill_spec (bytes_at (dram s) buffer w) (raw_queue x) 0 Hw) as (q' & E & Hw' & Hq & Hh & Htl).
  rewrite length_bytes_at in * by (unfold TTY_BUF_SIZE in *; lia).
  assert (Hk : Z.min w (TTY_BUF_SIZE - q_head (raw_queue x)) = k) by lia.
  rewrite Hk in *. exists q'. split; [done|]. split.
  { rewrite Hq. f_equal. replace w with (k + (w - k)) by lia. rewrite bytes_at_app by lia.
    apply take_zlen, length_bytes_at. lia. }
  split; [done|]. split; [done|]. rewrite E. unfold put_tty. rewrite bind_modify. f_equal.
  f_equal. rewrite Z.add_0_l. unfold TTY_BUF_SIZE in *. zguard.
  destruct (Z.leb_spec k 0); [by replace k with 0 by lia|]. by zguard.
Qed.

(** [__tty_read] of [nr] bytes. *)
Lemma tty_read_spec s tty x buffer nr :
  ttys s !! tty = Some x -> live_tty x -> tty <> NULL -> buffer <> NULL -> 0 < nr ->
  let c := Z.min nr TTY_BUF_SIZE in
  exists q', wf_queue q' /\ q_head q' = q_head (raw_queue x) /\
    let s' := s <| ttys := <[tty := x <| raw_queue := q' |>]> (ttys s) |> in
    if c <=? zlen (waiting (raw_queue x))
    then waiting q' = drop (Z.to_nat c) (waiting (raw_queue x)) /\
      __tty_read tty buffer nr s =
        Done c (s' <| dsys := set_ram (put buffer (take (Z.to_nat c) (waiting (raw_queue x)))) (dsys s) |>)
    else waiting q' = [] /\ __tty_read tty buffer nr s = Done (zlen (waiting (raw_queue x))) s'.
Proof.
  intros Hx (Hu & Hm & Hw) Ht Hb Hn c. unfold __tty_read, NULL in *. zguard.
  rewrite (bind_Done _ _ _ _ _ (deref_tty_Done _ _ _ Hx)), Hu, Hm.
  change (negb (TRUE =? TRUE) || negb (1234 =? 1234)) with false. cbn match. zguard.
  assert (Hc : (if TTY_BUF_SIZE <? nr then TTY_BUF_SIZE else nr) = c)
    by (subst c; destruct (Z.ltb_spec TTY_BUF_SIZE nr); lia).
  rewrite Hc. destruct (tty_take_spec (Z.to_nat c) (raw_queue x) [] Hw) as (q' & Hw' & Hh & H).
  exists q'. split; [done|]. split; [done|]. rewrite Z2Nat.id in H by (unfold TTY_BUF_SIZE in *; lia).
  destruct (Z.leb_spec c (zlen (waiting (raw_queue x)))) as [Hle|Hlt]; destruct H as [-> Hq];
    (split; [done|]); cbn [app]; unfold put_tty; rewrite bind_modify; [|done].
  assert (Hlen : zlen (take (Z.to_nat c) (waiting (raw_queue x))) = c).
  { unfold zlen in *. rewrite length_take. unfold TTY_BUF_SIZE in *. lia. }
  rewrite Hlen. unfold TTY_BUF_SIZE in *. zguard. by rewrite set_dram_Done || done.
Qed.

Lemma bytes_at_put_take a l m k : 0 <= k <= zlen l -> bytes_at (put a l m) a k = take (Z.to_nat k) l.
Proof.
  intros Hk. rewrite <- (bytes_at_put a l m) at 2.
  replace (zlen l) with (k + (zlen l - k)) by lia. rewrite bytes_at_app by lia.
  symmetry. apply take_zlen, length_bytes_at. lia.
Qed.

Lemma put_over a l l' m : zlen l' <= zlen l -> bytes_at (put a l' (put a l m)) a (zlen l) = l' ++ drop (length l') l.
Proof.
  intros H. pose proof (zlen_nonneg l').
  replace (zlen l) with (zlen l' + (zlen l - zlen l')) by lia. rewrite bytes_at_app by lia. f_equal.
  - apply bytes_at_put.
  - transitivity (bytes_at (put a l m) (a + zlen l') (zlen l - zlen l')).
    + apply bytes_at_ext. intros y Hy. apply put_outside. lia.
    + rewrite <- (bytes_at_put a l m) at 3.
      replace (zlen l) with (zlen l' + (zlen l - zlen l')) at 2 by lia. rewrite bytes_at_app by lia.
      pose proof (length_bytes_at (put a l m) a (zlen l') ltac:(lia)) as L. unfold zlen in L at 2.
      rewrite drop_app_length'; [done|]. unfold zlen in *. lia.
Qed.

Lemma tty_step fd tty s q op :
  tty_rel fd tty s q -> tty_op_ok op ->
  exists s', run_tty fd op s = Done (spec_tty op q).1 s' /\ tty_rel fd tty s' (spec_tty op q).2.
Proof.
  intros (Hfd & x & Hx & Hlive & Hlink & Hq & Hh) Hok. pose proof Hfd as [Hr Ht _].
  destruct op as [src data|dst old]; cbn [run_tty spec_tty]; rewrite (bind_Done _ _ _ _ _ (set_dram_Done _ _));
    set (s1 := s <| dsys := set_ram _ (dsys s) |>); assert (Hfd1 : tty_fd s1 fd tty)
      by by apply (tty_fd_keep s).
  - pose proof (zlen_nonneg data). unfold tty_write. zguard. rewrite !bind_bind.
    rewrite (bind_Done _ _ _ _ _ (tty_of_fd_spec _ _ _ Hfd1)).
    destruct (Z.eqb_spec (zlen data) 0) as [E0|E0].
    { rewrite E0. destruct Hlive as (Hu & Hm & Hw). eexists. split; [|by split; [done|exists x]].
      cbn in Hok. unfold __tty_write, NULL in *. zguard.
      rewrite bind_bind, (bind_Done _ _ _ x s1); [by rewrite Hu, Hm|by apply deref_tty_Done]. }
    destruct (tty_write_spec s1 tty x src (zlen data)) as (q' & Hw' & Hwq & Hhq & _ & E); [done|done|done|done|lia|].
    unfold NULL in *. rewrite Hlink in E. change (0 =? 0) with true in E. cbn match in E.
    rewrite bind_ret in E. cbn match. rewrite (bind_Done _ _ _ _ _ E).
    rewrite <- Hh. eexists. split; [reflexivity|]. split; [by apply (tty_fd_keep s)|].
    eexists. split; [cbn; apply lookup_insert_eq|]. destruct Hlive as (Hu & Hm & Hw).
    split; [done|]. split; [done|]. split; [|done]. cbn. rewrite Hwq, <- Hq. f_equal.
    set (k := Z.min (zlen data) _). change (dram s1) with (put src data (dram s)).
    pose proof (wq_room _ Hw). apply bytes_at_put_take. lia.
  - pose proof (zlen_nonneg old). unfold tty_read. zguard. rewrite !bind_bind.
    rewrite (bind_Done _ _ _ _ _ (tty_of_fd_spec _ _ _ Hfd1)).
    set (c := Z.min (zlen old) TTY_BUF_SIZE). destruct Hlive as (Hu & Hm & Hw).
    assert (Hold : bytes_at (dram s1) dst (zlen old) = old) by apply bytes_at_put.
    destruct (Z.eqb_spec c 0) as [E0|E0].
    { assert (zlen old = 0) as Ez by (unfold TTY_BUF_SIZE in *; lia).
      eexists. split; [|by split; [done|exists x]].
      cbn in Hok. unfold __tty_read, NULL in *. zguard. rewrite bind_bind.
      rewrite (bind_Done _ _ _ x s1); [|by apply deref_tty_Done]. rewrite Hu, Hm. zguard.
      by rewrite Ez, bind_ret, bind_gets, bytes_at_nil by lia. }
    destruct (tty_read_spec s1 tty x dst (zlen old)) as (q' & Hw' & Hhq & E);
      [done|done|done|done|unfold c, TTY_BUF_SIZE in E0; lia|].
    fold c in E. rewrite Hq in E. destruct (Z.leb_spec c (zlen q.1)); destruct E as [Hwq E];
      rewrite (bind_Done _ _ _ _ _ E), bind_gets; eexists; split.
    + assert (Hl : zlen (take (Z.to_nat c) q.1) = c)
        by (unfold zlen in *; rewrite length_take; unfold TTY_BUF_SIZE in *; lia).
      unfold mret, M_ret. f_equal. unfold dram, ram. cbn. rewrite put_over by lia.
      do 2 f_equal. f_equal. unfold zlen in Hl. lia.
    + split; [by apply (tty_fd_keep s)|]. eexists. split; [cbn; apply lookup_insert_eq|].
      split; [done|]. by rewrite <- Hh.
    + unfold mret, M_ret. f_equal. cbn. f_equal. exact Hold.
    + split; [by apply (tty_fd_keep s)|]. eexists. split; [cbn; apply lookup_insert_eq|].
      split; [done|]. by rewrite <- Hh.
Qed.

Lemma run_ttys_spec fd tty ops : forall s q, tty_rel fd tty s q -> Forall tty_op_ok ops ->
  exists s', run_ttys fd ops s = Done (spec_ttys ops q).1 s' /\ tty_rel fd tty s' (spec_ttys ops q).2.
Proof.
  induction ops as [|op ops IH]; intros s q Hr Hok; [by exists s|].
  apply Forall_cons in Hok as [Hop Hok].
  destruct (tty_step fd tty s q op Hr Hop) as (s1 & E1 & Hr1).
  destruct (IH s1 _ Hr1 Hok) as (s2 & E2 & Hr2). exists s2. cbn.
  destruct (spec_tty op q) as [r q1]. cbn in *.
  rewrite (bind_Done _ _ _ _ _ E1), (bind_Done _ _ _ _ _ E2).
  by destruct (spec_ttys ops q1) as [rs q2].
Qed.

(** The copy after the write of a terminal that is linked. *)
Lemma tty_copy_spec s a b x y :
  ttys s !! a = Some x -> t_magic x = 1234 -> ttys s !! b = Some y -> t_magic y = 1234 ->
  a <> NULL -> b <> NULL ->
  tty_copy_raw_buffer a b s = Done TTY_BUF_SIZE
    (s <| ttys := <[a := x <| raw_queue := (raw_queue x) <| buf := buf (raw_queue y) |> |>]> (ttys s) |>).
Proof.
  intros Hx Hxm Hy Hym Ha Hb. unfold tty_copy_raw_buffer, NULL in *. zguard.
  rewrite (bind_Done _ _ _ _ _ (deref_tty_Done _ _ _ Hx)), Hxm. cbn [negb Z.eqb Pos.eqb].
  rewrite (bind_Done _ _ _ _ _ (deref_tty_Done _ _ _ Hy)), Hym. done.
Qed.

(** ** Lemmas on the list of devices *)

(** A registered device: its address and its mount point are in the part of the
    heap that was handed out. *)
Definition entry (s : dst) (a : Z) (e : list Z * Z) : Prop :=
  exists x, a <> NULL /\ a < g_heap_pointer (kheap (dsys s)) /\ devices s !! a = Some x /\ d_magic x = 1234 /\
    d_fp x = e.2 /\ mount_point x <> NULL /\
    mount_point x + 64 <= g_heap_pointer (kheap (dsys s)) /\
    str_at (dram s) (mount_point x) e.1 /\ zlen e.1 < 64.

(** The list of devices holds [dir]: names with their files, in the order of the
    registrations. *)
Definition directory (s : dst) (dir : list (list Z * Z)) : Prop :=
  exists addrs, deviceList s = addrs ++ replicate (512 - length addrs) 0 /\ (length addrs <= 512)%nat /\
    Forall2 (entry s) addrs dir.

(** The file of the first entry with a name. *)
Fixpoint first_named (p : list Z) (dir : list (list Z * Z)) : option Z :=
  match dir with
  | [] => None
  | e :: dir => if bool_decide (e.1 = p) then Some e.2 else first_named p dir
  end.

Lemma kstrncmp_exact m l1 l2 : forall a b, str_at m a l1 -> str_at m b l2 ->
  kstrncmp m a b (zlen l2) = 0 <-> l1 = l2.
Proof.
  unfold kstrncmp, zlen. rewrite Nat2Z.id. revert l1.
  induction l2 as [|c l2 IH]; intros l1 a b H1 H2; cbn [length kstrncmp_loop].
  - pose proof (str_at_first _ _ _ H1) as [E1 R1]. pose proof (str_at_first _ _ _ H2) as [E2 R2].
    unfold char_at. rewrite !i8_0 by lia. rewrite E1, E2. cbn [first]. rewrite Z.eqb_refl.
    destruct l1 as [|d l1]; cbn [first negb orb]; [done|]. destruct H1 as (_ & Hd & _). zguard. by split.
  - pose proof (str_at_first _ _ _ H1) as [E1 R1]. destruct H2 as (E2 & Hc & H2).
    unfold char_at. rewrite E1, E2. destruct (Z.eqb_spec (i8 (first l1)) (i8 c)) as [E|E]; cbn [negb].
    + apply i8_inj in E; [|lia|lia]. destruct l1 as [|d l1]; cbn [first] in *; [lia|]. subst d.
      destruct H1 as (_ & _ & H1). rewrite IH, E by done. split; [by intros ->|congruence].
    + split; [done|]. intros ->. done.
Qed.

Lemma search_slot_empty s path size i :
  zlookup (deviceList s) i = Some 0 -> search_slot path size i s = Done None s.
Proof. intros E. unfold search_slot, deviceList_at. by erewrite bind_getsome by exact E. Qed.

Lemma search_slot_entry s path p i a e :
  zlookup (deviceList s) i = Some a -> entry s a e -> str_at (dram s) path p ->
  search_slot path (zlen p) i s = Done (if bool_decide (e.1 = p) then Some e.2 else None) s.
Proof.
  intros Ha (x & Hne & _ & Hx & Hm & Hfp & Hmp & _ & Hs & _) Hp. unfold search_slot, deviceList_at.
  erewrite bind_getsome by exact Ha. unfold NULL in *. zguard.
  rewrite (bind_Done _ _ _ x s); [|unfold deref_device, getsome; by rewrite Hx].
  rewrite Hm. change (negb (1234 =? 1234)) with false. cbn match. zguard. rewrite bind_gets, <- Hfp.
  pose proof (kstrncmp_exact (dram s) e.1 p (mount_point x) path Hs Hp) as Hk. unfold mret, M_ret.
  case_bool_decide as Ep; destruct (Z.eqb_spec (kstrncmp (dram s) (mount_point x) path (zlen p)) 0); by tauto.
Qed.

Lemma search_empty s path size i : 0 <= i <= 512 ->
  (forall j, i <= j < 512 -> zlookup (deviceList s) j = Some 0) ->
  for_return (range i 512) (search_slot path size) s = Done None s.
Proof.
  intros Hi Hz. remember (Z.to_nat (512 - i)) as n eqn:Hn. revert i Hi Hz Hn.
  induction n as [|n IH]; intros i Hi Hz Hn; [by rewrite range_nil by lia|].
  rewrite range_cons by lia. cbn [for_return].
  rewrite (bind_Done _ _ _ None s) by (apply search_slot_empty, Hz; lia).
  apply IH; [lia| |lia]. intros j Hj. apply Hz. lia.
Qed.

Lemma search_spec s path p addrs dir : forall i,
  Forall2 (entry s) addrs dir -> str_at (dram s) path p -> 0 <= i -> i + zlen addrs <= 512 ->
  (forall j a, addrs !! j = Some a -> zlookup (deviceList s) (i + Z.of_nat j) = Some a) ->
  (forall j, i + zlen addrs <= j < 512 -> zlookup (deviceList s) j = Some 0) ->
  for_return (range i 512) (search_slot path (zlen p)) s = Done (first_named p dir) s.
Proof.
  revert dir. induction addrs as [|a addrs IH]; intros dir i H Hp Hi Hlen Ha Hz.
  - apply Forall2_nil_inv_l in H as ->. change (zlen []) with 0 in *. apply search_empty; [lia|].
    intros j Hj. apply Hz. lia.
  - apply Forall2_cons_inv_l in H as (e & dir' & He & Hr & ->).
    rewrite zlen_cons in *. pose proof (zlen_nonneg addrs). rewrite range_cons by lia. cbn [for_return].
    erewrite bind_Done; [|apply (search_slot_entry s path p i a e); [|done|done]].
    2: { rewrite <- (Z.add_0_r i). by apply (Ha 0%nat a). }
    cbn [first_named]. case_bool_decide as Ep; [done|].
    apply (IH dir' (i + 1)); [done|done|lia|lia| |].
    + intros j b Hj. rewrite <- (Ha (S j) b Hj). f_equal. lia.
    + intros j Hj. apply Hz. lia.
Qed.

Lemma directory_lookup s addrs :
  deviceList s = addrs ++ replicate (512 - length addrs) 0 -> (length addrs <= 512)%nat ->
  (forall j a, addrs !! j = Some a -> zlookup (deviceList s) (0 + Z.of_nat j) = Some a) /\
  (forall j, 0 + zlen addrs <= j < 512 -> zlookup (deviceList s) j = Some 0).
Proof.
  intros -> Hl. unfold zlookup, zlen. split.
  - intros j a Hj. zguard. rewrite lookup_app_l by (by apply lookup_lt_Some in Hj; lia). rewrite <- Hj. f_equal. lia.
  - intros j Hj. zguard. rewrite lookup_app_r by lia. apply lookup_replicate_2. lia.
Qed.

Lemma devmgr_search_spec fuel s dir path p :
  directory s dir -> str_at (dram s) path p -> path <> NULL -> zlen p < 64 -> (length p < fuel)%nat ->
  devmgr_search_in_dev_list fuel path s = Done (default NULL (first_named p dir)) s.
Proof.
  intros (addrs & Hd & Hlen & H) Hp Hn Hsz Hf. unfold devmgr_search_in_dev_list.
  assert ((path =? NULL) = false) as -> by by apply Z.eqb_neq.
  rewrite bind_gets, (strlen_spec fuel (dram s) path p) by done. zguard.
  destruct (directory_lookup s addrs Hd Hlen) as (Ha & Hz). unfold DEVICE_LIST_MAX.
  rewrite (bind_Done _ _ _ (first_named p dir) s); [done|].
  apply (search_spec s path p addrs dir 0); [done|done|lia|unfold zlen; lia|done|done].
Qed.

(** The heap and the caller of a state. *)
Definition heap_ok (s : dst) (l : list Z) (p : Z) (x : process_d) : Prop :=
  wf_heap (kheap (dsys s)) l /\ current_valid (pt (kern (dsys s))) p x.

#[local] Abbreviation hp s := (g_heap_pointer (kheap (dsys s))).

Lemma dmalloc_done s l size p x :
  heap_ok s l p x -> 0 < size < 2 ^ 31 -> hp s + size + MMBLOCK_SIZE <= KERNEL_HEAP_END ->
  zlen l + 1 < MMBLOCK_COUNT_MAX ->
  exists f y, dmalloc size s = Done (hp s + MMBLOCK_SIZE) (s <| dsys := f |>) /\
    heap_ok (s <| dsys := f |>) (l ++ [hp s]) p y /\ files f = files (dsys s) /\ ram f = dram s /\
    g_heap_pointer (kheap f) = hp s + MMBLOCK_SIZE + size /\ same_face x y.
Proof.
  intros [Hw Hc] Hs Hfit Hn.
  destruct (kmalloc_done (dsys s) l size p x) as (f & y & E & Hw1 & Hf & Hg & Hk & Hc1 & Hy); [done..|].
  exists f, y. split; [by apply on_sys_Done|]. destruct Hk as (Hr & _). by split_and!.
Qed.

Lemma hp_positive s l p x : heap_ok s l p x -> 0 < hp s.
Proof. intros [Hw _]. pose proof (wh_pointer _ _ Hw). unfold KERNEL_HEAP_START in *. lia. Qed.

Lemma entry_mono s s' a e :
  hp s <= hp s' -> (forall b, b < hp s -> devices s' !! b = devices s !! b) ->
  (forall b, b < hp s -> dram s' b = dram s b) -> entry s a e -> entry s' a e.
Proof.
  intros Hh Hd Hm (x & Hne & Ha & Hx & Hmg & Hfp & Hmp & Hb & Hs & Hl). exists x.
  split_and!; try done; [lia|by rewrite Hd|lia|]. apply (str_at_ext (dram s)); [|done].
  intros b Hbb. apply Hm. unfold zlen in *. lia.
Qed.

Lemma update_device_Done s d x g : devices s !! d = Some x ->
  update_device d g s = Done tt (s <| devices := <[d := g x]> (devices s) |>).
Proof.
  intros E. unfold update_device, deref_device, put_device.
  by rewrite (bind_getsome (fun s => devices s !! d) _ s _ E).
Qed.

Lemma update_fdev_Done s f x g : fdevs s !! f = Some x ->
  update_fdev f g s = Done tt (s <| fdevs := <[f := g x]> (fdevs s) |>).
Proof.
  intros E. unfold update_fdev, deref_fdev, put_fdev.
  by rewrite (bind_getsome (fun s => fdevs s !! f) _ s _ E).
Qed.

Lemma str_at_put a l m : Forall (fun c => 0 < c < 256) l -> str_at (put a (l ++ [0]) m) a l.
Proof.
  intros H. revert a. induction H as [|c l Hc _ IH]; intros a; cbn [app str_at].
  - by rewrite put_cons, Z.eqb_refl.
  - rewrite put_cons, Z.eqb_refl. split; [done|]. split; [done|].
    apply (str_at_ext (put (a + 1) (l ++ [0]) m)); [|apply IH].
    intros b Hb. rewrite put_cons. by zguard.
Qed.

(** The new device takes the first free slot. *)
Lemma device_object_spec s l p x dir :
  heap_ok s l p x -> directory s dir -> zlen dir < 512 ->
  hp s + DEVICE_SIZE + MMBLOCK_SIZE <= KERNEL_HEAP_END -> zlen l + 1 < MMBLOCK_COUNT_MAX ->
  exists f y, let d := hp s + MMBLOCK_SIZE in
    let dev := zero_device <| d_used := TRUE |> <| d_magic := 1234 |> <| d_index := zlen dir |> <| d_name := [120] |> in
    devmgr_device_object s = Done d (s <| dsys := f |> <| devices := <[d := dev]> (devices s) |>
      <| deviceList := zinsert (deviceList s) (zlen dir) d |>) /\
    heap_ok (s <| dsys := f |>) (l ++ [hp s]) p y /\ files f = files (dsys s) /\ ram f = dram s /\
    g_heap_pointer (kheap f) = hp s + MMBLOCK_SIZE + DEVICE_SIZE /\ same_face x y.
Proof.
  intros Hh (addrs & Hd & Hlen & HF) Hdir Hfit Hn. pose proof (Forall2_length _ _ _ HF) as Hl.
  destruct (dmalloc_done s l DEVICE_SIZE p x) as (f & y & E & Hrest);
    [done|unfold DEVICE_SIZE; lia|done|done|].
  exists f, y. split; [|exact Hrest]. unfold devmgr_device_object.
  destruct (directory_lookup s addrs Hd Hlen) as (Ha & Hz). pose proof (hp_positive _ _ _ _ Hh) as Hpos.
  set (n := zlen dir) in *. assert (Hnn : n = zlen addrs) by (unfold n, zlen; lia).
  assert (Hgo : forall k i, i + Z.of_nat k = n -> 0 <= i ->
    for_return (range i DEVICE_LIST_MAX) device_slot s =
    for_return (range n DEVICE_LIST_MAX) device_slot s).
  { induction k as [|k IH]; intros i Hi H0; [by replace i with n by lia|].
    rewrite range_cons by (unfold DEVICE_LIST_MAX; lia). cbn [for_return]. rewrite <- (IH (i + 1)) by lia.
    destruct (lookup_lt_is_Some_2 addrs (Z.to_nat i)) as (a & Hai); [unfold zlen in *; lia|].
    destruct (Forall2_lookup_l _ _ _ _ _ HF Hai) as (e & _ & (x0 & Hne & _)).
    rewrite (bind_Done _ _ _ None s); [done|]. unfold device_slot, deviceList_at.
    erewrite bind_getsome by (apply Ha in Hai; rewrite Z2Nat.id, Z.add_0_l in Hai by lia; exact Hai).
    unfold NULL in *. by zguard. }
  match goal with |- _ = Done ?d ?s' => set (s1 := s'); set (d1 := d) end.
  assert (Hslot : device_slot n s = Done (Some d1) s1).
  { unfold device_slot, deviceList_at.
    erewrite bind_getsome by (apply Hz; unfold zlen in *; lia). change (0 =? 0) with true. cbn match.
    rewrite (bind_Done _ _ _ _ _ E). unfold NULL, MMBLOCK_SIZE in *. zguard.
    unfold put_device. by rewrite !bind_modify. }
  rewrite (bind_Done _ _ _ (Some d1) s1); [done|].
  rewrite (Hgo (Z.to_nat n) 0) by (pose proof (zlen_nonneg addrs); lia).
  rewrite range_cons by (unfold DEVICE_LIST_MAX; lia). cbn [for_return].
  by rewrite (bind_Done _ _ _ _ _ Hslot).
Qed.

(** What [devmgr_register_device] asks for: a file of a device, a name that is
    not in the next block of the heap, and room. *)
Record registrable (s : dst) (dir : list (list Z * Z)) (f name : Z) (text : list Z) : Prop := {
  rg_heap : exists l p x, heap_ok s l p x /\ zlen l + 2 < MMBLOCK_COUNT_MAX;
  rg_room : hp s + 64 + DEVICE_SIZE + 2 * MMBLOCK_SIZE <= KERNEL_HEAP_END;
  rg_slots : zlen dir < DEVICE_LIST_MAX;
  rg_file : f <> NULL /\ exists y z, files (dsys s) !! f = Some y /\ f_used y = TRUE /\ f_magic y = 1234 /\
    fdevs s !! f = Some z /\ isDevice z = TRUE;
  rg_name : name <> NULL /\ str_at (dram s) name text /\ zlen text < 59;
  rg_apart : apart name (zlen text + 1) (hp s + MMBLOCK_SIZE) 64
}.

Lemma mount_text_str text : mount_text (VaStr (Some text)) = Some (dev_prefix ++ text).
Proof. unfold mount_text, dev_prefix. simpl. by rewrite app_nil_r. Qed.

Lemma dev_name_chars text : Forall (fun c => 0 < c < 256) text -> Forall (fun c => 0 < c < 256) (dev_prefix ++ text).
Proof. intros. apply Forall_app. split; [|done]. unfold dev_prefix. repeat constructor; lia. Qed.

Lemma bytes_at_str m a l : str_at m a l -> bytes_at m a (zlen l) = l.
Proof.
  revert a. induction l as [|c l IH]; intros a; [intros; by rewrite bytes_at_nil|]. intros (Ha & _ & Hl).
  pose proof (zlen_nonneg l). rewrite zlen_cons, bytes_at_cons by lia.
  rewrite Ha. f_equal. replace (1 + zlen l - 1) with (zlen l) by lia. by apply IH.
Qed.

Lemma heap_ok_ram g s l p x : heap_ok s l p x -> heap_ok (s <| dsys := set_ram g (dsys s) |>) l p x.
Proof. intros [[] Hc]. by split; [split|]. Qed.

(** Clearing and filling the block that was just handed out changes nothing below. *)
Lemma memset_below mp n m b : b < mp -> memset mp 0 n m b = m b.
Proof. intros. unfold memset. case_match; [|done]. apply fill_outside. lia. Qed.

(** The last part of [devmgr_register_device], from the structure of the device. *)
Lemma register_tail fuel s f d id name text cl ty pci tty x z mp :
  devices s !! d = Some x -> fdevs s !! f = Some z ->
  name <> NULL -> str_at (dram s) name text -> zlen text < 59 -> (length text < fuel)%nat ->
  exists s' x' z',
    (update_device d (fun x => x <| d_class := u8 cl |> <| d_type := u8 ty |>);;
     update_fdev f (fun z => z <| dev_major := 0 |> <| dev_minor := i16 (Z.land id 65535) |> <| f_device := d |>);;
     update_device d (fun x => x <| d_fp := f |> <| d_name := [] |> <| d_name_len := 0 |>);;
     name_device fuel d id name mp;;
     update_device d (fun x => x <| mount_point := mp |> <| pci_device := pci |> <| d_tty := tty |>);;
     mret 0) s = Done 0 s' /\
    dsys s' = set_ram (put mp (dev_prefix ++ text ++ [0])) (dsys s) /\ ttys s' = ttys s /\
    deviceList s' = deviceList s /\ devices s' = <[d := x']> (devices s) /\ fdevs s' = <[f := z']> (fdevs s) /\
    d_magic x' = d_magic x /\ d_fp x' = f /\ mount_point x' = mp /\ d_tty x' = tty /\ d_name x' = text /\
    f_tty z' = f_tty z /\ dev_minor z' = i16 (Z.land id 65535) /\ isDevice z' = isDevice z.
Proof.
  intros Hx Hz Hname Ht Hlen Hfuel. apply Z.eqb_neq in Hname. unfold name_device. rewrite Hname.
  rewrite (bind_Done _ _ _ _ _ (update_device_Done _ _ _ _ Hx)).
  erewrite (bind_Done (update_fdev f _)); [|apply update_fdev_Done; exact Hz].
  erewrite (bind_Done (update_device d _)); [|apply update_device_Done; cbn; apply lookup_insert_eq].
  rewrite !bind_bind, bind_gets. match goal with |- context [strlen fuel ?m name] => change m with (dram s) end.
  rewrite (strlen_spec fuel (dram s) name text) by done. zguard. rewrite !bind_bind.
  unfold DEVICE_NAME_SIZE. zguard.
  erewrite (bind_Done (update_device d _)); [|apply update_device_Done; cbn; apply lookup_insert_eq].
  rewrite bytes_at_str, mount_text_str by done. cbn match.
  rewrite (bind_Done _ _ _ _ _ (set_dram_Done _ _)).
  erewrite (bind_Done (update_device d _)); [|apply update_device_Done; cbn; apply lookup_insert_eq].
  eexists _, _, _. split; [reflexivity|]. split; [done|]. split; [done|]. split; [done|].
  split; [cbn -[insert]; by rewrite !insert_insert_eq|]. by split_and!.
Qed.

Lemma insert_after {A} (l : list A) n (a b : A) :
  (length l < n)%nat -> zinsert (l ++ replicate (n - length l) a) (zlen l) b =
    (l ++ [b]) ++ replicate (n - length (l ++ [b])) a.
Proof.
  intros H. unfold zinsert, zlen. zguard. rewrite Nat2Z.id, length_app. cbn [length].
  replace (n - length l)%nat with (S (n - (length l + 1)))%nat by lia. cbn [replicate].
  rewrite insert_app_r_alt, Nat.sub_diag by lia. cbn. by rewrite <- app_assoc.
Qed.

Lemma hp_set_ram g f : g_heap_pointer (kheap (set_ram g f)) = g_heap_pointer (kheap f).
Proof. done. Qed.

Lemma ram_set_ram g f : ram (set_ram g f) = g (ram f).
Proof. done. Qed.

(** Registration of a device: it is the last of the directory. *)
Lemma register_spec fuel s dir f name text cl ty pci tty :
  directory s dir -> registrable s dir f name text -> (length text < fuel)%nat ->
  exists s', devmgr_register_device fuel f name cl ty pci tty s = Done 0 s' /\
    directory s' (dir ++ [(dev_prefix ++ text, f)]) /\ ttys s' = ttys s /\ files (dsys s') = files (dsys s) /\
    (forall b, b < hp s -> dram s' b = dram s b).
Proof.
  intros Hdir [(l & p & x & Hh & Hn) Hroom Hslots (Hf & y & z & Hy & Hyu & Hym & Hz & Hzd) (Hname & Ht & Hlen) Hap] Hfuel.
  pose proof (zlen_nonneg dir) as Hdl. pose proof (hp_positive _ _ _ _ Hh) as Hpos.
  destruct (dmalloc_done s l 64 p x) as (f1 & x1 & E1 & Hh1 & Hf1 & Hr1 & Hg1 & _);
    [done|lia|unfold DEVICE_SIZE, MMBLOCK_SIZE in *; lia|lia|].
  set (mp := hp s + MMBLOCK_SIZE) in *.
  unfold devmgr_register_device. rewrite (bind_Done _ _ _ _ _ E1).
  unfold NULL, MMBLOCK_SIZE in *. zguard. rewrite (bind_Done _ _ _ _ _ (set_dram_Done _ _)).
  set (s2 := _ <| dsys := set_ram _ _ |>).
  assert (Hh2 : heap_ok s2 (l ++ [hp s]) p x1) by by apply (heap_ok_ram (memset mp 0 64) (s <| dsys := f1 |>)).
  assert (Hr2 : forall b, b < mp \/ mp + 64 <= b -> dram s2 b = dram s b).
  { intros b Hb. change (dram s2 b) with (memset mp 0 64 (ram f1) b). rewrite <- Hr1.
    unfold memset. case_match; [|done]. by apply fill_outside. }
  rewrite (bind_Done _ _ _ y s2); [|apply on_sys_read, deref_file_Done; cbn; by rewrite Hf1].
  rewrite Hyu, Hym. change (negb (TRUE =? TRUE) || negb (1234 =? 1234)) with false. cbn match.
  rewrite (bind_Done _ _ _ z s2); [|unfold deref_fdev, getsome; cbn; by rewrite Hz].
  rewrite Hzd. change (negb (TRUE =? TRUE)) with false. cbn match.
  assert (Hdir2 : directory s2 dir).
  { destruct Hdir as (addrs & Hd & Hl & HF). exists addrs. split; [done|]. split; [done|].
    eapply Forall2_impl; [exact HF|]. intros a e. apply entry_mono; cbn; [lia|done|].
    intros b Hb. apply Hr2. lia. }
  destruct (device_object_spec s2 (l ++ [hp s]) p x1 dir) as (f3 & x3 & E3 & Hh3 & Hf3 & Hr3 & Hg3 & _);
    [done|done|done|cbn; rewrite Hg1; unfold MMBLOCK_SIZE; lia|rewrite zlen_app; change (zlen [hp s]) with 1; lia|].
  cbv zeta in E3. set (d := hp s2 + MMBLOCK_SIZE) in *. set (dev := _ <| d_name := [120] |>) in *.
  assert (Hd0 : d = hp s + 208) by (subst d; cbn; rewrite Hg1; unfold MMBLOCK_SIZE; lia).
  rewrite (bind_Done _ _ _ _ _ E3). zguard. set (s3 := _ <| deviceList := _ |>).
  rewrite (bind_Done _ _ _ dev s3); [|unfold deref_device, getsome; cbn -[insert]; by rewrite lookup_insert_eq].
  change (negb (d_used dev =? TRUE) || negb (d_magic dev =? 1234)) with false. cbn match.
  change (d_index dev) with (zlen dir). unfold DEVICE_LIST_MAX in *. zguard.
  destruct (register_tail fuel s3 f d (zlen dir) name text cl ty pci tty dev z mp)
    as (s4 & x4 & z4 & E4 & Hs4 & Ht4 & Hl4 & Hd4 & Hz4 & Hx4);
    [cbn -[insert]; apply lookup_insert_eq|done|done| |done|done|].
  { apply (str_at_ext (dram s)); [|done]. intros b Hb. change (dram s3 b) with (ram f3 b). rewrite Hr3.
    apply Hr2. unfold apart in Hap. lia. }
  rewrite E4. exists s4. split; [done|]. clear E4.
  assert (Hhp : hp s4 = hp s + 360).
  { rewrite Hs4, hp_set_ram. change (dsys s3) with f3. rewrite Hg3, Hd0. unfold DEVICE_SIZE. lia. }
  assert (Hr4 : forall b, b < hp s -> dram s4 b = dram s b).
  { intros b Hb. unfold dram at 1. rewrite Hs4, ram_set_ram, put_outside by lia.
    change (dsys s3) with f3. rewrite Hr3. apply Hr2. lia. }
  split; [|split; [by rewrite Ht4|split; [rewrite Hs4; cbn; by rewrite Hf3, <- Hf1|exact Hr4]]].
  destruct Hdir as (addrs & Hl & Hlen2 & HF). pose proof (Forall2_length _ _ _ HF) as Hla.
  exists (addrs ++ [d]). rewrite Hl4. change (deviceList s3) with (zinsert (deviceList s) (zlen dir) d).
  assert (Hza : zlen dir = zlen addrs) by (unfold zlen; lia). rewrite Hl, Hza.
  split; [apply insert_after; unfold zlen in *; lia|]. split; [rewrite length_app; cbn; unfold zlen in *; lia|].
  apply Forall2_app; [|constructor; [|done]].
  - eapply Forall2_impl; [exact HF|]. intros a e. apply entry_mono; [lia| |exact Hr4].
    intros b Hb. rewrite Hd4, lookup_insert_ne by lia.
    change (devices s3) with (<[d := dev]> (devices s)). by rewrite lookup_insert_ne by lia.
  - destruct Hx4 as (Hm4 & Hf4 & Hp4 & _). exists x4. cbn [fst snd]. rewrite Hd4, Hp4, Hm4, Hf4.
    unfold NULL. split_and!; [lia|lia|apply lookup_insert_eq|done|done|lia|lia| |].
    + unfold dram. rewrite Hs4, ram_set_ram, app_assoc.
      apply str_at_put, dev_name_chars. by apply (str_at_chars (dram s) name).
    + rewrite zlen_app. change (zlen dev_prefix) with 5. lia.
Qed.

(** ** Theorems *)

(** [C18] A terminal that is not linked is, for every script of [tty_write] and
    [tty_read], a queue of bytes that takes TTY_BUF_SIZE bytes in its whole life:
    its two indices never come back.  A read for which there are enough bytes
    gives them in order; a read that asks for more returns how many there were,
    copies none of them to the caller, and they are lost. *)
Theorem tty_queue_script fd tty ops s q :
  tty_rel fd tty s q -> Forall tty_op_ok ops ->
  exists s', run_ttys fd ops s = Done (spec_ttys ops q).1 s' /\ tty_rel fd tty s' (spec_ttys ops q).2 /\
    (spec_ttys ops q).2.2 <= TTY_BUF_SIZE.
Proof.
  intros Hr Hok. destruct (run_ttys_spec fd tty ops s q Hr Hok) as (s' & E & Hr'). exists s'.
  split; [done|]. split; [done|]. destruct Hr' as (_ & x & _ & (_ & _ & Hw) & _ & _ & <-). apply Hw.
Qed.

(** [C40] The master of a pair of terminals: what is written to it is accepted, but
    the buffer of the slave is then copied over it, and the slave gets nothing; the
    next read of the master returns the old bytes of the slave. *)
Theorem pty_write_lost s fd m sl x y src data dst old :
  tty_fd s fd m -> ttys s !! m = Some x -> live_tty x -> waiting (raw_queue x) = [] ->
  link x = sl -> sl <> m -> sl <> NULL -> ttys s !! sl = Some y -> live_tty y ->
  src <> NULL -> dst <> NULL -> 0 < zlen data <= TTY_BUF_SIZE - q_head (raw_queue x) -> zlen old = zlen data ->
  let stale := take (length data) (drop (Z.to_nat (q_head (raw_queue x))) (buf (raw_queue y))) in
  exists s1 s2, run_tty fd (TWrite src data) s = Done (zlen data, []) s1 /\ ttys s1 !! sl = Some y /\
    run_tty fd (TRead dst old) s1 = Done (zlen data, stale) s2 /\ ttys s2 !! sl = Some y.
Proof.
  intros Hfd Hx Hlx Hempty Hl Hne Hsl Hy Hly Hsrc Hdst Hlen Hold stale. pose proof Hfd as [Hr Hm _].
  set (s0 := s <| dsys := set_ram (put src data) (dsys s) |>).
  assert (Hfd0 : tty_fd s0 fd m) by by apply (tty_fd_keep s).
  pose proof Hlx as (Hu & Hmg & Hw). destruct Hly as (Huy & Hmgy & Hwy).
  destruct (tty_write_spec s0 m x src (zlen data)) as (q' & Hwq & Hq & Hh & Ht & E); [done|done|done|done|lia|].
  rewrite Z.min_l in * by lia.
  set (x1 := x <| raw_queue := q' |>) in *. set (s0' := s0 <| ttys := <[m := x1]> (ttys s0) |>) in *.
  set (x2 := x1 <| raw_queue := q' <| buf := buf (raw_queue y) |> |>).
  set (s1 := s0' <| ttys := <[m := x2]> (ttys s0') |>).
  assert (Hs1 : ttys s1 !! sl = Some y) by (cbn -[insert]; by rewrite !lookup_insert_ne).
  assert (E1 : __tty_write m src (zlen data) s0 = Done (zlen data) s1).
  { rewrite E, Hl. apply Z.eqb_neq in Hsl as Hsl0. rewrite Hsl0.
    assert (Hy0 : ttys s0' !! sl = Some y) by (cbn -[insert]; by rewrite lookup_insert_ne).
    rewrite bind_bind, (bind_Done _ _ _ _ _ (deref_tty_Done _ _ _ Hy0)), Hmgy.
    change (1234 =? 1234) with true. cbn match. rewrite bind_bind.
    erewrite bind_Done; [|apply tty_copy_spec; [cbn -[insert]; apply lookup_insert_eq|done|exact Hy0|done..]].
    by rewrite bind_ret. }
  assert (Hx2 : live_tty x2).
  { split; [done|]. split; [done|]. destruct Hwq. destruct Hwy. by split. }
  exists s1. set (s1' := s1 <| dsys := set_ram (put dst old) (dsys s1) |>).
  destruct (tty_read_spec s1' m x2 dst (zlen old)) as (q2 & _ & _ & E2);
    [cbn -[insert]; apply lookup_insert_eq|done|done|done|lia|].
  pose proof (wq_order _ Hw). pose proof (wq_order _ Hwq). pose proof (wq_room _ Hw). pose proof (wq_room _ Hwq).
  assert (Heq : q_tail (raw_queue x) = q_head (raw_queue x)).
  { pose proof (waiting_length _ Hw) as L. rewrite Hempty in L. change (zlen []) with 0 in L. lia. }
  assert (Hwait : waiting (raw_queue x2) = stale).
  { unfold waiting, stale. cbn. rewrite Hh, Ht, Heq. do 2 f_equal. unfold zlen in *. lia. }
  rewrite Hwait in E2. rewrite Z.min_l in E2 by lia.
  assert (Hst : zlen stale = zlen data).
  { rewrite <- Hwait, waiting_length by apply Hx2. cbn. lia. }
  rewrite Hst, Hold, Z.leb_refl in E2. destruct E2 as [_ E2]. eexists.
  split; [|split; [done|split]].
  - cbn [run_tty]. rewrite (bind_Done _ _ _ _ _ (set_dram_Done _ _)). fold s0.
    unfold tty_write. zguard. by rewrite bind_bind, (bind_Done _ _ _ _ _ (tty_of_fd_spec _ _ _ Hfd0)), (bind_Done _ _ _ _ _ E1).
  - cbn [run_tty]. rewrite (bind_Done _ _ _ _ _ (set_dram_Done _ _)). fold s1'.
    unfold tty_read. zguard.
    rewrite bind_bind, (bind_Done _ _ _ _ _ (tty_of_fd_spec s1' fd m ltac:(by apply (tty_fd_keep s)))).
    rewrite Hold, (bind_Done _ _ _ _ _ E2), bind_gets. unfold mret, M_ret. f_equal. f_equal.
    unfold dram. cbn [dsys]. cbn. rewrite take_ge by (unfold zlen in *; lia).
    rewrite <- Hold, put_over by lia. rewrite drop_ge by (unfold zlen in *; lia). by rewrite app_nil_r.
  - cbn -[insert]. by rewrite !lookup_insert_ne.
Qed.

(** [C30] The list of devices is a directory: a registration puts the name /DEV/...
    with its file behind the others, and a search gives the file of the first
    device that has exactly the name, or NULL. *)
Theorem device_directory fuel s dir f name text cl ty pci tty path p :
  directory s dir -> registrable s dir f name text -> (length text < fuel)%nat ->
  str_at (dram s) path p -> 0 < path -> path + zlen p < hp s -> zlen p < 64 -> (length p < fuel)%nat ->
  devmgr_search_in_dev_list fuel path s = Done (default NULL (first_named p dir)) s /\
  exists s', devmgr_register_device fuel f name cl ty pci tty s = Done 0 s' /\
    directory s' (dir ++ [(dev_prefix ++ text, f)]) /\
    devmgr_search_in_dev_list fuel path s' =
      Done (default NULL (first_named p (dir ++ [(dev_prefix ++ text, f)]))) s'.
Proof.
  intros Hdir Hreg Hf Hp H0 Hlow Hlen Hfp. unfold NULL in *. split.
  { apply devmgr_search_spec; unfold NULL; done || lia. }
  destruct (register_spec fuel s dir f name text cl ty pci tty Hdir Hreg Hf) as (s' & E & Hdir' & _ & _ & Hram).
  exists s'. split; [done|]. split; [done|]. apply devmgr_search_spec; unfold NULL; try (done || lia).
  apply (str_at_ext (dram s)); [|done]. intros b Hb. apply Hram. lia.
Qed.

(** ** Requests *)

Lemma le_load16 m a : bytes m -> le 2 (load16 m a) = bytes_at m a 2.
Proof.
  intros Hm. pose proof (Hm a). pose proof (Hm (a + 1)).
  rewrite !bytes_at_cons, bytes_at_nil by lia. unfold le. change (range 0 2) with [0; 1].
  cbn [fmap list_fmap]. unfold load16, byte_of, u8. rewrite !Z.shiftr_div_pow2 by lia.
  change (2 ^ (8 * 0)) with 1. change (2 ^ (8 * 1)) with 256. change (2 ^ 8) with 256.
  repeat (apply (f_equal2 cons); [Z.to_euclidean_division_equations; lia|]). done.
Qed.

Lemma le_load32 m a : bytes m -> le 4 (load32 m a) = bytes_at m a 4.
Proof.
  intros Hm. pose proof (Hm a). pose proof (Hm (a + 1)). pose proof (Hm (a + 2)). pose proof (Hm (a + 3)).
  rewrite !bytes_at_cons, bytes_at_nil by lia. unfold le. change (range 0 4) with [0; 1; 2; 3].
  cbn [fmap list_fmap]. unfold load32, load16, byte_of, u8. rewrite !Z.shiftr_div_pow2 by lia.
  change (2 ^ (8 * 0)) with 1. change (2 ^ (8 * 1)) with 256. change (2 ^ (8 * 2)) with 65536.
  change (2 ^ (8 * 3)) with 16777216. change (2 ^ 8) with 256. change (2 ^ 16) with 65536.
  replace (a + 1 + 1) with (a + 2) by lia. replace (a + 2 + 1) with (a + 3) by lia.
  repeat (apply (f_equal2 cons); [Z.to_euclidean_division_equations; lia|]). done.
Qed.

(** The encoding of the parameters read at [a] is what is there. *)
Lemma termios_bytes_at m a : bytes m -> termios_bytes (termios_at m a) = bytes_at m a TERMIOS_SIZE.
Proof.
  intros Hm. unfold termios_bytes, termios_at, TERMIOS_SIZE, NCCS.
  cbn [c_iflag c_oflag c_cflag c_lflag c_cc c_ispeed c_ospeed].
  rewrite !le_load16, !le_load32 by done.
  replace (bytes_at m a 36) with (bytes_at m a (2 + (2 + (2 + (2 + (20 + (4 + 4))))))) by done.
  rewrite !bytes_at_app by lia. repeat first [apply (f_equal2 app)|apply (f_equal2 (bytes_at m)); [lia|done]].
Qed.

(** A request on a terminal without a partner follows a null pointer, whatever
    the request. *)
Lemma tty_ioctl_unlinked s fd tty x request arg :
  tty_fd s fd tty -> ttys s !! tty = Some x -> t_magic x = 1234 -> link x = NULL -> ttys s !! NULL = None ->
  tty_ioctl fd request arg s = Undef.
Proof.
  intros [Hfd Ht (p & px & f & y & z & Hc & Ho & Hf & Hy & Hm & Hobj & Hz & <-)] Hx Hmg Hl Hnull.
  pose proof Hc as (_ & Hpid & Hpl & Hp & Hpx & _ & Hpm). unfold tty_ioctl, bad_fd, OPEN_MAX. zguard.
  erewrite bind_Done by by apply on_proc_read. unfold NULL in *. zguard.
  erewrite bind_Done. 2: { apply on_proc_read. unfold processList_at, getsome. by rewrite Hpl. }
  zguard. erewrite bind_Done. 2: { apply on_proc_read. unfold deref_process, getsome. by rewrite Hpx. }
  rewrite Hpm. change (negb (1234 =? 1234)) with false. cbn match.
  erewrite bind_Done. 2: { apply on_sys_read. by apply (object_at_spec _ _ px). }
  zguard. erewrite bind_Done. 2: { apply on_sys_read. by apply deref_file_Done. }
  rewrite Hm, Hobj, !Z.eqb_refl. cbn [negb].
  erewrite bind_Done. 2: { unfold deref_fdev, getsome. by rewrite Hz. }
  zguard. rewrite (bind_Done _ _ _ _ _ (deref_tty_Done _ _ _ Hx)), Hmg.
  change (negb (1234 =? 1234)) with false. cbn match.
  unfold mbind, M_bind, deref_tty at 1, getsome. by rewrite Hl, Hnull.
Qed.

(** Setting the parameters succeeds and reports a failure; getting them back gives
    the bytes that were set. *)
Lemma termios_roundtrip s tty x from to :
  ttys s !! tty = Some x -> t_magic x = 1234 -> tty <> NULL -> from <> NULL -> to <> NULL -> bytes (dram s) ->
  exists s1 s2, tty_sets tty TCSANOW from s = Done (-1) s1 /\ tty_gets tty to s1 = Done 0 s2 /\
    bytes_at (dram s2) to TERMIOS_SIZE = bytes_at (dram s) from TERMIOS_SIZE.
Proof.
  intros Hx Hm Ht Hf Hto Hb. unfold tty_sets, tty_gets, NULL in *. zguard.
  rewrite (bind_Done _ _ _ _ _ (deref_tty_Done _ _ _ Hx)), Hm. change (negb (1234 =? 1234)) with false.
  change (TCSANOW <? 0) with false. change (TCSANOW =? TCSANOW) with true. cbn match. zguard.
  rewrite bind_gets. unfold put_tty. rewrite bind_modify. eexists _, _. split; [reflexivity|].
  erewrite bind_Done; [|apply deref_tty_Done; cbn; apply lookup_insert_eq].
  rewrite (bind_Done _ _ _ _ _ (set_dram_Done _ _)). split; [reflexivity|]. cbn [termios].
  rewrite <- (termios_bytes_at (dram s) from Hb).
  match goal with |- bytes_at (dram ?s') to _ = ?l => change (dram s') with (put to l (dram s)) end.
  replace TERMIOS_SIZE with (zlen (termios_bytes (termios_at (dram s) from))) by
    (rewrite termios_bytes_at by done; apply length_bytes_at; unfold TERMIOS_SIZE; lia).
  apply bytes_at_put.
Qed.

(** ** Witnesses *)

(** A pair of terminals, at 5000000 and 5100000; descriptor 3 of the current
    process is the first one. *)
Definition sample_pty (linked : Z) : tty_d :=
  (tty_init2 800 600 (tty_init TTY_TYPE_PTY TTY_SUBTYPE_PTY_MASTER 0 zero_tty)) <| link := linked |>.

Definition tty_demo (linked : Z) : dst :=
  mk_dst (share_demo tty_file) {[ 5000000 := sample_pty linked; 5100000 := sample_pty 5000000 ]}
    {[ 8192 := mk_fdev TRUE 0 0 5000000 NULL ]} ∅ (replicate 512 0) (replicate 8 0) 2 5000000 5100000 NULL 800 600.

Lemma tty_demo_fd linked : tty_fd (tty_demo linked) 3 5000000.
Proof.
  split; [lia|done|].
  exists 4096, ((sample_process 0) <| p_Objects := share_demo_objects |>), 8192, tty_file, (mk_fdev TRUE 0 0 5000000 NULL).
  by split_and!.
Qed.

Lemma tty_queue_script_witness :
  let ops := [TWrite 600 [104; 101; 108; 108; 111]; TRead 700 [0; 0; 0]; TRead 800 [1; 1; 1; 1]] in
  exists s', run_ttys 3 ops (tty_demo NULL) = Done [(5, []); (3, [104; 101; 108]); (2, [1; 1; 1; 1])] s' /\
    tty_rel 3 5000000 s' ([], 5) /\ 5 <= TTY_BUF_SIZE.
Proof.
  refine (tty_queue_script 3 5000000 [TWrite 600 [104; 101; 108; 108; 111]; TRead 700 [0; 0; 0]; TRead 800 [1; 1; 1; 1]]
    (tty_demo NULL) ([], 0) _ _).
  - split; [apply tty_demo_fd|]. eexists. split; [reflexivity|]. split; [|done]. by split_and!.
  - by repeat constructor.
Defined.

Lemma pty_write_lost_witness :
  exists s1 s2, run_tty 3 (TWrite 600 [65; 66]) (tty_demo 5100000) = Done (2, []) s1 /\
    ttys s1 !! 5100000 = Some (sample_pty 5000000) /\
    run_tty 3 (TRead 700 [7; 7]) s1 = Done (2, [0; 0]) s2 /\ ttys s2 !! 5100000 = Some (sample_pty 5000000).
Proof.
  apply (pty_write_lost (tty_demo 5100000) 3 5000000 5100000 (sample_pty 5100000) (sample_pty 5000000)
    600 [65; 66] 700 [7; 7]); try done; try apply tty_demo_fd; by split_and!.
Defined.

(** The keyboard: a file at 8192 and its name at 500000. *)
Definition device_demo : dst :=
  (tty_demo NULL) <| dsys := set_ram (put 500000 [80; 83; 50; 75; 66; 68; 0; 47; 68; 69; 86; 47; 80; 83; 50; 75; 66; 68; 0])
    (dsys (tty_demo NULL)) |>.

Lemma device_directory_witness :
  devmgr_search_in_dev_list 20 500007 device_demo = Done NULL device_demo /\
  exists s', devmgr_register_device 20 8192 500000 DEVICE_CLASS_CHAR DEVICE_TYPE_LEGACY NULL NULL device_demo = Done 0 s' /\
    directory s' [(dev_prefix ++ [80; 83; 50; 75; 66; 68], 8192)] /\
    devmgr_search_in_dev_list 20 500007 s' = Done 8192 s'.
Proof.
  destruct (device_directory 20 device_demo [] 8192 500000 [80; 83; 50; 75; 66; 68] DEVICE_CLASS_CHAR DEVICE_TYPE_LEGACY
    NULL NULL 500007 (dev_prefix ++ [80; 83; 50; 75; 66; 68])) as (E1 & s' & E2 & Hd & E3).
  - exists []. split; [done|]. split; [cbn; lia|constructor].
  - split.
    + exists [], 4096, ((sample_process 0) <| p_Objects := share_demo_objects |>).
      split; [|by vm_compute]. split; [destruct sample_booted_wf; by split|by split_and!].
    + by vm_compute.
    + by vm_compute.
    + split; [done|]. exists tty_file, (mk_fdev TRUE 0 0 5000000 NULL). by split_and!.
    + split; [done|]. split; [cbn; repeat split; lia || done|by vm_compute].
    + left. by vm_compute.
  - cbn. lia.
  - cbn. repeat split; lia || done.
  - lia.
  - by vm_compute.
  - by vm_compute.
  - cbn. lia.
  - split; [exact E1|]. exists s'. split; [exact E2|]. split; [exact Hd|].
    rewrite E3. cbn [app first_named]. by rewrite bool_decide_true.
Defined.
