(* ===== verification/Console.v ===== *)
(** * Console: the virtual consoles

    [res/dev/chardev/console/console.c]: the four consoles, their cursors, the
    characters and the escape sequences that are written to them, and their
    control requests; [kinguio_puts] and [kinguio_printf] (printk) of
    [libk/kstdio.c], which draw through them.  The calls on the display are
    recorded in order; a screen position is a number of pixels. *)
From Stdlib Require Import ZArith Lia.
From stdpp Require Import base gmap list strings.
From S2P Require Import Config Prelude Strings Memory Format Process KState Samples Threads Heap Files Descriptors Tty.

#[local] Open Scope Z_scope.
#[local] Open Scope gramado_scope.

(** ** Data *)

(** A call on the display: a character at a position with its colors, the whole
    screen moved up by a line, a filled rectangle, a rectangle or the screen copied
    to the frame buffer, the background. *)
Inductive draw :=
  | DrawChar (x y c fg bg : Z)
  | ScrollScreen
  | DrawRectangle (x y w h color : Z)
  | RefreshRectangle (x y w h : Z)
  | RefreshScreen
  | PaintBackground (color : Z).

(** The state of the consoles. *)
Record cst := mk_cst {
  CONSOLE_TTYS : list tty_d;  (** struct tty_d CONSOLE_TTYS[CONSOLETTYS_COUNT_MAX] *)
  fg_console : Z;  (** int *)
  saved_x : Z;  (** int *)
  saved_y : Z;  (** int *)
  escape_stage : Z;  (** __EscapeSequenceStage: unsigned long *)
  par : list Z;  (** unsigned long par[NPAR] *)
  npar : Z;  (** unsigned long *)
  ques : Z;
  ShellFlag : Z;
  con_redirect : Z;  (** redirect *)
  char_width : Z;  (** FontInitialization.width: int *)
  char_height : Z;
  useGui : Z;  (** VideoBlock.useGui *)
  screen_width : Z;  (** gSavedX: unsigned long *)
  screen_height : Z;  (** gSavedY *)
  stdio_terminalmode_flag : Z;
  stdio_verbosemode_flag : Z;
  is_console_log_initialized : Z;  (** Initialization.is_console_log_initialized *)
  printk_to_serial : Z;  (** Initialization.printk_to_serial *)
  prompt : list Z;  (** char prompt[PROMPT_SIZE] *)
  prompt_pos : Z;
  display : list draw  (** the calls on the display, the last one first *)
}.

#[export] Instance cst_eta : Eta cst := fun r =>
  mk_cst (CONSOLE_TTYS r) (fg_console r) (saved_x r) (saved_y r) (escape_stage r)
    (par r) (npar r) (ques r) (ShellFlag r) (con_redirect r) (char_width r)
    (char_height r) (useGui r) (screen_width r) (screen_height r)
    (stdio_terminalmode_flag r) (stdio_verbosemode_flag r)
    (is_console_log_initialized r) (printk_to_serial r) (prompt r) (prompt_pos r)
    (display r).
#[export] Instance set_CONSOLE_TTYS : Setter CONSOLE_TTYS. Proof. solve_setter. Defined.
#[export] Instance set_fg_console : Setter fg_console. Proof. solve_setter. Defined.
#[export] Instance set_saved_x : Setter saved_x. Proof. solve_setter. Defined.
#[export] Instance set_saved_y : Setter saved_y. Proof. solve_setter. Defined.
#[export] Instance set_escape_stage : Setter escape_stage. Proof. solve_setter. Defined.
#[export] Instance set_par : Setter par. Proof. solve_setter. Defined.
#[export] Instance set_npar : Setter npar. Proof. solve_setter. Defined.
#[export] Instance set_ques : Setter ques. Proof. solve_setter. Defined.
#[export] Instance set_ShellFlag : Setter ShellFlag. Proof. solve_setter. Defined.
#[export] Instance set_con_redirect : Setter con_redirect. Proof. solve_setter. Defined.
#[export] Instance set_char_width : Setter char_width. Proof. solve_setter. Defined.
#[export] Instance set_char_height : Setter char_height. Proof. solve_setter. Defined.
#[export] Instance set_useGui : Setter useGui. Proof. solve_setter. Defined.
#[export] Instance set_screen_width : Setter screen_width. Proof. solve_setter. Defined.
#[export] Instance set_screen_height : Setter screen_height. Proof. solve_setter. Defined.
#[export] Instance set_stdio_terminalmode_flag : Setter stdio_terminalmode_flag. Proof. solve_setter. Defined.
#[export] Instance set_stdio_verbosemode_flag : Setter stdio_verbosemode_flag. Proof. solve_setter. Defined.
#[export] Instance set_is_console_log_initialized : Setter is_console_log_initialized. Proof. solve_setter. Defined.
#[export] Instance set_printk_to_serial : Setter printk_to_serial. Proof. solve_setter. Defined.
#[export] Instance set_prompt : Setter prompt. Proof. solve_setter. Defined.
#[export] Instance set_prompt_pos : Setter prompt_pos. Proof. solve_setter. Defined.
#[export] Instance set_display : Setter display. Proof. solve_setter. Defined.

Definition CONSOLETTYS_COUNT_MAX : Z := 4.
Definition NPAR : Z := 16.
Definition PROMPT_MAX_DEFAULT : Z := 1024.

Definition bad_console (n : Z) : bool := (n <? 0) || (CONSOLETTYS_COUNT_MAX <=? n).

(** [CONSOLE_TTYS[n]] and its update. *)
Definition console (n : Z) : M cst tty_d := getsome (fun s => zlookup (CONSOLE_TTYS s) n).
Definition put_console (n : Z) (x : tty_d) : M cst unit :=
  modify (fun s => s <| CONSOLE_TTYS := zinsert (CONSOLE_TTYS s) n x |>).
Definition update_console (n : Z) (g : tty_d -> tty_d) : M cst unit :=
  x ← console n; put_console n (g x).

Definition show (d : draw) : M cst unit := modify (fun s => s <| display := d :: display s |>).

(** The color of the background, and the cursor of the foreground console. *)
Definition set_up_cursor (x y : Z) : M cst unit :=
  n ← gets fg_console;
  if bad_console n then mret tt else update_console n (fun t => t <| cursor_x := x |> <| cursor_y := y |>).

Definition displayInitializeBackground (color : Z) : M cst unit :=
  show (PaintBackground color);;
  show RefreshScreen;;
  set_up_cursor 0 0.

(** ** Cursor *)

(** The limits are unsigned long, so that a negative position is beyond them. *)
Definition __local_gotoxy (new_x new_y n : Z) : M cst unit :=
  if bad_console n then mret tt else
  t ← console n;
  if cursor_right t <? u64 new_x then mret tt else
  if cursor_bottom t <? u64 new_y then mret tt else
  put_console n (t <| cursor_x := u32 new_x |> <| cursor_y := u32 new_y |>).

Definition __local_save_cur (n : Z) : M cst unit :=
  t ← console n;
  modify (fun s => s <| saved_x := i32 (cursor_x t) |> <| saved_y := i32 (cursor_y t) |>).

Definition __local_restore_cur (n : Z) : M cst unit :=
  if bad_console n then mret tt else
  x ← gets saved_x;
  y ← gets saved_y;
  update_console n (fun t => t <| cursor_x := Z.land x 65535 |> <| cursor_y := Z.land y 65535 |>).

(** The screen is moved up and its last line cleared; the cursor goes to the
    beginning of the last line. *)
Definition console_scroll_rect (n direction : Z) : M cst Z :=
  g ← gets useGui;
  if negb (g =? TRUE) then panic "console_scroll_rect: no GUI" else
  if bad_console n then mret (-1) else
  show ScrollScreen;;
  t ← console n;
  w ← gets screen_width;
  h ← gets screen_height;
  show (DrawRectangle 0 (u64 (h - 8)) w 8 (bg_color t));;
  put_console n (t <| cursor_left := Z.land (cursor_left t) 65535 |> <| cursor_top := Z.land (cursor_top t) 65535 |>
    <| cursor_right := Z.land (cursor_right t) 65535 |> <| cursor_bottom := Z.land (cursor_bottom t) 65535 |>);;
  update_console n (fun t => t <| cursor_x := 0 |> <| cursor_y := u64 (cursor_bottom t - 1) |>);;
  show RefreshScreen;;
  mret 0.

Definition CONSOLE_SCROLL_DIRECTION_DOWN : Z := 1000.
Definition CONSOLE_SCROLL_DIRECTION_UP : Z := 2000.

Definition __local_insert_line (n : Z) : M cst unit :=
  if bad_console n then mret tt else
  t ← console n;
  let oldtop := i32 (cursor_top t) in
  let oldbottom := i32 (cursor_bottom t) in
  put_console n (t <| cursor_top := cursor_y t |>);;
  (if fullscreen_flag t =? TRUE then _ ← console_scroll_rect n 1; mret tt else mret tt);;
  update_console n (fun t => t <| cursor_top := u64 oldtop |> <| cursor_bottom := u64 oldbottom |>).

Definition __local_delete_line (n : Z) : M cst unit :=
  if bad_console n then mret tt else
  update_console n (fun t => t <| cursor_top := u64 (i32 (cursor_top t)) |> <| cursor_bottom := u64 (i32 (cursor_bottom t)) |>).

(** ** Characters *)

(** The character is drawn at the cursor. *)
Definition __ConsoleDraw_Outbyte (c n : Z) : M cst unit :=
  if bad_console n then mret tt else
  w ← gets char_width;
  h ← gets char_height;
  if (w =? 0) || (h =? 0) then panic "__ConsoleDraw_Outbyte: fail w h" else
  g ← gets useGui;
  if negb (g =? TRUE) then panic "__ConsoleDraw_Outbyte: kernel in text mode" else
  t ← console n;
  show (DrawChar (u64 (w * cursor_x t)) (u64 (h * cursor_y t)) c (fg_color t) (bg_color t)).

(** The scroll at the bottom of a console that has the whole screen. *)
Definition scroll_up (n : Z) : M cst unit :=
  t ← console n;
  if fullscreen_flag t =? TRUE then _ ← console_scroll_rect n CONSOLE_SCROLL_DIRECTION_UP; mret tt else mret tt.

Definition set_prev (n c : Z) : M cst unit := update_console n (fun t => t <| prev_char := i8 c |>).

(** A line feed, after a carriage return or not. *)
Definition line_feed (n : Z) : M cst unit :=
  t ← console n;
  if cursor_bottom t <=? cursor_y t then
    scroll_up n;;
    update_console n (fun t => t <| cursor_y := u64 (cursor_bottom t - 1) |>);;
    set_prev n 10
  else
    update_console n (fun t => t <| cursor_y := u64 (cursor_y t + 1) |>);;
    (if prev_char t =? 13 then update_console n (fun t => t <| cursor_x := cursor_left t |>) else
     terminal ← gets stdio_terminalmode_flag;
     verbose ← gets stdio_verbosemode_flag;
     if (terminal =? 1) || (verbose =? 1) then update_console n (fun t => t <| cursor_x := cursor_left t |>) else mret tt);;
    set_prev n 10.

(** The cursor of a character that is drawn: at the end of a line it goes to the
    next one, at the end of the screen the screen is scrolled.  The result tells
    whether the line goes on. *)
Definition advance (n : Z) : M cst bool :=
  t ← console n;
  (if u64 (cursor_right t - 1) <=? cursor_x t
   then put_console n (t <| cursor_y := u64 (cursor_y t + 1) |> <| cursor_x := cursor_left t |>)
   else mret tt);;
  mret (negb (u64 (cursor_right t - 1) <=? cursor_x t)).

Definition last_line (n : Z) : M cst unit :=
  t ← console n;
  if cursor_bottom t <=? cursor_y t then
    scroll_up n;;
    update_console n (fun t => t <| cursor_x := 0 |> <| cursor_y := u64 (cursor_bottom t - 1) |>)
  else mret tt.

Definition echo_char (c n : Z) : M cst unit :=
  t ← console n;
  if Z.land (c_lflag (termios t)) ECHO =? 0 then mret tt else __ConsoleDraw_Outbyte c n.

Definition step_right (n : Z) : M cst unit := update_console n (fun t => t <| cursor_x := u64 (cursor_x t + 1) |>).

(** The cursor moves, then the character is drawn. *)
Definition console_outbyte (c n : Z) : M cst unit :=
  w ← gets char_width;
  h ← gets char_height;
  if bad_console n then mret tt else
  if (w =? 0) || (h =? 0) then panic "console_outbyte: char size" else
  t ← console n;
  if negb (initialized t =? TRUE) then mret tt else
  if c <? 0 then mret tt else
  if c =? 12 then put_console n (t <| cursor_y := cursor_top t |> <| cursor_x := cursor_left t |>) else
  if c =? 10 then line_feed n else
  if c =? 13 then put_console n (t <| cursor_x := cursor_left t |> <| prev_char := i8 c |>) else
  if c =? 9 then put_console n (t <| cursor_x := u64 (cursor_x t + 8) |> <| prev_char := i8 c |>) else
  if c =? 32 then put_console n (t <| cursor_x := u64 (cursor_x t + 1) |> <| prev_char := i8 c |>) else
  if c =? 8 then
    put_console n ((if cursor_left t <? cursor_x t then t <| cursor_x := u64 (cursor_x t - 1) |> else t) <| prev_char := i8 c |>)
  else
  if cursor_right t <=? cursor_left t then panic "console_oubyte: l >= r" else
  if cursor_bottom t <=? cursor_top t then panic "console_oubyte: t >= b" else
  same_line ← advance n;
  (if same_line : bool then step_right n else mret tt);;
  last_line n;;
  echo_char c n;;
  set_prev n c.

(** The character is drawn and refreshed, then the cursor moves, unless the line
    has just ended. *)
Definition console_outbyte2 (c n : Z) : M cst unit :=
  w ← gets char_width;
  h ← gets char_height;
  if bad_console n then mret tt else
  if (w =? 0) || (h =? 0) then panic "console_outbyte2: char size" else
  t ← console n;
  if negb (initialized t =? TRUE) then mret tt else
  if c =? 12 then put_console n (t <| cursor_y := cursor_top t |> <| cursor_x := cursor_left t |>) else
  if c =? 10 then line_feed n else
  if c =? 9 then put_console n (t <| cursor_x := u64 (cursor_x t + 8) |> <| prev_char := i8 c |>) else
  if c =? 13 then put_console n (t <| cursor_x := cursor_left t |> <| prev_char := i8 c |>) else
  if c =? 32 then put_console n (t <| cursor_x := u64 (cursor_x t + 1) |> <| prev_char := i8 c |>) else
  if (c =? 8) && (0 <? cursor_x t) then
    put_console n (t <| prev_char := i8 c |> <| cursor_x := u64 (cursor_x t - 1) |>) else
  if (c =? 8) && (0 <? cursor_y t) then
    put_console n (t <| prev_char := i8 c |> <| cursor_y := u64 (cursor_y t - 1) |> <| cursor_x := u64 (cursor_right t - 1) |>)
  else
  (if c =? 8 then set_prev n c else mret tt);;
  if cursor_right t <=? cursor_left t then panic "console_outbyte2: l >= r" else
  if cursor_bottom t <=? cursor_top t then panic "console_outbyte2: t >= b" else
  Increment ← advance n;
  last_line n;;
  echo_char c n;;
  set_prev n c;;
  t ← console n;
  show (RefreshRectangle (u64 (cursor_x t * u64 w)) (u64 (cursor_y t * u64 h)) (u64 w) (u64 h));;
  if Increment : bool then step_right n else mret tt.

Definition console_echo (c n : Z) : M cst unit :=
  if bad_console n then mret tt else console_outbyte2 c n.

Definition console_putchar (c n : Z) : M cst unit :=
  w ← gets char_width;
  h ← gets char_height;
  if bad_console n then mret tt else
  let w := Z.land (u64 w) 65535 in
  let h := Z.land (u64 h) 65535 in
  if (w =? 0) || (h =? 0) then panic "console_putchar: char" else
  modify (fun s => s <| stdio_terminalmode_flag := TRUE |>);;
  console_outbyte c n;;
  t ← console n;
  show (RefreshRectangle (u64 (cursor_x t * w)) (u64 (cursor_y t * h)) w h);;
  modify (fun s => s <| stdio_terminalmode_flag := FALSE |>).

Definition console_print_indent (indent n : Z) : M cst unit :=
  let indent := if indent <? 0 then 0 else indent in
  if bad_console n then mret tt else
  for_each (range 0 indent) (fun _ => console_putchar 32 n).

(** [kinguio_puts], and [printk], that is [kinguio_printf]: the text is formatted
    into [static char data_buffer[1024]] without a bound, so a text that does not
    fit there with a terminator, like arguments that do not match the format, has
    no defined behaviour.  The serial port is not modelled. *)
Definition kinguio_puts (text : list Z) : M cst unit :=
  for_each text (fun c => n ← gets fg_console; console_outbyte2 (Z.land c 255) n).

Definition DATA_BUFFER_SIZE : Z := 1024.

Definition printk (fmt : list Z) (ap : list va) : M cst unit :=
  i ← gets is_console_log_initialized;
  if negb (i =? TRUE) then mret tt else
  match kinguio_vsprintf fmt ap with
  | None => undef
  | Some data_buffer =>
      if DATA_BUFFER_SIZE <=? zlen data_buffer then undef else
      serial ← gets printk_to_serial;
      if serial =? TRUE then mret tt else kinguio_puts data_buffer
  end.

Definition chars (s : string) : list Z := (fun c => Z.of_N (Ascii.N_of_ascii c)) <$> String.list_ascii_of_string s.
Definition line (s : string) : list Z := chars s ++ [10].

(** ** Escape sequences *)

(** A parameter as a number: the text is its low byte. *)
Definition parameter (i : Z) : M cst Z :=
  v ← getsome (fun s => zlookup (par s) i);
  let v := Z.land v 255 in
  mret (k_atoi (if v =? 0 then [] else [v])).

Definition clear_parameters : M cst unit :=
  for_each (range 0 NPAR) (fun i => modify (fun s => s <| par := zinsert (par s) i 0 |>));;
  modify (fun s => s <| npar := 0 |>).

(** [csi_P] and [csi_at]: spaces, at most up to the margin. *)
Definition csi_spaces (nr n : Z) : M cst unit :=
  if bad_console n then mret tt else
  t ← console n;
  let nr := if u64 (cursor_right t - 1) <? u64 nr then i32 (cursor_right t - 1) else if nr =? 0 then 1 else nr in
  if nr <? 0 then mret tt else for_each (range 0 nr) (fun _ => console_putchar 32 n).
Definition csi_P : Z -> Z -> M cst unit := csi_spaces.
Definition csi_at : Z -> Z -> M cst unit := csi_spaces.

Definition set_stage (k : Z) : M cst unit := modify (fun s => s <| escape_stage := k |>).

(** The letter at the end of a sequence. *)
Definition csi_final (ch n : Z) : M cst unit :=
  set_stage 0;;
  t ← console n;
  let x := cursor_x t in
  let y := cursor_y t in
  if (ch =? 71) || (ch =? 96) then a ← parameter 0; __local_gotoxy a (i32 y) n;; set_stage 4 else  (* G ` *)
  if ch =? 65 then a ← parameter 0; __local_gotoxy (i32 x) (i32 (y - a)) n;; set_stage 4 else      (* A *)
  if (ch =? 66) || (ch =? 101) then a ← parameter 0; __local_gotoxy (i32 x) (i32 (y + a)) n;; set_stage 4 else  (* B e *)
  if (ch =? 67) || (ch =? 97) then a ← parameter 0; __local_gotoxy (i32 (x + a)) (i32 y) n;; set_stage 4 else   (* C a *)
  if ch =? 68 then a ← parameter 0; __local_gotoxy (i32 (x - a)) (i32 y) n;; set_stage 4 else      (* D *)
  if ch =? 69 then a ← parameter 0; __local_gotoxy 0 (i32 (y + a)) n;; set_stage 4 else            (* E *)
  if ch =? 70 then a ← parameter 0; __local_gotoxy 0 (i32 (y - a)) n;; set_stage 4 else            (* F *)
  if ch =? 100 then a ← parameter 0; __local_gotoxy (i32 x) a n;; set_stage 4 else                 (* d *)
  if (ch =? 72) || (ch =? 102) then                                                                (* H f *)
    a ← parameter 0; b ← parameter 1; __local_gotoxy a b n;; set_stage 4 else
  if existsb (Z.eqb ch) [74; 75; 76; 77] then _ ← parameter 0; set_stage 4 else                    (* J K L M *)
  if ch =? 80 then a ← parameter 0; csi_P a n;; set_stage 4 else                                   (* P *)
  if ch =? 64 then a ← parameter 0; csi_at a n;; set_stage 4 else                                  (* @ *)
  if ch =? 109 then clear_parameters;; set_stage 0 else                                            (* m *)
  if ch =? 114 then _ ← parameter 0; _ ← parameter 1; set_stage 4 else                             (* r *)
  if ch =? 115 then __local_save_cur n;; set_stage 4 else                                          (* s *)
  if ch =? 117 then __local_restore_cur n;; set_stage 4 else mret tt.                              (* u *)

(** Stage 3: the parameters. *)
Definition csi_parameter (ch n : Z) : M cst unit :=
  k ← gets npar;
  if (ch =? 59) && (k <? NPAR - 1) then modify (fun s => s <| npar := u64 (k + 1) |>) else
  if (48 <=? ch) && (ch <=? 57) then modify (fun s => s <| par := zinsert (par s) k ch |>) else
  set_stage 4;; csi_final ch n.

(** Stage 0: outside of a sequence. *)
Definition plain (ch n : Z) (DoEcho : bool) : M cst unit :=
  if (32 <=? ch) && (ch <=? 256) && negb (ch =? 127) then
    if DoEcho && ((32 <=? ch) && (ch <=? 127)) then console_echo ch n else mret tt
  else if ch =? 27 then set_stage 1
  else if existsb (Z.eqb ch) [10; 13; 8; 9] then console_putchar ch n
  else mret tt.

(** Stage 1: after the escape character. *)
Definition escaped (respond : M cst unit) (ch n : Z) : M cst unit :=
  set_stage 0;;
  if ch =? 91 then set_stage 2 else
  if ch =? 69 then t ← console n; __local_gotoxy 0 (i32 (cursor_y t + 1)) n else
  if ch =? 68 then console_putchar ch n else
  if ch =? 90 then respond else mret tt.

(** One byte; [Some (-1)]: the call fails. *)
Definition console_byte (respond : M cst unit) (ch n : Z) (DoEcho : bool) : M cst (option Z) :=
  stage ← gets escape_stage;
  if stage =? 0 then plain ch n DoEcho;; mret None else
  if stage =? 1 then escaped respond ch n;; mret None else
  if stage =? 2 then
    clear_parameters;;
    set_stage 3;;
    modify (fun s => s <| ques := b2z (ch =? 63) |>);;
    (if ch =? 63 then mret tt else csi_parameter ch n);; mret None else
  if stage =? 3 then csi_parameter ch n;; mret None else
  if stage =? 4 then csi_final ch n;; mret None else
  printk (line "console_write: default") [];; show RefreshScreen;; mret (Some (-1)).

(** The answer ESC[?1;2c. *)
Definition RESPONSE : list Z := [27; 91; 63; 49; 59; 50; 99].

(** [console_write] from the check of the terminal; fuel: the answer to a request
    is itself written to the console.  The index of the loop is an int. *)
Fixpoint write_text (fuel : nat) (n : Z) (data : list Z) : M cst Z :=
  match fuel with
  | O => diverge
  | S fuel =>
      t ← console n;
      if negb (t_magic t =? 1234) then panic "console_write: tty validation" else
      set_stage 0;;
      let respond := for_each RESPONSE (fun c => _ ← write_text fuel n [c]; mret tt) in
      r ← for_return data (fun ch => console_byte respond ch n (negb (Z.land (c_lflag (termios t)) ECHO =? 0)));
      mret (default (zlen data) r)
  end.

(** The bytes come from the memory [m]. *)
Definition console_write (fuel : nat) (m : memory) (n buf count : Z) : M cst Z :=
  if bad_console n then show RefreshScreen;; mret (-1) else
  if buf =? NULL then printk (line "console_write: buf") [];; show RefreshScreen;; mret (-1) else
  if count =? 0 then printk (line "console_write: count") [];; show RefreshScreen;; mret (-1) else
  if 2 ^ 31 <=? count then undef else
  write_text fuel n (bytes_at m buf count).

Definition console_write_string (fuel : nat) (n : Z) (text : list Z) : M cst Z :=
  if bad_console n then mret 0 else
  match text with
  | [] => mret 0
  | _ => for_each text (fun c => _ ← write_text fuel n [c]; mret tt);; mret (zlen text)
  end.

(** Without escape sequences. *)
Definition __console_write (m : memory) (n buf count : Z) : M cst Z :=
  if (n <? 0) || (3 <? n) then printk (line "__console_write: n") [];; show RefreshScreen;; mret (-1) else
  if buf =? NULL then printk (line "__console_write: buf") [];; show RefreshScreen;; mret (-1) else
  if count =? 0 then printk (line "__console_write: count") [];; show RefreshScreen;; mret (-1) else
  for_each (bytes_at m buf count) (fun c => console_putchar (i8 c) n);;
  mret count.

Definition console_read (n buf count : Z) : M cst Z :=
  if bad_console n then printk (line "console_read: console_number") [];; mret (-1) else
  if buf =? NULL then printk (line "console_read: buf") [];; mret (-1) else
  if count =? 0 then printk (line "console_read: count") [];; mret (-1) else
  mret (-1).

(** ** Consoles: clearing, switching, requests *)

Definition console_clear_imp (bg fg n : Z) : M cst Z :=
  g ← gets useGui;
  if negb (g =? TRUE) then mret (-1) else
  if bad_console n then mret (-1) else
  update_console n (fun t => t <| bg_color := bg |> <| fg_color := fg |>);;
  __local_gotoxy 0 0 n;;
  displayInitializeBackground bg;;
  mret 0.

Definition console_clear00 (n : Z) : M cst Z :=
  if bad_console n then mret (-1) else
  t ← console n;
  _ ← console_clear_imp (bg_color t) (fg_color t) n;
  mret 0.

Definition console_clear : M cst Z :=
  n ← gets fg_console;
  if bad_console n then mret (-1) else console_clear00 n.

Definition console_set_current_virtual_console (n : Z) : M cst unit :=
  fg ← gets fg_console;
  if n =? fg then mret tt else
  if bad_console n then mret tt else
  modify (fun s => s <| fg_console := n |>).

Definition console_get_current_virtual_console : M cst Z := gets fg_console.

Definition get_cursor_x : M cst Z :=
  n ← gets fg_console; if bad_console n then mret 0 else t ← console n; mret (cursor_x t).
Definition get_cursor_y : M cst Z :=
  n ← gets fg_console; if bad_console n then mret 0 else t ← console n; mret (cursor_y t).
Definition get_bg_color : M cst Z :=
  n ← gets fg_console; if bad_console n then mret COLOR_WHITE else t ← console n; mret (bg_color t).
Definition get_fg_color : M cst Z :=
  n ← gets fg_console; if bad_console n then mret COLOR_BLACK else t ← console n; mret (fg_color t).

(** The banner; [clear]: the flag 0x1000 is not set. *)
Definition console_banner (product_string build_string : list Z) (clear : bool) : M cst unit :=
  i ← gets is_console_log_initialized;
  if negb (i =? TRUE) then mret tt else
  n ← gets fg_console;
  if bad_console n then mret tt else
  t ← console n;
  if negb (initialized t =? TRUE) then mret tt else
  (if clear then _ ← console_clear_imp (bg_color t) (fg_color t) n; set_up_cursor 0 0 else mret tt);;
  printk (line "%s %s") [VaStr (Some product_string); VaStr (Some build_string)].

(** [gramk_show_banner]: PRODUCT_NAME and BUILD_STRING. *)
Definition gramk_show_banner (clear_console : Z) : M cst unit :=
  console_banner (chars "Gramado OS") (chars "349") (clear_console =? TRUE).

Definition consolePrompt : M cst unit :=
  modify (fun s => s <| prompt := replicate (Z.to_nat PROMPT_MAX_DEFAULT) 0 |> <| prompt_pos := 0 |>);;
  printk [10] [];;
  printk (chars "$ ") [];;
  show RefreshScreen.

Definition jobcontrol_switch_console (n : Z) : M cst unit :=
  if bad_console n then mret tt else
  console_set_current_virtual_console n;;
  t ← console n;
  _ ← console_clear_imp (bg_color t) (fg_color t) n;
  gramk_show_banner TRUE;;
  consolePrompt.

(** A request that reads a field of the foreground console. *)
Definition ioctl_field (request : Z) (t : tty_d) : option Z :=
  if request =? 500 then Some (initialized t) else
  if request =? 501 then Some (is_blocked t) else
  if request =? 502 then Some (-1) else
  if request =? 503 then Some (operation_mode t) else
  if request =? 504 then Some (t_type t) else
  if request =? 505 then Some (t_subtype t) else
  if request =? 506 then Some (virtual_terminal_pid t) else
  if request =? 507 then Some (fullscreen_flag t) else
  if request =? 508 then Some (charset_id t) else
  if request =? 509 then Some (charset_lang_id t) else
  if request =? 510 then Some (i32 (cursor_left t)) else
  if request =? 511 then Some (i32 (cursor_top t)) else
  if request =? 512 then Some (i32 (cursor_right t)) else
  if request =? 513 then Some (i32 (cursor_bottom t)) else
  if request =? 514 then Some (i32 (cursor_width_in_pixels t)) else
  if request =? 515 then Some (i32 (cursor_height_in_pixels t)) else None.

(** A request that ends in a [break] returns -1. *)
Definition console_ioctl (fd request arg : Z) : M cst Z :=
  if bad_fd fd then mret (- EBADF) else
  if negb (fd =? 1) then panic "console_ioctl: fd != 1" else
  n ← gets fg_console;
  if bad_console n then panic "console_ioctl: fg_console" else
  t ← console n;
  if request =? TCIFLUSH then printk (line "console_ioctl: TCIFLUSH") [];; show RefreshScreen;; mret (-1) else
  if request =? TCOFLUSH then printk (line "console_ioctl: TCOFLUSH") [];; show RefreshScreen;; mret (-1) else
  if request =? TCIOFLUSH then printk (line "console_ioctl: TCIOFLUSH") [];; show RefreshScreen;; mret (-1) else
  if (request =? 400) || (request =? 402) || (request =? 1000) then mret 0 else
  if request =? 401 then c ← get_fg_color; mret (i32 c) else
  if request =? 403 then c ← get_bg_color; mret (i32 c) else
  if request =? 440 then _ ← console_clear_imp (bg_color t) (fg_color t) n; mret 0 else
  match ioctl_field request t with
  | Some v => mret v
  | None =>
      if request =? 998 then _ ← console_scroll_rect n CONSOLE_SCROLL_DIRECTION_DOWN; mret 0 else
      if request =? 999 then _ ← console_scroll_rect n CONSOLE_SCROLL_DIRECTION_UP; mret 0 else
      if request =? 1001 then __local_gotoxy (i32 arg) (i32 (cursor_y t)) n;; mret 0 else
      if request =? 1002 then __local_gotoxy (i32 (cursor_x t)) (i32 arg) n;; mret 0 else
      if request =? 1003 then
        if arg <? CONSOLETTYS_COUNT_MAX then modify (fun s => s <| fg_console := arg |>);; mret 0 else mret (- EINVAL)
      else
      if request =? 1008 then __local_gotoxy (i32 arg) 0 n;; mret (-1) else
      if request =? 1009 then __local_gotoxy (i32 arg) (i32 (cursor_bottom t - 1)) n;; mret (-1) else
      if request =? 1010 then (if arg <? 70 then console_print_indent arg n else mret tt);; mret (-1) else
      if request =? 1011 then x ← get_cursor_x; mret (i32 x) else
      if request =? 1012 then y ← get_cursor_y; mret (i32 y) else
      if request =? TIOCCONS then printk (line "console_ioctl: TIOCCONS #todo") [];; mret 0 else
      mret (- EINVAL)
  end.

(** ** Initialization *)

(** The fields that [DDINIT_console] sets. *)
Definition console_init (bg fg width height : Z) (t : tty_d) : tty_d :=
  t <| initialized := TRUE |> <| t_used := TRUE |> <| t_magic := 1234 |> <| owner_tid := -1 |>
    <| t_type := 0 |> <| t_subtype := 0 |> <| t_flags := 0 |> <| is_blocked := FALSE |>
    <| virtual_terminal_pid := 0 |> <| nobuffers := TRUE |> <| raw_queue := empty_queue |>
    <| cursor_width_in_pixels := 8 |> <| cursor_height_in_pixels := 8 |> <| cursor_x := 0 |> <| cursor_y := 0 |>
    <| fullscreen_flag := TRUE |> <| cursor_left := 0 |> <| cursor_top := 0 |>
    <| cursor_right := width / 8 |> <| cursor_bottom := height / 8 |> <| bg_color := bg |> <| fg_color := fg |>
    <| termios := (termios t) <| c_lflag := ECHO |> |> <| operation_mode := TTY_OPERATION_MODE_USING_FILE |>
    <| queue_operation_mode := TTYQUEUE_OPERATION_MODE_CHAR |> <| charset_id := 0 |> <| charset_lang_id := 0 |>
    <| link := NULL |> <| is_linked := FALSE |>.

Definition DDINIT_console (n bg fg : Z) : M cst unit :=
  w ← gets screen_width;
  h ← gets screen_height;
  if bad_console n then panic "DDINIT_console: [FAIL] ConsoleIndex" else
  update_console n (console_init bg fg w h).

Definition console_colors : list (Z * Z * Z) :=
  [(0, COLOR_BLUE, COLOR_WHITE); (1, COLOR_BLUE, COLOR_YELLOW); (2, COLOR_ORANGE, COLOR_WHITE); (3, COLOR_RED, COLOR_YELLOW)].

Definition VirtualConsole_early_initialization : M cst Z :=
  modify (fun s => s <| fg_console := 0 |> <| con_redirect := NULL |> <| ShellFlag := FALSE |> <| escape_stage := 0 |>);;
  for_each (range 0 NPAR) (fun i => modify (fun s => s <| par := zinsert (par s) i 0 |>));;
  for_each console_colors (fun '(n, bg, fg) => DDINIT_console n bg fg);;
  jobcontrol_switch_console 0;;
  set_up_cursor 0 0;;
  modify (fun s => s <| stdio_terminalmode_flag := TRUE |> <| stdio_verbosemode_flag := TRUE |>);;
  mret 0.

(** The state before the initialization: the program is loaded with zeroes, and
    the video and the font are known. *)
Definition blank_consoles (cw ch w h log : Z) : cst :=
  mk_cst (replicate 4 zero_tty) 0 0 0 0 (replicate 16 0) 0 0 FALSE NULL cw ch TRUE w h FALSE FALSE log FALSE
    (replicate (Z.to_nat PROMPT_MAX_DEFAULT) 0) 0 [].

(** ** Scripts

    What the rest of the kernel asks of the consoles: a write of a program to the
    console [n], a character, a [printk], a request on a file, a switch, a
    clearing. *)
Inductive command :=
  | Write (m : memory) (n buf count : Z)
  | WriteString (n : Z) (text : list Z)
  | Putchar (c n : Z)
  | Printk (fmt : list Z) (ap : list va)
  | Ioctl (fd request arg : Z)
  | Switch (n : Z)
  | Clear.

Definition console_command (c : command) : M cst unit :=
  match c with
  | Write m n buf count => _ ← console_write 2 m n buf count; mret tt
  | WriteString n text => _ ← console_write_string 2 n text; mret tt
  | Putchar c n => console_putchar c n
  | Printk fmt ap => printk fmt ap
  | Ioctl fd request arg => _ ← console_ioctl fd request arg; mret tt
  | Switch n => jobcontrol_switch_console n
  | Clear => _ ← console_clear; mret tt
  end.

(** The arguments are unsigned; a count is below 2^31; the text of a [printk] is
    well formed and fits into the buffer of [kinguio_printf] with its terminator;
    a request is made on the file 1, or on a descriptor out of range. *)
Definition command_ok (c : command) : Prop :=
  match c with
  | Write _ _ _ count => count < 2 ^ 31
  | Printk fmt ap =>
      match kinguio_vsprintf fmt ap with Some text => zlen text < DATA_BUFFER_SIZE | None => False end
  | Ioctl fd _ arg => 0 <= arg /\ (fd = 1 \/ bad_fd fd = true)
  | _ => True
  end.

(** The characters on the display, in the order in which they were drawn. *)
Definition drawn (s : cst) : list (Z * Z * Z) :=
  omap (fun d => match d with DrawChar x y c _ _ => Some (x, y, c) | _ => None end) (reverse (display s)).

(** What a text that a program writes to console 0 draws, on a screen whose
    characters are 8 pixels wide and high, after a clearing; without a banner. *)
Definition shown (w h : Z) (text : list Z) : option (list (Z * Z * Z)) :=
  match (VirtualConsole_early_initialization;; console_command (WriteString 0 text)) (blank_consoles 8 8 w h FALSE) with
  | Done _ s => Some (drawn s)
  | _ => None
  end.

(** The same in one call. *)
Definition shown_at_once (w h : Z) (text : list Z) : option (list (Z * Z * Z)) :=
  match (VirtualConsole_early_initialization;; _ ← write_text 2 0 text; mret tt) (blank_consoles 8 8 w h FALSE) with
  | Done _ s => Some (drawn s)
  | _ => None
  end.

(** ** A logic for one console

    [W] columns, [H] lines and characters of [cw] by [ch] pixels, on a screen that
    is [ph] pixels high.  A triple says
    what a routine makes of the structure of one console; the others and the state
    of the escape sequences keep their invariant, no character is drawn outside of
    the screen, and the routine returns. *)
Section Screen.

Context (W H cw ch ph : Z).
Context (HW : 1 < W < 2 ^ 16) (HH : 1 < H < 2 ^ 16) (Hcw : 0 < cw < 2 ^ 16) (Hch : 0 < ch < 2 ^ 16) (Hph : 8 <= ph < 2 ^ 19).

(** The limits of a console with the whole screen. *)
Record limits (t : tty_d) : Prop := {
  li_left : cursor_left t = 0;
  li_top : cursor_top t = 0;
  li_right : cursor_right t = W;
  li_bottom : cursor_bottom t = H;
  li_magic : t_magic t = 1234
}.

(** The cursor may be right of the margin, and on the line after the last one. *)
Definition cursor_ok (t : tty_d) : Prop := 0 <= cursor_x t < 2 ^ 64 /\ 0 <= cursor_y t <= H.

(** A call on the display that stays in the screen. *)
Definition on_screen (d : draw) : Prop :=
  match d with
  | DrawChar x y _ _ _ => 0 <= x /\ x + cw <= cw * W /\ 0 <= y /\ y + ch <= ch * H
  | DrawRectangle _ y _ h _ => 0 <= y /\ 0 < h /\ y + h <= ph
  | _ => True
  end.

(** What every routine keeps, besides the consoles. *)
Record base_ok (s : cst) : Prop := {
  bo_gui : useGui s = TRUE;
  bo_cw : char_width s = cw;
  bo_ch : char_height s = ch;
  bo_ph : screen_height s = ph;
  bo_par : zlen (par s) = NPAR;
  bo_npar : 0 <= npar s < NPAR;
  bo_stage : 0 <= escape_stage s <= 4;
  bo_fg : bad_console (fg_console s) = false;
  bo_saved : 0 <= saved_y s <= H;
  bo_display : Forall on_screen (display s)
}.

(** The state, with a property of the console [n]. *)
Record holds (n : Z) (P : tty_d -> Prop) (s : cst) : Prop := {
  ho_base : base_ok s;
  ho_size : zlen (CONSOLE_TTYS s) = 4;
  ho_others : forall m t, m <> n -> zlookup (CONSOLE_TTYS s) m = Some t -> limits t /\ cursor_ok t;
  ho_this : exists t, zlookup (CONSOLE_TTYS s) n = Some t /\ limits t /\ P t
}.

Definition triple (n : Z) {A} (P : tty_d -> Prop) (m : M cst A) (Q : A -> tty_d -> Prop) : Prop :=
  forall s, holds n P s -> wp m s (fun a => holds n (Q a)).

Section Console.

Context (n : Z) (Hn : bad_console n = false).

Lemma console_index : 0 <= n < 4.
Proof. unfold bad_console, CONSOLETTYS_COUNT_MAX in Hn. apply orb_false_iff in Hn as [?%Z.ltb_ge ?%Z.leb_gt]. lia. Qed.

Lemma holds_mono P Q s : holds n P s -> (forall t, P t -> Q t) -> holds n Q s.
Proof. intros [Hb Hs Ho (t & Ht & Hl & Hp)] HQ. split; [done|done|done|]. exists t. auto. Qed.

Lemma triple_ret {A} (a : A) P (Q : A -> tty_d -> Prop) : (forall t, P t -> Q a t) -> triple n P (mret a) Q.
Proof. intros HQ s Hs. apply wp_ret. by eapply holds_mono. Qed.

Lemma triple_bind {A B} (m : M cst A) (k : A -> M cst B) P R Q :
  triple n P m R -> (forall a, triple n (R a) (k a) Q) -> triple n P (m ≫= k) Q.
Proof. intros Hm Hk s Hs. apply wp_bind. eapply wp_mono; [by apply Hm|]. intros a s' Hs'. by apply Hk. Qed.

Lemma triple_mono {A} (m : M cst A) P P' (Q Q' : A -> tty_d -> Prop) :
  triple n P' m Q' -> (forall t, P t -> P' t) -> (forall a t, Q' a t -> Q a t) -> triple n P m Q.
Proof.
  intros Hm HP HQ s Hs. eapply wp_mono; [apply Hm; by eapply holds_mono|].
  intros a s' Hs'. eapply holds_mono; [exact Hs'|auto].
Qed.

(** A read of the state, with what the invariant says of it. *)
Lemma triple_gets {A B} (f : cst -> A) (k : A -> M cst B) P (R : A -> Prop) Q :
  (forall s, base_ok s -> R (f s)) -> (forall a, R a -> triple n P (k a) Q) -> triple n P (gets f ≫= k) Q.
Proof. intros HR Hk s Hs. apply wp_bind, wp_gets, Hk; [apply HR, Hs|done]. Qed.

Lemma triple_console {B} (k : tty_d -> M cst B) P Q :
  (forall t, limits t -> P t -> triple n (eq t) (k t) Q) -> triple n P (console n ≫= k) Q.
Proof.
  intros Hk s [Hb Hs Ho (t & Ht & Hl & Hp)]. apply wp_bind, (wp_getsome _ _ t); [done|].
  apply Hk; [done|done|]. split; [done|done|done|]. by exists t.
Qed.

Lemma triple_put P x : limits x -> triple n P (put_console n x) (fun _ => eq x).
Proof.
  intros Hx s [Hb Hs Ho (t & Ht & Hl & Hp)]. pose proof console_index as Hi. apply wp_modify.
  split; cbn -[zlookup zinsert].
  - by destruct Hb.
  - unfold zlen in *. by rewrite length_zinsert.
  - intros m u Hm. rewrite zlookup_insert_ne by lia. by apply Ho.
  - exists x. rewrite zlookup_insert_eq by (unfold zlen in Hs; lia). done.
Qed.

Lemma triple_update P g (Q : unit -> tty_d -> Prop) :
  (forall t, limits t -> P t -> limits (g t) /\ Q tt (g t)) -> triple n P (update_console n g) Q.
Proof.
  intros Hg. unfold update_console. apply triple_console. intros t Hl Hp. destruct (Hg t Hl Hp) as [H1 H2].
  eapply triple_mono; [by apply triple_put|done|]. by intros [] ? <-.
Qed.

(** A step that touches neither the consoles nor what the invariant says. *)
Lemma triple_modify P (g : cst -> cst) :
  (forall s, base_ok s -> base_ok (g s) /\ CONSOLE_TTYS (g s) = CONSOLE_TTYS s) ->
  triple n P (modify g) (fun _ => P).
Proof.
  intros Hg s [Hb Hs Ho Ht]. apply wp_modify. destruct (Hg s Hb) as [Hb' Hc].
  split; [done|by rewrite Hc|by rewrite Hc|by rewrite Hc].
Qed.

Lemma triple_show P d : on_screen d -> triple n P (show d) (fun _ => P).
Proof. intros Hd. apply triple_modify. intros s []. by split; [split; cbn; try done; constructor|]. Qed.

Lemma triple_if {A} (b : bool) (m1 m2 : M cst A) P Q :
  (b = true -> triple n P m1 Q) -> (b = false -> triple n P m2 Q) -> triple n P (if b then m1 else m2) Q.
Proof. destruct b; auto. Qed.

End Console.

Section Routines.

Context (n : Z) (Hn : bad_console n = false).

#[local] Abbreviation keeps_cursor m := (triple n cursor_ok m (fun _ => cursor_ok)).

Lemma triple_for_each {A} (l : list A) body P :
  (forall x, triple n P (body x) (fun _ => P)) -> triple n P (for_each l body) (fun _ => P).
Proof.
  intros Hb. induction l as [|x l IH]; cbn [for_each]; [by apply triple_ret|].
  eapply triple_bind; [apply Hb|done].
Qed.

Lemma triple_for_return {A R} (l : list A) (body : A -> M cst (option R)) P :
  (forall x, triple n P (body x) (fun _ => P)) -> triple n P (for_return l body) (fun _ => P).
Proof.
  intros Hb. induction l as [|x l IH]; cbn [for_return]; [by apply triple_ret|].
  eapply triple_bind; [apply Hb|]. intros [r|]; [by apply triple_ret|done].
Qed.

(** The fields of the state that the routines read. *)
Lemma gets_gui {B} (k : Z -> M cst B) P Q : triple n P (k TRUE) Q -> triple n P (gets useGui ≫= k) Q.
Proof. intros Hk. apply (triple_gets n _ _ P (fun a => a = TRUE)); [by intros ? []|]. by intros ? ->. Qed.
Lemma gets_cw {B} (k : Z -> M cst B) P Q : triple n P (k cw) Q -> triple n P (gets char_width ≫= k) Q.
Proof. intros Hk. apply (triple_gets n _ _ P (fun a => a = cw)); [by intros ? []|]. by intros ? ->. Qed.
Lemma gets_ch {B} (k : Z -> M cst B) P Q : triple n P (k ch) Q -> triple n P (gets char_height ≫= k) Q.
Proof. intros Hk. apply (triple_gets n _ _ P (fun a => a = ch)); [by intros ? []|]. by intros ? ->. Qed.
Lemma gets_any {A B} (f : cst -> A) (k : A -> M cst B) P Q :
  (forall a, triple n P (k a) Q) -> triple n P (gets f ≫= k) Q.
Proof. intros Hk. by apply (triple_gets n _ _ P (fun _ => True)). Qed.

Lemma gotoxy_ok x y : keeps_cursor (__local_gotoxy x y n).
Proof.
  unfold __local_gotoxy. rewrite Hn. apply triple_console. intros t Hl Hc.
  apply triple_if; intros Hx; [by apply triple_ret; intros ? <-|].
  apply triple_if; intros Hy; [by apply triple_ret; intros ? <-|].
  rewrite (li_right _ Hl) in Hx. rewrite (li_bottom _ Hl) in Hy. apply Z.ltb_ge in Hx, Hy.
  eapply triple_mono; [by apply triple_put; [|destruct Hl]|done|]. intros _ ? <-. unfold cursor_ok. cbn.
  unfold u64, u32 in *. pose proof (Z.mod_pos_bound x (2 ^ 32) ltac:(lia)).
  assert (E : y mod 2 ^ 32 = (y mod 2 ^ 64) mod 2 ^ 32) by (symmetry; apply Z.mod_mod_divide; by exists (2 ^ 32)).
  rewrite E. pose proof (Z.mod_pos_bound y (2 ^ 64) ltac:(lia)). rewrite (Z.mod_small (y mod 2 ^ 64)) by lia. lia.
Qed.

Definition last_row (t : tty_d) : Prop := cursor_x t = 0 /\ cursor_y t = H - 1.

Lemma scroll_ok d : triple n (fun _ => True) (console_scroll_rect n d) (fun _ => last_row).
Proof.
  unfold console_scroll_rect. apply gets_gui. change (negb (TRUE =? TRUE)) with false. cbn match. rewrite Hn.
  eapply triple_bind; [by apply triple_show|]. intros ?. apply triple_console. intros t Hl ?.
  apply gets_any. intros ?. apply (triple_gets n _ _ _ (fun h => h = ph)); [by intros ? []|]. intros ? ->.
  eapply triple_bind; [apply triple_show; cbn; rewrite u64_id; lia|]. intros ?.
  eapply triple_bind; [apply triple_put; [done|]|].
  { destruct Hl as [? ? E1 E2 ?]. split; cbn; rewrite ?land_16 by lia; done || lia. }
  intros ?. eapply triple_bind; [apply (triple_update n Hn _ _ (fun _ => last_row))|].
  { intros u Hu _. split; [by destruct Hu|]. split; [done|]. cbn. rewrite (li_bottom _ Hu). apply u64_id. lia. }
  intros ?. eapply triple_bind; [by apply triple_show|]. intros ?. by apply triple_ret.
Qed.

Lemma last_row_ok t : last_row t -> cursor_ok t.
Proof. intros [Ex Ey]. unfold cursor_ok. rewrite Ex, Ey. lia. Qed.

(** A scroll, when the console has the whole screen. *)
Lemma scroll_up_ok (P : tty_d -> Prop) :
  (forall t, last_row t -> P t) -> triple n P (scroll_up n) (fun _ => P).
Proof.
  intros HP. unfold scroll_up. apply triple_console. intros t Hl Hp. apply triple_if; intros _.
  - eapply triple_bind; [eapply triple_mono; [apply scroll_ok|done|]|]; [intros a u; exact id|].
    intros ?. by apply triple_ret.
  - apply triple_ret. by intros ? <-.
Qed.

Lemma set_prev_ok P c : (forall t v, P t -> P (t <| prev_char := v |>)) -> triple n P (set_prev n c) (fun _ => P).
Proof. intros HP. apply triple_update; [done|]. intros t Hl Hp. split; [by destruct Hl|by apply HP]. Qed.

Lemma line_feed_ok : keeps_cursor (line_feed n).
Proof.
  unfold line_feed. apply triple_console. intros t Hl Hc. destruct Hc as [Hx Hy].
  apply triple_if; intros Hb; rewrite (li_bottom _ Hl) in Hb.
  - eapply triple_bind; [apply (triple_mono n _ _ cursor_ok (fun _ => cursor_ok) (fun _ => cursor_ok)); [|by intros ? <-|done]|].
    { apply scroll_up_ok, last_row_ok. }
    intros ?. eapply triple_bind; [|intros ?; by apply set_prev_ok].
    apply triple_update; [done|]. intros u Hu [? ?]. split; [by destruct Hu|]. split; [done|]. cbn.
    rewrite (li_bottom _ Hu), u64_id; lia.
  - apply Z.leb_gt in Hb. eapply triple_bind.
    { apply (triple_update n Hn _ _ (fun _ => cursor_ok)). intros u Hu <-. split; [by destruct Hu|].
      split; [done|]. cbn. rewrite u64_id; lia. }
    intros ?. eapply triple_bind; [|intros ?; by apply set_prev_ok].
    assert (Hgo : keeps_cursor (update_console n (fun t => t <| cursor_x := cursor_left t |>))).
    { apply triple_update; [done|]. intros u Hu [? ?]. split; [by destruct Hu|]. split; [|done]. cbn. rewrite (li_left _ Hu). lia. }
    apply triple_if; intros _; [done|]. do 2 (apply gets_any; intros ?).
    apply triple_if; intros _; [done|by apply triple_ret].
Qed.

Lemma put_ok P x (Q : tty_d -> Prop) : limits x -> Q x -> triple n P (put_console n x) (fun _ => Q).
Proof. intros Hl Hq. eapply triple_mono; [by apply triple_put|done|]. by intros _ ? <-. Qed.

Lemma pre_eq {A} (m : M cst A) P t Q : triple n P m Q -> P t -> triple n (eq t) m Q.
Proof. intros Hm Hp. eapply triple_mono; [exact Hm| |done]. by intros ? <-. Qed.


(** After [advance]: the line goes on, or the cursor is at its beginning; the line
    may be the one after the last line, or the next one. *)
Definition in_line (b : bool) (t : tty_d) : Prop :=
  (if b then 0 <= cursor_x t < W - 1 else cursor_x t = 0) /\ 0 <= cursor_y t <= H + 1.

Lemma advance_ok : triple n cursor_ok (advance n) in_line.
Proof.
  unfold advance. apply triple_console. intros t Hl [Hx Hy]. rewrite (li_right _ Hl), u64_id by lia.
  destruct (Z.leb_spec (W - 1) (cursor_x t)).
  - eapply triple_bind; [apply (put_ok _ _ (in_line false)); [by destruct Hl|]|intros ?; by apply triple_ret].
    unfold in_line. cbn. rewrite (li_left _ Hl), u64_id; lia.
  - eapply triple_bind; [by apply (triple_ret n tt _ (fun _ => eq t))|]. intros ?. apply triple_ret. intros ? <-.
    unfold in_line. cbn. lia.
Qed.

(** Where a character can be drawn. *)
Definition drawable (t : tty_d) : Prop := 0 <= cursor_x t < W /\ 0 <= cursor_y t < H.

Lemma drawable_ok t : drawable t -> cursor_ok t.
Proof. unfold drawable, cursor_ok. lia. Qed.

Definition to_right (t : tty_d) : Prop := 0 <= cursor_x t < W /\ 0 <= cursor_y t <= H + 1.

Lemma last_line_ok P : (forall t, P t -> to_right t) -> triple n P (last_line n) (fun _ => drawable).
Proof.
  intros HP. unfold last_line. apply triple_console. intros t Hl Hp. apply triple_if; intros Hb; rewrite (li_bottom _ Hl) in Hb.
  - eapply triple_bind; [by apply (pre_eq _ (fun _ => True)); [apply scroll_up_ok|]|]. intros ?.
    apply triple_update; [done|]. intros u Hu _. split; [by destruct Hu|]. split; cbn; [lia|].
    rewrite (li_bottom _ Hu), u64_id; lia.
  - apply triple_ret. intros ? <-. apply Z.leb_gt in Hb. destruct (HP t Hp). by split; [|lia].
Qed.

Lemma outbyte_draw_ok P c : (forall t, P t -> drawable t) -> triple n P (__ConsoleDraw_Outbyte c n) (fun _ => P).
Proof.
  intros HP. unfold __ConsoleDraw_Outbyte. rewrite Hn. apply gets_cw, gets_ch.
  rewrite (proj2 (orb_false_iff _ _)) by (split; apply Z.eqb_neq; lia).
  apply gets_gui. change (negb (TRUE =? TRUE)) with false. cbn match. apply triple_console. intros t Hl Hp.
  apply (pre_eq _ P); [apply triple_show|done]. destruct (HP t Hp) as [[] []]. cbn. rewrite !u64_id by nia. nia.
Qed.

Lemma echo_char_ok c : triple n drawable (echo_char c n) (fun _ => drawable).
Proof.
  unfold echo_char. apply triple_console. intros t Hl Hp. apply (pre_eq _ drawable); [|done].
  apply triple_if; intros _; [by apply triple_ret|by apply outbyte_draw_ok].
Qed.

Lemma step_right_ok (P Q : tty_d -> Prop) :
  (forall t, P t -> Q (t <| cursor_x := u64 (cursor_x t + 1) |>)) -> triple n P (step_right n) (fun _ => Q).
Proof. intros HPQ. apply triple_update; [done|]. intros t Hl Hp. split; [by destruct Hl|by apply HPQ]. Qed.

(** The positions of a put that only moves the cursor. *)
Ltac to_cursor := apply put_ok; [by lazymatch goal with H : limits ?t |- _ => destruct H end|unfold cursor_ok; cbn].

Lemma margins {A} (t : tty_d) (m : M cst A) e1 e2 P Q :
  limits t -> triple n P m Q ->
  triple n P (if cursor_right t <=? cursor_left t then panic e1 else
              if cursor_bottom t <=? cursor_top t then panic e2 else m) Q.
Proof.
  intros [E1 E2 E3 E4 _] Hm. rewrite E1, E2, E3, E4.
  by rewrite (proj2 (Z.leb_gt W 0)), (proj2 (Z.leb_gt H 0)) by lia.
Qed.

Lemma char_size {A} (m : M cst A) e P Q : triple n P m Q -> triple n P (if (cw =? 0) || (ch =? 0) then panic e else m) Q.
Proof. intros. by rewrite (proj2 (orb_false_iff _ _)) by (split; apply Z.eqb_neq; lia). Qed.

Lemma console_outbyte_ok c : keeps_cursor (console_outbyte c n).
Proof.
  unfold console_outbyte. apply gets_cw, gets_ch. rewrite Hn. apply char_size, triple_console. intros t Hl Hp.
  assert (Hk : forall m : M cst unit, keeps_cursor m -> triple n (eq t) m (fun _ => cursor_ok)) by (intros m Hm; by apply (pre_eq _ cursor_ok)).
  pose proof Hp as [Hx Hy].
  apply triple_if; intros _; [by apply triple_ret; intros ? <-|].
  apply triple_if; intros _; [by apply triple_ret; intros ? <-|].
  apply triple_if; intros _; [to_cursor; rewrite (li_left _ Hl), (li_top _ Hl); lia|].
  apply triple_if; intros _; [apply Hk, line_feed_ok|].
  apply triple_if; intros _; [to_cursor; rewrite (li_left _ Hl); lia|].
  apply triple_if; intros _; [to_cursor; by split; [apply u64_range|]|].
  apply triple_if; intros _; [to_cursor; by split; [apply u64_range|]|].
  apply triple_if; intros _; [destruct (_ <? _); to_cursor; by split; [apply u64_range || done|]|].
  apply margins; [done|]. apply Hk. eapply triple_bind; [apply advance_ok|]. intros same.
  eapply triple_bind; [apply (triple_mono n _ _ (in_line same) (fun _ => to_right) (fun _ => to_right)); [|done|done]|].
  { destruct same; [apply step_right_ok|apply triple_ret]; unfold in_line, to_right; intros u Hu; cbn; rewrite ?u64_id; lia. }
  intros ?. eapply triple_bind; [by apply last_line_ok|]. intros ?. eapply triple_bind; [by apply echo_char_ok|]. intros ?.
  apply (triple_mono n _ _ cursor_ok _ (fun _ => cursor_ok)); [by apply set_prev_ok|apply drawable_ok|done].
Qed.

Lemma console_outbyte2_ok c : keeps_cursor (console_outbyte2 c n).
Proof.
  unfold console_outbyte2. apply gets_cw, gets_ch. rewrite Hn. apply char_size, triple_console. intros t Hl Hp.
  assert (Hk : forall m : M cst unit, keeps_cursor m -> triple n (eq t) m (fun _ => cursor_ok)) by (intros m Hm; by apply (pre_eq _ cursor_ok)).
  pose proof Hp as [Hx Hy].
  apply triple_if; intros _; [by apply triple_ret; intros ? <-|].
  apply triple_if; intros _; [to_cursor; rewrite (li_left _ Hl), (li_top _ Hl); lia|].
  apply triple_if; intros _; [apply Hk, line_feed_ok|].
  apply triple_if; intros _; [to_cursor; by split; [apply u64_range|]|].
  apply triple_if; intros _; [to_cursor; rewrite (li_left _ Hl); lia|].
  apply triple_if; intros _; [to_cursor; by split; [apply u64_range|]|].
  apply triple_if; intros _; [to_cursor; by split; [apply u64_range|]|].
  apply triple_if; intros Hb.
  { apply andb_true_iff in Hb as [_ Hb%Z.ltb_lt]. to_cursor. rewrite (li_right _ Hl), !u64_id; lia. }
  apply Hk. eapply triple_bind; [apply (triple_if n _ _ _ _ (fun _ => cursor_ok)); intros _; [by apply set_prev_ok|by apply triple_ret]|].
  intros ?. apply margins; [done|]. eapply triple_bind; [apply advance_ok|]. intros same.
  eapply triple_bind; [apply last_line_ok; by destruct same; unfold in_line, to_right; intros; lia|]. intros ?.
  eapply triple_bind; [apply echo_char_ok|]. intros ?. eapply triple_bind; [by apply set_prev_ok|]. intros ?.
  apply triple_console. intros u Hu Hd. eapply triple_bind; [by apply triple_show|]. intros ?. apply (pre_eq _ drawable); [|done].
  apply triple_if; intros _; [apply step_right_ok|apply triple_ret; apply drawable_ok].
  intros v [? ?]. split; cbn; [apply u64_range|lia].
Qed.

Lemma modify_ok P (g : cst -> cst) :
  (forall s, base_ok s -> base_ok (g s) /\ CONSOLE_TTYS (g s) = CONSOLE_TTYS s) ->
  triple n P (modify g) (fun _ => P).
Proof. apply triple_modify. Qed.

Ltac keep_base := apply modify_ok; intros ? []; by split; [split|].

Lemma console_putchar_ok c : keeps_cursor (console_putchar c n).
Proof.
  unfold console_putchar. apply gets_cw, gets_ch. rewrite Hn, !u64_id, !land_16 by lia. apply char_size.
  eapply triple_bind; [keep_base|]. intros ?. eapply triple_bind; [apply console_outbyte_ok|]. intros ?.
  apply triple_console. intros t Hl Hp. apply (pre_eq _ cursor_ok); [|done].
  eapply triple_bind; [by apply triple_show|]. intros ?. keep_base.
Qed.

Lemma set_stage_ok P k : 0 <= k <= 4 -> triple n P (set_stage k) (fun _ => P).
Proof. intros Hk. keep_base. Qed.

Lemma par_insert_ok P k c : triple n P (modify (fun s => s <| par := zinsert (par s) k c |>)) (fun _ => P).
Proof. apply modify_ok. intros s []. split; [|done]. split; cbn; try done. unfold zlen in *. by rewrite length_zinsert. Qed.

Lemma clear_parameters_ok P : triple n P clear_parameters (fun _ => P).
Proof.
  unfold clear_parameters. eapply triple_bind; [apply triple_for_each; intros i; apply par_insert_ok|].
  intros ?. apply modify_ok. intros s []. by split; [split|].
Qed.

Lemma parameter_ok {B} i (k : Z -> M cst B) P Q :
  0 <= i < NPAR -> (forall a, triple n P (k a) Q) -> triple n P (parameter i ≫= k) Q.
Proof.
  intros Hi Hk. eapply (triple_bind n _ _ _ (fun _ => P)); [|done]. intros s Hs.
  destruct (zlookup_some (par s) i) as [v Hv]; [pose proof (bo_par _ (ho_base _ _ _ Hs)); unfold zlen in *; lia|].
  unfold parameter. apply wp_bind, (wp_getsome _ _ v); [done|]. by apply wp_ret.
Qed.

Lemma csi_spaces_ok nr : keeps_cursor (csi_spaces nr n).
Proof.
  unfold csi_spaces. rewrite Hn. apply triple_console. intros t Hl Hp. apply (pre_eq _ cursor_ok); [|done].
  apply triple_if; intros _; [by apply triple_ret|]. apply triple_for_each. intros ?. apply console_putchar_ok.
Qed.

Lemma save_cur_ok : keeps_cursor (__local_save_cur n).
Proof.
  apply triple_console. intros t Hl Hp. apply (pre_eq _ cursor_ok); [|done]. destruct Hp. apply modify_ok.
  intros s []. split; [|done]. split; cbn; try done. rewrite i32_id; lia.
Qed.

Lemma restore_cur_ok : keeps_cursor (__local_restore_cur n).
Proof.
  unfold __local_restore_cur. rewrite Hn. apply gets_any. intros x.
  apply (triple_gets n _ _ _ (fun y => 0 <= y <= H)); [by intros ? []|]. intros y Hy.
  apply triple_update; [done|]. intros t Hl Hp. split; [by destruct Hl|]. unfold cursor_ok. cbn.
  rewrite (land_16 y) by lia. split; [|done]. change 65535 with (Z.ones 16). rewrite Z.land_ones by lia.
  pose proof (Z.mod_pos_bound x (2 ^ 16)). lia.
Qed.

Lemma staged (m : M cst unit) k : 0 <= k <= 4 -> keeps_cursor m -> keeps_cursor (m;; set_stage k).
Proof. intros Hk Hm. eapply triple_bind; [exact Hm|]. intros ?. by apply set_stage_ok. Qed.

Lemma csi_final_ok c : keeps_cursor (csi_final c n).
Proof.
  assert (H0 : 0 <= 0 < NPAR) by done. assert (H1 : 0 <= 1 < NPAR) by done.
  assert (Hs : forall k, 0 <= k <= 4 -> keeps_cursor (set_stage k)) by (intros; by apply set_stage_ok).
  unfold csi_final. eapply triple_bind; [by apply Hs|]. intros ?. apply triple_console. intros t Hl Hp.
  apply (pre_eq _ cursor_ok); [|done].
  do 8 (apply triple_if; intros _; [apply parameter_ok; [done|]; intros ?; by apply staged, gotoxy_ok|]).
  apply triple_if; intros _.
  { apply parameter_ok; [done|]. intros ?. apply parameter_ok; [done|]. intros ?. by apply staged, gotoxy_ok. }
  apply triple_if; intros _; [apply parameter_ok; [done|]; intros ?; by apply Hs|].
  do 2 (apply triple_if; intros _; [apply parameter_ok; [done|]; intros ?; by apply staged, csi_spaces_ok|]).
  apply triple_if; intros _; [by apply staged, clear_parameters_ok|].
  apply triple_if; intros _.
  { apply parameter_ok; [done|]. intros ?. apply parameter_ok; [done|]. intros ?. by apply Hs. }
  apply triple_if; intros _; [by apply staged, save_cur_ok|].
  apply triple_if; intros _; [by apply staged, restore_cur_ok|]. by apply triple_ret.
Qed.

Lemma csi_parameter_ok c : keeps_cursor (csi_parameter c n).
Proof.
  unfold csi_parameter. apply (triple_gets n _ _ _ (fun k => 0 <= k < NPAR)); [by intros ? []|]. intros k Hk.
  apply triple_if; intros Hb.
  { apply andb_true_iff in Hb as [_ Hb%Z.ltb_lt]. apply modify_ok. intros s []. split; [|done]. split; cbn; try done.
    unfold NPAR in *. rewrite u64_id; lia. }
  apply triple_if; intros _; [apply par_insert_ok|].
  eapply triple_bind; [by apply set_stage_ok|]. intros ?. apply csi_final_ok.
Qed.

Lemma plain_ok c e : keeps_cursor (plain c n e).
Proof.
  unfold plain, console_echo. rewrite Hn.
  repeat (apply triple_if; intros _);
    first [by apply triple_ret|apply console_outbyte2_ok|by apply set_stage_ok|apply console_putchar_ok].
Qed.

Lemma escaped_ok respond c : keeps_cursor respond -> keeps_cursor (escaped respond c n).
Proof.
  intros Hr. unfold escaped. eapply triple_bind; [by apply set_stage_ok|]. intros ?.
  repeat (apply triple_if; intros _); try first [done|by apply set_stage_ok|apply console_putchar_ok|by apply triple_ret].
  apply triple_console. intros t Hl Hp. by apply (pre_eq _ cursor_ok); [apply gotoxy_ok|].
Qed.

(** A routine, and then a result. *)
Lemma after {A} (m : M cst unit) (a : A) : keeps_cursor m -> triple n cursor_ok (m;; mret a) (fun _ => cursor_ok).
Proof. intros Hm. eapply triple_bind; [exact Hm|]. intros ?. by apply triple_ret. Qed.

Lemma console_byte_ok respond c e :
  keeps_cursor respond -> triple n cursor_ok (console_byte respond c n e) (fun _ => cursor_ok).
Proof.
  intros Hr. unfold console_byte. apply (triple_gets n _ _ _ (fun k => 0 <= k <= 4)); [by intros ? []|]. intros k Hk.
  apply triple_if; intros H0; [apply after, plain_ok|].
  apply triple_if; intros H1; [by apply after, escaped_ok|].
  apply triple_if; intros H2.
  { eapply triple_bind; [apply clear_parameters_ok|]. intros ?. eapply triple_bind; [by apply set_stage_ok|]. intros ?.
    eapply triple_bind; [keep_base|]. intros ?. apply after.
    apply triple_if; intros _; [by apply triple_ret|apply csi_parameter_ok]. }
  apply triple_if; intros H3; [apply after, csi_parameter_ok|].
  apply triple_if; intros H4; [apply after, csi_final_ok|].
  apply Z.eqb_neq in H0, H1, H2, H3, H4. lia.
Qed.

(** A text is written; [respond] is the answer to a request in it. *)
Lemma write_body_ok (respond : tty_d -> M cst unit) data :
  (forall t, keeps_cursor (respond t)) ->
  triple n cursor_ok
    (t ← console n;
     if negb (t_magic t =? 1234) then panic "console_write: tty validation" else
     set_stage 0;;
     r ← for_return data (fun c => console_byte (respond t) c n (negb (Z.land (c_lflag (termios t)) ECHO =? 0)));
     mret (default (zlen data) r)) (fun _ => cursor_ok).
Proof.
  intros Hr. apply triple_console. intros t Hl Hp. rewrite (li_magic _ Hl). change (negb (1234 =? 1234)) with false. cbn match.
  apply (pre_eq _ cursor_ok); [|done]. eapply triple_bind; [by apply set_stage_ok|]. intros ?.
  eapply triple_bind; [apply triple_for_return; intros c; by apply console_byte_ok|]. intros ?. by apply triple_ret.
Qed.

(** One byte is outside of a sequence: no answer is asked for. *)
Lemma write_one fuel c s : write_text (S fuel) n [c] s =
  (t ← console n;
   if negb (t_magic t =? 1234) then panic "console_write: tty validation" else
   set_stage 0;;
   r ← for_return [c] (fun c => console_byte (mret tt) c n (negb (Z.land (c_lflag (termios t)) ECHO =? 0)));
   mret (default (zlen [c]) r)) s.
Proof.
  cbn [write_text for_return]; unfold console. destruct (zlookup (CONSOLE_TTYS s) n) as [t|] eqn:E.
  - rewrite (bind_getsome (fun s => zlookup (CONSOLE_TTYS s) n) _ _ t E); symmetry; rewrite (bind_getsome (fun s => zlookup (CONSOLE_TTYS s) n) _ _ t E); symmetry. case_match; [done|]. reflexivity.
  - unfold console, mbind, M_bind, getsome. by rewrite E.
Qed.

Lemma write_text_ok data : triple n cursor_ok (write_text 2 n data) (fun _ => cursor_ok).
Proof.
  apply (write_body_ok (fun _ => for_each RESPONSE (fun c => _ ← write_text 1 n [c]; mret tt))). intros _.
  apply triple_for_each. intros c. apply (triple_bind n _ _ _ (fun _ => cursor_ok)); [|intros ?; by apply triple_ret].
  intros s Hs. unfold wp. rewrite write_one. apply (write_body_ok (fun _ => mret tt)); [|done]. intros _. by apply triple_ret.
Qed.

End Routines.

(** All the consoles. *)
Record screen_ok (s : cst) : Prop := {
  so_base : base_ok s;
  so_size : zlen (CONSOLE_TTYS s) = 4;
  so_all : forall n t, zlookup (CONSOLE_TTYS s) n = Some t -> limits t /\ cursor_ok t
}.

Definition safe {A} (m : M cst A) : Prop := forall s, screen_ok s -> wp m s (fun _ => screen_ok).

Lemma safe_ret {A} (a : A) : safe (mret a).
Proof. intros s Hs. by apply wp_ret. Qed.

Lemma safe_bind {A B} (m : M cst A) (k : A -> M cst B) : safe m -> (forall a, safe (k a)) -> safe (m ≫= k).
Proof. intros Hm Hk s Hs. apply wp_bind. eapply wp_mono; [by apply Hm|]. intros a s' Hs'. by apply Hk. Qed.

Lemma safe_gets {A B} (f : cst -> A) (k : A -> M cst B) : (forall a, safe (k a)) -> safe (gets f ≫= k).
Proof. intros Hk s Hs. apply wp_bind, wp_gets. by apply Hk. Qed.

Lemma safe_fg {B} (k : Z -> M cst B) : (forall n, bad_console n = false -> safe (k n)) -> safe (gets fg_console ≫= k).
Proof. intros Hk s Hs. apply wp_bind, wp_gets. apply Hk; [apply Hs|done]. Qed.

Lemma safe_gui {B} (k : Z -> M cst B) : safe (k TRUE) -> safe (gets useGui ≫= k).
Proof. intros Hk s Hs. apply wp_bind, wp_gets. rewrite (bo_gui _ (so_base _ Hs)). by apply Hk. Qed.

Lemma safe_if {A} (b : bool) (m1 m2 : M cst A) :
  (b = true -> safe m1) -> (b = false -> safe m2) -> safe (if b then m1 else m2).
Proof. destruct b; auto. Qed.

(** A routine of a console. *)
Lemma safe_triple {A} n (m : M cst A) :
  bad_console n = false -> triple n cursor_ok m (fun _ => cursor_ok) -> safe m.
Proof.
  intros Hn Hm s [Hb Hs Ha]. eapply wp_mono.
  - apply Hm. destruct (zlookup_some (CONSOLE_TTYS s) n) as [t Ht].
    { pose proof (console_index n Hn). unfold zlen in Hs. lia. }
    split; [done|done|by intros; eauto|]. exists t. destruct (Ha _ _ Ht). done.
  - intros a s' [Hb' Hs' Ho (t & Ht & Hl & Hp)]. split; [done|done|]. intros k u Hu.
    destruct (decide (k = n)) as [->|]; [by simplify_eq|by eapply Ho].
Qed.

Lemma safe_console {B} n (k : tty_d -> M cst B) :
  bad_console n = false -> (forall t, limits t -> cursor_ok t -> safe (k t)) -> safe (console n ≫= k).
Proof.
  intros Hn Hk s Hs. destruct (zlookup_some (CONSOLE_TTYS s) n) as [t Ht].
  { pose proof (console_index n Hn). pose proof (so_size _ Hs). unfold zlen in *. lia. }
  apply wp_bind, (wp_getsome _ _ t); [done|]. destruct (so_all _ Hs _ _ Ht). by apply Hk.
Qed.

Lemma safe_modify (g : cst -> cst) :
  (forall s, base_ok s -> base_ok (g s) /\ CONSOLE_TTYS (g s) = CONSOLE_TTYS s) -> safe (modify g).
Proof. intros Hg s [Hb Hs Ha]. apply wp_modify. destruct (Hg s Hb) as [? E]. split; by rewrite ?E. Qed.

Lemma safe_show d : on_screen d -> safe (show d).
Proof. intros Hd. apply safe_modify. intros s []. by split; [split; cbn; try done; constructor|]. Qed.

Lemma safe_for_each {A} (l : list A) (body : A -> M cst unit) : (forall x, safe (body x)) -> safe (for_each l body).
Proof. intros Hb. induction l; cbn [for_each]; [apply safe_ret|by apply safe_bind]. Qed.

(** The ends of the routines, and the common steps. *)
Ltac sstep :=
  lazymatch goal with
  | |- safe (mret _) => apply safe_ret
  | |- safe (show _) => by apply safe_show
  | |- safe (if _ then _ else _) => apply safe_if; intros ?
  | |- safe (gets fg_console ≫= _) => apply safe_fg; let Hfg := fresh "Hfg" in intros ? Hfg; rewrite ?Hfg
  | |- safe (gets useGui ≫= _) => apply safe_gui
  | |- safe (gets _ ≫= _) => apply safe_gets; intros ?
  | |- safe (console _ ≫= _) => apply safe_console; [done|]; intros ? ? ?
  | |- safe (for_each _ _) => apply safe_for_each; intros ?
  | |- safe (_ ≫= _) => apply safe_bind; [|intros ?]
  end.

Lemma safe_put_colors n bg fg :
  bad_console n = false -> safe (update_console n (fun t => t <| bg_color := bg |> <| fg_color := fg |>)).
Proof. intros Hn. apply (safe_triple n); [done|]. apply triple_update; [done|]. intros t Hl [? ?]. split; [by destruct Hl|by split]. Qed.

Lemma safe_cursor : safe (set_up_cursor 0 0).
Proof.
  unfold set_up_cursor. sstep. apply (safe_triple n); [done|]. apply triple_update; [done|].
  intros t Hl _. split; [by destruct Hl|]. unfold cursor_ok. cbn. lia.
Qed.

Lemma safe_gotoxy x y n : bad_console n = false -> safe (__local_gotoxy x y n).
Proof. intros Hn. apply (safe_triple n); [done|]. by apply gotoxy_ok. Qed.

Lemma safe_putchar c n : safe (console_putchar c n).
Proof.
  destruct (bad_console n) eqn:Hn; [|by apply (safe_triple n); [|apply console_putchar_ok]].
  unfold console_putchar. rewrite Hn. repeat sstep.
Qed.

Lemma safe_printk fmt ap :
  match kinguio_vsprintf fmt ap with Some text => zlen text < DATA_BUFFER_SIZE | None => False end ->
  safe (printk fmt ap).
Proof.
  unfold printk, kinguio_puts. intros Ht. sstep. sstep; [apply safe_ret|].
  destruct (kinguio_vsprintf fmt ap) as [text|]; [|done]. apply Z.leb_gt in Ht. rewrite Ht.
  repeat sstep. apply (safe_triple n); [done|]. by apply console_outbyte2_ok.
Qed.

Lemma safe_clear_imp bg fg n : safe (console_clear_imp bg fg n).
Proof.
  unfold console_clear_imp, displayInitializeBackground. repeat sstep;
    try first [by apply safe_put_colors|by apply safe_gotoxy|apply safe_cursor|done].
Qed.

Lemma safe_switch n : safe (jobcontrol_switch_console n).
Proof.
  unfold jobcontrol_switch_console, console_set_current_virtual_console, gramk_show_banner, console_banner, consolePrompt.
  repeat sstep; try first [apply safe_clear_imp|apply safe_cursor|by apply safe_printk].
  all: apply safe_modify; intros s []; by split; [split|].
Qed.

Lemma safe_scroll n d : safe (console_scroll_rect n d).
Proof.
  destruct (bad_console n) eqn:Hn; [unfold console_scroll_rect; rewrite Hn; repeat sstep; done|].
  apply (safe_triple n); [done|]. eapply triple_mono; [by apply scroll_ok|done|]. intros ? t. apply last_row_ok.
Qed.

Lemma safe_ioctl fd request arg :
  0 <= arg /\ (fd = 1 \/ bad_fd fd = true) -> safe (console_ioctl fd request arg).
Proof.
  intros [Ha [->|Hfd]]; [|unfold console_ioctl; rewrite Hfd; apply safe_ret]. unfold console_ioctl, get_fg_color, get_bg_color, get_cursor_x, get_cursor_y, console_print_indent.
  change (bad_fd 1) with false. change (negb (1 =? 1)) with false. cbn match. sstep. sstep.
  repeat (sstep || case_match);
    try first [by apply safe_printk|apply safe_clear_imp|apply safe_scroll|by apply safe_gotoxy|apply safe_putchar].
  apply safe_modify. intros s []. split; [|done]. split; try done. unfold bad_console. cbn.
  apply orb_false_iff. split; [by apply Z.ltb_ge|]. apply Z.leb_gt. by apply Z.ltb_lt.
Qed.

Lemma safe_write_text data n : bad_console n = false -> safe (write_text 2 n data).
Proof. intros Hn. apply (safe_triple n); [done|]. by apply write_text_ok. Qed.

Lemma safe_command c : command_ok c -> safe (console_command c).
Proof.
  destruct c; intros Hc; cbn [console_command]; try (apply safe_bind; [|intros ?; apply safe_ret]).
  - unfold console_write. repeat sstep; try first [by apply safe_printk|by apply safe_write_text].
    cbn in Hc. rewrite Z.leb_le in *. lia.
  - unfold console_write_string. destruct (bad_console n) eqn:Hn; [apply safe_ret|]. case_match; [apply safe_ret|].
    repeat sstep. by apply safe_write_text.
  - apply safe_putchar.
  - by apply safe_printk.
  - by apply safe_ioctl.
  - apply safe_switch.
  - unfold console_clear, console_clear00. repeat sstep. apply safe_clear_imp.
Qed.

Lemma safe_script script : Forall command_ok script -> safe (for_each script console_command).
Proof.
  intros Hs. induction Hs as [|c script Hc Hs IH]; cbn [for_each]; [apply safe_ret|].
  apply safe_bind; [by apply safe_command|done].
Qed.

(** The last steps of the initialization. *)
Lemma safe_last_steps :
  safe (jobcontrol_switch_console 0;; set_up_cursor 0 0;;
        modify (fun s => s <| stdio_terminalmode_flag := TRUE |> <| stdio_verbosemode_flag := TRUE |>);; mret 0).
Proof.
  repeat sstep; try first [apply safe_switch|apply safe_cursor].
  apply safe_modify. intros s []. by split; [split|].
Qed.

End Screen.

(** ** Initialization *)

(** The structures of the consoles after the first steps. *)
Definition first_consoles (w h : Z) : list tty_d :=
  (fun '(_, bg, fg) => console_init bg fg w h zero_tty) <$> console_colors.

Lemma first_steps w h log :
  VirtualConsole_early_initialization (blank_consoles 8 8 w h log) =
  (jobcontrol_switch_console 0;; set_up_cursor 0 0;;
   modify (fun s => s <| stdio_terminalmode_flag := TRUE |> <| stdio_verbosemode_flag := TRUE |>);; mret 0)
    ((blank_consoles 8 8 w h log) <| CONSOLE_TTYS := first_consoles w h |>).
Proof.
  unfold VirtualConsole_early_initialization.
  generalize (jobcontrol_switch_console 0;; set_up_cursor 0 0;;
    modify (fun s => s <| stdio_terminalmode_flag := TRUE |> <| stdio_verbosemode_flag := TRUE |>);; mret (M := M cst) 0).
  intros k. vm_compute. reflexivity.
Qed.

Lemma first_screen w h log :
  16 <= w < 2 ^ 19 -> 16 <= h < 2 ^ 19 ->
  screen_ok (w / 8) (h / 8) 8 8 h ((blank_consoles 8 8 w h log) <| CONSOLE_TTYS := first_consoles w h |>).
Proof.
  intros Hw Hh. split; [split; done || (cbn; Z.to_euclidean_division_equations; lia)|done|].
  intros n t Ht%zlookup_elem. unfold first_consoles in Ht. cbn -[console_init zero_tty] in Ht.
  assert (E : exists bg fg, t = console_init bg fg w h zero_tty).
  { rewrite !elem_of_cons in Ht. destruct Ht as [->|[->|[->|[->|[]%not_elem_of_nil]]]]; do 2 eexists; reflexivity. }
  destruct E as (bg & fg & ->). split; [done|]. unfold cursor_ok. cbn. Z.to_euclidean_division_equations; lia.
Qed.

Lemma wp_same {S A} (m m' : M S A) s s' Q : m s = m' s' -> wp m' s' Q -> wp m s Q.
Proof. unfold wp. by intros ->. Qed.

Lemma initialized_ok w h log :
  16 <= w < 2 ^ 19 -> 16 <= h < 2 ^ 19 ->
  wp VirtualConsole_early_initialization (blank_consoles 8 8 w h log) (fun _ => screen_ok (w / 8) (h / 8) 8 8 h).
Proof.
  intros Hw Hh. apply (wp_same _ _ _ _ _ (first_steps w h log)).
  apply (safe_last_steps (w / 8) (h / 8) 8 8 h); [..|by apply first_screen]; done || (Z.to_euclidean_division_equations; lia).
Qed.

(** The whole: the initialization and a script. *)
Lemma console_script_ok w h log script :
  16 <= w < 2 ^ 19 -> 16 <= h < 2 ^ 19 -> Forall command_ok script ->
  exists s, (VirtualConsole_early_initialization;; for_each script console_command) (blank_consoles 8 8 w h log) = Done tt s /\
    screen_ok (w / 8) (h / 8) 8 8 h s.
Proof.
  intros Hw Hh Hs. assert (HW : 1 < w / 8 < 2 ^ 16) by (Z.to_euclidean_division_equations; lia).
  assert (HH : 1 < h / 8 < 2 ^ 16) by (Z.to_euclidean_division_equations; lia). assert (H8 : 0 < 8 < 2 ^ 16) by done.
  assert (Hp : 8 <= h < 2 ^ 19) by lia.
  assert (Hrun : wp (VirtualConsole_early_initialization;; for_each script console_command) (blank_consoles 8 8 w h log)
                   (fun _ => screen_ok (w / 8) (h / 8) 8 8 h)).
  { apply wp_bind. eapply wp_mono; [by apply initialized_ok|]. intros ? s1 Hs1.
    by apply (safe_script (w / 8) (h / 8) 8 8 h). }
  apply wp_Done in Hrun as ([] & s & Hrun & Hs'). by exists s.
Qed.

(** ** Properties *)

(** [C16] After the initialization of the virtual consoles, no sequence of writes of
    programs to any of them, of characters, of [printk]s of well-formed texts of less
    than 1024 characters (the size of the buffer of [kinguio_printf]), of requests on
    the file 1 or on a descriptor out of range, of switches and of clearings is
    stopped by one of the panics of the console, by an index outside of its tables or
    by the recursion of the answer to a request, and every character that is drawn
    lies inside of the screen, whatever the bytes and the parameters of the escape
    sequences are.  (A longer text overruns the buffer, and a request on another
    descriptor panics: [printk_overruns], [ioctl_panics].) *)
Theorem console_on_screen w h log script :
  16 <= w < 2 ^ 19 -> 16 <= h < 2 ^ 19 -> Forall command_ok script ->
  exists s, (VirtualConsole_early_initialization;; for_each script console_command) (blank_consoles 8 8 w h log) = Done tt s /\
    forall x y c fg bg, DrawChar x y c fg bg ∈ display s -> 0 <= x /\ x + 8 <= w /\ 0 <= y /\ y + 8 <= h.
Proof.
  intros Hw Hh Hs. destruct (console_script_ok w h log script Hw Hh Hs) as (s & Hrun & Hs'). exists s. split; [done|].
  intros x y c fg bg Hd.
  pose proof (proj1 (Forall_forall _ _) (bo_display _ _ _ _ _ _ (so_base _ _ _ _ _ _ Hs')) _ Hd) as Hon. cbn in Hon.
  Z.to_euclidean_division_equations; lia.
Qed.

(** A program positions the cursor, moves it with a request, and the kernel prints
    on another console. *)
Lemma console_on_screen_witness :
  Forall command_ok
    [WriteString 0 ([27; 91; 57; 59; 57; 72] ++ chars "abc"); Ioctl 1 1001 79; Putchar 65 0; Switch 2; Printk (line "%d") [VaInt 2]] /\
  exists s, (VirtualConsole_early_initialization;;
             for_each [WriteString 0 ([27; 91; 57; 59; 57; 72] ++ chars "abc"); Ioctl 1 1001 79; Putchar 65 0; Switch 2; Printk (line "%d") [VaInt 2]]
               console_command) (blank_consoles 8 8 640 480 TRUE) = Done tt s /\
    forall x y c fg bg, DrawChar x y c fg bg ∈ display s -> 0 <= x /\ x + 8 <= 640 /\ 0 <= y /\ y + 8 <= 480.
Proof.
  assert (H : Forall command_ok
    [WriteString 0 ([27; 91; 57; 59; 57; 72] ++ chars "abc"); Ioctl 1 1001 79; Putchar 65 0; Switch 2; Printk (line "%d") [VaInt 2]]).
  { repeat constructor; (done || by left). }
  split; [exact H|]. apply (console_on_screen 640 480 TRUE); [done|done|exact H].
Defined.

(** ** Outside of the scripts *)

(** A longer text overruns the buffer, also when it goes to the serial port. *)
Lemma printk_overruns fmt ap text s :
  is_console_log_initialized s = TRUE -> kinguio_vsprintf fmt ap = Some text ->
  DATA_BUFFER_SIZE <= zlen text -> printk fmt ap s = Undef.
Proof.
  intros Hi Ht Hl. unfold printk. rewrite bind_gets, Hi, Ht. apply Z.leb_le in Hl.
  cbn [negb TRUE Z.eqb Pos.eqb]. by rewrite Hl.
Qed.

(** Any other descriptor stops the kernel. *)
Lemma ioctl_panics fd request arg s :
  0 <= fd < OPEN_MAX -> fd <> 1 ->
  console_ioctl fd request arg s = Panic "console_ioctl: fd != 1".
Proof. intros Hfd Hne. unfold console_ioctl, bad_fd. by do 2 zguard. Qed.

(** ** What the sequences do to a text *)

(** The position command ESC[1;1H keeps the rest of the text in the last stage: the
    letters that are themselves commands are executed, the first other one is lost. *)
Lemma text_after_command :
  shown_at_once 640 480 ([27; 91; 49; 59; 49; 72] ++ chars "Hello") = Some [(8, 16, 108); (16, 16, 111)].
Proof. vm_compute. reflexivity. Qed.

(** A parameter is its last digit: ESC[12;25H goes to column 2, line 5, and the
    first parameter is the column. *)
Lemma last_digit :
  shown_at_once 640 480 ([27; 91; 49; 50; 59; 50; 53; 72] ++ chars "xyz") =
  shown_at_once 640 480 ([27; 91; 50; 59; 53; 72] ++ chars "xyz") /\
  shown_at_once 640 480 ([27; 91; 50; 59; 53; 72] ++ chars "xyz") = Some [(16, 40, 121); (24, 40, 122)].
Proof. vm_compute. done. Qed.

(** The character that wraps is drawn at the beginning of the next line, where the
    next one is drawn over it. *)
Lemma wrapped_character :
  shown_at_once 24 24 (chars "abcd") = Some [(0, 0, 97); (8, 0, 98); (0, 8, 99); (0, 8, 100)].
Proof. vm_compute. reflexivity. Qed.

(** One byte per call never completes a sequence: the stage is reset by every call,
    and the letters of the sequence are drawn. *)
Lemma sequence_by_bytes : shown 640 480 ([27] ++ chars "[m") = Some [(0, 0, 91); (8, 0, 109)].
Proof. vm_compute. reflexivity. Qed.
