(* ===== verification/Graphics.v ===== *)
(** * Graphics: drawing in the video buffers

    [gramk/gdi/gre]: pixels, lines, rectangles, characters, strings and the points
    of the space, drawn in the back buffer, the copies of a rectangle to the frame
    buffer and the scroll of the screen; [res/dev/chardev/display/bldisp/bldisp.c]:
    the pixel with its raster operation, and the sizes of the screen.  The two
    buffers are parts of the memory of the kernel. *)
From Stdlib Require Import ZArith Lia.
From stdpp Require Import base gmap list strings.
From S2P Require Import Config Prelude Strings Memory.

#[local] Open Scope Z_scope.
#[local] Open Scope gramado_scope.

(** ** Data *)

(** The state of the graphics. *)
Record gst := mk_gst {
  gram : memory;  (** the memory of the kernel *)
  gSavedX : Z;  (** width of the device in pixels, from the boot loader: unsigned long *)
  gSavedY : Z;
  gSavedBPP : Z;  (** bits per pixel *)
  screen_width : Z;  (** the size of the screen: unsigned long *)
  screen_height : Z;
  screen_bpp : Z;
  screen_pitch : Z;
  screen_is_dirty : Z;
  refresh_screen_enabled : Z;
  screen_size_in_kb : Z;
  g_use_fake_screen_size : Z;
  fake_screen_size_in_kb : Z;
  f_initialized : Z;  (** FontInitialization.initialized *)
  f_address : Z;  (** FontInitialization.address: unsigned long *)
  f_width : Z;  (** FontInitialization.width: unsigned long *)
  f_height : Z;
  f_size : Z;  (** FontInitialization.font_size: int *)
  bg_initialized : Z;  (** background_info.initialized *)
  bg_info_color : Z;  (** background_info.bg_color *)
  paint_cnt : Z;  (** background_info.paint_cnt *)
  HotSpotX : Z;  (** the origin of the space: unsigned long *)
  HotSpotY : Z
}.

#[export] Instance gst_eta : Eta gst := fun r =>
  mk_gst (gram r) (gSavedX r) (gSavedY r) (gSavedBPP r) (screen_width r)
    (screen_height r) (screen_bpp r) (screen_pitch r) (screen_is_dirty r)
    (refresh_screen_enabled r) (screen_size_in_kb r) (g_use_fake_screen_size r)
    (fake_screen_size_in_kb r) (f_initialized r) (f_address r) (f_width r)
    (f_height r) (f_size r) (bg_initialized r) (bg_info_color r) (paint_cnt r)
    (HotSpotX r) (HotSpotY r).
#[export] Instance set_gram : Setter gram. Proof. solve_setter. Defined.
#[export] Instance set_gSavedX : Setter gSavedX. Proof. solve_setter. Defined.
#[export] Instance set_gSavedY : Setter gSavedY. Proof. solve_setter. Defined.
#[export] Instance set_gSavedBPP : Setter gSavedBPP. Proof. solve_setter. Defined.
#[export] Instance set_screen_width : Setter screen_width. Proof. solve_setter. Defined.
#[export] Instance set_screen_height : Setter screen_height. Proof. solve_setter. Defined.
#[export] Instance set_screen_bpp : Setter screen_bpp. Proof. solve_setter. Defined.
#[export] Instance set_screen_pitch : Setter screen_pitch. Proof. solve_setter. Defined.
#[export] Instance set_screen_is_dirty : Setter screen_is_dirty. Proof. solve_setter. Defined.
#[export] Instance set_refresh_screen_enabled : Setter refresh_screen_enabled. Proof. solve_setter. Defined.
#[export] Instance set_screen_size_in_kb : Setter screen_size_in_kb. Proof. solve_setter. Defined.
#[export] Instance set_g_use_fake_screen_size : Setter g_use_fake_screen_size. Proof. solve_setter. Defined.
#[export] Instance set_fake_screen_size_in_kb : Setter fake_screen_size_in_kb. Proof. solve_setter. Defined.
#[export] Instance set_f_initialized : Setter f_initialized. Proof. solve_setter. Defined.
#[export] Instance set_f_address : Setter f_address. Proof. solve_setter. Defined.
#[export] Instance set_f_width : Setter f_width. Proof. solve_setter. Defined.
#[export] Instance set_f_height : Setter f_height. Proof. solve_setter. Defined.
#[export] Instance set_f_size : Setter f_size. Proof. solve_setter. Defined.
#[export] Instance set_bg_initialized : Setter bg_initialized. Proof. solve_setter. Defined.
#[export] Instance set_bg_info_color : Setter bg_info_color. Proof. solve_setter. Defined.
#[export] Instance set_paint_cnt : Setter paint_cnt. Proof. solve_setter. Defined.
#[export] Instance set_HotSpotX : Setter HotSpotX. Proof. solve_setter. Defined.
#[export] Instance set_HotSpotY : Setter HotSpotY. Proof. solve_setter. Defined.

Definition BIOSFONT8X8 : Z := 0xFFA6E.
Definition FONT8X8 : Z := 1.
Definition FONT8X16 : Z := 2.
Definition DEFAULT_CHAR_WIDTH : Z := 8.
Definition DEFAULT_CHAR_HEIGHT : Z := 8.

Definition on_gram (g : memory -> memory) : M gst unit := modify (fun s => s <| gram := g (gram s) |>).

(** ** bldisp.c and pixel.c: a pixel *)

(** The bytes of a pixel in the buffer, of which the alpha is there at 32 bpp. *)
Record pixel := mk_pixel { blue : Z; green : Z; red : Z; alpha : Z }.

Definition bytes_per_pixel (bpp : Z) : option Z :=
  if bpp =? 32 then Some 4 else if bpp =? 24 then Some 3 else None.

Definition color_pixel (Color : Z) : pixel :=
  mk_pixel (u8 Color) (u8 (Z.shiftr Color 8)) (u8 (Z.shiftr Color 16)) (u8 (Z.shiftr Color 24 + 1)).

Definition pixel_at (n : Z) (m : memory) (where_ : Z) : pixel :=
  mk_pixel (m where_) (m (where_ + 1)) (m (where_ + 2)) (if n =? 4 then m (where_ + 3) else 0).

Definition pixel_bytes (n : Z) (p : pixel) : list Z :=
  if n =? 4 then [blue p; green p; red p; alpha p] else [blue p; green p; red p].

(** The raster operation on the new and the old pixel; the color is not
    initialized for another operation. *)
Definition rop (Operation : Z) (p q : pixel) : option pixel :=
  if Operation =? 0 then Some p else
  if Operation =? 1 then Some (mk_pixel (Z.lor (blue q) (blue p)) (Z.lor (green q) (green p)) (Z.lor (red q) (red p)) (alpha q)) else
  if Operation =? 2 then Some (mk_pixel (Z.land (blue q) (blue p)) (Z.land (green q) (green p)) (Z.land (red q) (red p)) (alpha q)) else
  if Operation =? 3 then Some (mk_pixel (Z.lxor (blue q) (blue p)) (Z.lxor (green q) (green p)) (Z.lxor (red q) (red p)) (alpha q)) else
  if Operation =? 4 then
    Some (mk_pixel (Z.land (255 - blue q) (blue p)) (Z.land (255 - green q) (green p)) (Z.land (255 - red q) (red p)) (alpha q)) else
  if Operation =? 10 then Some (mk_pixel (blue q) (green q) (Z.land (red q) 254) (alpha q)) else
  if Operation =? 11 then Some (mk_pixel (blue q) (Z.land (green q) 254) (red q) (alpha q)) else
  if Operation =? 12 then Some (mk_pixel (Z.land (blue q) 254) (green q) (red q) (alpha q)) else
  if Operation =? 20 then Some (mk_pixel (Z.land (blue q) 128) (Z.land (green q) 128) (Z.land (red q) 128) (alpha q)) else
  if Operation =? 21 then Some (mk_pixel (Z.land (blue q) 255) (Z.land (green q) 255) 0 (alpha q)) else None.

(** The position is masked to 16 bits and not compared with the screen; the offset
    is an int.  An unknown depth ends in a loop. *)
Definition bldisp_putpixel0 (color x y rop_flags buffer_va : Z) : M gst Z :=
  let x := Z.land x 65535 in
  let y := Z.land y 65535 in
  if buffer_va =? 0 then panic "putpixel0: buffer_va" else
  bpp ← gets gSavedBPP;
  match bytes_per_pixel bpp with
  | None => diverge
  | Some n =>
      sx ← gets gSavedX;
      let width := Z.land sx 65535 in
      let where_ := buffer_va + i32 (n * width * y + n * x) in
      m ← gets gram;
      match rop (Z.land rop_flags 255) (color_pixel color) (pixel_at n m where_) with
      | None => undef
      | Some p => on_gram (poke_list where_ (pixel_bytes n p));; mret 1
      end
  end.

Definition backbuffer_putpixel (color x y rop_flags : Z) : M gst Z :=
  bldisp_putpixel0 color x y rop_flags BACKBUFFER_VA.
Definition frontbuffer_putpixel (color x y rop_flags : Z) : M gst Z :=
  bldisp_putpixel0 color x y rop_flags FRONTBUFFER_VA.

(** ** line.c *)

(** Every call of the pixel routine returns 1, so that the sum of the results is
    the number of the pixels. *)
Definition draw_horizontal_line (putpixel : Z -> Z -> Z -> Z -> M gst Z) (x1 y x2 color rop_flags : Z) : M gst Z :=
  if x2 <? x1 then mret 0 else
  for_each (range x1 x2) (fun x => _ ← putpixel color x y rop_flags; mret tt);;
  mret (i32 (x2 - x1)).

Definition backbuffer_draw_horizontal_line : Z -> Z -> Z -> Z -> Z -> M gst Z := draw_horizontal_line backbuffer_putpixel.
Definition frontbuffer_draw_horizontal_line : Z -> Z -> Z -> Z -> Z -> M gst Z := draw_horizontal_line frontbuffer_putpixel.

(** ** rect.c: rectangles *)

(** The loop over the lines: the line is painted before the tests. *)
Fixpoint rectangle_lines (fuel : nat) (line : Z -> M gst Z) (Y bottom internal_height npixels : Z) : M gst Z :=
  match fuel with
  | O => diverge
  | S fuel =>
      k ← line Y;
      let npixels := i32 (npixels + k) in
      let Y := u64 (Y + 1) in
      if bottom <? Y then mret npixels else
      let internal_height := u64 (internal_height - 1) in
      if internal_height =? 0 then mret npixels else
      rectangle_lines fuel line Y bottom internal_height npixels
  end.

(** The bottom is at most 600: the loop ends within 601 lines. *)
Definition LINES_FUEL : nat := 602.

Definition __drawrectangle0 (x y width height color rop_flags back_or_front : Z) : M gst Z :=
  let X := Z.land x 65535 in
  let Y := Z.land y 65535 in
  let Width := Z.land width 65535 in
  let Height := Z.land height 65535 in
  if negb (back_or_front =? 1) && negb (back_or_front =? 2) then panic "__drawrectangle0: back_or_front" else
  deviceWidth ← gets screen_width;
  deviceHeight ← gets screen_height;
  if (deviceWidth =? 0) || (deviceHeight =? 0) then mret 0 else
  let clip_right := Z.land deviceWidth 65535 in
  let clip_bottom := Z.land deviceHeight 65535 in
  if 800 <? clip_right then panic "__drawrectangle0: width" else
  if 600 <? clip_bottom then panic "__drawrectangle0: height" else
  let right := Z.min (X + Width) clip_right in
  if 600 <? Height then panic "__drawrectangle0: internal_height" else
  if right - X =? 0 then mret 0 else
  let line := if back_or_front =? 1 then backbuffer_draw_horizontal_line else frontbuffer_draw_horizontal_line in
  rectangle_lines LINES_FUEL (fun Y => line X Y right color rop_flags) Y clip_bottom Height 0.

Definition backbuffer_draw_rectangle (x y width height color rop_flags : Z) : M gst Z :=
  __drawrectangle0 x y width height color rop_flags 1.
Definition frontbuffer_draw_rectangle (x y width height color rop_flags : Z) : M gst Z :=
  __drawrectangle0 x y width height color rop_flags 2.

(** ** rect.c: copies *)

(** A line of [pitch] bytes, in the largest units that divide it. *)
Definition copy_line (pitch dest src : Z) : memory -> memory :=
  if pitch mod 8 =? 0 then memcpy64 dest src (Z.shiftr pitch 3) else
  if pitch mod 4 =? 0 then memcpy32 dest src (Z.shiftr pitch 2) else memcpy dest src pitch.

Definition __refresh_rectangle0 (x y width height buffer_dest buffer_src : Z) : M gst unit :=
  let FirstLine := Z.land y 65535 in
  deviceWidth ← gets screen_width;
  deviceHeight ← gets screen_height;
  if (deviceWidth =? 0) || (deviceHeight =? 0) then panic "refresh_rectangle: w h" else
  let X := Z.land x 65535 in
  let Y := Z.land y 65535 in
  let hl_width := Z.land width 65535 in
  let lines := Z.land height 65535 in
  if hl_width =? 0 then mret tt else
  if lines =? 0 then mret tt else
  bpp ← gets gSavedBPP;
  match bytes_per_pixel bpp with
  | None => panic "refresh_rectangle: gSavedBPP"
  | Some n =>
      let screen_pitch := u32 (n * deviceWidth) in
      let rectangle_pitch := u32 (n * hl_width) in
      let offset := u32 (Y * screen_pitch + X * n) in
      let dest := buffer_dest + offset in
      let src := buffer_src + offset in
      if dest =? src then mret tt else
      _ ← for_return (range 0 lines) (fun i =>
        if deviceHeight <? FirstLine + i then mret (Some tt) else
        on_gram (copy_line rectangle_pitch (dest + i * screen_pitch) (src + i * screen_pitch));;
        mret None);
      mret tt
  end.

Definition refresh_rectangle (x y width height : Z) : M gst unit :=
  __refresh_rectangle0 x y width height FRONTBUFFER_VA BACKBUFFER_VA.

(** All the lines of the screen are copied from the lines that are a character
    below, those after the last line included. *)
Definition scroll_screen_rect : M gst unit :=
  deviceWidth ← gets screen_width;
  deviceHeight ← gets screen_height;
  ch ← gets f_height;
  let cHeight := i32 ch in
  if (deviceWidth =? 0) || (deviceHeight =? 0) then panic "scroll_screen_rect: [PANIC] w h" else
  let line_size := u32 deviceWidth in
  let lines := u32 deviceHeight in
  bpp ← gets gSavedBPP;
  match bytes_per_pixel bpp with
  | None => panic "scroll_screen_rect: gSavedBPP"
  | Some n =>
      sx ← gets gSavedX;
      let Src := BACKBUFFER_VA + u64 (n * sx * cHeight) in
      let size := u32 (line_size * n) in
      for_each (range 0 lines) (fun i =>
        let Dest := BACKBUFFER_VA + i * (deviceWidth * n) in
        let Src := Src + i * (deviceWidth * n) in
        on_gram (if size mod 4 =? 0 then memcpy32 Dest Src (size / 4) else memcpy Dest Src size))
  end.

(** ** char.c and text.c *)

Definition set_char_width (width : Z) : M gst unit := modify (fun s => s <| f_width := u64 (i32 width) |>).
Definition set_char_height (height : Z) : M gst unit := modify (fun s => s <| f_height := u64 (i32 height) |>).
Definition get_char_width : M gst Z := w ← gets f_width; mret (i32 w).
Definition get_char_height : M gst Z := h ← gets f_height; mret (i32 h).

(** The font that a character is drawn with; [FontSize]: the size without an
    initialized font. *)
Definition select_font (FontSize : Z) : M gst unit :=
  address ← gets f_address;
  (if address =? 0 then modify (fun s => s <| f_address := BIOSFONT8X8 |>) else mret tt);;
  width ← gets f_width;
  height ← gets f_height;
  (if (width =? 0) || (height =? 0)
   then modify (fun s => s <| f_width := DEFAULT_CHAR_WIDTH |> <| f_height := DEFAULT_CHAR_HEIGHT |>) else mret tt);;
  init ← gets f_initialized;
  size ← gets f_size;
  let FontSize := if init =? TRUE then size else FontSize in
  if FontSize =? FONT8X8 then set_char_width 8;; set_char_height 8 else
  if FontSize =? FONT8X16 then set_char_width 8;; set_char_height 16 else
  modify (fun s => s <| f_address := BIOSFONT8X8 |>);;
  set_char_width 8;;
  set_char_height 8;;
  modify (fun s => s <| f_size := FONT8X8 |>).

(** The bit of the line [a] of a character in the column [x2]. *)
Definition font_bit (m : memory) (a x2 : Z) : bool := negb (Z.land (m a) (Z.shiftr 128 x2) =? 0).

(** The lines and the columns of a character. *)
Definition each_bit (body : Z -> Z -> bool -> M gst unit) (c : Z) : M gst unit :=
  address ← gets f_address;
  height ← gets f_height;
  width ← gets f_width;
  let work_char := u64 (address + c * height) in
  for_each (range 0 height) (fun y2 =>
    for_each (range 0 width) (fun x2 =>
      m ← gets gram;
      body x2 y2 (font_bit m (work_char + y2) x2))).

Definition d_draw_char (x y c fgcolor bgcolor : Z) : M gst unit :=
  select_font FONT8X8;;
  each_bit (fun x2 y2 (bit : bool) =>
    _ ← backbuffer_putpixel (if bit then fgcolor else bgcolor) (u64 (x + x2)) (u64 (y + y2)) 0; mret tt) c.

Definition d_drawchar_transparent (x y color c : Z) : M gst unit :=
  select_font 8;;
  address ← gets f_address;
  if address =? 0 then mret tt else
  each_bit (fun x2 y2 (bit : bool) =>
    if bit then _ ← backbuffer_putpixel color (u64 (x + x2)) (u64 (y + y2)) 0; mret tt else mret tt) c.

(** The characters are signed. *)
Fixpoint draw_string_loop (fuel : nat) (x y color string cWidth : Z) : M gst unit :=
  match fuel with
  | O => diverge
  | S fuel =>
      m ← gets gram;
      if m string =? 0 then mret tt else
      d_drawchar_transparent x y color (u64 (char_at m string));;
      draw_string_loop fuel (u64 (x + cWidth)) y color (string + 1) cWidth
  end.

Definition draw_string (fuel : nat) (x y color string : Z) : M gst unit :=
  cWidth ← get_char_width;
  if cWidth =? 0 then mret tt else draw_string_loop fuel x y color string cWidth.

Definition gwsGetCurrentFontCharWidth : M gst Z := get_char_width.
Definition gwsGetCurrentFontCharHeight : M gst Z := get_char_height.
Definition fontSetCurrentAddress (address : Z) : M gst unit := modify (fun s => s <| f_address := address |>).

Definition font_initialize : M gst Z :=
  fontSetCurrentAddress BIOSFONT8X8;;
  set_char_width 8;;
  set_char_height 8;;
  modify (fun s => s <| f_address := BIOSFONT8X8 |> <| f_width := 8 |> <| f_height := 8 |>
    <| f_size := FONT8X8 |> <| f_initialized := TRUE |>);;
  mret 0.

(** ** bldisp.c: the screen *)

Definition screenSetSize (width height : Z) : M gst unit :=
  modify (fun s => s <| screen_width := width |> <| screen_height := height |>).
Definition invalidate_screen : M gst unit := modify (fun s => s <| screen_is_dirty := TRUE |>).

(** The copy of the back buffer, when the memory of the buffers is mapped; the
    vertical synchronization reads ports in bounded loops. *)
Definition __bldisp_flush_into_lfb (flags : Z) : M gst unit :=
  enabled ← gets refresh_screen_enabled;
  if negb (enabled =? TRUE) then mret tt else
  sx ← gets gSavedX;
  sy ← gets gSavedY;
  bpp ← gets gSavedBPP;
  if (sx =? 0) || (sy =? 0) || (bpp =? 0) then panic "fb_refresh_screen: display info" else
  kb ← gets screen_size_in_kb;
  fake ← gets g_use_fake_screen_size;
  fakekb ← gets fake_screen_size_in_kb;
  let TotalInBytes := i32 (u64 ((if fake =? TRUE then fakekb else kb) * 1024)) in
  if 2097152 <=? TotalInBytes then mret tt else
  refresh_rectangle 0 0 sx sy.

Definition bldisp_flush : Z -> M gst unit := __bldisp_flush_into_lfb.
Definition refresh_screen : M gst unit := bldisp_flush 0.

(** ke.c: the screen can be copied when it has less than 2048 KB. *)
Definition __check_refresh_support (deviceWidth deviceHeight bpp : Z) : M gst unit :=
  modify (fun s => s <| refresh_screen_enabled := FALSE |> <| screen_size_in_kb := 0 |>);;
  let pitch := if (bpp =? 24) || (bpp =? 32) then u64 (deviceWidth * (bpp / 8)) else 0 in
  let kb := u64 (pitch * deviceHeight) / 1024 in
  modify (fun s => s <| screen_size_in_kb := kb |>);;
  modify (fun s => s <| refresh_screen_enabled := b2z (kb <? 2048) |>).

(** The pitch of a line is taken from the height. *)
Definition screen_scanline_va (scanline : Z) : M gst Z :=
  pitch ← gets screen_height;
  if pitch =? 0 then panic "screen_scanline_va: pitch limits" else
  height ← gets screen_height;
  if height =? 0 then panic "screen_scanline_va: height limits" else
  if height <=? u64 scanline then panic "screen_scanline_va: scanline limits" else
  mret (u64 (FRONTBUFFER_VA + pitch * u64 scanline)).

(** ** bg.c *)

Definition __displayPaintBackground (color show : Z) : M gst unit :=
  deviceWidth ← gets screen_width;
  deviceHeight ← gets screen_height;
  if (deviceWidth =? 0) || (deviceHeight =? 0) then mret tt else
  _ ← backbuffer_draw_rectangle 0 0 deviceWidth deviceHeight color 0;
  (if show =? TRUE then refresh_screen else mret tt);;
  modify (fun s => s <| bg_info_color := color |>);;
  init ← gets bg_initialized;
  if init =? TRUE then modify (fun s => s <| paint_cnt := u64 (paint_cnt s + 1) |>) else mret tt.

Definition bldispScreenInit (COLOR_KERNEL_BACKGROUND : Z) : M gst unit :=
  modify (fun s => s <| screen_is_dirty := FALSE |>);;
  sx ← gets gSavedX;
  sy ← gets gSavedY;
  bpp ← gets gSavedBPP;
  screenSetSize sx sy;;
  modify (fun s => s <| screen_bpp := bpp |> <| screen_pitch := u64 (bpp / 8 * sx) |>);;
  __displayPaintBackground COLOR_KERNEL_BACKGROUND TRUE;;
  modify (fun s => s <| bg_initialized := TRUE |>).

(** ** gre.c: points and lines of the space *)

Definition gre_initialize : M gst Z :=
  deviceWidth ← gets screen_width;
  deviceHeight ← gets screen_height;
  if (deviceWidth =? 0) || (deviceHeight =? 0) then panic "__gre_initialize_globals: w h" else
  modify (fun s => s <| HotSpotX := Z.shiftr deviceWidth 1 |> <| HotSpotY := Z.shiftr deviceHeight 1 |>);;
  mret 0.

(** Where a point is drawn: the origin is in the middle of the screen, y goes up,
    z to the top and the right. *)
Definition project (hx hy z x y : Z) : Z * Z := (i32 (hx + x + z), i32 (hy - y - z)).

(** The comparison [0 <= X < gSavedX] of the code compares the truth of the first
    inequality with the width. *)
Definition grPlot0 (z x y color : Z) : M gst Z :=
  hx ← gets HotSpotX;
  hy ← gets HotSpotY;
  let '(X, Y) := project hx hy z x y in
  sx ← gets gSavedX;
  sy ← gets gSavedY;
  if (b2z (0 <=? X) <? sx) && (b2z (0 <=? Y) <? sy) then
    if X <? 0 then mret (-1) else
    if Y <? 0 then mret (-1) else
    _ ← backbuffer_putpixel color X Y 0;
    mret 0
  else mret (-1).

Definition grMAX3 (x y z : Z) : Z :=
  if y <? x then (if z <? x then x else z) else if z <? y then y else z.

(** The state of the line: the point and the three errors; one step of it. *)
Definition line_step (d s dm : Z) (ve : Z * Z) : Z * Z :=
  let '(v, e) := ve in
  let e := e - d in
  if e <? 0 then (v + s, e + dm) else (v, e).

Fixpoint line_loop (i : nat) (plot : Z -> Z -> Z -> M gst Z) (stepx stepy stepz : Z * Z -> Z * Z) (x y z : Z * Z) : M gst unit :=
  _ ← plot z.1 x.1 y.1;
  match i with
  | O => mret tt
  | S i => line_loop i plot stepx stepy stepz (stepx x) (stepy y) (stepz z)
  end.

(** Bresenham's line, with coordinates whose differences are ints. *)
Definition plotLine3d (x0 y0 z0 x1 y1 z1 color : Z) : M gst unit :=
  let dx := Z.abs (x1 - x0) in
  let dy := Z.abs (y1 - y0) in
  let dz := Z.abs (z1 - z0) in
  let sx := if x0 <? x1 then 1 else -1 in
  let sy := if y0 <? y1 then 1 else -1 in
  let sz := if z0 <? z1 then 1 else -1 in
  let dm := grMAX3 dx dy dz in
  let e := Z.shiftr dm 1 in
  line_loop (Z.to_nat dm) (fun z x y => grPlot0 z x y color)
    (line_step dx sx dm) (line_step dy sy dm) (line_step dz sz dm) (x0, e) (y0, e) (z0, e).

Definition rectangleZ (left top right bottom color z : Z) : M gst unit :=
  plotLine3d left top z right top z color;;
  plotLine3d left bottom z right bottom z color;;
  plotLine3d left top z left bottom z color;;
  plotLine3d right top z right bottom z color.

(** ** Painted memory

    A buffer of pixels of [n] bytes at [buf]: [P] gives the bytes of the pixels
    that are painted, by their number in the buffer. *)
Definition painted (n buf : Z) (P : Z -> option (list Z)) (m : memory) : memory := fun a =>
  match P ((a - buf) / n) with
  | Some px => default 0 (zlookup px ((a - buf) mod n))
  | None => m a
  end.

(** The bytes of a color: blue, green and red, the lowest ones first, and with 32
    bits per pixel the fourth one plus one. *)
Definition color_bytes (n color : Z) : list Z :=
  [color mod 256; color / 256 mod 256; color / 65536 mod 256] ++
  (if n =? 4 then [(color / 16777216 + 1) mod 256] else []).

Lemma color_bytes_pixel n color : pixel_bytes n (color_pixel color) = color_bytes n color.
Proof.
  unfold pixel_bytes, color_bytes, color_pixel, u8. cbn.
  rewrite !Z.shiftr_div_pow2 by lia. by destruct (n =? 4).
Qed.

(** A rectangle of a color, on lines of [W] pixels: the columns from [X] to before
    [R], [rows] lines from [Y]. *)
Definition rectangle (n W X R Y rows color i : Z) : option (list Z) :=
  if (X <=? i mod W) && (i mod W <? R) && (Y <=? i / W) && (i / W <? Y + rows)
  then Some (color_bytes n color) else None.

(** A character of 8 by 8 pixels, whose lines are at [font]. *)
Definition glyph (n W x y fg bg font : Z) (m : memory) (i : Z) : option (list Z) :=
  if (x <=? i mod W) && (i mod W <? x + 8) && (y <=? i / W) && (i / W <? y + 8)
  then Some (color_bytes n (if font_bit m (font + (i / W - y)) (i mod W - x) then fg else bg)) else None.

Section Video.

Context (W H n : Z) (HW : 0 < W <= 800) (HH : 0 < H <= 600) (Hn : n = 3 \/ n = 4).

(** The video mode of the boot loader, with the screen set to it. *)
Record video (s : gst) : Prop := {
  vi_x : gSavedX s = W;
  vi_y : gSavedY s = H;
  vi_bpp : gSavedBPP s = 8 * n;
  vi_width : screen_width s = W;
  vi_height : screen_height s = H
}.

(** [s'] is [s] with the pixels [P] painted. *)
Record paints (buf : Z) (P : Z -> option (list Z)) (s s' : gst) : Prop := {
  pa_state : s' = s <| gram := gram s' |>;
  pa_gram : forall a, gram s' a = painted n buf P (gram s) a
}.

Lemma video_gram s m : video s -> video (s <| gram := m |>).
Proof. by intros []. Qed.

Lemma paints_video buf P s s' : paints buf P s s' -> video s -> video s'.
Proof. intros [-> _]. apply video_gram. Qed.

Lemma paints_refl buf s : paints buf (fun _ => None) s s.
Proof. split; [by destruct s|done]. Qed.

Lemma paints_trans buf P Q s s1 s2 :
  paints buf P s s1 -> paints buf Q s1 s2 ->
  paints buf (fun i => match Q i with Some p => Some p | None => P i end) s s2.
Proof.
  intros [E1 G1] [E2 G2]. split; [rewrite E2 at 1; rewrite E1 at 1; by destruct s|].
  intros a. rewrite G2. unfold painted. destruct (Q _); [done|]. rewrite G1. done.
Qed.

Lemma paints_ext buf P Q s s' : (forall i, P i = Q i) -> paints buf P s s' -> paints buf Q s s'.
Proof. intros HPQ [E G]. split; [done|]. intros a. rewrite G. unfold painted. by rewrite HPQ. Qed.

Lemma color_pixel_bytes c : Forall (fun b => 0 <= b < 256) (color_bytes n c).
Proof. unfold color_bytes. case_match; repeat constructor; cbn; apply Z.mod_pos_bound; lia. Qed.

Lemma color_length c : zlen (color_bytes n c) = n.
Proof. unfold color_bytes. by destruct Hn as [-> | ->]. Qed.

Lemma bpp_bytes : bytes_per_pixel (8 * n) = Some n.
Proof. by destruct Hn as [-> | ->]. Qed.

(** The bytes stored at the pixel [k] paint it. *)
Lemma paints_poke buf k l s :
  zlen l = n -> Forall (fun b => 0 <= b < 256) l ->
  paints buf (fun i => if i =? k then Some l else None) s (s <| gram := poke_list (buf + n * k) l (gram s) |>).
Proof.
  intros Hl Hb. split; [done|]. intros a. unfold painted. cbn. rewrite poke_list_spec by done. rewrite Hl.
  assert (0 < n) by lia. destruct (Z.eqb_spec ((a - buf) / n) k) as [E|E].
  - assert (Hk : a - (buf + n * k) = (a - buf) mod n) by (pose proof (Z.div_mod (a - buf) n); lia).
    pose proof (Z.mod_pos_bound (a - buf) n). zguard. by rewrite Hk.
  - destruct (Z.leb_spec (buf + n * k) a), (Z.ltb_spec a (buf + n * k + n)); cbn [andb]; try done.
    exfalso. apply E. symmetry. apply (Z.div_unique _ _ _ (a - buf - n * k)); lia.
Qed.

Lemma putpixel_spec color x y buf s :
  video s -> 0 < buf -> 0 <= x < 65536 -> 0 <= y < 65536 ->
  wp (bldisp_putpixel0 color x y 0 buf) s (fun k s' =>
    k = 1 /\ paints buf (fun i => if i =? W * y + x then Some (color_bytes n color) else None) s s').
Proof.
  intros [Ex _ Eb _ _] Hb Hx Hy. unfold bldisp_putpixel0. rewrite !land_16 by lia. zguard.
  apply wp_bind, wp_gets. rewrite Eb, bpp_bytes. apply wp_bind, wp_gets. rewrite Ex, land_16 by lia.
  apply wp_bind, wp_gets. change (Z.land 0 255) with 0. cbn [rop]. change (0 =? 0) with true. cbn match.
  rewrite i32_id by nia. apply wp_bind, wp_modify, wp_ret. split; [done|].
  replace (n * W * y + n * x) with (n * (W * y + x)) by lia.
  rewrite color_bytes_pixel. apply paints_poke; [apply color_length|apply color_pixel_bytes].
Qed.

(** The part of a line from [x1] to before [x2]. *)
Definition segment (y x1 x2 color i : Z) : option (list Z) :=
  if (W * y + x1 <=? i) && (i <? W * y + x2) then Some (color_bytes n color) else None.

(** Case analysis on the tests of the painted parts. *)
Ltac cells := intros i; unfold segment; cbn beta; repeat ztest; cbn [andb]; done || lia.

Lemma line_spec buf putpixel color x1 y x2 s :
  (forall color x y rop, putpixel color x y rop = bldisp_putpixel0 color x y rop buf) ->
  video s -> 0 < buf -> 0 <= x1 < 65536 -> x2 < 65536 -> 0 <= y < 65536 ->
  wp (draw_horizontal_line putpixel x1 y x2 color 0) s (fun k s' =>
    k = Z.max 0 (x2 - x1) /\ paints buf (segment y x1 x2 color) s s').
Proof.
  intros Hp Hv Hb H1 H2 Hy. unfold draw_horizontal_line. destruct (Z.ltb_spec x2 x1).
  { apply wp_ret. split; [lia|]. eapply paints_ext; [|apply paints_refl]. cells. }
  apply wp_bind. apply (wp_for_range (fun x s' => paints buf (segment y x1 x color) s s')); [lia|..].
  - eapply paints_ext; [|apply paints_refl]. cells.
  - intros x s1 Hx Hs1. apply wp_bind. rewrite Hp. eapply wp_mono; [apply putpixel_spec; eauto using paints_video; lia|].
    intros k s2 [_ Hs2]. apply wp_ret. eapply paints_ext; [|by eapply paints_trans]. cells.
  - intros s' Hs'. apply wp_ret. rewrite i32_id by lia. split; [lia|done].
Qed.

(** A part of a line is a rectangle of one line. *)
Lemma segment_rectangle y X R color i :
  0 <= X -> R <= W -> segment y X R color i = rectangle n W X R y 1 color i.
Proof.
  intros HX HR. unfold segment, rectangle. pose proof (Z.div_mod i W). pose proof (Z.mod_pos_bound i W).
  set (q := i / W) in *. set (r := i mod W) in *.
  destruct (Z.eq_dec q y) as [->|N].
  - repeat ztest; cbn [andb]; done || lia.
  - assert (q < y \/ y < q) as [?|?] by lia.
    + assert (W * q + W <= W * y) by nia. repeat ztest; cbn [andb]; done || lia.
    + assert (W * y + W <= W * q) by nia. repeat ztest; cbn [andb]; done || lia.
Qed.

(** How many lines are painted for a height, from the line [Y]: at least one, and
    the line below the screen is one of them. *)
Definition rows (Y h : Z) : Z := Z.max 1 (Z.min (if h =? 0 then 2 ^ 64 else h) (H - Y + 1)).

Lemma rectangle_lines_spec buf putpixel X R color :
  (forall color x y rop, putpixel color x y rop = bldisp_putpixel0 color x y rop buf) -> 0 < buf ->
  0 <= X < 65536 -> R <= W -> forall fuel Y h k s,
  0 <= Y < 65536 -> 0 <= h < 2 ^ 64 -> video s -> Z.max 1 (H - Y + 1) <= Z.of_nat fuel ->
  0 <= k -> k + 800 * Z.max 1 (H - Y + 1) < 2 ^ 30 ->
  wp (rectangle_lines fuel (fun Y => draw_horizontal_line putpixel X Y R color 0) Y H h k) s (fun k' s' =>
    k' = k + rows Y h * Z.max 0 (R - X) /\ paints buf (rectangle n W X R Y (rows Y h) color) s s').
Proof.
  intros Hp Hb HX HR fuel. induction fuel as [|fuel IH]; intros Y h k s HY Hh Hv Hf Hk Hk2; [lia|].
  cbn [rectangle_lines]. apply wp_bind. eapply wp_mono; [apply (line_spec buf); eauto; lia|].
  intros l s1 [-> H1]. rewrite (u64_id (Y + 1)), (i32_id (k + _)) by lia.
  assert (P1 : paints buf (rectangle n W X R Y 1 color) s s1).
  { eapply paints_ext; [|exact H1]. intros i. apply segment_rectangle; lia. }
  destruct (Z.ltb_spec H (Y + 1)).
  { apply wp_ret. replace (rows Y h) with 1 by (unfold rows; repeat ztest; lia). split; [lia|done]. }
  destruct (Z.eqb_spec (u64 (h - 1)) 0) as [E|E].
  { assert (h = 1) as -> by (unfold u64 in E; destruct (Z.eq_dec h 0) as [->|]; [done|rewrite Z.mod_small in E; lia]).
    apply wp_ret. replace (rows Y 1) with 1 by (unfold rows; repeat ztest; lia). split; [lia|done]. }
  assert (Er : rows Y h = 1 + rows (Y + 1) (u64 (h - 1))).
  { unfold rows. destruct (Z.eq_dec h 0) as [->|]; [change (u64 (0 - 1)) with (2 ^ 64 - 1)|rewrite (u64_id (h - 1)) by lia];
      repeat ztest; try lia. rewrite (u64_id (h - 1)) in E by lia. lia. }
  eapply wp_mono; [apply IH; eauto using paints_video, u64_range; try lia; apply u64_range|].
  intros k' s2 [-> H2]. rewrite Er. split; [lia|]. eapply paints_ext; [|by eapply paints_trans].
  intros i. cbn. unfold rectangle. assert (1 <= rows (Y + 1) (u64 (h - 1))) by (unfold rows; lia).
  repeat ztest; cbn [andb]; done || lia.
Qed.

(** A rectangle of the color: [buf] is the buffer of the call. *)
Lemma drawrectangle_spec x y w h color which buf s :
  (which = 1 /\ buf = BACKBUFFER_VA \/ which = 2 /\ buf = FRONTBUFFER_VA) -> video s -> Z.land h 65535 <= 600 ->
  let X := Z.land x 65535 in let Y := Z.land y 65535 in
  let R := Z.min (X + Z.land w 65535) W in let r := if R =? X then 0 else rows Y (Z.land h 65535) in
  wp (__drawrectangle0 x y w h color 0 which) s (fun k s' =>
    k = r * Z.max 0 (R - X) /\ paints buf (rectangle n W X R Y r color) s s').
Proof.
  intros Hw Hv Hh X Y R r. pose proof Hv as [_ _ _ Ew Eh]. unfold __drawrectangle0. fold X Y.
  pose proof (land_16_range x : 0 <= X < 65536). pose proof (land_16_range y : 0 <= Y < 65536).
  pose proof (land_16_range w). pose proof (land_16_range h).
  replace (negb (which =? 1) && negb (which =? 2)) with false by (by destruct Hw as [[-> _]|[-> _]]).
  apply wp_bind, wp_gets, wp_bind, wp_gets. rewrite Ew, Eh, !land_16 by lia. zguard. fold R.
  destruct (Z.eqb_spec (R - X) 0) as [E|E].
  { apply wp_ret. assert (R = X) as -> by lia. subst r. rewrite Z.eqb_refl. split; [done|].
    eapply paints_ext; [|apply paints_refl]. intros i. unfold rectangle. repeat ztest; cbn [andb]; done || lia. }
  subst r. replace (R =? X) with false by (symmetry; apply Z.eqb_neq; lia).
  assert (Hf : Z.max 1 (H - Y + 1) <= Z.of_nat LINES_FUEL) by (change (Z.of_nat LINES_FUEL) with 602; lia).
  destruct Hw as [[-> ->]|[-> ->]]; cbn [Z.eqb Pos.eqb];
    (eapply wp_mono; [apply rectangle_lines_spec; try done; lia|]; intros k s' [-> Hs']; split; [lia|done]).
Qed.

(** ** Characters *)

(** The font of the BIOS, 8 by 8, below the buffers. *)
Record font8 (font : Z) (s : gst) : Prop := {
  fo_init : f_initialized s = TRUE;
  fo_size : f_size s = FONT8X8;
  fo_address : f_address s = font;
  fo_width : f_width s = 8;
  fo_height : f_height s = 8
}.

Lemma select_font_ok font k s : 0 < font -> font8 font s -> select_font k s = Done tt s.
Proof.
  intros Hf []. assert (Ef : (font =? 0) = false) by (apply Z.eqb_neq; lia).
  destruct s. cbn in *. subst. unfold select_font. rewrite bind_gets. cbn. rewrite Ef. reflexivity.
Qed.

Lemma font_gram font s m : font8 font s -> font8 font (s <| gram := m |>).
Proof. by intros []. Qed.

Lemma paints_font buf P s s' font : paints buf P s s' -> font8 font s -> font8 font s'.
Proof. intros [-> _]. apply font_gram. Qed.

(** A byte below the buffer is not painted. *)
Lemma paints_below buf P s s' a :
  paints buf P s s' -> (forall i, i < 0 -> P i = None) -> a < buf -> gram s' a = gram s a.
Proof.
  intros [_ G] HP Ha. rewrite G. unfold painted. rewrite HP; [done|]. apply Z.div_lt_upper_bound; lia.
Qed.

Lemma font_bit_ext m m' a x : m a = m' a -> font_bit m a x = font_bit m' a x.
Proof. unfold font_bit. by intros ->. Qed.

(** The part of a character that is drawn after [j] lines, and [k] pixels of the
    next one. *)
Definition glyph_part (x y fg bg font j k : Z) (m : memory) (i : Z) : option (list Z) :=
  if (x <=? i mod W) && (i mod W <? x + 8) && (y <=? i / W) &&
     ((i / W <? y + j) || ((i / W =? y + j) && (i mod W <? x + k)))
  then Some (color_bytes n (if font_bit m (font + (i / W - y)) (i mod W - x) then fg else bg)) else None.

Lemma glyph_part_below x y fg bg font j k m i : 0 <= y -> i < 0 -> glyph_part x y fg bg font j k m i = None.
Proof.
  intros Hy Hi. unfold glyph_part. assert (i / W < 0) by (apply Z.div_lt_upper_bound; lia).
  destruct (Z.leb_spec y (i / W)); [lia|]. by rewrite andb_false_r.
Qed.

Lemma pixel_cell x y i : 0 <= x < W -> (i =? W * y + x) = (i / W =? y) && (i mod W =? x).
Proof.
  intros Hx. pose proof (Z.div_mod i W). pose proof (Z.mod_pos_bound i W).
  destruct (Z.eqb_spec i (W * y + x)) as [->|N].
  - replace (W * y + x) with (x + y * W) by lia. rewrite Z.div_add, Z.mod_add, Z.div_small, Z.mod_small by lia.
    by rewrite Z.add_0_l, !Z.eqb_refl.
  - destruct (Z.eqb_spec (i / W) y), (Z.eqb_spec (i mod W) x); cbn [andb]; try done. exfalso. apply N. nia.
Qed.

(** One pixel more. *)
Lemma glyph_step x y fg bg font j k m m1 i :
  0 <= x -> x + 8 <= W -> 0 <= j < 8 -> 0 <= k < 8 -> m1 (font + j) = m (font + j) ->
  (if i =? W * (y + j) + (x + k)
   then Some (color_bytes n (if font_bit m1 (font + j) k then fg else bg)) else glyph_part x y fg bg font j k m i) =
  glyph_part x y fg bg font j (k + 1) m i.
Proof.
  intros Hx Hx8 Hj Hk Hm. rewrite pixel_cell by lia. unfold glyph_part.
  destruct (Z.eqb_spec (i / W) (y + j)) as [->|], (Z.eqb_spec (i mod W) (x + k)) as [->|]; cbn [andb].
  - rewrite (font_bit_ext m1 m) by done. zguard. by replace (y + j - y) with j by lia; replace (x + k - x) with k by lia.
  - repeat ztest; cbn [andb orb]; done || lia.
  - repeat ztest; cbn [andb orb]; done || lia.
  - repeat ztest; cbn [andb orb]; done || lia.
Qed.

Lemma draw_char_spec x y c fg bg font s :
  video s -> font8 font s -> 0 < font -> 0 <= c < 256 -> font + 2048 <= BACKBUFFER_VA ->
  0 <= x -> x + 8 <= W -> 0 <= y -> y + 8 <= 65536 ->
  wp (d_draw_char x y c fg bg) s (fun _ s' =>
    paints BACKBUFFER_VA (glyph n W x y fg bg (font + 8 * c) (gram s)) s s').
Proof.
  intros Hv Hf Hfont Hc Hlow Hx Hx8 Hy Hy8. unfold d_draw_char. apply wp_bind.
  eapply wp_eq; [by eapply select_font_ok|]. unfold each_bit.
  do 3 apply wp_bind, wp_gets. rewrite (fo_address _ _ Hf), (fo_height _ _ Hf), (fo_width _ _ Hf).
  assert (HB : BACKBUFFER_VA < 2 ^ 63) by done. rewrite (u64_id (font + c * 8)) by lia. replace (font + c * 8) with (font + 8 * c) by lia.
  set (base := font + 8 * c). assert (Hbase : base + 8 <= BACKBUFFER_VA) by lia.
  set (part := fun j k => glyph_part x y fg bg base j k (gram s)).
  apply (wp_for_range (fun j s' => paints BACKBUFFER_VA (part j 0) s s')); [lia|..].
  - eapply paints_ext; [|apply paints_refl]. intros i. unfold part, glyph_part. repeat ztest; cbn [andb orb]; done || lia.
  - intros j s1 Hj H1.
    apply (wp_for_range (fun k s' => paints BACKBUFFER_VA (part j k) s s')); [lia|done|..].
    + intros k s2 Hk H2. apply wp_bind, wp_gets, wp_bind. rewrite !u64_id by lia.
      eapply wp_mono; [apply putpixel_spec; [by eapply paints_video|done|lia|lia]|].
      intros r s3 [_ H3]. apply wp_ret. eapply paints_ext; [|by eapply paints_trans]. intros i. unfold part. cbn beta.
      rewrite <- (glyph_step x y fg bg base j k (gram s) (gram s2)) by (lia || (eapply paints_below; [exact H2|intros; by apply glyph_part_below|lia])).
      by destruct (i =? _).
    + intros s2 H2. eapply paints_ext; [|exact H2]. intros i. unfold part, glyph_part. repeat ztest; cbn [andb orb]; done || lia.
  - intros s' Hs'. eapply paints_ext; [|exact Hs']. intros i. unfold part, glyph_part, glyph. repeat ztest; cbn [andb orb]; done || lia.
Qed.

(** ** Copies *)

Lemma bytes_copy_units w k dst src m : bytes m -> bytes (copy_units w k dst src m).
Proof.
  revert dst src m. induction k as [|k IH]; intros dst src m Hm; cbn [copy_units]; [done|].
  apply IH. intros x. case_match; apply Hm.
Qed.

Lemma copy_units_spec w k dst src m x :
  (0 < w)%nat -> dst <= src \/ src + Z.of_nat w * Z.of_nat k <= dst ->
  copy_units w k dst src m x =
    if (dst <=? x) && (x <? dst + Z.of_nat w * Z.of_nat k) then m (src + (x - dst)) else m x.
Proof.
  intros Hw. revert dst src m. induction k as [|k IH]; intros dst src m Hd; cbn [copy_units].
  - repeat ztest; cbn [andb]; done || lia.
  - rewrite IH by lia. repeat ztest; cbn [andb]; try done; try lia; f_equal; lia.
Qed.

Lemma bytes_copy_line pitch dest src m : bytes m -> bytes (copy_line pitch dest src m).
Proof.
  intros Hm. unfold copy_line, memcpy64, memcpy32, memcpy. repeat case_match; try by apply bytes_copy_units.
  generalize (Z.to_nat (u64 pitch)). intros k. revert dest src m Hm.
  induction k as [|k IH]; intros dest src m Hm; cbn [copy_up]; [done|]. apply IH. by apply bytes_poke.
Qed.

(** A line, whatever the units are. *)
Lemma copy_line_spec pitch dest src m x :
  bytes m -> 0 <= pitch < 2 ^ 32 -> dest <= src \/ src + pitch <= dest ->
  copy_line pitch dest src m x = if (dest <=? x) && (x <? dest + pitch) then m (src + (x - dest)) else m x.
Proof.
  intros Hm Hp Hd. unfold copy_line, memcpy64, memcpy32. rewrite !Z.shiftr_div_pow2 by lia.
  change (2 ^ 3) with 8. change (2 ^ 2) with 4.
  destruct (Z.eqb_spec (pitch mod 8) 0) as [E|E]; [|destruct (Z.eqb_spec (pitch mod 4) 0) as [E4|E4]].
  - assert (Hq : 0 <= pitch / 8 < 2 ^ 64) by (Z.to_euclidean_division_equations; lia).
    assert (H8 : Z.of_nat 8 * Z.of_nat (Z.to_nat (u64 (pitch / 8))) = pitch).
    { rewrite u64_id, Z2Nat.id by lia. change (Z.of_nat 8) with 8. Z.to_euclidean_division_equations. lia. }
    rewrite copy_units_spec by lia. by rewrite H8.
  - assert (Hq : 0 <= pitch / 4 < 2 ^ 64) by (Z.to_euclidean_division_equations; lia).
    assert (H8 : Z.of_nat 4 * Z.of_nat (Z.to_nat (u64 (pitch / 4))) = pitch).
    { rewrite u64_id, Z2Nat.id by lia. change (Z.of_nat 4) with 4. Z.to_euclidean_division_equations. lia. }
    rewrite copy_units_spec by lia. by rewrite H8.
  - unfold memcpy. rewrite u64_id by lia. rewrite copy_up_spec by (done || lia). by rewrite Z2Nat.id by lia.
Qed.

Lemma wp_for_return_range {S R} (I : Z -> S -> Prop) a b (body : Z -> M S (option R)) s (Q : option R -> S -> Prop) :
  a <= b -> I a s ->
  (forall i s, a <= i < b -> I i s ->
     wp (body i) s (fun o s' => match o with None => I (i + 1) s' | Some r => Q (Some r) s' end)) ->
  (forall s', I b s' -> Q None s') ->
  wp (for_return (range a b) body) s Q.
Proof.
  intros Hab H0 Hstep HQ. remember (Z.to_nat (b - a)) as k eqn:Hk.
  revert a s Hab H0 Hstep Hk. induction k as [|k IH]; intros a s Hab H0 Hstep Hk.
  - rewrite range_nil by lia. apply wp_ret, HQ. by replace b with a by lia.
  - rewrite range_cons by lia. cbn [for_return]. apply wp_bind. eapply wp_mono; [apply Hstep; [lia|done]|].
    intros [r|] s' Hs'; [by apply wp_ret|]. apply (IH (a + 1)); [lia|done| |lia]. intros i s1 Hi. apply Hstep. lia.
Qed.

(** The rectangle of [w] columns from [X], [r] lines from [Y], copied to the frame
    buffer. *)
Definition copied (X w Y r : Z) (m : memory) : memory := fun a =>
  let o := a - FRONTBUFFER_VA in
  if (Y <=? o / (n * W)) && (o / (n * W) <? Y + r) && (n * X <=? o mod (n * W)) && (o mod (n * W) <? n * (X + w))
  then m (BACKBUFFER_VA + o) else m a.

(** A byte is in a line of the rectangle. *)
Lemma line_cell X w i o : 0 <= X -> 0 <= w -> X + w <= W ->
  (n * W * i + n * X <=? o) && (o <? n * W * i + n * X + n * w) =
  (o / (n * W) =? i) && (n * X <=? o mod (n * W)) && (o mod (n * W) <? n * (X + w)).
Proof.
  intros HX Hw HXw. assert (HnW : 0 < n * W) by nia. pose proof (Z.div_mod o (n * W)). pose proof (Z.mod_pos_bound o (n * W)).
  set (q := o / (n * W)) in *. set (r := o mod (n * W)) in *. assert (n * (X + w) <= n * W) by nia.
  destruct (Z.eqb_spec q i) as [->|N]; cbn [andb].
  - repeat ztest; cbn [andb]; done || nia.
  - assert (q < i \/ i < q) as [?|?] by lia.
    + assert (n * W * q + n * W <= n * W * i) by nia. repeat ztest; cbn [andb]; done || nia.
    + assert (n * W * i + n * W <= n * W * q) by nia. repeat ztest; cbn [andb]; done || nia.
Qed.

(** How many lines of a rectangle are copied: the line below the screen is. *)
Definition copied_rows (Y h : Z) : Z := Z.max 0 (Z.min h (H + 1 - Y)).

Lemma copied_step X w Y i m m1 dest :
  0 <= X -> 0 < w -> X + w <= W -> 0 <= Y -> 0 <= i -> Y + i <= H -> bytes m1 ->
  (forall a, m1 a = copied X w Y i m a) -> dest = FRONTBUFFER_VA + n * W * (Y + i) + n * X ->
  forall a, copy_line (n * w) dest (dest + (BACKBUFFER_VA - FRONTBUFFER_VA)) m1 a = copied X w Y (i + 1) m a.
Proof.
  intros HX Hw HXw HY Hi HYi Hb Hm1 -> a. assert (Hnw : 0 < n * w <= n * W) by nia.
  assert (n * W * (Y + i + 1) <= 2000000) by nia. assert (0 <= n * W * (Y + i)) by nia. assert (0 <= n * X) by nia.
  rewrite copy_line_spec by (done || (unfold FRONTBUFFER_VA, BACKBUFFER_VA; lia)).
  pose proof (line_cell X w (Y + i) (a - FRONTBUFFER_VA) HX ltac:(lia) HXw) as Hcell.
  set (o := a - FRONTBUFFER_VA) in *. set (base := n * W * (Y + i) + n * X) in *.
  replace (_ <=? a) with (base <=? o) by (destruct (Z.leb_spec base o), (Z.leb_spec (FRONTBUFFER_VA + n * W * (Y + i) + n * X) a); lia).
  replace (a <? _) with (o <? base + n * w)
    by (destruct (Z.ltb_spec o (base + n * w)), (Z.ltb_spec a (FRONTBUFFER_VA + n * W * (Y + i) + n * X + n * w)); lia).
  rewrite Hcell. unfold copied. fold o. destruct (Z.eqb_spec (o / (n * W)) (Y + i)) as [E|E]; cbn [andb].
  - rewrite E. replace (Y <=? Y + i) with true by (symmetry; apply Z.leb_le; lia).
    replace (Y + i <? Y + (i + 1)) with true by (symmetry; apply Z.ltb_lt; lia). cbn [andb].
    destruct (Z.leb_spec (n * X) (o mod (n * W))), (Z.ltb_spec (o mod (n * W)) (n * (X + w))); cbn [andb].
    1: { rewrite Hm1. unfold copied. fold o.
         replace (FRONTBUFFER_VA + n * W * (Y + i) + n * X + (BACKBUFFER_VA - FRONTBUFFER_VA) +
                  (a - (FRONTBUFFER_VA + n * W * (Y + i) + n * X))) with (BACKBUFFER_VA + o) by (unfold o; lia).
         assert (Ho : n * W * (Y + i) <= o) by (pose proof (Z.div_mod o (n * W)); pose proof (Z.mod_pos_bound o (n * W)); nia).
         set (o2 := BACKBUFFER_VA + o - FRONTBUFFER_VA).
         assert (n * W * (Y + i) <= o2) by (unfold o2, BACKBUFFER_VA, FRONTBUFFER_VA; lia).
         assert (Y + i <= o2 / (n * W)) by (apply Z.div_le_lower_bound; lia).
         destruct (Z.ltb_spec (o2 / (n * W)) (Y + i)); [lia|]. by rewrite andb_false_r. }
    all: rewrite Hm1; unfold copied; fold o; rewrite E; destruct (Z.ltb_spec (Y + i) (Y + i)); [lia|]; by rewrite andb_false_r.
  - rewrite Hm1. unfold copied. fold o. repeat ztest; cbn [andb]; done || lia.
Qed.

(** The state of the graphics is [s] but for the memory [m]. *)
Record moved (m : memory) (s s' : gst) : Prop := {
  mo_state : s' = s <| gram := gram s' |>;
  mo_bytes : bytes (gram s');
  mo_gram : forall a, gram s' a = m a
}.

Lemma moved_video m s s' : moved m s s' -> video s -> video s'.
Proof. intros [-> _ _]. apply video_gram. Qed.

Lemma moved_refl s : bytes (gram s) -> moved (gram s) s s.
Proof. split; [by destruct s|done|done]. Qed.

Lemma moved_step m m' s s1 :
  moved m s s1 -> bytes m' -> moved m' s (s1 <| gram := m' |>).
Proof. intros [E _ _] Hb. split; [|done|done]. cbn. rewrite E. by destruct s. Qed.

Lemma moved_ext m m' s s' : (forall a, m a = m' a) -> moved m s s' -> moved m' s s'.
Proof. intros E [? ? G]. split; [done|done|]. intros a. by rewrite G. Qed.

(** The frame buffer is below the back buffer. *)
Lemma copied_0 X w Y m a : copied X w Y 0 m a = m a.
Proof. unfold copied. repeat ztest; cbn [andb]; done || lia. Qed.

Lemma refresh_rectangle_spec x y w h s :
  video s -> bytes (gram s) ->
  let X := Z.land x 65535 in let Y := Z.land y 65535 in let w' := Z.land w 65535 in
  X + w' <= W -> let r := if w' =? 0 then 0 else copied_rows Y (Z.land h 65535) in
  wp (refresh_rectangle x y w h) s (fun _ s' => moved (copied X w' Y r (gram s)) s s').
Proof.
  intros Hv Hb X Y w' Hw r. pose proof (land_16_range x : 0 <= X < 65536). pose proof (land_16_range y : 0 <= Y < 65536).
  pose proof (land_16_range w : 0 <= w' < 65536). pose proof (land_16_range h). pose proof Hv as [_ _ Eb Ew Eh].
  unfold refresh_rectangle, __refresh_rectangle0. apply wp_bind, wp_gets, wp_bind, wp_gets. rewrite Ew, Eh. zguard.
  fold X Y w'. set (h' := Z.land h 65535) in *. unfold r, copied_rows.
  destruct (Z.eqb_spec w' 0) as [E|E]; [by apply wp_ret, (moved_ext (gram s)), moved_refl; [intros; by rewrite copied_0|]|].
  destruct (Z.eqb_spec h' 0) as [E'|E'].
  { apply wp_ret, (moved_ext (gram s)), moved_refl; [|done]. intros a. rewrite E'. replace (Z.max 0 _) with 0 by lia. by rewrite copied_0. }
  apply wp_bind, wp_gets. rewrite Eb, bpp_bytes. rewrite !(Z.mul_comm _ n).
  rewrite (u32_id (n * W)), (u32_id (n * w')), (u32_id (_ + _)) by nia. set (off := Y * (n * W) + n * X).
  destruct (Z.eqb_spec (FRONTBUFFER_VA + off) (BACKBUFFER_VA + off)) as [E2|_]; [unfold FRONTBUFFER_VA, BACKBUFFER_VA in E2; lia|].
  apply wp_bind. apply (wp_for_return_range (fun i s' => Y + i <= H + 1 /\ moved (copied X w' Y i (gram s)) s s' \/ i = 0 /\ s' = s)).
  - lia.
  - by right.
  - intros i s1 Hi M0. destruct (Z.ltb_spec H (Y + i)) as [Hl|Hl].
    { apply wp_ret. apply wp_ret. destruct M0 as [[HY M1]|[-> ->]].
      - replace (Z.max 0 _) with i by lia. done.
      - replace (Z.max 0 _) with 0 by lia. apply (moved_ext (gram s)), moved_refl; [intros; by rewrite copied_0|done]. }
    assert (M1 : moved (copied X w' Y i (gram s)) s s1).
    { destruct M0 as [[_ ?]|[-> ->]]; [done|]. apply (moved_ext (gram s)), moved_refl; [intros; by rewrite copied_0|done]. }
    apply wp_bind, wp_modify, wp_ret. left. split; [lia|].
    eapply moved_ext; [|apply (moved_step _ _ _ _ M1), bytes_copy_line, M1]. intros a.
    replace (BACKBUFFER_VA + off + i * (n * W)) with (FRONTBUFFER_VA + off + i * (n * W) + (BACKBUFFER_VA - FRONTBUFFER_VA)) by lia.
    apply copied_step; try apply M1; try done; lia.
  - intros s' M0. apply wp_ret. destruct M0 as [[HY M1]|[E3 ->]]; [|lia]. by replace (Z.max 0 _) with h' by lia.
Qed.

(** The back buffer moved up by a character of 8 lines, for the first [r] lines. *)
Definition scrolled (r : Z) (m : memory) : memory := fun a =>
  let o := a - BACKBUFFER_VA in
  if (0 <=? o / (n * W)) && (o / (n * W) <? r) then m (a + n * W * 8) else m a.

Lemma scrolled_step i m m1 dest size :
  0 <= i < H -> bytes m1 -> (forall a, m1 a = scrolled i m a) -> dest = BACKBUFFER_VA + i * (n * W) -> size = n * W ->
  forall a, (if size mod 4 =? 0 then memcpy32 dest (dest + n * W * 8) (size / 4) else memcpy dest (dest + n * W * 8) size) m1 a =
  scrolled (i + 1) m a.
Proof.
  intros Hi Hb Hm1 -> -> a. assert (HnW : 0 < n * W <= 3200) by nia. set (dest := BACKBUFFER_VA + i * (n * W)).
  assert (E : (if n * W mod 4 =? 0 then memcpy32 dest (dest + n * W * 8) (n * W / 4) else memcpy dest (dest + n * W * 8) (n * W)) m1 a =
    if (dest <=? a) && (a <? dest + n * W) then m1 (dest + n * W * 8 + (a - dest)) else m1 a).
  { destruct (Z.eqb_spec (n * W mod 4) 0).
    - unfold memcpy32. assert (Hq : 0 <= n * W / 4 < 2 ^ 64) by (Z.to_euclidean_division_equations; lia).
      assert (H8 : Z.of_nat 4 * Z.of_nat (Z.to_nat (u64 (n * W / 4))) = n * W).
      { rewrite u64_id, Z2Nat.id by lia. change (Z.of_nat 4) with 4. Z.to_euclidean_division_equations. lia. }
      rewrite copy_units_spec by lia. by rewrite H8.
    - by rewrite memcpy_spec by (done || lia). }
  rewrite E. unfold scrolled at 1. set (o := a - BACKBUFFER_VA).
  assert (Hrow : (dest <=? a) && (a <? dest + n * W) = (o / (n * W) =? i)).
  { pose proof (Z.div_mod o (n * W)). pose proof (Z.mod_pos_bound o (n * W)). unfold dest. set (q := o / (n * W)) in *.
    destruct (Z.eqb_spec q i) as [->|N]; [repeat ztest; cbn [andb]; done || lia|]. assert (q < i \/ i < q) as [?|?] by lia.
    - assert (n * W * q + n * W <= n * W * i) by nia. repeat ztest; cbn [andb]; done || lia.
    - assert (n * W * i + n * W <= n * W * q) by nia. repeat ztest; cbn [andb]; done || lia. }
  rewrite Hrow. destruct (Z.eqb_spec (o / (n * W)) i) as [Eo|No].
  - rewrite Eo. zguard. replace (dest + n * W * 8 + (a - dest)) with (a + n * W * 8) by lia.
    rewrite Hm1. unfold scrolled. replace (a + n * W * 8 - BACKBUFFER_VA) with (o + 8 * (n * W)) by (unfold o; lia).
    rewrite Z.div_add, Eo by lia. repeat ztest; cbn [andb]; done || lia.
  - rewrite Hm1. unfold scrolled. fold o. repeat ztest; cbn [andb]; done || lia.
Qed.

Lemma scroll_spec s :
  video s -> bytes (gram s) -> f_height s = 8 ->
  wp scroll_screen_rect s (fun _ s' => moved (scrolled H (gram s)) s s').
Proof.
  intros Hv Hb Hch. pose proof Hv as [Ex _ Eb Ew Eh]. unfold scroll_screen_rect.
  do 3 apply wp_bind, wp_gets. rewrite Ew, Eh, Hch. zguard. apply wp_bind, wp_gets. rewrite Eb, bpp_bytes.
  apply wp_bind, wp_gets. rewrite Ex, (u32_id W), (u32_id H), (u32_id (W * n)) by nia. change (i32 8) with 8. rewrite u64_id by nia. rewrite (Z.mul_comm W n).
  apply (wp_for_range (fun i s' => moved (scrolled i (gram s)) s s')); [lia|..].
  - apply (moved_ext (gram s)), moved_refl; [|done]. intros a. unfold scrolled. repeat ztest; cbn [andb]; done || lia.
  - intros i s1 Hi H1. apply wp_modify. eapply moved_ext; [|apply (moved_step _ _ _ _ H1)].
    + intros a. replace (BACKBUFFER_VA + n * W * 8 + i * (n * W)) with (BACKBUFFER_VA + i * (n * W) + n * W * 8) by lia.
      apply scrolled_step; [done|apply H1|apply H1|done|done].
    + case_match; [by apply bytes_copy_units, H1|]. pose proof (mo_bytes _ _ _ H1) as Hb1. unfold memcpy. revert Hb1.
      generalize (Z.to_nat (u64 (n * W))) (BACKBUFFER_VA + i * (n * W)) (BACKBUFFER_VA + n * W * 8 + i * (n * W)) (gram s1).
      intros k. induction k as [|k IH]; intros d q mm Hmm; cbn [copy_up]; [done|]. apply IH. by apply bytes_poke.
  - done.
Qed.

End Video.

(** ** Exclusive or *)

Lemma rop_xor p q : rop 3 p q =
  Some (mk_pixel (Z.lxor (blue q) (blue p)) (Z.lxor (green q) (green p)) (Z.lxor (red q) (red p)) (alpha q)).
Proof. done. Qed.

Lemma lxor_byte a b : 0 <= a < 256 -> 0 <= b < 256 -> 0 <= Z.lxor a b < 256.
Proof.
  intros Ha Hb. assert (H0 : 0 <= Z.lxor a b) by (apply Z.lxor_nonneg; lia). split; [done|].
  destruct (Z.eq_dec (Z.lxor a b) 0) as [->|]; [lia|]. apply (Z.log2_lt_pow2 _ 8); [lia|].
  assert (Hl : forall v, 0 <= v < 256 -> Z.log2 v < 8).
  { intros v Hv. destruct (Z.eq_dec v 0) as [->|]; [done|]. apply (Z.log2_lt_pow2 v 8); lia. }
  pose proof (Z.log2_lxor a b ltac:(lia) ltac:(lia)). pose proof (Hl a Ha). pose proof (Hl b Hb). lia.
Qed.

(** The bytes of the pixel that an exclusive or stores. *)
Definition xor_bytes (n color : Z) (m : memory) (where_ : Z) : list Z :=
  let p := color_pixel color in
  let l := [Z.lxor (m where_) (blue p); Z.lxor (m (where_ + 1)) (green p); Z.lxor (m (where_ + 2)) (red p)] in
  if n =? 4 then l ++ [m (where_ + 3)] else l.

Lemma putpixel_xor n color x y buf s :
  bytes_per_pixel (gSavedBPP s) = Some n -> buf <> 0 ->
  let where_ := buf + i32 (n * Z.land (gSavedX s) 65535 * Z.land y 65535 + n * Z.land x 65535) in
  bldisp_putpixel0 color x y 3 buf s = Done 1 (s <| gram := poke_list where_ (xor_bytes n color (gram s) where_) (gram s) |>).
Proof.
  intros Hn Hb where_. unfold bldisp_putpixel0. rewrite (proj2 (Z.eqb_neq _ _) Hb).
  rewrite bind_gets, Hn, bind_gets, bind_gets. fold where_. change (Z.land 3 255) with 3. rewrite rop_xor. cbn match. unfold on_gram. rewrite bind_modify.
  unfold xor_bytes, pixel_bytes, pixel_at. by destruct (n =? 4).
Qed.

Lemma xor_bytes_ok n color m a :
  n = 3 \/ n = 4 -> bytes m -> Forall (fun b => 0 <= b < 256) (xor_bytes n color m a) /\ zlen (xor_bytes n color m a) = n.
Proof.
  intros Hn Hm. assert (Hx : forall v k, 0 <= Z.lxor (m k) (u8 v) < 256).
  { intros v k. apply lxor_byte; [apply Hm|unfold u8; apply Z.mod_pos_bound; lia]. }
  destruct Hn as [-> | ->]; (split; [repeat constructor; try apply Hx; apply Hm|done]).
Qed.

Lemma xor_nth n color m a :
  n = 3 \/ n = 4 ->
  default 0 (zlookup (xor_bytes n color m a) 0) = Z.lxor (m a) (u8 color) /\
  default 0 (zlookup (xor_bytes n color m a) 1) = Z.lxor (m (a + 1)) (u8 (Z.shiftr color 8)) /\
  default 0 (zlookup (xor_bytes n color m a) 2) = Z.lxor (m (a + 2)) (u8 (Z.shiftr color 16)).
Proof. by intros [-> | ->]. Qed.

(** Twice the exclusive or gives the first bytes. *)
Lemma xor_twice n color m a :
  n = 3 \/ n = 4 -> bytes m ->
  let m1 := poke_list a (xor_bytes n color m a) m in
  forall x, poke_list a (xor_bytes n color m1 a) m1 x = m x.
Proof.
  intros Hn Hm m1 x. destruct (xor_bytes_ok n color m a Hn Hm) as [F1 L1].
  assert (Hm1 : bytes m1) by (by apply bytes_poke_list).
  destruct (xor_bytes_ok n color m1 a Hn Hm1) as [F2 L2].
  assert (Hat : forall k, 0 <= k < n -> m1 (a + k) = default 0 (zlookup (xor_bytes n color m a) k)).
  { intros k Hk. unfold m1. rewrite poke_list_spec, L1 by done. zguard. by replace (a + k - a) with k by lia. }
  rewrite poke_list_spec, L2 by done. destruct (Z.leb_spec a x), (Z.ltb_spec x (a + n)); cbn [andb];
    [|unfold m1; rewrite poke_list_spec, L1 by done; repeat ztest; cbn [andb]; done || lia..].
  replace x with (a + (x - a)) at 2 by lia. set (k := x - a). assert (Hk : 0 <= k < n) by lia. clearbody k.
  pose proof (Hat 0 ltac:(lia)) as A0. pose proof (Hat 1 ltac:(lia)) as A1. pose proof (Hat 2 ltac:(lia)) as A2.
  rewrite Z.add_0_r in A0. pose proof (fun E => Hat 3 (conj (Zle_bool_imp_le 0 3 eq_refl) E)) as A3. clearbody m1.
  assert (k = 0 \/ k = 1 \/ k = 2 \/ k = 3 /\ n = 4) as [-> | [-> | [-> | [-> E4]]]] by lia.
  4: { subst n. by apply A3. }
  all: destruct (xor_nth n color m a Hn) as (B0 & B1 & B2), (xor_nth n color m1 a Hn) as (C0 & C1 & C2).
  - by rewrite C0, A0, B0, Z.lxor_assoc, Z.lxor_nilpotent, Z.lxor_0_r, Z.add_0_r.
  - by rewrite C1, A1, B1, Z.lxor_assoc, Z.lxor_nilpotent, Z.lxor_0_r.
  - by rewrite C2, A2, B2, Z.lxor_assoc, Z.lxor_nilpotent, Z.lxor_0_r.
Qed.

(** ** Lines of the space *)

Lemma line_loop_each i plot (stepx stepy stepz : Z * Z -> Z * Z) x y z a s :
  let it step v k := Nat.iter (Z.to_nat k) step v in
  0 <= a ->
  line_loop i plot stepx stepy stepz (it stepx x a) (it stepy y a) (it stepz z a) s =
  for_each (range a (a + Z.of_nat i + 1))
    (fun k => _ ← plot (it stepz z k).1 (it stepx x k).1 (it stepy y k).1; mret tt) s.
Proof.
  intros it. revert a s. induction i as [|i IH]; intros a s Ha; rewrite range_cons by lia; cbn [line_loop for_each];
    rewrite bind_bind; unfold mbind, M_bind; destruct (plot _ _ _ s) as [| | | |] eqn:E; try done.
  - rewrite range_nil by lia. done.
  - cbn. assert (Hs : forall step v, step (it step v a) = it step v (a + 1)).
    { intros step v. unfold it. by replace (Z.to_nat (a + 1)) with (S (Z.to_nat a)) by lia. }
    rewrite !Hs. rewrite (IH (a + 1)) by lia. by replace (a + 1 + Z.of_nat i + 1) with (a + Z.of_nat (S i) + 1) by lia.
Qed.

(** The coordinate [v] of the point [k] is within half a unit of the segment from
    [v0] to [v1] that has [dm] steps. *)
Definition near (dm k v0 v1 v : Z) : Prop := 2 * Z.abs (dm * (v - v0) - k * (v1 - v0)) <= dm.

Lemma line_steps v0 v1 dm k :
  let d := Z.abs (v1 - v0) in let s := if v0 <? v1 then 1 else -1 in
  d <= dm -> 0 < dm ->
  let p := Nat.iter k (line_step d s dm) (v0, Z.shiftr dm 1) in
  exists c, p.1 = v0 + s * c /\ p.2 = dm / 2 - Z.of_nat k * d + dm * c /\ 0 <= p.2 < dm.
Proof.
  intros d s Hd Hdm p. subst p. rewrite Z.shiftr_div_pow2 by lia. change (2 ^ 1) with 2.
  induction k as [|k (c & E1 & E2 & E3)].
  - exists 0. cbn. split; [lia|]. split; [lia|]. Z.to_euclidean_division_equations. lia.
  - rewrite Nat.iter_succ. destruct (Nat.iter k _ _) as [v e]. cbn in E1, E2, E3.
    assert (0 <= d) by lia. clearbody s d. rewrite Nat2Z.inj_succ. unfold line_step. destruct (Z.ltb_spec (e - d) 0).
    + exists (c + 1). cbn [fst snd]. split; [lia|]. split; [lia|]. cbn in E3. lia.
    + exists c. cbn [fst snd]. split; [lia|]. split; [lia|]. lia.
Qed.

Lemma line_near v0 v1 dm k :
  let d := Z.abs (v1 - v0) in let s := if v0 <? v1 then 1 else -1 in
  d <= dm -> 0 <= k <= dm ->
  near dm k v0 v1 (Nat.iter (Z.to_nat k) (line_step d s dm) (v0, Z.shiftr dm 1)).1.
Proof.
  intros d s Hd Hk. unfold near. destruct (Z.eq_dec dm 0) as [->|Hdm].
  { assert (k = 0) as -> by lia. cbn. lia. }
  destruct (line_steps v0 v1 dm (Z.to_nat k) Hd ltac:(lia)) as (c & E1 & E2 & E3). fold d s in E1, E2, E3.
  rewrite E1. rewrite Z2Nat.id in E2 by lia. set (e := (Nat.iter _ _ _).2) in *. clearbody e.
  assert (Es : v1 - v0 = s * d) by (unfold s, d; destruct (Z.ltb_spec v0 v1); lia).
  rewrite Es. replace (dm * (v0 + s * c - v0) - k * (s * d)) with (s * (dm * c - k * d)) by lia.
  rewrite Z.abs_mul. replace (Z.abs s) with 1 by (unfold s; destruct (Z.ltb_spec v0 v1); lia).
  replace (dm * c - k * d) with (e - dm / 2) by lia. Z.to_euclidean_division_equations. lia.
Qed.

Lemma near_end dm v0 v1 v : 0 <= dm -> Z.abs (v1 - v0) <= dm -> near dm dm v0 v1 v -> 0 < dm -> v = v1.
Proof.
  unfold near. intros H0 Hd Hn Hdm. replace (dm * (v - v0) - dm * (v1 - v0)) with (dm * (v - v1)) in Hn by lia.
  rewrite Z.abs_mul, (Z.abs_eq dm) in Hn by lia. nia.
Qed.

Lemma grMAX3_max x y z : grMAX3 x y z = Z.max x (Z.max y z).
Proof. unfold grMAX3. repeat ztest; lia. Qed.

(** ** Properties *)

(** [C20] On a screen of at most 800 by 600 pixels of 24 or 32 bits, a rectangle of
    any position and width and of a height of at most 600, drawn without a raster
    operation, is filled exactly: in the buffer of the call the pixels of its
    columns, cut at the right of the screen, take the bytes of the color
    ([color_bytes]), and no other byte of the memory changes; the result is their
    number.  Vertically the cut is one line too late ([rows]): the line below the
    screen is painted, and a rectangle that begins lower, or that has no height,
    still paints at least one line. *)
Theorem rectangle_painted W H n s x y w h color which buf :
  0 < W <= 800 -> 0 < H <= 600 -> n = 3 \/ n = 4 -> video W H n s ->
  which = 1 /\ buf = BACKBUFFER_VA \/ which = 2 /\ buf = FRONTBUFFER_VA -> Z.land h 65535 <= 600 ->
  let X := Z.land x 65535 in let Y := Z.land y 65535 in
  let R := Z.min (X + Z.land w 65535) W in let r := if R =? X then 0 else rows H Y (Z.land h 65535) in
  exists m, __drawrectangle0 x y w h color 0 which s = Done (r * Z.max 0 (R - X)) (s <| gram := m |>) /\
    forall a, m a = painted n buf (rectangle n W X R Y r color) (gram s) a.
Proof.
  intros HW HH Hn Hv Hb Hh X Y R r.
  pose proof (drawrectangle_spec W H n HW HH Hn x y w h color which buf s Hb Hv Hh) as Hr. cbv zeta in Hr.
  apply wp_Done in Hr as (k & s' & E & -> & Hs & Hg). exists (gram s'). split; [by rewrite E, <- Hs|exact Hg].
Qed.

(** Bresenham's line in the space: it is drawn as the points 0, 1, ..., dm, where
    dm is the largest difference of the coordinates; the last one is the second end,
    and each coordinate of the point k is within half a unit of the exact one. *)
Theorem line3d_near x0 y0 z0 x1 y1 z1 color s :
  let dm := Z.max (Z.abs (x1 - x0)) (Z.max (Z.abs (y1 - y0)) (Z.abs (z1 - z0))) in
  exists px py pz : Z -> Z,
    plotLine3d x0 y0 z0 x1 y1 z1 color s =
      for_each (range 0 (dm + 1)) (fun k => _ ← grPlot0 (pz k) (px k) (py k) color; mret tt) s /\
    px 0 = x0 /\ py 0 = y0 /\ pz 0 = z0 /\ px dm = x1 /\ py dm = y1 /\ pz dm = z1 /\
    forall k, 0 <= k <= dm -> near dm k x0 x1 (px k) /\ near dm k y0 y1 (py k) /\ near dm k z0 z1 (pz k).
Proof.
  intros dm. set (point := fun v0 v1 k => (Nat.iter (Z.to_nat k)
    (line_step (Z.abs (v1 - v0)) (if v0 <? v1 then 1 else -1) dm) (v0, Z.shiftr dm 1)).1).
  assert (Hdm : 0 <= dm) by lia.
  assert (Hnear : forall v0 v1 k, Z.abs (v1 - v0) <= dm -> 0 <= k <= dm -> near dm k v0 v1 (point v0 v1 k)).
  { intros v0 v1 k. apply line_near. }
  assert (Hend : forall v0 v1, Z.abs (v1 - v0) <= dm -> point v0 v1 dm = v1).
  { intros v0 v1 Hd. destruct (Z.eq_dec dm 0) as [E|]; [|apply (near_end dm v0); [done|done|by apply Hnear|lia]].
    rewrite E. change (v0 = v1). lia. }
  exists (point x0 x1), (point y0 y1), (point z0 z1). split.
  - unfold plotLine3d. rewrite grMAX3_max. fold dm.
    pose proof (line_loop_each (Z.to_nat dm) (fun z x y => grPlot0 z x y color)
      (line_step (Z.abs (x1 - x0)) (if x0 <? x1 then 1 else -1) dm) (line_step (Z.abs (y1 - y0)) (if y0 <? y1 then 1 else -1) dm)
      (line_step (Z.abs (z1 - z0)) (if z0 <? z1 then 1 else -1) dm)
      (x0, Z.shiftr dm 1) (y0, Z.shiftr dm 1) (z0, Z.shiftr dm 1) 0 s ltac:(lia)) as E.
    rewrite Z2Nat.id, Z.add_0_l in E by lia. exact E.
  - repeat split; try (by apply Hend; lia); apply Hnear; lia.
Qed.

(** The raster operation "exclusive or" drawn twice restores the memory, at
    any position and depth: what a moving pointer relies on. *)
Theorem xor_restores n s color x y buf :
  bytes_per_pixel (gSavedBPP s) = Some n -> buf <> 0 -> bytes (gram s) ->
  exists m, (_ ← bldisp_putpixel0 color x y 3 buf; bldisp_putpixel0 color x y 3 buf) s = Done 1 (s <| gram := m |>) /\
    forall a, m a = gram s a.
Proof.
  intros Hn Hb Hm. assert (Hn34 : n = 3 \/ n = 4) by (revert Hn; unfold bytes_per_pixel; repeat case_match; intros; simplify_eq; auto).
  erewrite bind_Done by (by eapply putpixel_xor). erewrite (putpixel_xor n) by done. eexists. split; [reflexivity|].
  intros a. cbn. by apply (xor_twice n).
Qed.

(** A character of the BIOS font is drawn bit by bit: the 64 pixels at its
    position take the foreground or the background color as the bits of its 8 bytes
    say, and no other byte of the memory changes. *)
Theorem character_painted W H n s x y c fg bg font :
  0 < W <= 800 -> 0 < H <= 600 -> n = 3 \/ n = 4 -> video W H n s -> font8 font s ->
  0 < font -> font + 2048 <= BACKBUFFER_VA -> 0 <= c < 256 -> 0 <= x -> x + 8 <= W -> 0 <= y -> y + 8 <= 65536 ->
  exists m, d_draw_char x y c fg bg s = Done tt (s <| gram := m |>) /\
    forall a, m a = painted n BACKBUFFER_VA (glyph n W x y fg bg (font + 8 * c) (gram s)) (gram s) a.
Proof.
  intros HW HH Hn Hv Hf Hfont Hlow Hc Hx Hx8 Hy Hy8.
  pose proof (draw_char_spec W H n HW Hn x y c fg bg font s Hv Hf Hfont Hc Hlow Hx Hx8 Hy Hy8) as Hr.
  apply wp_Done in Hr as ([] & s' & E & Hs & Hg). exists (gram s'). split; [by rewrite E, <- Hs|exact Hg].
Qed.

(** A refresh copies the rectangle of the back buffer to the frame buffer, its
    columns being on the screen, and changes nothing else; as for a rectangle, the
    line below the screen is copied too. *)
Theorem refresh_copies W H n s x y w h :
  0 < W <= 800 -> 0 < H <= 600 -> n = 3 \/ n = 4 -> video W H n s -> bytes (gram s) ->
  let X := Z.land x 65535 in let Y := Z.land y 65535 in let w' := Z.land w 65535 in
  X + w' <= W -> let r := if w' =? 0 then 0 else copied_rows H Y (Z.land h 65535) in
  exists m, refresh_rectangle x y w h s = Done tt (s <| gram := m |>) /\
    forall a, m a = copied W n X w' Y r (gram s) a.
Proof.
  intros HW HH Hn Hv Hb X Y w' Hw r.
  pose proof (refresh_rectangle_spec W H n HW HH Hn x y w h s Hv Hb Hw) as Hr. cbv zeta in Hr.
  apply wp_Done in Hr as ([] & s' & E & [Hs _ Hg]). exists (gram s'). split; [by rewrite E, <- Hs|exact Hg].
Qed.

(** ** Witnesses *)

(** A screen of 16 by 16 pixels, with the font of the BIOS. *)
Definition small_screen : gst :=
  mk_gst (fun _ => 0) 16 16 32 16 16 32 64 FALSE TRUE 1 FALSE 0 TRUE BIOSFONT8X8 8 8 FONT8X8 FALSE 0 0 8 8.

Lemma small_video : video 16 16 4 small_screen.
Proof. done. Qed.

Lemma small_bytes : bytes (gram small_screen).
Proof. intros a. done. Qed.

Lemma rectangle_painted_witness :
  exists m, __drawrectangle0 10 14 100 5 0xFF8040 0 1 small_screen = Done (3 * 6) (small_screen <| gram := m |>) /\
    forall a, m a = painted 4 BACKBUFFER_VA (rectangle 4 16 10 16 14 3 0xFF8040) (gram small_screen) a.
Proof.
  destruct (rectangle_painted 16 16 4 small_screen 10 14 100 5 0xFF8040 1 BACKBUFFER_VA) as (m & E & G);
    [lia|lia|by right|exact small_video|by left|done|]. exists m. split; [exact E|exact G].
Defined.

Lemma xor_restores_witness :
  exists m, (_ ← bldisp_putpixel0 0xFFFFFF 3 4 3 BACKBUFFER_VA; bldisp_putpixel0 0xFFFFFF 3 4 3 BACKBUFFER_VA) small_screen =
    Done 1 (small_screen <| gram := m |>) /\ forall a, m a = gram small_screen a.
Proof. apply (xor_restores 4); [done|done|exact small_bytes]. Defined.

Lemma character_painted_witness :
  exists m, d_draw_char 8 0 65 0xFFFFFF 0 small_screen = Done tt (small_screen <| gram := m |>) /\
    forall a, m a = painted 4 BACKBUFFER_VA (glyph 4 16 8 0 0xFFFFFF 0 (BIOSFONT8X8 + 8 * 65) (gram small_screen)) (gram small_screen) a.
Proof. apply (character_painted 16 16); [lia|lia|by right|exact small_video|done|done|done|lia|lia|lia|lia|lia]. Defined.

Lemma refresh_copies_witness :
  exists m, refresh_rectangle 4 12 8 8 small_screen = Done tt (small_screen <| gram := m |>) /\
    forall a, m a = copied 16 4 4 8 12 5 (gram small_screen) a.
Proof.
  destruct (refresh_copies 16 16 4 small_screen 4 12 8 8) as (m & E & G);
    [lia|lia|by right|exact small_video|exact small_bytes|done|]. exists m. split; [exact E|exact G].
Defined.

(** A line of ten points. *)
Lemma line_example :
  (fun k => (Nat.iter k (line_step 3 1 9) (0, 4)).1) <$> seq 0 10 = [0; 0; 1; 1; 1; 2; 2; 2; 3; 3].
Proof. reflexivity. Qed.
