(* ===== verification/Display.v ===== *)
(** * Display: the consoles on the video buffers

    What the consoles ask of the display (Console) is drawn by the graphics of the
    kernel (Graphics) in the memory: the composition of the two. *)
From Stdlib Require Import ZArith Lia.
From stdpp Require Import base gmap list strings.
From S2P Require Import Config Prelude Strings Memory Graphics Console.

#[local] Open Scope Z_scope.
#[local] Open Scope gramado_scope.

(** ** A call of the console on the display

    The background is painted without the refresh, which the console records as a
    call of its own. *)
Definition paint (d : draw) : M gst unit :=
  match d with
  | DrawChar x y c fg bg => d_draw_char x y (u64 c) fg bg
  | ScrollScreen => scroll_screen_rect
  | DrawRectangle x y w h color => _ ← backbuffer_draw_rectangle x y w h color 0; mret tt
  | RefreshRectangle x y w h => refresh_rectangle x y w h
  | RefreshScreen => refresh_screen
  | PaintBackground color => __displayPaintBackground color FALSE
  end.

Section Frame.

Context (W H n font : Z) (HW : 0 < W <= 800) (HH : 0 < H <= 600) (Hn : n = 3 \/ n = 4) (Hfont : 0 < font).

(** The end of the part of the back buffer that the screen uses. *)
Definition video_end : Z := BACKBUFFER_VA + n * W * H.

(** The graphics are ready, and outside of the buffers the memory is that of [g]. *)
Record inside (g s : gst) : Prop := {
  in_video : video W H n s;
  in_font : font8 font s;
  in_bytes : bytes (gram s);
  in_frame : forall a, a < FRONTBUFFER_VA \/ video_end <= a -> gram s a = gram g a
}.

Lemma inside_gram g s m :
  inside g s -> bytes m -> (forall a, a < FRONTBUFFER_VA \/ video_end <= a -> m a = gram s a) ->
  inside g (s <| gram := m |>).
Proof.
  intros [Hv Hf Hb Hi] Hm Ha. split; [by apply video_gram|by apply font_gram|done|].
  intros a Hout. cbn. by rewrite Ha, Hi.
Qed.

(** Pixels of the screen. *)
Lemma inside_paints g s s' P :
  inside g s -> paints n BACKBUFFER_VA P s s' ->
  (forall i, match P i with Some px => zlen px = n /\ Forall (fun b => 0 <= b < 256) px /\ 0 <= i < W * H | None => True end) ->
  inside g s'.
Proof.
  intros Hs [-> Hg] HP. cbn in Hg. revert Hg. generalize (gram s'). intros m Hg.
  apply inside_gram; [done|..].
  - intros a. rewrite Hg. unfold painted. specialize (HP ((a - BACKBUFFER_VA) / n)). destruct (P _) as [px|]; [|apply Hs].
    destruct HP as (Hl & Hb & _). destruct (zlookup px _) as [b|] eqn:E; [|cbn; lia].
    by apply (proj1 (Forall_forall _ _) Hb), (zlookup_elem px ((a - BACKBUFFER_VA) mod n)).
  - intros a Hout. rewrite Hg. unfold painted. specialize (HP ((a - BACKBUFFER_VA) / n)). destruct (P _) as [px|]; [|done].
    destruct HP as (_ & _ & Hi). exfalso. assert (0 < n) by lia. pose proof (Z.div_mod (a - BACKBUFFER_VA) n).
    pose proof (Z.mod_pos_bound (a - BACKBUFFER_VA) n). unfold video_end, FRONTBUFFER_VA, BACKBUFFER_VA in *. nia.
Qed.

Lemma color_ok c : zlen (color_bytes n c) = n /\ Forall (fun b => 0 <= b < 256) (color_bytes n c).
Proof. split; [by eapply color_length|apply color_pixel_bytes]. Qed.

(** A cell of the screen, by its column and its line. *)
Lemma cell_range i : 0 <= i / W -> i / W < H -> 0 <= i < W * H.
Proof. intros H1 H2. pose proof (Z.div_mod i W). pose proof (Z.mod_pos_bound i W). nia. Qed.

Lemma inside_rectangle g s x y w h color :
  inside g s -> 0 <= y -> 0 < h -> y + h <= H -> Z.land h 65535 = h -> Z.land y 65535 = y ->
  wp (backbuffer_draw_rectangle x y w h color 0) s (fun _ s' => inside g s').
Proof.
  intros Hs Hy Hh Hyh Eh Ey. pose proof (drawrectangle_spec W H n HW HH Hn x y w h color 1 BACKBUFFER_VA s) as Hr.
  cbv zeta in Hr. rewrite Eh, Ey in Hr. eapply wp_mono; [apply Hr; [by left|apply Hs|lia]|].
  intros k s' [_ Hp]. eapply inside_paints; [done|exact Hp|]. intros i. unfold rectangle. destruct (_ && _) eqn:E; [|done].
  destruct (color_ok color) as [Hl Hb]. split; [done|]. split; [done|].
  rewrite !andb_true_iff, !Z.leb_le, !Z.ltb_lt in E. destruct E as [[[_ _] E1] E2]. apply cell_range; [lia|].
  revert E2. unfold rows. case_match; [lia|]. destruct (Z.eqb_spec h 0); lia.
Qed.

(** The copies of a rectangle. *)
Lemma inside_copy g s pitch dest src :
  inside g s -> 0 <= pitch < 2 ^ 32 -> dest <= src -> FRONTBUFFER_VA <= dest -> dest + pitch <= video_end ->
  inside g (s <| gram := copy_line pitch dest src (gram s) |>).
Proof.
  intros Hs Hp Hd Hlow Hhigh. apply inside_gram; [done|apply bytes_copy_line, Hs|]. intros a Ha.
  rewrite copy_line_spec by (done || apply Hs || lia). repeat ztest; cbn [andb]; done || lia.
Qed.

(** Any refresh: the columns beyond the screen are still below the end of the back
    buffer. *)
Lemma inside_refresh g s x y w h : inside g s -> wp (refresh_rectangle x y w h) s (fun _ s' => inside g s').
Proof.
  intros Hs. pose proof (in_video _ _ Hs) as [_ _ Eb Ew Eh]. unfold refresh_rectangle, __refresh_rectangle0.
  pose proof (land_16_range x). pose proof (land_16_range y). pose proof (land_16_range w). pose proof (land_16_range h).
  set (X := Z.land x 65535) in *. set (Y := Z.land y 65535) in *. set (w' := Z.land w 65535) in *. set (h' := Z.land h 65535) in *.
  apply wp_bind, wp_gets, wp_bind, wp_gets. rewrite Ew, Eh. zguard.
  destruct (Z.eqb_spec w' 0); [by apply wp_ret|]. destruct (Z.eqb_spec h' 0); [by apply wp_ret|].
  apply wp_bind, wp_gets. rewrite Eb, (bpp_bytes n Hn).
  rewrite (u32_id (n * W)), (u32_id (n * w')), (u32_id (_ + _)) by nia. set (off := Y * (n * W) + X * n).
  destruct (Z.eqb_spec (FRONTBUFFER_VA + off) (BACKBUFFER_VA + off)) as [E2|_]; [by apply wp_ret|].
  apply wp_bind. apply (wp_for_return_range (fun _ s' => inside g s')); [lia|done| |by intros; apply wp_ret].
  intros i s1 Hi H1'. destruct (Z.ltb_spec H (Y + i)); [by apply wp_ret, wp_ret|]. apply wp_bind, wp_modify, wp_ret.
  assert (Y * (n * W) + i * (n * W) <= H * (n * W)) by nia. assert (0 <= i * (n * W)) by nia. assert (0 <= Y * (n * W)) by nia.
  apply inside_copy; [done|nia|unfold FRONTBUFFER_VA, BACKBUFFER_VA; lia|unfold off; nia|].
  unfold off, video_end, FRONTBUFFER_VA, BACKBUFFER_VA. nia.
Qed.

Lemma inside_refresh_screen g s : inside g s -> wp refresh_screen s (fun _ s' => inside g s').
Proof.
  intros Hs. pose proof (in_video _ _ Hs) as [Ex Ey Eb _ _]. unfold refresh_screen, bldisp_flush, __bldisp_flush_into_lfb.
  apply wp_bind, wp_gets. case_match; [by apply wp_ret|]. do 3 apply wp_bind, wp_gets. rewrite Ex, Ey, Eb. zguard.
  do 3 apply wp_bind, wp_gets. case_match; [by apply wp_ret|]. by apply inside_refresh.
Qed.

Lemma inside_scroll g s : inside g s -> wp scroll_screen_rect s (fun _ s' => inside g s').
Proof.
  intros Hs. eapply wp_mono; [apply (scroll_spec W H n HW HH Hn); [apply Hs|apply Hs|eapply fo_height, Hs]|].
  intros _ s' [E Hb Hg]. rewrite E. apply inside_gram; [done|exact Hb|]. intros a Ha. rewrite Hg. unfold scrolled.
  assert (0 < n * W) by nia. pose proof (Z.div_mod (a - BACKBUFFER_VA) (n * W)). pose proof (Z.mod_pos_bound (a - BACKBUFFER_VA) (n * W)).
  destruct (Z.leb_spec 0 ((a - BACKBUFFER_VA) / (n * W))), (Z.ltb_spec ((a - BACKBUFFER_VA) / (n * W)) H); cbn [andb]; try done.
  exfalso. unfold video_end, FRONTBUFFER_VA, BACKBUFFER_VA in *. nia.
Qed.

(** A character at a position of the screen, whatever its number is. *)
Lemma inside_char g s x y c fg bg :
  inside g s -> 0 <= x -> x + 8 <= W -> 0 <= y -> y + 8 <= H ->
  wp (d_draw_char x y c fg bg) s (fun _ s' => inside g s').
Proof.
  intros Hs Hx Hx8 Hy Hy8. unfold d_draw_char. apply wp_bind.
  eapply wp_eq; [eapply select_font_ok; [done|apply Hs]|]. unfold each_bit.
  do 3 apply wp_bind, wp_gets. rewrite (fo_height _ _ (in_font _ _ Hs)), (fo_width _ _ (in_font _ _ Hs)).
  apply (wp_for_range (fun _ s' => inside g s')); [lia|done| |done]. intros j s1 Hj H1'.
  apply (wp_for_range (fun _ s' => inside g s')); [lia|done| |done]. intros k s2 Hk H2'.
  apply wp_bind, wp_gets, wp_bind. rewrite (u64_id (x + k)), (u64_id (y + j)) by lia.
  eapply wp_mono; [apply (putpixel_spec W H n HW Hn); [apply H2'|done|lia|lia]|].
  intros r s3 [_ H3]. apply wp_ret. eapply inside_paints; [exact H2'|exact H3|]. intros i. cbn beta.
  destruct (Z.eqb_spec i (W * (y + j) + (x + k))) as [->|]; [|done].
  match goal with |- context [color_bytes n ?c] => destruct (color_ok c) as [Hl Hb] end.
  split; [exact Hl|]. split; [exact Hb|]. nia.
Qed.

(** A call of a console on the display. *)
Lemma inside_paint g s d :
  inside g s -> on_screen (W / 8) (H / 8) 8 8 H d -> wp (paint d) s (fun _ s' => inside g s').
Proof.
  intros Hs Hd. destruct d as [x y c fg bg| |x y w h color|x y w h| |color]; cbn [paint on_screen] in *.
  - apply inside_char; [done|..]; Z.to_euclidean_division_equations; lia.
  - by apply inside_scroll.
  - apply wp_bind. eapply wp_mono; [apply inside_rectangle; rewrite ?land_16 by lia; done || lia|]. intros ? s' Hs'. by apply wp_ret.
  - by apply inside_refresh.
  - by apply inside_refresh_screen.
  - unfold __displayPaintBackground. do 2 apply wp_bind, wp_gets.
    rewrite (vi_width _ _ _ _ (in_video _ _ Hs)), (vi_height _ _ _ _ (in_video _ _ Hs)). zguard. apply wp_bind.
    eapply wp_mono; [apply inside_rectangle; rewrite ?land_16 by lia; done || lia|]. intros ? s' Hs'.
    apply wp_bind, wp_ret, wp_bind, wp_modify, wp_bind, wp_gets.
    assert (Hi : forall s2, s2 = s' <| bg_info_color := color |> -> inside g s2).
    { intros s2 ->. destruct Hs' as [[] [] ? ?]. by split; [split|split|..]. }
    case_match; [|by apply wp_ret, Hi]. apply wp_modify. specialize (Hi _ eq_refl). destruct Hi as [[] [] ? ?]. by split; [split|split|..].
Qed.

Lemma inside_display g l s :
  inside g s -> Forall (on_screen (W / 8) (H / 8) 8 8 H) l -> wp (for_each l paint) s (fun _ s' => inside g s').
Proof.
  intros Hs Hl. revert s Hs. induction Hl as [|d l Hd Hl IH]; intros s Hs; cbn [for_each]; [by apply wp_ret|].
  apply wp_bind. eapply wp_mono; [by apply inside_paint|]. intros ? s' Hs'. by apply IH.
Qed.

End Frame.

(** ** Property *)

(** [C17] The consoles and the graphics together, on a screen of 16 by 16 to 800 by
    600 pixels of 24 or 32 bits, with a font of 8 by 8: after the initialization, for
    every script that [Console.command_ok] admits, everything that the consoles ask
    the display for is drawn without a panic, and no byte of the memory changes
    outside of the frame buffer and of the part of the back buffer that the screen
    uses. *)
Theorem console_stays_in_video w h n log script g font :
  16 <= w <= 800 -> 16 <= h <= 600 -> n = 3 \/ n = 4 -> Forall command_ok script ->
  video w h n g -> font8 font g -> 0 < font -> bytes (gram g) ->
  exists s g', (VirtualConsole_early_initialization;; for_each script console_command) (blank_consoles 8 8 w h log) = Done tt s /\
    for_each (reverse (display s)) paint g = Done tt g' /\
    forall a, a < FRONTBUFFER_VA \/ BACKBUFFER_VA + n * w * h <= a -> gram g' a = gram g a.
Proof.
  intros Hw Hh Hn Hs Hv Hf Hfont Hb.
  destruct (console_script_ok w h log script ltac:(lia) ltac:(lia) Hs) as (s & Hrun & Hok).
  assert (Hin : inside w h n font g g) by done.
  assert (Hd : Forall (on_screen (w / 8) (h / 8) 8 8 h) (reverse (display s))).
  { rewrite Forall_forall. intros d Hd. rewrite elem_of_reverse in Hd.
    apply (proj1 (Forall_forall _ _) (bo_display _ _ _ _ _ _ (so_base _ _ _ _ _ _ Hok)) d Hd). }
  pose proof (inside_display w h n font ltac:(lia) ltac:(lia) Hn Hfont g _ g Hin Hd) as Hp.
  apply wp_Done in Hp as ([] & g' & E & Hg'). exists s, g'. split; [done|]. split; [exact E|]. apply Hg'.
Qed.

Lemma console_stays_in_video_witness :
  Forall command_ok [WriteString 0 (chars "text"); Printk (line "panic") []; Switch 1] /\
  exists s g', (VirtualConsole_early_initialization;;
                for_each [WriteString 0 (chars "text"); Printk (line "panic") []; Switch 1] console_command) (blank_consoles 8 8 16 16 TRUE) = Done tt s /\
    for_each (reverse (display s)) paint small_screen = Done tt g' /\
    forall a, a < FRONTBUFFER_VA \/ BACKBUFFER_VA + 4 * 16 * 16 <= a -> gram g' a = gram small_screen a.
Proof.
  assert (H : Forall command_ok [WriteString 0 (chars "text"); Printk (line "panic") []; Switch 1]) by (repeat constructor; done).
  split; [exact H|].
  apply (console_stays_in_video 16 16 4 TRUE _ small_screen BIOSFONT8X8); [lia|lia|by right|exact H|exact small_video|done|done|exact small_bytes].
Defined.
